(* ===== verification/_CoqProject ===== *)
-Q . S2P
Prelude.v
ListQ.v
SsvString.v
Reorder.v
Dev.v
ApList.v
Timer.v
MsgEvt.v
CmdEngine.v
RxPath.v
HciAggr.v
TxQueue.v
TxTask.v
Regulatory.v
Pbuf.v
Words.v
Wire.v
Ie80211.v
WpaIe.v
RsnRead.v
AesTables.v
Aes.v
AesSpec.v
AesWrap.v
Rc4.v
Sha1.v
Hmac.v
WpaAuth.v
WpaAuthSafe.v
WpaAuthTotal.v
WpaHandshake.v
WpaCrypto.v
ApInfo.v
ApElem.v
ApPower.v
ApSta.v
ApPowerInv.v
ApPath.v
ApStaInv.v
ApStaRun.v
NeighborAp.v
ApMlme.v
ApMlmeInv.v
ApAssoc.v
ApMlmeRun.v
