(* ===== verification/Prelude.v ===== *)
(** * Fullmac: verification of the iComm SSV6xxx FullMAC host driver core

    The repository holds a host driver for the SSV6006 / SSV6030 WLAN chips: the
    MAC runs on the chip, the host sends it commands and frames over SDIO or SPI
    and receives events and frames.  This library models the driver's own logic
    (under [src/host/core], [src/host/lib] and one part of [src/host/hal]) and
    its access-point mode (under [src/host/ap]: stations, management frames,
    power saving, beacons, the WPA2 authenticator and its cryptography), and
    proves what makes each part correct.

    ** The parts and how they interact

    An application calls the host API, which sends a message with a command
    frame to the command engine ([core/host_cmd_engine*.c]).  The engine sends
    at most one scan, join or leave at a time and keeps the other commands in a
    FIFO; it hands command frames to the transmit task, and handles the events
    that come back (the access point table of [core/mlme.c], the state of the
    station interfaces in [gDeviceInfo]).  The transmit task
    ([core/txrx_task.c]) takes frames from five priority queues and writes them
    to the bus, aggregated or one by one ([hal/SSV6006/ssv6006_pkt.c]).  The
    receive task takes transfers apart and passes each packet to the receive
    path: data to the filters and the A-MPDU reorder buffers
    ([core/txrx_hdl.c]) and from there to the data callbacks, events to the
    command engine.  All parts use the intrusive lists and strings of
    [lib/ssv_lib.c], the message events and packet buffer pools of [lib/apps]
    and the software timers of [lib/ssv_timer.c].

    In access-point mode [ap/ap_mlme.c] handles the management frames: a station
    authenticates and gets an entry in the table of [ap/ap_sta_info.c],
    associates and gets an AID, and leaves by a frame, by its timer or when the
    host removes it.  A station that associates presents its security element;
    [ap/wpa_auth_ie.c] checks it against the one of the access point and chooses
    the suites, and [ap/wpa_auth.c] runs the 4-way handshake with the station
    over EAPOL-Key frames, with the keys and MICs of [ap/crypto].  Frames for a
    sleeping station wait in the queues of [ap/ap_tx.c] and are delivered when
    it polls or wakes up ([ap/ap_rx.c]); the beacon of [ap/beacon.c] announces
    them.  The counters of the station table and the beacons of neighbours
    ([ap/neighbor_ap_list.c]) decide which protection the beacon asks for.

    ** Files

    - [Prelude]: machine integers (a [w]-bit integer is a [Z], [u8], [u16],
      [u32], [s8], [s32] are the conversions), tactics, list lemmas.
    - [ListQ] ([lib/ssv_lib.c]): doubly-linked circular queues and singly-linked
      FIFOs on an explicit heap of nodes; refinement to lists.
    - [SsvString] ([lib/ssv_lib.c], [lib/lib-impl.c]): string routines, [atoi]
      and the integer printer of the logger.
    - [Reorder] ([core/txrx_hdl.c]): Block-Ack sessions.
    - [Dev] ([include/priv/dev.h], [lib/ssv_lib.c]): the device record and the
      station interfaces.
    - [ApList] ([core/mlme.c]): the table of access points.
    - [Timer] ([lib/ssv_timer.c]): the delta list of timers and the timer task.
    - [MsgEvt] ([lib/apps/msgevt.c]): the message event pool.
    - [CmdEngine] ([core/host_cmd_engine.c], [_tx.c], [_rx.c]): the engine task
      as a step function, interleaved with mode changes.
    - [RxPath] ([core/txrx_task.c], [core/txrx_hdl.c]): the receive path from
      packet type to owner, on top of [Reorder]; the filter tables.
    - [HciAggr] ([hal/SSV6006/ssv6006_pkt.c]): building and taking apart
      aggregated bus transfers, on bytes.
    - [TxQueue], [TxTask] ([core/txrx_task.c]): the transmit queues on the node
      heap of [ListQ], and enqueuing threads, mode changes and the transmit task
      as interleaved critical sections, with the bytes of [HciAggr].
    - [Regulatory] ([core/Regulatory.c], [core/channel.c], [init/country_cfg.c],
      parts of [core/host_apis.c] and [ap/beacon.c]): channel tables, regulatory
      domains, masks of available channels, the Country element.
    - [Pbuf] ([lib/apps/pbuf.c]): the two packet buffer pools and their free queues.
    - [Words], [AesTables], [Aes], [AesSpec], [AesWrap], [Rc4], [Sha1], [Hmac]
      ([ap/crypto]): the ciphers and hashes.
    - [Wire], [Ie80211] ([ap/common/ieee802_11_common.c]): reading and writing
      of byte fields; the parser of information elements.
    - [WpaIe] ([ap/common/wpa_common.c], [ap/wpa_auth_ie.c]): RSN and WPA
      elements, their validation, and the key data elements of EAPOL frames.
    - [RsnRead]: an independent reading of RSN elements, as the standard lays
      them out, that the parser of [WpaIe] is shown to agree with.
    - [WpaAuth] ([ap/wpa_auth.c], [ap/state_machine.h]): the state machine of
      the authenticator with its frames, timers and events.  The cryptography is
      an interface, the class [KeyCrypto]; [WpaAuthSafe] holds its safety
      proofs for every run, [WpaAuthTotal] that no run faults, [WpaHandshake]
      the run with a station that knows the key, and [WpaCrypto] the instance of
      the interface with the functions of [Hmac] and [AesWrap], on which the
      handshake is also evaluated.
    - [ApInfo] ([ap/ap_info.h], [ap/ap_sta_info.h], [ap/ap_config.h],
      [ap/ap_def.h]): the state of the access point: [APStaInfo] is the entry of
      a station, [ApInfo] the whole, with the pending timers and the effects so
      far; [ap_static] is what does not change while it runs.
    - [ApElem] ([ap/beacon.c], [ap/wmm.c], [ap/ieee802_11_ht.c],
      [ap/ieee802_11_mgmt.c]): the writers of information elements, the HT
      operation mode, the beacon with its traffic indication map.
    - [ApPower] ([ap/ap_tx.c], [ap/ap_rx.c], the delivery functions of
      [ap/ap_sta_info.c], [core/txrx_hdl.c]): the data path with the power-save
      queues; [ApPowerInv] holds its invariant, [ApPath] its runs.
    - [ApSta] ([ap/ap_sta_info.c], [ap/ap_drv_cmd.c]): the table of stations, the
      inactivity timer and the AIDs; [ApStaInv] holds its invariant, [ApStaRun]
      its runs together with the data path.
    - [NeighborAp] ([ap/neighbor_ap_list.c]): the table of overheard access points.
    - [ApMlme] ([ap/ap_mlme.c], [ap/ieee802_11_mgmt.c], [ap/ieee802_11_ht.c]): the
      handlers of management and EAPOL frames; a call of the authenticator of
      [WpaAuth] works on a view of the station ([auth_view]) that is merged back
      ([with_auth]).  [ApMlmeInv] holds what each handler preserves, [ApAssoc]
      the criteria of an acceptable association request, stated on its elements
      and on [RsnRead], and [ApMlmeRun] the runs of the whole access point.

    Each operation is a function of its state; a fault of the C code (an access
    outside an array or through [NULL]) is a value of the result ([None] or
    [Fault]), so that its absence is a theorem and not an assumption.  Threads
    are modelled by program points: a step is one critical section.  Arrays of
    the code that it fills without a test have their size in the model: the
    management buffer of the access point ([mgmt_put]), the element arrays of
    [exec_hmac_sha1_vector], the aggregation buffer; a write behind them is a
    fault.  Where the code loads through [NULL] before it tests the pointer
    ([Reorder]), what the load does is a parameter, and a load that faults or
    answers with an invalid value halts the model.

    ** What the theorems show

    - Transmission: every interleaving is a run of five FIFO queues with a flush
      counter, every frame taken is in the transfers given to the bus driver,
      in order and unchanged (a transfer the driver fails to send is lost), the
      task never sleeps on a queued frame, list nodes are never lost and nothing
      is accessed out of bounds for frames up to 1860 bytes; longer frames
      overrun the aggregation buffer or are dropped.
    - Commands: the engine refines a FIFO that is blocked while a scan, join or
      leave is marked as outstanding; exactly four causes stop it (unknown frame
      types, private events without a handler, join results for an interface
      without a station, and a stop between the test of the queue and the
      removal from it); a refused blocking command leaves it blocked, and a stop
      between the marking and the hand-over of a command releases the queue too
      early.
    - Reception: delivery in order and without loss or duplication by the
      reorder buffers for every history, prompt release, and ownership of every
      packet through the whole path, up to two leaks and to packets that several
      filters keep; or, where loads through [NULL] do not answer with an
      interface index, a halt at the first release that passes an empty slot.
    - Lists, event pool, packet buffers, timers: refinement of abstract lists
      and sets, exclusivity, deadlines, and the places where they fail.
    - Channels: the regulatory decisions are exact, the available channels are
      those of the domain, the Country element lists them.
    - Access point security: the element parsers stay inside their buffers, the
      element written is read back as the configuration, a station is accepted
      exactly when its suites are among the configured ones; keys are installed
      only for a peer that proved the pairwise master key, the handshake with
      such a peer completes, the state machine always comes to rest, and no
      sequence of frames, timeouts and failed allocations makes it fault.
    - Access point: over every sequence of management frames, EAPOL frames, timers
      and data path operations the handlers return, the counters of the station
      table are exact, no two stations share an address or an AID, and no data
      frame is lost but those that come in while the chip sleeps and cannot be
      woken up ([accounted]); an association is decided by the contents of its request;
      an authenticated station has an entry unless the table is full of others;
      polls deliver the oldest frame with the right more-data bit, the indication
      map is exact, and the beacon is parsed back to the configuration.  A silent
      station is never removed by its timer.
    - Cryptography: equivalence with the published standards (FIPS 197, FIPS
      180, RFC 2104, the latter for at most five data elements, beyond which the
      code overruns its arrays) and the round trips of AES, AES key wrap and RC4.

    ** Bounds and fuel

    Loops are structural recursions or carry a fuel argument that is proved to
    suffice: the receive loop of [HciAggr] needs at most one round per byte of
    the transfer; the loops of [Reorder] at most one round per slot or per
    sequence number; the digit loop of [SsvString] at most 33 rounds.
    The loop of the authenticator's state machine has 130 rounds
    ([step_loop_ends]); the element parsers take one round per byte.
    [TxHdl_FrameProc] and the delivery of buffered frames call each other; two
    levels suffice ([frame_proc_fuel]).
    The transmit task and the engine are step functions and need no fuel.
    Pool and queue sizes are parameters, bounded where a counter has a width.

    ** Configuration

    The compile-time switches are those of [include/priv/host_config.h]:
    [AP_MODE_ENABLE] 0, [MLME_TASK] 0, [CONFIG_AUTO_SCAN] 0, [SW_8023TO80211] 0,
    [ONE_TR_THREAD] 0, [RXFLT_ENABLE], [ENABLE_SMART_CONFIG] 0,
    [ENABLE_DYNAMIC_RX_SENSITIVE] 1.  The files of [ap/] are compiled only with
    [AP_MODE_ENABLE] 1 and are modelled so, with [CONFIG_NO_WPA2],
    [CONFIG_IEEE80211R] and [CONFIG_IEEE80211W] undefined.

    ** Not modelled

    - [tcpip/lwip-1.4.0], [app/netapp], [os/] (FreeRTOS simulation, MicroC
      platform), [tool/]: third-party or vendor code the driver only calls.
    - [os_wrapper], [platform], [hif_wrapper], [netstack_wrapper]: thin layers over the operating
      system and the bus; what the driver relies on (a counting semaphore, a
      critical section, a bus that takes a buffer) is modelled where it is used.
    - register tables, firmware images and the register accesses of [hal/]:
      data and hardware access without logic of their own.
    - [app/cli], [app/netmgr], [core/host_apis.c] (apart from the functions of
      [Dev] and [Regulatory]), [init]: command parsing, API wrappers and start-up glue.
    - of [ap/]: set-up and configuration ([ap.c] apart from its events,
      [ap_config.c], [hw_config.c]), [StartBeacon] and the timer tests of
      [beacon.c], the group key set-up and the framing of EAPOL frames in
      [wpa_auth.c], and test and debug code ([random.c], [testcase.c],
      [wpa_debug.c], most of [common/bitmap.c]).
    - in the access point: the moving of bytes for the padding of a frame in
      [TxHdl_FrameProc]; mutexes, because one handler runs at a time; a refusal
      of [os_create_timer].  The runs assume that a management frame has a whole
      header, is followed by 28 readable bytes (WMM and HT elements are read with
      their full size, [mgmt_frame_ok]) and does not have the BSSID zero, that
      the length an EAPOL frame announces is inside its buffer
      ([eapol_frame_ok]), and that the configured SSID, rates and HT rates have at
      most the sizes of their arrays ([elem_sane]): the code does not test these,
      and the findings list the faults that follow. *)

From stdpp Require Import base list gmap.
From Stdlib Require Import ZArith Lia.

(** Division and modulo are understood by [lia] in the whole library. *)
Ltac Zify.zify_post_hook ::= Z.div_mod_to_equations.

Declare Scope cint_scope.
Delimit Scope cint_scope with cint.
Open Scope Z_scope.

(** ** Machine integers

    A C integer of width [w] is a [Z]; every C operation that can leave the
    range is followed by the wrap-around of its type. *)

Definition u8 (z : Z) : Z := z mod 256.
Definition u16 (z : Z) : Z := z mod 65536.
Definition u32 (z : Z) : Z := z mod 4294967296.
Definition u64 (z : Z) : Z := z mod 18446744073709551616.

(** Conversion to a signed 32-bit [int] / [long] (two's complement). *)
Definition s32 (z : Z) : Z :=
  let u := u32 z in if u <? 2147483648 then u else u - 4294967296.

(** Conversion to a signed 8-bit [s8] / [char]. *)
Definition s8 (z : Z) : Z :=
  let u := u8 z in if u <? 128 then u else u - 256.

Notation "a +u32 b" := (u32 (a + b)) (at level 50, left associativity) : cint_scope.
Notation "a -u32 b" := (u32 (a - b)) (at level 50, left associativity) : cint_scope.
Notation "a +u16 b" := (u16 (a + b)) (at level 50, left associativity) : cint_scope.
Notation "a -u16 b" := (u16 (a - b)) (at level 50, left associativity) : cint_scope.
Open Scope cint_scope.

Create HintDb cint.

Lemma u8_range z : 0 <= u8 z < 256.
Proof. unfold u8. lia. Qed.

Lemma u16_range z : 0 <= u16 z < 65536.
Proof. unfold u16. lia. Qed.

Lemma u32_range z : 0 <= u32 z < 4294967296.
Proof. unfold u32. lia. Qed.

Lemma u8_small z : 0 <= z < 256 -> u8 z = z.
Proof. apply Z.mod_small. Qed.

Lemma u16_small z : 0 <= z < 65536 -> u16 z = z.
Proof. apply Z.mod_small. Qed.

Lemma u32_small z : 0 <= z < 4294967296 -> u32 z = z.
Proof. apply Z.mod_small. Qed.

Lemma s32_small z : -2147483648 <= z < 2147483648 -> s32 z = z.
Proof.
  intros H. unfold s32, u32.
  destruct (Z.ltb_spec (z mod 4294967296) 2147483648); lia.
Qed.

Lemma s32_range z : -2147483648 <= s32 z < 2147483648.
Proof.
  unfold s32, u32. destruct (Z.ltb_spec (z mod 4294967296) 2147483648); lia.
Qed.

#[export] Hint Resolve u8_range u16_range u32_range s32_range : cint.
#[export] Hint Rewrite u8_small u16_small u32_small s32_small using lia : cint.

(** [crush_u] erases the wrap-arounds that are provably idle and calls
    [lia]. *)
Ltac crush_u := autorewrite with cint; try lia.

(** Boolean tests of the code turned into the propositions they decide. *)
Ltac bool_to_prop :=
  repeat match goal with
  | H : _ && _ = true |- _ => apply andb_true_iff in H; destruct H
  | H : _ || _ = false |- _ => apply orb_false_iff in H; destruct H
  | H : negb _ = true |- _ => apply negb_true_iff in H
  | H : negb _ = false |- _ => apply negb_false_iff in H
  | H : (_ =? _) = true |- _ => apply Z.eqb_eq in H
  | H : (_ =? _) = false |- _ => apply Z.eqb_neq in H
  | H : (_ <? _) = true |- _ => apply Z.ltb_lt in H
  | H : (_ <? _) = false |- _ => apply Z.ltb_ge in H
  | H : (_ <=? _) = true |- _ => apply Z.leb_le in H
  | H : (_ <=? _) = false |- _ => apply Z.leb_gt in H
  end.

(** Case analysis on a boolean test of the code. *)
Ltac case_test :=
  match goal with
  | |- context [ if ?b then _ else _ ] =>
      let E := fresh "E" in destruct b eqn:E; bool_to_prop
  | H : context [ if ?b then _ else _ ] |- _ =>
      let E := fresh "E" in destruct b eqn:E; bool_to_prop
  end.

(** ** Record update

    [s <| field := v |>] is [s] with another value of a field, for a record type
    with an instance of [Eta] that rebuilds a record from its fields. *)

Class Eta (R : Type) := eta : R -> R.
Class Setter {R T : Type} (proj : R -> T) := modify : (T -> T) -> R -> R.

Ltac make_setter proj :=
  lazymatch type of proj with
  | ?R -> _ =>
      let e := constr:(_ : Eta R) in
      let e := eval hnf in e in
      lazymatch eval pattern proj in e with
      | ?g _ => exact (fun f => g (fun r => f (proj r)))
      end
  end.

#[export] Hint Extern 1 (Setter ?proj) => make_setter proj : typeclass_instances.

Notation "s <| proj := v |>" := (modify (proj := proj) (fun _ => v) s)
  (at level 1, left associativity, proj at level 9) : cint_scope.

(** ** Lists *)

(** Out-of-range reads of a C array of [Z] never happen in the modelled code
    where this is used: the default is only a totalisation. *)
Definition nthZ (l : list Z) (i : Z) : Z := nth (Z.to_nat i) l 0.

Fixpoint sumZ (l : list Z) : Z :=
  match l with [] => 0 | x :: r => x + sumZ r end.

Lemma sumZ_app l k : sumZ (l ++ k) = sumZ l + sumZ k.
Proof. induction l; simpl; lia. Qed.

Lemma sumZ_nonneg l : Forall (fun x => 0 <= x) l -> 0 <= sumZ l.
Proof. induction 1; simpl; lia. Qed.

(** How many elements satisfy a test *)
Definition count {A} (p : A -> bool) (l : list A) : Z := Z.of_nat (length (List.filter p l)).

Lemma count_nonneg {A} (p : A -> bool) l : 0 <= count p l <= Z.of_nat (length l).
Proof. unfold count. pose proof (List.filter_length_le p l). lia. Qed.

Lemma count_insert {A} (p : A -> bool) (l : list A) i s s' : l !! i = Some s ->
  count p (<[i := s']> l) = count p l - Z.b2z (p s) + Z.b2z (p s').
Proof.
  revert i. unfold count. induction l as [|x l IH]; intros i Hi; [done|]. destruct i as [|i].
  - injection Hi as ->. cbn [insert list_insert List.filter]. destruct (p s), (p s'); cbn [length Z.b2z]; lia.
  - cbn [insert list_insert List.filter lookup list_lookup] in *. specialize (IH i Hi). unfold insert in *.
    destruct (p x); cbn [length]; lia.
Qed.

Lemma count_pos {A} (p : A -> bool) (l : list A) i s : l !! i = Some s -> p s = true -> 0 < count p l.
Proof.
  revert i. unfold count. induction l as [|x l IH]; intros i Hi Hp; [done|]. destruct i as [|i].
  - injection Hi as ->. cbn [List.filter]. rewrite Hp. cbn [length]. lia.
  - cbn [List.filter]. specialize (IH i Hi Hp). destruct (p x); cbn [length]; lia.
Qed.

Lemma count_map {A B} (p : B -> bool) (p' : A -> bool) (f : A -> B) (l : list A) : (forall s, p (f s) = p' s) -> count p (f <$> l) = count p' l.
Proof.
  intros H. unfold count. induction l as [|x l IH]; [done|]. cbn [fmap list_fmap List.filter]. rewrite H.
  destruct (p' x); cbn [length]; unfold fmap in *; lia.
Qed.

Lemma NoDup_app_comm {A} (l k : list A) : NoDup (l ++ k) -> NoDup (k ++ l).
Proof. by rewrite (Permutation_app_comm l k). Qed.

Lemma NoDup_mid {A} (l k : list A) x :
  NoDup (l ++ x :: k) -> x ∉ l /\ x ∉ k /\ NoDup (l ++ k).
Proof.
  rewrite <-Permutation_middle. intros [Hx Hn]%NoDup_cons.
  rewrite elem_of_app in Hx. tauto.
Qed.

Lemma filter_ext_in {A} (P Q : A -> Prop) `{forall x, Decision (P x), forall x, Decision (Q x)}
  (l : list A) : (forall x, x ∈ l -> P x <-> Q x) -> filter P l = filter Q l.
Proof.
  induction l as [|x l IH]; intros HPQ; [done|]. rewrite !filter_cons.
  rewrite IH by (intros; apply HPQ; set_solver).
  destruct (decide (P x)) as [p|p], (decide (Q x)) as [q|q]; try done;
    rewrite HPQ in p by set_solver; done.
Qed.
