(* ===== verification/ListQ.v ===== *)
(** * ListQ: the intrusive lists of [lib/ssv_lib.c]

    [struct ssv_list_q] (include/priv/ssv_lib.h) is an intrusive circular
    doubly-linked list with a head node that also carries the length;
    [struct ssv_llist] is a singly-linked FIFO with a tail pointer.  Both are
    modelled at the level of the C code: a heap of nodes addressed by
    pointers, every assignment of the source one store update, in the order of
    the source, a read or write through a pointer that is not in the heap a
    fault ([None]).

    The refinement: [dll h q l] says that the heap [h] holds the circular list
    whose head is [q] and whose elements are [l]; every operation of the code
    maps a heap that represents [l] to one that represents the result of the
    corresponding functional list operation.  The components that use the
    lists are modelled on the functional lists. *)

From stdpp Require Import base list gmap.
From Stdlib Require Import ZArith Lia.
From S2P Require Import Prelude.

(** ** The heap of [struct ssv_list_q] nodes *)

Definition NULL : Z := 0.

Record ssv_list_q : Type := mk_list_q {
  next : Z;
  prev : Z;
  qlen : Z
}.

Abbreviation heap := (gmap Z ssv_list_q).

Definition set_next (h : heap) (p v : Z) : option heap :=
  n ← h !! p; Some (<[p := mk_list_q v (prev n) (qlen n)]> h).

Definition set_prev (h : heap) (p v : Z) : option heap :=
  n ← h !! p; Some (<[p := mk_list_q (next n) v (qlen n)]> h).

Definition set_qlen (h : heap) (p v : Z) : option heap :=
  n ← h !! p; Some (<[p := mk_list_q (next n) (prev n) (u32 v)]> h).

(** [void list_q_init(struct ssv_list_q *qhd)] *)
Definition list_q_init (h : heap) (qhd : Z) : option heap :=
  h ← set_prev h qhd qhd;
  h ← set_next h qhd qhd;
  set_qlen h qhd 0.

(** [void list_q_qtail(struct ssv_list_q *qhd, struct ssv_list_q *newq)] *)
Definition list_q_qtail (h : heap) (qhd newq : Z) : option heap :=
  let nxt := qhd in
  hd ← h !! qhd;
  let prv := prev hd in
  h ← set_next h newq nxt;
  h ← set_prev h newq prv;
  h ← set_prev h nxt newq;
  h ← set_next h prv newq;
  hd ← h !! qhd;
  set_qlen h qhd (qlen hd + 1).

(** [void list_q_insert(qhd, prev, newq)]: insert [newq] after [prv]. *)
Definition list_q_insert (h : heap) (qhd prv newq : Z) : option heap :=
  p ← h !! prv;
  let nxt := next p in
  h ← set_next h newq nxt;
  h ← set_prev h newq prv;
  h ← set_prev h nxt newq;
  h ← set_next h prv newq;
  hd ← h !! qhd;
  set_qlen h qhd (qlen hd + 1).

(** [void list_q_remove(qhd, curt)]: the links of [curt] itself are kept. *)
Definition list_q_remove (h : heap) (qhd curt : Z) : option heap :=
  c ← h !! curt;
  let nxt := next c in
  let prv := prev c in
  h ← set_next h prv nxt;
  h ← set_prev h nxt prv;
  hd ← h !! qhd;
  set_qlen h qhd (qlen hd - 1).

(** [struct ssv_list_q *list_q_deq(struct ssv_list_q *qhd)] *)
Definition list_q_deq (h : heap) (qhd : Z) : option (heap * Z) :=
  hd ← h !! qhd;
  let elm := next hd in
  if (0 <? qlen hd) && negb (elm =? NULL) then
    h ← set_qlen h qhd (qlen hd - 1);
    e ← h !! elm;
    let nxt := next e in
    let prv := prev e in
    h ← set_next h elm NULL;
    h ← set_prev h elm NULL;
    h ← set_prev h nxt prv;
    h ← set_next h prv nxt;
    Some (h, elm)
  else Some (h, NULL).

(** [unsigned int list_q_len(struct ssv_list_q *qhd)] *)
Definition list_q_len (h : heap) (qhd : Z) : option Z :=
  hd ← h !! qhd; Some (qlen hd).

(** ** The singly-linked FIFO [struct ssv_llist_head] / [struct ssv_llist] *)

Record ssv_llist_head : Type := mk_llist_head {
  ll_list : Z;
  ll_last : Z;
  llen : Z
}.

(** The heap of [struct ssv_llist] nodes: the [next] pointer of each. *)
Abbreviation lheap := (gmap Z Z).

Definition llist_head_init : ssv_llist_head := mk_llist_head NULL NULL 0.

(** [struct ssv_llist *llist_pop(struct ssv_llist_head *lhd)] *)
Definition llist_pop (h : lheap) (lhd : ssv_llist_head) : option (lheap * ssv_llist_head * Z) :=
  let elm := ll_list lhd in
  if negb (elm =? NULL) then
    nxt ← h !! elm;
    Some (<[elm := NULL]> h, mk_llist_head nxt (ll_last lhd) (u32 (llen lhd - 1)), elm)
  else Some (h, lhd, NULL).

(** [void llist_push(struct ssv_llist_head *lhd, struct ssv_llist *new)] *)
Definition llist_push (h : lheap) (lhd : ssv_llist_head) (new : Z)
  : option (lheap * ssv_llist_head) :=
  '(h, first) ←
    (if ll_list lhd =? NULL then Some (h, new)
     else _ ← h !! ll_last lhd; Some (<[ll_last lhd := new]> h, ll_list lhd));
  _ ← h !! new;
  Some (<[new := NULL]> h, mk_llist_head first new (u32 (llen lhd + 1))).

(** [u32 llist_l_len(struct ssv_llist_head *lhd)] *)
Definition llist_l_len (lhd : ssv_llist_head) : Z := llen lhd.

(** ** Operation sequences *)

(** What a client does with a [ssv_list_q]: [QInsert prv x] inserts after
    [prv], which is the head or an element. *)
Inductive qop : Type :=
| QTail (x : Z)
| QInsert (prv x : Z)
| QRemove (x : Z)
| QDeq.

(** One client operation on the heap; [QDeq] reports the node it returns. *)
Definition heap_step (q : Z) (h : heap) (op : qop) : option (heap * list Z) :=
  match op with
  | QTail x => h' ← list_q_qtail h q x; Some (h', [])
  | QInsert p x => h' ← list_q_insert h q p x; Some (h', [])
  | QRemove x => h' ← list_q_remove h q x; Some (h', [])
  | QDeq => '(h', x) ← list_q_deq h q; Some (h', [x])
  end.

Fixpoint heap_run (q : Z) (h : heap) (ops : list qop) : option (heap * list Z) :=
  match ops with
  | [] => Some (h, [])
  | op :: r => '(h1, o1) ← heap_step q h op; '(h2, o2) ← heap_run q h1 r; Some (h2, o1 ++ o2)
  end.

(** The same operations on a functional list: [None] when the client breaks
    the contract (a node queued twice, a NULL node, removing a node that is not
    queued). *)
Fixpoint insert_after (p x : Z) (l : list Z) : option (list Z) :=
  match l with
  | [] => None
  | y :: r => if y =? p then Some (y :: x :: r) else r' ← insert_after p x r; Some (y :: r')
  end.

Fixpoint remove_first (x : Z) (l : list Z) : option (list Z) :=
  match l with
  | [] => None
  | y :: r => if y =? x then Some r else r' ← remove_first x r; Some (y :: r')
  end.

Definition list_step (q : Z) (l : list Z) (op : qop) : option (list Z * list Z) :=
  match op with
  | QTail x => if decide (x ∈ q :: NULL :: l) then None else Some (l ++ [x], [])
  | QInsert p x =>
      if decide (x ∈ q :: NULL :: l) then None
      else if p =? q then Some (x :: l, []) else l' ← insert_after p x l; Some (l', [])
  | QRemove x => l' ← remove_first x l; Some (l', [])
  | QDeq => match l with [] => Some ([], [NULL]) | x :: r => Some (r, [x]) end
  end.

Fixpoint list_run (q : Z) (l : list Z) (ops : list qop) : option (list Z * list Z) :=
  match ops with
  | [] => Some (l, [])
  | op :: r => '(l1, o1) ← list_step q l op; '(l2, o2) ← list_run q l1 r; Some (l2, o1 ++ o2)
  end.

(** ** The representation predicate *)

Definition next_of (h : heap) (p : Z) : option Z := next <$> h !! p.
Definition prev_of (h : heap) (p : Z) : option Z := prev <$> h !! p.
Definition qlen_of (h : heap) (p : Z) : option Z := qlen <$> h !! p.

(** [links h a path]: starting from [a], every node points forward to the next
    one of [path] and is pointed back to by it. *)
Fixpoint links (h : heap) (a : Z) (path : list Z) : Prop :=
  match path with
  | [] => True
  | b :: r => next_of h a = Some b /\ prev_of h b = Some a /\ links h b r
  end.

(** The circular list with head [q] and elements [l]. *)
Record dll (h : heap) (q : Z) (l : list Z) : Prop := mk_dll {
  dll_links : links h q (l ++ [q]);
  dll_nodup : NoDup (q :: l);
  dll_nonnull : NULL ∉ l;
  dll_qlen : qlen_of h q = Some (u32 (Z.of_nat (length l)))
}.

(** [same_except_next h h' p v]: [h'] is [h] with [p->next = v]. *)
Definition upd_next (h h' : heap) (p v : Z) : Prop :=
  forall x, next_of h' x = (if decide (x = p) then Some v else next_of h x) /\
            prev_of h' x = prev_of h x /\ qlen_of h' x = qlen_of h x.

Definition upd_prev (h h' : heap) (p v : Z) : Prop :=
  forall x, next_of h' x = next_of h x /\
            prev_of h' x = (if decide (x = p) then Some v else prev_of h x) /\
            qlen_of h' x = qlen_of h x.

Definition upd_qlen (h h' : heap) (p v : Z) : Prop :=
  forall x, next_of h' x = next_of h x /\ prev_of h' x = prev_of h x /\
            qlen_of h' x = (if decide (x = p) then Some (u32 v) else qlen_of h x).

Lemma set_next_upd h p v :
  (exists n, next_of h p = Some n) -> exists h', set_next h p v = Some h' /\ upd_next h h' p v.
Proof.
  unfold set_next, next_of. intros [n Hn]. destruct (h !! p) as [m|] eqn:E; [|done].
  eexists; split; [reflexivity|]. intros x. unfold next_of, prev_of, qlen_of.
  destruct (decide (x = p)) as [->|N].
  - rewrite lookup_insert_eq, E. done.
  - rewrite lookup_insert_ne by done. done.
Qed.

Lemma set_prev_upd h p v :
  (exists n, next_of h p = Some n) -> exists h', set_prev h p v = Some h' /\ upd_prev h h' p v.
Proof.
  unfold set_prev, next_of. intros [n Hn]. destruct (h !! p) as [m|] eqn:E; [|done].
  eexists; split; [reflexivity|]. intros x. unfold next_of, prev_of, qlen_of.
  destruct (decide (x = p)) as [->|N].
  - rewrite lookup_insert_eq, E. done.
  - rewrite lookup_insert_ne by done. done.
Qed.

Lemma set_qlen_upd h p v :
  (exists n, next_of h p = Some n) -> exists h', set_qlen h p v = Some h' /\ upd_qlen h h' p v.
Proof.
  unfold set_qlen, next_of. intros [n Hn]. destruct (h !! p) as [m|] eqn:E; [|done].
  eexists; split; [reflexivity|]. intros x. unfold next_of, prev_of, qlen_of.
  destruct (decide (x = p)) as [->|N].
  - rewrite lookup_insert_eq, E. done.
  - rewrite lookup_insert_ne by done. done.
Qed.

Lemma node_of h p n : next_of h p = Some n ->
  exists nd, h !! p = Some nd /\ next nd = n /\
             prev_of h p = Some (prev nd) /\ qlen_of h p = Some (qlen nd).
Proof.
  unfold next_of, prev_of, qlen_of. destruct (h !! p) as [nd|]; [|done].
  intros [= <-]. by exists nd.
Qed.

Lemma prev_next_of h p n : prev_of h p = Some n -> exists m, next_of h p = Some m.
Proof. unfold next_of, prev_of. destruct (h !! p); [|done]. by eexists. Qed.

(** ** Links *)

Lemma links_app h a l1 b l2 :
  links h a (l1 ++ b :: l2) <-> links h a (l1 ++ [b]) /\ links h b l2.
Proof.
  revert a; induction l1 as [|c l1 IH]; intros a; simpl; [tauto|].
  rewrite IH. tauto.
Qed.

(** The links of a path only read the [next] of its sources and the [prev] of
    its targets. *)
Lemma links_frame h h' a l z :
  (forall x, x ∈ a :: l -> next_of h' x = next_of h x) ->
  (forall x, x ∈ l ++ [z] -> prev_of h' x = prev_of h x) ->
  links h a (l ++ [z]) -> links h' a (l ++ [z]).
Proof.
  revert a; induction l as [|b l IH]; intros a Hn Hp; simpl.
  - intros (H1 & H2 & _). rewrite Hn, Hp by set_solver. done.
  - intros (H1 & H2 & H3). rewrite Hn, Hp by set_solver. split_and!; try done.
    apply IH; [intros; apply Hn; set_solver | intros; apply Hp; set_solver | done].
Qed.

(** Every node of a path other than its last one is allocated. *)
Lemma links_next h a l z x :
  links h a (l ++ [z]) -> x ∈ a :: l -> exists n, next_of h x = Some n.
Proof.
  revert a; induction l as [|b l IH]; intros a Hl Hx; simpl in *.
  - apply list_elem_of_singleton in Hx as ->. destruct Hl as [-> _]. eauto.
  - destruct Hl as (H1 & _ & H3). apply elem_of_cons in Hx as [->|Hx]; eauto.
Qed.

(** The neighbours of a position of a circular path. *)
Lemma links_at h q l1 l2 :
  links h q (l1 ++ l2 ++ [q]) ->
  next_of h (default q (last l1)) = Some (default q (head l2)) /\
  prev_of h (default q (head l2)) = Some (default q (last l1)).
Proof.
  destruct l1 as [|p l1 _] using rev_ind; simpl.
  - destruct l2; simpl; tauto.
  - rewrite last_snoc, <-app_assoc. simpl. rewrite links_app.
    intros [_ H]. destruct l2; simpl in *; tauto.
Qed.

Section relink.
Context (h h' : heap) (q : Z) (l1 l2 : list Z).
Context (p n : Z) (Ep : p = default q (last l1)) (En : n = default q (head l2)).

Lemma last_cases : (l1 = [] /\ p = q) \/ (exists a, l1 = a ++ [p]).
Proof using Ep.
  rewrite Ep. clear Ep. destruct l1 as [|y a _] using rev_ind; [by left|right].
  rewrite last_snoc. by exists a.
Qed.

Lemma head_cases : (l2 = [] /\ n = q) \/ (exists b, l2 = n :: b).
Proof using En. rewrite En. clear En. destruct l2 as [|y b]; [by left|right]. by exists b. Qed.

(** The part of the path before the changed position is kept. *)
Lemma links_before r :
  NoDup (q :: l1 ++ l2) ->
  (forall y, y ∈ q :: l1 -> y <> p -> next_of h' y = next_of h y) ->
  (forall y, y ∈ l1 -> y <> n -> prev_of h' y = prev_of h y) ->
  links h q (l1 ++ l2 ++ [q]) -> links h' p r -> links h' q (l1 ++ r).
Proof using Ep En.
  intros Hnd Hn Hp Hl Hr.
  destruct last_cases as [[E1 E2] | [a E]]; [by rewrite E1, <-E2|].
  clear Ep. subst l1. rewrite <-?app_assoc in *. simpl in *. apply links_app in Hl. apply links_app.
  split; [|done]. destruct Hl as [Hl _]. revert Hl.
  apply NoDup_cons in Hnd as [Hq Hnd].
  apply NoDup_mid in Hnd as (Ha & Hb & (_ & Hal & _)%NoDup_app).
  apply links_frame; intros y Hy.
  - apply Hn; [set_solver|]. intros ->. set_solver.
  - apply Hp; [set_solver|]. intros ->.
    destruct head_cases as [[_ E2] | [b E2]]; clear En Hn Hp.
    + subst n. set_solver.
    + subst l2. specialize (Hal n). set_solver.
Qed.

(** So is the part after it. *)
Lemma links_after x :
  NoDup (q :: l1 ++ l2) ->
  (forall y, y ∈ l2 -> next_of h' y = next_of h y) ->
  (forall y, y ∈ q :: l2 -> y <> n -> prev_of h' y = prev_of h y) ->
  next_of h' x = Some n -> prev_of h' n = Some x ->
  links h q (l1 ++ l2 ++ [q]) -> links h' x (l2 ++ [q]).
Proof using Ep En.
  intros Hnd Hn Hp E1 E2 Hl.
  destruct head_cases as [[H1 H2] | [b Hb]].
  - rewrite H1; simpl. rewrite <-H2. done.
  - clear En. subst l2. simpl in *. split_and!; [done..|].
    rewrite links_app in Hl. destruct Hl as [_ Hl]. revert Hl.
    rewrite NoDup_cons, NoDup_app, NoDup_cons in Hnd.
    destruct Hnd as (Hq & _ & Hal & Hnb & _).
    apply links_frame; intros y Hy; [apply Hn; set_solver|].
    apply Hp; [set_solver|]. intros ->. set_solver.
Qed.

Lemma links_insert x :
  NoDup (q :: l1 ++ l2) -> x ∉ q :: l1 ++ l2 ->
  (forall y, next_of h' y = if decide (y = p) then Some x
                            else if decide (y = x) then Some n else next_of h y) ->
  (forall y, prev_of h' y = if decide (y = n) then Some x
                            else if decide (y = x) then Some p else prev_of h y) ->
  links h q (l1 ++ l2 ++ [q]) -> links h' q (l1 ++ x :: l2 ++ [q]).
Proof using Ep En.
  intros Hnd Hx Hn Hp Hl.
  assert (p ∈ q :: l1) by
    (destruct last_cases as [[-> ->]|[a ->]]; set_solver).
  assert (n ∈ q :: l2) by
    (destruct head_cases as [[-> ->]|[a ->]]; set_solver).
  apply links_before; try done.
  - intros y ??. rewrite Hn. repeat case_decide; set_solver.
  - intros y ??. rewrite Hp. repeat case_decide; set_solver.
  - simpl. split_and!.
    + rewrite Hn. by rewrite decide_True.
    + rewrite Hp. rewrite decide_False, decide_True by set_solver. done.
    + apply links_after; try done.
      * intros y ?. rewrite Hn. rewrite !decide_False; [done|set_solver|].
        intros ->. apply NoDup_cons in Hnd as [? Hnd].
        apply NoDup_app in Hnd as (_ & Hd & _). specialize (Hd p).
        clear Ep En Hn Hp. set_solver.
      * intros y ??. rewrite Hp. rewrite !decide_False; [done|set_solver..].
      * rewrite Hn. rewrite decide_False, decide_True by set_solver. done.
      * rewrite Hp. by rewrite decide_True.
Qed.

Lemma links_remove c :
  NoDup (q :: l1 ++ c :: l2) ->
  (forall y, y <> c -> next_of h' y = if decide (y = p) then Some n else next_of h y) ->
  (forall y, y <> c -> prev_of h' y = if decide (y = n) then Some p else prev_of h y) ->
  links h q (l1 ++ c :: l2 ++ [q]) -> links h' q (l1 ++ l2 ++ [q]).
Proof using Ep En.
  intros Hnd Hn Hp Hl.
  apply NoDup_cons in Hnd as [Hq (Hc1 & Hc2 & Hnd)%NoDup_mid].
  apply NoDup_app in Hnd as (Hnd1 & Hd & Hnd2).
  assert (links h c (l2 ++ [q])) as Hl2 by
    (apply links_app in Hl; tauto).
  assert (links h q (l1 ++ [c])) as Hl1 by
    (apply links_app in Hl; tauto).
  clear Hl. pose proof last_cases as HL. pose proof head_cases as HH. clear Ep En.
  assert (Hpart : links h' p (l2 ++ [q])).
  { assert (p <> c) by (destruct HL as [[-> ->]|[a ->]]; set_solver).
    destruct HH as [[-> ->] | [b ->]]; simpl.
    - rewrite Hn, Hp by set_solver. by rewrite !decide_True.
    - rewrite Hn, Hp by set_solver. rewrite !decide_True by done.
      split_and!; [done..|]. destruct Hl2 as (_ & _ & Hl2). revert Hl2.
      apply NoDup_cons in Hnd2 as [Hnb _].
      apply links_frame; intros y Hy.
      + rewrite Hn by set_solver. rewrite decide_False; [done|].
        destruct HL as [[-> ->]|[a ->]]; [set_solver|]. specialize (Hd p). set_solver.
      + rewrite Hp by set_solver. rewrite decide_False; [done|]. set_solver. }
  destruct HL as [[-> ->] | [a ->]]; [done|].
  rewrite <-app_assoc. simpl. apply links_app. split; [|done].
  rewrite <-app_assoc in Hl1. apply links_app in Hl1 as [Hl1 _]. revert Hl1.
  apply NoDup_app in Hnd1 as (_ & Ha & _).
  apply links_frame; intros y Hy.
  - rewrite Hn by set_solver. rewrite decide_False; [done|]. set_solver.
  - rewrite Hp by set_solver. rewrite decide_False; [done|].
    destruct HH as [[-> ->] | [b ->]]; [set_solver|]. specialize (Hd y). set_solver.
Qed.
End relink.

(** ** The operations on represented lists *)

Definition same_node (h h' : heap) (y : Z) : Prop :=
  next_of h' y = next_of h y /\ prev_of h' y = prev_of h y /\ qlen_of h' y = qlen_of h y.

(** A list none of whose nodes changed is still represented. *)
Lemma dll_frame h h' q l :
  (forall y, y ∈ q :: l -> same_node h h' y) -> dll h q l -> dll h' q l.
Proof.
  intros Hs [Hl Hnd Hnn Hq]. split; try done.
  - revert Hl. apply links_frame; intros y Hy; apply Hs; set_solver.
  - destruct (Hs q) as (_ & _ & ->); [set_solver|done].
Qed.

Lemma dll_alloc h q l x : dll h q l -> x ∈ q :: l -> exists n, next_of h x = Some n.
Proof. intros [Hl _ _ _] Hx. exact (links_next h q l q x Hl Hx). Qed.

Lemma lookup_next_of (h : heap) x : is_Some (h !! x) -> exists n, next_of h x = Some n.
Proof. intros [nd E]. unfold next_of. rewrite E. by eexists. Qed.

(** Read a field of the current heap back through the recorded updates. *)
Ltac read_back :=
  repeat match goal with
  | U : upd_next _ ?h _ _ |- context [ next_of ?h ?x ] => rewrite (proj1 (U x))
  | U : upd_prev _ ?h _ _ |- context [ next_of ?h ?x ] => rewrite (proj1 (U x))
  | U : upd_qlen _ ?h _ _ |- context [ next_of ?h ?x ] => rewrite (proj1 (U x))
  | U : upd_next _ ?h _ _ |- context [ prev_of ?h ?x ] => rewrite (proj1 (proj2 (U x)))
  | U : upd_prev _ ?h _ _ |- context [ prev_of ?h ?x ] => rewrite (proj1 (proj2 (U x)))
  | U : upd_qlen _ ?h _ _ |- context [ prev_of ?h ?x ] => rewrite (proj1 (proj2 (U x)))
  | U : upd_next _ ?h _ _ |- context [ qlen_of ?h ?x ] => rewrite (proj2 (proj2 (U x)))
  | U : upd_prev _ ?h _ _ |- context [ qlen_of ?h ?x ] => rewrite (proj2 (proj2 (U x)))
  | U : upd_qlen _ ?h _ _ |- context [ qlen_of ?h ?x ] => rewrite (proj2 (proj2 (U x)))
  end.

(** One assignment of the source: the store update is defined, and what it
    changes is recorded as an [upd_*] fact. *)
Ltac store_step :=
  match goal with
  | |- context [ set_next ?h ?p ?v ≫= _ ] =>
      let h' := fresh "h" in let E := fresh "E" in let U := fresh "U" in
      edestruct (set_next_upd h p v) as (h' & E & U); [ solve [read_back; repeat case_decide; eauto] | rewrite E; clear E; simpl ]
  | |- context [ set_prev ?h ?p ?v ≫= _ ] =>
      let h' := fresh "h" in let E := fresh "E" in let U := fresh "U" in
      edestruct (set_prev_upd h p v) as (h' & E & U); [ solve [read_back; repeat case_decide; eauto] | rewrite E; clear E; simpl ]
  | |- context [ set_qlen ?h ?p ?v ≫= _ ] =>
      let h' := fresh "h" in let E := fresh "E" in let U := fresh "U" in
      edestruct (set_qlen_upd h p v) as (h' & E & U); [ solve [read_back; repeat case_decide; eauto] | rewrite E; clear E; simpl ]
  | |- context [ set_qlen ?h ?p ?v ] =>
      let h' := fresh "h" in let E := fresh "E" in let U := fresh "U" in
      edestruct (set_qlen_upd h p v) as (h' & E & U); [ solve [read_back; repeat case_decide; eauto] | rewrite E; clear E; simpl ]
  end.

Lemma lookup_node h x n :
  next_of h x = Some n -> exists nd, h !! x = Some nd /\ next_of h x = Some (next nd)
    /\ prev_of h x = Some (prev nd) /\ qlen_of h x = Some (qlen nd).
Proof.
  unfold next_of, prev_of, qlen_of. destruct (h !! x) as [nd|]; [|done].
  intros _. by exists nd.
Qed.

Lemma u32_add_l a b : u32 (u32 a + b) = u32 (a + b).
Proof. unfold u32. apply Zplus_mod_idemp_l. Qed.

Lemma u32_sub_l a b : u32 (u32 a - b) = u32 (a - b).
Proof. unfold u32. apply Zminus_mod_idemp_l. Qed.

Lemma list_q_init_dll h q :
  is_Some (h !! q) ->
  exists h', list_q_init h q = Some h' /\ dll h' q [] /\
             (forall y, y <> q -> same_node h h' y).
Proof.
  intros [n Hq]%lookup_next_of. unfold list_q_init.
  do 3 store_step.
  eexists; split; [done|]. split; [split|].
  - simpl. read_back. by rewrite !decide_True.
  - constructor; [set_solver|constructor].
  - set_solver.
  - read_back. by rewrite decide_True.
  - intros y Hy. unfold same_node. read_back. by rewrite !decide_False.
Qed.

Section insert.
Context (h : heap) (q : Z) (l1 l2 : list Z) (x : Z).
Context (Hd : dll h q (l1 ++ l2)) (Hx : is_Some (h !! x)) (Hnew : x ∉ q :: l1 ++ l2)
        (Hnn : x <> NULL).

(** [list_q_insert] after the last element of [l1] inserts there. *)
Lemma list_q_insert_dll :
  exists h', list_q_insert h q (default q (last l1)) x = Some h' /\
    dll h' q (l1 ++ x :: l2) /\
    (forall y, y ∉ q :: x :: l1 ++ l2 -> same_node h h' y).
Proof using Hd Hx Hnew Hnn.
  remember (default q (last l1)) as p eqn:Ep.
  remember (default q (head l2)) as n eqn:En.
  destruct Hd as [Hl Hnd Hnl Hq]. rewrite <-app_assoc in Hl.
  pose proof (links_at _ _ _ _ Hl) as [Hpn Hnp]. rewrite <-Ep, <-En in *.
  apply lookup_next_of in Hx as [nx Hnx].
  assert (p ∈ q :: l1) as Hp by
    (destruct (last_cases q l1 p Ep) as [[-> ->]|[a ->]]; set_solver).
  assert (n ∈ q :: l2) as Hn by
    (destruct (head_cases q l2 n En) as [[-> ->]|[a ->]]; set_solver).
  assert (p <> x /\ n <> x /\ q <> x) as (Hpx & Hnx' & Hqx) by (clear Ep En; set_solver).
  destruct (dll_alloc h q (l1 ++ l2) n Hd) as [nn Hnn']; [clear Ep En; set_solver|].
  destruct (dll_alloc h q (l1 ++ l2) q Hd) as [qn Hqn]; [clear Ep En; set_solver|].
  unfold list_q_insert.
  destruct (lookup_node _ _ _ Hpn) as (np & -> & E & _). rewrite Hpn in E.
  injection E as E. simpl. rewrite <-E.
  do 4 store_step.
  match goal with |- context [ ?hh !! q ≫= _ ] =>
    assert (exists m, next_of hh q = Some m) as [m Hm] by
      (read_back; repeat case_decide; eauto);
    destruct (lookup_node hh q m Hm) as (nq & -> & _ & _ & Eq)
  end. simpl. store_step.
  eexists; split; [done|].
  assert (Eqn : qlen nq = u32 (Z.of_nat (length (l1 ++ l2)))).
  { revert Eq. read_back. rewrite Hq. congruence. }
  split; [split|].
  - rewrite <-app_assoc. simpl. eapply (links_insert h); [exact Ep|exact En|..]; try done.
    + intros y. read_back. done.
    + intros y. read_back. done.
  - apply NoDup_cons in Hnd as [??]. rewrite <-Permutation_middle.
    rewrite !NoDup_cons. clear Ep En. set_solver.
  - clear Ep En. set_solver.
  - read_back. rewrite decide_True by done. rewrite Eqn, u32_add_l.
    rewrite !length_app. simpl. do 2 f_equal. lia.
  - intros y Hy. unfold same_node. read_back.
    rewrite !decide_False; [done|clear Ep En; set_solver..].
Qed.
End insert.

(** Appending at the tail is inserting after the last element. *)
Lemma list_q_qtail_insert h q l x :
  dll h q l -> list_q_qtail h q x = list_q_insert h q (default q (last l)) x.
Proof.
  intros [Hl _ _ _]. rewrite <-(app_nil_r l) in Hl at 1. rewrite <-app_assoc in Hl.
  pose proof (links_at _ _ _ _ Hl) as [Hpn Hnp]. simpl in *.
  destruct (prev_next_of _ _ _ Hnp) as [m Hm].
  unfold list_q_qtail, list_q_insert.
  destruct (lookup_node _ _ _ Hpn) as (np & -> & E & _ & _).
  destruct (lookup_node _ _ _ Hm) as (nq & -> & _ & E2 & _).
  rewrite Hpn in E. rewrite Hnp in E2. injection E as E. injection E2 as E2.
  simpl. by rewrite <-E, <-E2.
Qed.

Lemma list_q_qtail_dll h q l x :
  dll h q l -> is_Some (h !! x) -> x ∉ q :: l -> x <> NULL ->
  exists h', list_q_qtail h q x = Some h' /\ dll h' q (l ++ [x]) /\
             (forall y, y ∉ q :: x :: l -> same_node h h' y).
Proof.
  intros Hd Hx Hn Hnn. rewrite (list_q_qtail_insert h q l x Hd).
  rewrite <-(app_nil_r l) in Hd, Hn.
  destruct (list_q_insert_dll h q l [] x Hd Hx Hn Hnn) as (h' & E & Hd' & Hs).
  rewrite app_nil_r in Hs. eauto.
Qed.

Lemma last_in (q : Z) l : default q (last l) ∈ q :: l.
Proof. destruct (last_cases q l _ eq_refl) as [[-> ->]|[a ->]]; [|rewrite last_snoc]; set_solver. Qed.

Lemma head_in (q : Z) l : default q (head l) ∈ q :: l.
Proof. destruct l; set_solver. Qed.

Section remove.
Context (h : heap) (q : Z) (l1 l2 : list Z) (c : Z) (Hd : dll h q (l1 ++ c :: l2)).

Lemma unlink_facts (p n : Z) (Ep : p = default q (last l1)) (En : n = default q (head l2)) :
  next_of h c = Some n /\ prev_of h c = Some p /\
  (exists m, next_of h p = Some m) /\ (exists m, next_of h n = Some m) /\
  p <> c /\ n <> c /\ q <> c.
Proof using Hd.
  destruct Hd as [Hl Hnd Hnl Hq]. rewrite <-app_assoc in Hl.
  pose proof (links_at h q (l1 ++ [c]) l2) as H1.
  rewrite last_snoc, <-app_assoc in H1. destruct (H1 Hl) as [Hc _].
  pose proof (links_at h q l1 (c :: l2) Hl) as [_ Hc'].
  assert (p ∈ q :: l1) as Hp by
    (destruct (last_cases q l1 p Ep) as [[-> ->]|[a ->]]; set_solver).
  assert (n ∈ q :: l2) as Hn by
    (destruct (head_cases q l2 n En) as [[-> ->]|[a ->]]; set_solver).
  apply NoDup_cons in Hnd as [Hq' (Hc1 & Hc2 & _)%NoDup_mid].
  simpl in *. rewrite <-Ep in *. rewrite <-En in *. clear Ep En H1 Hl.
  split_and!; try done.
  - eapply dll_alloc; [exact Hd|]. set_solver.
  - eapply dll_alloc; [exact Hd|]. set_solver.
  - set_solver.
  - set_solver.
  - set_solver.
Qed.

(** After the neighbours of [c] point to each other, and whatever happened to
    the links of [c], the rest of the list is represented. *)
Lemma dll_unlinked h' :
  (forall y, y <> c -> next_of h' y = if decide (y = default q (last l1))
                                      then Some (default q (head l2)) else next_of h y) ->
  (forall y, y <> c -> prev_of h' y = if decide (y = default q (head l2))
                                      then Some (default q (last l1)) else prev_of h y) ->
  qlen_of h' q = Some (u32 (u32 (Z.of_nat (length (l1 ++ c :: l2))) - 1)) ->
  dll h' q (l1 ++ l2).
Proof using Hd.
  intros Hn Hp Hlen. destruct Hd as [Hl Hnd Hnl Hq]. rewrite <-app_assoc in Hl. split.
  - rewrite <-app_assoc. eapply (links_remove h); [done..|exact Hl].
  - apply NoDup_cons in Hnd as [? (? & ? & ?)%NoDup_mid]. apply NoDup_cons. set_solver.
  - set_solver.
  - rewrite Hlen, u32_sub_l. rewrite !length_app. simpl. do 2 f_equal. lia.
Qed.

Lemma list_q_remove_dll :
  exists h', list_q_remove h q c = Some h' /\ dll h' q (l1 ++ l2) /\
    (forall y, y ∉ q :: l1 ++ l2 -> same_node h h' y).
Proof using Hd.
  destruct (unlink_facts _ _ eq_refl eq_refl)
    as (Hc & Hc' & [mp Hmp] & [mn Hmn] & Hpc & Hnc & Hqc).
  pose proof (dll_qlen _ _ _ Hd) as Hq.
  destruct (dll_alloc h q _ q Hd) as [qn Hqn]; [set_solver|].
  unfold list_q_remove. destruct (lookup_node _ _ _ Hc) as (nc & -> & E1 & E2 & _).
  rewrite Hc in E1. rewrite Hc' in E2. injection E1 as E1. injection E2 as E2.
  simpl. rewrite <-E1, <-E2.
  do 2 store_step.
  match goal with |- context [ ?hh !! q ≫= _ ] =>
    assert (exists m, next_of hh q = Some m) as [m Hm] by
      (read_back; repeat case_decide; eauto);
    destruct (lookup_node hh q m Hm) as (nq & -> & _ & _ & Eq)
  end. simpl. store_step.
  eexists; split; [done|]. split.
  - apply dll_unlinked.
    + intros y _. by read_back.
    + intros y _. by read_back.
    + read_back. rewrite decide_True by done. revert Eq. read_back. rewrite Hq. congruence.
  - intros y Hy. unfold same_node. read_back.
    pose proof (last_in q l1). pose proof (head_in q l2).
    rewrite !decide_False; [done|..]; intros ->; set_solver.
Qed.
End remove.

(** Dequeueing an empty list returns NULL and changes nothing. *)
Lemma list_q_deq_nil h q : dll h q [] -> list_q_deq h q = Some (h, NULL).
Proof.
  intros Hd. destruct (dll_alloc h q [] q Hd) as [m Hm]; [set_solver|].
  pose proof (dll_qlen _ _ _ Hd) as Hq. unfold list_q_deq.
  destruct (lookup_node _ _ _ Hm) as (nq & -> & _ & _ & Eq). rewrite Hq in Eq.
  injection Eq as Eq. simpl. by rewrite <-Eq.
Qed.

Lemma list_q_deq_cons h q x l :
  dll h q (x :: l) -> Z.of_nat (length (x :: l)) < 4294967296 ->
  exists h', list_q_deq h q = Some (h', x) /\ dll h' q l /\
    (forall y, y ∉ q :: x :: l -> same_node h h' y) /\ is_Some (h' !! x).
Proof.
  intros Hd Hb.
  destruct (unlink_facts h q [] l x Hd _ _ eq_refl eq_refl)
    as (Hc & Hc' & [mp Hmp] & [mn Hmn] & Hpc & Hnc & Hqc). simpl in *.
  pose proof (dll_qlen _ _ _ Hd) as Hq. pose proof (dll_nonnull _ _ _ Hd) as Hnn.
  pose proof (links_at h q [] (x :: l) (dll_links _ _ _ Hd)) as [Hqx _]. simpl in Hqx.
  unfold list_q_deq. destruct (lookup_node _ _ _ Hqx) as (nq & -> & E1 & _ & Eq).
  rewrite Hqx in E1. rewrite Hq in Eq. injection E1 as E1. injection Eq as Eq.
  simpl. rewrite <-E1, <-Eq.
  rewrite u32_small by (simpl; lia).
  rewrite (proj2 (Z.ltb_lt _ _)) by (simpl; lia).
  rewrite (proj2 (Z.eqb_neq _ _)) by set_solver. simpl.
  store_step.
  match goal with |- context [ ?hh !! x ≫= _ ] =>
    assert (next_of hh x = Some (default q (head l))) as Hm by (by read_back);
    assert (prev_of hh x = Some q) as Hm' by (by read_back);
    destruct (lookup_node hh x _ Hm) as (nx & -> & E3 & E4 & _)
  end.
  rewrite Hm in E3. rewrite Hm' in E4. injection E3 as E3. injection E4 as E4.
  simpl. rewrite <-E3, <-E4.
  do 4 store_step.
  eexists; split; [done|]. split_and!.
  - apply (dll_unlinked h q [] l x Hd); simpl.
    + intros y Hy. read_back. repeat case_decide; done.
    + intros y Hy. read_back. repeat case_decide; done.
    + read_back. rewrite decide_True by done.
      rewrite (u32_small (Z.of_nat _)) by (simpl in *; lia). done.
  - intros y Hy. unfold same_node. read_back.
    pose proof (head_in q l).
    rewrite !decide_False; [done|..]; intros ->; set_solver.
  - match goal with |- is_Some (?hh !! _) =>
      assert (exists m, next_of hh x = Some m) as [m Hmx] by
        (read_back; repeat case_decide; eauto)
    end.
    destruct (lookup_node _ _ _ Hmx) as (? & -> & _). eauto.
Qed.

(** ** Refinement of operation sequences *)

(** The nodes an operation queues. *)
Definition op_node (op : qop) : option Z :=
  match op with QTail x => Some x | QInsert _ x => Some x | _ => None end.

Lemma insert_after_split p x l l' :
  insert_after p x l = Some l' -> exists a b, l = a ++ p :: b /\ l' = a ++ p :: x :: b.
Proof.
  revert l'; induction l as [|y r IH]; intros l'; simpl; [done|].
  destruct (Z.eqb_spec y p) as [->|N].
  - intros [= <-]. by exists [], r.
  - destruct (insert_after p x r) as [r'|]; simpl; [|done]. intros [= <-].
    destruct (IH r' eq_refl) as (a & b & -> & ->). by exists (y :: a), b.
Qed.

Lemma remove_first_split x l l' :
  remove_first x l = Some l' -> exists a b, l = a ++ x :: b /\ l' = a ++ b.
Proof.
  revert l'; induction l as [|y r IH]; intros l'; simpl; [done|].
  destruct (Z.eqb_spec y x) as [->|N].
  - intros [= <-]. by exists [], r.
  - destruct (remove_first x r) as [r'|]; simpl; [|done]. intros [= <-].
    destruct (IH r' eq_refl) as (a & b & -> & ->). by exists (y :: a), b.
Qed.

(** Stores allocate and free nothing. *)
Lemma set_next_dom h p v h' : set_next h p v = Some h' -> dom h' = dom h.
Proof.
  unfold set_next. destruct (h !! p) eqn:E; [|done]. intros [= <-].
  rewrite dom_insert_L. apply elem_of_dom_2 in E. set_solver.
Qed.

Lemma set_prev_dom h p v h' : set_prev h p v = Some h' -> dom h' = dom h.
Proof.
  unfold set_prev. destruct (h !! p) eqn:E; [|done]. intros [= <-].
  rewrite dom_insert_L. apply elem_of_dom_2 in E. set_solver.
Qed.

Lemma set_qlen_dom h p v h' : set_qlen h p v = Some h' -> dom h' = dom h.
Proof.
  unfold set_qlen. destruct (h !! p) eqn:E; [|done]. intros [= <-].
  rewrite dom_insert_L. apply elem_of_dom_2 in E. set_solver.
Qed.

Lemma heap_step_dom q h op h' o : heap_step q h op = Some (h', o) -> dom h' = dom h.
Proof.
  intros H. destruct op; unfold heap_step, list_q_qtail, list_q_insert, list_q_remove,
    list_q_deq in H; repeat (case_match || case_test);
  repeat match goal with
  | H : _ ≫= _ = Some _ |- _ => apply bind_Some in H as (? & ? & H)
  | H : (let '(_, _) := ?p in _) = _ |- _ => destruct p
  | H : set_next _ _ _ = Some _ |- _ => apply set_next_dom in H
  | H : set_prev _ _ _ = Some _ |- _ => apply set_prev_dom in H
  | H : set_qlen _ _ _ = Some _ |- _ => apply set_qlen_dom in H
  | H : context [if ?b then _ else _] |- _ => destruct b
  | H : Some _ = Some _ |- _ => injection H as H; subst
  end; congruence.
Qed.

Lemma heap_step_refines q h l op l' o :
  dll h q l -> Z.of_nat (length l) < 4294967296 ->
  (forall x, op_node op = Some x -> x ∈ dom h) ->
  list_step q l op = Some (l', o) ->
  exists h', heap_step q h op = Some (h', o) /\ dll h' q l'.
Proof.
  intros Hd Hb Hdom. destruct op as [x|p x|x|]; simpl.
  - case_decide as Hx; [done|]. intros [= <- <-].
    destruct (list_q_qtail_dll h q l x Hd) as (h' & -> & Hd' & _);
      [apply elem_of_dom, Hdom; auto|set_solver..|]. simpl. eauto.
  - case_decide as Hx; [done|].
    assert (is_Some (h !! x)) as Hs by (apply elem_of_dom, Hdom; eauto).
    destruct (Z.eqb_spec p q) as [->|N].
    + intros [= <- <-].
      destruct (list_q_insert_dll h q [] l x Hd Hs) as (h' & E & Hd' & _);
        [set_solver..|]. simpl in E. rewrite E. simpl. eauto.
    + destruct (insert_after p x l) as [r|] eqn:E; simpl; [|done]. intros [= <- <-].
      apply insert_after_split in E as (a & b & -> & ->).
      change (a ++ p :: b) with (a ++ [p] ++ b) in *. rewrite app_assoc in *.
      destruct (list_q_insert_dll h q (a ++ [p]) b x Hd Hs) as (h' & E & Hd' & _);
        [set_solver..|]. rewrite last_snoc in E. simpl in E. rewrite E. simpl.
      rewrite <-app_assoc in Hd'. eauto.
  - destruct (remove_first x l) as [r|] eqn:E; simpl; [|done]. intros [= <- <-].
    apply remove_first_split in E as (a & b & -> & ->).
    destruct (list_q_remove_dll h q a b x Hd) as (h' & -> & Hd' & _). simpl. eauto.
  - destruct l as [|x r]; intros [= <- <-].
    + rewrite (list_q_deq_nil h q Hd). simpl. eauto.
    + destruct (list_q_deq_cons h q x r Hd Hb) as (h' & -> & Hd' & _). simpl. eauto.
Qed.

Lemma list_step_length q l op l' o :
  list_step q l op = Some (l', o) -> (length l' <= S (length l))%nat.
Proof.
  destruct op as [x|p x|x|]; simpl; repeat case_decide; try done.
  - intros [= <- <-]. rewrite length_app. simpl. lia.
  - case_test; [intros [= <- <-]; simpl; lia|].
    destruct (insert_after p x l) as [r|] eqn:Er; simpl; [|done]. intros [= <- <-].
    apply insert_after_split in Er as (a & b & -> & ->). rewrite !length_app. simpl. lia.
  - destruct (remove_first x l) as [r|] eqn:Er; simpl; [|done]. intros [= <- <-].
    apply remove_first_split in Er as (a & b & -> & ->). rewrite !length_app. simpl. lia.
  - destruct l; intros [= <- <-]; simpl; lia.
Qed.

(** C28: refinement of the intrusive circular list.  Any sequence of
    [list_q_qtail], [list_q_insert], [list_q_remove] and [list_q_deq] that
    respects the client contract (no node queued twice, no NULL node, only
    queued nodes removed) runs on the pointer heap without a fault, returns the
    nodes the functional list returns, and leaves a heap that represents the
    functional list. *)
Theorem list_q_refines q ops : forall h l l' out,
  dll h q l ->
  Z.of_nat (length l) + Z.of_nat (length ops) < 4294967296 ->
  (forall x op, op ∈ ops -> op_node op = Some x -> x ∈ dom h) ->
  list_run q l ops = Some (l', out) ->
  exists h', heap_run q h ops = Some (h', out) /\ dll h' q l'.
Proof.
  induction ops as [|op ops IH]; intros h l l' out Hd Hb Hdom; simpl.
  { intros [= <- <-]. eauto. }
  destruct (list_step q l op) as [[l1 o1]|] eqn:E1; simpl; [|done].
  destruct (list_run q l1 ops) as [[l2 o2]|] eqn:E2; simpl; [|done]. intros [= <- <-].
  pose proof (list_step_length _ _ _ _ _ E1) as Hlen. simpl in Hb.
  destruct (heap_step_refines q h l op l1 o1 Hd) as (h1 & Hs & Hd1); [lia| |done|].
  { intros x. apply Hdom. set_solver. }
  destruct (IH h1 l1 l2 o2 Hd1) as (h2 & Hr & Hd2); [lia| |done|].
  { intros x op' Hop. rewrite (heap_step_dom _ _ _ _ _ Hs). apply Hdom. set_solver. }
  exists h2. rewrite Hs. simpl. rewrite Hr. done.
Qed.

Definition demo_heap : heap :=
  list_to_map ((fun a => (a, mk_list_q a a 0)) <$> [1; 2; 3; 4]).

(** The refinement at a concrete client: head 1, nodes 2, 3 and 4. *)
Lemma list_q_refines_witness :
  exists h', heap_run 1 demo_heap [QTail 2; QTail 3; QInsert 2 4; QRemove 3; QDeq; QDeq; QDeq]
             = Some (h', [2; 4; NULL]) /\ dll h' 1 [].
Proof.
  apply (list_q_refines 1 _ demo_heap [] [] [2; 4; NULL]).
  - split.
    + vm_compute. tauto.
    + constructor; [apply not_elem_of_nil|constructor].
    + apply not_elem_of_nil.
    + vm_compute. reflexivity.
  - vm_compute. reflexivity.
  - intros x op Hop Hx. repeat (apply elem_of_cons in Hop as [->|Hop]; [
      simpl in Hx; (discriminate || (injection Hx as <-; apply elem_of_dom; vm_compute; eexists; reflexivity)) |]).
    inversion Hop.
  - vm_compute. reflexivity.
Defined.

(** ** The singly-linked FIFO *)

(** The chain from pointer [p] runs through [l] and ends in NULL. *)
Fixpoint chain (h : lheap) (p : Z) (l : list Z) : Prop :=
  match l with
  | [] => p = NULL
  | x :: r => p = x /\ x <> NULL /\ exists n, h !! x = Some n /\ chain h n r
  end.

Record llist (h : lheap) (lhd : ssv_llist_head) (l : list Z) : Prop := mk_llist {
  ll_chain : chain h (ll_list lhd) l;
  ll_nodup : NoDup l;
  ll_tail : forall x, last l = Some x -> ll_last lhd = x;
  ll_llen : llen lhd = u32 (Z.of_nat (length l))
}.

Lemma chain_frame h h' p l :
  (forall x, x ∈ l -> h' !! x = h !! x) -> chain h p l -> chain h' p l.
Proof.
  revert p; induction l as [|x r IH]; intros p Hf; simpl; [done|].
  intros (-> & ? & n & Hn & Hc). split_and!; try done. exists n.
  rewrite Hf by set_solver. split; [done|]. apply IH; [|done]. set_solver.
Qed.

Lemma chain_snoc h p l x y :
  NoDup (l ++ [x]) -> chain h p (l ++ [x]) -> y <> NULL -> y ∉ l ++ [x] -> is_Some (h !! y) ->
  chain (<[y := NULL]> (<[x := y]> h)) p (l ++ [x; y]).
Proof.
  intros Hnd Hc Hy Hn Hs. revert p Hc; induction l as [|z r IH]; intros p; simpl.
  - intros (-> & Hx & n & _ & _). split_and!; try done. exists y.
    rewrite lookup_insert_ne by set_solver. rewrite lookup_insert_eq.
    split_and!; try done. exists NULL. by rewrite lookup_insert_eq.
  - intros (-> & Hz & n & Hzn & Hc). split_and!; try done. exists n.
    apply NoDup_cons in Hnd as [? Hnd].
    rewrite !lookup_insert_ne by set_solver. split; [done|].
    apply IH; [done|set_solver|done].
Qed.

(** Initialisation gives the empty list. *)
Lemma llist_init_rep h : llist h llist_head_init [].
Proof. split; simpl; (done || constructor). Qed.

(** Pushing appends at the tail. *)
Lemma llist_push_rep h lhd l x :
  llist h lhd l -> x <> NULL -> x ∉ l -> is_Some (h !! x) ->
  exists h' lhd', llist_push h lhd x = Some (h', lhd') /\ llist h' lhd' (l ++ [x]).
Proof.
  intros [Hc Hnd Ht Hlen] Hx Hn [n Hnx]. unfold llist_push.
  assert (Hd : NoDup (l ++ [x])) by
    (apply NoDup_app; split_and!; [done|set_solver|constructor; [set_solver|constructor]]).
  assert (Hl : u32 (llen lhd + 1) = u32 (Z.of_nat (length (l ++ [x])))) by
    (rewrite Hlen, u32_add_l, length_app; simpl; f_equal; lia).
  destruct l as [|y r _] using rev_ind.
  - simpl in Hc. rewrite Hc, Z.eqb_refl. simpl. rewrite Hnx. simpl.
    do 2 eexists; split; [done|]. split; simpl; try done; [|by intros ? [= ->]].
    split_and!; try done. exists NULL. by rewrite lookup_insert_eq.
  - rewrite (Ht y) in * by apply last_snoc.
    assert (ll_list lhd <> NULL /\ is_Some (h !! y)) as [Hne [m Hy]].
    { clear -Hc. revert Hc. generalize (ll_list lhd). induction r as [|z r IH]; simpl.
      - intros p (-> & ? & n & ? & _). eauto.
      - intros p (-> & ? & n & ? & Hc). split; [done|]. apply (IH n Hc). }
    rewrite (proj2 (Z.eqb_neq _ _) Hne). rewrite Hy. simpl.
    rewrite lookup_insert_ne by set_solver. rewrite Hnx. simpl.
    do 2 eexists; split; [done|]. rewrite <-app_assoc in *. split; simpl; try done.
    + apply chain_snoc; try done.
    + intros z. change (r ++ [y; x]) with (r ++ [y] ++ [x]). rewrite app_assoc, last_snoc.
      by intros [= ->].
Qed.

(** Popping removes the head, and returns NULL exactly on the empty list; the
    tail pointer it leaves behind is never read again. *)
Lemma llist_pop_rep h lhd l :
  llist h lhd l ->
  exists h' lhd', llist_pop h lhd = Some (h', lhd', default NULL (head l)) /\
                  llist h' lhd' (tail l).
Proof.
  intros [Hc Hnd Ht Hlen]. unfold llist_pop. destruct l as [|x r]; simpl in *.
  - rewrite Hc, Z.eqb_refl. simpl. do 2 eexists; split; [done|]. split; simpl; done.
  - destruct Hc as (-> & Hx & n & Hn & Hc). apply NoDup_cons in Hnd as [Hxr Hnd].
    rewrite (proj2 (Z.eqb_neq _ _) Hx). simpl. rewrite Hn. simpl.
    do 2 eexists; split; [done|]. split; simpl; try done.
    + eapply chain_frame; [|exact Hc]. intros y Hy. apply lookup_insert_ne. set_solver.
    + intros y Hy. apply Ht. rewrite last_cons, Hy. done.
    + rewrite Hlen, u32_sub_l. f_equal. lia.
Qed.
