(* ===== verification/SsvString.v ===== *)
(** * SsvString: the C string and memory routines of [lib/ssv_lib.c]

    A [char *] is the list of the bytes from the pointer to the end of the
    object it points into, so that a read or a write past the object is
    visible: the routine then returns [None].  [char] is signed, as on the x86
    and the simulator builds.

    The specifications are stated on the strings the buffers hold ([cstr]): the
    lexicographic order for [ssv6xxx_strcmp], the usual contracts of the copy
    and concatenation routines, and the round trip of [ssv6xxx_atoi] with the
    decimal printer [printi] of [lib/lib-impl.c].  [strncat_overruns] records a
    one-byte overrun of [ssv6xxx_strncat]. *)

From stdpp Require Import base list option.
From Stdlib Require Import ZArith Lia.
From S2P Require Import Prelude.

(** ** Character classes *)

Definition ssv6xxx_toupper (ch : Z) : Z :=
  if (97 <=? ch) && (ch <=? 122) then 65 + (ch - 97) else ch.

Definition ssv6xxx_tolower (ch : Z) : Z :=
  if (65 <=? ch) && (ch <=? 90) then 97 + (ch - 65) else ch.

Definition ssv6xxx_isupper (ch : Z) : bool := (65 <=? ch) && (ch <=? 90).

Definition ssv6xxx_isalpha (c : Z) : Z :=
  if (65 <=? c) && (c <=? 90) then 1
  else if (97 <=? c) && (c <=? 122) then 1 else 0.

(** [while ( *s ) { *s = ssv6xxx_toupper( *s ); s++; }] *)
Fixpoint ssv6xxx_str_toupper (s : list Z) : option (list Z) :=
  match s with
  | [] => None
  | c :: r => if c =? 0 then Some s else cons (ssv6xxx_toupper c) <$> ssv6xxx_str_toupper r
  end.

Fixpoint ssv6xxx_str_tolower (s : list Z) : option (list Z) :=
  match s with
  | [] => None
  | c :: r => if c =? 0 then Some s else cons (ssv6xxx_tolower c) <$> ssv6xxx_str_tolower r
  end.

(** ** Comparison *)

Fixpoint ssv6xxx_strcmp (s0 s1 : list Z) : option Z :=
  match s0, s1 with
  | c1 :: r0, c2 :: r1 =>
      if c1 =? 0 then Some (c1 - c2)
      else if c1 =? c2 then ssv6xxx_strcmp r0 r1
      else Some (c1 - c2)
  | _, _ => None
  end.

(** The loop of [ssv6xxx_strncmp] with [n] the count after the decrement of the
    loop test. *)
Fixpoint strncmp_loop (n : nat) (s1 s2 : list Z) : option Z :=
  match s1, s2 with
  | c1 :: r1, c2 :: r2 =>
      match n with
      | O => Some (s8 c1 - s8 c2)
      | S n' =>
          if negb (c1 =? 0) && (c1 =? c2) then strncmp_loop n' r1 r2
          else Some (s8 c1 - s8 c2)
      end
  | _, _ => None
  end.

Definition ssv6xxx_strncmp (s1 s2 : list Z) (n : nat) : option Z :=
  match n with O => Some 0 | S n' => strncmp_loop n' s1 s2 end.

Fixpoint ssv6xxx_memcmp (s1 s2 : list Z) (n : nat) {struct n} : option Z :=
  match n with
  | O => Some 0
  | S n' =>
      match s1, s2 with
      | c1 :: r1, c2 :: r2 => if c1 - c2 =? 0 then ssv6xxx_memcmp r1 r2 n' else Some (c1 - c2)
      | _, _ => None
      end
  end.

(** ** Search *)

Fixpoint ssv6xxx_strlen (s : list Z) : option nat :=
  match s with
  | [] => None
  | c :: r => if c =? 0 then Some O else S <$> ssv6xxx_strlen r
  end.

(** [ssv6xxx_strchr]: [Some None] is the result [NULL], [Some (Some k)] the
    pointer [s + k]. *)
Fixpoint ssv6xxx_strchr (s : list Z) (c : Z) : option (option nat) :=
  match s with
  | [] => None
  | x :: r =>
      if negb (x =? c) && negb (x =? 0) then option_map (option_map S) (ssv6xxx_strchr r c)
      else Some (if x =? 0 then None else Some O)
  end.

(** The backward loop of [ssv6xxx_strrpos] from the position [p - 1]. *)
Fixpoint strrpos_loop (str : list Z) (delimiter : Z) (p : nat) : Z :=
  match p with
  | O => -1
  | S q => if nth q str 0 =? delimiter then Z.of_nat q else strrpos_loop str delimiter q
  end.

Definition ssv6xxx_strrpos (str : list Z) (delimiter : Z) : option Z :=
  n ← ssv6xxx_strlen str; Some (strrpos_loop str delimiter n).

(** ** Copy *)

Fixpoint ssv6xxx_strcpy (dst src : list Z) : option (list Z) :=
  match dst, src with
  | _ :: d, c :: s => if c =? 0 then Some (c :: d) else cons c <$> ssv6xxx_strcpy d s
  | _, _ => None
  end.

(** [while (--n != 0) *d++ = 0;] *)
Fixpoint nul_pad (d : list Z) (n : nat) {struct n} : option (list Z) :=
  match n with
  | O => Some d
  | S n' => match d with [] => None | _ :: d' => cons 0 <$> nul_pad d' n' end
  end.

Fixpoint ssv6xxx_strncpy (dst src : list Z) (n : nat) {struct n} : option (list Z) :=
  match n with
  | O => Some dst
  | S n' =>
      match dst, src with
      | _ :: d, c :: s =>
          if c =? 0 then cons c <$> nul_pad d n' else cons c <$> ssv6xxx_strncpy d s n'
      | _, _ => None
      end
  end.

Fixpoint ssv6xxx_strcat (s append : list Z) : option (list Z) :=
  match s with
  | [] => None
  | c :: r => if c =? 0 then ssv6xxx_strcpy s append else cons c <$> ssv6xxx_strcat r append
  end.

(** [while ((n--) && (( *s++ = *append++) != 0)) {} *s = '\0';] *)
Fixpoint strncat_loop (s append : list Z) (n : nat) {struct n} : option (list Z) :=
  match n with
  | O => match s with [] => None | _ :: r => Some (0 :: r) end
  | S n' =>
      match s, append with
      | _ :: r, c :: a =>
          if c =? 0
          then match r with [] => None | _ :: r' => Some (c :: 0 :: r') end
          else cons c <$> strncat_loop r a n'
      | _, _ => None
      end
  end.

Fixpoint ssv6xxx_strncat (s append : list Z) (n : nat) : option (list Z) :=
  match s with
  | [] => None
  | c :: r => if c =? 0 then strncat_loop s append n else cons c <$> ssv6xxx_strncat r append n
  end.

Fixpoint ssv6xxx_memset (s : list Z) (c : Z) (n : nat) {struct n} : option (list Z) :=
  match n with
  | O => Some s
  | S n' => match s with [] => None | _ :: r => cons (u8 c) <$> ssv6xxx_memset r c n' end
  end.

Fixpoint ssv6xxx_memcpy (dest src : list Z) (n : nat) {struct n} : option (list Z) :=
  match n with
  | O => Some dest
  | S n' =>
      match dest, src with
      | _ :: d, c :: s => cons c <$> ssv6xxx_memcpy d s n'
      | _, _ => None
      end
  end.

(** ** Numbers *)

(** One character of [ssv6xxx_atoi_base]: the digit value the code computes. *)
Definition atoi_idx (base v : Z) : Z :=
  let idx := v -u32 48 in
  if (10 <? idx) && (base =? 16)
  then (if 97 <=? v then v -u32 97 else v -u32 65) +u32 10
  else idx.

Fixpoint atoi_loop (s : list Z) (base value : Z) : option Z :=
  match s with
  | [] => None
  | v :: r =>
      if v =? 0 then Some value
      else
        let idx := atoi_idx base v in
        if (base -u32 1) <? idx then Some value
        else atoi_loop r base (u32 (value * base + idx))
  end.

Definition ssv6xxx_atoi_base (s : list Z) (base : Z) : option Z := atoi_loop s base 0.

Definition ssv6xxx_atoi (s : list Z) : option Z :=
  match s with
  | [] => None
  | c :: r =>
      if c =? 48 then
        match r with
        | [] => None
        | x :: r' =>
            if (x =? 120) || (x =? 88) then s32 <$> ssv6xxx_atoi_base r' 16
            else if (x =? 98) || (x =? 66) then s32 <$> ssv6xxx_atoi_base r' 2
            else Some 0
        end
      else if c =? 45 then (fun v => s32 (- s32 v)) <$> ssv6xxx_atoi_base r 10
      else s32 <$> ssv6xxx_atoi_base s 10
  end.

(** ** The number printer of [lib/lib-impl.c] *)

Definition PAD_RIGHT : Z := 1.
Definition PAD_ZERO : Z := 2.
Definition PRINT_BUF_LEN : nat := 12.

(** The characters written to [*out] so far and [out_end - out]; [None] is
    [out_end == NULL].  A character beyond [out_end] is dropped. *)
Definition printchar (out : list Z) (out_end : option nat) (c : Z) : list Z :=
  match out_end with
  | Some e => if (e <? length out)%nat then out else out ++ [c]
  | None => out ++ [c]
  end.

(** [for ( ; width > 0; --width) printchar(padchar)] *)
Fixpoint print_pad (out : list Z) (out_end : option nat) (padchar : Z) (width : nat) : list Z :=
  match width with
  | O => out
  | S w => print_pad (printchar out out_end padchar) out_end padchar w
  end.

(** [for ( ; *string ; ++string) printchar( *string )] on a string given by its
    characters. *)
Definition print_chars (out : list Z) (out_end : option nat) (string : list Z) : list Z :=
  fold_left (fun o c => printchar o out_end c) string out.

(** [prints]: the new output and the count [pc]. *)
Definition prints (out : list Z) (out_end : option nat) (string : list Z) (width pad : Z) :
  list Z * Z :=
  let len := Z.of_nat (length string) in
  let w := if 0 <? width then (if width <=? len then 0 else width - len) else width in
  let padchar := if (0 <? width) && negb (Z.land pad PAD_ZERO =? 0) then 48 else 32 in
  let left := if Z.land pad PAD_RIGHT =? 0 then w else 0 in
  let right := if Z.land pad PAD_RIGHT =? 0 then 0 else w in
  let o1 := print_pad out out_end padchar (Z.to_nat left) in
  let o2 := print_chars o1 out_end string in
  (print_pad o2 out_end padchar (Z.to_nat right),
   Z.of_nat (Z.to_nat left) + len + Z.of_nat (Z.to_nat right)).

(** [while (u) { t = u % b; ...; *--s = t + '0'; u /= b; }] with [room] bytes of
    [print_buf] left in front of [s]; [None] is a write before the buffer. *)
Fixpoint printi_loop (fuel : nat) (u b letbase : Z) (s : list Z) (room : nat) :
  option (list Z * nat) :=
  match fuel with
  | O => None
  | S f =>
      if u =? 0 then Some (s, room)
      else
        match room with
        | O => None
        | S room' =>
            let t := u mod b in
            let t := if 10 <=? t then t + (letbase - 58) else t in
            printi_loop f (u / b) b letbase ((t + 48) :: s) room'
        end
  end.

Definition printi (out : list Z) (out_end : option nat) (i b : Z) (sg : bool)
    (width pad letbase : Z) : option (list Z * Z) :=
  if i =? 0 then Some (prints out out_end [48] width pad)
  else
    let neg := sg && (b =? 10) && (i <? 0) in
    let u := if neg then u32 (- i) else u32 i in
    match printi_loop 33 u b letbase [] (PRINT_BUF_LEN - 1) with
    | None => None
    | Some (s, room) =>
        if neg then
          if negb (width =? 0) && negb (Z.land pad PAD_ZERO =? 0)
          then let '(o, pc) := prints (printchar out out_end 45) out_end s (width - 1) pad in
               Some (o, pc + 1)
          else match room with
               | O => None
               | S _ => Some (prints out out_end (45 :: s) width pad)
               end
        else Some (prints out out_end s width pad)
    end.

(** ** Strings held by buffers *)

Definition is_char (c : Z) : Prop := 0 < c < 256.

(** [buf] holds the NUL-terminated string [t]. *)
Definition cstr (buf t : list Z) : Prop :=
  Forall is_char t /\ exists rest, buf = t ++ 0 :: rest.

Fixpoint lex_lt (s t : list Z) : Prop :=
  match s, t with
  | _, [] => False
  | [], _ :: _ => True
  | a :: r, b :: q => a < b \/ (a = b /\ lex_lt r q)
  end.

Lemma cstr_nil buf : cstr buf [] <-> exists rest, buf = 0 :: rest.
Proof. split; [intros [_ H]; exact H|intros H; split; [constructor|exact H]]. Qed.

Lemma cstr_cons buf c t :
  cstr buf (c :: t) <-> is_char c /\ exists buf', buf = c :: buf' /\ cstr buf' t.
Proof.
  split.
  - intros [Hf [rest ->]]. inversion Hf; subst. split; [done|]. eexists. split; [reflexivity|].
    split; [done|]. by exists rest.
  - intros [Hc (b & -> & Hf & rest & ->)]. split; [by constructor|]. by exists rest.
Qed.

(** Opens the buffer of a [cstr] hypothesis along its string. *)
Ltac cstr_inv :=
  repeat match goal with
  | H : cstr _ [] |- _ => apply cstr_nil in H as [? ->]
  | H : cstr _ (_ :: _) |- _ =>
      let Hc := fresh "Hc" in
      apply cstr_cons in H; destruct H as [Hc (? & -> & H)]; unfold is_char in Hc
  end.

(** Decides the code's test on the first character. *)
Ltac head_test :=
  match goal with
  | |- context [ ?c =? ?d ] =>
      first [ replace (c =? d) with false by lia | replace (c =? d) with true by lia ]
  end.

Lemma strlen_cstr buf t : cstr buf t -> ssv6xxx_strlen buf = Some (length t).
Proof.
  revert buf; induction t as [|c t IH]; intros buf H; cstr_inv; simpl; [done|].
  head_test. by rewrite (IH _ H).
Qed.

Lemma strcmp_cstr s0 s1 t0 t1 :
  cstr s0 t0 -> cstr s1 t1 ->
  exists d, ssv6xxx_strcmp s0 s1 = Some d /\ (d = 0 <-> t0 = t1) /\ (d < 0 <-> lex_lt t0 t1).
Proof.
  revert s0 s1 t1; induction t0 as [|a t0 IH]; intros s0 s1 [|b t1] H0 H1; cstr_inv; simpl.
  - eexists; split_and!; [done|split; [done|lia]|lia].
  - eexists; split_and!; [done|split; [lia|done]|split; [done|lia]].
  - head_test. destruct (Z.eqb_spec a 0); [lia|].
    eexists; split_and!; [done|split; [lia|by intros ?]|split; [lia|by intros ?]].
  - head_test. destruct (Z.eqb_spec a b) as [->|Hab].
    + destruct (IH _ _ t1 H0 H1) as (d & -> & He & Hl). exists d. split_and!; [done| |].
      * rewrite He. split; [by intros ->|by intros [= ->]].
      * rewrite Hl. split; [auto|intros [?|[_ ?]]; [lia|done]].
    + eexists; split_and!; [done|split; [lia|intros [= E _]; lia]|].
      split; [left; lia|intros [?|[? _]]; lia].
Qed.

Lemma memcmp_spec n s1 s2 :
  (n <= length s1)%nat -> (n <= length s2)%nat ->
  exists d, ssv6xxx_memcmp s1 s2 n = Some d /\ (d = 0 <-> take n s1 = take n s2).
Proof.
  revert s1 s2; induction n as [|n IH]; intros s1 s2 H1 H2; simpl; [by exists 0|].
  destruct s1 as [|a s1], s2 as [|b s2]; simpl in *; [lia..|].
  destruct (Z.eqb_spec (a - b) 0) as [E|E].
  - destruct (IH s1 s2) as (d & -> & He); [lia..|]. exists d. split; [done|].
    rewrite He. assert (a = b) as -> by lia. split; [by intros ->|by intros [= ->]].
  - exists (a - b). split; [done|]. split; [done|]. intros [= -> _]. lia.
Qed.

Lemma strcpy_cstr dst src t :
  cstr src t -> (length t < length dst)%nat ->
  ssv6xxx_strcpy dst src = Some (t ++ 0 :: drop (S (length t)) dst).
Proof.
  revert dst src; induction t as [|c t IH]; intros [|x dst] src H Hl; cstr_inv; simpl in *;
    try lia; [done|].
  head_test. by rewrite (IH dst _ H) by lia.
Qed.

Lemma strcat_cstr s append t a :
  cstr s t -> cstr append a -> (length t + length a < length s)%nat ->
  ssv6xxx_strcat s append = Some (t ++ a ++ 0 :: drop (S (length t + length a)) s).
Proof.
  revert s; induction t as [|c t IH]; intros s Hs Ha Hl; cstr_inv; simpl in *.
  - exact (strcpy_cstr (0 :: _) _ _ Ha Hl).
  - head_test. by rewrite (IH _ Hs Ha) by lia.
Qed.

Lemma nul_pad_spec d n : (n <= length d)%nat -> nul_pad d n = Some (replicate n 0 ++ drop n d).
Proof.
  revert d; induction n as [|n IH]; intros [|x d] H; simpl in *; try lia; try done.
  by rewrite IH by lia.
Qed.

Lemma strncpy_cstr dst src t n :
  cstr src t -> (n <= length dst)%nat ->
  ssv6xxx_strncpy dst src n =
    Some (take n t ++ replicate (n - length t) 0 ++ drop n dst).
Proof.
  revert dst src n; induction t as [|c t IH]; intros dst src n H Hl; cstr_inv.
  - destruct n as [|n]; [done|]. destruct dst as [|y dst]; simpl in *; [lia|].
    by rewrite nul_pad_spec by lia.
  - destruct n as [|n]; [done|]. destruct dst as [|y dst]; simpl in *; [lia|].
    head_test. by rewrite (IH dst _ n H) by lia.
Qed.

(** [ssv6xxx_strncat] writes two terminators when it copies the NUL of
    [append]; the buffer must have room for both. *)
Lemma strncat_loop_cstr s append a n :
  cstr append a -> (length a < n)%nat -> (S (length a) < length s)%nat ->
  strncat_loop s append n = Some (a ++ 0 :: 0 :: drop (S (S (length a))) s).
Proof.
  revert s append n; induction a as [|c a IH]; intros [|x s] append [|n] H Hn Hl; cstr_inv;
    simpl in *; try lia.
  - destruct s; simpl in *; [lia|done].
  - head_test. by rewrite (IH s _ n H) by lia.
Qed.

Lemma strncat_loop_exact s append a n :
  cstr append a -> (length a < n)%nat -> length s = S (length a) -> strncat_loop s append n = None.
Proof.
  revert s append n; induction a as [|c a IH]; intros [|x s] append [|n] H Hn Hl; cstr_inv;
    simpl in *; try lia.
  - destruct s; simpl in *; [done|lia].
  - head_test. by rewrite (IH s _ n H) by lia.
Qed.

(** A buffer with exactly the room the C standard asks of [strncat]. *)
Lemma strncat_exact s append t a n :
  cstr s t -> cstr append a -> (length a < n)%nat -> length s = (length t + length a + 1)%nat ->
  ssv6xxx_strncat s append n = None.
Proof.
  revert s; induction t as [|c t IH]; intros s Hs Ha Hn Hl; cstr_inv; simpl in *.
  - apply (strncat_loop_exact (0 :: _) append a n Ha Hn). simpl. lia.
  - head_test. by rewrite (IH _ Hs Ha Hn) by lia.
Qed.

(** ** Decimal printing and scanning *)

Lemma atoi_idx_digit t : 0 <= t < 10 -> atoi_idx 10 (t + 48) = t.
Proof. intros. unfold atoi_idx. rewrite andb_false_r. unfold u32. lia. Qed.

Lemma atoi_loop_digit t r v :
  0 <= t < 10 -> 0 <= v * 10 + t < 4294967296 ->
  atoi_loop ((t + 48) :: r) 10 v = atoi_loop r 10 (v * 10 + t).
Proof.
  intros Ht Hv. cbn [atoi_loop]. head_test. rewrite atoi_idx_digit by done.
  replace (10 -u32 1 <? t) with false by (unfold u32; lia). by rewrite u32_small.
Qed.

Lemma printi_loop_decimal k : forall fuel u lb s room,
  (k < fuel)%nat -> (k <= room)%nat -> 0 <= u < 10 ^ Z.of_nat k ->
  exists ds,
    printi_loop fuel u 10 lb s room = Some (ds ++ s, (room - length ds)%nat) /\
    (length ds <= k)%nat /\
    (forall v r, 0 <= v -> v * 10 ^ Z.of_nat (length ds) + u < 4294967296 ->
       atoi_loop (ds ++ r) 10 v = atoi_loop r 10 (v * 10 ^ Z.of_nat (length ds) + u)) /\
    (0 < u -> exists c r, ds = c :: r /\ 49 <= c <= 57) /\
    (u = 0 -> ds = []).
Proof.
  induction k as [|k IH]; intros [|fuel] u lb s room Hf Hr Hu; try lia; simpl.
  - change (10 ^ Z.of_nat 0) with 1 in Hu. assert (u = 0) as -> by lia. exists []. simpl.
    split_and!; [by rewrite Nat.sub_0_r|lia| |lia|done].
    intros v r _ _. f_equal. change (Z.of_nat 0) with 0. lia.
  - destruct (Z.eqb_spec u 0) as [->|Hu0].
    { exists []. simpl. split_and!; [by rewrite Nat.sub_0_r|lia| |lia|done].
      intros v r _ _. f_equal. change (Z.of_nat 0) with 0. lia. }
    destruct room as [|room]; [lia|].
    replace (10 <=? u mod 10) with false by lia.
    rewrite Nat2Z.inj_succ, Z.pow_succ_r in Hu by lia.
    destruct (IH fuel (u / 10) lb ((u mod 10 + 48) :: s) room) as (ds & -> & Hl & Ha & Hd & Hz);
      [lia..|].
    exists (ds ++ [u mod 10 + 48]). rewrite length_app. simpl length. split_and!.
    + rewrite <-app_assoc. f_equal. f_equal. lia.
    + lia.
    + intros v r Hv. rewrite Nat2Z.inj_add, Z.pow_add_r by lia.
      change (10 ^ Z.of_nat 1) with 10. intros Hb.
      assert (0 <= v * 10 ^ Z.of_nat (length ds)) by (apply Z.mul_nonneg_nonneg; [lia|apply Z.pow_nonneg; lia]).
      rewrite <-app_assoc. cbn [app]. rewrite Ha by lia. rewrite atoi_loop_digit by lia.
      f_equal. lia.
    + intros _. destruct (Z.eq_dec (u / 10) 0) as [E|E].
      * rewrite (Hz E). eexists _, []. split; [reflexivity|]. lia.
      * destruct Hd as (c & r & -> & Hc); [lia|]. eexists c, _. by split.
    + done.
Qed.

Lemma print_chars_unbounded out s : print_chars out None s = out ++ s.
Proof.
  unfold print_chars. revert out; induction s as [|c s IH]; intros out; simpl; [by rewrite app_nil_r|].
  by rewrite IH, <-app_assoc.
Qed.

Lemma prints_plain s : prints [] None s 0 0 = (s, Z.of_nat (length s)).
Proof.
  unfold prints. change (0 <? 0) with false. change (Z.land 0 PAD_RIGHT =? 0) with true.
  change (Z.to_nat 0) with 0%nat. cbn [print_pad]. rewrite print_chars_unbounded.
  f_equal. lia.
Qed.

(** Scanning a number that [printi_loop] produced. *)
Lemma atoi_printed u :
  0 < u < 4294967296 ->
  exists ds c r,
    printi_loop 33 u 10 97 [] (PRINT_BUF_LEN - 1) = Some (ds, S (10 - length ds)) /\
    (length ds <= 10)%nat /\ ds = c :: r /\ 49 <= c <= 57 /\
    ssv6xxx_atoi_base (ds ++ [0]) 10 = Some u.
Proof.
  intros Hu. destruct (printi_loop_decimal 10 33 u 97 [] 11) as (ds & Hp & Hl & Ha & Hd & _);
    [lia..|].
  destruct Hd as (c & r & -> & Hc); [lia|]. exists (c :: r), c, r. split_and!; try done; try lia.
  - change (PRINT_BUF_LEN - 1)%nat with 11%nat. rewrite Hp, app_nil_r. f_equal. f_equal.
    simpl in *. lia.
  - unfold ssv6xxx_atoi_base. rewrite Ha by lia. cbn [atoi_loop]. f_equal; lia.
Qed.

(** ** Properties *)

(** C40: Round trip of numbers: every 32-bit integer printed by [printi] in
    signed decimal is printed within [print_buf] and read back unchanged by
    [ssv6xxx_atoi]. *)
Theorem atoi_printi n :
  -2147483648 <= n < 2147483648 ->
  exists s, printi [] None n 10 true 0 0 97 = Some (s, Z.of_nat (length s)) /\
            ssv6xxx_atoi (s ++ [0]) = Some n.
Proof.
  intros Hn. unfold printi. destruct (Z.eqb_spec n 0) as [->|Hn0]; [by exists [48]|].
  change (true && (10 =? 10)) with true. destruct (Z.ltb_spec n 0) as [Hneg|Hpos]; cbn [andb].
  - rewrite u32_small by lia.
    destruct (atoi_printed (- n)) as (ds & c & r & -> & Hl & Hds & Hc & Ha); [lia|].
    rewrite andb_false_r. exists (45 :: ds). rewrite prints_plain. split; [done|].
    cbn [ssv6xxx_atoi app]. change (45 =? 48) with false. change (45 =? 45) with true. cbn iota.
    rewrite Ha. simpl. f_equal. unfold s32, u32. repeat case_test; lia.
  - rewrite u32_small by lia.
    destruct (atoi_printed n) as (ds & c & r & -> & Hl & Hds & Hc & Ha); [lia|].
    exists ds. rewrite prints_plain. split; [done|]. subst ds.
    cbn [ssv6xxx_atoi app] in *. replace (c =? 48) with false by lia.
    replace (c =? 45) with false by lia. rewrite Ha. simpl. by rewrite s32_small by lia.
Qed.

Lemma atoi_printi_witness :
  exists s, printi [] None (-2147483648) 10 true 0 0 97 = Some (s, Z.of_nat (length s)) /\
            ssv6xxx_atoi (s ++ [0]) = Some (-2147483648).
Proof. apply (atoi_printi (-2147483648)). lia. Defined.

(** [ssv6xxx_strncat] overruns: when [append] is shorter than [n] and the
    destination has exactly the room of the concatenated string and its NUL,
    the routine writes one byte past the destination. *)
Theorem strncat_overruns s append t a n :
  cstr s t -> cstr append a -> (length a < n)%nat -> length s = (length t + length a + 1)%nat ->
  ssv6xxx_strncat s append n = None.
Proof. apply strncat_exact. Qed.

Lemma strncat_overruns_witness : ssv6xxx_strncat [97; 0; 255] [98; 0] 5 = None.
Proof.
  apply (strncat_overruns _ _ [97] [98]); [| |simpl; lia|reflexivity].
  - split; [repeat constructor; unfold is_char; lia|by exists [255]].
  - split; [repeat constructor; unfold is_char; lia|by exists []].
Defined.

(** The hexadecimal scanner takes the characters [':'] to ['@'] for digits:
    ["0x;"] is read as 4. *)
Example atoi_hex_punctuation : ssv6xxx_atoi [48; 120; 59; 0] = Some 4.
Proof. reflexivity. Qed.
