(* ===== verification/Reorder.v ===== *)
(** * Reorder: the A-MPDU receive reordering buffer of [core/txrx_hdl.c]

    One [struct rx_ba_session_desc] per station and TID holds the frames of a
    Block-Ack session that arrived before their predecessors.  The model keeps
    the ring buffer, the time stamps and the four counters of the C struct, and
    follows the functions from [seq_less] to [ieee80211_addba_handler] line by
    line.  A handler returns the new session together with the list of frames
    it hands to [send_to_data_handler] ([Deliver]) or to [os_frame_free]
    ([Free]), in order; [None] is an [ASSERT(0)] (the code halts), an array
    access outside the buffer, a division by zero or a loop that does not end.

    What is a parameter: the receive descriptor of a frame is the record of the
    values the HAL getters return; [sta_disconnected] is the test
    [hw_mode == STA && status == DISCONNECT] on a virtual interface; [tick]
    gives the value of [OS_GetSysTick] when a slot is examined;
    [null_read] is what the load of the descriptor through a NULL frame does,
    because [ieee80211_release_reorder_frame] reads the descriptor before it
    tests the pointer: [None] where that load faults, [Some b] where it answers
    with the interface index [b].  The platform is [null_safe] when it answers
    with an index below [MAX_VIF_NUM]; elsewhere a release that passes an empty
    slot halts, and [reorder_in_order] and [reorder_conserves_frames] say at
    which operations that happens. *)

From stdpp Require Import base list gmap.
From Stdlib Require Import ZArith Lia Sorted.
From S2P Require Import Prelude.

(** ** Data *)

(** What the code reads of a received frame through [ssv_hal_get_rxpkt_*]. *)
Record rx_frame : Type := mk_rx_frame {
  rx_id : Z;
  rx_seqnum : Z;
  rx_bssid_idx : Z;
  rx_wsid : Z;
  rx_tid : Z;
  rx_f80211 : bool;
  rx_qos : bool
}.

Record rx_ba_session_desc : Type := mk_session {
  reorder_buf : list (option rx_frame);
  reorder_time : list Z;
  head_seq_num : Z;
  stored_mpdu_num : Z;
  ssn : Z;
  buf_size : Z
}.

Inductive rx_event : Type :=
| Deliver (f : rx_frame)
| Free (f : rx_frame).

Definition MAX_VIF_NUM : Z := 2.
Definition HT_RX_REORDER_BUF_TIMEOUT : Z := 10.
Definition SEQ_MODULO : Z := 0x1000.
Definition SEQ_MASK : Z := 0xfff.

(** The platform answers a load through NULL with a valid interface index. *)
Definition null_safe (null_read : option Z) : Prop :=
  exists b, null_read = Some b /\ b < MAX_VIF_NUM.

#[export] Instance null_safe_dec nr : Decision (null_safe nr).
Proof.
  destruct nr as [b|]; [destruct (decide (b < MAX_VIF_NUM)) as [H|H]|].
  - left. by exists b.
  - right. intros (? & [= <-] & ?). lia.
  - right. by intros (? & [=] & ?).
Defined.

(** ** Sequence numbers *)

Definition seq_less (sq1 sq2 : Z) : bool :=
  Z.shiftr SEQ_MODULO 1 <? Z.land (sq1 - sq2) SEQ_MASK.

Definition seq_inc (sq : Z) : Z := Z.land (sq + 1) SEQ_MASK.

Definition seq_sub (sq1 sq2 : Z) : Z := Z.land (sq1 - sq2) SEQ_MASK.

(** [time_after(a,b)] of include/os_wrapper.h, on a 32-bit [long]. *)
Definition time_after (a b : Z) : bool := s32 (s32 b - s32 a) <? 0.

Definition set_head (s : rx_ba_session_desc) (h : Z) : rx_ba_session_desc :=
  mk_session (reorder_buf s) (reorder_time s) h (stored_mpdu_num s) (ssn s) (buf_size s).

(** [seq_sub(seq, ssn) % buf_size] *)
Definition slot_index (s : rx_ba_session_desc) (seq : Z) : option Z :=
  if buf_size s =? 0 then None else Some (Z.rem (seq_sub seq (ssn s)) (buf_size s)).

(** [reorder_buf[j]] *)
Definition slot (s : rx_ba_session_desc) (j : Z) : option (option rx_frame) :=
  if j <? 0 then None else reorder_buf s !! Z.to_nat j.

Section handlers.
Context (sta_disconnected : Z -> bool) (null_read : option Z) (tick : Z -> Z).

(** [void ieee80211_release_reorder_frame(tid_agg_rx, index)] *)
Definition ieee80211_release_reorder_frame (s : rx_ba_session_desc) (index : Z)
  : option (rx_ba_session_desc * list rx_event) :=
  frame ← slot s index;
  bssid_idx ← match frame with Some f => Some (rx_bssid_idx f) | None => null_read end;
  if MAX_VIF_NUM <=? bssid_idx then None
  else
    match frame with
    | None => Some (set_head s (seq_inc (head_seq_num s)), [])
    | Some f =>
        let s' := mk_session (<[Z.to_nat index := None]> (reorder_buf s)) (reorder_time s)
                    (seq_inc (head_seq_num s)) (stored_mpdu_num s -u16 1) (ssn s) (buf_size s) in
        Some (s', [if sta_disconnected bssid_idx then Free f else Deliver f])
    end.

(** The loop of [ieee80211_release_reorder_frames]. *)
Fixpoint release_loop (fuel : nat) (s : rx_ba_session_desc) (target : Z)
  : option (rx_ba_session_desc * list rx_event) :=
  if seq_less (head_seq_num s) target then
    match fuel with
    | O => None
    | S k =>
        index ← slot_index s (head_seq_num s);
        '(s1, e1) ← ieee80211_release_reorder_frame s index;
        '(s2, e2) ← release_loop k s1 target;
        Some (s2, e1 ++ e2)
    end
  else Some (s, []).

Definition ieee80211_release_reorder_frames (s : rx_ba_session_desc) (target : Z)
  : option (rx_ba_session_desc * list rx_event) :=
  release_loop (Z.to_nat SEQ_MODULO) s target.

(** The loop over timed-out frames; the boolean is [goto set_release_timer]. *)
Fixpoint timeout_loop (fuel : nat) (s : rx_ba_session_desc) (index j skipped : Z)
  : option (rx_ba_session_desc * list rx_event * bool) :=
  if j =? index then Some (s, [], false)
  else
    match fuel with
    | O => None
    | S k =>
        let j' := Z.rem (j + 1) (buf_size s) in
        frame ← slot s j;
        match frame with
        | None => timeout_loop k s index j' (skipped + 1)
        | Some _ =>
            t ← reorder_time s !! Z.to_nat j;
            if negb (skipped =? 0) && negb (time_after (tick j) (t +u32 HT_RX_REORDER_BUF_TIMEOUT))
            then Some (s, [], true)
            else
              '(s1, e1) ← ieee80211_release_reorder_frame s j;
              let s2 := set_head s1 (Z.land (head_seq_num s1 + skipped) SEQ_MASK) in
              '(s3, e3, b) ← timeout_loop k s2 index j' 0;
              Some (s3, e1 ++ e3, b)
        end
    end.

(** [while (tid_agg_rx->reorder_buf[index])]: release up to the next gap. *)
Fixpoint ready_loop (fuel : nat) (s : rx_ba_session_desc) (index : Z)
  : option (rx_ba_session_desc * list rx_event) :=
  frame ← slot s index;
  match frame with
  | None => Some (s, [])
  | Some _ =>
      match fuel with
      | O => None
      | S k =>
          '(s1, e1) ← ieee80211_release_reorder_frame s index;
          index' ← slot_index s1 (head_seq_num s1);
          '(s2, e2) ← ready_loop k s1 index';
          Some (s2, e1 ++ e2)
      end
  end.

(** The trailing search for the next stored frame.  [(index - 1) % buf_size]
    is C's remainder: it is [-1] for [index = 0], which no [j] equals. *)
Fixpoint scan_loop (fuel : nat) (s : rx_ba_session_desc) (index j : Z) : option unit :=
  if j =? Z.rem (index - 1) (buf_size s) then Some tt
  else
    match fuel with
    | O => None
    | S k =>
        frame ← slot s j;
        match frame with
        | Some _ => Some tt
        | None => scan_loop k s index (Z.rem (j + 1) (buf_size s))
        end
    end.

(** The first half of [ieee80211_sta_reorder_release]: timed-out frames when
    the head slot is empty, else the frames up to the next gap. *)
Definition release_ready (s : rx_ba_session_desc) (index : Z)
  : option (rx_ba_session_desc * list rx_event * bool) :=
  let n := S (length (reorder_buf s)) in
  frame ← slot s index;
  match frame with
  | None =>
      if stored_mpdu_num s =? 0 then Some (s, [], false)
      else timeout_loop n s index (Z.rem (index + 1) (buf_size s)) 1
  | Some _ => '(s1, e1) ← ready_loop n s index; Some (s1, e1, false)
  end.

(** [void ieee80211_sta_reorder_release(struct rx_ba_session_desc *tid_agg_rx)] *)
Definition ieee80211_sta_reorder_release (s : rx_ba_session_desc)
  : option (rx_ba_session_desc * list rx_event) :=
  index ← slot_index s (head_seq_num s);
  '(s1, e1, goto_timer) ← release_ready s index;
  if (goto_timer : bool) then Some (s1, e1)
  else if stored_mpdu_num s1 =? 0 then Some (s1, e1)
  else
    index1 ← slot_index s1 (head_seq_num s1);
    _ ← scan_loop (S (length (reorder_buf s1))) s1 index1 index1;
    Some (s1, e1).

(** [static bool ieee80211_sta_manage_reorder_buf(tid_agg_rx, frame)];
    [tick_store] is the [OS_GetSysTick] of the time stamp. *)
Definition ieee80211_sta_manage_reorder_buf (tick_store : Z)
    (s : rx_ba_session_desc) (frame : rx_frame)
  : option (rx_ba_session_desc * list rx_event * bool) :=
  let mpdu_seq_num := u16 (rx_seqnum frame) in
  let bufsz := buf_size s in
  let head := head_seq_num s in
  if seq_less mpdu_seq_num head then Some (s, [Free frame], true)
  else
    '(s1, e1) ←
      (if negb (seq_less mpdu_seq_num (head +u16 bufsz))
       then ieee80211_release_reorder_frames s (seq_inc (seq_sub mpdu_seq_num bufsz))
       else Some (s, []));
    index ← slot_index s1 mpdu_seq_num;
    old ← slot s1 index;
    match old with
    | Some _ => Some (s1, e1 ++ [Free frame], true)
    | None =>
        if (mpdu_seq_num =? head_seq_num s1) && (stored_mpdu_num s1 =? 0)
        then Some (set_head s1 (seq_inc (head_seq_num s1)), e1, false)
        else
          _ ← reorder_time s1 !! Z.to_nat index;
          let s2 := mk_session (<[Z.to_nat index := Some frame]> (reorder_buf s1))
                      (<[Z.to_nat index := tick_store]> (reorder_time s1))
                      (head_seq_num s1) (stored_mpdu_num s1 +u16 1) (ssn s1) (buf_size s1) in
          '(s3, e3) ← ieee80211_sta_reorder_release s2;
          Some (s3, e1 ++ e3, true)
    end.

(** ** The table [g_ba_rx_session_desc[wsid][tid]] *)

Definition get_session (g : list (list rx_ba_session_desc)) (wsid tid : Z)
  : option rx_ba_session_desc :=
  row ← g !! Z.to_nat wsid; row !! Z.to_nat tid.

Definition put_session (g : list (list rx_ba_session_desc)) (wsid tid : Z)
    (s : rx_ba_session_desc) : list (list rx_ba_session_desc) :=
  alter (fun row => <[Z.to_nat tid := s]> row) (Z.to_nat wsid) g.

(** [void ieee80211_rx_reorder_ampdu(void * frame)]; the table has
    [stations] rows of [RX_AGG_RX_BA_MAX_SESSIONS] = 1 session. *)
Definition ieee80211_rx_reorder_ampdu (stations : Z) (tick_store : Z)
    (g : list (list rx_ba_session_desc)) (frame : rx_frame)
  : option (list (list rx_ba_session_desc) * list rx_event) :=
  if MAX_VIF_NUM <=? rx_bssid_idx frame then None
  else
    let dont_reorder := Some (g, [Deliver frame]) in
    if rx_f80211 frame then dont_reorder
    else if negb (rx_qos frame) then dont_reorder
    else if stations <=? rx_wsid frame then dont_reorder
    else if 1 <=? rx_tid frame then dont_reorder
    else
      s ← get_session g (rx_wsid frame) (rx_tid frame);
      if buf_size s =? 0 then dont_reorder
      else
        '(s1, e1, consumed) ← ieee80211_sta_manage_reorder_buf tick_store s frame;
        let g' := put_session g (rx_wsid frame) (rx_tid frame) s1 in
        if (consumed : bool) then Some (g', e1) else Some (g', e1 ++ [Deliver frame]).

(** The Block-Ack-Request branch of [_RxHdl_FrameProc]: [control] and
    [start_seq_ctl] are the two 16-bit fields of [struct ieee80211_bar]. *)
Definition RxHdl_handle_bar (stations : Z) (g : list (list rx_ba_session_desc))
    (wsid control start_seq_ctl : Z)
  : option (list (list rx_ba_session_desc) * list rx_event) :=
  let tid := Z.shiftr control 12 in
  if (wsid <? stations) && (tid <? 1) then
    s ← get_session g wsid tid;
    if negb (buf_size s =? 0) then
      '(s1, e1) ← ieee80211_release_reorder_frames s (Z.shiftr start_seq_ctl 4);
      Some (put_session g wsid tid s1, e1)
    else Some (g, [])
  else Some (g, []).

(** [for (index = 0; index < ampdu_rx_buf_size; index++)
      ieee80211_release_reorder_frame(tid_agg_rx, index)] *)
Fixpoint release_all (n : nat) (index : Z) (s : rx_ba_session_desc)
  : option (rx_ba_session_desc * list rx_event) :=
  match n with
  | O => Some (s, [])
  | S k =>
      '(s1, e1) ← ieee80211_release_reorder_frame s index;
      '(s2, e2) ← release_all k (index + 1) s1;
      Some (s2, e1 ++ e2)
  end.

(** The body of [ieee80211_delete_ampdu_rx] for one session. *)
Definition delete_session (ampdu_rx_buf_size : Z) (s : rx_ba_session_desc)
  : option (rx_ba_session_desc * list rx_event) :=
  '(s1, e1) ← release_all (Z.to_nat ampdu_rx_buf_size) 0 s;
  let times := replicate (Z.to_nat ampdu_rx_buf_size) 0
                 ++ drop (Z.to_nat ampdu_rx_buf_size) (reorder_time s1) in
  Some (mk_session (reorder_buf s1) times 0 0 0 0, e1).

(** [void ieee80211_delete_ampdu_rx(u8 wsid)] *)
Definition ieee80211_delete_ampdu_rx (stations ampdu_rx_buf_size : Z)
    (g : list (list rx_ba_session_desc)) (wsid : Z)
  : option (list (list rx_ba_session_desc) * list rx_event) :=
  if wsid <? stations then
    s ← get_session g wsid 0;
    '(s1, e1) ← delete_session ampdu_rx_buf_size s;
    Some (put_session g wsid 0 s1, e1)
  else Some (g, []).

(** [void ieee80211_delete_all_ampdu_rx(void)] *)
Fixpoint delete_from (stations ampdu_rx_buf_size : Z) (n : nat)
    (g : list (list rx_ba_session_desc)) (wsid : Z)
  : option (list (list rx_ba_session_desc) * list rx_event) :=
  match n with
  | O => Some (g, [])
  | S k =>
      '(g1, e1) ← ieee80211_delete_ampdu_rx stations ampdu_rx_buf_size g wsid;
      '(g2, e2) ← delete_from stations ampdu_rx_buf_size k g1 (wsid + 1);
      Some (g2, e1 ++ e2)
  end.

Definition ieee80211_delete_all_ampdu_rx (stations ampdu_rx_buf_size : Z)
    (g : list (list rx_ba_session_desc)) :=
  delete_from stations ampdu_rx_buf_size (Z.to_nat stations) g 0.

(** The session part of [ieee80211_addba_handler]. *)
Definition addba_session (ampdu_rx_buf_size new_ssn new_buf_size : Z) (s : rx_ba_session_desc)
  : option (rx_ba_session_desc * list rx_event) :=
  '(s1, e1) ← release_all (Z.to_nat ampdu_rx_buf_size) 0 s;
  Some (mk_session (reorder_buf s1) (reorder_time s1) new_ssn (stored_mpdu_num s1)
          new_ssn new_buf_size, e1).

(** [void ieee80211_addba_handler(void *data)]; the boolean says that the
    reorder timer is (re)started. *)
Definition ieee80211_addba_handler (stations ampdu_rx_buf_size : Z)
    (g : list (list rx_ba_session_desc)) (wsid tid new_ssn new_buf_size : Z)
  : option (list (list rx_ba_session_desc) * list rx_event * bool) :=
  if (wsid <? stations) && (tid <? 1) then
    s ← get_session g wsid tid;
    '(s1, e1) ← addba_session ampdu_rx_buf_size new_ssn new_buf_size s;
    Some (put_session g wsid tid s1, e1, true)
  else Some (g, [], false).
End handlers.

(** [void timer_sta_reorder_release(void* data1, void* data2)]: the sweep over
    the sessions; [ticks wsid] is the clock while row [wsid] is examined.  The
    timer is restarted at the end in every case. *)
Fixpoint timer_sweep (sta_disconnected : Z -> bool) (null_read : option Z) (ticks : Z -> Z -> Z)
    (g : list (list rx_ba_session_desc)) (wsid : Z)
  : option (list (list rx_ba_session_desc) * list rx_event) :=
  match g with
  | [] => Some ([], [])
  | row :: r =>
      '(row1, e1) ←
        (match row with
         | [] => None
         | s :: rest =>
             if buf_size s =? 0 then Some (row, [])
             else '(s1, e1) ← ieee80211_sta_reorder_release sta_disconnected null_read (ticks wsid) s;
                  Some (s1 :: rest, e1)
         end);
      '(r2, e2) ← timer_sweep sta_disconnected null_read ticks r (wsid + 1);
      Some (row1 :: r2, e1 ++ e2)
  end.

Definition timer_sta_reorder_release (sta_disconnected : Z -> bool) (null_read : option Z)
    (ticks : Z -> Z -> Z) (g : list (list rx_ba_session_desc)) :=
  timer_sweep sta_disconnected null_read ticks g 0.

(** ** Histories of one session

    What happens to a session between its ADDBA and its deletion: a data frame
    arrives ([ieee80211_rx_reorder_ampdu] past its tests), a Block-Ack-Request
    arrives, the reorder timer fires.  Each operation carries the clock and the
    connection state it sees. *)
Inductive session_op : Type :=
| OpRx (f : rx_frame) (tick_store : Z) (tick : Z -> Z) (disc : Z -> bool)
| OpBar (start_seq_ctl : Z) (disc : Z -> bool)
| OpTimer (tick : Z -> Z) (disc : Z -> bool).

Definition session_step (null_read : option Z) (s : rx_ba_session_desc) (op : session_op)
  : option (rx_ba_session_desc * list rx_event) :=
  match op with
  | OpRx f ts tick disc =>
      '(s1, es, consumed) ← ieee80211_sta_manage_reorder_buf disc null_read tick ts s f;
      Some (s1, if (consumed : bool) then es else es ++ [Deliver f])
  | OpBar ctl disc => ieee80211_release_reorder_frames disc null_read s (Z.shiftr ctl 4)
  | OpTimer tick disc => ieee80211_sta_reorder_release disc null_read tick s
  end.

Fixpoint session_run (null_read : option Z) (s : rx_ba_session_desc) (ops : list session_op)
  : option (rx_ba_session_desc * list rx_event) :=
  match ops with
  | [] => Some (s, [])
  | op :: r =>
      '(s1, e1) ← session_step null_read s op;
      '(s2, e2) ← session_run null_read s1 r;
      Some (s2, e1 ++ e2)
  end.

(** The frames a history receives. *)
Definition rx_frames (ops : list session_op) : list rx_frame :=
  omap (fun op => match op with OpRx f _ _ _ => Some f | _ => None end) ops.

(** ** Sequence-number arithmetic *)

Lemma land_mask z : Z.land z SEQ_MASK = z mod 4096.
Proof. exact (Z.land_ones z 12 ltac:(lia)). Qed.

Lemma seq_sub_mod a b : seq_sub a b = (a - b) mod 4096.
Proof. apply land_mask. Qed.

Lemma seq_inc_mod a : seq_inc a = (a + 1) mod 4096.
Proof. apply land_mask. Qed.

Lemma seq_less_mod a b : seq_less a b = (2048 <? (a - b) mod 4096).
Proof. unfold seq_less. by rewrite land_mask. Qed.

(** Two sequence numbers of one window that share a slot are equal. *)
Lemma window_inj bs h k x y :
  0 < bs -> (bs | 4096) -> 0 <= x < 4096 -> 0 <= y < 4096 ->
  (x - k) mod bs = (y - k) mod bs ->
  (x - h) mod 4096 < bs -> (y - h) mod 4096 < bs -> x = y.
Proof.
  intros Hbs Hdiv Hx Hy Heq Hxw Hyw.
  assert (Hz : (bs | (x - h) mod 4096 - (y - h) mod 4096)).
  { apply Z.mod_divide; [lia|].
    rewrite Zminus_mod, !Z.mod_mod_divide, <-Zminus_mod by done.
    replace (x - h - (y - h)) with ((x - k) - (y - k)) by lia.
    rewrite Zminus_mod, Heq, Z.sub_diag. apply Z.mod_0_l. lia. }
  destruct Hz as [c Hc].
  assert (0 <= (x - h) mod 4096) by (apply Z.mod_pos_bound; lia).
  assert (0 <= (y - h) mod 4096) by (apply Z.mod_pos_bound; lia).
  assert (c = 0) as -> by nia.
  lia.
Qed.

(** ** The session invariant *)

Definition frames_of (s : rx_ba_session_desc) : list rx_frame := omap id (reorder_buf s).

Definition frame_ok (f : rx_frame) : Prop :=
  0 <= rx_seqnum f < 4096 /\ rx_bssid_idx f < MAX_VIF_NUM.

(** Distance of sequence number [q] from the window start [h]. *)
Definition dist (h q : Z) : Z := (q - h) mod 4096.

Record ba_inv (s : rx_ba_session_desc) : Prop := mk_ba_inv {
  inv_bs : 2 <= buf_size s;
  inv_div : (buf_size s | 4096);
  inv_len : buf_size s <= Z.of_nat (length (reorder_buf s)) <= 255;
  inv_time : length (reorder_time s) = length (reorder_buf s);
  inv_head : 0 <= head_seq_num s < 4096;
  inv_ssn : 0 <= ssn s < 4096;
  inv_stored : stored_mpdu_num s = Z.of_nat (length (frames_of s));
  inv_slots : forall i f, reorder_buf s !! i = Some (Some f) ->
    frame_ok f /\ Z.of_nat i = (rx_seqnum f - ssn s) mod buf_size s /\
    dist (head_seq_num s) (rx_seqnum f) < buf_size s
}.

Lemma omap_take_out (l : list (option rx_frame)) i f :
  l !! i = Some (Some f) -> omap id l ≡ₚ f :: omap id (<[i := None]> l).
Proof.
  revert i; induction l as [|o l IH]; intros i; [done|].
  destruct i as [|i]; simpl.
  - by intros [= ->].
  - intros H. specialize (IH i H). destruct o; simpl; rewrite IH; [constructor|done].
Qed.

Lemma omap_put_in (l : list (option rx_frame)) i f :
  l !! i = Some None -> omap id (<[i := Some f]> l) ≡ₚ f :: omap id l.
Proof.
  revert i; induction l as [|o l IH]; intros i; [done|].
  destruct i as [|i]; simpl.
  - by intros [= ->].
  - intros H. specialize (IH i H). destruct o; simpl; rewrite IH; [constructor|done].
Qed.

Lemma elem_of_frames s f : f ∈ frames_of s <-> exists i, reorder_buf s !! i = Some (Some f).
Proof.
  unfold frames_of. rewrite list_elem_of_omap. split.
  - intros ([g|] & Hin & [= ->]). by apply list_elem_of_lookup in Hin.
  - intros [i Hi]. exists (Some f). split; [|done]. apply list_elem_of_lookup. eauto.
Qed.

Lemma frames_length s : (length (frames_of s) <= length (reorder_buf s))%nat.
Proof.
  unfold frames_of. induction (reorder_buf s) as [|[f|] l IH]; [done|simpl..]; [|by apply le_S].
  by apply le_n_S.
Qed.

(** The slot of a sequence number is in the buffer. *)
Lemma slot_index_inv s q :
  ba_inv s -> slot_index s q = Some ((q - ssn s) mod buf_size s).
Proof.
  intros I. destruct I. unfold slot_index. rewrite (proj2 (Z.eqb_neq _ _)) by lia.
  rewrite seq_sub_mod. f_equal. rewrite Z.rem_mod_nonneg; [|apply Z.mod_pos_bound; lia|lia].
  by apply Z.mod_mod_divide.
Qed.

Lemma slot_inv s j : ba_inv s -> 0 <= j < buf_size s -> exists o, slot s j = Some o
  /\ reorder_buf s !! Z.to_nat j = Some o.
Proof.
  intros I Hj. destruct I. unfold slot. rewrite (proj2 (Z.ltb_ge _ _)) by lia.
  destruct (lookup_lt_is_Some_2 (reorder_buf s) (Z.to_nat j)) as [o Ho]; [lia|]. eauto.
Qed.

Lemma idx_range s q : ba_inv s -> 0 <= (q - ssn s) mod buf_size s < buf_size s.
Proof. intros [? _ _ _ _ _ _ _]. apply Z.mod_pos_bound. lia. Qed.

(** ** Ordered release *)

Definition ev_frame (e : rx_event) : rx_frame :=
  match e with Deliver f => f | Free f => f end.

Definition delivered (es : list rx_event) : list rx_frame :=
  omap (fun e => match e with Deliver f => Some f | Free _ => None end) es.

(** [ordered P n fs]: the frames [fs] can be given strictly increasing positions
    in [[P, P + n)] that are their sequence numbers modulo 4096: they are in
    sequence order and none is repeated. *)
Definition ordered (P n : Z) (fs : list rx_frame) : Prop :=
  exists ps, Forall2 (fun f p => rx_seqnum f = p mod 4096) fs ps /\
             StronglySorted Z.lt ps /\ Forall (fun p => P <= p < P + n) ps.

Lemma ordered_nil P n : ordered P n [].
Proof. exists []. split_and!; constructor. Qed.

Lemma ordered_shift P P' n fs : P mod 4096 = P' mod 4096 -> ordered P n fs -> ordered P' n fs.
Proof.
  intros HP (ps & HF & HS & HR). exists (map (fun p => p + (P' - P)) ps).
  assert (Hd : (P' - P) mod 4096 = 0) by lia. split_and!.
  - clear HS HR. induction HF; simpl; constructor; [|done].
    rewrite H, Zplus_mod, Hd, Z.add_0_r. by rewrite Z.mod_mod by lia.
  - clear HF HR. induction HS as [|p ps HS IH HA]; simpl; constructor; [done|].
    apply Forall_map. eapply Forall_impl; [exact HA|]. simpl. intros. lia.
  - apply Forall_map. eapply Forall_impl; [exact HR|]. simpl. intros. lia.
Qed.

Lemma StronglySorted_app_lt ps qs (m : Z) :
  StronglySorted Z.lt ps -> StronglySorted Z.lt qs ->
  Forall (fun p => p < m) ps -> Forall (fun p => m <= p) qs -> StronglySorted Z.lt (ps ++ qs).
Proof.
  intros Hp Hq Hpm Hqm. induction Hp as [|p ps HS IH HA]; simpl; [done|].
  apply Forall_cons in Hpm as [Hp' Hpm]. constructor; [by apply IH|].
  apply Forall_app. split; [done|]. eapply Forall_impl; [exact Hqm|]. simpl. lia.
Qed.

Lemma ordered_app P n1 n2 fs1 fs2 :
  0 <= n1 -> 0 <= n2 ->
  ordered P n1 fs1 -> ordered (P + n1) n2 fs2 -> ordered P (n1 + n2) (fs1 ++ fs2).
Proof.
  intros H1 H2 (ps & F1 & S1 & R1) (qs & F2 & S2 & R2). exists (ps ++ qs). split_and!.
  - by apply Forall2_app.
  - apply (StronglySorted_app_lt _ _ (P + n1)); try done.
    + eapply Forall_impl; [exact R1|]. simpl. lia.
    + eapply Forall_impl; [exact R2|]. simpl. lia.
  - apply Forall_app. split; eapply Forall_impl; try done; simpl; lia.
Qed.

Lemma ordered_widen P n m fs : n <= m -> ordered P n fs -> ordered P m fs.
Proof.
  intros H (ps & F & S & R). exists ps. split_and!; try done.
  eapply Forall_impl; [exact R|]. simpl. lia.
Qed.

Lemma Forall_sublist_of {A} (Q : A -> Prop) (l k : list A) :
  l `sublist_of` k -> Forall Q k -> Forall Q l.
Proof. induction 1; inversion 1; subst; eauto. Qed.

Lemma StronglySorted_sublist_of (l k : list Z) :
  l `sublist_of` k -> StronglySorted Z.lt k -> StronglySorted Z.lt l.
Proof.
  induction 1 as [|x l k Hs IH|x l k Hs IH]; intros HS; [done|..];
    apply StronglySorted_inv in HS as [HS HA]; [|by apply IH].
  constructor; [by apply IH|]. by eapply Forall_sublist_of.
Qed.

Lemma ordered_sublist P n fs gs : gs `sublist_of` fs -> ordered P n fs -> ordered P n gs.
Proof.
  intros Hs (ps & HF & HS & HR).
  assert (exists qs, qs `sublist_of` ps /\
            Forall2 (fun f p => rx_seqnum f = p mod 4096) gs qs) as (qs & Hq & HF').
  { clear HS HR. revert ps HF. induction Hs as [|x l k Hs IH|x l k Hs IH]; intros ps HF.
    - apply Forall2_nil_inv_l in HF as ->. exists []. by split; constructor.
    - apply Forall2_cons_inv_l in HF as (p & qs & E & HF & ->).
      destruct (IH qs HF) as (rs & ? & ?). exists (p :: rs). by split; constructor.
    - apply Forall2_cons_inv_l in HF as (p & qs & E & HF & ->).
      destruct (IH qs HF) as (rs & ? & ?). exists rs. by split; [constructor|]. }
  exists qs. split_and!; [done|by eapply StronglySorted_sublist_of|by eapply Forall_sublist_of].
Qed.

Lemma delivered_sublist es : delivered es `sublist_of` map ev_frame es.
Proof. induction es as [|[f|f] es IH]; simpl; by constructor. Qed.

Lemma delivered_app es es' : delivered (es ++ es') = delivered es ++ delivered es'.
Proof. apply omap_app. Qed.

(** What a handler that only moves the window forward by [n] does: it keeps the
    invariant, releases frames in order, and releases or keeps every stored
    frame exactly once. *)
Record advances (s s' : rx_ba_session_desc) (es : list rx_event) (n : Z) : Prop := mk_advances {
  adv_inv : ba_inv s';
  adv_ssn : ssn s' = ssn s;
  adv_bs : buf_size s' = buf_size s;
  adv_len : length (reorder_buf s') = length (reorder_buf s);
  adv_n : 0 <= n;
  adv_head : head_seq_num s' = (head_seq_num s + n) mod 4096;
  adv_frames : frames_of s ≡ₚ map ev_frame es ++ frames_of s';
  adv_order : ordered (head_seq_num s) n (map ev_frame es)
}.

Lemma advances_refl s : ba_inv s -> advances s s [] 0.
Proof.
  intros I. split; try done.
  - rewrite Z.add_0_r. symmetry. apply Z.mod_small, inv_head, I.
  - apply ordered_nil.
Qed.

Lemma advances_trans s1 s2 s3 e1 e2 n1 n2 :
  advances s1 s2 e1 n1 -> advances s2 s3 e2 n2 -> advances s1 s3 (e1 ++ e2) (n1 + n2).
Proof.
  intros A1 A2. destruct A1 as [I1 ? ? ? N1 H1 F1 O1], A2 as [I2 ? ? ? N2 H2 F2 O2].
  split; try congruence; try lia.
  - rewrite map_app, F1, F2. by rewrite app_assoc.
  - rewrite map_app. apply ordered_app; try done.
    eapply ordered_shift; [|exact O2]. rewrite H1. by rewrite Z.mod_mod by lia.
Qed.

(** Moving the window start over an empty slot. *)
Lemma skip_head s :
  ba_inv s -> slot s ((head_seq_num s - ssn s) mod buf_size s) = Some None ->
  advances s (set_head s (seq_inc (head_seq_num s))) [] 1.
Proof.
  intros I Hs. pose proof (idx_range s (head_seq_num s) I) as Hr.
  destruct (slot_inv s _ I Hr) as (o & E1 & E2). rewrite Hs in E1. injection E1 as <-.
  destruct I as [? ? ? ? Hh ? ? Hsl]. rewrite seq_inc_mod.
  split; simpl; try done; [|apply ordered_nil].
  split; simpl; try done; [apply Z.mod_pos_bound; lia|].
  intros i f Hi. destruct (Hsl i f Hi) as (Hok & Hpos & Hd). split_and!; try done.
  unfold dist in *. destruct Hok as [Hq _].
  assert ((rx_seqnum f - head_seq_num s) mod 4096 <> 0) as Hne.
  { intros E. assert (rx_seqnum f = head_seq_num s) as Ef by lia.
    rewrite Ef in Hpos. rewrite <-Hpos, Nat2Z.id, Hi in E2. done. }
  clear Hpos E2 Hs Hr Hsl Hi. lia.
Qed.

(** The frame in the head slot is the frame of the head sequence number. *)
Lemma head_frame s f :
  ba_inv s -> slot s ((head_seq_num s - ssn s) mod buf_size s) = Some (Some f) ->
  rx_seqnum f = head_seq_num s /\ rx_bssid_idx f < MAX_VIF_NUM.
Proof.
  intros I Hs. pose proof (idx_range s (head_seq_num s) I) as Hr.
  destruct (slot_inv s _ I Hr) as (o & E1 & E2). rewrite Hs in E1. injection E1 as <-.
  destruct I as [? ? ? ? Hh ? ? Hsl]. destruct (Hsl _ _ E2) as ((Hq & Hb) & Hpos & Hd).
  split; [|done]. rewrite Z2Nat.id in Hpos by lia.
  apply (window_inj (buf_size s) (head_seq_num s) (ssn s)); try done; try lia.
Qed.

(** Cyclic stepping through the slots. *)
Lemma mod_cases bs p j :
  0 <= p < bs -> 0 <= j < bs ->
  (p - j) mod bs = if j <=? p then p - j else p - j + bs.
Proof.
  intros Hp Hj. destruct (Z.leb_spec j p).
  - apply Z.mod_small. lia.
  - rewrite <-(Z.mod_add _ 1) by lia. rewrite Z.mod_small; lia.
Qed.

Lemma rem_succ bs j : 0 < bs -> 0 <= j -> Z.rem (j + 1) bs = (j + 1) mod bs.
Proof. intros. apply Z.rem_mod_nonneg; lia. Qed.

Lemma next_slot_mod bs k j : 0 < bs -> ((k mod bs) + 1) mod bs = (k + 1) mod bs
  /\ (0 <= j < bs -> 0 <= (j + 1) mod bs < bs).
Proof.
  intros H. split; [apply Zplus_mod_idemp_l|]. intros _. by apply Z.mod_pos_bound.
Qed.

Lemma mod_step bs p j :
  0 <= p < bs -> 0 <= j < bs -> j <> p ->
  (p - (j + 1) mod bs) mod bs = (p - j) mod bs - 1.
Proof.
  intros Hp Hj Hne.
  assert ((j + 1) mod bs = if j + 1 =? bs then 0 else j + 1) as ->.
  { destruct (Z.eqb_spec (j + 1) bs) as [->|]; [apply Z.mod_same; lia|apply Z.mod_small; lia]. }
  destruct (Z.eqb_spec (j + 1) bs); rewrite !mod_cases by lia;
    repeat case_test; lia.
Qed.

Lemma dist_nonneg h q : 0 <= dist h q < 4096.
Proof. apply Z.mod_pos_bound. lia. Qed.

(** The trailing search ends at a stored frame. *)
Lemma scan_loop_ok fuel s index p f j :
  ba_inv s -> reorder_buf s !! Z.to_nat p = Some (Some f) ->
  0 <= p < buf_size s -> 0 <= j < buf_size s ->
  (p - j) mod buf_size s < Z.of_nat fuel ->
  scan_loop fuel s index j = Some tt.
Proof.
  intros I Hf Hp. revert j; induction fuel as [|k IH]; intros j Hj Hlt.
  { pose proof (Z.mod_pos_bound (p - j) (buf_size s)). lia. }
  simpl. destruct (j =? _); [done|].
  destruct (slot_inv s j I Hj) as (o & -> & Ho). simpl. destruct o as [g|]; [done|].
  assert (j <> p) by (intros ->; congruence).
  rewrite rem_succ by lia. apply IH; [apply Z.mod_pos_bound; lia|].
  rewrite mod_step by done. lia.
Qed.

Lemma stored_slot s : ba_inv s -> stored_mpdu_num s <> 0 ->
  exists p f, 0 <= p < buf_size s /\ reorder_buf s !! Z.to_nat p = Some (Some f).
Proof.
  intros I Hst. pose proof (inv_stored s I) as E.
  destruct (frames_of s) as [|f l] eqn:Ef; [simpl in E; lia|].
  assert (f ∈ frames_of s) as [i Hi]%elem_of_frames by (rewrite Ef; set_solver).
  exists (Z.of_nat i), f. rewrite Nat2Z.id. split; [|done].
  destruct (inv_slots s I i f Hi) as (_ & -> & _). by apply idx_range.
Qed.

(** Storing a frame of the window in its empty slot. *)
Lemma store_frame_ok s f t :
  ba_inv s -> frame_ok f -> dist (head_seq_num s) (rx_seqnum f) < buf_size s ->
  slot s ((rx_seqnum f - ssn s) mod buf_size s) = Some None ->
  let i := Z.to_nat ((rx_seqnum f - ssn s) mod buf_size s) in
  let s2 := mk_session (<[i := Some f]> (reorder_buf s)) (<[i := t]> (reorder_time s))
              (head_seq_num s) (stored_mpdu_num s +u16 1) (ssn s) (buf_size s) in
  ba_inv s2 /\ frames_of s2 ≡ₚ f :: frames_of s.
Proof.
  intros I Hok Hd Hs i s2. pose proof (idx_range s (rx_seqnum f) I) as Hr.
  destruct (slot_inv s _ I Hr) as (o & E1 & E2). rewrite Hs in E1. injection E1 as <-.
  assert (HP : frames_of s2 ≡ₚ f :: frames_of s) by (by apply omap_put_in).
  split; [|done]. pose proof (frames_length s2) as Hl.
  rewrite (Permutation_length HP) in Hl. simpl in Hl. rewrite length_insert in Hl.
  destruct I as [? ? ? ? ? ? Hst Hsl].
  split; simpl; rewrite ?length_insert; try done.
  - rewrite (Permutation_length HP), Hst. simpl. rewrite u16_small; lia.
  - intros j g Hj. apply list_lookup_insert_Some in Hj as [(<- & [= ->] & _)|[Hne Hj]]; [|by apply Hsl].
    split_and!; try done. unfold i. rewrite Z2Nat.id; [done|lia].
Qed.

Section release.
Context (sta_disconnected : Z -> bool) (null_read : option Z) (tick : Z -> Z).
Context (Hnull : null_safe null_read).

Local Abbreviation release := (ieee80211_release_reorder_frame sta_disconnected null_read).

(** Releasing the head slot moves the window by one. *)
Lemma release_head s :
  ba_inv s ->
  exists s' es, release s ((head_seq_num s - ssn s) mod buf_size s) = Some (s', es) /\ advances s s' es 1 /\
    (forall f, slot s ((head_seq_num s - ssn s) mod buf_size s) = Some (Some f) ->
               map ev_frame es = [f]).
Proof using Hnull.
  clear tick. intros I. pose proof (idx_range s (head_seq_num s) I) as Hr.
  destruct (slot_inv s _ I Hr) as (o & Eo & E2).
  unfold ieee80211_release_reorder_frame. rewrite Eo. simpl.
  destruct o as [f|]; simpl.
  - destruct (head_frame s f I Eo) as [Hf Hb].
    rewrite (proj2 (Z.leb_gt _ _)) by done.
    do 2 eexists; split; [done|]. split;
      [|intros g [= <-]; by destruct (sta_disconnected _)].
    rewrite seq_inc_mod. destruct I as [? ? ? ? Hh ? Hst Hsl].
    pose proof (omap_take_out _ _ _ E2) as Hp.
    assert (Hlen : length (frames_of s) =
      S (length (omap id (<[Z.to_nat ((head_seq_num s - ssn s) mod buf_size s) := None]>
                           (reorder_buf s))))) by (unfold frames_of; by rewrite Hp).
    pose proof (frames_length s) as Hfl.
    split; simpl; try done.
    + split; simpl; try done.
      * by rewrite length_insert.
      * by rewrite length_insert.
      * apply Z.mod_pos_bound; lia.
      * unfold frames_of at 1. simpl. rewrite Hst, Hlen. rewrite u16_small by lia. lia.
      * intros i g Hi. apply list_lookup_insert_Some in Hi as [(_ & [=] & _)|[Hne Hi]].
        destruct (Hsl i g Hi) as (Hok & Hpos & Hd). split_and!; try done.
        unfold dist in *. destruct Hok as [Hq _].
        assert ((rx_seqnum g - head_seq_num s) mod 4096 <> 0) as Hn0.
        { intros E. assert (rx_seqnum g = head_seq_num s) as Ef by lia.
          rewrite Ef in Hpos. apply Hne. rewrite <-Hpos. apply Nat2Z.id. }
        clear Hpos Hlen Hp E2 Eo Hr Hsl Hi Hne. lia.
    + by rewrite length_insert.
    + unfold frames_of. simpl. rewrite Hp. destruct (sta_disconnected _); done.
    + exists [head_seq_num s]. split_and!.
      * destruct (sta_disconnected _); simpl; (constructor; [|constructor]);
          rewrite Z.mod_small by lia; done.
      * repeat constructor.
      * constructor; [lia|constructor].
  - destruct Hnull as (b & -> & Hb). simpl. rewrite (proj2 (Z.leb_gt _ _)) by done.
    do 2 eexists; split; [done|]. split; [by apply skip_head|].
    by intros g [=].
Qed.

(** [ieee80211_release_reorder_frames] terminates: the loop runs once per
    sequence number between the window start and the target. *)
Lemma release_loop_ok fuel s target :
  ba_inv s -> dist (head_seq_num s) target <= Z.of_nat fuel ->
  dist (head_seq_num s) target < 2048 ->
  exists s' es, release_loop sta_disconnected null_read fuel s target = Some (s', es) /\
                advances s s' es (dist (head_seq_num s) target).
Proof using Hnull.
  clear tick. revert s; induction fuel as [|k IH]; intros s I Hf Hd; simpl;
    rewrite seq_less_mod; unfold dist in *.
  - rewrite (proj2 (Z.ltb_ge _ _)) by lia.
    replace ((target - head_seq_num s) mod 4096) with 0 by lia.
    do 2 eexists; split; [done|]. by apply advances_refl.
  - destruct (Z.ltb_spec 2048 ((head_seq_num s - target) mod 4096)) as [Hl|Hl].
    + rewrite (slot_index_inv s _ I). simpl.
      destruct (release_head s I) as (s1 & e1 & -> & A & _). simpl.
      assert (Hstep : (target - head_seq_num s1) mod 4096
                      = (target - head_seq_num s) mod 4096 - 1).
      { rewrite (adv_head _ _ _ _ A). pose proof (inv_head _ I). lia. }
      destruct (IH s1 (adv_inv _ _ _ _ A)) as (s2 & e2 & -> & A2); [lia..|]. simpl.
      do 2 eexists; split; [done|]. rewrite Hstep in A2.
      replace ((target - head_seq_num s) mod 4096)
        with (1 + ((target - head_seq_num s) mod 4096 - 1)) by lia.
      by apply (advances_trans s s1 s2).
    + replace ((target - head_seq_num s) mod 4096) with 0 by (pose proof (inv_head _ I); lia).
      do 2 eexists; split; [done|]. by apply advances_refl.
Qed.

Lemma release_frames_ok s target :
  ba_inv s ->
  exists s' es n, ieee80211_release_reorder_frames sta_disconnected null_read s target
                  = Some (s', es) /\ advances s s' es n /\
    n = (if dist (head_seq_num s) target <? 2048 then dist (head_seq_num s) target else 0).
Proof using Hnull.
  clear tick. intros I. unfold ieee80211_release_reorder_frames.
  destruct (Z.ltb_spec (dist (head_seq_num s) target) 2048) as [Hd|Hd].
  - destruct (release_loop_ok (Z.to_nat SEQ_MODULO) s target I) as (s' & es & E & A);
      [unfold SEQ_MODULO; lia|done|]. eauto 10.
  - exists s, [], 0. split_and!; [|by apply advances_refl|done].
    replace (Z.to_nat SEQ_MODULO) with (S (Z.to_nat 4095)) by done.
    cbn [release_loop]. rewrite seq_less_mod, (proj2 (Z.ltb_ge _ _)); [done|].
    unfold dist in Hd. lia.
Qed.

(** The loop that releases up to the next gap. *)
Lemma ready_loop_ok fuel s :
  ba_inv s -> (length (frames_of s) <= fuel)%nat ->
  exists s' es n,
    ready_loop sta_disconnected null_read fuel s ((head_seq_num s - ssn s) mod buf_size s)
    = Some (s', es) /\ advances s s' es n /\
    slot s' ((head_seq_num s' - ssn s') mod buf_size s') = Some None /\
    (forall f, slot s ((head_seq_num s - ssn s) mod buf_size s) = Some (Some f) ->
               exists fs, map ev_frame es = f :: fs).
Proof using Hnull.
  clear tick. revert s; induction fuel as [|k IH]; intros s I Hf; cbn [ready_loop].
  all: pose proof (idx_range s (head_seq_num s) I) as Hr;
    destruct (slot_inv s _ I Hr) as ([f|] & Eo & E2); rewrite Eo; simpl.
  2,4: exists s, [], 0; split_and!; [done|by apply advances_refl|done|by intros f [=]].
  - assert (f ∈ frames_of s) as Hin by (apply elem_of_frames; eauto).
    destruct (frames_of s); [by apply elem_of_nil in Hin|simpl in Hf; lia].
  - destruct (release_head s I) as (s1 & e1 & -> & A & Hm). simpl.
    rewrite (slot_index_inv s1 _ (adv_inv _ _ _ _ A)). simpl.
    destruct (IH s1 (adv_inv _ _ _ _ A)) as (s2 & e2 & n2 & -> & A2 & Hs2 & _).
    { pose proof (adv_frames _ _ _ _ A) as HF. rewrite (Hm f Eo) in HF.
      apply Permutation_length in HF. simpl in HF. lia. }
    simpl. do 3 eexists. split_and!; [done|eapply advances_trans; eassumption|done|].
    intros g Hg. rewrite map_app, (Hm g); [simpl; eauto|]. congruence.
Qed.

Lemma release_set_head s h j :
  release (set_head s h) j =
  '(s1, e1) ← release s j; Some (set_head s1 (seq_inc h), e1).
Proof using.
  clear Hnull. unfold ieee80211_release_reorder_frame. unfold slot. simpl.
  destruct (if j <? 0 then None else reorder_buf s !! Z.to_nat j) as [[f|]|]; simpl; [..|done];
    [|destruct null_read as [b|]; [simpl|done]]; destruct (MAX_VIF_NUM <=? _); done.
Qed.

(** The loop over timed-out frames, seen from the virtual session whose window
    start is already past the skipped slots. *)
Lemma timeout_loop_ok fuel : forall s index j k,
  ba_inv s -> 0 <= index < buf_size s -> 0 <= j < buf_size s ->
  advances s (set_head s ((head_seq_num s + k) mod 4096)) [] k ->
  j = ((head_seq_num s + k) mod 4096 - ssn s) mod buf_size s ->
  (index - j) mod buf_size s <= Z.of_nat fuel ->
  exists s' es b n,
    timeout_loop sta_disconnected null_read tick fuel s index j k = Some (s', es, b) /\
    advances s s' es n.
Proof using Hnull.
  induction fuel as [|fl IH]; intros s index j k I Hix Hj Av Ej Hf; simpl.
  - destruct (Z.eqb_spec j index) as [->|Hne].
    { exists s, [], false, 0. split; [done|]. by apply advances_refl. }
    rewrite mod_cases in Hf by lia. destruct (Z.leb_spec j index); lia.
  - destruct (Z.eqb_spec j index) as [->|Hne].
    { exists s, [], false, 0. split; [done|]. by apply advances_refl. }
    set (sv := set_head s ((head_seq_num s + k) mod 4096)) in *.
    pose proof (adv_inv _ _ _ _ Av) as Iv.
    assert (Hbs : 0 < buf_size s) by lia.
    assert (Hj' : 0 <= (j + 1) mod buf_size s < buf_size s) by (apply Z.mod_pos_bound; lia).
    rewrite rem_succ by lia.
    destruct (slot_inv s j I Hj) as (o & Eo & Eb). rewrite Eo. simpl.
    assert (Hnext : forall h, (h + 1) mod 4096 = ((head_seq_num s + k) mod 4096 + 1) mod 4096 ->
      (j + 1) mod buf_size s = ((h + 1) mod 4096 - ssn s) mod buf_size s).
    { intros h ->. rewrite Ej.
      destruct (inv_div s I) as [c Hc].
      rewrite !(Zminus_mod (_ mod 4096)). rewrite !Z.mod_mod_divide by (by exists c).
      rewrite (Zplus_mod ((head_seq_num s + k) mod 4096)).
      rewrite !Z.mod_mod_divide by (by exists c).
      rewrite <-Zplus_mod, <-!Zminus_mod, Zplus_mod_idemp_l. f_equal. lia. }
    destruct o as [f|].
    + (* a stored frame *)
      destruct (lookup_lt_is_Some_2 (reorder_time s) (Z.to_nat j)) as [t Ht].
      { pose proof (inv_time s I). pose proof (inv_len s I). lia. }
      rewrite Ht. simpl.
      destruct (negb (k =? 0) && _).
      { exists s, [], true, 0. split; [done|]. by apply advances_refl. }
      destruct (release_head sv Iv) as (sv1 & e1 & Er & Ar & _).
      replace ((head_seq_num sv - ssn sv) mod buf_size sv) with j in Er by (by rewrite Ej).
      unfold sv in Er. rewrite release_set_head in Er.
      destruct (release s j) as [[s1 e1']|] eqn:Es; simpl in Er; [|done].
      injection Er as <- <-. simpl.
      assert (head_seq_num s1 = seq_inc (head_seq_num s)) as Hs1.
      { unfold ieee80211_release_reorder_frame in Es. rewrite Eo in Es. simpl in Es.
        destruct (MAX_VIF_NUM <=? _); [done|]. by injection Es as <- <-. }
      assert (Z.land (head_seq_num s1 + k) SEQ_MASK
              = seq_inc ((head_seq_num s + k) mod 4096)) as ->.
      { rewrite Hs1, land_mask, !seq_inc_mod, !Zplus_mod_idemp_l. f_equal. lia. }
      pose proof (advances_trans _ _ _ _ _ _ _ Av Ar) as A1. simpl in A1.
      set (s2 := set_head s1 (seq_inc ((head_seq_num s + k) mod 4096))) in *.
      pose proof (adv_bs _ _ _ _ A1) as Hb2. pose proof (adv_ssn _ _ _ _ A1) as Hs2.
      assert (Hh2 : head_seq_num s2 = ((head_seq_num s + k) mod 4096 + 1) mod 4096)
        by (unfold s2; simpl; apply seq_inc_mod).
      destruct (IH s2 index ((j + 1) mod buf_size s) 0) as (s3 & e3 & b & n & -> & A3).
      * exact (adv_inv _ _ _ _ A1).
      * by rewrite Hb2.
      * by rewrite Hb2.
      * rewrite Z.add_0_r, (Z.mod_small (head_seq_num s2)) by
          (apply inv_head, (adv_inv _ _ _ _ A1)).
        destruct s2; simpl in *. apply advances_refl, (adv_inv _ _ _ _ A1).
      * rewrite Hb2, Hs2, Z.add_0_r, Hh2.
        rewrite (Z.mod_small (((head_seq_num s + k) mod 4096 + 1) mod 4096))
          by (apply Z.mod_pos_bound; lia).
        by apply Hnext.
      * rewrite Hb2. rewrite mod_step by done. lia.
      * simpl. do 4 eexists; split; [done|]. eapply advances_trans; eassumption.
    + (* an empty slot: skip it *)
      pose proof (skip_head sv Iv) as As.
      replace ((head_seq_num sv - ssn sv) mod buf_size sv) with j in As by (by rewrite Ej).
      specialize (As Eo). pose proof (advances_trans _ _ _ _ _ _ _ Av As) as A1. simpl in A1.
      assert (E1 : set_head sv (seq_inc ((head_seq_num s + k) mod 4096)) =
              set_head s ((head_seq_num s + (k + 1)) mod 4096)).
      { unfold sv, set_head. simpl. rewrite seq_inc_mod, Zplus_mod_idemp_l. f_equal. f_equal. lia. }
      rewrite E1 in A1.
      destruct (IH s index ((j + 1) mod buf_size s) (k + 1)) as (s3 & e3 & b & n & -> & A3);
        [done..| |rewrite mod_step by done; lia|eauto 10].
      replace ((head_seq_num s + (k + 1)) mod 4096) with ((head_seq_num s + k + 1) mod 4096)
        by (f_equal; lia). apply Hnext. by rewrite Zplus_mod_idemp_l.
Qed.

Lemma release_ready_ok s :
  ba_inv s ->
  exists s' es b n,
    release_ready sta_disconnected null_read tick s ((head_seq_num s - ssn s) mod buf_size s)
    = Some (s', es, b) /\ advances s s' es n.
Proof using Hnull.
  intros I. pose proof (idx_range s (head_seq_num s) I) as Hr.
  pose proof (frames_length s) as Hfl. pose proof (inv_len s I) as Hlen.
  unfold release_ready. destruct (slot_inv s _ I Hr) as (o & Eo & _). rewrite Eo.
  cbn [mbind option_bind]. destruct o as [f|].
  - destruct (ready_loop_ok (S (length (reorder_buf s))) s I) as (s1 & e1 & n & -> & A & _);
      [lia|]. cbn [mbind option_bind]. eauto 10.
  - destruct (stored_mpdu_num s =? 0).
    { exists s, [], false, 0. split; [done|]. by apply advances_refl. }
    rewrite rem_succ by lia.
    assert (Hj : 0 <= ((head_seq_num s - ssn s) mod buf_size s + 1) mod buf_size s < buf_size s)
      by (apply Z.mod_pos_bound; lia).
    pose proof (skip_head s I Eo) as As. rewrite seq_inc_mod in As.
    apply timeout_loop_ok; try done.
    + rewrite Zplus_mod_idemp_l.
      rewrite (Zminus_mod (_ mod 4096)), Z.mod_mod_divide by (apply inv_div, I).
      rewrite <-Zminus_mod. f_equal. lia.
    + pose proof (Z.mod_pos_bound ((head_seq_num s - ssn s) mod buf_size s -
        ((head_seq_num s - ssn s) mod buf_size s + 1) mod buf_size s) (buf_size s)). lia.
Qed.

(** [ieee80211_sta_reorder_release] always returns, and only moves the window
    forward. *)
Lemma sta_reorder_release_ok s :
  ba_inv s ->
  exists s' es n,
    ieee80211_sta_reorder_release sta_disconnected null_read tick s = Some (s', es) /\
    advances s s' es n.
Proof using Hnull.
  intros I. unfold ieee80211_sta_reorder_release. rewrite (slot_index_inv s _ I).
  cbn [mbind option_bind].
  destruct (release_ready_ok s I) as (s1 & e1 & b & n & -> & A). cbn [mbind option_bind].
  destruct b; [eauto|].
  destruct (Z.eqb_spec (stored_mpdu_num s1) 0) as [|Hst]; [eauto|].
  pose proof (adv_inv _ _ _ _ A) as I1. rewrite (slot_index_inv s1 _ I1).
  cbn [mbind option_bind].
  destruct (stored_slot s1 I1 Hst) as (p & f & Hp & Hf).
  pose proof (idx_range s1 (head_seq_num s1) I1) as Hr1.
  pose proof (inv_len s1 I1) as Hlen1.
  rewrite (scan_loop_ok _ s1 _ p f _ I1 Hf Hp Hr1); [cbn [mbind option_bind]; eauto|].
  pose proof (Z.mod_pos_bound (p - (head_seq_num s1 - ssn s1) mod buf_size s1) (buf_size s1)).
  lia.
Qed.

(** ** Receiving a frame *)

(** The window is first moved so that the new frame falls into it. *)
Lemma make_room_ok s f :
  ba_inv s -> frame_ok f -> seq_less (u16 (rx_seqnum f)) (head_seq_num s) = false ->
  exists s1 e1 n,
    (if negb (seq_less (u16 (rx_seqnum f)) (head_seq_num s +u16 buf_size s))
     then ieee80211_release_reorder_frames sta_disconnected null_read s
            (seq_inc (seq_sub (u16 (rx_seqnum f)) (buf_size s)))
     else Some (s, [])) = Some (s1, e1) /\
    advances s s1 e1 n /\ dist (head_seq_num s1) (rx_seqnum f) < buf_size s1.
Proof using Hnull.
  clear tick. intros I [Hq _] Hl.
  rewrite (u16_small (rx_seqnum f)) in * by lia.
  pose proof (inv_bs s I). pose proof (inv_len s I). pose proof (inv_head s I).
  rewrite u16_small by lia. rewrite seq_less_mod in *.
  apply Z.ltb_ge in Hl.
  destruct (Z.ltb_spec 2048 ((rx_seqnum f - (head_seq_num s + buf_size s)) mod 4096)) as [H2|H2];
    simpl.
  - exists s, [], 0. split_and!; [done|by apply advances_refl|]. unfold dist. lia.
  - rewrite seq_inc_mod, seq_sub_mod.
    destruct (release_frames_ok s (((rx_seqnum f - buf_size s) mod 4096 + 1) mod 4096) I)
      as (s1 & e1 & n & -> & A & Hn).
    do 3 eexists. split_and!; [done|exact A|].
    rewrite (adv_head _ _ _ _ A), (adv_bs _ _ _ _ A).
    assert (dist (head_seq_num s) (((rx_seqnum f - buf_size s) mod 4096 + 1) mod 4096)
            = dist (head_seq_num s) (rx_seqnum f) - buf_size s + 1) as Hd
      by (unfold dist; lia).
    rewrite Hd in Hn. unfold dist in *.
    rewrite (proj2 (Z.ltb_lt _ _)) in Hn by lia. lia.
Qed.

(** Every frame handed to the reorder buffer is stored, delivered or freed, no
    stored frame is lost, and what is delivered is in sequence order from the
    old window start to the new one. *)
Lemma manage_reorder_buf_ok tick_store s f :
  ba_inv s -> frame_ok f ->
  exists s' es ret n,
    ieee80211_sta_manage_reorder_buf sta_disconnected null_read tick tick_store s f
    = Some (s', es, ret) /\
    let out := if (ret : bool) then es else es ++ [Deliver f] in
    ba_inv s' /\ ssn s' = ssn s /\ buf_size s' = buf_size s /\
    length (reorder_buf s') = length (reorder_buf s) /\
    0 <= n /\ head_seq_num s' = (head_seq_num s + n) mod 4096 /\
    f :: frames_of s ≡ₚ map ev_frame out ++ frames_of s' /\
    ordered (head_seq_num s) n (delivered out).
Proof using Hnull.
  intros I Hok. unfold ieee80211_sta_manage_reorder_buf.
  destruct (seq_less (u16 (rx_seqnum f)) (head_seq_num s)) eqn:El.
  { exists s, [Free f], true, 0. split; [done|]. split_and!; try done.
    - rewrite Z.add_0_r, Z.mod_small; [done|apply inv_head, I].
    - apply ordered_nil. }
  destruct (make_room_ok s f I Hok El) as (s1 & e1 & n1 & -> & A & Hd).
  cbn [mbind option_bind].
  pose proof Hok as [Hq Hb]. rewrite (u16_small (rx_seqnum f)) in * by lia.
  pose proof (adv_inv _ _ _ _ A) as I1. rewrite (slot_index_inv s1 _ I1).
  cbn [mbind option_bind].
  destruct (slot_inv s1 _ I1 (idx_range s1 (rx_seqnum f) I1)) as (o & Eo & Eb). rewrite Eo.
  cbn [mbind option_bind]. destruct A as [_ Hssn Hbs Hlen Hn Hh HF HO].
  assert (Hdel : ordered (head_seq_num s) n1 (delivered e1))
    by (eapply ordered_sublist; [apply delivered_sublist|done]).
  destruct o as [g|].
  { exists s1, (e1 ++ [Free f]), true, n1. split; [done|]. split_and!; try done.
    - rewrite map_app, HF, <-app_assoc. simpl. by rewrite <-Permutation_middle.
    - rewrite delivered_app. simpl. by rewrite app_nil_r. }
  destruct ((rx_seqnum f =? head_seq_num s1) && (stored_mpdu_num s1 =? 0)) eqn:Ed.
  - apply andb_true_iff in Ed as [E1%Z.eqb_eq _].
    exists (set_head s1 (seq_inc (head_seq_num s1))), e1, false, (n1 + 1).
    split; [done|]. rewrite E1 in Eo. destruct (skip_head s1 I1 Eo) as [I2 H1 H2 _ _ H3 H4 _].
    split_and!; try done; [lia| | |].
    + rewrite H3, Hh, Zplus_mod_idemp_l. f_equal. lia.
    + rewrite HF, map_app, <-app_assoc. simpl. by rewrite <-Permutation_middle.
    + rewrite delivered_app. apply ordered_app; [lia..|done|].
      exists [head_seq_num s + n1]. split_and!; [|repeat constructor|constructor; [lia|constructor]].
      constructor; [|constructor]. by rewrite E1.
  - destruct (lookup_lt_is_Some_2 (reorder_time s1)
                (Z.to_nat ((rx_seqnum f - ssn s1) mod buf_size s1))) as [t ->].
    { pose proof (inv_time _ I1). pose proof (inv_len _ I1).
      pose proof (idx_range s1 (rx_seqnum f) I1). lia. }
    cbn [mbind option_bind].
    destruct (store_frame_ok s1 f tick_store I1 Hok Hd Eo) as [I2 HP].
    destruct (sta_reorder_release_ok _ I2) as (s3 & e3 & n3 & -> & A3).
    cbn [mbind option_bind]. destruct A3 as [I3 H1 H2 Hl3 Hn3 H3 H4 H5]. simpl in *. rewrite length_insert in Hl3.
    exists s3, (e1 ++ e3), true, (n1 + n3). split; [done|].
    split_and!; try done; try congruence; [lia| | |].
    + rewrite H3, Hh, Zplus_mod_idemp_l. f_equal. lia.
    + rewrite HF, map_app, <-app_assoc, <-H4, HP. by rewrite Permutation_middle.
    + rewrite delivered_app. apply ordered_app; try done.
      eapply ordered_sublist; [apply delivered_sublist|].
      eapply ordered_shift; [|exact H5]. rewrite Hh. by rewrite Z.mod_mod by lia.
Qed.
End release.

(** ** Histories *)

Lemma session_step_ok null_read s op :
  null_safe null_read -> ba_inv s -> Forall frame_ok (rx_frames [op]) ->
  exists s' es n, session_step null_read s op = Some (s', es) /\
    ba_inv s' /\ 0 <= n /\ head_seq_num s' = (head_seq_num s + n) mod 4096 /\
    rx_frames [op] ++ frames_of s ≡ₚ map ev_frame es ++ frames_of s' /\
    ordered (head_seq_num s) n (delivered es) /\
    length (reorder_buf s') = length (reorder_buf s).
Proof.
  intros Hnull I Hok. destruct op as [f ts tick disc|ctl disc|tick disc]; simpl.
  - apply Forall_cons in Hok as [Hok _].
    destruct (manage_reorder_buf_ok disc null_read tick Hnull ts s f I Hok)
      as (s' & es & ret & n & -> & I' & _ & _ & Hl & Hn & Hh & HF & HO).
    cbn [mbind option_bind]. exists s', (if ret then es else es ++ [Deliver f]), n. eauto 10.
  - destruct (release_frames_ok disc null_read Hnull s (Z.shiftr ctl 4) I)
      as (s' & es & n & -> & [I' _ _ Hl Hn Hh HF HO] & _).
    do 3 eexists; split; [done|]. split_and!; try done.
    eapply ordered_sublist; [apply delivered_sublist|done].
  - destruct (sta_reorder_release_ok disc null_read tick Hnull s I)
      as (s' & es & n & -> & [I' _ _ Hl Hn Hh HF HO]).
    do 3 eexists; split; [done|]. split_and!; try done.
    eapply ordered_sublist; [apply delivered_sublist|done].
Qed.

Lemma rx_frames_cons op ops : rx_frames (op :: ops) = rx_frames [op] ++ rx_frames ops.
Proof. by destruct op. Qed.

Lemma session_run_ok null_read ops : forall s,
  null_safe null_read -> ba_inv s -> Forall frame_ok (rx_frames ops) ->
  exists s' es n, session_run null_read s ops = Some (s', es) /\
    ba_inv s' /\ 0 <= n /\ head_seq_num s' = (head_seq_num s + n) mod 4096 /\
    rx_frames ops ++ frames_of s ≡ₚ map ev_frame es ++ frames_of s' /\
    ordered (head_seq_num s) n (delivered es).
Proof.
  induction ops as [|op ops IH]; intros s Hnull I Hok; cbn [session_run].
  - exists s, [], 0. split_and!; try done; [|apply ordered_nil].
    rewrite Z.add_0_r, Z.mod_small; [done|apply inv_head, I].
  - rewrite rx_frames_cons in *. apply Forall_app in Hok as [Hok1 Hok2].
    destruct (session_step_ok null_read s op Hnull I Hok1)
      as (s1 & e1 & n1 & -> & I1 & Hn1 & Hh1 & HF1 & HO1 & _).
    destruct (IH s1 Hnull I1 Hok2) as (s2 & e2 & n2 & E2 & I2 & Hn2 & Hh2 & HF2 & HO2).
    cbn [mbind option_bind]. rewrite E2. cbn [mbind option_bind].
    exists s2, (e1 ++ e2), (n1 + n2). split_and!; try done; [lia| | |].
    + rewrite Hh2, Hh1, Zplus_mod_idemp_l. f_equal. lia.
    + rewrite map_app, <-(app_assoc (map _ e1)), <-HF2.
      rewrite (Permutation_app_comm (rx_frames ops) (frames_of s1)).
      rewrite (app_assoc (map _ e1)), <-HF1.
      rewrite <-!app_assoc. f_equiv. apply Permutation_app_comm.
    + rewrite delivered_app. apply ordered_app; try done.
      eapply ordered_shift; [|exact HO2]. rewrite Hh1. by rewrite Z.mod_mod by lia.
Qed.

(** ** Releases that pass an empty slot

    [missing s target]: a sequence number before [target] (which is ahead of the
    window start) whose frame is not stored.  [passes_gap s op]: the operation
    moves the window start over such a number, because a Block-Ack-Request asks
    for it or because a frame beyond the window does. *)
Definition missing (s : rx_ba_session_desc) (target : Z) : Prop :=
  dist (head_seq_num s) target < 2048 /\
  exists k, 0 <= k < dist (head_seq_num s) target /\
    forall f, f ∈ frames_of s -> rx_seqnum f <> (head_seq_num s + k) mod 4096.

Definition passes_gap (s : rx_ba_session_desc) (op : session_op) : Prop :=
  match op with
  | OpRx f _ _ _ =>
      buf_size s <= dist (head_seq_num s) (rx_seqnum f) <= 2048 /\
      missing s ((rx_seqnum f - buf_size s + 1) mod 4096)
  | OpBar ctl _ => missing s (Z.shiftr ctl 4)
  | OpTimer _ _ => False
  end.

Section gaps.
Context (sta_disconnected : Z -> bool) (null_read : option Z) (tick : Z -> Z).

(** A full slot is released without a load through NULL. *)
Lemma release_full s j f :
  slot s j = Some (Some f) ->
  ieee80211_release_reorder_frame sta_disconnected null_read s j =
  ieee80211_release_reorder_frame sta_disconnected (Some 0) s j.
Proof using. clear tick. intros E. unfold ieee80211_release_reorder_frame. by rewrite E. Qed.

(** An empty slot is where the platform matters. *)
Lemma release_empty s j :
  slot s j = Some None ->
  ieee80211_release_reorder_frame sta_disconnected null_read s j =
  if decide (null_safe null_read)
  then ieee80211_release_reorder_frame sta_disconnected (Some 0) s j else None.
Proof using.
  clear tick. intros E. unfold ieee80211_release_reorder_frame. rewrite E. cbn [mbind option_bind].
  destruct (decide (null_safe null_read)) as [(b & -> & Hb)|Hn]; cbn [mbind option_bind].
  - by rewrite (proj2 (Z.leb_gt _ _)).
  - destruct null_read as [b|]; [|done]. cbn [mbind option_bind].
    destruct (Z.leb_spec MAX_VIF_NUM b); [done|]. destruct Hn. by exists b.
Qed.

(** The loops of [ieee80211_sta_reorder_release] release full slots only. *)
Lemma timeout_loop_null fuel : forall s index j k,
  timeout_loop sta_disconnected null_read tick fuel s index j k =
  timeout_loop sta_disconnected (Some 0) tick fuel s index j k.
Proof using.
  induction fuel as [|n IH]; intros s index j k; cbn [timeout_loop]; [done|].
  destruct (j =? index); [done|]. destruct (slot s j) as [[f|]|] eqn:E; cbn [mbind option_bind]; [|done..].
  destruct (reorder_time s !! Z.to_nat j); cbn [mbind option_bind]; [|done].
  rewrite (release_full _ _ _ E). destruct (negb _ && _); [done|].
  destruct (ieee80211_release_reorder_frame _ _ _ _) as [[s1 e1]|]; cbn [mbind option_bind]; [|done].
  by rewrite IH.
Qed.

Lemma ready_loop_null fuel : forall s index,
  ready_loop sta_disconnected null_read fuel s index =
  ready_loop sta_disconnected (Some 0) fuel s index.
Proof using.
  clear tick. induction fuel as [|n IH]; intros s index; cbn [ready_loop]; [done|].
  destruct (slot s index) as [[f|]|] eqn:E; cbn [mbind option_bind]; [|done..].
  rewrite (release_full _ _ _ E).
  destruct (ieee80211_release_reorder_frame _ _ _ _) as [[s1 e1]|]; cbn [mbind option_bind]; [|done].
  destruct (slot_index s1 _); cbn [mbind option_bind]; [|done]. by rewrite IH.
Qed.

Lemma sta_reorder_release_null s :
  ieee80211_sta_reorder_release sta_disconnected null_read tick s =
  ieee80211_sta_reorder_release sta_disconnected (Some 0) tick s.
Proof using.
  unfold ieee80211_sta_reorder_release, release_ready.
  destruct (slot_index s _); cbn [mbind option_bind]; [|done].
  by rewrite ready_loop_null, timeout_loop_null.
Qed.

(** Moving the window start to [target] differs from the benign run only by
    halting at a missing frame, where the platform is not [null_safe]. *)
Lemma release_loop_null fuel : forall s target,
  ba_inv s -> dist (head_seq_num s) target < 2048 ->
  release_loop sta_disconnected null_read fuel s target =
    release_loop sta_disconnected (Some 0) fuel s target \/
  release_loop sta_disconnected null_read fuel s target = None /\
    ~ null_safe null_read /\ missing s target.
Proof using.
  clear tick. induction fuel as [|n IH]; intros s target I Hd; cbn [release_loop]; [by left|].
  rewrite seq_less_mod. pose proof (inv_head s I) as Hh.
  destruct (Z.ltb_spec 2048 ((head_seq_num s - target) mod 4096)) as [Hl|_]; [|by left].
  rewrite (slot_index_inv s _ I). cbn [mbind option_bind].
  pose proof (idx_range s (head_seq_num s) I) as Hr.
  destruct (slot_inv s _ I Hr) as ([f|] & Eo & Eb).
  - rewrite (release_full _ _ _ Eo).
    destruct (release_head sta_disconnected (Some 0) ltac:(by exists 0) s I)
      as (s1 & e1 & -> & A & Hm). cbn [mbind option_bind].
    pose proof (adv_frames _ _ _ _ A) as HF. rewrite (Hm f Eo) in HF. simpl in HF.
    pose proof (head_frame s f I Eo) as [Hf _].
    assert (Hs1 : head_seq_num s1 = (head_seq_num s + 1) mod 4096) by apply (adv_head _ _ _ _ A).
    assert (Hd1 : dist (head_seq_num s1) target = dist (head_seq_num s) target - 1)
      by (unfold dist in *; lia).
    destruct (IH s1 target (adv_inv _ _ _ _ A)) as [->|(-> & Hn & _ & k & Hk & Hno)]; [lia|by left|].
    right. split_and!; [done..|]. split; [done|]. exists (k + 1). split; [lia|]. intros g Hg. rewrite HF in Hg.
    apply elem_of_cons in Hg as [->|Hg].
    + rewrite Hf. unfold dist in *. lia.
    + specialize (Hno g Hg). rewrite Hs1, Zplus_mod_idemp_l in Hno.
      by replace (head_seq_num s + (k + 1)) with (head_seq_num s + 1 + k) by lia.
  - rewrite (release_empty _ _ Eo). destruct (decide (null_safe null_read)) as [(b & -> & Hb)|Hn].
    + destruct (release_head sta_disconnected (Some 0) ltac:(by exists 0) s I)
        as (s1 & e1 & -> & A & _). cbn [mbind option_bind].
      destruct (IH s1 target (adv_inv _ _ _ _ A)) as [->|(_ & Hn & _)]; [|by left|].
      * pose proof (adv_head _ _ _ _ A). unfold dist in *. lia.
      * destruct Hn. by exists b.
    + right. split_and!; [done..|]. split; [done|]. exists 0. split; [unfold dist in *; lia|].
      intros g [i Hi]%elem_of_frames. rewrite Z.add_0_r, Z.mod_small by lia. intros Eg.
      destruct (inv_slots s I i g Hi) as (_ & Hpos & _). rewrite Eg in Hpos.
      rewrite <-Hpos, Nat2Z.id, Hi in Eb. done.
Qed.

Lemma release_frames_null s target :
  ba_inv s ->
  ieee80211_release_reorder_frames sta_disconnected null_read s target =
    ieee80211_release_reorder_frames sta_disconnected (Some 0) s target \/
  ieee80211_release_reorder_frames sta_disconnected null_read s target = None /\
    ~ null_safe null_read /\ missing s target.
Proof using.
  clear tick. intros I. unfold ieee80211_release_reorder_frames.
  destruct (Z.ltb_spec (dist (head_seq_num s) target) 2048) as [Hd|Hd];
    [by apply release_loop_null|left].
  replace (Z.to_nat SEQ_MODULO) with (S (Z.to_nat 4095)) by done. cbn [release_loop].
  rewrite seq_less_mod, (proj2 (Z.ltb_ge _ _)); [done|]. unfold dist in Hd. lia.
Qed.
End gaps.

(** Every operation behaves as on a [null_safe] platform, or it passes a gap
    and halts. *)
Lemma session_step_null null_read s op :
  ba_inv s -> Forall frame_ok (rx_frames [op]) ->
  session_step null_read s op = session_step (Some 0) s op \/
  session_step null_read s op = None /\ ~ null_safe null_read /\ passes_gap s op.
Proof.
  intros I Hok. destruct op as [f ts tick disc|ctl disc|tick disc]; cbn [session_step].
  - apply Forall_cons in Hok as [[Hq _] _]. unfold ieee80211_sta_manage_reorder_buf.
    rewrite (u16_small (rx_seqnum f)) by lia. rewrite seq_less_mod.
    pose proof (inv_bs s I). pose proof (inv_len s I). pose proof (inv_head s I).
    destruct (Z.ltb_spec 2048 ((rx_seqnum f - head_seq_num s) mod 4096)) as [|Hl]; [by left|].
    rewrite (u16_small (head_seq_num s + _)), seq_less_mod by lia.
    destruct (Z.ltb_spec 2048 ((rx_seqnum f - (head_seq_num s + buf_size s)) mod 4096)) as [H2|H2];
      cbn [negb mbind option_bind].
    + left. destruct (slot_index s _); cbn [mbind option_bind]; [|done].
      destruct (slot s _) as [[g|]|]; cbn [mbind option_bind]; [done| |done].
      by rewrite sta_reorder_release_null.
    + destruct (release_frames_null disc null_read s (seq_inc (seq_sub (rx_seqnum f) (buf_size s))) I)
        as [->|(-> & Hn & Hm)]; cbn [mbind option_bind].
      * left. destruct (ieee80211_release_reorder_frames _ _ _ _) as [[s1 e1]|];
          cbn [mbind option_bind]; [|done].
        destruct (slot_index s1 _); cbn [mbind option_bind]; [|done].
        destruct (slot s1 _) as [[g|]|]; cbn [mbind option_bind]; [done| |done].
        by rewrite sta_reorder_release_null.
      * right. split; [done|]. split; [done|]. cbn [passes_gap]. split; [unfold dist; lia|].
        rewrite seq_inc_mod, seq_sub_mod, Zplus_mod_idemp_l in Hm. done.
  - by apply release_frames_null.
  - left. apply sta_reorder_release_null.
Qed.

(** The history halts at an operation that passes a gap. *)
Definition halts_at_gap (null_read : option Z) (s : rx_ba_session_desc) (ops : list session_op) : Prop :=
  ~ null_safe null_read /\ session_run null_read s ops = None /\
  exists before op after s1 es1, ops = before ++ op :: after /\
    session_run null_read s before = Some (s1, es1) /\ passes_gap s1 op.

Lemma session_run_null null_read ops : forall s,
  ba_inv s -> Forall frame_ok (rx_frames ops) ->
  session_run null_read s ops = session_run (Some 0) s ops \/ halts_at_gap null_read s ops.
Proof.
  induction ops as [|op ops IH]; intros s I Hok; [by left|].
  rewrite rx_frames_cons in Hok. apply Forall_app in Hok as [Hok1 Hok2].
  unfold halts_at_gap. cbn [session_run].
  destruct (session_step_null null_read s op I Hok1) as [E|(E & Hn & Hg)]; rewrite E.
  - destruct (session_step_ok (Some 0) s op ltac:(by exists 0) I Hok1)
      as (s1 & e1 & n1 & E1 & I1 & _). rewrite E1 in *. cbn [mbind option_bind].
    destruct (IH s1 I1 Hok2) as [->|(Hn & Hr & before & op' & after & s2 & e2 & -> & Eb & Hg)]; [by left|].
    right. rewrite Hr. split_and!; [done..|].
    exists (op :: before), op', after, s2, (e1 ++ e2). split_and!; [done| |done].
    cbn [session_run]. rewrite E. cbn [mbind option_bind]. rewrite Eb. done.
  - right. split_and!; [done..|]. by exists [], op, ops, s, [].
Qed.

(** C20: in-order delivery.  Whatever the order in which the frames of a
    Block-Ack session arrive, interleaved with Block-Ack-Requests and with the
    reorder timer, the history runs without a fault and the frames handed to
    the data handlers are in strictly increasing sequence order (modulo 4096,
    counted from the window start): none out of order and none twice.  There is
    one other outcome: where a load through NULL does not answer
    with a valid interface index, the history halts at a Block-Ack-Request or a
    frame beyond the window that moves the window start over a sequence number
    whose frame is missing.  Conditions: the session is well-formed ([ba_inv]:
    a window of at least 2 that divides 4096 and fits a buffer of at most 255
    slots, each stored frame in its slot and inside the window), and every
    frame has a 12-bit sequence number and a valid interface index. *)
Theorem reorder_in_order null_read s ops :
  ba_inv s -> Forall frame_ok (rx_frames ops) ->
  (exists s' es n, session_run null_read s ops = Some (s', es) /\
     head_seq_num s' = (head_seq_num s + n) mod 4096 /\
     ordered (head_seq_num s) n (delivered es)) \/
  halts_at_gap null_read s ops.
Proof.
  intros H2 H3. destruct (session_run_null null_read ops s H2 H3) as [->|H]; [left|by right].
  destruct (session_run_ok (Some 0) ops s ltac:(by exists 0) H2 H3)
    as (s' & es & n & ? & _ & _ & ? & _ & ?). eauto 10.
Qed.

(** C21: no frame is lost or duplicated.  The frames received by a history
    together with those stored before it are exactly the frames delivered, the
    frames freed and the frames still stored; the one other outcome and the
    conditions are those of [reorder_in_order]. *)
Theorem reorder_conserves_frames null_read s ops :
  ba_inv s -> Forall frame_ok (rx_frames ops) ->
  (exists s' es, session_run null_read s ops = Some (s', es) /\
     rx_frames ops ++ frames_of s ≡ₚ map ev_frame es ++ frames_of s') \/
  halts_at_gap null_read s ops.
Proof.
  intros H2 H3. destruct (session_run_null null_read ops s H2 H3) as [->|H]; [left|by right].
  destruct (session_run_ok (Some 0) ops s ltac:(by exists 0) H2 H3)
    as (s' & es & n & ? & _ & _ & _ & ? & _). eauto 10.
Qed.

(** the session invariant (window, slots, count and index bounds) holds
    after every history; every loop of the handlers ends and no handler halts
    or leaves the buffer. *)
Theorem reorder_invariant null_read s ops :
  null_safe null_read -> ba_inv s -> Forall frame_ok (rx_frames ops) ->
  exists s' es, session_run null_read s ops = Some (s', es) /\ ba_inv s'.
Proof.
  intros H1 H2 H3. destruct (session_run_ok null_read ops s H1 H2 H3)
    as (s' & es & n & ? & ? & _). eauto 10.
Qed.

(** ** Setting up and tearing down a session *)

(** What tearing down needs of a session: it holds also for one that is not in
    use ([buf_size = 0]). *)
Record flushable (s : rx_ba_session_desc) : Prop := mk_flushable {
  fl_len : Z.of_nat (length (reorder_buf s)) <= 255;
  fl_time : length (reorder_time s) = length (reorder_buf s);
  fl_stored : stored_mpdu_num s = Z.of_nat (length (frames_of s));
  fl_frames : Forall (fun f => rx_bssid_idx f < MAX_VIF_NUM) (frames_of s)
}.

Lemma ba_inv_flushable s : ba_inv s -> flushable s.
Proof.
  intros [? ? ? ? ? ? ? Hs]. split; try done; [lia|].
  apply Forall_forall. intros f [i Hi]%elem_of_frames. by destruct (Hs i f Hi) as ([_ ?] & _).
Qed.

Section flush.
Context (sta_disconnected : Z -> bool) (null_read : option Z) (Hnull : null_safe null_read).

Lemma release_any s i :
  flushable s -> 0 <= i < Z.of_nat (length (reorder_buf s)) ->
  exists s' es, ieee80211_release_reorder_frame sta_disconnected null_read s i = Some (s', es) /\
    flushable s' /\ frames_of s ≡ₚ map ev_frame es ++ frames_of s' /\
    reorder_buf s' = <[Z.to_nat i := None]> (reorder_buf s) /\ reorder_time s' = reorder_time s.
Proof using Hnull.
  intros F Hi. destruct F as [Hl Ht Hst Hfr].
  destruct (lookup_lt_is_Some_2 (reorder_buf s) (Z.to_nat i)) as [o Ho]; [lia|].
  unfold ieee80211_release_reorder_frame, slot.
  rewrite (proj2 (Z.ltb_ge _ _)) by lia. rewrite Ho. cbn [mbind option_bind].
  destruct o as [f|].
  - assert (f ∈ frames_of s) as Hin by (apply elem_of_frames; eauto).
    pose proof (omap_take_out _ _ _ Ho) as HP.
    rewrite Forall_forall in Hfr. specialize (Hfr f Hin) as Hb. cbn [mbind option_bind].
    rewrite (proj2 (Z.leb_gt _ _)) by done.
    do 2 eexists; split; [done|]. simpl.
    assert (length (frames_of s) <= length (reorder_buf s))%nat by apply frames_length.
    pose proof (Permutation_length HP) as HL. fold (frames_of s) in HL, HP. simpl in HL.
    split_and!; try done.
    + split; simpl; rewrite ?length_insert; try done.
      * unfold frames_of at 1. simpl. rewrite Hst, HL, u16_small; lia.
      * apply Forall_forall. intros g Hg. apply Hfr. rewrite HP. by constructor.
    + rewrite HP. by destruct (sta_disconnected _).
  - destruct Hnull as (b & -> & Hb). simpl. rewrite (proj2 (Z.leb_gt _ _)) by done.
    do 2 eexists; split; [done|]. simpl. split_and!; try done.
    by rewrite list_insert_id.
Qed.

Lemma release_all_ok n : forall i s,
  flushable s -> Z.of_nat (i + n) <= Z.of_nat (length (reorder_buf s)) ->
  (forall k, (k < i)%nat -> reorder_buf s !! k = Some None) ->
  exists s' es, release_all sta_disconnected null_read n (Z.of_nat i) s = Some (s', es) /\
    flushable s' /\ frames_of s ≡ₚ map ev_frame es ++ frames_of s' /\
    length (reorder_buf s') = length (reorder_buf s) /\ reorder_time s' = reorder_time s /\
    (forall k, (k < i + n)%nat -> reorder_buf s' !! k = Some None).
Proof using Hnull.
  induction n as [|n IH]; intros i s F Hl Hk; cbn [release_all].
  - exists s, []. split_and!; try done. intros k ?. apply Hk. lia.
  - destruct (release_any s (Z.of_nat i) F) as (s1 & e1 & -> & F1 & HP & Hb & Ht); [lia|].
    cbn [mbind option_bind]. replace (Z.of_nat i + 1) with (Z.of_nat (S i)) by lia.
    rewrite Nat2Z.id in Hb.
    destruct (IH (S i) s1 F1) as (s2 & e2 & -> & F2 & HP2 & Hlen2 & Ht2 & Hk2).
    + rewrite Hb, length_insert. lia.
    + intros k Hk'. rewrite Hb. destruct (decide (i = k)) as [<-|].
      * apply list_lookup_insert_eq. lia.
      * rewrite list_lookup_insert_ne by done. apply Hk. lia.
    + cbn [mbind option_bind]. do 2 eexists; split; [done|]. split_and!; try done.
      * by rewrite map_app, <-app_assoc, <-HP2.
      * rewrite Hlen2, Hb. apply length_insert.
      * congruence.
      * intros k ?. apply Hk2. lia.
Qed.

Lemma flush_all_ok s :
  flushable s ->
  exists s' es,
    release_all sta_disconnected null_read (length (reorder_buf s)) 0 s = Some (s', es) /\
    frames_of s ≡ₚ map ev_frame es /\ reorder_time s' = reorder_time s /\
    stored_mpdu_num s' = 0 /\ reorder_buf s' = replicate (length (reorder_buf s)) None.
Proof using Hnull.
  intros F. destruct (release_all_ok (length (reorder_buf s)) 0 s F)
    as (s' & es & E & F' & HP & Hl & Ht & Hk); [lia|lia|].
  assert (Hb : reorder_buf s' = replicate (length (reorder_buf s)) None).
  { apply list_eq. intros k. destruct (decide (k < length (reorder_buf s))%nat) as [Hlt|].
    - rewrite Hk by lia. symmetry. by apply lookup_replicate_2.
    - rewrite !lookup_ge_None_2; rewrite ?length_replicate; [done|lia..]. }
  assert (Hn : frames_of s' = []).
  { unfold frames_of. rewrite Hb. clear. induction (length (reorder_buf s)); done. }
  exists s', es. rewrite Hn, app_nil_r in HP. split_and!; try done.
  rewrite (fl_stored _ F'), Hn. done.
Qed.
End flush.

(** Tearing down halts at an empty slot where the platform is not
    [null_safe]. *)
Lemma release_all_null disc null_read n : forall i s,
  flushable s -> Z.of_nat (i + n) <= Z.of_nat (length (reorder_buf s)) ->
  release_all disc null_read n (Z.of_nat i) s = release_all disc (Some 0) n (Z.of_nat i) s \/
  release_all disc null_read n (Z.of_nat i) s = None /\ ~ null_safe null_read /\
    exists k, (i <= k)%nat /\ reorder_buf s !! k = Some None.
Proof.
  induction n as [|n IH]; intros i s F Hl; cbn [release_all]; [by left|].
  destruct (release_any disc (Some 0) ltac:(by exists 0) s (Z.of_nat i) F)
    as (s1 & e1 & E1 & F1 & _ & Hb & _); [lia|]. rewrite Nat2Z.id in Hb.
  destruct (lookup_lt_is_Some_2 (reorder_buf s) i) as [o Ho]; [lia|].
  assert (Hs : slot s (Z.of_nat i) = Some o).
  { unfold slot. rewrite (proj2 (Z.ltb_ge _ _)) by lia. by rewrite Nat2Z.id. }
  assert (Hgo : ieee80211_release_reorder_frame disc null_read s (Z.of_nat i) = Some (s1, e1) \/
    ieee80211_release_reorder_frame disc null_read s (Z.of_nat i) = None /\ ~ null_safe null_read /\ o = None).
  { destruct o as [f|]; [left; by rewrite (release_full _ _ _ _ _ Hs)|].
    rewrite (release_empty _ _ _ _ Hs). destruct (decide (null_safe null_read)); [by left|by right]. }
  destruct Hgo as [->|(-> & Hn & ->)]; [|right; eauto 10].
  rewrite E1. cbn [mbind option_bind]. replace (Z.of_nat i + 1) with (Z.of_nat (S i)) by lia.
  destruct (IH (S i) s1 F1) as [->|(-> & Hn & k & Hk & Hsk)].
  - rewrite Hb, length_insert. lia.
  - by left.
  - right. split_and!; [done..|]. exists k. split; [lia|].
    rewrite Hb, list_lookup_insert_ne in Hsk by lia. done.
Qed.

Lemma addba_session_null disc null_read s q bs :
  flushable s ->
  let size := Z.of_nat (length (reorder_buf s)) in
  addba_session disc null_read size q bs s = addba_session disc (Some 0) size q bs s \/
  addba_session disc null_read size q bs s = None /\ ~ null_safe null_read /\ None ∈ reorder_buf s.
Proof.
  intros F size. unfold addba_session, size. rewrite Nat2Z.id.
  destruct (release_all_null disc null_read (length (reorder_buf s)) 0 s F) as [H|(H & Hn & k & _ & Hk)];
    [lia|change (Z.of_nat 0) with 0 in H; rewrite H; by left|change (Z.of_nat 0) with 0 in H; rewrite H; right].
  split_and!; [done..|]. by apply list_elem_of_lookup_2 in Hk.
Qed.

Lemma fresh_session_inv n bs q times :
  2 <= bs -> (bs | 4096) -> bs <= Z.of_nat n <= 255 -> 0 <= q < 4096 -> length times = n ->
  ba_inv (mk_session (replicate n None) times q 0 q bs).
Proof.
  intros. assert (omap id (replicate n (@None rx_frame)) = []) as E
    by (clear; induction n; done).
  split; simpl; rewrite ?length_replicate; try done.
  - unfold frames_of. simpl. by rewrite E.
  - intros i f Hi. by apply lookup_replicate in Hi as [[=] _].
Qed.

(** ADDBA establishes the session.  From any session whose buffer has the
    configured size, a Block-Ack agreement whose window fits the buffer (a
    divisor of 4096, at least 2) hands out every stored frame and starts an
    empty window at the agreed sequence number in which the invariant holds. *)
Theorem addba_establishes disc null_read s q bs :
  null_safe null_read -> flushable s ->
  2 <= bs -> (bs | 4096) -> bs <= Z.of_nat (length (reorder_buf s)) -> 0 <= q < 4096 ->
  exists s' es,
    addba_session disc null_read (Z.of_nat (length (reorder_buf s))) q bs s = Some (s', es) /\
    ba_inv s' /\ head_seq_num s' = q /\ frames_of s' = [] /\
    frames_of s ≡ₚ map ev_frame es.
Proof.
  intros Hnull F Hbs Hdiv Hfit Hq. unfold addba_session. rewrite Nat2Z.id.
  destruct (flush_all_ok disc null_read Hnull s F) as (s1 & es & -> & HP & Ht & Hst & Hb).
  cbn [mbind option_bind]. do 2 eexists; split; [done|]. rewrite Hst, Hb.
  pose proof (fl_len _ F). pose proof (fl_time _ F).
  split_and!; try done.
  - apply fresh_session_inv; try done. congruence.
  - unfold frames_of. simpl. clear. induction (length (reorder_buf s)); done.
Qed.

(** deleting a session hands out every stored frame, empties the buffer and
    the counters and marks the session unused, so that later frames bypass it. *)
Theorem delete_session_empties disc null_read s :
  null_safe null_read -> flushable s ->
  exists es,
    delete_session disc null_read (Z.of_nat (length (reorder_buf s))) s =
    Some (mk_session (replicate (length (reorder_buf s)) None)
                     (replicate (length (reorder_buf s)) 0) 0 0 0 0, es) /\
    frames_of s ≡ₚ map ev_frame es.
Proof.
  intros Hnull F. unfold delete_session. rewrite Nat2Z.id.
  destruct (flush_all_ok disc null_read Hnull s F) as (s1 & es & -> & HP & Ht & Hst & Hb).
  cbn [mbind option_bind]. eexists; split; [|done]. rewrite Hb, Ht.
  rewrite drop_ge by (rewrite (fl_time _ F); lia). by rewrite app_nil_r.
Qed.

(** ** Prompt release *)

Lemma no_frames_slot s j :
  ba_inv s -> stored_mpdu_num s = 0 -> 0 <= j < buf_size s -> slot s j = Some None.
Proof.
  intros I Hst Hj. destruct (slot_inv s j I Hj) as ([f|] & -> & Ho); [|done].
  assert (f ∈ frames_of s) as Hin by (apply elem_of_frames; eauto).
  pose proof (inv_stored s I) as E. destruct (frames_of s); [by apply elem_of_nil in Hin|].
  simpl in E. lia.
Qed.

(** With the head slot filled, a release starts with its frame and stops at an
    empty slot. *)
Lemma filled_head_released disc null_read tick s f :
  null_safe null_read -> ba_inv s ->
  slot s ((head_seq_num s - ssn s) mod buf_size s) = Some (Some f) ->
  exists s' es fs, ieee80211_sta_reorder_release disc null_read tick s = Some (s', es) /\
    map ev_frame es = f :: fs /\
    slot s' ((head_seq_num s' - ssn s') mod buf_size s') = Some None.
Proof.
  intros Hnull I Hs. unfold ieee80211_sta_reorder_release. rewrite (slot_index_inv s _ I).
  cbn [mbind option_bind]. unfold release_ready. rewrite Hs. cbn [mbind option_bind].
  pose proof (frames_length s).
  destruct (ready_loop_ok disc null_read Hnull (S (length (reorder_buf s))) s I)
    as (s3 & e3 & n3 & -> & A3 & Hs3 & Hfirst); [lia|].
  cbn [mbind option_bind]. destruct (Hfirst f Hs) as [fs Hfs].
  destruct (Z.eqb_spec (stored_mpdu_num s3) 0) as [|Hst]; [eauto 10|].
  pose proof (adv_inv _ _ _ _ A3) as I3. rewrite (slot_index_inv s3 _ I3).
  cbn [mbind option_bind]. destruct (stored_slot s3 I3 Hst) as (p & g & Hp & Hg).
  pose proof (idx_range s3 (head_seq_num s3) I3) as Hr3. pose proof (inv_len s3 I3).
  rewrite (scan_loop_ok _ s3 _ p g _ I3 Hg Hp Hr3); [cbn [mbind option_bind]; eauto 10|].
  pose proof (Z.mod_pos_bound (p - (head_seq_num s3 - ssn s3) mod buf_size s3) (buf_size s3)).
  lia.
Qed.

(** when the frame the window is waiting for arrives it is handed out at
    once, before every other frame, and everything buffered up to the next gap
    follows: afterwards the slot of the new window start is empty. *)
Theorem awaited_frame_released null_read s f ts tick disc :
  null_safe null_read -> ba_inv s -> frame_ok f -> rx_seqnum f = head_seq_num s ->
  slot s ((head_seq_num s - ssn s) mod buf_size s) = Some None ->
  exists s' es fs, session_step null_read s (OpRx f ts tick disc) = Some (s', es) /\
    map ev_frame es = f :: fs /\
    slot s' ((head_seq_num s' - ssn s') mod buf_size s') = Some None.
Proof.
  intros Hnull I Hok Hf Hs. pose proof Hok as [Hq _].
  pose proof (inv_bs s I). pose proof (inv_len s I). pose proof (inv_head s I).
  pose proof (idx_range s (head_seq_num s) I) as Hr.
  cbn [session_step]. unfold ieee80211_sta_manage_reorder_buf.
  rewrite !(u16_small (rx_seqnum f)), (u16_small (head_seq_num s + _)) by lia.
  rewrite Hf, !seq_less_mod, (proj2 (Z.ltb_ge _ _)) by lia.
  rewrite (proj2 (Z.ltb_lt 2048 _)) by lia. cbn [negb mbind option_bind].
  rewrite (slot_index_inv s _ I). cbn [mbind option_bind].
  rewrite Hs. cbn [mbind option_bind]. rewrite Z.eqb_refl.
  destruct (Z.eqb_spec (stored_mpdu_num s) 0) as [Hz|Hz]; cbn [andb].
  - do 3 eexists. split_and!; [done..|].
    destruct (skip_head s I Hs) as [I2 _ _ _ _ _ _ _].
    apply (no_frames_slot _ _ I2); [done|]. by apply idx_range.
  - destruct (lookup_lt_is_Some_2 (reorder_time s)
                (Z.to_nat ((head_seq_num s - ssn s) mod buf_size s))) as [t ->].
    { pose proof (inv_time _ I). lia. }
    cbn [mbind option_bind].
    assert (Hd : dist (head_seq_num s) (rx_seqnum f) < buf_size s)
      by (unfold dist; rewrite Hf, Z.sub_diag; simpl; lia).
    pose proof Hs as Hs'. rewrite <-Hf in Hs'.
    destruct (store_frame_ok s f ts I Hok Hd Hs') as [I2 HP]. rewrite Hf in I2, HP.
    set (s2 := mk_session _ _ _ _ _ _) in *.
    destruct (filled_head_released disc null_read tick s2 f Hnull I2)
      as (s3 & e3 & fs & E3 & Hfs & Hs3).
    { unfold slot. rewrite (proj2 (Z.ltb_ge _ _)) by (simpl; lia). simpl.
      apply list_lookup_insert_eq. lia. }
    rewrite E3. cbn [mbind option_bind]. eauto 10.
Qed.

(** ** The session table *)

Lemma get_put_other g w t w' t' s :
  Z.to_nat w <> Z.to_nat w' -> get_session (put_session g w t s) w' t' = get_session g w' t'.
Proof.
  intros H. unfold get_session, put_session. by rewrite list_lookup_alter_ne.
Qed.

Lemma get_put_same g w t s s' :
  get_session g w t = Some s -> get_session (put_session g w t s') w t = Some s'.
Proof.
  unfold get_session, put_session. intros (row & Hr & Ht)%bind_Some.
  rewrite list_lookup_alter_eq, Hr. simpl. apply list_lookup_insert_eq. by eapply lookup_lt_Some.
Qed.

(** dispatch and isolation.  A data frame goes through the session of its
    station and TID exactly when it is an 802.3 QoS frame of a known station on
    a TID with a session in use; every other frame is delivered as it is with
    no session touched; and a frame never changes the session of another
    station. *)
Theorem rx_reorder_dispatch disc null_read tick stations ts g f s :
  rx_bssid_idx f < MAX_VIF_NUM -> get_session g (rx_wsid f) (rx_tid f) = Some s ->
  let through := negb (rx_f80211 f) && rx_qos f && (rx_wsid f <? stations) && (rx_tid f <? 1)
                 && negb (buf_size s =? 0) in
  ieee80211_rx_reorder_ampdu disc null_read tick stations ts g f =
    (if through then
       '(s', es) ← session_step null_read s (OpRx f ts tick disc);
       Some (put_session g (rx_wsid f) (rx_tid f) s', es)
     else Some (g, [Deliver f])) /\
  forall s' w t, Z.to_nat (rx_wsid f) <> Z.to_nat w ->
    get_session (put_session g (rx_wsid f) (rx_tid f) s') w t = get_session g w t.
Proof.
  intros Hb Hg through. split; [|intros; by apply get_put_other].
  unfold ieee80211_rx_reorder_ampdu, through.
  rewrite (proj2 (Z.leb_gt _ _)) by done. rewrite !Z.leb_antisym, Hg.
  destruct (rx_f80211 f), (rx_qos f), (rx_wsid f <? stations), (rx_tid f <? 1); try done.
  cbn [negb andb mbind option_bind]. destruct (buf_size s =? 0); [done|].
  cbn [negb session_step].
  destruct (ieee80211_sta_manage_reorder_buf _ _ _ _ _ _) as [[[s1 e1] [|]]|]; done.
Qed.

(** ** Concrete sessions *)

Definition demo_session (q bs : Z) : rx_ba_session_desc :=
  mk_session (replicate 64 None) (replicate 64 0) q 0 q bs.

Definition demo_frame (q : Z) : rx_frame := mk_rx_frame q q 0 0 0 false true.

Definition demo_rx (q : Z) : session_op := OpRx (demo_frame q) 0 (fun _ => 0) (fun _ => false).

Lemma null_safe_0 : null_safe (Some 0).
Proof. by exists 0. Qed.

Lemma demo_inv : ba_inv (demo_session 4094 64).
Proof. apply fresh_session_inv; (done || by exists 64). Defined.

Lemma demo_frames_ok qs : Forall (fun q => 0 <= q < 4096) qs ->
  Forall frame_ok (rx_frames (map demo_rx qs)).
Proof. induction 1; simpl; constructor; done. Qed.

(** The sequence numbers delivered by a history. *)
Definition seqs_delivered (r : option (rx_ba_session_desc * list rx_event)) : option (list Z) :=
  '(_, es) ← r; Some (map rx_seqnum (delivered es)).

(** Frames 1, 4094, 0, 4095 arriving in this order around the wrap are
    delivered as 4094, 4095, 0, 1. *)
Example demo_in_order :
  seqs_delivered (session_run (Some 0) (demo_session 4094 64) (map demo_rx [1; 4094; 0; 4095]))
  = Some [4094; 4095; 0; 1].
Proof. vm_compute. reflexivity. Qed.

(** A platform where the load faults: the same frames, no gap is passed. *)
Lemma reorder_in_order_witness :
  (exists s' es n,
     session_run None (demo_session 4094 64) (map demo_rx [1; 4094; 0; 4095]) = Some (s', es) /\
     head_seq_num s' = (4094 + n) mod 4096 /\ ordered 4094 n (delivered es)) \/
  halts_at_gap None (demo_session 4094 64) (map demo_rx [1; 4094; 0; 4095]).
Proof.
  apply (reorder_in_order None (demo_session 4094 64)).
  - apply demo_inv.
  - apply demo_frames_ok. repeat constructor; discriminate.
Defined.

Lemma reorder_conserves_frames_witness :
  (exists s' es,
     session_run (Some 0) (demo_session 4094 64) (map demo_rx [1; 4094; 4094; 70]) = Some (s', es) /\
     rx_frames (map demo_rx [1; 4094; 4094; 70]) ++ frames_of (demo_session 4094 64)
       ≡ₚ map ev_frame es ++ frames_of s') \/
  halts_at_gap (Some 0) (demo_session 4094 64) (map demo_rx [1; 4094; 4094; 70]).
Proof.
  apply (reorder_conserves_frames (Some 0) (demo_session 4094 64)).
  - apply demo_inv.
  - apply demo_frames_ok. repeat constructor; discriminate.
Defined.

(** The load through NULL decides: a Block-Ack-Request over the missing frames
    4094 and 4095 delivers the stored frame 0 where the load answers with an
    interface index, and halts where it faults or answers with 2 or more; so
    does setting a session up, which releases the empty slots. *)
Example null_load_decides :
  let ops := [demo_rx 0; OpBar (1 * 16) (fun _ => false)] in
  seqs_delivered (session_run (Some 1) (demo_session 4094 64) ops) = Some [0] /\
  session_run None (demo_session 4094 64) ops = None /\
  session_run (Some 2) (demo_session 4094 64) ops = None /\
  addba_session (fun _ => false) None 64 100 32 (demo_session 4094 64) = None.
Proof. vm_compute. repeat split. Qed.

Lemma reorder_invariant_witness :
  exists s' es,
    session_run (Some 0) (demo_session 4094 64) (map demo_rx [1; 100; 4095]) = Some (s', es) /\ ba_inv s'.
Proof.
  apply (reorder_invariant (Some 0) (demo_session 4094 64)).
  - apply null_safe_0.
  - apply demo_inv.
  - apply demo_frames_ok. repeat constructor; discriminate.
Defined.

Lemma addba_establishes_witness :
  exists s' es,
    addba_session (fun _ => false) (Some 0) 64 100 32 (demo_session 4094 64) = Some (s', es) /\
    ba_inv s' /\ head_seq_num s' = 100 /\ frames_of s' = [] /\
    frames_of (demo_session 4094 64) ≡ₚ map ev_frame es.
Proof.
  apply (addba_establishes (fun _ => false) (Some 0) (demo_session 4094 64) 100 32).
  - apply null_safe_0.
  - apply ba_inv_flushable, demo_inv.
  - discriminate.
  - exists 128. reflexivity.
  - vm_compute. discriminate.
  - split; [discriminate|reflexivity].
Defined.

Lemma delete_session_empties_witness :
  exists es,
    delete_session (fun _ => false) (Some 0) 64 (demo_session 4094 64) =
    Some (mk_session (replicate 64 None) (replicate 64 0) 0 0 0 0, es) /\
    frames_of (demo_session 4094 64) ≡ₚ map ev_frame es.
Proof.
  apply (delete_session_empties (fun _ => false) (Some 0) (demo_session 4094 64)).
  - apply null_safe_0.
  - apply ba_inv_flushable, demo_inv.
Defined.

Lemma awaited_frame_released_witness :
  exists s' es fs,
    session_step (Some 0) (demo_session 4094 64) (OpRx (demo_frame 4094) 0 (fun _ => 0) (fun _ => false))
    = Some (s', es) /\
    map ev_frame es = demo_frame 4094 :: fs /\
    slot s' ((head_seq_num s' - ssn s') mod buf_size s') = Some None.
Proof.
  apply (awaited_frame_released (Some 0) (demo_session 4094 64)).
  - apply null_safe_0.
  - apply demo_inv.
  - repeat split; discriminate.
  - reflexivity.
  - reflexivity.
Defined.

Lemma rx_reorder_dispatch_witness :
  ieee80211_rx_reorder_ampdu (fun _ => false) (Some 0) (fun _ => 0) 1 0 [[demo_session 4094 64]]
    (demo_frame 4094) =
  ('(s', es) ← session_step (Some 0) (demo_session 4094 64)
                 (OpRx (demo_frame 4094) 0 (fun _ => 0) (fun _ => false));
   Some (put_session [[demo_session 4094 64]] 0 0 s', es)).
Proof.
  apply (rx_reorder_dispatch (fun _ => false) (Some 0) (fun _ => 0) 1 0 [[demo_session 4094 64]]
           (demo_frame 4094) (demo_session 4094 64)).
  - reflexivity.
  - reflexivity.
Defined.

(** an ADDBA whose window is larger than the allocated buffer is accepted
    without a check, and a frame that falls beyond the buffer is then an access
    outside the array. *)
Theorem addba_oversize_window_faults :
  match addba_session (fun _ => false) (Some 0) 64 0 128 (demo_session 4094 64) with
  | Some (s', _) => buf_size s' = 128 /\ length (reorder_buf s') = 64%nat /\
                    session_step (Some 0) s' (demo_rx 100) = None
  | None => False
  end.
Proof. vm_compute. repeat split. Qed.

(** a window size that does not divide 4096 loses frames at the wrap of the
    sequence numbers: with 48 slots and window start 4090, frame 14 (never
    received before, inside the window) falls on the slot of frame 4094 and is
    freed as a duplicate. *)
Theorem window_not_dividing_drops :
  match session_run (Some 0) (mk_session (replicate 64 None) (replicate 64 0) 4090 0 0 48)
          [demo_rx 4094; demo_rx 14] with
  | Some (s', es) => es = [Free (demo_frame 14)] /\ frames_of s' = [demo_frame 4094]
  | None => False
  end.
Proof. vm_compute. repeat split. Qed.

(** Tearing a session down hands the stored frames out in slot order, which is
    not sequence order when the window wraps around the ring: 62 was due before
    64. *)
Example delete_order :
  seqs_delivered
    ('(s1, e1) ← session_run (Some 0) (demo_session 0 64) [OpBar (60 * 16) (fun _ => false); demo_rx 62; demo_rx 64];
     '(s2, e2) ← delete_session (fun _ => false) (Some 0) 64 s1; Some (s2, e1 ++ e2))
  = Some [64; 62].
Proof. vm_compute. reflexivity. Qed.
