(* ===== verification/Dev.v ===== *)
(** * Dev: the device record [gDeviceInfo] and its station interfaces

    The part of [struct DeviceInfo] (include/priv/dev.h) that the MLME table and
    the command engine read and write, and the helpers on it of
    [core/host_apis.c] ([get_current_vif_state]) and [lib/ssv_lib.c]
    ([ssv6xxx_sta_mode_connect], [ssv6xxx_sta_mode_disconnect]).

    A BSS description keeps the fields this code reads; of
    [struct cfg_join_request] only its [bss] is kept.  Effects that leave the
    host memory (HAL calls, callbacks, timers, frames freed) are recorded in
    order as a list of [dev_act]. *)

From stdpp Require Import base list option.
From Stdlib Require Import ZArith Lia.
From S2P Require Import Prelude.

(** ** Data *)

Inductive conn_status : Type := DISCONNECT | AUTH | ASSOC | EAPOL | CONNECT.
#[export] Instance conn_status_eq_dec : EqDecision conn_status.
Proof. solve_decision. Defined.

Inductive ssv6xxx_hw_mode : Type :=
| SSV6XXX_HWM_STA | SSV6XXX_HWM_AP | SSV6XXX_HWM_IBSS | SSV6XXX_HWM_WDS
| SSV6XXX_HWM_SCONFIG | SSV6XXX_HWM_INVALID.
#[export] Instance hw_mode_eq_dec : EqDecision ssv6xxx_hw_mode.
Proof. solve_decision. Defined.

Inductive vif_state : Type := VIF_ALL_DEACTIVE | VIF_ACTIVE_STA | VIF_ACTIVE_AP.
#[export] Instance vif_state_eq_dec : EqDecision vif_state.
Proof. solve_decision. Defined.

Inductive ap_act : Type := AP_ACT_REMOVE_AP | AP_ACT_ADD_AP | AP_ACT_MODIFY_AP.

(** [struct ssv6xxx_ieee80211_bss]; [rpci] is the 8-bit field of [rxphypad]. *)
Record ssv6xxx_ieee80211_bss : Type := mk_bss {
  ssid : list Z;
  ssid_len : Z;
  bssid : list Z;
  dtim_period : Z;
  wmm_used : Z;
  uapsd_supported : Z;
  channel_id : Z;
  proto : Z;
  last_probe_resp : Z;
  rpci : Z;
  prev_rcpi : Z
}.

(** [MEMSET(bss, 0, sizeof( *bss ))] *)
Definition zero_bss : ssv6xxx_ieee80211_bss :=
  mk_bss (replicate 32 0) 0 (replicate 6 0) 0 0 0 0 0 0 0 0.

(** [struct StaInfo] *)
Record StaInfo_st : Type := mk_StaInfo {
  joincfg : ssv6xxx_ieee80211_bss;
  joincfg_backup : ssv6xxx_ieee80211_bss;
  status : conn_status
}.

(** [struct ssv_vif_st]; [None] is a NULL [m_info.StaInfo]. *)
Record ssv_vif : Type := mk_vif {
  hw_mode : ssv6xxx_hw_mode;
  StaInfo : option StaInfo_st
}.

Record DeviceInfo : Type := mk_DeviceInfo {
  txhdr_mask : Z;
  vif : list ssv_vif;
  ampduRx_vif : Z;
  cci_current_level : Z;
  cci_current_gate : Z;
  ap_list : list ssv6xxx_ieee80211_bss;
  evt_cb : list (option Z);
  recovering : bool
}.

Inductive dev_act : Type :=
| UpdateApEvt (handler index : Z) (act : ap_act)  (* a SCAN_RESULT callback of the table *)
| EvtCb (handler evt len : Z)                     (* another event callback *)
| CciSetting (rcpi : Z)                           (* ssv_hal_update_cci_setting *)
| StaRejectBcn                                    (* ssv_hal_sta_reject_bcn *)
| StaRcvSpecificBcn                               (* ssv_hal_sta_rcv_specific_bcn *)
| ScanTimerCancel
| ScanTimerCreate (ms : Z)
| DeleteAllAmpduRx                                (* ieee80211_delete_all_ampdu_rx *)
| ReorderTimerCancel.

Definition MAX_CCI_SENSITIVE : Z := 128.
Definition HOST_EVT_CB_NUM : nat := 4.

Definition set_vif (d : DeviceInfo) (vs : list ssv_vif) : DeviceInfo :=
  mk_DeviceInfo (txhdr_mask d) vs (ampduRx_vif d) (cci_current_level d) (cci_current_gate d)
    (ap_list d) (evt_cb d) (recovering d).

Definition set_ap_list (d : DeviceInfo) (l : list ssv6xxx_ieee80211_bss) : DeviceInfo :=
  mk_DeviceInfo (txhdr_mask d) (vif d) (ampduRx_vif d) (cci_current_level d)
    (cci_current_gate d) l (evt_cb d) (recovering d).

Definition set_recovering (d : DeviceInfo) (r : bool) : DeviceInfo :=
  mk_DeviceInfo (txhdr_mask d) (vif d) (ampduRx_vif d) (cci_current_level d)
    (cci_current_gate d) (ap_list d) (evt_cb d) r.

Definition set_txhdr_mask (d : DeviceInfo) (m : Z) : DeviceInfo :=
  mk_DeviceInfo m (vif d) (ampduRx_vif d) (cci_current_level d)
    (cci_current_gate d) (ap_list d) (evt_cb d) (recovering d).

Definition reset_cci (d : DeviceInfo) : DeviceInfo :=
  mk_DeviceInfo (txhdr_mask d) (vif d) (ampduRx_vif d) 0 0 (ap_list d) (evt_cb d) (recovering d).

(** ** Operations *)

Definition TXREQ_ENCAP_QOS : Z := 1.

(** [SET_TXREQ_WITH_QOS(x, _tf)] *)
Definition SET_TXREQ_WITH_QOS (d : DeviceInfo) (tf : Z) : DeviceInfo :=
  set_txhdr_mask d
    (Z.lor (Z.land (txhdr_mask d) (u32 (Z.lnot (Z.shiftl 1 TXREQ_ENCAP_QOS))))
           (Z.shiftl tf TXREQ_ENCAP_QOS)).

(** [IS_TXREQ_WITH_QOS(x)] *)
Definition IS_TXREQ_WITH_QOS (d : DeviceInfo) : Z :=
  Z.land (txhdr_mask d) (Z.shiftl 1 TXREQ_ENCAP_QOS).

(** [get_current_vif_state]: every branch of the switch returns, so only the
    first interface is looked at. *)
Definition get_current_vif_state (d : DeviceInfo) : vif_state :=
  match vif d with
  | [] => VIF_ALL_DEACTIVE
  | v :: _ =>
      match StaInfo v with
      | Some si => if decide (status si = DISCONNECT) then VIF_ALL_DEACTIVE else VIF_ACTIVE_STA
      | None => VIF_ALL_DEACTIVE
      end
  end.

(** [ssv6xxx_sta_mode_disconnect] on the [StaInfo] of interface [k]; [None] is
    an interface outside the array or a NULL [StaInfo]. *)
Definition ssv6xxx_sta_mode_disconnect (d : DeviceInfo) (k : nat) :
  option (DeviceInfo * list dev_act) :=
  v ← vif d !! k;
  si ← StaInfo v;
  let v' := mk_vif (hw_mode v) (Some (mk_StaInfo zero_bss zero_bss DISCONNECT)) in
  Some (reset_cci (set_vif d (<[k := v']> (vif d))), [CciSetting MAX_CCI_SENSITIVE]).

Definition ssv6xxx_sta_mode_connect (d : DeviceInfo) (k : nat) : option DeviceInfo :=
  v ← vif d !! k;
  si ← StaInfo v;
  let v' := mk_vif (hw_mode v) (Some (mk_StaInfo (joincfg_backup si) (joincfg_backup si) CONNECT)) in
  Some (set_vif d (<[k := v']> (vif d))).

(** [exec_host_evt_cb] of core/host_cmd_engine_rx.c: the registered handlers in
    table order. *)
Definition exec_host_evt_cb (d : DeviceInfo) (evt len : Z) : list dev_act :=
  omap (fun h => (fun x => EvtCb x evt len) <$> h) (take HOST_EVT_CB_NUM (evt_cb d)).

(** ** Well-formedness *)

(** Field widths: a 6-byte BSSID, an SSID inside its array, byte fields, and a
    protocol mask that fits one byte. *)
Definition bss_wf (b : ssv6xxx_ieee80211_bss) : Prop :=
  length (bssid b) = 6%nat /\ length (ssid b) = 32%nat /\ 0 <= ssid_len b <= 32 /\
  0 <= proto b < 256.

(** Every interface in station mode has its [StaInfo]. *)
Definition vif_wf (v : ssv_vif) : Prop :=
  match StaInfo v with
  | Some si => bss_wf (joincfg si) /\ bss_wf (joincfg_backup si)
  | None => hw_mode v <> SSV6XXX_HWM_STA
  end.

Lemma zero_bss_wf : bss_wf zero_bss.
Proof. by repeat split. Qed.

Create HintDb dev.
#[export] Hint Resolve zero_bss_wf : dev.

Lemma is_qos_set d tf :
  0 <= tf <= 1 -> IS_TXREQ_WITH_QOS (SET_TXREQ_WITH_QOS d tf) = 2 * tf.
Proof.
  intros Htf. unfold IS_TXREQ_WITH_QOS, SET_TXREQ_WITH_QOS, set_txhdr_mask. simpl txhdr_mask.
  rewrite Z.land_lor_distr_l, <-Z.land_assoc.
  change (Z.land (u32 (Z.lnot (Z.shiftl 1 TXREQ_ENCAP_QOS))) (Z.shiftl 1 TXREQ_ENCAP_QOS)) with 0.
  rewrite Z.land_0_r. assert (tf = 0 \/ tf = 1) as [->| ->] by lia; reflexivity.
Qed.

Lemma connect_total d k v si :
  vif d !! k = Some v -> StaInfo v = Some si ->
  ssv6xxx_sta_mode_connect d k =
    Some (set_vif d (<[k := mk_vif (hw_mode v)
            (Some (mk_StaInfo (joincfg_backup si) (joincfg_backup si) CONNECT))]> (vif d))).
Proof. intros Hv Hs. unfold ssv6xxx_sta_mode_connect. by rewrite Hv; simpl; rewrite Hs. Qed.
