(* ===== verification/ApList.v ===== *)
(** * ApList: the table of access points of [core/mlme.c]

    [sta_mode_ap_list_handler] keeps one entry per access point in the array
    [gDeviceInfo->ap_list]: it drops entries that were not heard of for ten
    minutes, and puts a scan result into the entry of the same BSSID, an empty
    entry, or the entry with the weakest signal.  A read of the code outside an
    array or through a NULL [StaInfo] is [None].

    [ap_list_unique] shows that no access point ever has two entries,
    [scan_result_recorded] what a scan result does to the table, and
    [rcpi_smoothing_bounded] that the smoothed signal strength stays between
    the old and the new one.  [zero_byte_never_expires] records a flaw of the
    expiry test, which compares binary addresses as C strings. *)

From stdpp Require Import base list option sets.
From Stdlib Require Import ZArith Lia.
From S2P Require Import Prelude SsvString Reorder Dev.

(** ** Operations *)

Definition TIMER_COUNT_DOWN : Z := 5 * 60 * 1000.
Definition TIME_STAMP_EXPIRE : Z := 10 * 60 * 1000.
Definition RSSI_SMOOTHING_SHIFT : Z := 5.
Definition RSSI_DECIMAL_POINT_SHIFT : Z := 6.
Definition ETHER_ADDR_LEN : nat := 6.

(** [MEMCMP(a.bssid.addr, b.bssid.addr, ETHER_ADDR_LEN) == 0] *)
Definition same_bssid (a b : ssv6xxx_ieee80211_bss) : bool :=
  match ssv6xxx_memcmp (bssid a) (bssid b) ETHER_ADDR_LEN with
  | Some c => c =? 0
  | None => false
  end.

(** The bytes [STRCMP] reads from [&bss->bssid.addr] on: the address, the four
    byte fields behind it and [proto] (little endian). *)
Definition bssid_chars (b : ssv6xxx_ieee80211_bss) : list Z :=
  bssid b ++ [dtim_period b; wmm_used b; uapsd_supported b; channel_id b;
              proto b mod 256; proto b / 256].

Definition set_rcpi (b : ssv6xxx_ieee80211_bss) (r p : Z) : ssv6xxx_ieee80211_bss :=
  mk_bss (ssid b) (ssid_len b) (bssid b) (dtim_period b) (wmm_used b) (uapsd_supported b)
    (channel_id b) (proto b) (last_probe_resp b) r p.

Definition set_probe (b : ssv6xxx_ieee80211_bss) (now p : Z) : ssv6xxx_ieee80211_bss :=
  mk_bss (ssid b) (ssid_len b) (bssid b) (dtim_period b) (wmm_used b) (uapsd_supported b)
    (channel_id b) (proto b) now (rpci b) p.

(** [fine_tune_rcpi]; the caller stores the returned value into [rpci]. *)
Definition fine_tune_rcpi (ap : ssv6xxx_ieee80211_bss) : ssv6xxx_ieee80211_bss :=
  if negb (prev_rcpi ap =? 0) then
    let p := Z.shiftr
               (u32 (Z.shiftl (rpci ap) RSSI_DECIMAL_POINT_SHIFT
                     + (u32 (Z.shiftl (prev_rcpi ap) RSSI_SMOOTHING_SHIFT) -u32 prev_rcpi ap)))
               RSSI_SMOOTHING_SHIFT in
    set_rcpi ap (u8 (Z.shiftr p RSSI_DECIMAL_POINT_SHIFT)) p
  else set_rcpi ap (rpci ap) (Z.shiftl (rpci ap) RSSI_DECIMAL_POINT_SHIFT).

(** [update_ap_info_evt] *)
Definition update_ap_info_evt (d : DeviceInfo) (apIndex : Z) (apAct : ap_act) : list dev_act :=
  if existsb (fun v => bool_decide (hw_mode v = SSV6XXX_HWM_STA)) (vif d)
  then omap (fun h => (fun x => UpdateApEvt x apIndex apAct) <$> h) (take HOST_EVT_CB_NUM (evt_cb d))
  else [].

(** [mlme_remove_ap] for a BSS that is not NULL. *)
Fixpoint remove_ap_loop (d : DeviceInfo) (b : ssv6xxx_ieee80211_bss) (i : Z)
    (l : list ssv6xxx_ieee80211_bss) : list ssv6xxx_ieee80211_bss * list dev_act :=
  match l with
  | [] => ([], [])
  | e :: r =>
      let '(r', out) := remove_ap_loop d b (i + 1) r in
      if same_bssid e b then (zero_bss :: r', update_ap_info_evt d i AP_ACT_REMOVE_AP ++ out)
      else (e :: r', out)
  end.

Definition mlme_remove_ap (d : DeviceInfo) (b : ssv6xxx_ieee80211_bss) :
  DeviceInfo * list dev_act :=
  let '(l, out) := remove_ap_loop d b 0 (ap_list d) in (set_ap_list d l, out).

(** [mlme_clear_ap_list] *)
Definition mlme_clear_ap_list (d : DeviceInfo) : DeviceInfo :=
  set_ap_list d (replicate (length (ap_list d)) zero_bss).

(** The locals of [sta_mode_ap_list_handler] during its first loop. *)
Record scan_state : Type := mk_scan {
  sc_list : list ssv6xxx_ieee80211_bss;
  empty : Z;
  duplicate : Z;
  total_ap : Z;
  sc_out : list dev_act
}.

(** The body of the inner loop over the interfaces for table index [i]. *)
Definition expire_vif (d : DeviceInfo) (now : Z) (i : nat) (s : scan_state) (v : ssv_vif) :
  option scan_state :=
  if decide (hw_mode v = SSV6XXX_HWM_STA) then
    e ← sc_list s !! i;
    if time_after now (last_probe_resp e +u32 TIME_STAMP_EXPIRE) then
      si ← StaInfo v;
      c ← ssv6xxx_strcmp (bssid_chars e) (bssid_chars (joincfg si));
      if c =? 0 then Some s
      else Some (mk_scan (<[i := zero_bss]> (sc_list s)) (Z.of_nat i) (duplicate s) (total_ap s)
                   (sc_out s ++ update_ap_info_evt d (Z.of_nat i) AP_ACT_REMOVE_AP))
    else Some s
  else Some s.

Fixpoint expire_vifs (d : DeviceInfo) (now : Z) (i : nat) (vs : list ssv_vif) (s : scan_state) :
  option scan_state :=
  match vs with
  | [] => Some s
  | v :: r => s' ← expire_vif d now i s v; expire_vifs d now i r s'
  end.

(** The body of the first loop; [b] is [None] for a refresh without a result. *)
Definition status_step (d : DeviceInfo) (now : Z) (b : option ssv6xxx_ieee80211_bss) (i : nat)
    (s : scan_state) : option scan_state :=
  e ← sc_list s !! i;
  if channel_id e =? 0 then
    Some (mk_scan (sc_list s) (Z.of_nat i) (duplicate s) (u8 (total_ap s - 1)) (sc_out s))
  else if (match b with Some bss => same_bssid e bss | None => false end) then
    Some (mk_scan (sc_list s) (empty s) (Z.of_nat i) (total_ap s) (sc_out s))
  else expire_vifs d now i (vif d) s.

Fixpoint status_loop (d : DeviceInfo) (now : Z) (b : option ssv6xxx_ieee80211_bss) (i todo : nat)
    (s : scan_state) : option scan_state :=
  match todo with
  | O => Some s
  | S n => s' ← status_step d now b i s; status_loop d now b (S i) n s'
  end.

(** The second loop: the entry with the largest RCPI ([low_bss] always points
    to entry [low_rcip]). *)
Fixpoint weakest_loop (l : list ssv6xxx_ieee80211_bss) (i todo low_rcip : nat) : option nat :=
  match todo with
  | O => Some low_rcip
  | S n =>
      e ← l !! i;
      low ← l !! low_rcip;
      weakest_loop l (S i) n
        (if negb (channel_id e =? 0) && (rpci low <? rpci e) then i else low_rcip)
  end.

(** [ssv_hal_update_cci_setting] for the interfaces joined to the entry. *)
Definition cci_update (d : DeviceInfo) (dynamic_cci_update : bool) (e : ssv6xxx_ieee80211_bss) :
  list dev_act :=
  omap (fun v =>
    match StaInfo v with
    | Some si =>
        if bool_decide (hw_mode v = SSV6XXX_HWM_STA) && bool_decide (status si = CONNECT)
           && same_bssid (joincfg si) e && dynamic_cci_update
        then Some (CciSetting (rpci e)) else None
    | None => None
    end) (vif d)
  ++ (if dynamic_cci_update then [] else [CciSetting MAX_CCI_SENSITIVE]).

(** [refresh_timer] with [CONFIG_AUTO_SCAN == 0] *)
Definition refresh_timer (total : Z) : list dev_act :=
  ScanTimerCancel :: (if 0 <? total then [ScanTimerCreate TIMER_COUNT_DOWN] else []).

(** The recording of [bss] into entry [i]. *)
Definition record_bss (d : DeviceInfo) (dcu : bool) (now : Z) (b : ssv6xxx_ieee80211_bss) (i : nat)
    (s : scan_state) : option scan_state :=
  prev ← sc_list s !! i;
  let e := fine_tune_rcpi (set_probe b now (prev_rcpi prev)) in
  evt ← (if duplicate s =? 255 then Some (update_ap_info_evt d (Z.of_nat i) AP_ACT_ADD_AP)
         else
           c ← ssv6xxx_memcmp (ssid e) (ssid prev) (Z.to_nat (ssid_len e));
           if negb (c =? 0) || negb (channel_id e =? channel_id prev) || negb (proto e =? proto prev)
           then Some (update_ap_info_evt d (Z.of_nat i) AP_ACT_MODIFY_AP) else Some []);
  Some (mk_scan (<[i := e]> (sc_list s)) (empty s) (duplicate s) (total_ap s)
          (sc_out s ++ cci_update d dcu e ++ evt)).

(** Clears [prev_rcpi] of entry [i] when it is evicted. *)
Definition evict (d : DeviceInfo) (i : nat) (s : scan_state) : option scan_state :=
  e ← sc_list s !! i;
  Some (mk_scan (<[i := set_rcpi e (rpci e) 0]> (sc_list s)) (empty s) (duplicate s) (total_ap s)
          (sc_out s ++ update_ap_info_evt d (Z.of_nat i) AP_ACT_REMOVE_AP)).

(** The selection of the entry and the recording; the boolean says whether the
    function goes on to [refresh_timer]. *)
Definition place_bss (d : DeviceInfo) (dcu : bool) (now : Z) (b : ssv6xxx_ieee80211_bss)
    (low : nat) (s : scan_state) : option (scan_state * bool) :=
  if negb (duplicate s =? 255) then
    s' ← record_bss d dcu now b (Z.to_nat (duplicate s)) s; Some (s', true)
  else if negb (empty s =? 255) then
    s' ← record_bss d dcu now b (Z.to_nat (empty s)) s; Some (s', true)
  else
    e ← sc_list s !! low;
    if rpci b <=? rpci e then
      s1 ← evict d low s; s' ← record_bss d dcu now b low s1; Some (s', true)
    else Some (s, false).

(** [sta_mode_ap_list_handler(data, gDeviceInfo->ap_list)]; [b] is the result
    in [data], [None] for [data == NULL]. *)
Definition sta_mode_ap_list_handler (d : DeviceInfo) (dcu : bool) (now : Z)
    (b : option ssv6xxx_ieee80211_bss) : option (DeviceInfo * list dev_act) :=
  if match b with Some bss => ssid_len bss =? 0 | None => false end then Some (d, [])
  else
    let n := length (ap_list d) in
    s ← status_loop d now b 0 n (mk_scan (ap_list d) 255 255 (u8 (Z.of_nat n)) []);
    low ← weakest_loop (sc_list s) 0 n 0;
    match b with
    | None => Some (set_ap_list d (sc_list s), sc_out s ++ refresh_timer (total_ap s))
    | Some bss =>
        '(s', go) ← place_bss d dcu now bss low s;
        Some (set_ap_list d (sc_list s'),
              sc_out s' ++ if (go : bool) then refresh_timer (total_ap s') else [])
    end.

(** [sta_mode_scan_timer] with [CONFIG_AUTO_SCAN == 0] *)
Definition sta_mode_scan_timer (d : DeviceInfo) (dcu : bool) (now : Z) :
  option (DeviceInfo * list dev_act) :=
  sta_mode_ap_list_handler d dcu now None.

(** [mlme_sta_mode_deinit] *)
Definition mlme_sta_mode_deinit (d : DeviceInfo) : DeviceInfo * list dev_act :=
  (mlme_clear_ap_list d, [ScanTimerCancel]).

(** ** Comparisons on well-formed descriptions *)

Lemma same_bssid_spec a b :
  bss_wf a -> bss_wf b -> same_bssid a b = true <-> bssid a = bssid b.
Proof.
  intros (Ha & _) (Hb & _). unfold same_bssid, ETHER_ADDR_LEN.
  destruct (memcmp_spec 6 (bssid a) (bssid b)) as (c & -> & Hc); [lia..|].
  rewrite !take_ge in Hc by lia. rewrite <-Hc. lia.
Qed.

Lemma strcmp_total (l k : list Z) :
  length l = length k -> (exists m, l = m ++ [0]) -> is_Some (ssv6xxx_strcmp l k).
Proof.
  intros Hl [m ->]. revert k Hl; induction m as [|x m IH]; intros [|y k] Hl; simpl in *; try lia.
  - by eexists.
  - repeat case_match; eauto.
Qed.

Lemma bssid_chars_strcmp a b :
  bss_wf a -> bss_wf b -> is_Some (ssv6xxx_strcmp (bssid_chars a) (bssid_chars b)).
Proof.
  intros (Ha & _ & _ & Hp) (Hb & _). apply strcmp_total; unfold bssid_chars.
  - rewrite !length_app. simpl. lia.
  - exists (bssid a ++ [dtim_period a; wmm_used a; uapsd_supported a; channel_id a; proto a mod 256]).
    rewrite <-app_assoc. simpl. by rewrite (Z.div_small (proto a) 256).
Qed.

Lemma set_rcpi_wf b r p : bss_wf b -> bss_wf (set_rcpi b r p).
Proof. done. Qed.

Lemma fine_tune_wf b : bss_wf b -> bss_wf (fine_tune_rcpi b).
Proof. unfold fine_tune_rcpi. by case_match. Qed.

(** What recording changes of the description. *)
Lemma fine_tune_fields b now p :
  let e := fine_tune_rcpi (set_probe b now p) in
  bssid e = bssid b /\ channel_id e = channel_id b /\ ssid e = ssid b /\ ssid_len e = ssid_len b /\
  last_probe_resp e = now.
Proof. unfold fine_tune_rcpi. by case_match. Qed.

(** ** The table invariant *)

(** No access point has two entries; an entry is in use when its channel is
    not zero. *)
Definition unique_aps (l : list ssv6xxx_ieee80211_bss) : Prop :=
  forall i j e f, l !! i = Some e -> l !! j = Some f ->
    channel_id e <> 0 -> channel_id f <> 0 -> bssid e = bssid f -> i = j.

Definition table_wf (l : list ssv6xxx_ieee80211_bss) : Prop :=
  (0 < length l <= 255)%nat /\ Forall bss_wf l /\ unique_aps l.

Definition device_wf (d : DeviceInfo) : Prop := table_wf (ap_list d) /\ Forall vif_wf (vif d).

(** Dropping entries keeps the table unique. *)
Definition thinned (l l' : list ssv6xxx_ieee80211_bss) : Prop :=
  length l' = length l /\
  forall j e, l !! j = Some e -> l' !! j = Some e \/ l' !! j = Some zero_bss.

Lemma thinned_wf l l' : thinned l l' -> table_wf l -> table_wf l'.
Proof.
  intros [Hl Ht] (Hn & Hf & Hu). split_and!; [lia|lia| |].
  - apply Forall_lookup. intros j e' He'.
    destruct (lookup_lt_is_Some_2 l j) as [e He]; [apply lookup_lt_Some in He'; lia|].
    destruct (Ht _ _ He) as [H|H]; rewrite H in He'; injection He' as <-;
      [by eapply Forall_lookup_1|apply zero_bss_wf].
  - intros i j e f He Hf' Hce Hcf Hb.
    destruct (lookup_lt_is_Some_2 l i) as [e0 He0]; [apply lookup_lt_Some in He; lia|].
    destruct (lookup_lt_is_Some_2 l j) as [f0 Hf0]; [apply lookup_lt_Some in Hf'; lia|].
    destruct (Ht _ _ He0) as [H|H]; rewrite H in He; injection He as <-; [|done].
    destruct (Ht _ _ Hf0) as [H'|H']; rewrite H' in Hf'; injection Hf' as <-; [|done].
    by eapply Hu.
Qed.

Lemma thinned_refl l : thinned l l.
Proof. split; auto. Qed.

Lemma thinned_zero l i : thinned l (<[i := zero_bss]> l).
Proof.
  split; [apply length_insert|]. intros j e He.
  destruct (decide (i = j)) as [<-|Hij].
  - right. apply list_lookup_insert_eq. by eapply lookup_lt_Some.
  - left. by rewrite list_lookup_insert_ne.
Qed.

Lemma thinned_trans l k m : thinned l k -> thinned k m -> thinned l m.
Proof.
  intros [H1 T1] [H2 T2]. split; [lia|]. intros j e He.
  destruct (T1 _ _ He) as [H|H]; destruct (T2 _ _ H) as [H'|H']; auto.
Qed.

(** Recording [e] at [i] keeps the table unique when no other entry has its
    address. *)
Lemma insert_wf l i e :
  table_wf l -> bss_wf e ->
  (forall j f, j <> i -> l !! j = Some f -> channel_id f <> 0 -> bssid f <> bssid e) ->
  table_wf (<[i := e]> l).
Proof.
  intros (Hn & Hf & Hu) He Hne. split_and!; rewrite ?length_insert; [lia|lia| |].
  - by apply Forall_insert.
  - intros a b x y Ha Hb Hcx Hcy Hxy.
    apply list_lookup_insert_Some in Ha as [(<- & <- & Ha)|[Hai Ha]];
    apply list_lookup_insert_Some in Hb as [(<- & <- & Hb)|[Hbi Hb]]; try done.
    + destruct (Hne b y); auto.
    + destruct (Hne a x); auto.
    + by eapply Hu.
Qed.

Lemma remove_loop_thinned d b l : forall i, thinned l (remove_ap_loop d b i l).1.
Proof.
  induction l as [|e l IH]; intros i; simpl; [apply thinned_refl|].
  specialize (IH (i + 1)). destruct (remove_ap_loop d b (i + 1) l) as [r out].
  destruct IH as [Hl Ht]. case_match; simpl; (split; [simpl in *; lia|]);
    intros [|j] f Hj; simpl in *; simplify_eq; auto.
Qed.

(** [mlme_remove_ap] leaves no entry of the address in the table. *)
Lemma remove_loop_gone d b l : bss_wf b -> Forall bss_wf l -> forall i j e,
  (remove_ap_loop d b i l).1 !! j = Some e -> channel_id e <> 0 -> bssid e <> bssid b.
Proof.
  intros Hb. induction 1 as [|x l Hx Hl IH]; intros i j e; simpl; [done|].
  specialize (IH (i + 1)). destruct (remove_ap_loop d b (i + 1) l) as [r out].
  destruct (same_bssid x b) eqn:E; destruct j as [|j]; simpl; try by eauto.
  - by intros [= <-].
  - intros [= <-] _ Heq. apply same_bssid_spec in Heq; [|done..]. congruence.
Qed.

(** ** The expiry loop *)

(** The entry was last heard of more than [TIME_STAMP_EXPIRE] ago. *)
Definition stale (now : Z) (e : ssv6xxx_ieee80211_bss) : Prop :=
  time_after now (last_probe_resp e +u32 TIME_STAMP_EXPIRE) = true.

(** The effect of the inner loop on the locals: nothing, or the stale entry [i]
    is cleared and remembered as empty. *)
Definition expired (now : Z) (i : nat) (s s' : scan_state) : Prop :=
  duplicate s' = duplicate s /\
  ((sc_list s' = sc_list s /\ empty s' = empty s) \/
   (sc_list s' = <[i := zero_bss]> (sc_list s) /\ empty s' = Z.of_nat i /\
    exists e, sc_list s !! i = Some e /\ stale now e)).

Lemma expired_refl now i s : expired now i s s.
Proof. split; auto. Qed.

Lemma expired_trans now i s1 s2 s3 :
  expired now i s1 s2 -> expired now i s2 s3 -> expired now i s1 s3.
Proof.
  intros [D1 H1] [D2 H2]. split; [congruence|].
  destruct H1 as [[A B]|(A & B & E)], H2 as [[C D]|(C & D & F)]; rewrite A in *; rewrite C, D, ?B;
    auto.
  right. by rewrite list_insert_insert_eq.
Qed.

Lemma expire_vif_spec d now i s v :
  vif_wf v -> (exists e, sc_list s !! i = Some e /\ bss_wf e) ->
  exists s', expire_vif d now i s v = Some s' /\ expired now i s s'.
Proof.
  intros Hv (e & He & Hw). unfold expire_vif.
  destruct (decide (hw_mode v = SSV6XXX_HWM_STA)) as [Hm|Hm]; [|by eauto using expired_refl].
  rewrite He. simpl. case_match eqn:Ht; [|by eauto using expired_refl].
  unfold vif_wf in Hv. destruct (StaInfo v) as [si|]; [|done]. simpl.
  destruct (bssid_chars_strcmp e (joincfg si)) as [c ->]; [done|apply Hv|]. simpl.
  case_match; [by eauto using expired_refl|].
  eexists. split; [reflexivity|]. split; [done|]. right. split_and!; [done|done|by exists e].
Qed.

Lemma expire_vifs_ok d now i vs : Forall vif_wf vs -> forall s,
  (exists e, sc_list s !! i = Some e /\ bss_wf e) ->
  exists s', expire_vifs d now i vs s = Some s' /\ expired now i s s'.
Proof.
  induction 1 as [|v vs Hv Hvs IH]; intros s He; simpl; [by eauto using expired_refl|].
  destruct (expire_vif_spec d now i s v Hv He) as (s1 & -> & H1). simpl.
  destruct (IH s1) as (s2 & -> & H2).
  - destruct He as (e & He & Hw). destruct H1 as [_ [[-> _]|[-> _]]]; [by exists e|].
    exists zero_bss. split; [|apply zero_bss_wf].
    apply list_lookup_insert_eq. by eapply lookup_lt_Some.
  - exists s2. split; [done|]. by eapply expired_trans.
Qed.

(** ** The status loop *)

Definition matches (b : option ssv6xxx_ieee80211_bss) (e : ssv6xxx_ieee80211_bss) : Prop :=
  exists x, b = Some x /\ bssid e = bssid x.

Definition opt_wf (b : option ssv6xxx_ieee80211_bss) : Prop :=
  match b with Some x => bss_wf x | None => True end.

(** After the entries below [k]: nothing changed but entries dropped below [k];
    [empty] and [duplicate] name an entry with their property below [k], or
    there is none. *)
Record status_inv (now : Z) (l0 : list ssv6xxx_ieee80211_bss) (b : option ssv6xxx_ieee80211_bss) (k : nat)
    (s : scan_state) : Prop := {
  si_len : length (sc_list s) = length l0;
  si_thin : forall j e, l0 !! j = Some e ->
    sc_list s !! j = Some e \/ (sc_list s !! j = Some zero_bss /\ (j < k)%nat /\ stale now e);
  si_full : empty s = 255 -> forall j e, (j < k)%nat -> l0 !! j = Some e ->
    channel_id e <> 0 /\ sc_list s !! j = Some e;
  si_empty : empty s <> 255 -> exists j e, empty s = Z.of_nat j /\ (j < k)%nat /\
    sc_list s !! j = Some e /\ channel_id e = 0;
  si_new : duplicate s = 255 -> forall j e, (j < k)%nat -> sc_list s !! j = Some e ->
    channel_id e <> 0 -> ~ matches b e;
  si_dup : duplicate s <> 255 -> exists j e, duplicate s = Z.of_nat j /\ (j < k)%nat /\
    sc_list s !! j = Some e /\ channel_id e <> 0 /\ matches b e
}.

Section status_loop.
Context (d : DeviceInfo) (now : Z) (b : option ssv6xxx_ieee80211_bss).
Context (l0 : list ssv6xxx_ieee80211_bss).
Hypothesis Hvif : Forall vif_wf (vif d).
Hypothesis Hb : opt_wf b.
Hypothesis Hl0 : Forall bss_wf l0.
Hypothesis Hlen : (length l0 <= 255)%nat.

Lemma match_test e :
  bss_wf e ->
  (match b with Some bss => same_bssid e bss | None => false end) = true <-> matches b e.
Proof.
  intros He. unfold matches. destruct b as [x|].
  - rewrite same_bssid_spec by done. split; [by exists x|by intros (? & [= ->] & ?)].
  - split; [done|by intros (? & ? & _)].
Qed.

Lemma status_step_empty k s e :
  status_inv now l0 b k s -> (k < length l0)%nat -> sc_list s !! k = Some e -> channel_id e = 0 ->
  status_inv now l0 b (S k)
    (mk_scan (sc_list s) (Z.of_nat k) (duplicate s) (u8 (total_ap s - 1)) (sc_out s)).
Proof.
  intros [H1 H2 H3 H4 H5 H6] Hk He Hc. split; simpl.
  - done.
  - intros j x Hj. destruct (H2 _ _ Hj) as [?|(? & ? & ?)]; [by left|right; split_and!; [done|lia|done]].
  - lia.
  - intros _. exists k, e. split_and!; [done|lia|done..].
  - intros Hd j x Hj Hx Hcx. destruct (decide (j = k)) as [->|Hjk]; [congruence|].
    apply (H5 Hd j); [lia|done..].
  - intros Hd. destruct (H6 Hd) as (j & x & ? & ? & ? & ? & ?). exists j, x. split_and!; [done|lia|done..].
Qed.

Lemma status_step_dup k s e :
  status_inv now l0 b k s -> (k < length l0)%nat -> l0 !! k = Some e -> sc_list s !! k = Some e ->
  channel_id e <> 0 -> matches b e ->
  status_inv now l0 b (S k) (mk_scan (sc_list s) (empty s) (Z.of_nat k) (total_ap s) (sc_out s)).
Proof.
  intros [H1 H2 H3 H4 H5 H6] Hk He0 He Hc Hm. split; simpl.
  - done.
  - intros j x Hj. destruct (H2 _ _ Hj) as [?|(? & ? & ?)]; [by left|right; split_and!; [done|lia|done]].
  - intros Hd j x Hj Hx. destruct (decide (j = k)) as [->|Hjk]; [by simplify_eq|].
    apply (H3 Hd); [lia|done].
  - intros Hd. destruct (H4 Hd) as (j & x & ? & ? & ? & ?). exists j, x. split_and!; [done|lia|done..].
  - lia.
  - intros _. exists k, e. split_and!; [done|lia|done..].
Qed.

Lemma status_step_other k s s' e :
  status_inv now l0 b k s -> (k < length l0)%nat -> l0 !! k = Some e -> sc_list s !! k = Some e ->
  channel_id e <> 0 -> ~ matches b e -> expired now k s s' -> status_inv now l0 b (S k) s'.
Proof.
  intros [H1 H2 H3 H4 H5 H6] Hk He0 He Hc Hm [Hd [[Hl Hemp]|(Hl & Hemp & e' & He' & Hst)]].
  - split; rewrite ?Hl, ?Hemp, ?Hd.
    + done.
    + intros j x Hj. destruct (H2 _ _ Hj) as [?|(? & ? & ?)]; [by left|right; split_and!; [done|lia|done]].
    + intros H j x Hj Hx. destruct (decide (j = k)) as [->|Hjk]; [by simplify_eq|].
      apply (H3 H); [lia|done].
    + intros H. destruct (H4 H) as (j & x & ? & ? & ? & ?). exists j, x. split_and!; [done|lia|done..].
    + intros H j x Hj Hx Hcx. destruct (decide (j = k)) as [->|Hjk]; [by simplify_eq|].
      apply (H5 H j); [lia|done..].
    + intros H. destruct (H6 H) as (j & x & ? & ? & ? & ? & ?). exists j, x. split_and!; [done|lia|done..].
  - assert (Hsk : sc_list s' !! k = Some zero_bss)
      by (rewrite Hl; apply list_lookup_insert_eq; lia).
    assert (Hsj : forall j, j <> k -> sc_list s' !! j = sc_list s !! j)
      by (intros j Hj; rewrite Hl; by apply list_lookup_insert_ne).
    split; rewrite ?Hemp, ?Hd.
    + by rewrite Hl, length_insert.
    + intros j x Hj. destruct (decide (j = k)) as [->|Hjk].
      { right. simplify_eq. split_and!; [done|lia|done]. }
      rewrite Hsj by done. destruct (H2 _ _ Hj) as [?|(? & ? & ?)]; [by left|right; split_and!; [done|lia|done]].
    + lia.
    + intros _. exists k, zero_bss. split_and!; [done|lia|done..].
    + intros H j x Hj Hx Hcx. destruct (decide (j = k)) as [->|Hjk]; [by simplify_eq|].
      rewrite Hsj in Hx by done. apply (H5 H j); [lia|done..].
    + intros H. destruct (H6 H) as (j & x & ? & ? & ? & ? & ?). exists j, x.
      assert (j <> k) by lia. rewrite Hsj by done. split_and!; [done|lia|done..].
Qed.

Lemma status_step_inv k s :
  status_inv now l0 b k s -> (k < length l0)%nat ->
  exists s', status_step d now b k s = Some s' /\ status_inv now l0 b (S k) s'.
Proof.
  intros Hi Hk. destruct (lookup_lt_is_Some_2 l0 k Hk) as [e He0].
  assert (He : sc_list s !! k = Some e) by (destruct (si_thin _ _ _ _ _ Hi _ _ He0) as [?|(_ & ? & _)]; [done|lia]).
  assert (Hw : bss_wf e) by by eapply Forall_lookup_1.
  unfold status_step. rewrite He. simpl. destruct (Z.eqb_spec (channel_id e) 0) as [Hc|Hc].
  { eexists. split; [reflexivity|]. by eapply status_step_empty. }
  destruct (match b with Some bss => same_bssid e bss | None => false end) eqn:Em.
  { eexists. split; [reflexivity|]. apply match_test in Em; [|done]. by eapply status_step_dup. }
  destruct (expire_vifs_ok d now k (vif d) Hvif s) as (s' & -> & Hex); [by exists e|].
  exists s'. split; [done|]. eapply status_step_other; try done.
  intros Hm. apply match_test in Hm; [congruence|done].
Qed.

Lemma status_loop_inv todo : forall k s,
  status_inv now l0 b k s -> (k + todo = length l0)%nat ->
  exists s', status_loop d now b k todo s = Some s' /\ status_inv now l0 b (length l0) s'.
Proof.
  induction todo as [|n IH]; intros k s Hi Hk; simpl.
  - exists s. split; [done|]. by replace (length l0) with k by lia.
  - destruct (status_step_inv k s Hi) as (s1 & -> & H1); [lia|]. simpl. apply IH; [done|lia].
Qed.

Lemma status_loop_spec t out :
  exists s', status_loop d now b 0 (length l0) (mk_scan l0 255 255 t out) = Some s' /\
             status_inv now l0 b (length l0) s'.
Proof.
  apply status_loop_inv; [|lia]. split; simpl; try done; try lia. intros. by left.
Qed.
End status_loop.

Lemma status_inv_thinned now l0 b k s : status_inv now l0 b k s -> thinned l0 (sc_list s).
Proof.
  intros H. split; [by eapply si_len|]. intros j e He.
  destruct (si_thin _ _ _ _ _ H _ _ He) as [?|[? _]]; auto.
Qed.

(** The second loop finds an entry of maximal RCPI among the entries in use. *)
Lemma weakest_loop_spec l todo : forall k low,
  (k + todo = length l)%nat -> (low < length l)%nat ->
  (forall j e f, (j < k)%nat -> l !! j = Some e -> l !! low = Some f -> channel_id e <> 0 ->
     rpci e <= rpci f) ->
  exists m, weakest_loop l k todo low = Some m /\ (m < length l)%nat /\
    forall j e f, l !! j = Some e -> l !! m = Some f -> channel_id e <> 0 -> rpci e <= rpci f.
Proof.
  induction todo as [|n IH]; intros k low Hk Hlow Hmax; simpl.
  - exists low. split_and!; [done|done|]. intros j e f He. apply (Hmax j e f); [|done].
    apply lookup_lt_Some in He. lia.
  - destruct (lookup_lt_is_Some_2 l k) as [e He]; [lia|].
    destruct (lookup_lt_is_Some_2 l low) as [f Hf]; [lia|].
    rewrite He, Hf. simpl. destruct (negb (channel_id e =? 0) && (rpci f <? rpci e)) eqn:Et;
      apply IH; try lia; intros j x y Hj Hx Hy Hc.
    + bool_to_prop. simplify_eq. destruct (decide (j = k)) as [->|Hjk]; [by simplify_eq|].
      specialize (Hmax j x f). lia.
    + simplify_eq. destruct (decide (j = k)) as [->|Hjk]; [|eapply (Hmax j); [lia|done..]].
      simplify_eq. apply Z.eqb_neq in Hc. rewrite Hc in Et. simpl in Et. lia.
Qed.

(** ** Recording a result *)

Lemma record_bss_spec d dcu now b i s prev :
  sc_list s !! i = Some prev -> bss_wf b -> bss_wf prev ->
  exists s', record_bss d dcu now b i s = Some s' /\
    sc_list s' = <[i := fine_tune_rcpi (set_probe b now (prev_rcpi prev))]> (sc_list s).
Proof.
  intros Hp Hb Hprev. unfold record_bss. rewrite Hp. simpl.
  destruct (fine_tune_fields b now (prev_rcpi prev)) as (_ & _ & -> & -> & _).
  case_match; simpl; [by eexists|].
  destruct Hb as (_ & Hs & Hl & _), Hprev as (_ & Hs' & _ & _).
  destruct (memcmp_spec (Z.to_nat (ssid_len b)) (ssid b) (ssid prev)) as (c & -> & _); [lia..|].
  simpl. case_match; simpl; by eexists.
Qed.

(** Why entry [i], which held [old], was chosen for [b]: it is the entry of this
    access point; or the access point is new and the entry was free or stale;
    or every entry is in use and [old] has the weakest signal, no stronger than
    that of [b]. *)
Definition chosen (now : Z) (l : list ssv6xxx_ieee80211_bss) (b old : ssv6xxx_ieee80211_bss) : Prop :=
  (channel_id old <> 0 /\ bssid old = bssid b) \/
  (channel_id old = 0 \/ stale now old) \/
  (Forall (fun e => channel_id e <> 0 /\ rpci e <= rpci old) l /\ rpci b <= rpci old).

(** The table [l'] after the result [b] was given to the table [l]. *)
Inductive placed (now : Z) (l : list ssv6xxx_ieee80211_bss) (b : ssv6xxx_ieee80211_bss)
    (l' : list ssv6xxx_ieee80211_bss) : Prop :=
| Placed i old p :
    l !! i = Some old -> chosen now l b old ->
    l' !! i = Some (fine_tune_rcpi (set_probe b now p)) ->
    (forall j e, j <> i -> l !! j = Some e ->
       l' !! j = Some e \/ (l' !! j = Some zero_bss /\ stale now e)) ->
    placed now l b l'
| Refused :
    l' = l -> Forall (fun e => channel_id e <> 0 /\ rpci e < rpci b /\ bssid e <> bssid b) l ->
    placed now l b l'.

(** Recording [b] over the entry of the status loop that held [old] in [l]. *)
Lemma placed_insert now l b k s i p old :
  status_inv now l (Some b) k s -> table_wf l -> bss_wf b ->
  l !! i = Some old -> chosen now l b old ->
  (forall j f, j <> i -> sc_list s !! j = Some f -> channel_id f <> 0 -> bssid f <> bssid b) ->
  let l' := <[i := fine_tune_rcpi (set_probe b now p)]> (sc_list s) in
  placed now l b l' /\ table_wf l'.
Proof.
  intros Hi Hl Hb Ho Hc Hne. simpl. pose proof (si_len _ _ _ _ _ Hi) as Hlen. split.
  - eapply Placed; [exact Ho|done| |].
    + apply list_lookup_insert_eq. rewrite Hlen. by eapply lookup_lt_Some.
    + intros j e Hj He. rewrite list_lookup_insert_ne by done.
      destruct (si_thin _ _ _ _ _ Hi _ _ He) as [?|(? & _ & ?)]; auto.
  - destruct (fine_tune_fields b now p) as (Hbs & _). apply insert_wf.
    + eapply thinned_wf; [by eapply status_inv_thinned|done].
    + by apply fine_tune_wf.
    + intros j f Hj Hf Hcf. rewrite Hbs. by eapply Hne.
Qed.

Lemma status_full now l b s :
  status_inv now l b (length l) s -> empty s = 255 ->
  sc_list s = l /\ Forall (fun e => channel_id e <> 0) l.
Proof.
  intros Hi He. pose proof (si_full _ _ _ _ _ Hi He) as Hfull.
  assert (Hl : sc_list s = l).
  { apply list_eq. intros j. destruct (l !! j) as [x|] eqn:Hx.
    - apply (Hfull j x); [by eapply lookup_lt_Some|done].
    - apply lookup_ge_None. apply lookup_ge_None in Hx. pose proof (si_len _ _ _ _ _ Hi). lia. }
  split; [done|]. apply Forall_lookup. intros j x Hx.
  apply (Hfull j x); [by eapply lookup_lt_Some|done].
Qed.

(** The three choices of [place_bss] after a complete status loop. *)
Section place.
Context (d : DeviceInfo) (dcu : bool) (now : Z) (l : list ssv6xxx_ieee80211_bss).
Context (b : ssv6xxx_ieee80211_bss) (s : scan_state) (low : nat).
Hypothesis Hi : status_inv now l (Some b) (length l) s.
Hypothesis Hl : table_wf l.
Hypothesis Hb : bss_wf b.

Lemma status_wf : table_wf (sc_list s).
Proof. eapply thinned_wf; [by eapply status_inv_thinned|done]. Qed.

Lemma status_new j f :
  duplicate s = 255 -> sc_list s !! j = Some f -> channel_id f <> 0 -> bssid f <> bssid b.
Proof.
  intros Hd Hf Hcf Heq. apply (si_new _ _ _ _ _ Hi Hd j f); [|done..|by exists b].
  apply lookup_lt_Some in Hf. rewrite <-(si_len _ _ _ _ _ Hi). lia.
Qed.

Lemma status_entry_wf j e : sc_list s !! j = Some e -> bss_wf e.
Proof. destruct status_wf as (_ & H & _). by apply Forall_lookup_1. Qed.

Lemma place_weakest :
  duplicate s = 255 -> empty s = 255 -> (low < length l)%nat ->
  (forall j e f, sc_list s !! j = Some e -> sc_list s !! low = Some f -> channel_id e <> 0 ->
     rpci e <= rpci f) ->
  exists s' go, place_bss d dcu now b low s = Some (s', go) /\
    placed now l b (sc_list s') /\ table_wf (sc_list s').
Proof.
  intros Hd He Hlow Hmax. destruct (status_full _ _ _ _ Hi He) as [Hsl Huse].
  assert (Hw : Forall (fun e => forall f, l !! low = Some f -> rpci e <= rpci f) l).
  { apply Forall_lookup. intros j x Hx f Hf. rewrite Hsl in Hmax.
    eapply Hmax; [done..|]. by eapply (Forall_lookup_1 _ _ _ _ Huse). }
  unfold place_bss. rewrite Hd, He. simpl.
  destruct (lookup_lt_is_Some_2 l low Hlow) as [old Ho]. rewrite Hsl, Ho. simpl.
  destruct (Z.leb_spec (rpci b) (rpci old)) as [Hr|Hr].
  - unfold evict. rewrite Hsl, Ho. simpl.
    set (s1 := mk_scan (<[low := set_rcpi old (rpci old) 0]> l) _ _ _ _).
    destruct (record_bss_spec d dcu now b low s1 (set_rcpi old (rpci old) 0)) as (s' & -> & Hl');
      [by apply list_lookup_insert_eq|done|apply set_rcpi_wf, (status_entry_wf low); congruence|].
    exists s', true. split; [done|]. simpl in Hl'.
    rewrite list_insert_insert_eq, <-Hsl in Hl'. rewrite Hl'.
    eapply placed_insert; [done..| |by intros; eapply status_new].
    right. right. split; [|done]. apply Forall_lookup. intros j x Hx. split.
    + by eapply (Forall_lookup_1 _ _ _ _ Huse).
    + by eapply (Forall_lookup_1 _ _ _ _ Hw).
  - exists s, false. split; [done|]. split; [|apply status_wf].
    apply Refused; [done|]. apply Forall_lookup. intros j x Hx.
    assert (Hc : channel_id x <> 0) by by eapply (Forall_lookup_1 _ _ _ _ Huse).
    split_and!; [done| |eapply status_new; by rewrite ?Hsl].
    pose proof (Forall_lookup_1 _ _ _ _ Hw Hx old Ho). simpl in *. lia.
Qed.

Lemma place_at j e old :
  sc_list s !! j = Some e -> l !! j = Some old -> chosen now l b old ->
  (forall i f, i <> j -> sc_list s !! i = Some f -> channel_id f <> 0 -> bssid f <> bssid b) ->
  exists s', record_bss d dcu now b j s = Some s' /\
    placed now l b (sc_list s') /\ table_wf (sc_list s').
Proof.
  intros Hsj Ho Hc Hne.
  destruct (record_bss_spec d dcu now b j s e Hsj Hb) as (s' & -> & Hl'); [by eapply status_entry_wf|].
  exists s'. split; [done|]. rewrite Hl'. by eapply placed_insert.
Qed.

Lemma place_bss_spec :
  (low < length l)%nat ->
  (forall j e f, sc_list s !! j = Some e -> sc_list s !! low = Some f -> channel_id e <> 0 ->
     rpci e <= rpci f) ->
  exists s' go, place_bss d dcu now b low s = Some (s', go) /\
    placed now l b (sc_list s') /\ table_wf (sc_list s').
Proof.
  intros Hlow Hmax. destruct (Z.eq_dec (duplicate s) 255) as [Hd|Hd].
  - destruct (Z.eq_dec (empty s) 255) as [He|He]; [by apply place_weakest|].
    destruct (si_empty _ _ _ _ _ Hi He) as (j & e & Hej & Hj & Hsj & Hcj).
    destruct (lookup_lt_is_Some_2 l j Hj) as [old Ho].
    destruct (place_at j e old Hsj Ho) as (s' & Hs' & ?).
    + right. left. destruct (si_thin _ _ _ _ _ Hi _ _ Ho) as [H|(_ & _ & H)]; [|by right].
      left. by simplify_eq.
    + intros i f _. by apply status_new.
    + exists s', true. split; [|done]. unfold place_bss.
      replace (duplicate s =? 255) with true by lia. replace (empty s =? 255) with false by lia.
      simpl. by rewrite Hej, Nat2Z.id, Hs'.
  - destruct (si_dup _ _ _ _ _ Hi Hd) as (j & e & Hej & Hj & Hsj & Hcj & x & [= <-] & Heq).
    destruct (lookup_lt_is_Some_2 l j Hj) as [old Ho].
    destruct (place_at j e old Hsj Ho) as (s' & Hs' & ?).
    + left. destruct (si_thin _ _ _ _ _ Hi _ _ Ho) as [H|(H & _)]; simplify_eq; done.
    + intros i f Hij Hf Hcf Hfb. apply Hij. destruct status_wf as (_ & _ & Hu).
      eapply Hu; try done. congruence.
    + exists s', true. split; [|done]. unfold place_bss.
      replace (duplicate s =? 255) with false by lia. simpl. by rewrite Hej, Nat2Z.id, Hs'.
Qed.
End place.

(** ** The handler *)

Lemma weakest_total l :
  (0 < length l)%nat ->
  exists m, weakest_loop l 0 (length l) 0 = Some m /\ (m < length l)%nat /\
    forall j e f, l !! j = Some e -> l !! m = Some f -> channel_id e <> 0 -> rpci e <= rpci f.
Proof. intros H. apply weakest_loop_spec; [lia|lia|]. intros; lia. Qed.

Lemma handler_result d dcu now b :
  device_wf d -> bss_wf b -> ssid_len b <> 0 ->
  exists d' out, sta_mode_ap_list_handler d dcu now (Some b) = Some (d', out) /\
    placed now (ap_list d) b (ap_list d') /\ device_wf d'.
Proof.
  intros [Hl Hv] Hb Hs. unfold sta_mode_ap_list_handler.
  replace (ssid_len b =? 0) with false by lia. cbv zeta.
  destruct (status_loop_spec d now (Some b) (ap_list d) Hv Hb) with
    (t := u8 (Z.of_nat (length (ap_list d)))) (out := @nil dev_act) as (s & -> & Hi); [apply Hl..|].
  simpl. destruct (weakest_total (sc_list s)) as (low & Hw & Hlow & Hmax);
    [rewrite (si_len _ _ _ _ _ Hi); apply Hl|].
  rewrite <-(si_len _ _ _ _ _ Hi), Hw. simpl.
  destruct (place_bss_spec d dcu now (ap_list d) b s low Hi Hl Hb) as (s' & go & -> & Hp & Hw');
    [by rewrite <-(si_len _ _ _ _ _ Hi)|done|].
  simpl. eexists _, _. split; [reflexivity|]. done.
Qed.

Lemma handler_refresh d dcu now :
  device_wf d ->
  exists d' out, sta_mode_ap_list_handler d dcu now None = Some (d', out) /\
    thinned (ap_list d) (ap_list d') /\ device_wf d'.
Proof.
  intros [Hl Hv]. unfold sta_mode_ap_list_handler. cbv zeta.
  destruct (status_loop_spec d now None (ap_list d) Hv I) with
    (t := u8 (Z.of_nat (length (ap_list d)))) (out := @nil dev_act) as (s & -> & Hi); [apply Hl..|].
  simpl. destruct (weakest_total (sc_list s)) as (low & Hw & _);
    [rewrite (si_len _ _ _ _ _ Hi); apply Hl|].
  rewrite <-(si_len _ _ _ _ _ Hi), Hw. simpl.
  eexists _, _. split; [reflexivity|]. pose proof (status_inv_thinned _ _ _ _ _ Hi).
  split; [done|]. split; [by eapply thinned_wf|done].
Qed.

(** ** Entries that are never dropped *)

(** [STRCMP] takes entry [e] for the access point of every station interface. *)
Definition protected (d : DeviceInfo) (e : ssv6xxx_ieee80211_bss) : Prop :=
  forall v, v ∈ vif d -> hw_mode v = SSV6XXX_HWM_STA ->
    exists si, StaInfo v = Some si /\
      ssv6xxx_strcmp (bssid_chars e) (bssid_chars (joincfg si)) = Some 0.

Lemma expire_vifs_protected d now i vs s e :
  sc_list s !! i = Some e ->
  (forall v, v ∈ vs -> hw_mode v = SSV6XXX_HWM_STA -> exists si, StaInfo v = Some si /\
     ssv6xxx_strcmp (bssid_chars e) (bssid_chars (joincfg si)) = Some 0) ->
  expire_vifs d now i vs s = Some s.
Proof.
  intros He. induction vs as [|v vs IH]; intros Hp; simpl; [done|].
  assert (expire_vif d now i s v = Some s) as ->.
  { unfold expire_vif. destruct (decide (hw_mode v = SSV6XXX_HWM_STA)) as [Hm|]; [|done].
    rewrite He. simpl. destruct (Hp v) as (si & -> & Hc); [set_solver|done|].
    simpl. rewrite Hc. simpl. by case_match. }
  simpl. apply IH. intros v' Hv'. apply Hp. set_solver.
Qed.

Lemma status_step_keeps d now b k s i e :
  Forall vif_wf (vif d) -> Forall bss_wf (sc_list s) -> (k < length (sc_list s))%nat ->
  protected d e -> sc_list s !! i = Some e ->
  exists s', status_step d now b k s = Some s' /\ sc_list s' !! i = Some e /\
    Forall bss_wf (sc_list s') /\ length (sc_list s') = length (sc_list s).
Proof.
  intros Hv Hw Hk Hp Hi. unfold status_step.
  destruct (lookup_lt_is_Some_2 _ _ Hk) as [x Hx]. rewrite Hx. simpl.
  case_match; [by eexists|]. case_match eqn:Em; [by eexists|].
  destruct (decide (k = i)) as [->|Hki].
  - exists s. split; [|done]. by apply (expire_vifs_protected d now i (vif d) s e).
  - destruct (expire_vifs_ok d now k (vif d) Hv s) as (s' & -> & _ & Hl);
      [exists x; split; [done|by eapply Forall_lookup_1]|].
    exists s'. split; [done|]. destruct Hl as [[-> _]|[-> _]]; [done|].
    rewrite list_lookup_insert_ne, length_insert by done.
    split_and!; [done| |done]. apply Forall_insert; [done|apply zero_bss_wf].
Qed.

Lemma status_loop_keeps d now b i e todo : Forall vif_wf (vif d) -> protected d e -> forall k s,
  Forall bss_wf (sc_list s) -> (k + todo <= length (sc_list s))%nat -> sc_list s !! i = Some e ->
  exists s', status_loop d now b k todo s = Some s' /\ sc_list s' !! i = Some e /\
    length (sc_list s') = length (sc_list s).
Proof.
  intros Hv Hp. induction todo as [|n IH]; intros k s Hw Hk Hi; simpl; [by exists s|].
  destruct (status_step_keeps d now b k s i e) as (s1 & -> & H1 & Hw1 & Hl1); [done..|lia|done|done|].
  simpl. destruct (IH (S k) s1) as (s2 & -> & H2 & Hl2); [done|lia|done|].
  exists s2. split_and!; [done|done|congruence].
Qed.

Lemma scan_timer_keeps d dcu now i e :
  device_wf d -> protected d e -> ap_list d !! i = Some e ->
  exists d' out, sta_mode_scan_timer d dcu now = Some (d', out) /\ ap_list d' !! i = Some e.
Proof.
  intros [(Hn & Hw & _) Hv] Hp Hi. unfold sta_mode_scan_timer, sta_mode_ap_list_handler. cbv zeta.
  destruct (status_loop_keeps d now None i e (length (ap_list d)) Hv Hp 0
    (mk_scan (ap_list d) 255 255 (u8 (Z.of_nat (length (ap_list d)))) []) Hw) as (s & -> & Hs & Hl);
    [simpl; lia|done|].
  simpl in *. destruct (weakest_total (sc_list s)) as (low & Hlow & _); [lia|].
  rewrite <-Hl, Hlow. simpl. eexists _, _. by split.
Qed.

(** ** Histories of the table *)

Inductive ap_op : Type :=
| OpScan (dcu : bool) (now : Z) (b : ssv6xxx_ieee80211_bss)  (* a scan result *)
| OpTimer (dcu : bool) (now : Z)                            (* the refresh timer *)
| OpRemove (b : ssv6xxx_ieee80211_bss)                      (* mlme_remove_ap *)
| OpDeinit                                                  (* mlme_sta_mode_deinit *)
| OpVif (vs : list ssv_vif).                                (* other code changes the interfaces *)

Definition ap_step (d : DeviceInfo) (o : ap_op) : option DeviceInfo :=
  match o with
  | OpScan dcu now b => fst <$> sta_mode_ap_list_handler d dcu now (Some b)
  | OpTimer dcu now => fst <$> sta_mode_scan_timer d dcu now
  | OpRemove b => Some (mlme_remove_ap d b).1
  | OpDeinit => Some (mlme_sta_mode_deinit d).1
  | OpVif vs => Some (set_vif d vs)
  end.

Fixpoint ap_run (d : DeviceInfo) (ops : list ap_op) : option DeviceInfo :=
  match ops with
  | [] => Some d
  | o :: r => d' ← ap_step d o; ap_run d' r
  end.

Definition op_wf (o : ap_op) : Prop :=
  match o with
  | OpScan _ _ b | OpRemove b => bss_wf b
  | OpVif vs => Forall vif_wf vs
  | _ => True
  end.

Lemma remove_wf d b : device_wf d -> device_wf (mlme_remove_ap d b).1.
Proof.
  intros [Hl Hv]. unfold mlme_remove_ap.
  pose proof (remove_loop_thinned d b (ap_list d) 0) as Ht.
  destruct (remove_ap_loop d b 0 (ap_list d)) as [l out]. split; [by eapply thinned_wf|done].
Qed.

Lemma clear_wf d : device_wf d -> device_wf (mlme_clear_ap_list d).
Proof.
  intros [Hl Hv]. split; [|done]. eapply thinned_wf; [|exact Hl]. split; [apply length_replicate|].
  intros j e He. right. apply lookup_replicate_2. by eapply lookup_lt_Some.
Qed.

Lemma ap_step_wf d o : device_wf d -> op_wf o -> exists d', ap_step d o = Some d' /\ device_wf d'.
Proof.
  intros Hd Ho. destruct o as [dcu now b|dcu now|b| |vs]; simpl in *.
  - destruct (Z.eq_dec (ssid_len b) 0) as [E|E].
    + exists d. split; [|done]. unfold sta_mode_ap_list_handler. by rewrite E.
    + destruct (handler_result d dcu now b Hd Ho E) as (d' & out & -> & _ & ?). by exists d'.
  - destruct (handler_refresh d dcu now Hd) as (d' & out & H & _ & ?). exists d'.
    unfold sta_mode_scan_timer. by rewrite H.
  - eexists. split; [done|]. by apply remove_wf.
  - eexists. split; [done|]. by apply clear_wf.
  - eexists. split; [done|]. destruct Hd. by split.
Qed.

Lemma ap_run_wf ops : forall d, device_wf d -> Forall op_wf ops ->
  exists d', ap_run d ops = Some d' /\ device_wf d'.
Proof.
  induction ops as [|o ops IH]; intros d Hd Ho; simpl; [by exists d|].
  apply Forall_cons in Ho as [Ho Hops]. destruct (ap_step_wf d o Hd Ho) as (d1 & -> & Hd1).
  by apply IH.
Qed.

(** The table after the driver allocated it: [n] cleared entries. *)
Definition init_device (n : nat) (vs : list ssv_vif) (cbs : list (option Z)) : DeviceInfo :=
  mk_DeviceInfo 0 vs 0 0 0 (replicate n zero_bss) cbs false.

Lemma init_device_wf n vs cbs :
  (0 < n <= 255)%nat -> Forall vif_wf vs -> device_wf (init_device n vs cbs).
Proof.
  intros Hn Hv. split; [|done]. split_and!; simpl; rewrite ?length_replicate; [lia|lia| |].
  - apply Forall_replicate, zero_bss_wf.
  - intros i j e f He _ Hc. apply lookup_replicate in He as [-> _]. done.
Qed.

(** ** Properties *)

(** C32: For every history of scan results, refresh timers, removals, deinits and
    interface changes from the allocated table, no read leaves an array or goes
    through a NULL [StaInfo], and no access point has two entries in use. *)
Theorem ap_list_unique n vs cbs ops :
  (0 < n <= 255)%nat -> Forall vif_wf vs -> Forall op_wf ops ->
  exists d', ap_run (init_device n vs cbs) ops = Some d' /\ unique_aps (ap_list d').
Proof.
  intros Hn Hv Ho. destruct (ap_run_wf ops (init_device n vs cbs)) as (d' & Hr & (_ & _ & Hu) & _);
    [by apply init_device_wf|done|]. by exists d'.
Qed.

(** An access point heard on [ch] with signal [r] (a larger RCPI is weaker). *)
Definition ap (addr : list Z) (ch r : Z) : ssv6xxx_ieee80211_bss :=
  mk_bss (replicate 32 65) 4 addr 1 1 0 ch 2 0 r 0.

Definition sta_vif (joined : ssv6xxx_ieee80211_bss) : ssv_vif :=
  mk_vif SSV6XXX_HWM_STA (Some (mk_StaInfo joined joined CONNECT)).

Lemma ap_list_unique_witness :
  exists d', ap_run (init_device 2 [sta_vif zero_bss] [Some 7])
    [OpScan true 5 (ap [2;2;3;4;5;6] 1 40); OpScan true 6 (ap [2;2;3;4;5;7] 6 50);
     OpScan true 7 (ap [2;2;3;4;5;6] 11 42); OpScan true 8 (ap [2;2;3;4;5;8] 3 45);
     OpTimer true 700000] = Some d' /\ unique_aps (ap_list d').
Proof.
  apply ap_list_unique; [lia| |];
    repeat first [apply Forall_cons; split | apply Forall_nil; exact I]; try by vm_compute.
  all: repeat split; simpl; try lia; done.
Defined.

(** A scan result with a visible SSID is handled without a fault.  Either it
    is recorded in one entry, which belonged to this access point, or was free
    or stale, or, when all entries are in use, held the weakest signal and one
    no stronger than the result; every other entry is kept, or dropped because
    it was stale.  Or it is refused with the table unchanged, and then every
    entry holds another access point with a stronger signal. *)
Theorem scan_result_recorded d dcu now b :
  device_wf d -> bss_wf b -> ssid_len b <> 0 ->
  exists d' out, sta_mode_ap_list_handler d dcu now (Some b) = Some (d', out) /\
    placed now (ap_list d) b (ap_list d').
Proof.
  intros Hd Hb Hs. destruct (handler_result d dcu now b Hd Hb Hs) as (d' & out & H & ? & _).
  by exists d', out.
Qed.

Lemma scan_result_recorded_witness :
  exists d' out,
    sta_mode_ap_list_handler (init_device 3 [sta_vif zero_bss] []) true 5
      (Some (ap [2;2;3;4;5;6] 1 40)) = Some (d', out) /\
    placed 5 (replicate 3 zero_bss) (ap [2;2;3;4;5;6] 1 40) (ap_list d').
Proof.
  apply (scan_result_recorded (init_device 3 [sta_vif zero_bss] []) true 5 (ap [2;2;3;4;5;6] 1 40)).
  - apply init_device_wf; [lia|]. repeat constructor; simpl; lia.
  - repeat split; simpl; lia.
  - done.
Defined.

(** The smoothed signal strength: [prev_rcpi] stays below its 14-bit bound
    (so the 32-bit arithmetic never wraps), lies between its old value and the
    new sample, and [rpci] is its integer part. *)
Theorem rcpi_smoothing_bounded e :
  0 <= rpci e < 256 -> 0 <= prev_rcpi e <= 64 * 255 ->
  let e' := fine_tune_rcpi e in
  0 <= prev_rcpi e' <= 64 * 255 /\ rpci e' = prev_rcpi e' / 64 /\
  (prev_rcpi e <> 0 -> Z.min (64 * rpci e) (prev_rcpi e) <= prev_rcpi e' <=
                       Z.max (64 * rpci e) (prev_rcpi e)).
Proof.
  intros Hr Hp. unfold fine_tune_rcpi, RSSI_DECIMAL_POINT_SHIFT, RSSI_SMOOTHING_SHIFT.
  rewrite !Z.shiftl_mul_pow2, !Z.shiftr_div_pow2 by lia.
  change (2 ^ 6) with 64. change (2 ^ 5) with 32.
  destruct (Z.eqb_spec (prev_rcpi e) 0) as [E|E]; cbn -[Z.mul Z.div u8 u32]; [lia|].
  unfold u8, u32. rewrite !(Z.mod_small _ 4294967296) by (rewrite ?Z.mod_small by lia; lia). lia.
Qed.

Lemma rcpi_smoothing_bounded_witness :
  let e' := fine_tune_rcpi (set_rcpi (ap [2;2;3;4;5;6] 1 40) 80 (64 * 40)) in
  0 <= prev_rcpi e' <= 64 * 255 /\ rpci e' = prev_rcpi e' / 64 /\
  (64 * 40 <> 0 -> Z.min (64 * 80) (64 * 40) <= prev_rcpi e' <= Z.max (64 * 80) (64 * 40)).
Proof.
  apply (rcpi_smoothing_bounded (set_rcpi (ap [2;2;3;4;5;6] 1 40) 80 (64 * 40))); simpl; lia.
Defined.

(** The expiry test compares addresses with [STRCMP]: when the station is not
    joined (its join address is zero), an entry whose address starts with a zero
    byte survives the refresh timer at every time, however old it is. *)
Theorem zero_byte_never_expires d dcu now i e :
  device_wf d -> ap_list d !! i = Some e -> head (bssid e) = Some 0 ->
  (forall v, v ∈ vif d -> hw_mode v = SSV6XXX_HWM_STA -> exists si, StaInfo v = Some si /\
     bssid (joincfg si) = replicate 6 0) ->
  exists d' out, sta_mode_scan_timer d dcu now = Some (d', out) /\ ap_list d' !! i = Some e.
Proof.
  intros Hd Hi Hh Hj. apply scan_timer_keeps; [done| |done].
  intros v Hv Hm. destruct (Hj v Hv Hm) as (si & Hs & Hz). exists si. split; [done|].
  unfold bssid_chars. rewrite Hz. destruct (bssid e) as [|x l]; simpl in Hh; [done|].
  by injection Hh as ->.
Qed.

Lemma zero_byte_never_expires_witness :
  exists d' out,
    sta_mode_scan_timer
      (mk_DeviceInfo 0 [sta_vif zero_bss] 0 0 0 [ap [0;2;3;4;5;6] 1 40] [] false) true 1000000000
    = Some (d', out) /\ ap_list d' !! 0%nat = Some (ap [0;2;3;4;5;6] 1 40).
Proof.
  apply zero_byte_never_expires; [|done|done|].
  - split; [|repeat constructor; simpl; lia]. split_and!; [simpl; lia..| |].
    + repeat constructor; simpl; lia.
    + intros [|i] [|j] x y; simpl; done.
  - intros v Hv _. apply list_elem_of_singleton in Hv as ->. by eexists.
Defined.

(** An entry of the access point that the second station interface is joined to
    is dropped when the first interface is not joined to it. *)
Example second_station_entry_dropped :
  option_map (fun r => map channel_id (ap_list (fst r)))
    (sta_mode_scan_timer
      (mk_DeviceInfo 0 [sta_vif zero_bss; sta_vif (ap [2;2;3;4;5;6] 1 40)] 0 0 0
         [ap [2;2;3;4;5;6] 1 40] [] false) true 1000000) = Some [0].
Proof. vm_compute. reflexivity. Qed.
