(* ===== verification/Timer.v ===== *)
(** * Timer: the software timers of [lib/ssv_timer.c]

    [SSV_TMR_MAX] timer structs live in [g_ssv_timer]; at any time each is
    linked into one of three [ssv_list_q] lists (free, counting down, expired)
    or is carried by a message on its way to the timer task.  The lists are
    functional lists of timer indices (the refinement of the pointer lists is
    in ListQ); the structs are a store indexed by them, so that a pointer in a
    message and the struct in a list are the same object, as in the code.

    [tmr_hd] is a delta list: [msRemian] of an element is the time from the
    expiry of its predecessor.  [msg_evt_alloc] is an oracle: a list of the
    outcomes of the next allocations (successful once the list is used up), so
    that the retry loop of [_update_all_timer] is followed exactly.  The posts
    to a mailbox are returned as the list of posted events. *)

From stdpp Require Import base list gmap.
From Stdlib Require Import ZArith Lia.
From S2P Require Import Prelude.

(** ** Data *)

Definition SSV_TMR_MAX : nat := 24.
Definition OS_SUCCESS : Z := 0.
Definition OS_FAILED : Z := 1.
Definition MEVT_HOST_TIMER : Z := 12.

Inductive EN_TMR_STATE : Type :=
| EN_TMR_FREE
| EN_TMR_CNT_DWN
| EN_TMR_TICK_POST
| EN_TMR_CANCEL.

#[export] Instance EN_TMR_STATE_eq_dec : EqDecision EN_TMR_STATE.
Proof. solve_decision. Defined.

Record os_timer : Type := mk_os_timer {
  nMsgType : Z;
  handler : Z;
  infombx : Z;
  nMTData0 : Z;
  nMTData1 : Z;
  msTimeout : Z;
  msRemian : Z;
  en_state : EN_TMR_STATE
}.

(** [MEMSET(&g_ssv_timer, 0, ...)] *)
Definition zero_timer : os_timer := mk_os_timer 0 0 0 0 0 0 0 EN_TMR_FREE.

Record timers : Type := mk_timers {
  tmr_hd : list nat;
  free_tmr_hd : list nat;
  expired_tmr_hd : list nat;
  g_ssv_timer : list os_timer
}.

(** The event posted to the owner of a timer. *)
Record tick_event : Type := mk_tick {
  te_mbox : Z;
  te_MsgType : Z;
  te_MsgData : Z;
  te_MsgData1 : Z;
  te_MsgData2 : Z;
  te_MsgData3 : nat
}.

(** Messages to the timer task ([enum msgtype_tmr]). *)
Inductive tmr_msg : Type :=
| TMR_EVT_CREATE (p : nat)
| TMR_EVT_CANCEL (h data1 data2 : Z)
| TMR_EVT_FREE (p : nat)
| TMR_EVT_OTHER.

Definition tget (g : list os_timer) (i : nat) : os_timer := nth i g zero_timer.
Definition rem (g : list os_timer) (i : nat) : Z := msRemian (tget g i).

Definition set_rem (g : list os_timer) (i : nat) (v : Z) : list os_timer :=
  let t := tget g i in
  <[i := mk_os_timer (nMsgType t) (handler t) (infombx t) (nMTData0 t) (nMTData1 t)
           (msTimeout t) v (en_state t)]> g.

Definition set_state (g : list os_timer) (i : nat) (v : EN_TMR_STATE) : list os_timer :=
  let t := tget g i in
  <[i := mk_os_timer (nMsgType t) (handler t) (infombx t) (nMTData0 t) (nMTData1 t)
           (msTimeout t) (msRemian t) v]> g.

(** [tmr_ptr->handler = NULL; tmr_ptr->en_state = EN_TMR_FREE;] *)
Definition clear_timer (g : list os_timer) (i : nat) : list os_timer :=
  let t := tget g i in
  <[i := mk_os_timer (nMsgType t) 0 (infombx t) (nMTData0 t) (nMTData1 t)
           (msTimeout t) (msRemian t) EN_TMR_FREE]> g.

(** ** Operations *)

(** [void os_timer_init(void)] (the lists and the store) *)
Definition os_timer_init : timers :=
  mk_timers [] (seq 0 SSV_TMR_MAX) [] (replicate SSV_TMR_MAX zero_timer).

(** The loop "update all timer remain time" of [_create_timer]. *)
Fixpoint sub_followers (g : list os_timer) (p : nat) (l : list nat) : list os_timer :=
  match l with
  | [] => g
  | t :: r =>
      sub_followers (if rem g p <=? rem g t then set_rem g t (rem g t -u32 rem g p) else g) p r
  end.

(** The search loop of [_create_timer]: [seen] is what it walked over. *)
Fixpoint create_walk (g : list os_timer) (p : nat) (seen l : list nat)
  : list os_timer * list nat :=
  match l with
  | [] => (g, seen ++ [p])
  | t :: r =>
      if rem g p <=? rem g t then (sub_followers g p (t :: r), seen ++ p :: t :: r)
      else create_walk (set_rem g p (rem g p -u32 rem g t)) p (seen ++ [t]) r
  end.

(** [void _create_timer(struct os_timer *pOSTimer, u32 xElapsed)] *)
Definition _create_timer (st : timers) (p : nat) : timers :=
  let g := set_state (g_ssv_timer st) p EN_TMR_CNT_DWN in
  let '(g', q') := create_walk g p [] (tmr_hd st) in
  mk_timers q' (free_tmr_hd st) (expired_tmr_hd st) g'.

(** [EVT_AGN: pMsgEv = msg_evt_alloc()] with its retries; [evt_retry] is a [u32]
    that [while (evt_retry--)] decrements also when the test fails. *)
Fixpoint alloc_retry (orc : list bool) (evt_retry : Z) : bool * list bool * Z :=
  match orc with
  | [] => (true, [], evt_retry)
  | true :: o => (true, o, evt_retry)
  | false :: o =>
      if evt_retry =? 0 then (false, o, u32 (evt_retry - 1))
      else alloc_retry o (u32 (evt_retry - 1))
  end.

(** The body of the expiry loop of [_update_all_timer] for the dequeued timer. *)
Definition expire_one (st : timers) (i : nat) (orc : list bool) (evt_retry : Z)
  : timers * list tick_event * list bool * Z :=
  let g := g_ssv_timer st in
  let t := tget g i in
  let to_free g := mk_timers (tmr_hd st) (free_tmr_hd st ++ [i]) (expired_tmr_hd st)
                     (set_state g i EN_TMR_FREE) in
  if handler t =? 0 then (to_free g, [], orc, evt_retry)
  else
    let '(ok, orc', retry') := alloc_retry orc evt_retry in
    if (ok : bool) then
      if negb (infombx t =? 0) then
        (mk_timers (tmr_hd st) (free_tmr_hd st) (expired_tmr_hd st ++ [i])
           (set_state g i EN_TMR_TICK_POST),
         [mk_tick (infombx t) (nMsgType t) (handler t) (nMTData0 t) (nMTData1 t) i], orc', retry')
      else (to_free g, [], orc', retry')
    else (to_free g, [], orc', retry').

(** [do { ... } while ((next != qhd) && (next->msRemian == 0))] on the list [q];
    [first] is the unconditional first round. *)
Fixpoint expire_loop (st : timers) (q : list nat) (first : bool) (orc : list bool) (retry : Z)
  : timers * list tick_event * list bool :=
  match q with
  | [] => (mk_timers [] (free_tmr_hd st) (expired_tmr_hd st) (g_ssv_timer st), [], orc)
  | i :: r =>
      if first || (rem (g_ssv_timer st) i =? 0) then
        let '(st1, e1, orc1, retry1) := expire_one st i orc retry in
        let '(st2, e2, orc2) := expire_loop st1 r false orc1 retry1 in
        (st2, e1 ++ e2, orc2)
      else (mk_timers q (free_tmr_hd st) (expired_tmr_hd st) (g_ssv_timer st), [], orc)
  end.

(** [void _update_all_timer(u32 xElapsed)] *)
Definition _update_all_timer (st : timers) (xElapsed : Z) (orc : list bool)
  : timers * list tick_event * list bool :=
  match tmr_hd st with
  | [] => (st, [], orc)
  | i :: r =>
      if xElapsed <? rem (g_ssv_timer st) i then
        (mk_timers (tmr_hd st) (free_tmr_hd st) (expired_tmr_hd st)
           (if 0 <? xElapsed then set_rem (g_ssv_timer st) i (rem (g_ssv_timer st) i -u32 xElapsed)
            else g_ssv_timer st), [], orc)
      else expire_loop st (i :: r) true orc 30
  end.

Definition timer_matches (t : os_timer) (h data1 data2 : Z) : bool :=
  (h =? handler t) && (nMTData0 t =? data1) && (nMTData1 t =? data2).

(** "re-add remain time for reset timer" *)
Fixpoint add_followers (g : list os_timer) (ms : Z) (l : list nat) : list os_timer :=
  match l with
  | [] => g
  | t :: r => add_followers (set_rem g t (rem g t +u32 ms)) ms r
  end.

(** The first loop of [_cancel_timer]; once a timer with time left is removed the
    inner loop runs [next] to the end of the list, which also ends the search. *)
Fixpoint cancel_walk (g : list os_timer) (h d1 d2 : Z) (seen l freed : list nat)
  : list os_timer * list nat * list nat :=
  match l with
  | [] => (g, seen, freed)
  | t :: r =>
      if timer_matches (tget g t) h d1 d2 then
        let ms := rem g t in
        let g1 := clear_timer g t in
        if 0 <? ms then (add_followers g1 ms r, seen ++ r, freed ++ [t])
        else cancel_walk g1 h d1 d2 seen r (freed ++ [t])
      else cancel_walk g h d1 d2 (seen ++ [t]) r freed
  end.

(** The second loop: the expired timers are only marked. *)
Fixpoint cancel_expired (g : list os_timer) (h d1 d2 : Z) (l : list nat) : list os_timer :=
  match l with
  | [] => g
  | t :: r =>
      cancel_expired (if timer_matches (tget g t) h d1 d2 then set_state g t EN_TMR_CANCEL else g)
        h d1 d2 r
  end.

(** [void _cancel_timer(timer_handler handler, u32 data1, u32 data2)] *)
Definition _cancel_timer (st : timers) (h data1 data2 : Z) : timers :=
  let '(g1, q1, freed) := cancel_walk (g_ssv_timer st) h data1 data2 [] (tmr_hd st) [] in
  mk_timers q1 (free_tmr_hd st ++ freed) (expired_tmr_hd st)
    (cancel_expired g1 h data1 data2 (expired_tmr_hd st)).

(** The loop of [_free_timer]. *)
Fixpoint free_walk (g : list os_timer) (p : nat) (seen l freed : list nat)
  : list os_timer * list nat * list nat :=
  match l with
  | [] => (g, seen, freed)
  | t :: r =>
      if Nat.eqb t p then free_walk (clear_timer g t) p seen r (freed ++ [t])
      else free_walk g p (seen ++ [t]) r freed
  end.

(** [void _free_timer(struct os_timer* free_tmr)] *)
Definition _free_timer (st : timers) (p : nat) : timers :=
  let '(g1, x1, freed) := free_walk (g_ssv_timer st) p [] (expired_tmr_hd st) [] in
  mk_timers (tmr_hd st) (free_tmr_hd st ++ freed) x1 g1.

(** The [switch] of [SSV_Timer_Task]. *)
Definition handle_tmr_msg (st : timers) (msg : tmr_msg) : timers :=
  match msg with
  | TMR_EVT_CREATE p => _create_timer st p
  | TMR_EVT_CANCEL h d1 d2 => _cancel_timer st h d1 d2
  | TMR_EVT_FREE p => _free_timer st p
  | TMR_EVT_OTHER => st
  end.

(** What one round of [SSV_Timer_Task] sees: the message fetched, if any, with
    the milliseconds waited for it, and the milliseconds its handling took. *)
Record round : Type := mk_round {
  rd_msg : option tmr_msg;
  rd_waited : Z;
  rd_handling : Z
}.

(** One round of the loop of [SSV_Timer_Task].  With a timer pending the wait is
    bounded by the first [msRemian], and a timeout charges exactly that time;
    with none pending the wait is unbounded and is not charged. *)
Definition SSV_Timer_Task_round (st : timers) (rd : round) (orc : list bool)
  : timers * list tick_event * list bool :=
  let xElapsed :=
    match tmr_hd st with
    | [] => 0
    | cur :: _ =>
        match rd_msg rd with Some _ => rd_waited rd | None => rem (g_ssv_timer st) cur end
    end in
  let '(st1, e1, orc1) := _update_all_timer st xElapsed orc in
  let st2 := match rd_msg rd with Some m => handle_tmr_msg st1 m | None => st1 end in
  let '(st3, e3, orc3) := _update_all_timer st2 (rd_handling rd) orc1 in
  (st3, e1 ++ e3, orc3).

(** [s32 os_create_timer(ms, handler, data1, data2, mbx)]: the outcomes of
    [msg_evt_alloc] and of the post are inputs; the message is what is posted. *)
Definition os_create_timer (st : timers) (ms h data1 data2 mbx : Z) (alloc_ok post_ok : bool)
  : timers * Z * list tmr_msg :=
  match free_tmr_hd st with
  | [] => (st, OS_FAILED, [])
  | p :: r =>
      let g := <[p := mk_os_timer MEVT_HOST_TIMER h mbx data1 data2 ms ms
                        (en_state (tget (g_ssv_timer st) p))]> (g_ssv_timer st) in
      let st1 := mk_timers (tmr_hd st) r (expired_tmr_hd st) g in
      if alloc_ok then
        (st1, if (post_ok : bool) then OS_SUCCESS else OS_FAILED,
         if post_ok then [TMR_EVT_CREATE p] else [])
      else (st1, OS_FAILED, [])
  end.

(** [s32 os_cancel_timer(handler, data1, data2)] *)
Definition os_cancel_timer (h data1 data2 : Z) (alloc_ok post_ok : bool) : Z * list tmr_msg :=
  if alloc_ok then
    (if (post_ok : bool) then OS_SUCCESS else OS_FAILED,
     if post_ok then [TMR_EVT_CANCEL h data1 data2] else [])
  else (OS_FAILED, []).

(** [s32 os_free_timer(struct os_timer* free_tmr)] *)
Definition os_free_timer (p : nat) (alloc_ok post_ok : bool) : Z * list tmr_msg :=
  if alloc_ok then
    (if (post_ok : bool) then OS_SUCCESS else OS_FAILED,
     if post_ok then [TMR_EVT_FREE p] else [])
  else (OS_FAILED, []).

(** [void os_timer_expired(void* evt)]: the handler call it makes, if any, and
    the message it posts to give the timer back. *)
Definition os_timer_expired (st : timers) (evt : tick_event) (alloc_ok post_ok : bool)
  : option (Z * Z * Z) * list tmr_msg :=
  let call :=
    match en_state (tget (g_ssv_timer st) (te_MsgData3 evt)) with
    | EN_TMR_TICK_POST => Some (te_MsgData evt, te_MsgData1 evt, te_MsgData2 evt)
    | _ => None
    end in
  (call, snd (os_free_timer (te_MsgData3 evt) alloc_ok post_ok)).

(** ** The store *)

Lemma tget_insert_eq g i t : (i < length g)%nat -> tget (<[i := t]> g) i = t.
Proof.
  intros H. unfold tget. apply nth_lookup_Some. by apply list_lookup_insert_eq.
Qed.

Lemma tget_insert_ne g i j t : i <> j -> tget (<[i := t]> g) j = tget g j.
Proof.
  intros H. unfold tget. rewrite !nth_lookup. by rewrite list_lookup_insert_ne.
Qed.

(** A timer without its remaining time: what the list operations keep. *)
Definition erase_rem (t : os_timer) : os_timer :=
  mk_os_timer (nMsgType t) (handler t) (infombx t) (nMTData0 t) (nMTData1 t)
    (msTimeout t) 0 (en_state t).

Definition rems (g : list os_timer) (l : list nat) : list Z := map (rem g) l.

(** [g'] differs from [g] at most in the remaining times. *)
Definition same_but_rem (g g' : list os_timer) : Prop :=
  length g' = length g /\ forall i, erase_rem (tget g' i) = erase_rem (tget g i).

Lemma same_but_rem_refl g : same_but_rem g g.
Proof. done. Qed.

Lemma same_but_rem_trans g1 g2 g3 :
  same_but_rem g1 g2 -> same_but_rem g2 g3 -> same_but_rem g1 g3.
Proof. intros [H1 H2] [H3 H4]. split; [congruence|]. intros i. by rewrite H4. Qed.

#[export] Instance same_but_rem_preorder : PreOrder same_but_rem.
Proof. split; [exact same_but_rem_refl|exact same_but_rem_trans]. Qed.

Lemma set_rem_same g i v : same_but_rem g (set_rem g i v).
Proof.
  unfold set_rem. split; [apply length_insert|]. intros j.
  destruct (decide (i = j)) as [<-|]; [|by rewrite tget_insert_ne].
  destruct (decide (i < length g)%nat); [by rewrite tget_insert_eq|].
  by rewrite list_insert_ge by lia.
Qed.

Lemma rem_set_rem_eq g i v : (i < length g)%nat -> rem (set_rem g i v) i = v.
Proof. intros. unfold rem, set_rem. by rewrite tget_insert_eq. Qed.

Lemma rem_set_rem_ne g i j v : i <> j -> rem (set_rem g i v) j = rem g j.
Proof. intros. unfold rem, set_rem. by rewrite tget_insert_ne. Qed.

Lemma rem_set_state g i v j : rem (set_state g i v) j = rem g j.
Proof.
  unfold rem, set_state. destruct (decide (i = j)) as [<-|]; [|by rewrite tget_insert_ne].
  destruct (decide (i < length g)%nat); [by rewrite tget_insert_eq|].
  by rewrite list_insert_ge by lia.
Qed.

Lemma rems_set_rem_ne g i v l : i ∉ l -> rems (set_rem g i v) l = rems g l.
Proof.
  intros H. apply map_ext_in. intros j Hj%list_elem_of_In. apply rem_set_rem_ne. set_solver.
Qed.

Lemma rems_set_state g i v l : rems (set_state g i v) l = rems g l.
Proof. apply map_ext. intros. apply rem_set_state. Qed.

Lemma rems_app g a b : rems g (a ++ b) = rems g a ++ rems g b.
Proof. apply map_app. Qed.

(** Remaining times are [u32] values. *)
Definition rems_u32 (g : list os_timer) : Prop := forall i, 0 <= rem g i < 4294967296.

Lemma set_rem_u32 g i v : 0 <= v < 4294967296 -> rems_u32 g -> rems_u32 (set_rem g i v).
Proof.
  intros Hv Hg j. destruct (decide (i = j)) as [<-|]; [|by rewrite rem_set_rem_ne].
  destruct (decide (i < length g)%nat); [by rewrite rem_set_rem_eq|].
  unfold rem, set_rem. rewrite list_insert_ge by lia. apply Hg.
Qed.

(** ** Inserting into the delta list *)

(** What [_create_timer] does to the remaining time of a later timer. *)
Definition sub_rem (d r : Z) : Z := if d <=? r then r - d else r.

Lemma sub_followers_spec l : forall g p,
  p ∉ l -> NoDup l -> rems_u32 g -> Forall (fun i => (i < length g)%nat) l ->
  let g' := sub_followers g p l in
  same_but_rem g g' /\ rems_u32 g' /\ rem g' p = rem g p /\
  rems g' l = map (sub_rem (rem g p)) (rems g l) /\
  (forall i, i ∉ l -> rem g' i = rem g i).
Proof.
  induction l as [|t r IH]; intros g p Hp Hnd Hu Hl; [cbn; split_and!; done|].
  apply NoDup_cons in Hnd as [Ht Hnd]. apply Forall_cons in Hl as [Htl Hl]. cbn [sub_followers].
  set (g1 := if rem g p <=? rem g t then _ else g).
  assert (Hg1 : same_but_rem g g1 /\ rems_u32 g1 /\ (forall i, i <> t -> rem g1 i = rem g i) /\
                rem g1 t = sub_rem (rem g p) (rem g t)).
  { unfold g1, sub_rem. pose proof (Hu p). pose proof (Hu t).
    destruct (Z.leb_spec (rem g p) (rem g t)); [|split_and!; done].
    rewrite u32_small by lia. split_and!.
    - apply set_rem_same.
    - by apply set_rem_u32; [lia|].
    - intros i Hi. by apply rem_set_rem_ne.
    - by apply rem_set_rem_eq. }
  destruct Hg1 as (S1 & U1 & O1 & T1).
  destruct (IH g1 p) as (S2 & U2 & P2 & R2 & O2); [set_solver|done|done| |].
  { by rewrite (proj1 S1). }
  split_and!; [exact (same_but_rem_trans _ _ _ S1 S2)|done| | |].
  - rewrite P2. apply O1. set_solver.
  - cbn [rems map]. f_equal.
    + rewrite O2 by done. done.
    + fold (rems (sub_followers g1 p r) r). rewrite R2, (O1 p) by set_solver.
      f_equal. apply map_ext_in. intros i Hi%list_elem_of_In. apply O1. set_solver.
  - intros i Hi. rewrite O2 by set_solver. apply O1. set_solver.
Qed.

Lemma create_walk_spec l : forall g p seen g' q',
  p ∉ seen ++ l -> NoDup (seen ++ l) -> rems_u32 g ->
  (p < length g)%nat -> Forall (fun i => (i < length g)%nat) l ->
  create_walk g p seen l = (g', q') ->
  exists a b, l = a ++ b /\ q' = seen ++ a ++ p :: b /\
    same_but_rem g g' /\ rems_u32 g' /\
    sumZ (rems g a) + rem g' p = rem g p /\
    (forall i, i ∉ p :: b -> rem g' i = rem g i) /\
    rems g' b = map (sub_rem (rem g' p)) (rems g b) /\
    (forall t c, b = t :: c -> rem g' p <= rem g t) /\
    Forall (fun t => rem g t < rem g p) a.
Proof.
  induction l as [|t r IH]; intros g p seen g' q' Hp Hnd Hu Hpl Hl; cbn [create_walk].
  - intros [= <- <-]. exists [], []. split_and!; try done.
  - apply Forall_cons in Hl as [Htl Hl]. pose proof (Hu p). pose proof (Hu t).
    destruct (Z.leb_spec (rem g p) (rem g t)) as [Hle|Hlt].
    + intros [= Eg <-]. exists [], (t :: r).
      destruct (sub_followers_spec (t :: r) g p) as (S1 & U1 & P1 & R1 & O1);
        [set_solver|by apply NoDup_app in Hnd as (_ & _ & ?)|done|by constructor|].
      change (sub_followers g p (t :: r) = g') in Eg. rewrite Eg in *. clear Eg.
      split_and!; try done.
      * intros i Hi. apply O1. set_solver.
      * by rewrite P1.
      * intros t' c [= <- <-]. by rewrite P1.
    + intros E. rewrite u32_small in E by lia.
      destruct (IH (set_rem g p (rem g p - rem g t)) p (seen ++ [t]) g' q')
        as (a & b & -> & -> & S1 & U1 & H1 & O1 & R1 & T1 & F1); try done.
      * rewrite <-app_assoc. done.
      * by rewrite <-app_assoc.
      * by apply set_rem_u32; [lia|].
      * by rewrite (proj1 (set_rem_same _ _ _)).
      * by rewrite (proj1 (set_rem_same _ _ _)).
      * rewrite rem_set_rem_eq in H1, F1 by done.
        assert (Hne : forall i, i ∈ t :: a ++ b -> rem (set_rem g p (rem g p - rem g t)) i = rem g i)
          by (intros i Hi; apply rem_set_rem_ne; set_solver).
        assert (Hra : forall l, (forall i, i ∈ l -> i ∈ t :: a ++ b) ->
          rems (set_rem g p (rem g p - rem g t)) l = rems g l).
        { intros l Hsub. apply map_ext_in. intros i Hi%list_elem_of_In. apply Hne, Hsub, Hi. }
        exists (t :: a), b. rewrite <-app_assoc. split_and!; try done.
        -- exact (same_but_rem_trans _ _ _ (set_rem_same _ _ _) S1).
        -- rewrite Hra in H1 by set_solver. cbn [rems map sumZ]. fold (rems g a). lia.
        -- intros i Hi. rewrite O1 by done. apply rem_set_rem_ne. set_solver.
        -- by rewrite R1, Hra by set_solver.
        -- intros t' c ->. rewrite <-Hne by set_solver. by apply (T1 t' c).
        -- constructor; [lia|]. eapply Forall_impl; [apply Forall_and; split; [exact F1|]|].
           { apply Forall_forall. intros x Hx. exact Hx. }
           intros x [Hx Hin]. cbn in *. rewrite Hne in Hx by set_solver. lia.
Qed.

(** ** The invariant of the timer store

    Every timer is in exactly one place: counting down, free, expired, or in
    flight (taken from the free list and not yet given to the timer task). *)
Record timers_wf (st : timers) (inflight : list nat) : Prop := mk_timers_wf {
  wf_len : length (g_ssv_timer st) = SSV_TMR_MAX;
  wf_part : tmr_hd st ++ free_tmr_hd st ++ expired_tmr_hd st ++ inflight ≡ₚ seq 0 SSV_TMR_MAX;
  wf_u32 : rems_u32 (g_ssv_timer st);
  wf_cnt : forall i, i ∈ tmr_hd st -> en_state (tget (g_ssv_timer st) i) = EN_TMR_CNT_DWN;
  wf_exp : forall i, i ∈ expired_tmr_hd st ->
    en_state (tget (g_ssv_timer st) i) = EN_TMR_TICK_POST \/
    en_state (tget (g_ssv_timer st) i) = EN_TMR_CANCEL
}.

Lemma wf_nodup st fl : timers_wf st fl ->
  NoDup (tmr_hd st ++ free_tmr_hd st ++ expired_tmr_hd st ++ fl).
Proof. intros W. rewrite (wf_part _ _ W). apply NoDup_seq. Qed.

Lemma wf_range st fl i : timers_wf st fl ->
  i ∈ tmr_hd st ++ free_tmr_hd st ++ expired_tmr_hd st ++ fl ->
  (i < length (g_ssv_timer st))%nat.
Proof.
  intros W. rewrite (wf_part _ _ W), (wf_len _ _ W), elem_of_seq. lia.
Qed.

Lemma tget_init i : tget (g_ssv_timer os_timer_init) i = zero_timer.
Proof.
  unfold tget. rewrite nth_lookup.
  destruct (g_ssv_timer os_timer_init !! i) as [t|] eqn:E; [|done].
  by apply lookup_replicate in E as [-> _].
Qed.

Lemma os_timer_init_wf : timers_wf os_timer_init [].
Proof.
  split; try done.
  - intros i. unfold rem. rewrite tget_init. cbn. lia.
  - set_solver.
  - set_solver.
Qed.

Lemma timer_eq t t' : erase_rem t = erase_rem t' -> msRemian t = msRemian t' -> t = t'.
Proof. destruct t, t'. cbn. intros [=] ->. by subst. Qed.

Lemma en_state_erase t t' : erase_rem t = erase_rem t' -> en_state t = en_state t'.
Proof. intros H. by injection H. Qed.

Lemma tget_set_state_eq g i v :
  (i < length g)%nat -> en_state (tget (set_state g i v) i) = v.
Proof. intros. unfold set_state. by rewrite tget_insert_eq. Qed.

Lemma tget_set_state_ne g i j v : i <> j -> tget (set_state g i v) j = tget g j.
Proof. intros. unfold set_state. by rewrite tget_insert_ne. Qed.

Lemma set_state_u32 g i v : rems_u32 g -> rems_u32 (set_state g i v).
Proof. intros H j. rewrite rem_set_state. apply H. Qed.

Lemma length_set_state g i v : length (set_state g i v) = length g.
Proof. apply length_insert. Qed.

(** ** [_create_timer] *)

Lemma create_timer_spec st p fl :
  timers_wf st (p :: fl) ->
  exists a b, tmr_hd st = a ++ b /\
    let st' := _create_timer st p in
    let g := g_ssv_timer st in let g' := g_ssv_timer st' in
    tmr_hd st' = a ++ p :: b /\
    same_but_rem (set_state g p EN_TMR_CNT_DWN) g' /\ rems_u32 g' /\
    free_tmr_hd st' = free_tmr_hd st /\ expired_tmr_hd st' = expired_tmr_hd st /\
    sumZ (rems g a) + rem g' p = rem g p /\
    rems g' a = rems g a /\
    rems g' b = map (sub_rem (rem g' p)) (rems g b) /\
    (forall t c, b = t :: c -> rem g' p <= rem g t).
Proof.
  intros W. pose proof (wf_nodup _ _ W) as Hnd.
  assert (Hp : p ∉ tmr_hd st).
  { rewrite !app_assoc in Hnd. apply NoDup_app in Hnd as (_ & Hd & _).
    intros Hin. apply (Hd p); set_solver. }
  assert (Hq : NoDup (tmr_hd st)) by (by apply NoDup_app in Hnd as (? & _ & _)).
  unfold _create_timer.
  destruct (create_walk _ p [] (tmr_hd st)) as [g' q'] eqn:E.
  apply create_walk_spec in E as (a & b & Ha & -> & S1 & U1 & H1 & O1 & R1 & T1 & _); try done.
  - exists a, b. cbn [tmr_hd g_ssv_timer free_tmr_hd expired_tmr_hd].
    rewrite rems_set_state in H1, R1. rewrite rem_set_state in H1.
    split_and!; try done.
    + rewrite <-(rems_set_state (g_ssv_timer st) p EN_TMR_CNT_DWN). apply map_ext_in.
      intros i Hi%list_elem_of_In. apply O1.
      rewrite Ha in Hp, Hq. apply NoDup_app in Hq as (_ & Hd & _). specialize (Hd i Hi). set_solver.
    + intros t c Hb. rewrite <-(rem_set_state (g_ssv_timer st) p EN_TMR_CNT_DWN). by apply (T1 t c).
  - apply set_state_u32, (wf_u32 _ _ W).
  - rewrite length_set_state. apply (wf_range st (p :: fl)); [done|set_solver].
  - apply Forall_forall. intros i Hi. rewrite length_set_state.
    apply (wf_range st (p :: fl)); [done|set_solver].
Qed.

(** the delta list of [_create_timer].  Inserting a timer keeps the expiry
    times of all earlier timers, makes the new timer expire exactly [msRemian]
    (its requested delay) from now, keeps the expiry time of the timer right
    after it, and inserts in order of expiry. *)
Theorem create_timer_deadlines st p fl :
  timers_wf st (p :: fl) ->
  exists a b, tmr_hd st = a ++ b /\
    let st' := _create_timer st p in
    let g := g_ssv_timer st in let g' := g_ssv_timer st' in
    tmr_hd st' = a ++ p :: b /\
    rems g' a = rems g a /\
    sumZ (rems g' (a ++ [p])) = rem g p /\
    (forall t c, b = t :: c ->
       sumZ (rems g' (a ++ [p; t])) = sumZ (rems g (a ++ [t])) /\
       rem g p <= sumZ (rems g (a ++ [t]))).
Proof.
  intros W. destruct (create_timer_spec st p fl W)
    as (a & b & Ha & Hq & _ & U & _ & _ & Hs & Hra & Hrb & Hb).
  exists a, b. cbn zeta. split_and!; try done.
  - rewrite rems_app, sumZ_app, Hra. simpl. lia.
  - intros t c ->. specialize (Hb t c eq_refl). cbn [rems map] in Hrb. injection Hrb as Ht _.
    rewrite !rems_app, !sumZ_app, Hra. simpl. rewrite Ht. unfold sub_rem.
    rewrite (proj2 (Z.leb_le _ _)) by done. lia.
Qed.

(** The new timer is counted down, everything else stays where it was. *)
Lemma create_timer_wf st p fl : timers_wf st (p :: fl) -> timers_wf (_create_timer st p) fl.
Proof.
  intros W. pose proof (wf_nodup _ _ W) as Hnd.
  destruct (create_timer_spec st p fl W) as (a & b & Ha & Hq & [Sl Ss] & U & Hf & Hx & _).
  cbn zeta in *.
  assert (Hpl : (p < length (g_ssv_timer st))%nat)
    by (apply (wf_range st (p :: fl)); [done|set_solver]).
  assert (Hst : forall i, i <> p -> en_state (tget (g_ssv_timer (_create_timer st p)) i)
                                    = en_state (tget (g_ssv_timer st) i)).
  { intros i Hi. rewrite (en_state_erase _ _ (Ss i)). by rewrite tget_set_state_ne. }
  split; try done.
  - rewrite Sl, length_set_state. apply (wf_len _ _ W).
  - rewrite <-(wf_part _ _ W), Hq, Hf, Hx, Ha. solve_Permutation.
  - intros i Hi. rewrite Hq in Hi. destruct (decide (i = p)) as [->|Hne].
    + rewrite (en_state_erase _ _ (Ss p)). by apply tget_set_state_eq.
    + rewrite Hst by done. apply (wf_cnt _ _ W). rewrite Ha. set_solver.
  - intros i Hi. rewrite Hx in Hi. rewrite Hst; [by apply (wf_exp _ _ W)|].
    intros ->. rewrite !app_assoc in Hnd. apply NoDup_app in Hnd as (_ & Hd & _).
    apply (Hd p); set_solver.
Qed.

(** ** [_update_all_timer] *)

(** Reduce the projections of a concrete timer state only. *)
Ltac cbn_tmr := cbn [tmr_hd free_tmr_hd expired_tmr_hd g_ssv_timer] in *.

(** Separation facts of the invariant for one counting timer. *)
Lemma wf_head_sep i r fr ex g fl :
  timers_wf (mk_timers (i :: r) fr ex g) fl ->
  i ∉ r /\ i ∉ fr /\ i ∉ ex /\ i ∉ fl /\ (i < length g)%nat.
Proof.
  intros W. pose proof (wf_nodup _ _ W) as Hnd. cbn in Hnd. apply NoDup_cons in Hnd as [Hi _].
  rewrite !elem_of_app in Hi. split_and!; try tauto.
  apply (wf_range _ _ i W). cbn. set_solver.
Qed.

(** The expired timer goes to the free list. *)
Lemma wf_to_free i r fr ex g fl :
  timers_wf (mk_timers (i :: r) fr ex g) fl ->
  timers_wf (mk_timers r (fr ++ [i]) ex (set_state g i EN_TMR_FREE)) fl.
Proof.
  intros W. destruct (wf_head_sep _ _ _ _ _ _ W) as (Hr & Hf & Hx & _ & Hl).
  destruct W as [Wl Wp Wu Wc We]. cbn_tmr. split; cbn_tmr.
  - by rewrite length_set_state.
  - rewrite <-Wp. solve_Permutation.
  - by apply set_state_u32.
  - intros j Hj. rewrite tget_set_state_ne by set_solver. apply Wc. set_solver.
  - intros j Hj. rewrite tget_set_state_ne by set_solver. by apply We.
Qed.

(** The expired timer is posted to its owner. *)
Lemma wf_to_expired i r fr ex g fl :
  timers_wf (mk_timers (i :: r) fr ex g) fl ->
  timers_wf (mk_timers r fr (ex ++ [i]) (set_state g i EN_TMR_TICK_POST)) fl.
Proof.
  intros W. destruct (wf_head_sep _ _ _ _ _ _ W) as (Hr & Hf & Hx & _ & Hl).
  destruct W as [Wl Wp Wu Wc We]. cbn_tmr. split; cbn_tmr.
  - by rewrite length_set_state.
  - rewrite <-Wp. solve_Permutation.
  - by apply set_state_u32.
  - intros j Hj. rewrite tget_set_state_ne by set_solver. apply Wc. set_solver.
  - intros j [Hj|Hj%list_elem_of_singleton]%elem_of_app.
    + rewrite tget_set_state_ne by set_solver. by apply We.
    + subst j. left. by apply tget_set_state_eq.
Qed.

(** The timers [expire_one] leaves behind: [i] is in the free or the expired list. *)
Definition after_expiry (st : timers) (i : nat) (posted : bool) : timers :=
  if posted
  then mk_timers (tmr_hd st) (free_tmr_hd st) (expired_tmr_hd st ++ [i])
         (set_state (g_ssv_timer st) i EN_TMR_TICK_POST)
  else mk_timers (tmr_hd st) (free_tmr_hd st ++ [i]) (expired_tmr_hd st)
         (set_state (g_ssv_timer st) i EN_TMR_FREE).

(** The event of timer [i] as its creator asked for it. *)
Definition tick_of (g : list os_timer) (i : nat) : tick_event :=
  let t := tget g i in mk_tick (infombx t) (nMsgType t) (handler t) (nMTData0 t) (nMTData1 t) i.

Lemma expire_one_spec st i orc retry :
  exists posted orc' retry',
    expire_one st i orc retry =
      (after_expiry st i posted,
       if (posted : bool) then [tick_of (g_ssv_timer st) i] else [], orc', retry') /\
    (orc = [] -> orc' = [] /\
       posted = negb (handler (tget (g_ssv_timer st) i) =? 0) &&
                negb (infombx (tget (g_ssv_timer st) i) =? 0)).
Proof.
  unfold expire_one, after_expiry, tick_of.
  destruct (handler (tget (g_ssv_timer st) i) =? 0); [by exists false, orc, retry|].
  destruct (alloc_retry orc retry) as [[ok orc'] retry'] eqn:E.
  destruct ok, (negb (infombx (tget (g_ssv_timer st) i) =? 0)) eqn:Em.
  all: try (exists false, orc', retry'; split; [done|]; intros ->; injection E; naive_solver).
  exists true, orc', retry'. split; [done|]. intros ->. injection E. naive_solver.
Qed.

Lemma wf_after_expiry i r fr ex g fl posted :
  timers_wf (mk_timers (i :: r) fr ex g) fl ->
  timers_wf (mk_timers r (free_tmr_hd (after_expiry (mk_timers r fr ex g) i posted))
     (expired_tmr_hd (after_expiry (mk_timers r fr ex g) i posted))
     (g_ssv_timer (after_expiry (mk_timers r fr ex g) i posted))) fl.
Proof. intros W. destruct posted; cbn; [by apply wf_to_expired|by apply wf_to_free]. Qed.

(** Timers without their state: what posting and freeing keeps. *)
Lemma tick_of_set_state g i v j : tick_of (set_state g i v) j = tick_of g j.
Proof.
  unfold tick_of, set_state. destruct (decide (i = j)) as [<-|]; [|by rewrite tget_insert_ne].
  destruct (decide (i < length g)%nat); [by rewrite tget_insert_eq|].
  by rewrite list_insert_ge by lia.
Qed.

(** The expiry loop posts a timer exactly when it has a handler and a mailbox. *)
Definition postable (g : list os_timer) (i : nat) : bool :=
  negb (te_MsgData (tick_of g i) =? 0) && negb (te_mbox (tick_of g i) =? 0).

Lemma after_expiry_keeps st i posted j :
  rem (g_ssv_timer (after_expiry st i posted)) j = rem (g_ssv_timer st) j /\
  tick_of (g_ssv_timer (after_expiry st i posted)) j = tick_of (g_ssv_timer st) j.
Proof.
  destruct posted; cbn [after_expiry]; cbn_tmr; by rewrite rem_set_state, tick_of_set_state.
Qed.

Definition is_zero (g : list os_timer) (i : nat) : Prop := rem g i = 0.

Lemma expire_loop_spec q : forall st first orc retry fl st' ev orc',
  timers_wf (mk_timers q (free_tmr_hd st) (expired_tmr_hd st) (g_ssv_timer st)) fl ->
  expire_loop st q first orc retry = (st', ev, orc') ->
  exists popped, q = popped ++ tmr_hd st' /\
    timers_wf st' fl /\
    Forall (is_zero (g_ssv_timer st)) (if first then tail popped else popped) /\
    (first = true -> q <> [] -> popped <> []) /\
    (forall t c, tmr_hd st' = t :: c -> rem (g_ssv_timer st) t <> 0) /\
    (forall j, rem (g_ssv_timer st') j = rem (g_ssv_timer st) j /\
               tick_of (g_ssv_timer st') j = tick_of (g_ssv_timer st) j) /\
    sublist ev (map (tick_of (g_ssv_timer st)) popped) /\
    (orc = [] -> ev = map (tick_of (g_ssv_timer st)) (filter (postable (g_ssv_timer st)) popped) /\
       orc' = []).
Proof.
  induction q as [|i r IH]; intros st first orc retry fl st' ev orc' W; cbn [expire_loop].
  { intros [= <- <- <-]. exists []. destruct first; split_and!; done. }
  destruct (first || (rem (g_ssv_timer st) i =? 0)) eqn:Ec.
  - destruct (expire_one_spec st i orc retry) as (posted & orc1 & retry1 & -> & Horc).
    destruct (expire_loop _ r false orc1 retry1) as [[st2 e2] orc2] eqn:E.
    intros [= <- <- <-].
    pose proof (after_expiry_keeps st i posted) as K.
    apply (IH _ _ _ _ fl) in E as (popped & -> & W2 & Z2 & _ & S2 & K2 & L2 & O2).
    + exists (i :: popped). split_and!; try done.
      * destruct first.
        -- eapply Forall_impl; [exact Z2|]. intros j. unfold is_zero. by rewrite (proj1 (K j)).
        -- cbn in Ec. bool_to_prop. constructor; [done|].
           eapply Forall_impl; [exact Z2|]. intros j. unfold is_zero. by rewrite (proj1 (K j)).
      * intros t c Ht. rewrite <-(proj1 (K t)). by apply (S2 t c).
      * intros j. destruct (K j) as [<- <-]. apply K2.
      * cbn [map]. rewrite (map_ext _ (tick_of (g_ssv_timer st))) in L2 by (intros; apply K).
        destruct posted; cbn [app]; by constructor.
      * intros Ho. destruct (Horc Ho) as [-> Hp]. destruct (O2 eq_refl) as [-> ->]. split; [|done].
        assert (Hf : filter (postable (g_ssv_timer (after_expiry st i posted))) popped
                     = filter (postable (g_ssv_timer st)) popped).
        { apply list_filter_iff. intros j. unfold postable. by rewrite (proj2 (K j)). }
        rewrite Hf, (map_ext _ (tick_of (g_ssv_timer st))) by (intros; apply K).
        rewrite filter_cons. change (postable (g_ssv_timer st) i) with
          (negb (handler (tget (g_ssv_timer st) i) =? 0) &&
           negb (infombx (tget (g_ssv_timer st) i) =? 0)).
        rewrite <-Hp. by destruct posted.
    + pose proof (wf_after_expiry i r _ _ _ fl posted W) as W'.
      destruct posted; exact W'.
  - intros [= <- <- <-]. apply orb_false_iff in Ec as [-> Ec]. bool_to_prop.
    exists []. cbn_tmr. split_and!; try done. intros t c [= <- <-]. done.
Qed.

(** The store may change in every other way as long as the states stay. *)
Lemma wf_store q fr ex g g' fl :
  timers_wf (mk_timers q fr ex g) fl -> length g' = length g -> rems_u32 g' ->
  (forall j, en_state (tget g' j) = en_state (tget g j)) ->
  timers_wf (mk_timers q fr ex g') fl.
Proof.
  intros [Wl Wp Wu Wc We] Hl Hu Hs. cbn_tmr. split; cbn_tmr; try done.
  - congruence.
  - intros i Hi. rewrite Hs. by apply Wc.
  - intros i Hi. rewrite Hs. by apply We.
Qed.

Lemma same_but_rem_state g g' j : same_but_rem g g' -> en_state (tget g' j) = en_state (tget g j).
Proof. intros [_ H]. by apply en_state_erase. Qed.

Lemma update_all_timer_wf st x orc fl st' ev orc' :
  0 <= x -> timers_wf st fl -> _update_all_timer st x orc = (st', ev, orc') -> timers_wf st' fl.
Proof.
  intros Hx W. unfold _update_all_timer. destruct (tmr_hd st) as [|i r] eqn:Eq.
  - by intros [= <- <- <-].
  - case_test.
    + intros [= <- <- <-]. rewrite <-Eq. destruct st as [q fr ex g]; cbn_tmr.
      pose proof (wf_u32 _ _ W i) as Hi. cbn_tmr.
      apply (wf_store _ _ _ g); [done| | |]; destruct (0 <? x); try done.
      * apply length_insert.
      * apply set_rem_u32; [apply u32_range|apply (wf_u32 _ _ W)].
      * apply (wf_u32 _ _ W).
      * intros j. apply same_but_rem_state, set_rem_same.
    + intros H. rewrite <-Eq in H. eapply expire_loop_spec in H as (? & _ & ? & _); [done|].
      by destruct st.
Qed.

(** [os_create_timer] takes the timer from the free list; it is in flight until
    the timer task handles the message. *)
Lemma os_create_timer_wf st ms h d1 d2 mbx a po fl p r :
  0 <= ms < 4294967296 -> timers_wf st fl -> free_tmr_hd st = p :: r ->
  timers_wf (fst (fst (os_create_timer st ms h d1 d2 mbx a po))) (p :: fl).
Proof.
  intros Hms W Hf. destruct st as [q fr ex g]; cbn_tmr. subst fr.
  pose proof (wf_nodup _ _ W) as Hnd.
  assert (Hl : (p < length g)%nat) by (apply (wf_range _ _ p W); cbn_tmr; set_solver).
  set (t := mk_os_timer MEVT_HOST_TIMER h mbx d1 d2 ms ms (en_state (tget g p))).
  assert (Hst : fst (fst (os_create_timer (mk_timers q (p :: r) ex g) ms h d1 d2 mbx a po))
                = mk_timers q r ex (<[p := t]> g)) by (by destruct a).
  assert (Hs : forall j, en_state (tget (<[p := t]> g) j) = en_state (tget g j)).
  { intros j. destruct (decide (p = j)) as [<-|]; [by rewrite tget_insert_eq|].
    by rewrite tget_insert_ne. }
  rewrite Hst. destruct W as [Wl Wp Wu Wc We]. cbn_tmr. split; cbn_tmr.
  - by rewrite length_insert.
  - rewrite <-Wp. solve_Permutation.
  - intros j. unfold rem. destruct (decide (p = j)) as [<-|]; [by rewrite tget_insert_eq|].
    rewrite tget_insert_ne by done. apply Wu.
  - intros j Hj. rewrite Hs. by apply Wc.
  - intros j Hj. rewrite Hs. by apply We.
Qed.

(** [_update_all_timer] before the first expiry: no event is posted, the list
    is the same, and the time left of every pending timer (the sum of the deltas
    up to it) goes down by exactly the elapsed time. *)
Theorem update_before_expiry st x orc fl i r :
  timers_wf st fl -> tmr_hd st = i :: r -> 0 <= x < rem (g_ssv_timer st) i ->
  exists st', _update_all_timer st x orc = (st', [], orc) /\
    tmr_hd st' = tmr_hd st /\
    forall a b, r = a ++ b ->
      sumZ (rems (g_ssv_timer st') (i :: a)) = sumZ (rems (g_ssv_timer st) (i :: a)) - x.
Proof.
  intros W Hq Hx. destruct st as [q fr ex g]; cbn_tmr. subst q.
  destruct (wf_head_sep _ _ _ _ _ _ W) as (Hi & _ & _ & _ & Hl).
  pose proof (wf_u32 _ _ W i) as Hu. cbn_tmr.
  unfold _update_all_timer. cbn_tmr. rewrite (proj2 (Z.ltb_lt _ _)) by lia.
  eexists. split; [done|]. split; [done|]. cbn_tmr. intros a b ->.
  destruct (Z.ltb_spec 0 x) as [H|H]; [|replace x with 0 by lia; lia].
  cbn [rems map sumZ]. rewrite rem_set_rem_eq, u32_small by (done || lia).
  fold (rems (set_rem g i (rem g i - x)) a) (rems g a).
  rewrite rems_set_rem_ne by set_solver. lia.
Qed.

Definition update_demo : timers :=
  _create_timer (fst (fst (os_create_timer
    (_create_timer (fst (fst (os_create_timer os_timer_init 30 7 1 2 9 true true))) 0)
    50 8 3 4 9 true true))) 1.

Lemma update_demo_wf : timers_wf update_demo [].
Proof.
  unfold update_demo. apply create_timer_wf.
  apply (os_create_timer_wf _ 50 8 3 4 9 true true _ _ (seq 2 22)); [lia| |done].
  apply create_timer_wf.
  by apply (os_create_timer_wf _ 30 7 1 2 9 true true _ _ (seq 1 23)); [lia|apply os_timer_init_wf|].
Qed.

Lemma update_before_expiry_witness :
  exists st', _update_all_timer update_demo 10 [] = (st', [], []) /\
    tmr_hd st' = tmr_hd update_demo /\
    forall a b, [1%nat] = a ++ b ->
      sumZ (rems (g_ssv_timer st') (0%nat :: a)) = sumZ (rems (g_ssv_timer update_demo) (0%nat :: a)) - 10.
Proof.
  apply (update_before_expiry update_demo 10 [] [] 0 [1%nat]); [exact update_demo_wf|done|].
  by vm_compute.
Defined.

(** [_update_all_timer] at or after the first expiry: the first timer and
    the timers that expire with it leave the list, in order; the remaining list
    and its times are untouched; with events available, every expired timer with
    a handler and a mailbox has its event posted, in order of expiry. *)
Theorem update_at_expiry st x orc fl i r st' ev orc' :
  timers_wf st fl -> tmr_hd st = i :: r -> rem (g_ssv_timer st) i <= x ->
  _update_all_timer st x orc = (st', ev, orc') ->
  exists same, r = same ++ tmr_hd st' /\
    Forall (is_zero (g_ssv_timer st)) same /\
    (forall t c, tmr_hd st' = t :: c -> rem (g_ssv_timer st) t <> 0) /\
    (forall j, rem (g_ssv_timer st') j = rem (g_ssv_timer st) j) /\
    sublist ev (map (tick_of (g_ssv_timer st)) (i :: same)) /\
    (orc = [] ->
     ev = map (tick_of (g_ssv_timer st)) (filter (postable (g_ssv_timer st)) (i :: same))).
Proof.
  intros W Hq Hx. unfold _update_all_timer. rewrite Hq, (proj2 (Z.ltb_ge _ _)) by done.
  intros H. eapply (expire_loop_spec _ _ _ _ _ fl) in H; [|rewrite <-Hq; by destruct st].
  destruct H as (popped & Hp & _ & Hz & Hne & Hs & Hk & Hl & Ho).
  destruct popped as [|i' same]; [by destruct Hne|]. cbn in Hp. injection Hp as <- Hr.
  exists same. split_and!; try done.
  - intros j. apply Hk.
  - intros E. by apply Ho.
Qed.

Lemma update_at_expiry_witness :
  let '(st', ev, _) := _update_all_timer update_demo 30 [] in
  tmr_hd st' = [1%nat] /\ ev = [mk_tick 9 12 7 1 2 0] /\
  exists same, [1%nat] = same ++ tmr_hd st' /\ Forall (is_zero (g_ssv_timer update_demo)) same.
Proof.
  destruct (_update_all_timer update_demo 30 []) as [[st' ev] orc'] eqn:E.
  destruct (update_at_expiry update_demo 30 [] [] 0 [1%nat] st' ev orc' update_demo_wf)
    as (same & H1 & H2 & _); [done|by vm_compute|exact E|].
  split_and!; [| |by exists same];
    apply (f_equal fst) in E; [apply (f_equal fst) in E|apply (f_equal snd) in E];
    cbn [fst snd] in E; rewrite <-E; by vm_compute.
Defined.

(** ** [_cancel_timer] *)

(** A timer leaves the pending list for the free list. *)
Lemma wf_move_free q1 t q2 fr ex g g' fl :
  timers_wf (mk_timers (q1 ++ t :: q2) fr ex g) fl ->
  length g' = length g -> rems_u32 g' ->
  (forall j, j <> t -> en_state (tget g' j) = en_state (tget g j)) ->
  timers_wf (mk_timers (q1 ++ q2) (fr ++ [t]) ex g') fl.
Proof.
  intros W Hl Hu Hs. pose proof (wf_nodup _ _ W) as Hnd. cbn_tmr.
  rewrite <-app_assoc in Hnd. cbn [app] in Hnd. apply NoDup_mid in Hnd as (H1 & H2 & _).
  destruct W as [Wl Wp Wu Wc We]. cbn_tmr. split; cbn_tmr; try done.
  - congruence.
  - rewrite <-Wp. solve_Permutation.
  - intros j Hj. rewrite Hs by set_solver. apply Wc. set_solver.
  - intros j Hj. rewrite Hs by set_solver. by apply We.
Qed.

Lemma rem_clear_timer g i j : rem (clear_timer g i) j = rem g j.
Proof.
  unfold rem, clear_timer. destruct (decide (i = j)) as [<-|]; [|by rewrite tget_insert_ne].
  destruct (decide (i < length g)%nat); [by rewrite tget_insert_eq|].
  by rewrite list_insert_ge by lia.
Qed.

Lemma tget_clear_ne g i j : i <> j -> tget (clear_timer g i) j = tget g j.
Proof. intros. unfold clear_timer. by rewrite tget_insert_ne. Qed.

Lemma clear_timer_u32 g i : rems_u32 g -> rems_u32 (clear_timer g i).
Proof. intros H j. rewrite rem_clear_timer. apply H. Qed.

Lemma add_followers_spec l : forall g ms,
  NoDup l -> Forall (fun i => (i < length g)%nat) l -> rems_u32 g ->
  let g' := add_followers g ms l in
  same_but_rem g g' /\ rems_u32 g' /\
  rems g' l = map (fun r => r +u32 ms) (rems g l) /\
  (forall i, i ∉ l -> rem g' i = rem g i).
Proof.
  induction l as [|t r IH]; intros g ms Hnd Hl Hu; [done|]. cbn [add_followers].
  apply NoDup_cons in Hnd as [Ht Hnd]. apply Forall_cons in Hl as [Htl Hl].
  pose proof (set_rem_same g t (rem g t +u32 ms)) as S0.
  destruct (IH (set_rem g t (rem g t +u32 ms)) ms) as (S1 & U1 & R1 & O1); try done.
  - by rewrite (proj1 S0).
  - apply set_rem_u32; [apply u32_range|done].
  - split_and!; [by etrans|done| |].
    + cbn [rems map]. rewrite O1, rem_set_rem_eq by done. f_equal.
      fold (rems (add_followers (set_rem g t (rem g t +u32 ms)) ms r) r). rewrite R1.
      by rewrite rems_set_rem_ne.
    + intros i Hi. rewrite O1 by set_solver. apply rem_set_rem_ne. set_solver.
Qed.

Section cancel.
Context (h d1 d2 : Z).

Definition hit (g : list os_timer) (t : nat) : bool := timer_matches (tget g t) h d1 d2.

Lemma cancel_walk_wf l : forall g seen fr freed ex fl g' q' freed',
  timers_wf (mk_timers (seen ++ l) (fr ++ freed) ex g) fl ->
  cancel_walk g h d1 d2 seen l freed = (g', q', freed') ->
  timers_wf (mk_timers q' (fr ++ freed') ex g') fl.
Proof.
  induction l as [|t r IH]; intros g seen fr freed ex fl g' q' freed' W; cbn [cancel_walk].
  { intros [= <- <- <-]. by rewrite app_nil_r in W. }
  destruct (timer_matches (tget g t) h d1 d2); [destruct (0 <? rem g t)|].
  - intros [= <- <- <-]. pose proof (wf_nodup _ _ W) as Hnd. cbn_tmr.
    destruct (add_followers_spec r (clear_timer g t) (rem g t)) as (S1 & U1 & _).
    + apply NoDup_app in Hnd as (Hnd & _ & _). apply NoDup_app in Hnd as (_ & _ & Hnd).
      by apply NoDup_cons in Hnd as [_ ?].
    + apply Forall_forall. intros i Hi. unfold clear_timer. rewrite length_insert.
      apply (wf_range _ _ i W). cbn_tmr. set_solver.
    + apply clear_timer_u32, (wf_u32 _ _ W).
    + rewrite app_assoc. apply (wf_move_free seen t r _ _ g); try done.
      * rewrite (proj1 S1). apply length_insert.
      * intros j Hj. by rewrite (same_but_rem_state _ _ j S1), tget_clear_ne.
  - apply IH. rewrite app_assoc. apply (wf_move_free seen t r _ _ g); try done.
    + apply length_insert.
    + apply clear_timer_u32, (wf_u32 _ _ W).
    + intros j Hj. by rewrite tget_clear_ne.
  - apply IH. by rewrite <-app_assoc.
Qed.

Lemma cancel_expired_spec l : forall g,
  Forall (fun i => (i < length g)%nat) l ->
  let g' := cancel_expired g h d1 d2 l in
  length g' = length g /\ (forall j, rem g' j = rem g j) /\
  (forall j, j ∉ l -> tget g' j = tget g j) /\
  (forall j, hit g' j = hit g j) /\
  (forall j, j ∈ l -> hit g j = true -> en_state (tget g' j) = EN_TMR_CANCEL) /\
  (forall j, hit g j = false -> tget g' j = tget g j).
Proof.
  induction l as [|t r IH]; intros g Hl; [cbn; split_and!; set_solver|].
  apply Forall_cons in Hl as [Ht Hl]. cbn [cancel_expired].
  set (g1 := if timer_matches _ _ _ _ then _ else g).
  assert (H1 : length g1 = length g /\ (forall j, rem g1 j = rem g j) /\
    (forall j, hit g1 j = hit g j) /\ (forall j, j <> t -> tget g1 j = tget g j) /\
    (hit g t = true -> en_state (tget g1 t) = EN_TMR_CANCEL) /\ (hit g t = false -> g1 = g)).
  { unfold g1, hit. destruct (timer_matches (tget g t) h d1 d2) eqn:E; [|split_and!; done].
    split_and!; try done.
    - apply length_set_state.
    - apply rem_set_state.
    - intros j. destruct (decide (t = j)) as [<-|]; [|by rewrite tget_set_state_ne].
      unfold set_state. by rewrite tget_insert_eq.
    - intros j Hj. by rewrite tget_set_state_ne.
    - intros _. by apply tget_set_state_eq. }
  destruct H1 as (L1 & R1 & M1 & N1 & T1 & F1).
  destruct (IH g1) as (L2 & R2 & N2 & M2 & C2 & F2); [by rewrite L1|].
  split_and!.
  - congruence.
  - intros j. by rewrite R2.
  - intros j Hj. rewrite N2, N1 by set_solver. done.
  - intros j. by rewrite M2.
  - intros j Hj Hh. destruct (decide (j ∈ r)) as [Hr|Hr].
    + apply C2; [done|]. by rewrite M1.
    + rewrite N2 by done. assert (j = t) as -> by set_solver. by apply T1.
  - intros j Hj. rewrite F2 by (by rewrite M1). destruct (decide (j = t)) as [->|]; [|by apply N1].
    by rewrite F1.
Qed.

Lemma cancel_timer_wf st fl : timers_wf st fl -> timers_wf (_cancel_timer st h d1 d2) fl.
Proof.
  intros W. unfold _cancel_timer.
  destruct (cancel_walk _ h d1 d2 [] (tmr_hd st) []) as [[g1 q1] freed] eqn:E.
  apply (cancel_walk_wf _ _ _ (free_tmr_hd st) _ (expired_tmr_hd st) fl) in E as W1;
    [|rewrite app_nil_r; by destruct st].
  pose proof (wf_nodup _ _ W1) as Hnd. cbn_tmr.
  destruct (cancel_expired_spec (expired_tmr_hd st) g1) as (L2 & R2 & N2 & M2 & C2 & F2).
  { apply Forall_forall. intros i Hi. apply (wf_range _ _ i W1). cbn_tmr. set_solver. }
  destruct W1 as [Wl Wp Wu Wc We]. cbn_tmr. split; cbn_tmr; try done.
  - congruence.
  - intros j. rewrite R2. apply Wu.
  - intros j Hj. rewrite N2; [by apply Wc|]. intros Hx.
    apply NoDup_app in Hnd as (_ & Hd & _). apply (Hd j Hj). set_solver.
  - intros j Hj. destruct (hit g1 j) eqn:Eh; [right; by apply C2|]. rewrite F2 by done. by apply We.
Qed.

Lemma cancel_walk_spec l : forall g seen freed g' q' freed',
  NoDup l -> Forall (fun i => (i < length g)%nat) l -> rems_u32 g ->
  cancel_walk g h d1 d2 seen l freed = (g', q', freed') ->
  exists a c, l = a ++ c /\
    Forall (fun t => hit g t = true -> rem g t = 0) a /\
    (forall j, j ∉ l -> tget g' j = tget g j) /\
    ((c = [] /\ q' = seen ++ filter (fun t => hit g t = false) a /\
      (forall j, rem g' j = rem g j)) \/
     (exists t b, c = t :: b /\ hit g t = true /\ 0 < rem g t /\
        q' = seen ++ filter (fun t => hit g t = false) a ++ b /\
        rems g' b = map (fun r => r +u32 rem g t) (rems g b) /\
        (forall j, j ∉ b -> rem g' j = rem g j))).
Proof.
  induction l as [|t r IH]; intros g seen freed g' q' freed' Hnd Hl Hu; cbn [cancel_walk].
  { intros [= <- <- <-]. exists [], []. split_and!; try done. left. by rewrite app_nil_r. }
  apply NoDup_cons in Hnd as [Ht Hnd]. apply Forall_cons in Hl as [Htl Hl].
  destruct (timer_matches (tget g t) h d1 d2) eqn:Eh;
    [destruct (Z.ltb_spec 0 (rem g t)) as [Hpos|Hz]|].
  - intros [= <- <- <-].
    destruct (add_followers_spec r (clear_timer g t) (rem g t)) as ([S1 S2] & U1 & R1 & O1); try done.
    { unfold clear_timer. by rewrite length_insert. }
    { by apply clear_timer_u32. }
    exists [], (t :: r). split_and!; try done.
    + intros j Hj. rewrite not_elem_of_cons in Hj. destruct Hj as [Hjt Hjr].
      rewrite <-(tget_clear_ne g t j) by done.
      apply timer_eq; [apply S2|by apply O1].
    + right. exists t, r. split_and!; try done.
      * rewrite R1. f_equal. apply map_ext. intros j. apply rem_clear_timer.
      * intros j Hj. rewrite O1 by done. apply rem_clear_timer.
  - intros E.
    assert (Hhit : forall j, j ∈ r -> hit (clear_timer g t) j = hit g j)
      by (intros j Hj; unfold hit; rewrite tget_clear_ne; [done|set_solver]).
    apply IH in E as (a & c & -> & Ha & Hn & Hc); try done;
      [|by unfold clear_timer; rewrite length_insert|by apply clear_timer_u32].
    exists (t :: a), c. rewrite filter_cons_False by (unfold hit; rewrite Eh; done).
    assert (Hfa : filter (fun t0 => hit (clear_timer g t) t0 = false) a
                  = filter (fun t0 => hit g t0 = false) a).
    { apply filter_ext_in. intros j Hj. rewrite Hhit by set_solver. done. }
    rewrite Hfa in Hc. split_and!; [done| | |].
    + constructor; [intros _; pose proof (Hu t); lia|].
      rewrite Forall_forall in Ha |- *. intros j Hj Hj'. rewrite <-(rem_clear_timer g t j).
      apply Ha; [done|]. by rewrite Hhit by set_solver.
    + intros j Hj. rewrite Hn by set_solver. apply tget_clear_ne. set_solver.
    + destruct Hc as [(-> & -> & Hr)|(t' & b & -> & Hh & Hp & -> & Hr & Ho)].
      * left. split_and!; try done. intros j. rewrite Hr. apply rem_clear_timer.
      * right. exists t', b. rewrite rem_clear_timer in Hp, Hr. rewrite Hhit in Hh by set_solver.
        split_and!; try done.
        -- rewrite Hr. f_equal. apply map_ext. intros j. apply rem_clear_timer.
        -- intros j Hj. rewrite Ho by done. apply rem_clear_timer.
  - intros E. apply IH in E as (a & c & -> & Ha & Hn & Hc); try done.
    exists (t :: a), c. rewrite filter_cons_True by done. rewrite <-app_assoc in Hc.
    split_and!; try done.
    + constructor; [|done]. unfold hit. by rewrite Eh.
    + intros j Hj. apply Hn. set_solver.
    + destruct Hc as [(-> & -> & Hr)|(t' & b & -> & Hh & Hp & -> & Hr & Ho)].
      * left. by split_and!.
      * right. exists t', b. rewrite <-app_assoc. by split_and!.
Qed.

End cancel.

Lemma filter_all_false {A} (P : A -> bool) (l : list A) :
  (forall x, x ∈ l -> P x = false) -> filter (fun x => P x = false) l = l.
Proof.
  induction l as [|x l IH]; intros H; [done|].
  rewrite filter_cons_True by (apply H; set_solver). f_equal. apply IH. set_solver.
Qed.

Lemma app_mid_unique {A} (P : A -> Prop) (a : list A) t b a' t' b' :
  a ++ t :: b = a' ++ t' :: b' -> P t -> P t' ->
  (forall x, x ∈ a ++ b -> ~ P x) -> a = a' /\ t = t' /\ b = b'.
Proof.
  revert a'. induction a as [|x a IH]; intros [|x' a'] E Ht Ht' Hn; cbn in E;
    injection E as -> E; try done.
  - subst b. exfalso. apply (Hn t'); [set_solver|done].
  - exfalso. apply (Hn t'); [set_solver|done].
  - destruct (IH a') as (-> & -> & ->); try done. set_solver.
Qed.

Lemma rems_ext g g' l : (forall j, rem g' j = rem g j) -> rems g' l = rems g l.
Proof. intros H. apply map_ext. exact H. Qed.

(** The whole of [_cancel_timer]: [c] starts at the first match with time left. *)
Lemma cancel_timer_spec st fl h d1 d2 :
  timers_wf st fl ->
  let st' := _cancel_timer st h d1 d2 in
  let g := g_ssv_timer st in let g' := g_ssv_timer st' in
  (forall x, x ∈ expired_tmr_hd st -> hit h d1 d2 g x = true ->
     en_state (tget g' x) = EN_TMR_CANCEL) /\
  exists a c, tmr_hd st = a ++ c /\
    Forall (fun t => hit h d1 d2 g t = true -> rem g t = 0) a /\
    ((c = [] /\ tmr_hd st' = filter (fun t => hit h d1 d2 g t = false) a /\
      (forall j, rem g' j = rem g j)) \/
     (exists t b, c = t :: b /\ hit h d1 d2 g t = true /\ 0 < rem g t /\
        tmr_hd st' = filter (fun t => hit h d1 d2 g t = false) a ++ b /\
        rems g' b = map (fun r => r +u32 rem g t) (rems g b) /\
        (forall j, j ∉ b -> rem g' j = rem g j))).
Proof.
  intros W. pose proof (wf_nodup _ _ W) as Hnd. pose proof (wf_u32 _ _ W) as Hu.
  cbn zeta. unfold _cancel_timer.
  destruct (cancel_walk _ h d1 d2 [] (tmr_hd st) []) as [[g1 q1] freed] eqn:E. cbn_tmr.
  assert (Hlen : length g1 = length (g_ssv_timer st)).
  { apply (cancel_walk_wf _ _ _ _ _ _ (free_tmr_hd st) _ (expired_tmr_hd st) fl) in E as W1;
      [|rewrite app_nil_r; by destruct st].
    rewrite (wf_len _ _ W). apply (wf_len _ _ W1). }
  destruct (cancel_expired_spec h d1 d2 (expired_tmr_hd st) g1) as (_ & R2 & _ & M2 & C2 & _).
  { apply Forall_forall. intros i Hi. rewrite Hlen. apply (wf_range _ _ i W). set_solver. }
  apply NoDup_app in Hnd as (Hndq & Hdq & _).
  apply cancel_walk_spec in E as (a' & c' & Hl & Ha' & Hsame & Hc); try done;
    [|apply Forall_forall; intros i Hi; apply (wf_range _ _ i W); set_solver].
  split.
  - intros x Hx Hh. apply C2; [done|]. unfold hit. rewrite Hsame; [done|].
    intros Hin. apply (Hdq x Hin). set_solver.
  - exists a', c'. split_and!; [done..|].
    destruct Hc as [(-> & -> & Hr)|(t' & b' & -> & Hh & Hp & -> & Hr & Ho)].
    + left. split_and!; [done..|]. intros j. by rewrite R2.
    + right. exists t', b'. rewrite (rems_ext g1) by done. split_and!; try done.
      intros j Hj. rewrite R2. by apply Ho.
Qed.

(** [_cancel_timer] of a timer that is pending once: exactly that timer leaves
    the list, the timers before it keep their times, the timer after it
    keeps its expiry time, and every matching timer that has already been posted
    is marked so that its handler will not run. *)
Theorem cancel_timer_removes st fl h d1 d2 a t b :
  timers_wf st fl -> tmr_hd st = a ++ t :: b ->
  hit h d1 d2 (g_ssv_timer st) t = true ->
  (forall x, x ∈ a ++ b -> hit h d1 d2 (g_ssv_timer st) x = false) ->
  let st' := _cancel_timer st h d1 d2 in
  let g := g_ssv_timer st in let g' := g_ssv_timer st' in
  tmr_hd st' = a ++ b /\ rems g' a = rems g a /\
  (forall x c, b = x :: c -> rem g t + rem g x < 4294967296 ->
     sumZ (rems g' (a ++ [x])) = sumZ (rems g (a ++ [t; x]))) /\
  (forall x, x ∈ expired_tmr_hd st -> hit h d1 d2 g x = true ->
     en_state (tget g' x) = EN_TMR_CANCEL).
Proof.
  intros W Hq Ht Hn. pose proof (wf_nodup _ _ W) as Hnd. pose proof (wf_u32 _ _ W) as Hu.
  destruct (cancel_timer_spec st fl h d1 d2 W) as (Hx & a' & c' & Hl & Ha' & Hc). cbn zeta in *.
  rewrite Hq in Hl, Hnd. apply NoDup_app in Hnd as (Hndq & _ & _).
  apply NoDup_mid in Hndq as (_ & _ & Hab). apply NoDup_app in Hab as (_ & Hab & _).
  destruct Hc as [(-> & -> & Hr)|(t' & b' & -> & Hh & Hp & -> & Hr & Ho)].
  - rewrite app_nil_r in Hl. subst a'.
    assert (Hz : rem (g_ssv_timer st) t = 0).
    { rewrite Forall_forall in Ha'. apply Ha'; [set_solver|done]. }
    rewrite filter_app, filter_cons_False by (by rewrite Ht).
    rewrite <-filter_app, filter_all_false by done.
    split_and!; try done; [by apply rems_ext|].
    intros x c -> Hov. rewrite (rems_ext (g_ssv_timer st)), !rems_app, !sumZ_app by done.
    cbn. lia.
  - destruct (app_mid_unique (fun x => hit h d1 d2 (g_ssv_timer st) x = true) a t b a' t' b')
      as (<- & <- & <-); try done.
    { intros x Hx'. by rewrite Hn. }
    rewrite filter_all_false by (intros x Hx'; apply Hn; set_solver).
    assert (Hra : rems (g_ssv_timer (_cancel_timer st h d1 d2)) a = rems (g_ssv_timer st) a).
    { apply map_ext_in. intros j Hj%list_elem_of_In. apply Ho. by apply Hab. }
    split_and!; try done. intros x c -> Hov. cbn [rems map] in Hr. injection Hr as Hr _.
    rewrite !rems_app, !sumZ_app, Hra. cbn [rems map sumZ]. rewrite Hr, u32_small; [lia|].
    pose proof (Hu x). lia.
Qed.

Lemma cancel_timer_removes_witness :
  tmr_hd (_cancel_timer update_demo 7 1 2) = [1%nat] /\
  rem (g_ssv_timer (_cancel_timer update_demo 7 1 2)) 1 = 50.
Proof.
  destruct (cancel_timer_removes update_demo [] 7 1 2 [] 0 [1%nat]) as (H1 & _ & H2 & _).
  - exact update_demo_wf.
  - done.
  - done.
  - intros x Hx%list_elem_of_singleton. subst x. done.
  - split; [exact H1|]. specialize (H2 1%nat [] eq_refl).
    assert (Hs : rem (g_ssv_timer update_demo) 0 + rem (g_ssv_timer update_demo) 1 = 50)
      by (by vm_compute).
    rewrite Hs in H2. cbn [app rems map sumZ] in H2.
    rewrite Z.add_0_r in H2. rewrite H2 by done. by vm_compute.
Defined.

(** ** [_free_timer] *)

Lemma free_walk_mono p l : forall g seen freed g' x' freed' x,
  free_walk g p seen l freed = (g', x', freed') -> x ∈ freed -> x ∈ freed'.
Proof.
  induction l as [|u l IH]; intros g seen freed g' x' freed' x E Hx; cbn in E.
  - by simplify_eq.
  - destruct (Nat.eqb u p); eapply IH; (eassumption || set_solver).
Qed.

(** An expired timer goes back to the free list. *)
Lemma free_walk_wf p l : forall g seen fr freed q fl g' x' freed',
  timers_wf (mk_timers q (fr ++ freed) (seen ++ l) g) fl ->
  free_walk g p seen l freed = (g', x', freed') ->
  timers_wf (mk_timers q (fr ++ freed') x' g') fl /\
  (p ∉ seen -> p ∉ x') /\ (p ∈ l -> p ∈ freed').
Proof.
  induction l as [|t r IH]; intros g seen fr freed q fl g' x' freed' W; cbn [free_walk].
  { intros [= <- <- <-]. rewrite app_nil_r in W. split_and!; [done..|set_solver]. }
  destruct (Nat.eqb_spec t p) as [->|Hne].
  - intros E. pose proof (wf_nodup _ _ W) as Hnd. cbn_tmr.
    assert (Hp : p ∉ q /\ p ∉ seen /\ p ∉ r).
    { assert (Hperm : q ++ (fr ++ freed) ++ (seen ++ p :: r) ++ fl
                      ≡ₚ p :: q ++ seen ++ r ++ fr ++ freed ++ fl) by solve_Permutation.
      rewrite Hperm in Hnd. apply NoDup_cons in Hnd as [Hnd _]. clear Hperm. set_solver. }
    destruct Hp as (H1 & H2 & H3).
    pose proof E as E0. apply (IH _ _ fr _ q fl) in E as (? & Hs & _).
    + split_and!; try done. intros _.
      eapply free_walk_mono; [exact E0|set_solver].
    + destruct W as [Wl Wp Wu Wc We]. cbn_tmr. split; cbn_tmr.
      * unfold clear_timer. by rewrite length_insert.
      * rewrite <-Wp. solve_Permutation.
      * by apply clear_timer_u32.
      * intros j Hj. rewrite tget_clear_ne by set_solver. by apply Wc.
      * intros j Hj. rewrite tget_clear_ne by set_solver. apply We. set_solver.
  - intros E. apply (IH _ _ fr _ q fl) in E as (? & Hs & Hf); [|by rewrite <-app_assoc].
    split_and!; [done| |set_solver]. intros Hp. apply Hs. set_solver.
Qed.

Lemma free_timer_wf st p fl :
  timers_wf st fl -> timers_wf (_free_timer st p) fl /\ p ∉ expired_tmr_hd (_free_timer st p) /\
    (p ∈ expired_tmr_hd st -> p ∈ free_tmr_hd (_free_timer st p)).
Proof.
  intros W. unfold _free_timer.
  destruct (free_walk _ p [] (expired_tmr_hd st) []) as [[g1 x1] freed] eqn:E.
  apply (free_walk_wf p _ _ [] (free_tmr_hd st) _ (tmr_hd st) fl) in E as (W1 & H1 & H2);
    [|rewrite app_nil_r; by destruct st].
  cbn_tmr. split_and!; [done|set_solver|set_solver].
Qed.

(** ** The timer system: clients, the mailbox of the timer task, the task

    A client call posts a message at the end of the mailbox; a round of
    the task takes the message at its head, or times out. *)

Definition creates (mb : list tmr_msg) : list nat :=
  omap (fun m => match m with TMR_EVT_CREATE p => Some p | _ => None end) mb.

Inductive tmr_step : timers * list tmr_msg -> timers * list tmr_msg -> Prop :=
| step_create st mb ms h d1 d2 mbx a po st' r msgs :
    0 <= ms < 4294967296 ->
    os_create_timer st ms h d1 d2 mbx a po = (st', r, msgs) ->
    tmr_step (st, mb) (st', mb ++ msgs)
| step_cancel st mb h d1 d2 a po :
    tmr_step (st, mb) (st, mb ++ snd (os_cancel_timer h d1 d2 a po))
| step_expired st mb ev a po :
    tmr_step (st, mb) (st, mb ++ snd (os_timer_expired st ev a po))
| step_msg st mb m waited handling orc st' ev orc' :
    0 <= waited -> 0 <= handling ->
    SSV_Timer_Task_round st (mk_round (Some m) waited handling) orc = (st', ev, orc') ->
    tmr_step (st, m :: mb) (st', mb)
| step_timeout st mb handling orc st' ev orc' :
    0 <= handling ->
    SSV_Timer_Task_round st (mk_round None 0 handling) orc = (st', ev, orc') ->
    tmr_step (st, mb) (st', mb).

Definition tmr_inv (s : timers * list tmr_msg) : Prop :=
  exists lost, timers_wf (fst s) (creates (snd s) ++ lost).

Lemma handle_tmr_msg_wf st m mb lost :
  timers_wf st (creates (m :: mb) ++ lost) ->
  timers_wf (handle_tmr_msg st m) (creates mb ++ lost).
Proof.
  destruct m; cbn [handle_tmr_msg]; intros W.
  - by apply create_timer_wf.
  - by apply cancel_timer_wf.
  - by apply free_timer_wf.
  - done.
Qed.

Lemma wf_perm st fl fl' : fl ≡ₚ fl' -> timers_wf st fl -> timers_wf st fl'.
Proof. intros Hp [Wl Wp Wu Wc We]. split; try done. by rewrite <-Hp. Qed.

Lemma round_wf st m waited handling orc st' ev orc' mb lost :
  0 <= waited -> 0 <= handling ->
  timers_wf st (creates (option_list m ++ mb) ++ lost) ->
  SSV_Timer_Task_round st (mk_round m waited handling) orc = (st', ev, orc') ->
  timers_wf st' (creates mb ++ lost).
Proof.
  intros Hw Hh W. unfold SSV_Timer_Task_round. cbn [rd_msg rd_waited rd_handling].
  set (x := match tmr_hd st with [] => 0 | _ => _ end).
  assert (Hx : 0 <= x).
  { unfold x. destruct (tmr_hd st) as [|c ?]; [lia|]. destruct m; [lia|]. apply (wf_u32 _ _ W). }
  destruct (_update_all_timer st x orc) as [[st1 e1] orc1] eqn:E1.
  apply (update_all_timer_wf _ _ _ _ _ _ _ Hx W) in E1 as W1.
  destruct (_update_all_timer _ handling orc1) as [[st3 e3] orc3] eqn:E3.
  intros [= <- <- <-]. eapply update_all_timer_wf in E3; [done|done|].
  destruct m as [m|]; [by apply handle_tmr_msg_wf|done].
Qed.

Lemma creates_app a b : creates (a ++ b) = creates a ++ creates b.
Proof. apply omap_app. Qed.

Lemma tmr_step_inv s s' : tmr_step s s' -> tmr_inv s -> tmr_inv s'.
Proof.
  destruct 1 as [st mb ms h d1 d2 mbx a po st' r msgs Hms E|st mb h d1 d2 a po|st mb e a po
    |st mb m wt hd orc st' ev orc' Hw Hh E|st mb hd orc st' ev orc' Hh E];
    intros [lost W]; cbn [fst snd] in W; unfold tmr_inv; cbn [fst snd].
  - destruct (free_tmr_hd st) as [|p fr] eqn:Ef.
    + unfold os_create_timer in E. rewrite Ef in E. simplify_eq. rewrite app_nil_r. by exists lost.
    + pose proof (os_create_timer_wf st ms h d1 d2 mbx a po _ p fr Hms W Ef) as W1.
      unfold os_create_timer in E, W1. rewrite Ef in E, W1. rewrite creates_app.
      destruct a, po; simplify_eq.
      1: exists lost.
      2-4: exists (p :: lost).
      all: eapply wf_perm; [|exact W1]; cbn; solve_Permutation.
  - exists lost. rewrite creates_app. by destruct a, po; cbn; rewrite app_nil_r.
  - exists lost. rewrite creates_app. by destruct a, po; cbn; rewrite app_nil_r.
  - exists lost. eapply (round_wf _ (Some m)); [| | |exact E]; [done|done|exact W].
  - exists lost. eapply (round_wf _ None); [| | |exact E]; [lia|done|exact W].
Qed.

(** C29: in every state reachable from [os_timer_init] by client calls and task
    rounds, no timer is linked twice: each of the [SSV_TMR_MAX] timers is in at
    most one of the three lists and the pending creation messages, a pending
    timer is counting down, an expired one is posted or cancelled. *)
Theorem timers_reachable_wf s :
  rtc tmr_step (os_timer_init, []) s -> tmr_inv s.
Proof.
  intros H. assert (Hi : tmr_inv (os_timer_init, [])) by (exists []; apply os_timer_init_wf).
  revert Hi. induction H as [|s1 s2 s3 Hs _ IH]; [done|]. intros Hi. apply IH.
  by eapply tmr_step_inv.
Qed.

Lemma timers_reachable_wf_witness :
  tmr_inv (fst (fst (os_create_timer os_timer_init 30 7 1 2 9 true true)), [TMR_EVT_CREATE 0]).
Proof.
  apply timers_reachable_wf. eapply rtc_l; [|apply rtc_refl].
  apply (step_create os_timer_init [] 30 7 1 2 9 true true _ OS_SUCCESS [TMR_EVT_CREATE 0]); [lia|done].
Defined.

(** a quiet round of [SSV_Timer_Task]: when no message arrives before the
    first pending timer runs out, that timer, if it has a handler and a mailbox,
    leaves the pending list and its event is the first one posted. *)
Theorem quiet_round_fires st fl i r st' ev orc' :
  timers_wf st fl -> tmr_hd st = i :: r -> postable (g_ssv_timer st) i = true ->
  SSV_Timer_Task_round st (mk_round None 0 0) [] = (st', ev, orc') ->
  i ∉ tmr_hd st' /\ exists ev', ev = tick_of (g_ssv_timer st) i :: ev'.
Proof.
  intros W Hq Hp. unfold SSV_Timer_Task_round. cbn [rd_msg rd_waited rd_handling]. rewrite Hq.
  destruct (_update_all_timer st _ []) as [[st1 e1] orc1] eqn:E1.
  destruct (_update_all_timer st1 0 orc1) as [[st3 e3] orc3] eqn:E3.
  intros [= <- <- <-].
  apply (update_all_timer_wf _ _ _ fl) in E1 as W1; [|apply (wf_u32 _ _ W)|done].
  unfold _update_all_timer in E1. rewrite Hq, Z.ltb_irrefl in E1.
  eapply (expire_loop_spec _ _ _ _ _ fl) in E1; [|rewrite <-Hq; by destruct st].
  destruct E1 as (popped & Hpop & _ & _ & Hne & _ & _ & _ & Ho).
  destruct popped as [|i' same]; [by destruct Hne|]. cbn in Hpop. injection Hpop as <- Hr.
  pose proof (wf_nodup _ _ W) as Hnd. rewrite Hq, Hr in Hnd.
  assert (Hi : i ∉ tmr_hd st1) by (cbn in Hnd; apply NoDup_cons in Hnd as [? _]; set_solver).
  split.
  - unfold _update_all_timer in E3. destruct (tmr_hd st1) as [|t c] eqn:Et.
    + simplify_eq. by rewrite Et.
    + case_test; [by simplify_eq|].
      eapply (expire_loop_spec _ _ _ _ _ fl) in E3; [|rewrite <-Et; by destruct st1].
      destruct E3 as (p2 & Hp2 & _). rewrite Hp2 in Hi. set_solver.
  - destruct (Ho eq_refl) as [-> _]. rewrite filter_cons_True by (by rewrite Hp).
    cbn [map app]. by eexists.
Qed.

Lemma quiet_round_fires_witness :
  exists st' ev orc', SSV_Timer_Task_round update_demo (mk_round None 0 0) [] = (st', ev, orc') /\
    0%nat ∉ tmr_hd st' /\ exists ev', ev = mk_tick 9 12 7 1 2 0 :: ev'.
Proof.
  destruct (SSV_Timer_Task_round update_demo (mk_round None 0 0) []) as [[st' ev] orc'] eqn:E.
  exists st', ev, orc'. split; [done|].
  exact (quiet_round_fires update_demo [] 0 [1%nat] st' ev orc' update_demo_wf eq_refl eq_refl E).
Defined.

(** [os_timer_expired] calls the handler with the data given at creation
    exactly for a timer still marked as posted; a timer cancelled while its event
    was on the way does not run; in both cases the timer is given back. *)
Theorem timer_expired_respects_cancel st fl i h d1 d2 :
  timers_wf st fl -> i ∈ expired_tmr_hd st ->
  en_state (tget (g_ssv_timer st) i) = EN_TMR_TICK_POST ->
  let ev := tick_of (g_ssv_timer st) i in
  os_timer_expired st ev true true
    = (Some (te_MsgData ev, te_MsgData1 ev, te_MsgData2 ev), [TMR_EVT_FREE i]) /\
  (hit h d1 d2 (g_ssv_timer st) i = true ->
   os_timer_expired (_cancel_timer st h d1 d2) ev true true = (None, [TMR_EVT_FREE i])) /\
  i ∈ free_tmr_hd (_free_timer st i).
Proof.
  intros W Hi Hs. cbn zeta. unfold os_timer_expired. cbn [te_MsgData3 tick_of]. split_and!.
  - by rewrite Hs.
  - intros Hh. destruct (cancel_timer_spec st fl h d1 d2 W) as [Hc _].
    cbn zeta in Hc. by rewrite Hc.
  - by apply (free_timer_wf st i fl W).
Qed.

Definition expired_demo : timers := fst (fst (_update_all_timer update_demo 30 [])).

Lemma timer_expired_respects_cancel_witness :
  os_timer_expired expired_demo (mk_tick 9 12 7 1 2 0) true true
    = (Some (7, 1, 2), [TMR_EVT_FREE 0]) /\
  os_timer_expired (_cancel_timer expired_demo 7 1 2) (mk_tick 9 12 7 1 2 0) true true
    = (None, [TMR_EVT_FREE 0]).
Proof.
  assert (W : timers_wf expired_demo []).
  { unfold expired_demo. destruct (_update_all_timer update_demo 30 []) as [[st' ev] o] eqn:E.
    apply (update_all_timer_wf _ _ _ _ _ _ _ (ltac:(lia) : 0 <= 30) update_demo_wf E). }
  destruct (timer_expired_respects_cancel expired_demo [] 0 7 1 2 W) as (H1 & H2 & _).
  - change (0%nat ∈ [0%nat]). set_solver.
  - by vm_compute.
  - split; [exact H1|]. exact (H2 eq_refl).
Defined.

(** ** What the code does not keep *)

Definition three_timers (x y z w : Z) : timers :=
  mk_timers [0; 1; 2]%nat (seq 4 20) []
    (map (fun r => mk_os_timer MEVT_HOST_TIMER 1 1 0 0 r r EN_TMR_CNT_DWN) [x; y; z; w]
     ++ replicate 20 zero_timer).

(** inserting a timer before several others takes its delay from each of them,
    so that every timer after the next one expires early: with expiries at 10, 20
    and 30 ms, a new 5 ms timer moves the last two to 15 and 20 ms. *)
Theorem create_timer_shortens_followers :
  let st := three_timers 10 10 10 5 in
  let st' := _create_timer st 3 in
  tmr_hd st' = [3; 0; 1; 2]%nat /\
  sumZ (rems (g_ssv_timer st) [0; 1; 2]%nat) = 30 /\
  sumZ (rems (g_ssv_timer st') [3; 0; 1; 2]%nat) = 20.
Proof. by vm_compute. Qed.

(** Failed creations. *)
Fixpoint create_failures (n : nat) (st : timers) : timers :=
  match n with
  | O => st
  | S n => create_failures n (fst (fst (os_create_timer st 10 1 0 0 1 false true)))
  end.

(** [os_create_timer] never gives a timer back when the event allocation
    fails: each failure shortens the free list by one, and after [SSV_TMR_MAX]
    failures no timer can be created even when events are available again. *)
Theorem create_failure_leaks :
  (forall n, length (free_tmr_hd (create_failures n os_timer_init)) = (SSV_TMR_MAX - n)%nat) /\
  forall ms h d1 d2 mbx,
    os_create_timer (create_failures SSV_TMR_MAX os_timer_init) ms h d1 d2 mbx true true
    = (create_failures SSV_TMR_MAX os_timer_init, OS_FAILED, []).
Proof.
  split.
  2: { intros. unfold os_create_timer.
       assert (Hf : free_tmr_hd (create_failures SSV_TMR_MAX os_timer_init) = [])
         by (vm_compute; reflexivity).
       by rewrite Hf. }
  enough (H : forall n st, length (free_tmr_hd (create_failures n st))
    = (length (free_tmr_hd st) - n)%nat) by (intros n; apply H).
  induction n as [|n IH]; intros st; cbn [create_failures]; [lia|].
  rewrite IH. unfold os_create_timer. destruct (free_tmr_hd st) as [|p r] eqn:Ef.
  - cbn [fst]. rewrite Ef. done.
  - cbn. lia.
Qed.

Lemma create_timer_deadlines_witness :
  tmr_hd (_create_timer (fst (fst (os_create_timer update_demo 40 9 5 6 9 true true))) 2)
    = [0; 2; 1]%nat /\
  exists a b, [0; 1]%nat = a ++ b /\
    tmr_hd (_create_timer (fst (fst (os_create_timer update_demo 40 9 5 6 9 true true))) 2)
      = a ++ 2%nat :: b.
Proof.
  destruct (create_timer_deadlines (fst (fst (os_create_timer update_demo 40 9 5 6 9 true true)))
    2 []) as (a & b & H1 & H2 & _).
  - apply (os_create_timer_wf update_demo 40 9 5 6 9 true true [] 2 (seq 3 21));
      [lia|exact update_demo_wf|done].
  - split; [by vm_compute|]. exists a, b. split; [exact H1|exact H2].
Defined.
