(* ===== verification/MsgEvt.v ===== *)
(** * MsgEvt: the message-event pool of [lib/apps/msgevt.c]

    Events are structs of one array from [OS_MemAlloc]; the free ones form a
    singly linked list threaded through their own [MsgData] field, whose head is
    [sg_msgevt_free_list].  The model keeps that representation: memory is a map
    from addresses to event structs, and an access to an address that holds no
    event is a fault ([None]).

    The abstract pool is a list of free events and a list of the events handed
    out; [evt_pool_refines] shows that the pointer code implements it for every
    sequence of calls of clients that only touch events they hold. *)

From stdpp Require Import base list gmap.
From Stdlib Require Import ZArith Lia.
From S2P Require Import Prelude.

(** ** Data *)

Record MsgEvent : Type := mk_MsgEvent {
  MsgType : Z;
  MsgData : Z;
  MsgData1 : Z;
  MsgData2 : Z;
  MsgData3 : Z
}.

Definition sizeof_MsgEvent : Z := 20.
Definition MSG_EVT_MIN : Z := 48.

Record evt_pool : Type := mk_evt_pool {
  evts : gmap Z MsgEvent;
  sg_msgevt_free_list : Z;
  g_free_msgevt_cnt : Z
}.

(** A call returns ([Ret]), stops in [halt()] ([Halt]) or accesses memory that
    holds no event ([Fault]). *)
Inductive outcome (A : Type) : Type :=
| Ret (a : A)
| Halt
| Fault.
Arguments Ret {A} a.
Arguments Halt {A}.
Arguments Fault {A}.

Definition set_MsgData (e : MsgEvent) (v : Z) : MsgEvent :=
  mk_MsgEvent (MsgType e) v (MsgData1 e) (MsgData2 e) (MsgData3 e).

(** ** Operations *)

(** [void *msg_evt_alloc_0(void)]; the result 0 is [NULL]. *)
Definition msg_evt_alloc_0 (st : evt_pool) : outcome (Z * evt_pool) :=
  let msgev := sg_msgevt_free_list st in
  if msgev =? 0 then Ret (0, st)
  else
    match evts st !! msgev with
    | None => Fault
    | Some e => Ret (msgev, mk_evt_pool (evts st) (MsgData e) (g_free_msgevt_cnt st -u32 1))
    end.

(** [void *msg_evt_alloc(void)] *)
Definition msg_evt_alloc (st : evt_pool) : outcome (Z * evt_pool) := msg_evt_alloc_0 st.

(** [void msg_evt_free_0(MsgEvent *msgev)] *)
Definition msg_evt_free_0 (st : evt_pool) (msgev : Z) : outcome evt_pool :=
  match evts st !! msgev with
  | None => Fault
  | Some e =>
      Ret (mk_evt_pool (<[msgev := set_MsgData e (sg_msgevt_free_list st)]> (evts st)) msgev
             (g_free_msgevt_cnt st +u32 1))
  end.

(** [void msg_evt_free(MsgEvent *msgev)] *)
Definition msg_evt_free (st : evt_pool) (msgev : Z) : outcome evt_pool := msg_evt_free_0 st msgev.

(** [&sg_msgevt_free_list[idx]] *)
Definition evt_addr (base : Z) (idx : nat) : Z := base + sizeof_MsgEvent * Z.of_nat idx.

(** The linking loop of [msg_evt_init]: [todo] elements from [idx] on, the last
    of which is given [MsgData = 0]. *)
Fixpoint link_events (m : gmap Z MsgEvent) (base : Z) (idx todo : nat) : option (gmap Z MsgEvent) :=
  match todo with
  | O => Some m
  | S todo' =>
      match m !! evt_addr base idx with
      | None => None
      | Some e =>
          link_events
            (<[evt_addr base idx :=
                 set_MsgData e (match todo' with O => 0 | _ => evt_addr base (S idx) end)]> m)
            base (S idx) todo'
      end
  end.

(** [s32 msg_evt_init(u32 max_evt_cnt)]; [base] is what [OS_MemAlloc] returns and
    [m] the memory then, whose new events have arbitrary contents. *)
Definition msg_evt_init (m : gmap Z MsgEvent) (max_evt_cnt base : Z) : outcome evt_pool :=
  let max := if max_evt_cnt <? MSG_EVT_MIN then MSG_EVT_MIN else max_evt_cnt in
  if base =? 0 then Halt
  else
    match link_events m base 0 (Z.to_nat max) with
    | None => Fault
    | Some m' => Ret (mk_evt_pool m' base max)
    end.

(** [s32 msg_evt_post_data1(msgevq, msg_type, msg_data)]; [enq] is the outcome of
    [OS_MsgQEnqueue]. The result is the status and the event posted. *)
Definition msg_evt_post_data1 (st : evt_pool) (msg_type msg_data : Z) (enq : bool)
  : outcome (bool * option Z * evt_pool) :=
  match msg_evt_alloc st with
  | Fault => Fault
  | Halt => Halt
  | Ret (msg_ev, st1) =>
      if msg_ev =? 0 then Halt
      else
        match evts st1 !! msg_ev with
        | None => Fault
        | Some e =>
            let e' := mk_MsgEvent msg_type msg_data (MsgData1 e) (MsgData2 e) (MsgData3 e) in
            let st2 := mk_evt_pool (<[msg_ev := e']> (evts st1)) (sg_msgevt_free_list st1)
                         (g_free_msgevt_cnt st1) in
            if enq then Ret (true, Some msg_ev, st2)
            else
              match msg_evt_free st2 msg_ev with
              | Ret st3 => Ret (false, None, st3)
              | Halt => Halt
              | Fault => Fault
              end
        end
  end.

(** ** The representation *)

(** [chain m p l]: the free list that starts at [p] is [l]. *)
Fixpoint chain (m : gmap Z MsgEvent) (p : Z) (l : list Z) : Prop :=
  match l with
  | [] => p = 0
  | x :: r => p = x /\ x <> 0 /\ exists e, m !! x = Some e /\ chain m (MsgData e) r
  end.

Lemma chain_insert_notin m p l x e : x ∉ l -> chain m p l -> chain (<[x := e]> m) p l.
Proof.
  revert p. induction l as [|y l IH]; intros p Hx; [done|]. cbn.
  intros (-> & Hy & e' & He & Hc). split_and!; [done..|]. exists e'.
  rewrite lookup_insert_ne by set_solver. split; [done|]. apply IH; [set_solver|done].
Qed.

(** The abstract pool: free events and events held by clients. *)
Record evt_rep (st : evt_pool) (free out : list Z) : Prop := mk_evt_rep {
  er_chain : chain (evts st) (sg_msgevt_free_list st) free;
  er_nodup : NoDup (free ++ out);
  er_out : forall p, p ∈ out -> p <> 0 /\ is_Some (evts st !! p);
  er_cnt : g_free_msgevt_cnt st = Z.of_nat (length free);
  er_small : Z.of_nat (length (free ++ out)) < 4294967296
}.

Lemma alloc_refines st free out :
  evt_rep st free out ->
  match free with
  | [] => msg_evt_alloc_0 st = Ret (0, st)
  | p :: r => exists st', msg_evt_alloc_0 st = Ret (p, st') /\ evts st' = evts st /\
                p <> 0 /\ evt_rep st' r (p :: out)
  end.
Proof.
  intros [Hc Hn Ho Hcnt Hs]. unfold msg_evt_alloc_0. destruct free as [|p r]; cbn in Hc.
  - by rewrite Hc.
  - destruct Hc as (-> & Hp & e & He & Hc). rewrite (proj2 (Z.eqb_neq _ _)), He by done.
    eexists. split; [done|]. split; [done|]. split; [done|]. cbn [length app] in *.
    rewrite length_app in Hs. split; cbn [evts sg_msgevt_free_list g_free_msgevt_cnt]; try done.
    + by rewrite <-Permutation_middle.
    + intros q [->|Hq]%elem_of_cons; [|by apply Ho]. split; [done|]. by rewrite He.
    + rewrite Hcnt, u32_small; lia.
    + rewrite length_app. cbn. lia.
Qed.

Lemma free_refines st free a p b :
  evt_rep st free (a ++ p :: b) ->
  exists st', msg_evt_free_0 st p = Ret st' /\ evt_rep st' (p :: free) (a ++ b).
Proof.
  intros [Hc Hn Ho Hcnt Hs]. unfold msg_evt_free_0.
  destruct (Ho p) as [Hp [e He]]; [set_solver|]. rewrite He. eexists. split; [done|].
  assert (Hperm : free ++ a ++ p :: b ≡ₚ p :: free ++ a ++ b) by solve_Permutation.
  rewrite Hperm in Hn, Hs. cbn [length] in Hs. rewrite length_app in Hs.
  pose proof (proj1 (NoDup_cons _ _) Hn) as [Hpf _].
  split; cbn [evts sg_msgevt_free_list g_free_msgevt_cnt]; try done.
  - cbn. split_and!; [done..|]. eexists. rewrite lookup_insert_eq. split; [done|]. cbn.
    apply chain_insert_notin; [set_solver|done].
  - intros q Hq. destruct (decide (q = p)) as [->|Hqp].
    + rewrite lookup_insert_eq. by eauto.
    + rewrite lookup_insert_ne by done. apply Ho. set_solver.
  - rewrite Hcnt, u32_small; cbn [length]; lia.
  - cbn. rewrite length_app. lia.
Qed.

(** A client fills in an event it holds. *)
Definition write_event (st : evt_pool) (p : Z) (e : MsgEvent) : evt_pool :=
  mk_evt_pool (<[p := e]> (evts st)) (sg_msgevt_free_list st) (g_free_msgevt_cnt st).

Lemma write_refines st free out p e :
  evt_rep st free out -> p ∈ out -> evt_rep (write_event st p e) free out.
Proof.
  intros [Hc Hn Ho Hcnt Hs] Hp.
  split; cbn [evts sg_msgevt_free_list g_free_msgevt_cnt write_event]; try done.
  - apply chain_insert_notin; [|done]. apply NoDup_app in Hn as (_ & Hd & _).
    intros Hf. by apply (Hd p).
  - intros q Hq. destruct (Ho q Hq) as [H0 [e' He]]. split; [done|].
    destruct (decide (p = q)) as [->|]; [by rewrite lookup_insert_eq|].
    by rewrite lookup_insert_ne by done.
Qed.

Definition evt_addrs (base : Z) (idx n : nat) : list Z := map (evt_addr base) (seq idx n).

Lemma evt_addr_inj base i j : evt_addr base i = evt_addr base j -> i = j.
Proof. unfold evt_addr, sizeof_MsgEvent. lia. Qed.

Lemma link_events_spec todo : forall m base idx,
  0 < base -> (forall i, (idx <= i < idx + todo)%nat -> is_Some (m !! evt_addr base i)) ->
  exists m', link_events m base idx todo = Some m' /\
    chain m' (match todo with O => 0 | _ => evt_addr base idx end) (evt_addrs base idx todo) /\
    (forall q, q ∉ evt_addrs base idx todo -> m' !! q = m !! q).
Proof.
  induction todo as [|todo IH]; intros m base idx Hb Hm; cbn [link_events]; [by exists m|].
  destruct (Hm idx) as [e He]; [lia|]. rewrite He.
  set (e' := set_MsgData e _).
  destruct (IH (<[evt_addr base idx := e']> m) base (S idx)) as (m' & -> & Hc & Hf); [done| |].
  { intros i Hi. destruct (decide (i = idx)) as [->|Hne]; [by rewrite lookup_insert_eq|].
    rewrite lookup_insert_ne by (intros E%evt_addr_inj; lia). apply Hm. lia. }
  assert (Hx : evt_addr base idx ∉ evt_addrs base (S idx) todo).
  { unfold evt_addrs. rewrite list_elem_of_fmap. intros (i & E%evt_addr_inj & Hi).
    apply elem_of_seq in Hi. lia. }
  exists m'. split; [done|]. split.
  - cbn. split_and!; [done|unfold evt_addr, sizeof_MsgEvent; lia|].
    exists e'. rewrite Hf, lookup_insert_eq by done. split; [done|]. by destruct todo.
  - intros q Hq. cbn in Hq. apply not_elem_of_cons in Hq as [Hq1 Hq2].
    rewrite Hf by done. by rewrite lookup_insert_ne.
Qed.

Lemma msg_evt_init_spec m max base :
  0 <= max < 4294967296 -> 0 < base ->
  (forall i, (i < Z.to_nat (Z.max max MSG_EVT_MIN))%nat -> is_Some (m !! evt_addr base i)) ->
  exists st, msg_evt_init m max base = Ret st /\
    evt_rep st (evt_addrs base 0 (Z.to_nat (Z.max max MSG_EVT_MIN))) [].
Proof.
  intros Hmax Hb Hm. unfold msg_evt_init.
  assert (Hn : (if max <? MSG_EVT_MIN then MSG_EVT_MIN else max) = Z.max max MSG_EVT_MIN).
  { unfold MSG_EVT_MIN. case_test; lia. }
  rewrite Hn, (proj2 (Z.eqb_neq base 0)) by lia. unfold MSG_EVT_MIN in *.
  destruct (link_events_spec (Z.to_nat (Z.max max 48)) m base 0 Hb) as (m' & -> & Hc & _).
  { intros i Hi. apply Hm. lia. }
  eexists. split; [done|].
  assert (Hlen : length (evt_addrs base 0 (Z.to_nat (Z.max max 48))) = Z.to_nat (Z.max max 48))
    by (unfold evt_addrs; by rewrite length_map, length_seq).
  split; cbn [evts sg_msgevt_free_list g_free_msgevt_cnt].
  - destruct (Z.to_nat (Z.max max 48)) as [|n] eqn:E; [lia|].
    assert (H0 : evt_addr base 0 = base) by (unfold evt_addr; lia). by rewrite H0 in Hc.
  - rewrite app_nil_r. apply NoDup_fmap_2; [|apply NoDup_seq].
    intros i j. apply evt_addr_inj.
  - set_solver.
  - rewrite Hlen. lia.
  - rewrite app_nil_r, Hlen. lia.
Qed.

(** [msg_evt_init] builds the pool: with an array of at least [MSG_EVT_MIN]
    events (more if more are asked for) every event of the array is free, none is
    out, and [g_free_msgevt_cnt] is their number; a failed allocation halts. *)
Theorem msg_evt_init_establishes m max base :
  0 <= max < 4294967296 -> 0 < base ->
  (forall i, (i < Z.to_nat (Z.max max MSG_EVT_MIN))%nat -> is_Some (m !! evt_addr base i)) ->
  msg_evt_init m max 0 = Halt /\
  exists st, msg_evt_init m max base = Ret st /\
    evt_rep st (evt_addrs base 0 (Z.to_nat (Z.max max MSG_EVT_MIN))) [].
Proof. intros. split; [done|]. by apply msg_evt_init_spec. Qed.

Definition demo_mem (n : nat) : gmap Z MsgEvent :=
  list_to_map (map (fun p => (p, mk_MsgEvent 0 0 0 0 0)) (evt_addrs 4096 0 n)).

Lemma demo_mem_some n i : (i < n)%nat -> is_Some (demo_mem n !! evt_addr 4096 i).
Proof.
  intros Hi. exists (mk_MsgEvent 0 0 0 0 0). apply elem_of_list_to_map.
  - rewrite <-list_fmap_compose. rewrite (list_fmap_ext _ id), list_fmap_id by done.
    apply NoDup_fmap_2; [|apply NoDup_seq]. intros a b. apply evt_addr_inj.
  - apply list_elem_of_fmap. exists (evt_addr 4096 i). split; [done|].
    apply list_elem_of_fmap. exists i. split; [done|]. apply elem_of_seq. lia.
Qed.

Lemma msg_evt_init_establishes_witness :
  exists st, msg_evt_init (demo_mem 48) 10 4096 = Ret st /\ evt_rep st (evt_addrs 4096 0 48) [].
Proof.
  apply (msg_evt_init_establishes (demo_mem 48) 10 4096); [lia|lia|].
  intros i Hi. apply demo_mem_some. exact Hi.
Defined.

(** ** Clients *)

(** What clients do with the pool: allocate, fill in and free events. *)
Inductive evt_op : Type :=
| OpAlloc
| OpWrite (p : Z) (e : MsgEvent)
| OpFree (p : Z).

(** The pointer code. *)
Fixpoint run_ops (st : evt_pool) (ops : list evt_op) : outcome (list Z * evt_pool) :=
  match ops with
  | [] => Ret ([], st)
  | o :: r =>
      match (match o with
             | OpAlloc => msg_evt_alloc_0 st
             | OpWrite p e => Ret (0, write_event st p e)
             | OpFree p => match msg_evt_free_0 st p with
                           | Ret st' => Ret (0, st') | Halt => Halt | Fault => Fault end
             end) with
      | Ret (a, st1) =>
          match run_ops st1 r with
          | Ret (rs, st2) => Ret (a :: rs, st2)
          | Halt => Halt
          | Fault => Fault
          end
      | Halt => Halt
      | Fault => Fault
      end
  end.

Definition remove_one (p : Z) (l : list Z) : list Z :=
  match list_find (eq p) l with Some (i, _) => delete i l | None => l end.

(** The abstract pool; [None] is a client that touches an event it does not hold. *)
Fixpoint spec_ops (free out : list Z) (ops : list evt_op) : option (list Z * (list Z * list Z)) :=
  match ops with
  | [] => Some ([], (free, out))
  | OpAlloc :: r =>
      match free with
      | [] => '(rs, f) ← spec_ops [] out r; Some (0 :: rs, f)
      | p :: fr => '(rs, f) ← spec_ops fr (p :: out) r; Some (p :: rs, f)
      end
  | OpWrite p e :: r =>
      if decide (p ∈ out) then '(rs, f) ← spec_ops free out r; Some (0 :: rs, f) else None
  | OpFree p :: r =>
      if decide (p ∈ out)
      then '(rs, f) ← spec_ops (p :: free) (remove_one p out) r; Some (0 :: rs, f)
      else None
  end.

Lemma remove_one_split p l : p ∈ l -> exists a b, l = a ++ p :: b /\ remove_one p l = a ++ b.
Proof.
  intros Hp. unfold remove_one.
  destruct (list_find (eq p) l) as [[i q]|] eqn:E.
  - apply list_find_Some in E as (Hi & <- & _).
    exists (take i l), (drop (S i) l). rewrite delete_take_drop.
    split; [|done]. symmetry. by apply take_drop_middle.
  - apply list_find_None in E. rewrite Forall_forall in E. by destruct (E p Hp).
Qed.

(** C30: refinement of the event pool. For every sequence of allocations, writes
    and frees in which clients write and free only events they hold, the linked
    list code never faults, returns exactly the events of the abstract pool
    (an event not held by anyone, or [NULL] when all are out), and ends in a
    representation of the abstract state with an exact [g_free_msgevt_cnt]. *)
Theorem evt_pool_refines ops : forall st free out rs free' out',
  evt_rep st free out -> spec_ops free out ops = Some (rs, (free', out')) ->
  exists st', run_ops st ops = Ret (rs, st') /\ evt_rep st' free' out' /\
    free' ++ out' ≡ₚ free ++ out.
Proof.
  induction ops as [|o ops IH]; intros st free out rs free' out' R; cbn [spec_ops run_ops].
  { intros [= <- <- <-]. by exists st. }
  destruct o as [|p e|p].
  - pose proof (alloc_refines st free out R) as Ha. destruct free as [|p fr].
    + rewrite Ha. destruct (spec_ops [] out ops) as [[rs0 [f0 o0]]|] eqn:Es; cbn [mbind option_bind];
        [|done].
      intros [= <- <- <-]. destruct (IH _ _ _ _ _ _ R Es) as (st' & -> & H). by exists st'.
    + destruct Ha as (st1 & -> & _ & _ & R1).
      destruct (spec_ops fr (p :: out) ops) as [[rs0 [f0 o0]]|] eqn:Es; cbn [mbind option_bind];
        [|done].
      intros [= <- <- <-]. destruct (IH _ _ _ _ _ _ R1 Es) as (st' & -> & H1 & H2).
      exists st'. split_and!; [done..|]. rewrite H2. solve_Permutation.
  - destruct (decide (p ∈ out)) as [Hp|]; [|done].
    destruct (spec_ops free out ops) as [[rs0 [f0 o0]]|] eqn:Es; cbn [mbind option_bind]; [|done].
    intros [= <- <- <-].
    destruct (IH _ _ _ _ _ _ (write_refines _ _ _ p e R Hp) Es) as (st' & -> & H). by exists st'.
  - destruct (decide (p ∈ out)) as [Hp|]; [|done].
    destruct (remove_one_split p out Hp) as (a & b & -> & Hr). rewrite Hr.
    destruct (free_refines st free a p b R) as (st1 & -> & R1).
    destruct (spec_ops (p :: free) (a ++ b) ops) as [[rs0 [f0 o0]]|] eqn:Es;
      cbn [mbind option_bind]; [|done].
    intros [= <- <- <-]. destruct (IH _ _ _ _ _ _ R1 Es) as (st' & -> & H1 & H2).
    exists st'. split_and!; [done..|]. rewrite H2. solve_Permutation.
Qed.

Lemma evt_pool_refines_witness :
  exists st st', msg_evt_init (demo_mem 48) 10 4096 = Ret st /\
    run_ops st [OpAlloc; OpAlloc; OpFree 4096; OpAlloc] = Ret ([4096; 4116; 0; 4096], st').
Proof.
  destruct (msg_evt_init_spec (demo_mem 48) 10 4096) as (st & E & R); [lia|lia| |].
  { intros i Hi. apply demo_mem_some. exact Hi. }
  destruct (evt_pool_refines [OpAlloc; OpAlloc; OpFree 4096; OpAlloc] st _ _
    [4096; 4116; 0; 4096] (evt_addrs 4096 2 46) [4096; 4116] R) as (st' & H & _); [vm_compute; reflexivity|].
  exists st, st'. split; [exact E|exact H].
Defined.

(** [msg_evt_post_data1] with an event available: a successful post leaves
    the event out with the message in it; a failed one gives the event back, so
    that the pool is as it was; with none free it halts. *)
Theorem post_data1_no_leak st free out ty d :
  evt_rep st free out ->
  match free with
  | [] => forall enq, msg_evt_post_data1 st ty d enq = Halt
  | p :: r =>
      (exists st' e, msg_evt_post_data1 st ty d true = Ret (true, Some p, st') /\
         evt_rep st' r (p :: out) /\ evts st' !! p = Some e /\ MsgType e = ty /\ MsgData e = d) /\
      (exists st', msg_evt_post_data1 st ty d false = Ret (false, None, st') /\
         evt_rep st' (p :: r) out)
  end.
Proof.
  intros R. pose proof (alloc_refines st free out R) as Ha.
  unfold msg_evt_post_data1, msg_evt_alloc. destruct free as [|p r]; [by rewrite Ha|].
  destruct Ha as (st1 & -> & He & Hp & R1). rewrite (proj2 (Z.eqb_neq p 0)) by done.
  destruct (er_out _ _ _ R1 p) as [_ [e Hlk]]; [set_solver|]. rewrite Hlk.
  set (e' := mk_MsgEvent ty d _ _ _).
  pose proof (write_refines st1 r (p :: out) p e' R1 ltac:(set_solver)) as R2. split.
  - exists (write_event st1 p e'), e'. split_and!; try done. apply lookup_insert_eq.
  - destruct (free_refines (write_event st1 p e') r [] p out R2) as (st3 & E3 & R3).
    unfold write_event in E3. unfold msg_evt_free. rewrite E3. by exists st3.
Qed.

Lemma post_data1_no_leak_witness :
  exists st st', msg_evt_post_data1 st 13 7 false = Ret (false, None, st') /\
    evt_rep st' [4096] [].
Proof.
  pose (st := mk_evt_pool {[4096 := mk_MsgEvent 0 0 0 0 0]} 4096 1).
  assert (R : evt_rep st [4096] []).
  { split; cbn [app].
    - cbn. split_and!; [done..|]. eexists. by rewrite lookup_singleton_eq.
    - apply NoDup_singleton.
    - set_solver.
    - done.
    - done. }
  destruct (post_data1_no_leak st [4096] [] 13 7 R) as [_ [st' H]]. by exists st, st'.
Defined.
