(* ===== verification/CmdEngine.v ===== *)
(** * CmdEngine: the command engine task ([core/host_cmd_engine*.c])

    The task takes host commands and firmware events from its mailbox.  Scan,
    join and leave are blocking: until the firmware reports
    [SOC_EVT_MLME_CMD_DONE] with the sequence number of the command, later
    commands wait in [pending_cmds].  Another thread may call
    [CmdEng_SetOpMode], which flushes the queue when the engine is stopped.

    The model has the engine record, the device record of [Dev], the program
    point of the task loop and the actions in order.  A step of the task is one
    critical section ([task_pc]): the test of the queue and the removal from it,
    taking a node and queuing it, setting [blockcmd_in_q] and handing the
    command to the transmit task are separate steps, and the other thread may
    come between them.  A call through a
    NULL pointer or an access outside an array is [Fault], a failed [ASSERT] is
    [Halt].  The results of [TXRXTask_FrameEnqueue] and [MALLOC], the clock and
    the messages are inputs of a step.

    [engine_serial_fifo] is a refinement: every run is a run of an abstract
    first-in first-out queue that sends nothing while a blocking command is
    marked as outstanding; [flush_before_hand_over] shows the interleaving in
    which a flush removes the mark before the command is handed over.
    [engine_fault_causes] says exactly which inputs stop the engine;
    [pop_flush_race] and [enqueue_failure_blocks] record two flaws. *)

From stdpp Require Import base list option.
From Stdlib Require Import ZArith Lia.
From S2P Require Import Prelude Reorder Dev ApList MsgEvt.

(** ** Data *)

Inductive ModeType : Type := MT_STOP | MT_RUNNING | MT_EXIT.
#[export] Instance ModeType_eq_dec : EqDecision ModeType.
Proof. solve_decision. Defined.

Definition SSV6XXX_HOST_CMD_SCAN : Z := 0.
Definition SSV6XXX_HOST_CMD_JOIN : Z := 1.
Definition SSV6XXX_HOST_CMD_LEAVE : Z := 2.
Definition SSV6XXX_HOST_SOC_CMD_MAXID : Z := 94.
Definition SSV6XXX_HOST_CMD_SET_AP_CFG : Z := 103.
Definition SSV6XXX_HOST_CMD_SET_STA_CFG : Z := 105.

Definition SOC_EVT_SCAN_RESULT : Z := 1.
Definition SOC_EVT_JOIN_RESULT : Z := 2.
Definition SOC_EVT_LEAVE_RESULT : Z := 3.
Definition SOC_EVT_MLME_CMD_DONE : Z := 20.
Definition SOC_EVT_SCAN_DONE : Z := 24.
Definition SOC_EVT_PRIVE_CMD_START : Z := 34.

Definition FREE_FRM_NUM : Z := 5.
Definition SIZEOF_HDR_HostEvent : Z := 8.
Definition LEAVE_RESP_EVT_HEADER_SIZE : Z := 2.

(** [struct cfg_host_cmd], with the frame that carries it. *)
Record cfg_host_cmd : Type := mk_cmd {
  cmd_frame : Z;
  h_cmd : Z;
  cmd_seq_no : Z
}.

(** [struct resp_evt_result]: the union of [join] (words 0 to 2), [leave]
    (the two halves of word 0) and [scan]. *)
Record resp_evt_result : Type := mk_resp {
  word0 : Z;
  word2 : Z;
  scan_bss_info : ssv6xxx_ieee80211_bss
}.

Definition join_status_code (r : resp_evt_result) : Z := s32 (word0 r).
Definition join_bssid_idx (r : resp_evt_result) : Z := word2 r.
Definition leave_reason_code (r : resp_evt_result) : Z := u16 (word0 r).
Definition leave_bssid_idx (r : resp_evt_result) : Z := u16 (Z.shiftr (word0 r) 16).

(** [leave_res->u.leave.reason_code = x] *)
Definition set_leave_reason (r : resp_evt_result) (x : Z) : resp_evt_result :=
  mk_resp (Z.shiftl (leave_bssid_idx r) 16 + u16 x) (word2 r) (scan_bss_info r).

(** [struct cfg_host_event] *)
Record cfg_host_event : Type := mk_event {
  evt_frame : Z;
  evt_len : Z;
  h_event : Z;
  evt_seq_no : Z;
  dat : resp_evt_result
}.

(** [struct HostCmdEngInfo]; of the free nodes only their number matters. *)
Record HostCmdEngInfo : Type := mk_eng {
  curr_mode : ModeType;
  pending_cmds : list cfg_host_cmd;
  free_FrmQ : Z;
  pending_cmd_seqno : Z;
  blockcmd_in_q : bool
}.

(** A frame handed to [CmdEng_HandleQueue], by its [c_type]. *)
Inductive eng_frame : Type :=
| FrmRxEvent (frame : Z)
| FrmEvent (e : cfg_host_event)
| FrmCmd (c : cfg_host_cmd)
| FrmOther (c_type : Z).

(** A message of the engine's mailbox. *)
Inductive eng_msg : Type :=
| MEVT_PKT_BUF (f : eng_frame)
| MEVT_HOST_TIMER
| MEVT_HOST_CMD (data : Z)
| MEVT_UNKNOWN (msgtype : Z).

Inductive eng_act : Type :=
| ARecv (m : eng_msg)                   (* a message was fetched *)
| ATake (c : cfg_host_cmd)              (* taken from pending_cmds *)
| ABlock (c : cfg_host_cmd)             (* blockcmd_in_q set for it *)
| ADev (a : dev_act)                    (* an effect on the device *)
| ASend (c : cfg_host_cmd)              (* handed to the transmit task *)
| ASendFail (c : cfg_host_cmd)          (* refused by the transmit task, frame freed *)
| AInvalid (c : cfg_host_cmd)           (* unknown command, frame freed *)
| AStation (c : cfg_host_cmd)           (* ssv6xxx_wifi_station, semaphore, frame freed *)
| AWifiAp (c : cfg_host_cmd)            (* ssv6xxx_wifi_ap, semaphore, frame freed *)
| APending (c : cfg_host_cmd)           (* put into pending_cmds *)
| ALost (c : cfg_host_cmd)              (* no node for it: the frame is lost *)
| AFree (frame : Z)                     (* os_frame_free *)
| AFlush (cs : list cfg_host_cmd)       (* frames freed by the flush *)
| ATimer.                               (* os_timer_expired *)

(** ** Commands *)

Definition set_block (g : HostCmdEngInfo) (seq : Z) (blk : bool) : HostCmdEngInfo :=
  mk_eng (curr_mode g) (pending_cmds g) (free_FrmQ g) seq blk.

Definition set_pending (g : HostCmdEngInfo) (q : list cfg_host_cmd) (n : Z) : HostCmdEngInfo :=
  mk_eng (curr_mode g) q n (pending_cmd_seqno g) (blockcmd_in_q g).

Definition is_block_cmd (c : cfg_host_cmd) : bool :=
  (h_cmd c =? SSV6XXX_HOST_CMD_SCAN) || (h_cmd c =? SSV6XXX_HOST_CMD_JOIN)
  || (h_cmd c =? SSV6XXX_HOST_CMD_LEAVE).

(** Commands that are executed on the host even while the queue is blocked. *)
Definition is_local_cmd (c : cfg_host_cmd) : bool :=
  (h_cmd c =? SSV6XXX_HOST_CMD_SET_STA_CFG) || (h_cmd c =? SSV6XXX_HOST_CMD_SET_AP_CFG).

(** Program points of [CmdEng_Task] between which another thread may enter
    [CmdEng_mtx]: the head of the loop; between the test of the queue and
    [list_q_deq_safe]; in the [HOST_CMD] branch, before the node is taken from
    [free_FrmQ] and before it is put into [pending_cmds]; in [CmdEng_TxHdlCmd],
    at its head and, for a blocking command, between the critical section that
    sets [blockcmd_in_q] and [TXRXTask_FrameEnqueue]; before the node of a popped
    command is recycled.  [popped]: the command comes from [pending_cmds]. *)
Inductive task_pc : Type :=
| PcLoop
| PcDeq
| PcNode (c : cfg_host_cmd)
| PcQueue (c : cfg_host_cmd)
| PcTx (c : cfg_host_cmd) (popped : bool)
| PcEnq (c : cfg_host_cmd) (popped : bool)
| PcRecycle.

(** Where [CmdEng_TxHdlCmd] returns to. *)
Definition tx_return (popped : bool) : task_pc := if popped then PcRecycle else PcLoop.

(** [TXRXTask_FrameEnqueue] and what follows; [enq] is its result. *)
Definition tx_enqueue (enq : bool) (c : cfg_host_cmd) : list eng_act :=
  [if enq then ASend c else ASendFail c].

(** [CmdEng_TxHdlCmd] up to the end of its critical section, or whole when there
    is none; both entries of [sgTrapHandler] are NULL, so the trap loop has no
    effect.  A blocking command is still to be enqueued. *)
Definition CmdEng_TxHdlCmd (g : HostCmdEngInfo) (enq : bool) (c : cfg_host_cmd) (popped : bool) :
  task_pc * HostCmdEngInfo * list eng_act :=
  if h_cmd c <? SSV6XXX_HOST_SOC_CMD_MAXID then
    if is_block_cmd c then (PcEnq c popped, set_block g (cmd_seq_no c) true, [ABlock c])
    else (tx_return popped, g, tx_enqueue enq c)
  else if h_cmd c =? SSV6XXX_HOST_CMD_SET_STA_CFG then (tx_return popped, g, [AStation c])
  else if h_cmd c =? SSV6XXX_HOST_CMD_SET_AP_CFG then (tx_return popped, g, [AWifiAp c])
  else (tx_return popped, g, [AInvalid c]).

(** The test of the [HOST_CMD] branch of [CmdEng_HandleQueue]. *)
Definition handle_host_cmd (g : HostCmdEngInfo) (c : cfg_host_cmd) : task_pc :=
  if blockcmd_in_q g && negb (is_local_cmd c) then PcNode c else PcTx c false.

(** Its two critical sections: a node for the command ([mem] is the result of
    [MALLOC]), and the node put into the queue. *)
Definition take_node (g : HostCmdEngInfo) (mem : bool) (c : cfg_host_cmd) :
  task_pc * HostCmdEngInfo * list eng_act :=
  if 0 <? free_FrmQ g then (PcQueue c, set_pending g (pending_cmds g) (free_FrmQ g - 1), [])
  else if mem then (PcQueue c, g, [])
  else (PcLoop, g, [ALost c]).

Definition queue_cmd (g : HostCmdEngInfo) (c : cfg_host_cmd) : HostCmdEngInfo * list eng_act :=
  (set_pending g (pending_cmds g ++ [c]) (free_FrmQ g), [APending c]).

(** ** Events *)

(** [if (get_current_vif_state() == VIF_ALL_DEACTIVE) ssv_hal_sta_reject_bcn()] *)
Definition reject_bcn (d : DeviceInfo) : list dev_act :=
  if decide (get_current_vif_state d = VIF_ALL_DEACTIVE) then [StaRejectBcn] else [].

(** [exec_host_evt_cb(h_event, dat, len - sizeof(HDR_HostEvent))] *)
Definition pass_up (d : DeviceInfo) (e : cfg_host_event) : list dev_act :=
  exec_host_evt_cb d (h_event e) (s32 (evt_len e - SIZEOF_HDR_HostEvent)).

(** The pre-handlers; [None] is a NULL or out-of-bounds access. *)
Definition scan_host_event_handler_ (d : DeviceInfo) (dcu : bool) (now : Z) (e : cfg_host_event) :
  option (DeviceInfo * list dev_act) :=
  sta_mode_ap_list_handler d dcu now (Some (scan_bss_info (dat e))).

(** With [AP_MODE_ENABLE == 0]. *)
Definition scan_done_host_event_handler_ (d : DeviceInfo) (e : cfg_host_event) :
  option (DeviceInfo * list dev_act) :=
  Some (d, reject_bcn d ++ pass_up d e).

Definition leave_host_event_handler_ (d : DeviceInfo) (ampdu_rx_enable : bool)
    (e : cfg_host_event) : option (DeviceInfo * list dev_act) :=
  let idx := leave_bssid_idx (dat e) in
  if idx <? MAX_VIF_NUM then
    v ← vif d !! Z.to_nat idx;
    if decide (hw_mode v = SSV6XXX_HWM_STA) then
      '(d1, o1) ← (if leave_reason_code (dat e) =? 0 then Some (d, [])
                   else si ← StaInfo v; Some (mlme_remove_ap d (joincfg si)));
      let o2 := reject_bcn d1 in
      '(d2, o3) ← ssv6xxx_sta_mode_disconnect d1 (Z.to_nat idx);
      let o4 := if (ampduRx_vif d2 =? idx) && ampdu_rx_enable
                then [DeleteAllAmpduRx; ReorderTimerCancel] else [] in
      Some (d2, o1 ++ o2 ++ o3 ++ o4 ++ pass_up d2 e)
    else Some (d, [])
  else Some (d, []).

(** A failed join: the branch shared by the recovering and the normal case. *)
Definition join_failed (d : DeviceInfo) (k : nat) : option (DeviceInfo * list dev_act) :=
  '(d', out) ← ssv6xxx_sta_mode_disconnect d k;
  Some (d', reject_bcn d ++ out).

(** A successful join. *)
Definition join_succeeded (d : DeviceInfo) (k : nat) : option (DeviceInfo * list dev_act) :=
  d' ← ssv6xxx_sta_mode_connect d k; Some (d', [StaRcvSpecificBcn]).

(** [SET_TXREQ_WITH_QOS(gDeviceInfo, joincfg->bss.wmm_used ? 1 : 0)] *)
Definition update_qos (d : DeviceInfo) (k : nat) : option DeviceInfo :=
  v ← vif d !! k;
  si ← StaInfo v;
  Some (SET_TXREQ_WITH_QOS d (if wmm_used (joincfg si) =? 0 then 0 else 1)).

(** The recovering case of a failed join: the event is turned into a leave. *)
Definition leave_of_join (e : cfg_host_event) : cfg_host_event :=
  mk_event (evt_frame e) (SIZEOF_HDR_HostEvent + LEAVE_RESP_EVT_HEADER_SIZE) SOC_EVT_LEAVE_RESULT
    (evt_seq_no e) (set_leave_reason (dat e) 4).

Definition join_host_event_handler_ (d : DeviceInfo) (e : cfg_host_event) :
  option (DeviceInfo * list dev_act) :=
  let k := Z.to_nat (join_bssid_idx (dat e)) in
  '(d1, o1, e1, up) ←
    (if recovering d then
       if negb (join_status_code (dat e) =? 0) then
         v ← vif d !! k;
         si ← StaInfo v;
         let '(d0, o0) := mlme_remove_ap d (joincfg si) in
         '(d1, o1) ← join_failed d0 k;
         Some (set_recovering d1 false, o0 ++ o1, leave_of_join e, true)
       else
         '(d1, o1) ← join_succeeded d k;
         Some (set_recovering d1 false, o1, e, false)
     else
       if negb (join_status_code (dat e) =? 0) then
         '(d1, o1) ← join_failed d k; Some (d1, o1, e, true)
       else
         '(d1, o1) ← join_succeeded d k; Some (d1, o1, e, true));
  d2 ← update_qos d1 k;
  Some (d2, o1 ++ if (up : bool) then pass_up d2 e1 else []).

(** The entry of [PreFnTbl] for the event, run; every handler returns
    [SSV6XXX_SUCCESS].  [Some None] is an event without an entry. *)
Definition pre_fn (d : DeviceInfo) (dcu amp : bool) (now : Z) (e : cfg_host_event) :
  option (option (DeviceInfo * list dev_act)) :=
  if h_event e =? SOC_EVT_SCAN_RESULT then Some <$> scan_host_event_handler_ d dcu now e
  else if h_event e =? SOC_EVT_JOIN_RESULT then Some <$> join_host_event_handler_ d e
  else if h_event e =? SOC_EVT_SCAN_DONE then Some <$> scan_done_host_event_handler_ d e
  else if h_event e =? SOC_EVT_LEAVE_RESULT then Some <$> leave_host_event_handler_ d amp e
  else Some None.

(** [PrivateRxEvtHandler]: [CmdEng_evt_drop], then four NULL entries. *)
Definition PrivateRxEvtHandler : list bool := [true; false; false; false; false].

(** The inputs of a step that other code decides. *)
Record eng_env : Type := mk_env {
  enq_ok : bool;                (* TXRXTask_FrameEnqueue *)
  mem_ok : bool;                (* MALLOC *)
  sys_tick : Z;                 (* OS_GetSysTick *)
  dynamic_cci : bool;           (* dynamic_cci_update *)
  ampdu_rx : bool               (* g_host_cfg.ampdu_rx_enable *)
}.

Definition dev_acts (l : list dev_act) : list eng_act := ADev <$> l.

(** [CmdEng_RxHdlEvent] *)
Definition CmdEng_RxHdlEvent (g : HostCmdEngInfo) (d : DeviceInfo) (env : eng_env)
    (e : cfg_host_event) : outcome (HostCmdEngInfo * DeviceInfo * list eng_act) :=
  if SOC_EVT_PRIVE_CMD_START <=? h_event e then
    match PrivateRxEvtHandler !! Z.to_nat (h_event e - SOC_EVT_PRIVE_CMD_START) with
    | Some true => Ret (g, d, [AFree (evt_frame e)])
    | _ => Fault
    end
  else
    let g' := if blockcmd_in_q g && (h_event e =? SOC_EVT_MLME_CMD_DONE)
                 && (evt_seq_no e =? pending_cmd_seqno g)
              then set_block g 0 false else g in
    if h_event e =? SOC_EVT_MLME_CMD_DONE then Ret (g', d, [AFree (evt_frame e)])
    else
      match pre_fn d (dynamic_cci env) (ampdu_rx env) (sys_tick env) e with
      | None => Fault
      | Some (Some (d', out)) => Ret (g', d', dev_acts out ++ [AFree (evt_frame e)])
      | Some None => Ret (g', d, dev_acts (pass_up d e) ++ [AFree (evt_frame e)])
      end.

(** [CmdEng_HandleQueue] with [MLME_TASK == 0] and [AP_MODE_ENABLE == 0]: a
    receive event is only freed when no interface is in AP mode. *)
Definition CmdEng_HandleQueue (g : HostCmdEngInfo) (d : DeviceInfo) (env : eng_env)
    (f : eng_frame) : outcome (task_pc * HostCmdEngInfo * DeviceInfo * list eng_act) :=
  match f with
  | FrmRxEvent frame =>
      if existsb (fun v => bool_decide (hw_mode v = SSV6XXX_HWM_AP)) (vif d)
      then Ret (PcLoop, g, d, []) else Ret (PcLoop, g, d, [AFree frame])
  | FrmEvent e =>
      match CmdEng_RxHdlEvent g d env e with
      | Ret (g', d', out) => Ret (PcLoop, g', d', out)
      | Halt => Halt
      | Fault => Fault
      end
  | FrmCmd c => Ret (handle_host_cmd g c, g, d, [])
  | FrmOther _ => Halt
  end.

(** ** Modes *)

Inductive ssv6xxx_result : Type := SSV6XXX_SUCCESS | SSV6XXX_FAILED | SSV6XXX_INVA_PARAM.

(** The loop of [CmdEng_FlushPendingCmds]: the node of each command goes to
    [free_FrmQ] unless that holds more than [FREE_FRM_NUM] nodes. *)
Fixpoint flush_nodes (q : list cfg_host_cmd) (n : Z) : Z :=
  match q with
  | [] => n
  | _ :: r => flush_nodes r (if FREE_FRM_NUM <? n then n else n + 1)
  end.

Definition CmdEng_FlushPendingCmds (g : HostCmdEngInfo) : HostCmdEngInfo * list eng_act :=
  (mk_eng (curr_mode g) [] (flush_nodes (pending_cmds g) (free_FrmQ g)) 0 false,
   [AFlush (pending_cmds g)]).

Definition set_mode (g : HostCmdEngInfo) (m : ModeType) : HostCmdEngInfo :=
  mk_eng m (pending_cmds g) (free_FrmQ g) (pending_cmd_seqno g) (blockcmd_in_q g).

(** [CmdEng_SetOpMode]; [None] is a value above [MT_EXIT]. *)
Definition CmdEng_SetOpMode (g : HostCmdEngInfo) (mode : option ModeType) :
  HostCmdEngInfo * list eng_act * ssv6xxx_result :=
  match mode with
  | None => (g, [], SSV6XXX_INVA_PARAM)
  | Some m =>
      match curr_mode g, m with
      | MT_STOP, MT_RUNNING | MT_STOP, MT_EXIT => (set_mode g m, [], SSV6XXX_SUCCESS)
      | MT_STOP, MT_STOP => (g, [], SSV6XXX_INVA_PARAM)
      | MT_RUNNING, MT_STOP =>
          let '(g', out) := CmdEng_FlushPendingCmds g in (set_mode g' m, out, SSV6XXX_SUCCESS)
      | MT_RUNNING, _ => (g, [], SSV6XXX_INVA_PARAM)
      | MT_EXIT, _ => (g, [], SSV6XXX_FAILED)
      end
  end.

(** [CmdEng_GetStatus]: mode, whether the queue is blocked, its length. *)
Definition CmdEng_GetStatus (g : HostCmdEngInfo) : ModeType * bool * Z :=
  (curr_mode g, blockcmd_in_q g, Z.of_nat (length (pending_cmds g))).

(** The record after [CmdEng_Init]. *)
Definition CmdEng_Init : HostCmdEngInfo := mk_eng MT_STOP [] 0 0 false.

(** ** The task *)

Record eng_state : Type := mk_state {
  pc : task_pc;
  eng : HostCmdEngInfo;
  dev : DeviceInfo
}.

(** The end of the pop branch: the node is recycled or freed. *)
Definition recycle (g : HostCmdEngInfo) : HostCmdEngInfo :=
  set_pending g (pending_cmds g)
    (if free_FrmQ g <? FREE_FRM_NUM then free_FrmQ g + 1 else free_FrmQ g).

(** A fetched message. *)
Definition handle_msg (g : HostCmdEngInfo) (d : DeviceInfo) (env : eng_env) (m : eng_msg) :
  outcome (task_pc * HostCmdEngInfo * DeviceInfo * list eng_act) :=
  match m with
  | MEVT_PKT_BUF f => CmdEng_HandleQueue g d env f
  | MEVT_HOST_TIMER => Ret (PcLoop, g, d, [ATimer])
  | MEVT_HOST_CMD _ | MEVT_UNKNOWN _ => Ret (PcLoop, g, d, [])
  end.

(** The test at the head of the loop: a pending command is to be executed. *)
Definition pops (g : HostCmdEngInfo) : bool :=
  negb (blockcmd_in_q g) && (0 <? Z.of_nat (length (pending_cmds g))).

(** One step of [CmdEng_Task] from its program point; [m] is the message at the
    head of the mailbox, fetched only when nothing is popped. *)
Definition CmdEng_Task (st : eng_state) (env : eng_env) (m : eng_msg) :
  outcome (eng_state * list eng_act) :=
  let g := eng st in
  match pc st with
  | PcLoop =>
      if pops g then Ret (mk_state PcDeq g (dev st), [])
      else
        match handle_msg g (dev st) env m with
        | Ret (p, g', d', out) => Ret (mk_state p g' d', ARecv m :: out)
        | Halt => Halt
        | Fault => Fault
        end
  | PcDeq =>
      match pending_cmds g with
      | [] => Fault
      | c :: q => Ret (mk_state (PcTx c true) (set_pending g q (free_FrmQ g)) (dev st), [ATake c])
      end
  | PcNode c =>
      let '(p, g', out) := take_node g (mem_ok env) c in Ret (mk_state p g' (dev st), out)
  | PcQueue c =>
      let '(g', out) := queue_cmd g c in Ret (mk_state PcLoop g' (dev st), out)
  | PcTx c popped =>
      let '(p, g', out) := CmdEng_TxHdlCmd g (enq_ok env) c popped in
      Ret (mk_state p g' (dev st), out)
  | PcEnq c popped =>
      Ret (mk_state (tx_return popped) g (dev st), tx_enqueue (enq_ok env) c)
  | PcRecycle => Ret (mk_state PcLoop (recycle g) (dev st), [])
  end.

(** A step of the system: the task runs, or another thread sets the mode. *)
Inductive eng_input : Type :=
| ITask (env : eng_env) (m : eng_msg)
| IMode (mode : option ModeType).

Definition eng_step (st : eng_state) (i : eng_input) : outcome (eng_state * list eng_act) :=
  match i with
  | ITask env m => CmdEng_Task st env m
  | IMode mode =>
      let '(g, out, _) := CmdEng_SetOpMode (eng st) mode in Ret (mk_state (pc st) g (dev st), out)
  end.

Fixpoint eng_run (st : eng_state) (ins : list eng_input) : outcome (eng_state * list eng_act) :=
  match ins with
  | [] => Ret (st, [])
  | i :: r =>
      match eng_step st i with
      | Ret (st1, o1) =>
          match eng_run st1 r with
          | Ret (st2, o2) => Ret (st2, o1 ++ o2)
          | Halt => Halt
          | Fault => Fault
          end
      | Halt => Halt
      | Fault => Fault
      end
  end.

(** ** The abstract queue *)

#[export] Instance cfg_host_cmd_eq_dec : EqDecision cfg_host_cmd.
Proof. solve_decision. Defined.

(** The command in the hands of the task: none; received and neither sent nor
    queued yet; taken from the queue; marked as outstanding and still to be
    handed to the transmit task. *)
Inductive held_cmd : Type :=
| HNone
| HNew (c : cfg_host_cmd)
| HOld (c : cfg_host_cmd)
| HOut (c : cfg_host_cmd).
#[export] Instance held_cmd_eq_dec : EqDecision held_cmd.
Proof. solve_decision. Defined.

(** Commands waiting, in order, the command in hand, and the sequence number of
    the blocking command that is outstanding. *)
Record spec_state : Type := mk_spec {
  sq : list cfg_host_cmd;
  held : held_cmd;
  sblk : option Z
}.

(** [c] is the oldest command that has not left (taken from the queue, or new
    while the queue is empty) and nothing is outstanding. *)
Definition may_leave (s : spec_state) (c : cfg_host_cmd) : bool :=
  bool_decide (sblk s = None) &&
  (bool_decide (held s = HOld c) || (bool_decide (held s = HNew c) && bool_decide (sq s = []))).

Definition spec_act (s : spec_state) (a : eng_act) : option spec_state :=
  match a with
  | ARecv (MEVT_PKT_BUF (FrmCmd c)) =>
      if bool_decide (held s = HNone) then Some (mk_spec (sq s) (HNew c) (sblk s)) else None
  | ARecv (MEVT_PKT_BUF (FrmEvent e)) =>
      Some (if bool_decide (h_event e = SOC_EVT_MLME_CMD_DONE) && bool_decide (sblk s = Some (evt_seq_no e))
            then mk_spec (sq s) (held s) None else s)
  | ATake c =>
      match sq s, held s, sblk s with
      | c' :: q, HNone, None => if bool_decide (c = c') then Some (mk_spec q (HOld c) None) else None
      | _, _, _ => None
      end
  | ABlock c =>
      if is_block_cmd c && may_leave s c then Some (mk_spec (sq s) (HOut c) (Some (cmd_seq_no c))) else None
  | ASend c | ASendFail c =>
      if (if is_block_cmd c then bool_decide (held s = HOut c) else may_leave s c)
      then Some (mk_spec (sq s) HNone (sblk s)) else None
  | AInvalid c => if may_leave s c then Some (mk_spec (sq s) HNone (sblk s)) else None
  | AStation c | AWifiAp c =>
      if is_local_cmd c && bool_decide (held s = HNew c) then Some (mk_spec (sq s) HNone (sblk s)) else None
  | APending c =>
      if negb (is_local_cmd c) && bool_decide (held s = HNew c)
      then Some (mk_spec (sq s ++ [c]) HNone (sblk s)) else None
  | ALost c => if bool_decide (held s = HNew c) then Some (mk_spec (sq s) HNone (sblk s)) else None
  | AFlush cs => if bool_decide (cs = sq s) then Some (mk_spec [] (held s) None) else None
  | _ => Some s
  end.

Fixpoint spec_run (s : spec_state) (tr : list eng_act) : option spec_state :=
  match tr with
  | [] => Some s
  | a :: r => s' ← spec_act s a; spec_run s' r
  end.

(** The abstraction of an engine state. *)
Definition held_at (p : task_pc) : held_cmd :=
  match p with
  | PcLoop | PcDeq | PcRecycle => HNone
  | PcNode c | PcQueue c | PcTx c false => HNew c
  | PcTx c true => HOld c
  | PcEnq c _ => HOut c
  end.

Definition abs (st : eng_state) : spec_state :=
  mk_spec (pending_cmds (eng st)) (held_at (pc st))
          (if blockcmd_in_q (eng st) then Some (pending_cmd_seqno (eng st)) else None).

(** Local commands never enter the queue; the queue is not blocked while a
    command is popped or a new one about to be sent, and in the latter case it
    is empty. *)
Definition eng_inv (st : eng_state) : Prop :=
  Forall (fun c => is_local_cmd c = false) (pending_cmds (eng st)) /\
  match pc st with
  | PcLoop | PcRecycle => True
  | PcDeq => blockcmd_in_q (eng st) = false
  | PcNode c | PcQueue c => is_local_cmd c = false
  | PcTx c true => is_local_cmd c = false /\ blockcmd_in_q (eng st) = false
  | PcTx c false =>
      is_local_cmd c = false -> blockcmd_in_q (eng st) = false /\ pending_cmds (eng st) = []
  | PcEnq c _ => is_block_cmd c = true
  end.

Lemma spec_run_app s tr1 tr2 : spec_run s (tr1 ++ tr2) = spec_run s tr1 ≫= fun s' => spec_run s' tr2.
Proof.
  revert s; induction tr1 as [|a tr1 IH]; intros s; simpl; [done|].
  destruct (spec_act s a) as [s'|]; simpl; [apply IH|done].
Qed.

(** Device effects do not concern the queue. *)
Lemma spec_run_dev s l : spec_run s (dev_acts l) = Some s.
Proof. induction l as [|a l IH]; [done|exact IH]. Qed.

Lemma block_not_local c : is_block_cmd c = true -> is_local_cmd c = false.
Proof.
  unfold is_block_cmd, is_local_cmd. rewrite !orb_true_iff, !Z.eqb_eq.
  by intros [[->| ->]| ->].
Qed.

(** At the head of [CmdEng_TxHdlCmd] with a command that is not local, the
    command may leave. *)
Lemma tx_may_leave st c popped :
  eng_inv st -> pc st = PcTx c popped -> is_local_cmd c = false ->
  may_leave (abs st) c = true /\ blockcmd_in_q (eng st) = false.
Proof.
  intros [_ Hp] Epc Hl. rewrite Epc in Hp. unfold may_leave, abs. cbn [sblk held sq]. rewrite Epc.
  destruct popped; cbn [held_at].
  - destruct Hp as [_ ->]. by repeat case_bool_decide.
  - destruct (Hp Hl) as [-> ->]. by repeat case_bool_decide.
Qed.

Lemma tx_refines st env c popped p g' out :
  eng_inv st -> pc st = PcTx c popped ->
  CmdEng_TxHdlCmd (eng st) (enq_ok env) c popped = (p, g', out) ->
  spec_run (abs st) out = Some (abs (mk_state p g' (dev st))) /\ eng_inv (mk_state p g' (dev st)).
Proof.
  intros Hi Epc. pose proof (tx_may_leave st c popped Hi Epc) as Hm. destruct Hi as [Hq Hp].
  assert (Hdone : eng_inv (mk_state (tx_return popped) (eng st) (dev st))) by (split; [done|by destruct popped]).
  assert (Habs : abs (mk_state (tx_return popped) (eng st) (dev st)) = mk_spec (sq (abs st)) HNone (sblk (abs st)))
    by (unfold abs; by destruct popped).
  unfold CmdEng_TxHdlCmd. destruct (h_cmd c <? SSV6XXX_HOST_SOC_CMD_MAXID) eqn:Emax.
  - assert (Hl : is_local_cmd c = false).
    { unfold is_local_cmd. apply Z.ltb_lt in Emax. unfold SSV6XXX_HOST_SOC_CMD_MAXID in Emax.
      apply orb_false_iff. split; apply Z.eqb_neq; unfold SSV6XXX_HOST_CMD_SET_STA_CFG, SSV6XXX_HOST_CMD_SET_AP_CFG; lia. }
    destruct (Hm Hl) as [Hleave Hb]. destruct (is_block_cmd c) eqn:Eb; intros [= <- <- <-].
    + cbn [spec_run spec_act]. rewrite Eb, Hleave. cbn [andb mbind option_bind]. split; [done|by split].
    + rewrite Habs. split; [|done]. destruct (enq_ok env); cbn [tx_enqueue spec_run spec_act];
        rewrite Eb, Hleave; done.
  - destruct (is_local_cmd c) eqn:El.
    + assert (Eh : popped = false) by (destruct popped; [rewrite Epc in Hp; destruct Hp as [? _]; congruence|done]).
      subst popped. assert (Hact : (if is_local_cmd c && bool_decide (held (abs st) = HNew c)
        then Some (mk_spec (sq (abs st)) HNone (sblk (abs st))) else None) =
        Some (abs (mk_state (tx_return false) (eng st) (dev st)))).
      { rewrite El, bool_decide_true by (unfold abs; cbn [held]; by rewrite Epc). by rewrite Habs. }
      unfold is_local_cmd in El. destruct (h_cmd c =? SSV6XXX_HOST_CMD_SET_STA_CFG);
        [|rewrite orb_false_l in El; rewrite El]; intros [= <- <- <-];
        cbn [spec_run spec_act]; rewrite Hact; done.
    + destruct (Hm eq_refl) as [Hleave Hb]. unfold is_local_cmd in El. apply orb_false_iff in El as [-> ->].
      intros [= <- <- <-]. cbn [spec_run spec_act]. rewrite Hleave, Habs. done.
Qed.

Lemma event_refines g d env e g' d' out :
  CmdEng_RxHdlEvent g d env e = Ret (g', d', out) ->
  spec_run (abs (mk_state PcLoop g d)) (ARecv (MEVT_PKT_BUF (FrmEvent e)) :: out) =
    Some (abs (mk_state PcLoop g' d')) /\
  pending_cmds g' = pending_cmds g.
Proof.
  assert (Hfree : forall s l, spec_run s (dev_acts l ++ [AFree (evt_frame e)]) = Some s)
    by (intros; by rewrite spec_run_app, spec_run_dev).
  unfold CmdEng_RxHdlEvent. cbn [spec_run spec_act]. unfold abs. cbn [eng pc held_at].
  set (s0 := mk_spec _ _ _). destruct (Z.leb_spec SOC_EVT_PRIVE_CMD_START (h_event e)) as [Hp|Hp].
  { rewrite bool_decide_eq_false_2 by (unfold SOC_EVT_PRIVE_CMD_START, SOC_EVT_MLME_CMD_DONE in *; lia).
    destruct (PrivateRxEvtHandler !! _) as [[]|]; [|done..]. by intros [= <- <- <-]. }
  set (g1 := if _ && _ && _ then _ else _).
  assert (Hg1 : (if bool_decide (h_event e = SOC_EVT_MLME_CMD_DONE) &&
                   bool_decide (sblk s0 = Some (evt_seq_no e)) then mk_spec (sq s0) (held s0) None else s0)
                = abs (mk_state PcLoop g1 d) /\ pending_cmds g1 = pending_cmds g).
  { subst g1 s0. unfold abs. cbn. destruct (blockcmd_in_q g) eqn:Hb; simpl; [|by rewrite andb_false_r, Hb].
    destruct (Z.eqb_spec (h_event e) SOC_EVT_MLME_CMD_DONE) as [Hd|Hd]; simpl.
    - rewrite (bool_decide_eq_true_2 (h_event e = _)) by done. simpl.
      destruct (Z.eqb_spec (evt_seq_no e) (pending_cmd_seqno g)) as [->|Hs]; simpl.
      + by rewrite bool_decide_eq_true_2.
      + rewrite bool_decide_eq_false_2 by congruence. by rewrite Hb.
    - rewrite (bool_decide_eq_false_2 (h_event e = _)) by done. simpl. by rewrite Hb. }
  destruct Hg1 as [Hs Hq]. rewrite Hs. cbn [mbind option_bind].
  destruct (h_event e =? SOC_EVT_MLME_CMD_DONE); [by intros [= <- <- <-]|].
  destruct (pre_fn _ _ _ _ _) as [[[d1 o1]|]|]; [| |done]; intros [= <- <- <-];
    (split; [apply Hfree|exact Hq]).
Qed.

(** The engine takes a message only when it is blocked or the queue is empty. *)
Lemma not_pops g : pops g = false -> blockcmd_in_q g = false -> pending_cmds g = [].
Proof.
  unfold pops. intros E Hb. rewrite Hb in E. simpl in E. apply Z.ltb_ge in E.
  destruct (pending_cmds g); [done|]. cbn [length] in E. lia.
Qed.

Lemma msg_refines g d env m p g' d' out :
  pops g = false -> Forall (fun c => is_local_cmd c = false) (pending_cmds g) ->
  handle_msg g d env m = Ret (p, g', d', out) ->
  spec_run (abs (mk_state PcLoop g d)) (ARecv m :: out) = Some (abs (mk_state p g' d')) /\
  eng_inv (mk_state p g' d').
Proof.
  intros Hf Hl. destruct m as [f| |x|x]; simpl; try (intros [= <- <- <- <-]; by split).
  destruct f as [fr|e|c|t]; simpl; try done.
  - case_match; intros [= <- <- <- <-]; by split.
  - destruct (CmdEng_RxHdlEvent g d env e) as [[[g1 d1] o1]| |] eqn:E; [|done..].
    intros [= <- <- <- <-]. apply event_refines in E as [Hr Hp]. split; [exact Hr|]. split; [|done].
    simpl. by rewrite Hp.
  - unfold handle_host_cmd. destruct (blockcmd_in_q g) eqn:Hb; cbn [andb];
      [destruct (is_local_cmd c) eqn:Elc; cbn [negb]|];
      intros [= <- <- <- <-]; (split; [unfold abs; cbn; by rewrite Hb|]); split; cbn [eng pc]; try done.
    + by rewrite Elc.
    + intros _. split; [done|]. by apply not_pops.
Qed.

Lemma task_refines st env m st' out :
  eng_inv st -> CmdEng_Task st env m = Ret (st', out) ->
  spec_run (abs st) out = Some (abs st') /\ eng_inv st'.
Proof.
  intros Hi. pose proof Hi as [Hl Hb]. destruct st as [p g d]. unfold CmdEng_Task. cbn [pc eng dev] in *.
  destruct p as [| |c|c|c popped|c popped|].
  - destruct (pops g) eqn:Ep.
    + intros [= <- <-]. split; [done|]. split; [done|]. simpl. unfold pops in Ep. by destruct (blockcmd_in_q g).
    + destruct (handle_msg g d env m) as [[[[p' g'] d'] o]| |] eqn:Em; [|done..].
      intros [= <- <-]. by eapply msg_refines.
  - destruct (pending_cmds g) as [|c q] eqn:Eq; [done|]. intros [= <- <-].
    apply list.Forall_cons_1 in Hl as [Hc Hl]. split; [|by split_and!].
    unfold abs. cbn [spec_run spec_act eng pc held_at sq held sblk pending_cmds set_pending blockcmd_in_q].
    rewrite Eq, Hb. by rewrite bool_decide_true.
  - unfold take_node. destruct (0 <? free_FrmQ g); [intros [= <- <-]; by split|].
    destruct (mem_ok env); intros [= <- <-]; [by split|]. split; [|by split].
    unfold abs. cbn [spec_run spec_act eng pc held_at sq held sblk]. by rewrite bool_decide_true.
  - intros [= <- <-]. split; [|split; [apply Forall_app_2; [done|by constructor]|done]].
    unfold abs. cbn [spec_run spec_act eng pc held_at sq held sblk]. simpl in Hb. rewrite Hb.
    by rewrite bool_decide_true.
  - destruct (CmdEng_TxHdlCmd g (enq_ok env) c popped) as [[p' g'] o] eqn:E. intros [= <- <-].
    exact (tx_refines (mk_state (PcTx c popped) g d) env c popped p' g' o Hi eq_refl E).
  - intros [= <- <-]. simpl in Hb. split; [|split; [done|by destruct popped]].
    unfold abs. destruct (enq_ok env); cbn [tx_enqueue spec_run spec_act eng pc held_at sq held sblk];
      rewrite Hb, bool_decide_true by done; by destruct popped.
  - intros [= <- <-]. split; [done|]. by split.
Qed.

Lemma mode_refines st mode st' out :
  eng_inv st -> eng_step st (IMode mode) = Ret (st', out) ->
  spec_run (abs st) out = Some (abs st') /\ eng_inv st'.
Proof.
  intros [Hl Hb]. destruct st as [p g d]. unfold eng_step, CmdEng_SetOpMode, CmdEng_FlushPendingCmds.
  destruct mode as [m|]; cbn -[abs]; [|intros [= <- <-]; by split].
  destruct (curr_mode g), m; cbn -[abs]; intros [= <- <-]; try (by split).
  split; [unfold abs; cbn; by rewrite bool_decide_true|].
  split; [constructor|]. cbn in *. destruct p as [| |c|c|c []|c popped|]; try done.
  by destruct Hb.
Qed.

Lemma run_refines ins : forall st st' tr,
  eng_inv st -> eng_run st ins = Ret (st', tr) ->
  spec_run (abs st) tr = Some (abs st') /\ eng_inv st'.
Proof.
  induction ins as [|i ins IH]; intros st st' tr Hi; simpl; [intros [= <- <-]; by split|].
  destruct (eng_step st i) as [[st1 o1]| |] eqn:E1; [|done..].
  destruct (eng_run st1 ins) as [[st2 o2]| |] eqn:E2; [|done..]. intros [= <- <-].
  assert (H1 : spec_run (abs st) o1 = Some (abs st1) /\ eng_inv st1)
    by (destruct i; [by eapply task_refines|by eapply mode_refines]).
  destruct H1 as [H1 Hi1]. rewrite spec_run_app, H1. simpl. by eapply IH.
Qed.

(** ** Absence of faults *)

(** Interface [k] exists and has its [StaInfo]. *)
Definition has_sta (d : DeviceInfo) (k : nat) : Prop :=
  exists v si, vif d !! k = Some v /\ StaInfo v = Some si.














#[export] Instance has_sta_dec d k : Decision (has_sta d k).
Proof.
  destruct (vif d !! k) as [v|] eqn:Hv; [destruct (StaInfo v) as [si|] eqn:Hs|].
  - left. by exists v, si.
  - right. intros (v' & si & Hv' & Hs'). congruence.
  - right. intros (v' & si & Hv' & _). congruence.
Defined.









Definition returns {A} (r : outcome A) : Prop := exists x, r = Ret x.





(** ** Consequences of a lost blocking command *)

(** The queue is blocked by the command with sequence number [seq], which is no
    longer in the hands of the task. *)
Definition blocked_by (seq : Z) (st : eng_state) : Prop :=
  blockcmd_in_q (eng st) = true /\ pending_cmd_seqno (eng st) = seq /\
  match pc st with
  | PcDeq | PcEnq _ _ => False
  | PcTx c popped => popped = false /\ is_local_cmd c = true
  | _ => True
  end.

(** The input is neither the completion of command [seq] nor a stop. *)
Definition no_release (seq : Z) (i : eng_input) : Prop :=
  match i with
  | ITask _ (MEVT_PKT_BUF (FrmEvent e)) =>
      ~ (h_event e = SOC_EVT_MLME_CMD_DONE /\ evt_seq_no e = seq)
  | IMode (Some MT_STOP) => False
  | _ => True
  end.

Definition is_send (a : eng_act) : bool := match a with ASend _ => true | _ => false end.

Lemma blocked_event seq g d env e g' d' out :
  blockcmd_in_q g = true -> pending_cmd_seqno g = seq ->
  ~ (h_event e = SOC_EVT_MLME_CMD_DONE /\ evt_seq_no e = seq) ->
  CmdEng_RxHdlEvent g d env e = Ret (g', d', out) ->
  g' = g /\ existsb is_send out = false.
Proof.
  intros Hb Hs Hn. unfold CmdEng_RxHdlEvent. rewrite Hb, Hs.
  assert (Hd : forall l, existsb is_send (dev_acts l ++ [AFree (evt_frame e)]) = false)
    by (induction l; [done|simpl; auto]).
  replace (true && (h_event e =? SOC_EVT_MLME_CMD_DONE) && (evt_seq_no e =? seq)) with false
    by (destruct (Z.eqb_spec (h_event e) SOC_EVT_MLME_CMD_DONE), (Z.eqb_spec (evt_seq_no e) seq); simpl; tauto).
  case_match; [destruct (PrivateRxEvtHandler !! _) as [[]|]; [|done..]; by intros [= <- <- <-]|].
  case_match; [by intros [= <- <- <-]|].
  destruct (pre_fn _ _ _ _ _) as [[[d1 o1]|]|]; [| |done]; intros [= <- <- <-]; auto.
Qed.

(** A local command neither sends nor changes the engine. *)
Lemma tx_local g enq c :
  is_local_cmd c = true ->
  exists a, CmdEng_TxHdlCmd g enq c false = (PcLoop, g, [a]) /\ is_send a = false.
Proof.
  intros Hl. unfold CmdEng_TxHdlCmd. unfold is_local_cmd in Hl.
  apply orb_true_iff in Hl as [E|E]; apply Z.eqb_eq in E; rewrite E; simpl; by eexists.
Qed.

Lemma blocked_task seq st env m st' out :
  blocked_by seq st -> no_release seq (ITask env m) -> CmdEng_Task st env m = Ret (st', out) ->
  blocked_by seq st' /\ existsb is_send out = false.
Proof.
  intros (Hb & Hs & Hp) Hn. destruct st as [p g d]. unfold CmdEng_Task. cbn [pc eng dev] in *.
  destruct p as [| |c|c|c popped|c popped|]; [|done| | | |done|].
  - unfold pops. rewrite Hb. cbn [negb andb].
    destruct m as [f| |x|x]; cbn [handle_msg]; try (intros [= <- <-]; by repeat split).
    destruct f as [fr|e|c|t]; cbn [CmdEng_HandleQueue]; [| | |done].
    + destruct (existsb _ (vif d)); intros [= <- <-]; by repeat split.
    + destruct (CmdEng_RxHdlEvent g d env e) as [[[g1 d1] o1]| |] eqn:Em; [|done..]. intros [= <- <-].
      destruct (blocked_event seq g d env e g1 d1 o1 Hb Hs Hn Em) as [-> Ho]. by repeat split.
    + intros [= <- <-]. unfold handle_host_cmd. rewrite Hb. cbn [andb].
      destruct (is_local_cmd c) eqn:El; by repeat split.
  - unfold take_node. destruct (0 <? free_FrmQ g); [|destruct (mem_ok env)];
      intros [= <- <-]; by repeat split.
  - intros [= <- <-]. by repeat split.
  - destruct Hp as [-> Hl]. destruct (tx_local g (enq_ok env) c Hl) as (a & -> & Ha).
    intros [= <- <-]. split; [by repeat split|]. cbn [existsb]. by rewrite Ha.
  - intros [= <- <-]. by repeat split.
Qed.

Lemma blocked_step seq st i st' out :
  blocked_by seq st -> no_release seq i -> eng_step st i = Ret (st', out) ->
  blocked_by seq st' /\ existsb is_send out = false.
Proof.
  destruct i as [env m|mode]; [apply blocked_task|].
  intros (Hb & Hs & Hp) Hn. destruct st as [p g d]. unfold eng_step, CmdEng_SetOpMode. cbn [eng pc dev] in *.
  destruct mode as [m|]; simpl; [|intros [= <- <-]; by repeat split].
  destruct (curr_mode g), m; simpl; try done; intros [= <- <-]; by repeat split.
Qed.

Lemma blocked_run seq ins : forall st st' tr,
  blocked_by seq st -> Forall (no_release seq) ins -> eng_run st ins = Ret (st', tr) ->
  blocked_by seq st' /\ existsb is_send tr = false.
Proof.
  induction ins as [|i ins IH]; intros st st' tr Hb Hn; simpl; [by intros [= <- <-]|].
  apply list.Forall_cons_1 in Hn as [Hn1 Hn2].
  destruct (eng_step st i) as [[st1 o1]| |] eqn:E1; [|done..].
  destruct (eng_run st1 ins) as [[st2 o2]| |] eqn:E2; [|done..]. intros [= <- <-].
  destruct (blocked_step seq st i st1 o1 Hb Hn1 E1) as [Hb1 Ho1].
  destruct (IH st1 st2 o2 Hb1 Hn2 E2) as [Hb2 Ho2]. split; [done|].
  by rewrite existsb_app, Ho1, Ho2.
Qed.

(** ** Properties *)

(** The state in which [CmdEng_Init] leaves the engine. *)
Definition init_state (d : DeviceInfo) : eng_state := mk_state PcLoop CmdEng_Init d.

(** C18: The engine implements a first-in first-out queue with one outstanding
    blocking command: in every interleaving of the critical sections of the task
    with mode changes, commands (other than the two host-local ones) leave in
    the order they were received, each at most once; none is sent, and no scan,
    join or leave is marked as outstanding, while a scan, join or leave is
    marked; what has not left is pending, in order, or in the hands of the task,
    or was dropped by a flush or a failed allocation.  A mark is removed by the
    completion event of the command or by a flush, and only a marked command is
    handed to the transmit task as blocking.  A flush that falls between the
    marking and the hand-over removes the mark in advance
    ([flush_before_hand_over]): the abstract queue has the two as separate
    steps, as the code has. *)
Theorem engine_serial_fifo d ins st' tr :
  eng_run (init_state d) ins = Ret (st', tr) -> spec_run (mk_spec [] HNone None) tr = Some (abs st').
Proof. intros H. eapply run_refines in H as [H _]; [exact H|by split]. Qed.

(** Inputs for the examples. *)
Definition env0 (enq : bool) : eng_env := mk_env enq true 0 true false.
Definition cmd_in (c : cfg_host_cmd) : eng_input := ITask (env0 true) (MEVT_PKT_BUF (FrmCmd c)).
Definition go (enq : bool) : eng_input := ITask (env0 enq) MEVT_HOST_TIMER.
Definition event_in (ev seq w0 w2 : Z) : eng_input :=
  ITask (env0 true) (MEVT_PKT_BUF (FrmEvent (mk_event 900 20 ev seq (mk_resp w0 w2 zero_bss)))).
Definition dev0 : DeviceInfo := init_device 10 [sta_vif zero_bss; sta_vif zero_bss] [Some 7].
Definition scan1 : cfg_host_cmd := mk_cmd 100 SSV6XXX_HOST_CMD_SCAN 1.
Definition chan2 : cfg_host_cmd := mk_cmd 101 50 2.
Definition join3 : cfg_host_cmd := mk_cmd 102 SSV6XXX_HOST_CMD_JOIN 3.

(** A scan, two commands that wait for it, its completion, and the join result. *)
Definition script : list eng_input :=
  [IMode (Some MT_RUNNING); cmd_in scan1; go true; go true; cmd_in chan2; go true; go true;
   cmd_in join3; go true; go true; event_in SOC_EVT_MLME_CMD_DONE 1 0 0] ++ replicate 9 (go true) ++
  [event_in SOC_EVT_JOIN_RESULT 3 0 1].

Definition sends (r : outcome (eng_state * list eng_act)) : option (list eng_act * spec_state) :=
  match r with
  | Ret (st, tr) => Some (filter (fun a => is_send a = true) tr, abs st)
  | _ => None
  end.

(** The commands sent by the script. *)
Example script_sends :
  sends (eng_run (init_state dev0) script) =
  Some ([ASend scan1; ASend chan2; ASend join3], mk_spec [] HNone (Some 3)).
Proof. vm_compute. reflexivity. Qed.

(** A stop between the marking of a scan and its hand-over: the scan is sent
    with the queue released, and the next command follows before its
    completion. *)
Example flush_before_hand_over :
  sends (eng_run (init_state dev0)
    [IMode (Some MT_RUNNING); cmd_in scan1; go true; IMode (Some MT_STOP); go true; cmd_in chan2; go true]) =
  Some ([ASend scan1; ASend chan2], mk_spec [] HNone None).
Proof. vm_compute. reflexivity. Qed.

Lemma engine_serial_fifo_witness :
  match eng_run (init_state dev0) script with
  | Ret (st, tr) => spec_run (mk_spec [] HNone None) tr = Some (abs st)
  | _ => False
  end.
Proof.
  destruct (eng_run (init_state dev0) script) as [[st tr]| |] eqn:E;
    [|vm_compute in E; discriminate E..].
  exact (engine_serial_fifo dev0 script st tr E).
Defined.




(** A run that no cause stops. *)
Example script_returns : returns (eng_run (init_state dev0) script).
Proof. vm_compute. by eexists. Qed.

(** Lost wake-up: when the transmit task refuses a scan, join or leave
    command, the queue stays blocked by a command the firmware never saw; until
    the engine is stopped or an event with its sequence number arrives, no
    later command is sent in any run. *)
Theorem enqueue_failure_blocks d g env m c popped ins st' tr :
  blockcmd_in_q g = true -> pending_cmd_seqno g = cmd_seq_no c -> enq_ok env = false ->
  Forall (no_release (cmd_seq_no c)) ins ->
  eng_run (mk_state (PcEnq c popped) g d) (ITask env m :: ins) = Ret (st', tr) ->
  blockcmd_in_q (eng st') = true /\ existsb is_send tr = false.
Proof.
  intros Hb Hs He Hn. cbn [eng_run eng_step]. unfold CmdEng_Task. cbn [pc eng dev]. rewrite He.
  set (st1 := mk_state _ g d).
  destruct (eng_run st1 ins) as [[st2 o2]| |] eqn:E2; [|done..]. intros [= <- <-].
  destruct (blocked_run (cmd_seq_no c) ins st1 st2 o2) as [(? & _) Ho]; [|done..|by split].
  split_and!; [done..|]. by destruct popped.
Qed.

(** The state is reached by a scan on the empty queue. *)
Lemma enqueue_failure_blocks_witness :
  match eng_run (init_state dev0) [IMode (Some MT_RUNNING); cmd_in scan1; go true] with
  | Ret (st, _) =>
      match eng_run (mk_state (PcEnq scan1 false) (eng st) (dev st))
          [go false; cmd_in chan2; go true; go true; cmd_in join3] with
      | Ret (st', tr) => blockcmd_in_q (eng st') = true /\ existsb is_send tr = false
      | _ => False
      end
  | _ => False
  end.
Proof.
  cbn -[eng_run]. set (r := eng_run (init_state dev0) _). vm_compute in r. subst r. cbv beta iota.
  match goal with |- context [eng_run ?s ?i] => destruct (eng_run s i) as [[st tr]| |] eqn:E end;
    [|vm_compute in E; discriminate E..].
  refine (enqueue_failure_blocks _ _ (env0 false) MEVT_HOST_TIMER scan1 false
            [cmd_in chan2; go true; go true; cmd_in join3] st tr _ _ _ _ E); try reflexivity.
  repeat constructor.
Defined.

(** Race: the task tests the length of [pending_cmds] and dequeues in two
    critical sections; when [CmdEng_SetOpMode(MT_STOP)] flushes the queue in
    between, the task dereferences the NULL that [list_q_deq_safe] returns. *)
Theorem pop_flush_race d g env env' m m' :
  curr_mode g = MT_RUNNING -> blockcmd_in_q g = false -> pending_cmds g <> [] ->
  eng_run (mk_state PcLoop g d) [ITask env m; IMode (Some MT_STOP); ITask env' m'] = Fault.
Proof.
  intros Hm Hb Hq. simpl. unfold CmdEng_Task, pops. simpl. rewrite Hb. simpl.
  assert (0 <? Z.of_nat (length (pending_cmds g)) = true) as ->.
  { apply Z.ltb_lt. destruct (pending_cmds g) as [|c q]; [done|]. cbn [length]. lia. }
  simpl. by rewrite Hm.
Qed.

(** The state of the race is reached after the completion of a scan with a
    command waiting. *)
Lemma pop_flush_race_witness :
  match eng_run (init_state dev0) (take 11 script) with
  | Ret (st, _) =>
      eng_run (mk_state PcLoop (eng st) (dev st)) [go true; IMode (Some MT_STOP); go true] = Fault
  | _ => False
  end.
Proof. apply pop_flush_race; [reflexivity|reflexivity|discriminate]. Defined.

(** A leave made from a failed join in recovery names an interface taken from
    the high half of the status code: join result -1 of interface 1 becomes a
    leave of interface 65535. *)
Example leave_of_join_interface :
  leave_bssid_idx (dat (leave_of_join (mk_event 1 20 SOC_EVT_JOIN_RESULT 0
    (mk_resp 4294967295 1 zero_bss)))) = 65535.
Proof. reflexivity. Qed.
