(* ===== verification/RxPath.v ===== *)
(** * RxPath: the receive path of [core/txrx_task.c] and [core/txrx_hdl.c]

    [TXRXTask_RxFrameProc] decides by the packet type: data goes to
    [RxHdl_FrameProc], where registered filters, Block-Ack-Requests and the
    reorder buffers ([Reorder]) are tried in turn; events are handled on the
    spot or sent to the command engine; anything else is freed.
    [RxHdl_SetWifiRxFlt] and [RxHdl_SetEthRxFlt] maintain the filter tables.

    A run of the path returns the actions on the frame and the session table.
    [rx_path_conserves] shows that every frame gets exactly one owner (freed,
    delivered, stored for reordering, taken by a callback, sent as a message),
    except for the two kinds of frames in [leaks], which get none, and frames
    matched by several filters, which each callback that keeps them owns
    ([handed_over]); where a load through NULL does not answer with an interface
    index ([null_safe] of [Reorder]) the path halts at a packet that makes a
    release pass an empty slot ([path_halts]).
    [flt_counts] shows that the filter counters agree with the tables.

    Modelled for [AP_MODE_ENABLE == 0], [ENABLE_SMART_CONFIG == 0],
    [RXFLT_ENABLE] and [SW_8023TO80211 == 0], as in [host_config.h]. *)

From stdpp Require Import base list option.
From Stdlib Require Import ZArith Lia.
From S2P Require Import Prelude Reorder Dev MsgEvt CmdEngine.

(** ** Packets *)

Definition M0_RXEVENT : Z := 3.
Definition HOST_EVENT : Z := 6.
Definition SOC_EVT_ACK : Z := 16.
Definition SOC_EVT_DATA_QUEUE_STATUS : Z := 26.
Definition SOC_EVT_TX_LOOPBACK_DONE : Z := 33.
Definition SOC_EVT_PS_POLL : Z := 36.
Definition SOC_EVT_NULL_DATA : Z := 37.
Definition SOC_EVT_ADD_BA : Z := 39.
Definition RXPKTFLT_NUM : nat := 5.

(** What the path reads of a packet: its type, the descriptor fields ([Reorder]),
    the frame control field and the Block-Ack-Request fields (802.11), the
    Ethernet type (802.3), the event number and the ADDBA fields (events). *)
Record rxpkt : Type := mk_rxpkt {
  rp_c_type : Z;
  rp_frame : rx_frame;
  rp_fc : Z;
  rp_bar_control : Z;
  rp_bar_start_seq : Z;
  rp_eth_type : Z;
  rp_h_event : Z;
  rp_addba : Z * Z * Z * Z  (* wsid, tid, ssn, buf_size *)
}.

Inductive ssv6xxx_data_result : Type := SSV6XXX_DATA_ACPT | SSV6XXX_DATA_CONT | SSV6XXX_DATA_QUEUED.
#[export] Instance data_result_eq_dec : EqDecision ssv6xxx_data_result.
Proof. solve_decision. Defined.

(** [IS_BAR(fc)] *)
Definition IS_BAR (fc : Z) : bool := Z.land fc 0xfc =? 0x84.

(** ** Filters *)

(** A callback is its address; [None] is [NULL]. *)
Record wifi_flt : Type := mk_wifi_flt { fc_b7b2 : Z; b7b2mask : Z; w_cb_fn : option Z }.
Record eth_flt : Type := mk_eth_flt { ethtype : Z; e_cb_fn : option Z }.

Inductive ssv6xxx_cb_action : Type := SSV6XXX_CB_ADD | SSV6XXX_CB_REMOVE | SSV6XXX_CB_MOD.

(** The two registration functions differ in the record only. *)
Section filters.
Context {A : Type} (cb : A -> option Z) (zero : A).

(** The loop: the last empty slot and the last slot with the same callback. *)
Fixpoint find_slots (flt : A) (i : nat) (t : list A) (empty existing : option nat) :
  option nat * option nat :=
  match t with
  | [] => (empty, existing)
  | x :: r =>
      match cb x with
      | None => find_slots flt (S i) r (Some i) existing
      | Some c =>
          find_slots flt (S i) r empty (if bool_decide (cb flt = Some c) then Some i else existing)
      end
  end.

Definition set_rx_flt (flt : A) (act : ssv6xxx_cb_action) (t : list A) (num : Z) : list A * Z * bool :=
  let '(empty, existing) := find_slots flt 0 t None None in
  match act, empty, existing with
  | SSV6XXX_CB_ADD, Some e, _ => (<[e := flt]> t, u8 (num + 1), true)
  | SSV6XXX_CB_REMOVE, _, Some e => (<[e := zero]> t, u8 (num - 1), true)
  | SSV6XXX_CB_MOD, _, Some e => (<[e := flt]> t, num, true)
  | _, _, _ => (t, num, false)
  end.

(** The slots in use. *)
Definition used (t : list A) : list A := filter (fun x => is_Some (cb x)) t.
End filters.

Definition zero_wifi : wifi_flt := mk_wifi_flt 0 0 None.
Definition zero_eth : eth_flt := mk_eth_flt 0 None.

(** The filter tables and their counters. *)
Record rx_flts : Type := mk_rx_flts {
  rx_wifi_flt : list wifi_flt;
  wifi_flt_num : Z;
  rx_eth_flt : list eth_flt;
  eth_flt_num : Z
}.

(** [TxRxHdl_Init] *)
Definition TxRxHdl_Init : rx_flts :=
  mk_rx_flts (replicate RXPKTFLT_NUM zero_wifi) 0 (replicate RXPKTFLT_NUM zero_eth) 0.

Definition RxHdl_SetWifiRxFlt (s : rx_flts) (flt : wifi_flt) (act : ssv6xxx_cb_action) : rx_flts * bool :=
  let '(t, n, ret) := set_rx_flt w_cb_fn zero_wifi flt act (rx_wifi_flt s) (wifi_flt_num s) in
  (mk_rx_flts t n (rx_eth_flt s) (eth_flt_num s), ret).

Definition RxHdl_SetEthRxFlt (s : rx_flts) (flt : eth_flt) (act : ssv6xxx_cb_action) : rx_flts * bool :=
  let '(t, n, ret) := set_rx_flt e_cb_fn zero_eth flt act (rx_eth_flt s) (eth_flt_num s) in
  (mk_rx_flts (rx_wifi_flt s) (wifi_flt_num s) t n, ret).

(** ** Actions *)

Inductive rx_act : Type :=
| AFree (f : rx_frame)                                     (* os_frame_free *)
| ACall (c : Z) (f : rx_frame) (r : ssv6xxx_data_result)   (* a filter callback and its result *)
| AReorder (e : rx_event)                                  (* what the reorder buffer hands out *)
| AMsgSend (f : rx_frame)                                  (* os_msg_send to the command engine *)
| ALoopbackDone.

(** The table of sessions and the surroundings of a call: what callbacks answer
    and the inputs of [Reorder]. *)
Definition sessions : Type := list (list rx_ba_session_desc).

Record rx_env : Type := mk_rx_env {
  en_cb : Z -> ssv6xxx_data_result;
  en_disc : Z -> bool;
  en_null_read : option Z;
  en_tick : Z -> Z;
  en_tick_store : Z;
  en_stations : Z;
  en_buf_size : Z;
  en_ampdu : bool;
  en_msg : bool;
  en_hw_mode0 : ssv6xxx_hw_mode
}.

(** ** [_RxHdl_FrameProc] *)

(** The loops over the filters: the callbacks called; [None]: a call through
    [NULL]. *)
Fixpoint wifi_calls (b7b2 : Z) (t : list wifi_flt) : option (list Z) :=
  match t with
  | [] => Some []
  | x :: r =>
      if negb (b7b2mask x =? 0) && (Z.land b7b2 (b7b2mask x) =? fc_b7b2 x)
      then c ← w_cb_fn x; cs ← wifi_calls b7b2 r; Some (c :: cs)
      else wifi_calls b7b2 r
  end.

Fixpoint eth_calls (eth_type : Z) (t : list eth_flt) : list Z :=
  match t with
  | [] => []
  | x :: r =>
      if negb (eth_type =? 0) && (eth_type =? ethtype x)
      then match e_cb_fn x with Some c => c :: eth_calls eth_type r | None => eth_calls eth_type r end
      else eth_calls eth_type r
  end.

(** The callbacks called for a packet. *)
Definition flt_calls (s : rx_flts) (p : rxpkt) : option (list Z) :=
  if rx_f80211 (rp_frame p) then
    if negb (wifi_flt_num s =? 0) then wifi_calls (Z.shiftr (Z.land (rp_fc p) 0xff) 2) (rx_wifi_flt s)
    else Some []
  else if negb (eth_flt_num s =? 0) then Some (eth_calls (rp_eth_type p) (rx_eth_flt s))
  else Some [].

(** The result that counts is the last one. *)
Definition data_ret (env : rx_env) (cs : list Z) : ssv6xxx_data_result :=
  match list.last cs with Some c => en_cb env c | None => SSV6XXX_DATA_CONT end.

(** Outer [None]: a fault. *)
Definition _RxHdl_FrameProc (env : rx_env) (s : rx_flts) (g : sessions) (p : rxpkt) :
  option (sessions * list rx_act) :=
  let f := rp_frame p in
  if MAX_VIF_NUM <=? rx_bssid_idx f then
    if rx_f80211 f && negb (match en_hw_mode0 env with SSV6XXX_HWM_SCONFIG => true | _ => false end)
    then Some (g, [])
    else Some (g, [AFree f])
  else
    cs ← flt_calls s p;
    let calls := map (fun c => ACall c f (en_cb env c)) cs in
    if negb (bool_decide (data_ret env cs = SSV6XXX_DATA_CONT)) then Some (g, calls)
    else if rx_f80211 f && IS_BAR (rp_fc p) then
      '(g', es) ← RxHdl_handle_bar (en_disc env) (en_null_read env) (en_stations env) g (rx_wsid f)
                    (rp_bar_control p) (rp_bar_start_seq p);
      Some (g', calls ++ map AReorder es ++ [AFree f])
    else
      '(g', es) ← ieee80211_rx_reorder_ampdu (en_disc env) (en_null_read env) (en_tick env)
                    (en_stations env) (en_tick_store env) g f;
      Some (g', calls ++ map AReorder es).

(** ** [TXRXTask_RxFrameProc] *)

Inductive rx_result : Type := RX_SUCCESS | RX_FAILED | RX_INVA_PARAM | RX_NO_MEM.

Definition TXRXTask_RxFrameProc (env : rx_env) (mode : ModeType) (s : rx_flts) (g : sessions)
  (p : rxpkt) : option (sessions * list rx_act * rx_result) :=
  let f := rp_frame p in
  if rp_c_type p =? M0_RXEVENT then
    match mode with
    | MT_RUNNING => '(g', acts) ← _RxHdl_FrameProc env s g p; Some (g', acts, RX_SUCCESS)
    | _ => Some (g, [AFree f], RX_FAILED)
    end
  else if rp_c_type p =? HOST_EVENT then
    let ev := rp_h_event p in
    if (ev =? SOC_EVT_PS_POLL) || (ev =? SOC_EVT_NULL_DATA) then Some (g, [], RX_SUCCESS)
    else if ev =? SOC_EVT_DATA_QUEUE_STATUS then Some (g, [AFree f], RX_SUCCESS)
    else if ev =? SOC_EVT_TX_LOOPBACK_DONE then Some (g, [ALoopbackDone; AFree f], RX_SUCCESS)
    else if ev =? SOC_EVT_ADD_BA then
      if en_ampdu env then
        let '(wsid, tid, ssn, bufsz) := rp_addba p in
        '(g', es, _) ← ieee80211_addba_handler (en_disc env) (en_null_read env) (en_stations env)
                      (en_buf_size env) g wsid tid ssn bufsz;
        Some (g', map AReorder es ++ [AFree f], RX_SUCCESS)
      else Some (g, [AFree f], RX_SUCCESS)
    else if ev =? SOC_EVT_ACK then Some (g, [AFree f], RX_SUCCESS)
    else if en_msg env then Some (g, [AMsgSend f], RX_SUCCESS)
    else Some (g, [AFree f], RX_NO_MEM)
  else Some (g, [AFree f], RX_INVA_PARAM).

(** ** The filter tables *)

Section filter_lemmas.
Context {A : Type} (cb : A -> option Z) (zero : A).
Hypothesis Hzero : cb zero = None.

Definition inuse (x : A) : nat := match cb x with Some _ => 1 | None => 0 end.

Lemma used_cons x t : length (used cb (x :: t)) = (inuse x + length (used cb t))%nat.
Proof.
  unfold used, inuse. rewrite filter_cons. destruct (cb x) as [c|] eqn:E.
  - rewrite decide_True by by exists c. done.
  - rewrite decide_False by by intros [? ?]. done.
Qed.

Lemma used_insert t i x y :
  t !! i = Some x -> (length (used cb (<[i := y]> t)) + inuse x = length (used cb t) + inuse y)%nat.
Proof.
  revert i; induction t as [|z t IH]; intros [|i] H; simplify_eq/=; rewrite !used_cons; [lia|].
  specialize (IH i H). lia.
Qed.

Lemma used_le t : (length (used cb t) <= length t)%nat.
Proof. unfold used. apply length_filter. Qed.

(** What the search loop returns. *)
Lemma find_slots_spec flt t : forall i empty existing,
  match find_slots cb flt i t empty existing with
  | (e, x) =>
      (e = empty /\ length (used cb t) = length t \/
       exists k a, e = Some (i + k)%nat /\ t !! k = Some a /\ cb a = None) /\
      (x = existing \/ exists k a, x = Some (i + k)%nat /\ t !! k = Some a /\ is_Some (cb a) /\ cb a = cb flt)
  end.
Proof.
  induction t as [|a t IH]; intros i empty existing; simpl; [by auto|].
  rewrite used_cons. unfold inuse. destruct (cb a) as [c|] eqn:Ec.
  - specialize (IH (S i) empty (if bool_decide (cb flt = Some c) then Some i else existing)).
    destruct (find_slots _ _ _ _ _ _) as [e x]. destruct IH as [He Hx]. split.
    + destruct He as [[-> Hl]|(k & b & -> & Hk & Hb)]; [left; split; [done|lia]|right].
      exists (S k), b. split; [f_equal; lia|done].
    + destruct Hx as [->|(k & b & -> & Hk & Hb)].
      * case_bool_decide as Hc; [|by left]. right. exists 0%nat, a. rewrite Ec.
        split_and!; [f_equal; lia|done|done|by rewrite Hc].
      * right. exists (S k), b. split; [f_equal; lia|done].
  - specialize (IH (S i) (Some i) existing). destruct (find_slots _ _ _ _ _ _) as [e x].
    destruct IH as [He Hx]. split.
    + right. destruct He as [[-> Hl]|(k & b & -> & Hk & Hb)]; [by exists 0%nat, a; rewrite Nat.add_0_r|].
      exists (S k), b. split; [f_equal; lia|done].
    + destruct Hx as [->|(k & b & -> & Hk & Hb)]; [by left|right].
      exists (S k), b. split; [f_equal; lia|done].
Qed.

(** The counter stays the number of slots in use, and a filter is added exactly
    when a slot is free. *)
Lemma set_rx_flt_ok flt act t num :
  is_Some (cb flt) -> num = Z.of_nat (length (used cb t)) -> (length t <= 255)%nat ->
  match set_rx_flt cb zero flt act t num with
  | (t', num', ret) =>
      num' = Z.of_nat (length (used cb t')) /\ length t' = length t /\
      (act = SSV6XXX_CB_ADD -> ret = true <-> (length (used cb t) < length t)%nat)
  end.
Proof.
  intros [c Hc] -> Hlen. unfold set_rx_flt. pose proof (used_le t) as Hle.
  pose proof (find_slots_spec flt t 0 None None) as Hs.
  destruct (find_slots _ _ _ _ _ _) as [empty existing]. destruct Hs as [He Hx].
  assert (Hput : forall i x y, t !! i = Some x -> 
    Z.of_nat (length (used cb (<[i := y]> t))) = Z.of_nat (length (used cb t)) + Z.of_nat (inuse y) - Z.of_nat (inuse x)).
  { intros i x y Hi. pose proof (used_insert t i x y Hi). lia. }
  assert (Hins : forall i y, Z.of_nat (length (used cb (<[i := y]> t))) <= 255).
  { intros i y. pose proof (used_le (<[i := y]> t)). rewrite length_insert in *. lia. }
  assert (Hcf : inuse flt = 1%nat) by (unfold inuse; by rewrite Hc).
  assert (Hcz : inuse zero = 0%nat) by (unfold inuse; by rewrite Hzero).
  destruct act.
  - destruct He as [[-> Hl]|(k & a & -> & Hk & Ha)].
    + split_and!; [done|done|]. intros _. split; [done|lia].
    + simpl. assert (inuse a = 0%nat) by (unfold inuse; by rewrite Ha).
      pose proof (Hput k a flt Hk) as E. pose proof (Hins k flt). rewrite length_insert.
      split_and!; [unfold u8; rewrite Z.mod_small; lia|done|].
      intros _. split; [|done]. intros _. pose proof (used_insert t k a flt Hk).
      pose proof (used_le (<[k := flt]> t)). rewrite length_insert in *. lia.
  - destruct Hx as [->|(k & a & -> & Hk & Ha & _)]; [done|]. simpl.
    destruct Ha as [ca Ha]. assert (inuse a = 1%nat) by (unfold inuse; by rewrite Ha).
    pose proof (Hput k a zero Hk). rewrite length_insert. destruct empty; 
      (split_and!; [unfold u8; rewrite Z.mod_small; lia|done|done]).
  - destruct Hx as [->|(k & a & -> & Hk & Ha & _)]; [done|]. simpl.
    destruct Ha as [ca Ha]. assert (inuse a = 1%nat) by (unfold inuse; by rewrite Ha).
    pose proof (Hput k a flt Hk). rewrite length_insert. destruct empty; (split_and!; [lia|done|done]).
Qed.
End filter_lemmas.

(** ** Ownership *)

(** The frames an action disposes of. *)
Definition disposed_by (a : rx_act) : option rx_frame :=
  match a with
  | AFree f | AMsgSend f => Some f
  | ACall _ f SSV6XXX_DATA_CONT => None
  | ACall _ f _ => Some f
  | AReorder e => Some (ev_frame e)
  | ALoopbackDone => None
  end.
Definition disposed (acts : list rx_act) : list rx_frame := omap disposed_by acts.

(** The frames stored in the session table. *)
Definition table_frames (g : sessions) : list rx_frame := concat (map frames_of (concat g)).

(** The packets nobody takes: 802.11 frames without a known interface, and
    power-save events of access-point mode. *)
Definition leaks (env : rx_env) (mode : ModeType) (p : rxpkt) : bool :=
  ((rp_c_type p =? M0_RXEVENT) && bool_decide (mode = MT_RUNNING)
   && (MAX_VIF_NUM <=? rx_bssid_idx (rp_frame p)) && rx_f80211 (rp_frame p)
   && negb (match en_hw_mode0 env with SSV6XXX_HWM_SCONFIG => true | _ => false end))
  || ((rp_c_type p =? HOST_EVENT)
      && ((rp_h_event p =? SOC_EVT_PS_POLL) || (rp_h_event p =? SOC_EVT_NULL_DATA))).

Definition session_ok (n : nat) (s : rx_ba_session_desc) : Prop :=
  flushable s /\ length (reorder_buf s) = n /\ (buf_size s = 0 /\ frames_of s = [] \/ ba_inv s).

Definition table_ok (env : rx_env) (g : sessions) : Prop :=
  length g = Z.to_nat (en_stations env) /\
  Forall (fun row => exists s, row = [s] /\ session_ok (Z.to_nat (en_buf_size env)) s) g.

(** Field ranges; an agreement fits the buffer; no matching filter has a [NULL]
    callback. *)
Definition pkt_ok (env : rx_env) (s : rx_flts) (p : rxpkt) : Prop :=
  let f := rp_frame p in
  0 <= rx_wsid f /\ 0 <= rx_tid f /\ 0 <= rx_seqnum f < 4096 /\ 0 <= rp_bar_control p /\
  (let '(wsid, tid, ssn, bs) := rp_addba p in
   0 <= wsid /\ 0 <= tid /\ 0 <= ssn < 4096 /\ 2 <= bs /\ (bs | 4096) /\ bs <= en_buf_size env) /\
  is_Some (flt_calls s p).

(** The frames a packet hands over: its frame once, unless it leaks, and once
    more for every matching filter but the last whose callback keeps it. *)
Definition keeps (env : rx_env) (c : Z) : bool :=
  negb (bool_decide (en_cb env c = SSV6XXX_DATA_CONT)).

Definition kept_before_last (env : rx_env) (mode : ModeType) (s : rx_flts) (p : rxpkt) : nat :=
  if (rp_c_type p =? M0_RXEVENT) && bool_decide (mode = MT_RUNNING)
     && (rx_bssid_idx (rp_frame p) <? MAX_VIF_NUM)
  then length (filter (keeps env) (removelast (default [] (flt_calls s p)))) else 0%nat.

Definition handed_over (env : rx_env) (mode : ModeType) (s : rx_flts) (p : rxpkt) : list rx_frame :=
  replicate ((if leaks env mode p then 0 else 1) + kept_before_last env mode s p) (rp_frame p).

(** The packet makes a release pass an empty slot: a Block-Ack-Request or a data
    frame over a missing sequence number, an agreement for a session that does
    not fill its buffer. *)
Definition pkt_gap (g : sessions) (p : rxpkt) : Prop :=
  let f := rp_frame p in
  if rp_c_type p =? M0_RXEVENT then
    if rx_f80211 f then
      IS_BAR (rp_fc p) = true /\
      exists sess, get_session g (rx_wsid f) (Z.shiftr (rp_bar_control p) 12) = Some sess /\
                   missing sess (Z.shiftr (rp_bar_start_seq p) 4)
    else exists sess, get_session g (rx_wsid f) (rx_tid f) = Some sess /\
                   passes_gap sess (OpRx f 0 (fun _ => 0) (fun _ => false))
  else
    rp_h_event p = SOC_EVT_ADD_BA /\
    let '(wsid, tid, _, _) := rp_addba p in
    exists sess, get_session g wsid tid = Some sess /\ None ∈ reorder_buf sess.

Lemma disposed_app a b : disposed (a ++ b) = disposed a ++ disposed b.
Proof. apply omap_app. Qed.

Lemma disposed_events es : disposed (map AReorder es) = map ev_frame es.
Proof.
  induction es as [|e es IH]; [done|]. cbn [map]. rewrite <-IH. done.
Qed.

(** What the callbacks keep. *)
Lemma disposed_calls env f cs :
  disposed (map (fun c => ACall c f (en_cb env c)) cs) = replicate (length (filter (keeps env) cs)) f.
Proof.
  induction cs as [|c cs IH]; [done|]. unfold disposed in *. cbn [map omap list_omap].
  rewrite filter_cons, IH. unfold keeps. by destruct (en_cb env c).
Qed.

Lemma keeps_last env cs :
  length (filter (keeps env) cs) =
  ((if bool_decide (data_ret env cs = SSV6XXX_DATA_CONT) then 0 else 1)
   + length (filter (keeps env) (removelast cs)))%nat.
Proof.
  destruct cs as [|c cs _] using rev_ind; [done|].
  rewrite removelast_last, list.filter_app, length_app. unfold data_ret. rewrite last_snoc.
  rewrite filter_cons, filter_nil.
  assert (keeps env c = negb (bool_decide (en_cb env c = SSV6XXX_DATA_CONT))) as -> by done.
  destruct (bool_decide (en_cb env c = _)); simpl; lia.
Qed.

Lemma table_frames_app g h : table_frames (g ++ h) = table_frames g ++ table_frames h.
Proof. unfold table_frames. by rewrite concat_app, map_app, concat_app. Qed.

Lemma table_frames_cons s g : table_frames ([s] :: g) = frames_of s ++ table_frames g.
Proof. done. Qed.

(** A session of the table and what replacing it does. *)
Lemma table_session env g wsid tid :
  table_ok env g -> 0 <= wsid < en_stations env -> 0 <= tid < 1 ->
  exists s rest, get_session g wsid tid = Some s /\ session_ok (Z.to_nat (en_buf_size env)) s /\
    table_frames g ≡ₚ frames_of s ++ rest /\
    forall s', session_ok (Z.to_nat (en_buf_size env)) s' ->
      table_ok env (put_session g wsid tid s') /\
      table_frames (put_session g wsid tid s') ≡ₚ frames_of s' ++ rest.
Proof.
  intros [Hlen Hg] Hw Ht. assert (tid = 0) as -> by lia.
  destruct (lookup_lt_is_Some_2 g (Z.to_nat wsid)) as [row Hrow]; [lia|].
  destruct (Forall_lookup_1 _ _ _ _ Hg Hrow) as (s & -> & Hs).
  apply list_elem_of_split_length in Hrow as (g1 & g2 & -> & Hi).
  exists s, (table_frames (g1 ++ g2)). unfold get_session, put_session. rewrite Hi.
  rewrite list_lookup_middle by done. split_and!; [done|done| |].
  - rewrite !table_frames_app, table_frames_cons. solve_Permutation.
  - intros s' Hs'. rewrite alter_app_r_alt by lia. rewrite Nat.sub_diag. simpl.
    apply Forall_app in Hg as [Hg1 Hg2]. apply list.Forall_cons_1 in Hg2 as [_ Hg2]. split.
    + split; [rewrite <-Hlen, !length_app; done|]. apply Forall_app_2; [done|].
      apply list.Forall_cons_2; [by exists s'|done].
    + rewrite !table_frames_app, table_frames_cons. solve_Permutation.
Qed.

Section path.
Context (env : rx_env).
Hypothesis Hnull : null_safe (en_null_read env).

Lemma session_step_kept s op :
  session_ok (Z.to_nat (en_buf_size env)) s -> buf_size s <> 0 -> Forall frame_ok (rx_frames [op]) ->
  exists s' es, session_step (en_null_read env) s op = Some (s', es) /\
    session_ok (Z.to_nat (en_buf_size env)) s' /\
    rx_frames [op] ++ frames_of s ≡ₚ map ev_frame es ++ frames_of s'.
Proof.
  intros (_ & Hl & [[H0 _]|I]) Hne Hok; [done|].
  destruct (session_step_ok (en_null_read env) s op Hnull I Hok) as (s' & es & n & E & I' & _ & _ & HP & _ & Hl').
  exists s', es. split_and!; [done| |done]. split_and!; [by apply ba_inv_flushable|congruence|by right].
Qed.

(** A data frame in the reorder table. *)
Lemma reorder_kept g f :
  table_ok env g -> 0 <= rx_wsid f -> 0 <= rx_tid f -> frame_ok f ->
  exists g' es, ieee80211_rx_reorder_ampdu (en_disc env) (en_null_read env) (en_tick env)
      (en_stations env) (en_tick_store env) g f = Some (g', es) /\ table_ok env g' /\
    f :: table_frames g ≡ₚ map ev_frame es ++ table_frames g'.
Proof.
  intros Hg Hw Ht Hf. unfold ieee80211_rx_reorder_ampdu.
  rewrite (proj2 (Z.leb_gt _ _)) by apply Hf.
  assert (Hby : exists g' es, Some (g, [Deliver f]) = Some (g', es) /\ table_ok env g' /\
    f :: table_frames g ≡ₚ map ev_frame es ++ table_frames g') by (by exists g, [Deliver f]).
  destruct (rx_f80211 f); [done|]. destruct (negb (rx_qos f)); [done|].
  destruct (Z.leb_spec (en_stations env) (rx_wsid f)); [done|].
  destruct (Z.leb_spec 1 (rx_tid f)); [done|].
  destruct (table_session env g _ _ Hg (conj Hw H) (conj Ht H0)) as (s & rest & -> & Hs & HP & Hput).
  cbn [mbind option_bind]. destruct (Z.eqb_spec (buf_size s) 0) as [|Hne]; [done|].
  destruct (session_step_kept s (OpRx f (en_tick_store env) (en_tick env) (en_disc env)) Hs Hne)
    as (s' & es & E & Hs' & HQ); [by repeat constructor; apply Hf|].
  simpl in E. destruct (ieee80211_sta_manage_reorder_buf _ _ _ _ _ _) as [[[s1 e1] consumed]|]; [|done].
  cbn [mbind option_bind] in *. injection E as -> Ees. destruct (Hput _ Hs') as [Hg' HP'].
  exists (put_session g (rx_wsid f) (rx_tid f) s'), es. split_and!; [by destruct consumed; subst|done|].
  rewrite HP, HP'. simpl in HQ. rewrite (app_assoc (map _ es)), <-HQ. done.
Qed.

(** A Block-Ack-Request. *)
Lemma bar_kept g wsid control ssn :
  table_ok env g -> 0 <= wsid -> 0 <= control ->
  exists g' es, RxHdl_handle_bar (en_disc env) (en_null_read env) (en_stations env) g wsid control ssn
      = Some (g', es) /\ table_ok env g' /\
    table_frames g ≡ₚ map ev_frame es ++ table_frames g'.
Proof.
  intros Hg Hw Hc. unfold RxHdl_handle_bar.
  assert (Hby : exists g' es, Some (g, []) = Some (g', es) /\ table_ok env g' /\
    table_frames g ≡ₚ map ev_frame es ++ table_frames g') by (by exists g, []).
  destruct (Z.ltb_spec wsid (en_stations env)); [|done].
  destruct (Z.ltb_spec (Z.shiftr control 12) 1) as [Ht|]; [|done]. cbn [andb].
  assert (0 <= Z.shiftr control 12) by by apply Z.shiftr_nonneg.
  destruct (table_session env g wsid (Z.shiftr control 12) Hg) as (s & rest & -> & Hs & HP & Hput); [done..|].
  cbn [mbind option_bind]. destruct (Z.eqb_spec (buf_size s) 0) as [|Hne]; [done|]. cbn [negb].
  destruct (session_step_kept s (OpBar ssn (en_disc env)) Hs Hne) as (s' & es & E & Hs' & HQ); [constructor|].
  simpl in E. rewrite E. cbn [mbind option_bind]. destruct (Hput _ Hs') as [Hg' HP'].
  do 2 eexists. split_and!; [done|done|]. rewrite HP, HP'. simpl in HQ. by rewrite HQ, app_assoc.
Qed.

(** A Block-Ack agreement. *)
Lemma addba_kept g wsid tid ssn bs :
  table_ok env g -> 0 <= wsid -> 0 <= tid -> 0 <= ssn < 4096 -> 2 <= bs -> (bs | 4096) -> bs <= en_buf_size env ->
  exists g' es b, ieee80211_addba_handler (en_disc env) (en_null_read env) (en_stations env) (en_buf_size env)
      g wsid tid ssn bs = Some (g', es, b) /\ table_ok env g' /\
    table_frames g ≡ₚ map ev_frame es ++ table_frames g'.
Proof.
  intros Hg Hw Ht Hssn Hbs Hdiv Hfit. unfold ieee80211_addba_handler.
  destruct (Z.ltb_spec wsid (en_stations env)) as [Hws|]; [|by exists g, [], false].
  destruct (Z.ltb_spec tid 1) as [Htl|]; [|by exists g, [], false]. cbn [andb].
  destruct (table_session env g wsid tid Hg) as (s & rest & -> & Hs & HP & Hput); [done..|].
  cbn [mbind option_bind]. destruct Hs as (Hfl & Hl & _).
  destruct (addba_establishes (en_disc env) (en_null_read env) s ssn bs Hnull Hfl Hbs Hdiv)
    as (s' & es & E & I & _ & Hem & HQ); [lia|done|].
  rewrite Hl, Z2Nat.id in E by lia. rewrite E. cbn [mbind option_bind].
  assert (Hs' : session_ok (Z.to_nat (en_buf_size env)) s').
  { split_and!; [by apply ba_inv_flushable| |by right]. revert E. unfold addba_session.
    destruct (flush_all_ok (en_disc env) (en_null_read env) Hnull s Hfl) as (s1 & e1 & E1 & _ & _ & _ & Hb).
    rewrite Hl in E1, Hb. rewrite E1. cbn [mbind option_bind]. intros [= <- _]. simpl.
    by rewrite Hb, length_replicate. }
  destruct (Hput _ Hs') as [Hg' HP']. do 3 eexists. split_and!; [done|done|].
  rewrite HP, HP', Hem, HQ. done.
Qed.

Lemma hdl_kept s g p :
  table_ok env g -> pkt_ok env s p ->
  let leak := (MAX_VIF_NUM <=? rx_bssid_idx (rp_frame p)) && rx_f80211 (rp_frame p)
   && negb (match en_hw_mode0 env with SSV6XXX_HWM_SCONFIG => true | _ => false end) in
  let extra := if rx_bssid_idx (rp_frame p) <? MAX_VIF_NUM
    then length (filter (keeps env) (removelast (default [] (flt_calls s p)))) else 0%nat in
  exists g' acts, _RxHdl_FrameProc env s g p = Some (g', acts) /\ table_ok env g' /\
    replicate ((if leak then 0 else 1) + extra) (rp_frame p) ++ table_frames g
      ≡ₚ disposed acts ++ table_frames g'.
Proof.
  intros Hg (Hw & Ht & Hs & Hb & _ & cs & Hcs) leak extra. unfold _RxHdl_FrameProc, leak, extra.
  set (f := rp_frame p) in *. rewrite Z.ltb_antisym.
  destruct (Z.leb_spec MAX_VIF_NUM (rx_bssid_idx f)) as [Hv|Hv]; cbn [andb negb].
  { destruct (rx_f80211 f && _); [by exists g, []|by exists g, [AFree f]]. }
  rewrite Hcs. cbn [mbind option_bind default from_option]. set (calls := map _ cs).
  pose proof (disposed_calls env f cs) as Hcalls. rewrite keeps_last in Hcalls. fold calls in Hcalls.
  set (k := length (filter (keeps env) (removelast cs))) in *. change (id cs) with cs.
  change (length (filter (keeps env) (removelast cs))) with k.
  destruct (bool_decide _) eqn:Ed; cbn [negb].
  2: { exists g, calls. rewrite Hcalls. by split_and!. }
  destruct (rx_f80211 f && IS_BAR (rp_fc p)).
  - destruct (bar_kept g (rx_wsid f) (rp_bar_control p) (rp_bar_start_seq p) Hg Hw Hb) as (g' & es & -> & Hg' & HP).
    cbn [mbind option_bind]. do 2 eexists. split_and!; [done|done|].
    rewrite !disposed_app, Hcalls, disposed_events, HP. simpl. solve_Permutation.
  - destruct (reorder_kept g f Hg Hw Ht (conj Hs Hv)) as (g' & es & -> & Hg' & HP).
    cbn [mbind option_bind]. do 2 eexists. split_and!; [done|done|].
    rewrite disposed_app, Hcalls, disposed_events, <-app_assoc, <-HP. simpl. solve_Permutation.
Qed.

Lemma proc_kept mode s g p :
  table_ok env g -> pkt_ok env s p ->
  exists g' acts r, TXRXTask_RxFrameProc env mode s g p = Some (g', acts, r) /\ table_ok env g' /\
    handed_over env mode s p ++ table_frames g ≡ₚ disposed acts ++ table_frames g'.
Proof.
  intros Hg Hp. unfold TXRXTask_RxFrameProc, handed_over, kept_before_last, leaks.
  assert (Hfree : forall r : rx_result, exists g' acts (r' : rx_result), Some (g, [AFree (rp_frame p)], r) = Some (g', acts, r') /\
    table_ok env g' /\ [rp_frame p] ++ table_frames g ≡ₚ disposed acts ++ table_frames g') by eauto 10.
  destruct (Z.eqb_spec (rp_c_type p) M0_RXEVENT) as [E|E].
  - replace (rp_c_type p =? HOST_EVENT) with false by (rewrite E; done). cbn [andb].
    rewrite orb_false_r. destruct mode; [exact (Hfree _)| |exact (Hfree _)].
    rewrite bool_decide_true by done. cbn [andb].
    destruct (hdl_kept s g p Hg Hp) as (g' & acts & -> & Hg' & HP). cbn [mbind option_bind]. eauto 10.
  - cbn [andb orb]. rewrite Nat.add_0_r.
    destruct (Z.eqb_spec (rp_c_type p) HOST_EVENT) as [E2|E2]; [|apply Hfree]. cbn [andb].
    destruct ((rp_h_event p =? SOC_EVT_PS_POLL) || _); [by exists g, [], RX_SUCCESS|].
    destruct (rp_h_event p =? _); [apply Hfree|].
    destruct (rp_h_event p =? _); [by exists g, [ALoopbackDone; AFree (rp_frame p)], RX_SUCCESS|].
    destruct (rp_h_event p =? SOC_EVT_ADD_BA).
    + destruct (en_ampdu env); [|apply Hfree]. destruct Hp as (_ & _ & _ & _ & Ha & _).
      destruct (rp_addba p) as [[[wsid tid] ssn] bs]. destruct Ha as (? & ? & ? & ? & ? & ?).
      destruct (addba_kept g wsid tid ssn bs Hg) as (g' & es & b & -> & Hg' & HP); [done..|].
      cbn [mbind option_bind]. do 3 eexists. split_and!; [done|done|].
      rewrite disposed_app, disposed_events, HP. simpl. solve_Permutation.
    + destruct (rp_h_event p =? SOC_EVT_ACK); [apply Hfree|].
      destruct (en_msg env); [by exists g, [AMsgSend (rp_frame p)], RX_SUCCESS|apply Hfree].
Qed.
End path.

(** The packets of a receive task, one after the other. *)
Fixpoint rx_run (env : rx_env) (mode : ModeType) (s : rx_flts) (g : sessions) (ps : list rxpkt) :
  option (sessions * list rx_act) :=
  match ps with
  | [] => Some (g, [])
  | p :: r =>
      '(g1, a1, _) ← TXRXTask_RxFrameProc env mode s g p;
      '(g2, a2) ← rx_run env mode s g1 r;
      Some (g2, a1 ++ a2)
  end.

(** The surroundings on a platform whose load through NULL answers. *)
Definition benign (env : rx_env) : rx_env :=
  mk_rx_env (en_cb env) (en_disc env) (Some 0) (en_tick env) (en_tick_store env) (en_stations env)
    (en_buf_size env) (en_ampdu env) (en_msg env) (en_hw_mode0 env).

Lemma step_null nr s op :
  session_ok (length (reorder_buf s)) s -> buf_size s <> 0 -> Forall frame_ok (rx_frames [op]) ->
  session_step nr s op = session_step (Some 0) s op \/
  session_step nr s op = None /\ ~ null_safe nr /\ passes_gap s op.
Proof. intros (_ & _ & [[H0 _]|I]) Hne Hok; [done|]. by apply session_step_null. Qed.

Section null_load.
Context (env : rx_env) (s : rx_flts) (g : sessions).
Hypothesis Hg : table_ok env g.

Lemma reorder_null f :
  0 <= rx_wsid f -> 0 <= rx_tid f -> frame_ok f ->
  let run nr := ieee80211_rx_reorder_ampdu (en_disc env) nr (en_tick env) (en_stations env)
                  (en_tick_store env) g f in
  run (en_null_read env) = run (Some 0) \/
  run (en_null_read env) = None /\ ~ null_safe (en_null_read env) /\ rx_f80211 f = false /\
    exists sess, get_session g (rx_wsid f) (rx_tid f) = Some sess /\
      passes_gap sess (OpRx f 0 (fun _ => 0) (fun _ => false)).
Proof using Hg.
  intros Hw Ht Hf. cbv zeta beta. unfold ieee80211_rx_reorder_ampdu.
  rewrite (proj2 (Z.leb_gt _ _)) by apply Hf.
  destruct (rx_f80211 f); [by left|]. destruct (negb (rx_qos f)); [by left|].
  destruct (Z.leb_spec (en_stations env) (rx_wsid f)); [by left|].
  destruct (Z.leb_spec 1 (rx_tid f)); [by left|].
  destruct (table_session env g _ _ Hg (conj Hw H) (conj Ht H0)) as (sess & rest & Eg & Hs & _ & _).
  rewrite Eg. cbn [mbind option_bind].
  destruct (Z.eqb_spec (buf_size sess) 0) as [|Hne]; [by left|].
  pose proof Hs as (_ & Hl & _). rewrite <-Hl in Hs.
  destruct (step_null (en_null_read env) sess (OpRx f (en_tick_store env) (en_tick env) (en_disc env)) Hs Hne)
    as [E|(E & Hn & Hgap)]; [by repeat constructor; apply Hf|left|right]; cbn [session_step] in E.
  - destruct (ieee80211_sta_manage_reorder_buf _ (en_null_read env) _ _ _ _) as [[[s1 e1] c1]|] eqn:E1,
      (ieee80211_sta_manage_reorder_buf _ (Some 0) _ _ _ _) as [[[s2 e2] c2]|] eqn:E2;
      cbn [mbind option_bind] in *; [|done..]. injection E as -> He.
    destruct c1, c2; by rewrite ?He.
  - destruct (ieee80211_sta_manage_reorder_buf _ _ _ _ _ _) as [[[s1 e1] c1]|]; [done|].
    cbn [mbind option_bind]. eauto 10.
Qed.

Lemma bar_null wsid control ssn :
  0 <= wsid -> 0 <= control ->
  let run nr := RxHdl_handle_bar (en_disc env) nr (en_stations env) g wsid control ssn in
  run (en_null_read env) = run (Some 0) \/
  run (en_null_read env) = None /\ ~ null_safe (en_null_read env) /\
    exists sess, get_session g wsid (Z.shiftr control 12) = Some sess /\ missing sess (Z.shiftr ssn 4).
Proof using Hg.
  intros Hw Hc. cbv zeta beta. unfold RxHdl_handle_bar.
  destruct (Z.ltb_spec wsid (en_stations env)); cbn [andb]; [|by left].
  destruct (Z.ltb_spec (Z.shiftr control 12) 1) as [Ht|]; [|by left].
  assert (0 <= Z.shiftr control 12) by by apply Z.shiftr_nonneg.
  destruct (table_session env g wsid (Z.shiftr control 12) Hg) as (sess & rest & -> & Hs & _); [done..|].
  cbn [mbind option_bind]. destruct (Z.eqb_spec (buf_size sess) 0) as [|Hne]; cbn [negb]; [by left|].
  pose proof Hs as (_ & Hl & _). rewrite <-Hl in Hs.
  destruct (step_null (en_null_read env) sess (OpBar ssn (en_disc env)) Hs Hne) as [E|(E & Hn & Hgap)];
    [constructor|left|right]; cbn [session_step passes_gap] in *; rewrite E; eauto 10.
Qed.

Lemma addba_null wsid tid ssn bs :
  0 <= wsid -> 0 <= tid -> 0 <= en_buf_size env ->
  let run nr := ieee80211_addba_handler (en_disc env) nr (en_stations env) (en_buf_size env) g wsid tid ssn bs in
  run (en_null_read env) = run (Some 0) \/
  run (en_null_read env) = None /\ ~ null_safe (en_null_read env) /\
    exists sess, get_session g wsid tid = Some sess /\ None ∈ reorder_buf sess.
Proof using Hg.
  intros Hw Ht Hsz. cbv zeta beta. unfold ieee80211_addba_handler.
  destruct (Z.ltb_spec wsid (en_stations env)) as [Hws|]; cbn [andb]; [|by left].
  destruct (Z.ltb_spec tid 1) as [Htl|]; [|by left].
  destruct (table_session env g wsid tid Hg) as (sess & rest & -> & (Hfl & Hl & _) & _); [done..|].
  cbn [mbind option_bind].
  destruct (addba_session_null (en_disc env) (en_null_read env) sess ssn bs Hfl) as [E|(E & Hn & Hin)];
    rewrite Hl, Z2Nat.id in E by done; rewrite E; [by left|right; eauto 10].
Qed.

(** A packet is handled as on a [null_safe] platform, or it passes a gap and
    the path halts. *)
Lemma proc_null mode p :
  pkt_ok env s p ->
  TXRXTask_RxFrameProc env mode s g p = TXRXTask_RxFrameProc (benign env) mode s g p \/
  TXRXTask_RxFrameProc env mode s g p = None /\ ~ null_safe (en_null_read env) /\ pkt_gap g p.
Proof using Hg.
  intros (Hw & Ht & Hs & Hb & Ha & cs & Hcs). unfold TXRXTask_RxFrameProc, pkt_gap.
  destruct (Z.eqb_spec (rp_c_type p) M0_RXEVENT) as [E|E].
  - destruct mode; [by left| |by left]. unfold _RxHdl_FrameProc. rewrite Hcs.
    destruct (Z.leb_spec MAX_VIF_NUM (rx_bssid_idx (rp_frame p))) as [Hv|Hv]; [by left|].
    cbn [mbind option_bind]. change (data_ret (benign env) cs) with (data_ret env cs).
    destruct (negb _); [by left|].
    destruct (rx_f80211 (rp_frame p) && IS_BAR (rp_fc p)) eqn:Ebar.
    + apply andb_true_iff in Ebar as [-> Ebar]. cbn [benign en_disc en_null_read en_stations].
      destruct (bar_null (rx_wsid (rp_frame p)) (rp_bar_control p) (rp_bar_start_seq p) Hw Hb)
        as [->|(-> & Hn & Hgap)]; [by left|by right].
    + cbn [benign en_disc en_null_read en_stations en_tick en_tick_store].
      destruct (reorder_null (rp_frame p) Hw Ht (conj Hs Hv)) as [->|(-> & Hn & -> & Hgap)]; [by left|by right].
  - destruct (rp_c_type p =? HOST_EVENT); [|by left]. destruct (_ || _); [by left|].
    destruct (rp_h_event p =? _); [by left|]. destruct (rp_h_event p =? _); [by left|].
    destruct (Z.eqb_spec (rp_h_event p) SOC_EVT_ADD_BA) as [Eadd|].
    2: { by left. }
    cbn [benign en_ampdu]. destruct (en_ampdu env); [|by left].
    destruct (rp_addba p) as [[[wsid tid] ssn] bs]. destruct Ha as (? & ? & ? & ? & ? & ?).
    cbn [benign en_disc en_null_read en_stations en_buf_size].
    destruct (addba_null wsid tid ssn bs) as [->|(-> & Hn & Hgap)]; [done|done|lia|by left|by right].
Qed.
End null_load.

(** The frames the packets hand over. *)
Definition taken_over (env : rx_env) (mode : ModeType) (s : rx_flts) (ps : list rxpkt) : list rx_frame :=
  concat (map (handed_over env mode s) ps).

Lemma rx_run_kept env mode s g ps :
  null_safe (en_null_read env) -> table_ok env g -> Forall (pkt_ok env s) ps ->
  exists g' acts, rx_run env mode s g ps = Some (g', acts) /\ table_ok env g' /\
    taken_over env mode s ps ++ table_frames g ≡ₚ disposed acts ++ table_frames g'.
Proof.
  intros Hnull Hg Hps. revert g Hg. induction Hps as [|p ps Hp Hps IH]; intros g Hg; [by exists g, []|].
  cbn [rx_run]. destruct (proc_kept env Hnull mode s g p Hg Hp) as (g1 & a1 & r & -> & Hg1 & HP1).
  cbn [mbind option_bind]. destruct (IH g1 Hg1) as (g2 & a2 & -> & Hg2 & HP2). cbn [mbind option_bind].
  do 2 eexists. split_and!; [done|done|]. unfold taken_over in *. cbn [map concat].
  rewrite disposed_app, <-!app_assoc, <-HP2.
  rewrite (Permutation_app_comm (concat _) (table_frames g)), (Permutation_app_comm (concat _) (table_frames g1)).
  rewrite !app_assoc, HP1. done.
Qed.

(** The path halts at a packet that passes a gap. *)
Definition path_halts (env : rx_env) (mode : ModeType) (s : rx_flts) (g : sessions) (ps : list rxpkt) : Prop :=
  ~ null_safe (en_null_read env) /\ rx_run env mode s g ps = None /\
  exists before p after g1 acts, ps = before ++ p :: after /\
    rx_run env mode s g before = Some (g1, acts) /\ pkt_gap g1 p.

Lemma rx_run_null env mode s ps : forall g,
  table_ok env g -> Forall (pkt_ok env s) ps ->
  rx_run env mode s g ps = rx_run (benign env) mode s g ps \/ path_halts env mode s g ps.
Proof.
  induction ps as [|p ps IH]; intros g Hg Hps; [by left|].
  apply list.Forall_cons_1 in Hps as [Hp Hps]. unfold path_halts. cbn [rx_run].
  destruct (proc_null env s g Hg mode p Hp) as [E|(E & Hn & Hgap)]; rewrite E.
  - destruct (proc_kept (benign env) null_safe_0 mode s g p Hg Hp) as (g1 & a1 & r1 & E1 & Hg1 & _).
    rewrite E1 in *. cbn [mbind option_bind].
    destruct (IH g1 Hg1 Hps) as [->|(Hn & Hr & before & p' & after & g2 & a2 & -> & Eb & Hgap)]; [by left|].
    right. rewrite Hr. split_and!; [done..|].
    exists (p :: before), p', after, g2, (a1 ++ a2). split_and!; [done| |done].
    cbn [rx_run]. rewrite E. cbn [mbind option_bind]. by rewrite Eb.
  - right. split_and!; [done..|]. by exists [], p, ps, g, [].
Qed.

(** C22: whatever sequence of packets arrives, the receive path runs without a
    fault and every packet gets exactly one owner: together with the frames
    stored for reordering before, the packets are exactly the frames freed,
    delivered, taken by a filter callback or sent to the command engine, and
    the frames stored afterwards.  Two kinds of packets are counted otherwise
    ([handed_over]): those in [leaks] have no owner, nobody frees them; and a
    packet matched by several filters has a further owner for each callback but
    the last that keeps it.  The Block-Ack sessions stay well-formed.  There is
    one other outcome: where a load through NULL does not answer with a valid
    interface index, the path halts at a packet whose release passes an empty
    slot ([pkt_gap]).  Conditions: a table of one well-formed session per
    station; sequence numbers below 4096, agreements whose window is at least
    2, divides 4096 and fits the buffer, and no matching filter whose callback
    is NULL. *)
Theorem rx_path_conserves env mode s g ps :
  table_ok env g -> Forall (pkt_ok env s) ps ->
  (exists g' acts, rx_run env mode s g ps = Some (g', acts) /\ table_ok env g' /\
     taken_over env mode s ps ++ table_frames g ≡ₚ disposed acts ++ table_frames g') \/
  path_halts env mode s g ps.
Proof.
  intros Hg Hps. destruct (rx_run_null env mode s ps g Hg Hps) as [->|H]; [left|by right].
  exact (rx_run_kept (benign env) mode s g ps null_safe_0 Hg Hps).
Qed.

(** A station with one session, one Ethernet filter. *)
Definition env1 : rx_env :=
  mk_rx_env (fun _ => SSV6XXX_DATA_ACPT) (fun _ => false) (Some 0) (fun _ => 0) 0 1 64 true true SSV6XXX_HWM_STA.
Definition flts1 : rx_flts :=
  (RxHdl_SetEthRxFlt TxRxHdl_Init (mk_eth_flt 0x888e (Some 7)) SSV6XXX_CB_ADD).1.
Definition pkt (ct q eth ev : Z) : rxpkt :=
  mk_rxpkt ct (demo_frame q) 0 0 0 eth ev (0, 0, 0, 64).

Lemma table1_ok : table_ok env1 [[demo_session 4094 64]].
Proof.
  split; [done|]. constructor; [|constructor]. eexists. split; [done|].
  split_and!; [apply ba_inv_flushable, demo_inv|done|right; apply demo_inv].
Qed.

Lemma rx_path_conserves_witness :
  let ps := [pkt M0_RXEVENT 4095 0x0800 0; pkt M0_RXEVENT 4094 0x888e 0; pkt HOST_EVENT 1 0 SOC_EVT_PS_POLL] in
  (exists g' acts,
    rx_run env1 MT_RUNNING flts1 [[demo_session 4094 64]] ps = Some (g', acts) /\ table_ok env1 g' /\
    [demo_frame 4095; demo_frame 4094] ++ [] ≡ₚ disposed acts ++ table_frames g') \/
  path_halts env1 MT_RUNNING flts1 [[demo_session 4094 64]] ps.
Proof.
  apply (rx_path_conserves env1 MT_RUNNING flts1 [[demo_session 4094 64]]
    [pkt M0_RXEVENT 4095 0x0800 0; pkt M0_RXEVENT 4094 0x888e 0; pkt HOST_EVENT 1 0 SOC_EVT_PS_POLL]).
  - apply table1_ok.
  - assert (Hdiv : (64 | 4096)) by by exists 64.
    repeat (apply list.Forall_cons_2; [split_and!; simpl; try lia; try done|]); [..|constructor];
      eexists; reflexivity.
Defined.

(** ** The filter counters *)

Inductive flt_op : Type :=
| SetWifi (flt : wifi_flt) (act : ssv6xxx_cb_action)
| SetEth (flt : eth_flt) (act : ssv6xxx_cb_action).

Definition flt_step (s : rx_flts) (o : flt_op) : rx_flts * bool :=
  match o with
  | SetWifi flt act => RxHdl_SetWifiRxFlt s flt act
  | SetEth flt act => RxHdl_SetEthRxFlt s flt act
  end.

Definition flt_op_ok (o : flt_op) : Prop :=
  match o with SetWifi flt _ => is_Some (w_cb_fn flt) | SetEth flt _ => is_Some (e_cb_fn flt) end.

Definition flts_ok (s : rx_flts) : Prop :=
  length (rx_wifi_flt s) = RXPKTFLT_NUM /\ wifi_flt_num s = Z.of_nat (length (used w_cb_fn (rx_wifi_flt s))) /\
  length (rx_eth_flt s) = RXPKTFLT_NUM /\ eth_flt_num s = Z.of_nat (length (used e_cb_fn (rx_eth_flt s))).

Lemma flt_step_ok s o :
  flts_ok s -> flt_op_ok o ->
  flts_ok (flt_step s o).1 /\
  match o with
  | SetWifi _ SSV6XXX_CB_ADD => (flt_step s o).2 = true <-> wifi_flt_num s < Z.of_nat RXPKTFLT_NUM
  | SetEth _ SSV6XXX_CB_ADD => (flt_step s o).2 = true <-> eth_flt_num s < Z.of_nat RXPKTFLT_NUM
  | _ => True
  end.
Proof.
  intros (Hl1 & Hn1 & Hl2 & Hn2) Ho. destruct o as [flt act|flt act]; simpl in *.
  - pose proof (set_rx_flt_ok w_cb_fn zero_wifi eq_refl flt act _ _ Ho Hn1 ltac:(rewrite Hl1; unfold RXPKTFLT_NUM; lia)) as H.
    unfold RxHdl_SetWifiRxFlt. destruct (set_rx_flt _ _ _ _ _ _) as [[t n] ret]. destruct H as (H1 & H2 & H3).
    split; [by split_and!; simpl; try congruence|]. simpl. destruct act; try done. rewrite H3 by done. lia.
  - pose proof (set_rx_flt_ok e_cb_fn zero_eth eq_refl flt act _ _ Ho Hn2 ltac:(rewrite Hl2; unfold RXPKTFLT_NUM; lia)) as H.
    unfold RxHdl_SetEthRxFlt. destruct (set_rx_flt _ _ _ _ _ _) as [[t n] ret]. destruct H as (H1 & H2 & H3).
    split; [by split_and!; simpl; try congruence|]. simpl. destruct act; try done. rewrite H3 by done. lia.
Qed.

(** after any sequence of registrations, removals and changes of filters
    with non-[NULL] callbacks, the counters that switch filtering on are the
    numbers of slots in use, the tables keep their size, and an addition
    succeeds exactly when a slot is free. *)
Theorem flt_counts ops o :
  Forall flt_op_ok (o :: ops) ->
  let s := foldl (fun s o => (flt_step s o).1) TxRxHdl_Init ops in
  flts_ok s /\
  match o with
  | SetWifi _ SSV6XXX_CB_ADD => (flt_step s o).2 = true <-> wifi_flt_num s < Z.of_nat RXPKTFLT_NUM
  | SetEth _ SSV6XXX_CB_ADD => (flt_step s o).2 = true <-> eth_flt_num s < Z.of_nat RXPKTFLT_NUM
  | _ => True
  end.
Proof.
  intros Hok. apply list.Forall_cons_1 in Hok as [Ho Hops]. cbv zeta.
  assert (Hs : flts_ok (foldl (fun s o => (flt_step s o).1) TxRxHdl_Init ops)).
  { assert (H0 : flts_ok TxRxHdl_Init) by (split_and!; reflexivity). revert H0. generalize TxRxHdl_Init.
    induction Hops as [|p ops Hp Hops IH]; intros s Hs; [done|]. simpl. apply IH. by apply flt_step_ok. }
  split; [done|]. by apply flt_step_ok.
Qed.

Lemma flt_counts_witness :
  flts_ok (foldl (fun s o => (flt_step s o).1) TxRxHdl_Init
    [SetEth (mk_eth_flt 0x888e (Some 7)) SSV6XXX_CB_ADD; SetEth (mk_eth_flt 0x0806 (Some 8)) SSV6XXX_CB_ADD;
     SetEth (mk_eth_flt 0 (Some 7)) SSV6XXX_CB_REMOVE]) /\ True.
Proof.
  apply (flt_counts
    [SetEth (mk_eth_flt 0x888e (Some 7)) SSV6XXX_CB_ADD; SetEth (mk_eth_flt 0x0806 (Some 8)) SSV6XXX_CB_ADD;
     SetEth (mk_eth_flt 0 (Some 7)) SSV6XXX_CB_REMOVE] (SetWifi (mk_wifi_flt 1 1 (Some 3)) SSV6XXX_CB_MOD)).
  repeat constructor; by eexists.
Defined.

(** Two filters on one Ethernet type: both callbacks get the frame; the second
    passes it on, so it is delivered although the first has accepted it. *)
Example two_filters_two_owners :
  let env := mk_rx_env (fun c => if c =? 7 then SSV6XXX_DATA_ACPT else SSV6XXX_DATA_CONT) (fun _ => false)
    (Some 0) (fun _ => 0) 0 1 64 true true SSV6XXX_HWM_STA in
  let s := (RxHdl_SetEthRxFlt (RxHdl_SetEthRxFlt TxRxHdl_Init (mk_eth_flt 0x888e (Some 8)) SSV6XXX_CB_ADD).1
              (mk_eth_flt 0x888e (Some 7)) SSV6XXX_CB_ADD).1 in
  exists g', TXRXTask_RxFrameProc env MT_RUNNING s [[demo_session 4094 64]] (pkt M0_RXEVENT 4094 0x888e 0)
    = Some (g', [ACall 7 (demo_frame 4094) SSV6XXX_DATA_ACPT; ACall 8 (demo_frame 4094) SSV6XXX_DATA_CONT;
                 AReorder (Deliver (demo_frame 4094))], RX_SUCCESS) /\
    handed_over env MT_RUNNING s (pkt M0_RXEVENT 4094 0x888e 0) = [demo_frame 4094; demo_frame 4094].
Proof. eexists. split; reflexivity. Qed.
