(* ===== verification/HciAggr.v ===== *)
(** * HciAggr: HCI aggregation of [hal/SSV6006/ssv6006_pkt.c]

    On the bus several frames travel in one transfer.  For transmission
    [ssv6006_hal_process_hci_aggr_tx] appends a frame to the transfer buffer,
    behind a header whose [jmp_len] leads to the next header; the number of
    frames and the total length are kept in the first header.  For reception
    [ssv6006_hal_process_hci_rx_aggr] takes a transfer apart and hands each
    frame to a callback.

    Buffers are byte lists; a read or a write outside a buffer is [None] (or
    [Fault] in the receive loop, where running out of fuel is a value of its
    own).  [tx_aggr_walk] shows that what is appended is what a walk along the
    jump lengths finds, [rx_aggr_terminates] that the receive loop ends for every
    content of the buffer, [rx_aggr_splits] that it returns exactly the frames
    of a well-formed transfer.  [rx_short_header_faults] records that a header
    with a length below its own size is not rejected. *)

From stdpp Require Import base list option.
From Stdlib Require Import ZArith Lia.
From S2P Require Import Prelude MsgEvt.

(** ** Byte buffers *)

Definition le16 (x : Z) : list Z := [x mod 256; (x / 256) mod 256].

Definition rd16 (buf : list Z) (off : nat) : option Z :=
  a ← buf !! off; b ← buf !! S off; Some (a + 256 * b).

(** A write of [bs] at [off]. *)
Definition wr (buf : list Z) (off : nat) (bs : list Z) : option (list Z) :=
  if (off + length bs <=? length buf)%nat
  then Some (take off buf ++ bs ++ drop (off + length bs) buf) else None.

(** [n] bytes from [off]. *)
Definition slice (buf : list Z) (off n : nat) : option (list Z) :=
  if (off + n <=? length buf)%nat then Some (take n (drop off buf)) else None.

(** ** Transmission *)

Definition SIZEOF_hci_tx_aggr_info : Z := 8.

(** [((len + 4 - 1) & ~(4 - 1))] *)
Definition align4 (len : Z) : Z := Z.land (u32 (len + 4 - 1)) (u32 (Z.lnot (4 - 1))).

(** [ssv6006_hal_process_hci_aggr_tx]: [mem] are the bytes from
    [OS_FRAME_GET_DATA(tFrame)] on, [len] its data length.  The [tx_aggr_extra]
    bit fields are byte 4 ([aggr_n]) and bytes 5 and 6 ([totol_len]) of the
    first header.  Returns the buffer, [aggr_n] and [*aggr_len]. *)
Definition ssv6006_hal_process_hci_aggr_tx (buf mem : list Z) (len : Z) : option (list Z * Z * Z) :=
  let align_size := align4 len in
  totol_len ← rd16 buf 5;
  let start := Z.to_nat totol_len in
  let jmp := u16 (align_size + SIZEOF_hci_tx_aggr_info) in
  buf ← wr buf start (le16 jmp ++ le16 jmp);
  data ← slice mem 0 (Z.to_nat align_size);
  buf ← wr buf (start + 8) data;
  totol_len ← rd16 buf 5;
  let totol_len := u16 (totol_len + jmp) in
  buf ← wr buf 5 (le16 totol_len);
  buf ← wr buf (start + Z.to_nat align_size + 8) (le16 0 ++ le16 0);
  n ← buf !! 4%nat;
  let n := u8 (n + 1) in
  buf ← wr buf 4 [n];
  Some (buf, n, totol_len + 4).

(** The consumer's view of the format: follow the jump lengths to the zero
    header. *)
Fixpoint walk (fuel : nat) (buf : list Z) (off : nat) : option (list (list Z)) :=
  match fuel with
  | O => None
  | S f =>
      j ← rd16 buf off;
      if j =? 0 then Some []
      else
        p ← slice buf (off + 8) (Z.to_nat j - 8);
        r ← walk f buf (off + Z.to_nat j);
        Some (p :: r)
  end.

(** Frames appended in turn to a buffer. *)
Fixpoint aggregate (buf : list Z) (fs : list (list Z * Z)) (n aggr_len : Z) :
  option (list Z * Z * Z) :=
  match fs with
  | [] => Some (buf, n, aggr_len)
  | (mem, len) :: r =>
      '(buf', n', l') ← ssv6006_hal_process_hci_aggr_tx buf mem len; aggregate buf' r n' l'
  end.

(** ** Reception *)

Definition SIZEOF_hci_rx_aggr_info : Z := 12.
Definition MAX_FRAME_SIZE : Z := 2432.
Definition MAX_RX_PKT_RSVD : Z := 512.
Definition HCI_AGGR_SIZE : Z := 6912.
Definition MAX_HCI_AGGR_SIZE : Z := HCI_AGGR_SIZE + MAX_FRAME_SIZE.

(** The [jmp_mpdu_len] and [accu_rx_len] fields of the header at [off]. *)
Definition jmp_mpdu_len (mem : list Z) (off : Z) : option Z := rd16 mem (Z.to_nat off).
Definition accu_rx_len (mem : list Z) (off : Z) : option Z := rd16 mem (Z.to_nat (off + 2)).

(** [ssv6xxx_aggr_frame_is_last] *)
Definition ssv6xxx_aggr_frame_is_last (mem : list Z) (offset length : Z) : option bool :=
  j ← jmp_mpdu_len mem offset;
  if j + offset =? length - 1 then Some true
  else
    nj ← jmp_mpdu_len mem (offset + j);
    Some ((nj =? 0) || (length - (offset + j) <? nj)).

(** The copy of a frame behind the header into a new frame buffer [fresh], and
    the length its descriptor gives; [None] when [j] is below the header size
    (the size of the copy wraps), or the copy leaves a buffer. *)
Definition copy_mpdu (mem fresh : list Z) (off j : Z) : option (list Z * Z) :=
  if j <? SIZEOF_hci_rx_aggr_info then None
  else
    data ← slice mem (Z.to_nat (off + SIZEOF_hci_rx_aggr_info)) (Z.to_nat (j - SIZEOF_hci_rx_aggr_info));
    frame ← wr fresh 0 data;
    len ← rd16 frame 0;
    Some (frame, len).

(** [ssv6006_hal_process_hci_rx_aggr]: the frames given to the callback and the
    returned length of the next transfer.  Outer [None]: the fuel ran out. *)
Fixpoint rx_aggr_loop (fuel : nat) (mem fresh : list Z) (off len : Z) :
  option (outcome (list (list Z * Z) * Z)) :=
  match fuel with
  | O => None
  | S f =>
      if len <=? off then Some (Ret ([], 0))
      else
        match ssv6xxx_aggr_frame_is_last mem off len, jmp_mpdu_len mem off with
        | Some true, Some j =>
            if (len <? off + SIZEOF_hci_rx_aggr_info) || (len <? off + j) then Some (Ret ([], 0))
            else
              match copy_mpdu mem fresh off j, accu_rx_len mem off with
              | Some p, Some accu =>
                  Some (Ret ([p], if accu <=? MAX_HCI_AGGR_SIZE + MAX_RX_PKT_RSVD
                                  then u32 (accu - j) else 0))
              | _, _ => Some Fault
              end
        | Some false, Some j =>
            if (j =? 0) || (MAX_FRAME_SIZE <? j) || (len <? off + SIZEOF_hci_rx_aggr_info)
               || (len <? off + j)
            then Some (Ret ([], 0))
            else
              match copy_mpdu mem fresh off j with
              | None => Some Fault
              | Some p =>
                  match rx_aggr_loop f mem fresh (off + j) len with
                  | Some (Ret (ps, nxt)) => Some (Ret (p :: ps, nxt))
                  | r => r
                  end
              end
        | _, _ => Some Fault
        end
  end.

Definition ssv6006_hal_process_hci_rx_aggr (mem fresh : list Z) (data_length : Z) :
  option (outcome (list (list Z * Z) * Z)) :=
  rx_aggr_loop (S (Z.to_nat data_length)) mem fresh 0 data_length.

(** ** Buffer lemmas *)

Definition bytes (l : list Z) : Prop := Forall (fun b => 0 <= b < 256) l.

Lemma le16_bytes x : bytes (le16 x).
Proof. repeat constructor; lia. Qed.

Lemma lookup_pre (pre l : list Z) k i : i = (length pre + k)%nat -> (pre ++ l) !! i = l !! k.
Proof. intros ->. rewrite lookup_app_r by lia. f_equal. lia. Qed.

Lemma rd16_app pre post x :
  0 <= x < 65536 -> rd16 (pre ++ le16 x ++ post) (length pre) = Some x.
Proof.
  intros Hx. unfold rd16. change (S (length pre)) with (1 + length pre)%nat.
  rewrite (lookup_pre pre _ 0 (length pre)) by lia.
  rewrite (lookup_pre pre _ 1 (1 + length pre)) by lia. simpl. f_equal. lia.
Qed.

Lemma rd16_range buf off x : bytes buf -> rd16 buf off = Some x -> 0 <= x < 65536.
Proof.
  intros Hb. unfold rd16. destruct (buf !! off) as [a|] eqn:Ea; simpl; [|done].
  destruct (buf !! S off) as [b|] eqn:Eb; simpl; [|done]. intros [= <-].
  pose proof (Forall_lookup_1 _ _ _ _ Hb Ea). pose proof (Forall_lookup_1 _ _ _ _ Hb Eb).
  simpl in *. lia.
Qed.

Lemma slice_app a b c : slice (a ++ b ++ c) (length a) (length b) = Some b.
Proof.
  unfold slice. rewrite !length_app. replace (_ <=? _)%nat with true by (symmetry; apply Nat.leb_le; lia).
  by rewrite drop_app_length, take_app_length.
Qed.

Lemma wr_app a x c y :
  length x = length y -> wr (a ++ x ++ c) (length a) y = Some (a ++ y ++ c).
Proof.
  intros Hl. unfold wr. rewrite !length_app.
  replace (_ <=? _)%nat with true by (symmetry; apply Nat.leb_le; lia).
  rewrite take_app_length. rewrite <-drop_drop, drop_app_length, <-Hl, drop_app_length. done.
Qed.

(** The same lemmas with the position as an equation. *)
Lemma rd16_at buf pre x post off :
  buf = pre ++ le16 x ++ post -> off = length pre -> 0 <= x < 65536 -> rd16 buf off = Some x.
Proof. intros -> ->. apply rd16_app. Qed.

Lemma slice_at buf a b c off n :
  buf = a ++ b ++ c -> off = length a -> n = length b -> slice buf off n = Some b.
Proof. intros -> -> ->. apply slice_app. Qed.

Lemma wr_at buf a x c y off :
  buf = a ++ x ++ c -> off = length a -> length x = length y -> wr buf off y = Some (a ++ y ++ c).
Proof. intros -> ->. apply wr_app. Qed.

(** ** The receive loop ends *)

Lemma rx_loop_fuel mem fresh len : bytes mem -> forall fuel off,
  0 <= off -> len - off < Z.of_nat fuel -> (0 < fuel)%nat ->
  rx_aggr_loop fuel mem fresh off len <> None.
Proof.
  intros Hm. induction fuel as [|f IH]; intros off Ho Hf Hp; [lia|]. simpl.
  destruct (Z.leb_spec len off); [done|].
  destruct (ssv6xxx_aggr_frame_is_last mem off len) as [[]|];
    destruct (jmp_mpdu_len mem off) as [j|] eqn:Ej; try done.
  - repeat case_match; done.
  - case_test; [done|]. destruct (copy_mpdu mem fresh off j) as [p|]; [|done].
    apply (rd16_range _ _ _ Hm) in Ej.
    assert (Hr : rx_aggr_loop f mem fresh (off + j) len <> None) by (apply IH; lia).
    repeat case_match; done.
Qed.

(** ** Well-formed transfers *)

(** A frame of a transfer: [accu_rx_len], the other header bytes, the frame. *)
Record rx_pkt : Type := mk_rx_pkt { p_accu : Z; p_rsvd : list Z; p_data : list Z }.

Definition rx_jmp (p : rx_pkt) : Z := SIZEOF_hci_rx_aggr_info + Z.of_nat (length (p_data p)).

Definition rx_encode (p : rx_pkt) : list Z :=
  le16 (rx_jmp p) ++ le16 (p_accu p) ++ p_rsvd p ++ p_data p.

(** A frame fits a receive buffer of [cap] bytes and carries its descriptor. *)
Definition rx_pkt_wf (cap : nat) (p : rx_pkt) : Prop :=
  (2 <= length (p_data p) <= cap)%nat /\ rx_jmp p <= MAX_FRAME_SIZE /\
  0 <= p_accu p < 65536 /\ length (p_rsvd p) = 8%nat.

(** What the callback gets: the frame in its buffer, and the length in its
    descriptor. *)
Definition rx_frame (fresh : list Z) (p : rx_pkt) : list Z * Z :=
  (p_data p ++ drop (length (p_data p)) fresh,
   nth 0 (p_data p) 0 + 256 * nth 1 (p_data p) 0).

(** The length of the next transfer, from the last header. *)
Definition rx_next (p : rx_pkt) : Z :=
  if p_accu p <=? MAX_HCI_AGGR_SIZE + MAX_RX_PKT_RSVD then u32 (p_accu p - rx_jmp p) else 0.

Lemma rx_encode_length p : length (p_rsvd p) = 8%nat -> Z.of_nat (length (rx_encode p)) = rx_jmp p.
Proof.
  intros H. unfold rx_encode, rx_jmp, SIZEOF_hci_rx_aggr_info. rewrite !length_app, H. simpl length. lia.
Qed.

Lemma rx_jmp_range cap p : rx_pkt_wf cap p -> 14 <= rx_jmp p < 65536.
Proof.
  intros (H & Hj & _). unfold rx_jmp, SIZEOF_hci_rx_aggr_info, MAX_FRAME_SIZE in *. lia.
Qed.

Section transfer.
Context (fresh : list Z) (pre post : list Z) (p : rx_pkt).
Hypothesis Hp : rx_pkt_wf (length fresh) p.

Let mem : list Z := pre ++ rx_encode p ++ post.
Let off : Z := Z.of_nat (length pre).

Lemma transfer_jmp : jmp_mpdu_len mem off = Some (rx_jmp p).
Proof.
  unfold jmp_mpdu_len, mem, off. rewrite Nat2Z.id. unfold rx_encode. rewrite <-!app_assoc.
  apply rd16_app. pose proof (rx_jmp_range _ _ Hp). lia.
Qed.

Lemma transfer_accu : accu_rx_len mem off = Some (p_accu p).
Proof.
  unfold accu_rx_len, mem, off, rx_encode.
  eapply (rd16_at _ (pre ++ le16 (rx_jmp p))); [by rewrite <-!app_assoc| |apply Hp].
  rewrite length_app. simpl length. lia.
Qed.

Lemma transfer_copy : copy_mpdu mem fresh off (rx_jmp p) = Some (rx_frame fresh p).
Proof.
  pose proof Hp as (Hl & Hj & Ha & Hr). unfold copy_mpdu.
  replace (rx_jmp p <? SIZEOF_hci_rx_aggr_info) with false
    by (unfold rx_jmp, SIZEOF_hci_rx_aggr_info; lia).
  rewrite (slice_at _ (pre ++ le16 (rx_jmp p) ++ le16 (p_accu p) ++ p_rsvd p) (p_data p) post).
  - simpl. rewrite (wr_at _ [] (take (length (p_data p)) fresh) (drop (length (p_data p)) fresh)).
    + simpl. destruct (p_data p) as [|a [|b l]] eqn:E; simpl in Hl; try lia.
      unfold rx_frame. by rewrite E.
    + simpl. by rewrite take_drop.
    + done.
    + rewrite length_take. lia.
  - unfold mem, rx_encode. by rewrite <-!app_assoc.
  - unfold off, SIZEOF_hci_rx_aggr_info. rewrite !length_app, Hr. simpl length. lia.
  - unfold rx_jmp. lia.
Qed.
End transfer.

#[local] Opaque rx_encode.

Lemma last_cons_default {A} (l : list A) x d : List.last (x :: l) d = List.last l x.
Proof. revert x d; induction l as [|y l IH]; intros x d; [done|]. transitivity (List.last l y); [exact (IH y d)|by rewrite IH]. Qed.

(** The step on the last frame of a transfer, whatever bytes follow it. *)
Lemma rx_loop_last fresh pre p a b post fuel :
  rx_pkt_wf (length fresh) p -> 0 <= a -> 0 <= b ->
  rx_aggr_loop (S fuel) (pre ++ rx_encode p ++ a :: b :: post) fresh (Z.of_nat (length pre))
    (Z.of_nat (length pre) + rx_jmp p) = Some (Ret ([rx_frame fresh p], rx_next p)).
Proof.
  intros Hp Ha Hb. cbn [rx_aggr_loop]. pose proof (rx_jmp_range _ _ Hp) as Hj.
  pose proof (rx_encode_length p ltac:(apply Hp)) as Hlen. set (len := _ + rx_jmp p).
  replace (len <=? Z.of_nat (length pre)) with false by lia.
  unfold ssv6xxx_aggr_frame_is_last. rewrite (transfer_jmp fresh _ _ p Hp). simpl.
  replace (rx_jmp p + _ =? len - 1) with false by lia.
  assert (Hn : jmp_mpdu_len (pre ++ rx_encode p ++ a :: b :: post) len = Some (a + 256 * b)).
  { assert (Hn : Z.to_nat len = length (pre ++ rx_encode p)) by (rewrite length_app; lia).
    unfold jmp_mpdu_len, rd16. rewrite app_assoc, Hn.
    rewrite (lookup_pre _ (a :: b :: post) 0 _ (eq_sym (Nat.add_0_r _))). cbn [lookup list_lookup].
    by rewrite (lookup_pre _ (a :: b :: post) 1 _ (eq_sym (Nat.add_1_r _))). }
  fold len. rewrite Hn. simpl. rewrite Z.sub_diag.
  replace ((a + 256 * b =? 0) || (0 <? a + 256 * b)) with true by lia.
  replace ((len <? _) || (len <? len)) with false by (unfold SIZEOF_hci_rx_aggr_info; lia).
  rewrite transfer_copy by done. by rewrite (transfer_accu fresh _ _ p Hp).
Qed.

(** The step on a frame that is followed by the frame [q]. *)
Lemma rx_loop_more fresh pre p q post len fuel :
  rx_pkt_wf (length fresh) p -> rx_pkt_wf (length fresh) q ->
  Z.of_nat (length pre) + rx_jmp p + rx_jmp q <= len ->
  let mem := pre ++ rx_encode p ++ rx_encode q ++ post in
  rx_aggr_loop (S fuel) mem fresh (Z.of_nat (length pre)) len =
    match rx_aggr_loop fuel mem fresh (Z.of_nat (length (pre ++ rx_encode p))) len with
    | Some (Ret (ps, nxt)) => Some (Ret (rx_frame fresh p :: ps, nxt))
    | r => r
    end.
Proof.
  intros Hp Hq Hlen mem. cbn [rx_aggr_loop]. pose proof (rx_jmp_range _ _ Hp) as Hj.
  pose proof (rx_jmp_range _ _ Hq) as Hjq. pose proof (rx_encode_length p ltac:(apply Hp)) as Hlp.
  replace (len <=? Z.of_nat (length pre)) with false by lia.
  assert (Hpre : Z.of_nat (length pre) + rx_jmp p = Z.of_nat (length (pre ++ rx_encode p)))
    by (rewrite length_app; lia).
  assert (H1 : jmp_mpdu_len mem (Z.of_nat (length pre)) = Some (rx_jmp p))
    by by apply (transfer_jmp fresh).
  assert (H2 : jmp_mpdu_len mem (Z.of_nat (length (pre ++ rx_encode p))) = Some (rx_jmp q))
    by (unfold mem; rewrite app_assoc; by apply (transfer_jmp fresh)).
  assert (H3 : copy_mpdu mem fresh (Z.of_nat (length pre)) (rx_jmp p) = Some (rx_frame fresh p))
    by by apply transfer_copy.
  unfold ssv6xxx_aggr_frame_is_last. rewrite H1. simpl.
  replace (rx_jmp p + _ =? len - 1) with false by lia. rewrite Hpre, H2. simpl.
  replace ((rx_jmp q =? 0) || (_ <? rx_jmp q)) with false by lia.
  replace (_ || _ || _ || _) with false
    by (destruct Hp as (_ & Hm & _); unfold MAX_FRAME_SIZE, SIZEOF_hci_rx_aggr_info in *;
        symmetry; rewrite !orb_false_iff; lia).
  by rewrite H3.
Qed.

Lemma rx_loop_splits fresh a b post ps :
  Forall (rx_pkt_wf (length fresh)) ps -> 0 <= a -> 0 <= b -> forall fuel pre p,
  rx_pkt_wf (length fresh) p -> (length ps < fuel)%nat ->
  rx_aggr_loop fuel (pre ++ rx_encode p ++ concat (map rx_encode ps) ++ a :: b :: post) fresh
      (Z.of_nat (length pre))
      (Z.of_nat (length pre) + rx_jmp p + Z.of_nat (length (concat (map rx_encode ps))))
  = Some (Ret (rx_frame fresh p :: map (rx_frame fresh) ps, rx_next (List.last ps p))).
Proof.
  intros Hps Ha Hb. induction ps as [|q ps IH]; intros [|fuel] pre p Hp Hf; try (simpl in Hf; lia).
  - rewrite Z.add_0_r. by apply rx_loop_last.
  - apply list.Forall_cons_1 in Hps as [Hq Hps]. cbn [map concat].
    pose proof (rx_encode_length p ltac:(apply Hp)) as Hlp.
    pose proof (rx_encode_length q ltac:(apply Hq)) as Hlq.
    rewrite <-(app_assoc (rx_encode q)), rx_loop_more by (done || rewrite length_app; lia).
    rewrite (app_assoc pre), (length_app (rx_encode q)).
    replace (Z.of_nat (length pre) + rx_jmp p + Z.of_nat _)
      with (Z.of_nat (length (pre ++ rx_encode p)) + rx_jmp q
            + Z.of_nat (length (concat (map rx_encode ps)))) by (rewrite length_app; lia).
    rewrite (IH Hps fuel (pre ++ rx_encode p) q Hq) by (simpl in Hf; lia).
    by rewrite <-(last_cons_default ps q p).
Qed.

(** ** The transmit buffer *)

Lemma align4_spec len :
  0 <= len < 4294967292 -> align4 len mod 4 = 0 /\ len <= align4 len < len + 4.
Proof.
  intros Hl. unfold align4. rewrite (u32_small (len + 4 - 1)) by lia.
  change (u32 (Z.lnot (4 - 1))) with (Z.land (Z.ones 32) (Z.lnot (Z.ones 2))).
  rewrite Z.land_assoc, Z.land_ones by lia.
  rewrite (Z.mod_small (len + 4 - 1) (2 ^ 32)) by (change (2 ^ 32) with 4294967296; lia).
  rewrite <-Z.ldiff_land, Z.ldiff_ones_r by lia.
  rewrite Z.shiftl_mul_pow2, Z.shiftr_div_pow2 by lia. change (2 ^ 2) with 4. lia.
Qed.

(** A frame that can be appended: its buffer holds its padded length. *)
Definition tx_frame_wf (f : list Z * Z) : Prop :=
  0 <= f.2 <= MAX_FRAME_SIZE /\ align4 f.2 <= Z.of_nat (length f.1).

(** The bytes sent for a frame and the jump length of its header. *)
Definition tx_payload (f : list Z * Z) : list Z := take (Z.to_nat (align4 f.2)) f.1.
Definition tx_jmp (f : list Z * Z) : Z := align4 f.2 + SIZEOF_hci_tx_aggr_info.

Definition tx_hdr (j n t : Z) : list Z := (le16 j ++ le16 j) ++ [n] ++ le16 t ++ [0].

Definition tx_body (fs : list (list Z * Z)) : list Z :=
  concat (map (fun f => tx_hdr (tx_jmp f) 0 0 ++ tx_payload f) fs).

Definition tx_total (fs : list (list Z * Z)) : Z := sumZ (map tx_jmp fs).

(** The buffer of [N] bytes after the frames [fs]. *)
Definition tx_built (N : nat) (fs : list (list Z * Z)) (buf : list Z) : Prop :=
  length buf = N /\
  match fs with
  | [] => buf = replicate N 0
  | f :: r => exists k, buf = tx_hdr (tx_jmp f) (Z.of_nat (length fs)) (tx_total fs)
                              ++ tx_payload f ++ tx_body r ++ replicate k 0
  end.

Lemma tx_frame_facts f :
  tx_frame_wf f ->
  0 <= align4 f.2 <= 2435 /\ align4 f.2 mod 4 = 0 /\
  length (tx_payload f) = Z.to_nat (align4 f.2) /\ 8 <= tx_jmp f <= 2443.
Proof.
  intros [Hl Hm]. unfold MAX_FRAME_SIZE in *. pose proof (align4_spec f.2 ltac:(lia)).
  unfold tx_payload, tx_jmp, SIZEOF_hci_tx_aggr_info. rewrite length_take. lia.
Qed.

Lemma tx_body_length fs :
  Forall tx_frame_wf fs -> Z.of_nat (length (tx_body fs)) = tx_total fs.
Proof.
  induction 1 as [|f fs Hf Hfs IH]; [done|]. unfold tx_body, tx_total in *. cbn [map concat sumZ].
  destruct (tx_frame_facts f Hf) as (? & _ & Hp & _).
  rewrite !length_app, Hp. change (length (tx_hdr _ _ _)) with 8%nat.
  unfold tx_jmp, SIZEOF_hci_tx_aggr_info in *. lia.
Qed.

Lemma tx_total_nonneg fs : Forall tx_frame_wf fs -> 0 <= tx_total fs.
Proof. intros H. rewrite <-(tx_body_length fs H). lia. Qed.

Lemma zeros_split n m : (n <= m)%nat -> replicate m 0 = replicate n 0 ++ replicate (m - n) 0.
Proof. intros H. rewrite <-replicate_add. f_equal. lia. Qed.

(** The frame data is read inside its buffer. *)
Lemma tx_data f : tx_frame_wf f -> slice f.1 0 (Z.to_nat (align4 f.2)) = Some (tx_payload f).
Proof.
  intros Hf. destruct (tx_frame_facts f Hf) as (? & _ & Hp & _). destruct Hf as [_ Hm].
  unfold slice. replace (_ <=? _)%nat with true by (symmetry; apply Nat.leb_le; lia). done.
Qed.

Lemma process_first N f :
  tx_frame_wf f -> tx_jmp f + 4 <= Z.of_nat N ->
  exists buf', ssv6006_hal_process_hci_aggr_tx (replicate N 0) f.1 f.2 = Some (buf', 1, tx_total [f] + 4) /\
    tx_built N [f] buf'.
Proof.
  intros Hf HN. destruct (tx_frame_facts f Hf) as (Ha & _ & Hp & Hj).
  set (a := Z.to_nat (align4 f.2)) in *. set (k := (N - (12 + a))%nat).
  assert (Hz : replicate N 0 = replicate 4 0 ++ [0] ++ le16 0 ++ [0] ++ replicate a 0
                               ++ replicate 4 0 ++ replicate k 0).
  { rewrite <-!replicate_add. change ([0] ++ le16 0 ++ [0] ++ replicate (a + (4 + k)) 0)
      with (replicate 4 0 ++ replicate (a + (4 + k)) 0). rewrite <-!replicate_add. f_equal.
    unfold tx_jmp, SIZEOF_hci_tx_aggr_info in *. lia. }
  unfold ssv6006_hal_process_hci_aggr_tx. fold a. rewrite Hz.
  rewrite (rd16_at _ (replicate 4 0 ++ [0]) 0 ([0] ++ replicate a 0 ++ replicate 4 0 ++ replicate k 0))
    by (done || lia). cbn [mbind option_bind]. cbv zeta.
  assert (u16 (align4 f.2 + SIZEOF_hci_tx_aggr_info) = tx_jmp f) as ->
    by (apply u16_small; unfold tx_jmp in *; lia).
  set (J := le16 (tx_jmp f) ++ le16 (tx_jmp f)).
  rewrite (wr_at _ [] (replicate 4 0) ([0] ++ le16 0 ++ [0] ++ replicate a 0 ++ replicate 4 0
             ++ replicate k 0) J) by done. cbn [mbind option_bind app].
  rewrite tx_data by done. cbn [mbind option_bind].
  rewrite (wr_at _ (J ++ [0] ++ le16 0 ++ [0]) (replicate a 0) (replicate 4 0 ++ replicate k 0))
    by (first [done | by rewrite length_replicate, Hp]). cbn [mbind option_bind].
  rewrite (rd16_at _ (J ++ [0]) 0 ([0] ++ tx_payload f ++ replicate 4 0 ++ replicate k 0))
    by (done || lia). cbn [mbind option_bind].
  assert (u16 (0 + tx_jmp f) = tx_jmp f) as -> by (apply u16_small; lia).
  rewrite (wr_at _ (J ++ [0]) (le16 0) ([0] ++ tx_payload f ++ replicate 4 0 ++ replicate k 0)
             (le16 (tx_jmp f))) by done. cbn [mbind option_bind].
  rewrite (wr_at _ (J ++ [0] ++ le16 (tx_jmp f) ++ [0] ++ tx_payload f) (replicate 4 0) (replicate k 0)
             (le16 0 ++ le16 0)).
  2: by rewrite <-!app_assoc.
  2: rewrite !length_app, Hp; simpl; lia.
  2: done.
  cbn [mbind option_bind]. rewrite <-!app_assoc.
  change ((J ++ _) !! 4%nat) with (Some 0). cbn [mbind option_bind]. change (u8 (0 + 1)) with 1.
  rewrite (wr_at _ J [0] (le16 (tx_jmp f) ++ [0] ++ tx_payload f ++ (le16 0 ++ le16 0) ++ replicate k 0) [1])
    by (done || by rewrite <-!app_assoc). cbn [mbind option_bind].
  eexists. split; [unfold tx_total; cbn [map sumZ]; by rewrite Z.add_0_r|].
  split.
  - rewrite !length_app, Hp, length_replicate. simpl length. unfold tx_jmp, SIZEOF_hci_tx_aggr_info in *. lia.
  - exists (4 + k)%nat. unfold tx_hdr, tx_total, tx_body. cbn [map sumZ concat length app].
    rewrite Z.add_0_r. fold J. rewrite replicate_add. by rewrite <-!app_assoc.
Qed.

Lemma process_next J1 n T mid K f :
  tx_frame_wf f -> length J1 = 4%nat -> 0 <= n < 255 -> T = Z.of_nat (8 + length mid) ->
  T + tx_jmp f < 65536 -> tx_jmp f + 4 <= Z.of_nat K ->
  ssv6006_hal_process_hci_aggr_tx (J1 ++ [n] ++ le16 T ++ [0] ++ mid ++ replicate K 0) f.1 f.2 =
    Some (J1 ++ [n + 1] ++ le16 (T + tx_jmp f) ++ [0] ++ mid ++ tx_hdr (tx_jmp f) 0 0
            ++ tx_payload f ++ replicate (K - Z.to_nat (tx_jmp f)) 0,
          n + 1, T + tx_jmp f + 4).
Proof.
  intros Hf HJ Hn HT HT' HK. destruct (tx_frame_facts f Hf) as (Ha & _ & Hp & Hj).
  set (a := Z.to_nat (align4 f.2)) in *. set (k := (K - (12 + a))%nat).
  assert (HK' : K = (4 + (4 + (a + (4 + k))))%nat)
    by (unfold tx_jmp, SIZEOF_hci_tx_aggr_info in *; lia).
  assert (Hz : replicate K 0 = replicate 4 0 ++ replicate 4 0 ++ replicate a 0 ++ replicate 4 0
                               ++ replicate k 0) by (rewrite <-!replicate_add; f_equal; exact HK').
  replace (K - Z.to_nat (tx_jmp f))%nat with (4 + k)%nat
    by (unfold tx_jmp, SIZEOF_hci_tx_aggr_info in *; lia).
  unfold ssv6006_hal_process_hci_aggr_tx. fold a. rewrite Hz.
  rewrite (rd16_at _ (J1 ++ [n]) T ([0] ++ mid ++ replicate 4 0 ++ replicate 4 0 ++ replicate a 0
    ++ replicate 4 0 ++ replicate k 0)); [|by rewrite <-!app_assoc|rewrite length_app, HJ; done|lia].
  cbn [mbind option_bind]. cbv zeta.
  assert (u16 (align4 f.2 + SIZEOF_hci_tx_aggr_info) = tx_jmp f) as ->
    by (apply u16_small; unfold tx_jmp in *; lia).
  set (J := le16 (tx_jmp f) ++ le16 (tx_jmp f)).
  set (H := J1 ++ [n] ++ le16 T ++ [0] ++ mid).
  assert (HH : length H = Z.to_nat T) by (unfold H; rewrite !length_app, HJ; simpl length; lia).
  rewrite (wr_at _ H (replicate 4 0) (replicate 4 0 ++ replicate a 0 ++ replicate 4 0 ++ replicate k 0) J)
    by (first [unfold H; by rewrite <-!app_assoc | done]). cbn [mbind option_bind].
  rewrite tx_data by done. cbn [mbind option_bind].
  rewrite (wr_at _ (H ++ J ++ replicate 4 0) (replicate a 0) (replicate 4 0 ++ replicate k 0));
    [|by rewrite <-!app_assoc|rewrite !length_app, HH; simpl length; lia|by rewrite length_replicate, Hp].
  cbn [mbind option_bind].
  rewrite (rd16_at _ (J1 ++ [n]) T ([0] ++ mid ++ J ++ replicate 4 0 ++ tx_payload f ++ replicate 4 0
    ++ replicate k 0)); [|unfold H; by rewrite <-!app_assoc|rewrite length_app, HJ; done|lia].
  cbn [mbind option_bind].
  assert (u16 (T + tx_jmp f) = T + tx_jmp f) as -> by (apply u16_small; lia).
  rewrite (wr_at _ (J1 ++ [n]) (le16 T) ([0] ++ mid ++ J ++ replicate 4 0 ++ tx_payload f
    ++ replicate 4 0 ++ replicate k 0));
    [|unfold H; by rewrite <-!app_assoc|rewrite length_app, HJ; done|done].
  cbn [mbind option_bind]. set (T' := T + tx_jmp f).
  rewrite (wr_at _ (J1 ++ [n] ++ le16 T' ++ [0] ++ mid ++ J ++ replicate 4 0 ++ tx_payload f)
    (replicate 4 0) (replicate k 0) (le16 0 ++ le16 0));
    [|by rewrite <-!app_assoc|rewrite !length_app, HJ, Hp; simpl length; lia|done].
  cbn [mbind option_bind].
  assert (Hn4 : ((J1 ++ [n] ++ le16 T' ++ [0] ++ mid ++ J ++ replicate 4 0 ++ tx_payload f)
    ++ (le16 0 ++ le16 0) ++ replicate k 0) !! 4%nat = Some n).
  { rewrite <-app_assoc. rewrite (lookup_pre J1 _ 0) by (rewrite HJ; done). done. }
  rewrite Hn4. cbn [mbind option_bind]. unfold u8. rewrite Z.mod_small by lia.
  rewrite (wr_at _ J1 [n] (le16 T' ++ [0] ++ mid ++ J ++ replicate 4 0 ++ tx_payload f
    ++ (le16 0 ++ le16 0) ++ replicate k 0)); [|by rewrite <-!app_assoc|done|done].
  cbn [mbind option_bind]. unfold tx_hdr. fold J. rewrite replicate_add. by rewrite <-!app_assoc.
Qed.

Lemma tx_body_snoc fs f : tx_body (fs ++ [f]) = tx_body fs ++ tx_hdr (tx_jmp f) 0 0 ++ tx_payload f.
Proof. unfold tx_body. rewrite map_app, concat_app. simpl. by rewrite app_nil_r. Qed.

Lemma tx_total_snoc fs f : tx_total (fs ++ [f]) = tx_total fs + tx_jmp f.
Proof. unfold tx_total. rewrite map_app, sumZ_app. simpl. lia. Qed.

(** Appending a frame that fits. *)
Lemma process_built N fs buf f :
  tx_built N fs buf -> Forall tx_frame_wf fs -> tx_frame_wf f ->
  Z.of_nat (length fs) < 255 -> tx_total fs + tx_jmp f + 4 <= Z.of_nat N -> Z.of_nat N <= 65536 ->
  exists buf', ssv6006_hal_process_hci_aggr_tx buf f.1 f.2 =
      Some (buf', Z.of_nat (length (fs ++ [f])), tx_total (fs ++ [f]) + 4) /\
    tx_built N (fs ++ [f]) buf'.
Proof.
  intros [HN Hb] Hfs Hf Hn Hfit HN'. destruct fs as [|f1 r].
  { rewrite Hb. apply process_first; [done|]. unfold tx_total in Hfit. simpl in Hfit. lia. }
  destruct Hb as [k ->]. apply list.Forall_cons_1 in Hfs as [Hf1 Hr].
  destruct (tx_frame_facts f1 Hf1) as (Ha1 & _ & Hp1 & Hj1).
  destruct (tx_frame_facts f Hf) as (_ & _ & _ & Hj).
  pose proof (tx_body_length r Hr) as Hlr.
  assert (Hmid : tx_total (f1 :: r) = Z.of_nat (8 + length (tx_payload f1 ++ tx_body r))).
  { unfold tx_total in *. cbn [map sumZ]. rewrite length_app, Hp1.
    unfold tx_jmp at 1, SIZEOF_hci_tx_aggr_info. lia. }
  rewrite !length_app, length_replicate in HN. change (length (tx_hdr _ _ _)) with 8%nat in HN.
  rewrite length_app in Hmid.
  unfold tx_hdr at 1. rewrite <-!app_assoc.
  pose proof (process_next (le16 (tx_jmp f1) ++ le16 (tx_jmp f1)) (Z.of_nat (length (f1 :: r)))
    (tx_total (f1 :: r)) (tx_payload f1 ++ tx_body r) k f Hf) as Hpn.
  rewrite <-!app_assoc in Hpn. rewrite Hpn; clear Hpn;
    [|done|simpl in *; lia|rewrite length_app; exact Hmid|lia|lia].
  eexists. split.
  - rewrite tx_total_snoc, length_app. simpl length. f_equal. f_equal. f_equal. lia.
  - split.
    + rewrite !length_app, length_replicate. change (length (tx_hdr _ _ _)) with 8%nat.
      destruct (tx_frame_facts f Hf) as (Ha & _ & Hp & _). rewrite Hp.
      unfold tx_jmp, SIZEOF_hci_tx_aggr_info in *. simpl length. lia.
    + exists (k - Z.to_nat (tx_jmp f))%nat. cbn [app]. rewrite tx_body_snoc.
      change (f1 :: r ++ [f]) with ((f1 :: r) ++ [f]). rewrite tx_total_snoc, length_app.
      unfold tx_hdr. simpl (length [f]). rewrite Nat2Z.inj_add. by rewrite <-!app_assoc.
Qed.

(** ** The walk along the jump lengths *)

Lemma walk_step fuel pre f n t post :
  tx_frame_wf f ->
  let buf := pre ++ tx_hdr (tx_jmp f) n t ++ tx_payload f ++ post in
  walk (S fuel) buf (length pre) =
    (cons (tx_payload f)) <$> walk fuel buf (length (pre ++ tx_hdr (tx_jmp f) n t ++ tx_payload f)).
Proof.
  intros Hf buf. destruct (tx_frame_facts f Hf) as (Ha & _ & Hp & Hj). cbn [walk].
  rewrite (rd16_at buf pre (tx_jmp f) (le16 (tx_jmp f) ++ [n] ++ le16 t ++ [0] ++ tx_payload f ++ post));
    [|unfold buf, tx_hdr; by rewrite <-!app_assoc|done|lia].
  cbn [mbind option_bind]. replace (tx_jmp f =? 0) with false by lia.
  rewrite (slice_at buf (pre ++ tx_hdr (tx_jmp f) n t) (tx_payload f) post).
  - cbn [mbind option_bind]. replace (length pre + Z.to_nat (tx_jmp f))%nat
      with (length (pre ++ tx_hdr (tx_jmp f) n t ++ tx_payload f)).
    + by destruct (walk fuel buf _).
    + rewrite !length_app, Hp. change (length (tx_hdr _ _ _)) with 8%nat.
      unfold tx_jmp, SIZEOF_hci_tx_aggr_info in *. lia.
  - unfold buf. by rewrite <-!app_assoc.
  - rewrite length_app. change (length (tx_hdr _ _ _)) with 8%nat. lia.
  - rewrite Hp. unfold tx_jmp, SIZEOF_hci_tx_aggr_info in *. lia.
Qed.

Lemma walk_zero fuel pre k : (2 <= k)%nat -> walk (S fuel) (pre ++ replicate k 0) (length pre) = Some [].
Proof.
  intros Hk. cbn [walk]. destruct k as [|[|k]]; [lia..|].
  rewrite (rd16_at _ pre 0 (replicate k 0)) by (done || lia). done.
Qed.

Lemma walk_body r k : (2 <= k)%nat -> Forall tx_frame_wf r -> forall fuel pre,
  (length r < fuel)%nat ->
  walk fuel (pre ++ tx_body r ++ replicate k 0) (length pre) = Some (map tx_payload r).
Proof.
  intros Hk. induction 1 as [|f r Hf Hr IH]; intros [|fuel] pre Hfuel; try (simpl in Hfuel; lia).
  - by apply walk_zero.
  - unfold tx_body. cbn [map concat]. fold (tx_body r). rewrite <-!app_assoc.
    rewrite walk_step by done.
    replace (pre ++ tx_hdr (tx_jmp f) 0 0 ++ tx_payload f ++ tx_body r ++ replicate k 0)
      with ((pre ++ tx_hdr (tx_jmp f) 0 0 ++ tx_payload f) ++ tx_body r ++ replicate k 0)
      by by rewrite <-!app_assoc.
    rewrite IH by (simpl in Hfuel; lia). done.
Qed.

Lemma walk_built N fs buf fuel :
  tx_built N fs buf -> Forall tx_frame_wf fs -> tx_total fs + 4 <= Z.of_nat N ->
  (length fs < fuel)%nat -> walk fuel buf 0 = Some (map tx_payload fs).
Proof.
  intros [HN Hb] Hfs Hfit Hfu. destruct fuel as [|fuel]; [lia|]. destruct fs as [|f r].
  { rewrite Hb. apply (walk_zero fuel [] N). unfold tx_total in Hfit. simpl in Hfit. lia. }
  destruct Hb as [k ->]. apply list.Forall_cons_1 in Hfs as [Hf Hr].
  pose proof (tx_body_length r Hr) as Hlr. destruct (tx_frame_facts f Hf) as (Ha & _ & Hp & Hj).
  rewrite !length_app, length_replicate, Hp in HN. change (length (tx_hdr _ _ _)) with 8%nat in HN.
  assert (2 <= k)%nat.
  { unfold tx_total in *. cbn [map sumZ] in Hfit. unfold tx_jmp at 1, SIZEOF_hci_tx_aggr_info in Hfit. lia. }
  set (h := tx_hdr _ _ _). pose proof (walk_body r k ltac:(done) Hr fuel (h ++ tx_payload f)
    ltac:(simpl in Hfu; lia)) as Hw.
  etransitivity; [exact (walk_step fuel [] f _ _ _ Hf)|]. cbn [app]. fold h.
  rewrite <-!app_assoc in Hw. by rewrite Hw.
Qed.

(** The bytes up to the end mark are a buffer of their own. *)
Lemma tx_built_take N fs buf :
  tx_built N fs buf -> Forall tx_frame_wf fs -> fs <> [] -> tx_total fs + 4 <= Z.of_nat N ->
  tx_built (Z.to_nat (tx_total fs + 4)) fs (take (Z.to_nat (tx_total fs + 4)) buf).
Proof.
  intros [HN Hb] Hfs Hne Hfit. pose proof (tx_total_nonneg fs Hfs).
  split; [rewrite length_take; lia|]. destruct fs as [|f r]; [done|]. destruct Hb as [k ->]. exists 4%nat.
  apply list.Forall_cons_1 in Hfs as [Hf Hr].
  pose proof (tx_body_length r Hr) as Hlr. destruct (tx_frame_facts f Hf) as (Ha & _ & Hp & Hj).
  rewrite !length_app, length_replicate, Hp in HN. change (length (tx_hdr _ _ _)) with 8%nat in HN.
  assert (Ht : tx_total (f :: r) = align4 f.2 + 8 + tx_total r) by done.
  set (h := tx_hdr _ _ _). rewrite !app_assoc, take_app.
  rewrite (take_ge ((h ++ _) ++ _)), take_replicate
    by (rewrite !length_app, Hp; change (length h) with 8%nat; lia).
  f_equal. f_equal. rewrite !length_app, Hp. change (length h) with 8%nat. lia.
Qed.

(** ** Properties *)

Lemma aggregate_built N gs : Forall tx_frame_wf gs -> Z.of_nat N <= 65536 -> forall fs buf n l,
  tx_built N fs buf -> Forall tx_frame_wf fs ->
  Z.of_nat (length fs + length gs) <= 255 -> tx_total (fs ++ gs) + 4 <= Z.of_nat N ->
  gs <> [] ->
  exists buf', aggregate buf gs n l =
      Some (buf', Z.of_nat (length (fs ++ gs)), tx_total (fs ++ gs) + 4) /\
    tx_built N (fs ++ gs) buf'.
Proof.
  intros Hgs HN. induction Hgs as [|g gs Hg Hgs IH]; intros fs buf n l Hb Hfs Hlen Hfit Hne; [done|].
  assert (Hsub : tx_total (fs ++ g :: gs) = tx_total fs + tx_jmp g + tx_total gs).
  { unfold tx_total. rewrite map_app, sumZ_app. simpl. lia. }
  pose proof (tx_total_nonneg gs Hgs).
  destruct (process_built N fs buf g Hb Hfs Hg) as (buf1 & E & Hb1); [simpl in Hlen; lia|lia|lia|].
  destruct g as [mem len]. cbn [aggregate]. cbn [fst snd] in E. rewrite E. cbn [mbind option_bind].
  replace (fs ++ (mem, len) :: gs) with ((fs ++ [(mem, len)]) ++ gs) in * by by rewrite <-app_assoc.
  destruct gs as [|g2 gs'].
  - exists buf1. rewrite app_nil_r. done.
  - apply IH; [done|by apply Forall_app_2; [|constructor]| |done|done].
    rewrite length_app. simpl in *. lia.
Qed.

(** frames appended one after the other to a cleared transfer buffer (fewer
    than 256 of them, which together with their headers and the end mark fit
    the buffer) are what a walk along the jump lengths finds, each padded to a
    multiple of four bytes; the call that appends the last one returns the
    number of frames, and sets the length to send to the bytes up to the end
    mark, so no write leaves the buffer and no header is overwritten. *)
Theorem tx_aggr_walk (N : nat) (fs : list (list Z * Z)) :
  Forall tx_frame_wf fs -> fs <> [] -> (length fs <= 255)%nat ->
  tx_total fs + 4 <= Z.of_nat N -> Z.of_nat N <= 65536 ->
  exists buf, aggregate (replicate N 0) fs 0 0 =
      Some (buf, Z.of_nat (length fs), tx_total fs + 4) /\
    walk (S (length fs)) buf 0 = Some (map tx_payload fs).
Proof.
  intros Hfs Hne Hlen Hfit HN.
  destruct (aggregate_built N fs Hfs HN [] (replicate N 0) 0 0) as (buf & E & Hb);
    [by split; [apply length_replicate|]|constructor|simpl; lia|done|done|].
  exists buf. split; [done|]. apply (walk_built N); (done || lia).
Qed.

Lemma tx_aggr_walk_witness :
  exists buf, aggregate (replicate 40 0) [([1; 2; 3; 4; 5; 6; 7; 8], 5); ([9; 9; 9; 9], 4)] 0 0 =
      Some (buf, 2, 32) /\
    walk 3 buf 0 = Some [[1; 2; 3; 4; 5; 6; 7; 8]; [9; 9; 9; 9]].
Proof.
  apply (tx_aggr_walk 40 [([1; 2; 3; 4; 5; 6; 7; 8], 5); ([9; 9; 9; 9], 4)]);
    [repeat constructor; vm_compute; intros [=]|done|simpl; lia|vm_compute; intros [=]|lia].
Defined.

(** for every content of the receive buffer the loop that takes a transfer
    apart ends: each round that does not stop moves by at least one byte, so
    [data_length + 1] rounds are enough. *)
Theorem rx_aggr_terminates (mem fresh : list Z) (data_length : Z) :
  bytes mem -> 0 <= data_length ->
  exists r, ssv6006_hal_process_hci_rx_aggr mem fresh data_length = Some r.
Proof.
  intros Hm Hl. destruct (ssv6006_hal_process_hci_rx_aggr mem fresh data_length) as [r|] eqn:E; [by exists r|].
  exfalso. revert E. apply rx_loop_fuel; [done|lia..].
Qed.

Lemma rx_aggr_terminates_witness :
  exists r, ssv6006_hal_process_hci_rx_aggr
    [14; 0; 0; 1; 0; 0; 0; 0; 0; 0; 0; 0; 2; 0; 0; 0] (replicate 8 0) 14 = Some r.
Proof. apply rx_aggr_terminates; [repeat constructor; lia|lia]. Defined.

(** C34: a transfer of well-formed frames (each fits the receive buffer and
    [MAX_FRAME_SIZE] and holds at least its two-byte length), followed by at least
    two more bytes of the buffer (whatever they hold), is taken apart into exactly
    its frames, in order, each with the length its descriptor gives; the result is
    the length of the next transfer announced by the last header. *)
Theorem rx_aggr_splits (fresh : list Z) (p : rx_pkt) (ps : list rx_pkt) (a b : Z) (post : list Z) :
  Forall (rx_pkt_wf (length fresh)) (p :: ps) -> 0 <= a -> 0 <= b ->
  ssv6006_hal_process_hci_rx_aggr
      (concat (map rx_encode (p :: ps)) ++ a :: b :: post) fresh
      (Z.of_nat (length (concat (map rx_encode (p :: ps)))))
  = Some (Ret (map (rx_frame fresh) (p :: ps), rx_next (List.last ps p))).
Proof.
  intros Hps Ha Hb. apply list.Forall_cons_1 in Hps as [Hp Hps].
  pose proof (rx_encode_length p ltac:(apply Hp)) as Hlp. pose proof (rx_jmp_range _ _ Hp).
  assert (Hcnt : (length ps <= length (concat (map rx_encode ps)))%nat).
  { clear -Hps. induction Hps as [|q ps Hq Hps IH]; [done|]. cbn [map concat]. rewrite length_app.
    pose proof (rx_encode_length q ltac:(apply Hq)). pose proof (rx_jmp_range _ _ Hq). simpl length. lia. }
  unfold ssv6006_hal_process_hci_rx_aggr. cbn [map concat]. rewrite length_app, <-app_assoc.
  rewrite Nat2Z.inj_add, Hlp.
  apply (rx_loop_splits fresh a b post ps Hps Ha Hb _ [] p Hp). lia.
Qed.

Lemma rx_aggr_splits_witness :
  ssv6006_hal_process_hci_rx_aggr
    ([15; 0; 0; 0; 7; 7; 7; 7; 7; 7; 7; 7; 3; 0; 42] ++
     [14; 0; 64; 1; 8; 8; 8; 8; 8; 8; 8; 8; 2; 0] ++ [255; 255]) (replicate 4 0) 29
  = Some (Ret ([([3; 0; 42; 0], 3); ([2; 0; 0; 0], 2)], 306)).
Proof.
  exact (rx_aggr_splits (replicate 4 0) (mk_rx_pkt 0 (replicate 8 7) [3; 0; 42])
    [mk_rx_pkt 320 (replicate 8 8) [2; 0]] 255 255 []
    ltac:(repeat constructor; simpl; unfold rx_jmp, SIZEOF_hci_rx_aggr_info, MAX_FRAME_SIZE; simpl; lia)
    ltac:(lia) ltac:(lia)).
Defined.

(** a header whose [jmp_mpdu_len] is below the twelve bytes of the header
    itself is not rejected when it is taken for the last one: the size of the
    copy wraps below zero and the copy leaves the buffers.  A transfer of zero
    bytes is such a case. *)
Theorem rx_short_header_faults (mem fresh : list Z) (data_length : Z) :
  SIZEOF_hci_rx_aggr_info <= data_length <= Z.of_nat (length mem) ->
  Forall (fun b => b = 0) mem ->
  ssv6006_hal_process_hci_rx_aggr mem fresh data_length = Some Fault.
Proof.
  intros Hl Hz. unfold SIZEOF_hci_rx_aggr_info in Hl.
  assert (H0 : jmp_mpdu_len mem 0 = Some 0).
  { destruct mem as [|a [|b m]]; [simpl in Hl; lia..|].
    apply list.Forall_cons_1 in Hz as [-> Hz]. by apply list.Forall_cons_1 in Hz as [-> _]. }
  unfold ssv6006_hal_process_hci_rx_aggr. cbn [rx_aggr_loop].
  replace (data_length <=? 0) with false by lia. unfold ssv6xxx_aggr_frame_is_last.
  rewrite H0. cbn [mbind option_bind]. replace (0 + 0 =? data_length - 1) with false by lia.
  change (0 + 0) with 0. rewrite H0. cbn [mbind option_bind orb Z.eqb].
  replace ((data_length <? _) || (data_length <? 0)) with false
    by (unfold SIZEOF_hci_rx_aggr_info; symmetry; rewrite !orb_false_iff; lia). done.
Qed.

Lemma rx_short_header_faults_witness :
  ssv6006_hal_process_hci_rx_aggr (replicate 16 0) (replicate 32 0) 16 = Some Fault.
Proof.
  apply rx_short_header_faults; [unfold SIZEOF_hci_rx_aggr_info; simpl; lia|repeat constructor].
Defined.
