(* ===== verification/TxQueue.v ===== *)
(** * TxQueue: the transmit queues of [core/txrx_task.c]

    Frames wait for the transmit task in five queues [tx_hwq], by priority; the
    list nodes come from a fixed array and wait in [free_frmQ] between uses.
    Queues and free list are [ssv_llist] FIFOs on one heap of nodes ([ListQ]).

    [rep q N hand Q] says that the heap [q] holds the queues of frames [Q], that
    the node [hand] (the one the transmit task has popped, if any) is in no
    queue, and that all [N] nodes of the array are accounted for.  The lemmas
    give the effect of each critical section on [Q]; they are what the transmit
    task ([TxTask]) is verified against. *)

From stdpp Require Import base list option gmap.
From Stdlib Require Import ZArith Lia.
From S2P Require Import Prelude ListQ MsgEvt.

Definition PRI_Q_NUM : nat := 5.

(** A frame: its identity, whether its descriptor says [M0_TXREQ] (data), the
    bytes from its data pointer on, its data length. *)
Record frame : Type := mk_frame {
  f_id : Z;
  f_data : bool;
  f_mem : list Z;
  f_len : Z
}.

(** [g_freeFrmList], [tx_hwq] and [free_frmQ]: the [_list] links of the nodes,
    their [frame] fields (absent: [NULL]), the list heads. *)
Record txq : Type := mk_txq {
  nodes : lheap;
  node_frame : gmap Z frame;
  tx_hwq : list ssv_llist_head;
  free_frmQ : ssv_llist_head
}.

(** The node array [g_freeFrmList]: addresses [1 .. n], links cleared. *)
Definition node_addrs (n : nat) : list Z := Z.of_nat <$> seq 1 n.
Definition node_array (n : nat) : lheap := list_to_map ((fun a => (a, NULL)) <$> node_addrs n).

Fixpoint push_all (h : lheap) (hd : ssv_llist_head) (l : list Z) : option (lheap * ssv_llist_head) :=
  match l with
  | [] => Some (h, hd)
  | x :: r => '(h', hd') ← llist_push h hd x; push_all h' hd' r
  end.

(** [_prepare_tx_frm_list] on a cleared array of [n] nodes. *)
Definition _prepare_tx_frm_list (n : nat) : option txq :=
  '(h, free) ← push_all (node_array n) llist_head_init (node_addrs n);
  Some (mk_txq h ∅ (replicate PRI_Q_NUM llist_head_init) free).

(** The critical section of [TXRXTask_FrameEnqueue]: [Ret (q, false)] when no
    node is free. *)
Definition enqueue_locked (q : txq) (f : frame) (priority : Z) : outcome (txq * bool) :=
  match llist_pop (nodes q) (free_frmQ q) with
  | None => Fault
  | Some (h, free, dataFrm) =>
      if dataFrm =? NULL then Ret (q, false)
      else
        match tx_hwq q !! Z.to_nat priority with
        | None => Fault
        | Some hd =>
            match llist_push h hd dataFrm with
            | None => Fault
            | Some (h', hd') =>
                Ret (mk_txq h' (<[dataFrm := f]> (node_frame q))
                       (<[Z.to_nat priority := hd']> (tx_hwq q)) free, true)
            end
        end
  end.

(** [llist_pop_safe(&tx_hwq[i], &tx_mtx)] and the read of the node's [frame]. *)
Definition pop_hwq (q : txq) (i : nat) : outcome (txq * option (Z * option frame)) :=
  match tx_hwq q !! i with
  | None => Fault
  | Some hd =>
      match llist_pop (nodes q) hd with
      | None => Fault
      | Some (h, hd', outFrm) =>
          let q' := mk_txq h (node_frame q) (<[i := hd']> (tx_hwq q)) (free_frmQ q) in
          Ret (q', if outFrm =? NULL then None else Some (outFrm, node_frame q !! outFrm))
      end
  end.

(** [outFrm->frame = NULL; llist_push_safe(&free_frmQ, outFrm, &tx_mtx)] *)
Definition release (q : txq) (outFrm : Z) : outcome txq :=
  match llist_push (nodes q) (free_frmQ q) outFrm with
  | None => Fault
  | Some (h, free) => Ret (mk_txq h (delete outFrm (node_frame q)) (tx_hwq q) free)
  end.

(** ** What the heap operations leave alone *)

Lemma llist_frame h h' hd l :
  (forall x, x ∈ l -> h' !! x = h !! x) -> llist h hd l -> llist h' hd l.
Proof. intros Hf [Hc Hn Ht Hl]. split; try done. by eapply chain_frame. Qed.

Lemma llist_last_in h hd l :
  llist h hd l -> ll_list hd <> NULL -> ll_last hd ∈ l.
Proof.
  intros [Hc _ Ht _] Hne. destruct (last l) as [x|] eqn:El.
  - rewrite (Ht x eq_refl). by apply last_Some_elem_of.
  - apply last_None in El. subst l. by simpl in Hc.
Qed.

Lemma push_frame h hd l x h' hd' :
  llist h hd l -> llist_push h hd x = Some (h', hd') ->
  forall y, y ∉ x :: l -> h' !! y = h !! y.
Proof.
  intros Hl Hp y Hy. unfold llist_push in Hp.
  destruct (Z.eqb_spec (ll_list hd) NULL) as [E|E].
  - simpl in Hp. destruct (h !! x); simpl in Hp; [|done]. simplify_eq.
    apply lookup_insert_ne. set_solver.
  - pose proof (llist_last_in _ _ _ Hl E).
    destruct (h !! ll_last hd); simpl in Hp; [|done].
    destruct (_ !! x); simpl in Hp; [|done]. simplify_eq.
    rewrite !lookup_insert_ne; set_solver.
Qed.

Lemma insert_dom (h : lheap) x v y : is_Some (h !! y) -> is_Some (<[x := v]> h !! y).
Proof. intros H. rewrite lookup_insert_is_Some. destruct (decide (x = y)); [by left|by right]. Qed.

#[local] Hint Resolve insert_dom : core.

Lemma push_dom h hd x h' hd' :
  llist_push h hd x = Some (h', hd') -> forall y, is_Some (h !! y) -> is_Some (h' !! y).
Proof.
  unfold llist_push. intros Hp y Hy.
  destruct (ll_list hd =? NULL); simpl in Hp;
    [|destruct (h !! ll_last hd); simpl in Hp; [|done]];
    (destruct (_ !! x) eqn:?; simpl in Hp; [|done]); injection Hp as <- <-; auto.
Qed.

Lemma pop_frame h hd l h' hd' x :
  llist h hd l -> llist_pop h hd = Some (h', hd', x) ->
  forall y, y ∉ l -> h' !! y = h !! y.
Proof.
  intros Hl Hp y Hy. unfold llist_pop in Hp.
  destruct (Z.eqb_spec (ll_list hd) NULL) as [E|E]; simpl in Hp; [by simplify_eq|].
  destruct (h !! ll_list hd); simpl in Hp; [|done]. simplify_eq.
  apply lookup_insert_ne. intros <-. apply Hy. destruct Hl as [Hc _ _ _].
  destruct l as [|w l]; simpl in Hc; [done|]. destruct Hc as [-> _]. set_solver.
Qed.

Lemma pop_dom h hd h' hd' x :
  llist_pop h hd = Some (h', hd', x) -> forall y, is_Some (h !! y) -> is_Some (h' !! y).
Proof.
  unfold llist_pop. intros Hp y Hy. destruct (negb _); [|by simplify_eq].
  destruct (h !! ll_list hd); simpl in Hp; [|done]. simplify_eq.
  auto.
Qed.

(** ** The queues of frames a heap holds *)

Definition hand_nodes (hand : option Z) : list Z := match hand with Some x => [x] | None => [] end.

Definition all_nodes (ls : list (list Z)) (fr : list Z) (hand : option Z) : list Z :=
  concat ls ++ fr ++ hand_nodes hand.

Record rep_at (q : txq) (N : nat) (hand : option Z) (Q : list (list frame))
  (ls : list (list Z)) (fr : list Z) : Prop := mk_rep {
  r_hwq : Forall2 (llist (nodes q)) (tx_hwq q) ls;
  r_free : llist (nodes q) (free_frmQ q) fr;
  r_nodup : NoDup (all_nodes ls fr hand);
  r_count : length (all_nodes ls fr hand) = N;
  r_heap : forall x, x ∈ all_nodes ls fr hand -> x <> NULL /\ is_Some (nodes q !! x);
  r_frames : Forall2 (Forall2 (fun n f => node_frame q !! n = Some f)) ls Q;
  r_num : length Q = PRI_Q_NUM
}.

Definition rep (q : txq) (N : nat) (hand : option Z) (Q : list (list frame)) : Prop :=
  exists ls fr, rep_at q N hand Q ls fr.

(** The number of frames waiting. *)
Definition total (Q : list (list frame)) : nat := length (concat Q).

Lemma hwq_frame h h' hs ls :
  Forall2 (llist h) hs ls -> (forall x, x ∈ concat ls -> h' !! x = h !! x) -> Forall2 (llist h') hs ls.
Proof.
  induction 1 as [|hd l hs ls Hl Hls IH]; intros Hf; constructor.
  - eapply llist_frame; [|done]. intros x Hx. apply Hf. simpl. apply elem_of_app. by left.
  - apply IH. intros x Hx. apply Hf. simpl. apply elem_of_app. by right.
Qed.

Definition holds_frames (m : gmap Z frame) : list Z -> list frame -> Prop :=
  Forall2 (fun n f => m !! n = Some f).

Lemma holds_frame m m' ns l :
  holds_frames m ns l -> (forall x, x ∈ ns -> m' !! x = m !! x) -> holds_frames m' ns l.
Proof.
  unfold holds_frames. induction 1 as [|n f ns l Hn Hl IH]; intros Hf; constructor.
  - rewrite Hf by set_solver. done.
  - apply IH. set_solver.
Qed.

Lemma holds_all m m' ls Q :
  Forall2 (holds_frames m) ls Q -> (forall x, x ∈ concat ls -> m' !! x = m !! x) ->
  Forall2 (holds_frames m') ls Q.
Proof.
  induction 1 as [|ns l ls Q Hl Hls IH]; intros Hf; constructor.
  - eapply holds_frame; [done|]. intros x Hx. apply Hf. simpl. apply elem_of_app. by left.
  - apply IH. intros x Hx. apply Hf. simpl. apply elem_of_app. by right.
Qed.

Lemma insert_mid {A} (l1 l2 : list A) x y i :
  i = length l1 -> <[i := y]> (l1 ++ x :: l2) = l1 ++ y :: l2.
Proof. intros ->. rewrite insert_app_r_alt by lia. by rewrite Nat.sub_diag. Qed.

(** A queue, with what surrounds it. *)
Record cut (q : txq) (Q : list (list frame)) (ls : list (list Z)) (p : nat) (l : list frame)
  (hs1 : list ssv_llist_head) (hd : ssv_llist_head) (hs2 : list ssv_llist_head)
  (ls1 : list (list Z)) (ns : list Z) (ls2 : list (list Z)) (Q1 Q2 : list (list frame)) : Prop := mk_cut {
  c_hwq : tx_hwq q = hs1 ++ hd :: hs2;
  c_ls : ls = ls1 ++ ns :: ls2;
  c_Q : Q = Q1 ++ l :: Q2;
  c_hs1 : p = length hs1;
  c_Q1 : p = length Q1;
  c_l1 : Forall2 (llist (nodes q)) hs1 ls1;
  c_l : llist (nodes q) hd ns;
  c_l2 : Forall2 (llist (nodes q)) hs2 ls2;
  c_f1 : Forall2 (holds_frames (node_frame q)) ls1 Q1;
  c_f : holds_frames (node_frame q) ns l;
  c_f2 : Forall2 (holds_frames (node_frame q)) ls2 Q2
}.

Lemma rep_cut q N hand Q ls fr p l :
  rep_at q N hand Q ls fr -> Q !! p = Some l ->
  exists hs1 hd hs2 ls1 ns ls2 Q1 Q2, cut q Q ls p l hs1 hd hs2 ls1 ns ls2 Q1 Q2.
Proof.
  intros [Hh _ _ _ _ Hf _] Hp. apply list_elem_of_split_length in Hp as (Q1 & Q2 & -> & ->).
  apply Forall2_app_inv_r in Hf as (ls1 & lsr & Hf1 & Hf2 & ->).
  apply Forall2_cons_inv_r in Hf2 as (ns & ls2 & Hf & Hf2 & ->).
  apply Forall2_app_inv_r in Hh as (hs1 & hsr & Hh1 & Hh2 & Hhs).
  apply Forall2_cons_inv_r in Hh2 as (hd & hs2 & Hl & Hh2 & ->).
  exists hs1, hd, hs2, ls1, ns, ls2, Q1, Q2. split; try done.
  by rewrite (Forall2_length _ _ _ Hh1), (Forall2_length _ _ _ Hf1).
Qed.

Lemma all_nodes_cut ls1 ns ls2 fr hand :
  all_nodes (ls1 ++ ns :: ls2) fr hand ≡ₚ ns ++ fr ++ hand_nodes hand ++ concat (ls1 ++ ls2).
Proof.
  unfold all_nodes. rewrite !concat_app. simpl. solve_Permutation.
Qed.

Lemma total_cut Q1 l Q2 : total (Q1 ++ l :: Q2) = (length l + total (Q1 ++ Q2))%nat.
Proof. unfold total. rewrite !concat_app. simpl. rewrite !length_app. lia. Qed.

Lemma frames_total m ls Q : Forall2 (holds_frames m) ls Q -> total Q = length (concat ls).
Proof.
  unfold total. induction 1 as [|ns l ls Q Hl Hls IH]; [done|]. simpl. rewrite !length_app, IH.
  f_equal. symmetry. by apply Forall2_length in Hl.
Qed.

(** An operation that moves nodes between the lists keeps the accounting. *)
Lemma rep_update q N hand Q ls fr q' hand' Q' ls' fr' :
  rep_at q N hand Q ls fr ->
  all_nodes ls' fr' hand' ≡ₚ all_nodes ls fr hand ->
  (forall y, is_Some (nodes q !! y) -> is_Some (nodes q' !! y)) ->
  Forall2 (llist (nodes q')) (tx_hwq q') ls' -> llist (nodes q') (free_frmQ q') fr' ->
  Forall2 (holds_frames (node_frame q')) ls' Q' -> length Q' = length Q ->
  rep q' N hand' Q'.
Proof.
  intros [_ _ Hn Hc Hh _ Hq] Hp Hd Hl Hf Hfr HQ. exists ls', fr'. split; try done.
  - by rewrite Hp.
  - by rewrite Hp.
  - intros x. rewrite Hp. intros [Hx Hs]%Hh. auto.
  - by rewrite HQ.
Qed.


Lemma cut_nodup q N hand Q ls1 ns ls2 fr :
  rep_at q N hand Q (ls1 ++ ns :: ls2) fr ->
  NoDup (ns ++ fr ++ hand_nodes hand ++ concat (ls1 ++ ls2)).
Proof. intros [_ _ Hn _ _ _ _]. by rewrite all_nodes_cut in Hn. Qed.

(** ** The critical sections *)

Lemma enqueue_rep q N hand Q f p l :
  rep q N hand Q -> Q !! Z.to_nat p = Some l ->
  (exists q', enqueue_locked q f p = Ret (q', true) /\
     rep q' N hand (<[Z.to_nat p := l ++ [f]]> Q)) \/
  (enqueue_locked q f p = Ret (q, false) /\ N = (total Q + length (hand_nodes hand))%nat).
Proof.
  intros (ls & fr & Hr) Hp. unfold enqueue_locked.
  destruct (llist_pop_rep _ _ _ (r_free _ _ _ _ _ _ Hr)) as (h1 & fr1 & Epop & Hfr1).
  rewrite Epop. destruct fr as [|x fr]; cbn [head default tail].
  { right. split; [done|]. destruct Hr as [_ _ _ <- _ Hfr _]. unfold all_nodes.
    rewrite !length_app. by rewrite (frames_total _ _ _ Hfr). }
  left. unfold id in *. destruct (rep_cut _ _ _ _ _ _ _ _ Hr Hp) as (hs1 & hd & hs2 & ls1 & ns & ls2 & Q1 & Q2 & C).
  destruct C as [Hhw -> -> Hl1 HQ1 H1 Hl H2 F1 F F2].
  pose proof (cut_nodup _ _ _ _ _ _ _ _ Hr) as Hnd.
  assert (Hx : x <> NULL /\ is_Some (nodes q !! x)).
  { apply (r_heap _ _ _ _ _ _ Hr). rewrite all_nodes_cut. set_solver. }
  destruct Hx as [Hx0 Hxs]. rewrite (proj2 (Z.eqb_neq _ _) Hx0).
  rewrite Hhw, list_lookup_middle by done.
  apply NoDup_app in Hnd as (Hns & Hdis & Hnd). apply NoDup_app in Hnd as (Hndf & Hdisf & Hndc).
  assert (Hxn : x ∉ ns) by (intros Hin; apply (Hdis x Hin); set_solver).
  pose proof (pop_frame _ _ _ _ _ _ (r_free _ _ _ _ _ _ Hr) Epop) as Hpf.
  assert (Hl' : llist h1 hd ns).
  { eapply llist_frame; [|exact Hl]. intros y Hy. apply Hpf. intros Hin. apply (Hdis y Hy). set_solver. }
  destruct (llist_push_rep h1 hd ns x Hl' Hx0 Hxn (pop_dom _ _ _ _ _ Epop _ Hxs)) as (h2 & hd2 & Epush & Hl2).
  rewrite Epush. eexists. split; [done|]. rewrite !insert_mid by done.
  pose proof (push_frame _ _ _ _ _ _ Hl' Epush) as Hqf.
  assert (Hother : forall y, y ∈ concat (ls1 ++ ls2) -> h2 !! y = nodes q !! y).
  { intros y Hy. assert (Hyf : y ∉ x :: fr) by (intros Hin; apply (Hdisf y Hin); set_solver).
    assert (Hyn : y ∉ ns) by (intros Hin; apply (Hdis y Hin); set_solver).
    rewrite Hqf, Hpf; set_solver. }
  rewrite concat_app in Hother.
  eapply (rep_update _ _ _ _ _ _ _ _ _ (ls1 ++ (ns ++ [x]) :: ls2) fr Hr); cbn [nodes tx_hwq free_frmQ node_frame].
  - rewrite !all_nodes_cut. solve_Permutation.
  - intros y Hy. eapply push_dom, pop_dom; done.
  - apply Forall2_app; [|constructor; [done|]]; (eapply hwq_frame; [done|set_solver]).
  - eapply llist_frame; [|exact Hfr1]. intros y Hy. apply Hqf.
    apply NoDup_cons in Hndf as [Hxf _]. intros [->|Hin]%elem_of_cons; [done|].
    apply (Hdis y Hin). set_solver.
  - assert (Hxc : x ∉ concat ls1 ++ concat ls2)
      by (intros Hin; apply (Hdisf x); [set_solver|]; rewrite concat_app; set_solver).
    apply Forall2_app; [|constructor].
    + eapply holds_all; [done|]. intros y Hy. apply lookup_insert_ne. set_solver.
    + apply Forall2_app; [|constructor; [apply lookup_insert_eq|constructor]].
      eapply holds_frame; [done|]. intros y Hy. apply lookup_insert_ne. set_solver.
    + eapply holds_all; [done|]. intros y Hy. apply lookup_insert_ne. set_solver.
  - rewrite !length_app. done.
Qed.

Lemma pop_hwq_rep q N Q i l :
  rep q N None Q -> Q !! i = Some l ->
  match l with
  | [] => exists q', pop_hwq q i = Ret (q', None) /\ rep q' N None Q
  | f :: l' => exists q' x, pop_hwq q i = Ret (q', Some (x, Some f)) /\
                 rep q' N (Some x) (<[i := l']> Q)
  end.
Proof.
  intros (ls & fr & Hr) Hp. unfold pop_hwq.
  destruct (rep_cut _ _ _ _ _ _ _ _ Hr Hp) as (hs1 & hd & hs2 & ls1 & ns & ls2 & Q1 & Q2 & C).
  destruct C as [Hhw -> -> Hl1 HQ1 H1 Hl H2 F1 F F2].
  pose proof (cut_nodup _ _ _ _ _ _ _ _ Hr) as Hnd. apply NoDup_app in Hnd as (Hns & Hdis & Hnd).
  rewrite Hhw, list_lookup_middle by done.
  destruct (llist_pop_rep _ _ _ Hl) as (h1 & hd1 & Epop & Hl').
  pose proof (pop_frame _ _ _ _ _ _ Hl Epop) as Hpf. rewrite Epop, insert_mid by done.
  assert (Hother : forall y, y ∈ fr ++ concat ls1 ++ concat ls2 -> h1 !! y = nodes q !! y).
  { intros y Hy. apply Hpf. intros Hin. apply (Hdis y Hin). rewrite concat_app. set_solver. }
  destruct ns as [|x ns]; cbn [tail] in Hl'; unfold default, from_option, id.
  - apply Forall2_nil_inv_l in F as ->. eexists. split; [done|].
    eapply (rep_update _ _ _ _ _ _ _ _ _ (ls1 ++ [] :: ls2) fr Hr); cbn [nodes tx_hwq free_frmQ node_frame].
    + done.
    + intros y. by eapply pop_dom.
    + apply Forall2_app; [|constructor; [done|]]; (eapply hwq_frame; [done|set_solver]).
    + eapply llist_frame; [|apply Hr]. set_solver.
    + apply Forall2_app; [done|constructor; [constructor|done]].
    + done.
  - apply Forall2_cons_inv_l in F as (f & l' & Hf & F & ->). cbn [head].
    assert (Hx : x <> NULL) by (apply (r_heap _ _ _ _ _ _ Hr); rewrite all_nodes_cut; set_solver).
    rewrite (proj2 (Z.eqb_neq _ _) Hx), Hf. do 2 eexists. split; [done|]. rewrite insert_mid by done.
    eapply (rep_update _ _ _ _ _ _ _ _ _ (ls1 ++ ns :: ls2) fr Hr); cbn [nodes tx_hwq free_frmQ node_frame].
    + rewrite !all_nodes_cut. simpl. solve_Permutation.
    + intros y. by eapply pop_dom.
    + apply Forall2_app; [|constructor; [done|]]; (eapply hwq_frame; [done|set_solver]).
    + eapply llist_frame; [|apply Hr]. set_solver.
    + apply Forall2_app; [done|by constructor].
    + rewrite !length_app. done.
Qed.

Lemma release_rep q N Q x :
  rep q N (Some x) Q -> exists q', release q x = Ret q' /\ rep q' N None Q.
Proof.
  intros (ls & fr & Hr). unfold release. pose proof Hr as [Hh Hf Hn _ Hp Hfr _].
  assert (Hx : x <> NULL /\ is_Some (nodes q !! x)) by (apply Hp; unfold all_nodes; set_solver).
  unfold all_nodes in Hn. apply NoDup_app in Hn as (_ & Hd & Hn). apply NoDup_app in Hn as (_ & Hd2 & _).
  assert (Hxf : x ∉ fr) by (intros Hin; apply (Hd2 x Hin); set_solver).
  assert (Hxl : x ∉ concat ls) by (intros Hin; apply (Hd x Hin); set_solver).
  destruct (llist_push_rep _ _ _ x Hf (proj1 Hx) Hxf (proj2 Hx)) as (h1 & fr1 & E & Hf1).
  rewrite E. eexists. split; [done|]. pose proof (push_frame _ _ _ _ _ _ Hf E) as Hpf.
  eapply (rep_update _ _ _ _ _ _ _ _ _ ls (fr ++ [x]) Hr); cbn [nodes tx_hwq free_frmQ node_frame].
  - unfold all_nodes. simpl. solve_Permutation.
  - intros y. by eapply push_dom.
  - eapply hwq_frame; [done|]. intros y Hy. apply Hpf. intros [->|Hin]%elem_of_cons; [done|].
    apply (Hd y Hy). set_solver.
  - done.
  - eapply holds_all; [done|]. intros y Hy. apply lookup_delete_ne. set_solver.
  - done.
Qed.

(** ** Initialisation *)

Lemma push_all_rep l : forall h hd pre,
  llist h hd pre -> NoDup (pre ++ l) -> (forall x, x ∈ l -> x <> NULL /\ is_Some (h !! x)) ->
  exists h' hd', push_all h hd l = Some (h', hd') /\ llist h' hd' (pre ++ l) /\
    forall y, is_Some (h !! y) -> is_Some (h' !! y).
Proof.
  induction l as [|x l IH]; intros h hd pre Hl Hn Hh; simpl.
  - exists h, hd. by rewrite app_nil_r.
  - destruct (NoDup_mid _ _ _ Hn) as (Hxp & _ & _). destruct (Hh x) as [Hx0 Hxs]; [set_solver|].
    destruct (llist_push_rep _ _ _ x Hl Hx0 Hxp Hxs) as (h1 & hd1 & E & Hl1). rewrite E. simpl.
    pose proof (push_dom _ _ _ _ _ E) as Hd.
    destruct (IH h1 hd1 (pre ++ [x]) Hl1) as (h2 & hd2 & E2 & Hl2 & Hd2).
    + by rewrite <-app_assoc.
    + intros y Hy. destruct (Hh y); [set_solver|]. auto.
    + exists h2, hd2. rewrite <-app_assoc in Hl2. auto.
Qed.

Lemma prepare_rep n : exists q, _prepare_tx_frm_list n = Some q /\ rep q n None (replicate PRI_Q_NUM []).
Proof.
  assert (Hnd : NoDup (node_addrs n)) by (apply (NoDup_fmap_2 _), NoDup_seq).
  assert (Hin : forall x, x ∈ node_addrs n -> x <> NULL /\ is_Some (node_array n !! x)).
  { intros x Hx. split.
    - unfold node_addrs in Hx. apply list_elem_of_fmap in Hx as (k & -> & Hk).
      apply elem_of_seq in Hk. unfold NULL. lia.
    - exists NULL. apply elem_of_list_to_map; [by rewrite <-list_fmap_compose, list_fmap_id|].
      apply list_elem_of_fmap. by exists x. }
  destruct (push_all_rep (node_addrs n) (node_array n) llist_head_init [] (llist_init_rep _) Hnd Hin)
    as (h & hd & E & Hl & Hd).
  unfold _prepare_tx_frm_list. rewrite E. simpl. eexists. split; [done|].
  exists (replicate PRI_Q_NUM []), (node_addrs n). split; cbn [nodes tx_hwq free_frmQ node_frame].
  - repeat constructor; simpl; done.
  - done.
  - unfold all_nodes. simpl. by rewrite app_nil_r.
  - unfold all_nodes. simpl. rewrite app_nil_r. unfold node_addrs. by rewrite length_fmap, length_seq.
  - unfold all_nodes. simpl. rewrite app_nil_r. intros x [? ?]%Hin. auto.
  - repeat constructor.
  - done.
Qed.
