(* ===== verification/TxTask.v ===== *)
(** * TxTask: the transmit side of [core/txrx_task.c]

    Any thread may call [TXRXTask_FrameEnqueue]; [TXRXTask_TxTask] takes the
    queued frames, highest priority first, and sends them, one by one or
    collected in an aggregation buffer; [TXRXTask_SetOpMode] stops the traffic
    and has the frames queued so far discarded.

    A state holds the queues ([TxQueue]), the counters, the semaphore
    [tx_frm_sphr], the program point and locals of the task, and the callers in
    the middle of an enqueue.  A step is one critical section of a caller or of
    the task, or a change of mode; a run is any interleaving of them.  The
    outputs of a run record frames accepted and refused, frames taken from a
    queue, mode changes, and what is given to the driver with its result.

    [tx_refines_queues] shows that every interleaving is a run of five FIFO
    queues and a flush counter; [tx_no_fault] that nothing is accessed out of
    bounds and no list node is lost; [tx_bus_carries_frames] that the frames
    taken and not flushed are exactly those of the transfers given to the
    driver, in order, and that the bus carries the transfers the driver has
    sent (a failed [ssv6xxx_drv_send] loses its frames, [failed_send_loses_frame]);
    [tx_no_lost_wakeup] that the task never sleeps on a queued frame.
    [aggr_overruns] and [aggr_drops_frame] record what happens with frames
    longer than [MAX_AGGR_FRAME]. *)

From stdpp Require Import base list option gmap.
From Stdlib Require Import ZArith Lia.
From S2P Require Import Prelude ListQ MsgEvt CmdEngine HciAggr TxQueue.

(** ** State *)

(** A call of [TXRXTask_FrameEnqueue]: before the test of the mode, before the
    critical section, before the semaphore is signalled. *)
Inductive caller : Type :=
| CTest (f : frame) (priority : Z)
| CLock (f : frame) (priority : Z)
| CSignal.

(** Program points of [TXRXTask_TxTask]: the head of the outer loop; the wait
    for the semaphore; the pop from [tx_hwq[i]]; a node and its frame popped,
    waiting for resources; the frame to send or to discard; the node to put
    back; the wait for a second and later frame of a round; the end of a round;
    the end of the task. *)
Inductive tx_pc : Type :=
| PTop
| PWait
| PPop (i : nat)
| PRes (i : nat) (outFrm : Z) (tFrame : frame)
| PSend (i : nat) (outFrm : Z) (tFrame : frame) (flush_frm : bool)
| PFree (i : nat) (outFrm : Z)
| PMore (i : nat)
| PEnd
| PDone.

Record txrx : Type := mk_txrx {
  tx_curr_mode : ModeType;
  tx_data_frm_num : Z;
  tx_flush_data_frm_num : Z;
  queues : txq;
  tx_frm_sphr : Z;
  hci_aggr_tx : bool;
  tpc : tx_pc;
  prc_count : Z;
  aggr_n : Z;
  aggr_len : Z;
  aggr_buf : option (list Z);
  sleep_tick : Z;
  callers : list caller
}.

Definition set_tpc (s : txrx) (p : tx_pc) : txrx :=
  mk_txrx (tx_curr_mode s) (tx_data_frm_num s) (tx_flush_data_frm_num s) (queues s) (tx_frm_sphr s)
    (hci_aggr_tx s) p (prc_count s) (aggr_n s) (aggr_len s) (aggr_buf s) (sleep_tick s) (callers s).

Definition set_prc (s : txrx) (n : Z) : txrx :=
  mk_txrx (tx_curr_mode s) (tx_data_frm_num s) (tx_flush_data_frm_num s) (queues s) (tx_frm_sphr s)
    (hci_aggr_tx s) (tpc s) n (aggr_n s) (aggr_len s) (aggr_buf s) (sleep_tick s) (callers s).

Definition set_queues (s : txrx) (q : txq) : txrx :=
  mk_txrx (tx_curr_mode s) (tx_data_frm_num s) (tx_flush_data_frm_num s) q (tx_frm_sphr s)
    (hci_aggr_tx s) (tpc s) (prc_count s) (aggr_n s) (aggr_len s) (aggr_buf s) (sleep_tick s) (callers s).

Definition set_counts (s : txrx) (d fl : Z) : txrx :=
  mk_txrx (tx_curr_mode s) d fl (queues s) (tx_frm_sphr s)
    (hci_aggr_tx s) (tpc s) (prc_count s) (aggr_n s) (aggr_len s) (aggr_buf s) (sleep_tick s) (callers s).

Definition set_sem (s : txrx) (n : Z) : txrx :=
  mk_txrx (tx_curr_mode s) (tx_data_frm_num s) (tx_flush_data_frm_num s) (queues s) n
    (hci_aggr_tx s) (tpc s) (prc_count s) (aggr_n s) (aggr_len s) (aggr_buf s) (sleep_tick s) (callers s).

Definition set_callers (s : txrx) (cs : list caller) : txrx :=
  mk_txrx (tx_curr_mode s) (tx_data_frm_num s) (tx_flush_data_frm_num s) (queues s) (tx_frm_sphr s)
    (hci_aggr_tx s) (tpc s) (prc_count s) (aggr_n s) (aggr_len s) (aggr_buf s) (sleep_tick s) cs.

Definition set_tmode (s : txrx) (m : ModeType) : txrx :=
  mk_txrx m (tx_data_frm_num s) (tx_flush_data_frm_num s) (queues s) (tx_frm_sphr s)
    (hci_aggr_tx s) (tpc s) (prc_count s) (aggr_n s) (aggr_len s) (aggr_buf s) (sleep_tick s) (callers s).

Definition set_aggr (s : txrx) (en : bool) (n len : Z) (buf : option (list Z)) (tick : Z) : txrx :=
  mk_txrx (tx_curr_mode s) (tx_data_frm_num s) (tx_flush_data_frm_num s) (queues s) (tx_frm_sphr s)
    en (tpc s) (prc_count s) n len buf tick (callers s).

(** What a step shows to the outside: a frame queued, a frame refused because
    the traffic is stopped or because no node is free, a mode change, a frame
    taken from a queue (to be discarded when the flag is set), a frame or an
    aggregation buffer given to [ssv6xxx_drv_send], which has sent it or has
    failed. *)
Inductive tx_out : Type :=
| OQueue (priority : Z) (f : frame)
| ORefuse (f : frame)
| OFull (f : frame)
| OMode (flush : bool)
| OTake (i : nat) (f : frame) (flush_frm : bool)
| OSend (f : frame) (sent : bool)
| OSendAggr (buf : list Z) (len : Z) (sent : bool).

(** ** [TXRXTask_FrameEnqueue] *)

Definition TX_SEM_MAX (n : nat) : Z := Z.of_nat n.

(** One step of the caller [k].  [None]: it waits (the semaphore is at its
    maximum [N] and [OS_SemSignal] is retried). *)
Definition TXRXTask_FrameEnqueue (N : nat) (s : txrx) (k : nat) (c : caller) :
  option (outcome (txrx * list tx_out)) :=
  match c with
  | CTest f p =>
      match tx_curr_mode s, f_data f with
      | MT_STOP, true => Some (Ret (set_callers s (delete k (callers s)), [ORefuse f]))
      | _, _ => Some (Ret (set_callers s (<[k := CLock f p]> (callers s)), []))
      end
  | CLock f p =>
      match enqueue_locked (queues s) f p with
      | Ret (_, false) => Some (Ret (set_callers s (delete k (callers s)), [OFull f]))
      | Ret (q, true) =>
          let s := set_counts (set_queues s q) (u32 (tx_data_frm_num s + 1)) (tx_flush_data_frm_num s) in
          Some (Ret (set_callers s (<[k := CSignal]> (callers s)), [OQueue p f]))
      | _ => Some Fault
      end
  | CSignal =>
      if tx_frm_sphr s <? TX_SEM_MAX N then
        Some (Ret (set_callers (set_sem s (tx_frm_sphr s + 1)) (delete k (callers s)), []))
      else None
  end.

(** ** [TXRXTask_SetOpMode]

    The result is always [SSV6XXX_SUCCESS] for a known mode, whatever [ret] is. *)
Definition TXRXTask_SetOpMode (s : txrx) (mode : option ModeType) :
  txrx * list tx_out * ssv6xxx_result :=
  match mode with
  | None => (s, [], SSV6XXX_INVA_PARAM)
  | Some m =>
      let '(fl, flush, ret) :=
        match tx_curr_mode s, m with
        | MT_STOP, MT_EXIT => (tx_data_frm_num s, true, SSV6XXX_SUCCESS)
        | MT_STOP, _ => (tx_flush_data_frm_num s, false, SSV6XXX_SUCCESS)
        | MT_RUNNING, MT_STOP => (tx_data_frm_num s, true, SSV6XXX_SUCCESS)
        | MT_RUNNING, _ => (tx_flush_data_frm_num s, false, SSV6XXX_INVA_PARAM)
        | MT_EXIT, _ => (tx_flush_data_frm_num s, false, SSV6XXX_FAILED)
        end in
      let s := set_counts s (tx_data_frm_num s) fl in
      (match ret with SSV6XXX_SUCCESS => set_tmode s m | _ => s end, [OMode flush], SSV6XXX_SUCCESS)
  end.

(** ** [TXRXTask_TxTask] *)

(** What the surroundings do at a step: the wait for the semaphore times out
    (possible when [sleep_tick] is not 0), the bus has room, memory can be
    allocated, [ssv6xxx_drv_send] returns 0 or more. *)
Record tx_env : Type := mk_tx_env { e_timeout : bool; e_room : bool; e_alloc : bool; e_sent : bool }.

(** [OS_SemWait(tx_frm_sphr, sleep_tick)]; [None]: the task stays blocked. *)
Definition OS_SemWait (s : txrx) (env : tx_env) : option txrx :=
  if 0 <? tx_frm_sphr s then Some (set_sem s (tx_frm_sphr s - 1))
  else if negb (sleep_tick s =? 0) && e_timeout env then Some s
  else None.

Definition cleared : list Z := replicate (Z.to_nat MAX_HCI_AGGR_SIZE) 0.

(** The part from [TX_RESEND] on: the frame is aggregated or sent.  A failure of
    [ssv6xxx_drv_send] is logged and otherwise ignored. *)
Definition tx_resend (s : txrx) (env : tx_env) (tFrame : frame) : outcome (txrx * list tx_out) :=
  let aggregate_into (buf : list Z) :=
    match
      (if u32 (aggr_len s + f_len tFrame) <? MAX_HCI_AGGR_SIZE
       then ssv6006_hal_process_hci_aggr_tx buf (f_mem tFrame) (f_len tFrame)
       else Some (buf, aggr_n s, aggr_len s))
    with
    | None => Fault
    | Some (buf, n, len) =>
        if 4 <? n
        then Ret (set_aggr s true 0 0 (Some cleared) (sleep_tick s), [OSendAggr buf len (e_sent env)])
        else Ret (set_aggr s true n len (Some buf) 1, [])
    end in
  if hci_aggr_tx s then
    match aggr_buf s with
    | Some buf => aggregate_into buf
    | None =>
        if e_alloc env then aggregate_into cleared
        else Ret (set_aggr s false (aggr_n s) (aggr_len s) None (sleep_tick s), [OSend tFrame (e_sent env)])
    end
  else Ret (s, [OSend tFrame (e_sent env)]).

(** One step of the task.  [None]: it is blocked. *)
Definition TXRXTask_TxTask (s : txrx) (env : tx_env) : option (outcome (txrx * list tx_out)) :=
  match tpc s with
  | PTop =>
      match tx_curr_mode s with
      | MT_EXIT => Some (Ret (set_tpc s PDone, []))
      | _ => Some (Ret (set_tpc (set_prc s 0) PWait, []))
      end
  | PWait =>
      s ← OS_SemWait s env; Some (Ret (set_tpc s (PPop (PRI_Q_NUM - 1)), []))
  | PPop i =>
      match pop_hwq (queues s) i with
      | Ret (q, Some (outFrm, Some tFrame)) =>
          Some (Ret (set_tpc (set_queues s q) (PRes i outFrm tFrame), []))
      | Ret (q, Some (_, None)) => Some (Ret (set_queues s q, []))
      | Ret (q, None) =>
          Some (Ret (set_tpc (set_queues s q) (match i with O => PEnd | S j => PPop j end), []))
      | _ => Some Fault
      end
  | PRes i outFrm tFrame =>
      if e_room env then
        let flush_frm := negb (tx_flush_data_frm_num s =? 0) in
        let s := set_counts s (u32 (tx_data_frm_num s - 1))
                   (if flush_frm then u32 (tx_flush_data_frm_num s - 1) else tx_flush_data_frm_num s) in
        Some (Ret (set_tpc s (PSend i outFrm tFrame flush_frm), [OTake i tFrame flush_frm]))
      else None
  | PSend i outFrm tFrame flush_frm =>
      if flush_frm then Some (Ret (set_tpc s (PFree i outFrm), []))
      else
        match tx_resend s env tFrame with
        | Ret (s, out) => Some (Ret (set_tpc s (PFree i outFrm), out))
        | r => Some r
        end
  | PFree i outFrm =>
      match release (queues s) outFrm with
      | Ret q => Some (Ret (set_tpc (set_prc (set_queues s q) (s8 (prc_count s + 1))) (PMore i), []))
      | _ => Some Fault
      end
  | PMore i =>
      if 1 <? prc_count s then s ← OS_SemWait s env; Some (Ret (set_tpc s (PPop i), []))
      else Some (Ret (set_tpc s (PPop i), []))
  | PEnd =>
      if (prc_count s =? 0) && negb (aggr_n s =? 0) then
        match aggr_buf s with
        | None => Some Fault
        | Some buf =>
            Some (Ret (set_tpc (set_aggr s (hci_aggr_tx s) 0 0 (Some cleared) 0) PTop,
                       [OSendAggr buf (aggr_len s) (e_sent env)]))
        end
      else Some (Ret (set_tpc s PTop, []))
  | PDone => None
  end.

(** ** Runs *)

Inductive tx_input : Type :=
| ICall (f : frame) (priority : Z)
| ICaller (k : nat)
| ISetMode (mode : option ModeType)
| ITx (env : tx_env).

(** A step of the system; [None]: the thread chosen cannot move. *)
Definition tx_step (N : nat) (s : txrx) (i : tx_input) : option (outcome (txrx * list tx_out)) :=
  match i with
  | ICall f p => Some (Ret (set_callers s (callers s ++ [CTest f p]), []))
  | ICaller k => c ← callers s !! k; TXRXTask_FrameEnqueue N s k c
  | ISetMode m => let '(s', out, _) := TXRXTask_SetOpMode s m in Some (Ret (s', out))
  | ITx env => TXRXTask_TxTask s env
  end.

Fixpoint tx_run (N : nat) (s : txrx) (ins : list tx_input) : option (outcome (txrx * list tx_out)) :=
  match ins with
  | [] => Some (Ret (s, []))
  | i :: r =>
      match tx_step N s i with
      | Some (Ret (s1, o1)) =>
          match tx_run N s1 r with
          | Some (Ret (s2, o2)) => Some (Ret (s2, o1 ++ o2))
          | x => x
          end
      | x => x
      end
  end.

(** [TXRXTask_Init]: [n] is [pool_size + pool_sec_size + 10]. *)
Definition TXRXTask_Init (n : nat) (aggr : bool) : option txrx :=
  q ← _prepare_tx_frm_list n;
  Some (mk_txrx MT_STOP 0 0 q 0 aggr PTop 0 0 0 None 0 []).

(** ** The abstract queues *)

#[export] Instance frame_eq_dec : EqDecision frame.
Proof. solve_decision. Defined.

(** Five FIFO queues of frames, and how many of the frames to be taken next are
    to be discarded. *)
Record aq : Type := mk_aq { aQ : list (list frame); afl : nat }.

(** A frame is queued at the end and taken at the head of its queue; it may be
    refused only when it is a data frame, or when at least [N - 1] frames wait;
    a flush marks as many frames as wait; a frame taken is discarded exactly
    when a mark is left. *)
Definition aq_out (N : nat) (a : aq) (o : tx_out) : option aq :=
  match o with
  | OQueue p f => l ← aQ a !! Z.to_nat p; Some (mk_aq (<[Z.to_nat p := l ++ [f]]> (aQ a)) (afl a))
  | ORefuse f => if f_data f then Some a else None
  | OFull _ => if (N <=? total (aQ a) + 1)%nat then Some a else None
  | OMode flush => Some (if flush then mk_aq (aQ a) (total (aQ a)) else a)
  | OTake i f flush_frm =>
      match aQ a !! i with
      | Some (g :: l) =>
          if bool_decide (g = f) && Bool.eqb flush_frm (negb (afl a =? 0)%nat)
          then Some (mk_aq (<[i := l]> (aQ a)) (pred (afl a))) else None
      | _ => None
      end
  | OSend _ _ | OSendAggr _ _ _ => Some a
  end.

Fixpoint aq_run (N : nat) (a : aq) (tr : list tx_out) : option aq :=
  match tr with
  | [] => Some a
  | o :: r => a' ← aq_out N a o; aq_run N a' r
  end.

Lemma aq_run_app N a tr1 tr2 : aq_run N a (tr1 ++ tr2) = aq_run N a tr1 ≫= fun a' => aq_run N a' tr2.
Proof.
  revert a; induction tr1 as [|o tr1 IH]; intros a; [done|]. cbn [app aq_run].
  destruct (aq_out N a o); simpl; [apply IH|done].
Qed.

(** ** What the bus carries *)

(** The frames taken to be sent. *)
Fixpoint taken (tr : list tx_out) : list frame :=
  match tr with
  | [] => []
  | OTake _ f false :: r => f :: taken r
  | _ :: r => taken r
  end.

(** The frames in the transfers given to [ssv6xxx_drv_send]; [None]: a transfer
    is malformed. *)
Fixpoint handed (tr : list tx_out) : option (list (list Z)) :=
  match tr with
  | [] => Some []
  | OSend f _ :: r => ws ← handed r; Some (take (Z.to_nat (f_len f)) (f_mem f) :: ws)
  | OSendAggr buf len _ :: r =>
      w ← walk (S (Z.to_nat len)) (take (Z.to_nat len) buf) 0; ws ← handed r; Some (w ++ ws)
  | _ :: r => handed r
  end.

(** The transfers one by one, each with its result. *)
Fixpoint transfers (tr : list tx_out) : option (list (bool * list (list Z))) :=
  match tr with
  | [] => Some []
  | OSend f sent :: r =>
      ts ← transfers r; Some ((sent, [take (Z.to_nat (f_len f)) (f_mem f)]) :: ts)
  | OSendAggr buf len sent :: r =>
      w ← walk (S (Z.to_nat len)) (take (Z.to_nat len) buf) 0;
      ts ← transfers r; Some ((sent, w) :: ts)
  | _ :: r => transfers r
  end.

(** The bytes the bus has carried: those of the calls that succeeded. *)
Fixpoint bus (tr : list tx_out) : list (list Z) :=
  match tr with
  | [] => []
  | OSend f true :: r => take (Z.to_nat (f_len f)) (f_mem f) :: bus r
  | OSendAggr buf len true :: r => take (Z.to_nat len) buf :: bus r
  | _ :: r => bus r
  end.

(** [b] starts with the bytes of [f]. *)
Definition carries (f : frame) (b : list Z) : Prop :=
  take (Z.to_nat (f_len f)) b = take (Z.to_nat (f_len f)) (f_mem f) /\ f_len f <= Z.of_nat (length b).

Lemma taken_app tr1 tr2 : taken (tr1 ++ tr2) = taken tr1 ++ taken tr2.
Proof. induction tr1 as [|[] tr1 IH]; simpl; try done. destruct flush_frm; simpl; by rewrite IH. Qed.

Lemma handed_app tr1 tr2 ws1 ws2 :
  handed tr1 = Some ws1 -> handed tr2 = Some ws2 -> handed (tr1 ++ tr2) = Some (ws1 ++ ws2).
Proof.
  revert ws1; induction tr1 as [|o tr1 IH]; intros ws1 H1 H2; [by simplify_eq/=|].
  destruct o; cbn [handed app] in *; eauto.
  - destruct (handed tr1) as [w|]; simplify_eq/=. by rewrite (IH w).
  - destruct (walk _ _ _) as [w0|]; cbn [mbind option_bind] in *; [|done].
    destruct (handed tr1) as [w|]; simplify_eq/=. rewrite (IH w) by done. simpl. by rewrite app_assoc.
Qed.

(** ** The invariant *)

(** The longest frame that can be aggregated safely: five of them, padded and
    with their headers, and the end mark fit the buffer. *)
Definition MAX_AGGR_FRAME : Z := 1860.

(** [aggr]: HCI aggregation is enabled when the task starts. *)
Definition frame_ok (aggr : bool) (f : frame) : Prop :=
  0 <= f_len f <= MAX_FRAME_SIZE /\ align4 (f_len f) <= Z.of_nat (length (f_mem f)) /\
  (aggr = true -> f_len f <= MAX_AGGR_FRAME).

Definition prio_ok (p : Z) : Prop := 0 <= p < Z.of_nat PRI_Q_NUM.

Definition caller_ok (aggr : bool) (c : caller) : Prop :=
  match c with
  | CTest f p | CLock f p => frame_ok aggr f /\ prio_ok p
  | CSignal => True
  end.

(** The node in the hands of the task, and the frame it has taken to send. *)
Definition pc_node (p : tx_pc) : option Z :=
  match p with PRes _ x _ | PSend _ x _ _ | PFree _ x => Some x | _ => None end.
Definition pc_frame (p : tx_pc) : list frame :=
  match p with PSend _ _ f false => [f] | _ => [] end.

Definition pc_ok (aggr : bool) (p : tx_pc) : Prop :=
  match p with
  | PPop i | PFree i _ | PMore i => (i < PRI_Q_NUM)%nat
  | PRes i _ f | PSend i _ f _ => (i < PRI_Q_NUM)%nat /\ frame_ok aggr f
  | _ => True
  end.

(** The queues seen from outside: a frame popped and not yet accounted for is
    still at the head of its queue. *)
Definition absQ (p : tx_pc) (Q : list (list frame)) : list (list frame) :=
  match p with
  | PRes i _ f => match Q !! i with Some l => <[i := f :: l]> Q | None => Q end
  | _ => Q
  end.

Record q_inv (N : nat) (aggr : bool) (s : txrx) (Q : list (list frame)) (fl : nat) : Prop := mk_q_inv {
  qi_rep : rep (queues s) N (pc_node (tpc s)) Q;
  qi_num : tx_data_frm_num s = Z.of_nat (total (absQ (tpc s) Q));
  qi_flush : tx_flush_data_frm_num s = Z.of_nat fl;
  qi_le : (fl <= total (absQ (tpc s) Q))%nat;
  qi_frames : Forall (Forall (frame_ok aggr)) Q;
  qi_callers : Forall (caller_ok aggr) (callers s);
  qi_pc : pc_ok aggr (tpc s)
}.

(** The bytes and length of a frame, as [HciAggr] takes them. *)
Definition raw (f : frame) : list Z * Z := (f_mem f, f_len f).

Definition AGGR_N : nat := Z.to_nat MAX_HCI_AGGR_SIZE.

(** The frames [pend] wait in the aggregation buffer. *)
Record a_inv (aggr : bool) (s : txrx) (pend : list frame) : Prop := mk_a_inv {
  ai_on : hci_aggr_tx s = true -> aggr = true;
  ai_n : aggr_n s = Z.of_nat (length pend);
  ai_max : (length pend <= 4)%nat;
  ai_len : aggr_len s = match pend with [] => 0 | _ => tx_total (map raw pend) + 4 end;
  ai_buf : match aggr_buf s with
           | None => pend = []
           | Some buf => hci_aggr_tx s = true /\ tx_built AGGR_N (map raw pend) buf
           end;
  ai_frames : Forall (frame_ok true) pend;
  ai_tick : pend <> [] -> sleep_tick s <> 0
}.

(** Callers that have queued a frame and not yet signalled. *)
Definition owes (c : caller) : nat := match c with CSignal => 1 | _ => 0 end.
Fixpoint owed (cs : list caller) : nat :=
  match cs with [] => 0 | c :: r => owes c + owed r end.

Definition tokens (s : txrx) : Z := tx_frm_sphr s + Z.of_nat (owed (callers s)).

(** Signals given or owed cover the frames queued; in a round the task may be
    one signal ahead as long as it has found no frame yet, and then one is left
    in the queues it has still to look at. *)
Record w_inv (s : txrx) (Q : list (list frame)) : Prop := mk_w_inv {
  wi_sem : 0 <= tx_frm_sphr s;
  wi_prc : -128 <= prc_count s < 128;
  wi_tokens :
    match tpc s with
    | PTop | PEnd | PDone => Z.of_nat (total Q) <= tokens s
    | PWait => Z.of_nat (total Q) <= tokens s /\ prc_count s = 0
    | PPop i =>
        Z.of_nat (total Q) <= tokens s \/
        (Z.of_nat (total Q) <= tokens s + 1 /\ prc_count s = 0 /\
         exists j f l, (j <= i)%nat /\ Q !! j = Some (f :: l))
    | PRes _ _ _ | PSend _ _ _ _ | PFree _ _ =>
        Z.of_nat (total Q) + 1 <= tokens s \/ (Z.of_nat (total Q) <= tokens s /\ prc_count s = 0)
    | PMore _ =>
        Z.of_nat (total Q) + 1 <= tokens s \/ (Z.of_nat (total Q) <= tokens s /\ prc_count s = 1)
    end
}.

Lemma owed_insert cs k c c' :
  cs !! k = Some c -> (owed (<[k := c']> cs) + owes c = owed cs + owes c')%nat.
Proof.
  revert k; induction cs as [|d cs IH]; intros [|k] H; simplify_eq/=; [lia|].
  specialize (IH k H). lia.
Qed.

Lemma owed_delete cs k c : cs !! k = Some c -> (owed (delete k cs) + owes c = owed cs)%nat.
Proof.
  revert k; induction cs as [|d cs IH]; intros [|k] H; simplify_eq/=; [lia|].
  pose proof (IH k H) as E. rewrite <-E. unfold delete. simpl. lia.
Qed.

Lemma owed_app cs ds : owed (cs ++ ds) = (owed cs + owed ds)%nat.
Proof. induction cs; simpl; lia. Qed.

Lemma total_insert Q i l l' :
  Q !! i = Some l -> (total (<[i := l']> Q) + length l = total Q + length l')%nat.
Proof.
  intros (Q1 & Q2 & -> & ->)%list_elem_of_split_length.
  rewrite insert_mid by done. rewrite !total_cut. lia.
Qed.

Lemma total_pos Q i f l : Q !! i = Some (f :: l) -> (0 < total Q)%nat.
Proof. intros (Q1 & Q2 & -> & ->)%list_elem_of_split_length. rewrite total_cut. simpl. lia. Qed.

(** Some queue is not empty when frames wait. *)
Lemma total_found Q : (0 < total Q)%nat -> exists j f l, (j < length Q)%nat /\ Q !! j = Some (f :: l).
Proof.
  induction Q as [|[|f l] Q IH]; unfold total; simpl; [lia| |by exists 0%nat, f, l; simpl; split; [lia|]].
  intros H. destruct (IH H) as (j & f & l & Hj & E). exists (S j), f, l. split; [lia|done].
Qed.

Lemma rep_num q N hand Q : rep q N hand Q -> length Q = PRI_Q_NUM.
Proof. intros (ls & fr & H). apply H. Qed.

Lemma rep_total q N hand Q : rep q N hand Q -> (total Q + length (hand_nodes hand) <= N)%nat.
Proof.
  intros (ls & fr & [_ _ _ <- _ Hf _]). rewrite (frames_total _ _ _ Hf). unfold all_nodes.
  rewrite !length_app. lia.
Qed.

Lemma queue_lookup q N hand Q i : rep q N hand Q -> (i < PRI_Q_NUM)%nat -> exists l, Q !! i = Some l.
Proof. intros H Hi. apply lookup_lt_is_Some. by rewrite (rep_num _ _ _ _ H). Qed.

(** ** The aggregation buffer *)

Lemma frame_ok_wf aggr f : frame_ok aggr f -> tx_frame_wf (raw f).
Proof. intros (H1 & H2 & _). done. Qed.

Lemma frames_wf aggr fs : Forall (frame_ok aggr) fs -> Forall tx_frame_wf (map raw fs).
Proof. induction 1; simpl; constructor; [by eapply frame_ok_wf|done]. Qed.

Lemma jmp_bound f : frame_ok true f -> 8 <= tx_jmp (raw f) <= 1868.
Proof.
  intros (H1 & _ & H2). unfold MAX_AGGR_FRAME, MAX_FRAME_SIZE in *. specialize (H2 eq_refl).
  unfold tx_jmp, SIZEOF_hci_tx_aggr_info. simpl. pose proof (align4_spec (f_len f) ltac:(lia)). lia.
Qed.

Lemma total_bound fs :
  Forall (frame_ok true) fs ->
  8 * Z.of_nat (length fs) <= tx_total (map raw fs) <= 1868 * Z.of_nat (length fs).
Proof.
  induction 1 as [|f fs Hf Hfs IH]; unfold tx_total in *; simpl map; cbn [sumZ]; simpl length; [lia|].
  pose proof (jmp_bound f Hf). lia.
Qed.

Lemma carries_payload aggr f : frame_ok aggr f -> carries f (tx_payload (raw f)).
Proof.
  intros Hf. pose proof (tx_frame_facts _ (frame_ok_wf _ _ Hf)) as (Ha & _ & Hp & _).
  destruct Hf as (H1 & H2 & _). unfold MAX_FRAME_SIZE in *. pose proof (align4_spec (f_len f) ltac:(lia)).
  split; [|simpl in *; lia]. unfold tx_payload. simpl. rewrite take_take. f_equal. lia.
Qed.

Lemma carries_all aggr fs : Forall (frame_ok aggr) fs -> Forall2 carries fs (map tx_payload (map raw fs)).
Proof. induction 1; simpl; constructor; [by eapply carries_payload|done]. Qed.

Lemma carries_raw aggr f :
  frame_ok aggr f -> carries f (take (Z.to_nat (f_len f)) (f_mem f)).
Proof.
  intros (H1 & H2 & _). unfold MAX_FRAME_SIZE in *. pose proof (align4_spec (f_len f) ltac:(lia)).
  split; [by rewrite take_take, Nat.min_id|]. rewrite length_take. lia.
Qed.

(** A transfer carries the frames it was built from. *)
Lemma handed_built sent fs buf :
  tx_built AGGR_N (map raw fs) buf -> Forall (frame_ok true) fs -> fs <> [] -> (length fs <= 5)%nat ->
  exists ws, handed [OSendAggr buf (tx_total (map raw fs) + 4) sent] = Some ws /\ Forall2 carries fs ws.
Proof.
  intros Hb Hfs Hne Hl. pose proof (total_bound fs Hfs) as Ht. pose proof (frames_wf _ _ Hfs) as Hwf.
  assert (Hfit : tx_total (map raw fs) + 4 <= Z.of_nat AGGR_N)
    by (unfold AGGR_N, MAX_HCI_AGGR_SIZE, HCI_AGGR_SIZE, MAX_FRAME_SIZE; lia).
  exists (map tx_payload (map raw fs)). split; [|by eapply carries_all]. cbn [handed].
  rewrite (walk_built (Z.to_nat (tx_total (map raw fs) + 4)) (map raw fs)).
  - cbn [mbind option_bind]. by rewrite app_nil_r.
  - apply (tx_built_take AGGR_N); [done|done| |done]. by destruct fs.
  - done.
  - lia.
  - rewrite length_map. lia.
Qed.

(** The effect of a frame handed over for sending. *)
Definition sent_ok (aggr : bool) (s : txrx) (pend : list frame) (f : frame)
  (r : outcome (txrx * list tx_out)) : Prop :=
  exists en n len buf tick out pend' D ws,
    r = Ret (set_aggr s en n len buf tick, out) /\
    a_inv aggr (set_aggr s en n len buf tick) pend' /\
    handed out = Some ws /\ taken out = [] /\ Forall2 carries D ws /\ pend ++ [f] = D ++ pend' /\
    forall N a, aq_run N a out = Some a.

(** Appending to the aggregation buffer, and sending it with the fifth frame. *)
Lemma append_ok sent s pend f buf :
  a_inv true s pend -> frame_ok true f -> tx_built AGGR_N (map raw pend) buf ->
  sent_ok true s pend f
    match
      (if u32 (aggr_len s + f_len f) <? MAX_HCI_AGGR_SIZE
       then ssv6006_hal_process_hci_aggr_tx buf (f_mem f) (f_len f)
       else Some (buf, aggr_n s, aggr_len s))
    with
    | None => Fault
    | Some (buf, n, len) =>
        if 4 <? n
        then Ret (set_aggr s true 0 0 (Some cleared) (sleep_tick s), [OSendAggr buf len sent])
        else Ret (set_aggr s true n len (Some buf) 1, [])
    end.
Proof.
  intros [_ Hn Hm Hlen _ Hfs _] Hf Hb. pose proof (total_bound pend Hfs) as Ht.
  pose proof (jmp_bound f Hf) as Hj. pose proof Hf as (Hf1 & _ & Hf2). specialize (Hf2 eq_refl).
  unfold MAX_AGGR_FRAME in Hf2.
  assert (Hal : 0 <= aggr_len s <= 7476) by (rewrite Hlen; destruct pend; simpl length in *; lia).
  rewrite u32_small by lia. change MAX_HCI_AGGR_SIZE with 9344 at 1.
  replace (aggr_len s + f_len f <? 9344) with true by lia.
  destruct (process_built AGGR_N (map raw pend) buf (raw f) Hb (frames_wf _ _ Hfs) (frame_ok_wf _ _ Hf))
    as (buf' & E & Hb'); [rewrite length_map; lia|change (Z.of_nat AGGR_N) with 9344; lia|done|].
  simpl fst in E. simpl snd in E. rewrite E. clear E.
  change [raw f] with (map raw [f]) in *. rewrite <-map_app, length_map in *.
  assert (Hfs' : Forall (frame_ok true) (pend ++ [f])) by (apply Forall_app_2; [done|by constructor]).
  assert (Hne : pend ++ [f] <> []) by by destruct pend.
  rewrite length_app in *. simpl length. destruct (Z.ltb_spec 4 (Z.of_nat (length pend + 1))) as [H4|H4].
  - destruct (handed_built sent _ _ Hb' Hfs' Hne) as (ws & Hws & Hc); [rewrite length_app; simpl; lia|].
    do 6 eexists. exists [], (pend ++ [f]), ws. split_and!; [done| |done|done|done|by rewrite app_nil_r|done].
    split; try done; simpl; lia.
  - do 6 eexists. exists (pend ++ [f]), [], []. split_and!; [done| |done|done|constructor|done|done].
    split; try done; cbn [set_aggr aggr_n aggr_len aggr_buf sleep_tick].
    + rewrite length_app. done.
    + rewrite length_app. simpl. lia.
    + by destruct pend.
Qed.

Lemma resend_ok aggr s env pend f :
  a_inv aggr s pend -> frame_ok aggr f -> sent_ok aggr s pend f (tx_resend s env f).
Proof.
  intros Ha Hf. unfold tx_resend. pose proof Ha as [Hon Hn Hm Hlen Hbuf Hfs Htick].
  assert (Hdirect : aggr_buf s = None -> forall en, (en = true -> aggr = true) ->
    sent_ok aggr s pend f (Ret (set_aggr s en (aggr_n s) (aggr_len s) None (sleep_tick s), [OSend f (e_sent env)]))).
  { intros Hb en Hen. rewrite Hb in Hbuf. subst pend.
    do 6 eexists. exists [], [f], [take (Z.to_nat (f_len f)) (f_mem f)].
    split_and!; [done|by split|done|done| |done|done].
    constructor; [by eapply carries_raw|constructor]. }
  destruct (hci_aggr_tx s) eqn:Een.
  - rewrite (Hon eq_refl) in *. destruct (aggr_buf s) as [buf|] eqn:Eb.
    + by apply append_ok; [| |apply Hbuf].
    + destruct (e_alloc env); [|by apply Hdirect].
      apply append_ok; [done|done|]. subst pend. split; [apply length_replicate|done].
  - destruct (aggr_buf s) as [buf|] eqn:Eb.
    + by destruct Hbuf as [Hbuf _].
    + replace s with (set_aggr s false (aggr_n s) (aggr_len s) None (sleep_tick s)) at 2
        by (destruct s; simpl in *; by subst). by apply Hdirect.
Qed.

(** ** Every step preserves the invariant *)

Section steps.
Context (N : nat) (aggr : bool).
Hypothesis HN : Z.of_nat N < 4294967296.

Definition inv (s : txrx) (Q : list (list frame)) (fl : nat) (pend : list frame) : Prop :=
  q_inv N aggr s Q fl /\ a_inv aggr s pend /\ w_inv s Q.

(** A step is a step of the abstract queues, and what it takes and what it
    writes to the bus agree. *)
Definition simulates (s : txrx) Q fl pend (s' : txrx) Q' fl' pend' (out : list tx_out) : Prop :=
  aq_run N (mk_aq (absQ (tpc s) Q) fl) out = Some (mk_aq (absQ (tpc s') Q') fl') /\
  exists D ws, handed out = Some ws /\ Forall2 carries D ws /\
    (pend ++ pc_frame (tpc s)) ++ taken out = D ++ pend' ++ pc_frame (tpc s').

Definition good (s : txrx) Q fl pend (r : option (outcome (txrx * list tx_out))) : Prop :=
  match r with
  | None => True
  | Some (Ret (s', out)) =>
      exists Q' fl' pend', inv s' Q' fl' pend' /\ simulates s Q fl pend s' Q' fl' pend' out
  | Some _ => False
  end.

(** A step that writes nothing to the bus and takes nothing. *)
Lemma simulates_quiet s Q fl pend s' Q' fl' out :
  aq_run N (mk_aq (absQ (tpc s) Q) fl) out = Some (mk_aq (absQ (tpc s') Q') fl') ->
  handed out = Some [] -> taken out = [] -> pc_frame (tpc s') = pc_frame (tpc s) ->
  simulates s Q fl pend s' Q' fl' pend out.
Proof.
  intros Ha Hb Ht Hp. split; [done|]. exists [], []. rewrite Ht, Hp, app_nil_r. auto.
Qed.

Lemma absQ_lookup p Q i l :
  absQ p Q !! i = Some l -> exists l0, Q !! i = Some l0 /\
    forall f, absQ p (<[i := l0 ++ [f]]> Q) = <[i := l ++ [f]]> (absQ p Q).
Proof.
  destruct p; simpl; try (intros H; by exists l).
  destruct (Q !! i0) as [m|] eqn:E0.
  2: { intros H. exists l. split; [done|]. intros f. rewrite list_lookup_insert_ne by congruence.
       by rewrite E0. }
  pose proof (lookup_lt_Some _ _ _ E0). destruct (decide (i0 = i)) as [->|Hne].
  - rewrite list_lookup_insert_eq by done. intros [= <-]. exists m. split; [done|]. intros f.
    rewrite list_lookup_insert_eq by done. by rewrite !list_insert_insert_eq.
  - rewrite list_lookup_insert_ne by done. intros H'. exists l. split; [done|]. intros f.
    rewrite list_lookup_insert_ne by done. rewrite E0. by apply list_insert_insert_ne.
Qed.

Lemma absQ_length p Q : length (absQ p Q) = length Q.
Proof. destruct p; simpl; try done. destruct (Q !! i); [apply length_insert|done]. Qed.

Lemma absQ_total p Q : (total (absQ p Q) <= total Q + length (hand_nodes (pc_node p)))%nat.
Proof.
  destruct p; simpl; try lia. destruct (Q !! i) as [l|] eqn:E; [|lia].
  pose proof (total_insert Q i l (tFrame :: l) E). simpl in *. lia.
Qed.

Lemma absQ_total_ge p Q : (total Q <= total (absQ p Q))%nat.
Proof.
  destruct p; simpl; try lia. destruct (Q !! i) as [l|] eqn:E; [|lia].
  pose proof (total_insert Q i l (tFrame :: l) E). simpl in *. lia.
Qed.

(** A change of the callers that leaves the signals owed. *)
Lemma inv_callers s Q fl pend cs :
  inv s Q fl pend -> Forall (caller_ok aggr) cs -> owed cs = owed (callers s) ->
  inv (set_callers s cs) Q fl pend.
Proof.
  intros ([] & [] & [Hs Hp Ht]) Hcs Ho. split_and!; [by split|by split|]. split; [done|done|].
  unfold tokens in *. cbn [tx_frm_sphr callers set_callers tpc prc_count]. rewrite Ho. done.
Qed.

(** A frame queued and a signal owed for it. *)
Lemma w_inv_queue s Q i l f q cs :
  w_inv s Q -> Q !! i = Some l -> owed cs = S (owed (callers s)) ->
  forall d fl, w_inv (set_callers (set_counts (set_queues s q) d fl) cs) (<[i := l ++ [f]]> Q).
Proof.
  intros [Hs Hp Ht] Hl Ho d fl. split; [done|done|].
  pose proof (total_insert Q i l (l ++ [f]) Hl) as Htot. rewrite length_app in Htot. simpl in Htot.
  unfold tokens in *. cbn [tx_frm_sphr callers set_callers set_counts set_queues tpc prc_count].
  rewrite Ho. destruct (tpc s); try lia.
  destruct Ht as [Ht|(Ht & H0 & j & g & l' & Hj & E)]; [left; lia|right].
  split_and!; [lia|done|]. destruct (decide (i = j)) as [<-|Hne].
  - exists i, g, (l' ++ [f]). split; [done|]. rewrite list_lookup_insert_eq by by eapply lookup_lt_Some.
    by simplify_eq.
  - exists j, g, l'. by rewrite list_lookup_insert_ne.
Qed.

Lemma caller_step s Q fl pend k c :
  inv s Q fl pend -> callers s !! k = Some c -> good s Q fl pend (TXRXTask_FrameEnqueue N s k c).
Proof.
  intros Hinv Hk. pose proof Hinv as (Hq & Ha & Hw).
  pose proof (Forall_lookup_1 _ _ _ _ (qi_callers _ _ _ _ _ Hq) Hk) as Hc.
  pose proof (owed_delete _ _ _ Hk) as Hdel.
  assert (Hfd : Forall (caller_ok aggr) (delete k (callers s))) by apply Forall_delete, Hq.
  unfold TXRXTask_FrameEnqueue. destruct c as [f p|f p|]; simpl in Hc, Hdel.
  - assert (Hgo : good s Q fl pend (Some (Ret (set_callers s (<[k := CLock f p]> (callers s)), [])))).
    { exists Q, fl, pend. split; [|by apply simulates_quiet]. apply inv_callers; [done|apply Forall_insert; [apply Hq|done]|].
      pose proof (owed_insert _ _ _ (CLock f p) Hk). simpl in *. lia. }
    destruct (tx_curr_mode s); try done. destruct (f_data f) eqn:Ef; [|done].
    exists Q, fl, pend. split; [apply inv_callers; [done|done|lia]|].
    apply simulates_quiet; try done. simpl. by rewrite Ef.
  - destruct Hc as [Hf Hp]. destruct Hq as [Hr Hn Hfl Hle Hfr Hcs Hpc]. unfold prio_ok in Hp.
    assert (Hlen : length (absQ (tpc s) Q) = PRI_Q_NUM) by (rewrite absQ_length; apply (rep_num _ _ _ _ Hr)).
    destruct (lookup_lt_is_Some_2 (absQ (tpc s) Q) (Z.to_nat p)) as [la Hla]; [lia|].
    destruct (absQ_lookup _ _ _ _ Hla) as (l & Hl & Habs).
    pose proof (rep_total _ _ _ _ Hr) as Htot. pose proof (absQ_total (tpc s) Q) as Hta.
    destruct (enqueue_rep _ _ _ _ f p l Hr Hl) as [(q' & E & Hr')|[E HNt]]; rewrite E.
    + pose proof (rep_total _ _ _ _ Hr') as Htot'.
      pose proof (total_insert _ _ _ (la ++ [f]) Hla) as Hti. rewrite <-Habs, length_app in Hti. simpl in Hti.
      pose proof (absQ_total (tpc s) (<[Z.to_nat p:=l ++ [f]]> Q)) as Hta'.
      exists (<[Z.to_nat p := l ++ [f]]> Q), fl, pend. unfold inv. split_and!.
      * split; cbn [queues tpc set_callers set_counts set_queues tx_data_frm_num tx_flush_data_frm_num callers].
        -- done.
        -- rewrite Hn, u32_small by lia. lia.
        -- done.
        -- lia.
        -- apply Forall_insert; [done|]. apply Forall_app_2; [|by constructor].
           by eapply Forall_lookup_1.
        -- by apply Forall_insert.
        -- done.
      * destruct Ha. by split.
      * apply w_inv_queue; [done|done|]. pose proof (owed_insert _ _ _ CSignal Hk). simpl in *. lia.
      * apply simulates_quiet; try done. cbn [aq_run aq_out aQ]. rewrite Hla. cbn [mbind option_bind].
        by rewrite <-Habs.
    + exists Q, fl, pend. split; [apply inv_callers; [done|done|lia]|].
      apply simulates_quiet; try done. cbn [aq_run aq_out aQ].
      pose proof (absQ_total_ge (tpc s) Q).
      assert (length (hand_nodes (pc_node (tpc s))) <= 1)%nat by (destruct (pc_node (tpc s)); simpl; lia).
      replace (N <=? total (absQ (tpc s) Q) + 1)%nat with true; [done|]. symmetry. apply Nat.leb_le. lia.
  - destruct (_ <? _); [|done]. exists Q, fl, pend. destruct Hq, Ha, Hw as [Hs Hp Ht]. unfold inv. split_and!.
    + by split.
    + by split.
    + split; cbn [tx_frm_sphr set_callers set_sem tpc prc_count]; [lia|done|].
      unfold tokens in *. cbn [tx_frm_sphr set_callers set_sem callers]. 
      replace (tx_frm_sphr s + 1 + Z.of_nat (owed (delete k (callers s))))
        with (tx_frm_sphr s + Z.of_nat (owed (callers s))) by lia. done.
    + by apply simulates_quiet.
Qed.

Lemma mode_step s Q fl pend m :
  inv s Q fl pend -> good s Q fl pend (tx_step N s (ISetMode m)).
Proof.
  intros Hinv. pose proof Hinv as ([Hr Hn Hfl Hle Hfr Hcs Hpc] & [] & []).
  assert (Hsame : forall m' fl' b, 
    fl' = (if b : bool then tx_data_frm_num s else tx_flush_data_frm_num s) ->
    good s Q fl pend (Some (Ret (set_tmode (set_counts s (tx_data_frm_num s) fl') m', [OMode b])))).
  { intros m' fl' b ->. exists Q, (if b then total (absQ (tpc s) Q) else fl), pend. unfold inv. split_and!.
    - split; try done; destruct b; simpl; (done || lia).
    - by split.
    - by split.
    - apply simulates_quiet; try done. by destruct b. }
  simpl. destruct m as [m|]; [|exists Q, fl, pend; split; [done|by apply simulates_quiet]].
  simpl. destruct (tx_curr_mode s) eqn:Em, m; simpl; try (by apply (Hsame _ _ true)); try (by apply (Hsame _ _ false)).
  all: rewrite <-Em; by apply (Hsame (tx_curr_mode s) _ false).
Qed.

(** Waiting takes a signal, or times out. *)
Lemma sem_wait s env s' :
  OS_SemWait s env = Some s' -> 0 <= tx_frm_sphr s ->
  exists n, s' = set_sem s n /\ 0 <= n <= tx_frm_sphr s /\ tx_frm_sphr s <= n + 1.
Proof.
  unfold OS_SemWait. intros H Hs. destruct (Z.ltb_spec 0 (tx_frm_sphr s)).
  - simplify_eq. eexists. split; [done|lia].
  - destruct (_ && _); simplify_eq. exists (tx_frm_sphr s'). split; [by destruct s'|lia].
Qed.

Lemma top_step s Q fl pend env :
  inv s Q fl pend -> tpc s = PTop -> good s Q fl pend (TXRXTask_TxTask s env).
Proof.
  intros ([Hr Hn Hfl Hle Hfr Hcs Hpc] & [] & [Hs Hp Ht]) Epc. unfold TXRXTask_TxTask. rewrite Epc in *.
  destruct (tx_curr_mode s); exists Q, fl, pend; unfold inv; split_and!;
    try (by split); by apply simulates_quiet; rewrite ?Epc.
Qed.

Lemma wait_step s Q fl pend env :
  inv s Q fl pend -> tpc s = PWait -> good s Q fl pend (TXRXTask_TxTask s env).
Proof.
  intros ([Hr Hn Hfl Hle Hfr Hcs Hpc] & [] & [Hs Hp Ht]) Epc. unfold TXRXTask_TxTask. rewrite Epc in *.
  destruct (OS_SemWait s env) as [s'|] eqn:Ew; [|done]. destruct (sem_wait _ _ _ Ew Hs) as (n & -> & Hn').
  exists Q, fl, pend. unfold inv. split_and!; [by split; simpl; try done; unfold PRI_Q_NUM; lia|by split| |].
  - split; cbn [set_tpc set_sem tx_frm_sphr prc_count tpc]; [lia|done|].
    unfold tokens in *. cbn [set_tpc set_sem tx_frm_sphr callers].
    destruct (Z_le_gt_dec (Z.of_nat (total Q)) (n + Z.of_nat (owed (callers s)))) as [H|H]; [by left|right].
    split_and!; [lia|lia|]. destruct (total_found Q) as (j & f & l & Hj & E); [lia|].
    exists j, f, l. split; [|done]. rewrite (rep_num _ _ _ _ Hr) in Hj. lia.
  - by apply simulates_quiet; rewrite ?Epc.
Qed.

Lemma more_step s Q fl pend env i :
  inv s Q fl pend -> tpc s = PMore i -> good s Q fl pend (TXRXTask_TxTask s env).
Proof.
  intros ([Hr Hn Hfl Hle Hfr Hcs Hpc] & [] & [Hs Hp Ht]) Epc. unfold TXRXTask_TxTask. rewrite Epc in *.
  destruct (Z.ltb_spec 1 (prc_count s)).
  - destruct (OS_SemWait s env) as [s'|] eqn:Ew; [|done]. destruct (sem_wait _ _ _ Ew Hs) as (n & -> & Hn').
    exists Q, fl, pend. unfold inv. split_and!; [by split|by split| |by apply simulates_quiet; rewrite ?Epc].
    split; cbn [set_tpc set_sem tx_frm_sphr prc_count tpc]; [lia|done|]. left.
    unfold tokens in *. cbn [set_tpc set_sem tx_frm_sphr callers]. lia.
  - exists Q, fl, pend. unfold inv. split_and!; [by split|by split| |by apply simulates_quiet; rewrite ?Epc].
    split; try done. simpl. left. unfold tokens in *. simpl. lia.
Qed.

Lemma pop_step s Q fl pend env i :
  inv s Q fl pend -> tpc s = PPop i -> good s Q fl pend (TXRXTask_TxTask s env).
Proof.
  intros ([Hr Hn Hfl Hle Hfr Hcs Hpc] & [] & [Hs Hp Ht]) Epc. unfold TXRXTask_TxTask. rewrite Epc in *.
  simpl in Hpc. destruct (queue_lookup _ _ _ _ _ Hr Hpc) as [l Hl].
  pose proof (pop_hwq_rep _ _ _ _ _ Hr Hl) as Hpop. destruct l as [|f l].
  - destruct Hpop as (q' & E & Hr'). rewrite E.
    exists Q, fl, pend. unfold inv. split_and!.
    + split; try done; destruct i; simpl; (done || lia).
    + by split.
    + split; try done. unfold tokens in *. cbn [set_tpc set_queues tpc prc_count tx_frm_sphr callers].
      destruct Ht as [Ht|(Ht & H0 & j & g & l & Hj & Ej)]; [destruct i; [done|by left]|].
      destruct i as [|i]; [by replace j with 0%nat in Ej by lia; simplify_eq|].
      right. split_and!; [done|done|]. exists j, g, l. split; [|done].
      destruct (decide (j = S i)) as [->|]; [by simplify_eq|lia].
    + apply simulates_quiet; rewrite ?Epc; try done; destruct i; done.
  - destruct Hpop as (q' & x & E & Hr'). rewrite E.
    pose proof (total_insert _ _ _ l Hl) as Htot. simpl in Htot. pose proof (lookup_lt_Some _ _ _ Hl).
    assert (Hback : absQ (PRes i x f) (<[i := l]> Q) = Q).
    { simpl. rewrite list_lookup_insert_eq by done. rewrite list_insert_insert_eq.
      by apply list_insert_id. }
    pose proof (Forall_lookup_1 _ _ _ _ Hfr Hl) as Hfl'. apply list.Forall_cons_1 in Hfl' as [Hf Hfl'].
    exists (<[i := l]> Q), fl, pend. unfold inv. split_and!.
    + split; cbn [set_tpc set_queues tpc queues tx_data_frm_num tx_flush_data_frm_num callers]; rewrite ?Hback; try done.
      by apply Forall_insert.
    + by split.
    + split; try done. unfold tokens in *. cbn [set_tpc set_queues tpc prc_count tx_frm_sphr callers].
      destruct Ht as [Ht|(Ht & H0 & _)]; [left|right]; lia.
    + apply simulates_quiet; cbn [set_tpc set_queues tpc]; rewrite ?Hback, ?Epc; done.
Qed.

Lemma res_step s Q fl pend env i x f :
  inv s Q fl pend -> tpc s = PRes i x f -> good s Q fl pend (TXRXTask_TxTask s env).
Proof.
  intros ([Hr Hn Hfl Hle Hfr Hcs Hpc] & [] & [Hs Hp Ht]) Epc. unfold TXRXTask_TxTask. rewrite Epc in *.
  destruct (e_room env); [|done]. destruct Hpc as [Hi Hf].
  destruct (queue_lookup _ _ _ _ _ Hr Hi) as [l Hl]. pose proof (rep_total _ _ _ _ Hr) as Htot. simpl in Htot.
  simpl in Hn, Hle. rewrite Hl in Hn, Hle. pose proof (total_insert _ _ _ (f :: l) Hl) as Hti. simpl in Hti.
  rewrite Hfl. set (fm := negb (Z.of_nat fl =? 0)).
  assert (Hfm : fm = negb (fl =? 0)%nat) by (subst fm; f_equal; destruct fl; done || lia).
  exists Q, (pred fl), pend. unfold inv. split_and!.
  - split; cbn [set_tpc set_counts tpc queues tx_data_frm_num tx_flush_data_frm_num callers pc_node absQ pc_ok]; try done.
    + rewrite u32_small by lia. lia.
    + rewrite Hfm. destruct (Nat.eqb_spec fl 0); cbn [negb]; [lia|]. rewrite u32_small by lia. lia.
    + lia.
  - by split.
  - by split.
  - unfold simulates. cbn [set_tpc set_counts tpc absQ]. rewrite Epc. cbn [aq_run aq_out aQ afl absQ].
    pose proof (lookup_lt_Some _ _ _ Hl). rewrite Hl, list_lookup_insert_eq by done.
    rewrite bool_decide_true by done. rewrite Hfm, eqb_reflx. cbn [andb mbind option_bind].
    rewrite list_insert_insert_eq, list_insert_id by done. split; [done|].
    exists [], []. split_and!; [by destruct (negb _)|constructor|]. simpl. by destruct (negb _); rewrite ?app_nil_r.
Qed.

Lemma send_step s Q fl pend env i x f fm :
  inv s Q fl pend -> tpc s = PSend i x f fm -> good s Q fl pend (TXRXTask_TxTask s env).
Proof.
  intros ([Hr Hn Hfl Hle Hfr Hcs Hpc] & Ha & [Hs Hp Ht]) Epc. unfold TXRXTask_TxTask. rewrite Epc in *.
  destruct Hpc as [Hi Hf]. destruct fm.
  - exists Q, fl, pend. unfold inv. destruct Ha.
    split_and!; [by split|by split|by split|by apply simulates_quiet; rewrite ?Epc].
  - destruct (resend_ok _ _ env _ _ Ha Hf)
      as (en & n & len & buf & tick & out & pend' & D & ws & E & Ha' & Hb & Htk & Hc & Hd & Haq).
    rewrite E. exists Q, fl, pend'. unfold inv. destruct Ha'. split_and!; [by split|by split|by split|].
    split; rewrite Epc; [apply Haq|]. exists D, ws. split_and!; [done|done|].
    rewrite Htk, !app_nil_r. exact Hd.
Qed.

Lemma free_step s Q fl pend env i x :
  inv s Q fl pend -> tpc s = PFree i x -> good s Q fl pend (TXRXTask_TxTask s env).
Proof.
  intros ([Hr Hn Hfl Hle Hfr Hcs Hpc] & [] & [Hs Hp Ht]) Epc. unfold TXRXTask_TxTask. rewrite Epc in *.
  destruct (release_rep _ _ _ _ Hr) as (q' & E & Hr'). rewrite E.
  exists Q, fl, pend. unfold inv. split_and!; [by split|by split| |by apply simulates_quiet; rewrite ?Epc].
  split; cbn [set_tpc set_prc set_queues tx_frm_sphr prc_count tpc]; [done| |].
  - unfold s8, u8. destruct (Z.ltb_spec ((prc_count s + 1) mod 256) 128); lia.
  - unfold tokens in *. cbn [set_tpc set_prc set_queues tx_frm_sphr callers].
    destruct Ht as [Ht|[Ht H0]]; [by left|right]. split; [done|]. by rewrite H0.
Qed.

Lemma end_step s Q fl pend env :
  inv s Q fl pend -> tpc s = PEnd -> good s Q fl pend (TXRXTask_TxTask s env).
Proof.
  intros ([Hr Hn Hfl Hle Hfr Hcs Hpc] & Ha & [Hs Hp Ht]) Epc. unfold TXRXTask_TxTask. rewrite Epc in *.
  pose proof Ha as [Hon Han Ham Hal Hab Haf Hat].
  destruct ((prc_count s =? 0) && negb (aggr_n s =? 0)) eqn:Eb.
  - assert (Hne : pend <> []) by (intros ->; rewrite Han in Eb; simpl in Eb; by rewrite andb_false_r in Eb).
    destruct (aggr_buf s) as [buf|] eqn:Ebuf; [|done]. destruct Hab as [Hen Hb].
    destruct (handed_built (e_sent env) pend buf Hb Haf Hne) as (ws & Hws & Hc); [lia|].
    replace (aggr_len s) with (tx_total (map raw pend) + 4) by (rewrite Hal; by destruct pend).
    exists Q, fl, []. unfold inv. split_and!; [by split| |by split|].
    + split; try done. simpl. lia.
    + split; rewrite Epc; [done|]. exists pend, ws. split_and!; [done|done|]. simpl. by rewrite !app_nil_r.
  - exists Q, fl, pend. unfold inv. destruct Ha. split_and!; [by split|by split|by split|].
    by apply simulates_quiet; rewrite ?Epc.
Qed.

Lemma task_step s Q fl pend env :
  inv s Q fl pend -> good s Q fl pend (TXRXTask_TxTask s env).
Proof.
  intros Hi. destruct (tpc s) eqn:Epc.
  - by apply top_step.
  - by apply wait_step.
  - by eapply pop_step.
  - by eapply res_step.
  - by eapply send_step.
  - by eapply free_step.
  - by eapply more_step.
  - by apply end_step.
  - unfold TXRXTask_TxTask. by rewrite Epc.
Qed.

Definition input_okT (i : tx_input) : Prop :=
  match i with ICall f p => frame_ok aggr f /\ prio_ok p | _ => True end.

Lemma step_good s Q fl pend i :
  inv s Q fl pend -> input_okT i -> good s Q fl pend (tx_step N s i).
Proof.
  intros Hinv Hi. destruct i as [f p|k|m|env].
  - pose proof Hinv as ([_ _ _ _ _ Hcs _] & _ & _). exists Q, fl, pend. split; [|by apply simulates_quiet].
    apply inv_callers; [done|by apply Forall_app_2; [|constructor]|]. rewrite owed_app. simpl. lia.
  - simpl. destruct (callers s !! k) as [c|] eqn:Ek; [|done]. by apply caller_step.
  - by apply mode_step.
  - by apply task_step.
Qed.

Lemma simulates_trans s1 Q1 fl1 p1 s2 Q2 fl2 p2 s3 Q3 fl3 p3 o1 o2 :
  simulates s1 Q1 fl1 p1 s2 Q2 fl2 p2 o1 -> simulates s2 Q2 fl2 p2 s3 Q3 fl3 p3 o2 ->
  simulates s1 Q1 fl1 p1 s3 Q3 fl3 p3 (o1 ++ o2).
Proof.
  intros [A1 (D1 & w1 & B1 & C1 & E1)] [A2 (D2 & w2 & B2 & C2 & E2)]. split.
  - rewrite aq_run_app, A1. exact A2.
  - exists (D1 ++ D2), (w1 ++ w2). split_and!; [by apply handed_app|by apply Forall2_app|].
    by rewrite taken_app, app_assoc, E1, <-!app_assoc, <-E2, <-!app_assoc.
Qed.

Lemma run_good ins : Forall input_okT ins -> forall s Q fl pend,
  inv s Q fl pend -> good s Q fl pend (tx_run N s ins).
Proof.
  induction 1 as [|i ins Hi Hins IH]; intros s Q fl pend Hinv; cbn [tx_run].
  - exists Q, fl, pend. split; [done|by apply simulates_quiet].
  - pose proof (step_good _ _ _ _ _ Hinv Hi) as Hg.
    destruct (tx_step N s i) as [[[s1 o1]| |]|]; [|done..].
    destruct Hg as (Q1 & fl1 & p1 & Hinv1 & Hsim1). pose proof (IH _ _ _ _ Hinv1) as Hg.
    destruct (tx_run N s1 ins) as [[[s2 o2]| |]|]; [|done..].
    destruct Hg as (Q2 & fl2 & p2 & Hinv2 & Hsim2). exists Q2, fl2, p2. split; [done|].
    by eapply simulates_trans.
Qed.

Lemma init_inv : exists s, TXRXTask_Init N aggr = Some s /\ inv s (replicate PRI_Q_NUM []) 0 [] /\ tpc s = PTop.
Proof.
  destruct (prepare_rep N) as (q & E & Hr). unfold TXRXTask_Init. rewrite E. simpl.
  eexists. split; [done|]. split; [|done]. unfold inv. split_and!.
  - split; try done; repeat constructor.
  - split; try done; simpl; lia.
  - split; [simpl; lia..|]. by unfold tokens.
Qed.
End steps.

(** ** Properties *)

(** A run from the initial state, with frames the aggregation buffer can take
    and valid priorities. *)
Lemma init_run N aggr s0 ins :
  Z.of_nat N < 4294967296 -> Forall (input_okT aggr) ins -> TXRXTask_Init N aggr = Some s0 ->
  good N aggr s0 (replicate PRI_Q_NUM []) 0 [] (tx_run N s0 ins) /\ tpc s0 = PTop.
Proof.
  intros HN Hins Hi. destruct (init_inv N aggr) as (s & E & Hinv & Hpc). simplify_eq.
  split; [by apply run_good|done].
Qed.

(** What is taken and not yet on the bus: the frames in the aggregation buffer,
    as its headers delimit them, and the frame the task is about to send. *)
Definition in_flight (s : txrx) : list (list Z) :=
  match aggr_buf s with Some b => default [] (walk 6 b 0) | None => [] end ++
  map (fun f => take (Z.to_nat (f_len f)) (f_mem f)) (pc_frame (tpc s)).

Lemma in_flight_carries N aggr s Q fl pend :
  inv N aggr s Q fl pend -> Forall2 carries (pend ++ pc_frame (tpc s)) (in_flight s).
Proof.
  intros (Hq & [Hon Hn Hm Hlen Hb Hfs Ht] & _). unfold in_flight. apply Forall2_app.
  - destruct (aggr_buf s) as [b|]; [|by subst pend]. destruct Hb as [_ Hb].
    pose proof (total_bound pend Hfs).
    rewrite (walk_built AGGR_N (map raw pend));
      [by eapply carries_all|done|by eapply frames_wf| |rewrite length_map; lia].
    change (Z.of_nat AGGR_N) with 9344. lia.
  - destruct Hq as [_ _ _ _ _ _ Hpc]. destruct (tpc s); try constructor.
    destruct flush_frm; repeat constructor. eapply carries_raw, Hpc.
    simpl in *. eapply carries_raw, Hpc.
Qed.

(** C4: whatever the interleaving of enqueuing threads, the transmit task and
    mode changes, the frames accepted are kept in five FIFO queues by
    priority and taken from their heads, each exactly once; a frame is refused
    only when it is a data frame (traffic stopped) or when all nodes but at most
    one are in use; after a flush exactly as many frames are discarded as were
    waiting, and the counters of the task are the length and the flush count of
    these queues. *)
Theorem tx_refines_queues N aggr s0 ins s' tr :
  Z.of_nat N < 4294967296 -> Forall (input_okT aggr) ins -> TXRXTask_Init N aggr = Some s0 ->
  tx_run N s0 ins = Some (Ret (s', tr)) ->
  exists a, aq_run N (mk_aq (replicate PRI_Q_NUM []) 0) tr = Some a /\
    tx_data_frm_num s' = Z.of_nat (total (aQ a)) /\ tx_flush_data_frm_num s' = Z.of_nat (afl a).
Proof.
  intros HN Hins Hi E. destruct (init_run N aggr s0 ins HN Hins Hi) as [Hg Hpc]. rewrite E in Hg.
  destruct Hg as (Q & fl & pend & ([_ Hn Hf _ _ _ _] & _) & [Haq _]). rewrite Hpc in Haq.
  eexists. split; [exact Haq|]. done.
Qed.

(** C7: no interleaving makes the transmit path access memory out of bounds
    or dereference [NULL], for frames of up to 1860 bytes when HCI aggregation is
    enabled and of up to [MAX_FRAME_SIZE] otherwise; every node of the array is
    at any time in exactly one of the six lists or in the hands of the task. *)
Theorem tx_no_fault N aggr s0 ins :
  Z.of_nat N < 4294967296 -> Forall (input_okT aggr) ins -> TXRXTask_Init N aggr = Some s0 ->
  match tx_run N s0 ins with
  | None => True
  | Some (Ret (s', _)) => exists Q, rep (queues s') N (pc_node (tpc s')) Q
  | Some _ => False
  end.
Proof.
  intros HN Hins Hi. destruct (init_run N aggr s0 ins HN Hins Hi) as [Hg _].
  destruct (tx_run N s0 ins) as [[[s' tr]| |]|]; [|done..].
  destruct Hg as (Q & fl & pend & ([Hr _ _ _ _ _ _] & _) & _). by exists Q.
Qed.

(** The frames in the transfers, whether or not they were sent. *)
Lemma handed_transfers tr ws :
  handed tr = Some ws -> exists ts, transfers tr = Some ts /\ concat (map snd ts) = ws.
Proof.
  revert ws; induction tr as [|o tr IH]; intros ws H; [simplify_eq/=; by exists []|].
  destruct o; cbn [handed transfers] in *; eauto.
  - destruct (handed tr) as [w|]; simplify_eq/=. destruct (IH w eq_refl) as (ts & -> & <-).
    cbn [mbind option_bind]. by eexists.
  - destruct (walk _ _ _) as [w0|]; cbn [mbind option_bind] in *; [|done].
    destruct (handed tr) as [w|]; simplify_eq/=. destruct (IH w eq_refl) as (ts & -> & <-).
    cbn [mbind option_bind]. by eexists.
Qed.

(** A transfer on the bus holds the frames it is listed with: it is the single
    frame, or a walk along its aggregation headers finds them. *)
Definition holds (w : list Z) (fs : list (list Z)) : Prop :=
  fs = [w] \/ exists fuel, walk fuel w 0 = Some fs.

Lemma bus_holds tr ts :
  transfers tr = Some ts -> Forall2 holds (bus tr) (map snd (filter (fun t => t.1 = true) ts)).
Proof.
  revert ts; induction tr as [|o tr IH]; intros ts H; [by simplify_eq/=|].
  destruct o as [| | | | |f sent|buf len sent]; cbn [transfers bus] in *; eauto.
  - destruct (transfers tr) as [us|]; cbn [mbind option_bind] in H; simplify_eq.
    rewrite filter_cons. destruct sent; simpl; [constructor; [by left|]|]; by apply IH.
  - destruct (walk _ _ _) as [w|] eqn:Ew; cbn [mbind option_bind] in H; [|done].
    destruct (transfers tr) as [us|]; cbn [mbind option_bind] in H; simplify_eq.
    rewrite filter_cons. destruct sent; simpl; [constructor; [right; eauto|]|]; by apply IH.
Qed.

(** C5: the frames taken from the queues and not flushed are exactly the frames
    in the transfers given to [ssv6xxx_drv_send], in order, followed by those in
    the aggregation buffer and the one being sent: every transfer, single or
    aggregated, is well-formed, and none of these frames is left out, duplicated
    or cut.  The bus has carried exactly the transfers whose call succeeded; the
    frames of a transfer whose call failed are lost with it, since the result is
    ignored.  Conditions: frames of at most 1860 bytes ([MAX_AGGR_FRAME]) when
    HCI aggregation is enabled and of at most [MAX_FRAME_SIZE] otherwise
    ([aggr_drops_frame] shows a longer one being dropped), with a buffer that
    covers the length rounded up to four, queued at priorities 0 to 4. *)
Theorem tx_bus_carries_frames N aggr s0 ins s' tr :
  Z.of_nat N < 4294967296 -> Forall (input_okT aggr) ins -> TXRXTask_Init N aggr = Some s0 ->
  tx_run N s0 ins = Some (Ret (s', tr)) ->
  exists ts, transfers tr = Some ts /\
    Forall2 carries (taken tr) (concat (map snd ts) ++ in_flight s') /\
    Forall2 holds (bus tr) (map snd (filter (fun t => t.1 = true) ts)).
Proof.
  intros HN Hins Hi E. destruct (init_run N aggr s0 ins HN Hins Hi) as [Hg Hpc]. rewrite E in Hg.
  destruct Hg as (Q & fl & pend & Hinv & _ & D & ws & Hb & Hc & Hd).
  destruct (handed_transfers tr ws Hb) as (ts & Et & Hts). exists ts. split_and!; [done| |].
  - rewrite Hpc in Hd. simpl in Hd. rewrite Hd, Hts. apply Forall2_app; [done|]. by eapply in_flight_carries.
  - by apply bus_holds.
Qed.

(** C6: the transmit task is blocked for good only when it has ended or when
    there is nothing to send: if it can make no step although the bus has room
    and timeouts expire, and no caller has still to signal, then no frame is
    queued and none waits in the aggregation buffer. *)
Theorem tx_no_lost_wakeup N aggr s0 ins s' tr :
  Z.of_nat N < 4294967296 -> Forall (input_okT aggr) ins -> TXRXTask_Init N aggr = Some s0 ->
  tx_run N s0 ins = Some (Ret (s', tr)) ->
  owed (callers s') = 0%nat -> (forall env, TXRXTask_TxTask s' env = None) ->
  tpc s' = PDone \/ (tpc s' = PWait /\ tx_data_frm_num s' = 0 /\ in_flight s' = []).
Proof.
  intros HN Hins Hi E Ho Hstuck. destruct (init_run N aggr s0 ins HN Hins Hi) as [Hg _]. rewrite E in Hg.
  destruct Hg as (Q & fl & pend & Hinv & _). specialize (Hstuck (mk_tx_env true true true true)).
  pose proof (in_flight_carries _ _ _ _ _ _ Hinv) as Hif.
  destruct Hinv as ([Hr Hn _ _ _ _ Hpc] & [_ _ _ _ _ _ Hti] & [Hs _ Ht]).
  assert (Hsem : OS_SemWait s' (mk_tx_env true true true true) = None ->
    tokens s' = 0 /\ sleep_tick s' = 0).
  { unfold OS_SemWait, tokens. rewrite Ho. destruct (Z.ltb_spec 0 (tx_frm_sphr s')); [done|].
    destruct (Z.eqb_spec (sleep_tick s') 0); [|done]. lia. }
  unfold TXRXTask_TxTask in Hstuck. destruct (tpc s') eqn:Epc; [|right| | | | | | |by left].
  - by destruct (tx_curr_mode s').
  - destruct (OS_SemWait s' _); [done|]. destruct (Hsem eq_refl) as [H0 Hst]. simpl in Hn.
    split_and!; [done|lia|]. destruct pend; [|by destruct Hti]. by inversion Hif.
  - simpl in Hpc. destruct (pop_hwq _ _) as [[q [[x [f|]]|]]| |]; done.
  - done.
  - destruct flush_frm; [done|]. by destruct (tx_resend _ _ _) as [[]| |].
  - by destruct (release _ _).
  - destruct (Z.ltb_spec 1 (prc_count s')); [|done]. destruct (OS_SemWait s' _); [done|].
    destruct (Hsem eq_refl) as [H0 _]. lia.
  - destruct (_ && _); [|done]. by destruct (aggr_buf s').
Qed.

(** *** A run of two callers and the task *)

Definition env_go : tx_env := mk_tx_env true true true true.
Definition data1 : frame := mk_frame 1 true [5; 0; 3; 4; 5; 6; 7; 8] 5.
Definition cmd2 : frame := mk_frame 2 false [4; 0; 9; 9] 4.

Definition start (aggr : bool) : txrx :=
  match TXRXTask_Init 8 aggr with Some s => s | None => mk_txrx MT_STOP 0 0 (mk_txq ∅ ∅ [] llist_head_init) 0 false PDone 0 0 0 None 0 [] end.

(** [data1] is queued at priority 0 and [cmd2] at 4 while the traffic runs; the
    task makes [k] steps. *)
Definition two_frames (k : nat) : list tx_input :=
  [ISetMode (Some MT_RUNNING); ICall data1 0; ICall cmd2 4; ICaller 0; ICaller 1; ICaller 0; ITx env_go;
   ICaller 0; ICaller 0; ICaller 0] ++ replicate k (ITx env_go).

Definition final (aggr : bool) (ins : list tx_input) : txrx * list tx_out :=
  match tx_run 8 (start aggr) ins with Some (Ret p) => p | _ => (start aggr, []) end.

Lemma two_frames_ok aggr k : Forall (input_okT aggr) (two_frames k).
Proof.
  assert (Hd : frame_ok aggr data1 /\ prio_ok 0).
  { split; [|done]. split_and!; [done|done|vm_compute; intros [=]|]. intros _. done. }
  assert (Hc : frame_ok aggr cmd2 /\ prio_ok 4).
  { split; [|done]. split_and!; [done|done|vm_compute; intros [=]|]. intros _. done. }
  unfold two_frames. apply Forall_app_2; [|by apply Forall_replicate]. repeat (apply list.Forall_cons_2; [first [exact Hd|exact Hc|exact I]|]). constructor.
Qed.

Lemma start_init aggr : TXRXTask_Init 8 aggr = Some (start aggr).
Proof. by destruct aggr. Qed.

Lemma tx_refines_queues_witness :
  exists a, aq_run 8 (mk_aq (replicate PRI_Q_NUM []) 0) (final true (two_frames 9)).2 = Some a /\
    1 = Z.of_nat (total (aQ a)) /\ 0 = Z.of_nat (afl a).
Proof.
  exact (tx_refines_queues 8 true (start true) (two_frames 9) (final true (two_frames 9)).1
    (final true (two_frames 9)).2 eq_refl (two_frames_ok true 9) (start_init true)
    ltac:(vm_compute; reflexivity)).
Defined.

Lemma tx_no_fault_witness :
  match tx_run 8 (start true) (two_frames 9) with
  | None => True
  | Some (Ret (s', _)) => exists Q, rep (queues s') 8 (pc_node (tpc s')) Q
  | Some _ => False
  end.
Proof. exact (tx_no_fault 8 true (start true) (two_frames 9) eq_refl (two_frames_ok true 9) (start_init true)). Defined.

Lemma tx_bus_carries_frames_witness :
  exists ts, transfers (final true (two_frames 26)).2 = Some ts /\
    Forall2 carries [cmd2; data1] (concat (map snd ts) ++ in_flight (final true (two_frames 26)).1) /\
    Forall2 holds (bus (final true (two_frames 26)).2) (map snd (filter (fun t => t.1 = true) ts)).
Proof.
  exact (tx_bus_carries_frames 8 true (start true) (two_frames 26) (final true (two_frames 26)).1
    (final true (two_frames 26)).2 eq_refl (two_frames_ok true 26) (start_init true)
    ltac:(vm_compute; reflexivity)).
Defined.

(** A failing [ssv6xxx_drv_send] loses the frame: [cmd2] is taken and freed, and
    only [data1] reaches the bus. *)
Example failed_send_loses_frame :
  let bad := mk_tx_env true true true false in
  let p := final false (take 10 (two_frames 0) ++ replicate 4 (ITx bad) ++ replicate 14 (ITx env_go)) in
  taken p.2 = [cmd2; data1] /\ bus p.2 = [[5; 0; 3; 4; 5]] /\ in_flight p.1 = [].
Proof. vm_compute. done. Qed.

Lemma tx_no_lost_wakeup_witness :
  tpc (final false (two_frames 18)).1 = PDone \/
  (tpc (final false (two_frames 18)).1 = PWait /\ tx_data_frm_num (final false (two_frames 18)).1 = 0 /\
   in_flight (final false (two_frames 18)).1 = []).
Proof.
  apply (tx_no_lost_wakeup 8 false (start false) (two_frames 18) (final false (two_frames 18)).1
    (final false (two_frames 18)).2 eq_refl (two_frames_ok false 18) (start_init false)).
  - vm_compute. reflexivity.
  - reflexivity.
  - intros [[] [] [] []]; reflexivity.
Defined.

(** *** Long frames *)

Lemma wr_length buf off bs buf' : wr buf off bs = Some buf' -> length buf' = length buf.
Proof.
  unfold wr. destruct (Nat.leb_spec (off + length bs) (length buf)); intros [= <-].
  rewrite !length_app, length_take, length_drop. lia.
Qed.

Lemma wr_outside buf off bs : (length buf < off + length bs)%nat -> wr buf off bs = None.
Proof. intros H. unfold wr. by rewrite (proj2 (Nat.leb_gt _ _) H). Qed.

(** The end mark of an appended frame lies outside a buffer that is too short. *)
Lemma process_overrun buf mem len T :
  rd16 buf 5 = Some T -> 0 <= T -> 0 <= align4 len ->
  Z.of_nat (length buf) < T + align4 len + 12 -> ssv6006_hal_process_hci_aggr_tx buf mem len = None.
Proof.
  intros HT HT0 Ha Hlen. unfold ssv6006_hal_process_hci_aggr_tx. rewrite HT. cbn [mbind option_bind].
  destruct (wr buf _ _) as [b1|] eqn:E1; [|done]. cbn [mbind option_bind].
  destruct (slice mem _ _) as [data|]; [|done]. cbn [mbind option_bind].
  destruct (wr b1 _ _) as [b2|] eqn:E2; [|done]. cbn [mbind option_bind].
  destruct (rd16 b2 5) as [T2|]; [|done]. cbn [mbind option_bind].
  destruct (wr b2 5 _) as [b3|] eqn:E3; [|done]. cbn [mbind option_bind].
  apply wr_length in E1, E2, E3. rewrite (wr_outside b3); [done|]. cbn [length le16 app]. lia.
Qed.

(** the test before a frame is appended to the aggregation buffer does not
    count the header, the padding and the end mark: a frame that passes it but
    leaves less than eight bytes plus its padded length is written past the end
    of the buffer.  Four frames of 2300 bytes and one of 105 are such a case. *)
Theorem aggr_overruns s env f buf T :
  hci_aggr_tx s = true -> aggr_buf s = Some buf -> Z.of_nat (length buf) = MAX_HCI_AGGR_SIZE ->
  rd16 buf 5 = Some T -> 0 <= T -> aggr_len s = T + 4 -> 0 <= f_len f ->
  aggr_len s + f_len f < MAX_HCI_AGGR_SIZE < aggr_len s + align4 (f_len f) + 8 ->
  tx_resend s env f = Fault.
Proof.
  intros Hen Hb Hl HT HT0 Hal Hf Hfit. unfold tx_resend. rewrite Hen, Hb.
  change MAX_HCI_AGGR_SIZE with 9344 in *. rewrite u32_small by lia.
  replace (aggr_len s + f_len f <? 9344) with true by lia.
  rewrite (process_overrun buf _ _ T); [done|done|done| |lia].
  pose proof (align4_spec (f_len f) ltac:(lia)). lia.
Qed.

Definition long_frame (k len : Z) : frame := mk_frame k true (replicate (Z.to_nat (align4 len)) k) len.

(** Frames queued one after the other, each with all steps of its caller. *)
Definition queue_all (fs : list frame) : list tx_input :=
  ISetMode (Some MT_RUNNING) :: concat (map (fun f => [ICall f 0; ICaller 0; ICaller 0; ICaller 0]) fs).

Definition four_long : list frame := map (fun k => long_frame k 2300) [1; 2; 3; 4].

(** The state with four frames of 2300 bytes in the aggregation buffer. *)
Definition four_pending : txrx := (final true (queue_all four_long ++ replicate 26 (ITx env_go))).1.

Lemma aggr_overruns_witness : tx_resend four_pending env_go (long_frame 5 105) = Fault.
Proof.
  apply (aggr_overruns four_pending env_go (long_frame 5 105)
    (match aggr_buf four_pending with Some b => b | None => [] end) 9232);
    try (vm_compute; reflexivity); try (vm_compute; discriminate).
  vm_compute. split; reflexivity.
Defined.

(** A fifth frame of 2300 bytes is taken, but neither sent nor kept. *)
Example aggr_drops_frame :
  let p := final true (queue_all (four_long ++ [long_frame 5 2300]) ++ replicate 32 (ITx env_go)) in
  length (taken p.2) = 5%nat /\ bus p.2 = [] /\ length (in_flight p.1) = 4%nat.
Proof. vm_compute. done. Qed.

(** A stop marks one waiting data frame; the command queued afterwards at a
    higher priority is discarded in its place, and the data frame is sent. *)
Example flush_discards_command :
  let p := final false ([ISetMode (Some MT_RUNNING); ICall data1 0; ICaller 0; ICaller 0; ICaller 0;
    ISetMode (Some MT_STOP); ICall cmd2 4; ICaller 0; ICaller 0; ICaller 0] ++ replicate 16 (ITx env_go)) in
  p.2 = [OMode false; OQueue 0 data1; OMode true; OQueue 4 cmd2; OTake 4 cmd2 true; OTake 0 data1 false; OSend data1 true].
Proof. reflexivity. Qed.

(** A refused change of mode is reported as a success. *)
Example set_op_mode_reports_success :
  TXRXTask_SetOpMode (set_tmode (start false) MT_RUNNING) (Some MT_EXIT) =
    (set_tmode (start false) MT_RUNNING, [OMode false], SSV6XXX_SUCCESS).
Proof. reflexivity. Qed.
