(* ===== verification/Regulatory.v ===== *)
(** * Regulatory: channels and regulatory domains

    [core/channel.c] fills the channel tables, [init/country_cfg.c] the table of
    regulatory domains; [core/Regulatory.c] decides whether a channel of a given
    width is allowed in a domain, [core/host_apis.c] computes from that the masks
    of available channels when a country is set, and [ap/beacon.c] announces the
    channels in the Country information element.

    [reg_decisions_exact] shows that the decisions, with their unsigned
    arithmetic and the band test, are exactly containment of the channel in a
    rule; [set_reg_available] that the masks hold exactly the allowed channels of
    the tables; [country_ie_lists_channels] that the element lists exactly the
    channels of the masks. *)

From stdpp Require Import base list option.
From Stdlib Require Import ZArith Lia.
From S2P Require Import Prelude.

(** ** Data *)

Definition MHZ_TO_KHZ (freq : Z) : Z := u32 (freq * 1000).
Definition NL80211_RRF_DFS : Z := 16.
Definition BW : Z := 20.
Definition MAX_2G_CHANNEL_NUM : nat := 16.
Definition MAX_5G_CHANNEL_NUM : nat := 25.
Definition MAX_COUNTRY_NUM : nat := 10.

Record ieee80211_freq_range : Type := mk_range {
  start_freq_khz : Z;
  end_freq_khz : Z;
  max_bandwidth_khz : Z
}.

Record ieee80211_reg_rule : Type := mk_rule {
  freq_range : ieee80211_freq_range;
  max_antenna_gain : Z;
  max_eirp : Z;
  rule_flags : Z
}.

(** [reg_rules] up to [n_reg_rules]; [alpha2] as character codes. *)
Record ieee80211_regdomain : Type := mk_regdomain {
  alpha2 : Z * Z;
  reg_rules : list ieee80211_reg_rule
}.

Inductive nl80211_channel_type : Type :=
| NL80211_CHAN_NO_HT | NL80211_CHAN_HT20 | NL80211_CHAN_HT40MINUS | NL80211_CHAN_HT40PLUS.

Record ieee80211_channel : Type := mk_channel {
  center_freq : Z;
  hw_value : Z;
  chan_flags : nl80211_channel_type
}.

(** ** The tables *)

Definition zero_channel : ieee80211_channel := mk_channel 0 0 NL80211_CHAN_NO_HT.
Definition CHAN2G (freq idx : Z) : ieee80211_channel := mk_channel freq idx NL80211_CHAN_HT20.
Definition CHAN5G (freq idx : Z) (t : nl80211_channel_type) : ieee80211_channel := mk_channel freq idx t.

(** [ssv6xxx_channel_table_init]: entries 0 and 15 of the first table stay zero. *)
Definition ssv6xxx_2ghz_chantable : list ieee80211_channel :=
  zero_channel ::
  [CHAN2G 2412 1; CHAN2G 2417 2; CHAN2G 2422 3; CHAN2G 2427 4;
   CHAN2G 2432 5; CHAN2G 2437 6; CHAN2G 2442 7; CHAN2G 2447 8;
   CHAN2G 2452 9; CHAN2G 2457 10; CHAN2G 2462 11; CHAN2G 2467 12;
   CHAN2G 2472 13; CHAN2G 2484 14] ++
  [zero_channel].

Definition ssv6xxx_5ghz_chantable : list ieee80211_channel :=
  [CHAN5G 5180 36 NL80211_CHAN_HT40PLUS; CHAN5G 5200 40 NL80211_CHAN_HT40MINUS;
   CHAN5G 5220 44 NL80211_CHAN_HT40PLUS; CHAN5G 5240 48 NL80211_CHAN_HT40MINUS;
   CHAN5G 5260 52 NL80211_CHAN_HT40PLUS; CHAN5G 5280 56 NL80211_CHAN_HT40MINUS;
   CHAN5G 5300 60 NL80211_CHAN_HT40PLUS; CHAN5G 5320 64 NL80211_CHAN_HT40MINUS;
   CHAN5G 5500 100 NL80211_CHAN_HT40PLUS; CHAN5G 5520 104 NL80211_CHAN_HT40MINUS;
   CHAN5G 5540 108 NL80211_CHAN_HT40PLUS; CHAN5G 5560 112 NL80211_CHAN_HT40MINUS;
   CHAN5G 5580 116 NL80211_CHAN_HT40PLUS; CHAN5G 5600 120 NL80211_CHAN_HT40MINUS;
   CHAN5G 5620 124 NL80211_CHAN_HT40PLUS; CHAN5G 5640 128 NL80211_CHAN_HT40MINUS;
   CHAN5G 5660 132 NL80211_CHAN_HT40PLUS; CHAN5G 5680 136 NL80211_CHAN_HT40MINUS;
   CHAN5G 5700 140 NL80211_CHAN_HT40PLUS; CHAN5G 5720 144 NL80211_CHAN_HT40MINUS;
   CHAN5G 5745 149 NL80211_CHAN_HT40PLUS; CHAN5G 5765 153 NL80211_CHAN_HT40MINUS;
   CHAN5G 5785 157 NL80211_CHAN_HT40PLUS; CHAN5G 5805 161 NL80211_CHAN_HT40MINUS;
   CHAN5G 5825 165 NL80211_CHAN_HT20].

Definition REG_RULE (start end_ bw gain eirp flags : Z) : ieee80211_reg_rule :=
  mk_rule (mk_range (MHZ_TO_KHZ start) (MHZ_TO_KHZ end_) (MHZ_TO_KHZ bw)) (gain * 100) (eirp * 100) flags.

(** [ssv6xxx_wifi_init_regdom]; the other entries of [regdom] have no rules. *)
Definition regdom : list ieee80211_regdomain :=
  [mk_regdomain (48, 48)
     [REG_RULE 2402 2472 40 0 20 0;
      REG_RULE 2457 2482 40 0 20 0;
      REG_RULE 2474 2494 20 0 20 0;
      REG_RULE 5170 5250 80 0 20 0;
      REG_RULE 5250 5330 80 0 20 NL80211_RRF_DFS;
      REG_RULE 5490 5730 160 0 20 NL80211_RRF_DFS;
      REG_RULE 5735 5835 80 0 20 0];
   mk_regdomain (67, 78)
     [REG_RULE 2402 2482 40 0 20 0;
      REG_RULE 5170 5250 80 0 23 0;
      REG_RULE 5250 5330 80 0 23 NL80211_RRF_DFS;
      REG_RULE 5735 5835 80 0 30 0];
   mk_regdomain (84, 87)
     [REG_RULE 2402 2472 40 0 30 0;
      REG_RULE 5270 5330 40 0 17 NL80211_RRF_DFS;
      REG_RULE 5490 5590 80 0 30 NL80211_RRF_DFS;
      REG_RULE 5650 5710 40 0 30 NL80211_RRF_DFS;
      REG_RULE 5735 5815 80 0 30 0];
   mk_regdomain (72, 75)
     [REG_RULE 2402 2482 40 0 20 0;
      REG_RULE 5170 5250 80 0 17 0;
      REG_RULE 5250 5330 80 0 24 NL80211_RRF_DFS;
      REG_RULE 5490 5710 160 0 24 NL80211_RRF_DFS;
      REG_RULE 5735 5835 80 0 30 0]] ++
  replicate (MAX_COUNTRY_NUM - 4) (mk_regdomain (0, 0) []).

(** ** [Regulatory.c] *)

(** The macro [abs] on a [u32]. *)
Definition abs_u32 (x : Z) : Z := if s32 x <? 0 then u32 (- x) else x.

Definition freq_in_rule_band (fr : ieee80211_freq_range) (freq_khz : Z) : bool :=
  (abs_u32 (u32 (freq_khz - start_freq_khz fr)) <=? 2 * 1000000)
  || (abs_u32 (u32 (freq_khz - end_freq_khz fr)) <=? 2 * 1000000).

Definition reg_does_bw_fit (fr : ieee80211_freq_range) (center_freq_khz bw_khz : Z) : bool :=
  let start := u32 (center_freq_khz - bw_khz / 2) in
  let end_ := u32 (center_freq_khz + bw_khz / 2) in
  (start_freq_khz fr <=? start) && (end_ <=? end_freq_khz fr).

(** The loop the three functions share: some rule fits, is accepted, and it or
    a rule before it is in the band. *)
Fixpoint reg_scan (accept : ieee80211_reg_rule -> bool) (center_freq bw : Z) (band_rule_found : bool)
  (rules : list ieee80211_reg_rule) : bool :=
  match rules with
  | [] => false
  | rr :: rest =>
      let found := band_rule_found || freq_in_rule_band (freq_range rr) (MHZ_TO_KHZ center_freq) in
      if found && reg_does_bw_fit (freq_range rr) (MHZ_TO_KHZ center_freq) (MHZ_TO_KHZ bw) && accept rr
      then true
      else reg_scan accept center_freq bw found rest
  end.

Definition freq_reg_info_regd (center_freq desired_bw_khz : Z) (regd : ieee80211_regdomain) : Z :=
  if reg_scan (fun _ => true) center_freq desired_bw_khz false (reg_rules regd) then 0 else -1.

Definition freq_need_dfs (center_freq desired_bw_khz : Z) (regd : ieee80211_regdomain) : bool :=
  reg_scan (fun rr => negb (Z.land (rule_flags rr) NL80211_RRF_DFS =? 0)) center_freq desired_bw_khz false
    (reg_rules regd).

Definition freq_40MHZ_legal (center_freq : Z) (regd : ieee80211_regdomain) : bool :=
  reg_scan (fun rr => MHZ_TO_KHZ 40 <=? max_bandwidth_khz (freq_range rr)) center_freq 20 false
    (reg_rules regd).

(** ** [host_apis.c] *)

(** [_ssv6xxx_wifi_get_regdomain] *)
Definition _ssv6xxx_wifi_get_regdomain (reg : Z * Z) : option ieee80211_regdomain :=
  List.find (fun d => match reg_rules d with [] => false | _ => bool_decide (alpha2 d = reg) end) regdom.

(** The fields of [gDeviceInfo]. *)
Record reg_state : Type := mk_reg_state {
  g_alpha2 : Z * Z;
  available_2g_channel_mask : Z;
  available_5g_channel_mask : Z
}.

(** The loops over a table: bit [i] for an allowed channel. *)
Fixpoint channel_mask (regd : ieee80211_regdomain) (i : Z) (t : list ieee80211_channel) (mask : Z) : Z :=
  match t with
  | [] => mask
  | c :: r =>
      channel_mask regd (i + 1) r
        (if freq_reg_info_regd (center_freq c) BW regd =? 0 then Z.lor mask (Z.shiftl 1 i) else mask)
  end.

(** [ssv6xxx_wifi_update_available_channel] *)
Definition ssv6xxx_wifi_update_available_channel (support_5g : bool) (g : reg_state) : reg_state * Z :=
  match _ssv6xxx_wifi_get_regdomain (g_alpha2 g) with
  | None => (g, -1)
  | Some preg =>
      (mk_reg_state (g_alpha2 g) (u16 (channel_mask preg 0 ssv6xxx_2ghz_chantable 0))
         (if support_5g then u32 (channel_mask preg 0 ssv6xxx_5ghz_chantable 0) else 0), 0)
  end.

(** [ssv6xxx_wifi_set_reg] *)
Definition ssv6xxx_wifi_set_reg (support_5g : bool) (g : reg_state) (reg : Z * Z) : reg_state * Z :=
  match _ssv6xxx_wifi_get_regdomain reg with
  | None => (g, -1)
  | Some _ =>
      ((ssv6xxx_wifi_update_available_channel support_5g
          (mk_reg_state reg (available_2g_channel_mask g) (available_5g_channel_mask g))).1, 0)
  end.

(** [ssv6xxx_wifi_ch_to_bitmask] and [ssv6xxx_wifi_ch_bitmask_to_num]. *)
Fixpoint find_channel (ch : Z) (i : Z) (t : list ieee80211_channel) : Z :=
  match t with
  | [] => -1
  | c :: r => if hw_value c =? ch then i else find_channel ch (i + 1) r
  end.

Definition IS_5G_BAND (ch : Z) : bool := Z.of_nat MAX_2G_CHANNEL_NUM <? ch.

Definition ssv6xxx_wifi_ch_to_bitmask (ch : Z) : Z :=
  find_channel ch 0 (if IS_5G_BAND ch then ssv6xxx_5ghz_chantable else ssv6xxx_2ghz_chantable).

Definition ssv6xxx_wifi_ch_bitmask_to_num (b5GBand : bool) (idx : Z) : Z :=
  match (if b5GBand then ssv6xxx_5ghz_chantable else ssv6xxx_2ghz_chantable) !! Z.to_nat idx with
  | Some c => hw_value c
  | None => -1
  end.

(** ** [beacon.c]: the Country information element *)

Definition WLAN_EID_COUNTRY : Z := 7.

(** [hostapd_eid_country_add]; [out] is what is written from [eid] on. *)
Definition hostapd_eid_country_add (max_len : Z) (out : list Z) (chan_spacing s e : Z) : list Z :=
  if max_len - Z.of_nat (length out) <? 3 then out
  else out ++ [u8 s; u8 ((u8 e - u8 s) / chan_spacing + 1); 20].

(** The loops over a table: the runs [s .. e] of channels. *)
Fixpoint country_loop (max_len chan_spacing : Z) (sel : Z -> ieee80211_channel -> bool) (i : Z)
  (t : list ieee80211_channel) (out : list Z) (s e : Z) : list Z * Z * Z :=
  match t with
  | [] => (out, s, e)
  | c :: r =>
      let '(out, s, e) :=
        if sel i c then
          if negb (s =? 0) then
            if e + chan_spacing =? hw_value c then (out, s, hw_value c)
            else (hostapd_eid_country_add max_len out chan_spacing s e, hw_value c, hw_value c)
          else (out, hw_value c, hw_value c)
        else (out, s, e) in
      country_loop max_len chan_spacing sel (i + 1) r out s e
  end.

(** [hostapd_eid_country]: the bytes written from [eid] on ([eid[1]] is set at the
    end); [] when nothing is added. *)
Definition hostapd_eid_country (g : reg_state) (support_5g ap_no_dfs : bool) (max_len : Z) : list Z :=
  if max_len <? 6 then []
  else
    match _ssv6xxx_wifi_get_regdomain (g_alpha2 g) with
    | None => []
    | Some reg =>
        let out := [WLAN_EID_COUNTRY; 0; (alpha2 reg).1; (alpha2 reg).2; 0] in
        let '(out, s, e) :=
          country_loop max_len 1 (fun i _ => Z.testbit (available_2g_channel_mask g) i) 0
            ssv6xxx_2ghz_chantable out 0 0 in
        let out := hostapd_eid_country_add max_len out 1 s e in
        let '(out, s, e, chan_spacing) :=
          if support_5g then
            let '(out, s, e) :=
              country_loop max_len 4
                (fun i c => Z.testbit (available_5g_channel_mask g) i
                            && negb (ap_no_dfs && freq_need_dfs (center_freq c) BW reg)) 0
                ssv6xxx_5ghz_chantable out 0 0 in
            (out, s, e, 4)
          else (out, s, e, 1) in
        let out := hostapd_eid_country_add max_len out chan_spacing s e in
        let out := if Z.testbit (Z.of_nat (length out)) 0 then out ++ [0] else out in
        <[1%nat := u8 (Z.of_nat (length out) - 2)]> out
    end.

(** ** The decisions *)

(** A rule as the tables have them: above 2 GHz, at most 4 GHz wide. *)
Definition rule_wf (rr : ieee80211_reg_rule) : Prop :=
  let fr := freq_range rr in
  2000000 < start_freq_khz fr <= end_freq_khz fr /\ end_freq_khz fr < 2147483648 /\
  end_freq_khz fr - start_freq_khz fr <= 4000000.

(** The channel [c - bw/2 .. c + bw/2] (in MHz) lies in the rule. *)
Definition rule_contains (c bw : Z) (rr : ieee80211_reg_rule) : bool :=
  (start_freq_khz (freq_range rr) <=? 1000 * c - 500 * bw)
  && (1000 * c + 500 * bw <=? end_freq_khz (freq_range rr)).

Lemma abs_u32_spec a b :
  0 <= a < 2147483648 -> 0 <= b < 2147483648 -> abs_u32 (u32 (a - b)) = Z.abs (a - b).
Proof.
  intros Ha Hb. unfold abs_u32.
  assert (Hs : s32 (u32 (a - b)) = a - b).
  { unfold s32, u32. rewrite Z.mod_mod by lia. destruct (Z.ltb_spec ((a - b) mod 4294967296) 2147483648); lia. }
  rewrite Hs. unfold u32. destruct (Z.ltb_spec (a - b) 0); lia.
Qed.

Lemma fit_contains c bw rr :
  0 <= bw -> 500 * bw <= 1000 * c -> 1000 * c + 1000 * bw < 4294967296 ->
  reg_does_bw_fit (freq_range rr) (MHZ_TO_KHZ c) (MHZ_TO_KHZ bw) = rule_contains c bw rr.
Proof.
  intros Hb Hc Hmax. unfold reg_does_bw_fit, rule_contains, MHZ_TO_KHZ.
  rewrite !(u32_small (_ * 1000)) by lia. replace (bw * 1000 / 2) with (500 * bw) by lia.
  rewrite !u32_small by lia. f_equal; f_equal; lia.
Qed.

Lemma contains_in_band c bw rr :
  rule_wf rr -> 0 <= bw -> 500 * bw <= 1000 * c -> rule_contains c bw rr = true ->
  freq_in_rule_band (freq_range rr) (MHZ_TO_KHZ c) = true.
Proof.
  intros (H1 & H2 & H3) Hb Hc Hin. unfold rule_contains in Hin. bool_to_prop.
  unfold freq_in_rule_band, MHZ_TO_KHZ. rewrite (u32_small (c * 1000)) by lia.
  rewrite !abs_u32_spec by lia. lia.
Qed.

(** The band test never rejects a rule that contains the channel. *)
Lemma scan_exact accept c bw rules :
  Forall rule_wf rules -> 0 <= bw -> 500 * bw <= 1000 * c -> 1000 * c + 1000 * bw < 4294967296 ->
  forall found, reg_scan accept c bw found rules =
    existsb (fun rr => rule_contains c bw rr && accept rr) rules.
Proof.
  intros Hwf Hb Hc Hmax. induction Hwf as [|rr rules Hr Hrs IH]; intros found; [done|].
  cbn [reg_scan existsb]. rewrite fit_contains by done. rewrite IH.
  destruct (rule_contains c bw rr) eqn:E; [|by rewrite andb_false_r].
  rewrite (contains_in_band c bw rr) by done. rewrite orb_true_r. by destruct (accept rr).
Qed.

(** The cleared entries of the table are in no band, although the unsigned
    arithmetic makes every rule fit them. *)
Lemma scan_zero accept bw rules : Forall rule_wf rules -> reg_scan accept 0 bw false rules = false.
Proof.
  induction 1 as [|rr rules (H1 & H2 & H3) Hrs IH]; [done|]. cbn [reg_scan].
  replace (freq_in_rule_band (freq_range rr) (MHZ_TO_KHZ 0)) with false; [exact IH|].
  unfold freq_in_rule_band. change (MHZ_TO_KHZ 0) with 0. rewrite !abs_u32_spec by lia. lia.
Qed.

Lemma regdom_wf : Forall (fun d => Forall rule_wf (reg_rules d)) regdom.
Proof.
  assert (H : forall rr, forallb (fun rr => 
    (2000000 <? start_freq_khz (freq_range rr)) && (start_freq_khz (freq_range rr) <=? end_freq_khz (freq_range rr))
    && (end_freq_khz (freq_range rr) <? 2147483648)
    && (end_freq_khz (freq_range rr) - start_freq_khz (freq_range rr) <=? 4000000)) [rr] = true -> rule_wf rr).
  { intros rr H. cbn [forallb] in H. rewrite andb_true_r in H. bool_to_prop. split_and!; lia. }
  unfold regdom. repeat (apply list.Forall_cons_2 || apply list.Forall_nil_2 || (apply H; reflexivity)).
Qed.

Lemma get_regdomain_wf reg d : _ssv6xxx_wifi_get_regdomain reg = Some d -> Forall rule_wf (reg_rules d).
Proof.
  intros [H _]%List.find_some. exact (proj1 (List.Forall_forall _ _) regdom_wf d H).
Qed.

(** ** The masks *)

(** A channel of the table whose 20 MHz lie in a rule. *)
Definition allowed (regd : ieee80211_regdomain) (c : ieee80211_channel) : bool :=
  negb (hw_value c =? 0) && existsb (rule_contains (center_freq c) BW) (reg_rules regd).

Lemma table_allowed regd c :
  Forall rule_wf (reg_rules regd) -> c ∈ ssv6xxx_2ghz_chantable ++ ssv6xxx_5ghz_chantable ->
  (freq_reg_info_regd (center_freq c) BW regd =? 0) = allowed regd c.
Proof.
  intros Hwf Hc.
  assert (Ht : c = zero_channel \/ (2412 <= center_freq c <= 5825 /\ 0 < hw_value c)).
  { revert c Hc. apply (proj1 (list.Forall_forall _ _)). unfold ssv6xxx_2ghz_chantable, ssv6xxx_5ghz_chantable. simpl.
    repeat (apply list.Forall_cons_2; [first [by left | right; simpl; lia]|]). apply list.Forall_nil_2. }
  unfold freq_reg_info_regd, allowed. destruct Ht as [->|[Hf Hh]].
  - simpl center_freq. by rewrite scan_zero.
  - rewrite scan_exact by (done || unfold BW; lia). replace (hw_value c =? 0) with false by lia. cbn [negb andb].
    replace (existsb (fun rr => rule_contains (center_freq c) BW rr && true) (reg_rules regd))
      with (existsb (rule_contains (center_freq c) BW) (reg_rules regd)).
    + by destruct (existsb _ _).
    + clear. induction (reg_rules regd) as [|r l IH]; [done|]. simpl. by rewrite IH, andb_true_r.
Qed.

Lemma channel_mask_bits regd t : forall i mask j,
  0 <= i -> 0 <= j ->
  Z.testbit (channel_mask regd i t mask) j =
    Z.testbit mask j ||
    match (if i <=? j then t !! Z.to_nat (j - i) else None) with
    | Some c => freq_reg_info_regd (center_freq c) BW regd =? 0
    | None => false
    end.
Proof.
  induction t as [|c t IH]; intros i mask j Hi Hj; cbn [channel_mask].
  { destruct (i <=? j); by rewrite orb_false_r. }
  rewrite IH by lia. destruct (Z.leb_spec (i + 1) j) as [H|H].
  - replace (i <=? j) with true by lia. replace (Z.to_nat (j - i)) with (S (Z.to_nat (j - (i + 1)))) by lia.
    cbn [lookup list_lookup]. f_equal. destruct (_ =? 0); [|done].
    rewrite Z.lor_spec, Z.shiftl_spec by lia.
    replace (Z.testbit 1 (j - i)) with false; [by rewrite orb_false_r|].
    symmetry. apply Z.bits_above_log2; simpl; lia.
  - destruct (Z.leb_spec i j) as [H'|H'].
    + assert (j = i) as -> by lia. rewrite Z.sub_diag, orb_false_r.
      change ((c :: t) !! Z.to_nat 0) with (Some c). cbv iota beta.
      destruct (freq_reg_info_regd _ _ _ =? 0); [|by rewrite orb_false_r]. rewrite Z.lor_spec, (Z.shiftl_spec 1 i i Hi), Z.sub_diag. done.
    + rewrite !orb_false_r. destruct (_ =? 0); [|done].
      rewrite Z.lor_spec, Z.shiftl_spec by lia. rewrite (Z.testbit_neg_r 1) by lia. by rewrite orb_false_r.
Qed.

Lemma mask_bits regd t w i :
  Forall rule_wf (reg_rules regd) -> t ⊆ ssv6xxx_2ghz_chantable ++ ssv6xxx_5ghz_chantable ->
  0 <= i < w -> Z.of_nat (length t) <= w ->
  Z.testbit (channel_mask regd 0 t 0 mod 2 ^ w) i =
    match t !! Z.to_nat i with Some c => allowed regd c | None => false end.
Proof.
  intros Hwf Ht Hi Hl. rewrite Z.mod_pow2_bits_low by lia. rewrite channel_mask_bits by lia.
  rewrite Z.testbit_0_l. replace (0 <=? i) with true by lia. rewrite Z.sub_0_r. cbn [orb].
  destruct (t !! Z.to_nat i) as [c|] eqn:E; [|done]. apply table_allowed; [done|].
  apply Ht. by apply list_elem_of_lookup_2 in E.
Qed.

(** ** The Country information element *)

Definition spacing (f : Z) : Z := if 14 <? f then 4 else 1.

(** The channels a triplet announces, and those of a sequence of triplets (a
    padding byte may follow). *)
Definition run (f : Z) (n : nat) : list Z := (fun k => f + spacing f * Z.of_nat k) <$> seq 0 n.

Fixpoint triplets (l : list Z) : list Z :=
  match l with
  | f :: n :: _ :: r => run f (Z.to_nat n) ++ triplets r
  | _ => []
  end.

(** The channels a loop selects. *)
Fixpoint selected (sel : Z -> ieee80211_channel -> bool) (i : Z) (t : list ieee80211_channel) : list Z :=
  match t with
  | [] => []
  | c :: r => if sel i c then hw_value c :: selected sel (i + 1) r else selected sel (i + 1) r
  end.

Definition enc (ts : list (Z * Z)) : list Z := concat (map (fun '(f, n) => [f; n; 20]) ts).
Definition dec (ts : list (Z * Z)) : list Z := concat (map (fun '(f, n) => run f (Z.to_nat n)) ts).

Lemma triplets_enc ts x : triplets (enc ts ++ x) = dec ts ++ triplets x.
Proof.
  unfold enc, dec. induction ts as [|[f n] ts IH]; [done|]. cbn [map concat app triplets].
  by rewrite IH, app_assoc.
Qed.

(** The run [s .. e] in progress; [s = 0]: none. *)
Definition open_run (sp s e : Z) : Prop :=
  s = 0 \/ (0 < s <= e /\ e < 256 /\ (e - s) mod sp = 0 /\ spacing s = sp).

Definition pending (s e : Z) : list Z :=
  if s =? 0 then [] else run s (Z.to_nat ((e - s) / spacing s + 1)).

Lemma run_snoc f n : run f (S n) = run f n ++ [f + spacing f * Z.of_nat n].
Proof. unfold run. rewrite seq_S, fmap_app. done. Qed.

Lemma add_triplet max_len out sp s e :
  open_run sp s e -> s <> 0 -> Z.of_nat (length out) + 3 <= max_len -> sp = 1 \/ sp = 4 ->
  exists n, hostapd_eid_country_add max_len out sp s e = out ++ enc [(s, n)] /\ dec [(s, n)] = pending s e.
Proof.
  intros [->|(Hs & He & Hm & Hsp)] Hne Hcap H14; [done|]. unfold hostapd_eid_country_add.
  replace (_ <? 3) with false by lia. unfold u8. rewrite !(Z.mod_small _ 256) by (destruct H14; subst sp; lia).
  exists ((e - s) / sp + 1). split; [done|]. unfold dec, pending. cbn [map concat]. rewrite app_nil_r.
  replace (s =? 0) with false by lia. by rewrite Hsp.
Qed.

Lemma pending_extend sp s e :
  open_run sp s e -> s <> 0 -> sp = 1 \/ sp = 4 -> pending s (e + sp) = pending s e ++ [e + sp].
Proof.
  intros [->|(Hs & He & Hm & Hsp)] Hne H14; [done|]. unfold pending. replace (s =? 0) with false by lia.
  rewrite Hsp. replace (Z.to_nat ((e + sp - s) / sp + 1)) with (S (Z.to_nat ((e - s) / sp + 1)))
    by (destruct H14; subst sp; lia).
  rewrite run_snoc. f_equal. f_equal. rewrite Hsp. destruct H14; subst sp; lia.
Qed.

Lemma pending_one f : 0 < f -> pending f f = [f].
Proof.
  intros H. unfold pending. replace (f =? 0) with false by lia. rewrite Z.sub_diag.
  replace (0 / spacing f) with 0 by (unfold spacing; destruct (14 <? f); done).
  change (run f (Z.to_nat (0 + 1))) with [f + spacing f * 0]. f_equal. lia.
Qed.

(** A loop writes triplets for the runs it completes and keeps the last run. *)
Lemma country_loop_ok max_len sp sel t : sp = 1 \/ sp = 4 -> forall i out s e,
  open_run sp s e ->
  Forall (fun h => 0 < h < 256 /\ spacing h = sp) (selected sel i t) ->
  Z.of_nat (length out) + 3 * Z.of_nat (length (selected sel i t)) <= max_len ->
  exists ts s' e', country_loop max_len sp sel i t out s e = (out ++ enc ts, s', e') /\
    dec ts ++ pending s' e' = pending s e ++ selected sel i t /\ open_run sp s' e' /\
    (length ts <= length (selected sel i t))%nat /\
    (s <> 0 \/ selected sel i t <> [] -> s' <> 0) /\
    (s = 0 -> (length ts <= pred (length (selected sel i t)))%nat).
Proof.
  intros H14. induction t as [|c t IH]; intros i out s e Hr Hsel Hcap; cbn [country_loop selected] in *.
  - exists [], s, e. rewrite !app_nil_r. split_and!; [done|done|done|simpl; lia| |simpl; lia]. by intros [?|?].
  - destruct (sel i c) eqn:Es.
    2: { cbn [fst snd]. by apply IH. }
    apply list.Forall_cons_1 in Hsel as [[Hh Hsp] Hsel]. cbn [length] in Hcap.
    assert (Hnew : open_run sp (hw_value c) (hw_value c))
      by (right; split_and!; [lia|lia|lia|by rewrite Z.sub_diag; destruct H14; subst sp|done]).
    destruct (Z.eqb_spec s 0) as [->|Hs]; cbn [negb].
    + destruct (IH (i + 1) out _ _ Hnew Hsel) as (ts & s' & e' & E & Hd & Hr' & Hl & Hnz & Hz); [lia|].
      exists ts, s', e'. split_and!; [done| |done|simpl; lia| |simpl; lia].
      * rewrite Hd, pending_one by lia. done.
      * intros _. apply Hnz. left. lia.
    + destruct (Z.eqb_spec (e + sp) (hw_value c)) as [Ee|Ee].
      * assert (Hext : open_run sp s (hw_value c)).
        { destruct Hr as [->|(? & ? & Hm & ?)]; [done|]. right. split_and!; [lia..| |done].
          rewrite <-Ee. destruct H14; subst sp; lia. }
        destruct (IH (i + 1) out _ _ Hext Hsel) as (ts & s' & e' & E & Hd & Hr' & Hl & Hnz & Hz); [lia|].
        exists ts, s', e'. split_and!; [done| |done|simpl; lia| |done].
        -- rewrite Hd, <-Ee, (pending_extend sp) by done. by rewrite <-app_assoc.
        -- intros _. apply Hnz. by left.
      * destruct (add_triplet max_len out sp s e Hr Hs) as (n & Ea & Hdn); [lia|done|]. rewrite Ea.
        destruct (IH (i + 1) (out ++ enc [(s, n)]) _ _ Hnew Hsel) as (ts & s' & e' & E & Hd & Hr' & Hl & Hnz & Hz).
        { rewrite length_app. simpl length. lia. }
        exists ((s, n) :: ts), s', e'. split_and!; [|  |done|simpl; lia| |done].
        -- rewrite E. f_equal. f_equal. rewrite <-app_assoc. done.
        -- change (dec ((s, n) :: ts)) with (run s (Z.to_nat n) ++ dec ts).
           unfold dec in Hdn. cbn [map concat] in Hdn. rewrite app_nil_r in Hdn. rewrite Hdn, <-app_assoc, Hd.
           rewrite pending_one by lia. done.
        -- intros _. apply Hnz. left. lia.
Qed.

Lemma enc_length ts : length (enc ts) = (3 * length ts)%nat.
Proof.
  unfold enc. induction ts as [|[f n] ts IH]; [done|]. cbn [map concat]. rewrite length_app, IH. simpl. lia.
Qed.

(** A loop and the triplet for its last run. *)
Lemma band_part max_len sp sel t out :
  sp = 1 \/ sp = 4 -> Forall (fun h => 0 < h < 256 /\ spacing h = sp) (selected sel 0 t) ->
  selected sel 0 t <> [] ->
  Z.of_nat (length out) + 3 * Z.of_nat (length (selected sel 0 t)) <= max_len ->
  exists ts, (let '(out', s, e) := country_loop max_len sp sel 0 t out 0 0 in
              hostapd_eid_country_add max_len out' sp s e) = out ++ enc ts /\
    dec ts = selected sel 0 t /\ (length ts <= length (selected sel 0 t))%nat.
Proof.
  intros Hsp Hok Hne Hcap.
  destruct (country_loop_ok max_len sp sel t Hsp 0 out 0 0 (or_introl eq_refl) Hok)
    as (ts & s & e & E & Hd & Hr & _ & Hnz & Hlen); [done|].
  specialize (Hnz (or_intror Hne)). specialize (Hlen eq_refl).
  assert (0 < length (selected sel 0 t))%nat by (destruct (selected sel 0 t); simpl; [done|lia]).
  destruct (add_triplet max_len (out ++ enc ts) sp s e Hr Hnz) as (n & Ea & Hdn);
    [rewrite length_app, enc_length; lia|done|].
  rewrite E, Ea. exists (ts ++ [(s, n)]). split_and!.
  - unfold enc. by rewrite map_app, concat_app, app_assoc.
  - unfold dec in *. rewrite map_app, concat_app, Hdn. exact Hd.
  - rewrite length_app. simpl. lia.
Qed.

Lemma selected_in sel t : forall i h, h ∈ selected sel i t ->
  exists k c, t !! k = Some c /\ sel (i + Z.of_nat k) c = true /\ h = hw_value c.
Proof.
  induction t as [|c t IH]; intros i h Hh; cbn [selected] in Hh; [by apply elem_of_nil in Hh|].
  assert (Hrec : h ∈ selected sel (i + 1) t ->
    exists k c', (c :: t) !! k = Some c' /\ sel (i + Z.of_nat k) c' = true /\ h = hw_value c').
  { intros (k & c' & Hk & Hs & E)%IH. exists (S k), c'. split_and!; [done| |done].
    replace (i + Z.of_nat (S k)) with (i + 1 + Z.of_nat k) by lia. done. }
  destruct (sel i c) eqn:E; [|by apply Hrec]. apply elem_of_cons in Hh as [->|Hh]; [|by apply Hrec].
  exists 0%nat, c. by rewrite Z.add_0_r.
Qed.

(** The channels selected for the two parts of the element. *)
Definition channels_2g (g : reg_state) : list Z :=
  selected (fun i _ => Z.testbit (available_2g_channel_mask g) i) 0 ssv6xxx_2ghz_chantable.
Definition channels_5g (g : reg_state) (ap_no_dfs : bool) (reg : ieee80211_regdomain) : list Z :=
  selected (fun i c => Z.testbit (available_5g_channel_mask g) i
                       && negb (ap_no_dfs && freq_need_dfs (center_freq c) BW reg)) 0 ssv6xxx_5ghz_chantable.

Definition hw_ok (sp : Z) (c : ieee80211_channel) : bool :=
  (0 <? hw_value c) && (hw_value c <? 256) && (spacing (hw_value c) =? sp).

Lemma hw_ok_spec sp c : hw_ok sp c = true -> 0 < hw_value c < 256 /\ spacing (hw_value c) = sp.
Proof. unfold hw_ok. intros H. bool_to_prop. lia. Qed.

Lemma table_2g_ok k c :
  ssv6xxx_2ghz_chantable !! k = Some c -> k = 0%nat \/ k = 15%nat \/ hw_ok 1 c = true.
Proof.
  assert (H : Forall (fun p : nat * ieee80211_channel => 
    bool_decide (p.1 = 0%nat \/ p.1 = 15%nat) || hw_ok 1 p.2 = true) (imap pair ssv6xxx_2ghz_chantable)).
  { apply List.Forall_forall, List.forallb_forall. vm_compute. reflexivity. }
  intros Hk. assert (Hi : imap pair ssv6xxx_2ghz_chantable !! k = Some (k, c))
    by (rewrite list_lookup_imap, Hk; reflexivity).
  pose proof (Forall_lookup_1 _ _ _ _ H Hi) as Hp. cbn [fst snd] in Hp.
  apply orb_true_iff in Hp as [Hp|Hp]; [apply bool_decide_eq_true in Hp; tauto|tauto].
Qed.

Lemma channels_2g_ok g :
  Z.testbit (available_2g_channel_mask g) 0 = false -> Z.testbit (available_2g_channel_mask g) 15 = false ->
  Forall (fun h => 0 < h < 256 /\ spacing h = 1) (channels_2g g).
Proof.
  intros H0 H15. unfold channels_2g. apply list.Forall_forall. intros h (k & c & Hk & Hs & ->)%selected_in.
  rewrite Z.add_0_l in Hs. apply hw_ok_spec.
  destruct (table_2g_ok k c Hk) as [->|[->|Hok]]; [| |done]; exfalso;
    [change (Z.of_nat 0) with 0 in Hs|change (Z.of_nat 15) with 15 in Hs]; congruence.
Qed.

Lemma channels_5g_ok g nd reg : Forall (fun h => 0 < h < 256 /\ spacing h = 4) (channels_5g g nd reg).
Proof.
  unfold channels_5g. apply list.Forall_forall. intros h (k & c & Hk & _ & ->)%selected_in. apply hw_ok_spec.
  assert (Hall : Forall (fun c => hw_ok 4 c = true) ssv6xxx_5ghz_chantable).
  { apply List.Forall_forall, List.forallb_forall. vm_compute. reflexivity. }
  exact (Forall_lookup_1 _ _ _ _ Hall Hk).
Qed.

(** ** Properties *)

(** C33: the three decisions of [Regulatory.c] are exact: with rules above 2 GHz
    and at most 4 GHz wide, and a channel that does not reach below 0 or above
    the range of 32 bits in kHz, a channel is allowed exactly when some rule
    contains it, needs DFS exactly when such a rule requires it, and may be used
    with 40 MHz exactly when a rule that contains its 20 MHz allows 40 MHz.  The
    sticky band test and the unsigned arithmetic change nothing. *)
Theorem reg_decisions_exact (c bw : Z) (regd : ieee80211_regdomain) :
  Forall rule_wf (reg_rules regd) -> 0 <= bw -> 500 * bw <= 1000 * c -> 10 <= c ->
  1000 * c + 1000 * bw < 4294967296 -> 1000 * c + 20000 < 4294967296 ->
  (freq_reg_info_regd c bw regd = 0 <-> Exists (fun rr => rule_contains c bw rr = true) (reg_rules regd)) /\
  (freq_need_dfs c bw regd = true <-> Exists (fun rr => rule_contains c bw rr = true /\
     Z.land (rule_flags rr) NL80211_RRF_DFS <> 0) (reg_rules regd)) /\
  (freq_40MHZ_legal c regd = true <-> Exists (fun rr => rule_contains c 20 rr = true /\
     40000 <= max_bandwidth_khz (freq_range rr)) (reg_rules regd)).
Proof.
  intros Hwf Hb Hc Hc2 Hm Hm2.
  assert (Hex : forall P : ieee80211_reg_rule -> bool, existsb P (reg_rules regd) = true <->
    Exists (fun rr => P rr = true) (reg_rules regd)).
  { intros P. clear. induction (reg_rules regd) as [|r l IH]; simpl.
    - split; [done|]. intros H. by apply Exists_nil in H.
    - rewrite orb_true_iff, IH, Exists_cons. done. }
  unfold freq_reg_info_regd, freq_need_dfs, freq_40MHZ_legal. rewrite !scan_exact by (done || lia).
  split_and!.
  - rewrite <-Hex. replace (existsb _ (reg_rules regd)) with (existsb (rule_contains c bw) (reg_rules regd)).
    + by destruct (existsb _ _).
    + clear. induction (reg_rules regd) as [|r l IH]; [done|]. simpl. by rewrite IH, andb_true_r.
  - rewrite Hex. apply Exists_proper; [|done]. intros rr. rewrite andb_true_iff, negb_true_iff, Z.eqb_neq. done.
  - rewrite Hex. apply Exists_proper; [|done]. intros rr. rewrite andb_true_iff, Z.leb_le. done.
Qed.

(** The domain "00". *)
Definition world : ieee80211_regdomain := nth 0 regdom (mk_regdomain (0, 0) []).

Lemma reg_decisions_exact_witness :
  (freq_reg_info_regd 2467 20 world = 0 <-> Exists (fun rr => rule_contains 2467 20 rr = true) (reg_rules world)) /\
  (freq_need_dfs 2467 20 world = true <-> Exists (fun rr => rule_contains 2467 20 rr = true /\
     Z.land (rule_flags rr) NL80211_RRF_DFS <> 0) (reg_rules world)) /\
  (freq_40MHZ_legal 2467 world = true <-> Exists (fun rr => rule_contains 2467 20 rr = true /\
     40000 <= max_bandwidth_khz (freq_range rr)) (reg_rules world)).
Proof.
  apply (reg_decisions_exact 2467 20 world); [|lia..].
  apply (get_regdomain_wf (48, 48)). reflexivity.
Defined.

(** setting a known country makes available exactly the channels of the
    tables whose 20 MHz lie in a rule of its domain (5 GHz channels only when the
    chip supports the band); the cleared entries of the 2.4 GHz table are never
    made available.  An unknown country is refused and changes nothing. *)
Theorem set_reg_available (support_5g : bool) (g : reg_state) (reg : Z * Z) :
  match _ssv6xxx_wifi_get_regdomain reg with
  | None => ssv6xxx_wifi_set_reg support_5g g reg = (g, -1)
  | Some d =>
      exists g', ssv6xxx_wifi_set_reg support_5g g reg = (g', 0) /\ g_alpha2 g' = reg /\
        (forall i, 0 <= i < 16 -> Z.testbit (available_2g_channel_mask g') i =
           match ssv6xxx_2ghz_chantable !! Z.to_nat i with Some c => allowed d c | None => false end) /\
        (forall i, 0 <= i < 32 -> Z.testbit (available_5g_channel_mask g') i =
           support_5g &&
           match ssv6xxx_5ghz_chantable !! Z.to_nat i with Some c => allowed d c | None => false end)
  end.
Proof.
  unfold ssv6xxx_wifi_set_reg, ssv6xxx_wifi_update_available_channel. cbn [g_alpha2].
  destruct (_ssv6xxx_wifi_get_regdomain reg) as [d|] eqn:Ed; [|done].
  pose proof (get_regdomain_wf _ _ Ed) as Hwf. eexists. split; [done|].
  cbn [fst g_alpha2 available_2g_channel_mask available_5g_channel_mask]. split_and!; [done|..].
  - intros i Hi. apply (mask_bits d ssv6xxx_2ghz_chantable 16); [done|intros x; rewrite elem_of_app; tauto|done|done].
  - intros i Hi. destruct support_5g; [|by rewrite Z.testbit_0_l].
    apply (mask_bits d ssv6xxx_5ghz_chantable 32); [done|intros x; rewrite elem_of_app; tauto|done|done].
Qed.

#[local] Opaque ssv6xxx_2ghz_chantable ssv6xxx_5ghz_chantable freq_need_dfs regdom.

(** the Country element lists exactly the channels of the masks: with 5 GHz
    support, at least one channel in each band and room for a triplet per
    channel, expanding the triplets gives the 2.4 GHz channels followed by the
    5 GHz channels (without those that need DFS when the access point does not
    support it), in order; the second byte is the length of what follows. *)
Theorem country_ie_lists_channels (g : reg_state) (reg : ieee80211_regdomain) (ap_no_dfs : bool) (max_len : Z) :
  _ssv6xxx_wifi_get_regdomain (g_alpha2 g) = Some reg ->
  Z.testbit (available_2g_channel_mask g) 0 = false -> Z.testbit (available_2g_channel_mask g) 15 = false ->
  channels_2g g <> [] -> channels_5g g ap_no_dfs reg <> [] ->
  5 + 3 * Z.of_nat (length (channels_2g g) + length (channels_5g g ap_no_dfs reg)) <= max_len ->
  let ie := hostapd_eid_country g true ap_no_dfs max_len in
  triplets (drop 5 ie) = channels_2g g ++ channels_5g g ap_no_dfs reg /\
  ie !! 1%nat = Some (u8 (Z.of_nat (length ie) - 2)).
Proof.
  intros Hreg H0 H15 Hne2 Hne5 Hmax. cbv zeta.
  pose proof (channels_2g_ok g H0 H15) as Hok2. pose proof (channels_5g_ok g ap_no_dfs reg) as Hok5.
  assert (Hpos : (0 < length (channels_2g g))%nat) by (destruct (channels_2g g); [congruence|apply Nat.lt_0_succ]).
  unfold channels_2g, channels_5g, hostapd_eid_country in *. rewrite Hreg.
  replace (max_len <? 6) with false by lia.
  set (hdr := [WLAN_EID_COUNTRY; 0; (alpha2 reg).1; (alpha2 reg).2; 0]).
  assert (Hhdr : length hdr = 5%nat) by reflexivity.
  destruct (band_part max_len 1 _ _ hdr (or_introl eq_refl) Hok2 Hne2) as (ts2 & E2 & Hd2 & Hl2); [lia|].
  destruct (country_loop max_len 1 _ 0 ssv6xxx_2ghz_chantable hdr 0 0) as [[o2 s2] e2]. rewrite E2.
  destruct (band_part max_len 4 _ _ (hdr ++ enc ts2) (or_intror eq_refl) Hok5 Hne5) as (ts5 & E5 & Hd5 & _);
    [rewrite length_app, enc_length; lia|].
  destruct (country_loop max_len 4 _ 0 ssv6xxx_5ghz_chantable (hdr ++ enc ts2) 0 0) as [[o5 s5] e5].
  rewrite E5. set (pad := if Z.testbit (Z.of_nat _) 0 then _ else _).
  assert (Hpad : exists z, pad = hdr ++ enc ts2 ++ enc ts5 ++ z /\ triplets z = []).
  { unfold pad. destruct (Z.testbit (Z.of_nat _) 0).
    - exists [0]. split; [rewrite <-!app_assoc; reflexivity|reflexivity].
    - exists []. split; [rewrite app_nil_r, <-app_assoc; reflexivity|reflexivity]. }
  destruct Hpad as (z & -> & Hz). split.
  - change (drop 5 (<[1%nat:=_]> (hdr ++ enc ts2 ++ enc ts5 ++ z))) with (enc ts2 ++ enc ts5 ++ z).
    rewrite !triplets_enc, Hz, app_nil_r, Hd2, Hd5. reflexivity.
  - rewrite length_insert. reflexivity.
Qed.

#[local] Transparent ssv6xxx_2ghz_chantable ssv6xxx_5ghz_chantable freq_need_dfs regdom.

Lemma country_ie_lists_channels_witness :
  let g := (ssv6xxx_wifi_set_reg true (mk_reg_state (48, 48) 0 0) (67, 78)).1 in
  triplets (drop 5 (hostapd_eid_country g true true 100)) =
    [1; 2; 3; 4; 5; 6; 7; 8; 9; 10; 11; 12; 13; 36; 40; 44; 48; 149; 153; 157; 161; 165] /\
  hostapd_eid_country g true true 100 !! 1%nat = Some (u8 (Z.of_nat (length (hostapd_eid_country g true true 100)) - 2)).
Proof.
  set (g := (ssv6xxx_wifi_set_reg true (mk_reg_state (48, 48) 0 0) (67, 78)).1). cbv zeta.
  exact (country_ie_lists_channels g (nth 1 regdom (mk_regdomain (0, 0) [])) true 100
    eq_refl eq_refl eq_refl ltac:(vm_compute; discriminate) ltac:(vm_compute; discriminate)
    ltac:(vm_compute; discriminate)).
Defined.

(** Without 5 GHz support the last 2.4 GHz run is announced twice. *)
Example country_ie_repeats :
  let g := (ssv6xxx_wifi_set_reg false (mk_reg_state (48, 48) 0 0) (67, 78)).1 in
  hostapd_eid_country g false false 100 = [7; 10; 67; 78; 0; 1; 13; 20; 1; 13; 20; 0].
Proof. vm_compute. reflexivity. Qed.

(** Every channel of the tables is found at its own bit (entry 0 of the 2.4 GHz
    table, with channel number 0, at bit 0). *)
Example channel_bits :
  forallb (fun ch => ssv6xxx_wifi_ch_bitmask_to_num (IS_5G_BAND ch) (ssv6xxx_wifi_ch_to_bitmask ch) =? ch)
    (map hw_value (ssv6xxx_2ghz_chantable ++ ssv6xxx_5ghz_chantable)) = true.
Proof. vm_compute. reflexivity. Qed.
