(* ===== verification/Pbuf.v ===== *)
(** * Pbuf: the packet buffer pools of [lib/apps/pbuf.c]

    Two pools of buffer descriptors ([NoType_PBUF_Pool], [Rx_PBUF_Pool]).  A
    descriptor gets its memory on first use and keeps it: freeing a buffer only
    queues its descriptor on a free list, and a queued descriptor whose memory is
    too small for the next request is given new memory.

    The operating system's allocator is not part of the sources: it is the class
    [OsMem] of operations with the laws [OsMemLaws] that every allocator has
    (fresh, non-null, as large as asked for, live and of that size until freed).  The free queues are the functional lists
    of descriptor indices that ListQ justifies.  The contents of the buffers are
    not modelled. *)

From stdpp Require Import base list gmap.
From Stdlib Require Import ZArith Lia.
From S2P Require Import Prelude MsgEvt.

(** ** The allocator interface *)

Class OsMem (H : Type) : Type := {
  OS_MemAlloc : H -> Z -> Z * H;
  OS_MemFree : H -> Z -> H;
  live : H -> Z -> Prop;
  (** The bytes of the live block at an address. *)
  room : H -> Z -> Z
}.

Class OsMemLaws (H : Type) `{OsMem H} : Prop := {
  alloc_null : forall h n h', OS_MemAlloc h n = (0, h') -> forall x, live h' x <-> live h x;
  alloc_fresh : forall h n p h', OS_MemAlloc h n = (p, h') -> p <> 0 ->
    ~ live h p /\ forall x, live h' x <-> x = p \/ live h x;
  alloc_room : forall h n p h', OS_MemAlloc h n = (p, h') -> p <> 0 -> n <= room h' p;
  alloc_keeps : forall h n p h', OS_MemAlloc h n = (p, h') ->
    forall x, live h x -> room h' x = room h x;
  free_live : forall h p x, live (OS_MemFree h p) x <-> live h x /\ x <> p;
  free_keeps : forall h p x, live h x -> x <> p -> room (OS_MemFree h p) x = room h x
}.

(** ** Data *)

Definition PBU_OFFSET : Z := 80.
Definition TXPB_RVSD : Z := 3.
Definition TX_PKT_RES_BASE : Z := 16.
Definition MAX_RX_PBUF_NO : nat := 16.

Inductive PBuf_Type_E : Type := NOTYPE_BUF | TX_BUF | RX_BUF.

Definition pbuf_type_code (t : PBuf_Type_E) : Z :=
  match t with NOTYPE_BUF => 0 | TX_BUF => 1 | RX_BUF => 2 end.

Record HW_PBUF_Info : Type := mk_pbuf {
  valid : Z;
  pbuf_id : Z;
  size : Z;
  pbuf_type : Z;
  pa : Z
}.

Definition zero_pbuf : HW_PBUF_Info := mk_pbuf 0 0 0 0 0.

(** One pool with its free queue. *)
Record pool : Type := mk_pool { descs : list HW_PBUF_Info; freeq : list nat }.

Record pbuf_state (H : Type) : Type := mk_pbuf_state {
  notype : pool;
  rx : pool;
  mem : H
}.
Arguments mk_pbuf_state {H}.
Arguments notype {H}.
Arguments rx {H}.
Arguments mem {H}.

Section pbuf.
Context {H : Type} `{OsMemLaws H}.

(** ** Operations *)

(** [s32 PBUF_Init(u32 pbuf_no)]: [false] is [OS_FAILED]. *)
Definition PBUF_Init (h : H) (pbuf_no : nat) : bool * option (pbuf_state H) :=
  let '(p1, h1) := OS_MemAlloc h (24 * Z.of_nat pbuf_no) in
  if p1 =? 0 then (false, None)
  else
    let '(p2, h2) := OS_MemAlloc h1 (24 * Z.of_nat MAX_RX_PBUF_NO) in
    if p2 =? 0 then (false, None)
    else (true, Some (mk_pbuf_state (mk_pool (replicate pbuf_no zero_pbuf) [])
                        (mk_pool (replicate MAX_RX_PBUF_NO zero_pbuf) []) h2)).

(** [PKT_Info *__get_pbuf_from_freeQ(u32 size, struct ssv_list_q *fqd, PBuf_Type_E buf_type)] *)
Definition __get_pbuf_from_freeQ (pl : pool) (h : H) (sz : Z) (ty : PBuf_Type_E)
  : outcome (Z * pool * H) :=
  match freeq pl with
  | [] => Fault
  | i :: q =>
      match descs pl !! i with
      | None => Fault
      | Some e =>
          if size e <? sz then
            let h1 := OS_MemFree h (pa e) in
            let '(p, h2) := OS_MemAlloc h1 sz in
            if p =? 0 then Halt
            else Ret (p, mk_pool (<[i := mk_pbuf 1 (pbuf_id e) (u16 sz) (pbuf_type_code ty) p]>
                                    (descs pl)) q, h2)
          else Ret (pa e, mk_pool (descs pl) q, h)
      end
  end.

(** [for (i = 0; i < max; i++) { if (pool[i].valid == 1) continue; ... break; }] *)
Fixpoint first_unused (l : list HW_PBUF_Info) (i : nat) : option nat :=
  match l with
  | [] => None
  | e :: r => if valid e =? 1 then first_unused r (S i) else Some i
  end.

(** The two cases of the [switch] of [PBUF_MAlloc_Raw]: only the first asserts
    that the allocation succeeded. *)
Definition pool_malloc (pl : pool) (h : H) (sz : Z) (ty : PBuf_Type_E) (assert_mem : bool)
  : outcome (Z * pool * H) :=
  if Nat.eqb (length (freeq pl)) 0 then
    match first_unused (descs pl) 0 with
    | None => Ret (0, pl, h)
    | Some i =>
        let '(p, h1) := OS_MemAlloc h sz in
        if p =? 0 then (if assert_mem then Halt else Ret (0, pl, h1))
        else Ret (p, mk_pool (<[i := mk_pbuf 1 (u16 (Z.of_nat i)) (u16 sz) (pbuf_type_code ty) p]>
                                (descs pl)) (freeq pl), h1)
    end
  else __get_pbuf_from_freeQ pl h sz ty.

(** [void *PBUF_MAlloc_Raw(u32 size, u32 need_header, PBuf_Type_E buf_type)] *)
Definition PBUF_MAlloc_Raw (st : pbuf_state H) (sz : Z) (need_header : bool) (ty : PBuf_Type_E)
  : outcome (Z * pbuf_state H) :=
  let sz := if need_header then sz +u32 (PBU_OFFSET + TXPB_RVSD * TX_PKT_RES_BASE) else sz in
  match ty with
  | NOTYPE_BUF =>
      match pool_malloc (notype st) (mem st) sz ty true with
      | Ret (p, pl, h) => Ret (p, mk_pbuf_state pl (rx st) h)
      | Halt => Halt
      | Fault => Fault
      end
  | RX_BUF =>
      match pool_malloc (rx st) (mem st) sz ty false with
      | Ret (p, pl, h) => Ret (p, mk_pbuf_state (notype st) pl h)
      | Halt => Halt
      | Fault => Fault
      end
  | TX_BUF => Ret (0, st)
  end.

(** The search loops of [__PBUF_MFree_0]. *)
Fixpoint find_pa (l : list HW_PBUF_Info) (p : Z) (i : nat) : option nat :=
  match l with
  | [] => None
  | e :: r => if (valid e =? 0) || negb (pa e =? p) then find_pa r p (S i) else Some i
  end.

(** [static void __PBUF_MFree_0(void *PKTMSG)] *)
Definition __PBUF_MFree_0 (st : pbuf_state H) (p : Z) : outcome (pbuf_state H) :=
  match find_pa (descs (notype st)) p 0 with
  | Some i =>
      Ret (mk_pbuf_state (mk_pool (descs (notype st)) (freeq (notype st) ++ [i])) (rx st) (mem st))
  | None =>
      match find_pa (descs (rx st)) p 0 with
      | Some i =>
          Ret (mk_pbuf_state (notype st) (mk_pool (descs (rx st)) (freeq (rx st) ++ [i])) (mem st))
      | None => Halt
      end
  end.

(** [void _PBUF_MFree(void *PKTMSG)]: the mutex is the only difference of the
    two branches. *)
Definition _PBUF_MFree (st : pbuf_state H) (p : Z) : outcome (pbuf_state H) := __PBUF_MFree_0 st p.

(** ** Invariant *)

(** [p] is the memory of a descriptor of the pool / of one not on the free queue. *)
Definition owned (pl : pool) (p : Z) : Prop :=
  exists i e, descs pl !! i = Some e /\ valid e = 1 /\ pa e = p.
Definition held (pl : pool) (p : Z) : Prop :=
  exists i e, descs pl !! i = Some e /\ valid e = 1 /\ pa e = p /\ i ∉ freeq pl.

Record pool_wf (pl : pool) (h : H) : Prop := mk_pool_wf {
  pw_nodup : NoDup (freeq pl);
  pw_free : forall i, i ∈ freeq pl -> exists e, descs pl !! i = Some e /\ valid e = 1;
  pw_valid : forall i e, descs pl !! i = Some e -> valid e = 0 \/ valid e = 1;
  pw_live : forall p, owned pl p -> live h p /\ p <> 0;
  pw_room : forall i e, descs pl !! i = Some e -> valid e = 1 -> size e <= room h (pa e);
  pw_inj : forall i j e e', descs pl !! i = Some e -> descs pl !! j = Some e' ->
    valid e = 1 -> valid e' = 1 -> pa e = pa e' -> i = j
}.

(** The buffers handed out: what callers of the module may use. *)
Definition handed_out (st : pbuf_state H) (p : Z) : Prop := held (notype st) p \/ held (rx st) p.

Record pbuf_wf (st : pbuf_state H) : Prop := mk_pbuf_wf {
  bw_notype : pool_wf (notype st) (mem st);
  bw_rx : pool_wf (rx st) (mem st);
  bw_disj : forall p, owned (notype st) p -> owned (rx st) p -> False
}.

Lemma held_owned pl p : held pl p -> owned pl p.
Proof. intros (i & e & ? & ? & ? & ?). by exists i, e. Qed.

Lemma first_unused_spec l : forall k,
  match first_unused l k with
  | Some i => exists j e, i = (k + j)%nat /\ l !! j = Some e /\ valid e <> 1
  | None => forall j e, l !! j = Some e -> valid e = 1
  end.
Proof.
  induction l as [|e l IH]; intros k; cbn; [done|].
  destruct (Z.eqb_spec (valid e) 1) as [Hv|Hv].
  - specialize (IH (S k)). destruct (first_unused l (S k)) as [i|].
    + destruct IH as (j & e' & -> & ? & ?). exists (S j), e'. split; [lia|done].
    + intros [|j] e' He'; cbn in He'; [by simplify_eq|]. by apply (IH j).
  - exists 0%nat, e. split; [lia|done].
Qed.

Lemma find_pa_spec l p : forall k,
  match find_pa l p k with
  | Some i => exists j e, i = (k + j)%nat /\ l !! j = Some e /\ valid e <> 0 /\ pa e = p
  | None => forall j e, l !! j = Some e -> valid e <> 0 -> pa e <> p
  end.
Proof.
  induction l as [|e l IH]; intros k; cbn; [done|].
  destruct ((valid e =? 0) || negb (pa e =? p)) eqn:E.
  - specialize (IH (S k)). destruct (find_pa l p (S k)) as [i|].
    + destruct IH as (j & e' & -> & ?). exists (S j), e'. split; [lia|done].
    + intros [|j] e' He'; cbn in He'; [|by apply (IH j)]. simplify_eq. intros Hv Hpa.
      rewrite (proj2 (Z.eqb_neq _ _)), (proj2 (Z.eqb_eq _ _)) in E by done. done.
  - apply orb_false_iff in E as [E1 E2]. bool_to_prop. exists 0%nat, e. split; [lia|done].
Qed.

(** What an allocation from a pool guarantees. *)
Record malloc_ok (pl : pool) (h : H) (sz p : Z) (pl' : pool) (h' : H) : Prop := mk_malloc_ok {
  mo_wf : pool_wf pl' h';
  mo_fresh : ~ held pl p;
  mo_held : forall q, held pl' q <-> q = p \/ held pl q;
  mo_owned : forall q, owned pl' q -> owned pl q \/ ~ live h q;
  mo_frame : forall q, live h q -> ~ owned pl q -> live h' q /\ room h' q = room h q;
  mo_room : sz <= room h' p
}.

(** The descriptor [i], unused or just dequeued, gets the memory [p]. *)
Lemma install_ok pl h sz p h' i e e' q :
  0 <= sz -> pool_wf pl h -> descs pl !! i = Some e ->
  (valid e <> 1 /\ q = freeq pl \/ valid e = 1 /\ freeq pl = i :: q) ->
  valid e' = 1 -> pa e' = p -> size e' = u16 sz -> p <> 0 ->
  (forall x, live h' x <-> x = p \/ live h x /\ ~ (valid e = 1 /\ x = pa e)) ->
  (live h p -> valid e = 1 /\ p = pa e) ->
  sz <= room h' p -> (forall x, live h x -> ~ (valid e = 1 /\ x = pa e) -> room h' x = room h x) ->
  malloc_ok pl h sz p (mk_pool (<[i := e']> (descs pl)) q) h'.
Proof.
  intros Hsz [Wn Wf Wv Wl Wr Wi] He Hq Hv' Hp' Hs' Hp0 Hlive Hfresh Hroom Hkeep.
  pose proof (lookup_lt_Some _ _ _ He) as Hi.
  assert (Hqf : forall j, j ∈ q -> j ∈ freeq pl /\ j <> i).
  { intros j Hj. destruct Hq as [[Hne ->]|[_ Hq]].
    - split; [done|]. intros ->. destruct (Wf i Hj) as (e0 & He0 & ?). simplify_eq.
    - rewrite Hq in Wn |- *. apply NoDup_cons in Wn as [Hn _]. split; [set_solver|].
      intros ->. done. }
  assert (Hpq : forall j ej, j <> i -> descs pl !! j = Some ej -> valid ej = 1 -> pa ej <> p).
  { intros j ej Hj Hej Hvj Hpa. destruct (Wl p) as [Hl _]; [by exists j, ej|].
    destruct (Hfresh Hl) as [Hv ->]. apply Hj. by eapply (Wi j i). }
  assert (Hlk : forall j ej, <[i := e']> (descs pl) !! j = Some ej ->
    (j = i /\ ej = e') \/ (j <> i /\ descs pl !! j = Some ej)).
  { intros j ej. destruct (decide (j = i)) as [->|Hj].
    - rewrite list_lookup_insert_eq by done. intros [= <-]. by left.
    - rewrite list_lookup_insert_ne by done. by right. }
  assert (Hot : forall j, j <> i -> <[i := e']> (descs pl) !! j = descs pl !! j)
    by (intros; by rewrite list_lookup_insert_ne by done).
  assert (Hii : <[i := e']> (descs pl) !! i = Some e') by by apply list_lookup_insert_eq.
  assert (Hothers : forall j, j <> i -> j ∈ freeq pl -> j ∈ q).
  { intros j Hj Hjf. destruct Hq as [[_ ->]|[_ Hq]]; [done|]. rewrite Hq in Hjf. set_solver. }
  split; cbn [descs freeq].
  - split; cbn [descs freeq].
    + destruct Hq as [[_ ->]|[_ Hq]]; [done|]. rewrite Hq in Wn. by apply NoDup_cons in Wn as [_ ?].
    + intros j Hj. destruct (Hqf j Hj) as [Hjf Hji]. rewrite Hot by done. by apply Wf.
    + intros j ej [[-> ->]|[Hj Hej]]%Hlk; [by right|by apply (Wv j)].
    + intros x (j & ej & [[-> ->]|[Hj Hej]]%Hlk & Hvj & <-).
      * rewrite Hp'. rewrite Hlive. by eauto.
      * destruct (Wl (pa ej)) as [Hl Hn]; [by exists j, ej|]. split; [|done].
        apply Hlive. right. split; [done|]. intros [Hv Hpa]. apply Hj. by eapply (Wi j i).
    + intros j ej [[-> ->]|[Hj Hej]]%Hlk Hvj.
      * rewrite Hs', Hp'. unfold u16. pose proof (Z.mod_le sz 65536 Hsz ltac:(lia)). lia.
      * rewrite Hkeep; [by apply (Wr j)|by apply Wl; exists j, ej|].
        intros [Hv Hpa]. apply Hj. by eapply (Wi j i).
    + intros j k ej ek [[-> ->]|[Hj Hej]]%Hlk [[-> ->]|[Hk Hek]]%Hlk Hvj Hvk Hpa; try done.
      * exfalso. apply (Hpq k ek Hk Hek Hvk). congruence.
      * exfalso. apply (Hpq j ej Hj Hej Hvj). congruence.
      * by eapply (Wi j k).
  - intros (j & ej & Hej & Hvj & Hpa & Hnf). destruct (decide (j = i)) as [->|Hj].
    + simplify_eq. destruct Hq as [[? _]|[_ Hq]]; [done|]. rewrite Hq in Hnf. set_solver.
    + by apply (Hpq j ej).
  - intros x. split.
    + intros (j & ej & [[-> ->]|[Hj Hej]]%Hlk & Hvj & <- & Hnf); [by left|].
      right. exists j, ej. split_and!; try done. intros Hjf. by apply Hnf, Hothers.
    + intros [->|(j & ej & Hej & Hvj & Hpa & Hnf)].
      * exists i, e'. split_and!; try done. intros Hiq. by destruct (Hqf i Hiq).
      * destruct (decide (j = i)) as [->|Hj].
        -- simplify_eq. destruct Hq as [[? _]|[_ Hq]]; [done|]. rewrite Hq in Hnf. set_solver.
        -- exists j, ej. cbn [descs freeq]. rewrite Hot by done. split_and!; try done.
           intros Hjq. by destruct (Hqf j Hjq).
  - intros x (j & ej & [[-> ->]|[Hj Hej]]%Hlk & Hvj & <-).
    + rewrite Hp'. destruct (decide (valid e = 1 /\ p = pa e)) as [[Hv Hpe]|Hne].
      * left. exists i, e. by rewrite <-Hpe.
      * right. intros Hl. by apply Hne, Hfresh.
    + left. by exists j, ej.
  - intros x Hl Hno. assert (~ (valid e = 1 /\ x = pa e)) as Hx by (intros [Hv ->]; apply Hno; by exists i, e).
    split; [|by apply Hkeep]. apply Hlive. by right.
  - done.
Qed.

(** Every descriptor is handed out. *)
Definition exhausted (pl : pool) : Prop :=
  freeq pl = [] /\ forall i e, descs pl !! i = Some e -> valid e = 1.

(** A request that gets no buffer: the pool is exhausted, or a new block is
    needed, the allocator has none, and that is not asserted. *)
Definition refused (pl : pool) (h : H) (sz : Z) (am : bool) : Prop :=
  exhausted pl \/ am = false /\ freeq pl = [] /\ fst (OS_MemAlloc h sz) = 0.

Lemma pool_malloc_ok pl h sz ty am :
  0 <= sz -> pool_wf pl h ->
  match pool_malloc pl h sz ty am with
  | Ret (p, pl', h') =>
      (p <> 0 /\ malloc_ok pl h sz p pl' h' /\ ~ refused pl h sz am) \/
      (p = 0 /\ pl' = pl /\ (forall x, live h x -> live h' x /\ room h' x = room h x) /\
       refused pl h sz am)
  | Halt => exists h0, fst (OS_MemAlloc h0 sz) = 0
  | Fault => False
  end.
Proof.
  intros Hsz W. unfold pool_malloc. destruct (Nat.eqb_spec (length (freeq pl)) 0) as [Hl|Hl].
  - apply length_zero_iff_nil in Hl. pose proof (first_unused_spec (descs pl) 0) as Hu.
    destruct (first_unused (descs pl) 0) as [i|].
    + destruct Hu as (j & e & -> & He & Hv). cbn [Nat.add].
      destruct (OS_MemAlloc h sz) as [p h1] eqn:Ea. destruct (Z.eqb_spec p 0) as [->|Hp].
      * destruct am; [exists h; by rewrite Ea|]. right. split_and!; try done.
        -- intros x Hx. split; [by eapply alloc_null|by eapply alloc_keeps].
        -- right. by rewrite Ea.
      * destruct (alloc_fresh _ _ _ _ Ea Hp) as [Hnl Hlive]. left. split; [done|]. split.
        2: { intros [[_ Hx]|(_ & _ & Hx)]; [by apply Hv, (Hx j)|by rewrite Ea in Hx]. }
        eapply install_ok; try done.
        -- left. done.
        -- intros x. rewrite Hlive. naive_solver.
        -- by eapply alloc_room.
        -- intros x Hx _. by eapply alloc_keeps.
    + right. split_and!; try done. by left.
  - assert (~ refused pl h sz am) as Hnr by (intros [[Hx _]|(_ & Hx & _)]; by rewrite Hx in Hl).
    unfold __get_pbuf_from_freeQ. destruct (freeq pl) as [|i q] eqn:Eq; [done|].
    destruct (pw_free _ _ W i) as (e & He & Hv); [rewrite Eq; set_solver|]. rewrite He.
    destruct (Z.ltb_spec (size e) sz) as [Hlt|Hge].
    + destruct (OS_MemAlloc (OS_MemFree h (pa e)) sz) as [p h2] eqn:Ea.
      destruct (Z.eqb_spec p 0) as [->|Hp]; [eexists; by rewrite Ea|].
      destruct (alloc_fresh _ _ _ _ Ea Hp) as [Hnl Hlive]. rewrite free_live in Hnl.
      left. split; [done|]. split; [|done]. eapply install_ok; try done.
      * right. done.
      * intros x. rewrite Hlive, free_live. naive_solver.
      * intros Hlp. split; [done|]. destruct (decide (p = pa e)); [done|]. by destruct Hnl.
      * by eapply alloc_room.
      * intros x Hx Hne. assert (x <> pa e) by (intros ->; by apply Hne).
        rewrite (alloc_keeps _ _ _ _ Ea) by by apply free_live. by apply free_keeps.
    + destruct (pw_live _ _ W (pa e)) as [Hlive Hn0]; [by exists i, e|].
      left. split; [done|]. split; [|done]. replace (descs pl) with (<[i := e]> (descs pl)) by by apply list_insert_id.
      (* the descriptor keeps its memory: the state only loses the queue head *)
      destruct W as [Wn Wf Wv Wl Wr Wi].
      pose proof (proj1 (NoDup_cons _ _) ltac:(by rewrite Eq in Wn)) as [Hiq Hq].
      rewrite list_insert_id by done.
      split; cbn [descs freeq].
      * split; cbn [descs freeq]; try done. intros j Hj. apply Wf. rewrite Eq. set_solver.
      * intros (j & ej & Hej & Hvj & Hpa & Hnf). assert (j = i) as -> by by eapply (Wi j i).
        rewrite Eq in Hnf. set_solver.
      * intros x. split.
        -- intros (j & ej & Hej & Hvj & <- & Hnf). cbn [descs freeq] in *.
           destruct (decide (j = i)) as [->|Hj]; [left; congruence|].
           right. exists j, ej. rewrite Eq. split_and!; try done. set_solver.
        -- intros [->|(j & ej & Hej & Hvj & Hpa & Hnf)].
           ++ by exists i, e.
           ++ exists j, ej. rewrite Eq in Hnf. split_and!; try done. set_solver.
      * intros x Hx. by left.
      * done.
      * pose proof (Wr i e He Hv). lia.
Qed.

Lemma malloc_other_wf pl h sz p pl' h' pl2 :
  malloc_ok pl h sz p pl' h' -> pool_wf pl2 h -> (forall q, owned pl q -> owned pl2 q -> False) ->
  pool_wf pl2 h' /\ forall q, owned pl' q -> owned pl2 q -> False.
Proof.
  intros M [Wn Wf Wv Wl Wr Wi] Hd. split.
  - assert (forall q, owned pl2 q -> live h' q /\ room h' q = room h q) as Hk.
    { intros q Hq. apply (mo_frame _ _ _ _ _ _ M); [by apply Wl|]. intros Ho. by apply (Hd q). }
    split; try done.
    + intros q Hq. split; [by apply Hk|by apply Wl].
    + intros i e He Hv. rewrite (proj2 (Hk (pa e) ltac:(by exists i, e))). by apply (Wr i).
  - intros q Hq Hq2. destruct (mo_owned _ _ _ _ _ _ M q Hq) as [Ho|Hnl]; [by apply (Hd q)|].
    apply Hnl, Wl, Hq2.
Qed.

(** A buffer just allocated from a pool was held in neither pool. *)
Lemma malloc_unheld pl h sz p pl' h' pl2 :
  malloc_ok pl h sz p pl' h' -> pool_wf pl2 h -> (forall q, owned pl q -> owned pl2 q -> False) ->
  held pl p \/ held pl2 p -> False.
Proof.
  intros M W2 Hd [Hh|Hh]; [by apply (mo_fresh _ _ _ _ _ _ M)|].
  destruct (mo_owned _ _ _ _ _ _ M p) as [Ho|Hnl].
  - apply held_owned, (mo_held _ _ _ _ _ _ M). by left.
  - apply (Hd p Ho). by apply held_owned.
  - apply Hnl, (pw_live _ _ W2), held_owned, Hh.
Qed.

Lemma pool_wf_keeps pl h h' :
  (forall x, live h x -> live h' x /\ room h' x = room h x) -> pool_wf pl h -> pool_wf pl h'.
Proof.
  intros Hl [Wn Wf Wv Wl Wr Wi]. split; try done.
  - intros p Hp. destruct (Wl p Hp) as [Hlp ?]. split; [by apply Hl|done].
  - intros i e He Hv. destruct (Wl (pa e)) as [Hlp _]; [by exists i, e|].
    rewrite (proj2 (Hl _ Hlp)). by apply (Wr i).
Qed.

(** The size with the header room of [PBUF_MAlloc]. *)
Definition full_size (sz : Z) (need_header : bool) : Z := if need_header then u32 (sz + 128) else sz.

(** The cases in which [PBUF_MAlloc_Raw] gives [NULL]. *)
Definition malloc_refused (st : pbuf_state H) (sz : Z) (ty : PBuf_Type_E) : Prop :=
  match ty with
  | NOTYPE_BUF => exhausted (notype st)
  | TX_BUF => True
  | RX_BUF => refused (rx st) (mem st) sz false
  end.

(** C31: [PBUF_MAlloc_Raw] never hands out a buffer twice: a non-null result is a
    buffer that no one held, whose block has the bytes of the request and its
    header (the 32-bit sum); exactly it is added to the buffers handed out; and
    the pool invariant is kept.  [NULL] is returned exactly for [TX_BUF], which
    has no pool, when every descriptor of the pool is out, and for [RX_BUF] when
    a block is needed that the allocator of the system does not have; then
    nothing changes hands.  It halts only when the allocator fails. *)
Theorem pbuf_malloc_exclusive st sz nh ty :
  0 <= sz < 4294967296 -> pbuf_wf st ->
  match PBUF_MAlloc_Raw st sz nh ty with
  | Ret (p, st') =>
      pbuf_wf st' /\
      (p <> 0 -> ~ handed_out st p /\ full_size sz nh <= room (mem st') p /\
         (forall q, handed_out st' q <-> q = p \/ handed_out st q)) /\
      (p = 0 <-> malloc_refused st (full_size sz nh) ty) /\
      (p = 0 -> forall q, handed_out st' q <-> handed_out st q)
  | Halt => ty <> TX_BUF /\ exists h, fst (OS_MemAlloc h (full_size sz nh)) = 0
  | Fault => False
  end.
Proof.
  intros Hsz [W1 W2 Wd]. unfold PBUF_MAlloc_Raw.
  change (if nh then _ else sz) with (full_size sz nh).
  assert (Hf : 0 <= full_size sz nh) by (unfold full_size; destruct nh; [apply u32_range|lia]).
  destruct ty; [| by split_and! |].
  - pose proof (pool_malloc_ok _ _ _ NOTYPE_BUF true Hf W1) as M.
    destruct (pool_malloc _ _ _ _ _) as [[[p pl] h]| |]; [|done..].
    destruct M as [(Hp & M & Hnr)|(-> & -> & Hl & Hx)].
    + destruct (malloc_other_wf _ _ _ _ _ _ (rx st) M W2 Wd) as [W2' Wd'].
      split_and!; [by split; [apply M|..]| | |done].
      * intros _. split_and!; [|apply M|].
        -- exact (malloc_unheld _ _ _ _ _ _ (rx st) M W2 Wd).
        -- intros q. unfold handed_out. cbn [notype rx]. rewrite (mo_held _ _ _ _ _ _ M). tauto.
      * split; [done|]. intros Hx. destruct Hnr. by left.
    + split_and!; try done.
      * by split; [eapply pool_wf_keeps..|].
      * split; [|done]. intros _. by destruct Hx as [|[? _]].
  - pose proof (pool_malloc_ok _ _ _ RX_BUF false Hf W2) as M.
    destruct (pool_malloc _ _ _ _ _) as [[[p pl] h]| |]; [|done..].
    destruct M as [(Hp & M & Hnr)|(-> & -> & Hl & Hx)].
    + destruct (malloc_other_wf _ _ _ _ _ _ (notype st) M W1) as [W1' Wd']; [by eauto|].
      split_and!; [by split; [|apply M|]; eauto| | |done].
      * intros _. split_and!; [|apply M|].
        -- intros Ho. apply (malloc_unheld _ _ _ _ _ _ (notype st) M W1 (fun q a b => Wd q b a)).
           unfold handed_out in Ho. tauto.
        -- intros q. unfold handed_out. cbn [notype rx]. rewrite (mo_held _ _ _ _ _ _ M). tauto.
      * by split.
    + split_and!; try done. by split; [eapply pool_wf_keeps..|].
Qed.

(** Queueing the descriptor of a held buffer. *)
Lemma enqueue_ok pl h p :
  pool_wf pl h -> held pl p ->
  exists i, find_pa (descs pl) p 0 = Some i /\
    pool_wf (mk_pool (descs pl) (freeq pl ++ [i])) h /\
    (forall q, held (mk_pool (descs pl) (freeq pl ++ [i])) q <-> held pl q /\ q <> p).
Proof.
  intros [Wn Wf Wv Wl Wr Wi] (j & e & He & Hv & Hpa & Hnf).
  pose proof (find_pa_spec (descs pl) p 0) as Hf. destruct (find_pa (descs pl) p 0) as [i|].
  - destruct Hf as (k & e' & -> & He' & Hv' & Hpa'). cbn [Nat.add].
    assert (k = j) as -> by (eapply (Wi k j); try done; [by destruct (Wv k e')|congruence]).
    exists j. split; [done|]. split.
    + split; cbn [descs freeq]; try done.
      * apply NoDup_app. split_and!; [done|set_solver|apply NoDup_singleton].
      * intros i [Hi|Hi%list_elem_of_singleton]%elem_of_app; [by apply Wf|]. subst i. by exists e.
    + intros q. split.
      * intros (i & ei & Hei & Hvi & <- & Hni). cbn [descs freeq] in *. split.
        -- exists i, ei. split_and!; try done. set_solver.
        -- intros Heq. assert (i = j) as -> by (eapply (Wi i j); try done; congruence). set_solver.
      * intros [(i & ei & Hei & Hvi & <- & Hni) Hne]. exists i, ei. cbn [descs freeq].
        split_and!; try done. rewrite not_elem_of_app, list_elem_of_singleton. split; [done|].
        intros ->. simplify_eq.
  - exfalso. apply (Hf j e He); [by rewrite Hv|done].
Qed.

(** [_PBUF_MFree] of a buffer that was handed out takes exactly that buffer
    back, in the pool it came from, and keeps the pool invariant; it does not halt. *)
Theorem pbuf_free_returns st p :
  pbuf_wf st -> handed_out st p ->
  exists st', _PBUF_MFree st p = Ret st' /\ pbuf_wf st' /\
    (forall q, handed_out st' q <-> handed_out st q /\ q <> p).
Proof.
  intros [W1 W2 Wd] Hout. unfold _PBUF_MFree, __PBUF_MFree_0.
  destruct (find_pa (descs (notype st)) p 0) as [k|] eqn:E1.
  - assert (Hh : held (notype st) p).
    { destruct Hout as [|Hr]; [done|]. exfalso.
      pose proof (find_pa_spec (descs (notype st)) p 0) as Hf. rewrite E1 in Hf.
      destruct Hf as (j & e & _ & He & Hv & Hpa). apply (Wd p); [|by apply held_owned].
      exists j, e. split_and!; try done. by destruct (pw_valid _ _ W1 j e). }
    destruct (enqueue_ok _ _ _ W1 Hh) as (i & Ei & W1' & Hq). simplify_eq.
    eexists. split; [done|]. split; [by split|]. intros q. unfold handed_out. cbn [notype rx].
    rewrite Hq. split; [|tauto]. intros [[? ?]|Hr]; [tauto|]. split; [tauto|]. intros ->.
    apply (Wd p); by apply held_owned.
  - assert (Hh : held (rx st) p).
    { destruct Hout as [Hn|]; [|done]. destruct (enqueue_ok _ _ _ W1 Hn) as (i & Ei & _). congruence. }
    destruct (enqueue_ok _ _ _ W2 Hh) as (i & Ei & W2' & Hq). rewrite Ei.
    eexists. split; [done|]. split; [by split|]. intros q. unfold handed_out. cbn [notype rx].
    rewrite Hq. split; [|tauto]. intros [Hn|[? ?]]; [|tauto]. split; [tauto|]. intros ->.
    apply (Wd p); by apply held_owned.
Qed.

Lemma zero_pool_wf n h : pool_wf (mk_pool (replicate n zero_pbuf) []) h.
Proof.
  assert (Hz : forall i e, replicate n zero_pbuf !! i = Some e -> valid e = 0)
    by (intros i e Hl; by apply lookup_replicate in Hl as [-> _]).
  split; cbn [descs freeq].
  - apply NoDup_nil_2.
  - set_solver.
  - intros i e Hl. left. by apply (Hz i).
  - intros p (i & e & Hl & Hv & _). cbn [descs] in Hl. rewrite (Hz i e Hl) in Hv. done.
  - intros i e Hl Hv. rewrite (Hz i e Hl) in Hv. done.
  - intros i j e e' Hl _ Hv. rewrite (Hz i e Hl) in Hv. done.
Qed.

Lemma PBUF_Init_wf h n st : snd (PBUF_Init h n) = Some st -> pbuf_wf st /\ forall p, ~ handed_out st p.
Proof.
  unfold PBUF_Init. destruct (OS_MemAlloc h _) as [p1 h1]. destruct (p1 =? 0); [done|].
  destruct (OS_MemAlloc h1 _) as [p2 h2]. destruct (p2 =? 0); [done|]. intros [= <-].
  assert (Hno : forall k p, ~ owned (mk_pool (replicate k zero_pbuf) []) p).
  { intros k p (i & e & Hl & Hv & _). cbn in Hl. by apply lookup_replicate in Hl as [-> _]. }
  split.
  - split; [apply zero_pool_wf|apply (zero_pool_wf MAX_RX_PBUF_NO)|]. intros p Hp. by apply Hno in Hp.
  - intros p [Hp%held_owned|Hp%held_owned]; [by apply Hno in Hp|].
    by apply (Hno MAX_RX_PBUF_NO) in Hp.
Qed.

End pbuf.

(** ** A concrete allocator: addresses are never reused *)

Record bump : Type := mk_bump { next_addr : Z; blocks : gmap Z Z }.

Definition bump_addr (h : bump) : Z := Z.pos (Z.to_pos (next_addr h)).

#[export] Instance bump_mem : OsMem bump := {
  OS_MemAlloc h n := (bump_addr h, mk_bump (bump_addr h + 1) (<[bump_addr h := n]> (blocks h)));
  OS_MemFree h p := mk_bump (next_addr h) (delete p (blocks h));
  live h p := is_Some (blocks h !! p) /\ p < bump_addr h;
  room h p := default 0 (blocks h !! p)
}.

#[export] Instance bump_laws : OsMemLaws bump.
Proof.
  assert (Ha : forall h b, bump_addr (mk_bump (bump_addr h + 1) b) = bump_addr h + 1)
    by (intros; unfold bump_addr at 1; cbn [next_addr]; unfold bump_addr; lia).
  split; unfold OS_MemAlloc, OS_MemFree, live, room, bump_mem; cbn [blocks].
  - intros h n h' [=].
  - intros h n p h' [= <- <-] _. cbn [blocks]. split; [intros [_ Hl]; lia|]. intros x. rewrite Ha.
    destruct (decide (x = bump_addr h)) as [->|Hne].
    + rewrite lookup_insert_eq. split; [by left|]. intros _. split; [by eexists|lia].
    + rewrite lookup_insert_ne by done. intuition lia.
  - intros h n p h' [= <- <-] _. cbn [blocks]. by rewrite lookup_insert_eq.
  - intros h n p h' [= <- <-] x [_ Hx]. cbn [blocks]. by rewrite lookup_insert_ne by lia.
  - intros h p x. unfold bump_addr. cbn [next_addr]. rewrite lookup_delete_is_Some. naive_solver.
  - intros h p x _ Hne. by rewrite lookup_delete_ne.
Qed.

Definition pbuf_demo : pbuf_state bump :=
  mk_pbuf_state (mk_pool (replicate 4 zero_pbuf) []) (mk_pool (replicate MAX_RX_PBUF_NO zero_pbuf) [])
    (mk_bump 100 ∅).

Lemma pbuf_demo_wf : pbuf_wf pbuf_demo.
Proof.
  split; [apply zero_pool_wf..|].
  intros p (i & e & Hl & Hv & _). cbn [notype pbuf_demo descs] in Hl.
  by apply lookup_replicate in Hl as [-> _].
Qed.

Lemma pbuf_malloc_exclusive_witness :
  exists st', PBUF_MAlloc_Raw pbuf_demo 1500 true RX_BUF = Ret (100, st') /\ pbuf_wf st' /\
    ~ handed_out pbuf_demo 100 /\ 1628 <= room (mem st') 100 /\ forall q, handed_out st' q <-> q = 100 \/ handed_out pbuf_demo q.
Proof.
  pose proof (pbuf_malloc_exclusive pbuf_demo 1500 true RX_BUF ltac:(lia) pbuf_demo_wf) as M.
  destruct (PBUF_MAlloc_Raw pbuf_demo 1500 true RX_BUF) as [[p st']| |] eqn:E; [|by vm_compute in E..].
  assert (p = 100) as -> by (vm_compute in E; congruence).
  exists st'. destruct M as (W & M & _). destruct (M ltac:(lia)) as (M1 & M2 & M3). by split_and!.
Defined.

Lemma pbuf_free_returns_witness :
  exists st' st'', PBUF_MAlloc_Raw pbuf_demo 1500 true RX_BUF = Ret (100, st') /\
    _PBUF_MFree st' 100 = Ret st'' /\ pbuf_wf st''.
Proof.
  pose (st' := mk_pbuf_state (mk_pool (replicate 4 zero_pbuf) [])
    (mk_pool (mk_pbuf 1 0 1628 2 100 :: replicate 15 zero_pbuf) []) (mk_bump 101 {[100 := 1628]})).
  assert (W : pbuf_wf st').
  { pose proof (pool_malloc_ok (mk_pool (replicate 16 zero_pbuf) []) (mk_bump 100 ∅) 1628 RX_BUF
      false ltac:(lia) (zero_pool_wf _ _)) as M.
    destruct M as [(_ & M & _)|[? _]]; [|done].
    split; [apply zero_pool_wf| |].
    - exact (mo_wf _ _ _ _ _ _ M).
    - intros p (i & e & Hl & Hv & _). cbn [notype st' descs] in Hl.
      by apply lookup_replicate in Hl as [-> _]. }
  destruct (pbuf_free_returns st' 100 W) as (st'' & E & W'' & _).
  - right. exists 0%nat, (mk_pbuf 1 0 1628 2 100). cbn. split_and!; try done. set_solver.
  - exists st', st''. split_and!; [by vm_compute|exact E|exact W''].
Defined.
