(* ===== verification/Words.v ===== *)
(** * Words: 32-bit words and their bytes

    Shared by the cryptographic components: bytes and words as integers, the
    bytes of a word, exclusive or, and proofs about one byte by evaluation on all
    256 values. *)

From stdpp Require Import base list.
From Stdlib Require Import ZArith Lia Btauto.
From S2P Require Import Prelude.

Create HintDb words.

(** The word of four bytes, most significant first. *)
Definition word (b3 b2 b1 b0 : Z) : Z :=
  Z.lxor (Z.lxor (Z.lxor (Z.shiftl b3 24) (Z.shiftl b2 16)) (Z.shiftl b1 8)) b0.

(** Byte [k] of a word, [0] the least significant. *)
Definition byte (k i : Z) : Z := Z.land (Z.shiftr i (8 * k)) 255.

(** ** Bytes by evaluation *)

Definition is_byte (b : Z) : Prop := 0 <= b < 256.
Definition bytes256 : list Z := map Z.of_nat (seq 0 256).

Lemma bytes256_all b : is_byte b -> In b bytes256.
Proof.
  intros Hb. unfold bytes256. replace b with (Z.of_nat (Z.to_nat b)) by (unfold is_byte in Hb; lia).
  apply in_map, in_seq. unfold is_byte in Hb. lia.
Qed.

(** A boolean test of a byte that evaluates to true everywhere. *)
Lemma for_byte (P : Z -> bool) : forallb P bytes256 = true -> forall b, is_byte b -> P b = true.
Proof. rewrite forallb_forall. intros H b Hb. by apply H, bytes256_all. Qed.

(** Close an equation in one byte by evaluation. *)
Ltac by_byte b :=
  match goal with
  | |- ?l = ?r =>
      let P := eval pattern b in (l =? r) in
      match P with ?f _ => apply Z.eqb_eq; apply (for_byte f); [vm_compute; reflexivity|done] end
  end.

(** ** Exclusive or *)

Lemma byte_range k w : is_byte (byte k w).
Proof.
  unfold is_byte, byte. change 255 with (Z.ones 8). rewrite Z.land_ones by lia. lia.
Qed.

Lemma byte_lxor k a b : byte k (Z.lxor a b) = Z.lxor (byte k a) (byte k b).
Proof.
  unfold byte. rewrite Z.shiftr_lxor. apply Z.bits_inj'. intros n _.
  rewrite !Z.land_spec, !Z.lxor_spec, !Z.land_spec. btauto.
Qed.

Lemma u32_lxor a b : u32 (Z.lxor a b) = Z.lxor (u32 a) (u32 b).
Proof.
  unfold u32. change 4294967296 with (2 ^ 32). rewrite <-!Z.land_ones by lia.
  apply Z.bits_inj'. intros n _. rewrite !Z.land_spec, !Z.lxor_spec, !Z.land_spec. btauto.
Qed.

Definition is_u32 (w : Z) : Prop := 0 <= w < 4294967296.

Lemma lxor_u32 a b : is_u32 a -> is_u32 b -> is_u32 (Z.lxor a b).
Proof.
  intros Ha Hb. unfold is_u32 in *. rewrite <-(u32_small a), <-(u32_small b) by done.
  rewrite <-u32_lxor. apply u32_range.
Qed.

#[export] Hint Resolve byte_range lxor_u32 : words.

(** Equations that only reorder exclusive ors. *)
Ltac xor_ac := apply Z.bits_inj'; intros ? _; rewrite !Z.lxor_spec; btauto.

Lemma lxor_cancel a b : Z.lxor (Z.lxor a b) b = a.
Proof. xor_ac. Qed.

(** ** Words and their bytes *)

Lemma byte_shiftl j k b : is_byte b -> In j [0; 1; 2; 3] -> In k [0; 1; 2; 3] ->
  byte k (Z.shiftl b (8 * j)) = if k =? j then b else 0.
Proof.
  intros Hb Hj Hk. cbn in Hj, Hk.
  destruct Hj as [<-|[<-|[<-|[<-|[]]]]], Hk as [<-|[<-|[<-|[<-|[]]]]]; by_byte b.
Qed.

Lemma byte_word k b3 b2 b1 b0 :
  is_byte b3 -> is_byte b2 -> is_byte b1 -> is_byte b0 -> In k [0; 1; 2; 3] ->
  byte k (word b3 b2 b1 b0) =
    if k =? 3 then b3 else if k =? 2 then b2 else if k =? 1 then b1 else b0.
Proof.
  intros H3 H2 H1 H0 Hk. unfold word. rewrite !byte_lxor.
  change 24 with (8 * 3). change 16 with (8 * 2). change (Z.shiftl b1 8) with (Z.shiftl b1 (8 * 1)).
  rewrite <-(Z.shiftl_0_r b0) at 1. change 0 with (8 * 0) at 1.
  rewrite !byte_shiftl by (done || (cbn; tauto)). cbn in Hk.
  destruct Hk as [<-|[<-|[<-|[<-|[]]]]]; cbn [Z.eqb Pos.eqb];
    rewrite ?Z.lxor_0_r, ?Z.lxor_0_l; done.
Qed.

Lemma word_u32 b3 b2 b1 b0 :
  is_byte b3 -> is_byte b2 -> is_byte b1 -> is_byte b0 -> is_u32 (word b3 b2 b1 b0).
Proof.
  unfold is_byte, word. intros. repeat apply lxor_u32; unfold is_u32;
    rewrite ?Z.shiftl_mul_pow2 by lia; lia.
Qed.

Lemma testbit_byte k w n : 0 <= k -> 0 <= n ->
  Z.testbit (byte k w) n = Z.testbit w (n + 8 * k) && (n <? 8).
Proof.
  intros Hk Hn. unfold byte. change 255 with (Z.ones 8).
  rewrite Z.land_spec, Z.shiftr_spec by lia. f_equal. rewrite Z.testbit_ones by lia.
  destruct (Z.ltb_spec n 8), (Z.leb_spec 0 n); try done; lia.
Qed.

Lemma word_bytes w : is_u32 w -> word (byte 3 w) (byte 2 w) (byte 1 w) (byte 0 w) = w.
Proof.
  intros Hw. apply Z.bits_inj'. intros n Hn. unfold word.
  rewrite !Z.lxor_spec, !Z.shiftl_spec by lia.
  assert (Hs : forall j k, 0 <= k -> Z.testbit (byte k w) (n - j)
     = if j <=? n then Z.testbit w (n - j + 8 * k) && (n - j <? 8) else false).
  { intros j k Hk. destruct (Z.leb_spec j n); [by rewrite testbit_byte by lia|].
    by rewrite Z.testbit_neg_r by lia. }
  rewrite !Hs by lia. rewrite testbit_byte by lia.
  replace (n - 24 + 8 * 3) with n by lia. replace (n - 16 + 8 * 2) with n by lia.
  replace (n - 8 + 8 * 1) with n by lia. replace (n + 8 * 0) with n by lia.
  assert (Hhi : 32 <= n -> Z.testbit w n = false).
  { intros H32. rewrite <-(Z.mod_small w (2 ^ 32)) by (unfold is_u32 in Hw; lia).
    by apply Z.mod_pow2_bits_high. }
  destruct (Z.leb_spec 24 n), (Z.leb_spec 16 n), (Z.leb_spec 8 n); try lia;
    destruct (Z.ltb_spec (n - 24) 8), (Z.ltb_spec (n - 16) 8), (Z.ltb_spec (n - 8) 8),
      (Z.ltb_spec n 8); try lia; try (rewrite Hhi by lia); by destruct (Z.testbit w n).
Qed.

Lemma byte0_byte b : is_byte b -> byte 0 b = b.
Proof. intros Hb. by_byte b. Qed.

Lemma lxor_byte a b : is_byte a -> is_byte b -> is_byte (Z.lxor a b).
Proof.
  intros Ha Hb. rewrite <-(byte0_byte a), <-(byte0_byte b), <-byte_lxor by done. apply byte_range.
Qed.

Lemma land_u32 w m : 0 <= m < 4294967296 -> is_u32 (Z.land w m).
Proof.
  intros Hm. unfold is_u32. rewrite <-(u32_small m) by done. unfold u32.
  change 4294967296 with (2 ^ 32). rewrite <-Z.land_ones, Z.land_assoc, Z.land_ones by lia. lia.
Qed.
