(* ===== verification/Wire.v ===== *)
(** * Wire: integers in frames

    The macros [WPA_GET_*] and [WPA_PUT_*] of [ap/common/wpa_common.h] (the
    same as [AP_GET_*] and [AP_PUT_*] of [ap/common/ieee802_11_defs.h]) on byte
    lists: reading at an offset is [None] outside the list, putting gives the
    bytes that are written.  The lemmas turn the shifts of the macros into
    arithmetic and show that getting returns what was put. *)

From stdpp Require Import base list option.
From Stdlib Require Import ZArith Lia.
From S2P Require Import Prelude Words.

Definition WPA_GET_BE16 (buf : list Z) (p : nat) : option Z :=
  a0 ← buf !! p; a1 ← buf !! (p + 1)%nat; Some (u16 (Z.lor (Z.shiftl a0 8) a1)).

Definition WPA_GET_LE16 (buf : list Z) (p : nat) : option Z :=
  a0 ← buf !! p; a1 ← buf !! (p + 1)%nat; Some (u16 (Z.lor (Z.shiftl a1 8) a0)).

Definition AP_GET_BE24 (buf : list Z) (p : nat) : option Z :=
  a0 ← buf !! p; a1 ← buf !! (p + 1)%nat; a2 ← buf !! (p + 2)%nat;
  Some (Z.lor (Z.lor (Z.shiftl a0 16) (Z.shiftl a1 8)) a2).

Definition WPA_GET_BE32 (buf : list Z) (p : nat) : option Z :=
  a0 ← buf !! p; a1 ← buf !! (p + 1)%nat; a2 ← buf !! (p + 2)%nat; a3 ← buf !! (p + 3)%nat;
  Some (Z.lor (Z.lor (Z.lor (Z.shiftl a0 24) (Z.shiftl a1 16)) (Z.shiftl a2 8)) a3).

(** The bytes [WPA_PUT_*] stores, in the order of their addresses. *)
Definition WPA_PUT_BE16 (v : Z) : list Z := [Z.shiftr (u16 v) 8; Z.land (u16 v) 255].
Definition WPA_PUT_LE16 (v : Z) : list Z := [Z.land (u16 v) 255; Z.shiftr (u16 v) 8].
Definition WPA_PUT_BE32 (v : Z) : list Z :=
  [Z.land (Z.shiftr (u32 v) 24) 255; Z.land (Z.shiftr (u32 v) 16) 255;
   Z.land (Z.shiftr (u32 v) 8) 255; Z.land (u32 v) 255].

(** ** Shifts as arithmetic *)

Lemma lor_shiftl_add a b n : 0 <= n -> 0 <= b < 2 ^ n -> Z.lor (Z.shiftl a n) b = a * 2 ^ n + b.
Proof.
  intros Hn Hb.
  assert (Z.land (Z.shiftl a n) b = 0) as H0.
  { apply Z.bits_inj'. intros k Hk. rewrite Z.land_spec, Z.bits_0, Z.shiftl_spec by done.
    destruct (Z.lt_ge_cases k n); [by rewrite Z.testbit_neg_r by lia|].
    rewrite <- (Z.mod_small b (2 ^ n)), Z.mod_pow2_bits_high by lia. by rewrite andb_false_r. }
  pose proof (Z.add_lor_land (Z.shiftl a n) b). rewrite Z.shiftl_mul_pow2 in * by done. lia.
Qed.

Lemma be16_val a b : is_byte a -> is_byte b -> u16 (Z.lor (Z.shiftl a 8) b) = 256 * a + b.
Proof. unfold is_byte. intros. rewrite lor_shiftl_add by lia. change (2 ^ 8) with 256. rewrite u16_small; lia. Qed.

Lemma be24_val a b c : is_byte a -> is_byte b -> is_byte c ->
  Z.lor (Z.lor (Z.shiftl a 16) (Z.shiftl b 8)) c = 65536 * a + 256 * b + c.
Proof.
  unfold is_byte. intros. change 16 with (8 + 8).
  rewrite <- Z.shiftl_shiftl, <- Z.shiftl_lor, !lor_shiftl_add by lia. change (2 ^ 8) with 256. lia.
Qed.

Lemma be32_val a b c d : is_byte a -> is_byte b -> is_byte c -> is_byte d ->
  Z.lor (Z.lor (Z.lor (Z.shiftl a 24) (Z.shiftl b 16)) (Z.shiftl c 8)) d
  = 16777216 * a + 65536 * b + 256 * c + d.
Proof.
  intros. replace (Z.shiftl a 24) with (Z.shiftl (Z.shiftl a 16) 8) by (by rewrite Z.shiftl_shiftl).
  replace (Z.shiftl b 16) with (Z.shiftl (Z.shiftl b 8) 8) by (by rewrite Z.shiftl_shiftl).
  rewrite <- !Z.shiftl_lor, be24_val, lor_shiftl_add by (unfold is_byte in *; lia).
  change (2 ^ 8) with 256. lia.
Qed.

Lemma shiftr8 v k : 0 <= k -> Z.shiftr v k = v / 2 ^ k.
Proof. apply Z.shiftr_div_pow2. Qed.

Lemma land255 v : Z.land v 255 = v mod 256.
Proof. exact (Z.land_ones v 8 ltac:(lia)). Qed.

Lemma put_be16_bytes v : Forall is_byte (WPA_PUT_BE16 v).
Proof.
  unfold WPA_PUT_BE16, is_byte. pose proof (u16_range v). rewrite shiftr8, land255 by lia.
  change (2 ^ 8) with 256. repeat constructor; lia.
Qed.

Lemma put_le16_bytes v : Forall is_byte (WPA_PUT_LE16 v).
Proof.
  unfold WPA_PUT_LE16, is_byte. pose proof (u16_range v). rewrite shiftr8, land255 by lia.
  change (2 ^ 8) with 256. repeat constructor; lia.
Qed.

Lemma put_be32_bytes v : Forall is_byte (WPA_PUT_BE32 v).
Proof. unfold WPA_PUT_BE32, is_byte. rewrite !land255. repeat constructor; lia. Qed.

#[export] Hint Resolve put_be16_bytes put_le16_bytes put_be32_bytes : words.

(** ** Getting what was put *)

Lemma lookup_at {A} (pre l : list A) k : (pre ++ l) !! (length pre + k)%nat = l !! k.
Proof. rewrite lookup_app_r by lia. f_equal. lia. Qed.

Lemma lookup_at0 {A} (pre l : list A) : (pre ++ l) !! length pre = l !! 0%nat.
Proof. rewrite lookup_app_r by lia. f_equal. lia. Qed.

Lemma get_put_le16 pre v post :
  WPA_GET_LE16 (pre ++ WPA_PUT_LE16 v ++ post) (length pre) = Some (u16 v).
Proof.
  unfold WPA_GET_LE16, WPA_PUT_LE16. rewrite lookup_at0, lookup_at.
  simpl. rewrite shiftr8, land255 by lia. change (2 ^ 8) with 256. pose proof (u16_range v).
  rewrite be16_val by (unfold is_byte; lia). f_equal. lia.
Qed.

Lemma get_put_be16 pre v post :
  WPA_GET_BE16 (pre ++ WPA_PUT_BE16 v ++ post) (length pre) = Some (u16 v).
Proof.
  unfold WPA_GET_BE16, WPA_PUT_BE16. rewrite lookup_at0, lookup_at.
  simpl. rewrite shiftr8, land255 by lia. change (2 ^ 8) with 256. pose proof (u16_range v).
  rewrite be16_val by (unfold is_byte; lia). f_equal. lia.
Qed.

Lemma get_put_be32 pre v post :
  WPA_GET_BE32 (pre ++ WPA_PUT_BE32 v ++ post) (length pre) = Some (u32 v).
Proof.
  unfold WPA_GET_BE32, WPA_PUT_BE32. rewrite lookup_at0, !lookup_at.
  simpl. rewrite !shiftr8, !land255 by lia. pose proof (u32_range v).
  rewrite be32_val by (unfold is_byte; lia). f_equal.
  change (2 ^ 8) with 256; change (2 ^ 16) with 65536; change (2 ^ 24) with 16777216. lia.
Qed.
