(* ===== verification/Ie80211.v ===== *)
(** * Ie80211: the information element parser of [ap/common/ieee802_11_common.c]

    [ieee802_11_parse_elems] walks over the elements of a management frame and
    keeps, for each kind of element it knows, a pointer to the contents of the
    last one.  The buffer is a byte list, pointers are offsets into it and a
    read outside it is [None]. *)

From stdpp Require Import base list option.
From Stdlib Require Import ZArith Lia.
From S2P Require Import Prelude Words Wire.

(** ** Data *)

Inductive ParseRes := ParseOK | ParseUnknown | ParseFailed.

(** The pointers of [struct ieee802_11_elems]. *)
Inductive ie_field :=
| ssid | supp_rates | fh_params | ds_params | cf_params | tim | ibss_params | challenge
| erp_info | ext_supp_rates | wpa_ie | rsn_ie | wmm | wmm_tspec | wps_ie | power_cap
| supp_channels | mdie | ftie | timeout_int | ht_capabilities | ht_operation
| vendor_ht_cap | p2p | link_id | interworking | ext_capab.

#[export] Instance ie_field_eq_dec : EqDecision ie_field.
Proof. solve_decision. Defined.

(** [struct ieee802_11_elems]: for each pointer [NULL] or the offset it points
    to, with its length field.  [link_id] has no length field: the second
    component is [0] there. *)
Definition ieee802_11_elems : Type := ie_field -> option (nat * nat).

Definition elems_clear : ieee802_11_elems := fun _ => None.

Definition elems_set (e : ieee802_11_elems) (f : ie_field) (pos elen : nat) : ieee802_11_elems :=
  fun g => if decide (g = f) then Some (pos, elen) else e g.

(** [enum ieee80211_eid] *)
Definition WLAN_EID_SSID : Z := 0.
Definition WLAN_EID_SUPP_RATES : Z := 1.
Definition WLAN_EID_FH_PARAMS : Z := 2.
Definition WLAN_EID_DS_PARAMS : Z := 3.
Definition WLAN_EID_CF_PARAMS : Z := 4.
Definition WLAN_EID_TIM : Z := 5.
Definition WLAN_EID_IBSS_PARAMS : Z := 6.
Definition WLAN_EID_CHALLENGE : Z := 16.
Definition WLAN_EID_PWR_CAPABILITY : Z := 33.
Definition WLAN_EID_SUPPORTED_CHANNELS : Z := 36.
Definition WLAN_EID_ERP_INFO : Z := 42.
Definition WLAN_EID_HT_CAPABILITY : Z := 45.
Definition WLAN_EID_RSN : Z := 48.
Definition WLAN_EID_EXT_SUPP_RATES : Z := 50.
Definition WLAN_EID_MOBILITY_DOMAIN : Z := 54.
Definition WLAN_EID_FAST_BSS_TRANSITION : Z := 55.
Definition WLAN_EID_TIMEOUT_INTERVAL : Z := 56.
Definition WLAN_EID_HT_OPERATION : Z := 61.
Definition WLAN_EID_LINK_ID : Z := 101.
Definition WLAN_EID_INTERWORKING : Z := 107.
Definition WLAN_EID_EXT_CAPABILITY : Z := 127.
Definition WLAN_EID_VENDOR_SPECIFIC : Z := 221.

Definition OUI_MICROSOFT : Z := 0x0050f2.
Definition OUI_BROADCOM : Z := 0x00904c.
Definition WMM_OUI_TYPE : Z := 2.
Definition WMM_OUI_SUBTYPE_INFORMATION_ELEMENT : Z := 0.
Definition WMM_OUI_SUBTYPE_PARAMETER_ELEMENT : Z := 1.
Definition WMM_OUI_SUBTYPE_TSPEC_ELEMENT : Z := 2.
Definition VENDOR_HT_CAPAB_OUI_TYPE : Z := 0x33.

(** ** The parser *)

(** [ieee802_11_parse_vendor_specific]: the result of the C function and the
    updated table. *)
Definition ieee802_11_parse_vendor_specific (buf : list Z) (pos elen : nat)
    (elems : ieee802_11_elems) : option (Z * ieee802_11_elems) :=
  if (elen <? 4)%nat then Some (-1, elems)
  else
    oui ← AP_GET_BE24 buf pos;
    if oui =? OUI_MICROSOFT then
      t ← buf !! (pos + 3)%nat;
      if t =? 1 then Some (0, elems_set elems wpa_ie pos elen)
      else if t =? WMM_OUI_TYPE then
        if (elen <? 5)%nat then Some (-1, elems)
        else
          s ← buf !! (pos + 4)%nat;
          if (s =? WMM_OUI_SUBTYPE_INFORMATION_ELEMENT) || (s =? WMM_OUI_SUBTYPE_PARAMETER_ELEMENT)
          then Some (0, elems_set elems wmm pos elen)
          else if s =? WMM_OUI_SUBTYPE_TSPEC_ELEMENT
          then Some (0, elems_set elems wmm_tspec pos elen)
          else Some (-1, elems)
      else if t =? 4 then Some (0, elems_set elems wps_ie pos elen)
      else Some (-1, elems)
    else if oui =? OUI_BROADCOM then
      t ← buf !! (pos + 3)%nat;
      if t =? VENDOR_HT_CAPAB_OUI_TYPE then Some (0, elems_set elems vendor_ht_cap pos elen)
      else Some (-1, elems)
    else Some (-1, elems).

(** The [switch (id)] of [ieee802_11_parse_elems]: whether [unknown] is
    incremented, and the updated table. *)
Definition parse_elem (buf : list Z) (id : Z) (pos elen : nat) (elems : ieee802_11_elems) :
  option (bool * ieee802_11_elems) :=
  let keep f := Some (false, elems_set elems f pos elen) in
  if id =? WLAN_EID_SSID then keep ssid
  else if id =? WLAN_EID_SUPP_RATES then keep supp_rates
  else if id =? WLAN_EID_FH_PARAMS then keep fh_params
  else if id =? WLAN_EID_DS_PARAMS then keep ds_params
  else if id =? WLAN_EID_CF_PARAMS then keep cf_params
  else if id =? WLAN_EID_TIM then keep tim
  else if id =? WLAN_EID_IBSS_PARAMS then keep ibss_params
  else if id =? WLAN_EID_CHALLENGE then keep challenge
  else if id =? WLAN_EID_ERP_INFO then keep erp_info
  else if id =? WLAN_EID_EXT_SUPP_RATES then keep ext_supp_rates
  else if id =? WLAN_EID_VENDOR_SPECIFIC then
    '(r, elems') ← ieee802_11_parse_vendor_specific buf pos elen elems;
    Some (negb (r =? 0), elems')
  else if id =? WLAN_EID_RSN then keep rsn_ie
  else if id =? WLAN_EID_PWR_CAPABILITY then keep power_cap
  else if id =? WLAN_EID_SUPPORTED_CHANNELS then keep supp_channels
  else if id =? WLAN_EID_MOBILITY_DOMAIN then keep mdie
  else if id =? WLAN_EID_FAST_BSS_TRANSITION then keep ftie
  else if id =? WLAN_EID_TIMEOUT_INTERVAL then keep timeout_int
  else if id =? WLAN_EID_HT_CAPABILITY then keep ht_capabilities
  else if id =? WLAN_EID_HT_OPERATION then keep ht_operation
  else if id =? WLAN_EID_LINK_ID then
    if (elen <? 18)%nat then Some (false, elems) else Some (false, elems_set elems link_id pos 0)
  else if id =? WLAN_EID_INTERWORKING then keep interworking
  else if id =? WLAN_EID_EXT_CAPABILITY then keep ext_capab
  else Some (true, elems).

(** The loop of [ieee802_11_parse_elems].  Each turn takes two bytes at least
    from [left], so [left] turns are enough; running out of fuel would be
    [None]. *)
Fixpoint parse_loop (fuel : nat) (buf : list Z) (pos left : nat) (unknown : Z)
    (elems : ieee802_11_elems) : option (ParseRes * ieee802_11_elems) :=
  if (left <? 2)%nat then
    Some (if (left =? 0)%nat then (if unknown =? 0 then ParseOK else ParseUnknown) else ParseFailed,
          elems)
  else
    match fuel with
    | O => None
    | S f =>
        id ← buf !! pos;
        elen ← buf !! (pos + 1)%nat;
        let pos := (pos + 2)%nat in
        let left := (left - 2)%nat in
        let elen := Z.to_nat elen in
        if (left <? elen)%nat then Some (ParseFailed, elems)
        else
          '(unk, elems') ← parse_elem buf id pos elen elems;
          parse_loop f buf (pos + elen) (left - elen) (if unk : bool then unknown + 1 else unknown) elems'
    end.

(** [ieee802_11_parse_elems] *)
Definition ieee802_11_parse_elems (start : list Z) (len : nat) : option (ParseRes * ieee802_11_elems) :=
  parse_loop len start 0 len 0 elems_clear.

(** The loop of [ieee802_11_ie_count]. *)
Fixpoint ie_count_loop (fuel : nat) (ies : list Z) (pos ies_len : nat) (count : Z) : option Z :=
  if (ies_len <? pos + 2)%nat then Some count
  else
    match fuel with
    | O => None
    | S f =>
        l ← ies !! (pos + 1)%nat;
        if (ies_len <? pos + 2 + Z.to_nat l)%nat then Some count
        else ie_count_loop f ies (pos + 2 + Z.to_nat l) ies_len (count + 1)
    end.

(** [ieee802_11_ie_count]; [None] for the pointer is [NULL]. *)
Definition ieee802_11_ie_count (ies : option (list Z)) (ies_len : nat) : option Z :=
  match ies with
  | None => Some 0
  | Some b => ie_count_loop ies_len b 0 ies_len 0
  end.

(** ** Channels and frequencies *)

Inductive ieee80211_band := IEEE80211_BAND_2GHZ | IEEE80211_BAND_5GHZ.

(** [ieee80211_channel_to_frequency] *)
Definition ieee80211_channel_to_frequency (chan : Z) (band : ieee80211_band) : Z :=
  match band with
  | IEEE80211_BAND_5GHZ =>
      if (182 <=? chan) && (chan <=? 196) then 4000 + chan * 5 else 5000 + chan * 5
  | IEEE80211_BAND_2GHZ =>
      if chan =? 14 then 2484 else if chan <? 14 then 2407 + chan * 5 else 0
  end.

(** [ieee80211_frequency_to_channel]; C division truncates. *)
Definition ieee80211_frequency_to_channel (freq : Z) : Z :=
  if freq =? 2484 then 14
  else if freq <? 2484 then Z.quot (freq - 2407) 5
  else if (4910 <=? freq) && (freq <=? 4980) then Z.quot (freq - 4000) 5
  else Z.quot (freq - 5000) 5.

(** ** What the buffer contains

    An element is an identifier and its contents; a buffer is a sequence of
    elements followed by bytes that are not a complete element. *)

Definition ie : Type := Z * list Z.

Definition wf_ie (e : ie) : Prop :=
  is_byte e.1 /\ Forall is_byte e.2 /\ (length e.2 < 256)%nat.

Definition encode_ie (e : ie) : list Z := e.1 :: Z.of_nat (length e.2) :: e.2.

Fixpoint encode (els : list ie) : list Z :=
  match els with [] => [] | e :: r => encode_ie e ++ encode r end.

(** Bytes at which the parser stops: none, one, or a header that announces
    more contents than there are. *)
Definition incomplete (rest : list Z) : Prop :=
  match rest with
  | id :: l :: d => (length d < Z.to_nat l)%nat
  | _ => True
  end.

Definition decomposes (b : list Z) (els : list ie) (rest : list Z) : Prop :=
  b = encode els ++ rest /\ Forall wf_ie els /\ incomplete rest.

(** The elements that are recognised by their identifier. *)
Definition id_fields : list (Z * ie_field) :=
  [(0, ssid); (1, supp_rates); (2, fh_params); (3, ds_params); (4, cf_params); (5, tim);
   (6, ibss_params); (16, challenge); (33, power_cap); (36, supp_channels); (42, erp_info);
   (45, ht_capabilities); (48, rsn_ie); (50, ext_supp_rates); (54, mdie); (55, ftie);
   (56, timeout_int); (61, ht_operation); (107, interworking); (127, ext_capab)].

(** The vendor specific elements, recognised by the first bytes of their
    contents. *)
Definition vendor_fields : list (list Z * ie_field) :=
  [([0x00; 0x50; 0xf2; 1], wpa_ie); ([0x00; 0x50; 0xf2; 2; 0], wmm);
   ([0x00; 0x50; 0xf2; 2; 1], wmm); ([0x00; 0x50; 0xf2; 2; 2], wmm_tspec);
   ([0x00; 0x50; 0xf2; 4], wps_ie); ([0x00; 0x90; 0x4c; 0x33], vendor_ht_cap)].

Fixpoint starts_with (p d : list Z) : bool :=
  match p, d with
  | [], _ => true
  | a :: p', b :: d' => (a =? b) && starts_with p' d'
  | _ :: _, [] => false
  end.

Definition lookup_field {K} (test : K -> bool) (l : list (K * ie_field)) : option ie_field :=
  snd <$> List.find (fun p => test p.1) l.

(** The pointer an element is kept under. *)
Definition field_of (e : ie) : option ie_field :=
  if e.1 =? 221 then lookup_field (fun p => starts_with p e.2) vendor_fields
  else if e.1 =? 101 then if (18 <=? length e.2)%nat then Some link_id else None
  else lookup_field (Z.eqb e.1) id_fields.

(** Every element without a pointer counts as unknown, except a short link
    identifier. *)
Definition unknown_ie (e : ie) : bool :=
  negb (e.1 =? 101) && bool_decide (field_of e = None).

Definition verdict (els : list ie) (rest : list Z) : ParseRes :=
  match rest with
  | [] => if existsb unknown_ie els then ParseUnknown else ParseOK
  | _ => ParseFailed
  end.

(** The contents of the elements kept under [f], in order. *)
Definition values (f : ie_field) (els : list ie) : list (list Z) :=
  omap (fun e => if decide (field_of e = Some f) then Some e.2 else None) els.

(** A pointer of the table points to the given contents, inside the first
    [len] bytes. *)
Definition points_to (buf : list Z) (len : nat) (f : ie_field) (p : option (nat * nat))
    (v : option (list Z)) : Prop :=
  match p, v with
  | None, None => True
  | Some (pos, l), Some d =>
      take (length d) (drop pos buf) = d /\ (pos + length d <= len)%nat /\ (f <> link_id -> l = length d)
  | _, _ => False
  end.

(** ** Decompositions *)

Lemma decompose_total b : Forall is_byte b -> exists els rest, decomposes b els rest.
Proof.
  remember (length b) as n eqn:Hn. revert b Hn.
  induction (lt_wf n) as [n _ IH]. intros b -> Hb.
  destruct b as [|id [|l d]]; [by exists [], []|by exists [], [id]|].
  apply list.Forall_cons_1 in Hb as [Hid Hb]. apply list.Forall_cons_1 in Hb as [Hl Hd].
  destruct (Nat.lt_ge_cases (length d) (Z.to_nat l)) as [Hs|Hs]; [by exists [], (id :: l :: d)|].
  destruct (IH (length (drop (Z.to_nat l) d))) with (b := drop (Z.to_nat l) d)
    as (els & rest & Heq & Hels & Hr).
  { rewrite length_drop. simpl. lia. }
  { done. }
  { by apply Forall_drop. }
  exists ((id, take (Z.to_nat l) d) :: els), rest. split_and!; [| |done].
  - cbn. unfold is_byte in Hl. rewrite length_take_le, Z2Nat.id by lia.
    by rewrite <- app_assoc, <- Heq, take_drop.
  - apply list.Forall_cons_2; [|done]. split_and!; simpl; [done|by apply Forall_take|].
    rewrite length_take_le by lia. unfold is_byte in Hl. lia.
Qed.

Lemma decompose_unique els els' rest rest' b :
  decomposes b els rest -> decomposes b els' rest' -> els = els' /\ rest = rest'.
Proof.
  revert b els'. induction els as [|[id d] els IH]; intros b els' (-> & Hw & Hr) (Heq & Hw' & Hr').
  - destruct els' as [|[id' d'] els']; [by simplify_eq/=|]. exfalso. simpl in Heq. subst rest.
    simpl in Hr. rewrite !length_app in Hr. lia.
  - apply list.Forall_cons_1 in Hw as [Hi Hw].
    destruct els' as [|[id' d'] els'].
    { exfalso. simpl in Heq. subst rest'. simpl in Hr'. rewrite !length_app in Hr'. lia. }
    apply list.Forall_cons_1 in Hw' as [Hi' Hw']. simpl in Heq.
    injection Heq as -> Hl%Nat2Z.inj Hd. rewrite <- !app_assoc in Hd.
    apply app_inj_1 in Hd as [-> Hd]; [|done].
    destruct (IH (encode els ++ rest) els') as [-> ->]; [done..|done].
Qed.

(** ** The parser on a decomposition *)

Lemma oui_test a b c x y z : is_byte a -> is_byte b -> is_byte c -> is_byte x -> is_byte y -> is_byte z ->
  (65536 * a + 256 * b + c =? 65536 * x + 256 * y + z) = (x =? a) && ((y =? b) && (z =? c)).
Proof. unfold is_byte. intros. lia. Qed.

Lemma vendor_exact pre d post E : Forall is_byte d ->
  ieee802_11_parse_vendor_specific (pre ++ d ++ post) (length pre) (length d) E
  = Some (match field_of (221, d) with
          | Some f => (0, elems_set E f (length pre) (length d))
          | None => (-1, E)
          end).
Proof.
  intros Hd. unfold ieee802_11_parse_vendor_specific, AP_GET_BE24.
  destruct d as [|a [|b [|c [|t d]]]]; try (cbn; rewrite ?andb_false_r; done).
  do 4 (apply list.Forall_cons_1 in Hd as [? Hd]).
  rewrite lookup_at0, !lookup_at. change (length (a :: b :: c :: t :: d)) with (4 + length d)%nat.
  change (4 + length d <? 4)%nat with false. cbn [lookup list_lookup app mbind option_bind].
  rewrite be24_val by done.
  change OUI_MICROSOFT with (65536 * 0 + 256 * 0x50 + 0xf2).
  change OUI_BROADCOM with (65536 * 0 + 256 * 0x90 + 0x4c).
  rewrite !oui_test by (done || unfold is_byte; lia).
  unfold field_of, lookup_field, vendor_fields. cbn -[Z.eqb elems_set Nat.ltb].
  change (221 =? 221) with true. rewrite !(Z.eqb_sym t), ?andb_false_r.
  unfold WMM_OUI_TYPE, VENDOR_HT_CAPAB_OUI_TYPE, WMM_OUI_SUBTYPE_INFORMATION_ELEMENT,
    WMM_OUI_SUBTYPE_PARAMETER_ELEMENT, WMM_OUI_SUBTYPE_TSPEC_ELEMENT.
  destruct (Z.eqb_spec 0 a); [subst a|by rewrite ?andb_false_l].
  destruct (Z.eqb_spec 80 b); [subst b|].
  - destruct (Z.eqb_spec 242 c); [subst c|done].
    destruct (Z.eqb_spec 1 t); [subst t; done|]. destruct (Z.eqb_spec 2 t); [subst t|].
    + destruct d as [|s d]; [done|]. cbn -[Z.eqb elems_set]. rewrite !(Z.eqb_sym s).
      destruct (Z.eqb_spec 0 s); [subst s; done|]. destruct (Z.eqb_spec 1 s); [subst s; done|].
      by destruct (Z.eqb_spec 2 s); [subst s|].
    + by destruct (Z.eqb_spec 4 t); [subst t|].
  - destruct (Z.eqb_spec 144 b); [subst b|done].
    destruct (Z.eqb_spec 76 c); [subst c|done]. by destruct (Z.eqb_spec 51 t); [subst t|].
Qed.

(** What one element does to the table. *)
Definition keep_ie (E : ieee802_11_elems) (pos : nat) (e : ie) : ieee802_11_elems :=
  match field_of e with
  | Some f => elems_set E f pos (if decide (f = link_id) then 0 else length e.2)
  | None => E
  end.

Lemma vendor_not_link d : field_of (221, d) <> Some link_id.
Proof.
  unfold field_of, lookup_field. change (221 =? 221) with true. cbn [fst snd].
  destruct (List.find _ vendor_fields) as [[p f]|] eqn:H; [|done].
  apply find_some in H as [H _]. cbn in *. intros [= ->].
  repeat destruct H as [H|H]; try discriminate. done.
Qed.

(** The elements other than vendor specific ones and link identifiers. *)
Lemma keep_by_id id d E pos f :
  (id =? 221) = false -> (id =? 101) = false -> lookup_field (Z.eqb id) id_fields = f ->
  unknown_ie (id, d) = bool_decide (f = None) /\
  keep_ie E pos (id, d) = match f with
    | Some f => elems_set E f pos (if decide (f = link_id) then 0 else length d)
    | None => E
    end.
Proof.
  intros H1 H2 Hf. unfold unknown_ie, keep_ie, field_of. cbn [fst snd]. rewrite H1, H2, Hf. done.
Qed.

Lemma parse_elem_vendor pre d post E : Forall is_byte d ->
  ('(r, E') ← ieee802_11_parse_vendor_specific (pre ++ d ++ post) (length pre) (length d) E;
   Some (negb (r =? 0), E'))
  = Some (unknown_ie (221, d), keep_ie E (length pre) (221, d)).
Proof.
  intros Hd. rewrite vendor_exact by done. unfold unknown_ie, keep_ie.
  pose proof (vendor_not_link d). destruct (field_of (221, d)) as [f|]; [|done]. cbn [mbind option_bind fst snd].
  rewrite bool_decide_eq_false_2, decide_False by congruence. done.
Qed.

Lemma parse_elem_link d E pos :
  (if (length d <? 18)%nat then Some (false, E) else Some (false, elems_set E link_id pos 0))
  = Some (unknown_ie (101, d), keep_ie E pos (101, d)).
Proof.
  unfold unknown_ie, keep_ie, field_of. cbn [fst snd].
  change (101 =? 221) with false. change (101 =? 101) with true. cbn [negb andb].
  by destruct (Nat.ltb_spec (length d) 18), (Nat.leb_spec 18 (length d)); try lia.
Qed.

Lemma parse_elem_exact pre id d post E : Forall is_byte d ->
  parse_elem (pre ++ d ++ post) id (length pre) (length d) E
  = Some (unknown_ie (id, d), keep_ie E (length pre) (id, d)).
Proof.
  intros Hd. unfold parse_elem.
  assert (forall f, (id =? 221) = false -> (id =? 101) = false ->
    lookup_field (Z.eqb id) id_fields = Some f -> f <> link_id ->
    Some (false, elems_set E f (length pre) (length d))
    = Some (unknown_ie (id, d), keep_ie E (length pre) (id, d))) as Hk.
  { intros f H1 H2 Hf Hl. destruct (keep_by_id id d E (length pre) _ H1 H2 Hf) as [-> ->].
    by rewrite bool_decide_eq_false_2, decide_False. }
  repeat lazymatch goal with
  | |- (if id =? WLAN_EID_VENDOR_SPECIFIC then _ else _) = _ =>
      destruct (Z.eqb_spec id WLAN_EID_VENDOR_SPECIFIC) as [->|]; [by apply parse_elem_vendor|]
  | |- (if id =? WLAN_EID_LINK_ID then _ else _) = _ =>
      destruct (Z.eqb_spec id WLAN_EID_LINK_ID) as [->|]; [apply parse_elem_link|]
  | |- (if id =? ?k then _ else _) = _ =>
      destruct (Z.eqb_spec id k) as [->|]; [apply Hk; (reflexivity || discriminate)|]
  end.
  destruct (keep_by_id id d E (length pre) None) as [-> ->]; [by apply Z.eqb_neq..| |done].
  unfold lookup_field, id_fields. cbn -[Z.eqb].
  repeat (rewrite (proj2 (Z.eqb_neq id _)) by assumption). done.
Qed.

Fixpoint place (E : ieee802_11_elems) (pos : nat) (els : list ie) : ieee802_11_elems :=
  match els with
  | [] => E
  | e :: r => place (keep_ie E (pos + 2) e) (pos + 2 + length e.2) r
  end.

Lemma length_encode_ie e : length (encode_ie e) = (2 + length e.2)%nat.
Proof. done. Qed.

Definition count_verdict (unknown : Z) (els : list ie) (rest : list Z) : ParseRes :=
  match rest with
  | [] => if (unknown =? 0) && negb (existsb unknown_ie els) then ParseOK else ParseUnknown
  | _ => ParseFailed
  end.

Lemma parse_loop_stop fuel pre rest post unk E :
  incomplete rest -> (length rest <= fuel)%nat ->
  parse_loop fuel (pre ++ rest ++ post) (length pre) (length rest) unk E
  = Some (count_verdict unk [] rest, E).
Proof.
  intros Hr Hf. destruct rest as [|id [|l d]].
  - destruct fuel; cbn; by destruct (unk =? 0).
  - by destruct fuel.
  - destruct fuel as [|f]; [simpl in Hf; lia|]. cbn [parse_loop].
    change (length (id :: l :: d) <? 2)%nat with false. rewrite lookup_at0, lookup_at. cbn -[Nat.ltb].
    simpl in Hr. rewrite Nat.sub_0_r, (proj2 (Nat.ltb_lt _ _)) by done. done.
Qed.

Lemma parse_loop_exact els : forall fuel pre rest post unk E,
  Forall wf_ie els -> incomplete rest -> (length (encode els ++ rest) <= fuel)%nat -> 0 <= unk ->
  parse_loop fuel (pre ++ (encode els ++ rest) ++ post) (length pre) (length (encode els ++ rest)) unk E
  = Some (count_verdict unk els rest, place E (length pre) els).
Proof.
  induction els as [|[id d] els IH]; intros fuel pre rest post unk E Hw Hr Hf Hu;
    [by apply parse_loop_stop|].
  apply list.Forall_cons_1 in Hw as [(Hid & Hd & Hl) Hw]. cbn [fst snd] in *.
  destruct fuel as [|f]; [simpl in Hf; lia|]. cbn [parse_loop place].
  change (encode ((id, d) :: els)) with (encode_ie (id, d) ++ encode els) in *.
  rewrite !length_app, length_encode_ie in *. cbn [fst snd] in *.
  rewrite (proj2 (Nat.ltb_ge _ 2)) by lia. rewrite lookup_at0, lookup_at.
  cbn [encode_ie fst snd app lookup list_lookup mbind option_bind].
  rewrite Nat2Z.id, (proj2 (Nat.ltb_ge _ (length d))) by lia.
  replace (length pre + 2)%nat with (length (pre ++ [id; Z.of_nat (length d)])) by (rewrite length_app; done).
  replace (pre ++ id :: Z.of_nat (length d) :: ((d ++ encode els) ++ rest) ++ post)
    with ((pre ++ [id; Z.of_nat (length d)]) ++ d ++ (encode els ++ rest) ++ post)
    by (by rewrite <- !app_assoc).
  rewrite parse_elem_exact by done. cbn [mbind option_bind].
  rewrite <- length_app, (app_assoc _ d).
  replace (2 + length d + length (encode els) + length rest - 2 - length d)%nat
    with (length (encode els ++ rest)) by (rewrite length_app; lia).
  rewrite IH by (rewrite ?length_app; done || lia || (case_match; lia)).
  f_equal. f_equal. unfold count_verdict. destruct rest; [|done]. cbn [existsb].
  destruct (unknown_ie (id, d)); [|done]. rewrite (proj2 (Z.eqb_neq (unk + 1) 0)) by lia.
  by rewrite andb_false_r.
Qed.

Lemma points_to_keep buf len f E pre e v post :
  buf = pre ++ encode_ie e ++ post -> (length pre + 2 + length e.2 <= len)%nat ->
  points_to buf len f (E f) v ->
  points_to buf len f (keep_ie E (length pre + 2) e f)
    (if decide (field_of e = Some f) then Some e.2 else v).
Proof.
  intros -> Hlen HE. unfold keep_ie. destruct (field_of e) as [g|]; [|done].
  unfold elems_set. destruct (decide (f = g)) as [->|Hne].
  - destruct (decide (Some g = Some g)); [|congruence]. simpl. split_and!; [|lia|intros; by rewrite decide_False].
    rewrite drop_app_ge by lia. replace (length pre + 2 - length pre)%nat with 2%nat by lia.
    simpl. by rewrite ?drop_0, take_app_length.
  - by rewrite decide_False by congruence.
Qed.

Lemma points_to_place buf len f els : forall E pre v tail,
  buf = pre ++ encode els ++ tail -> (length pre + length (encode els) <= len)%nat ->
  points_to buf len f (E f) v ->
  points_to buf len f (place E (length pre) els f)
    (match list.last (values f els) with Some d => Some d | None => v end).
Proof.
  induction els as [|e els IH]; intros E pre v tail Hb Hlen HE; [done|].
  cbn [place values omap list_omap encode] in *. rewrite length_app, length_encode_ie in Hlen.
  apply (points_to_keep buf len f E pre e v (encode els ++ tail)) in HE; [|by rewrite Hb, <- app_assoc|lia].
  specialize (IH (keep_ie E (length pre + 2) e) (pre ++ encode_ie e)
    (if decide (field_of e = Some f) then Some e.2 else v) tail).
  rewrite length_app, length_encode_ie in IH.
  replace (length pre + 2 + length e.2)%nat with (length pre + (2 + length e.2))%nat by lia.
  apply IH in HE; [|by rewrite Hb, <- !app_assoc|lia].
  fold (values f els). unfold values in *.
  destruct (decide (field_of e = Some f)); [|done]. rewrite last_cons. by destruct (list.last _).
Qed.

Lemma ie_count_loop_exact els : forall fuel pre rest post n,
  Forall wf_ie els -> incomplete rest -> (length (encode els ++ rest) <= fuel)%nat ->
  ie_count_loop fuel (pre ++ (encode els ++ rest) ++ post) (length pre)
    (length pre + length (encode els ++ rest)) n = Some (n + Z.of_nat (length els)).
Proof.
  induction els as [|[id d] els IH]; intros fuel pre rest post n Hw Hr Hf.
  - rewrite Z.add_0_r. change (encode [] ++ rest) with rest in *. destruct rest as [|i [|l d]].
    + destruct fuel; cbn [ie_count_loop length]; by rewrite (proj2 (Nat.ltb_lt _ _)) by lia.
    + destruct fuel; cbn [ie_count_loop length]; by rewrite (proj2 (Nat.ltb_lt _ _)) by lia.
    + destruct fuel as [|f]; [simpl in Hf; lia|]. cbn [ie_count_loop length]. simpl in Hr.
      rewrite (proj2 (Nat.ltb_ge _ _)) by lia. rewrite lookup_at.
      cbn [app lookup list_lookup mbind option_bind].
      by rewrite (proj2 (Nat.ltb_lt _ _)) by lia.
  - apply list.Forall_cons_1 in Hw as [_ Hw].
    destruct fuel as [|f]; [simpl in Hf; lia|]. cbn [ie_count_loop].
    change (encode ((id, d) :: els)) with (encode_ie (id, d) ++ encode els) in *.
    rewrite !length_app, length_encode_ie in *. cbn [fst snd] in *.
    rewrite (proj2 (Nat.ltb_ge _ _)) by lia. rewrite lookup_at.
    cbn [encode_ie fst snd app lookup list_lookup mbind option_bind].
    rewrite Nat2Z.id, (proj2 (Nat.ltb_ge _ _)) by lia.
    specialize (IH f (pre ++ encode_ie (id, d)) rest post (n + 1) Hw Hr).
    rewrite !length_app, length_encode_ie in IH. cbn [fst snd] in IH.
    replace (length pre + 2 + length d)%nat with (length pre + (2 + length d))%nat by lia.
    rewrite <- !app_assoc in *. cbn [encode_ie fst snd app] in IH.
    replace (length pre + (2 + length d + length (encode els) + length rest))%nat
      with (length pre + (2 + length d) + (length (encode els) + length rest))%nat by lia.
    rewrite IH by lia. f_equal. simpl. lia.
Qed.

(** The result on a buffer that is taken apart *)
Lemma parse_decomposed buf len els rest : decomposes (take len buf) els rest -> (len <= length buf)%nat ->
  ieee802_11_ie_count (Some buf) len = Some (Z.of_nat (length els)) /\
  exists E, ieee802_11_parse_elems buf len = Some (verdict els rest, E) /\
    forall f, points_to buf len f (E f) (list.last (values f els)).
Proof.
  intros (Heq & Hw & Hr) Hlen.
  assert (buf = [] ++ (encode els ++ rest) ++ drop len buf) as Hbuf by (rewrite <- Heq; symmetry; apply take_drop).
  assert (len = length (encode els ++ rest)) as Hl by (rewrite <- Heq, length_take_le; lia).
  split.
  - pose proof (ie_count_loop_exact els len [] rest (drop len buf) 0 Hw Hr) as H.
    rewrite <- Hbuf, <- Hl in H. by apply H.
  - exists (place elems_clear 0 els). split.
    + pose proof (parse_loop_exact els len [] rest (drop len buf) 0 elems_clear Hw Hr) as H.
      rewrite <- Hbuf, <- Hl in H. unfold ieee802_11_parse_elems. cbn [length] in H. rewrite H by lia.
      unfold count_verdict, verdict. destruct rest; [|done]. by destruct (existsb _ _).
    + intros f. pose proof (points_to_place buf len f els elems_clear [] None (rest ++ drop len buf)) as H.
      destruct (list.last (values f els)); apply H; try done; rewrite ?app_assoc; try done;
        rewrite Hl, length_app; simpl; lia.
Qed.

(** ** Properties *)

(** The parser returns, and what it points to is inside the buffer. *)
Lemma parse_elems_inside buf len : Forall is_byte buf -> (len <= length buf)%nat ->
  exists r E, ieee802_11_parse_elems buf len = Some (r, E) /\
    forall f p l, f <> link_id -> E f = Some (p, l) -> (p + l <= len)%nat.
Proof.
  intros Hb Hl. destruct (decompose_total (take len buf)) as (els & rest & Hd); [by apply Forall_take|].
  destruct (parse_decomposed buf len els rest Hd Hl) as (_ & E & HE & Hp). eexists _, E. split; [exact HE|].
  intros f p l Hf HEf. specialize (Hp f). rewrite HEf in Hp. unfold points_to in Hp.
  destruct (list.last (values f els)) as [d|]; [|done]. destruct Hp as (_ & Hle & Hlen). rewrite (Hlen Hf). exact Hle.
Qed.

(** C27: For every buffer and length, [ieee802_11_parse_elems] returns what the
    bytes contain: they are in exactly one way a sequence of complete elements
    and an incomplete rest; the result is [ParseFailed] exactly when there is a
    rest, and otherwise tells whether there is an unknown element; each pointer
    of the table points, inside the buffer, to the contents of the last element
    of its kind with its length, and is [NULL] when there is none; and
    [ieee802_11_ie_count] returns the number of elements.  No byte outside the
    buffer is read. *)
Theorem parse_elems_exact buf len :
  Forall is_byte buf -> (len <= length buf)%nat ->
  exists els rest,
    decomposes (take len buf) els rest /\
    (forall els' rest', decomposes (take len buf) els' rest' -> els' = els /\ rest' = rest) /\
    ieee802_11_ie_count (Some buf) len = Some (Z.of_nat (length els)) /\
    exists E, ieee802_11_parse_elems buf len = Some (verdict els rest, E) /\
      forall f, points_to buf len f (E f) (list.last (values f els)).
Proof.
  intros Hb Hlen. destruct (decompose_total (take len buf)) as (els & rest & Hd); [by apply Forall_take|].
  exists els, rest. split; [done|]. split; [by intros; eapply decompose_unique|].
  by apply parse_decomposed.
Qed.

Lemma parse_elems_exact_witness :
  exists els rest,
    decomposes (take 9 [0; 1; 65; 221; 4; 0; 0x50; 0xf2; 1]) els rest /\
    exists E, ieee802_11_parse_elems [0; 1; 65; 221; 4; 0; 0x50; 0xf2; 1] 9 = Some (verdict els rest, E) /\
      forall f, points_to [0; 1; 65; 221; 4; 0; 0x50; 0xf2; 1] 9 f (E f) (list.last (values f els)).
Proof.
  destruct (parse_elems_exact [0; 1; 65; 221; 4; 0; 0x50; 0xf2; 1] 9) as (els & rest & H & _ & _ & H').
  - repeat constructor; unfold is_byte; lia.
  - simpl. lia.
  - by exists els, rest.
Defined.

Example parse_ssid_wpa :
  match ieee802_11_parse_elems [0; 1; 65; 221; 4; 0; 0x50; 0xf2; 1] 9 with
  | Some (r, E) => (r, E ssid, E wpa_ie, E tim) = (ParseOK, Some (2, 1)%nat, Some (5, 4)%nat, None)
  | None => False
  end.
Proof. reflexivity. Qed.

(** A channel number survives the conversion to a frequency and back, for
    the channels 1 to 14 of the 2.4 GHz band and every channel of the 5 GHz
    band, the Japanese ones from 182 to 196 included. *)
Theorem channel_frequency_roundtrip chan band :
  match band with
  | IEEE80211_BAND_2GHZ => 1 <= chan <= 14
  | IEEE80211_BAND_5GHZ => 0 <= chan < 2 ^ 16
  end ->
  ieee80211_frequency_to_channel (ieee80211_channel_to_frequency chan band) = chan.
Proof.
  change (2 ^ 16) with 65536.
  unfold ieee80211_frequency_to_channel, ieee80211_channel_to_frequency.
  destruct band; intros; repeat case_test; try lia;
    lazymatch goal with
    | |- Z.quot ?a 5 = _ => replace a with (chan * 5) by lia; apply Z.quot_mul; lia
    end.
Qed.
