(* ===== verification/WpaIe.v ===== *)
(** * WpaIe: the WPA and RSN elements of [ap/wpa_auth_ie.c] and [ap/common/wpa_common.c]

    The access point announces its security policy in an RSN element
    ([wpa_write_rsn_ie]) or a WPA element ([wpa_write_wpa_ie]), parses the
    element of an associating station ([wpa_parse_wpa_ie_rsn],
    [wpa_parse_wpa_ie_wpa]) and decides whether to accept it
    ([wpa_validate_wpa_ie]); the key data of the handshake frames is written by
    [wpa_add_kde] and read by [wpa_parse_kde_ies].

    Buffers are byte lists, pointers offsets into them; an access outside the
    buffer is [None]. *)

From stdpp Require Import base list option.
From Stdlib Require Import ZArith Lia.
From S2P Require Import Prelude HciAggr Words Wire Ie80211.

(** ** Constants *)

Definition RSN_SELECTOR (a b c d : Z) : Z :=
  Z.lor (Z.lor (Z.lor (Z.shiftl a 24) (Z.shiftl b 16)) (Z.shiftl c 8)) d.

Definition PMKID_LEN : nat := 16.
Definition WPA_SELECTOR_LEN : nat := 4.
Definition RSN_SELECTOR_LEN : nat := 4.
Definition WPA_VERSION : Z := 1.
Definition RSN_VERSION : Z := 1.

Definition WPA_AUTH_KEY_MGMT_NONE : Z := RSN_SELECTOR 0x00 0x50 0xf2 0.
Definition WPA_AUTH_KEY_MGMT_UNSPEC_802_1X : Z := RSN_SELECTOR 0x00 0x50 0xf2 1.
Definition WPA_AUTH_KEY_MGMT_PSK_OVER_802_1X : Z := RSN_SELECTOR 0x00 0x50 0xf2 2.
Definition WPA_CIPHER_SUITE_NONE : Z := RSN_SELECTOR 0x00 0x50 0xf2 0.
Definition WPA_CIPHER_SUITE_WEP40 : Z := RSN_SELECTOR 0x00 0x50 0xf2 1.
Definition WPA_CIPHER_SUITE_TKIP : Z := RSN_SELECTOR 0x00 0x50 0xf2 2.
Definition WPA_CIPHER_SUITE_CCMP : Z := RSN_SELECTOR 0x00 0x50 0xf2 4.
Definition WPA_CIPHER_SUITE_WEP104 : Z := RSN_SELECTOR 0x00 0x50 0xf2 5.
Definition RSN_AUTH_KEY_MGMT_UNSPEC_802_1X : Z := RSN_SELECTOR 0x00 0x0f 0xac 1.
Definition RSN_AUTH_KEY_MGMT_PSK_OVER_802_1X : Z := RSN_SELECTOR 0x00 0x0f 0xac 2.
Definition RSN_CIPHER_SUITE_NONE : Z := RSN_SELECTOR 0x00 0x0f 0xac 0.
Definition RSN_CIPHER_SUITE_WEP40 : Z := RSN_SELECTOR 0x00 0x0f 0xac 1.
Definition RSN_CIPHER_SUITE_TKIP : Z := RSN_SELECTOR 0x00 0x0f 0xac 2.
Definition RSN_CIPHER_SUITE_CCMP : Z := RSN_SELECTOR 0x00 0x0f 0xac 4.
Definition RSN_CIPHER_SUITE_WEP104 : Z := RSN_SELECTOR 0x00 0x0f 0xac 5.
Definition RSN_KEY_DATA_GROUPKEY : Z := RSN_SELECTOR 0x00 0x0f 0xac 1.
Definition RSN_KEY_DATA_MAC_ADDR : Z := RSN_SELECTOR 0x00 0x0f 0xac 3.
Definition RSN_KEY_DATA_PMKID : Z := RSN_SELECTOR 0x00 0x0f 0xac 4.
Definition WPA_OUI_TYPE : Z := RSN_SELECTOR 0x00 0x50 0xf2 1.

Definition WPA_CAPABILITY_PREAUTH : Z := 1.
Definition WPA_CAPABILITY_PEERKEY_ENABLED : Z := 512.
Definition RSN_NUM_REPLAY_COUNTERS_16 : Z := 3.

Definition WPA_CIPHER_NONE : Z := 1.
Definition WPA_CIPHER_WEP40 : Z := 2.
Definition WPA_CIPHER_WEP104 : Z := 4.
Definition WPA_CIPHER_TKIP : Z := 8.
Definition WPA_CIPHER_CCMP : Z := 16.
Definition WPA_KEY_MGMT_IEEE8021X : Z := 1.
Definition WPA_KEY_MGMT_PSK : Z := 2.
Definition WPA_KEY_MGMT_WPA_NONE : Z := 16.
Definition WPA_PROTO_WPA : Z := 1.
Definition WPA_PROTO_RSN : Z := 2.

(** ** Data *)

(** [struct wpa_auth_config] *)
Record wpa_auth_config := mk_conf {
  conf_wpa : Z;
  conf_wpa_key_mgmt : Z;
  conf_wpa_pairwise : Z;
  conf_wpa_group : Z;
  conf_rsn_pairwise : Z;
  conf_rsn_preauth : Z;
  conf_eapol_version : Z;
  conf_peerkey : Z;
  conf_wmm_enabled : Z
}.

(** [struct wpa_ie_data]; [pmkid] is an offset into the element. *)
Record wpa_ie_data := mk_ie_data {
  proto : Z;
  pairwise_cipher : Z;
  group_cipher : Z;
  key_mgmt : Z;
  capabilities : Z;
  num_pmkid : Z;
  pmkid : option nat;
  mgmt_group_cipher : Z
}.

Definition set_pairwise (d : wpa_ie_data) (v : Z) : wpa_ie_data :=
  mk_ie_data (proto d) v (group_cipher d) (key_mgmt d) (capabilities d) (num_pmkid d) (pmkid d)
    (mgmt_group_cipher d).
Definition set_group (d : wpa_ie_data) (v : Z) : wpa_ie_data :=
  mk_ie_data (proto d) (pairwise_cipher d) v (key_mgmt d) (capabilities d) (num_pmkid d) (pmkid d)
    (mgmt_group_cipher d).
Definition set_key_mgmt (d : wpa_ie_data) (v : Z) : wpa_ie_data :=
  mk_ie_data (proto d) (pairwise_cipher d) (group_cipher d) v (capabilities d) (num_pmkid d) (pmkid d)
    (mgmt_group_cipher d).
Definition set_capabilities (d : wpa_ie_data) (v : Z) : wpa_ie_data :=
  mk_ie_data (proto d) (pairwise_cipher d) (group_cipher d) (key_mgmt d) v (num_pmkid d) (pmkid d)
    (mgmt_group_cipher d).
Definition set_pmkid (d : wpa_ie_data) (n : Z) (p : option nat) : wpa_ie_data :=
  mk_ie_data (proto d) (pairwise_cipher d) (group_cipher d) (key_mgmt d) (capabilities d) n p
    (mgmt_group_cipher d).

(** ** Writing *)

(** [x & y] as a C condition. *)
Definition has (x y : Z) : bool := negb (Z.land x y =? 0).

(** A sequence of [if (cond) { RSN_SELECTOR_PUT(pos, selector); pos += 4;
    num_suites++; }] *)
Fixpoint put_suites (mem : list Z) (pos : nat) (num_suites : Z) (l : list (bool * Z)) :
  option (list Z * nat * Z) :=
  match l with
  | [] => Some (mem, pos, num_suites)
  | (true, sel) :: r =>
      mem ← wr mem pos (WPA_PUT_BE32 sel);
      put_suites mem (pos + RSN_SELECTOR_LEN) (num_suites + 1) r
  | (false, _) :: r => put_suites mem pos num_suites r
  end.

Definition wpa_group_selector (g : Z) : option Z :=
  if g =? WPA_CIPHER_CCMP then Some WPA_CIPHER_SUITE_CCMP
  else if g =? WPA_CIPHER_TKIP then Some WPA_CIPHER_SUITE_TKIP
  else if g =? WPA_CIPHER_WEP104 then Some WPA_CIPHER_SUITE_WEP104
  else if g =? WPA_CIPHER_WEP40 then Some WPA_CIPHER_SUITE_WEP40
  else None.

Definition wpa_pairwise_suites (p : Z) : list (bool * Z) :=
  [(has p WPA_CIPHER_CCMP, WPA_CIPHER_SUITE_CCMP);
   (has p WPA_CIPHER_TKIP, WPA_CIPHER_SUITE_TKIP);
   (has p WPA_CIPHER_NONE, WPA_CIPHER_SUITE_NONE)].

Definition wpa_akm_suites (k : Z) : list (bool * Z) :=
  [(has k WPA_KEY_MGMT_IEEE8021X, WPA_AUTH_KEY_MGMT_UNSPEC_802_1X);
   (has k WPA_KEY_MGMT_PSK, WPA_AUTH_KEY_MGMT_PSK_OVER_802_1X)].

(** The part of [wpa_write_wpa_ie] and [wpa_write_rsn_ie] that writes the group
    selector, the pairwise ciphers and the key managements, from [pos] on: the
    memory and the position after it, or no position for the [return -1] of an
    invalid policy. *)
Definition put_policy (mem : list Z) (pos : nat) (group : option Z) (pairwise akm : list (bool * Z)) :
  option (list Z * option nat) :=
  match group with
  | None => Some (mem, None)
  | Some sel =>
      mem ← wr mem pos (WPA_PUT_BE32 sel);
      let count := (pos + RSN_SELECTOR_LEN)%nat in
      '(mem, pos, num_suites) ← put_suites mem (count + 2) 0 pairwise;
      if num_suites =? 0 then Some (mem, None)
      else
        mem ← wr mem count (WPA_PUT_LE16 num_suites);
        let count := pos in
        '(mem, pos, num_suites) ← put_suites mem (count + 2) 0 akm;
        if num_suites =? 0 then Some (mem, None)
        else
          mem ← wr mem count (WPA_PUT_LE16 num_suites);
          Some (mem, Some pos)
  end.

(** [wpa_write_wpa_ie]: [buf] is the offset the element is written at.  Returns
    the memory and the result of the C function. *)
Definition wpa_write_wpa_ie (conf : wpa_auth_config) (mem : list Z) (buf : nat) : option (list Z * Z) :=
  mem ← wr mem buf [WLAN_EID_VENDOR_SPECIFIC];
  mem ← wr mem (buf + 2) (WPA_PUT_BE32 WPA_OUI_TYPE);
  mem ← wr mem (buf + 6) (WPA_PUT_LE16 WPA_VERSION);
  '(mem, r) ← put_policy mem (buf + 8) (wpa_group_selector (conf_wpa_group conf))
                (wpa_pairwise_suites (conf_wpa_pairwise conf)) (wpa_akm_suites (conf_wpa_key_mgmt conf));
  match r with
  | None => Some (mem, -1)
  | Some pos =>
      mem ← wr mem (buf + 1) [u8 (Z.of_nat (pos - buf) - 2)];
      Some (mem, Z.of_nat (pos - buf))
  end.

Definition rsn_group_selector (g : Z) : option Z :=
  if g =? WPA_CIPHER_CCMP then Some RSN_CIPHER_SUITE_CCMP
  else if g =? WPA_CIPHER_TKIP then Some RSN_CIPHER_SUITE_TKIP
  else if g =? WPA_CIPHER_WEP104 then Some RSN_CIPHER_SUITE_WEP104
  else if g =? WPA_CIPHER_WEP40 then Some RSN_CIPHER_SUITE_WEP40
  else None.

Definition rsn_pairwise_suites (p : Z) : list (bool * Z) :=
  [(has p WPA_CIPHER_CCMP, RSN_CIPHER_SUITE_CCMP);
   (has p WPA_CIPHER_TKIP, RSN_CIPHER_SUITE_TKIP);
   (has p WPA_CIPHER_NONE, RSN_CIPHER_SUITE_NONE)].

Definition rsn_akm_suites (k : Z) : list (bool * Z) :=
  [(has k WPA_KEY_MGMT_IEEE8021X, RSN_AUTH_KEY_MGMT_UNSPEC_802_1X);
   (has k WPA_KEY_MGMT_PSK, RSN_AUTH_KEY_MGMT_PSK_OVER_802_1X)].

(** The RSN capabilities of the configuration. *)
Definition rsn_capab (conf : wpa_auth_config) : Z :=
  let capab := 0 in
  let capab := if conf_rsn_preauth conf =? 0 then capab else Z.lor capab WPA_CAPABILITY_PREAUTH in
  let capab := if conf_peerkey conf =? 0 then capab else Z.lor capab WPA_CAPABILITY_PEERKEY_ENABLED in
  if conf_wmm_enabled conf =? 0 then capab else Z.lor capab (Z.shiftl RSN_NUM_REPLAY_COUNTERS_16 2).

(** The PMKID that [wpa_write_rsn_ie] appends; no position for its [return -1]. *)
Definition put_pmkid (mem : list Z) (pos end_ : nat) (pmkid : option (list Z)) : option (list Z * option nat) :=
  match pmkid with
  | None => Some (mem, Some pos)
  | Some id =>
      if (end_ <? pos + 2 + PMKID_LEN)%nat then Some (mem, None)
      else
        mem ← wr mem pos (WPA_PUT_LE16 1);
        mem ← wr mem (pos + 2) (take PMKID_LEN id);
        Some (mem, Some (pos + 2 + PMKID_LEN)%nat)
  end.

(** [wpa_write_rsn_ie]; [pmkid] is [NULL] or the 16 bytes it points to. *)
Definition wpa_write_rsn_ie (conf : wpa_auth_config) (mem : list Z) (buf len : nat)
    (pmkid : option (list Z)) : option (list Z * Z) :=
  mem ← wr mem buf [WLAN_EID_RSN];
  mem ← wr mem (buf + 2) (WPA_PUT_LE16 RSN_VERSION);
  '(mem, r) ← put_policy mem (buf + 4) (rsn_group_selector (conf_wpa_group conf))
                (rsn_pairwise_suites (conf_rsn_pairwise conf)) (rsn_akm_suites (conf_wpa_key_mgmt conf));
  match r with
  | None => Some (mem, -1)
  | Some pos =>
      mem ← wr mem pos (WPA_PUT_LE16 (rsn_capab conf));
      '(mem, r) ← put_pmkid mem (pos + 2) (buf + len) pmkid;
      match r with
      | None => Some (mem, -1)
      | Some pos =>
          mem ← wr mem (buf + 1) [u8 (Z.of_nat (pos - buf) - 2)];
          Some (mem, Z.of_nat (pos - buf))
      end
  end.

Definition WPA_IE_LEN : nat := 22.

(** [wpa_auth_gen_wpa_ie]: [wpa_ie] is the array [wpa_auth->wpa_ie] of 22
    bytes, [stack] the uninitialised local buffer of 128.  Returns the array
    and the result; [None] also when [MEMCPY] leaves the array. *)
Definition wpa_auth_gen_wpa_ie (conf : wpa_auth_config) (wpa_ie stack : list Z) : option (list Z * Z) :=
  '(buf, pos, res) ←
    (if has (conf_wpa conf) WPA_PROTO_RSN then
       '(buf, res) ← wpa_write_rsn_ie conf stack 0 128 None;
       Some (buf, Z.to_nat res, res)
     else Some (stack, 0%nat, 0));
  if res <? 0 then Some (wpa_ie, res)
  else
    '(buf, pos, res) ←
      (if has (conf_wpa conf) WPA_PROTO_WPA then
         '(buf, res) ← wpa_write_wpa_ie conf buf pos;
         Some (buf, (pos + Z.to_nat res)%nat, res)
       else Some (buf, pos, 0));
    if res <? 0 then Some (wpa_ie, res)
    else
      wpa_ie ← wr wpa_ie 0 (take pos buf);
      Some (wpa_ie, 0).

(** [wpa_add_kde]; returns the memory and the new position. *)
Definition wpa_add_kde (mem : list Z) (pos : nat) (kde : Z) (data : list Z) (data2 : option (list Z))
    (data2_len : nat) : option (list Z * nat) :=
  mem ← wr mem pos [WLAN_EID_VENDOR_SPECIFIC];
  mem ← wr mem (pos + 1) [u8 (Z.of_nat (RSN_SELECTOR_LEN + length data + data2_len))];
  mem ← wr mem (pos + 2) (WPA_PUT_BE32 kde);
  let pos := (pos + 2 + RSN_SELECTOR_LEN)%nat in
  mem ← wr mem pos data;
  let pos := (pos + length data)%nat in
  match data2 with
  | Some d => mem ← wr mem pos (take data2_len d); Some (mem, (pos + data2_len)%nat)
  | None => Some (mem, pos)
  end.

(** ** Parsing *)

Definition rsn_selector_to_bitfield (s : Z) : Z :=
  if s =? RSN_CIPHER_SUITE_NONE then WPA_CIPHER_NONE
  else if s =? RSN_CIPHER_SUITE_WEP40 then WPA_CIPHER_WEP40
  else if s =? RSN_CIPHER_SUITE_TKIP then WPA_CIPHER_TKIP
  else if s =? RSN_CIPHER_SUITE_CCMP then WPA_CIPHER_CCMP
  else if s =? RSN_CIPHER_SUITE_WEP104 then WPA_CIPHER_WEP104
  else 0.

Definition rsn_key_mgmt_to_bitfield (s : Z) : Z :=
  if s =? RSN_AUTH_KEY_MGMT_UNSPEC_802_1X then WPA_KEY_MGMT_IEEE8021X
  else if s =? RSN_AUTH_KEY_MGMT_PSK_OVER_802_1X then WPA_KEY_MGMT_PSK
  else 0.

Definition wpa_selector_to_bitfield (s : Z) : Z :=
  if s =? WPA_CIPHER_SUITE_NONE then WPA_CIPHER_NONE
  else if s =? WPA_CIPHER_SUITE_WEP40 then WPA_CIPHER_WEP40
  else if s =? WPA_CIPHER_SUITE_TKIP then WPA_CIPHER_TKIP
  else if s =? WPA_CIPHER_SUITE_CCMP then WPA_CIPHER_CCMP
  else if s =? WPA_CIPHER_SUITE_WEP104 then WPA_CIPHER_WEP104
  else 0.

Definition wpa_key_mgmt_to_bitfield (s : Z) : Z :=
  if s =? WPA_AUTH_KEY_MGMT_UNSPEC_802_1X then WPA_KEY_MGMT_IEEE8021X
  else if s =? WPA_AUTH_KEY_MGMT_PSK_OVER_802_1X then WPA_KEY_MGMT_PSK
  else if s =? WPA_AUTH_KEY_MGMT_NONE then WPA_KEY_MGMT_WPA_NONE
  else 0.

(** The loop that collects [count] selectors. *)
Fixpoint or_selectors (conv : Z -> Z) (buf : list Z) (pos count : nat) (acc : Z) : option Z :=
  match count with
  | O => Some acc
  | S n =>
      s ← WPA_GET_BE32 buf pos;
      or_selectors conv buf (pos + RSN_SELECTOR_LEN) n (Z.lor acc (conv s))
  end.

(** A step of the parser either returns an error code or goes on with a
    position and the number of bytes left. *)
Inductive parse_step :=
| Stop (res : Z) (data : wpa_ie_data)
| Go (data : wpa_ie_data) (pos : nat) (left : Z).

(** The group selector. *)
Definition parse_group (conv : Z -> Z) (buf : list Z) (data : wpa_ie_data) (pos : nat) (left : Z) :
  option parse_step :=
  if 4 <=? left then
    s ← WPA_GET_BE32 buf pos;
    Some (Go (set_group data (conv s)) (pos + RSN_SELECTOR_LEN) (left - 4))
  else if 0 <? left then Some (Stop (-3) data)
  else Some (Go data pos left).

(** A list of selectors: the pairwise ciphers (errors -4 and -5) and the key
    managements (-6 and -7). *)
Definition parse_suites (conv : Z -> Z) (set : wpa_ie_data -> Z -> wpa_ie_data) (botch short : Z)
    (buf : list Z) (data : wpa_ie_data) (pos : nat) (left : Z) : option parse_step :=
  if 2 <=? left then
    let data := set data 0 in
    count ← WPA_GET_LE16 buf pos;
    let pos := (pos + 2)%nat in
    let left := left - 2 in
    if (count =? 0) || (left <? count * 4) then Some (Stop botch data)
    else
      v ← or_selectors conv buf pos (Z.to_nat count) 0;
      Some (Go (set data v) (pos + Z.to_nat count * 4) (left - count * 4))
  else if left =? 1 then Some (Stop short data)
  else Some (Go data pos left).

Definition parse_capab (buf : list Z) (data : wpa_ie_data) (pos : nat) (left : Z) : option parse_step :=
  if 2 <=? left then
    c ← WPA_GET_LE16 buf pos;
    Some (Go (set_capabilities data c) (pos + 2) (left - 2))
  else Some (Go data pos left).

Definition parse_pmkid (buf : list Z) (data : wpa_ie_data) (pos : nat) (left : Z) : option parse_step :=
  if 2 <=? left then
    n ← WPA_GET_LE16 buf pos;
    let pos := (pos + 2)%nat in
    let left := left - 2 in
    if left <? n * 16 then Some (Stop (-9) (set_pmkid data 0 (pmkid data)))
    else Some (Go (set_pmkid data n (Some pos)) (pos + Z.to_nat n * 16) (left - n * 16))
  else Some (Go data pos left).

(** Sequencing of steps: a stopped parser stays stopped. *)
Definition and_then (r : option parse_step)
    (k : wpa_ie_data -> nat -> Z -> option parse_step) : option parse_step :=
  match r with
  | Some (Go d p l) => k d p l
  | _ => r
  end.
Notation "r ;> k" := (and_then r k) (at level 90, right associativity).

(** The end of the parsers: trailing bytes are ignored. *)
Definition parse_result (r : option parse_step) : option (Z * wpa_ie_data) :=
  match r with
  | Some (Stop res d) => Some (res, d)
  | Some (Go d _ _) => Some (0, d)
  | None => None
  end.

Definition rsn_defaults : wpa_ie_data :=
  mk_ie_data WPA_PROTO_RSN WPA_CIPHER_CCMP WPA_CIPHER_CCMP WPA_KEY_MGMT_IEEE8021X 0 0 None 0.

(** [wpa_parse_wpa_ie_rsn]: the result and [*data]. *)
Definition wpa_parse_wpa_ie_rsn (rsn_ie : list Z) (rsn_ie_len : nat) : option (Z * wpa_ie_data) :=
  let data := rsn_defaults in
  if (rsn_ie_len =? 0)%nat then Some (-1, data)
  else if (rsn_ie_len <? 4)%nat then Some (-1, data)
  else
    id ← rsn_ie !! 0%nat;
    l ← rsn_ie !! 1%nat;
    v ← WPA_GET_LE16 rsn_ie 2;
    if negb (id =? WLAN_EID_RSN) || negb (l =? Z.of_nat rsn_ie_len - 2) || negb (v =? RSN_VERSION)
    then Some (-2, data)
    else
      parse_result
        (parse_group rsn_selector_to_bitfield rsn_ie data 4 (Z.of_nat rsn_ie_len - 4) ;>
         fun d p l => parse_suites rsn_selector_to_bitfield set_pairwise (-4) (-5) rsn_ie d p l ;>
         fun d p l => parse_suites rsn_key_mgmt_to_bitfield set_key_mgmt (-6) (-7) rsn_ie d p l ;>
         fun d p l => parse_capab rsn_ie d p l ;>
         fun d p l => parse_pmkid rsn_ie d p l).

Definition wpa_defaults : wpa_ie_data :=
  mk_ie_data WPA_PROTO_WPA WPA_CIPHER_TKIP WPA_CIPHER_TKIP WPA_KEY_MGMT_IEEE8021X 0 0 None 0.

(** [wpa_parse_wpa_ie_wpa]: the position is advanced by six bytes, the selector
    and the version, whatever the length. *)
Definition wpa_parse_wpa_ie_wpa (wpa_ie : list Z) (wpa_ie_len : nat) : option (Z * wpa_ie_data) :=
  let data := wpa_defaults in
  if (wpa_ie_len =? 0)%nat then Some (-1, data)
  else
    parse_result
      (parse_group wpa_selector_to_bitfield wpa_ie data 6 (Z.of_nat wpa_ie_len - 6) ;>
       fun d p l => parse_suites wpa_selector_to_bitfield set_pairwise (-4) (-5) wpa_ie d p l ;>
       fun d p l => parse_suites wpa_key_mgmt_to_bitfield set_key_mgmt (-6) (-7) wpa_ie d p l ;>
       fun d p l => parse_capab wpa_ie d p l).

(** ** Accepting a station's element *)

Inductive wpa_validate_res :=
| WPA_IE_OK | WPA_INVALID_IE | WPA_INVALID_GROUP | WPA_INVALID_PAIRWISE | WPA_INVALID_AKMP
| WPA_NOT_ENABLED | WPA_ALLOC_FAIL | WPA_MGMT_FRAME_PROTECTION_VIOLATION
| WPA_INVALID_MGMT_GROUP_CIPHER | WPA_INVALID_MDIE | WPA_INVALID_PROTO.

(** The version a station uses, [sm->wpa]. *)
Inductive wpa_version := WPA_VERSION_NO_WPA | WPA_VERSION_WPA | WPA_VERSION_WPA2.

#[export] Instance wpa_version_eq_dec : EqDecision wpa_version.
Proof. solve_decision. Defined.

(** The fields of [struct wpa_state_machine] that the association sets;
    [sta_wpa_ie] is the allocated buffer. *)
Record wpa_sta := mk_sta {
  sta_wpa : wpa_version;
  sta_pairwise : Z;
  sta_wpa_key_mgmt : Z;
  sta_wpa_ie : option (list Z);
  sta_wpa_ie_len : nat
}.

(** The selectors [struct wpa_authenticator] records. *)
Record wpa_selected := mk_selected {
  dot11RSNAAuthenticationSuiteSelected : Z;
  dot11RSNAPairwiseCipherSelected : Z;
  dot11RSNAGroupCipherSelected : Z
}.

(** The five-way choice of a cipher selector, with the default first. *)
Definition select_cipher (c none wep40 tkip ccmp wep104 dflt : Z) : Z :=
  if has c WPA_CIPHER_CCMP then ccmp
  else if has c WPA_CIPHER_TKIP then tkip
  else if has c WPA_CIPHER_WEP104 then wep104
  else if has c WPA_CIPHER_WEP40 then wep40
  else if has c WPA_CIPHER_NONE then none
  else dflt.

Definition rsn_select (c : Z) : Z :=
  select_cipher c RSN_CIPHER_SUITE_NONE RSN_CIPHER_SUITE_WEP40 RSN_CIPHER_SUITE_TKIP
    RSN_CIPHER_SUITE_CCMP RSN_CIPHER_SUITE_WEP104 RSN_CIPHER_SUITE_CCMP.
Definition wpa_select (c : Z) : Z :=
  select_cipher c WPA_CIPHER_SUITE_NONE WPA_CIPHER_SUITE_WEP40 WPA_CIPHER_SUITE_TKIP
    WPA_CIPHER_SUITE_CCMP WPA_CIPHER_SUITE_WEP104 WPA_CIPHER_SUITE_TKIP.

Definition select_suites (rsn : bool) (d : wpa_ie_data) : wpa_selected :=
  if rsn then
    mk_selected
      (if has (key_mgmt d) WPA_KEY_MGMT_IEEE8021X then RSN_AUTH_KEY_MGMT_UNSPEC_802_1X
       else if has (key_mgmt d) WPA_KEY_MGMT_PSK then RSN_AUTH_KEY_MGMT_PSK_OVER_802_1X
       else RSN_AUTH_KEY_MGMT_UNSPEC_802_1X)
      (rsn_select (pairwise_cipher d)) (rsn_select (group_cipher d))
  else
    mk_selected
      (if has (key_mgmt d) WPA_KEY_MGMT_IEEE8021X then WPA_AUTH_KEY_MGMT_UNSPEC_802_1X
       else if has (key_mgmt d) WPA_KEY_MGMT_PSK then WPA_AUTH_KEY_MGMT_PSK_OVER_802_1X
       else WPA_AUTH_KEY_MGMT_UNSPEC_802_1X)
      (wpa_select (pairwise_cipher d)) (wpa_select (group_cipher d)).

(** The copy of the element at the end of [wpa_validate_wpa_ie]: a new buffer
    when there is none or it is shorter ([malloc_ok]: the allocation succeeds,
    [fresh]: its bytes). *)
Definition keep_wpa_ie (sm : wpa_sta) (malloc_ok : bool) (fresh : list Z) (ie : list Z) (len : nat) :
  option (wpa_validate_res * wpa_sta) :=
  let with_ie b := mk_sta (sta_wpa sm) (sta_pairwise sm) (sta_wpa_key_mgmt sm) b (sta_wpa_ie_len sm) in
  let copy old :=
    data ← slice ie 0 len;
    new ← wr old 0 data;
    Some (WPA_IE_OK, mk_sta (sta_wpa sm) (sta_pairwise sm) (sta_wpa_key_mgmt sm) (Some new) len) in
  match sta_wpa_ie sm with
  | Some old =>
      if (sta_wpa_ie_len sm <? len)%nat
      then if malloc_ok then copy fresh else Some (WPA_ALLOC_FAIL, with_ie None)
      else copy old
  | None => if malloc_ok then copy fresh else Some (WPA_ALLOC_FAIL, with_ie None)
  end.

(** The policy checks once the element is parsed. *)
Definition apply_policy (conf : wpa_auth_config) (rsn : bool) (data : wpa_ie_data) (sm : wpa_sta)
    (malloc_ok : bool) (fresh ie : list Z) (len : nat) : option (wpa_validate_res * wpa_sta) :=
  if negb (group_cipher data =? conf_wpa_group conf) then Some (WPA_INVALID_GROUP, sm)
  else
    let km := Z.land (key_mgmt data) (conf_wpa_key_mgmt conf) in
    if km =? 0 then Some (WPA_INVALID_AKMP, sm)
    else
      let km := if has km WPA_KEY_MGMT_IEEE8021X then WPA_KEY_MGMT_IEEE8021X else WPA_KEY_MGMT_PSK in
      let sm := mk_sta (sta_wpa sm) (sta_pairwise sm) km (sta_wpa_ie sm) (sta_wpa_ie_len sm) in
      let ciphers := Z.land (pairwise_cipher data)
                       (if rsn then conf_rsn_pairwise conf else conf_wpa_pairwise conf) in
      if ciphers =? 0 then Some (WPA_INVALID_PAIRWISE, sm)
      else
        let c := if has ciphers WPA_CIPHER_CCMP then WPA_CIPHER_CCMP else WPA_CIPHER_TKIP in
        let v := if rsn then WPA_VERSION_WPA2 else WPA_VERSION_WPA in
        let sm := mk_sta v c km (sta_wpa_ie sm) (sta_wpa_ie_len sm) in
        keep_wpa_ie sm malloc_ok fresh ie len.

(** [wpa_validate_wpa_ie]; the authenticator and the state machine are not
    [NULL] ([None] for the element is).  Returns the result, the recorded
    selectors and the station's fields. *)
Definition wpa_validate_wpa_ie (conf : wpa_auth_config) (sel : wpa_selected) (sm : wpa_sta)
    (malloc_ok : bool) (fresh : list Z) (wpa_ie : option (list Z)) (wpa_ie_len : nat) :
  option (wpa_validate_res * wpa_selected * wpa_sta) :=
  match wpa_ie with
  | None => Some (WPA_INVALID_IE, sel, sm)
  | Some ie =>
      if (wpa_ie_len <? 1)%nat then Some (WPA_INVALID_IE, sel, sm)
      else
        b0 ← ie !! 0%nat;
        let rsn := b0 =? WLAN_EID_RSN in
        if negb (has (conf_wpa conf) (if rsn then WPA_PROTO_RSN else WPA_PROTO_WPA))
        then Some (WPA_INVALID_PROTO, sel, sm)
        else
          '(res, data) ← (if rsn then wpa_parse_wpa_ie_rsn ie wpa_ie_len
                          else wpa_parse_wpa_ie_wpa ie wpa_ie_len);
          let sel := select_suites rsn data in
          if negb (res =? 0) then Some (WPA_INVALID_IE, sel, sm)
          else
            '(r, sm) ← apply_policy conf rsn data sm malloc_ok fresh ie wpa_ie_len;
            Some (r, sel, sm)
  end.

(** ** Key data of the handshake frames *)

(** [struct wpa_eapol_ie_parse] *)
Record wpa_eapol_ie_parse := mk_kde {
  kde_wpa_ie : option nat;
  kde_wpa_ie_len : nat;
  kde_rsn_ie : option nat;
  kde_rsn_ie_len : nat;
  kde_pmkid : option nat;
  kde_gtk : option nat;
  kde_gtk_len : nat;
  kde_mac_addr : option nat;
  kde_mac_addr_len : nat
}.

Definition kde_clear : wpa_eapol_ie_parse := mk_kde None 0 None 0 None None 0 None 0.

Definition kde_set_wpa (k : wpa_eapol_ie_parse) (p l : nat) : wpa_eapol_ie_parse :=
  mk_kde (Some p) l (kde_rsn_ie k) (kde_rsn_ie_len k) (kde_pmkid k) (kde_gtk k) (kde_gtk_len k)
    (kde_mac_addr k) (kde_mac_addr_len k).
Definition kde_set_rsn (k : wpa_eapol_ie_parse) (p l : nat) : wpa_eapol_ie_parse :=
  mk_kde (kde_wpa_ie k) (kde_wpa_ie_len k) (Some p) l (kde_pmkid k) (kde_gtk k) (kde_gtk_len k)
    (kde_mac_addr k) (kde_mac_addr_len k).
Definition kde_set_pmkid (k : wpa_eapol_ie_parse) (p : nat) : wpa_eapol_ie_parse :=
  mk_kde (kde_wpa_ie k) (kde_wpa_ie_len k) (kde_rsn_ie k) (kde_rsn_ie_len k) (Some p) (kde_gtk k)
    (kde_gtk_len k) (kde_mac_addr k) (kde_mac_addr_len k).
Definition kde_set_gtk (k : wpa_eapol_ie_parse) (p l : nat) : wpa_eapol_ie_parse :=
  mk_kde (kde_wpa_ie k) (kde_wpa_ie_len k) (kde_rsn_ie k) (kde_rsn_ie_len k) (kde_pmkid k) (Some p) l
    (kde_mac_addr k) (kde_mac_addr_len k).
Definition kde_set_mac (k : wpa_eapol_ie_parse) (p l : nat) : wpa_eapol_ie_parse :=
  mk_kde (kde_wpa_ie k) (kde_wpa_ie_len k) (kde_rsn_ie k) (kde_rsn_ie_len k) (kde_pmkid k) (kde_gtk k)
    (kde_gtk_len k) (Some p) l.

(** [a && b] where [b] reads memory: only evaluated when [a] holds. *)
Definition and_read (a : bool) (b : option bool) : option bool :=
  if a then b else Some false.

(** [RSN_SELECTOR_GET(p) == sel] *)
Definition selector_is (buf : list Z) (p : nat) (sel : Z) : option bool :=
  s ← WPA_GET_BE32 buf p; Some (s =? sel).

(** [wpa_parse_generic] *)
Definition wpa_parse_generic (buf : list Z) (pos end_ : nat) (k : wpa_eapol_ie_parse) :
  option (Z * wpa_eapol_ie_parse) :=
  l ← buf !! (pos + 1)%nat;
  let len := Z.to_nat l in
  if l =? 0 then Some (1, k)
  else
    is_wpa ← and_read (6 <=? l)
      (o ← selector_is buf (pos + 2) WPA_OUI_TYPE;
       and_read o (v0 ← buf !! (pos + 2 + WPA_SELECTOR_LEN)%nat;
                   and_read (v0 =? 1) (v1 ← buf !! (pos + 2 + WPA_SELECTOR_LEN + 1)%nat; Some (v1 =? 0))));
    if is_wpa : bool then Some (0, kde_set_wpa k pos (len + 2))
    else
      is_pmkid ← and_read ((pos + 1 + RSN_SELECTOR_LEN <? end_)%nat && (20 <=? l))
        (selector_is buf (pos + 2) RSN_KEY_DATA_PMKID);
      if is_pmkid : bool then Some (0, kde_set_pmkid k (pos + 2 + RSN_SELECTOR_LEN))
      else
        is_gtk ← and_read (6 <? l) (selector_is buf (pos + 2) RSN_KEY_DATA_GROUPKEY);
        if is_gtk : bool then Some (0, kde_set_gtk k (pos + 2 + RSN_SELECTOR_LEN) (len - RSN_SELECTOR_LEN))
        else
          is_mac ← and_read (6 <? l) (selector_is buf (pos + 2) RSN_KEY_DATA_MAC_ADDR);
          if is_mac : bool then Some (0, kde_set_mac k (pos + 2 + RSN_SELECTOR_LEN) (len - RSN_SELECTOR_LEN))
          else Some (0, k).

(** The loop of [wpa_parse_kde_ies] ([end_ - pos] turns are enough). *)
Fixpoint kde_loop (fuel : nat) (buf : list Z) (pos end_ : nat) (k : wpa_eapol_ie_parse) :
  option (Z * wpa_eapol_ie_parse) :=
  if (end_ <=? pos + 1)%nat then Some (0, k)
  else
    match fuel with
    | O => None
    | S f =>
        id ← buf !! pos;
        l ← buf !! (pos + 1)%nat;
        if (id =? 0xdd) && ((pos =? end_ - 1)%nat || (l =? 0)) then Some (0, k)
        else if (end_ <? pos + 2 + Z.to_nat l)%nat then Some (-1, k)
        else if id =? WLAN_EID_RSN then
          kde_loop f buf (pos + 2 + Z.to_nat l) end_ (kde_set_rsn k pos (Z.to_nat l + 2))
        else if id =? WLAN_EID_VENDOR_SPECIFIC then
          '(ret, k) ← wpa_parse_generic buf pos end_ k;
          if ret <? 0 then Some (ret, k)
          else if 0 <? ret then Some (0, k)
          else kde_loop f buf (pos + 2 + Z.to_nat l) end_ k
        else kde_loop f buf (pos + 2 + Z.to_nat l) end_ k
    end.

(** [wpa_parse_kde_ies] *)
Definition wpa_parse_kde_ies (buf : list Z) (len : nat) : option (Z * wpa_eapol_ie_parse) :=
  kde_loop len buf 0 len kde_clear.

(** ** Comparing elements, counters, key lengths *)

(** [wpa_fixup_wpa_ie_rsn] *)
Definition wpa_fixup_wpa_ie_rsn (assoc_ie wpa_msg_ie : list Z) (rsn_ie_len : nat) : option (list Z) :=
  let pos := (4 + RSN_SELECTOR_LEN)%nat in
  if (rsn_ie_len <? pos + 2)%nat then Some assoc_ie
  else
    count ← WPA_GET_LE16 wpa_msg_ie pos;
    let pos := (pos + 2 + Z.to_nat count * RSN_SELECTOR_LEN)%nat in
    if (rsn_ie_len <? pos + 2)%nat then Some assoc_ie
    else
      count ← WPA_GET_LE16 wpa_msg_ie pos;
      let pos := (pos + 2 + Z.to_nat count * RSN_SELECTOR_LEN)%nat in
      if (rsn_ie_len <? pos + 2)%nat then Some assoc_ie
      else
        a0 ← assoc_ie !! pos;
        a1 ← assoc_ie !! (pos + 1)%nat;
        m0 ← wpa_msg_ie !! pos;
        m1 ← wpa_msg_ie !! (pos + 1)%nat;
        if (a0 =? 0) && (a1 =? 0) && (negb (m0 =? 0) || negb (m1 =? 0))
        then wr assoc_ie pos [m0; m1] else Some assoc_ie.

(** [wpa_compare_rsn_ie]; [None] for an element is [NULL], [malloc_ok] tells
    whether the temporary copy could be allocated. *)
Definition wpa_compare_rsn_ie (malloc_ok : bool) (ie1 : option (list Z)) (ie1len : nat)
    (ie2 : option (list Z)) (ie2len : nat) : option Z :=
  match ie1, ie2 with
  | Some b1, Some b2 =>
      if (ie1len =? ie2len)%nat then
        d1 ← slice b1 0 ie1len;
        d2 ← slice b2 0 ie1len;
        if decide (d1 = d2) then Some 0
        else if negb malloc_ok then Some (-1)
        else
          t ← wpa_fixup_wpa_ie_rsn d1 b2 ie1len;
          if decide (t = d2) then Some 0 else Some (-1)
      else Some (-1)
  | _, _ => Some (-1)
  end.

(** The loop of [inc_byte_array], from [pos] down. *)
Fixpoint inc_loop (counter : list Z) (n : nat) : list Z :=
  match n with
  | O => counter
  | S pos =>
      let v := u8 (nth pos counter 0 + 1) in
      let counter := <[pos := v]> counter in
      if v =? 0 then inc_loop counter pos else counter
  end.

(** [inc_byte_array] on all the bytes of the array. *)
Definition inc_byte_array (counter : list Z) : list Z := inc_loop counter (length counter).

(** [wpa_cipher_key_len] *)
Definition wpa_cipher_key_len (cipher : Z) : Z :=
  if cipher =? WPA_CIPHER_CCMP then 16
  else if cipher =? WPA_CIPHER_TKIP then 32
  else if cipher =? WPA_CIPHER_WEP104 then 13
  else if cipher =? WPA_CIPHER_WEP40 then 5
  else 0.

(** ** Examples *)

Definition psk_ccmp : wpa_auth_config := mk_conf 2 2 16 16 16 0 0 0 0.

Example rsn_ie_psk_ccmp :
  wpa_write_rsn_ie psk_ccmp (replicate 22 0) 0 22 None
  = Some ([48; 20; 1; 0; 0; 15; 172; 4; 1; 0; 0; 15; 172; 4; 1; 0; 0; 15; 172; 2; 0; 0], 22).
Proof. reflexivity. Qed.

(** ** Sequences of writes *)

Lemma wr_field mem off pre old new post :
  mem = pre ++ old ++ post -> off = length pre -> length old = length new ->
  wr mem off new = Some (pre ++ new ++ post).
Proof. apply wr_at. Qed.

Lemma split_off {A} (l : list A) a b : length l = (a + b)%nat ->
  exists l1 l2, l = l1 ++ l2 /\ length l1 = a /\ length l2 = b.
Proof.
  intros H. exists (take a l), (drop a l).
  rewrite take_drop, length_take_le, length_drop by lia. split_and!; [done|done|lia].
Qed.

Fixpoint suites_bytes (l : list (bool * Z)) : list Z :=
  match l with
  | [] => []
  | (c, s) :: r => (if c : bool then WPA_PUT_BE32 s else []) ++ suites_bytes r
  end.

Fixpoint suites_count (l : list (bool * Z)) : nat :=
  match l with [] => 0 | (c, _) :: r => (if c : bool then 1 else 0) + suites_count r end.

Lemma length_suites l : length (suites_bytes l) = (4 * suites_count l)%nat.
Proof. induction l as [|[[] s] l IH]; simpl; lia. Qed.

Lemma put_suites_exact l : forall mem pos n pre old post,
  mem = pre ++ old ++ post -> pos = length pre -> length old = length (suites_bytes l) ->
  put_suites mem pos n l
  = Some (pre ++ suites_bytes l ++ post, (pos + 4 * suites_count l)%nat, n + Z.of_nat (suites_count l)).
Proof.
  induction l as [|[c s] l IH]; intros mem pos n pre old post -> -> Hl.
  - destruct old; [|done]. cbn. by rewrite Nat.add_0_r, Z.add_0_r.
  - destruct c.
    + change (suites_bytes ((true, s) :: l)) with (WPA_PUT_BE32 s ++ suites_bytes l) in *.
      rewrite length_app in Hl. destruct (split_off old 4 _ Hl) as (o1 & o2 & -> & H1 & H2).
      cbn [put_suites suites_count]. rewrite <- app_assoc.
      rewrite (wr_field _ _ pre o1 (WPA_PUT_BE32 s) (o2 ++ post)) by done. cbn [mbind option_bind].
      rewrite (IH _ _ _ (pre ++ WPA_PUT_BE32 s) o2 post);
        [|by rewrite <- app_assoc|by rewrite length_app|done].
      f_equal. f_equal; [f_equal; [by rewrite <- !app_assoc|unfold RSN_SELECTOR_LEN; lia]|lia].
    + cbn [put_suites suites_count suites_bytes app]. by apply IH with old.
Qed.

(** ** The bytes of the elements *)

Definition ie_tail (sel : Z) (pairwise akm : list (bool * Z)) : list Z :=
  WPA_PUT_BE32 sel ++ WPA_PUT_LE16 (Z.of_nat (suites_count pairwise)) ++ suites_bytes pairwise ++
  WPA_PUT_LE16 (Z.of_nat (suites_count akm)) ++ suites_bytes akm.

Definition pmkid_bytes (pmkid : option (list Z)) : list Z :=
  match pmkid with Some id => WPA_PUT_LE16 1 ++ take PMKID_LEN id | None => [] end.

Definition rsn_ie_body (conf : wpa_auth_config) (sel : Z) (pmkid : option (list Z)) : list Z :=
  [1; 0] ++ ie_tail sel (rsn_pairwise_suites (conf_rsn_pairwise conf)) (rsn_akm_suites (conf_wpa_key_mgmt conf)) ++
  WPA_PUT_LE16 (rsn_capab conf) ++ pmkid_bytes pmkid.

Definition wpa_ie_body (conf : wpa_auth_config) (sel : Z) : list Z :=
  [0x00; 0x50; 0xf2; 1; 1; 0] ++
  ie_tail sel (wpa_pairwise_suites (conf_wpa_pairwise conf)) (wpa_akm_suites (conf_wpa_key_mgmt conf)).

Lemma suites_count_le l : (suites_count l <= length l)%nat.
Proof. induction l as [|[[] s] l IH]; simpl; lia. Qed.

Lemma length_put_le16 v : length (WPA_PUT_LE16 v) = 2%nat.
Proof. done. Qed.

Lemma length_put_be32 v : length (WPA_PUT_BE32 v) = 4%nat.
Proof. done. Qed.

Ltac len_tac :=
  rewrite ?length_app, ?length_put_le16, ?length_put_be32; cbn [length];
  unfold RSN_SELECTOR_LEN, WPA_SELECTOR_LEN in *; lia.

Ltac wr_step pre old new post :=
  rewrite (wr_field _ _ pre old new post);
    [cbn [mbind option_bind]
    |by rewrite <- ?app_assoc
    |len_tac
    |rewrite ?length_put_le16, ?length_put_be32; (assumption || done)].

Lemma length_ie_tail sel pw akm :
  length (ie_tail sel pw akm) = (8 + 4 * suites_count pw + 4 * suites_count akm)%nat.
Proof. unfold ie_tail. rewrite !length_app, !length_suites. simpl. lia. Qed.

(** The number of bytes of an RSN element. *)
Definition rsn_ie_size (conf : wpa_auth_config) (pmkid : option (list Z)) : nat :=
  14 + 4 * suites_count (rsn_pairwise_suites (conf_rsn_pairwise conf)) +
  4 * suites_count (rsn_akm_suites (conf_wpa_key_mgmt conf)) +
  (if pmkid then 18 else 0).

Lemma length_rsn_ie conf sel pmkid :
  match pmkid with Some id => length id = PMKID_LEN | None => True end ->
  length (encode_ie (48, rsn_ie_body conf sel pmkid)) = rsn_ie_size conf pmkid.
Proof.
  intros Hp. rewrite length_encode_ie. unfold rsn_ie_size, rsn_ie_body. cbn [snd].
  rewrite !length_app, length_ie_tail, length_put_le16. destruct pmkid as [id|]; cbn [pmkid_bytes length].
  - rewrite length_app, length_put_le16, length_take_le by (rewrite Hp; done). unfold PMKID_LEN. lia.
  - lia.
Qed.

Lemma put_policy_exact mem pos sel pw ak pre old post :
  mem = pre ++ old ++ post -> pos = length pre -> length old = length (ie_tail sel pw ak) ->
  suites_count pw <> 0%nat -> suites_count ak <> 0%nat ->
  put_policy mem pos (Some sel) pw ak
  = Some (pre ++ ie_tail sel pw ak ++ post, Some (pos + length (ie_tail sel pw ak))%nat).
Proof.
  intros -> -> Hold Hpw Hak. rewrite length_ie_tail in *. unfold put_policy, ie_tail.
  pose proof (length_suites pw) as Lpw. pose proof (length_suites ak) as Lak.
  destruct (split_off old 4 (4 + 4 * suites_count pw + 4 * suites_count ak)) as (og & r3 & -> & Lg & R3); [lia|].
  destruct (split_off r3 2 (2 + 4 * suites_count pw + 4 * suites_count ak)) as (oc & r4 & -> & Lc & R4); [lia|].
  destruct (split_off r4 (4 * suites_count pw) (2 + 4 * suites_count ak)) as (op & r5 & -> & Lp & R5); [lia|].
  destruct (split_off r5 2 (4 * suites_count ak)) as (od & oa & -> & Ld & La); [lia|].
  wr_step pre og (WPA_PUT_BE32 sel) (oc ++ op ++ od ++ oa ++ post).
  set (g := WPA_PUT_BE32 sel) in *. assert (length g = 4%nat) by done.
  rewrite (put_suites_exact pw _ _ _ (pre ++ g ++ oc) op (od ++ oa ++ post));
    [|by rewrite <- ?app_assoc|len_tac|lia].
  cbn [mbind option_bind]. rewrite Z.add_0_l, (proj2 (Z.eqb_neq _ _)) by lia.
  set (np := WPA_PUT_LE16 (Z.of_nat (suites_count pw))) in *. assert (length np = 2%nat) by done.
  wr_step (pre ++ g) oc np (suites_bytes pw ++ od ++ oa ++ post).
  rewrite (put_suites_exact ak _ _ _ (pre ++ g ++ np ++ suites_bytes pw ++ od) oa post);
    [|by rewrite <- ?app_assoc|len_tac|lia].
  cbn [mbind option_bind]. rewrite Z.add_0_l, (proj2 (Z.eqb_neq _ _)) by lia.
  set (na := WPA_PUT_LE16 (Z.of_nat (suites_count ak))) in *. assert (length na = 2%nat) by done.
  wr_step (pre ++ g ++ np ++ suites_bytes pw) od na (suites_bytes ak ++ post).
  f_equal. f_equal; [by rewrite <- !app_assoc|]. f_equal. unfold RSN_SELECTOR_LEN. lia.
Qed.

Lemma put_pmkid_exact mem pos end_ pmkid pre old post :
  mem = pre ++ old ++ post -> pos = length pre -> length old = length (pmkid_bytes pmkid) ->
  match pmkid with Some id => length id = PMKID_LEN | None => True end ->
  (pos + length old <= end_)%nat ->
  put_pmkid mem pos end_ pmkid
  = Some (pre ++ pmkid_bytes pmkid ++ post, Some (pos + length (pmkid_bytes pmkid))%nat).
Proof.
  intros -> -> Hold Hid Hend. unfold put_pmkid, pmkid_bytes in *. destruct pmkid as [id|].
  - rewrite take_ge in * by lia. rewrite length_app, length_put_le16, Hid in *.
    destruct (split_off old 2 16) as (o1 & o2 & -> & L1 & L2); [done|]. rewrite length_app in Hend.
    unfold PMKID_LEN in *. rewrite (proj2 (Nat.ltb_ge _ _)) by lia.
    wr_step pre o1 (WPA_PUT_LE16 1) (o2 ++ post).
    rewrite (wr_field _ _ (pre ++ WPA_PUT_LE16 1) o2 id post); [|by rewrite <- app_assoc|by rewrite length_app|lia].
    cbn [mbind option_bind]. f_equal. f_equal; [by rewrite <- !app_assoc|]. f_equal. lia.
  - destruct old; [|done]. cbn. by rewrite Nat.add_0_r.
Qed.

Lemma write_rsn_exact conf pmkid sel mem pre old post len :
  rsn_group_selector (conf_wpa_group conf) = Some sel ->
  suites_count (rsn_pairwise_suites (conf_rsn_pairwise conf)) <> 0%nat ->
  suites_count (rsn_akm_suites (conf_wpa_key_mgmt conf)) <> 0%nat ->
  match pmkid with Some id => length id = PMKID_LEN | None => True end ->
  (rsn_ie_size conf pmkid <= len)%nat ->
  mem = pre ++ old ++ post -> length old = rsn_ie_size conf pmkid ->
  wpa_write_rsn_ie conf mem (length pre) len pmkid
  = Some (pre ++ encode_ie (48, rsn_ie_body conf sel pmkid) ++ post, Z.of_nat (rsn_ie_size conf pmkid)).
Proof.
  intros Hs Hpw Hak Hpm Hlen -> Hold.
  pose proof (length_rsn_ie conf sel pmkid Hpm) as Hsz. rewrite length_encode_ie in Hsz. cbn [snd] in Hsz.
  unfold wpa_write_rsn_ie, encode_ie, rsn_ie_body in *. cbn [fst snd] in *. rewrite Hs.
  assert (rsn_ie_size conf pmkid < 256)%nat as Hsmall.
  { unfold rsn_ie_size. pose proof (suites_count_le (rsn_pairwise_suites (conf_rsn_pairwise conf))).
    pose proof (suites_count_le (rsn_akm_suites (conf_wpa_key_mgmt conf))).
    unfold rsn_pairwise_suites, rsn_akm_suites in *. cbn [length] in *. destruct pmkid; lia. }
  set (n := rsn_ie_size conf pmkid) in *. rewrite !length_app in Hsz.
  set (t := ie_tail sel _ _) in *. set (x := pmkid_bytes pmkid) in *.
  rewrite length_put_le16 in Hsz. change (length [1; 0]) with 2%nat in Hsz.
  destruct (split_off old 1 (1 + 2 + length t + 2 + length x)) as (o0 & r & -> & L0 & R); [lia|].
  destruct (split_off r 1 (2 + length t + 2 + length x)) as (o1 & r1 & -> & L1 & R1); [lia|].
  destruct (split_off r1 2 (length t + 2 + length x)) as (ov & r2 & -> & Lv & R2); [lia|].
  destruct (split_off r2 (length t) (2 + length x)) as (ot & r3 & -> & Lt & R3); [lia|].
  destruct (split_off r3 2 (length x)) as (oc & ox & -> & Lc & Lx); [lia|].
  wr_step pre o0 [48] (o1 ++ ov ++ ot ++ oc ++ ox ++ post).
  change (WPA_PUT_LE16 RSN_VERSION) with [1; 0].
  wr_step (pre ++ [48] ++ o1) ov [1; 0] (ot ++ oc ++ ox ++ post).
  erewrite (put_policy_exact _ _ sel _ _ (pre ++ [48] ++ o1 ++ [1; 0]) ot (oc ++ ox ++ post));
    [|by rewrite <- ?app_assoc|len_tac|done|done|done].
  cbn [mbind option_bind]. fold t.
  wr_step (pre ++ [48] ++ o1 ++ [1; 0] ++ t) oc (WPA_PUT_LE16 (rsn_capab conf)) (ox ++ post).
  set (c := WPA_PUT_LE16 (rsn_capab conf)) in *. assert (length c = 2%nat) by done.
  rewrite (put_pmkid_exact _ _ _ pmkid (pre ++ [48] ++ o1 ++ [1; 0] ++ t ++ c) ox post);
    [|by rewrite <- ?app_assoc|len_tac|done|done|lia].
  cbn [mbind option_bind]. fold x.
  set (l := u8 _). wr_step (pre ++ [48]) o1 [l] ([1; 0] ++ t ++ c ++ x ++ post).
  assert (l = Z.of_nat (length ([1; 0] ++ t ++ c ++ x))) as ->.
  { unfold l. rewrite !length_app. change (length [1; 0]) with 2%nat. rewrite u8_small; lia. }
  f_equal. f_equal; [rewrite <- !app_assoc; cbn [app]; by rewrite <- !app_assoc|lia].
Qed.

(** The number of bytes of a WPA element. *)
Definition wpa_ie_size (conf : wpa_auth_config) : nat :=
  16 + 4 * suites_count (wpa_pairwise_suites (conf_wpa_pairwise conf)) +
  4 * suites_count (wpa_akm_suites (conf_wpa_key_mgmt conf)).

Lemma length_wpa_ie conf sel : length (encode_ie (221, wpa_ie_body conf sel)) = wpa_ie_size conf.
Proof.
  rewrite length_encode_ie. unfold wpa_ie_size, wpa_ie_body. cbn [snd].
  rewrite length_app, length_ie_tail. cbn [length]. lia.
Qed.

Lemma write_wpa_exact conf sel mem pre old post :
  wpa_group_selector (conf_wpa_group conf) = Some sel ->
  suites_count (wpa_pairwise_suites (conf_wpa_pairwise conf)) <> 0%nat ->
  suites_count (wpa_akm_suites (conf_wpa_key_mgmt conf)) <> 0%nat ->
  mem = pre ++ old ++ post -> length old = wpa_ie_size conf ->
  wpa_write_wpa_ie conf mem (length pre)
  = Some (pre ++ encode_ie (221, wpa_ie_body conf sel) ++ post, Z.of_nat (wpa_ie_size conf)).
Proof.
  intros Hs Hpw Hak -> Hold.
  pose proof (length_wpa_ie conf sel) as Hsz. rewrite length_encode_ie in Hsz. cbn [snd] in Hsz.
  unfold wpa_write_wpa_ie, encode_ie, wpa_ie_body in *. cbn [fst snd] in *. rewrite Hs.
  assert (wpa_ie_size conf < 256)%nat as Hsmall.
  { unfold wpa_ie_size. pose proof (suites_count_le (wpa_pairwise_suites (conf_wpa_pairwise conf))).
    pose proof (suites_count_le (wpa_akm_suites (conf_wpa_key_mgmt conf))).
    unfold wpa_pairwise_suites, wpa_akm_suites in *. cbn [length] in *. lia. }
  set (n := wpa_ie_size conf) in *. rewrite length_app in Hsz. set (t := ie_tail sel _ _) in *.
  change (length [0x00; 0x50; 0xf2; 1; 1; 0]) with 6%nat in Hsz.
  destruct (split_off old 1 (1 + 4 + 2 + length t)) as (o0 & r & -> & L0 & R); [lia|].
  destruct (split_off r 1 (4 + 2 + length t)) as (o1 & r1 & -> & L1 & R1); [lia|].
  destruct (split_off r1 4 (2 + length t)) as (os & r2 & -> & Ls & R2); [lia|].
  destruct (split_off r2 2 (length t)) as (ov & ot & -> & Lv & Lt); [lia|].
  wr_step pre o0 [221] (o1 ++ os ++ ov ++ ot ++ post).
  change (WPA_PUT_BE32 WPA_OUI_TYPE) with [0x00; 0x50; 0xf2; 1].
  wr_step (pre ++ [221] ++ o1) os [0x00; 0x50; 0xf2; 1] (ov ++ ot ++ post).
  change (WPA_PUT_LE16 WPA_VERSION) with [1; 0].
  wr_step (pre ++ [221] ++ o1 ++ [0x00; 0x50; 0xf2; 1]) ov [1; 0] (ot ++ post).
  rewrite (put_policy_exact _ _ sel _ _ (pre ++ [221] ++ o1 ++ [0x00; 0x50; 0xf2; 1] ++ [1; 0]) ot post);
    [|by rewrite <- ?app_assoc|len_tac|done|done|done].
  cbn [mbind option_bind]. fold t.
  set (l := u8 _). wr_step (pre ++ [221]) o1 [l] ([0x00; 0x50; 0xf2; 1] ++ [1; 0] ++ t ++ post).
  assert (l = Z.of_nat (length ([0x00; 0x50; 0xf2; 1; 1; 0] ++ t))) as ->.
  { unfold l. rewrite length_app. change (length [0x00; 0x50; 0xf2; 1; 1; 0]) with 6%nat. rewrite u8_small; lia. }
  f_equal. f_equal; [|lia]. rewrite <- !app_assoc. cbn [app]. by rewrite <- ?app_assoc.
Qed.

(** ** Parsing what was written *)

Lemma land_pow2 p k : 0 <= k -> Z.land p (2 ^ k) = if Z.testbit p k then 2 ^ k else 0.
Proof.
  intros Hk. apply Z.bits_inj'. intros n Hn. rewrite Z.land_spec, Z.pow2_bits_eqb by done.
  destruct (Z.eqb_spec k n) as [->|Hne].
  - rewrite andb_true_r. destruct (Z.testbit p n); [by rewrite Z.pow2_bits_true|by rewrite Z.bits_0].
  - rewrite andb_false_r. destruct (Z.testbit p k); [by rewrite Z.pow2_bits_false by lia|by rewrite Z.bits_0].
Qed.

Lemma if_has p k : 0 <= k -> (if has p (2 ^ k) then 2 ^ k else 0) = Z.land p (2 ^ k).
Proof.
  intros Hk. unfold has. rewrite land_pow2 by done. pose proof (Z.pow_pos_nonneg 2 k).
  destruct (Z.testbit p k); [|done]. by rewrite (proj2 (Z.eqb_neq _ _)) by lia.
Qed.

(** The bit field of a list of suites. *)
Fixpoint or_suites (conv : Z -> Z) (l : list (bool * Z)) : Z :=
  match l with
  | [] => 0
  | (c, s) :: r => Z.lor (if c : bool then conv s else 0) (or_suites conv r)
  end.

Lemma or_selectors_suites conv l : forall pre post acc,
  Forall (fun p => 0 <= p.2 < 2 ^ 32) l ->
  or_selectors conv (pre ++ suites_bytes l ++ post) (length pre) (suites_count l) acc
  = Some (Z.lor acc (or_suites conv l)).
Proof.
  induction l as [|[c s] l IH]; intros pre post acc Hl.
  - cbn. by rewrite Z.lor_0_r.
  - apply list.Forall_cons_1 in Hl as [Hs Hl]. cbn [snd] in Hs.
    cbn [suites_bytes suites_count or_suites]. destruct c.
    + cbn [or_selectors Nat.add]. rewrite <- app_assoc, get_put_be32, u32_small by done.
      cbn [mbind option_bind]. specialize (IH (pre ++ WPA_PUT_BE32 s) post (Z.lor acc (conv s)) Hl).
      rewrite <- app_assoc, length_app, length_put_be32 in IH. unfold RSN_SELECTOR_LEN. rewrite IH. by rewrite Z.lor_assoc.
    + rewrite Z.lor_0_l. by apply IH.
Qed.

Lemma parse_group_exact conv buf pos pre sel post d left :
  buf = pre ++ WPA_PUT_BE32 sel ++ post -> pos = length pre ->
  0 <= sel < 2 ^ 32 -> 4 <= left ->
  parse_group conv buf d pos left = Some (Go (set_group d (conv sel)) (pos + 4) (left - 4)).
Proof.
  intros -> -> Hs Hl. unfold parse_group. rewrite (proj2 (Z.leb_le _ _)) by done.
  by rewrite get_put_be32, u32_small by done.
Qed.

Lemma parse_suites_exact conv set botch short buf pos pre l post d left :
  buf = pre ++ WPA_PUT_LE16 (Z.of_nat (suites_count l)) ++ suites_bytes l ++ post -> pos = length pre ->
  Forall (fun p => 0 <= p.2 < 2 ^ 32) l -> suites_count l <> 0%nat -> Z.of_nat (suites_count l) < 65536 ->
  2 + 4 * Z.of_nat (suites_count l) <= left -> (forall v w, set (set d v) w = set d w) ->
  parse_suites conv set botch short buf d pos left
  = Some (Go (set d (or_suites conv l)) (pos + 2 + 4 * suites_count l)
            (left - 2 - 4 * Z.of_nat (suites_count l))).
Proof.
  intros -> -> Hl H0 H16 Hleft Hset. unfold parse_suites. rewrite (proj2 (Z.leb_le _ _)) by lia.
  rewrite get_put_le16, u16_small by lia. cbn [mbind option_bind].
  rewrite (proj2 (Z.eqb_neq _ _)), (proj2 (Z.ltb_ge _ _)) by lia. cbn [orb].
  pose proof (or_selectors_suites conv l (pre ++ WPA_PUT_LE16 (Z.of_nat (suites_count l))) post 0 Hl) as H.
  rewrite <- app_assoc, length_app, length_put_le16 in H. rewrite Nat2Z.id, H. cbn [mbind option_bind].
  rewrite Hset. do 2 f_equal; lia.
Qed.

Lemma parse_capab_exact buf pos pre v post d left :
  buf = pre ++ WPA_PUT_LE16 v ++ post -> pos = length pre -> 0 <= v < 65536 -> 2 <= left ->
  parse_capab buf d pos left = Some (Go (set_capabilities d v) (pos + 2) (left - 2)).
Proof.
  intros -> -> Hv Hl. unfold parse_capab. rewrite (proj2 (Z.leb_le _ _)) by done.
  by rewrite get_put_le16, u16_small by done.
Qed.

Lemma or_suites_none conv l : suites_count l = 0%nat -> or_suites conv l = 0.
Proof. induction l as [|[[] s] l IH]; simpl; [done|done|]. intros H. by rewrite IH. Qed.

Lemma or_rsn_pairwise p : or_suites rsn_selector_to_bitfield (rsn_pairwise_suites p) = Z.land p 25.
Proof.
  unfold rsn_pairwise_suites. cbn [or_suites].
  change (rsn_selector_to_bitfield RSN_CIPHER_SUITE_CCMP) with (2 ^ 4).
  change (rsn_selector_to_bitfield RSN_CIPHER_SUITE_TKIP) with (2 ^ 3).
  change (rsn_selector_to_bitfield RSN_CIPHER_SUITE_NONE) with (2 ^ 0).
  change WPA_CIPHER_CCMP with (2 ^ 4). change WPA_CIPHER_TKIP with (2 ^ 3). change WPA_CIPHER_NONE with (2 ^ 0).
  rewrite !if_has by done. by rewrite Z.lor_0_r, <- !Z.land_lor_distr_r.
Qed.

Lemma or_rsn_akm k : or_suites rsn_key_mgmt_to_bitfield (rsn_akm_suites k) = Z.land k 3.
Proof.
  unfold rsn_akm_suites. cbn [or_suites].
  change (rsn_key_mgmt_to_bitfield RSN_AUTH_KEY_MGMT_UNSPEC_802_1X) with (2 ^ 0).
  change (rsn_key_mgmt_to_bitfield RSN_AUTH_KEY_MGMT_PSK_OVER_802_1X) with (2 ^ 1).
  change WPA_KEY_MGMT_IEEE8021X with (2 ^ 0). change WPA_KEY_MGMT_PSK with (2 ^ 1).
  rewrite !if_has by done. by rewrite Z.lor_0_r, <- Z.land_lor_distr_r.
Qed.

Lemma rsn_suites_u32 p k :
  Forall (fun x => 0 <= x.2 < 2 ^ 32) (rsn_pairwise_suites p) /\
  Forall (fun x => 0 <= x.2 < 2 ^ 32) (rsn_akm_suites k).
Proof. split; repeat constructor; cbn [snd]; vm_compute; done. Qed.

Lemma rsn_group_exact g sel : rsn_group_selector g = Some sel ->
  rsn_selector_to_bitfield sel = g /\ 0 <= sel < 2 ^ 32.
Proof.
  unfold rsn_group_selector. intros H.
  repeat (case_test; [injection H as <-; subst g; vm_compute; done|]). done.
Qed.

Lemma rsn_capab_range conf : 0 <= rsn_capab conf < 65536.
Proof. unfold rsn_capab. repeat case_match; vm_compute; done. Qed.

(** A policy that can be announced: a group cipher of the four kinds, a
    pairwise cipher and a key management that have a selector. *)
Definition rsn_policy (conf : wpa_auth_config) : bool :=
  bool_decide (conf_wpa_group conf ∈ [WPA_CIPHER_CCMP; WPA_CIPHER_TKIP; WPA_CIPHER_WEP104; WPA_CIPHER_WEP40]) &&
  has (conf_rsn_pairwise conf) 25 && has (conf_wpa_key_mgmt conf) 3.

Lemma rsn_policy_writes conf : rsn_policy conf = true ->
  (exists sel, rsn_group_selector (conf_wpa_group conf) = Some sel) /\
  suites_count (rsn_pairwise_suites (conf_rsn_pairwise conf)) <> 0%nat /\
  suites_count (rsn_akm_suites (conf_wpa_key_mgmt conf)) <> 0%nat.
Proof.
  unfold rsn_policy, has. intros [[Hg%bool_decide_eq_true Hp]%andb_true_iff Hk]%andb_true_iff.
  bool_to_prop. split_and!.
  - rewrite !elem_of_cons in Hg. unfold rsn_group_selector.
    repeat destruct Hg as [->|Hg]; try (by eexists; vm_compute). by apply elem_of_nil in Hg.
  - intros H. apply (or_suites_none rsn_selector_to_bitfield) in H. by rewrite or_rsn_pairwise in H.
  - intros H. apply (or_suites_none rsn_key_mgmt_to_bitfield) in H. by rewrite or_rsn_akm in H.
Qed.

(** What the parser gets from the element of a configuration. *)
Definition announced (conf : wpa_auth_config) (pmkid : option (list Z)) : wpa_ie_data :=
  mk_ie_data WPA_PROTO_RSN (Z.land (conf_rsn_pairwise conf) 25) (conf_wpa_group conf)
    (Z.land (conf_wpa_key_mgmt conf) 3) (rsn_capab conf) (if pmkid then 1 else 0)
    (if pmkid then Some (rsn_ie_size conf pmkid - 16)%nat else None) 0.

Lemma parse_pmkid_exact buf pos pmkid pre d left :
  buf = pre ++ pmkid_bytes pmkid -> pos = length pre ->
  match pmkid with Some id => length id = PMKID_LEN | None => True end ->
  left = Z.of_nat (length (pmkid_bytes pmkid)) ->
  parse_result (parse_pmkid buf d pos left)
  = Some (0, match pmkid with Some _ => set_pmkid d 1 (Some (pos + 2)%nat) | None => d end).
Proof.
  intros -> -> Hid ->. unfold parse_pmkid. destruct pmkid as [id|]; [|done]. cbn [pmkid_bytes].
  rewrite take_ge by lia. rewrite length_app, length_put_le16, Hid.
  rewrite get_put_le16. reflexivity.
Qed.

(** The three fields that both kinds of element have. *)
Lemma parse_tail_exact conv aconv buf pos pre sel pw ak post d left k :
  buf = pre ++ ie_tail sel pw ak ++ post -> pos = length pre ->
  0 <= sel < 2 ^ 32 -> Forall (fun p => 0 <= p.2 < 2 ^ 32) pw -> Forall (fun p => 0 <= p.2 < 2 ^ 32) ak ->
  suites_count pw <> 0%nat -> suites_count ak <> 0%nat -> (length pw < 10)%nat -> (length ak < 10)%nat ->
  Z.of_nat (length (ie_tail sel pw ak)) <= left ->
  (parse_group conv buf d pos left ;>
   fun d p l => parse_suites conv set_pairwise (-4) (-5) buf d p l ;>
   fun d p l => parse_suites aconv set_key_mgmt (-6) (-7) buf d p l ;> k)
  = k (set_key_mgmt (set_pairwise (set_group d (conv sel)) (or_suites conv pw)) (or_suites aconv ak))
      (pos + length (ie_tail sel pw ak))%nat (left - Z.of_nat (length (ie_tail sel pw ak))).
Proof.
  intros Hb -> Hs Fpw Fak Hpw Hak Lpw Lak Hl. rewrite length_ie_tail in *. unfold ie_tail in Hb.
  pose proof (suites_count_le pw). pose proof (suites_count_le ak).
  pose proof (length_suites pw). pose proof (length_suites ak).
  rewrite (parse_group_exact conv buf (length pre) pre sel
    (WPA_PUT_LE16 (Z.of_nat (suites_count pw)) ++ suites_bytes pw ++
     WPA_PUT_LE16 (Z.of_nat (suites_count ak)) ++ suites_bytes ak ++ post));
    [|by rewrite Hb, <- !app_assoc|done|done|lia].
  cbn [and_then].
  rewrite (parse_suites_exact conv _ _ _ buf _ (pre ++ WPA_PUT_BE32 sel) pw
    (WPA_PUT_LE16 (Z.of_nat (suites_count ak)) ++ suites_bytes ak ++ post));
    [|by rewrite Hb, <- !app_assoc|len_tac|done|done|lia|lia|done].
  cbn [and_then].
  rewrite (parse_suites_exact aconv _ _ _ buf _
    (pre ++ WPA_PUT_BE32 sel ++ WPA_PUT_LE16 (Z.of_nat (suites_count pw)) ++ suites_bytes pw) ak post);
    [|by rewrite Hb, <- !app_assoc|len_tac|done|done|lia|lia|done].
  cbn [and_then]. f_equal; lia.
Qed.

Lemma parse_rsn_exact conf sel pmkid :
  rsn_group_selector (conf_wpa_group conf) = Some sel ->
  suites_count (rsn_pairwise_suites (conf_rsn_pairwise conf)) <> 0%nat ->
  suites_count (rsn_akm_suites (conf_wpa_key_mgmt conf)) <> 0%nat ->
  match pmkid with Some id => length id = PMKID_LEN | None => True end ->
  wpa_parse_wpa_ie_rsn (encode_ie (48, rsn_ie_body conf sel pmkid)) (rsn_ie_size conf pmkid)
  = Some (0, announced conf pmkid).
Proof.
  intros Hs Hpw Hak Hpm. pose proof (length_rsn_ie conf sel pmkid Hpm) as Hsz.
  destruct (rsn_group_exact _ _ Hs) as [Hg Hsel].
  destruct (rsn_suites_u32 (conf_rsn_pairwise conf) (conf_wpa_key_mgmt conf)) as [Fpw Fak].
  rewrite length_encode_ie in Hsz. cbn [snd] in Hsz. unfold announced.
  rewrite <- or_rsn_pairwise, <- or_rsn_akm, <- Hg.
  set (n := rsn_ie_size conf pmkid) in *. unfold wpa_parse_wpa_ie_rsn, encode_ie. cbn [fst snd].
  unfold rsn_ie_body in *. set (t := ie_tail _ _ _) in *. set (x := pmkid_bytes pmkid) in *.
  set (k := Z.of_nat (length ([1; 0] ++ t ++ WPA_PUT_LE16 (rsn_capab conf) ++ x))).
  rewrite !length_app, length_put_le16 in Hsz. change (length [1; 0]) with 2%nat in Hsz.
  assert (k = Z.of_nat n - 2) as Hk.
  { unfold k. rewrite !length_app, length_put_le16. change (length [1; 0]) with 2%nat. lia. }
  rewrite (proj2 (Nat.eqb_neq _ _)), (proj2 (Nat.ltb_ge _ _)) by lia.
  pose proof (get_put_le16 [48; k] 1 (t ++ WPA_PUT_LE16 (rsn_capab conf) ++ x)) as Hv.
  change (WPA_PUT_LE16 1) with [1; 0] in Hv.
  cbn [app length lookup list_lookup mbind option_bind] in *. rewrite Hv. cbn [mbind option_bind]. rewrite <- Hk, !Z.eqb_refl.
  change (u16 1 =? RSN_VERSION) with true. cbn [negb orb].
  set (b := 48 :: k :: _).
  erewrite (parse_tail_exact _ _ b 4 [48; k; 1; 0] sel _ _ (WPA_PUT_LE16 (rsn_capab conf) ++ x));
    [|done..|simpl; lia|simpl; lia|fold t; lia].
  fold t. pose proof (rsn_capab_range conf).
  rewrite (parse_capab_exact b _ ([48; k; 1; 0] ++ t) (rsn_capab conf) x);
    [|by rewrite <- app_assoc|done|done|lia].
  cbn [and_then].
  rewrite (parse_pmkid_exact b _ pmkid ([48; k; 1; 0] ++ t ++ WPA_PUT_LE16 (rsn_capab conf)));
    [|by rewrite <- !app_assoc|rewrite !length_app, length_put_le16; cbn [length]; lia|done|fold x; lia].
  f_equal. f_equal. destruct pmkid as [id|]; [|done].
  assert (length x = 18%nat) by (unfold x; cbn [pmkid_bytes]; by rewrite length_app, take_ge, Hpm by (rewrite Hpm; lia)).
  assert (4 + length t + 2 + 2 = n - 16)%nat as -> by lia. done.
Qed.

(** ** Writes that end early *)

Lemma wr_some mem off bs : (off + length bs <= length mem)%nat ->
  exists mem', wr mem off bs = Some mem' /\ length mem' = length mem.
Proof.
  intros H. unfold wr. rewrite (proj2 (Nat.leb_le _ _)) by done. eexists. split; [done|].
  rewrite !length_app, length_take_le, length_drop by lia. lia.
Qed.

Ltac wr_ok :=
  match goal with
  | |- context [wr ?m ?o ?b] =>
      let m' := fresh "m" in let H := fresh "H" in let L := fresh "L" in
      destruct (wr_some m o b) as (m' & H & L);
        [rewrite ?length_put_le16, ?length_put_be32; unfold RSN_SELECTOR_LEN in *; cbn [length]; lia
        |rewrite H; cbn [mbind option_bind]]
  end.

Lemma put_suites_some l : forall mem pos n,
  (pos + 4 * suites_count l <= length mem)%nat ->
  exists mem', put_suites mem pos n l
    = Some (mem', (pos + 4 * suites_count l)%nat, n + Z.of_nat (suites_count l)) /\ length mem' = length mem.
Proof.
  induction l as [|[[] s] l IH]; intros mem pos n Hl; cbn [put_suites suites_count] in *.
  - exists mem. split; [|done]. f_equal. f_equal; [f_equal; lia|lia].
  - wr_ok. destruct (IH m (pos + RSN_SELECTOR_LEN)%nat (n + 1)) as (m' & -> & L');
      [unfold RSN_SELECTOR_LEN; lia|].
    exists m'. split; [|lia]. f_equal. f_equal; [f_equal; unfold RSN_SELECTOR_LEN; lia|lia].
  - by apply IH.
Qed.

Lemma put_policy_refuses mem pos group pw ak :
  group = None \/ suites_count pw = 0%nat \/ suites_count ak = 0%nat ->
  (pos + 8 + 4 * length pw + 4 * length ak <= length mem)%nat ->
  exists mem', put_policy mem pos group pw ak = Some (mem', None).
Proof.
  intros H Hl. pose proof (suites_count_le pw). pose proof (suites_count_le ak).
  unfold put_policy. destruct group as [sel|]; [|by eexists]. wr_ok.
  destruct (put_suites_some pw m (pos + RSN_SELECTOR_LEN + 2) 0) as (m1 & -> & L1);
    [unfold RSN_SELECTOR_LEN; lia|].
  cbn [mbind option_bind]. case_test; [by eexists|]. wr_ok.
  destruct (put_suites_some ak m0 (pos + RSN_SELECTOR_LEN + 2 + 4 * suites_count pw + 2) 0) as (m2 & -> & L2);
    [unfold RSN_SELECTOR_LEN; lia|].
  cbn [mbind option_bind]. case_test; [by eexists|]. exfalso.
  destruct H as [H|[H|H]]; [done|lia|lia].
Qed.

Lemma has_part p m k : has p m = false -> Z.land m k = k -> has p k = false.
Proof.
  unfold has. intros H <-. bool_to_prop. by rewrite Z.land_assoc, H, Z.land_0_l.
Qed.

Lemma rsn_policy_refused conf : rsn_policy conf = false ->
  rsn_group_selector (conf_wpa_group conf) = None \/
  suites_count (rsn_pairwise_suites (conf_rsn_pairwise conf)) = 0%nat \/
  suites_count (rsn_akm_suites (conf_wpa_key_mgmt conf)) = 0%nat.
Proof.
  destruct (rsn_group_selector (conf_wpa_group conf)) as [sel|] eqn:Hs; [|by left].
  destruct (Nat.eq_dec (suites_count (rsn_pairwise_suites (conf_rsn_pairwise conf))) 0); [by right; left|].
  destruct (Nat.eq_dec (suites_count (rsn_akm_suites (conf_wpa_key_mgmt conf))) 0); [by right; right|].
  intros Hf. exfalso. unfold rsn_policy in Hf.
  apply andb_false_iff in Hf as [Hf|Hf]; [apply andb_false_iff in Hf as [Hf|Hf]|].
  - apply bool_decide_eq_false in Hf. apply Hf. unfold rsn_group_selector in Hs.
    rewrite !elem_of_cons.
    repeat (case_test; [tauto|]). done.
  - apply n. unfold rsn_pairwise_suites. by rewrite !(has_part _ 25 _ Hf) by reflexivity.
  - apply n0. unfold rsn_akm_suites. by rewrite !(has_part _ 3 _ Hf) by reflexivity.
Qed.

(** ** Properties *)

(** C24: [wpa_write_rsn_ie] and [wpa_parse_wpa_ie_rsn] agree.  For a policy that
    can be announced the element is written in exactly the given room, without
    touching the bytes around it, and parsing it gives back the group cipher,
    the pairwise ciphers and key managements that have a selector, the
    capabilities and the PMKID; for any other policy the result is -1. *)
Theorem rsn_ie_roundtrip conf pmkid pre old post :
  match pmkid with Some id => length id = PMKID_LEN | None => True end ->
  length old = (if rsn_policy conf then rsn_ie_size conf pmkid else 50%nat) ->
  if rsn_policy conf then
    exists ie,
      wpa_write_rsn_ie conf (pre ++ old ++ post) (length pre) (length old) pmkid
        = Some (pre ++ ie ++ post, Z.of_nat (length ie)) /\
      length ie = length old /\
      wpa_parse_wpa_ie_rsn ie (length ie) = Some (0, announced conf pmkid) /\
      (forall id, pmkid = Some id -> drop (length ie - 16) ie = id)
  else
    exists mem, wpa_write_rsn_ie conf (pre ++ old ++ post) (length pre) (length old) pmkid = Some (mem, -1).
Proof.
  intros Hid Hold. destruct (rsn_policy conf) eqn:Hp.
  - destruct (rsn_policy_writes _ Hp) as ((sel & Hs) & Hpw & Hak).
    exists (encode_ie (48, rsn_ie_body conf sel pmkid)). rewrite (length_rsn_ie _ _ _ Hid). split_and!.
    + eapply write_rsn_exact; try done. lia.
    + done.
    + by apply parse_rsn_exact.
    + intros id ->. pose proof (length_rsn_ie conf sel (Some id) Hid) as Hsz. rewrite <- Hsz.
      unfold encode_ie, rsn_ie_body. cbn [fst snd pmkid_bytes]. rewrite take_ge by (rewrite Hid; done).
      rewrite !app_assoc, !app_comm_cons. rewrite length_app, Hid. unfold PMKID_LEN.
      rewrite Nat.add_sub. apply drop_app_length.
  - unfold wpa_write_rsn_ie.
    assert (length (pre ++ old ++ post) = length pre + 50 + length post)%nat by (rewrite !length_app; lia).
    wr_ok. wr_ok.
    edestruct (put_policy_refuses m0) as (m' & ->); [by apply rsn_policy_refused| |by eexists].
    unfold rsn_pairwise_suites, rsn_akm_suites. cbn [length]. lia.
Qed.

Lemma rsn_ie_roundtrip_witness :
  exists ie, wpa_write_rsn_ie psk_ccmp (replicate 30 0) 4 22 None
               = Some (replicate 4 0 ++ ie ++ replicate 4 0, Z.of_nat (length ie)) /\
    wpa_parse_wpa_ie_rsn ie (length ie) = Some (0, announced psk_ccmp None).
Proof.
  destruct (rsn_ie_roundtrip psk_ccmp None (replicate 4 0) (replicate 22 0) (replicate 4 0) I eq_refl)
    as (ie & H & _ & H' & _).
  by exists ie.
Defined.

(** The other key element of a configuration. *)
Lemma wpa_group_cases g sel : wpa_group_selector g = Some sel ->
  exists k, 1 <= k <= 5 /\ WPA_PUT_BE32 sel = [0x00; 0x50; 0xf2; k].
Proof.
  unfold wpa_group_selector. intros H.
  repeat (case_test; [injection H as <-; eexists; split; [|vm_compute; reflexivity]; lia|]). done.
Qed.

Lemma parse_wpa_misaligned conf sel :
  wpa_group_selector (conf_wpa_group conf) = Some sel ->
  exists d, wpa_parse_wpa_ie_wpa (encode_ie (221, wpa_ie_body conf sel)) (wpa_ie_size conf) = Some (-4, d).
Proof.
  intros Hs. destruct (wpa_group_cases _ _ Hs) as (k & Hk & Hsel).
  unfold wpa_ie_body, ie_tail. rewrite Hsel. set (r := suites_bytes _ ++ _). set (c := WPA_PUT_LE16 _).
  unfold wpa_parse_wpa_ie_wpa, encode_ie. cbn [fst snd]. set (n := Z.of_nat (length _)).
  assert (wpa_ie_size conf <= 36)%nat as Hn.
  { unfold wpa_ie_size. pose proof (suites_count_le (wpa_pairwise_suites (conf_wpa_pairwise conf))).
    pose proof (suites_count_le (wpa_akm_suites (conf_wpa_key_mgmt conf))).
    unfold wpa_pairwise_suites, wpa_akm_suites in *. cbn [length] in *. lia. }
  assert (16 <= wpa_ie_size conf)%nat by (unfold wpa_ie_size; lia).
  rewrite (proj2 (Nat.eqb_neq _ _)) by lia. cbn [app]. set (b := 221 :: _).
  assert (WPA_GET_BE32 b 6 = Some 0x01000050) as H6 by reflexivity.
  assert (WPA_GET_LE16 b 10 = Some (256 * k + 242)) as H10.
  { change (WPA_GET_LE16 b 10) with (Some (u16 (Z.lor (Z.shiftl k 8) 242))).
    by rewrite be16_val by (unfold is_byte; lia). }
  unfold parse_group. rewrite (proj2 (Z.leb_le _ _)), H6 by lia. cbn [mbind option_bind and_then].
  unfold parse_suites. rewrite (proj2 (Z.leb_le _ _)) by lia.
  change (6 + RSN_SELECTOR_LEN)%nat with 10%nat. rewrite H10. cbn [mbind option_bind].
  rewrite (proj2 (Z.ltb_lt _ _)), orb_true_r by lia. by eexists.
Qed.

Definition wpa_policy (conf : wpa_auth_config) : Prop :=
  is_Some (wpa_group_selector (conf_wpa_group conf)) /\
  suites_count (wpa_pairwise_suites (conf_wpa_pairwise conf)) <> 0%nat /\
  suites_count (wpa_akm_suites (conf_wpa_key_mgmt conf)) <> 0%nat.

(** A WPA element is never accepted.  [wpa_validate_wpa_ie] gets the element
    with its two header bytes, but [wpa_parse_wpa_ie_wpa] skips only the six
    bytes of selector and version: every element [wpa_write_wpa_ie] writes, for
    any policy, is refused by every access point that supports WPA, itself
    included. *)
Theorem wpa_ie_never_accepted conf conf' sel sm ok fresh mem :
  wpa_policy conf -> length mem = wpa_ie_size conf -> has (conf_wpa conf') WPA_PROTO_WPA = true ->
  exists ie sel',
    wpa_write_wpa_ie conf mem 0 = Some (ie, Z.of_nat (length ie)) /\
    wpa_validate_wpa_ie conf' sel sm ok fresh (Some ie) (length ie) = Some (WPA_INVALID_IE, sel', sm).
Proof.
  intros ([s Hs] & Hpw & Hak) Hmem Hproto.
  destruct (parse_wpa_misaligned _ _ Hs) as (d & Hd).
  exists (encode_ie (221, wpa_ie_body conf s)), (select_suites false d).
  rewrite length_wpa_ie. split.
  - pose proof (write_wpa_exact conf s mem [] mem [] Hs Hpw Hak) as H. rewrite !app_nil_r in H. by apply H.
  - unfold wpa_validate_wpa_ie. rewrite (proj2 (Nat.ltb_ge _ _)) by (unfold wpa_ie_size; lia).
    change (encode_ie (221, wpa_ie_body conf s) !! 0%nat) with (Some 221). cbn [mbind option_bind].
    change (221 =? WLAN_EID_RSN) with false. cbv iota. rewrite Hproto. cbn [negb]. rewrite Hd. done.
Qed.

Lemma wpa_ie_never_accepted_witness :
  exists ie sel', wpa_write_wpa_ie (mk_conf 1 2 16 16 0 0 0 0 0) (replicate 24 0) 0 = Some (ie, Z.of_nat (length ie)) /\
    wpa_validate_wpa_ie (mk_conf 1 2 16 16 0 0 0 0 0) (mk_selected 0 0 0)
      (mk_sta WPA_VERSION_NO_WPA 0 0 None 0) true (replicate 24 0) (Some ie) (length ie)
    = Some (WPA_INVALID_IE, sel', mk_sta WPA_VERSION_NO_WPA 0 0 None 0).
Proof.
  apply (wpa_ie_never_accepted (mk_conf 1 2 16 16 0 0 0 0 0) (mk_conf 1 2 16 16 0 0 0 0 0)).
  - split_and!; [by eexists|done|done].
  - reflexivity.
  - reflexivity.
Defined.

(** The ciphers and key managements an access point and a station share. *)
Definition shared_pairwise (conf sta : wpa_auth_config) : Z :=
  Z.land (Z.land (conf_rsn_pairwise sta) 25) (conf_rsn_pairwise conf).
Definition shared_key_mgmt (conf sta : wpa_auth_config) : Z :=
  Z.land (Z.land (conf_wpa_key_mgmt sta) 3) (conf_wpa_key_mgmt conf).

Lemma has_land_split a b k : 0 <= k -> has (Z.land a b) (2 ^ k) = has a (2 ^ k) && has b (2 ^ k).
Proof.
  intros Hk. unfold has. rewrite !land_pow2, Z.land_spec by done.
  pose proof (Z.pow_pos_nonneg 2 k). destruct (Z.testbit a k), (Z.testbit b k); cbn [andb];
    rewrite ?(proj2 (Z.eqb_neq (2 ^ k) 0)) by lia; done.
Qed.

Lemma wr_whole old new : length old = length new -> wr old 0 new = Some new.
Proof.
  intros H. rewrite (wr_field old 0 [] old new []); [by rewrite app_nil_r|by rewrite app_nil_r|done|done].
Qed.

Lemma slice_whole l : slice l 0 (length l) = Some l.
Proof. unfold slice. rewrite Nat.leb_refl. cbn. by rewrite firstn_all. Qed.

Lemma keep_wpa_ie_fresh sm malloc_ok fresh ie :
  sta_wpa_ie sm = None -> length fresh = length ie ->
  keep_wpa_ie sm malloc_ok fresh ie (length ie)
  = Some (if malloc_ok
          then (WPA_IE_OK, mk_sta (sta_wpa sm) (sta_pairwise sm) (sta_wpa_key_mgmt sm) (Some ie) (length ie))
          else (WPA_ALLOC_FAIL, mk_sta (sta_wpa sm) (sta_pairwise sm) (sta_wpa_key_mgmt sm) None (sta_wpa_ie_len sm))).
Proof.
  intros -> Hl || intros Hn Hl. unfold keep_wpa_ie. rewrite ?Hn. destruct malloc_ok; [|done].
  by rewrite slice_whole; cbn [mbind option_bind]; rewrite wr_whole.
Qed.

Lemma has_or x a b : has x (Z.lor a b) = has x a || has x b.
Proof.
  unfold has. rewrite Z.land_lor_distr_r.
  destruct (Z.eqb_spec (Z.lor (Z.land x a) (Z.land x b)) 0) as [H|H].
  - apply Z.lor_eq_0_iff in H as [-> ->]. done.
  - destruct (Z.eqb_spec (Z.land x a) 0) as [Ha|Ha], (Z.eqb_spec (Z.land x b) 0) as [Hb|Hb]; try done.
    exfalso. apply H. by rewrite Ha, Hb.
Qed.

Lemma shared_bit a m b k : 0 <= k -> has (Z.land (Z.land a m) b) (2 ^ k) = true ->
  has a (2 ^ k) = true /\ has b (2 ^ k) = true.
Proof.
  intros Hk. rewrite !has_land_split by done.
  intros [[? _]%andb_true_iff ?]%andb_true_iff. done.
Qed.

Lemma land_in a m b : Z.land (Z.land (Z.land a m) b) m = Z.land (Z.land a m) b.
Proof.
  rewrite <- (Z.land_assoc (Z.land a m) b m), (Z.land_comm b m), Z.land_assoc.
  by rewrite <- (Z.land_assoc a m m), Z.land_diag.
Qed.

(** The two preferred choices are shared when both sides offer them. *)
Lemma shared_8021x conf sta : has (shared_key_mgmt conf sta) WPA_KEY_MGMT_IEEE8021X
  = has (conf_wpa_key_mgmt sta) WPA_KEY_MGMT_IEEE8021X && has (conf_wpa_key_mgmt conf) WPA_KEY_MGMT_IEEE8021X.
Proof.
  unfold shared_key_mgmt. change WPA_KEY_MGMT_IEEE8021X with (2 ^ 0). rewrite !has_land_split by lia.
  by rewrite andb_true_r.
Qed.

Lemma shared_ccmp conf sta : has (shared_pairwise conf sta) WPA_CIPHER_CCMP
  = has (conf_rsn_pairwise sta) WPA_CIPHER_CCMP && has (conf_rsn_pairwise conf) WPA_CIPHER_CCMP.
Proof.
  unfold shared_pairwise. change WPA_CIPHER_CCMP with (2 ^ 4). rewrite !has_land_split by lia.
  by rewrite andb_true_r.
Qed.

Lemma chosen_key_mgmt conf sta : shared_key_mgmt conf sta <> 0 ->
  let k := if has (shared_key_mgmt conf sta) WPA_KEY_MGMT_IEEE8021X then WPA_KEY_MGMT_IEEE8021X
           else WPA_KEY_MGMT_PSK in
  has (conf_wpa_key_mgmt sta) k = true /\ has (conf_wpa_key_mgmt conf) k = true.
Proof.
  intros H0 k. unfold shared_key_mgmt in *. set (x := Z.land (Z.land _ 3) _) in *.
  assert (has x (Z.lor 1 2) = true) as H3.
  { unfold has. change (Z.lor 1 2) with 3.
    replace (Z.land x 3) with x; [by rewrite (proj2 (Z.eqb_neq _ _))|].
    symmetry. apply land_in. }
  rewrite has_or in H3. unfold k. destruct (has x WPA_KEY_MGMT_IEEE8021X) eqn:H1.
  - by apply (shared_bit _ 3 _ 0).
  - apply (shared_bit _ 3 _ 1); [done|]. fold x.
    change (has x 1) with (has x WPA_KEY_MGMT_IEEE8021X) in H3. rewrite H1 in H3. exact H3.
Qed.

Lemma chosen_pairwise conf sta :
  has (shared_pairwise conf sta) (Z.lor WPA_CIPHER_CCMP WPA_CIPHER_TKIP) = true ->
  let c := if has (shared_pairwise conf sta) WPA_CIPHER_CCMP then WPA_CIPHER_CCMP else WPA_CIPHER_TKIP in
  has (conf_rsn_pairwise sta) c = true /\ has (conf_rsn_pairwise conf) c = true.
Proof.
  intros H c. rewrite has_or in H. unfold c. destruct (has (shared_pairwise conf sta) WPA_CIPHER_CCMP) eqn:H1.
  - by apply (shared_bit _ 25 _ 4).
  - by apply (shared_bit _ 25 _ 3).
Qed.

(** C25: Negotiation at association: the element a station writes for its policy
    is accepted exactly when the access point uses the same group cipher and
    they share a key management and a pairwise cipher (and the copy of the
    element can be allocated); then the station is recorded with WPA2 and with its
    element; its key management is IEEE 802.1X when both support it and PSK, which
    both then support, otherwise; its pairwise cipher is CCMP when both support
    it and TKIP otherwise, which both support unless all they share is "none". *)
Theorem rsn_negotiation conf sta sel fresh malloc_ok ie :
  has (conf_wpa conf) WPA_PROTO_RSN = true -> rsn_policy sta = true ->
  wpa_write_rsn_ie sta (replicate (rsn_ie_size sta None) 0) 0 (rsn_ie_size sta None) None
    = Some (ie, Z.of_nat (length ie)) ->
  length fresh = length ie ->
  exists r sel' sm,
    wpa_validate_wpa_ie conf sel (mk_sta WPA_VERSION_NO_WPA 0 0 None 0) malloc_ok fresh (Some ie) (length ie)
      = Some (r, sel', sm) /\
    (r = WPA_IE_OK <-> conf_wpa_group sta = conf_wpa_group conf /\ shared_key_mgmt conf sta <> 0 /\
                       shared_pairwise conf sta <> 0 /\ malloc_ok = true) /\
    (r = WPA_IE_OK ->
       sta_wpa sm = WPA_VERSION_WPA2 /\ sta_wpa_ie sm = Some ie /\ sta_wpa_ie_len sm = length ie /\
       sta_wpa_key_mgmt sm =
         (if has (conf_wpa_key_mgmt sta) WPA_KEY_MGMT_IEEE8021X &&
             has (conf_wpa_key_mgmt conf) WPA_KEY_MGMT_IEEE8021X
          then WPA_KEY_MGMT_IEEE8021X else WPA_KEY_MGMT_PSK) /\
       has (conf_wpa_key_mgmt sta) (sta_wpa_key_mgmt sm) = true /\
       has (conf_wpa_key_mgmt conf) (sta_wpa_key_mgmt sm) = true /\
       sta_pairwise sm =
         (if has (conf_rsn_pairwise sta) WPA_CIPHER_CCMP && has (conf_rsn_pairwise conf) WPA_CIPHER_CCMP
          then WPA_CIPHER_CCMP else WPA_CIPHER_TKIP) /\
       (has (shared_pairwise conf sta) (Z.lor WPA_CIPHER_CCMP WPA_CIPHER_TKIP) = true ->
        has (conf_rsn_pairwise sta) (sta_pairwise sm) = true /\
        has (conf_rsn_pairwise conf) (sta_pairwise sm) = true)).
Proof.
  intros Hproto Hp Hw Hf.
  destruct (rsn_policy_writes _ Hp) as ((s & Hs) & Hpw & Hak).
  pose proof (write_rsn_exact sta None s (replicate (rsn_ie_size sta None) 0) []
    (replicate (rsn_ie_size sta None) 0) [] (rsn_ie_size sta None) Hs Hpw Hak I) as Hx.
  rewrite !app_nil_r in Hx. cbn [app length] in Hx. rewrite Hx in Hw; [|lia|done|by rewrite length_replicate].
  injection Hw as <- Hn. apply Nat2Z.inj in Hn. clear Hx.
  pose proof (parse_rsn_exact sta s None Hs Hpw Hak I) as Hparse. rewrite Hn in Hparse.
  set (ie := encode_ie _) in *. unfold wpa_validate_wpa_ie.
  rewrite (proj2 (Nat.ltb_ge _ _)) by (rewrite <- Hn; unfold rsn_ie_size; lia).
  change (ie !! 0%nat) with (Some 48). cbn [mbind option_bind].
  change (48 =? WLAN_EID_RSN) with true. cbv iota. rewrite Hproto. cbn [negb].
  rewrite Hparse. cbn [mbind option_bind]. change (negb (0 =? 0)) with false. cbv iota.
  unfold apply_policy. cbn [announced group_cipher key_mgmt pairwise_cipher].
  fold (shared_key_mgmt conf sta). fold (shared_pairwise conf sta).
  destruct (Z.eqb_spec (conf_wpa_group sta) (conf_wpa_group conf)) as [Hg|Hg]; cbn [negb];
    [|eexists _, _, _; split; [done|]; split; [split; [done|intros [? _]; done]|done]].
  destruct (Z.eqb_spec (shared_key_mgmt conf sta) 0) as [Hk|Hk];
    [eexists _, _, _; split; [done|]; split; [split; [done|intros (_ & ? & _); done]|done]|].
  destruct (Z.eqb_spec (shared_pairwise conf sta) 0) as [Hc|Hc];
    [eexists _, _, _; split; [done|]; split; [split; [done|intros (_ & _ & ? & _); done]|done]|].
  rewrite keep_wpa_ie_fresh by done. cbn [mbind option_bind].
  destruct malloc_ok; [|eexists _, _, _; split; [done|]; split; [split; [done|intros (_ & _ & _ & ?); done]|done]].
  eexists _, _, _. split; [done|]. split; [done|]. intros _. cbn [sta_wpa sta_wpa_ie sta_wpa_ie_len sta_wpa_key_mgmt sta_pairwise].
  destruct (chosen_key_mgmt conf sta Hk) as [? ?].
  split_and!; try done; [by rewrite shared_8021x|by rewrite shared_ccmp|apply chosen_pairwise].
Qed.

Lemma rsn_negotiation_witness :
  exists r sel' sm,
    wpa_validate_wpa_ie psk_ccmp (mk_selected 0 0 0) (mk_sta WPA_VERSION_NO_WPA 0 0 None 0) true (replicate 22 0)
      (Some [48; 20; 1; 0; 0; 15; 172; 4; 1; 0; 0; 15; 172; 4; 1; 0; 0; 15; 172; 2; 0; 0]) 22
      = Some (r, sel', sm) /\ r = WPA_IE_OK.
Proof.
  destruct (rsn_negotiation psk_ccmp psk_ccmp (mk_selected 0 0 0) (replicate 22 0) true
    [48; 20; 1; 0; 0; 15; 172; 4; 1; 0; 0; 15; 172; 4; 1; 0; 0; 15; 172; 2; 0; 0])
    as (r & sel' & sm & H & Hr & _); try reflexivity.
  exists r, sel', sm. split; [exact H|]. apply Hr. split_and!; vm_compute; done.
Defined.

(** ** No read outside the element *)

Lemma lookup_some {A} (b : list A) i : (i < length b)%nat -> exists x, b !! i = Some x.
Proof. intros H. apply lookup_lt_is_Some in H as [x ?]. by exists x. Qed.

Lemma get_le16_some b p : (p + 2 <= length b)%nat -> exists v, WPA_GET_LE16 b p = Some v /\ 0 <= v < 65536.
Proof.
  intros H. unfold WPA_GET_LE16.
  destruct (lookup_some b p) as [x ->]; [lia|]. destruct (lookup_some b (p + 1)) as [y ->]; [lia|].
  cbn [mbind option_bind]. eexists. split; [done|]. apply u16_range.
Qed.

Lemma get_be32_some b p : (p + 4 <= length b)%nat -> exists v, WPA_GET_BE32 b p = Some v.
Proof.
  intros H. unfold WPA_GET_BE32.
  destruct (lookup_some b p) as [x ->]; [lia|]. destruct (lookup_some b (p + 1)) as [y ->]; [lia|].
  destruct (lookup_some b (p + 2)) as [z ->]; [lia|]. destruct (lookup_some b (p + 3)) as [w ->]; [lia|].
  by eexists.
Qed.

Lemma or_selectors_some conv b n : forall p acc, (p + 4 * n <= length b)%nat ->
  exists v, or_selectors conv b p n acc = Some v.
Proof.
  induction n as [|n IH]; intros p acc H; cbn [or_selectors]; [by eexists|].
  destruct (get_be32_some b p) as [s ->]; [lia|]. apply IH. unfold RSN_SELECTOR_LEN. lia.
Qed.

(** The bytes left are in the buffer. *)
Definition inside (b : list Z) (p : nat) (left : Z) : Prop := Z.of_nat p + left <= Z.of_nat (length b).

Definition step_inside (b : list Z) (r : option parse_step) : Prop :=
  match r with
  | Some (Go _ p l) => inside b p l
  | Some (Stop _ _) => True
  | None => False
  end.

Lemma parse_group_inside conv b d p l : inside b p l -> step_inside b (parse_group conv b d p l).
Proof.
  unfold inside, parse_group. intros H. repeat case_test; cbn; try done; [].
  destruct (get_be32_some b p) as [s ->]; [lia|]. cbn. unfold RSN_SELECTOR_LEN. unfold inside. lia.
Qed.

Lemma parse_suites_inside conv set e1 e2 b d p l : inside b p l ->
  step_inside b (parse_suites conv set e1 e2 b d p l).
Proof.
  unfold inside, parse_suites. intros H. case_test; [|by case_test].
  destruct (get_le16_some b p) as (c & -> & Hc); [lia|]. cbn [mbind option_bind].
  case_test; [done|].
  destruct (or_selectors_some conv b (Z.to_nat c) (p + 2) 0) as [v ->]; [lia|]. cbn. unfold inside. lia.
Qed.

Lemma parse_capab_inside b d p l : inside b p l -> step_inside b (parse_capab b d p l).
Proof.
  unfold inside, parse_capab. intros H. case_test; [|done].
  destruct (get_le16_some b p) as (c & -> & Hc); [lia|]. cbn. unfold inside. lia.
Qed.

Lemma parse_pmkid_inside b d p l : inside b p l -> step_inside b (parse_pmkid b d p l).
Proof.
  unfold inside, parse_pmkid. intros H. case_test; [|done].
  destruct (get_le16_some b p) as (c & -> & Hc); [lia|]. cbn [mbind option_bind].
  case_test; [done|]. cbn. unfold inside. lia.
Qed.

Lemma and_then_inside b r k : step_inside b r ->
  (forall d p l, inside b p l -> step_inside b (k d p l)) -> step_inside b (and_then r k).
Proof. destruct r as [[]|]; cbn; auto. Qed.

Lemma inside_result b r : step_inside b r -> is_Some (parse_result r).
Proof. destruct r as [[]|]; cbn; by eauto. Qed.

Create HintDb ie_parse.
#[local] Hint Resolve parse_group_inside parse_suites_inside parse_capab_inside parse_pmkid_inside : ie_parse.

Lemma selector_is_some b p s : (p + 4 <= length b)%nat -> exists r, selector_is b p s = Some r.
Proof. intros H. unfold selector_is. destruct (get_be32_some b p H) as [v ->]. by eexists. Qed.

Lemma parse_generic_some b pos end_ k l :
  b !! (pos + 1)%nat = Some l -> (pos + 2 + Z.to_nat l <= length b)%nat ->
  exists r k', wpa_parse_generic b pos end_ k = Some (r, k') /\ 0 <= r.
Proof.
  intros Hl Hlen. unfold wpa_parse_generic. rewrite Hl. cbn [mbind option_bind]. case_test; [by eexists _, _|].
  assert (forall a s, (a = true -> 6 <= l) -> exists r, and_read a (selector_is b (pos + 2) s) = Some r) as Hsel.
  { intros [] s Ha; [|by eexists]. destruct (selector_is_some b (pos + 2) s) as [r Hr]; [specialize (Ha eq_refl); lia|].
    exists r. exact Hr. }
  match goal with |- context [and_read (6 <=? l) ?x] => assert (exists r, and_read (6 <=? l) x = Some r) as [r ->] end.
  { unfold and_read at 1. case_test; [|by eexists].
    destruct (selector_is_some b (pos + 2) WPA_OUI_TYPE) as [[] ->]; [lia| |by eexists].
    unfold WPA_SELECTOR_LEN. destruct (lookup_some b (pos + 2 + 4)) as [v0 ->]; [lia|]. cbn.
    unfold and_read. case_test; [|by eexists].
    destruct (lookup_some b (pos + 2 + 4 + 1)) as [v1 ->]; [lia|]. by eexists. }
  cbn [mbind option_bind]. destruct r; [by eexists _, _|].
  destruct (Hsel ((pos + 1 + RSN_SELECTOR_LEN <? end_)%nat && (20 <=? l)) RSN_KEY_DATA_PMKID) as [[] ->];
    [intros ?; bool_to_prop; lia|by eexists _, _|]. cbn [mbind option_bind].
  destruct (Hsel (6 <? l) RSN_KEY_DATA_GROUPKEY) as [[] ->]; [lia|by eexists _, _|]. cbn [mbind option_bind].
  destruct (Hsel (6 <? l) RSN_KEY_DATA_MAC_ADDR) as [[] ->]; [lia|by eexists _, _|by eexists _, _].
Qed.

Lemma kde_loop_some b end_ fuel : forall pos k,
  (end_ <= length b)%nat -> (end_ <= pos + fuel)%nat -> is_Some (kde_loop fuel b pos end_ k).
Proof.
  induction fuel as [|f IH]; intros pos k He Hf; cbn [kde_loop].
  - rewrite (proj2 (Nat.leb_le _ _)) by lia. by eexists.
  - destruct (Nat.leb_spec end_ (pos + 1)); [by eexists|].
    destruct (lookup_some b pos) as [id ->]; [lia|]. cbn [mbind option_bind].
    destruct (lookup_some b (pos + 1)) as [l Hl]; [lia|]. rewrite Hl. cbn [mbind option_bind].
    case_match; [by eexists|]. destruct (Nat.ltb_spec end_ (pos + 2 + Z.to_nat l)); [by eexists|].
    case_match; [apply IH; lia|]. case_match; [|apply IH; lia].
    destruct (parse_generic_some b pos end_ k l Hl) as (r & k' & -> & Hr); [lia|]. cbn [mbind option_bind].
    repeat case_test; [by eexists|by eexists|apply IH; lia].
Qed.

Lemma parse_rsn_some b len : (len <= length b)%nat -> is_Some (wpa_parse_wpa_ie_rsn b len).
Proof.
  intros H. unfold wpa_parse_wpa_ie_rsn. case_match; [by eexists|].
  destruct (Nat.ltb_spec len 4); [by eexists|].
  destruct (lookup_some b 0) as [x ->]; [lia|]. destruct (lookup_some b 1) as [y ->]; [lia|].
  destruct (get_le16_some b 2) as (v & -> & _); [lia|]. cbn [mbind option_bind].
  case_match; [by eexists|]. assert (inside b 4 (Z.of_nat len - 4)) by (unfold inside; lia).
  eapply inside_result. repeat (apply and_then_inside; [eauto with ie_parse|intros]). eauto with ie_parse.
Qed.

Lemma parse_wpa_some b len : (len <= length b)%nat -> is_Some (wpa_parse_wpa_ie_wpa b len).
Proof.
  intros H. unfold wpa_parse_wpa_ie_wpa. case_match; [by eexists|].
  assert (inside b 6 (Z.of_nat len - 6)) by (unfold inside; lia).
  eapply inside_result. repeat (apply and_then_inside; [eauto with ie_parse|intros]). eauto with ie_parse.
Qed.

(** C26: The parsers of security elements and key data always return and never
    read outside the buffer, whatever bytes and length fields it holds: any
    counts of suites or PMKIDs, lengths too short for a header, nested lengths
    that point past the end. *)
Theorem parsers_stay_inside b len :
  (len <= length b)%nat ->
  is_Some (wpa_parse_wpa_ie_rsn b len) /\ is_Some (wpa_parse_wpa_ie_wpa b len) /\
  is_Some (wpa_parse_kde_ies b len).
Proof.
  intros H. split_and!; [by apply parse_rsn_some|by apply parse_wpa_some|]. apply kde_loop_some; lia.
Qed.

Lemma parsers_stay_inside_witness :
  is_Some (wpa_parse_wpa_ie_rsn [48; 6; 1; 0; 0; 15; 172; 255] 8) /\
  is_Some (wpa_parse_wpa_ie_wpa [48; 6; 1; 0; 0; 15; 172; 255] 8) /\
  is_Some (wpa_parse_kde_ies [48; 6; 1; 0; 0; 15; 172; 255] 8).
Proof. apply (parsers_stay_inside [48; 6; 1; 0; 0; 15; 172; 255] 8). simpl. lia. Defined.

(** ** Key data *)

(** The key data encapsulation of a group key. *)
Definition gtk_kde (keyidx : Z) (gtk : list Z) : list Z :=
  encode_ie (221, WPA_PUT_BE32 RSN_KEY_DATA_GROUPKEY ++ [keyidx; 0] ++ gtk).

Lemma length_gtk_kde i gtk : length (gtk_kde i gtk) = (8 + length gtk)%nat.
Proof. done. Qed.

Lemma add_kde_exact mem pos pre old post i gtk :
  mem = pre ++ old ++ post -> pos = length pre -> length old = length (gtk_kde i gtk) ->
  (length gtk <= 32)%nat ->
  wpa_add_kde mem pos RSN_KEY_DATA_GROUPKEY [i; 0] (Some gtk) (length gtk)
  = Some (pre ++ gtk_kde i gtk ++ post, (pos + length (gtk_kde i gtk))%nat).
Proof.
  intros -> -> Hold Hg. rewrite length_gtk_kde in *. unfold wpa_add_kde, gtk_kde, encode_ie. cbn [fst snd].
  set (s := WPA_PUT_BE32 RSN_KEY_DATA_GROUPKEY) in *. assert (length s = 4%nat) by done.
  destruct (split_off old 1 (7 + length gtk)) as (o0 & r & -> & L0 & R); [lia|].
  destruct (split_off r 1 (6 + length gtk)) as (o1 & r1 & -> & L1 & R1); [lia|].
  destruct (split_off r1 4 (2 + length gtk)) as (os & r2 & -> & Ls & R2); [lia|].
  destruct (split_off r2 2 (length gtk)) as (oi & og & -> & Li & Lg); [lia|].
  wr_step pre o0 [221] (o1 ++ os ++ oi ++ og ++ post).
  set (l := u8 _). wr_step (pre ++ [221]) o1 [l] (os ++ oi ++ og ++ post).
  wr_step (pre ++ [221] ++ [l]) os s (oi ++ og ++ post).
  wr_step (pre ++ [221] ++ [l] ++ s) oi [i; 0] (og ++ post).
  rewrite firstn_all. wr_step (pre ++ [221] ++ [l] ++ s ++ [i; 0]) og gtk post.
  assert (l = Z.of_nat (length (s ++ [i; 0] ++ gtk))) as ->.
  { unfold l, RSN_SELECTOR_LEN. rewrite !length_app. cbn [length]. rewrite u8_small; lia. }
  f_equal. f_equal; [by rewrite <- !app_assoc|]. unfold RSN_SELECTOR_LEN. cbn [length]. lia.
Qed.

Lemma kde_step_rsn f buf pos end_ k pre d post :
  buf = pre ++ encode_ie (48, d) ++ post -> pos = length pre -> (pos + 2 + length d <= end_)%nat ->
  kde_loop (S f) buf pos end_ k
  = kde_loop f buf (pos + 2 + length d) end_ (kde_set_rsn k pos (length d + 2)).
Proof.
  intros -> -> He. cbn [kde_loop]. rewrite (proj2 (Nat.leb_gt _ _)) by lia.
  rewrite lookup_at0, lookup_at. cbn [encode_ie fst snd app lookup list_lookup mbind option_bind].
  change (48 =? 221) with false. cbn [andb]. rewrite Nat2Z.id, (proj2 (Nat.ltb_ge _ _)) by lia.
  done.
Qed.

Lemma kde_step_gtk f buf pos end_ k pre i gtk post :
  buf = pre ++ gtk_kde i gtk ++ post -> pos = length pre -> (pos + 8 + length gtk <= end_)%nat ->
  gtk <> [] ->
  kde_loop (S f) buf pos end_ k
  = kde_loop f buf (pos + 8 + length gtk) end_ (kde_set_gtk k (pos + 6) (2 + length gtk)).
Proof.
  intros -> -> He Hne. cbn [kde_loop]. rewrite (proj2 (Nat.leb_gt _ _)) by lia.
  assert (0 < length gtk)%nat by (destruct gtk; [done|simpl; lia]).
  unfold gtk_kde, encode_ie. cbn [fst snd].
  set (n := length (WPA_PUT_BE32 RSN_KEY_DATA_GROUPKEY ++ [i; 0] ++ gtk)).
  assert (n = 6 + length gtk)%nat as Hn by done.
  set (buf := pre ++ (221 :: Z.of_nat n :: _) ++ post).
  assert (buf !! length pre = Some 221) as -> by (unfold buf; by rewrite lookup_at0).
  assert (buf !! (length pre + 1)%nat = Some (Z.of_nat n)) as Hl by (unfold buf; by rewrite lookup_at).
  assert (WPA_GET_BE32 buf (length pre + 2) = Some RSN_KEY_DATA_GROUPKEY) as Hsel.
  { pose proof (get_put_be32 (pre ++ [221; Z.of_nat n]) RSN_KEY_DATA_GROUPKEY (([i; 0] ++ gtk) ++ post)) as Hp.
    rewrite length_app in Hp. change (length [221; Z.of_nat n]) with 2%nat in Hp.
    unfold buf. rewrite <- app_assoc in Hp. exact Hp. }
  rewrite Hl. cbn [mbind option_bind]. rewrite (proj2 (Z.eqb_neq (Z.of_nat n) 0)) by lia.
  rewrite (proj2 (Nat.eqb_neq _ _)) by lia. change (221 =? 221) with true. cbn [andb orb].
  rewrite Nat2Z.id, (proj2 (Nat.ltb_ge _ _)) by lia.
  change (221 =? WLAN_EID_RSN) with false. change (221 =? WLAN_EID_VENDOR_SPECIFIC) with true. cbv iota.
  unfold wpa_parse_generic, selector_is. rewrite Hl, Hsel. cbn [mbind option_bind].
  rewrite (proj2 (Z.eqb_neq (Z.of_nat n) 0)) by lia.
  change (RSN_KEY_DATA_GROUPKEY =? WPA_OUI_TYPE) with false.
  change (RSN_KEY_DATA_GROUPKEY =? RSN_KEY_DATA_PMKID) with false.
  change (RSN_KEY_DATA_GROUPKEY =? RSN_KEY_DATA_GROUPKEY) with true.
  rewrite (proj2 (Z.leb_le 6 _)), (proj2 (Z.ltb_lt 6 _)) by lia. cbn [and_read mbind option_bind].
  assert (forall a, and_read a (Some false) = Some false) as -> by (by intros []).
  cbn [mbind option_bind]. change (0 <? 0) with false. cbv iota. unfold RSN_SELECTOR_LEN.
  rewrite Nat2Z.id. f_equal; [lia|]. f_equal; lia.
Qed.

Lemma kde_stop fuel buf pos end_ k : (end_ <= pos + 1)%nat -> kde_loop fuel buf pos end_ k = Some (0, k).
Proof. intros H. destruct fuel; cbn [kde_loop]; by rewrite (proj2 (Nat.leb_le _ _)). Qed.

(** Padding after the last element: nothing, or 0xdd and zeros. *)
Definition padding (n : nat) : list Z :=
  match n with O => [] | S m => 0xdd :: replicate m 0 end.

Lemma kde_padding fuel buf pos end_ k pre n :
  buf = pre ++ padding n -> pos = length pre -> end_ = (pos + n)%nat ->
  (2 <= fuel)%nat -> kde_loop fuel buf pos end_ k = Some (0, k).
Proof.
  intros -> -> -> Hf. destruct n as [|[|n]]; [apply kde_stop; lia..|].
  destruct fuel as [|f]; [lia|]. cbn [kde_loop]. rewrite (proj2 (Nat.leb_gt _ _)) by lia.
  rewrite lookup_at0, lookup_at. cbn [padding replicate lookup list_lookup mbind option_bind].
  change (0 =? 0) with true. by rewrite orb_true_r.
Qed.

Lemma length_padding n : length (padding n) = n.
Proof. destruct n; cbn; [done|]. by rewrite length_replicate. Qed.

(** Key data with an RSN element, a group key and padding, as it is parsed. *)
Lemma key_data_parses d i gtk n :
  (1 <= length gtk <= 32)%nat -> (length d < 256)%nat ->
  let kd := encode_ie (48, d) ++ gtk_kde i gtk ++ padding n in
  wpa_parse_kde_ies kd (length kd)
    = Some (0, mk_kde None 0 (Some 0%nat) (2 + length d) None (Some (8 + length d)%nat) (2 + length gtk) None 0) /\
  slice kd 0 (2 + length d) = Some (encode_ie (48, d)) /\
  slice kd (8 + length d) (2 + length gtk) = Some (i :: 0 :: gtk).
Proof.
  intros Hg Hd. cbv zeta.
  assert (length (encode_ie (48%Z, d)) = 2 + length d)%nat as Hle by done.
  pose proof (length_gtk_kde i gtk) as Hlg. pose proof (length_padding n) as Hlp.
  split_and!.
  - unfold wpa_parse_kde_ies. rewrite !length_app, Hle, Hlg, Hlp.
    replace (2 + length d + (8 + length gtk + n))%nat with (S (S (8 + length d + length gtk + n))) at 1 by lia.
    rewrite (kde_step_rsn _ _ 0 _ _ [] d (gtk_kde i gtk ++ padding n)); [|done|done|lia].
    rewrite (kde_step_gtk _ _ _ _ _ (encode_ie (48, d)) i gtk (padding n)); [|done|done|lia|by destruct gtk; simpl in Hg; [lia|]].
    rewrite (kde_padding _ _ _ _ _ (encode_ie (48, d) ++ gtk_kde i gtk) n);
      [|by rewrite app_assoc|rewrite length_app; lia|lia|lia].
    f_equal. f_equal. unfold kde_set_gtk, kde_set_rsn. cbn. f_equal; [lia|]. f_equal. lia.
  - unfold slice. rewrite (proj2 (Nat.leb_le _ _)) by (rewrite length_app; lia). cbn [drop].
    rewrite <- Hle. by rewrite drop_0, take_app_length.
  - unfold slice. rewrite (proj2 (Nat.leb_le _ _)) by (rewrite !length_app; lia).
    change (gtk_kde i gtk) with ((221 :: Z.of_nat (length (WPA_PUT_BE32 RSN_KEY_DATA_GROUPKEY ++ [i; 0] ++ gtk)) ::
      WPA_PUT_BE32 RSN_KEY_DATA_GROUPKEY) ++ (i :: 0 :: gtk)).
    rewrite <- !app_assoc, app_assoc.
    match goal with |- context [drop _ (?a ++ ?b)] => replace (8 + length d)%nat with (length a) by (rewrite length_app; done || (rewrite length_app, Hle; cbn; lia)) end.
    by rewrite drop_app_length, (take_app_length (i :: 0 :: gtk)).
Qed.

(** Key data of message 3/4: what [wpa_add_kde] appends to the RSN element
    is what [wpa_parse_kde_ies] finds.  For every RSN element, key index, group
    key of at most 32 bytes and padding, parsing returns 0, the RSN element
    with its header and the group key data (the key index, a zero and the key),
    and nothing else. *)
Theorem key_data_roundtrip d i gtk n room :
  (1 <= length gtk <= 32)%nat -> (length d < 256)%nat -> length room = (8 + length gtk)%nat ->
  exists kd pos,
    wpa_add_kde (encode_ie (48, d) ++ room ++ padding n) (2 + length d) RSN_KEY_DATA_GROUPKEY [i; 0]
      (Some gtk) (length gtk) = Some (kd, pos) /\
    drop pos kd = padding n /\
    wpa_parse_kde_ies kd (length kd)
      = Some (0, mk_kde None 0 (Some 0%nat) (2 + length d) None (Some (8 + length d)%nat) (2 + length gtk) None 0) /\
    slice kd 0 (2 + length d) = Some (encode_ie (48, d)) /\
    slice kd (8 + length d) (2 + length gtk) = Some (i :: 0 :: gtk).
Proof.
  intros Hg Hd Hroom. exists (encode_ie (48, d) ++ gtk_kde i gtk ++ padding n), (10 + length d + length gtk)%nat.
  assert (length (encode_ie (48%Z, d)) = 2 + length d)%nat as Hle by done.
  pose proof (length_gtk_kde i gtk) as Hlg.
  destruct (key_data_parses d i gtk n Hg Hd) as (P1 & P2 & P3). split_and!; [| |done..].
  - rewrite (add_kde_exact _ _ (encode_ie (48, d)) room (padding n)); [|done..|lia].
    f_equal. f_equal. lia.
  - rewrite app_assoc. replace (10 + length d + length gtk)%nat
      with (length (encode_ie (48, d) ++ gtk_kde i gtk)) by (rewrite length_app; lia).
    apply drop_app_length.
Qed.

Lemma key_data_roundtrip_witness :
  exists kd pos,
    wpa_add_kde (encode_ie (48, [1; 0]) ++ replicate 24 7 ++ padding 4) 4 RSN_KEY_DATA_GROUPKEY [1; 0]
      (Some (replicate 16 9)) 16 = Some (kd, pos) /\
    wpa_parse_kde_ies kd (length kd)
      = Some (0, mk_kde None 0 (Some 0%nat) 4 None (Some 10%nat) 18 None 0).
Proof.
  destruct (key_data_roundtrip [1; 0] 1 (replicate 16 9) 4 (replicate 24 7)) as (kd & pos & H1 & _ & H2 & _).
  - rewrite length_replicate. lia.
  - simpl. lia.
  - reflexivity.
  - exists kd, pos. split; [exact H1|exact H2].
Defined.

(** ** Counters *)

(** The number a byte array stands for, most significant byte first. *)
Definition be_value (l : list Z) : Z := fold_left (fun a b => a * 256 + b) l 0.

Lemma be_value_snoc l x : be_value (l ++ [x]) = be_value l * 256 + x.
Proof. unfold be_value. by rewrite fold_left_app. Qed.

Lemma be_value_range l : Forall is_byte l -> 0 <= be_value l < 256 ^ Z.of_nat (length l).
Proof.
  induction l as [|x l IH] using rev_ind; intros H; [done|].
  apply Forall_app in H as [H [Hx _]%list.Forall_cons_1]. specialize (IH H). unfold is_byte in Hx.
  rewrite be_value_snoc, length_app, Nat.add_1_r, Nat2Z.inj_succ, Z.pow_succ_r by lia. lia.
Qed.

Lemma inc_loop_exact l : forall s, Forall is_byte l ->
  exists l', inc_loop (l ++ s) (length l) = l' ++ s /\ length l' = length l /\ Forall is_byte l' /\
    be_value l' = (be_value l + 1) mod 256 ^ Z.of_nat (length l).
Proof.
  induction l as [|x l IH] using rev_ind; intros s H.
  - exists []. cbn. by rewrite Z.mod_1_r.
  - apply Forall_app in H as [H [Hx _]%list.Forall_cons_1].
    rewrite length_app, Nat.add_1_r. cbn [inc_loop length].
    rewrite <- app_assoc. cbn [app]. rewrite nth_middle by done.
    rewrite insert_app_r_alt, Nat.sub_diag by lia. cbn [insert list_insert list_alter].
    pose proof (be_value_range _ H) as Hr. rewrite Nat2Z.inj_succ, Z.pow_succ_r by lia.
    unfold is_byte in Hx. destruct (Z.eqb_spec (u8 (x + 1)) 0) as [He|He].
    + assert (x = 255) as -> by (unfold u8 in He; lia).
      destruct (IH ([0] ++ s) H) as (l' & Hi & Hl & Hb & Hv). change (u8 (255 + 1)) with 0.
      exists (l' ++ [0]). cbn [app] in Hi. rewrite Hi. split_and!.
      * by rewrite <- app_assoc.
      * rewrite length_app. cbn [length]. lia.
      * apply Forall_app. split; [done|]. by repeat constructor.
      * rewrite !be_value_snoc, Hv, Z.add_0_r.
        replace (be_value l * 256 + 255 + 1) with (256 * (be_value l + 1)) by lia.
        rewrite Z.mul_mod_distr_l by lia. lia.
    + assert (u8 (x + 1) = x + 1) as Hu by (unfold u8 in *; lia). rewrite Hu.
      exists (l ++ [x + 1]). split_and!.
      * by rewrite <- app_assoc.
      * rewrite length_app. cbn [length]. lia.
      * apply Forall_app. split; [done|]. repeat constructor; unfold u8 in *; lia.
      * rewrite !be_value_snoc, Z.mod_small; unfold u8 in *; lia.
Qed.

(** [inc_byte_array] adds one to the big-endian number in the array, modulo
    its size, and keeps its length: replay counters and nonces count. *)
Theorem inc_byte_array_exact l :
  Forall is_byte l ->
  length (inc_byte_array l) = length l /\ Forall is_byte (inc_byte_array l) /\
  be_value (inc_byte_array l) = (be_value l + 1) mod 256 ^ Z.of_nat (length l).
Proof.
  intros H. destruct (inc_loop_exact l [] H) as (l' & Hi & Hl & Hb & Hv).
  rewrite !app_nil_r in Hi. unfold inc_byte_array. by rewrite Hi.
Qed.

Lemma inc_byte_array_exact_witness :
  be_value (inc_byte_array [0; 255; 255]) = (be_value [0; 255; 255] + 1) mod 256 ^ 3.
Proof. apply (inc_byte_array_exact [0; 255; 255]). repeat constructor; unfold is_byte; lia. Defined.

(** ** Comparing elements *)

(** Where the capabilities of an RSN element are, if it is long enough. *)
Definition capab_pos (ie : list Z) : option nat :=
  c1 ← WPA_GET_LE16 ie 8;
  let p := (10 + Z.to_nat c1 * 4)%nat in
  c2 ← WPA_GET_LE16 ie p;
  let q := (p + 2 + Z.to_nat c2 * 4)%nat in
  if (q + 2 <=? length ie)%nat then Some q else None.

Lemma get_le16_none b p : (length b < p + 2)%nat -> WPA_GET_LE16 b p = None.
Proof.
  intros H. unfold WPA_GET_LE16. destruct (b !! p); [|done]. cbn [mbind option_bind].
  by rewrite (proj2 (lookup_ge_None b (p + 1))) by lia.
Qed.

Lemma fixup_exact a m : length a = length m ->
  wpa_fixup_wpa_ie_rsn a m (length m)
  = Some (match capab_pos m with
          | Some q =>
              if (nth q a 0 =? 0) && (nth (q + 1) a 0 =? 0) &&
                 (negb (nth q m 0 =? 0) || negb (nth (q + 1) m 0 =? 0))
              then take q a ++ take 2 (drop q m) ++ drop (q + 2) a else a
          | None => a
          end).
Proof.
  intros Hl. unfold wpa_fixup_wpa_ie_rsn, capab_pos, RSN_SELECTOR_LEN. change (4 + 4)%nat with 8%nat.
  destruct (Nat.ltb_spec (length m) (8 + 2)); [by rewrite get_le16_none by lia|].
  destruct (get_le16_some m 8) as (c1 & -> & _); [lia|]. cbn [mbind option_bind].
  change (8 + 2)%nat with 10%nat. set (p := (10 + Z.to_nat c1 * 4)%nat).
  destruct (Nat.ltb_spec (length m) (p + 2)); [by rewrite get_le16_none by lia|].
  destruct (get_le16_some m p) as (c2 & -> & _); [lia|]. cbn [mbind option_bind].
  set (q := (p + 2 + Z.to_nat c2 * 4)%nat).
  destruct (Nat.ltb_spec (length m) (q + 2)), (Nat.leb_spec (q + 2) (length m)); try lia; [done|].
  destruct (lookup_some a q) as [a0 A0]; [lia|]. destruct (lookup_some a (q + 1)) as [a1 A1]; [lia|].
  destruct (lookup_some m q) as [m0 M0]; [lia|]. destruct (lookup_some m (q + 1)) as [m1 M1]; [lia|].
  rewrite A0, A1, M0, M1. cbn [mbind option_bind].
  rewrite (nth_lookup_Some _ _ _ _ A0), (nth_lookup_Some _ _ _ _ A1),
    (nth_lookup_Some _ _ _ _ M0), (nth_lookup_Some _ _ _ _ M1).
  destruct (_ && _ && _); [|done]. unfold wr. cbn [length].
  rewrite (proj2 (Nat.leb_le _ _)) by lia.
  rewrite (drop_S m m0 q M0). replace (S q) with (q + 1)%nat by lia. rewrite (drop_S m m1 (q + 1) M1). done.
Qed.

Lemma split_two (l : list Z) q : (q + 2 <= length l)%nat ->
  exists l1 x y l2, l = l1 ++ x :: y :: l2 /\ length l1 = q.
Proof.
  intros H. destruct (split_off l q (length l - q)) as (l1 & r & -> & L1 & L2); [lia|].
  rewrite length_app in *. destruct r as [|x [|y r]]; cbn [length] in *; [lia|lia|]. by exists l1, x, y, r.
Qed.

Lemma capab_pos_inside ie q : capab_pos ie = Some q -> (q + 2 <= length ie)%nat.
Proof.
  unfold capab_pos. destruct (WPA_GET_LE16 ie 8); [|done]. cbn [mbind option_bind].
  destruct (WPA_GET_LE16 ie _); [|done]. cbn [mbind option_bind]. case_match eqn:E; [|done].
  intros [= <-]. by apply Nat.leb_le.
Qed.

(** [wpa_compare_rsn_ie] accepts the element of message 2/4 exactly when it
    is the one of the association, or differs from it only in the two bytes of
    the capabilities, which were zero at association; it always returns, and no
    count in the element makes it read outside. *)
Theorem compare_rsn_ie_exact ie1 ie2 :
  (wpa_compare_rsn_ie true (Some ie1) (length ie1) (Some ie2) (length ie2) = Some 0 <->
   ie1 = ie2 \/
   exists q, capab_pos ie2 = Some q /\ ie1 = take q ie2 ++ [0; 0] ++ drop (q + 2) ie2) /\
  is_Some (wpa_compare_rsn_ie true (Some ie1) (length ie1) (Some ie2) (length ie2)).
Proof.
  unfold wpa_compare_rsn_ie. destruct (Nat.eqb_spec (length ie1) (length ie2)) as [Hl|Hl].
  2: { split; [|by eexists]. split; [done|]. intros [->|(q & Hq & ->)]; [done|]. exfalso. apply Hl.
       apply capab_pos_inside in Hq. rewrite !length_app, length_take_le, length_drop by lia. cbn [length]. lia. }
  rewrite Hl, slice_whole. assert (slice ie1 0 (length ie2) = Some ie1) as -> by (rewrite <- Hl; apply slice_whole).
  cbn [mbind option_bind negb].
  destruct (decide (ie1 = ie2)) as [->|Hne]; [split; [|by eexists]; by split; [left|]|].
  rewrite fixup_exact by done. cbn [mbind option_bind]. split; [|case_match; by eexists].
  destruct (capab_pos ie2) as [q|] eqn:Hq.
  2: { rewrite decide_False by done. split; [done|]. by intros [?|(q & ? & _)]. }
  apply capab_pos_inside in Hq as Hin. destruct (split_two ie2 q Hin) as (m1 & x & y & m2 & -> & L1).
  destruct (split_two ie1 q) as (a1 & u & v & a2 & -> & A1); [lia|].
  assert (forall l1 r, length l1 = q -> take q (l1 ++ r) = l1 /\ drop (q + 2) (l1 ++ r) = drop 2 r /\
    drop q (l1 ++ r) = r /\ (forall k, nth (q + k) (l1 ++ r) 0 = nth k r 0)) as Hcut.
  { intros l1 r <-. split_and!; [apply take_app_length|apply drop_app_add|apply drop_app_length|].
    intros k. rewrite app_nth2 by lia. f_equal. lia. }
  destruct (Hcut m1 (x :: y :: m2) L1) as (Mt & Md & -> & Hm).
  destruct (Hcut a1 (u :: v :: a2) A1) as (-> & -> & _ & Ha).
  pose proof (Ha 0%nat) as Ha0. pose proof (Hm 0%nat) as Hm0. rewrite Nat.add_0_r in Ha0, Hm0.
  rewrite Ha0, Hm0, Ha, Hm. cbn [nth drop take app].
  split.
  - destruct ((u =? 0) && (v =? 0) && _) eqn:Hc; [|by rewrite decide_False].
    destruct (decide _) as [e|]; [|done]. intros _. right. exists q. split; [done|].
    bool_to_prop. rewrite Mt, Md. subst u v. cbn [drop app] in *. rewrite ?drop_0 in *.
    apply app_inj_1 in e as [-> [= ->]]; [|lia]. done.
  - intros [?|(q' & [= <-] & Heq)]; [done|]. rewrite Mt, Md in Heq. cbn [drop app] in Heq. rewrite ?drop_0 in *.
    apply app_inj_1 in Heq as [-> [= -> -> ->]]; [|lia]. change (0 =? 0) with true. cbn [andb].
    destruct (negb (x =? 0) || negb (y =? 0)) eqn:Hxy; [by rewrite decide_True|].
    exfalso. apply Hne. bool_to_prop. by subst.
Qed.

(** The array for the announced element has room for one pairwise cipher and
    one key management only: with WPA2 alone and a policy that can be announced,
    [wpa_auth_gen_wpa_ie] succeeds exactly when the RSN element has the 22 bytes
    of the array, and writes past its end for every larger policy (no policy
    has a smaller element). *)
Theorem gen_wpa_ie_room conf arr stack :
  rsn_policy conf = true -> has (conf_wpa conf) WPA_PROTO_RSN = true ->
  has (conf_wpa conf) WPA_PROTO_WPA = false ->
  length arr = WPA_IE_LEN -> length stack = 128%nat ->
  (22 <= rsn_ie_size conf None)%nat /\
  wpa_auth_gen_wpa_ie conf arr stack
  = (if (rsn_ie_size conf None =? 22)%nat
     then '(buf, _) ← wpa_write_rsn_ie conf stack 0 128 None; Some (take 22 buf, 0)
     else None).
Proof.
  intros Hp Hr Hw Ha Hs. destruct (rsn_policy_writes _ Hp) as ((sel & Hsel) & Hpw & Hak).
  assert (22 <= rsn_ie_size conf None <= 34)%nat as Hsz.
  { unfold rsn_ie_size. pose proof (suites_count_le (rsn_pairwise_suites (conf_rsn_pairwise conf))) as H1.
    pose proof (suites_count_le (rsn_akm_suites (conf_wpa_key_mgmt conf))) as H2.
    change (length (rsn_pairwise_suites _)) with 3%nat in H1. change (length (rsn_akm_suites _)) with 2%nat in H2. lia. }
  split; [lia|].
  destruct (split_off stack (rsn_ie_size conf None) (128 - rsn_ie_size conf None)) as (old & post & -> & Lo & Lp); [lia|].
  pose proof (write_rsn_exact conf None sel (old ++ post) [] old post 128 Hsel Hpw Hak I) as Hwr.
  specialize (Hwr ltac:(lia) eq_refl Lo). cbn [length app] in Hwr.
  unfold wpa_auth_gen_wpa_ie. rewrite Hr, Hw, Hwr. cbn [mbind option_bind].
  rewrite (proj2 (Z.ltb_ge _ _)) by lia. change (0 <? 0) with false. cbv iota.
  rewrite Nat2Z.id, <- (length_rsn_ie conf sel None I), take_app_length.
  rewrite (length_rsn_ie conf sel None I). unfold wr. rewrite (length_rsn_ie conf sel None I), Ha. unfold WPA_IE_LEN in *.
  destruct (Nat.eqb_spec (rsn_ie_size conf None) 22) as [He|He].
  - rewrite He, Nat.add_0_l, drop_ge, app_nil_r by lia. cbn [take app]. rewrite take_0. cbn [mbind option_bind app Nat.leb].
    rewrite take_app_le, take_ge by (rewrite (length_rsn_ie conf sel None I); lia). done.
  - by rewrite (proj2 (Nat.leb_gt _ _)) by lia.
Qed.

Lemma gen_wpa_ie_room_witness :
  wpa_auth_gen_wpa_ie (mk_conf 2 2 0 16 24 0 0 0 0) (replicate 22 0) (replicate 128 0) = None.
Proof.
  exact (proj2 (gen_wpa_ie_room (mk_conf 2 2 0 16 24 0 0 0 0) (replicate 22 0) (replicate 128 0)
    eq_refl eq_refl eq_refl eq_refl eq_refl)).
Defined.
