(* ===== verification/RsnRead.v ===== *)
(** * RsnRead: what an RSN element says

    A reading of the contents of an RSN element that is written on the bytes
    alone, independently of the parser of [ap/common/wpa_common.c]: the version, a
    group cipher suite, a list of pairwise cipher suites and one of key management
    suites, capabilities and PMKIDs, where everything after the version may be
    left out from some point on.  [wpa_parse_wpa_ie_rsn] accepts exactly the
    elements that can be read and returns what they say, wherever the element lies
    in its buffer. *)

From stdpp Require Import base list option.
From Stdlib Require Import ZArith Lia.
From S2P Require Import Prelude Words Wire Ie80211 WpaIe.

(** The suites of 802.11: OUI 00-0f-ac and a type *)
Definition rsn_ciphers : list (list Z * Z) :=
  [([0x00; 0x0f; 0xac; 0], WPA_CIPHER_NONE); ([0x00; 0x0f; 0xac; 1], WPA_CIPHER_WEP40);
   ([0x00; 0x0f; 0xac; 2], WPA_CIPHER_TKIP); ([0x00; 0x0f; 0xac; 4], WPA_CIPHER_CCMP);
   ([0x00; 0x0f; 0xac; 5], WPA_CIPHER_WEP104)].
Definition rsn_akms : list (list Z * Z) :=
  [([0x00; 0x0f; 0xac; 1], WPA_KEY_MGMT_IEEE8021X); ([0x00; 0x0f; 0xac; 2], WPA_KEY_MGMT_PSK)].

(** The bit of a suite, no bit for one that is not in the table *)
Definition suite_bit (t : list (list Z * Z)) (s : list Z) : Z :=
  match List.find (fun p => bool_decide (p.1 = s)) t with Some p => p.2 | None => 0 end.

(** The first [n] suites of [r] *)
Fixpoint suites_bits (t : list (list Z * Z)) (n : nat) (r : list Z) : Z :=
  match n with
  | O => 0
  | S n => Z.lor (suite_bit t (take 4 r)) (suites_bits t n (drop 4 r))
  end.

(** A counted list of suites: what it says and what follows; nothing at all
    stands for the default. *)
Definition read_suites (t : list (list Z * Z)) (dflt : Z) (r : list Z) : option (Z * list Z) :=
  match r with
  | [] => Some (dflt, [])
  | [_] => None
  | c0 :: c1 :: r =>
      let n := Z.to_nat (c0 + 256 * c1) in
      if (n =? 0)%nat || (length r <? 4 * n)%nat then None else Some (suites_bits t n r, drop (4 * n) r)
  end.

Definition read_group (r : list Z) : option (Z * list Z) :=
  match r with
  | [] => Some (WPA_CIPHER_CCMP, [])
  | _ => if (length r <? 4)%nat then None else Some (suite_bit rsn_ciphers (take 4 r), drop 4 r)
  end.

(** Capabilities and PMKIDs: the PMKIDs that are announced are there. *)
Definition read_rest (r : list Z) : bool :=
  match r with
  | _ :: _ :: n0 :: n1 :: ids => (Z.to_nat (n0 + 256 * n1) * 16 <=? length ids)%nat
  | _ => true
  end.

(** The group cipher, the pairwise ciphers and the key managements *)
Definition rsn_read (d : list Z) : option (Z * Z * Z) :=
  match d with
  | v0 :: v1 :: r =>
      if (v0 =? 1) && (v1 =? 0) then
        '(g, r) ← read_group r;
        '(p, r) ← read_suites rsn_ciphers WPA_CIPHER_CCMP r;
        '(k, r) ← read_suites rsn_akms WPA_KEY_MGMT_IEEE8021X r;
        if read_rest r then Some (g, p, k) else None
      else None
  | _ => None
  end.

Example rsn_read_psk :
  rsn_read [1; 0; 0; 15; 172; 4; 1; 0; 0; 15; 172; 4; 1; 0; 0; 15; 172; 2; 0; 0]
  = Some (WPA_CIPHER_CCMP, WPA_CIPHER_CCMP, WPA_KEY_MGMT_PSK).
Proof. reflexivity. Qed.

(** ** The parser *)

Lemma bytes4 (r : list Z) : Forall is_byte r -> (4 <= length r)%nat ->
  exists a b c d l, r = a :: b :: c :: d :: l /\ is_byte a /\ is_byte b /\ is_byte c /\ is_byte d.
Proof.
  intros Hb Hl. destruct r as [|a [|b [|c [|d l]]]]; try (cbn in Hl; lia).
  do 4 (apply list.Forall_cons_1 in Hb as [? Hb]). by exists a, b, c, d, l.
Qed.

Lemma get_be32_at (pre post : list Z) a b c d : is_byte a -> is_byte b -> is_byte c -> is_byte d ->
  WPA_GET_BE32 (pre ++ a :: b :: c :: d :: post) (length pre) = Some (16777216 * a + 65536 * b + 256 * c + d).
Proof.
  intros. unfold WPA_GET_BE32. rewrite lookup_at0, !lookup_at. cbn [lookup list_lookup mbind option_bind]. by rewrite be32_val.
Qed.

Lemma get_le16_at (pre post : list Z) a b : is_byte a -> is_byte b ->
  WPA_GET_LE16 (pre ++ a :: b :: post) (length pre) = Some (a + 256 * b).
Proof.
  intros. unfold WPA_GET_LE16. rewrite lookup_at0, !lookup_at. cbn [lookup list_lookup mbind option_bind].
  rewrite be16_val by done. f_equal. lia.
Qed.

Lemma selector_test a b c d x : is_byte a -> is_byte b -> is_byte c -> is_byte d -> 0 <= x < 256 ->
  (16777216 * a + 65536 * b + 256 * c + d =? RSN_SELECTOR 0x00 0x0f 0xac x) = bool_decide ([0x00; 0x0f; 0xac; x] = [a; b; c; d]).
Proof.
  unfold is_byte. intros. unfold RSN_SELECTOR. rewrite be32_val by (unfold is_byte; lia).
  case_bool_decide as Hx; [injection Hx; intros; lia|]. apply Z.eqb_neq. intros He. apply Hx.
  assert (0 = a /\ 15 = b /\ 172 = c /\ x = d) as (-> & -> & -> & ->) by lia. done.
Qed.

(** A table whose conversion function tests its suites in order *)
Definition converts (conv : Z -> Z) (t : list (list Z * Z)) : Prop := forall a b c d,
  is_byte a -> is_byte b -> is_byte c -> is_byte d ->
  conv (16777216 * a + 65536 * b + 256 * c + d) = suite_bit t [a; b; c; d].

Lemma ciphers_convert : converts rsn_selector_to_bitfield rsn_ciphers.
Proof.
  intros a b c d ????. unfold rsn_selector_to_bitfield, suite_bit, rsn_ciphers, RSN_CIPHER_SUITE_NONE,
    RSN_CIPHER_SUITE_WEP40, RSN_CIPHER_SUITE_TKIP, RSN_CIPHER_SUITE_CCMP, RSN_CIPHER_SUITE_WEP104.
  rewrite !selector_test by (done || lia). cbn [List.find fst snd].
  repeat (case_bool_decide; [done|]). done.
Qed.

Lemma akms_convert : converts rsn_key_mgmt_to_bitfield rsn_akms.
Proof.
  intros a b c d ????. unfold rsn_key_mgmt_to_bitfield, suite_bit, rsn_akms, RSN_AUTH_KEY_MGMT_UNSPEC_802_1X,
    RSN_AUTH_KEY_MGMT_PSK_OVER_802_1X.
  rewrite !selector_test by (done || lia). cbn [List.find fst snd].
  repeat (case_bool_decide; [done|]). done.
Qed.

Lemma or_selectors_read conv t post : converts conv t -> forall n pre r acc, Forall is_byte r -> (4 * n <= length r)%nat ->
  or_selectors conv (pre ++ r ++ post) (length pre) n acc = Some (Z.lor acc (suites_bits t n r)).
Proof.
  intros Hc. induction n as [|n IH]; intros pre r acc Hb Hl; cbn [or_selectors suites_bits]; [by rewrite Z.lor_0_r|].
  destruct (bytes4 r Hb ltac:(lia)) as (a & b & c & d & l & -> & Ha & Hb' & Hc' & Hd). cbn [app].
  rewrite get_be32_at by done. cbn [mbind option_bind]. rewrite Hc by done.
  change (take 4 (a :: b :: c :: d :: l)) with [a; b; c; d]. change (drop 4 (a :: b :: c :: d :: l)) with l.
  replace (pre ++ a :: b :: c :: d :: l ++ post) with ((pre ++ [a; b; c; d]) ++ l ++ post) by (by rewrite <- app_assoc).
  replace (length pre + RSN_SELECTOR_LEN)%nat with (length (pre ++ [a; b; c; d])) by (rewrite length_app; done).
  rewrite IH; [by rewrite Z.lor_assoc| |cbn in Hl; lia]. do 4 (apply list.Forall_cons_1 in Hb as [_ Hb]). done.
Qed.

(** The parser at the start of what is left of the element: [r] *)
Definition at_rest (buf : list Z) (post r : list Z) (pos : nat) (left : Z) : Prop :=
  exists pre, buf = pre ++ r ++ post /\ pos = length pre /\ left = Z.of_nat (length r) /\ Forall is_byte r.

Lemma at_drop buf post r pos left n : at_rest buf post r pos left -> (n <= length r)%nat ->
  at_rest buf post (drop n r) (pos + n) (left - Z.of_nat n).
Proof.
  intros (pre & -> & -> & -> & Hb) Hn. exists (pre ++ take n r). split_and!.
  - by rewrite <- app_assoc, (app_assoc (take n r)), take_drop.
  - rewrite length_app, length_take. lia.
  - rewrite length_drop. lia.
  - by apply Forall_drop.
Qed.

Section Steps.
Context (buf post : list Z).

Lemma group_read r d pos left : at_rest buf post r pos left -> group_cipher d = WPA_CIPHER_CCMP ->
  match read_group r with
  | Some (g, r') => exists pos' left', parse_group rsn_selector_to_bitfield buf d pos left = Some (Go (set_group d g) pos' left') /\
      at_rest buf post r' pos' left'
  | None => exists res d', parse_group rsn_selector_to_bitfield buf d pos left = Some (Stop res d') /\ res <> 0
  end.
Proof.
  intros Hr Hg. pose proof Hr as (pre & Hbuf & -> & -> & Hb). unfold read_group, parse_group. destruct r as [|x r].
  - cbn [length]. eexists _, _. split; [|exact Hr]. cbn. do 2 f_equal. destruct d. cbn in *. by rewrite Hg.
  - destruct (Nat.ltb_spec (length (x :: r)) 4) as [Hl|Hl].
    + rewrite (proj2 (Z.leb_gt _ _)), (proj2 (Z.ltb_lt _ _)) by (cbn [length] in *; lia). by eexists _, _.
    + rewrite (proj2 (Z.leb_le _ _)) by lia. pose proof (at_drop _ _ _ _ _ 4 Hr Hl) as Hd.
      destruct (bytes4 _ Hb Hl) as (a & b & c & e & l & E & ? & ? & ? & ?).
      assert (WPA_GET_BE32 buf (length pre) = Some (16777216 * a + 65536 * b + 256 * c + e)) as ->
        by (rewrite Hbuf, E; by apply get_be32_at).
      cbn [mbind option_bind]. rewrite ciphers_convert by done.
      assert (take 4 (x :: r) = [a; b; c; e]) as -> by (by rewrite E). eexists _, _. split; [done|exact Hd].
Qed.

Lemma suites_read conv t set botch short dflt r d pos left : converts conv t -> at_rest buf post r pos left ->
  botch <> 0 -> short <> 0 -> (forall d x y, set (set d x) y = set d y) -> set d dflt = d ->
  match read_suites t dflt r with
  | Some (v, r') => exists pos' left', parse_suites conv set botch short buf d pos left = Some (Go (set d v) pos' left') /\
      at_rest buf post r' pos' left'
  | None => exists res d', parse_suites conv set botch short buf d pos left = Some (Stop res d') /\ res <> 0
  end.
Proof.
  intros Hc Hr H1 H2 Hset Hd. pose proof Hr as (pre & Hbuf & -> & -> & Hb). unfold read_suites, parse_suites.
  destruct r as [|c0 [|c1 r]].
  - cbn [length]. eexists _, _. split; [|exact Hr]. cbn. by rewrite Hd.
  - cbn. by eexists _, _.
  - rewrite (proj2 (Z.leb_le _ _)) by (cbn [length]; lia). apply list.Forall_cons_1 in Hb as [B0 Hb].
    apply list.Forall_cons_1 in Hb as [B1 Hb]. 
    assert (WPA_GET_LE16 buf (length pre) = Some (c0 + 256 * c1)) as -> by (rewrite Hbuf; by apply get_le16_at). cbn [mbind option_bind].
    unfold is_byte in B0, B1. set (count := c0 + 256 * c1). set (n := Z.to_nat count).
    assert (Z.of_nat n = count) as Hn by (unfold n, count; lia).
    replace ((count =? 0) || (Z.of_nat (length (c0 :: c1 :: r)) - 2 <? count * 4)) with ((n =? 0)%nat || (length r <? 4 * n)%nat).
    2: { f_equal; [destruct (Nat.eqb_spec n 0), (Z.eqb_spec count 0); done || lia|].
         cbn [length]. destruct (Nat.ltb_spec (length r) (4 * n)), (Z.ltb_spec (Z.of_nat (S (S (length r))) - 2) (count * 4)); done || lia. }
    destruct ((n =? 0)%nat || (length r <? 4 * n)%nat) eqn:E; [by eexists _, _|].
    apply orb_false_iff in E as [E1%Nat.eqb_neq E2%Nat.ltb_ge].
    assert (or_selectors conv buf (length pre + 2) n 0 = Some (Z.lor 0 (suites_bits t n r))) as ->.
    { replace buf with ((pre ++ [c0; c1]) ++ r ++ post) by (by rewrite Hbuf, <- app_assoc).
      replace (length pre + 2)%nat with (length (pre ++ [c0; c1])) by (rewrite length_app; done).
      apply or_selectors_read; done || lia. }
    cbn [mbind option_bind]. rewrite Z.lor_0_l, Hset. eexists _, _.
    split; [done|]. pose proof (at_drop _ _ _ _ _ (2 + 4 * n) Hr ltac:(cbn [length]; lia)) as Hdr.
    change (drop (2 + 4 * n) (c0 :: c1 :: r)) with (drop (4 * n) r) in Hdr.
    replace (length pre + 2 + n * 4)%nat with (length pre + (2 + 4 * n))%nat by lia.
    replace (Z.of_nat (length (c0 :: c1 :: r)) - 2 - count * 4) with (Z.of_nat (length (c0 :: c1 :: r)) - Z.of_nat (2 + 4 * n)) by lia.
    exact Hdr.
Qed.

(** What the last two fields do: only the PMKIDs can be short. *)
Lemma rest_read r d pos left : at_rest buf post r pos left ->
  exists res d', parse_result (parse_capab buf d pos left ;> fun d p l => parse_pmkid buf d p l) = Some (res, d') /\
    (res = 0 <-> read_rest r = true) /\
    group_cipher d' = group_cipher d /\ pairwise_cipher d' = pairwise_cipher d /\ key_mgmt d' = key_mgmt d.
Proof.
  intros Hr. pose proof Hr as (pre & Hbuf & -> & -> & Hb). unfold parse_capab, read_rest.
  destruct r as [|c0 [|c1 r]]; [cbn; by eexists _, _..|].
  rewrite (proj2 (Z.leb_le _ _)) by (cbn [length]; lia). apply list.Forall_cons_1 in Hb as [B0 Hb].
  apply list.Forall_cons_1 in Hb as [B1 Hb]. rewrite Hbuf. cbn [app]. rewrite get_le16_at by done. cbn [mbind option_bind and_then].
  unfold parse_pmkid. destruct r as [|n0 [|n1 r]]; [cbn; by eexists _, _..|].
  rewrite (proj2 (Z.leb_le _ _)) by (cbn [length]; lia). apply list.Forall_cons_1 in Hb as [N0 Hb].
  apply list.Forall_cons_1 in Hb as [N1 Hb].
  replace (pre ++ c0 :: c1 :: (n0 :: n1 :: r) ++ post) with ((pre ++ [c0; c1]) ++ n0 :: n1 :: (r ++ post)) by (by rewrite <- app_assoc).
  replace (length pre + 2)%nat with (length (pre ++ [c0; c1])) by (rewrite length_app; done).
  rewrite get_le16_at by done. cbn [mbind option_bind]. unfold is_byte in *.
  destruct (Z.ltb_spec (Z.of_nat (length (c0 :: c1 :: n0 :: n1 :: r)) - 2 - 2) ((n0 + 256 * n1) * 16)) as [Hs|Hs]; cbn [length] in Hs.
  - cbn [parse_result]. eexists _, _. split; [done|]. split; [split; [done|intros Hl%Nat.leb_le; lia]|done].
  - cbn [parse_result]. eexists _, _. split; [done|]. split; [split; [intros _; apply Nat.leb_le; lia|done]|done].
Qed.
End Steps.

(** The parser reads an element as [rsn_read] does. *)
Lemma parse_rsn_read d post : Forall is_byte d ->
  exists res data, wpa_parse_wpa_ie_rsn (encode_ie (48, d) ++ post) (2 + length d) = Some (res, data) /\
    match rsn_read d with
    | Some (g, p, k) => res = 0 /\ group_cipher data = g /\ pairwise_cipher data = p /\ key_mgmt data = k
    | None => res <> 0
    end.
Proof.
  intros Hb. unfold wpa_parse_wpa_ie_rsn. cbn [Nat.eqb Nat.add]. destruct d as [|v0 [|v1 r]]; [by eexists _, _..|].
  cbn [length Nat.ltb Nat.leb]. apply list.Forall_cons_1 in Hb as [B0 Hb]. apply list.Forall_cons_1 in Hb as [B1 Hb].
  set (buf := encode_ie (48, v0 :: v1 :: r) ++ post).
  assert (buf = [48; Z.of_nat (S (S (length r)))] ++ v0 :: v1 :: (r ++ post)) as Hbuf by done.
  change (buf !! 0%nat) with (Some 48). change (buf !! 1%nat) with (Some (Z.of_nat (S (S (length r))))).
  assert (WPA_GET_LE16 buf 2 = Some (v0 + 256 * v1)) as -> by (rewrite Hbuf; by apply get_le16_at).
  cbn [mbind option_bind]. change (48 =? WLAN_EID_RSN) with true.
  replace (Z.of_nat (S (S (length r))) =? Z.of_nat (S (S (S (S (length r))))) - 2) with true by (symmetry; apply Z.eqb_eq; lia).
  cbn [negb orb]. cbn [rsn_read].
  replace (v0 + 256 * v1 =? RSN_VERSION) with ((v0 =? 1) && (v1 =? 0)).
  2: { unfold RSN_VERSION, is_byte in *. destruct (Z.eqb_spec v0 1), (Z.eqb_spec v1 0), (Z.eqb_spec (v0 + 256 * v1) 1); done || lia. }
  destruct ((v0 =? 1) && (v1 =? 0)); cbn [negb]; [|by eexists _, _].
  assert (at_rest buf post r 4 (Z.of_nat (S (S (S (S (length r))))) - 4)) as Hr.
  { exists [48; Z.of_nat (S (S (length r))); v0; v1]. split_and!; [done|done|lia|done]. }
  pose proof (group_read buf post r rsn_defaults _ _ Hr eq_refl) as Hg.
  destruct (read_group r) as [[g r1]|]; cbn [mbind option_bind].
  2: { destruct Hg as (res & d' & -> & Hne). cbn. by eexists _, _. }
  destruct Hg as (p1 & l1 & -> & Hr1). cbn [and_then].
  pose proof (suites_read buf post rsn_selector_to_bitfield rsn_ciphers set_pairwise (-4) (-5) WPA_CIPHER_CCMP r1
    (set_group rsn_defaults g) p1 l1 ciphers_convert Hr1 ltac:(done) ltac:(done) ltac:(done) ltac:(done)) as Hp.
  destruct (read_suites rsn_ciphers WPA_CIPHER_CCMP r1) as [[p r2]|]; cbn [mbind option_bind].
  2: { destruct Hp as (res & d' & -> & Hne). cbn. by eexists _, _. }
  destruct Hp as (p2 & l2 & -> & Hr2). cbn [and_then].
  pose proof (suites_read buf post rsn_key_mgmt_to_bitfield rsn_akms set_key_mgmt (-6) (-7) WPA_KEY_MGMT_IEEE8021X r2
    (set_pairwise (set_group rsn_defaults g) p) p2 l2 akms_convert Hr2 ltac:(done) ltac:(done) ltac:(done) ltac:(done)) as Hk.
  destruct (read_suites rsn_akms WPA_KEY_MGMT_IEEE8021X r2) as [[k r3]|]; cbn [mbind option_bind].
  2: { destruct Hk as (res & d' & -> & Hne). cbn. by eexists _, _. }
  destruct Hk as (p3 & l3 & -> & Hr3). cbn [and_then].
  destruct (rest_read buf post r3 (set_key_mgmt (set_pairwise (set_group rsn_defaults g) p) k) p3 l3 Hr3)
    as (res & d' & -> & Hres & H1 & H2 & H3).
  exists res, d'. split; [done|]. destruct (read_rest r3).
  - split_and!; [by apply Hres|by rewrite H1|by rewrite H2|by rewrite H3].
  - intros H0. by apply Hres in H0.
Qed.
