(* ===== verification/Aes.v ===== *)
(** * Aes: the AES-128 block cipher of [ap/crypto/aes-internal*.c]

    The table-driven implementation as compiled ([AES_SMALL_TABLES], not
    [FULL_UNROLL]): a state is four 32-bit words, a round looks every byte up in
    one rotated table.  The main result is [aes_decrypt_encrypt]: decryption with
    the decryption key schedule inverts encryption for every key and block.

    The proof works byte-wise: tables are compared with each other by
    evaluation on all bytes, and words are put together from their bytes. *)

From stdpp Require Import base list.
From Stdlib Require Import ZArith Lia Btauto.
From S2P Require Import Prelude Words AesTables.

(** ** Lookup macros ([aes_i.h]) *)

(** [u32 rotr(u32 val, int bits)] *)
Definition rotr (val bits : Z) : Z := Z.lor (Z.shiftr val bits) (u32 (Z.shiftl val (32 - bits))).

Definition GETU32 (p : list Z) (off : nat) : Z :=
  word (nth off p 0) (nth (off + 1) p 0) (nth (off + 2) p 0) (nth (off + 3) p 0).

(** [PUTU32(ct, st)] as the four bytes written *)
Definition PUTU32 (st : Z) : list Z :=
  [u8 (Z.shiftr st 24); u8 (Z.shiftr st 16); u8 (Z.shiftr st 8); u8 st].

Definition TE0 (i : Z) : Z := nthZ Te0 (byte 3 i).
Definition TE1 (i : Z) : Z := rotr (nthZ Te0 (byte 2 i)) 8.
Definition TE2 (i : Z) : Z := rotr (nthZ Te0 (byte 1 i)) 16.
Definition TE3 (i : Z) : Z := rotr (nthZ Te0 (byte 0 i)) 24.
Definition TE41 (i : Z) : Z := Z.land (u32 (Z.shiftl (nthZ Te0 (byte 3 i)) 8)) 0xff000000.
Definition TE42 (i : Z) : Z := Z.land (nthZ Te0 (byte 2 i)) 0x00ff0000.
Definition TE43 (i : Z) : Z := Z.land (nthZ Te0 (byte 1 i)) 0x0000ff00.
Definition TE44 (i : Z) : Z := Z.land (Z.shiftr (nthZ Te0 (byte 0 i)) 8) 0x000000ff.
Definition TE421 (i : Z) : Z := Z.land (u32 (Z.shiftl (nthZ Te0 (byte 2 i)) 8)) 0xff000000.
Definition TE432 (i : Z) : Z := Z.land (nthZ Te0 (byte 1 i)) 0x00ff0000.
Definition TE443 (i : Z) : Z := Z.land (nthZ Te0 (byte 0 i)) 0x0000ff00.
Definition TE414 (i : Z) : Z := Z.land (Z.shiftr (nthZ Te0 (byte 3 i)) 8) 0x000000ff.
Definition TE4 (i : Z) : Z := Z.land (Z.shiftr (nthZ Te0 i) 8) 0x000000ff.

Definition TD0 (i : Z) : Z := nthZ Td0 (byte 3 i).
Definition TD1 (i : Z) : Z := rotr (nthZ Td0 (byte 2 i)) 8.
Definition TD2 (i : Z) : Z := rotr (nthZ Td0 (byte 1 i)) 16.
Definition TD3 (i : Z) : Z := rotr (nthZ Td0 (byte 0 i)) 24.
Definition TD41 (i : Z) : Z := u32 (Z.shiftl (nthZ Td4s (byte 3 i)) 24).
Definition TD42 (i : Z) : Z := Z.shiftl (nthZ Td4s (byte 2 i)) 16.
Definition TD43 (i : Z) : Z := Z.shiftl (nthZ Td4s (byte 1 i)) 8.
Definition TD44 (i : Z) : Z := nthZ Td4s (byte 0 i).
Definition TD0_ (i : Z) : Z := nthZ Td0 (byte 0 i).
Definition TD1_ (i : Z) : Z := rotr (nthZ Td0 (byte 0 i)) 8.
Definition TD2_ (i : Z) : Z := rotr (nthZ Td0 (byte 0 i)) 16.
Definition TD3_ (i : Z) : Z := rotr (nthZ Td0 (byte 0 i)) 24.

(** [RCON(i)] *)
Definition RCON (i : Z) : Z := u32 (Z.shiftl (nthZ rcons i) 24).

(** ** Key schedules *)

(** The loop of [rijndaelKeySetupEnc]: [n] rounds from round [i], whose current
    four words are [k0 .. k3]; the words written. *)
Fixpoint key_loop (n : nat) (i k0 k1 k2 k3 : Z) : list Z :=
  match n with
  | O => []
  | S n' =>
      let temp := k3 in
      let k4 := Z.lxor (Z.lxor (Z.lxor (Z.lxor (Z.lxor k0 (TE421 temp)) (TE432 temp))
                  (TE443 temp)) (TE414 temp)) (RCON i) in
      let k5 := Z.lxor k1 k4 in
      let k6 := Z.lxor k2 k5 in
      let k7 := Z.lxor k3 k6 in
      k4 :: k5 :: k6 :: k7 :: key_loop n' (i + 1) k4 k5 k6 k7
  end.

(** [void rijndaelKeySetupEnc(u32 rk[44], const u8 cipherKey[])] *)
Definition rijndaelKeySetupEnc (cipherKey : list Z) : list Z :=
  let k0 := GETU32 cipherKey 0 in
  let k1 := GETU32 cipherKey 4 in
  let k2 := GETU32 cipherKey 8 in
  let k3 := GETU32 cipherKey 12 in
  k0 :: k1 :: k2 :: k3 :: key_loop 10 0 k0 k1 k2 k3.

(** [temp = rk[i]; rk[i] = rk[j]; rk[j] = temp;] *)
Definition swap_rk (rk : list Z) (i j : nat) : list Z :=
  let temp := nth i rk 0 in <[j := temp]> (<[i := nth j rk 0]> rk).

(** [for (i = 0, j = 4*Nr; i < j; i += 4, j -= 4)]: [n] bounds the rounds. *)
Fixpoint invert_order (n : nat) (rk : list Z) (i j : nat) : list Z :=
  match n with
  | O => rk
  | S n' =>
      if Nat.ltb i j then
        invert_order n'
          (swap_rk (swap_rk (swap_rk (swap_rk rk i j) (i + 1) (j + 1)) (i + 2) (j + 2)) (i + 3) (j + 3))
          (i + 4) (j - 4)
      else rk
  end.

(** The inverse MixColumn transform of one word of the key schedule. *)
Definition inv_mix_word (w : Z) : Z :=
  Z.lxor (Z.lxor (Z.lxor (TD0_ (TE4 (Z.shiftr w 24))) (TD1_ (TE4 (Z.land (Z.shiftr w 16) 0xff))))
    (TD2_ (TE4 (Z.land (Z.shiftr w 8) 0xff)))) (TD3_ (TE4 (Z.land w 0xff))).

(** [for (i = 1; i < Nr; i++) { rk += 4; for (j = 0; j < 4; j++) rk[j] = ... }] *)
Fixpoint inv_mix_words (rk : list Z) (idx : list nat) : list Z :=
  match idx with
  | [] => rk
  | i :: r => inv_mix_words (<[i := inv_mix_word (nth i rk 0)]> rk) r
  end.

(** [void rijndaelKeySetupDec(u32 rk[44], const u8 cipherKey[])] *)
Definition rijndaelKeySetupDec (cipherKey : list Z) : list Z :=
  inv_mix_words (invert_order 11 (rijndaelKeySetupEnc cipherKey) 0 40) (seq 4 36).

(** ** The cipher *)

(** The words [s0 .. s3]. *)
Record quad : Type := mk_quad { q0 : Z; q1 : Z; q2 : Z; q3 : Z }.

(** [ROUND(i,d,s)] of [rijndaelEncrypt] *)
Definition ROUND_E (rk : list Z) (i : nat) (s : quad) : quad :=
  let r t0 t1 t2 t3 k := Z.lxor (Z.lxor (Z.lxor (Z.lxor (TE0 t0) (TE1 t1)) (TE2 t2)) (TE3 t3))
                           (nth k rk 0) in
  mk_quad (r (q0 s) (q1 s) (q2 s) (q3 s) (4 * i)%nat)
          (r (q1 s) (q2 s) (q3 s) (q0 s) (4 * i + 1)%nat)
          (r (q2 s) (q3 s) (q0 s) (q1 s) (4 * i + 2)%nat)
          (r (q3 s) (q0 s) (q1 s) (q2 s) (4 * i + 3)%nat).

(** [ROUND(i,d,s)] of [rijndaelDecrypt] *)
Definition ROUND_D (rk : list Z) (i : nat) (s : quad) : quad :=
  let r t0 t1 t2 t3 k := Z.lxor (Z.lxor (Z.lxor (Z.lxor (TD0 t0) (TD1 t1)) (TD2 t2)) (TD3 t3))
                           (nth k rk 0) in
  mk_quad (r (q0 s) (q3 s) (q2 s) (q1 s) (4 * i)%nat)
          (r (q1 s) (q0 s) (q3 s) (q2 s) (4 * i + 1)%nat)
          (r (q2 s) (q1 s) (q0 s) (q3 s) (4 * i + 2)%nat)
          (r (q3 s) (q2 s) (q1 s) (q0 s) (4 * i + 3)%nat).

(** [for (;;) { ROUND(1,t,s); rk += 8; if (--r == 0) break; ROUND(0,s,t); }]:
    the round keys left and the words [t]. *)
Fixpoint rounds (ROUND : list Z -> nat -> quad -> quad) (r : nat) (rk : list Z) (s : quad)
  : list Z * quad :=
  match r with
  | O => (rk, s)
  | S r' =>
      let t := ROUND rk 1%nat s in
      let rk := drop 8 rk in
      match r' with
      | O => (rk, t)
      | S _ => rounds ROUND r' rk (ROUND rk 0%nat t)
      end
  end.

(** [void rijndaelEncrypt(const u32 rk[44], const u8 pt[16], u8 ct[16])] *)
Definition rijndaelEncrypt (rk pt : list Z) : list Z :=
  let s := mk_quad (Z.lxor (GETU32 pt 0) (nth 0 rk 0)) (Z.lxor (GETU32 pt 4) (nth 1 rk 0))
                   (Z.lxor (GETU32 pt 8) (nth 2 rk 0)) (Z.lxor (GETU32 pt 12) (nth 3 rk 0)) in
  let '(rk, t) := rounds ROUND_E 5 rk s in
  let last t0 t1 t2 t3 k := Z.lxor (Z.lxor (Z.lxor (Z.lxor (TE41 t0) (TE42 t1)) (TE43 t2)) (TE44 t3))
                              (nth k rk 0) in
  PUTU32 (last (q0 t) (q1 t) (q2 t) (q3 t) 0%nat) ++
  PUTU32 (last (q1 t) (q2 t) (q3 t) (q0 t) 1%nat) ++
  PUTU32 (last (q2 t) (q3 t) (q0 t) (q1 t) 2%nat) ++
  PUTU32 (last (q3 t) (q0 t) (q1 t) (q2 t) 3%nat).

(** [static void rijndaelDecrypt(const u32 *rk, const u8 ct[16], u8 pt[16])] *)
Definition rijndaelDecrypt (rk ct : list Z) : list Z :=
  let s := mk_quad (Z.lxor (GETU32 ct 0) (nth 0 rk 0)) (Z.lxor (GETU32 ct 4) (nth 1 rk 0))
                   (Z.lxor (GETU32 ct 8) (nth 2 rk 0)) (Z.lxor (GETU32 ct 12) (nth 3 rk 0)) in
  let '(rk, t) := rounds ROUND_D 5 rk s in
  let last t0 t1 t2 t3 k := Z.lxor (Z.lxor (Z.lxor (Z.lxor (TD41 t0) (TD42 t1)) (TD43 t2)) (TD44 t3))
                              (nth k rk 0) in
  PUTU32 (last (q0 t) (q3 t) (q2 t) (q1 t) 0%nat) ++
  PUTU32 (last (q1 t) (q0 t) (q3 t) (q2 t) 1%nat) ++
  PUTU32 (last (q2 t) (q1 t) (q0 t) (q3 t) 2%nat) ++
  PUTU32 (last (q3 t) (q2 t) (q1 t) (q0 t) 3%nat).

(** [void *aes_encrypt_init(key, len)] and [aes_decrypt_init]: [mem] is whether
    [os_malloc] succeeds; [None] is [NULL]. *)
Definition aes_encrypt_init (key : list Z) (len : Z) (mem : bool) : option (list Z) :=
  if negb (len =? 16) then None else if mem then Some (rijndaelKeySetupEnc key) else None.
Definition aes_decrypt_init (key : list Z) (len : Z) (mem : bool) : option (list Z) :=
  if negb (len =? 16) then None else if mem then Some (rijndaelKeySetupDec key) else None.

(** [aes_encrypt] and [aes_decrypt] *)
Definition aes_encrypt (ctx plain : list Z) : list Z := rijndaelEncrypt ctx plain.
Definition aes_decrypt (ctx crypt : list Z) : list Z := rijndaelDecrypt ctx crypt.

(** The FIPS-197 example vector (appendix C.1). *)
Example aes_fips197 :
  aes_encrypt (rijndaelKeySetupEnc (map Z.of_nat (seq 0 16)))
    (map (fun i => 17 * Z.of_nat i) (seq 0 16))
  = [0x69; 0xc4; 0xe0; 0xd8; 0x6a; 0x7b; 0x04; 0x30; 0xd8; 0xcd; 0xb7; 0x80; 0x70; 0xb4; 0xc5; 0x5a].
Proof. vm_compute. reflexivity. Qed.

Example aes_fips197_dec :
  aes_decrypt (rijndaelKeySetupDec (map Z.of_nat (seq 0 16)))
    [0x69; 0xc4; 0xe0; 0xd8; 0x6a; 0x7b; 0x04; 0x30; 0xd8; 0xcd; 0xb7; 0x80; 0x70; 0xb4; 0xc5; 0x5a]
  = map (fun i => 17 * Z.of_nat i) (seq 0 16).
Proof. vm_compute. reflexivity. Qed.

(** ** Table facts *)

(** The S-box, as [TE4] reads it off [Te0]. *)
Definition Sbox (b : Z) : Z := TE4 b.

Lemma Sbox_byte b : is_byte (Sbox b).
Proof.
  unfold Sbox, TE4, is_byte. change 255 with (Z.ones 8). rewrite Z.land_ones by lia. lia.
Qed.
#[export] Hint Resolve Sbox_byte : words.

Lemma Td4s_Sbox b : is_byte b -> nthZ Td4s (Sbox b) = b.
Proof. intros Hb. by_byte b. Qed.

(** The contribution of one byte to the inverse MixColumn transform. *)
Definition inv_mix_byte (k b : Z) : Z := rotr (nthZ Td0 (Sbox b)) (8 * k).

(** It is linear: the exclusive or of its values at the bits that are set. *)
Definition sel (b i c : Z) : Z := if Z.testbit b i then c else 0.

Lemma sel_lxor a b i c : sel (Z.lxor a b) i c = Z.lxor (sel a i c) (sel b i c).
Proof.
  unfold sel. rewrite Z.lxor_spec.
  destruct (Z.testbit a i), (Z.testbit b i); cbn [xorb];
    by rewrite ?Z.lxor_nilpotent, ?Z.lxor_0_r, ?Z.lxor_0_l.
Qed.

Fixpoint by_bits (f : Z -> Z) (b : Z) (l : list Z) : Z :=
  match l with [] => 0 | i :: r => Z.lxor (sel b i (f (2 ^ i))) (by_bits f b r) end.

Lemma by_bits_lxor f a b l : by_bits f (Z.lxor a b) l = Z.lxor (by_bits f a l) (by_bits f b l).
Proof.
  induction l as [|i r IH]; [done|]. cbn [by_bits]. rewrite IH, sel_lxor. xor_ac.
Qed.

Lemma inv_mix_byte_bits k b : In k [0; 1; 2; 3] -> is_byte b ->
  inv_mix_byte k b = by_bits (inv_mix_byte k) b [0; 1; 2; 3; 4; 5; 6; 7].
Proof. intros Hk Hb. cbn in Hk. destruct Hk as [<-|[<-|[<-|[<-|[]]]]]; by_byte b. Qed.

Lemma inv_mix_byte_linear k a b : In k [0; 1; 2; 3] -> is_byte a -> is_byte b ->
  inv_mix_byte k (Z.lxor a b) = Z.lxor (inv_mix_byte k a) (inv_mix_byte k b).
Proof.
  intros Hk Ha Hb. rewrite !inv_mix_byte_bits by (done || by apply lxor_byte). apply by_bits_lxor.
Qed.

Lemma rotr_0 w : is_u32 w -> rotr w 0 = w.
Proof.
  intros Hw. unfold rotr. rewrite Z.shiftr_0_r, Z.shiftl_mul_pow2 by lia. unfold u32.
  replace (w * 2 ^ (32 - 0)) with (w * 4294967296) by lia. rewrite Z.mod_mul by lia. apply Z.lor_0_r.
Qed.

Lemma Td0_u32 b : is_byte b -> is_u32 (nthZ Td0 b).
Proof.
  intros Hb.
  assert (H : (0 <=? nthZ Td0 b) && (nthZ Td0 b <? 4294967296) = true)
    by (apply (for_byte (fun b => (0 <=? nthZ Td0 b) && (nthZ Td0 b <? 4294967296)));
        [vm_compute; reflexivity|done]).
  unfold is_u32. bool_to_prop. lia.
Qed.

(** The inverse MixColumn transform of a word, byte by byte. *)
Definition inv_mix (b3 b2 b1 b0 : Z) : Z :=
  Z.lxor (Z.lxor (Z.lxor (inv_mix_byte 0 b3) (inv_mix_byte 1 b2)) (inv_mix_byte 2 b1))
    (inv_mix_byte 3 b0).

Lemma inv_mix_word_bytes w : is_u32 w ->
  inv_mix_word w = inv_mix (byte 3 w) (byte 2 w) (byte 1 w) (byte 0 w).
Proof.
  intros Hw. unfold inv_mix_word, inv_mix, inv_mix_byte, TD0_, TD1_, TD2_, TD3_.
  assert (H3 : Z.shiftr w 24 = byte 3 w).
  { unfold byte. change 255 with (Z.ones 8). rewrite Z.land_ones, !Z.shiftr_div_pow2 by lia.
    unfold is_u32 in Hw. change (2 ^ (8 * 3)) with 16777216. change (2 ^ 24) with 16777216.
    change (2 ^ 8) with 256. lia. }
  rewrite H3. change (Z.land (Z.shiftr w 16) 255) with (byte 2 w).
  change (Z.land (Z.shiftr w 8) 255) with (byte 1 w).
  replace (Z.land w 255) with (byte 0 w) by (unfold byte; by rewrite Z.shiftr_0_r).
  fold (Sbox (byte 3 w)) (Sbox (byte 2 w)) (Sbox (byte 1 w)) (Sbox (byte 0 w)).
  rewrite !byte0_byte by auto with words.
  change (8 * 0) with 0. rewrite rotr_0 by (apply Td0_u32; auto with words). done.
Qed.

(** One byte of a round of encryption, and what the inverse transform makes of it. *)
Definition mix_byte (k b : Z) : Z := rotr (nthZ Te0 b) (8 * k).

Lemma inv_mix_mix_byte k b : In k [0; 1; 2; 3] -> is_byte b ->
  let w := mix_byte k b in
  inv_mix (byte 3 w) (byte 2 w) (byte 1 w) (byte 0 w) = Z.shiftl (Sbox b) (8 * (3 - k)).
Proof.
  intros Hk Hb. cbn zeta. cbn in Hk. destruct Hk as [<-|[<-|[<-|[<-|[]]]]]; by_byte b.
Qed.

Lemma mix_byte_u32 k b : In k [0; 1; 2; 3] -> is_byte b -> is_u32 (mix_byte k b).
Proof.
  intros Hk Hb.
  assert (H : (0 <=? mix_byte k b) && (mix_byte k b <? 4294967296) = true).
  { apply (for_byte (fun b => (0 <=? mix_byte k b) && (mix_byte k b <? 4294967296))); [|done].
    cbn in Hk. destruct Hk as [<-|[<-|[<-|[<-|[]]]]]; vm_compute; reflexivity. }
  unfold is_u32. bool_to_prop. lia.
Qed.

(** The inverse transform is linear in words. *)
Definition inv_mix_of (w : Z) : Z := inv_mix (byte 3 w) (byte 2 w) (byte 1 w) (byte 0 w).

Lemma inv_mix_of_lxor a b : inv_mix_of (Z.lxor a b) = Z.lxor (inv_mix_of a) (inv_mix_of b).
Proof.
  unfold inv_mix_of, inv_mix. rewrite !byte_lxor.
  rewrite !inv_mix_byte_linear by ((cbn; tauto) || auto with words). xor_ac.
Qed.

(** One column of a round of encryption. *)
Definition mix (b3 b2 b1 b0 : Z) : Z :=
  Z.lxor (Z.lxor (Z.lxor (mix_byte 0 b3) (mix_byte 1 b2)) (mix_byte 2 b1)) (mix_byte 3 b0).

Lemma mix_u32 b3 b2 b1 b0 :
  is_byte b3 -> is_byte b2 -> is_byte b1 -> is_byte b0 -> is_u32 (mix b3 b2 b1 b0).
Proof. intros. unfold mix. repeat apply lxor_u32; apply mix_byte_u32; (cbn; tauto) || done. Qed.

(** MixColumns is inverted: the S-boxed bytes come back. *)
Lemma inv_mix_mix b3 b2 b1 b0 :
  is_byte b3 -> is_byte b2 -> is_byte b1 -> is_byte b0 ->
  inv_mix_of (mix b3 b2 b1 b0) = word (Sbox b3) (Sbox b2) (Sbox b1) (Sbox b0).
Proof.
  intros H3 H2 H1 H0. unfold mix. rewrite !inv_mix_of_lxor. unfold inv_mix_of.
  rewrite !inv_mix_mix_byte by ((cbn; tauto) || done). unfold word.
  by rewrite Z.shiftl_0_r.
Qed.

(** ** Rounds *)

Lemma Te0_u32 b : is_byte b -> is_u32 (nthZ Te0 b).
Proof.
  intros Hb. assert (E : nthZ Te0 b = mix_byte 0 b) by by_byte b. rewrite E.
  apply mix_byte_u32; [cbn; tauto|done].
Qed.

Lemma TE_col a b c d :
  Z.lxor (Z.lxor (Z.lxor (TE0 a) (TE1 b)) (TE2 c)) (TE3 d)
  = mix (byte 3 a) (byte 2 b) (byte 1 c) (byte 0 d).
Proof.
  unfold mix, mix_byte, TE0, TE1, TE2, TE3. change (8 * 0) with 0.
  by rewrite rotr_0 by (apply Te0_u32; auto with words).
Qed.

Lemma TD_col x a b c d :
  byte 3 a = Sbox (byte 3 x) -> byte 2 b = Sbox (byte 2 x) ->
  byte 1 c = Sbox (byte 1 x) -> byte 0 d = Sbox (byte 0 x) ->
  Z.lxor (Z.lxor (Z.lxor (TD0 a) (TD1 b)) (TD2 c)) (TD3 d) = inv_mix_of x.
Proof.
  intros Ha Hb Hc Hd. unfold inv_mix_of, inv_mix, inv_mix_byte, TD0, TD1, TD2, TD3.
  rewrite Ha, Hb, Hc, Hd. change (8 * 0) with 0.
  by rewrite rotr_0 by (apply Td0_u32; auto with words).
Qed.

(** SubBytes and ShiftRows on the four words. *)
Definition sr_sb (s : quad) : quad :=
  let c a b c d := word (Sbox (byte 3 a)) (Sbox (byte 2 b)) (Sbox (byte 1 c)) (Sbox (byte 0 d)) in
  mk_quad (c (q0 s) (q1 s) (q2 s) (q3 s)) (c (q1 s) (q2 s) (q3 s) (q0 s))
          (c (q2 s) (q3 s) (q0 s) (q1 s)) (c (q3 s) (q0 s) (q1 s) (q2 s)).

(** Exclusive or with four words of the key schedule. *)
Definition add_key (s : quad) (rk : list Z) (i : nat) : quad :=
  mk_quad (Z.lxor (q0 s) (nth (4 * i) rk 0)) (Z.lxor (q1 s) (nth (4 * i + 1) rk 0))
          (Z.lxor (q2 s) (nth (4 * i + 2) rk 0)) (Z.lxor (q3 s) (nth (4 * i + 3) rk 0)).

Definition quad_u32 (s : quad) : Prop :=
  is_u32 (q0 s) /\ is_u32 (q1 s) /\ is_u32 (q2 s) /\ is_u32 (q3 s).

(** The bytes of [sr_sb]. *)
Ltac word_byte :=
  unfold sr_sb; cbn [q0 q1 q2 q3];
  rewrite byte_word by (auto with words || (cbn; tauto)); reflexivity.

(** The round key [i] of [rk] is [i'] of [dk] under the inverse transform. *)
Definition inv_key (rk : list Z) (i : nat) (dk : list Z) (i' : nat) : Prop :=
  forall j, (j < 4)%nat -> is_u32 (nth (4 * i + j) rk 0) /\
    nth (4 * i' + j) dk 0 = inv_mix_word (nth (4 * i + j) rk 0).

Lemma round_inverse rk i dk i' s :
  inv_key rk i dk i' -> ROUND_D dk i' (sr_sb (ROUND_E rk i s)) = sr_sb s.
Proof.
  intros Hk. set (x := ROUND_E rk i s).
  assert (Hcol : forall a b c d k, is_u32 k ->
    Z.lxor (inv_mix_of (Z.lxor (mix (byte 3 a) (byte 2 b) (byte 1 c) (byte 0 d)) k)) (inv_mix_word k)
    = word (Sbox (byte 3 a)) (Sbox (byte 2 b)) (Sbox (byte 1 c)) (Sbox (byte 0 d))).
  { intros a b c d k Hu. rewrite inv_mix_word_bytes by done. fold (inv_mix_of k).
    rewrite <-inv_mix_of_lxor, lxor_cancel. apply inv_mix_mix; auto with words. }
  destruct (Hk 0%nat) as [U0 K0]; [lia|]. destruct (Hk 1%nat) as [U1 K1]; [lia|].
  destruct (Hk 2%nat) as [U2 K2]; [lia|]. destruct (Hk 3%nat) as [U3 K3]; [lia|].
  rewrite Nat.add_0_r in *. rewrite ?Nat.add_0_r in K0.
  unfold ROUND_D. rewrite K0, K1, K2, K3.
  rewrite (TD_col (q0 x)), (TD_col (q1 x)), (TD_col (q2 x)), (TD_col (q3 x)) by word_byte.
  unfold x, ROUND_E, sr_sb. cbn [q0 q1 q2 q3]. rewrite !TE_col. by rewrite !Hcol.
Qed.

(** The last rounds. *)
Lemma TE4_last a b c d :
  Z.lxor (Z.lxor (Z.lxor (TE41 a) (TE42 b)) (TE43 c)) (TE44 d)
  = word (Sbox (byte 3 a)) (Sbox (byte 2 b)) (Sbox (byte 1 c)) (Sbox (byte 0 d)).
Proof.
  unfold word, TE41, TE42, TE43, TE44.
  assert (H3 : forall b, is_byte b ->
    Z.land (u32 (Z.shiftl (nthZ Te0 b) 8)) 0xff000000 = Z.shiftl (Sbox b) 24) by (intros e He; by_byte e).
  assert (H2 : forall b, is_byte b -> Z.land (nthZ Te0 b) 0x00ff0000 = Z.shiftl (Sbox b) 16)
    by (intros e He; by_byte e).
  assert (H1 : forall b, is_byte b -> Z.land (nthZ Te0 b) 0x0000ff00 = Z.shiftl (Sbox b) 8)
    by (intros e He; by_byte e).
  rewrite H3, H2, H1 by auto with words. done.
Qed.

Lemma TD4_last x a b c d : is_u32 x ->
  byte 3 a = Sbox (byte 3 x) -> byte 2 b = Sbox (byte 2 x) ->
  byte 1 c = Sbox (byte 1 x) -> byte 0 d = Sbox (byte 0 x) ->
  Z.lxor (Z.lxor (Z.lxor (TD41 a) (TD42 b)) (TD43 c)) (TD44 d) = x.
Proof.
  intros Hx Ha Hb Hc Hd. unfold TD41, TD42, TD43, TD44. rewrite Ha, Hb, Hc, Hd.
  rewrite !Td4s_Sbox by auto with words. rewrite u32_small.
  - apply word_bytes, Hx.
  - pose proof (byte_range 3 x) as Hr. unfold is_byte in Hr.
    rewrite Z.shiftl_mul_pow2 by lia. lia.
Qed.

Lemma word_eq_bytes w : is_u32 w -> PUTU32 w = [byte 3 w; byte 2 w; byte 1 w; byte 0 w].
Proof.
  intros Hw. unfold PUTU32, u8, byte. change 256 with (2 ^ 8). change 255 with (Z.ones 8).
  rewrite !Z.land_ones, Z.shiftr_0_r by lia. done.
Qed.

(** ** The whole cipher *)

Lemma ROUND_E_drop k rk i s : ROUND_E (drop (4 * k) rk) i s = ROUND_E rk (k + i) s.
Proof.
  unfold ROUND_E. rewrite !nth_skipn.
  by replace (4 * k + 4 * i)%nat with (4 * (k + i))%nat by lia;
     replace (4 * k + (4 * i + 1))%nat with (4 * (k + i) + 1)%nat by lia;
     replace (4 * k + (4 * i + 2))%nat with (4 * (k + i) + 2)%nat by lia;
     replace (4 * k + (4 * i + 3))%nat with (4 * (k + i) + 3)%nat by lia.
Qed.

Lemma ROUND_D_drop k rk i s : ROUND_D (drop (4 * k) rk) i s = ROUND_D rk (k + i) s.
Proof.
  unfold ROUND_D. rewrite !nth_skipn.
  by replace (4 * k + 4 * i)%nat with (4 * (k + i))%nat by lia;
     replace (4 * k + (4 * i + 1))%nat with (4 * (k + i) + 1)%nat by lia;
     replace (4 * k + (4 * i + 2))%nat with (4 * (k + i) + 2)%nat by lia;
     replace (4 * k + (4 * i + 3))%nat with (4 * (k + i) + 3)%nat by lia.
Qed.

(** Rounds 1 to 9 in order. *)
Fixpoint seq_rounds (R : nat -> quad -> quad) (i n : nat) (s : quad) : quad :=
  match n with O => s | S n => seq_rounds R (i + 1) n (R i s) end.

Lemma rounds_seq R rk s :
  (forall k i t, R (drop (4 * k) rk) i t = R rk (k + i)%nat t) ->
  rounds R 5 rk s = (drop 40 rk, seq_rounds (R rk) 1 9 s).
Proof.
  intros HR. cbn [rounds seq_rounds]. rewrite !drop_drop.
  change (8 + 8)%nat with (4 * 4)%nat. change (8 + 4 * 4)%nat with (4 * 6)%nat.
  change (8 + 4 * 6)%nat with (4 * 8)%nat. change (8 + 4 * 8)%nat with 40%nat.
  change (drop 8 rk) with (drop (4 * 2) rk). rewrite !HR. reflexivity.
Qed.

(** The four words of a block and back. *)
Definition get_block (p : list Z) : quad := mk_quad (GETU32 p 0) (GETU32 p 4) (GETU32 p 8) (GETU32 p 12).
Definition put_block (s : quad) : list Z :=
  PUTU32 (q0 s) ++ PUTU32 (q1 s) ++ PUTU32 (q2 s) ++ PUTU32 (q3 s).

Definition is_block (p : list Z) : Prop := length p = 16%nat /\ Forall is_byte p.

Lemma get_put s : quad_u32 s -> get_block (put_block s) = s.
Proof.
  intros (H0 & H1 & H2 & H3). destruct s as [a b c d]. cbn [q0 q1 q2 q3] in *.
  unfold put_block, get_block. cbn [q0 q1 q2 q3]. rewrite !word_eq_bytes by done.
  unfold GETU32. cbn [app nth Nat.add]. by rewrite !word_bytes.
Qed.

Lemma put_get p : is_block p -> put_block (get_block p) = p.
Proof.
  intros [Hl Hb]. do 16 (destruct p as [|? p]; [discriminate|]). destruct p; [|discriminate]. repeat (apply Forall_cons in Hb as [? Hb]).
  unfold put_block, get_block, GETU32. cbn [q0 q1 q2 q3 nth Nat.add].
  rewrite !word_eq_bytes by (by apply word_u32). cbn [app].
  by rewrite !byte_word by (done || (cbn; tauto)).
Qed.

Lemma get_block_u32 p : Forall is_byte p -> quad_u32 (get_block p).
Proof.
  intros Hb. assert (Hn : forall i, is_byte (nth i p 0)).
  { intros i. destruct (nth_in_or_default i p 0) as [Hi| ->]; [|unfold is_byte; lia].
    rewrite List.Forall_forall in Hb. by apply Hb. }
  unfold quad_u32, get_block, GETU32. cbn [q0 q1 q2 q3]. split_and!; by apply word_u32.
Qed.

Lemma add_key_u32 s rk i : Forall is_u32 rk -> quad_u32 s -> quad_u32 (add_key s rk i).
Proof.
  intros Hk (H0 & H1 & H2 & H3). assert (Hn : forall i, is_u32 (nth i rk 0)).
  { intros j. destruct (nth_in_or_default j rk 0) as [Hi| ->]; [|unfold is_u32; lia].
    rewrite List.Forall_forall in Hk. by apply Hk. }
  unfold quad_u32, add_key. cbn [q0 q1 q2 q3]. split_and!; by apply lxor_u32.
Qed.

Lemma sr_sb_u32 s : quad_u32 (sr_sb s).
Proof. unfold quad_u32, sr_sb. cbn [q0 q1 q2 q3]. split_and!; apply word_u32; auto with words. Qed.

Lemma encrypt_seq rk pt :
  rijndaelEncrypt rk pt =
  put_block (add_key (sr_sb (seq_rounds (ROUND_E rk) 1 9 (add_key (get_block pt) rk 0))) rk 10).
Proof.
  unfold rijndaelEncrypt. rewrite rounds_seq by (intros; apply ROUND_E_drop).
  change (mk_quad (Z.lxor (GETU32 pt 0) _) _ _ _) with (add_key (get_block pt) rk 0).
  generalize (seq_rounds (ROUND_E rk) 1 9 (add_key (get_block pt) rk 0)). intros t.
  rewrite !TE4_last, !nth_skipn. unfold put_block, add_key, sr_sb. cbn [q0 q1 q2 q3].
  reflexivity.
Qed.

(** Decryption of words that are [sr_sb] of [x] at the end. *)
Lemma decrypt_last rk ct x :
  quad_u32 x -> seq_rounds (ROUND_D rk) 1 9 (add_key (get_block ct) rk 0) = sr_sb x ->
  rijndaelDecrypt rk ct = put_block (add_key x rk 10).
Proof.
  intros (H0 & H1 & H2 & H3) Hx. unfold rijndaelDecrypt.
  rewrite rounds_seq by (intros; apply ROUND_D_drop).
  change (mk_quad (Z.lxor (GETU32 ct 0) _) _ _ _) with (add_key (get_block ct) rk 0). rewrite Hx.
  rewrite (TD4_last (q0 x)), (TD4_last (q1 x)), (TD4_last (q2 x)), (TD4_last (q3 x))
    by (done || word_byte).
  unfold put_block, add_key. cbn [q0 q1 q2 q3]. by rewrite !nth_skipn.
Qed.

(** [dk] is the decryption schedule of [rk]. *)
Definition dec_schedule (rk dk : list Z) : Prop :=
  (forall i, (1 <= i <= 9)%nat -> inv_key rk (10 - i) dk i) /\
  (forall j, (j < 4)%nat -> nth j dk 0 = nth (40 + j) rk 0 /\ nth (40 + j) dk 0 = nth j rk 0).

Lemma add_key_cancel s rk i dk i' :
  (forall j, (j < 4)%nat -> nth (4 * i' + j) dk 0 = nth (4 * i + j) rk 0) ->
  add_key (add_key s rk i) dk i' = s.
Proof.
  intros Hk. pose proof (Hk 0%nat ltac:(lia)) as K0. rewrite !Nat.add_0_r in K0.
  unfold add_key. cbn [q0 q1 q2 q3].
  rewrite K0, (Hk 1%nat), (Hk 2%nat), (Hk 3%nat) by lia. destruct s as [a b c d].
  cbn [q0 q1 q2 q3]. by rewrite !lxor_cancel.
Qed.

Lemma dec_rounds rk dk s :
  dec_schedule rk dk ->
  seq_rounds (ROUND_D dk) 1 9 (sr_sb (seq_rounds (ROUND_E rk) 1 9 s)) = sr_sb s.
Proof.
  intros [Hk _]. cbn [seq_rounds].
  change (1 + 1)%nat with 2%nat. change (2 + 1)%nat with 3%nat. change (3 + 1)%nat with 4%nat.
  change (4 + 1)%nat with 5%nat. change (5 + 1)%nat with 6%nat. change (6 + 1)%nat with 7%nat.
  change (7 + 1)%nat with 8%nat. change (8 + 1)%nat with 9%nat.
  rewrite (round_inverse rk 9 dk 1) by (apply (Hk 1%nat); lia).
  rewrite (round_inverse rk 8 dk 2) by (apply (Hk 2%nat); lia).
  rewrite (round_inverse rk 7 dk 3) by (apply (Hk 3%nat); lia).
  rewrite (round_inverse rk 6 dk 4) by (apply (Hk 4%nat); lia).
  rewrite (round_inverse rk 5 dk 5) by (apply (Hk 5%nat); lia).
  rewrite (round_inverse rk 4 dk 6) by (apply (Hk 6%nat); lia).
  rewrite (round_inverse rk 3 dk 7) by (apply (Hk 7%nat); lia).
  rewrite (round_inverse rk 2 dk 8) by (apply (Hk 8%nat); lia).
  by rewrite (round_inverse rk 1 dk 9) by (apply (Hk 9%nat); lia).
Qed.

Lemma decrypt_encrypt rk dk pt :
  Forall is_u32 rk -> dec_schedule rk dk -> is_block pt ->
  rijndaelDecrypt dk (rijndaelEncrypt rk pt) = pt.
Proof.
  intros Hu Hs [Hl Hb]. rewrite encrypt_seq. set (x0 := add_key (get_block pt) rk 0).
  assert (Hx0 : quad_u32 x0) by (by apply add_key_u32, get_block_u32).
  rewrite (decrypt_last dk _ x0); [|done|].
  - unfold x0. rewrite add_key_cancel.
    + by apply put_get.
    + intros j Hj. by apply (proj2 Hs j).
  - rewrite get_put by (apply add_key_u32; [done|apply sr_sb_u32]).
    rewrite add_key_cancel; [by apply dec_rounds|]. intros j Hj. by apply (proj2 Hs j).
Qed.

(** ** The key schedules fit *)

Lemma key_loop_length n : forall i k0 k1 k2 k3, length (key_loop n i k0 k1 k2 k3) = (4 * n)%nat.
Proof. induction n as [|n IH]; intros; [done|]. cbn [key_loop length]. rewrite IH. lia. Qed.

Lemma key_loop_u32 n : forall i k0 k1 k2 k3,
  is_u32 k0 -> is_u32 k1 -> is_u32 k2 -> is_u32 k3 -> Forall is_u32 (key_loop n i k0 k1 k2 k3).
Proof.
  induction n as [|n IH]; intros i k0 k1 k2 k3 H0 H1 H2 H3; cbn [key_loop]; [constructor|].
  set (k4 := Z.lxor _ (RCON i)).
  assert (H4 : is_u32 k4).
  { unfold k4, TE421, TE432, TE443, TE414, RCON.
    repeat apply lxor_u32; try done; try (apply land_u32; lia). apply u32_range. }
  assert (H5 : is_u32 (Z.lxor k1 k4)) by by apply lxor_u32.
  assert (H6 : is_u32 (Z.lxor k2 (Z.lxor k1 k4))) by by apply lxor_u32.
  assert (H7 : is_u32 (Z.lxor k3 (Z.lxor k2 (Z.lxor k1 k4)))) by by apply lxor_u32.
  repeat (constructor; [done|]). by apply IH.
Qed.

Lemma key_setup_enc_ok key : Forall is_byte key ->
  length (rijndaelKeySetupEnc key) = 44%nat /\ Forall is_u32 (rijndaelKeySetupEnc key).
Proof.
  intros Hb. destruct (get_block_u32 key Hb) as (H0 & H1 & H2 & H3).
  unfold get_block in *. cbn [q0 q1 q2 q3] in *. unfold rijndaelKeySetupEnc.
  split; [cbn [length]; by rewrite key_loop_length|].
  repeat (constructor; [done|]). by apply key_loop_u32.
Qed.

Lemma schedule_inverts rk :
  length rk = 44%nat -> Forall is_u32 rk ->
  dec_schedule rk (inv_mix_words (invert_order 11 rk 0 40) (seq 4 36)).
Proof.
  intros Hl Hu. do 44 (destruct rk as [|? rk]; [discriminate|]). destruct rk; [|discriminate].
  repeat (apply Forall_cons in Hu as [? Hu]).
  cbn -[inv_mix_word dec_schedule]. split.
  - intros i Hi. assert (Hi' : In i (seq 1 9)) by (apply in_seq; lia). cbn in Hi'.
    destruct Hi' as [<-|[<-|[<-|[<-|[<-|[<-|[<-|[<-|[<-|[]]]]]]]]]]; intros j Hj;
      destruct j as [|[|[|[|j]]]]; try lia; by split.
  - intros j Hj. destruct j as [|[|[|[|j]]]]; try lia; by split.
Qed.

(** C36: AES decryption inverts encryption: for every 16-byte key and block,
    [aes_decrypt] under the decryption schedule of the key returns the block that
    [aes_encrypt] was given. *)
Theorem aes_decrypt_encrypt key pt :
  Forall is_byte key -> is_block pt ->
  aes_decrypt (rijndaelKeySetupDec key) (aes_encrypt (rijndaelKeySetupEnc key) pt) = pt.
Proof.
  intros Hk Hp. destruct (key_setup_enc_ok key Hk) as [Hl Hu].
  apply decrypt_encrypt; [done| |done]. by apply schedule_inverts.
Qed.

Lemma aes_decrypt_encrypt_witness :
  let key := map Z.of_nat (seq 0 16) in let pt := map Z.of_nat (seq 100 16) in
  aes_decrypt (rijndaelKeySetupDec key) (aes_encrypt (rijndaelKeySetupEnc key) pt) = pt.
Proof.
  apply aes_decrypt_encrypt.
  - cbn. repeat (constructor; [unfold is_byte; lia|]). constructor.
  - split; [done|]. cbn. repeat (constructor; [unfold is_byte; lia|]). constructor.
Defined.
