(* ===== verification/AesSpec.v ===== *)
(** * AesSpec: FIPS-197 and the table-driven AES

    A reference AES-128 written from the standard: bytes in GF(2^8), the S-box as
    inversion followed by the affine map, SubBytes, ShiftRows, MixColumns,
    AddRoundKey on the sixteen bytes of the state and the key expansion.  The
    table-driven code of [ap/crypto] computes the same function. *)

From stdpp Require Import base list.
From Stdlib Require Import ZArith Lia Btauto.
From S2P Require Import Prelude Words AesTables Aes.

(** ** The reference *)

(** Multiplication by x in GF(2^8). *)
Definition xtime (b : Z) : Z := if b <? 128 then 2 * b else Z.lxor (2 * b - 256) 0x1b.

(** Russian-peasant multiplication over the low [n] bits of [a]. *)
Fixpoint gf_mul_n (n : nat) (a b : Z) : Z :=
  match n with
  | O => 0
  | Datatypes.S n' => Z.lxor (if Z.odd a then b else 0) (gf_mul_n n' (Z.div2 a) (xtime b))
  end.
Definition gf_mul (a b : Z) : Z := gf_mul_n 8 a b.

(** [b^254], the inverse of [b] (and 0 for 0). *)
Definition gf_inv (b : Z) : Z :=
  let b2 := gf_mul b b in let b4 := gf_mul b2 b2 in let b8 := gf_mul b4 b4 in
  let b16 := gf_mul b8 b8 in let b32 := gf_mul b16 b16 in let b64 := gf_mul b32 b32 in
  let b128 := gf_mul b64 b64 in
  gf_mul b128 (gf_mul b64 (gf_mul b32 (gf_mul b16 (gf_mul b8 (gf_mul b4 b2))))).

Definition rotl8 (b n : Z) : Z := Z.lor (u8 (Z.shiftl b n)) (Z.shiftr b (8 - n)).

Definition fips_sbox (b : Z) : Z :=
  let i := gf_inv b in
  Z.lxor (Z.lxor (Z.lxor (Z.lxor (Z.lxor i (rotl8 i 1)) (rotl8 i 2)) (rotl8 i 3)) (rotl8 i 4)) 0x63.

Definition sub_bytes (s : list Z) : list Z := map fips_sbox s.

Definition shift_rows (s : list Z) : list Z :=
  map (fun i => nth i s 0) [0; 5; 10; 15; 4; 9; 14; 3; 8; 13; 2; 7; 12; 1; 6; 11]%nat.

Definition mix_column (a b c d : Z) : list Z :=
  let dot x y z w := Z.lxor (Z.lxor (Z.lxor (gf_mul 2 x) (gf_mul 3 y)) z) w in
  [dot a b c d; dot b c d a; dot c d a b; dot d a b c].

Fixpoint mix_columns (s : list Z) : list Z :=
  match s with
  | a :: b :: c :: d :: r => mix_column a b c d ++ mix_columns r
  | _ => []
  end.

Definition word_bytes_of (w : Z) : list Z := [byte 3 w; byte 2 w; byte 1 w; byte 0 w].

(** The bytes of round key [i] of the expanded key. *)
Definition round_key (w : list Z) (i : nat) : list Z :=
  word_bytes_of (nth (4 * i) w 0) ++ word_bytes_of (nth (4 * i + 1) w 0) ++
  word_bytes_of (nth (4 * i + 2) w 0) ++ word_bytes_of (nth (4 * i + 3) w 0).

Definition add_round_key (s k : list Z) : list Z := zip_with Z.lxor s k.

Definition fips_round (w : list Z) (i : nat) (s : list Z) : list Z :=
  add_round_key (mix_columns (shift_rows (sub_bytes s))) (round_key w i).

Definition fips_cipher (w pt : list Z) : list Z :=
  let s := add_round_key pt (round_key w 0) in
  let s := fold_left (fun s i => fips_round w i s) (seq 1 9) s in
  add_round_key (shift_rows (sub_bytes s)) (round_key w 10).

(** Key expansion *)
Definition sub_word (w : Z) : Z :=
  word (fips_sbox (byte 3 w)) (fips_sbox (byte 2 w)) (fips_sbox (byte 1 w)) (fips_sbox (byte 0 w)).
Definition rot_word (w : Z) : Z := word (byte 2 w) (byte 1 w) (byte 0 w) (byte 3 w).
Fixpoint fips_rcon (i : nat) : Z :=
  match i with O => 1 | Datatypes.S i' => xtime (fips_rcon i') end.

Fixpoint fips_expand (n i : nat) (k0 k1 k2 k3 : Z) : list Z :=
  match n with
  | O => []
  | Datatypes.S n' =>
      let k4 := Z.lxor k0 (Z.lxor (sub_word (rot_word k3)) (Z.shiftl (fips_rcon i) 24)) in
      let k5 := Z.lxor k1 k4 in let k6 := Z.lxor k2 k5 in let k7 := Z.lxor k3 k6 in
      [k4; k5; k6; k7] ++ fips_expand n' (Datatypes.S i) k4 k5 k6 k7
  end.

Definition fips_key_expansion (key : list Z) : list Z :=
  let k i := GETU32 key (4 * i) in
  [k 0%nat; k 1%nat; k 2%nat; k 3%nat] ++ fips_expand 10 0 (k 0%nat) (k 1%nat) (k 2%nat) (k 3%nat).

(** ** The tables against the reference *)

Lemma Sbox_fips b : is_byte b -> Sbox b = fips_sbox b.
Proof. intros Hb. by_byte b. Qed.

(** Byte [j] of the table entry for byte position [k]. *)
Lemma byte_mix_byte j k b : In j [0; 1; 2; 3] -> In k [0; 1; 2; 3] -> is_byte b ->
  byte j (mix_byte k b) =
    let c := (j + k) mod 4 in
    if c =? 3 then gf_mul 2 (fips_sbox b) else if c =? 0 then gf_mul 3 (fips_sbox b) else fips_sbox b.
Proof.
  intros Hj Hk Hb. cbn in Hj, Hk.
  destruct Hj as [<-|[<-|[<-|[<-|[]]]]], Hk as [<-|[<-|[<-|[<-|[]]]]]; by_byte b.
Qed.

(** One column of a round, as the bytes of MixColumns. *)
Lemma mix_bytes b3 b2 b1 b0 :
  is_byte b3 -> is_byte b2 -> is_byte b1 -> is_byte b0 ->
  word_bytes_of (mix b3 b2 b1 b0)
  = mix_column (fips_sbox b3) (fips_sbox b2) (fips_sbox b1) (fips_sbox b0).
Proof.
  intros H3 H2 H1 H0. unfold word_bytes_of, mix, mix_column. rewrite !byte_lxor.
  rewrite !byte_mix_byte by ((cbn; tauto) || done). cbn zeta.
  repeat match goal with |- context [(?a + ?b) mod 4] =>
    let v := eval compute in ((a + b) mod 4) in change ((a + b) mod 4) with v end.
  cbn [Z.eqb Pos.eqb]. repeat (apply (f_equal2 cons); [xor_ac|]). reflexivity.
Qed.

(** ** The cipher *)

Definition quad_bytes (s : quad) : list Z :=
  word_bytes_of (q0 s) ++ word_bytes_of (q1 s) ++ word_bytes_of (q2 s) ++ word_bytes_of (q3 s).

Lemma word_bytes_lxor a b :
  word_bytes_of (Z.lxor a b) = zip_with Z.lxor (word_bytes_of a) (word_bytes_of b).
Proof. unfold word_bytes_of. cbn [zip_with]. by rewrite !byte_lxor. Qed.

Lemma zip_words a b c d a' b' c' d' :
  zip_with Z.lxor
    (word_bytes_of a ++ word_bytes_of b ++ word_bytes_of c ++ word_bytes_of d)
    (word_bytes_of a' ++ word_bytes_of b' ++ word_bytes_of c' ++ word_bytes_of d')
  = quad_bytes (mk_quad (Z.lxor a a') (Z.lxor b b') (Z.lxor c c') (Z.lxor d d')).
Proof. unfold quad_bytes. cbn [q0 q1 q2 q3]. rewrite !word_bytes_lxor. reflexivity. Qed.

Lemma add_key_bytes s rk i : quad_bytes (add_key s rk i) = add_round_key (quad_bytes s) (round_key rk i).
Proof.
  unfold add_round_key, round_key. unfold quad_bytes at 2. rewrite zip_words. reflexivity.
Qed.

Lemma round_bytes rk i s : quad_bytes (ROUND_E rk i s) = fips_round rk i (quad_bytes s).
Proof.
  unfold fips_round. unfold ROUND_E. rewrite !TE_col.
  unfold add_round_key, round_key.
  transitivity (zip_with Z.lxor
    (quad_bytes (mk_quad
       (mix (byte 3 (q0 s)) (byte 2 (q1 s)) (byte 1 (q2 s)) (byte 0 (q3 s)))
       (mix (byte 3 (q1 s)) (byte 2 (q2 s)) (byte 1 (q3 s)) (byte 0 (q0 s)))
       (mix (byte 3 (q2 s)) (byte 2 (q3 s)) (byte 1 (q0 s)) (byte 0 (q1 s)))
       (mix (byte 3 (q3 s)) (byte 2 (q0 s)) (byte 1 (q1 s)) (byte 0 (q2 s)))))
    (round_key rk i)).
  { unfold quad_bytes at 2, round_key. rewrite zip_words. reflexivity. }
  f_equal. unfold quad_bytes. cbn [q0 q1 q2 q3].
  rewrite !mix_bytes by auto with words. unfold sub_bytes, shift_rows, word_bytes_of.
  cbn [app map nth mix_columns]. by rewrite app_nil_r.
Qed.

Lemma sr_sb_bytes s : quad_bytes (sr_sb s) = shift_rows (sub_bytes (quad_bytes s)).
Proof.
  unfold quad_bytes, sr_sb. cbn [q0 q1 q2 q3].
  assert (Hw : forall a b c d, word_bytes_of (word (Sbox (byte 3 a)) (Sbox (byte 2 b)) (Sbox (byte 1 c))
    (Sbox (byte 0 d))) = [fips_sbox (byte 3 a); fips_sbox (byte 2 b); fips_sbox (byte 1 c);
                       fips_sbox (byte 0 d)]).
  { intros a b c d. unfold word_bytes_of.
    rewrite !byte_word by (auto with words || (cbn; tauto)). cbn [Z.eqb Pos.eqb].
    by rewrite !Sbox_fips by auto with words. }
  rewrite !Hw. unfold sub_bytes, shift_rows, word_bytes_of. cbn [app map nth]. reflexivity.
Qed.

Lemma put_block_bytes s : quad_u32 s -> put_block s = quad_bytes s.
Proof. intros (H0 & H1 & H2 & H3). unfold put_block. by rewrite !word_eq_bytes. Qed.

Lemma get_block_bytes p : is_block p -> quad_bytes (get_block p) = p.
Proof.
  intros Hp. rewrite <-put_block_bytes by (apply get_block_u32, Hp). by apply put_get.
Qed.

Lemma key_loop_fips n : forall i k0 k1 k2 k3, (i + n <= 10)%nat ->
  key_loop n (Z.of_nat i) k0 k1 k2 k3 = fips_expand n i k0 k1 k2 k3.
Proof.
  induction n as [|n IH]; intros i k0 k1 k2 k3 Hi; [done|]. cbn [key_loop fips_expand app].
  assert (Hr : RCON (Z.of_nat i) = Z.shiftl (fips_rcon i) 24).
  { assert (Hin : In i (seq 0 10)) by (apply in_seq; lia). cbn in Hin.
    destruct Hin as [<-|[<-|[<-|[<-|[<-|[<-|[<-|[<-|[<-|[<-|[]]]]]]]]]]]; reflexivity. }
  assert (Hk : Z.lxor (Z.lxor (Z.lxor (Z.lxor (Z.lxor k0 (TE421 k3)) (TE432 k3)) (TE443 k3)) (TE414 k3))
    (RCON (Z.of_nat i)) = Z.lxor k0 (Z.lxor (sub_word (rot_word k3)) (Z.shiftl (fips_rcon i) 24))).
  { rewrite Hr. unfold sub_word, rot_word. rewrite !byte_word by (auto with words || (cbn; tauto)).
    cbn [Z.eqb Pos.eqb]. rewrite <-!Sbox_fips by auto with words.
    pose proof (TE4_last (word (byte 2 k3) 0 0 0) (word 0 (byte 1 k3) 0 0) (word 0 0 (byte 0 k3) 0)
      (word 0 0 0 (byte 3 k3))) as HT.
    assert (H0 : is_byte 0) by (unfold is_byte; lia).
    unfold TE41, TE42, TE43, TE44 in HT.
    rewrite !byte_word in HT by (auto with words || (cbn; tauto)). cbn [Z.eqb Pos.eqb] in HT.
    rewrite <-HT. unfold TE421, TE432, TE443, TE414. xor_ac. }
  rewrite Hk. repeat (apply (f_equal2 cons); [done|]).
  replace (Z.of_nat i + 1) with (Z.of_nat (Datatypes.S i)) by lia. apply IH. lia.
Qed.

(** C35: the table-driven AES is FIPS-197 AES-128: for every key and block,
    [rijndaelKeySetupEnc] expands the key as the standard does and
    [rijndaelEncrypt] computes the standard's cipher. *)
Theorem aes_is_fips197 key pt :
  is_block key -> is_block pt ->
  rijndaelKeySetupEnc key = fips_key_expansion key /\
  aes_encrypt (rijndaelKeySetupEnc key) pt = fips_cipher (fips_key_expansion key) pt.
Proof.
  intros [_ Hk] Hp. destruct (key_setup_enc_ok key Hk) as [_ Hu].
  assert (HK : rijndaelKeySetupEnc key = fips_key_expansion key).
  { unfold rijndaelKeySetupEnc, fips_key_expansion. change (Z.of_nat 0) with 0.
    rewrite <-(key_loop_fips 10 0) by lia. reflexivity. }
  split; [done|]. rewrite <-HK. unfold aes_encrypt. rewrite encrypt_seq.
  rewrite put_block_bytes by (apply add_key_u32; [done|apply sr_sb_u32]).
  rewrite add_key_bytes, sr_sb_bytes. unfold fips_cipher.
  rewrite <-(get_block_bytes pt Hp) at 2. rewrite <-add_key_bytes.
  generalize (add_key (get_block pt) (rijndaelKeySetupEnc key) 0). intros s.
  cbn [seq_rounds fold_left seq]. rewrite !round_bytes. reflexivity.
Qed.

Lemma aes_is_fips197_witness :
  aes_encrypt (rijndaelKeySetupEnc (map Z.of_nat (seq 0 16))) (map Z.of_nat (seq 32 16))
  = fips_cipher (fips_key_expansion (map Z.of_nat (seq 0 16))) (map Z.of_nat (seq 32 16)).
Proof.
  apply (aes_is_fips197 (map Z.of_nat (seq 0 16)) (map Z.of_nat (seq 32 16)));
    (split; [done|]); cbn; repeat (constructor; [unfold is_byte; lia|]); constructor.
Defined.
