(* ===== verification/AesWrap.v ===== *)
(** * AesWrap: AES key wrap ([ap/crypto/aes-wrap.c], [aes-unwrap.c])

    The key wrap is proved against an interface ([BlockCipher]: a permutation of
    16-byte blocks with its inverse); the AES of Aes.v is an instance. *)

From stdpp Require Import base list.
From Stdlib Require Import ZArith Lia Btauto.
From S2P Require Import Prelude Words AesTables Aes.

(** ** Operations *)

(** [a[7] ^= t] on 8 (or more) bytes, stored back into a [u8]. *)
Definition xor7 (a : list Z) (t : Z) : list Z := <[7%nat := u8 (Z.lxor (nth 7 a 0) t)]> a.

Section wrap.
Context (enc dec : list Z -> list Z).

(** The inner loop of [aes_wrap]: [todo] blocks of [r] from block [i] on. The
    result is the new [a] and the bytes written over those blocks. *)
Fixpoint wrap_inner (n j i : Z) (todo : nat) (a r : list Z) : list Z * list Z :=
  match todo with
  | O => (a, [])
  | S todo' =>
      let b := enc (a ++ take 8 r) in
      let a := xor7 (take 8 b) (n * j + i) in
      let '(a', r') := wrap_inner n j (i + 1) todo' a (drop 8 r) in
      (a', drop 8 b ++ r')
  end.

(** [for (j = 0; j <= 5; j++)]: [js] are the values of [j] to come. *)
Fixpoint wrap_outer (n : Z) (js : list Z) (a r : list Z) : list Z * list Z :=
  match js with
  | [] => (a, r)
  | j :: js' => let '(a, r) := wrap_inner n j 1 (Z.to_nat n) a r in wrap_outer n js' a r
  end.

(** The inner loop of [aes_unwrap], [for (i = n; i >= 1; i--)], in place. *)
Fixpoint unwrap_inner (n j : Z) (i : nat) (a r : list Z) : list Z * list Z :=
  match i with
  | O => (a, r)
  | S i' =>
      let off := (8 * i')%nat in
      let b := xor7 a (n * j + Z.of_nat i) in
      let b := dec (b ++ take 8 (drop off r)) in
      unwrap_inner n j i' (take 8 b) (take off r ++ drop 8 b ++ drop (off + 8) r)
  end.

Fixpoint unwrap_outer (n : Z) (js : list Z) (a r : list Z) : list Z * list Z :=
  match js with
  | [] => (a, r)
  | j :: js' => let '(a, r) := unwrap_inner n j (Z.to_nat n) a r in unwrap_outer n js' a r
  end.
End wrap.

(** [int aes_wrap(const u8 *kek, int n, const u8 *plain, u8 *cipher)]: the result
    and the bytes of [cipher]; [mem] is whether [os_malloc] succeeds. *)
Definition aes_wrap (kek : list Z) (n : Z) (plain : list Z) (mem : bool) : Z * list Z :=
  let a := replicate 8 0xa6 in
  let r := take (Z.to_nat (8 * n)) plain in
  match aes_encrypt_init kek 16 mem with
  | None => (-1, a ++ r)
  | Some ctx => let '(a, r) := wrap_outer (aes_encrypt ctx) n [0; 1; 2; 3; 4; 5] a r in (0, a ++ r)
  end.

(** [int aes_unwrap(const u8 *kek, int n, const u8 *cipher, u8 *plain)] *)
Definition aes_unwrap (kek : list Z) (n : Z) (cipher : list Z) (mem : bool) : Z * list Z :=
  let a := take 8 cipher in
  let r := take (Z.to_nat (8 * n)) (drop 8 cipher) in
  match aes_decrypt_init kek 16 mem with
  | None => (-1, r)
  | Some ctx =>
      let '(a, r) := unwrap_outer (aes_decrypt ctx) n [5; 4; 3; 2; 1; 0] a r in
      (if forallb (fun x => x =? 0xa6) (take 8 a) then 0 else -1, r)
  end.

(** ** The block cipher interface *)

Class BlockCipher (enc dec : list Z -> list Z) : Prop := {
  bc_block : forall p, is_block p -> is_block (enc p);
  bc_inverse : forall p, is_block p -> dec (enc p) = p
}.

#[export] Instance aes_block_cipher key (Hk : Forall is_byte key) :
  BlockCipher (aes_encrypt (rijndaelKeySetupEnc key)) (aes_decrypt (rijndaelKeySetupDec key)).
Proof.
  destruct (key_setup_enc_ok key Hk) as [Hl Hu]. split; intros p Hp.
  - unfold aes_encrypt. rewrite encrypt_seq.
    destruct (add_key_u32 _ _ 10 Hu (sr_sb_u32 (seq_rounds (ROUND_E (rijndaelKeySetupEnc key)) 1 9
      (add_key (get_block p) (rijndaelKeySetupEnc key) 0)))) as (H0 & H1 & H2 & H3).
    unfold put_block. rewrite !word_eq_bytes by done.
    split; [done|]. cbn [app]. repeat (constructor; [apply byte_range|]). constructor.
  - apply decrypt_encrypt; [done| |done]. by apply schedule_inverts.
Qed.

(** ** Round trip *)

Definition is_half (p : list Z) : Prop := length p = 8%nat /\ Forall is_byte p.

Lemma xor7_half a t : is_half a -> is_half (xor7 a t).
Proof.
  intros [Hl Hb]. unfold xor7. split; [by rewrite length_insert|].
  apply Forall_insert; [done|]. unfold is_byte. apply u8_range.
Qed.

Lemma u8_lxor a b : u8 (Z.lxor a b) = Z.lxor (u8 a) (u8 b).
Proof.
  unfold u8. change 256 with (2 ^ 8). rewrite <-!Z.land_ones by lia.
  apply Z.bits_inj'. intros n _. rewrite !Z.land_spec, !Z.lxor_spec, !Z.land_spec. btauto.
Qed.

Lemma xor7_twice a t : is_half a -> xor7 (xor7 a t) t = a.
Proof.
  intros [Hl Hb]. unfold xor7. rewrite list_insert_insert_eq.
  assert (Hn : nth 7 (<[7%nat := u8 (Z.lxor (nth 7 a 0) t)]> a) 0 = u8 (Z.lxor (nth 7 a 0) t)).
  { apply nth_lookup_Some. apply list_lookup_insert_eq. lia. }
  rewrite Hn. apply list_insert_id.
  rewrite u8_lxor, u8_small by apply u8_range. rewrite <-u8_lxor, lxor_cancel.
  assert (H7 : a !! 7%nat = Some (nth 7 a 0)).
  { destruct (lookup_lt_is_Some_2 a 7) as [x Hx]; [lia|]. by rewrite (nth_lookup_Some _ _ _ _ Hx). }
  rewrite u8_small; [done|]. rewrite Forall_lookup in Hb. by apply (Hb 7%nat).
Qed.

Lemma half_block a b : is_half a -> is_half b -> is_block (a ++ b).
Proof. intros [? ?] [? ?]. split; [rewrite length_app; lia|by apply Forall_app]. Qed.

Lemma block_halves b : is_block b -> is_half (take 8 b) /\ is_half (drop 8 b).
Proof.
  intros [Hl Hb]. split; split.
  - rewrite length_take. lia.
  - by apply Forall_take.
  - rewrite length_drop. lia.
  - by apply Forall_drop.
Qed.

Section roundtrip.
Context (enc dec : list Z -> list Z) `{!BlockCipher enc dec}.

(** [k] blocks of bytes. *)
Definition is_blocks (k : nat) (r : list Z) : Prop := length r = (8 * k)%nat /\ Forall is_byte r.

Lemma blocks_first k r : is_blocks (S k) r -> is_half (take 8 r) /\ is_blocks k (drop 8 r).
Proof.
  intros [Hl Hb]. split; split.
  - rewrite length_take. lia.
  - by apply Forall_take.
  - rewrite length_drop. lia.
  - by apply Forall_drop.
Qed.

Lemma enc_halves a h : is_half a -> is_half h ->
  is_half (take 8 (enc (a ++ h))) /\ is_half (drop 8 (enc (a ++ h))).
Proof. intros Ha Hh. apply block_halves, (bc_block (dec := dec)). by apply half_block. Qed.

Lemma wrap_inner_ok n j k : forall i a r,
  is_half a -> is_blocks k r ->
  is_half (fst (wrap_inner enc n j i k a r)) /\ is_blocks k (snd (wrap_inner enc n j i k a r)).
Proof.
  induction k as [|k IH]; intros i a r Ha Hr; cbn [wrap_inner]; [by split|].
  apply blocks_first in Hr as [Hh Hr]. destruct (enc_halves a (take 8 r) Ha Hh) as [E1 E2].
  destruct (IH (i + 1) (xor7 (take 8 (enc (a ++ take 8 r))) (n * j + i)) (drop 8 r)) as [I1 I2];
    [by apply xor7_half|done|].
  destruct (wrap_inner enc n j (i + 1) k _ _) as [a' r']. cbn [fst snd] in *. split; [done|].
  destruct E2, I2. split; [rewrite length_app; lia|by apply Forall_app].
Qed.

(** The last block is wrapped last. *)
Lemma wrap_inner_snoc n j k : forall i a r h,
  is_blocks k r -> is_half h ->
  wrap_inner enc n j i (S k) a (r ++ h) =
    let '(a1, r1) := wrap_inner enc n j i k a r in
    let b := enc (a1 ++ h) in
    (xor7 (take 8 b) (n * j + (i + Z.of_nat k)), r1 ++ drop 8 b).
Proof.
  induction k as [|k IH]; intros i a r h Hr Hh.
  - destruct Hr as [Hr _]. apply length_zero_iff_nil in Hr as ->. cbn [wrap_inner app Z.of_nat].
    rewrite (take_ge h 8) by (destruct Hh; lia). by rewrite app_nil_r, Z.add_0_r.
  - destruct Hr as [Hl Hb].
    remember (S k) as k1. cbn [wrap_inner]. subst k1.
    rewrite take_app_le, drop_app_le by lia. rewrite IH; [|split|done].
    2: { rewrite length_drop. lia. }
    2: { by apply Forall_drop. }
    cbn [wrap_inner]. destruct (wrap_inner enc n j (i + 1) k _ _) as [a1 r1].
    cbn zeta. rewrite app_assoc. replace (i + 1 + Z.of_nat k) with (i + Z.of_nat (S k)) by lia. done.
Qed.

(** Blocks after the ones processed are not touched. *)
Lemma unwrap_inner_frame n j k : forall a r t, (8 * k <= length r)%nat ->
  unwrap_inner dec n j k a (r ++ t) =
    (fst (unwrap_inner dec n j k a r), snd (unwrap_inner dec n j k a r) ++ t).
Proof.
  induction k as [|k IH]; intros a r t Hl; [done|].
  remember (S k) as k1. cbn [unwrap_inner]. subst k1. cbn [unwrap_inner].
  rewrite take_app_le, !drop_app_le by lia. rewrite take_app_le by (rewrite length_drop; lia).
  rewrite !app_assoc, <-IH; [by rewrite <-!app_assoc|]. rewrite !length_app, length_take. lia.
Qed.

Lemma unwrap_wrap_inner n j k : forall a r,
  is_half a -> is_blocks k r ->
  unwrap_inner dec n j k (fst (wrap_inner enc n j 1 k a r)) (snd (wrap_inner enc n j 1 k a r))
  = (a, r).
Proof.
  induction k as [|k IH]; intros a r Ha [Hl Hb].
  { apply length_zero_iff_nil in Hl as ->. done. }
  set (r0 := take (8 * k) r). set (h := drop (8 * k) r).
  assert (Hr0 : is_blocks k r0) by (split; [unfold r0; rewrite length_take; lia|by apply Forall_take]).
  assert (Hh : is_half h) by (split; [unfold h; rewrite length_drop; lia|by apply Forall_drop]).
  assert (Hr : r = r0 ++ h) by (symmetry; apply take_drop).
  rewrite Hr, wrap_inner_snoc by done.
  destruct (wrap_inner_ok n j k 1 a r0 Ha Hr0) as [Ha1 [Hl1 _]]. specialize (IH a r0 Ha Hr0).
  destruct (wrap_inner enc n j 1 k a r0) as [a1 r1]. cbn [fst snd] in *. cbn zeta.
  destruct (enc_halves a1 h Ha1 Hh) as [E1 E2]. set (b := enc (a1 ++ h)) in *.
  cbn [unwrap_inner].
  replace (1 + Z.of_nat k) with (Z.of_nat (S k)) by lia.
  rewrite xor7_twice by done. rewrite <-Hl1, take_app_length, drop_app_length.
  rewrite (take_ge (drop 8 b) 8) by (destruct E2; lia). rewrite take_drop. unfold b in *.
  rewrite (bc_inverse (enc := enc) (dec := dec)) by (by apply half_block).
  rewrite (drop_ge (r1 ++ _)) by (rewrite length_app; destruct E2; lia). rewrite app_nil_r.
  destruct Ha1 as [Ha1 _]. rewrite <-Ha1, take_app_length, drop_app_length.
  rewrite unwrap_inner_frame by lia. by rewrite IH.
Qed.

Lemma wrap_outer_ok n js : forall a r,
  is_half a -> is_blocks (Z.to_nat n) r ->
  is_half (fst (wrap_outer enc n js a r)) /\ is_blocks (Z.to_nat n) (snd (wrap_outer enc n js a r)).
Proof.
  induction js as [|j js IH]; intros a r Ha Hr; cbn [wrap_outer]; [by split|].
  destruct (wrap_inner_ok n j (Z.to_nat n) 1 a r Ha Hr) as [H1 H2].
  destruct (wrap_inner enc n j 1 (Z.to_nat n) a r) as [a1 r1]. by apply IH.
Qed.

Lemma unwrap_outer_app n js ks a r :
  unwrap_outer dec n (js ++ ks) a r =
  unwrap_outer dec n ks (fst (unwrap_outer dec n js a r)) (snd (unwrap_outer dec n js a r)).
Proof.
  revert a r. induction js as [|j js IH]; intros a r; [done|]. cbn [app unwrap_outer].
  destruct (unwrap_inner dec n j (Z.to_nat n) a r) as [a1 r1]. apply IH.
Qed.

Lemma unwrap_wrap_outer n js : forall a r,
  is_half a -> is_blocks (Z.to_nat n) r ->
  unwrap_outer dec n (rev js) (fst (wrap_outer enc n js a r)) (snd (wrap_outer enc n js a r)) = (a, r).
Proof.
  induction js as [|j js IH]; intros a r Ha Hr; [done|]. cbn [wrap_outer rev].
  destruct (wrap_inner_ok n j (Z.to_nat n) 1 a r Ha Hr) as [H1 H2].
  pose proof (unwrap_wrap_inner n j (Z.to_nat n) a r Ha Hr) as HI.
  destruct (wrap_inner enc n j 1 (Z.to_nat n) a r) as [a1 r1]. cbn [fst snd] in *.
  rewrite unwrap_outer_app, IH by done. cbn [fst snd unwrap_outer]. by rewrite HI.
Qed.
End roundtrip.

(** Wrapped data is bytes, eight more, and unwraps. *)
Lemma aes_wrap_inverts kek n plain :
  Forall is_byte kek -> 0 <= n -> length plain = Z.to_nat (8 * n) -> Forall is_byte plain ->
  fst (aes_wrap kek n plain true) = 0 /\
  Forall is_byte (snd (aes_wrap kek n plain true)) /\
  length (snd (aes_wrap kek n plain true)) = Z.to_nat (8 * (n + 1)) /\
  aes_unwrap kek n (snd (aes_wrap kek n plain true)) true = (0, plain).
Proof.
  intros Hk Hn Hl Hb. pose proof (aes_block_cipher kek Hk) as BC.
  unfold aes_wrap, aes_unwrap, aes_encrypt_init, aes_decrypt_init. cbn [negb Z.eqb Pos.eqb].
  rewrite (take_ge plain) by lia.
  assert (Ha : is_half (replicate 8 166)).
  { split; [done|]. repeat (constructor; [unfold is_byte; lia|]). constructor. }
  assert (Hr : is_blocks (Z.to_nat n) plain) by (split; [lia|done]).
  pose proof (wrap_outer_ok _ _ n [0; 1; 2; 3; 4; 5] _ _ Ha Hr) as [[L1 B1] [L2 B2]].
  pose proof (unwrap_wrap_outer _ _ n [0; 1; 2; 3; 4; 5] _ _ Ha Hr) as HU.
  destruct (wrap_outer _ n [0; 1; 2; 3; 4; 5] (replicate 8 166) plain) as [a r].
  cbn [fst snd] in *. split; [done|]. split; [by apply Forall_app|]. split; [rewrite length_app; lia|].
  rewrite <-L1 at 1. rewrite take_app_length, <-L1, drop_app_length.
  rewrite take_ge by lia. rewrite L1. change [5; 4; 3; 2; 1; 0] with (rev [0; 1; 2; 3; 4; 5]).
  rewrite HU. done.
Qed.

(** C39: key wrap round trip: [aes_unwrap] under the same key encryption key
    accepts what [aes_wrap] produced and returns the wrapped key, for every key
    length of [n] 64-bit units. *)
Theorem aes_unwrap_wrap kek n plain :
  Forall is_byte kek -> 0 <= n -> length plain = Z.to_nat (8 * n) -> Forall is_byte plain ->
  fst (aes_wrap kek n plain true) = 0 /\
  length (snd (aes_wrap kek n plain true)) = Z.to_nat (8 * (n + 1)) /\
  aes_unwrap kek n (snd (aes_wrap kek n plain true)) true = (0, plain).
Proof. intros. split_and!; by apply aes_wrap_inverts. Qed.

Lemma aes_unwrap_wrap_witness :
  let kek := map Z.of_nat (seq 0 16) in let plain := map Z.of_nat (seq 200 16) in
  aes_unwrap kek 2 (snd (aes_wrap kek 2 plain true)) true = (0, plain).
Proof.
  apply (aes_unwrap_wrap (map Z.of_nat (seq 0 16)) 2 (map Z.of_nat (seq 200 16))).
  - cbn. repeat (constructor; [unfold is_byte; lia|]). constructor.
  - lia.
  - done.
  - cbn. repeat (constructor; [unfold is_byte; lia|]). constructor.
Defined.

(** RFC 3394, section 4.1: wrapping 128 bits with a 128-bit key. *)
Example aes_wrap_rfc3394 :
  snd (aes_wrap (map Z.of_nat (seq 0 16)) 2 (map (fun i => 17 * Z.of_nat i) (seq 0 16)) true)
  = [0x1f; 0xa6; 0x8b; 0x0a; 0x81; 0x12; 0xb4; 0x47; 0xae; 0xf3; 0x4b; 0xd8;
     0xfb; 0x5a; 0x7b; 0x82; 0x9d; 0x3e; 0x86; 0x23; 0x71; 0xd2; 0xcf; 0xe5].
Proof. vm_compute. reflexivity. Qed.
