(* ===== verification/Rc4.v ===== *)
(** * Rc4: the RC4 stream cipher of [ap/crypto/rc4.c]

    The permutation [S] of the code is an array of 256 bytes, [i] and [j] are kept masked to
    bytes as in the code. *)

From stdpp Require Import base list.
From Stdlib Require Import ZArith Lia.
From S2P Require Import Prelude.

(** ** Operations *)

(** [S_SWAP(a, b)] *)
Definition S_SWAP (Sv : list Z) (a b : Z) : list Z :=
  let t := nthZ Sv a in
  <[Z.to_nat b := t]> (<[Z.to_nat a := nthZ Sv b]> Sv).

(** The key setup loop: [n] steps from [i] on. *)
Fixpoint rc4_setup (n : nat) (key : list Z) (keylen : Z) (i j kpos : Z) (Sv : list Z) : list Z :=
  match n with
  | O => Sv
  | S n' =>
      let j := Z.land (j + nthZ Sv i + nthZ key kpos) 0xff in
      let kpos := kpos + 1 in
      let kpos := if keylen <=? kpos then 0 else kpos in
      rc4_setup n' key keylen (i + 1) j kpos (S_SWAP Sv i j)
  end.

(** One step of the stream: the new [i], [j] and [S]. *)
Definition rc4_step (st : Z * Z * list Z) : Z * Z * list Z :=
  let '(i, j, Sv) := st in
  let i := Z.land (i + 1) 0xff in
  let j := Z.land (j + nthZ Sv i) 0xff in
  (i, j, S_SWAP Sv i j).

Fixpoint rc4_skip_loop (k : nat) (st : Z * Z * list Z) : Z * Z * list Z :=
  match k with O => st | S k' => rc4_skip_loop k' (rc4_step st) end.

(** [*pos++ ^= S[(S[i] + S[j]) & 0xff]] over the data. *)
Fixpoint rc4_apply (data : list Z) (st : Z * Z * list Z) : list Z :=
  match data with
  | [] => []
  | d :: r =>
      let '(i, j, Sv) := rc4_step st in
      Z.lxor d (nthZ Sv (Z.land (nthZ Sv i + nthZ Sv j) 0xff)) :: rc4_apply r (i, j, Sv)
  end.

(** [int rc4_skip(key, keylen, skip, data, data_len)]: the data afterwards. *)
Definition rc4_skip (key : list Z) (keylen : Z) (skip : nat) (data : list Z) : list Z :=
  let Sv := map Z.of_nat (seq 0 256) in
  let Sv := rc4_setup 256 key keylen 0 0 0 Sv in
  rc4_apply data (rc4_skip_loop skip (0, 0, Sv)).

(** Key "Key", plaintext "Plaintext" (a published RC4 test vector). *)
Example rc4_vector :
  rc4_skip [0x4b; 0x65; 0x79] 3 0 [0x50; 0x6c; 0x61; 0x69; 0x6e; 0x74; 0x65; 0x78; 0x74]
  = [0xbb; 0xf3; 0x16; 0xe8; 0xd9; 0x40; 0xaf; 0x0a; 0xd3].
Proof. vm_compute. reflexivity. Qed.

(** ** The key stream *)

Fixpoint keystream (n : nat) (st : Z * Z * list Z) : list Z :=
  match n with
  | O => []
  | S n' =>
      let '(i, j, Sv) := rc4_step st in
      nthZ Sv (Z.land (nthZ Sv i + nthZ Sv j) 0xff) :: keystream n' (i, j, Sv)
  end.

Lemma rc4_apply_stream data : forall st,
  rc4_apply data st = zip_with Z.lxor data (keystream (length data) st).
Proof.
  induction data as [|d r IH]; intros st; [done|]. cbn [rc4_apply length keystream].
  destruct (rc4_step st) as [[i j] Sv]. cbn [zip_with]. by rewrite IH.
Qed.

Lemma keystream_length n : forall st, length (keystream n st) = n.
Proof.
  induction n as [|n IH]; intros st; [done|]. cbn [keystream].
  destruct (rc4_step st) as [[i j] Sv]. cbn. by rewrite IH.
Qed.

(** Skipping drops the start of the stream. *)
Lemma keystream_skip k : forall n st,
  keystream n (rc4_skip_loop k st) = drop k (keystream (k + n) st).
Proof.
  induction k as [|k IH]; intros n st; [done|]. cbn [rc4_skip_loop Nat.add keystream].
  destruct (rc4_step st) as [[i j] Sv] eqn:E. cbn [drop]. by rewrite <-IH.
Qed.

(** The permutation stays a permutation of the bytes. *)
Definition is_perm (Sv : list Z) : Prop := Sv ≡ₚ map Z.of_nat (seq 0 256).

Lemma S_SWAP_perm Sv a b :
  0 <= a < Z.of_nat (length Sv) -> 0 <= b < Z.of_nat (length Sv) -> S_SWAP Sv a b ≡ₚ Sv.
Proof.
  intros Ha Hb. unfold S_SWAP, nthZ.
  destruct (lookup_lt_is_Some_2 Sv (Z.to_nat a)) as [x Hx]; [lia|].
  destruct (lookup_lt_is_Some_2 Sv (Z.to_nat b)) as [y Hy]; [lia|].
  rewrite (nth_lookup_Some _ _ _ _ Hx), (nth_lookup_Some _ _ _ _ Hy).
  destruct (decide (Z.to_nat a = Z.to_nat b)) as [E|E].
  - rewrite E in *. simplify_eq. rewrite list_insert_insert_eq, list_insert_id; done.
  - assert (Hab : forall i j x y, (i < j)%nat -> Sv !! i = Some x -> Sv !! j = Some y ->
      <[j := x]> (<[i := y]> Sv) ≡ₚ Sv).
    { clear. intros i j x y Hij Hi Hj.
      rewrite <-(take_drop_middle Sv i x Hi) at 2.
      assert (Hj' : drop (S i) Sv !! (j - S i)%nat = Some y)
        by (rewrite lookup_drop; by replace (S i + (j - S i))%nat with j by lia).
      rewrite <-(take_drop_middle _ _ _ Hj') at 1.
      rewrite (insert_take_drop Sv i y) by (by eapply lookup_lt_Some).
      rewrite insert_app_r_alt by (rewrite length_take; lia).
      pose proof (lookup_lt_Some _ _ _ Hi). rewrite length_take, Nat.min_l by lia.
      replace (j - i)%nat with (S (j - S i)) by lia. cbn [insert list_insert].
      rewrite (insert_take_drop (drop (S i) Sv) _ x) by (by eapply lookup_lt_Some).
      solve_Permutation. }
    destruct (decide (Z.to_nat a < Z.to_nat b)%nat).
    + by apply Hab.
    + rewrite list_insert_insert_ne by done. apply Hab; [lia|done|done].
Qed.

Lemma land_ff a : 0 <= Z.land a 0xff < 256.
Proof. change 255 with (Z.ones 8). rewrite Z.land_ones by lia. lia. Qed.

Lemma is_perm_length Sv : is_perm Sv -> length Sv = 256%nat.
Proof. intros H. by rewrite (Permutation_length H). Qed.

Lemma rc4_setup_perm n : forall key keylen i j kpos Sv,
  0 <= i -> i + Z.of_nat n <= 256 -> is_perm Sv -> is_perm (rc4_setup n key keylen i j kpos Sv).
Proof.
  induction n as [|n IH]; intros key keylen i j kpos Sv Hi Hn HS; [done|]. cbn [rc4_setup].
  apply IH; [lia|lia|]. pose proof (is_perm_length Sv HS) as HL.
  eapply Permutation_trans; [apply S_SWAP_perm|exact HS].
  - rewrite HL. lia.
  - rewrite HL. pose proof (land_ff (j + nthZ Sv i + nthZ key kpos)). lia.
Qed.

Lemma rc4_step_perm i j Sv : is_perm Sv ->
  let '(i', j', Sv') := rc4_step (i, j, Sv) in 0 <= i' < 256 /\ 0 <= j' < 256 /\ is_perm Sv'.
Proof.
  intros HS. cbn [rc4_step]. pose proof (is_perm_length Sv HS) as HL.
  pose proof (land_ff (i + 1)) as H1. pose proof (land_ff (j + nthZ Sv (Z.land (i + 1) 0xff))) as H2.
  split_and!; try lia. eapply Permutation_trans; [apply S_SWAP_perm; lia|exact HS].
Qed.

Lemma perm_nth_byte Sv k : is_perm Sv -> 0 <= nthZ Sv k < 256.
Proof.
  intros HS. unfold nthZ. destruct (nth_in_or_default (Z.to_nat k) Sv 0) as [Hi| ->]; [|lia].
  apply (Permutation_in _ HS), in_map_iff in Hi as (x & <- & Hx%in_seq). lia.
Qed.

Lemma keystream_bytes n : forall i j Sv, is_perm Sv -> Forall (fun b => 0 <= b < 256) (keystream n (i, j, Sv)).
Proof.
  induction n as [|n IH]; intros i j Sv HS; cbn [keystream]; [constructor|].
  pose proof (rc4_step_perm i j Sv HS) as Hst. destruct (rc4_step (i, j, Sv)) as [[i' j'] Sv'].
  destruct Hst as (_ & _ & HS'). constructor; [by apply perm_nth_byte|by apply IH].
Qed.

Lemma zip_lxor_zero (l : list Z) : zip_with Z.lxor (replicate (length l) 0) l = l.
Proof. induction l as [|x l IH]; [done|]. cbn [length replicate zip_with]. by rewrite IH, Z.lxor_0_l. Qed.

Lemma zip_lxor_twice (d : list Z) : forall ks, (length d <= length ks)%nat ->
  zip_with Z.lxor (zip_with Z.lxor d ks) ks = d.
Proof.
  induction d as [|x d IH]; intros [|k ks] Hl; cbn [length] in Hl; [done|done|lia|].
  cbn [zip_with]. rewrite IH by lia. f_equal. by rewrite Z.lxor_assoc, Z.lxor_nilpotent, Z.lxor_0_r.
Qed.

(** RC4 is an additive stream cipher: [rc4_skip] adds a key stream of bytes
    that depends only on the key, with the first [skip] bytes of the stream left
    out; so applying it twice gives the data back, whatever the data. *)
Theorem rc4_stream_cipher key keylen skip data :
  exists ks, length ks = (skip + length data)%nat /\ Forall (fun b => 0 <= b < 256) ks /\
    rc4_skip key keylen skip data = zip_with Z.lxor data (drop skip ks) /\
    rc4_skip key keylen 0 (replicate (skip + length data) 0) = ks /\
    rc4_skip key keylen skip (rc4_skip key keylen skip data) = data.
Proof.
  set (Sv0 := rc4_setup 256 key keylen 0 0 0 (map Z.of_nat (seq 0 256))).
  assert (HS : is_perm Sv0) by (apply rc4_setup_perm; [lia|lia|apply Permutation_refl]).
  exists (keystream (skip + length data) (0, 0, Sv0)).
  assert (H1 : forall d, length d = length data -> rc4_skip key keylen skip d
    = zip_with Z.lxor d (drop skip (keystream (skip + length data) (0, 0, Sv0)))).
  { intros d Hd. unfold rc4_skip. fold Sv0. rewrite rc4_apply_stream, keystream_skip, Hd. done. }
  split_and!.
  - apply keystream_length.
  - by apply keystream_bytes.
  - by apply H1.
  - unfold rc4_skip. fold Sv0. rewrite rc4_apply_stream, length_replicate. cbn [rc4_skip_loop].
    rewrite <-(keystream_length (skip + length data) (0, 0, Sv0)) at 1. apply zip_lxor_zero.
  - rewrite (H1 data) by done. rewrite H1.
    + apply zip_lxor_twice. rewrite length_drop, keystream_length. lia.
    + rewrite length_zip_with, length_drop, keystream_length. lia.
Qed.
