(* ===== verification/Sha1.v ===== *)
(** * Sha1: SHA-1 and HMAC-SHA1 of [ap/crypto/sha1-internal.c] and [sha1.c]

    The code as compiled for a little-endian host ([SHA1HANDSOFF], no
    [WORDS_BIGENDIAN], no [SHA1_HARDWARE_IMPLEMENT]): the eighty unrolled steps on
    the working variables [a .. e] with the sixteen-word circular schedule, the
    buffered [SHA1Update], the padding of [SHA1Final], and HMAC on top.

    The reference is FIPS 180: eighty-word schedule, compression, padding and
    iteration over the blocks of the whole message. *)

From stdpp Require Import base list.
From Stdlib Require Import ZArith Lia Btauto.
From S2P Require Import Prelude Words.

(** ** The transform *)

(** [rol(value, bits)] *)
Definition rol (value bits : Z) : Z :=
  Z.lor (u32 (Z.shiftl value bits)) (Z.shiftr value (32 - bits)).

(** One use of a macro [R0 .. R4]: the working variables for [v w x y z], by
    their position in [a .. e], and [i]. *)
Inductive rop : Type :=
| R0 (v w x y z i : nat)
| R1 (v w x y z i : nat)
| R2 (v w x y z i : nat)
| R3 (v w x y z i : nat)
| R4 (v w x y z i : nat).

(** [blk0(i)]: the new [block->l] and the value. *)
Definition blk0 (l : list Z) (i : nat) : list Z * Z :=
  let li := nth i l 0 in
  let v := Z.lor (Z.land (rol li 24) 0xFF00FF00) (Z.land (rol li 8) 0x00FF00FF) in
  (<[i := v]> l, v).

(** [blk(i)] *)
Definition blk (l : list Z) (i : nat) : list Z * Z :=
  let at_ k := nth (Nat.land k 15) l 0 in
  let v := rol (Z.lxor (Z.lxor (Z.lxor (at_ (i + 13)%nat) (at_ (i + 8)%nat)) (at_ (i + 2)%nat)) (at_ i)) 1 in
  (<[Nat.land i 15 := v]> l, v).

(** [z += f + blk + K + rol(v, 5); w = rol(w, 30);] *)
Definition r_body (rg : list Z) (v w z : nat) (f blkv K : Z) : list Z :=
  let rg := <[z := u32 (nth z rg 0 + (f + blkv + K + rol (nth v rg 0) 5))]> rg in
  <[w := rol (nth w rg 0) 30]> rg.

Definition exec_rop (st : list Z * list Z) (o : rop) : list Z * list Z :=
  let '(rg, l) := st in
  let g k := nth k rg 0 in
  match o with
  | R0 v w x y z i =>
      let '(l, bv) := blk0 l i in
      (r_body rg v w z (Z.lxor (Z.land (g w) (Z.lxor (g x) (g y))) (g y)) bv 0x5A827999, l)
  | R1 v w x y z i =>
      let '(l, bv) := blk l i in
      (r_body rg v w z (Z.lxor (Z.land (g w) (Z.lxor (g x) (g y))) (g y)) bv 0x5A827999, l)
  | R2 v w x y z i =>
      let '(l, bv) := blk l i in
      (r_body rg v w z (Z.lxor (Z.lxor (g w) (g x)) (g y)) bv 0x6ED9EBA1, l)
  | R3 v w x y z i =>
      let '(l, bv) := blk l i in
      (r_body rg v w z (Z.lor (Z.land (Z.lor (g w) (g x)) (g y)) (Z.land (g w) (g x))) bv 0x8F1BBCDC, l)
  | R4 v w x y z i =>
      let '(l, bv) := blk l i in
      (r_body rg v w z (Z.lxor (Z.lxor (g w) (g x)) (g y)) bv 0xCA62C1D6, l)
  end.

(** "4 rounds of 20 operations each. Loop unrolled." *)
Definition sha1_program : list rop :=
  let a := 0%nat in let b := 1%nat in let c := 2%nat in let d := 3%nat in let e := 4%nat in [
   R0 a b c d e 0; R0 e a b c d 1; R0 d e a b c 2; R0 c d e a b 3;
   R0 b c d e a 4; R0 a b c d e 5; R0 e a b c d 6; R0 d e a b c 7;
   R0 c d e a b 8; R0 b c d e a 9; R0 a b c d e 10; R0 e a b c d 11;
   R0 d e a b c 12; R0 c d e a b 13; R0 b c d e a 14; R0 a b c d e 15;
   R1 e a b c d 16; R1 d e a b c 17; R1 c d e a b 18; R1 b c d e a 19;
   R2 a b c d e 20; R2 e a b c d 21; R2 d e a b c 22; R2 c d e a b 23;
   R2 b c d e a 24; R2 a b c d e 25; R2 e a b c d 26; R2 d e a b c 27;
   R2 c d e a b 28; R2 b c d e a 29; R2 a b c d e 30; R2 e a b c d 31;
   R2 d e a b c 32; R2 c d e a b 33; R2 b c d e a 34; R2 a b c d e 35;
   R2 e a b c d 36; R2 d e a b c 37; R2 c d e a b 38; R2 b c d e a 39;
   R3 a b c d e 40; R3 e a b c d 41; R3 d e a b c 42; R3 c d e a b 43;
   R3 b c d e a 44; R3 a b c d e 45; R3 e a b c d 46; R3 d e a b c 47;
   R3 c d e a b 48; R3 b c d e a 49; R3 a b c d e 50; R3 e a b c d 51;
   R3 d e a b c 52; R3 c d e a b 53; R3 b c d e a 54; R3 a b c d e 55;
   R3 e a b c d 56; R3 d e a b c 57; R3 c d e a b 58; R3 b c d e a 59;
   R4 a b c d e 60; R4 e a b c d 61; R4 d e a b c 62; R4 c d e a b 63;
   R4 b c d e a 64; R4 a b c d e 65; R4 e a b c d 66; R4 d e a b c 67;
   R4 c d e a b 68; R4 b c d e a 69; R4 a b c d e 70; R4 e a b c d 71;
   R4 d e a b c 72; R4 c d e a b 73; R4 b c d e a 74; R4 a b c d e 75;
   R4 e a b c d 76; R4 d e a b c 77; R4 c d e a b 78; R4 b c d e a 79
].

(** The sixteen words of a buffer as a little-endian machine reads them. *)
Definition le_words (buffer : list Z) : list Z :=
  map (fun k => word (nth (4 * k + 3) buffer 0) (nth (4 * k + 2) buffer 0)
                     (nth (4 * k + 1) buffer 0) (nth (4 * k) buffer 0)) (seq 0 16).

(** [void SHA1Transform(u32 state[5], const unsigned char buffer[64])] *)
Definition SHA1Transform (state buffer : list Z) : list Z :=
  let '(rg, _) := fold_left exec_rop sha1_program (take 5 state, le_words buffer) in
  zip_with (fun s r => u32 (s + r)) state rg.

(** ** Contexts *)

Record SHA1Context : Type := mk_ctx {
  state : list Z;
  count0 : Z;
  count1 : Z;
  buffer : list Z
}.

(** [void SHA1Init(SHA1_CTX *context)]; [buf] is what the buffer holds. *)
Definition SHA1Init (buf : list Z) : SHA1Context :=
  mk_ctx [0x67452301; 0xEFCDAB89; 0x98BADCFE; 0x10325476; 0xC3D2E1F0] 0 0 buf.

(** [os_memcpy(&buf[j], src, n)] *)
Definition buf_copy (buf : list Z) (j : nat) (src : list Z) (n : nat) : list Z :=
  take j buf ++ take n src ++ drop (j + n) buf.

(** [for ( ; i + 63 < len; i += 64) SHA1Transform(context->state, &data[i]);] *)
Fixpoint update_loop (fuel : nat) (st data : list Z) (i len : nat) : list Z * nat :=
  match fuel with
  | O => (st, i)
  | S fuel' =>
      if Nat.ltb (i + 63) len
      then update_loop fuel' (SHA1Transform st (take 64 (drop i data))) data (i + 64) len
      else (st, i)
  end.

(** [void SHA1Update(SHA1_CTX *context, const void *_data, u32 len)] *)
Definition SHA1Update (ctx : SHA1Context) (data : list Z) (len : nat) : SHA1Context :=
  let j := Z.to_nat (Z.land (Z.shiftr (count0 ctx) 3) 63) in
  let l3 := u32 (Z.shiftl (Z.of_nat len) 3) in
  let c0 := count0 ctx +u32 l3 in
  let c1 := if c0 <? l3 then count1 ctx +u32 1 else count1 ctx in
  let c1 := c1 +u32 (Z.shiftr (Z.of_nat len) 29) in
  let '(st, buf, i, j) :=
    if 63 <? (Z.of_nat j +u32 Z.of_nat len) then
      let '(st, buf, i) :=
        if Nat.eqb j 0 then (state ctx, buffer ctx, 0%nat)
        else
          let buf := buf_copy (buffer ctx) j data (64 - j) in
          (SHA1Transform (state ctx) buf, buf, (64 - j)%nat) in
      let '(st, i) := update_loop len st data i len in
      (st, buf, i, 0%nat)
    else (state ctx, buffer ctx, 0%nat, j) in
  let remain := (len - i)%nat in
  mk_ctx st c0 c1 (if Nat.eqb remain 0 then buf else buf_copy buf j (drop i data) remain).

Definition sha1_padding : list Z := 0x80 :: replicate 63 0.

(** [finalcount[i] = (unsigned char)(count[(i >= 4 ? 0 : 1)] >> ((3 - (i & 3)) << 3))] *)
Definition finalcount (ctx : SHA1Context) : list Z :=
  map (fun i => u8 (Z.shiftr (if 4 <=? i then count0 ctx else count1 ctx) (8 * (3 - Z.land i 3))))
    [0; 1; 2; 3; 4; 5; 6; 7].

Definition out_word (s : Z) : list Z :=
  [u8 (Z.shiftr s 24); u8 (Z.shiftr s 16); u8 (Z.shiftr s 8); u8 (Z.shiftr s 0)].

(** [void SHA1Final(unsigned char hashout[20], SHA1_CTX *ctx)] *)
Definition SHA1Final (ctx : SHA1Context) : list Z :=
  let pad_len := Z.to_nat (u32 (1 + Z.land 63 (u32 (55 - Z.land (Z.shiftr (count0 ctx) 3) 63)))) in
  let fc := finalcount ctx in
  let ctx := SHA1Update ctx sha1_padding pad_len in
  let ctx := SHA1Update ctx fc 8 in
  concat (map out_word (state ctx)).

(** [int sha1_vector(num_elem, addr[], len[], mac)]: [addr] with the lengths of its
    elements; [stack] is what the uninitialised context buffer holds. *)
Definition sha1_vector (stack : list Z) (addr : list (list Z)) : list Z :=
  SHA1Final (fold_left (fun ctx d => SHA1Update ctx d (length d)) addr (SHA1Init stack)).

(** "abc" *)
Example sha1_abc : sha1_vector (replicate 64 0) [[0x61]; [0x62; 0x63]] =
  [0xA9; 0x99; 0x3E; 0x36; 0x47; 0x06; 0x81; 0x6A; 0xBA; 0x3E; 0x25; 0x71; 0x78; 0x50; 0xC2; 0x6C;
   0x9C; 0xD0; 0xD8; 0x9D].
Proof. vm_compute. reflexivity. Qed.

(** ** FIPS 180 *)

Definition fips_f (t : nat) (x y z : Z) : Z :=
  if Nat.ltb t 20 then Z.lxor (Z.land x y) (Z.land (Z.lnot x) z)
  else if Nat.ltb t 40 then Z.lxor (Z.lxor x y) z
  else if Nat.ltb t 60 then Z.lxor (Z.lxor (Z.land x y) (Z.land x z)) (Z.land y z)
  else Z.lxor (Z.lxor x y) z.

Definition fips_K (t : nat) : Z :=
  if Nat.ltb t 20 then 0x5A827999 else if Nat.ltb t 40 then 0x6ED9EBA1
  else if Nat.ltb t 60 then 0x8F1BBCDC else 0xCA62C1D6.

(** The message schedule. *)
Fixpoint fips_expand (n : nat) (ws : list Z) : list Z :=
  match n with
  | O => ws
  | S n' =>
      let t := length ws in
      let g k := nth (t - k) ws 0 in
      fips_expand n' (ws ++ [rol (Z.lxor (Z.lxor (Z.lxor (g 3%nat) (g 8%nat)) (g 14%nat)) (g 16%nat)) 1])
  end.

Definition be_words (blk : list Z) : list Z :=
  map (fun k => word (nth (4 * k) blk 0) (nth (4 * k + 1) blk 0)
                     (nth (4 * k + 2) blk 0) (nth (4 * k + 3) blk 0)) (seq 0 16).

Definition fips_schedule (blk : list Z) : list Z := fips_expand 64 (be_words blk).

Record hash5 : Type := mk_h { hA : Z; hB : Z; hC : Z; hD : Z; hE : Z }.

Definition fips_step (W : list Z) (h : hash5) (t : nat) : hash5 :=
  mk_h (u32 (rol (hA h) 5 + fips_f t (hB h) (hC h) (hD h) + hE h + fips_K t + nth t W 0))
       (hA h) (rol (hB h) 30) (hC h) (hD h).

Definition fips_compress (h : list Z) (blk : list Z) : list Z :=
  let h0 := mk_h (nth 0 h 0) (nth 1 h 0) (nth 2 h 0) (nth 3 h 0) (nth 4 h 0) in
  let r := fold_left (fips_step (fips_schedule blk)) (seq 0 80) h0 in
  [u32 (hA h0 + hA r); u32 (hB h0 + hB r); u32 (hC h0 + hC r); u32 (hD h0 + hD r); u32 (hE h0 + hE r)].

Definition be_bytes64 (n : Z) : list Z := map (fun k => u8 (Z.shiftr n (8 * (7 - k)))) [0; 1; 2; 3; 4; 5; 6; 7].

Definition fips_pad (m : list Z) : list Z :=
  m ++ 0x80 :: replicate (Z.to_nat ((55 - Z.of_nat (length m)) mod 64)) 0 ++ be_bytes64 (8 * Z.of_nat (length m)).

(** The blocks of 64 bytes in turn. *)
Fixpoint fips_absorb (n : nat) (h data : list Z) : list Z :=
  match n with
  | O => h
  | S n' => fips_absorb n' (fips_compress h (take 64 data)) (drop 64 data)
  end.

Definition H0 : list Z := [0x67452301; 0xEFCDAB89; 0x98BADCFE; 0x10325476; 0xC3D2E1F0].

Definition fips_sha1 (m : list Z) : list Z :=
  let p := fips_pad m in
  concat (map out_word (fips_absorb (length p / 64) H0 p)).

(** ** The schedule *)

Lemma fips_expand_spec n : forall ws, (16 <= length ws)%nat ->
  let R := fips_expand n ws in
  length R = (length ws + n)%nat /\
  (forall t, (t < length ws)%nat -> nth t R 0 = nth t ws 0) /\
  (forall t, (length ws <= t < length ws + n)%nat -> nth t R 0 =
     rol (Z.lxor (Z.lxor (Z.lxor (nth (t - 3) R 0) (nth (t - 8) R 0)) (nth (t - 14) R 0))
            (nth (t - 16) R 0)) 1).
Proof.
  induction n as [|n IH]; intros ws Hl; cbn [fips_expand].
  { split_and!; [lia|done|]. intros t Ht. lia. }
  set (x := rol _ 1). destruct (IH (ws ++ [x])) as (L & P & Q); [rewrite length_app; cbn; lia|].
  rewrite length_app in L, P, Q. cbn [length] in L, P, Q.
  assert (P' : forall t, (t < length ws)%nat -> nth t (fips_expand n (ws ++ [x])) 0 = nth t ws 0).
  { intros t Ht. rewrite P by lia. by rewrite app_nth1. }
  split_and!; [lia|done|]. intros t Ht. destruct (decide (t = length ws)) as [->|Hne].
  - rewrite P by lia. rewrite app_nth2, Nat.sub_diag by lia. cbn [nth].
    rewrite !P' by lia. done.
  - apply Q. lia.
Qed.

Lemma nth_map_seq (f : nat -> Z) n k : (k < n)%nat -> nth k (map f (seq 0 n)) 0 = f k.
Proof.
  intros Hk. apply nth_lookup_Some. change (map f (seq 0 n)) with (f <$> seq 0 n).
  by rewrite list_lookup_fmap, (lookup_seq_lt 0 n k Hk).
Qed.

Definition buffer_ok (blk : list Z) : Prop := length blk = 64%nat /\ Forall is_byte blk.

Lemma nth_byte blk k : Forall is_byte blk -> is_byte (nth k blk 0).
Proof.
  intros Hb. destruct (nth_in_or_default k blk 0) as [Hi| ->]; [|unfold is_byte; lia].
  rewrite List.Forall_forall in Hb. by apply Hb.
Qed.

Lemma testbit_byte_high x n : is_byte x -> (n < 0 \/ 8 <= n) -> Z.testbit x n = false.
Proof.
  intros Hx [Hn|Hn]; [by apply Z.testbit_neg_r|].
  rewrite <-(Z.mod_small x (2 ^ 8)) by exact Hx. by apply Z.mod_pow2_bits_high.
Qed.

Lemma testbit_word b3 b2 b1 b0 n : is_byte b3 -> is_byte b2 -> is_byte b1 -> is_byte b0 -> 0 <= n ->
  Z.testbit (word b3 b2 b1 b0) n =
    if n <? 8 then Z.testbit b0 n else if n <? 16 then Z.testbit b1 (n - 8)
    else if n <? 24 then Z.testbit b2 (n - 16) else Z.testbit b3 (n - 24).
Proof.
  intros B3 B2 B1 B0 Hn. unfold word. rewrite !Z.lxor_spec, !Z.shiftl_spec by lia.
  destruct (Z.ltb_spec n 8).
  { rewrite (testbit_byte_high b3), (testbit_byte_high b2), (testbit_byte_high b1) by (done || lia).
    by destruct (Z.testbit b0 n). }
  rewrite (testbit_byte_high b0) by (done || lia). destruct (Z.ltb_spec n 16).
  { rewrite (testbit_byte_high b3), (testbit_byte_high b2) by (done || lia).
    by destruct (Z.testbit b1 (n - 8)). }
  rewrite (testbit_byte_high b1) by (done || lia). destruct (Z.ltb_spec n 24).
  { rewrite (testbit_byte_high b3) by (done || lia). by destruct (Z.testbit b2 (n - 16)). }
  rewrite (testbit_byte_high b2) by (done || lia). by destruct (Z.testbit b3 (n - 24)).
Qed.

Lemma testbit_rol w k n : is_u32 w -> 0 < k < 32 -> 0 <= n < 32 ->
  Z.testbit (rol w k) n = if n <? k then Z.testbit w (n + (32 - k)) else Z.testbit w (n - k).
Proof.
  intros Hw Hk Hn. unfold rol, u32. change 4294967296 with (2 ^ 32).
  rewrite Z.lor_spec, Z.mod_pow2_bits_low, Z.shiftl_spec, Z.shiftr_spec by lia.
  destruct (Z.ltb_spec n k).
  - by rewrite (Z.testbit_neg_r w (n - k)) by lia.
  - replace (Z.testbit w (n + (32 - k))) with false; [apply orb_false_r|].
    rewrite <-(Z.mod_small w (2 ^ 32)) by exact Hw. symmetry. apply Z.mod_pow2_bits_high. lia.
Qed.

(** [blk0] swaps the bytes of a little-endian word. *)
Lemma bswap b3 b2 b1 b0 : is_byte b3 -> is_byte b2 -> is_byte b1 -> is_byte b0 ->
  let w := word b3 b2 b1 b0 in
  Z.lor (Z.land (rol w 24) 0xFF00FF00) (Z.land (rol w 8) 0x00FF00FF) = word b0 b1 b2 b3.
Proof.
  intros B3 B2 B1 B0 w. assert (Hw : is_u32 w) by by apply word_u32.
  apply Z.bits_inj'. intros n Hn. rewrite Z.lor_spec, !Z.land_spec.
  destruct (Z.ltb_spec n 32) as [Hlt|Hge].
  - assert (Hin : In n (map Z.of_nat (seq 0 32)))
      by (replace n with (Z.of_nat (Z.to_nat n)) by lia; apply in_map, in_seq; lia).
    cbn in Hin. repeat (destruct Hin as [<-|Hin];
      [rewrite !testbit_rol by (done || lia); unfold w; cbv -[Z.testbit word];
       rewrite !testbit_word by (done || lia); cbv -[Z.testbit];
       repeat match goal with |- context [Z.testbit (Z.pos ?m) ?k] =>
         let v := eval vm_compute in (Z.testbit (Z.pos m) k) in
         change (Z.testbit (Z.pos m) k) with v end;
       repeat match goal with |- context [Z.testbit ?x ?k] => destruct (Z.testbit x k) end;
       reflexivity|]).
    destruct Hin.
  - rewrite testbit_word by (done || lia).
    destruct (Z.ltb_spec n 8), (Z.ltb_spec n 16), (Z.ltb_spec n 24); try lia.
    rewrite (testbit_byte_high b0) by (done || lia).
    assert (Hm : forall m, is_u32 m -> Z.testbit m n = false).
    { intros m Hm. rewrite <-(Z.mod_small m (2 ^ 32)) by exact Hm. by apply Z.mod_pow2_bits_high. }
    rewrite (Hm 0xFF00FF00), (Hm 0x00FF00FF) by (unfold is_u32; lia). by rewrite !andb_false_r.
Qed.

(** ** The unrolled steps *)

(** The step [i] of the unrolled code, from its regularity. *)
Definition gen_op (i : nat) : rop :=
  let v := ((80 - i) mod 5)%nat in
  let k n := ((v + n) mod 5)%nat in
  if Nat.ltb i 16 then R0 v (k 1%nat) (k 2%nat) (k 3%nat) (k 4%nat) i
  else if Nat.ltb i 20 then R1 v (k 1%nat) (k 2%nat) (k 3%nat) (k 4%nat) i
  else if Nat.ltb i 40 then R2 v (k 1%nat) (k 2%nat) (k 3%nat) (k 4%nat) i
  else if Nat.ltb i 60 then R3 v (k 1%nat) (k 2%nat) (k 3%nat) (k 4%nat) i
  else R4 v (k 1%nat) (k 2%nat) (k 3%nat) (k 4%nat) i.

Lemma sha1_program_gen : sha1_program = map gen_op (seq 0 80).
Proof. reflexivity. Qed.

(** The working variables in the roles they have from role [v] on. *)
Definition roles (rg : list Z) (v : nat) : hash5 :=
  let g n := nth ((v + n) mod 5)%nat rg 0 in mk_h (g 0%nat) (g 1%nat) (g 2%nat) (g 3%nat) (g 4%nat).

Lemma r_body_roles rg v f bv K : length rg = 5%nat -> (v < 5)%nat ->
  let rg' := r_body rg v ((v + 1) mod 5)%nat ((v + 4) mod 5)%nat f bv K in
  let h := roles rg v in
  length rg' = 5%nat /\
  roles rg' ((v + 4) mod 5)%nat =
    mk_h (u32 (hE h + (f + bv + K + rol (hA h) 5))) (hA h) (rol (hB h) 30) (hC h) (hD h).
Proof.
  intros Hl Hv. do 5 (destruct rg as [|? rg]; [discriminate|]). destruct rg; [|discriminate].
  assert (Hin : In v (seq 0 5)) by (apply in_seq; lia). cbn in Hin.
  destruct Hin as [<-|[<-|[<-|[<-|[<-|[]]]]]]; split; reflexivity.
Qed.

(** The boolean functions of the code and of the standard. *)
Ltac bits_eq :=
  apply Z.bits_inj'; intros ? ?;
  rewrite ?Z.lxor_spec, ?Z.land_spec, ?Z.lor_spec, ?Z.lxor_spec, ?Z.land_spec, ?Z.lor_spec,
    ?Z.lnot_spec, ?Z.lxor_spec by done; btauto.

Lemma choose_eq x y z : Z.lxor (Z.land x (Z.lxor y z)) z = Z.lxor (Z.land x y) (Z.land (Z.lnot x) z).
Proof. bits_eq. Qed.

Lemma majority_eq x y z : Z.lor (Z.land (Z.lor x y) z) (Z.land x y)
  = Z.lxor (Z.lxor (Z.land x y) (Z.land x z)) (Z.land y z).
Proof. bits_eq. Qed.

(** The circular buffer before step [i]: the last words of the schedule, and
    before step 16 the words not yet swapped. *)
Record ring (blk : list Z) (W : list Z) (i : nat) (l : list Z) : Prop := mk_ring {
  rg_len : length l = 16%nat;
  rg_done : forall k, (k < i)%nat -> (i <= k + 16)%nat -> nth (Nat.land k 15) l 0 = nth k W 0;
  rg_raw : forall k, (i <= k < 16)%nat -> nth k l 0 = nth k (le_words blk) 0
}.

Lemma land15 k : Nat.land k 15 = (k mod 16)%nat.
Proof. apply (Nat.land_ones k 4). Qed.

Lemma nth_insert_eq (l : list Z) i v : (i < length l)%nat -> nth i (<[i := v]> l) 0 = v.
Proof. intros. by apply nth_lookup_Some, list_lookup_insert_eq. Qed.

Lemma nth_insert_ne (l : list Z) i j v : i <> j -> nth j (<[i := v]> l) 0 = nth j l 0.
Proof. intros. by rewrite !nth_lookup, list_lookup_insert_ne. Qed.

Lemma mod16_ne k i : (k < i)%nat -> (i < k + 16)%nat -> (i mod 16 <> k mod 16)%nat.
Proof.
  intros H1 H2 E. pose proof (Nat.div_mod_eq i 16). pose proof (Nat.div_mod_eq k 16).
  rewrite E in *. lia.
Qed.

Lemma blk0_ring buf i l : Forall is_byte buf -> (i < 16)%nat ->
  ring buf (fips_schedule buf) i l ->
  ring buf (fips_schedule buf) (S i) (fst (blk0 l i)) /\ snd (blk0 l i) = nth i (fips_schedule buf) 0.
Proof.
  intros Hb Hi [Hl Hd Hr].
  assert (Hv : snd (blk0 l i) = nth i (fips_schedule buf) 0).
  { unfold blk0. cbn [snd]. rewrite Hr by lia. unfold le_words. rewrite nth_map_seq by lia.
    rewrite bswap by (by apply nth_byte).
    destruct (fips_expand_spec 64 (be_words buf)) as (_ & P & _); [done|].
    unfold fips_schedule. rewrite P by done. unfold be_words. by rewrite nth_map_seq by lia. }
  split; [|done]. unfold blk0 in *. cbn [fst snd] in *. rewrite Hv. split.
  - by rewrite length_insert.
  - intros k Hk1 Hk2. rewrite land15 in *. destruct (decide (k = i)) as [->|Hne].
    + rewrite Nat.mod_small by lia. rewrite nth_insert_eq by lia. done.
    + rewrite nth_insert_ne by (rewrite Nat.mod_small; lia). rewrite <-land15. apply Hd; lia.
  - intros k Hk. rewrite nth_insert_ne by lia. apply Hr. lia.
Qed.

Lemma blk_ring buf i l : (16 <= i < 80)%nat ->
  ring buf (fips_schedule buf) i l ->
  ring buf (fips_schedule buf) (S i) (fst (blk l i)) /\ snd (blk l i) = nth i (fips_schedule buf) 0.
Proof.
  intros Hi [Hl Hd Hr].
  destruct (fips_expand_spec 64 (be_words buf)) as (_ & _ & Q); [done|].
  assert (Hat : forall k j, (i - 16 <= j < i)%nat -> k = (j + 1 * 16)%nat ->
    nth (Nat.land k 15) l 0 = nth j (fips_schedule buf) 0).
  { intros k j Hj ->. rewrite land15, Nat.Div0.mod_add, <-land15. apply Hd; lia. }
  assert (Hv : snd (blk l i) = nth i (fips_schedule buf) 0).
  { unfold blk. cbn [snd].
    rewrite (Hat (i + 13)%nat (i - 3)%nat), (Hat (i + 8)%nat (i - 8)%nat), (Hat (i + 2)%nat (i - 14)%nat),
      (Hat i (i - 16)%nat) by lia.
    symmetry. apply Q. change (length (be_words buf)) with 16%nat. lia. }
  split; [|done]. unfold blk in *. cbn [fst snd] in *. rewrite Hv. split.
  - by rewrite length_insert.
  - intros k Hk1 Hk2. rewrite !land15. destruct (decide (k = i)) as [->|Hne].
    + apply nth_insert_eq. pose proof (Nat.mod_upper_bound i 16). lia.
    + rewrite nth_insert_ne by (apply mod16_ne; lia). rewrite <-land15. apply Hd; lia.
  - intros k Hk. lia.
Qed.

(** One step of the code is one step of the standard. *)
Lemma exec_step buf i rg l :
  Forall is_byte buf -> (i < 80)%nat -> length rg = 5%nat -> ring buf (fips_schedule buf) i l ->
  let v := ((80 - i) mod 5)%nat in
  let '(rg', l') := exec_rop (rg, l) (gen_op i) in
  length rg' = 5%nat /\ ring buf (fips_schedule buf) (S i) l' /\
  roles rg' ((80 - S i) mod 5)%nat = fips_step (fips_schedule buf) (roles rg v) i.
Proof.
  intros Hb Hi Hl Hring v.
  assert (Hv : (v < 5)%nat) by (apply Nat.mod_upper_bound; lia).
  assert (Hv' : ((80 - S i) mod 5 = (v + 4) mod 5)%nat).
  { unfold v. rewrite Nat.Div0.add_mod_idemp_l. replace (80 - i + 4)%nat with (80 - S i + 1 * 5)%nat by lia.
    by rewrite Nat.Div0.mod_add. }
  assert (Hv0 : roles rg v = mk_h (nth v rg 0) (nth ((v + 1) mod 5)%nat rg 0)
    (nth ((v + 2) mod 5)%nat rg 0) (nth ((v + 3) mod 5)%nat rg 0) (nth ((v + 4) mod 5)%nat rg 0))
    by (unfold roles; by rewrite Nat.add_0_r, Nat.mod_small).
  rewrite Hv'. unfold gen_op. fold v.
  unfold fips_step, fips_f, fips_K.
  destruct (Nat.ltb_spec i 16) as [H16|H16].
  { destruct (blk0_ring buf i l Hb H16 Hring) as [HR HV]. cbn [exec_rop].
    destruct (blk0 l i) as [l' bv]. cbn [fst snd] in HR, HV. subst bv.
    destruct (Nat.ltb_spec i 20); [|lia].
    edestruct r_body_roles as [L R]; [exact Hl|exact Hv|]. split; [exact L|]. split; [done|].
    rewrite R, Hv0. f_equal. f_equal. cbn [hA hB hC hD hE]. rewrite choose_eq. lia. }
  destruct (blk_ring buf i l ltac:(lia) Hring) as [HR HV].
  destruct (Nat.ltb_spec i 20); [|destruct (Nat.ltb_spec i 40); [|destruct (Nat.ltb_spec i 60)]];
    cbn [exec_rop]; destruct (blk l i) as [l' bv]; cbn [fst snd] in HR, HV; subst bv;
    (edestruct r_body_roles as [L R]; [exact Hl|exact Hv|]); (split; [exact L|]); (split; [done|]);
    rewrite R, Hv0; f_equal; f_equal; cbn [hA hB hC hD hE];
    rewrite ?choose_eq, ?majority_eq; lia.
Qed.

Lemma exec_program buf : Forall is_byte buf -> forall n i rg l,
  (i + n = 80)%nat -> length rg = 5%nat -> ring buf (fips_schedule buf) i l ->
  let '(rg', _) := fold_left exec_rop (map gen_op (seq i n)) (rg, l) in
  length rg' = 5%nat /\
  roles rg' 0 = fold_left (fips_step (fips_schedule buf)) (seq i n) (roles rg ((80 - i) mod 5)%nat).
Proof.
  intros Hb. induction n as [|n IH]; intros i rg l Hi Hl HR.
  { cbn [seq map fold_left]. replace i with 80%nat by lia. done. }
  cbn [seq map fold_left].
  pose proof (exec_step buf i rg l Hb ltac:(lia) Hl HR) as Hs. cbn zeta in Hs.
  destruct (exec_rop (rg, l) (gen_op i)) as [rg1 l1]. destruct Hs as (L1 & R1 & E1).
  rewrite <-E1. apply IH; [lia|done|done].
Qed.

Lemma transform_fips st buf : length st = 5%nat -> buffer_ok buf ->
  SHA1Transform st buf = fips_compress st buf /\ length (SHA1Transform st buf) = 5%nat.
Proof.
  intros Hl [_ Hb]. unfold SHA1Transform, fips_compress. rewrite take_ge by lia.
  rewrite sha1_program_gen.
  assert (HR : ring buf (fips_schedule buf) 0 (le_words buf)).
  { split; [done|intros; lia|]. intros k Hk. done. }
  pose proof (exec_program buf Hb 80 0 st (le_words buf) eq_refl Hl HR) as HP.
  destruct (fold_left exec_rop (map gen_op (seq 0 80)) (st, le_words buf)) as [rg l].
  destruct HP as [Lr HP].
  change (roles st ((80 - 0) mod 5)%nat)
    with (mk_h (nth 0 st 0) (nth 1 st 0) (nth 2 st 0) (nth 3 st 0) (nth 4 st 0)) in HP.
  cbn zeta. revert HP. generalize (fold_left (fips_step (fips_schedule buf)) (seq 0 80)
    (mk_h (nth 0 st 0) (nth 1 st 0) (nth 2 st 0) (nth 3 st 0) (nth 4 st 0))).
  intros h <-. clear HR.
  do 5 (destruct st as [|? st]; [discriminate|]). destruct st; [|discriminate].
  do 5 (destruct rg as [|? rg]; [discriminate|]). destruct rg; [|discriminate].
  split; reflexivity.
Qed.

(** ** The buffered update *)

Lemma absorb_app q : forall h x y n, length x = (64 * q)%nat ->
  fips_absorb (q + n) h (x ++ y) = fips_absorb n (fips_absorb q h x) y.
Proof.
  induction q as [|q IH]; intros h x y n Hx.
  - apply length_zero_iff_nil in Hx as ->. done.
  - cbn [Nat.add fips_absorb]. rewrite take_app_le, drop_app_le by lia. apply IH.
    rewrite length_drop. lia.
Qed.

Lemma compress_length h blk : length (fips_compress h blk) = 5%nat.
Proof. reflexivity. Qed.

#[local] Opaque SHA1Transform fips_compress.

Lemma absorb_length n : forall h data, length h = 5%nat -> length (fips_absorb n h data) = 5%nat.
Proof. induction n as [|n IH]; intros h data Hh; [done|]. cbn [fips_absorb]. apply IH, compress_length. Qed.

(** The loop absorbs all complete blocks of the data. *)
Lemma update_loop_spec fuel : forall st data i len,
  length st = 5%nat -> Forall is_byte data -> length data = len -> (i <= len)%nat -> (len - i <= fuel)%nat ->
  update_loop fuel st data i len =
    (fips_absorb ((len - i) / 64) st (drop i data), (i + 64 * ((len - i) / 64))%nat).
Proof.
  induction fuel as [|fuel IH]; intros st data i len Hst Hb Hlen Hi Hf; cbn [update_loop].
  { replace (len - i)%nat with 0%nat by lia. cbn. by rewrite Nat.add_0_r. }
  destruct (Nat.ltb_spec (i + 63) len) as [Hlt|Hge].
  - destruct (transform_fips st (take 64 (drop i data)) Hst) as [HT HL].
    { split; [rewrite length_take, length_drop; lia|]. by apply Forall_take, Forall_drop. }
    rewrite IH; [|exact HL|exact Hb|exact Hlen|lia|lia]. rewrite HT.
    replace (len - i)%nat with (len - (i + 64) + 1 * 64)%nat by lia.
    rewrite Nat.div_add by lia. rewrite (Nat.add_comm _ 1). cbn [Nat.add fips_absorb].
    rewrite drop_drop. apply f_equal2; [|lia]. by rewrite (Nat.add_comm i 64).
  - rewrite Nat.div_small by lia. cbn [fips_absorb]. by rewrite Nat.mul_0_r, Nat.add_0_r.
Qed.

(** [ctx] has been fed the message [m]. *)
Record fed (ctx : SHA1Context) (m : list Z) : Prop := mk_fed {
  fd_buf : length (buffer ctx) = 64%nat /\ Forall is_byte (buffer ctx);
  fd_split : exists q full rest, m = full ++ rest /\ length full = (64 * q)%nat /\
    (length rest < 64)%nat /\ state ctx = fips_absorb q H0 full /\
    take (length rest) (buffer ctx) = rest;
  fd_len0 : count0 ctx = u32 (8 * Z.of_nat (length m));
  fd_len1 : count1 ctx = u32 (8 * Z.of_nat (length m) / 4294967296)
}.

Lemma fed_j ctx m q full rest : fed ctx m -> m = full ++ rest -> length full = (64 * q)%nat ->
  (length rest < 64)%nat -> Z.to_nat (Z.land (Z.shiftr (count0 ctx) 3) 63) = length rest.
Proof.
  intros F -> Hf Hr. rewrite (fd_len0 _ _ F), length_app, Hf. change 63 with (Z.ones 6).
  rewrite Z.land_ones, Z.shiftr_div_pow2 by lia. unfold u32.
  change (2 ^ 3) with 8. change (2 ^ 6) with 64. lia.
Qed.

Lemma update_counts c0 c1 n len : 0 <= n -> 0 <= len < 4294967296 ->
  c0 = u32 (8 * n) -> c1 = u32 (8 * n / 4294967296) ->
  let l3 := u32 (Z.shiftl len 3) in
  let c0' := c0 +u32 l3 in
  c0' = u32 (8 * (n + len)) /\
  ((if c0' <? l3 then c1 +u32 1 else c1) +u32 Z.shiftr len 29) = u32 (8 * (n + len) / 4294967296).
Proof.
  intros Hn Hl -> ->. cbn zeta. rewrite Z.shiftl_mul_pow2, Z.shiftr_div_pow2 by lia.
  change (2 ^ 3) with 8. change (2 ^ 29) with 536870912. unfold u32.
  split; [lia|]. destruct (Z.ltb_spec (((8 * n) mod 4294967296 + (len * 8) mod 4294967296) mod 4294967296)
    ((len * 8) mod 4294967296)); lia.
Qed.

(** A copy into the buffer. *)
Lemma buf_copy_ok buf j src n : length buf = 64%nat -> Forall is_byte buf -> Forall is_byte src ->
  length src = n -> (j + n <= 64)%nat ->
  length (buf_copy buf j src n) = 64%nat /\ Forall is_byte (buf_copy buf j src n) /\
  take (j + n) (buf_copy buf j src n) = take j buf ++ src.
Proof.
  intros Hl Hb Hs Hn Hj. unfold buf_copy. rewrite (take_ge src) by lia. split_and!.
  - rewrite !length_app, length_take, length_drop. lia.
  - apply Forall_app. split; [by apply Forall_take|]. apply Forall_app. split; [done|by apply Forall_drop].
  - rewrite app_assoc, take_app_le by (rewrite length_app, length_take; lia).
    apply take_ge. rewrite length_app, length_take. lia.
Qed.

Lemma absorb_take n h x : (64 * n <= length x)%nat -> fips_absorb n h (take (64 * n) x) = fips_absorb n h x.
Proof.
  intros Hx. rewrite <-(take_drop (64 * n) x) at 2. rewrite <-(Nat.add_0_r n) at 3.
  rewrite absorb_app; [done|]. rewrite length_take. lia.
Qed.

(** The block completed by the buffered bytes, if there are any. *)
Lemma update_first st buf q full rest data :
  let z := Nat.eqb (length rest) 0 in
  let i0 := (if z then 0 else 64 - length rest)%nat in
  let q1 := if z then q else (q + 1)%nat in
  length buf = 64%nat -> Forall is_byte buf -> Forall is_byte data ->
  length full = (64 * q)%nat -> (length rest < 64)%nat -> (63 < length rest + length data)%nat ->
  length st = 5%nat -> st = fips_absorb q H0 full -> take (length rest) buf = rest ->
  exists st1 buf1,
    (if z then (st, buf, 0%nat)
     else let buf := buf_copy buf (length rest) data (64 - length rest) in
          (SHA1Transform st buf, buf, (64 - length rest)%nat)) = (st1, buf1, i0) /\
    length buf1 = 64%nat /\ Forall is_byte buf1 /\ (i0 <= length data)%nat /\ length st1 = 5%nat /\
    st1 = fips_absorb q1 H0 (full ++ rest ++ take i0 data) /\
    length (full ++ rest ++ take i0 data) = (64 * q1)%nat.
Proof.
  intros z i0 q1 Bl Bb Hd Hfl Hrl Hbig Hsl Hst Hbuf. unfold i0, q1, z.
  destruct (Nat.eqb_spec (length rest) 0) as [Hz|Hn].
  - apply length_zero_iff_nil in Hz as ->. exists st, buf. cbn [take app]. rewrite !app_nil_r.
    split_and!; [reflexivity|exact Bl|exact Bb|lia|exact Hsl|exact Hst|exact Hfl].
  - assert (Htl : length (take (64 - length rest) data) = (64 - length rest)%nat)
      by (rewrite length_take; lia).
    destruct (buf_copy_ok buf (length rest) (take (64 - length rest) data)
      (64 - length rest) Bl Bb ltac:(by apply Forall_take) Htl ltac:(lia)) as (L1 & B1 & T1).
    replace (length rest + (64 - length rest))%nat with 64%nat in T1 by lia.
    rewrite take_ge in T1 by lia. rewrite Hbuf in T1.
    assert (Hsame : buf_copy buf (length rest) data (64 - length rest)
                    = rest ++ take (64 - length rest) data).
    { rewrite <-T1. unfold buf_copy. by rewrite take_take, Nat.min_id. }
    cbn zeta. rewrite Hsame. rewrite T1 in L1, B1.
    destruct (transform_fips st (rest ++ take (64 - length rest) data) Hsl (conj L1 B1)) as [HT HTl].
    eexists _, _. split; [reflexivity|]. split_and!; [exact L1|exact B1|lia|exact HTl| |].
    + rewrite HT, Hst, absorb_app by exact Hfl. cbn [fips_absorb].
      rewrite (take_ge (rest ++ _) 64) by (rewrite L1; lia). reflexivity.
    + rewrite length_app, L1. lia.
Qed.

Lemma update_fed ctx m data :
  fed ctx m -> Forall is_byte data -> Z.of_nat (length data) < 4294967232 ->
  fed (SHA1Update ctx data (length data)) (m ++ data).
Proof.
  intros F Hd Hlen. destruct (fd_buf _ _ F) as [Bl Bb].
  destruct (fd_split _ _ F) as (q & full & rest & Hm & Hfl & Hrl & Hst & Hbuf).
  pose proof (fed_j _ _ _ _ _ F Hm Hfl Hrl) as Hj.
  pose proof (update_counts _ _ (Z.of_nat (length m)) (Z.of_nat (length data)) ltac:(lia) ltac:(lia)
    (fd_len0 _ _ F) (fd_len1 _ _ F)) as [Hc0 Hc1]. cbn zeta in Hc0, Hc1.
  assert (Hsl : length (state ctx) = 5%nat) by (rewrite Hst; by apply absorb_length).
  unfold SHA1Update. rewrite Hj. rewrite u32_small by lia.
  set (c0 := _ +u32 _) in *. set (c1 := _ +u32 Z.shiftr _ _) in *.
  assert (Hml : Z.of_nat (length (m ++ data)) = Z.of_nat (length m) + Z.of_nat (length data))
    by (rewrite length_app; lia).
  destruct (Z.ltb_spec 63 (Z.of_nat (length rest) + Z.of_nat (length data))) as [Hbig|Hsmall].
  - (* a block is completed *)
    destruct (update_first (state ctx) (buffer ctx) q full rest data Bl Bb Hd Hfl Hrl ltac:(lia) Hsl
      Hst Hbuf) as (st1 & buf1 & E1 & L1 & B1 & Hi0 & Ls1 & Es1 & Hfl1).
    cbn zeta in E1 |- *. rewrite E1.
    set (i0 := (if Nat.eqb (length rest) 0 then 0 else 64 - length rest)%nat) in *.
    set (q1 := if Nat.eqb (length rest) 0 then q else (q + 1)%nat) in *.
    rewrite (update_loop_spec _ st1 data i0 (length data) Ls1 Hd eq_refl Hi0) by lia.
    set (n := ((length data - i0) / 64)%nat) in *. set (i1 := (i0 + 64 * n)%nat).
    assert (Hn : (64 * n <= length data - i0 < 64 * n + 64)%nat).
    { unfold n. pose proof (Nat.div_mod_eq (length data - i0) 64).
      pose proof (Nat.mod_upper_bound (length data - i0) 64). lia. }
    set (rest' := drop i1 data).
    assert (Hrl' : length rest' = (length data - i1)%nat) by (unfold rest'; apply length_drop).
    split; cbn [buffer state count0 count1].
    + destruct (Nat.eqb_spec (length data - i1) 0); [done|].
      destruct (buf_copy_ok buf1 0 rest' (length data - i1) L1 B1 ltac:(by apply Forall_drop) Hrl'
        ltac:(unfold i1; lia)) as (L2 & B2 & _). done.
    + exists (q1 + n)%nat, ((full ++ rest ++ take i0 data) ++ take (64 * n) (drop i0 data)), rest'.
      split_and!.
      * unfold rest', i1. rewrite Hm, <-!app_assoc. do 2 f_equal.
        rewrite <-drop_drop, take_drop. symmetry. apply take_drop.
      * rewrite length_app, Hfl1, length_take, length_drop. lia.
      * rewrite Hrl'. unfold i1. lia.
      * rewrite absorb_app by done. rewrite <-Es1.
        rewrite absorb_take; [done|]. rewrite length_drop. lia.
      * destruct (Nat.eqb_spec (length data - i1) 0) as [Hz|Hz].
        -- rewrite Hrl', Hz. cbn [take]. symmetry. apply length_zero_iff_nil. lia.
        -- destruct (buf_copy_ok buf1 0 rest' (length data - i1) L1 B1 ltac:(by apply Forall_drop) Hrl'
             ltac:(unfold i1; lia)) as (_ & _ & T2). rewrite Hrl'. exact T2.
    + rewrite Hc0, Hml. done.
    + rewrite Hc1, Hml. done.
  - (* the data fits the buffer *)
    rewrite Nat.sub_0_r. cbn [drop].
    assert (Hb2 : let buf' := if Nat.eqb (length data) 0 then buffer ctx
                     else buf_copy (buffer ctx) (length rest) data (length data) in
      length buf' = 64%nat /\ Forall is_byte buf' /\ take (length (rest ++ data)) buf' = rest ++ data).
    { destruct (Nat.eqb_spec (length data) 0) as [Hz|Hz]; cbn zeta.
      - apply length_zero_iff_nil in Hz as ->. by rewrite app_nil_r.
      - destruct (buf_copy_ok (buffer ctx) (length rest) data (length data) Bl Bb Hd eq_refl ltac:(lia))
          as (L1 & B1 & T1). rewrite Hbuf in T1. rewrite length_app. done. }
    destruct Hb2 as (L1 & B1 & T1). split; cbn [buffer state count0 count1].
    + done.
    + exists q, full, (rest ++ data). rewrite Hm, <-app_assoc. split_and!; try done.
      rewrite length_app. lia.
    + rewrite Hc0, Hml. done.
    + rewrite Hc1, Hml. done.
Qed.

(** Only the first [len] bytes of the data count. *)
Lemma buf_copy_take buf j data n len : (n <= len)%nat ->
  buf_copy buf j (take len data) n = buf_copy buf j data n.
Proof. intros Hn. unfold buf_copy. by rewrite take_take, Nat.min_l. Qed.

Lemma update_loop_take fuel : forall st data i len,
  update_loop fuel st (take len data) i len = update_loop fuel st data i len.
Proof.
  induction fuel as [|fuel IH]; intros st data i len; cbn [update_loop]; [done|].
  destruct (Nat.ltb_spec (i + 63) len); [|done].
  rewrite skipn_firstn_comm, take_take, Nat.min_l by lia. apply IH.
Qed.

Lemma update_take ctx data len :
  SHA1Update ctx (take len data) len = SHA1Update ctx data len.
Proof.
  unfold SHA1Update. set (j := Z.to_nat _). cbn zeta.
  assert (Hr : forall buf k i, buf_copy buf k (drop i (take len data)) (len - i)
    = buf_copy buf k (drop i data) (len - i)).
  { intros buf k i. rewrite skipn_firstn_comm. by apply buf_copy_take. }
  destruct (Z.ltb_spec 63 (Z.of_nat j +u32 Z.of_nat len)) as [Hb|Hs].
  - destruct (Nat.eqb_spec j 0).
    + rewrite update_loop_take. destruct (update_loop _ _ _ _ _) as [st i]. by rewrite Hr.
    + rewrite buf_copy_take; [|unfold u32 in Hb; lia].
      rewrite update_loop_take. destruct (update_loop _ _ _ _ _) as [st i]. by rewrite Hr.
  - by rewrite Hr.
Qed.

Lemma finalcount_be ctx m : fed ctx m -> 8 * Z.of_nat (length m) < 18446744073709551616 ->
  finalcount ctx = be_bytes64 (8 * Z.of_nat (length m)).
Proof.
  intros F Hm. unfold finalcount, be_bytes64. rewrite (fd_len0 _ _ F), (fd_len1 _ _ F).
  cbn [map]. rewrite !Z.shiftr_div_pow2 by (vm_compute; congruence). unfold u8, u32.
  repeat match goal with |- context [2 ^ ?x] =>
    let v := eval vm_compute in (2 ^ x) in progress change (2 ^ x) with v end.
  repeat match goal with |- context [?x <=? ?y] =>
    let v := eval vm_compute in (x <=? y) in progress change (x <=? y) with v end.
  cbn [andb]. set (n := 8 * Z.of_nat (length m)) in *. clearbody n.
  repeat (apply (f_equal2 cons); [lia|]). reflexivity.
Qed.

Definition pad_zeros (m : list Z) : nat := Z.to_nat ((55 - Z.of_nat (length m)) mod 64).

Lemma pad_len_spec ctx m : fed ctx m ->
  Z.to_nat (u32 (1 + Z.land 63 (u32 (55 - Z.land (Z.shiftr (count0 ctx) 3) 63)))) = S (pad_zeros m).
Proof.
  intros F. rewrite (fd_len0 _ _ F). unfold pad_zeros.
  rewrite (Z.land_comm 63). change 63 with (Z.ones 6). rewrite !Z.land_ones, Z.shiftr_div_pow2 by lia.
  unfold u32. change (2 ^ 3) with 8. change (2 ^ 6) with 64. lia.
Qed.

(** The digest of a context that has been fed [m]. *)
Lemma final_fips ctx m : fed ctx m -> 8 * Z.of_nat (length m) < 18446744073709551616 ->
  SHA1Final ctx = fips_sha1 m.
Proof.
  intros F Hm. unfold SHA1Final. cbn zeta. rewrite (pad_len_spec ctx m F).
  rewrite (finalcount_be ctx m F Hm).
  assert (Hz : (pad_zeros m < 64)%nat) by (unfold pad_zeros; lia).
  set (p1 := 0x80 :: replicate (pad_zeros m) 0).
  assert (Hp1 : take (S (pad_zeros m)) sha1_padding = p1).
  { unfold sha1_padding, p1. cbn [take]. by rewrite take_replicate, Nat.min_l by lia. }
  rewrite <-(update_take ctx sha1_padding), Hp1.
  assert (Hl1 : length p1 = S (pad_zeros m)) by (unfold p1; cbn; by rewrite length_replicate).
  rewrite <-Hl1.
  assert (F1 : fed (SHA1Update ctx p1 (length p1)) (m ++ p1)).
  { apply update_fed; [done| |lia]. constructor; [unfold is_byte; lia|].
    apply Forall_replicate. unfold is_byte; lia. }
  set (fc := be_bytes64 (8 * Z.of_nat (length m))).
  assert (F2 : fed (SHA1Update (SHA1Update ctx p1 (length p1)) fc (length fc)) ((m ++ p1) ++ fc)).
  { apply update_fed; [done| |done]. unfold fc, be_bytes64.
    apply List.Forall_forall. intros x [k [<- _]]%in_map_iff. apply u8_range. }
  change (length fc) with 8%nat in F2.
  destruct (fd_split _ _ F2) as (q & full & rest & Hsp & Hfl & Hrl & Hst & _).
  assert (Hpad : (m ++ p1) ++ fc = fips_pad m).
  { unfold fips_pad, p1. rewrite <-!app_assoc. done. }
  rewrite Hpad in Hsp.
  assert (Hplen : exists k, length (fips_pad m) = (64 * k)%nat).
  { rewrite <-Hpad, !length_app, Hl1. change (length fc) with 8%nat. unfold pad_zeros.
    exists (Z.to_nat ((Z.of_nat (length m) + 1 + (55 - Z.of_nat (length m)) mod 64 + 8) / 64)). lia. }
  destruct Hplen as [k Hk].
  assert (Hrest : rest = []).
  { apply length_zero_iff_nil. rewrite Hsp, length_app in Hk. lia. }
  subst rest. rewrite app_nil_r in Hsp. subst full. unfold fips_sha1. cbn zeta.
  rewrite Hst, Hfl, (Nat.mul_comm 64 q), Nat.div_mul by lia. reflexivity.
Qed.

Lemma fold_fed stack addr : length stack = 64%nat -> Forall is_byte stack ->
  Forall (fun d => Forall is_byte d /\ Z.of_nat (length d) < 4294967232) addr ->
  fed (fold_left (fun ctx d => SHA1Update ctx d (length d)) addr (SHA1Init stack)) (concat addr).
Proof.
  intros Hl Hb Ha.
  assert (Hg : forall l ctx m, Forall (fun d => Forall is_byte d /\ Z.of_nat (length d) < 4294967232) l ->
    fed ctx m -> fed (fold_left (fun ctx d => SHA1Update ctx d (length d)) l ctx) (m ++ concat l)).
  { induction l as [|x l IH]; intros ctx m Hx F; cbn [fold_left concat]; [by rewrite app_nil_r|].
    apply Forall_cons in Hx as [[Hx1 Hx2] Hx]. rewrite app_assoc. apply IH; [done|].
    by apply update_fed. }
  apply (Hg addr (SHA1Init stack) []); [done|].
  split; [done| |done|done]. exists 0%nat, [], [].
  split_and!; (reflexivity || (cbn [length]; lia)).
Qed.

(** C37: SHA-1: for every list of data blocks, of any lengths, [sha1_vector]
    returns the FIPS 180 digest of their concatenation (up to the standard's
    length limit of 2^64 bits), whatever the context buffer held before. *)
Theorem sha1_vector_fips stack addr :
  length stack = 64%nat -> Forall is_byte stack ->
  Forall (fun d => Forall is_byte d /\ Z.of_nat (length d) < 4294967232) addr ->
  8 * Z.of_nat (length (concat addr)) < 18446744073709551616 ->
  sha1_vector stack addr = fips_sha1 (concat addr).
Proof.
  intros Hl Hb Ha Hlen. unfold sha1_vector. apply final_fips; [|done]. by apply fold_fed.
Qed.

Lemma sha1_vector_fips_witness :
  sha1_vector (replicate 64 7) [[0x61]; replicate 70 1; [0x62; 0x63]]
  = fips_sha1 ([0x61] ++ replicate 70 1 ++ [0x62; 0x63]).
Proof.
  apply (sha1_vector_fips (replicate 64 7) [[0x61]; replicate 70 1; [0x62; 0x63]]).
  - reflexivity.
  - apply Forall_replicate. unfold is_byte. lia.
  - apply Forall_cons; split; [split; [|cbn; lia]|].
    { repeat (apply Forall_cons; split; [unfold is_byte; lia|]). apply Forall_nil_2. }
    apply Forall_cons; split; [split; [apply Forall_replicate; unfold is_byte; lia|cbn; lia]|].
    apply Forall_cons; split; [split; [|cbn; lia]|apply Forall_nil_2].
    repeat (apply Forall_cons; split; [unfold is_byte; lia|]). apply Forall_nil_2.
  - cbn. lia.
Defined.
