(* ===== verification/Hmac.v ===== *)
(** * Hmac: HMAC-SHA1 and the 802.11i pseudo-random function of [ap/crypto/sha1.c]

    The pads are built in a 64-byte buffer a word at a time when the key is
    word-aligned and byte by byte otherwise; the pads live in a static buffer that
    a call without a key reuses.  [stack] is what an uninitialised SHA-1 context
    holds.  The elements are gathered in two six-entry arrays on the stack, which
    nothing bounds: [None] is the overrun. *)

From stdpp Require Import base list.
From Stdlib Require Import ZArith Lia.
From S2P Require Import Prelude Words Sha1.

Definition SHA1_MAC_LEN : nat := 20.

Definition zeros64 : list Z := replicate 64 0.

(** ** Operations *)

(** [k_pad_u32[i] = w] and [key_u32[i]] on a little-endian machine. *)
Definition put_word (k : list Z) (i : nat) (w : Z) : list Z :=
  <[(4 * i + 3)%nat := byte 3 w]> (<[(4 * i + 2)%nat := byte 2 w]>
    (<[(4 * i + 1)%nat := byte 1 w]> (<[(4 * i)%nat := byte 0 w]> k))).
Definition get_word (k : list Z) (i : nat) : Z :=
  word (nth (4 * i + 3) k 0) (nth (4 * i + 2) k 0) (nth (4 * i + 1) k 0) (nth (4 * i) k 0).

(** [for (i = word_cnt; i < 16; i++) k_pad_u32[i] = pattern;] *)
Fixpoint pad_words (n i : nat) (k : list Z) (pattern : Z) : list Z :=
  match n with O => k | S n' => pad_words n' (S i) (put_word k i pattern) pattern end.

(** [for (i = 0; i < word_cnt; i++) k_pad_u32[i] = pattern ^ key_u32[i];] *)
Fixpoint xor_words (n i : nat) (k key : list Z) (pattern : Z) : list Z :=
  match n with
  | O => k
  | S n' => xor_words n' (S i) (put_word k i (Z.lxor pattern (get_word key i))) key pattern
  end.

(** [for (; i < key_len; i++) k_pad[i] = key[i] ^ pattern_u8;] *)
Fixpoint xor_bytes (n i : nat) (k key : list Z) (p8 : Z) : list Z :=
  match n with
  | O => k
  | S n' => xor_bytes n' (S i) (<[i := Z.lxor (nth i key 0) p8]> k) key p8
  end.

(** [static void gen_k_pad(key, key_len, k_pad, pattern)]; [aligned] is
    [(u32)key % 4 == 0]. *)
Definition gen_k_pad (key : list Z) (key_len : nat) (k_pad : list Z) (pattern : Z) (aligned : bool)
  : list Z :=
  let word_cnt := (key_len / 4)%nat in
  let k := pad_words (16 - word_cnt) word_cnt k_pad pattern in
  let '(k, i) := if aligned then (xor_words word_cnt 0 k key pattern, (word_cnt * 4)%nat)
                 else (k, 0%nat) in
  xor_bytes (key_len - i) i k key (u8 pattern).

(** [int prepare_hmac_sha1_vector(key, key_len, k_pad[2])] *)
Definition prepare_hmac_sha1_vector (stack key : list Z) (k_pad : list Z * list Z)
  (aligned tk_aligned : bool) : list Z * list Z :=
  let '(key, al) := if Nat.ltb 64 (length key) then (sha1_vector stack [key], tk_aligned)
                    else (key, aligned) in
  (gen_k_pad key (length key) (fst k_pad) 0x36363636 al,
   gen_k_pad key (length key) (snd k_pad) 0x5c5c5c5c al).

(** [_addr[i] = p; _len[i] = n;] in the six-entry arrays on the stack: an entry is
    the bytes it points to, with its length; there is no entry 6. *)
Definition set_elem (_addr : list (list Z)) (i : nat) (p : list Z) : option (list (list Z)) :=
  if Nat.ltb i (length _addr) then Some (<[i := p]> _addr) else None.

(** [for (i = 0; i < num_elem; i++) { _addr[i + 1] = addr[i]; _len[i + 1] = len[i]; }] *)
Fixpoint fill_elems (_addr : list (list Z)) (i : nat) (addr : list (list Z)) : option (list (list Z)) :=
  match addr with
  | [] => Some _addr
  | p :: addr' => a ← set_elem _addr (i + 1) p; fill_elems a (S i) addr'
  end.

(** [int exec_hmac_sha1_vector(k_pad[2], num_elem, addr[], len[], mac)]: the mac, or
    [None] when the elements overrun [_addr[6]] and [_len[6]]. *)
Definition exec_hmac_sha1_vector (stack : list Z) (k_pad : list Z * list Z) (addr : list (list Z))
  : option (list Z) :=
  let _addr := replicate 6 [] in
  _addr ← set_elem _addr 0 (fst k_pad);
  _addr ← fill_elems _addr 0 addr;
  let mac := sha1_vector stack (take (1 + length addr) _addr) in
  _addr ← set_elem _addr 0 (snd k_pad);
  _addr ← set_elem _addr 1 mac;
  Some (sha1_vector stack (take 2 _addr)).

(** [int hmac_sha1_vector(key, key_len, num_elem, addr[], len[], mac)]: the static
    pads before and after, and the mac; no [key] is [NULL]. *)
Definition hmac_sha1_vector (stack : list Z) (k_pad : list Z * list Z) (key : option (list Z))
  (aligned tk_aligned : bool) (addr : list (list Z)) : option (list Z * (list Z * list Z)) :=
  let k_pad := match key with
               | Some k => prepare_hmac_sha1_vector stack k k_pad aligned tk_aligned
               | None => k_pad
               end in
  mac ← exec_hmac_sha1_vector stack k_pad addr; Some (mac, k_pad).

(** [int hmac_sha1(key, key_len, data, data_len, mac)] *)
Definition hmac_sha1 (stack : list Z) (k_pad : list Z * list Z) (key : list Z)
  (aligned tk_aligned : bool) (data : list Z) : option (list Z * (list Z * list Z)) :=
  hmac_sha1_vector stack k_pad (Some key) aligned tk_aligned [data].

(** The loop of [sha1_prf]: [fuel] bounds the rounds, [counter] is a [u8]. *)
Fixpoint prf_loop (fuel : nat) (stack : list Z) (k_pad : list Z * list Z) (key : list Z)
  (aligned tk_aligned : bool) (label data : list Z) (counter : Z) (pos buf_len : nat)
  : option (list Z) :=
  match fuel with
  | O => None
  | S fuel' =>
      if Nat.ltb pos buf_len then
        let plen := (buf_len - pos)%nat in
        '(hash, k_pad) ←
          hmac_sha1_vector stack k_pad (Some key) aligned tk_aligned [label; data; [counter]];
        if Nat.leb SHA1_MAC_LEN plen then
          rest ← prf_loop fuel' stack k_pad key aligned tk_aligned label data (u8 (counter + 1))
                   (pos + SHA1_MAC_LEN) buf_len;
          Some (hash ++ rest)
        else Some (take plen hash)
      else Some []
  end.

(** [int sha1_prf(key, key_len, label, data, data_len, buf, buf_len)]: the bytes of
    [buf]; [label] is the string without its terminating NUL, which is hashed too. *)
Definition sha1_prf (stack : list Z) (k_pad : list Z * list Z) (key : list Z)
  (aligned tk_aligned : bool) (label data : list Z) (buf_len : nat)
  : option (list Z) :=
  prf_loop (S buf_len) stack k_pad key aligned tk_aligned (label ++ [0]) data 0 0 buf_len.

(** RFC 2202, test case 2: key "Jefe". *)
Example hmac_sha1_rfc2202 :
  fst <$> (hmac_sha1 (replicate 64 0) (replicate 64 9, replicate 64 9) [0x4a; 0x65; 0x66; 0x65] true true
    [0x77; 0x68; 0x61; 0x74; 0x20; 0x64; 0x6f; 0x20; 0x79; 0x61; 0x20; 0x77; 0x61; 0x6e; 0x74; 0x20;
     0x66; 0x6f; 0x72; 0x20; 0x6e; 0x6f; 0x74; 0x68; 0x69; 0x6e; 0x67; 0x3f])
  = Some [0xef; 0xfc; 0xdf; 0x6a; 0xe5; 0xeb; 0x2f; 0xa2; 0xd2; 0x74; 0x16; 0xd5; 0xf1; 0x84; 0xdf; 0x9c;
     0x25; 0x9a; 0x7c; 0x79].
Proof. vm_compute. reflexivity. Qed.

(** ** RFC 2104 *)

Definition hmac_key (key : list Z) : list Z :=
  let k := if Nat.ltb 64 (length key) then fips_sha1 key else key in
  k ++ replicate (64 - length k) 0.

Definition rfc2104_hmac (key text : list Z) : list Z :=
  let k := hmac_key key in
  fips_sha1 (map (Z.lxor 0x5c) k ++ fips_sha1 (map (Z.lxor 0x36) k ++ text)).

(** ** The pads *)

Definition bytes64 (l : list Z) : Prop := length l = 64%nat /\ Forall is_byte l.

Lemma zeros64_ok : bytes64 zeros64.
Proof. split; [done|]. apply Forall_replicate. unfold is_byte. lia. Qed.

(** Every operation on the pad, seen at one position. *)
Lemma put_word_nth k i w p : length k = 64%nat -> (i < 16)%nat ->
  length (put_word k i w) = 64%nat /\
  nth p (put_word k i w) 0 =
    if Nat.eqb (p / 4) i then byte (Z.of_nat (p mod 4)) w else nth p k 0.
Proof.
  intros Hl Hi. unfold put_word. split; [by rewrite !length_insert|].
  pose proof (Nat.div_mod_eq p 4) as Hp. pose proof (Nat.mod_upper_bound p 4 ltac:(lia)) as Hm.
  revert Hp Hm. generalize (p mod 4)%nat (p / 4)%nat. intros r j -> Hm.
  destruct (Nat.eqb_spec j i) as [->|Hne]; [|by rewrite !nth_insert_ne by lia].
  assert (Hin : In r (seq 0 4)) by (apply in_seq; lia). cbn in Hin.
  destruct Hin as [<-|[<-|[<-|[<-|[]]]]].
  - do 3 rewrite nth_insert_ne by lia. rewrite Nat.add_0_r. apply nth_insert_eq. lia.
  - do 2 rewrite nth_insert_ne by lia. apply nth_insert_eq. rewrite length_insert. lia.
  - rewrite nth_insert_ne by lia. apply nth_insert_eq. rewrite !length_insert. lia.
  - apply nth_insert_eq. rewrite !length_insert. lia.
Qed.

Lemma pad_words_nth n : forall i k w p, length k = 64%nat -> (i + n <= 16)%nat ->
  length (pad_words n i k w) = 64%nat /\
  nth p (pad_words n i k w) 0 =
    if Nat.leb i (p / 4) && Nat.ltb (p / 4) (i + n) then byte (Z.of_nat (p mod 4)) w else nth p k 0.
Proof.
  induction n as [|n IH]; intros i k w p Hl Hi; cbn [pad_words].
  - split; [done|]. destruct (Nat.leb_spec i (p / 4)), (Nat.ltb_spec (p / 4) (i + 0)); done || lia.
  - destruct (put_word_nth k i w p Hl ltac:(lia)) as [L1 N1].
    destruct (IH (S i) (put_word k i w) w p L1 ltac:(lia)) as [L2 N2]. split; [done|].
    rewrite N2, N1. destruct (Nat.eqb_spec (p / 4) i), (Nat.leb_spec (S i) (p / 4)),
      (Nat.ltb_spec (p / 4) (S i + n)), (Nat.leb_spec i (p / 4)), (Nat.ltb_spec (p / 4) (i + S n));
      cbn [andb]; try done; lia.
Qed.

Lemma get_word_byte key i k : Forall is_byte key -> (k < 4)%nat ->
  byte (Z.of_nat k) (get_word key i) = nth (4 * i + k) key 0.
Proof.
  intros Hb Hk. unfold get_word.
  assert (Hin : In k (seq 0 4)) by (apply in_seq; lia). cbn in Hin.
  destruct Hin as [<-|[<-|[<-|[<-|[]]]]];
    rewrite byte_word by ((by apply nth_byte) || (cbn; tauto)); cbn; by rewrite ?Nat.add_0_r.
Qed.

Lemma xor_words_nth n : forall i k key w p, Forall is_byte key -> length k = 64%nat -> (i + n <= 16)%nat ->
  length (xor_words n i k key w) = 64%nat /\
  nth p (xor_words n i k key w) 0 =
    if Nat.leb i (p / 4) && Nat.ltb (p / 4) (i + n)
    then Z.lxor (byte (Z.of_nat (p mod 4)) w) (nth p key 0) else nth p k 0.
Proof.
  induction n as [|n IH]; intros i k key w p Hb Hl Hi; cbn [xor_words].
  - split; [done|]. destruct (Nat.leb_spec i (p / 4)), (Nat.ltb_spec (p / 4) (i + 0)); done || lia.
  - destruct (put_word_nth k i (Z.lxor w (get_word key i)) p Hl ltac:(lia)) as [L1 N1].
    destruct (IH (S i) _ key w p Hb L1 ltac:(lia)) as [L2 N2]. split; [done|].
    rewrite N2, N1.
    assert (Hg : (p / 4)%nat = i -> byte (Z.of_nat (p mod 4)) (Z.lxor w (get_word key i))
      = Z.lxor (byte (Z.of_nat (p mod 4)) w) (nth p key 0)).
    { intros <-. rewrite byte_lxor, get_word_byte by (done || (apply Nat.mod_upper_bound; lia)).
      by rewrite <-(Nat.div_mod_eq p 4). }
    destruct (Nat.eqb_spec (p / 4) i), (Nat.leb_spec (S i) (p / 4)),
      (Nat.ltb_spec (p / 4) (S i + n)), (Nat.leb_spec i (p / 4)), (Nat.ltb_spec (p / 4) (i + S n));
      cbn [andb]; try done; lia || by apply Hg.
Qed.

Lemma xor_bytes_nth n : forall i k key p8 p, length k = 64%nat -> (i + n <= 64)%nat ->
  length (xor_bytes n i k key p8) = 64%nat /\
  nth p (xor_bytes n i k key p8) 0 =
    if Nat.leb i p && Nat.ltb p (i + n) then Z.lxor (nth p key 0) p8 else nth p k 0.
Proof.
  induction n as [|n IH]; intros i k key p8 p Hl Hi; cbn [xor_bytes].
  - split; [done|]. destruct (Nat.leb_spec i p), (Nat.ltb_spec p (i + 0)); done || lia.
  - destruct (IH (S i) (<[i := Z.lxor (nth i key 0) p8]> k) key p8 p) as [L2 N2];
      [by rewrite length_insert|lia|]. split; [done|]. rewrite N2.
    destruct (decide (i = p)) as [->|Hne].
    + rewrite nth_insert_eq by lia.
      destruct (Nat.leb_spec (S p) p), (Nat.leb_spec p p), (Nat.ltb_spec p (p + S n)); cbn [andb]; done || lia.
    + rewrite nth_insert_ne by done.
      destruct (Nat.leb_spec (S i) p), (Nat.ltb_spec p (S i + n)), (Nat.leb_spec i p),
        (Nat.ltb_spec p (i + S n)); cbn [andb]; done || lia.
Qed.

Lemma gen_k_pad_spec key k0 pattern p8 al :
  Forall is_byte key -> (length key <= 64)%nat -> length k0 = 64%nat ->
  u8 pattern = p8 -> (forall k, (k < 4)%nat -> byte (Z.of_nat k) pattern = p8) ->
  gen_k_pad key (length key) k0 pattern al = map (Z.lxor p8) (key ++ replicate (64 - length key) 0).
Proof.
  intros Hb Hlen Hk0 H8 Hp. set (wc := (length key / 4)%nat).
  assert (Hwc : (4 * wc <= length key < 4 * wc + 4)%nat).
  { unfold wc. pose proof (Nat.div_mod_eq (length key) 4).
    pose proof (Nat.mod_upper_bound (length key) 4). lia. }
  assert (Hbyte : forall p, byte (Z.of_nat (p mod 4)) pattern = p8)
    by (intros p; apply Hp, Nat.mod_upper_bound; lia).
  assert (Hn : forall p, (p < 64)%nat -> length (gen_k_pad key (length key) k0 pattern al) = 64%nat /\
    nth p (gen_k_pad key (length key) k0 pattern al) 0 = Z.lxor p8 (nth p key 0)).
  { intros p Hp64. unfold gen_k_pad. fold wc.
    destruct (pad_words_nth (16 - wc) wc k0 pattern p Hk0 ltac:(lia)) as [L1 N1].
    pose proof (Nat.div_mod_eq p 4) as Hdm. pose proof (Nat.mod_upper_bound p 4 ltac:(lia)) as Hmm.
    assert (Hover : (length key <= p)%nat -> nth p key 0 = 0) by (intros; by apply nth_overflow).
    rewrite Hbyte in N1. destruct al.
    - destruct (xor_words_nth wc 0 _ key pattern p Hb L1 ltac:(lia)) as [L2 N2]. rewrite Hbyte in N2.
      destruct (xor_bytes_nth (length key - wc * 4) (wc * 4) _ key (u8 pattern) p L2 ltac:(lia)) as [L3 N3].
      split; [exact L3|]. rewrite N3, N2, N1, H8, (Z.lxor_comm (nth p key 0)).
      destruct (Nat.leb_spec (wc * 4) p), (Nat.ltb_spec p (wc * 4 + (length key - wc * 4))),
        (Nat.leb_spec 0 (p / 4)), (Nat.ltb_spec (p / 4) (0 + wc)), (Nat.leb_spec wc (p / 4)),
        (Nat.ltb_spec (p / 4) (wc + (16 - wc))); cbn [andb]; try done; try lia;
        by rewrite Hover, Z.lxor_0_r by lia.
    - destruct (xor_bytes_nth (length key - 0) 0 _ key (u8 pattern) p L1 ltac:(lia)) as [L3 N3].
      split; [exact L3|]. rewrite N3, N1, H8, (Z.lxor_comm (nth p key 0)).
      destruct (Nat.leb_spec 0 p), (Nat.ltb_spec p (0 + (length key - 0))), (Nat.leb_spec wc (p / 4)),
        (Nat.ltb_spec (p / 4) (wc + (16 - wc))); cbn [andb]; try done; try lia;
        by rewrite Hover, Z.lxor_0_r by lia. }
  assert (Hl : length (gen_k_pad key (length key) k0 pattern al) = 64%nat) by (apply (Hn 0%nat); lia).
  apply (nth_ext _ _ 0 0).
  - rewrite Hl, length_map, length_app, length_replicate. lia.
  - intros p Hpl. rewrite Hl in Hpl. rewrite (proj2 (Hn p Hpl)).
    rewrite (nth_indep (map (Z.lxor p8) _) 0 (Z.lxor p8 0)) by (rewrite length_map, length_app, length_replicate; lia).
    rewrite map_nth. f_equal. destruct (Nat.ltb_spec p (length key)).
    + by rewrite app_nth1.
    + rewrite nth_overflow, app_nth2 by lia.
      destruct (nth_in_or_default (p - length key) (replicate (64 - length key) 0) 0) as [Hi| ->]; [|done].
      apply list_elem_of_In, elem_of_replicate in Hi as [Hi _]. by rewrite Hi.
Qed.

Lemma out_words_length l : length (concat (map out_word l)) = (4 * length l)%nat.
Proof. induction l as [|x l IH]; [done|]. cbn. rewrite IH. lia. Qed.

Lemma fips_sha1_bytes m : length (fips_sha1 m) = 20%nat /\ Forall is_byte (fips_sha1 m).
Proof.
  unfold fips_sha1. split.
  - rewrite out_words_length, absorb_length; done.
  - apply List.Forall_forall. intros x [l [Hl Hx]]%in_concat. apply in_map_iff in Hl as (w & <- & _).
    cbn in Hx. destruct Hx as [<-|[<-|[<-|[<-|[]]]]]; apply u8_range.
Qed.

(** ** HMAC *)

Lemma pad_bytes p8 k : is_byte p8 -> Forall is_byte k -> Forall is_byte (map (Z.lxor p8) k).
Proof.
  intros Hp Hk. apply List.Forall_forall. intros x [y [<- Hy]]%in_map_iff.
  apply lxor_byte; [done|]. rewrite List.Forall_forall in Hk. by apply Hk.
Qed.

Lemma hmac_key_ok key : Forall is_byte key -> length (hmac_key key) = 64%nat /\ Forall is_byte (hmac_key key).
Proof.
  intros Hb. unfold hmac_key. set (k := if Nat.ltb 64 (length key) then fips_sha1 key else key).
  assert (Hk : (length k <= 64)%nat /\ Forall is_byte k).
  { unfold k. destruct (Nat.ltb_spec 64 (length key)); [|done].
    destruct (fips_sha1_bytes key) as [-> ?]. split; [lia|done]. }
  destruct Hk as [Hk1 Hk2]. split; [rewrite length_app, length_replicate; lia|].
  apply Forall_app. split; [done|]. apply Forall_replicate. unfold is_byte; lia.
Qed.

Section hmac.
Context (stack : list Z) (Hstack : bytes64 stack).

(** A message the SHA-1 code can take in pieces of [addr]. *)
Definition hashable (addr : list (list Z)) : Prop :=
  Forall (fun d => Forall is_byte d /\ Z.of_nat (length d) < 4294967232) addr /\
  8 * Z.of_nat (length (concat addr)) < 18446744073709551616 - 512.

Lemma sha1_of addr : Forall (fun d => Forall is_byte d /\ Z.of_nat (length d) < 4294967232) addr ->
  8 * Z.of_nat (length (concat addr)) < 18446744073709551616 ->
  sha1_vector stack addr = fips_sha1 (concat addr).
Proof.
  intros Ha Hl. destruct Hstack as [S1 S2]. unfold sha1_vector. apply final_fips; [|done].
  by apply fold_fed.
Qed.

Lemma prepare_spec key kp al tal :
  Forall is_byte key -> Z.of_nat (length key) < 4294967232 ->
  length (fst kp) = 64%nat -> length (snd kp) = 64%nat ->
  prepare_hmac_sha1_vector stack key kp al tal
  = (map (Z.lxor 0x36) (hmac_key key), map (Z.lxor 0x5c) (hmac_key key)).
Proof.
  intros Hb Hl K1 K2. unfold prepare_hmac_sha1_vector, hmac_key.
  assert (Hin : forall k, (k < 4)%nat -> In k [0; 1; 2; 3]%nat) by (intros k Hk; cbn; lia).
  destruct (Nat.ltb_spec 64 (length key)) as [Hbig|Hsmall].
  - rewrite sha1_of; [|by repeat constructor|cbn; rewrite app_nil_r; lia].
    cbn [concat]. rewrite app_nil_r. destruct (fips_sha1_bytes key) as [F1 F2].
    rewrite !(gen_k_pad_spec _ _ _ (u8 _)) by (done || lia || (intros k Hk;
      destruct (Hin k Hk) as [<-|[<-|[<-|[<-|[]]]]]; reflexivity)). done.
  - rewrite !(gen_k_pad_spec _ _ _ (u8 _)) by (done || lia || (intros k Hk;
      destruct (Hin k Hk) as [<-|[<-|[<-|[<-|[]]]]]; reflexivity)). done.
Qed.

(** The arrays hold the pad and the elements, as long as they fit. *)
Lemma exec_value kp addr :
  exec_hmac_sha1_vector stack kp addr =
    if Nat.leb (length addr) 5
    then Some (sha1_vector stack [snd kp; sha1_vector stack (fst kp :: addr)]) else None.
Proof. by destruct addr as [|?[|?[|?[|?[|?[|?]]]]]]. Qed.

Lemma exec_spec key addr : Forall is_byte key -> hashable addr -> (length addr <= 5)%nat ->
  exec_hmac_sha1_vector stack (map (Z.lxor 0x36) (hmac_key key), map (Z.lxor 0x5c) (hmac_key key)) addr
  = Some (rfc2104_hmac key (concat addr)).
Proof.
  intros Hb [Ha Hl] Hn. rewrite exec_value, (proj2 (Nat.leb_le _ _) Hn). f_equal. destruct (hmac_key_ok key Hb) as [K1 K2].
  assert (H36 : is_byte 0x36) by (unfold is_byte; lia).
  assert (H5c : is_byte 0x5c) by (unfold is_byte; lia).
  unfold rfc2104_hmac. cbn [fst snd].
  rewrite (sha1_of (_ :: addr)); [|constructor; [split; [by apply pad_bytes|rewrite length_map; lia]|done]|].
  2: { cbn [concat]. rewrite length_app, length_map. lia. }
  cbn [concat]. set (inner := fips_sha1 _). destruct (fips_sha1_bytes
    (map (Z.lxor 54) (hmac_key key) ++ concat addr)) as [I1 I2]. fold inner in I1, I2.
  rewrite sha1_of.
  - cbn [concat]. by rewrite app_nil_r.
  - constructor; [split; [by apply pad_bytes|rewrite length_map; lia]|].
    constructor; [split; [done|lia]|constructor].
  - cbn [concat]. rewrite app_nil_r, length_app, length_map. lia.
Qed.

(** What the caller of [exec_hmac_sha1_vector] gets: nothing beyond five elements,
    the HMAC otherwise. *)
Lemma exec_fault (kp : list Z * list Z) addr :
  (mac ← exec_hmac_sha1_vector stack kp addr; Some (mac, kp)) = None <-> (5 < length addr)%nat.
Proof. rewrite exec_value. destruct (Nat.leb_spec (length addr) 5); split; done || lia. Qed.

Lemma exec_mac key addr mac kp' : Forall is_byte key -> hashable addr ->
  let kp := (map (Z.lxor 0x36) (hmac_key key), map (Z.lxor 0x5c) (hmac_key key)) in
  (mac ← exec_hmac_sha1_vector stack kp addr; Some (mac, kp)) = Some (mac, kp') ->
  mac = rfc2104_hmac key (concat addr) /\ kp' = kp.
Proof.
  intros Hb Ha kp. destruct (Nat.leb_spec (length addr) 5) as [Hle|Hgt].
  - unfold kp. rewrite exec_spec by done. cbn. intros [=]; by subst.
  - apply (exec_fault kp) in Hgt. by rewrite Hgt.
Qed.
End hmac.

(** [hmac_sha1] on one piece of data. *)
Lemma hmac_sha1_value stack kp key al tal data :
  bytes64 stack -> length (fst kp) = 64%nat -> length (snd kp) = 64%nat ->
  Forall is_byte key -> Z.of_nat (length key) < 4294967232 ->
  Forall is_byte data -> Z.of_nat (length data) < 4294967232 ->
  fst <$> hmac_sha1 stack kp key al tal data = Some (rfc2104_hmac key data).
Proof.
  intros Hs K1 K2 Hk Hkl Hd Hdl. unfold hmac_sha1, hmac_sha1_vector.
  rewrite (prepare_spec stack Hs) by done. rewrite (exec_spec stack Hs); [cbn; by rewrite app_nil_r|done| |cbn; lia].
  split; [by repeat constructor|cbn; rewrite app_nil_r; lia].
Qed.

(** C38: HMAC-SHA1: [hmac_sha1_vector] with a key computes the RFC 2104 HMAC of the
    concatenated data when there are at most five elements, for keys of any length
    and alignment and whatever the static pads held, and overruns its six-entry
    arrays exactly when there are more; a following call without a key does the
    same with the same key.  Keys and elements are byte strings within the range
    of the length fields of SHA-1. *)
Theorem hmac_sha1_vector_rfc2104 stack kp key al tal addr addr2 :
  bytes64 stack -> length (fst kp) = 64%nat -> length (snd kp) = 64%nat ->
  Forall is_byte key -> Z.of_nat (length key) < 4294967232 -> hashable addr -> hashable addr2 ->
  (hmac_sha1_vector stack kp (Some key) al tal addr = None <-> (5 < length addr)%nat) /\
  forall mac kp', hmac_sha1_vector stack kp (Some key) al tal addr = Some (mac, kp') ->
    mac = rfc2104_hmac key (concat addr) /\
    (hmac_sha1_vector stack kp' None al tal addr2 = None <-> (5 < length addr2)%nat) /\
    forall mac2 kp2, hmac_sha1_vector stack kp' None al tal addr2 = Some (mac2, kp2) ->
      mac2 = rfc2104_hmac key (concat addr2) /\ kp2 = kp'.
Proof.
  intros Hs K1 K2 Hk Hkl Ha Ha2. unfold hmac_sha1_vector.
  rewrite (prepare_spec stack Hs) by done. cbn [fst].
  split; [by apply exec_fault|].
  intros mac kp' [-> ->]%exec_mac; [|done..]. split_and!; [done|by apply exec_fault|].
  by intros mac2 kp2 [-> ->]%exec_mac.
Qed.

Lemma hmac_demo_ok (l : list (list Z)) :
  Forall (Forall is_byte) l -> Z.of_nat (length (concat l)) < 4294967232 -> hashable l.
Proof.
  intros Hb Hl. split; [|lia]. revert Hl. induction Hb as [|x l Hx Hb IH]; intros Hl; [constructor|].
  cbn [concat] in Hl. rewrite length_app in Hl. constructor; [split; [done|lia]|apply IH; lia].
Qed.

Lemma hmac_sha1_vector_rfc2104_witness :
  exists mac kp', hmac_sha1_vector (replicate 64 0) (replicate 64 1, replicate 64 2)
    (Some [1; 2; 3; 4; 5]) true true [[10; 11]; [12]] = Some (mac, kp') /\
  mac = rfc2104_hmac [1; 2; 3; 4; 5] [10; 11; 12].
Proof.
  eexists _, _. split; [vm_compute; reflexivity|].
  refine (proj1 (proj2 (hmac_sha1_vector_rfc2104 (replicate 64 0) (replicate 64 1, replicate 64 2)
    [1; 2; 3; 4; 5] true true [[10; 11]; [12]] [] _ _ _ _ _ _ _) _ _ _)).
  - split; [reflexivity|]. apply Forall_replicate. unfold is_byte. lia.
  - reflexivity.
  - reflexivity.
  - repeat (apply Forall_cons; split; [unfold is_byte; lia|]). apply Forall_nil_2.
  - cbn. lia.
  - apply hmac_demo_ok; [|cbn; lia].
    repeat (apply Forall_cons; split; [repeat (apply Forall_cons; split; [unfold is_byte; lia|]);
      apply Forall_nil_2|]). apply Forall_nil_2.
  - apply hmac_demo_ok; [apply Forall_nil_2|cbn; lia].
  - vm_compute. reflexivity.
Defined.

(** Six elements are one too many. *)
Example six_elements_overrun :
  hmac_sha1_vector zeros64 (zeros64, zeros64) (Some [1]) true true (replicate 6 [7]) = None.
Proof. vm_compute. reflexivity. Qed.

(** ** The pseudo-random function *)

Lemma rfc2104_length key text : length (rfc2104_hmac key text) = 20%nat.
Proof. apply fips_sha1_bytes. Qed.

Section prf.
Context (stack key label data : list Z) (al tal : bool).
Context (Hstack : bytes64 stack) (Hkey : Forall is_byte key) (Hkl : Z.of_nat (length key) < 4294967232).
Context (Hd : forall c, is_byte c -> hashable [label; data; [c]]).

(** Block [i] of the function. *)
Definition prf_block (i : nat) : list Z := rfc2104_hmac key (label ++ data ++ [u8 (Z.of_nat i)]).

Lemma prf_step kp i : length (fst kp) = 64%nat -> length (snd kp) = 64%nat ->
  exists kp',
  hmac_sha1_vector stack kp (Some key) al tal [label; data; [u8 (Z.of_nat i)]]
    = Some (prf_block i, kp') /\ length (fst kp') = 64%nat /\ length (snd kp') = 64%nat.
Proof.
  intros K1 K2. unfold hmac_sha1_vector. rewrite (prepare_spec stack Hstack) by done.
  destruct (hmac_key_ok key Hkey) as [L _]. eexists. split.
  - rewrite (exec_spec stack Hstack) by (done || (apply Hd; apply u8_range) || (cbn; lia)). done.
  - cbn [fst snd]. by rewrite !length_map.
Qed.

Lemma prf_loop_spec fuel : forall kp i pos buf_len n,
  length (fst kp) = 64%nat -> length (snd kp) = 64%nat ->
  (buf_len - pos < fuel)%nat -> (buf_len - pos <= 20 * n)%nat ->
  prf_loop fuel stack kp key al tal label data (u8 (Z.of_nat i)) pos buf_len
  = Some (take (buf_len - pos) (concat (map prf_block (seq i n)))).
Proof.
  induction fuel as [|fuel IH]; intros kp i pos buf_len n K1 K2 Hf Hn; [lia|]. cbn [prf_loop].
  destruct (Nat.ltb_spec pos buf_len) as [Hlt|Hge].
  2: { replace (buf_len - pos)%nat with 0%nat by lia. done. }
  destruct (prf_step kp i K1 K2) as (kp' & -> & K1' & K2'). cbn [mbind option_bind].
  destruct n as [|n]; [lia|]. cbn [seq map concat].
  pose proof (rfc2104_length key (label ++ data ++ [u8 (Z.of_nat i)])) as HL.
  fold (prf_block i) in HL. unfold SHA1_MAC_LEN.
  destruct (Nat.leb_spec 20 (buf_len - pos)) as [Hfull|Hpart].
  - replace (u8 (u8 (Z.of_nat i) + 1)) with (u8 (Z.of_nat (S i))) by (unfold u8; lia).
    rewrite (IH kp' (S i) (pos + 20)%nat buf_len n) by (done || lia).
    cbn [mbind option_bind]. rewrite take_app_ge by lia. rewrite HL. do 3 f_equal. lia.
  - rewrite take_app_le by lia. done.
Qed.
End prf.

(** The value of [sha1_prf]. *)
Lemma sha1_prf_value stack kp key al tal label data buf_len :
  bytes64 stack -> length (fst kp) = 64%nat -> length (snd kp) = 64%nat ->
  Forall is_byte key -> Z.of_nat (length key) < 4294967232 ->
  Forall is_byte label -> Forall is_byte data ->
  Z.of_nat (length label + length data) < 4294967000 ->
  sha1_prf stack kp key al tal label data buf_len
  = Some (take buf_len (concat (map (prf_block key (label ++ [0]) data) (seq 0 (S (buf_len / 20)))))).
Proof.
  intros Hs K1 K2 Hk Hkl Hlb Hdb Hlen. unfold sha1_prf.
  assert (Hh : forall c, is_byte c -> hashable [label ++ [0]; data; [c]]).
  { intros c Hc. apply hmac_demo_ok; [|cbn; rewrite !length_app; cbn; lia].
    apply Forall_cons; split; [apply Forall_app; split; [done|]|].
    - apply Forall_cons; split; [unfold is_byte; lia|apply Forall_nil_2].
    - apply Forall_cons; split; [done|]. apply Forall_cons; split; [|apply Forall_nil_2].
      apply Forall_cons; split; [done|apply Forall_nil_2]. }
  change 0 with (u8 (Z.of_nat 0)) at 3.
  rewrite (prf_loop_spec stack key (label ++ [0]) data al tal Hs Hk Hkl Hh _ kp 0 0 buf_len
    (S (buf_len / 20))) by (done || lia || (rewrite Nat.sub_0_r;
    pose proof (Nat.div_mod_eq buf_len 20); pose proof (Nat.mod_upper_bound buf_len 20); lia)).
  by rewrite Nat.sub_0_r.
Qed.

(** the 802.11i PRF: [sha1_prf] fills the buffer with the first [buf_len] bytes
    of HMAC(key, label | 0 | data | i) for i = 0, 1, 2, ...; the loop ends. *)
Theorem sha1_prf_spec stack kp key al tal label data buf_len :
  bytes64 stack -> length (fst kp) = 64%nat -> length (snd kp) = 64%nat ->
  Forall is_byte key -> Z.of_nat (length key) < 4294967232 ->
  Forall is_byte label -> Forall is_byte data ->
  Z.of_nat (length label + length data) < 4294967000 ->
  sha1_prf stack kp key al tal label data buf_len
  = Some (take buf_len (concat (map (prf_block key (label ++ [0]) data) (seq 0 (S (buf_len / 20)))))).
Proof. apply sha1_prf_value. Qed.

Lemma sha1_prf_spec_witness :
  sha1_prf (replicate 64 0) (replicate 64 1, replicate 64 2) [1; 2; 3] true true [80; 82] [7; 8] 48
  = Some (take 48 (concat (map (prf_block [1; 2; 3] [80; 82; 0] [7; 8]) [0; 1; 2]%nat))).
Proof.
  apply (sha1_prf_spec (replicate 64 0) (replicate 64 1, replicate 64 2) [1; 2; 3] true true [80; 82]
    [7; 8] 48); try reflexivity; try (cbn; lia);
    try (repeat (apply Forall_cons; split; [unfold is_byte; lia|]); apply Forall_nil_2).
  split; [reflexivity|]. apply Forall_replicate. unfold is_byte. lia.
Defined.
