(* ===== verification/WpaAuth.v ===== *)
(** * WpaAuth: the WPA2 authenticator of [ap/wpa_auth.c]

    The 4-way handshake of the access point with one station: the state machine
    [WPA_PTK] with its entry functions, [wpa_sm_step], the frames that are sent
    ([__wpa_send_eapol]) and received ([wpa_receive]), timeouts, events and the
    removal of the station.

    The state of the handshake is [struct wpa_state_machine] with the parts of
    the authenticator it uses.  What the authenticator does to the outside is a
    list of effects, newest last: frames, keys given to the hardware, the
    station authorised or deauthenticated.  [None] is a memory fault.  The MAC,
    the key derivation and the key wrap come through the interface [KeyCrypto],
    which the components of [ap/crypto] implement. *)

From stdpp Require Import base list option.
From Stdlib Require Import ZArith Lia.
From S2P Require Import Prelude HciAggr Words Wire Ie80211 WpaIe Rc4.

(** ** What the authenticator uses of [ap/crypto] *)

Class KeyCrypto := {
  (** [hmac_sha1(key, 16, data, len, hash)] *)
  kc_hmac : list Z -> list Z -> list Z;
  (** [sha1_prf(key, key_len, label, data, data_len, buf, buf_len)] *)
  kc_prf : list Z -> list Z -> list Z -> nat -> list Z;
  (** [aes_wrap(kek, n, plain, cipher)]; [None] for a failed allocation *)
  kc_wrap : list Z -> list Z -> bool -> option (list Z);
  (** [aes_unwrap], the station's side *)
  kc_unwrap : list Z -> list Z -> option (list Z);
  kc_hmac_bytes : forall k d, Forall is_byte k -> Forall is_byte d -> Z.of_nat (length d) < 2 ^ 16 ->
    length k = 16%nat -> length (kc_hmac k d) = 20%nat /\ Forall is_byte (kc_hmac k d);
  kc_prf_bytes : forall k l d n, Forall is_byte k -> Forall is_byte l -> Forall is_byte d ->
    (length k <= 64)%nat -> (length l + length d <= 1024)%nat ->
    length (kc_prf k l d n) = n /\ Forall is_byte (kc_prf k l d n);
  kc_wrap_unwrap : forall kek p c, Forall is_byte kek -> Forall is_byte p ->
    (exists n, length p = 8 * n)%nat -> kc_wrap kek p true = Some c ->
    length c = (length p + 8)%nat /\ Forall is_byte c /\ kc_unwrap kek c = Some p;
  kc_wrap_alloc : forall kek p, is_Some (kc_wrap kek p true) /\ kc_wrap kek p false = None
}.

(** ** Data *)

Inductive ptk_state :=
| WPA_PTK_INITIALIZE | WPA_PTK_DISCONNECT | WPA_PTK_DISCONNECTED | WPA_PTK_AUTHENTICATION
| WPA_PTK_AUTHENTICATION2 | WPA_PTK_INITPMK | WPA_PTK_INITPSK | WPA_PTK_PTKSTART
| WPA_PTK_PTKCALCNEGOTIATING | WPA_PTK_PTKCALCNEGOTIATING2 | WPA_PTK_PTKINITNEGOTIATING
| WPA_PTK_PTKINITDONE.

#[export] Instance ptk_state_eq_dec : EqDecision ptk_state.
Proof. solve_decision. Defined.

(** [struct wpa_state_machine].  [PTK] are the 48 bytes of [struct wpa_ptk],
    [last_rx_eapol_key] the allocated copy with its length; the fields that the
    association sets are [assoc]. *)
Record wpa_state_machine := mk_sm {
  addr : list Z;
  wpa_ptk_state : ptk_state;
  Init : bool;
  DeauthenticationRequest : bool;
  AuthenticationRequest : bool;
  ReAuthenticationRequest : bool;
  Disconnect : bool;
  TimeoutCtr : Z;
  TimeoutEvt : bool;
  EAPOLKeyReceived : bool;
  EAPOLKeyPairwise : bool;
  EAPOLKeyRequest : bool;
  MICVerified : bool;
  ANonce : list Z;
  SNonce : list Z;
  PMK : list Z;
  PTK : list Z;
  PTK_valid : bool;
  pairwise_set : bool;
  keycount : Z;
  Pair : bool;
  key_replay : list (list Z * bool);
  PTKRequest : bool;
  last_rx_eapol_key : option (list Z);
  changed : bool;
  in_step_loop : bool;
  pending_deinit : bool;
  started : bool;
  rx_eapol_key_secure : bool;
  req_replay_counter : list Z;
  req_replay_counter_used : bool;
  assoc : wpa_sta;
  tkip_mic_failures : Z;
  pending_1_of_4_timeout : bool
}.

#[export] Instance eta_wpa_state_machine : Eta wpa_state_machine := fun s =>
  mk_sm (addr s) (wpa_ptk_state s) (Init s) (DeauthenticationRequest s) (AuthenticationRequest s)
    (ReAuthenticationRequest s) (Disconnect s) (TimeoutCtr s) (TimeoutEvt s) (EAPOLKeyReceived s)
    (EAPOLKeyPairwise s) (EAPOLKeyRequest s) (MICVerified s) (ANonce s) (SNonce s) (PMK s) (PTK s)
    (PTK_valid s) (pairwise_set s) (keycount s) (Pair s) (key_replay s) (PTKRequest s)
    (last_rx_eapol_key s) (changed s) (in_step_loop s) (pending_deinit s) (started s)
    (rx_eapol_key_secure s) (req_replay_counter s) (req_replay_counter_used s) (assoc s)
    (tkip_mic_failures s) (pending_1_of_4_timeout s).

(** The state machine after [MEMSET(sm, 0, sizeof *sm)]. *)
Definition sm_zero : wpa_state_machine :=
  mk_sm (replicate 6 0) WPA_PTK_INITIALIZE false false false false false 0 false false false false false
    (replicate 32 0) (replicate 32 0) (replicate 32 0) (replicate 48 0) false false 0 false
    (replicate 4 (replicate 8 0, false)) false None false false false false false (replicate 8 0) false
    (mk_sta WPA_VERSION_NO_WPA 0 0 None 0) 0 false.

Inductive wpa_alg := WPA_ALG_NONE | WPA_ALG_WEP | WPA_ALG_TKIP | WPA_ALG_CCMP | WPA_ALG_IGTK | WPA_ALG_PMK.

(** What the authenticator does to the outside. *)
Inductive effect :=
| SendEapol (frame : list Z) (encrypt : bool)          (* wpa_auth_send_eapol *)
| SetKey (alg : wpa_alg) (idx : Z) (key : list Z)      (* wpa_auth_set_key for the station *)
| Authorize                                            (* ap_sta_set_authorized(.., 1) *)
| Deauthenticate.                                      (* wpa_sta_disconnect *)

(** The state machine, [sm->group->Counter], the statistics of the
    authenticator, whether the station table has the station, the pending
    [wpa_send_eapol_timeout] timers of this station, the number of allocations
    so far and the effects. *)
Record auth_state := mk_auth {
  sm : wpa_state_machine;
  Counter : list Z;
  handshake_failures : Z;
  mic_failures : Z;
  sta_valid : bool;
  timers : list Z;
  nalloc : nat;
  out : list effect
}.

#[export] Instance eta_auth_state : Eta auth_state := fun s =>
  mk_auth (sm s) (Counter s) (handshake_failures s) (mic_failures s) (sta_valid s) (timers s)
    (nalloc s) (out s).

(** What does not change during the handshake: the addresses and keys of the
    access point, the policy, the group key [GTK[GN - 1]] of [GTK_len] bytes,
    the announced elements.  [allocs n] tells whether the [n]-th [MALLOC]
    succeeds.  [stray_cancel] tells whether the call of [os_cancel_timer] in
    [wpa_send_eapol], whose last argument is missing, happens to name this
    station. *)
Record wpa_cfg := mk_cfg {
  own_addr : list Z;
  psk : list Z;
  conf : wpa_auth_config;
  GTK : list Z;
  GN : Z;
  auth_wpa_ie : list Z;
  allocs : nat -> bool;
  stray_cancel : bool
}.

(** ** Constants *)

Definition WPA_KEY_INFO_TYPE_MASK : Z := 7.
Definition WPA_KEY_INFO_TYPE_HMAC_MD5_RC4 : Z := 1.
Definition WPA_KEY_INFO_TYPE_HMAC_SHA1_AES : Z := 2.
Definition WPA_KEY_INFO_TYPE_AES_128_CMAC : Z := 3.
Definition WPA_KEY_INFO_KEY_TYPE : Z := 8.
Definition WPA_KEY_INFO_KEY_INDEX_SHIFT : Z := 4.
Definition WPA_KEY_INFO_INSTALL : Z := 64.
Definition WPA_KEY_INFO_ACK : Z := 128.
Definition WPA_KEY_INFO_MIC : Z := 256.
Definition WPA_KEY_INFO_SECURE : Z := 512.
Definition WPA_KEY_INFO_ERROR : Z := 1024.
Definition WPA_KEY_INFO_REQUEST : Z := 2048.
Definition WPA_KEY_INFO_ENCR_KEY_DATA : Z := 4096.
Definition WPA_KEY_INFO_SMK_MESSAGE : Z := 8192.

Definition EAPOL_KEY_TYPE_RSN : Z := 2.
Definition EAPOL_KEY_TYPE_WPA : Z := 254.
Definition IEEE802_1X_TYPE_EAPOL_KEY : Z := 3.

Definition RSNA_MAX_EAPOL_RETRIES : nat := 4.
Definition dot11RSNAConfigPairwiseUpdateCount : Z := 4.
Definition eapol_key_timeout_first : Z := 100.
Definition eapol_key_timeout_subseq : Z := 1000.
Definition eapol_key_timeout_error : Z := 100.

(** Offsets in a frame: [struct ieee802_1x_hdr] (4 bytes) and [struct
    wpa_eapol_key] (95 bytes). *)
Definition SIZEOF_hdr : nat := 4.
Definition SIZEOF_key : nat := 95.
Definition off_type : nat := 4.
Definition off_key_info : nat := 5.
Definition off_key_length : nat := 7.
Definition off_replay : nat := 9.
Definition off_nonce : nat := 17.
Definition off_iv : nat := 49.
Definition off_rsc : nat := 65.
Definition off_mic : nat := 81.
Definition off_data_length : nat := 97.
Definition off_key_data : nat := 99.

(** [struct wpa_ptk] *)
Definition kck (ptk : list Z) : list Z := take 16 ptk.
Definition kek (ptk : list Z) : list Z := take 16 (drop 16 ptk).
Definition tk1 (ptk : list Z) : list Z := take 16 (drop 32 ptk).

(** [wpa_key_mgmt_wpa_ieee8021x], [wpa_key_mgmt_wpa_psk] and [wpa_key_mgmt_ft];
    the values of the FT and SHA256 managements are never stored. *)
Definition wpa_key_mgmt_wpa_ieee8021x (akm : Z) : bool := (akm =? 1) || (akm =? 32) || (akm =? 128).
Definition wpa_key_mgmt_wpa_psk (akm : Z) : bool := (akm =? 2) || (akm =? 64) || (akm =? 256).

(** ** Small steps *)

Definition with_sm (a : auth_state) (f : wpa_state_machine -> wpa_state_machine) : auth_state :=
  a <| sm := f (sm a) |>.

Definition emit (a : auth_state) (e : effect) : auth_state := a <| out := out a ++ [e] |>.

(** [MALLOC]: whether it succeeds. *)
Definition alloc (cfg : wpa_cfg) (a : auth_state) : bool * auth_state :=
  (allocs cfg (nalloc a), a <| nalloc := S (nalloc a) |>).

(** [os_cancel_timer(wpa_send_eapol_timeout, wpa_auth, sm)] *)
Definition cancel_timeout (a : auth_state) : auth_state := a <| timers := [] |>.

(** [os_create_timer(ms, wpa_send_eapol_timeout, wpa_auth, sm, ..)] *)
Definition create_timeout (a : auth_state) (ms : Z) : auth_state := a <| timers := timers a ++ [ms] |>.

(** [wpa_auth_set_key] with the station's address *)
Definition wpa_auth_set_key (a : auth_state) (alg : wpa_alg) (idx : Z) (key : list Z) : auth_state :=
  emit a (SetKey alg idx key).

(** [wpa_sta_disconnect]: the station is deauthenticated and its entry, the
    state machine included, is cleared ([change_sta_disassoc_to_deauth],
    [APStaInfo_free], [wpa_auth_sta_deinit], [APStaInfo_StaReset]). *)
Definition wpa_sta_disconnect (a : auth_state) : auth_state :=
  if sta_valid a
  then (emit a Deauthenticate) <| sm := sm_zero |> <| timers := [] |> <| sta_valid := false |>
  else a.

(** [wpa_remove_ptk] *)
Definition wpa_remove_ptk (a : auth_state) : auth_state :=
  if pairwise_set (sm a) then
    let a := with_sm a (fun s => s <| PTK := replicate 48 0 |>) in
    let a := wpa_auth_set_key a WPA_ALG_NONE 0 [] in
    with_sm a (fun s => s <| pairwise_set := false |>)
  else a.

(** [wpa_request_new_ptk] *)
Definition wpa_request_new_ptk (a : auth_state) : auth_state :=
  if started (sm a) then with_sm a (fun s => s <| PTKRequest := true |> <| PTK_valid := false |>) else a.

(** [wpa_replay_counter_valid] *)
Fixpoint replay_scan (l : list (list Z * bool)) (c : list Z) : bool :=
  match l with
  | (k, true) :: r => if decide (c = k) then true else replay_scan r c
  | _ => false
  end.
Definition wpa_replay_counter_valid (s : wpa_state_machine) (c : list Z) : bool :=
  replay_scan (take RSNA_MAX_EAPOL_RETRIES (key_replay s)) c.

(** ** Frames *)

(** The frame in memory: [struct ieee802_1x_hdr], [struct wpa_eapol_key] and the
    key data, with the 16-bit fields as numbers. *)
Record eapol_frame := mk_frame {
  f_version : Z;
  f_packet_type : Z;
  f_length : Z;
  f_type : Z;
  f_key_info : Z;
  f_key_length : Z;
  f_replay : list Z;
  f_nonce : list Z;
  f_iv : list Z;
  f_rsc : list Z;
  f_id : list Z;
  f_mic : list Z;
  f_data_length : Z;
  f_data : list Z
}.

#[export] Instance eta_frame : Eta eapol_frame := fun s =>
  mk_frame (f_version s) (f_packet_type s) (f_length s) (f_type s) (f_key_info s) (f_key_length s)
    (f_replay s) (f_nonce s) (f_iv s) (f_rsc s) (f_id s) (f_mic s) (f_data_length s) (f_data s).

Definition frame_bytes (f : eapol_frame) : list Z :=
  [f_version f; f_packet_type f] ++ WPA_PUT_BE16 (f_length f) ++ [f_type f] ++
  WPA_PUT_BE16 (f_key_info f) ++ WPA_PUT_BE16 (f_key_length f) ++ f_replay f ++ f_nonce f ++ f_iv f ++
  f_rsc f ++ f_id f ++ f_mic f ++ WPA_PUT_BE16 (f_data_length f) ++ f_data f.

(** [MALLOC] and [MEMSET] of a frame with [n] bytes of key data. *)
Definition frame_zero (n : nat) : eapol_frame :=
  mk_frame 0 0 0 0 0 0 (replicate 8 0) (replicate 32 0) (replicate 16 0) (replicate 8 0) (replicate 8 0)
    (replicate 16 0) 0 (replicate n 0).

Section Authenticator.
Context `{KC : KeyCrypto} (cfg : wpa_cfg).

(** [wpa_eapol_key_mic]; [None] is the result -1. *)
Definition wpa_eapol_key_mic (key : list Z) (ver : Z) (buf : list Z) : option (list Z) :=
  if ver =? WPA_KEY_INFO_TYPE_HMAC_SHA1_AES then Some (take 16 (kc_hmac key buf)) else None.

(** [wpa_verify_key_mic]: the MIC field is cleared for the computation and
    restored afterwards. *)
Definition wpa_verify_key_mic (ptk data : list Z) (data_len : nat) : option Z :=
  if (data_len <? SIZEOF_hdr + SIZEOF_key)%nat then Some (-1)
  else
    key_info ← WPA_GET_BE16 data off_key_info;
    mic ← slice data off_mic 16;
    cleared ← wr data off_mic (replicate 16 0);
    frame ← slice cleared 0 data_len;
    match wpa_eapol_key_mic (kck ptk) (Z.land key_info WPA_KEY_INFO_TYPE_MASK) frame with
    | None => Some (-1)
    | Some m => Some (if decide (mic = m) then 0 else -1)
    end.

(** [MEMCMP(a, b, n) < 0] on two arrays of the same length. *)
Fixpoint mem_lt (a b : list Z) : bool :=
  match a, b with
  | x :: a', y :: b' => if x =? y then mem_lt a' b' else x <? y
  | _, _ => false
  end.

(** "Pairwise key expansion" *)
Definition ptk_label : list Z :=
  [80; 97; 105; 114; 119; 105; 115; 101; 32; 107; 101; 121; 32; 101; 120; 112; 97; 110; 115; 105; 111; 110].

Definition ordered (x y : list Z) : list Z := if mem_lt x y then x ++ y else y ++ x.

(** [wpa_derive_ptk]: 48 bytes are derived for CCMP.  For another cipher 64
    bytes are written into [struct wpa_ptk], which has 48: a fault. *)
Definition wpa_derive_ptk (s : wpa_state_machine) (pmk : list Z) : option (list Z) :=
  let data := ordered (own_addr cfg) (addr s) ++ ordered (ANonce s) (SNonce s) in
  if sta_pairwise (assoc s) =? WPA_CIPHER_CCMP then Some (kc_prf pmk ptk_label data 48) else None.

(** The replay counters move up by one and the first is incremented. *)
Definition push_replay (s : wpa_state_machine) : wpa_state_machine :=
  match key_replay s with
  | (c0, v0) :: (c1, v1) :: (c2, v2) :: _ =>
      s <| key_replay := [(inc_byte_array c0, true); (c0, v0); (c1, v1); (c2, v2)] |>
  | _ => s
  end.

(** [WPA_PUT_BE16(key->key_length, ..)] for a cipher *)
Definition key_length_of (alg : Z) : Z :=
  if alg =? WPA_CIPHER_CCMP then 16
  else if alg =? WPA_CIPHER_TKIP then 32
  else if alg =? WPA_CIPHER_WEP40 then 5
  else if alg =? WPA_CIPHER_WEP104 then 13
  else 0.

(** The encryption of the key data: the frame with its key data, or no frame
    when an allocation fails. *)
Definition encrypt_key_data (a : auth_state) (version : Z) (f : eapol_frame) (kde : list Z)
    (pad_len key_data_len : nat) : option eapol_frame * auth_state :=
  let '(ok, a) := alloc cfg a in
  if negb ok then (None, a)
  else
    let buf := kde ++ (if (pad_len =? 0)%nat then [] else [0xdd]) in
    let buf := buf ++ replicate (key_data_len - length buf) 0 in
    if (version =? WPA_KEY_INFO_TYPE_HMAC_SHA1_AES) || (version =? WPA_KEY_INFO_TYPE_AES_128_CMAC) then
      let n := ((key_data_len - 8) / 8)%nat in
      let '(ok, a) := alloc cfg a in
      match kc_wrap (kek (PTK (sm a))) (take (8 * n) buf) ok with
      | None => (None, a)
      | Some c => (Some (f <| f_data := c |> <| f_data_length := Z.of_nat key_data_len |>), a)
      end
    else
      let iv := take 16 (drop 16 (Counter a)) in
      let a := a <| Counter := inc_byte_array (Counter a) |> in
      let ek := iv ++ kek (PTK (sm a)) in
      let c := rc4_skip ek 32 256 buf in
      (Some (f <| f_iv := iv |> <| f_data := c |> <| f_data_length := Z.of_nat key_data_len |>), a).

(** [__wpa_send_eapol], with [force_version] 0 *)
Definition __wpa_send_eapol (a : auth_state) (key_info : Z) (key_rsc : option (list Z)) (nonce : list Z)
    (kde : option (list Z)) (keyidx : Z) (encr : bool) : auth_state :=
  let s := sm a in
  let kde_len := match kde with Some k => length k | None => 0%nat end in
  let version := if sta_pairwise (assoc s) =? WPA_CIPHER_CCMP then WPA_KEY_INFO_TYPE_HMAC_SHA1_AES
                 else WPA_KEY_INFO_TYPE_HMAC_MD5_RC4 in
  let pairwise := has key_info WPA_KEY_INFO_KEY_TYPE in
  let aes := (version =? WPA_KEY_INFO_TYPE_HMAC_SHA1_AES) && encr in
  let pad_len := if aes then ((8 - kde_len mod 8) mod 8)%nat else 0%nat in
  let key_data_len := (kde_len + (if aes then pad_len + 8 else 0))%nat in
  let len := (SIZEOF_hdr + SIZEOF_key + key_data_len)%nat in
  let '(ok, a) := alloc cfg a in
  if negb ok then a
  else
    let wpa2 := bool_decide (sta_wpa (assoc s) = WPA_VERSION_WPA2) in
    let key_info := Z.lor key_info version in
    let key_info := if encr && wpa2 then Z.lor key_info WPA_KEY_INFO_ENCR_KEY_DATA else key_info in
    let key_info := if wpa2 then key_info else Z.lor key_info (Z.shiftl keyidx WPA_KEY_INFO_KEY_INDEX_SHIFT) in
    let alg := if pairwise then sta_pairwise (assoc s) else conf_wpa_group (conf cfg) in
    let key_length := if has key_info WPA_KEY_INFO_SMK_MESSAGE then 0 else key_length_of alg in
    let a := with_sm a push_replay in
    let replay := match key_replay (sm a) with (c, _) :: _ => c | [] => [] end in
    let f := (frame_zero key_data_len)
               <| f_version := 1 |> <| f_packet_type := IEEE802_1X_TYPE_EAPOL_KEY |>
               <| f_length := Z.of_nat (len - SIZEOF_hdr) |>
               <| f_type := if wpa2 then EAPOL_KEY_TYPE_RSN else EAPOL_KEY_TYPE_WPA |>
               <| f_key_info := key_info |> <| f_key_length := key_length |>
               <| f_replay := replay |> <| f_nonce := nonce |> in
    let f := match key_rsc with Some r => f <| f_rsc := r |> | None => f end in
    let '(fr, a) :=
      match kde with
      | Some k =>
          if encr then encrypt_key_data a version f k pad_len key_data_len
          else (Some (f <| f_data := k |> <| f_data_length := Z.of_nat kde_len |>), a)
      | None => (Some f, a)
      end in
    match fr with
    | None => a
    | Some f =>
        if has key_info WPA_KEY_INFO_MIC then
          if PTK_valid (sm a) then
            let f := match wpa_eapol_key_mic (kck (PTK (sm a))) version (frame_bytes f) with
                     | Some m => f <| f_mic := m |>
                     | None => f
                     end in
            emit a (SendEapol (frame_bytes f) (pairwise_set (sm a)))
          else a
        else emit a (SendEapol (frame_bytes f) (pairwise_set (sm a)))
    end.

(** [wpa_send_eapol] *)
Definition wpa_send_eapol (a : auth_state) (key_info : Z) (key_rsc : option (list Z)) (nonce : list Z)
    (kde : option (list Z)) (keyidx : Z) (encr : bool) : auth_state :=
  if negb (started (sm a)) then a
  else
    let a := __wpa_send_eapol a key_info key_rsc nonce kde keyidx encr in
    let ctr := TimeoutCtr (sm a) in
    let timeout_ms := if ctr =? 1 then eapol_key_timeout_first else eapol_key_timeout_subseq in
    let a := if has key_info WPA_KEY_INFO_KEY_TYPE && (ctr =? 1) && negb (has key_info WPA_KEY_INFO_MIC)
             then with_sm a (fun s => s <| pending_1_of_4_timeout := true |>) else a in
    let a := if stray_cancel cfg then cancel_timeout a else a in
    create_timeout a timeout_ms.

(** ** The state machine [WPA_PTK] *)

(** [SM_ENTRY_MA] as [SM_ENTER] calls it: the state changes and [changed] is
    set. *)
Definition SM_ENTRY (a : auth_state) (st : ptk_state) : auth_state :=
  with_sm a (fun s => s <| changed := true |> <| wpa_ptk_state := st |>).

Definition enter_INITIALIZE (a : auth_state) : auth_state :=
  let a := SM_ENTRY a WPA_PTK_INITIALIZE in
  let a := if Init (sm a) then with_sm a (fun s => s <| changed := false |>) else a in
  let a := with_sm a (fun s => s <| keycount := 0 |> <| Pair := true |>) in
  let a := wpa_remove_ptk a in
  with_sm a (fun s => s <| TimeoutCtr := 0 |>).

Definition enter_DISCONNECT (a : auth_state) : auth_state :=
  let a := SM_ENTRY a WPA_PTK_DISCONNECT in
  wpa_sta_disconnect (with_sm a (fun s => s <| Disconnect := false |>)).

Definition enter_DISCONNECTED (a : auth_state) : auth_state :=
  with_sm (SM_ENTRY a WPA_PTK_DISCONNECTED) (fun s => s <| DeauthenticationRequest := false |>).

Definition enter_AUTHENTICATION (a : auth_state) : auth_state :=
  with_sm (SM_ENTRY a WPA_PTK_AUTHENTICATION) (fun s =>
    s <| PTK := replicate 48 0 |> <| PTK_valid := false |> <| AuthenticationRequest := false |>).

Definition enter_AUTHENTICATION2 (a : auth_state) : auth_state :=
  let a := SM_ENTRY a WPA_PTK_AUTHENTICATION2 in
  let a := with_sm a (fun s => s <| ANonce := Counter a |>) in
  let a := a <| Counter := inc_byte_array (Counter a) |> in
  with_sm a (fun s => s <| ReAuthenticationRequest := false |> <| TimeoutCtr := 0 |>).

Definition enter_INITPMK (a : auth_state) : auth_state :=
  with_sm (SM_ENTRY a WPA_PTK_INITPMK) (fun s => s <| req_replay_counter_used := false |>).

(** [wpa_auth_get_psk] always returns the PSK of the access point. *)
Definition enter_INITPSK (a : auth_state) : auth_state :=
  with_sm (SM_ENTRY a WPA_PTK_INITPSK) (fun s =>
    s <| PMK := psk cfg |> <| req_replay_counter_used := false |>).

Definition enter_PTKSTART (a : auth_state) : auth_state :=
  let a := with_sm (SM_ENTRY a WPA_PTK_PTKSTART) (fun s =>
    s <| PTKRequest := false |> <| TimeoutEvt := false |> <| TimeoutCtr := TimeoutCtr s + 1 |>) in
  if dot11RSNAConfigPairwiseUpdateCount <? TimeoutCtr (sm a) then a
  else wpa_send_eapol a (Z.lor WPA_KEY_INFO_ACK WPA_KEY_INFO_KEY_TYPE) None (ANonce (sm a)) None 0 false.

(** The loop over the keys ends after its first round ([break] follows the
    test).  A missing received frame is a fault. *)
Definition enter_PTKCALCNEGOTIATING (a : auth_state) : option auth_state :=
  let a := with_sm (SM_ENTRY a WPA_PTK_PTKCALCNEGOTIATING) (fun s => s <| EAPOLKeyReceived := false |>) in
  let use_psk := wpa_key_mgmt_wpa_psk (sta_wpa_key_mgmt (assoc (sm a))) in
  let pmk := if use_psk then psk cfg else PMK (sm a) in
  ptk ← wpa_derive_ptk (sm a) pmk;
  frame ← last_rx_eapol_key (sm a);
  r ← wpa_verify_key_mic ptk frame (length frame);
  if negb (r =? 0) then Some a
  else
    let a := cancel_timeout (with_sm a (fun s => s <| pending_1_of_4_timeout := false |>)) in
    Some (with_sm a (fun s =>
      s <| PMK := if use_psk then pmk else PMK s |> <| MICVerified := true |>
        <| PTK := ptk |> <| PTK_valid := true |>)).

Definition enter_PTKCALCNEGOTIATING2 (a : auth_state) : auth_state :=
  with_sm (SM_ENTRY a WPA_PTK_PTKCALCNEGOTIATING2) (fun s => s <| TimeoutCtr := 0 |>).

(** The announced elements that message 3/4 repeats: all of the array, or, for
    a WPA station of an access point that also announces RSN, the element behind
    the RSN element. *)
Definition msg3_wpa_ie (s : wpa_state_machine) : option (list Z) :=
  let ie := auth_wpa_ie cfg in
  let whole := slice ie 0 WPA_IE_LEN in
  if bool_decide (sta_wpa (assoc s) = WPA_VERSION_WPA) && has (conf_wpa (conf cfg)) WPA_PROTO_RSN then
    l ← ie !! 1%nat;
    id ← ie !! 0%nat;
    if (l + 2 <? Z.of_nat WPA_IE_LEN) && (id =? WLAN_EID_RSN) then
      l2 ← ie !! (Z.to_nat l + 3)%nat;
      slice ie (Z.to_nat l + 2) (Z.to_nat l2 + 2)
    else whole
  else whole.

(** The key data of message 3/4 in its allocated buffer. *)
Definition msg3_kde (wpa_ie : list Z) (gtk : option (list Z)) (keyidx : Z) : option (list Z) :=
  let gtk_len := match gtk with Some g => length g | None => 0%nat end in
  let kde_len := (length wpa_ie + (if gtk then 2 + RSN_SELECTOR_LEN + 2 + gtk_len else 0))%nat in
  kde ← wr (replicate kde_len 0) 0 wpa_ie;
  match gtk with
  | Some g =>
      '(kde, pos) ← wpa_add_kde kde (length wpa_ie) RSN_KEY_DATA_GROUPKEY [Z.land keyidx 3; 0] (Some g) gtk_len;
      Some (take pos kde)
  | None => Some kde
  end.

Definition enter_PTKINITNEGOTIATING (a : auth_state) : option auth_state :=
  let a := with_sm (SM_ENTRY a WPA_PTK_PTKINITNEGOTIATING) (fun s =>
    s <| TimeoutEvt := false |> <| TimeoutCtr := TimeoutCtr s + 1 |>) in
  if dot11RSNAConfigPairwiseUpdateCount <? TimeoutCtr (sm a) then Some a
  else
    let rsc := 1 :: replicate 7 0 in
    wpa_ie ← msg3_wpa_ie (sm a);
    let wpa2 := bool_decide (sta_wpa (assoc (sm a)) = WPA_VERSION_WPA2) in
    let secure := wpa2 || rx_eapol_key_secure (sm a) in
    let gtk := if wpa2 then Some (GTK cfg) else None in
    let keyidx := if wpa2 then GN cfg else 0 in
    let _rsc := if wpa2 then Some rsc else None in
    let '(ok, a) := alloc cfg a in
    if negb ok then Some (create_timeout a eapol_key_timeout_error)
    else
      kde ← msg3_kde wpa_ie gtk keyidx;
      let key_info :=
        Z.lor (Z.lor (Z.lor (Z.lor (if secure then WPA_KEY_INFO_SECURE else 0) WPA_KEY_INFO_MIC) WPA_KEY_INFO_ACK)
          WPA_KEY_INFO_INSTALL) WPA_KEY_INFO_KEY_TYPE in
      Some (wpa_send_eapol a key_info _rsc (ANonce (sm a)) (Some kde) keyidx wpa2).

(** For TKIP 32 bytes are read from the 16 bytes of [PTK.tk1]: a fault. *)
Definition enter_PTKINITDONE (a : auth_state) : option auth_state :=
  let a := with_sm (SM_ENTRY a WPA_PTK_PTKINITDONE) (fun s => s <| EAPOLKeyReceived := false |>) in
  a ← (if Pair (sm a) then
         if sta_pairwise (assoc (sm a)) =? WPA_CIPHER_TKIP then None
         else
           let a := wpa_auth_set_key a WPA_ALG_CCMP 0 (tk1 (PTK (sm a))) in
           Some (with_sm a (fun s => s <| pairwise_set := true |>))
       else Some a);
  Some (if sta_valid a then emit a Authorize else a).

Definition count_failure (a : auth_state) : auth_state :=
  a <| handshake_failures := u32 (handshake_failures a + 1) |>.

(** [SM_STEP(WPA_PTK)] *)
Definition sm_WPA_PTK_Step (a : auth_state) : option auth_state :=
  let s := sm a in
  if Init s then Some (enter_INITIALIZE a)
  else if Disconnect s then Some (enter_DISCONNECT a)
  else if DeauthenticationRequest s then Some (enter_DISCONNECTED a)
  else if AuthenticationRequest s then Some (enter_AUTHENTICATION a)
  else if ReAuthenticationRequest s then Some (enter_AUTHENTICATION2 a)
  else if PTKRequest s then Some (enter_PTKSTART a)
  else
    let answer := EAPOLKeyReceived s && negb (EAPOLKeyRequest s) && EAPOLKeyPairwise s in
    match wpa_ptk_state s with
    | WPA_PTK_INITIALIZE => Some a
    | WPA_PTK_DISCONNECT => Some (enter_DISCONNECTED a)
    | WPA_PTK_DISCONNECTED => Some (enter_INITIALIZE a)
    | WPA_PTK_AUTHENTICATION => Some (enter_AUTHENTICATION2 a)
    | WPA_PTK_AUTHENTICATION2 =>
        if wpa_key_mgmt_wpa_ieee8021x (sta_wpa_key_mgmt (assoc s)) then Some (enter_INITPMK a)
        else if wpa_key_mgmt_wpa_psk (sta_wpa_key_mgmt (assoc s)) then Some (enter_INITPSK a)
        else Some a
    | WPA_PTK_INITPMK => Some (enter_DISCONNECT (count_failure a))
    | WPA_PTK_INITPSK => Some (enter_PTKSTART a)
    | WPA_PTK_PTKSTART =>
        if answer then enter_PTKCALCNEGOTIATING a
        else if dot11RSNAConfigPairwiseUpdateCount <? TimeoutCtr s then Some (enter_DISCONNECT (count_failure a))
        else if TimeoutEvt s then Some (enter_PTKSTART a)
        else Some a
    | WPA_PTK_PTKCALCNEGOTIATING =>
        if MICVerified s then Some (enter_PTKCALCNEGOTIATING2 a)
        else if answer then enter_PTKCALCNEGOTIATING a
        else if TimeoutEvt s then Some (enter_PTKSTART a)
        else Some a
    | WPA_PTK_PTKCALCNEGOTIATING2 => enter_PTKINITNEGOTIATING a
    | WPA_PTK_PTKINITNEGOTIATING =>
        if answer && MICVerified s then enter_PTKINITDONE a
        else if dot11RSNAConfigPairwiseUpdateCount <? TimeoutCtr s then Some (enter_DISCONNECT (count_failure a))
        else if TimeoutEvt s then enter_PTKINITNEGOTIATING a
        else Some a
    | WPA_PTK_PTKINITDONE => Some a
    end.

(** The [do .. while (sm->changed)] loop of [wpa_sm_step]: [None] when the fuel
    runs out, [Some None] for a fault. *)
Fixpoint step_loop (fuel : nat) (a : auth_state) : option (option auth_state) :=
  match fuel with
  | O => None
  | S f =>
      if negb (started (sm a)) then Some (Some a)
      else
        match sm_WPA_PTK_Step (with_sm a (fun s => s <| changed := false |>)) with
        | None => Some None
        | Some a => if changed (sm a) then step_loop f a else Some (Some a)
        end
  end.

(** The fuel: more than the loop ever needs ([step_loop_ends]). *)
Definition step_fuel : nat := 130.

(** [wpa_sm_step] *)
Definition wpa_sm_step (a : auth_state) : option (Z * auth_state) :=
  if negb (started (sm a)) then Some (0, a)
  else if in_step_loop (sm a) then Some (0, a)
  else
    a ← mjoin (step_loop step_fuel (with_sm a (fun s => s <| in_step_loop := true |>)));
    let a := with_sm a (fun s => s <| in_step_loop := false |>) in
    Some (if pending_deinit (sm a) then 1 else 0, a).

(** ** Received frames *)

Inductive eapol_msg := PAIRWISE_2 | PAIRWISE_4 | GROUP_2 | REQUEST | SMK_M1 | SMK_M3 | SMK_ERROR.

#[export] Instance eapol_msg_eq_dec : EqDecision eapol_msg.
Proof. solve_decision. Defined.

(** The classification of a frame by its key information and data length. *)
Definition classify (key_info key_data_length : Z) : eapol_msg :=
  if has key_info WPA_KEY_INFO_SMK_MESSAGE && has key_info WPA_KEY_INFO_REQUEST then
    if has key_info WPA_KEY_INFO_ERROR then SMK_ERROR else SMK_M1
  else if has key_info WPA_KEY_INFO_SMK_MESSAGE then SMK_M3
  else if has key_info WPA_KEY_INFO_REQUEST then REQUEST
  else if negb (has key_info WPA_KEY_INFO_KEY_TYPE) then GROUP_2
  else if key_data_length =? 0 then PAIRWISE_4
  else PAIRWISE_2.

(** [wpa_receive_error_report] *)
Definition wpa_receive_error_report (a : auth_state) (group : bool) : auth_state :=
  let ignored := (group && negb (conf_wpa_group (conf cfg) =? WPA_CIPHER_TKIP)) ||
                 (negb group && negb (sta_pairwise (assoc (sm a)) =? WPA_CIPHER_TKIP)) in
  let a := if ignored then a
           else (with_sm a (fun s => s <| tkip_mic_failures := u32 (tkip_mic_failures s + 1) |>))
                  <| mic_failures := u32 (mic_failures a + 1) |> in
  wpa_request_new_ptk a.

(** The test of the descriptor type against the version of the station. *)
Definition type_accepted (v : wpa_version) (type : Z) : bool :=
  match v with
  | WPA_VERSION_WPA2 => (type =? EAPOL_KEY_TYPE_WPA) || (type =? EAPOL_KEY_TYPE_RSN)
  | _ => type =? EAPOL_KEY_TYPE_WPA
  end.

(** The [switch (msg)]: [inl] is a return from [wpa_receive], [inr] goes on.
    [kd] are the bytes from the key data on. *)
Definition check_msg (a : auth_state) (msg : eapol_msg) (kd : list Z) (key_data_length : Z) :
  option (auth_state + auth_state) :=
  let s := sm a in
  match msg with
  | PAIRWISE_2 =>
      if negb (bool_decide (wpa_ptk_state s = WPA_PTK_PTKSTART)) &&
         negb (bool_decide (wpa_ptk_state s = WPA_PTK_PTKCALCNEGOTIATING)) then Some (inl a)
      else
        '(r, kde) ← wpa_parse_kde_ies kd (Z.to_nat key_data_length);
        if r <? 0 then Some (inl a)
        else
          let '(p, l) := match kde_rsn_ie kde with
                         | Some p => (Some p, kde_rsn_ie_len kde)
                         | None => (kde_wpa_ie kde, kde_wpa_ie_len kde)
                         end in
          let ie := (fun q => drop q kd) <$> p in
          let '(ok, a) := alloc cfg a in
          match sta_wpa_ie (assoc s) with
          | None => Some (inl (wpa_sta_disconnect a))
          | Some mine =>
              c ← wpa_compare_rsn_ie ok (Some mine) (sta_wpa_ie_len (assoc s)) ie l;
              if c =? 0 then Some (inr a) else Some (inl (wpa_sta_disconnect a))
          end
  | PAIRWISE_4 =>
      if negb (bool_decide (wpa_ptk_state s = WPA_PTK_PTKINITNEGOTIATING)) || negb (PTK_valid s)
      then Some (inl a) else Some (inr a)
  | GROUP_2 => Some (inr a)
  | SMK_M1 | SMK_M3 | SMK_ERROR => Some (inl a)
  | REQUEST => Some (inr a)
  end.

(** The handling of a request, once its MIC is known to be right: [inl] returns. *)
Definition handle_request (a : auth_state) (key_info : Z) (replay : list Z) : auth_state + auth_state :=
  if MICVerified (sm a) then
    let a := with_sm a (fun s => s <| req_replay_counter_used := true |> <| req_replay_counter := replay |>) in
    if has key_info WPA_KEY_INFO_ERROR
    then inr (wpa_receive_error_report a (negb (has key_info WPA_KEY_INFO_KEY_TYPE)))
    else if has key_info WPA_KEY_INFO_KEY_TYPE then inr (wpa_request_new_ptk a)
    else inr a
  else inl (create_timeout a eapol_key_timeout_error).

(** [sm->key_replay[0].valid = FALSE] *)
Definition spend_replay (s : wpa_state_machine) : wpa_state_machine :=
  match key_replay s with
  | (c, _) :: r => s <| key_replay := (c, false) :: r |>
  | [] => s
  end.

(** The fields of the machine that a received frame sets. *)
Definition stored (s : wpa_state_machine) (data nonce : list Z) (key_info : Z) : wpa_state_machine :=
  s <| last_rx_eapol_key := Some data |>
    <| rx_eapol_key_secure := has key_info WPA_KEY_INFO_SECURE |>
    <| EAPOLKeyReceived := true |>
    <| EAPOLKeyPairwise := has key_info WPA_KEY_INFO_KEY_TYPE |>
    <| EAPOLKeyRequest := has key_info WPA_KEY_INFO_REQUEST |>
    <| SNonce := nonce |>.

(** The end of [wpa_receive]: the frame is kept and the state machine runs. *)
Definition accept_frame (a : auth_state) (data : list Z) (data_len : nat) (key_info : Z) : option auth_state :=
  let '(ok, a) := alloc cfg a in
  if negb ok
  then Some (create_timeout (with_sm a (fun s => s <| last_rx_eapol_key := None |>)) eapol_key_timeout_error)
  else
    copy ← slice data 0 data_len;
    nonce ← slice data off_nonce 32;
    let a := with_sm a (fun s => stored s copy nonce key_info) in
    '(_, a) ← wpa_sm_step a;
    Some a.

(** From the test of the MIC on: [msg] passed its checks. *)
Definition receive_checked (a : auth_state) (data : list Z) (data_len : nat) (key_info : Z) (replay : list Z) :
  option auth_state :=
  if has key_info WPA_KEY_INFO_ACK then Some a
  else if negb (has key_info WPA_KEY_INFO_MIC) then Some a
  else
    let a := with_sm a (fun s => s <| MICVerified := false |>) in
    r ← (if PTK_valid (sm a) then wpa_verify_key_mic (PTK (sm a)) data data_len else Some 0);
    if negb (r =? 0) then Some a
    else
      let a := if PTK_valid (sm a)
               then cancel_timeout (with_sm a (fun s => s <| MICVerified := true |> <| pending_1_of_4_timeout := false |>))
               else a in
      if has key_info WPA_KEY_INFO_REQUEST then
        match handle_request a key_info replay with
        | inl a => Some a
        | inr a => accept_frame a data data_len key_info
        end
      else accept_frame (with_sm a spend_replay) data data_len key_info.

(** [wpa_receive] *)
Definition wpa_receive (a : auth_state) (data : list Z) (data_len : nat) : option auth_state :=
  if (conf_wpa (conf cfg) =? 0) || negb (started (sm a)) then Some a
  else if (data_len <? SIZEOF_hdr + SIZEOF_key)%nat then Some a
  else
    let a := cancel_timeout a in
    key_info ← WPA_GET_BE16 data off_key_info;
    key_data_length ← WPA_GET_BE16 data off_data_length;
    if Z.of_nat (data_len - SIZEOF_hdr - SIZEOF_key) <? key_data_length then Some a
    else
      type ← data !! off_type;
      if negb (type_accepted (sta_wpa (assoc (sm a))) type) then Some a
      else
        let msg := classify key_info key_data_length in
        let ver := Z.land key_info WPA_KEY_INFO_TYPE_MASK in
        if bool_decide (msg ∈ [REQUEST; PAIRWISE_2; PAIRWISE_4; GROUP_2]) &&
           (sta_pairwise (assoc (sm a)) =? WPA_CIPHER_CCMP) && negb (ver =? WPA_KEY_INFO_TYPE_HMAC_SHA1_AES)
        then Some a
        else
          replay ← slice data off_replay 8;
          if has key_info WPA_KEY_INFO_REQUEST && req_replay_counter_used (sm a) &&
             negb (mem_lt (req_replay_counter (sm a)) replay)
          then Some a
          else if negb (has key_info WPA_KEY_INFO_REQUEST) && negb (wpa_replay_counter_valid (sm a) replay)
          then Some a
          else
            c ← check_msg a msg (drop off_key_data data) key_data_length;
            match c with
            | inl a => Some a
            | inr a => receive_checked a data data_len key_info replay
            end.

(** ** Timeouts, events and association *)

(** [wpa_send_eapol_timeout]: the timer has fired. *)
Definition wpa_send_eapol_timeout (a : auth_state) : option auth_state :=
  let a := a <| timers := tail (timers a) |> in
  if negb (started (sm a)) then Some a
  else
    let a := with_sm a (fun s => s <| pending_1_of_4_timeout := false |> <| TimeoutEvt := true |>) in
    '(_, a) ← wpa_sm_step a;
    Some a.

Inductive wpa_event := WPA_AUTH | WPA_ASSOC | WPA_DISASSOC | WPA_DEAUTH | WPA_REAUTH | WPA_REAUTH_EAPOL | WPA_ASSOC_FT.

(** [wpa_auth_sm_event]; the case of a machine that is not started returns
    first, so the initialisation inside the [switch] is never reached. *)
Definition wpa_auth_sm_event (a : auth_state) (event : wpa_event) : option (Z * auth_state) :=
  if negb (started (sm a)) then Some (-1, a)
  else
    let a := match event with
             | WPA_DEAUTH | WPA_DISASSOC => with_sm a (fun s => s <| DeauthenticationRequest := true |>)
             | WPA_REAUTH | WPA_REAUTH_EAPOL => with_sm a (fun s => s <| ReAuthenticationRequest := true |>)
             | _ => a
             end in
    let a := with_sm a (fun s => s <| PTK_valid := false |> <| PTK := replicate 48 0 |>) in
    let a := match event with WPA_REAUTH_EAPOL => a | _ => wpa_remove_ptk a end in
    wpa_sm_step a.

(** [wpa_auth_sta_init]: the machine is cleared; [wpa_validate_wpa_ie] then sets
    [assoc]. *)
Definition wpa_auth_sta_init (sta_addr : list Z) : wpa_state_machine :=
  mk_sm sta_addr WPA_PTK_INITIALIZE false false false false false 0 false false false false false
    (replicate 32 0) (replicate 32 0) (replicate 32 0) (replicate 48 0) false false 0 false
    (replicate 4 (replicate 8 0, false)) false None false false false false false (replicate 8 0) false
    (mk_sta WPA_VERSION_NO_WPA 0 0 None 0) 0 false.

(** [wpa_auth_sta_associated] *)
Definition wpa_auth_sta_associated (a : auth_state) : option (Z * auth_state) :=
  if conf_wpa (conf cfg) =? 0 then Some (-1, a)
  else if started (sm a) then
    wpa_sm_step (with_sm a (fun s =>
      s <| key_replay := replicate 4 (replicate 8 0, false) |> <| ReAuthenticationRequest := true |>))
  else
    '(r, a) ← wpa_sm_step (with_sm a (fun s => s <| started := true |> <| Init := true |>));
    if r =? 1 then Some (1, a)
    else wpa_sm_step (with_sm a (fun s => s <| Init := false |> <| AuthenticationRequest := true |>)).

(** [wpa_auth_sta_deinit] *)
Definition wpa_auth_sta_deinit (a : auth_state) : auth_state :=
  if negb (started (sm a)) then a
  else
    let a := with_sm (cancel_timeout a) (fun s => s <| pending_1_of_4_timeout := false |>) in
    if in_step_loop (sm a) then with_sm a (fun s => s <| pending_deinit := true |> <| started := false |>) else a.

End Authenticator.

(** ** The step loop ends *)

Section Handshake.
Context `{KC : KeyCrypto} (cfg : wpa_cfg).

(** Sending a frame changes the replay counters and nothing else of the state
    machine. *)
Definition resent (s s' : wpa_state_machine) : Prop :=
  exists r p, s' = s <| key_replay := r |> <| pending_1_of_4_timeout := p |>.

Lemma resent_refl s : resent s s.
Proof. exists (key_replay s), (pending_1_of_4_timeout s). by destruct s. Qed.

Lemma push_replay_resent s : resent s (push_replay s).
Proof.
  unfold push_replay. repeat case_match; try apply resent_refl; subst.
  eexists _, (pending_1_of_4_timeout s). reflexivity.
Qed.

Lemma raw_send_sm a ki rsc n kde i e : resent (sm a) (sm (__wpa_send_eapol cfg a ki rsc n kde i e)).
Proof.
  unfold __wpa_send_eapol, alloc, encrypt_key_data. 
  repeat (case_match; simplify_eq/=); try apply resent_refl; try apply push_replay_resent.
Qed.

Lemma send_sm a ki rsc n kde i e : resent (sm a) (sm (wpa_send_eapol cfg a ki rsc n kde i e)).
Proof.
  unfold wpa_send_eapol. destruct (started (sm a)); [|apply resent_refl]. cbn [negb].
  pose proof (raw_send_sm a ki rsc n kde i e) as (r & p & H).
  set (a1 := __wpa_send_eapol cfg a ki rsc n kde i e) in *. clearbody a1.
  assert (forall b : bool, resent (sm a)
    (sm (if b then with_sm a1 (fun s => s <| pending_1_of_4_timeout := true |>) else a1))) as Hp.
  { intros []; cbn; rewrite H; by eexists _, _. }
  destruct (stray_cancel cfg); apply Hp.
Qed.

(** How far a state is from the end of the chain it starts, and what the pending
    requests and events can still cause. *)
Definition state_rank (st : ptk_state) : nat :=
  match st with
  | WPA_PTK_AUTHENTICATION => 9
  | WPA_PTK_AUTHENTICATION2 => 8
  | WPA_PTK_INITPSK => 7
  | WPA_PTK_PTKSTART => 6
  | WPA_PTK_PTKCALCNEGOTIATING => 5
  | WPA_PTK_PTKCALCNEGOTIATING2 => 4
  | WPA_PTK_PTKINITNEGOTIATING | WPA_PTK_INITPMK => 3
  | WPA_PTK_DISCONNECT => 2
  | WPA_PTK_DISCONNECTED => 1
  | WPA_PTK_INITIALIZE | WPA_PTK_PTKINITDONE => 0
  end.

Definition weight (b : bool) (n : nat) : nat := if b then n else 0.

Definition rank (s : wpa_state_machine) : nat :=
  state_rank (wpa_ptk_state s) + weight (TimeoutEvt s) 10 + weight (EAPOLKeyReceived s) 10 +
  weight (Disconnect s) 20 + weight (DeauthenticationRequest s) 20 + weight (AuthenticationRequest s) 20 +
  weight (ReAuthenticationRequest s) 20 + weight (PTKRequest s) 20.

Lemma rank_bound s : (rank s <= 129)%nat.
Proof.
  unfold rank, weight. assert (state_rank (wpa_ptk_state s) <= 9)%nat by (destruct (wpa_ptk_state s); simpl; lia).
  repeat case_match; lia.
Qed.

Lemma rank_resent s s' : resent s s' -> rank s' = rank s /\ changed s' = changed s.
Proof. intros (r & p & ->). done. Qed.

Lemma remove_ptk_rank a : rank (sm (wpa_remove_ptk a)) = rank (sm a).
Proof. unfold wpa_remove_ptk. by destruct (pairwise_set (sm a)). Qed.

Lemma disconnect_rank a :
  changed (sm (enter_DISCONNECT a)) = true ->
  (rank (sm (enter_DISCONNECT a)) + state_rank (wpa_ptk_state (sm a)) + weight (Disconnect (sm a)) 20
   = rank (sm a) + 2)%nat.
Proof.
  unfold enter_DISCONNECT, wpa_sta_disconnect. cbn. destruct (sta_valid a); cbn; [done|].
  intros _. unfold rank. cbn. lia.
Qed.

Lemma ptkstart_rank a :
  (rank (sm (enter_PTKSTART cfg a)) + state_rank (wpa_ptk_state (sm a)) + weight (PTKRequest (sm a)) 20
    + weight (TimeoutEvt (sm a)) 10 = rank (sm a) + 6)%nat.
Proof.
  unfold enter_PTKSTART. cbv zeta. case_match; [unfold rank; cbn; lia|].
  match goal with |- context [wpa_send_eapol cfg ?a1 ?b ?c ?d ?e ?f ?g] =>
    destruct (rank_resent _ _ (send_sm a1 b c d e f g)) as [-> _] end.
  unfold rank. cbn. lia.
Qed.

Lemma ptkcalc_rank a a' : enter_PTKCALCNEGOTIATING cfg a = Some a' ->
  (rank (sm a') + state_rank (wpa_ptk_state (sm a)) + weight (EAPOLKeyReceived (sm a)) 10 = rank (sm a) + 5)%nat.
Proof.
  unfold enter_PTKCALCNEGOTIATING. cbv zeta.
  destruct (wpa_derive_ptk _ _ _) as [ptk|]; [|done]. cbn [mbind option_bind].
  destruct (last_rx_eapol_key _) as [f|]; [|done]. cbn [mbind option_bind].
  destruct (wpa_verify_key_mic _ _ _) as [r|]; [|done]. cbn [mbind option_bind].
  case_match; intros [= <-]; unfold rank; cbn; lia.
Qed.

Lemma ptkinitneg_rank a a' : enter_PTKINITNEGOTIATING cfg a = Some a' ->
  (rank (sm a') + state_rank (wpa_ptk_state (sm a)) + weight (TimeoutEvt (sm a)) 10 = rank (sm a) + 3)%nat.
Proof.
  unfold enter_PTKINITNEGOTIATING. cbv zeta. case_match; [intros [= <-]; unfold rank; cbn; lia|].
  destruct (msg3_wpa_ie _ _) as [ie|]; [|done]. cbn [mbind option_bind alloc].
  case_match; [intros [= <-]; unfold rank; cbn; lia|].
  destruct (msg3_kde _ _ _) as [kde|]; [|done]. cbn [mbind option_bind]. intros [= <-].
  match goal with |- context [wpa_send_eapol cfg ?a1 ?b ?c ?d ?e ?f ?g] =>
    destruct (rank_resent _ _ (send_sm a1 b c d e f g)) as [-> _] end.
  unfold rank. cbn. lia.
Qed.

Lemma ptkinitdone_rank a a' : enter_PTKINITDONE a = Some a' ->
  (rank (sm a') + state_rank (wpa_ptk_state (sm a)) + weight (EAPOLKeyReceived (sm a)) 10 = rank (sm a))%nat.
Proof.
  unfold enter_PTKINITDONE. cbv zeta. cbn [sm].
  repeat case_match; cbn [mbind option_bind]; intros; simplify_eq/=; unfold rank; cbn; try lia;
    repeat case_match; cbn; lia.
Qed.

Lemma initialize_rank a : changed (sm (enter_INITIALIZE a)) = true ->
  (rank (sm (enter_INITIALIZE a)) + state_rank (wpa_ptk_state (sm a)) = rank (sm a))%nat /\ Init (sm a) = false.
Proof.
  unfold enter_INITIALIZE, wpa_remove_ptk. cbn. destruct (Init (sm a)) eqn:E; cbn;
    destruct (pairwise_set (sm a)); cbn; try done; intros _; split; try done; unfold rank; cbn; lia.
Qed.

(** What the requests and the state add to the rank. *)
Lemma rank_parts s :
  (state_rank (wpa_ptk_state s) + weight (TimeoutEvt s) 10 + weight (EAPOLKeyReceived s) 10 +
   weight (Disconnect s) 20 + weight (DeauthenticationRequest s) 20 + weight (AuthenticationRequest s) 20 +
   weight (ReAuthenticationRequest s) 20 + weight (PTKRequest s) 20 = rank s)%nat /\
  (state_rank (wpa_ptk_state s) <= 9)%nat.
Proof. split; [done|]. destruct (wpa_ptk_state s); simpl; lia. Qed.

Ltac rank_lia :=
  repeat match goal with
  | H : ?f (sm ?a) = true |- _ => rewrite H in *
  | H : ?f (sm ?a) = false |- _ => rewrite H in *
  | H : wpa_ptk_state (sm ?a) = _ |- _ => rewrite H in *
  end; cbn [weight state_rank] in *; lia.

(** A round that leaves [changed] set has come closer to the end. *)
Lemma step_rank a a' :
  changed (sm a) = false -> sm_WPA_PTK_Step cfg a = Some a' -> changed (sm a') = true ->
  (rank (sm a') < rank (sm a))%nat.
Proof.
  intros Hc H Hc'. unfold sm_WPA_PTK_Step in H. cbv zeta in H.
  destruct (rank_parts (sm a)) as [Hr Hst].
  destruct (Init (sm a)) eqn:E1.
  { injection H as <-. apply initialize_rank in Hc' as [_ ?]. congruence. }
  destruct (Disconnect (sm a)) eqn:E2.
  { injection H as <-. apply disconnect_rank in Hc'. rank_lia. }
  destruct (DeauthenticationRequest (sm a)) eqn:E3.
  { injection H as <-. unfold rank. cbn. rank_lia. }
  destruct (AuthenticationRequest (sm a)) eqn:E4.
  { injection H as <-. unfold rank. cbn. rank_lia. }
  destruct (ReAuthenticationRequest (sm a)) eqn:E5.
  { injection H as <-. unfold rank. cbn. rank_lia. }
  destruct (PTKRequest (sm a)) eqn:E6.
  { injection H as <-. pose proof (ptkstart_rank a). rank_lia. }
  destruct (wpa_ptk_state (sm a)) eqn:Est; try (injection H as <-).
  - congruence.
  - unfold rank. cbn. rank_lia.
  - apply initialize_rank in Hc' as [? _]. rank_lia.
  - unfold rank. cbn. rank_lia.
  - repeat case_match; injection H as <-; try congruence; unfold rank; cbn; rank_lia.
  - apply disconnect_rank in Hc'. cbn in Hc'. change (rank (sm (count_failure a))) with (rank (sm a)) in Hc'. rank_lia.
  - pose proof (ptkstart_rank a). rank_lia.
  - destruct (EAPOLKeyReceived (sm a) && _ && _) eqn:Ea.
    { bool_to_prop. apply ptkcalc_rank in H. rank_lia. }
    case_match.
    { injection H as <-. apply disconnect_rank in Hc'. change (rank (sm (count_failure a))) with (rank (sm a)) in Hc'.
      cbn in Hc'. rank_lia. }
    destruct (TimeoutEvt (sm a)) eqn:Et; injection H as <-; [|congruence]. pose proof (ptkstart_rank a). rank_lia.
  - destruct (MICVerified (sm a)).
    { injection H as <-. unfold rank. cbn. rank_lia. }
    destruct (EAPOLKeyReceived (sm a) && _ && _) eqn:Ea.
    { bool_to_prop. apply ptkcalc_rank in H. rank_lia. }
    destruct (TimeoutEvt (sm a)) eqn:Et; injection H as <-; [|congruence]. pose proof (ptkstart_rank a). rank_lia.
  - apply ptkinitneg_rank in H. rank_lia.
  - destruct (EAPOLKeyReceived (sm a) && _ && _ && _) eqn:Ea.
    { bool_to_prop. apply ptkinitdone_rank in H. rank_lia. }
    case_match.
    { injection H as <-. apply disconnect_rank in Hc'. change (rank (sm (count_failure a))) with (rank (sm a)) in Hc'.
      cbn in Hc'. rank_lia. }
    destruct (TimeoutEvt (sm a)) eqn:Et; [|injection H as <-; congruence]. apply ptkinitneg_rank in H. rank_lia.
  - congruence.
Qed.

Lemma step_loop_fuel fuel : forall a, (rank (sm a) < fuel)%nat -> is_Some (step_loop cfg fuel a).
Proof.
  induction fuel as [|f IH]; intros a Hf; [lia|]. cbn [step_loop].
  destruct (started (sm a)); cbn [negb]; [|by eexists].
  set (a0 := with_sm a _). destruct (sm_WPA_PTK_Step cfg a0) as [a1|] eqn:E; [|by eexists].
  destruct (changed (sm a1)) eqn:Ec; [|by eexists].
  apply IH. apply step_rank in E; [|done|done]. change (rank (sm a0)) with (rank (sm a)) in E. lia.
Qed.

(** C23: The [do .. while (sm->changed)] loop of [wpa_sm_step] ends from every
    state, reachable or not, within 130 rounds: no combination of requests,
    events and received frames makes the authenticator spin. *)
Theorem step_loop_ends a : is_Some (step_loop cfg step_fuel a).
Proof. apply step_loop_fuel. pose proof (rank_bound (sm a)). unfold step_fuel. lia. Qed.

(** [wpa_receive] cancels the retransmission timer before it looks at the
    frame: any frame of 99 bytes, one that announces more key data than it has or
    one with a replay counter that is not in use, leaves the state machine as it
    was but without a timer, so that a lost message 1 or 3 is never sent again. *)
Theorem junk_frame_cancels_timer a data key_info key_data_length replay :
  conf_wpa (conf cfg) <> 0 -> started (sm a) = true -> (99 <= length data)%nat ->
  WPA_GET_BE16 data off_key_info = Some key_info ->
  WPA_GET_BE16 data off_data_length = Some key_data_length ->
  slice data off_replay 8 = Some replay ->
  Z.of_nat (length data - 99) < key_data_length \/
  (has key_info WPA_KEY_INFO_REQUEST = false /\ wpa_replay_counter_valid (sm a) replay = false) ->
  wpa_receive cfg a data (length data) = Some (a <| timers := [] |>).
Proof.
  intros Hw Hs Hl Hi Hd Hr Hbad. unfold wpa_receive.
  rewrite (proj2 (Z.eqb_neq _ _) Hw), Hs. cbn [negb orb].
  rewrite (proj2 (Nat.ltb_ge _ _)) by (unfold SIZEOF_hdr, SIZEOF_key; lia). rewrite Hi, Hd. cbn [mbind option_bind].
  destruct (Z.ltb_spec (Z.of_nat (length data - SIZEOF_hdr - SIZEOF_key)) key_data_length) as [|Hge]; [done|].
  destruct Hbad as [Hbad|[Hq Hv]]; [unfold SIZEOF_hdr, SIZEOF_key in Hge; lia|].
  destruct (lookup_lt_is_Some_2 data off_type) as [type ->]; [unfold off_type; lia|]. cbn [mbind option_bind].
  case_match; [done|]. cbv zeta. case_match; [done|]. rewrite Hr. cbn [mbind option_bind].
  rewrite Hq. cbn [andb negb].
  assert (wpa_replay_counter_valid (sm (cancel_timeout a)) replay = false) as -> by exact Hv. done.
Qed.
End Handshake.
