(* ===== verification/WpaAuthSafe.v ===== *)
(** * WpaAuthSafe: who gets the keys of the access point

    The authenticator of [WpaAuth] over whole runs: associations, received
    frames of any content, timeouts and events of the MLME in any order.  The
    invariant [settled] holds between events; [keys_only_for_psk] is what follows
    from it. *)

From stdpp Require Import base list option.
From Stdlib Require Import ZArith Lia.
From S2P Require Import Prelude HciAggr Words Wire Ie80211 WpaIe Rc4 WpaAuth.

Section Runs.
Context `{KC : KeyCrypto} (cfg : wpa_cfg).

(** ** Keys are installed only for a station that knows the PSK *)

(** A run: a station associates (its machine is cleared by [wpa_auth_sta_init],
    [wpa_validate_wpa_ie] stores its element, and [process_4Ways_start] calls
    [wpa_auth_sta_associated]), frames arrive, timeouts fire and the MLME
    notifies events. *)
Inductive auth_event :=
| EvAssociate (sta_addr : list Z) (st : wpa_sta)
| EvFrame (data : list Z)
| EvTimeout
| EvNotify (e : wpa_event).

Definition auth_step (a : auth_state) (ev : auth_event) : option auth_state :=
  match ev with
  | EvAssociate sa st =>
      snd <$> wpa_auth_sta_associated cfg
        (a <| sm := (wpa_auth_sta_init sa) <| assoc := st |> |> <| sta_valid := true |>)
  | EvFrame data => wpa_receive cfg a data (length data)
  | EvTimeout => wpa_send_eapol_timeout cfg a
  | EvNotify e => snd <$> wpa_auth_sm_event cfg a e
  end.

Fixpoint auth_run (a : auth_state) (evs : list auth_event) : option auth_state :=
  match evs with
  | [] => Some a
  | ev :: r => a' ← auth_step a ev; auth_run a' r
  end.

(** The access point before any association. *)
Definition auth_init (counter : list Z) : auth_state := mk_auth sm_zero counter 0 0 false [] 0 [].

(** Effects that give the station nothing. *)
Definition harmless (e : effect) : Prop :=
  match e with
  | SetKey WPA_ALG_NONE _ _ | SendEapol _ _ | Deauthenticate => True
  | _ => False
  end.

Definition adds (P : effect -> Prop) (a a' : auth_state) : Prop :=
  exists new, out a' = out a ++ new /\ Forall P new.
Definition grows : auth_state -> auth_state -> Prop := adds harmless.

Lemma grows_refl a : grows a a.
Proof. exists []. by rewrite app_nil_r. Qed.

Lemma grows_trans a b c : grows a b -> grows b c -> grows a c.
Proof.
  intros (n1 & H1 & F1) (n2 & H2 & F2). exists (n1 ++ n2).
  rewrite H2, H1, app_assoc. split; [done|]. by apply Forall_app.
Qed.

Lemma grows_emit a e : harmless e -> grows a (emit a e).
Proof. intros H. exists [e]. split; [done|]. by repeat constructor. Qed.

Lemma grows_out a b c : out b = out c -> grows a b -> grows a c.
Proof. intros H (n & Hn & F). exists n. by rewrite <- H. Qed.

Lemma grows_same a b : out b = out a -> grows a b.
Proof. intros H. exists []. by rewrite app_nil_r. Qed.

Lemma raw_send_grows a ki rsc n kde i e : grows a (__wpa_send_eapol cfg a ki rsc n kde i e).
Proof.
  unfold __wpa_send_eapol, alloc, encrypt_key_data.
  repeat (case_match; simplify_eq/=); try (by apply grows_same);
    (eexists [_]; split; [cbn; reflexivity|]; by repeat constructor).
Qed.

Lemma send_grows a ki rsc n kde i e : grows a (wpa_send_eapol cfg a ki rsc n kde i e).
Proof.
  unfold wpa_send_eapol. destruct (started (sm a)); [|apply grows_refl]. cbn [negb].
  eapply grows_out; [|apply (raw_send_grows a ki rsc n kde i e)].
  set (a1 := __wpa_send_eapol cfg a ki rsc n kde i e). clearbody a1.
  cbv zeta. by destruct (_ && _ && _), (stray_cancel cfg).
Qed.

(** The PTK is derived from the PSK with the station's address, and a received
    frame that carried the station's nonce has the right MIC under it. *)
Definition genuine (hist : list auth_event) (s : wpa_state_machine) : Prop :=
  exists sn f,
    PTK s = kc_prf (psk cfg) ptk_label (ordered (own_addr cfg) (addr s) ++ ordered (ANonce s) sn) 48 /\
    EvFrame f ∈ hist /\ slice f off_nonce 32 = Some sn /\
    wpa_verify_key_mic (PTK s) f (length f) = Some 0.

Definition answer (s : wpa_state_machine) : bool :=
  EAPOLKeyReceived s && negb (EAPOLKeyRequest s) && EAPOLKeyPairwise s.

(** What holds of the machine in every round of the loop. *)
Definition ptk_ok (hist : list auth_event) (s : wpa_state_machine) : Prop :=
  match wpa_ptk_state s with
  | WPA_PTK_AUTHENTICATION | WPA_PTK_AUTHENTICATION2 | WPA_PTK_INITPMK | WPA_PTK_INITPSK | WPA_PTK_PTKSTART =>
      PTK_valid s = false
  | WPA_PTK_PTKCALCNEGOTIATING => MICVerified s = PTK_valid s /\ (PTK_valid s = true -> genuine hist s)
  | WPA_PTK_PTKCALCNEGOTIATING2 | WPA_PTK_PTKINITNEGOTIATING | WPA_PTK_PTKINITDONE =>
      PTK_valid s = true -> genuine hist s
  | WPA_PTK_INITIALIZE | WPA_PTK_DISCONNECT | WPA_PTK_DISCONNECTED => True
  end.

Definition round_ok (hist : list auth_event) (s : wpa_state_machine) : Prop :=
  ptk_ok hist s /\ Init s = false /\
  (ReAuthenticationRequest s || PTKRequest s = true -> PTK_valid s = false) /\
  (started s = true -> sta_wpa_key_mgmt (assoc s) = WPA_KEY_MGMT_PSK).

Lemma round_zero hist : round_ok hist sm_zero.
Proof. by repeat split. Qed.

Lemma round_resent hist s s' : resent s s' -> round_ok hist s -> round_ok hist s'.
Proof. intros (r & p & ->) H. exact H. Qed.

Lemma answer_resent s s' : resent s s' -> answer s' = answer s.
Proof. by intros (r & p & ->). Qed.

(** A quiet round: no answer of the station is pending before and after it, and
    its effects are harmless. *)
Definition quiet (hist : list auth_event) (a a' : auth_state) : Prop :=
  round_ok hist (sm a') /\ answer (sm a') = false /\ grows a a'.

Section Quiet.
Variables (hist : list auth_event) (a : auth_state).
Hypothesis Hround : round_ok hist (sm a).
Hypothesis Hanswer : answer (sm a) = false.

Lemma quiet_refl : quiet hist a a.
Proof. split_and!; [done|done|apply grows_refl]. Qed.

Lemma quiet_same a' : out a' = out a -> round_ok hist (sm a') -> answer (sm a') = answer (sm a) -> quiet hist a a'.
Proof. intros Ho Hr Ha. split_and!; [done|by rewrite Ha|by apply grows_same]. Qed.

Lemma quiet_sent a' ki rsc n kde i e :
  quiet hist a a' -> quiet hist a (wpa_send_eapol cfg a' ki rsc n kde i e).
Proof.
  intros (Hr & Ha & Hg). pose proof (send_sm cfg a' ki rsc n kde i e) as Hs. split_and!.
  - by eapply round_resent.
  - by rewrite (answer_resent _ _ Hs).
  - eapply grows_trans; [done|apply send_grows].
Qed.

Lemma quiet_DISCONNECT : quiet hist a (enter_DISCONNECT a).
Proof.
  destruct Hround as (_ & H2 & H3 & H4).
  unfold enter_DISCONNECT, wpa_sta_disconnect. cbn. destruct (sta_valid a); cbn.
  - split_and!; [apply round_zero|done|]. eexists [_]. split; [done|]. by repeat constructor.
  - apply quiet_same; [done| |done]. by split_and!.
Qed.

Lemma quiet_DISCONNECTED : quiet hist a (enter_DISCONNECTED a).
Proof. destruct Hround as (_ & H2 & H3 & H4). apply quiet_same; [done| |done]. by split_and!. Qed.

Lemma quiet_INITIALIZE : quiet hist a (enter_INITIALIZE a).
Proof.
  destruct Hround as (_ & H2 & H3 & H4). unfold enter_INITIALIZE, wpa_remove_ptk. cbn. rewrite H2. cbn.
  destruct (pairwise_set (sm a)); cbn.
  - split_and!; [by split_and!|done|]. eexists [_]. split; [done|]. by repeat constructor.
  - apply quiet_same; [done| |done]. by split_and!.
Qed.

Lemma quiet_AUTHENTICATION : quiet hist a (enter_AUTHENTICATION a).
Proof. destruct Hround as (_ & H2 & H3 & H4). apply quiet_same; [done| |done]. by split_and!. Qed.

Lemma quiet_AUTHENTICATION2 : PTK_valid (sm a) = false -> quiet hist a (enter_AUTHENTICATION2 a).
Proof. intros Hv. destruct Hround as (_ & H2 & H3 & H4). apply quiet_same; [done| |done]. by split_and!. Qed.

Lemma quiet_INITPMK : PTK_valid (sm a) = false -> quiet hist a (enter_INITPMK a).
Proof. intros Hv. destruct Hround as (_ & H2 & H3 & H4). apply quiet_same; [done| |done]. by split_and!. Qed.

Lemma quiet_INITPSK : PTK_valid (sm a) = false -> quiet hist a (enter_INITPSK cfg a).
Proof. intros Hv. destruct Hround as (_ & H2 & H3 & H4). apply quiet_same; [done| |done]. by split_and!. Qed.

Lemma quiet_PTKSTART : PTK_valid (sm a) = false -> quiet hist a (enter_PTKSTART cfg a).
Proof.
  intros Hv. destruct Hround as (_ & H2 & H3 & H4). unfold enter_PTKSTART. cbv zeta.
  case_match; [|apply quiet_sent]; (apply quiet_same; [done| |done]; by split_and!).
Qed.

Lemma quiet_PTKCALCNEGOTIATING2 :
  (PTK_valid (sm a) = true -> genuine hist (sm a)) -> quiet hist a (enter_PTKCALCNEGOTIATING2 a).
Proof. intros Hv. destruct Hround as (_ & H2 & H3 & H4). apply quiet_same; [done| |done]. by split_and!. Qed.

Lemma quiet_PTKINITNEGOTIATING a' :
  (PTK_valid (sm a) = true -> genuine hist (sm a)) ->
  enter_PTKINITNEGOTIATING cfg a = Some a' -> quiet hist a a'.
Proof.
  intros Hv. destruct Hround as (_ & H2 & H3 & H4). unfold enter_PTKINITNEGOTIATING. cbv zeta.
  case_match; [intros [= <-]; apply quiet_same; [done| |done]; by split_and!|].
  destruct (msg3_wpa_ie _ _) as [ie|]; [|done]. cbn [mbind option_bind alloc].
  case_match; [intros [= <-]; apply quiet_same; [done| |done]; by split_and!|].
  destruct (msg3_kde _ _ _) as [kde|]; [|done]. cbn [mbind option_bind]. intros [= <-].
  apply quiet_sent. apply quiet_same; [done| |done]; by split_and!.
Qed.

Lemma quiet_count_failure a' : quiet hist (count_failure a) a' -> quiet hist a a'.
Proof. by intros (Hr & Ha & Hg). Qed.
End Quiet.

Lemma quiet_step hist a a' :
  round_ok hist (sm a) -> answer (sm a) = false -> sm_WPA_PTK_Step cfg a = Some a' -> quiet hist a a'.
Proof.
  intros Hr Ha H. pose proof Hr as (Hptk & H2 & H3 & H4). unfold sm_WPA_PTK_Step in H. cbv zeta in H.
  fold (answer (sm a)) in H. rewrite Ha, H2 in H. cbn [andb] in H.
  destruct (Disconnect (sm a)); [injection H as <-; by apply quiet_DISCONNECT|].
  destruct (DeauthenticationRequest (sm a)); [injection H as <-; by apply quiet_DISCONNECTED|].
  destruct (AuthenticationRequest (sm a)); [injection H as <-; by apply quiet_AUTHENTICATION|].
  destruct (ReAuthenticationRequest (sm a)); [injection H as <-; apply quiet_AUTHENTICATION2; auto|].
  destruct (PTKRequest (sm a)); [injection H as <-; apply quiet_PTKSTART; auto|].
  unfold ptk_ok in Hptk.
  assert (quiet hist a (enter_DISCONNECT (count_failure a))) as Hd
    by (apply quiet_count_failure, quiet_DISCONNECT; done).
  destruct (wpa_ptk_state (sm a)); try (injection H as <-);
    auto using quiet_refl, quiet_DISCONNECTED, quiet_INITIALIZE, quiet_AUTHENTICATION2, quiet_PTKSTART.
  - repeat case_match; injection H as <-; auto using quiet_refl, quiet_INITPMK, quiet_INITPSK.
  - repeat case_match; injection H as <-; auto using quiet_refl, quiet_PTKSTART.
  - destruct Hptk as [Hm Hg]. destruct (MICVerified (sm a)); [injection H as <-; by apply quiet_PTKCALCNEGOTIATING2|].
    case_match; injection H as <-; auto using quiet_refl, quiet_PTKSTART.
  - by eapply quiet_PTKINITNEGOTIATING.
  - case_match; [by injection H as <-|]. case_match; [by eapply quiet_PTKINITNEGOTIATING|].
    injection H as <-. by apply quiet_refl.
Qed.

Lemma quiet_trans hist a b c : quiet hist a b -> quiet hist b c -> quiet hist a c.
Proof. intros (_ & _ & H1) (Hr & Ha & H2). split_and!; [done|done|by eapply grows_trans]. Qed.

(** Where the loop stops: nothing but a new PTK is requested, and a handshake
    that waits for a valid message 2 has no PTK. *)
Definition at_rest (s : wpa_state_machine) : Prop :=
  Disconnect s = false /\ DeauthenticationRequest s = false /\ AuthenticationRequest s = false /\
  ReAuthenticationRequest s = false /\
  (wpa_ptk_state s = WPA_PTK_PTKCALCNEGOTIATING -> MICVerified s = false).

Lemma at_rest_zero : at_rest sm_zero.
Proof. by repeat split. Qed.

Lemma send_changed a ki rsc n kde i e :
  changed (sm (wpa_send_eapol cfg a ki rsc n kde i e)) = changed (sm a).
Proof. by destruct (rank_resent _ _ (send_sm cfg a ki rsc n kde i e)). Qed.

Lemma disconnect_stops a : changed (sm (enter_DISCONNECT a)) = false -> sm (enter_DISCONNECT a) = sm_zero.
Proof. unfold enter_DISCONNECT, wpa_sta_disconnect. cbn. by destruct (sta_valid a). Qed.

Lemma ptkstart_changed a : changed (sm (enter_PTKSTART cfg a)) = true.
Proof. unfold enter_PTKSTART. cbv zeta. case_match; [done|by rewrite send_changed]. Qed.

Lemma ptkcalc_changed a a' : enter_PTKCALCNEGOTIATING cfg a = Some a' -> changed (sm a') = true.
Proof.
  unfold enter_PTKCALCNEGOTIATING. cbv zeta.
  destruct (wpa_derive_ptk _ _ _) as [ptk|]; [|done]. cbn [mbind option_bind].
  destruct (last_rx_eapol_key _) as [f|]; [|done]. cbn [mbind option_bind].
  destruct (wpa_verify_key_mic _ _ _) as [r|]; [|done]. cbn [mbind option_bind].
  by case_match; intros [= <-].
Qed.

Lemma ptkinitneg_changed a a' : enter_PTKINITNEGOTIATING cfg a = Some a' -> changed (sm a') = true.
Proof.
  unfold enter_PTKINITNEGOTIATING. cbv zeta. case_match; [by intros [= <-]|].
  destruct (msg3_wpa_ie _ _) as [ie|]; [|done]. cbn [mbind option_bind alloc].
  case_match; [by intros [= <-]|].
  destruct (msg3_kde _ _ _) as [kde|]; [|done]. cbn [mbind option_bind]. intros [= <-]. by rewrite send_changed.
Qed.

Lemma ptkinitdone_changed a a' : enter_PTKINITDONE a = Some a' -> changed (sm a') = true.
Proof.
  unfold enter_PTKINITDONE. cbv zeta.
  repeat case_match; cbn [mbind option_bind]; intros; simplify_eq/=; by repeat case_match.
Qed.

Lemma initialize_changed a : Init (sm a) = false -> changed (sm (enter_INITIALIZE a)) = true.
Proof. intros H. unfold enter_INITIALIZE, wpa_remove_ptk. cbn. rewrite H. cbn. by destruct (pairwise_set (sm a)). Qed.

Lemma step_stops a a' :
  Init (sm a) = false -> sm_WPA_PTK_Step cfg a = Some a' -> changed (sm a') = false -> at_rest (sm a').
Proof.
  intros H1 H Hc. unfold sm_WPA_PTK_Step in H. cbv zeta in H. rewrite H1 in H.
  assert (forall b, changed (sm (enter_DISCONNECT b)) = false -> at_rest (sm (enter_DISCONNECT b))) as Hdis.
  { intros b Hb. rewrite (disconnect_stops _ Hb). apply at_rest_zero. }
  destruct (Disconnect (sm a)) eqn:E2; [injection H as <-; auto|].
  destruct (DeauthenticationRequest (sm a)) eqn:E3; [injection H as <-; discriminate Hc|].
  destruct (AuthenticationRequest (sm a)) eqn:E4; [injection H as <-; discriminate Hc|].
  destruct (ReAuthenticationRequest (sm a)) eqn:E5; [injection H as <-; discriminate Hc|].
  destruct (PTKRequest (sm a)) eqn:E6; [injection H as <-; by rewrite ptkstart_changed in Hc|].
  destruct (wpa_ptk_state (sm a)) eqn:Est;
    repeat (case_match; try discriminate); try (injection H as <-); auto;
    try (by rewrite ptkstart_changed in Hc);
    try (by apply ptkcalc_changed in H; congruence);
    try (by apply ptkinitneg_changed in H; congruence);
    try (by apply ptkinitdone_changed in H; congruence);
    try (by rewrite initialize_changed in Hc by done);
    try (by split_and!; try done; rewrite Est).
Qed.

Lemma quiet_loop hist fuel : forall a a',
  round_ok hist (sm a) -> answer (sm a) = false -> step_loop cfg fuel a = Some (Some a') ->
  quiet hist a a' /\ (started (sm a') = true -> at_rest (sm a')).
Proof.
  induction fuel as [|f IH]; intros a a' Hr Ha; cbn [step_loop]; [done|].
  destruct (started (sm a)) eqn:Es; cbn [negb].
  2:{ intros [= <-]. split; [by apply quiet_refl|congruence]. }
  set (a0 := with_sm a _).
  destruct (sm_WPA_PTK_Step cfg a0) as [a1|] eqn:E; [|done].
  assert (quiet hist a0 a1) as Hq by (by apply quiet_step).
  assert (quiet hist a a1) as Hq' by exact Hq.
  destruct (changed (sm a1)) eqn:Ec.
  - intros H. destruct Hq as (Hr1 & Ha1 & _). destruct (IH a1 a' Hr1 Ha1 H) as [Hq2 Hs].
    split; [by eapply quiet_trans|done].
  - intros [= <-]. split; [done|intros _]. apply (step_stops a0); [by destruct Hr as (_ & ? & _)|done|done].
Qed.

(** Between events. *)
Definition settled (hist : list auth_event) (a : auth_state) : Prop :=
  round_ok hist (sm a) /\ answer (sm a) = false /\ in_step_loop (sm a) = false /\
  (started (sm a) = true -> at_rest (sm a)).

Lemma settled_zero hist a : settled hist (a <| sm := sm_zero |>).
Proof. split_and!; by repeat split. Qed.

Lemma settled_sm hist a b : sm b = sm a -> settled hist a -> settled hist b.
Proof. unfold settled. by intros ->. Qed.

Lemma sm_step_loop hist (P : effect -> Prop) a r a' :
  started (sm a) = true -> in_step_loop (sm a) = false ->
  (forall b, step_loop cfg step_fuel (with_sm a (fun s => s <| in_step_loop := true |>)) = Some (Some b) ->
     round_ok hist (sm b) /\ answer (sm b) = false /\ adds P a b /\ (started (sm b) = true -> at_rest (sm b))) ->
  wpa_sm_step cfg a = Some (r, a') -> settled hist a' /\ adds P a a'.
Proof.
  intros Hs Hl Hloop. unfold wpa_sm_step. rewrite Hs, Hl. cbn [negb].
  destruct (step_loop _ _ _) as [[b|]|]; cbn [mjoin option_join mbind option_bind]; [|done|done].
  destruct (Hloop b eq_refl) as (Hr & Ha & Hadd & Hrest). intros H. injection H as _ <-. by split_and!.
Qed.

Lemma sm_step_quiet hist a r a' :
  round_ok hist (sm a) -> answer (sm a) = false -> in_step_loop (sm a) = false ->
  wpa_sm_step cfg a = Some (r, a') -> settled hist a' /\ grows a a'.
Proof.
  intros Hr Ha Hl. destruct (started (sm a)) eqn:Hs.
  - apply sm_step_loop; [done|done|]. intros b Hb.
    apply (quiet_loop hist) in Hb as [(Hr' & Ha' & Hg) Hrest]; [|done|done]. by split_and!.
  - unfold wpa_sm_step. rewrite Hs. intros [= <- <-]. split; [split_and!; try done; congruence|apply grows_refl].
Qed.

(** *** A received frame *)

(** The machine holds the frame of a message 2 that has not been checked yet. *)
Definition waiting (hist : list auth_event) (s : wpa_state_machine) : Prop :=
  round_ok hist s /\ PTK_valid s = false /\ MICVerified s = false /\ answer s = true /\
  (wpa_ptk_state s = WPA_PTK_PTKSTART \/ wpa_ptk_state s = WPA_PTK_PTKCALCNEGOTIATING) /\
  Disconnect s = false /\ DeauthenticationRequest s = false /\ AuthenticationRequest s = false /\
  ReAuthenticationRequest s = false /\ started s = true /\
  exists f, last_rx_eapol_key s = Some f /\ EvFrame f ∈ hist /\ slice f off_nonce 32 = Some (SNonce s).

Lemma waiting_resent hist s s' : resent s s' -> waiting hist s -> waiting hist s'.
Proof. intros (r & p & ->) H. exact H. Qed.

Lemma waiting_PTKSTART hist a :
  waiting hist (sm a) -> waiting hist (sm (enter_PTKSTART cfg a)) /\ grows a (enter_PTKSTART cfg a).
Proof.
  intros ((Hp & H2 & H3 & H4) & Hv & Hm & Ha & Hst & HD & HDe & HA & HR & Hs & Hf).
  unfold enter_PTKSTART. set (a1 := with_sm _ _). cbv zeta.
  assert (waiting hist (sm a1)) as Hw by (split_and!; try done; by left).
  assert (grows a a1) as Hg by (by apply grows_same).
  case_match; [done|]. split.
  - eapply waiting_resent; [apply (send_sm cfg)|done].
  - eapply grows_trans; [done|apply send_grows].
Qed.

(** The machine in [PTKCALCNEGOTIATING] once the received frame was taken. *)
Definition calc_entered (s : wpa_state_machine) : wpa_state_machine :=
  s <| changed := true |> <| wpa_ptk_state := WPA_PTK_PTKCALCNEGOTIATING |> <| EAPOLKeyReceived := false |>.

Lemma ptkcalc_out a a' : enter_PTKCALCNEGOTIATING cfg a = Some a' -> out a' = out a.
Proof.
  unfold enter_PTKCALCNEGOTIATING. cbv zeta.
  destruct (wpa_derive_ptk _ _ _) as [ptk|]; [|done]. cbn [mbind option_bind].
  destruct (last_rx_eapol_key _) as [f|]; [|done]. cbn [mbind option_bind].
  destruct (wpa_verify_key_mic _ _ _) as [r|]; [|done]. cbn [mbind option_bind].
  by case_match; intros [= <-].
Qed.

Lemma ptkcalc_sm a a' f :
  wpa_key_mgmt_wpa_psk (sta_wpa_key_mgmt (assoc (sm a))) = true -> last_rx_eapol_key (sm a) = Some f ->
  enter_PTKCALCNEGOTIATING cfg a = Some a' ->
  sm a' = calc_entered (sm a) \/
  let ptk := kc_prf (psk cfg) ptk_label
               (ordered (own_addr cfg) (addr (sm a)) ++ ordered (ANonce (sm a)) (SNonce (sm a))) 48 in
  wpa_verify_key_mic ptk f (length f) = Some 0 /\
  sm a' = calc_entered ((sm a) <| pending_1_of_4_timeout := false |> <| PMK := psk cfg |>
            <| MICVerified := true |> <| PTK := ptk |> <| PTK_valid := true |>).
Proof.
  intros Hk Hf. unfold enter_PTKCALCNEGOTIATING. cbv zeta. set (a0 := with_sm (SM_ENTRY _ _) _).
  change (last_rx_eapol_key (sm a0)) with (last_rx_eapol_key (sm a)).
  change (sta_wpa_key_mgmt (assoc (sm a0))) with (sta_wpa_key_mgmt (assoc (sm a))). rewrite Hk, Hf.
  assert (sm a0 = calc_entered (sm a)) as Hs by reflexivity. clearbody a0.
  unfold wpa_derive_ptk. rewrite Hs.
  change (addr (calc_entered (sm a))) with (addr (sm a)).
  change (ANonce (calc_entered (sm a))) with (ANonce (sm a)).
  change (SNonce (calc_entered (sm a))) with (SNonce (sm a)).
  case_match; cbn [mbind option_bind]; [|done].
  set (ptk := kc_prf _ _ _ _). clearbody ptk.
  destruct (wpa_verify_key_mic ptk f (length f)) as [r|]; cbn [mbind option_bind]; [|done].
  destruct (r =? 0) eqn:Er; cbn [negb]; intros [= <-]; [right|by left].
  split; [f_equal; lia|]. cbn. by rewrite Hs.
Qed.

Lemma waiting_PTKCALC hist a a' :
  waiting hist (sm a) -> PTKRequest (sm a) = false -> enter_PTKCALCNEGOTIATING cfg a = Some a' ->
  round_ok hist (sm a') /\ answer (sm a') = false /\ grows a a'.
Proof.
  intros ((Hp & H2 & H3 & H4) & Hv & Hm & Ha & Hst & HD & HDe & HA & HR & Hs & f & Hf & Hin & Hn) Hreq H.
  assert (grows a a') as Hg by (by apply grows_same, ptkcalc_out).
  apply (ptkcalc_sm a a' f) in H; [|by rewrite H4|done].
  destruct H as [->|[Hmic ->]].
  - split_and!; [| |done]; [|done]. split_and!; try done. split; cbn; congruence.
  - set (ptk := kc_prf _ _ _ _) in *.
    assert (ptk = kc_prf (psk cfg) ptk_label
      (ordered (own_addr cfg) (addr (sm a)) ++ ordered (ANonce (sm a)) (SNonce (sm a))) 48) as Hptk by reflexivity.
    clearbody ptk. split_and!; [|done|done]. split_and!.
    + split; [done|intros _]. by exists (SNonce (sm a)), f.
    + done.
    + cbn. by rewrite HR, Hreq.
    + done.
Qed.

Lemma waiting_step hist a a' :
  waiting hist (sm a) -> sm_WPA_PTK_Step cfg a = Some a' ->
  changed (sm a') = true /\ grows a a' /\
  (waiting hist (sm a') \/ round_ok hist (sm a') /\ answer (sm a') = false).
Proof.
  intros Hw E. pose proof Hw as ((_ & HI & _) & Hv & Hm & Ha & Hst & HD & HDe & HA & HR & Hs & _).
  unfold sm_WPA_PTK_Step in E. cbv zeta in E. rewrite HI, HD, HDe, HA, HR in E.
  fold (answer (sm a)) in E. rewrite Ha, Hm in E.
  destruct (PTKRequest (sm a)) eqn:Hreq.
  - injection E as <-. rewrite ptkstart_changed. destruct (waiting_PTKSTART hist a Hw). auto.
  - assert (enter_PTKCALCNEGOTIATING cfg a = Some a') as E' by (by destruct Hst as [Hst|Hst]; rewrite Hst in E).
    destruct (waiting_PTKCALC hist a a' Hw Hreq E') as (Hr & Ha' & Hg).
    split; [by eapply ptkcalc_changed|auto].
Qed.

Lemma waiting_loop hist fuel : forall a a',
  waiting hist (sm a) -> step_loop cfg fuel a = Some (Some a') ->
  quiet hist a a' /\ (started (sm a') = true -> at_rest (sm a')).
Proof.
  induction fuel as [|f IH]; intros a a' Hw; cbn [step_loop]; [done|].
  assert (started (sm a) = true) as -> by apply Hw. cbn [negb]. set (a0 := with_sm a _).
  assert (waiting hist (sm a0)) as Hw0 by exact Hw.
  assert (grows a a0) as Hg0 by (by apply grows_same). clearbody a0.
  destruct (sm_WPA_PTK_Step cfg a0) as [a1|] eqn:E; [|done].
  destruct (waiting_step hist a0 a1 Hw0 E) as (-> & Hg1 & Hnext). intros H.
  assert (quiet hist a1 a' /\ (started (sm a') = true -> at_rest (sm a'))) as [(Hr & Ha & Hg) Hrest].
  { destruct Hnext as [Hw1|[Hr1 Ha1]]; [by apply IH|by apply (quiet_loop hist f)]. }
  split; [|done]. split_and!; [done|done|]. eauto using grows_trans.
Qed.

(** The last round of a handshake. *)
Definition granted (s : wpa_state_machine) (e : effect) : Prop :=
  harmless e \/ e = SetKey WPA_ALG_CCMP 0 (tk1 (PTK s)) \/ e = Authorize.

Lemma adds_weaken (P Q : effect -> Prop) a b : (forall e, P e -> Q e) -> adds P a b -> adds Q a b.
Proof. intros H (n & Hn & F). exists n. split; [done|]. by eapply Forall_impl. Qed.

Lemma adds_trans P a b c : adds P a b -> adds P b c -> adds P a c.
Proof.
  intros (n1 & H1 & F1) (n2 & H2 & F2). exists (n1 ++ n2).
  rewrite H2, H1, app_assoc. split; [done|]. by apply Forall_app.
Qed.

Lemma grows_granted s a b : grows a b -> adds (granted s) a b.
Proof. apply adds_weaken. by left. Qed.

Lemma done_step hist a a' :
  round_ok hist (sm a) -> at_rest (sm a) -> PTK_valid (sm a) = true ->
  wpa_ptk_state (sm a) = WPA_PTK_PTKINITNEGOTIATING -> MICVerified (sm a) = true -> answer (sm a) = true ->
  sm_WPA_PTK_Step cfg a = Some a' ->
  changed (sm a') = true /\ round_ok hist (sm a') /\ answer (sm a') = false /\ adds (granted (sm a)) a a'.
Proof.
  intros Hr (HD & HDe & HA & HR & _) Hv Hst Hm Ha E.
  pose proof Hr as (Hp & HI & H3 & H4). unfold ptk_ok in Hp. rewrite Hst in Hp.
  assert (PTKRequest (sm a) = false) as Hreq.
  { destruct (PTKRequest (sm a)); [|done]. rewrite H3 in Hv; [done|by rewrite orb_true_r]. }
  unfold sm_WPA_PTK_Step in E. cbv zeta in E. rewrite HI, HD, HDe, HA, HR, Hreq, Hst in E.
  fold (answer (sm a)) in E. rewrite Ha, Hm in E. cbn [andb] in E.
  split; [by eapply ptkinitdone_changed|]. unfold enter_PTKINITDONE in E. cbv zeta in E.
  repeat (case_match; cbn [mbind option_bind] in E; try discriminate); injection E as <-;
    (split_and!; [by split_and!|done|]).
  - exists [SetKey WPA_ALG_CCMP 0 (tk1 (PTK (sm a))); Authorize].
    split; [cbn; by rewrite <- app_assoc|]. constructor; [by right; left|]. constructor; [by right; right|done].
  - exists [SetKey WPA_ALG_CCMP 0 (tk1 (PTK (sm a)))]. split; [done|]. constructor; [by right; left|done].
  - exists [Authorize]. split; [done|]. constructor; [by right; right|done].
  - exists []. split; [by rewrite app_nil_r|constructor].
Qed.

Lemma done_loop hist fuel a a' :
  round_ok hist (sm a) -> at_rest (sm a) -> started (sm a) = true -> PTK_valid (sm a) = true ->
  wpa_ptk_state (sm a) = WPA_PTK_PTKINITNEGOTIATING -> MICVerified (sm a) = true -> answer (sm a) = true ->
  step_loop cfg fuel a = Some (Some a') ->
  round_ok hist (sm a') /\ answer (sm a') = false /\ adds (granted (sm a)) a a' /\
  (started (sm a') = true -> at_rest (sm a')).
Proof.
  intros Hr Hrest Hs Hv Hst Hm Ha. destruct fuel as [|f]; cbn [step_loop]; [done|]. rewrite Hs. cbn [negb].
  destruct (sm_WPA_PTK_Step cfg _) as [a1|] eqn:E; [|done].
  destruct (done_step hist (with_sm a (fun s => s <| changed := false |>)) a1) as (-> & Hr1 & Ha1 & Hg1); try done.
  intros H. apply (quiet_loop hist) in H as [(Hr2 & Ha2 & Hg2) Hrest2]; [|done|done].
  split_and!; try done. eapply adds_trans; [exact Hg1|by apply grows_granted].
Qed.

(** What a frame can bring about: it is settled with the frame in the history,
    and either it has given the station nothing, or the machine was waiting for
    message 4, the frame had the MIC of the PTK and a replay counter that is in
    use. *)
Definition frame_ok (hist : list auth_event) (a : auth_state) (data : list Z) (a' : auth_state) : Prop :=
  settled (hist ++ [EvFrame data]) a' /\
  (grows a a' \/
   adds (granted (sm a)) a a' /\ wpa_ptk_state (sm a) = WPA_PTK_PTKINITNEGOTIATING /\
   PTK_valid (sm a) = true /\ wpa_verify_key_mic (PTK (sm a)) data (length data) = Some 0).

Lemma genuine_more hist l s : genuine hist s -> genuine (hist ++ l) s.
Proof. intros (sn & f & H1 & H2 & H3 & H4). exists sn, f. split_and!; try done. apply elem_of_app. by left. Qed.

Lemma round_more hist l s : round_ok hist s -> round_ok (hist ++ l) s.
Proof.
  intros (Hp & H). split; [|done]. clear H. unfold ptk_ok in *.
  destruct (wpa_ptk_state s); try done; try (intros; by apply genuine_more, Hp).
  destruct Hp as [? Hp]. split; [done|]. intros. by apply genuine_more, Hp.
Qed.

Lemma settled_more hist l a : settled hist a -> settled (hist ++ l) a.
Proof. intros (H & H'). split; [by apply round_more|done]. Qed.

Lemma alloc_same a ok a1 : alloc cfg a = (ok, a1) -> out a1 = out a /\ sm a1 = sm a.
Proof. unfold alloc. by intros [= _ <-]. Qed.

Lemma accept_frame_cases a data key_info a' :
  accept_frame cfg a data (length data) key_info = Some a' ->
  (out a' = out a /\ sm a' = (sm a) <| last_rx_eapol_key := None |>) \/
  exists nonce b r,
    slice data off_nonce 32 = Some nonce /\ sm b = stored (sm a) data nonce key_info /\ out b = out a /\
    wpa_sm_step cfg b = Some (r, a').
Proof.
  unfold accept_frame. destruct (alloc cfg a) as [ok a1] eqn:E. apply alloc_same in E as [<- <-].
  destruct (negb ok); [intros [= <-]; by left|]. rewrite slice_whole. intros H. right.
  apply bind_Some in H as (? & [= <-] & (nonce & Hn & ([r b] & Hb & [= ->])%bind_Some)%bind_Some).
  eexists nonce, _, r. split; [exact Hn|]. split; [|split; [|exact Hb]]; reflexivity.
Qed.

Lemma round_stored hist s data nonce key_info : round_ok hist s -> round_ok hist (stored s data nonce key_info).
Proof. intros H. exact H. Qed.

Lemma grows_from a b c : out b = out a -> grows b c -> grows a c.
Proof. intros H (n & Hn & F). exists n. by rewrite <- H. Qed.

Lemma accept_settled hist a data key_info a' :
  settled hist a -> has key_info WPA_KEY_INFO_REQUEST || negb (has key_info WPA_KEY_INFO_KEY_TYPE) = true ->
  accept_frame cfg a data (length data) key_info = Some a' -> settled hist a' /\ grows a a'.
Proof.
  intros (Hr & Ha & Hl & Hs) Hk [[Ho Hsm]|(nonce & b & r & Hn & Hsm & Ho & H)]%accept_frame_cases.
  - split; [|by apply grows_same]. unfold settled. rewrite Hsm. by split_and!.
  - apply (sm_step_quiet hist) in H as [Hset Hg]; rewrite ?Hsm; [|by apply round_stored| |done].
    { split; [done|by eapply grows_from]. }
    unfold answer, stored. cbn. apply orb_true_iff in Hk as [->|Hk]; [done|].
    apply negb_true_iff in Hk as ->. by rewrite andb_false_r.
Qed.

(** A message 2: no PTK is valid. *)
Lemma accept_msg2 hist a data key_info a' :
  settled hist a -> started (sm a) = true -> PTK_valid (sm a) = false -> MICVerified (sm a) = false ->
  (wpa_ptk_state (sm a) = WPA_PTK_PTKSTART \/ wpa_ptk_state (sm a) = WPA_PTK_PTKCALCNEGOTIATING) ->
  has key_info WPA_KEY_INFO_REQUEST = false -> has key_info WPA_KEY_INFO_KEY_TYPE = true ->
  accept_frame cfg a data (length data) key_info = Some a' ->
  settled (hist ++ [EvFrame data]) a' /\ grows a a'.
Proof.
  intros Hset Hs Hv Hm Hst Hq Hk [[Ho Hsm]|(nonce & b & r & Hn & Hsm & Ho & H)]%accept_frame_cases.
  - split; [|by apply grows_same]. apply settled_more. unfold settled. rewrite Hsm. exact Hset.
  - destruct Hset as (Hr & Ha & Hl & Hrest). destruct (Hrest Hs) as (HD & HDe & HA & HR & _).
    apply (round_more _ [EvFrame data]) in Hr.
    assert (waiting (hist ++ [EvFrame data]) (sm b)) as Hw.
    { rewrite Hsm. split_and!; try done; try (by apply Hr).
      - unfold answer, stored. cbn. by rewrite Hq, Hk.
      - exists data. split_and!; [done| |done]. apply elem_of_app. right. by left. }
    apply (sm_step_loop (hist ++ [EvFrame data]) harmless) in H as [H Hg]; try (by rewrite Hsm).
    { split; [done|by eapply grows_from]. }
    intros c Hc. apply (waiting_loop (hist ++ [EvFrame data])) in Hc as [(Hr' & Ha' & Hg) Hrest']; [|exact Hw].
    by split_and!.
Qed.

(** A message 4 under a valid PTK whose MIC is right. *)
Lemma accept_msg4 hist a data key_info a' :
  settled hist a -> started (sm a) = true -> PTK_valid (sm a) = true -> MICVerified (sm a) = true ->
  wpa_ptk_state (sm a) = WPA_PTK_PTKINITNEGOTIATING ->
  has key_info WPA_KEY_INFO_REQUEST = false -> has key_info WPA_KEY_INFO_KEY_TYPE = true ->
  accept_frame cfg a data (length data) key_info = Some a' ->
  settled hist a' /\ adds (granted (sm a)) a a'.
Proof.
  intros Hset Hs Hv Hm Hst Hq Hk [[Ho Hsm]|(nonce & b & r & Hn & Hsm & Ho & H)]%accept_frame_cases.
  - split; [|by apply grows_granted, grows_same]. unfold settled. rewrite Hsm. exact Hset.
  - destruct Hset as (Hr & Ha & Hl & Hrest). specialize (Hrest Hs).
    apply (sm_step_loop hist (granted (sm a))) in H as [H (n & Hn' & F)]; try (by rewrite Hsm).
    { split; [done|]. exists n. by rewrite <- Ho. }
    intros c Hc. apply (done_loop hist) in Hc as (Hr' & Ha' & Hadd & Hrest'); cbn; rewrite ?Hsm; try done.
    { split_and!; [done|done| |done]. eapply adds_weaken; [|exact Hadd].
      intros e. unfold granted. cbn. by rewrite Hsm. }
    unfold answer, stored. cbn. by rewrite Hq, Hk.
Qed.

Lemma disconnect_cases hist a :
  settled hist a -> settled hist (wpa_sta_disconnect a) /\ grows a (wpa_sta_disconnect a).
Proof.
  intros Hs. unfold wpa_sta_disconnect. destruct (sta_valid a).
  - split; [exact (settled_zero hist a)|]. exists [Deauthenticate]. split; [done|]. by repeat constructor.
  - split; [done|apply grows_refl].
Qed.

(** What the checks of a message kind leave. *)
Definition checked_ok (hist : list auth_event) (a : auth_state) (msg : eapol_msg) (r : auth_state + auth_state) :=
  match r with
  | inl b => settled hist b /\ grows a b
  | inr b =>
      sm b = sm a /\ out b = out a /\ (msg = GROUP_2 \/ msg = REQUEST \/
        msg = PAIRWISE_2 /\ (wpa_ptk_state (sm a) = WPA_PTK_PTKSTART \/
                             wpa_ptk_state (sm a) = WPA_PTK_PTKCALCNEGOTIATING) \/
        msg = PAIRWISE_4 /\ wpa_ptk_state (sm a) = WPA_PTK_PTKINITNEGOTIATING /\ PTK_valid (sm a) = true)
  end.

Lemma check_msg_ok hist a msg kd l r :
  settled hist a -> check_msg cfg a msg kd l = Some r -> checked_ok hist a msg r.
Proof.
  intros Hs. unfold check_msg. cbv zeta. destruct msg; try (intros [= <-]; split_and!; auto using grows_refl; fail).
  - case_match eqn:Est; [intros [= <-]; split; auto using grows_refl|].
    intros ([r0 kde] & _ & H)%bind_Some. destruct (r0 <? 0); [injection H as <-; split; auto using grows_refl|].
    destruct (match kde_rsn_ie kde with Some p => _ | None => _ end) as [p0 l0].
    destruct (alloc cfg a) as [ok b] eqn:E. apply alloc_same in E as [Ho Hsm].
    assert (checked_ok hist a PAIRWISE_2 (inl (wpa_sta_disconnect b))) as Hdis.
    { destruct (disconnect_cases hist b) as [H1 H2]; [by eapply settled_sm|]. split; [done|by eapply grows_from]. }
    destruct (sta_wpa_ie (assoc (sm a))) as [mine|]; [|by injection H as <-].
    apply bind_Some in H as (c & _ & H). destruct (c =? 0); injection H as <-; [|done].
    split_and!; [done|done|]. right. right. left. split; [done|]. 
    rewrite <- negb_orb, negb_false_iff, orb_true_iff, !bool_decide_eq_true in Est. done.
  - case_match eqn:Est; intros [= <-]; [split; auto using grows_refl|].
    rewrite orb_false_iff, !negb_false_iff, bool_decide_eq_true in Est. destruct Est.
    split_and!; [done|done|]. by right; right; right.
Qed.

Lemma ptk_dropped hist s s' :
  wpa_ptk_state s' = wpa_ptk_state s -> PTK_valid s' = false ->
  (wpa_ptk_state s = WPA_PTK_PTKCALCNEGOTIATING -> MICVerified s' = false) -> ptk_ok hist s'.
Proof.
  intros H1 H2 H3. unfold ptk_ok. rewrite H1. destruct (wpa_ptk_state s); try done; rewrite H2; try done.
  split; [auto|done].
Qed.

Lemma new_ptk_settled hist a : settled hist a -> settled hist (wpa_request_new_ptk a).
Proof.
  unfold wpa_request_new_ptk. destruct (started (sm a)) eqn:Hs; [|done].
  intros ((Hp & HI & H3 & H4) & Ha & Hl & Hr). specialize (Hr Hs). unfold settled, round_ok. split_and!; try done; try (by intros _).
  apply (ptk_dropped _ (sm a)); [done|done|]. apply Hr.
Qed.

(** The MIC of the frame is about to be checked. *)
Lemma unverified_settled hist a :
  settled hist a -> started (sm a) = true -> settled hist (with_sm a (fun s => s <| MICVerified := false |>)).
Proof.
  intros ((Hp & HI & H3 & H4) & Ha & Hl & Hr) Hs. destruct (Hr Hs) as (R1 & R2 & R3 & R4 & R5).
  unfold settled, round_ok. split_and!; try done; try (by intros _; split_and!). unfold ptk_ok in *. cbn.
  destruct (wpa_ptk_state (sm a)); try done. destruct Hp as [Hp ?]. split; [|done]. by rewrite <- Hp, R5.
Qed.

(** The MIC of the frame is right under a valid PTK. *)
Definition verified (a : auth_state) : auth_state :=
  cancel_timeout (with_sm a (fun s => s <| MICVerified := true |> <| pending_1_of_4_timeout := false |>)).

Lemma verified_settled hist a :
  settled hist a -> started (sm a) = true -> PTK_valid (sm a) = true -> settled hist (verified a).
Proof.
  intros ((Hp & HI & H3 & H4) & Ha & Hl & Hr) Hs Hv. destruct (Hr Hs) as (R1 & R2 & R3 & R4 & R5).
  assert (wpa_ptk_state (sm a) <> WPA_PTK_PTKCALCNEGOTIATING) as Hst.
  { intros E. unfold ptk_ok in Hp. rewrite E, R5 in Hp; [|done]. destruct Hp. congruence. }
  unfold settled, round_ok. split_and!; try done; try (by intros _; split_and!). unfold ptk_ok in *. cbn. by destruct (wpa_ptk_state (sm a)).
Qed.

Lemma handle_request_ok hist a key_info replay b :
  settled hist a -> handle_request cfg a key_info replay = inl b \/ handle_request cfg a key_info replay = inr b ->
  settled hist b /\ out b = out a.
Proof.
  intros Hs H.
  assert (settled hist (with_sm a (fun s => s <| req_replay_counter_used := true |> <| req_replay_counter := replay |>)))
    as Hs1 by exact Hs.
  unfold handle_request in H. destruct (MICVerified (sm a)); [|by destruct H as [[= <-]|[=]]].
  cbv zeta in H. set (a1 := with_sm a _) in *. assert (out a1 = out a) as Ho by reflexivity. clearbody a1.
  assert (forall c, out (wpa_request_new_ptk c) = out c) as Hn
    by (intros c; unfold wpa_request_new_ptk; by destruct (started (sm c))).
  repeat case_match; destruct H as [[=]|[= <-]].
  - unfold wpa_receive_error_report. rewrite Hn. split; [|by case_match].
    apply new_ptk_settled. case_match; [done|exact Hs1].
  - rewrite Hn. split; [by apply new_ptk_settled|done].
  - done.
Qed.

Lemma frame_ok_same hist a data : settled hist a -> frame_ok hist a data a.
Proof. intros Hs. split; [by apply settled_more|left; apply grows_refl]. Qed.

Lemma frame_ok_quiet hist a b data a' :
  out b = out a -> settled hist a' /\ grows b a' -> frame_ok hist a data a'.
Proof. intros Ho [Hs Hg]. split; [by apply settled_more|left; by eapply grows_from]. Qed.

(** The frame that ends a handshake can only come in the state that waits for
    message 4, and the one that derives a PTK in those that wait for message 2. *)
Definition expected (s : wpa_state_machine) (key_info : Z) : Prop :=
  has key_info WPA_KEY_INFO_REQUEST = true \/ has key_info WPA_KEY_INFO_KEY_TYPE = false \/
  wpa_ptk_state s = WPA_PTK_PTKSTART \/ wpa_ptk_state s = WPA_PTK_PTKCALCNEGOTIATING \/
  wpa_ptk_state s = WPA_PTK_PTKINITNEGOTIATING /\ PTK_valid s = true.

Lemma waiting_no_ptk hist a :
  settled hist a -> started (sm a) = true ->
  (wpa_ptk_state (sm a) = WPA_PTK_PTKSTART \/ wpa_ptk_state (sm a) = WPA_PTK_PTKCALCNEGOTIATING) ->
  PTK_valid (sm a) = false.
Proof.
  intros ((Hp & _) & _ & _ & Hr) Hs Hst. destruct (Hr Hs) as (_ & _ & _ & _ & Hm). unfold ptk_ok in Hp.
  destruct Hst as [E|E]; rewrite E in Hp; [done|]. destruct Hp as [<- _]. auto.
Qed.

(** The rest of [receive_checked] for a frame whose MIC is right, or not yet
    checked because no PTK is valid. *)
Lemma receive_accepted hist a data key_info a' :
  settled hist a -> started (sm a) = true -> expected (sm a) key_info ->
  MICVerified (sm a) = PTK_valid (sm a) -> has key_info WPA_KEY_INFO_REQUEST = false ->
  (PTK_valid (sm a) = true -> wpa_verify_key_mic (PTK (sm a)) data (length data) = Some 0) ->
  accept_frame cfg (with_sm a spend_replay) data (length data) key_info = Some a' -> frame_ok hist a data a'.
Proof.
  intros Hset Hs Hexp Hm Hq Hmic H. set (b := with_sm a spend_replay) in *.
  assert (out b = out a) as Ho by reflexivity.
  assert (exists r, sm b = (sm a) <| key_replay := r |>) as [r Hsm].
  { unfold b, spend_replay. cbn. destruct (key_replay (sm a)) as [|[c v] l]; [|by eexists].
    exists (key_replay (sm a)). by destruct (sm a). }
  clearbody b.
  assert (settled hist b) as Hset' by (unfold settled; rewrite Hsm; exact Hset).
  destruct Hexp as [Hexp|[Hk|Hst]]; [congruence| |].
  { apply (frame_ok_quiet _ _ b); [done|]. apply (accept_settled hist b data key_info a'); [done| |done].
    by rewrite Hk, orb_true_r. }
  destruct (has key_info WPA_KEY_INFO_KEY_TYPE) eqn:Hk.
  2:{ apply (frame_ok_quiet _ _ b); [done|]. apply (accept_settled hist b data key_info a'); [done| |done].
      by rewrite Hk, orb_true_r. }
  destruct Hst as [Hst|[Hst|[Hst Hv]]].
  1,2: assert (PTK_valid (sm a) = false) as Hv by (eapply waiting_no_ptk; eauto);
    apply (accept_msg2 hist) in H as [H1 H2]; rewrite ?Hsm; cbn; auto; try congruence;
    split; [done|left; by eapply grows_from].
  apply (accept_msg4 hist) in H as [H1 H2]; rewrite ?Hsm; cbn; auto; try congruence.
  split; [by apply settled_more|right]. split_and!; auto.
  destruct H2 as (n & Hn & F). exists n. split; [congruence|]. by rewrite Hsm in F.
Qed.

Lemma receive_checked_ok hist a data key_info replay a' :
  settled hist a -> started (sm a) = true -> expected (sm a) key_info ->
  receive_checked cfg a data (length data) key_info replay = Some a' -> frame_ok hist a data a'.
Proof.
  intros Hset Hs Hexp. unfold receive_checked.
  destruct (has key_info WPA_KEY_INFO_ACK); [intros [= <-]; by apply frame_ok_same|].
  destruct (has key_info WPA_KEY_INFO_MIC); cbn [negb]; [|intros [= <-]; by apply frame_ok_same].
  pose proof (unverified_settled _ _ Hset Hs) as Hset1.
  cbv zeta. set (a1 := with_sm a _) in *.
  assert (out a1 = out a /\ PTK_valid (sm a1) = PTK_valid (sm a) /\ PTK (sm a1) = PTK (sm a) /\
    started (sm a1) = true /\ MICVerified (sm a1) = false /\ expected (sm a1) key_info /\
    wpa_ptk_state (sm a1) = wpa_ptk_state (sm a))
    as (Ho & Hv1 & Hp1 & Hs1 & Hm1 & Hexp1 & Hst1) by done.
  clearbody a1. intros (r & Hr & H)%bind_Some.
  destruct (r =? 0) eqn:Er; cbn [negb] in H.
  2:{ injection H as <-. apply (frame_ok_quiet _ _ a1); [done|]. split; [done|apply grows_refl]. }
  apply Z.eqb_eq in Er as ->.
  set (a2 := if PTK_valid (sm a1) then _ else a1) in H.
  assert (settled hist a2 /\ out a2 = out a /\ started (sm a2) = true /\ expected (sm a2) key_info /\
    MICVerified (sm a2) = PTK_valid (sm a2) /\ PTK_valid (sm a2) = PTK_valid (sm a) /\ PTK (sm a2) = PTK (sm a) /\
    wpa_ptk_state (sm a2) = wpa_ptk_state (sm a))
    as (Hset2 & Ho2 & Hs2 & Hexp2 & Hm2 & Hv2 & Hp2 & Hst2).
  { unfold a2. destruct (PTK_valid (sm a1)) eqn:Hv; [|split_and!; congruence].
    split_and!; try done; try (cbn; congruence). by apply verified_settled. }
  assert (PTK_valid (sm a) = true -> wpa_verify_key_mic (PTK (sm a)) data (length data) = Some 0) as Hmic.
  { intros Hv. by rewrite Hv1, Hv, Hp1 in Hr. }
  clearbody a2. clear Hr.
  destruct (has key_info WPA_KEY_INFO_REQUEST) eqn:Hq.
  - destruct (handle_request cfg a2 key_info replay) as [b|b] eqn:E.
    + injection H as <-. destruct (handle_request_ok hist a2 key_info replay b) as [Hb Hob]; [done|by left|].
      apply (frame_ok_quiet _ _ b); [congruence|]. split; [done|apply grows_refl].
    + destruct (handle_request_ok hist a2 key_info replay b) as [Hb Hob]; [done|by right|].
      apply (frame_ok_quiet _ _ b); [congruence|]. apply (accept_settled hist b data key_info a'); [done| |done].
      by rewrite Hq.
  - apply (receive_accepted hist) in H as [H1 H2]; auto; [|rewrite Hv2, Hp2; done].
    split; [done|]. destruct H2 as [H2|(H2 & H3 & H4 & H5)]; [left; by eapply grows_from|right].
    rewrite Hst2 in H3. rewrite Hv2 in H4. rewrite Hp2 in H5. split_and!; try done.
    destruct H2 as (n & Hn & F). exists n. split; [congruence|]. unfold granted in F. by rewrite Hp2 in F.
Qed.

Lemma classify_expected key_info l s :
  (classify key_info l = GROUP_2 \/ classify key_info l = REQUEST \/
   classify key_info l = PAIRWISE_2 /\ (wpa_ptk_state s = WPA_PTK_PTKSTART \/
                                        wpa_ptk_state s = WPA_PTK_PTKCALCNEGOTIATING) \/
   classify key_info l = PAIRWISE_4 /\ wpa_ptk_state s = WPA_PTK_PTKINITNEGOTIATING /\ PTK_valid s = true) ->
  expected s key_info.
Proof.
  unfold classify, expected. destruct (has key_info WPA_KEY_INFO_REQUEST); [by left|].
  destruct (has key_info WPA_KEY_INFO_KEY_TYPE); [|auto]. rewrite andb_false_r. cbn [negb].
  repeat case_match; intuition congruence.
Qed.

(** A received frame, whatever its bytes. *)
Lemma wpa_receive_ok hist a data a' :
  settled hist a -> wpa_receive cfg a data (length data) = Some a' -> frame_ok hist a data a'.
Proof.
  intros Hset0. unfold wpa_receive.
  case_match eqn:E0; [intros [= <-]; by apply frame_ok_same|].
  apply orb_false_iff in E0 as [_ Hs%negb_false_iff].
  case_match; [intros [= <-]; by apply frame_ok_same|]. cbv zeta.
  assert (frame_ok hist a data (cancel_timeout a)) as Hsame.
  { apply (frame_ok_quiet _ _ a); [done|]. split; [exact Hset0|by apply grows_same]. }
  assert (settled hist (cancel_timeout a)) as Hset by exact Hset0.
  intros (key_info & _ & (l & _ & H')%bind_Some)%bind_Some.
  case_match; [by injection H' as <-|]. apply bind_Some in H' as (type & _ & H').
  case_match; [by injection H' as <-|]. case_match; [by injection H' as <-|].
  apply bind_Some in H' as (replay & _ & H').
  case_match; [by injection H' as <-|]. case_match; [by injection H' as <-|].
  apply bind_Some in H' as (c & Hc & H').
  apply (check_msg_ok hist) in Hc; [|done]. destruct c as [b|b]; cbn [checked_ok] in Hc.
  - injection H' as <-. by apply (frame_ok_quiet _ _ (cancel_timeout a)).
  - destruct Hc as (Hsm & Ho & Hmsg). apply classify_expected in Hmsg.
    apply (receive_checked_ok hist) in H' as [Hset' Hcase]; rewrite ?Hsm; try done; [|by eapply settled_sm].
    split; [done|]. rewrite Hsm in Hcase. destruct Hcase as [Hg|(Hg & Hrest)]; [left; by apply (grows_from _ b)|right].
    split; [|exact Hrest]. destruct Hg as (n & Hn & F). exists n. by rewrite Hn, Ho.
Qed.

(** *** Runs *)

Lemma timeout_ok hist a a' :
  settled hist a -> wpa_send_eapol_timeout cfg a = Some a' -> settled hist a' /\ grows a a'.
Proof.
  intros Hset. unfold wpa_send_eapol_timeout. cbv zeta. case_match; [intros [= <-]; split; [exact Hset|by apply grows_same]|].
  intros ([r b] & Hb & [= ->])%bind_Some. destruct Hset as (Hr & Ha & Hl & _).
  apply (sm_step_quiet hist) in Hb as [H1 H2]; [|exact Hr|exact Ha|exact Hl]. by split.
Qed.

(** The requests of an event, once the PTK is gone. *)
Lemma sm_event_ok hist a e r a' :
  settled hist a -> wpa_auth_sm_event cfg a e = Some (r, a') -> settled hist a' /\ grows a a'.
Proof.
  intros Hset. unfold wpa_auth_sm_event. destruct (started (sm a)) eqn:Hs; cbn [negb].
  2:{ intros [= <- <-]. split; [done|apply grows_refl]. }
  destruct Hset as ((Hp & HI & H3 & H4) & Ha & Hl & Hr). destruct (Hr Hs) as (R1 & R2 & R3 & R4 & R5).
  set (a1 := match e with WPA_DEAUTH | WPA_DISASSOC => _ | WPA_REAUTH | WPA_REAUTH_EAPOL => _ | _ => a end).
  cbv zeta. set (a2 := with_sm a1 _).
  assert (round_ok hist (sm a2) /\ answer (sm a2) = false /\ in_step_loop (sm a2) = false /\ out a2 = out a /\
    PTK_valid (sm a2) = false /\ (wpa_ptk_state (sm a2) = WPA_PTK_PTKCALCNEGOTIATING -> MICVerified (sm a2) = false))
    as (Hr2 & Ha2 & Hl2 & Ho2 & Hv2 & Hm2).
  { unfold a2, a1; destruct e; (split_and!; [split_and!; try done|done|done|done|done|exact R5]);
      (apply (ptk_dropped _ (sm a)); [done|done|exact R5]). }
  clearbody a2.
  assert (forall b, round_ok hist (sm b) -> answer (sm b) = false -> in_step_loop (sm b) = false -> grows a b ->
    wpa_sm_step cfg b = Some (r, a') -> settled hist a' /\ grows a a') as Hstep.
  { intros b Hrb Hab Hlb Hgb H. apply (sm_step_quiet hist) in H as [H1 H2]; try done.
    split; [done|by eapply grows_trans]. }
  assert (round_ok hist (sm (wpa_remove_ptk a2)) /\ answer (sm (wpa_remove_ptk a2)) = false /\
    in_step_loop (sm (wpa_remove_ptk a2)) = false /\ grows a (wpa_remove_ptk a2)) as (Hr3 & Ha3 & Hl3 & Hg3).
  { unfold wpa_remove_ptk. destruct (pairwise_set (sm a2)).
    - split_and!; try done. { destruct Hr2 as (P1 & P2). split; [|done]. by apply (ptk_dropped _ (sm a2)). }
      apply (grows_from _ a2); [done|]. exists [SetKey WPA_ALG_NONE 0 []]. split; [done|]. by repeat constructor.
    - split_and!; try done. by apply grows_same. }
  destruct e; apply Hstep; auto using grows_same.
Qed.

(** The first call of [wpa_sm_step] after an association: [Init] is set, and one
    round enters [INITIALIZE]. *)
Lemma sm_step_init a :
  started (sm a) = true -> in_step_loop (sm a) = false -> Init (sm a) = true -> pairwise_set (sm a) = false ->
  exists r b, wpa_sm_step cfg a = Some (r, b) /\ out b = out a /\
    sm b = (sm a) <| in_step_loop := false |> <| changed := false |> <| wpa_ptk_state := WPA_PTK_INITIALIZE |>
             <| keycount := 0 |> <| Pair := true |> <| TimeoutCtr := 0 |> /\
    r = (if pending_deinit (sm a) then 1 else 0).
Proof.
  intros Hs Hl HI Hp. unfold wpa_sm_step. rewrite Hs, Hl. cbn [negb].
  change step_fuel with (S 129). cbn [step_loop].
  set (a1 := with_sm a (fun s => s <| in_step_loop := true |>)).
  assert (started (sm a1) = true) as -> by exact Hs. cbn [negb].
  unfold sm_WPA_PTK_Step. cbv zeta.
  set (a2 := with_sm a1 (fun s => s <| changed := false |>)).
  assert (Init (sm a2) = true) as -> by exact HI.
  assert (exists b, enter_INITIALIZE a2 = b /\ out b = out a /\
    sm b = (sm a) <| in_step_loop := true |> <| changed := false |> <| wpa_ptk_state := WPA_PTK_INITIALIZE |>
             <| keycount := 0 |> <| Pair := true |> <| TimeoutCtr := 0 |>) as (b & -> & Ho & Hsm).
  { eexists. split; [reflexivity|]. unfold enter_INITIALIZE, wpa_remove_ptk, a2, a1. cbn. rewrite HI. cbn. by rewrite Hp. }
  clear a1 a2. rewrite Hsm. cbn [changed mjoin option_join mbind option_bind].
  eexists _, _. split; [reflexivity|]. cbn. rewrite Hsm. by split_and!.
Qed.

(** The association is with the key management the access point announces. *)
Definition psk_association (ev : auth_event) : Prop :=
  match ev with
  | EvAssociate _ st => sta_wpa_key_mgmt st = WPA_KEY_MGMT_PSK
  | _ => True
  end.

Lemma associate_ok hist a sa st a' :
  sta_wpa_key_mgmt st = WPA_KEY_MGMT_PSK -> auth_step a (EvAssociate sa st) = Some a' ->
  settled hist a' /\ grows a a'.
Proof.
  intros Hk. cbn [auth_step]. set (a0 := a <| sm := _ |> <| sta_valid := true |>).
  assert (sm a0 = (wpa_auth_sta_init sa) <| assoc := st |>) as Hsm by reflexivity.
  assert (out a0 = out a) as Ho by reflexivity. clearbody a0.
  rewrite fmap_Some. intros ([r b] & H & ->). cbn [snd]. unfold wpa_auth_sta_associated in H.
  destruct (conf_wpa (conf cfg) =? 0).
  { injection H as <- <-. split; [|by apply grows_same]. unfold settled, round_ok. rewrite Hsm. by split_and!. }
  assert (started (sm a0) = false) as Hst by (by rewrite Hsm). rewrite Hst in H.
  set (a1 := with_sm a0 _) in H.
  assert (sm a1 = (wpa_auth_sta_init sa) <| assoc := st |> <| started := true |> <| Init := true |>) as Hsm1
    by (unfold a1; cbn; by rewrite Hsm).
  assert (out a1 = out a) as Ho1 by exact Ho. clearbody a1.
  destruct (sm_step_init a1) as (r1 & b1 & E1 & Hob & Hsmb & Hr1); [by rewrite Hsm1..|].
  rewrite E1 in H. cbn [mbind option_bind] in H.
  rewrite Hsm1 in Hr1, Hsmb. cbn in Hr1. subst r1. cbn [Z.eqb] in H.
  apply (sm_step_quiet hist) in H as [H1 H2]; cbn; rewrite ?Hsmb; [|by unfold round_ok; split_and!|done|done].
  split; [done|]. apply (grows_from _ b1); [congruence|exact H2].
Qed.

(** What an event can bring about. *)
Lemma auth_step_ok hist a ev a' :
  settled hist a -> psk_association ev -> auth_step a ev = Some a' ->
  settled (hist ++ [ev]) a' /\
  (grows a a' \/ exists data, ev = EvFrame data /\ adds (granted (sm a)) a a' /\
     wpa_ptk_state (sm a) = WPA_PTK_PTKINITNEGOTIATING /\ PTK_valid (sm a) = true /\
     wpa_verify_key_mic (PTK (sm a)) data (length data) = Some 0).
Proof.
  intros Hs Hk H. destruct ev as [sa st|data| |e]; cbn [auth_step] in H.
  - apply (associate_ok (hist ++ [EvAssociate sa st])) in H as [H1 H2]; auto.
  - apply (wpa_receive_ok hist) in H as [H1 [H2|H2]]; [auto| |done]. split; [done|right]. by exists data.
  - apply (timeout_ok hist) in H as [H1 H2]; [|done]. split; [by apply settled_more|auto].
  - apply fmap_Some in H as ([r b] & H & ->). apply (sm_event_ok hist) in H as [H1 H2]; [|done].
    split; [by apply settled_more|auto].
Qed.

Lemma auth_run_snoc a evs ev :
  auth_run a (evs ++ [ev]) = (b ← auth_run a evs; auth_step b ev).
Proof.
  revert a. induction evs as [|e r IH]; intros a; cbn.
  - by destruct (auth_step a ev).
  - destruct (auth_step a e); [apply IH|done].
Qed.

(** The reason for an effect [e] that gives the station something: a frame that
    came when the machine waited for message 4, with the MIC of a PTK that is
    derived from the PSK, the nonce the access point had sent and the nonce of an
    earlier frame, which had the MIC of the same PTK. *)
Definition earned (counter : list Z) (evs : list auth_event) (e : effect) : Prop :=
  exists pre msg4 post b sn msg2,
    evs = pre ++ EvFrame msg4 :: post /\ auth_run (auth_init counter) pre = Some b /\
    wpa_ptk_state (sm b) = WPA_PTK_PTKINITNEGOTIATING /\
    EvFrame msg2 ∈ pre /\ slice msg2 off_nonce 32 = Some sn /\
    let ptk := kc_prf (psk cfg) ptk_label
                 (ordered (own_addr cfg) (addr (sm b)) ++ ordered (ANonce (sm b)) sn) 48 in
    wpa_verify_key_mic ptk msg2 (length msg2) = Some 0 /\
    wpa_verify_key_mic ptk msg4 (length msg4) = Some 0 /\
    (e = SetKey WPA_ALG_CCMP 0 (tk1 ptk) \/ e = Authorize).

Lemma earned_more counter evs ev e : earned counter evs e -> earned counter (evs ++ [ev]) e.
Proof.
  intros (pre & m4 & post & b & sn & m2 & -> & H). exists pre, m4, (post ++ [ev]), b, sn, m2.
  by rewrite <- app_assoc.
Qed.

Lemma auth_run_ok counter evs : forall a,
  Forall psk_association evs -> auth_run (auth_init counter) evs = Some a ->
  settled evs a /\ forall e, e ∈ out a -> harmless e \/ earned counter evs e.
Proof.
  induction evs as [|ev evs IH] using rev_ind; intros a Hk.
  { intros [= <-]. split; [exact (settled_zero [] (auth_init counter))|]. intros e He. by apply not_elem_of_nil in He. }
  apply Forall_app in Hk as [Hk Hev]. apply list.Forall_cons_1 in Hev as [Hev _]. rewrite auth_run_snoc. intros (b & Hb & H)%bind_Some.
  destruct (IH b Hk Hb) as [Hset Hout].
  destruct (auth_step_ok evs b ev a Hset Hev H) as [Hset' Hcase]. split; [done|]. intros e He.
  assert (e ∈ out b -> harmless e \/ earned counter (evs ++ [ev]) e) as Hold.
  { intros He'. destruct (Hout e He'); [by left|right; by apply earned_more]. }
  destruct Hcase as [(n & Hn & F)|(data & -> & (n & Hn & F) & Hst & Hv & Hmic)];
    rewrite Hn in He; apply elem_of_app in He as [He|He]; auto.
  - left. rewrite list.Forall_forall in F. by apply F.
  - rewrite list.Forall_forall in F. apply F in He as [He|He]; [by left|right].
    destruct Hset as ((Hp & _) & _). unfold ptk_ok in Hp. rewrite Hst in Hp.
    destruct (Hp Hv) as (sn & m2 & Hptk & Hin & Hn2 & Hm2).
    exists evs, data, [], b, sn, m2. cbv zeta. rewrite <- Hptk. by split_and!.
Qed.

(** C8: Over every sequence of PSK associations, received frames of any content,
    timeouts and events, whatever allocations fail: the authenticator installs a
    pairwise key or opens the port only because of a frame that came while it
    waited for message 4 and whose MIC is the one of a PTK derived from the PSK,
    the announced nonce and the nonce of an earlier frame that had a right MIC
    too; and the key that is installed is the temporal key of that PTK.  (The
    replay counters do not enter.) *)
Theorem keys_only_for_psk counter evs a e :
  Forall psk_association evs -> auth_run (auth_init counter) evs = Some a ->
  e ∈ out a -> ~ harmless e -> earned counter evs e.
Proof. intros Hk Hr He Hh. destruct (auth_run_ok counter evs a Hk Hr) as [_ H]. by destruct (H e He). Qed.

End Runs.
