(* ===== verification/WpaAuthTotal.v ===== *)
(** * WpaAuthTotal: the authenticator never faults

    The theorems of [WpaAuthSafe] are about runs of the authenticator that
    return.  Here: they do return.  For stations whose association was accepted
    with CCMP and RSN, the authenticator of [WpaAuth] handles frames of any
    content, timeouts and events without an access outside its buffers and
    without a missing frame, whatever allocations fail. *)

From stdpp Require Import base list option.
From Stdlib Require Import ZArith Lia.
From S2P Require Import Prelude HciAggr Words Wire Ie80211 WpaIe Rc4 WpaAuth WpaAuthSafe.

Lemma get_be16_some b p : (p + 2 <= length b)%nat -> exists v, WPA_GET_BE16 b p = Some v.
Proof.
  intros H. unfold WPA_GET_BE16. destruct (lookup_some b p) as [x ->]; [lia|].
  destruct (lookup_some b (p + 1)) as [y ->]; [lia|]. cbn. eauto.
Qed.

Lemma slice_some b p n : (p + n <= length b)%nat -> exists c, slice b p n = Some c /\ length c = n.
Proof.
  intros H. unfold slice. rewrite (proj2 (Nat.leb_le _ _)) by lia. eexists. split; [done|]. rewrite length_take, length_drop. lia.
Qed.

(** ** Elements in the key data *)

(** The elements that the parser finds lie inside the key data. *)
Definition kde_inside (end_ : nat) (k : wpa_eapol_ie_parse) : Prop :=
  (forall p, kde_rsn_ie k = Some p -> (p + kde_rsn_ie_len k <= end_)%nat) /\
  (forall p, kde_wpa_ie k = Some p -> (p + kde_wpa_ie_len k <= end_)%nat).

Lemma generic_inside b pos end_ k r k' l : kde_inside end_ k -> b !! (pos + 1)%nat = Some l ->
  (pos + 2 + Z.to_nat l <= end_)%nat -> wpa_parse_generic b pos end_ k = Some (r, k') -> kde_inside end_ k'.
Proof.
  intros [H1 H2] Hl He. unfold wpa_parse_generic. rewrite Hl. cbn [mbind option_bind].
  destruct (l =? 0); [by intros [= _ <-]|]. intros (c1 & _ & H)%bind_Some.
  destruct c1; [injection H as _ <-; split; [exact H1|]; cbn; intros p [= <-]; lia|].
  apply bind_Some in H as (c2 & _ & H). destruct c2; [by injection H as _ <-|].
  apply bind_Some in H as (c3 & _ & H). destruct c3; [by injection H as _ <-|].
  apply bind_Some in H as (c4 & _ & H). by destruct c4; injection H as _ <-.
Qed.

Lemma kde_loop_inside b end_ fuel : forall pos k r k', kde_inside end_ k -> kde_loop fuel b pos end_ k = Some (r, k') ->
  kde_inside end_ k'.
Proof.
  induction fuel as [|f IH]; intros pos k r k' Hk; cbn [kde_loop].
  - case_match; [by intros [= _ <-]|done].
  - case_match; [by intros [= _ <-]|]. intros (id & _ & (l & Hl & H')%bind_Some)%bind_Some.
    case_match; [by injection H' as _ <-|]. destruct (Nat.ltb_spec end_ (pos + 2 + Z.to_nat l)); [by injection H' as _ <-|].
    case_match.
    { eapply IH; [|exact H']. destruct Hk as [K1 K2]. split; [|exact K2]. cbn. intros p [= <-]. lia. }
    case_match; [|by eapply IH]. apply bind_Some in H' as ([ret k1] & Hg & H').
    apply (generic_inside _ _ _ _ _ _ l) in Hg; [|done|done|lia].
    repeat case_match; [by injection H' as _ <-|by injection H' as _ <-|by eapply IH].
Qed.

Lemma fixup_some a m n : length a = n -> (n <= length m)%nat -> exists t, wpa_fixup_wpa_ie_rsn a m n = Some t.
Proof.
  intros Ha Hm. unfold wpa_fixup_wpa_ie_rsn. cbv zeta. unfold RSN_SELECTOR_LEN.
  destruct (Nat.ltb_spec n (4 + 4 + 2)); [eauto|]. destruct (get_le16_some m (4 + 4)) as (c & -> & _); [lia|]. cbn [mbind option_bind].
  destruct (Nat.ltb_spec n (4 + 4 + 2 + Z.to_nat c * 4 + 2)); [eauto|].
  destruct (get_le16_some m (4 + 4 + 2 + Z.to_nat c * 4)) as (c2 & -> & _); [lia|]. cbn [mbind option_bind].
  set (pos := (4 + 4 + 2 + Z.to_nat c * 4 + 2 + Z.to_nat c2 * 4)%nat) in *. destruct (Nat.ltb_spec n (pos + 2)); [eauto|].
  destruct (lookup_some a pos) as [x0 ->]; [lia|]. destruct (lookup_some a (pos + 1)) as [x1 ->]; [lia|].
  destruct (lookup_some m pos) as [y0 ->]; [lia|]. destruct (lookup_some m (pos + 1)) as [y1 ->]; [lia|]. cbn [mbind option_bind].
  destruct (_ && _ && _); [|eauto]. destruct (wr_some a pos [y0; y1]) as (t & -> & _); [cbn; lia|eauto].
Qed.

Lemma compare_some ok mine n ie l : (n <= length mine)%nat -> (forall b, ie = Some b -> (l <= length b)%nat) ->
  exists c, wpa_compare_rsn_ie ok (Some mine) n ie l = Some c.
Proof.
  intros Hm Hl. unfold wpa_compare_rsn_ie. destruct ie as [b|]; [|eauto]. specialize (Hl b eq_refl).
  destruct (Nat.eqb_spec n l) as [->|]; [|eauto]. unfold slice. rewrite !(proj2 (Nat.leb_le _ _)) by lia. cbn [mbind option_bind].
  rewrite !drop_0. case_match; [eauto|]. case_match; [eauto|].
  destruct (fixup_some (take l mine) b l) as [t ->]; [rewrite length_take; lia|done|]. cbn [mbind option_bind]. case_match; eauto.
Qed.

(** ** The state machine *)

Section Total.
Context `{KC : KeyCrypto} (cfg : wpa_cfg).
Context (Hie : (WPA_IE_LEN <= length (auth_wpa_ie cfg))%nat).

(** What an accepted association leaves: CCMP, RSN, and the element of the
    station *)
Definition accepted (t : wpa_sta) : Prop :=
  sta_pairwise t = WPA_CIPHER_CCMP /\ sta_wpa t <> WPA_VERSION_WPA /\ sta_wpa_key_mgmt t = WPA_KEY_MGMT_PSK /\
  forall ie, sta_wpa_ie t = Some ie -> (sta_wpa_ie_len t <= length ie)%nat.

(** An answer that has to be looked at was kept. *)
Definition fed (s : wpa_state_machine) : Prop :=
  (started s = true -> accepted (assoc s)) /\ (answer s = true -> is_Some (last_rx_eapol_key s)).

Lemma fed_zero : fed sm_zero.
Proof. done. Qed.

Lemma fed_resent s s' : resent s s' -> fed s -> fed s'.
Proof. intros (r & p & ->) H. exact H. Qed.

Lemma fed_sent a ki rsc n kde i e : fed (sm a) -> fed (sm (wpa_send_eapol cfg a ki rsc n kde i e)).
Proof. apply fed_resent, (send_sm cfg). Qed.

Lemma fed_same s s' : started s' = started s -> assoc s' = assoc s -> (answer s' = true -> answer s = true) ->
  last_rx_eapol_key s' = last_rx_eapol_key s -> fed s -> fed s'.
Proof. intros H1 H2 H3 H4 [F1 F2]. split; [by rewrite H1, H2|]. rewrite H4. auto. Qed.

Lemma fed_INITIALIZE a : fed (sm a) -> fed (sm (enter_INITIALIZE a)).
Proof.
  unfold enter_INITIALIZE, wpa_remove_ptk. cbn. destruct (Init (sm a)); cbn; destruct (pairwise_set (sm a)); by apply (fed_same (sm a)).
Qed.

Lemma fed_DISCONNECT a : fed (sm a) -> fed (sm (enter_DISCONNECT a)).
Proof. intros H. unfold enter_DISCONNECT, wpa_sta_disconnect. cbn. destruct (sta_valid a); [apply fed_zero|exact H]. Qed.

Lemma fed_PTKSTART a : fed (sm a) -> fed (sm (enter_PTKSTART cfg a)).
Proof. intros H. unfold enter_PTKSTART. cbv zeta. case_match; [exact H|]. apply fed_sent. exact H. Qed.

(** A MIC is always computed. *)
Lemma verify_some ptk f n : (n <= length f)%nat -> exists r, wpa_verify_key_mic ptk f n = Some r.
Proof.
  intros Hn. unfold wpa_verify_key_mic, SIZEOF_hdr, SIZEOF_key. destruct (Nat.ltb_spec n (4 + 95)); [eauto|].
  destruct (get_be16_some f off_key_info) as [v ->]; [unfold off_key_info; lia|]. cbn [mbind option_bind].
  destruct (slice_some f off_mic 16) as (m & -> & _); [unfold off_mic; lia|]. cbn [mbind option_bind].
  destruct (wr_some f off_mic (replicate 16 0)) as (c & -> & Hc); [rewrite length_replicate; unfold off_mic; lia|]. cbn [mbind option_bind].
  destruct (slice_some c 0 n) as (d & -> & _); [lia|]. cbn [mbind option_bind]. case_match; eauto.
Qed.

Lemma fed_PTKCALC a : fed (sm a) -> started (sm a) = true -> answer (sm a) = true ->
  exists a', enter_PTKCALCNEGOTIATING cfg a = Some a' /\ fed (sm a').
Proof.
  intros [F1 F2] Hs Ha. destruct (F1 Hs) as (Hp & _). destruct (F2 Ha) as [f Hf].
  unfold enter_PTKCALCNEGOTIATING, wpa_derive_ptk. cbn. rewrite Hp, Hf. cbn.
  match goal with |- context [wpa_verify_key_mic ?p f (length f)] => destruct (verify_some p f (length f)) as [r ->]; [lia|] end.
  cbn. destruct (r =? 0); cbn; eexists; (split; [done|]); by apply (fed_same (sm a)).
Qed.

Lemma msg3_kde_some ie g k : exists kde, msg3_kde ie g k = Some kde.
Proof.
  unfold msg3_kde, wpa_add_kde, RSN_SELECTOR_LEN. destruct g as [g|].
  - set (n := (length ie + (2 + 4 + 2 + length g))%nat).
    destruct (wr_some (replicate n 0) 0 ie) as (m0 & -> & L0); [rewrite length_replicate; lia|]. rewrite length_replicate in L0. cbn [mbind option_bind].
    destruct (wr_some m0 (length ie) [WLAN_EID_VENDOR_SPECIFIC]) as (m1 & -> & L1); [cbn; lia|]. cbn [mbind option_bind].
    match goal with |- context [wr m1 ?o ?b] => destruct (wr_some m1 o b) as (m2 & -> & L2); [cbn [length]; lia|] end. cbn [mbind option_bind].
    match goal with |- context [wr m2 ?o ?b] => destruct (wr_some m2 o b) as (m3 & -> & L3); [rewrite length_put_be32; lia|] end. cbn [mbind option_bind].
    match goal with |- context [wr m3 ?o ?b] => destruct (wr_some m3 o b) as (m4 & -> & L4); [cbn [length]; lia|] end. cbn [mbind option_bind].
    match goal with |- context [wr m4 ?o ?b] => destruct (wr_some m4 o b) as (m5 & -> & L5); [rewrite length_take; cbn [length]; lia|] end. cbn. eauto.
  - rewrite wr_whole by (rewrite length_replicate; lia). cbn. eauto.
Qed.

Lemma fed_PTKINITNEG a : fed (sm a) -> started (sm a) = true ->
  exists a', enter_PTKINITNEGOTIATING cfg a = Some a' /\ fed (sm a').
Proof.
  intros Hf Hs. destruct (proj1 Hf Hs) as (_ & Hw & _). unfold enter_PTKINITNEGOTIATING. cbv zeta.
  set (b := with_sm (SM_ENTRY a _) _). assert (fed (sm b)) as Fb by exact Hf.
  assert (assoc (sm b) = assoc (sm a)) as Eb by done. clearbody b. case_match; [by eexists|].
  assert (exists ie, msg3_wpa_ie cfg (sm b) = Some ie) as [ie ->].
  { unfold msg3_wpa_ie. rewrite Eb, bool_decide_false by done. destruct (slice_some (auth_wpa_ie cfg) 0 WPA_IE_LEN) as (ie & -> & _); [lia|]. eauto. }
  cbn [mbind option_bind alloc]. case_match; [eexists; split; [done|exact Fb]|].
  match goal with |- context [msg3_kde ?i ?g ?k] => destruct (msg3_kde_some i g k) as [kde ->] end. cbn [mbind option_bind].
  eexists. split; [done|]. apply fed_sent. exact Fb.
Qed.

Lemma fed_PTKINITDONE a : fed (sm a) -> started (sm a) = true -> exists a', enter_PTKINITDONE a = Some a' /\ fed (sm a').
Proof.
  intros Hf Hs. destruct (proj1 Hf Hs) as (Hp & _). unfold enter_PTKINITDONE. cbn.
  destruct (Pair (sm a)); [rewrite Hp|]; cbn; eexists; (split; [done|]); case_match; by apply (fed_same (sm a)).
Qed.

Lemma step_fed a : fed (sm a) -> started (sm a) = true -> exists a', sm_WPA_PTK_Step cfg a = Some a' /\ fed (sm a').
Proof.
  intros Hf Hs. unfold sm_WPA_PTK_Step. cbv zeta. fold (answer (sm a)).
  assert (fed (sm (count_failure a))) as Hc by exact Hf.
  repeat (case_match; try (by apply fed_PTKCALC || by apply fed_PTKINITNEG || by apply fed_PTKINITDONE);
    try (eexists; split; [done|]; first [by apply fed_INITIALIZE|by apply fed_DISCONNECT|by apply fed_PTKSTART|exact Hf])).
Qed.

Lemma loop_fed fuel : forall a b, step_loop cfg fuel a = Some b -> fed (sm a) -> exists a', b = Some a' /\ fed (sm a').
Proof.
  induction fuel as [|f IH]; intros a b; cbn [step_loop]; [done|]. intros H Hf.
  destruct (started (sm a)) eqn:Hs; cbn [negb] in H; [|injection H as <-; eauto].
  destruct (step_fed (with_sm a (fun s => s <| changed := false |>))) as (a1 & E & F1); [exact Hf|exact Hs|].
  rewrite E in H. destruct (changed (sm a1)); [by eapply IH|injection H as <-; eauto].
Qed.

Lemma sm_step_fed a : fed (sm a) -> exists r a', wpa_sm_step cfg a = Some (r, a') /\ fed (sm a').
Proof.
  intros Hf. unfold wpa_sm_step. case_match; [eauto|]. case_match; [eauto|].
  set (b := with_sm a _). destruct (step_loop_fuel cfg step_fuel b) as [c Hc];
    [pose proof (rank_bound (sm b)); unfold step_fuel; lia|].
  destruct (loop_fed _ _ _ Hc) as (a1 & -> & F1); [exact Hf|]. rewrite Hc. cbn. eexists _, _. split; [done|exact F1].
Qed.

(** ** Events *)


Lemma timeout_fed a : fed (sm a) -> exists a', wpa_send_eapol_timeout cfg a = Some a' /\ fed (sm a').
Proof.
  intros Hf. unfold wpa_send_eapol_timeout. cbv zeta. case_match; [eexists; split; [done|exact Hf]|].
  set (b := with_sm _ _). assert (fed (sm b)) as Fb by exact Hf. clearbody b.
  destruct (sm_step_fed b Fb) as (r & a' & -> & F). by exists a'.
Qed.

Lemma notify_fed a e : fed (sm a) -> exists r a', wpa_auth_sm_event cfg a e = Some (r, a') /\ fed (sm a').
Proof.
  intros Hf. unfold wpa_auth_sm_event. case_match; [eauto|]. cbv zeta.
  apply sm_step_fed. set (a1 := match e with WPA_DEAUTH | WPA_DISASSOC => _ | WPA_REAUTH | WPA_REAUTH_EAPOL => _ | _ => a end).
  assert (fed (sm a1)) as F1 by (unfold a1; destruct e; exact Hf). clearbody a1.
  set (a2 := with_sm a1 _). assert (fed (sm a2)) as F2 by exact F1. clearbody a2.
  assert (fed (sm (wpa_remove_ptk a2))) by (unfold wpa_remove_ptk; destruct (pairwise_set (sm a2)); exact F2).
  by destruct e.
Qed.

Lemma associated_fed a : accepted (assoc (sm a)) -> fed (sm a) ->
  exists r a', wpa_auth_sta_associated cfg a = Some (r, a') /\ fed (sm a').
Proof.
  intros Ha [F1 F2]. unfold wpa_auth_sta_associated. case_match; [by eexists _, _|]. case_match.
  - apply sm_step_fed. by split.
  - destruct (sm_step_fed (with_sm a (fun s => s <| started := true |> <| Init := true |>))) as (r & b & -> & Fb); [by split|].
    cbn [mbind option_bind]. case_match; [eauto|]. apply sm_step_fed. exact Fb.
Qed.

Lemma disconnect_fed a : fed (sm a) -> fed (sm (wpa_sta_disconnect a)).
Proof. intros Hf. unfold wpa_sta_disconnect. by destruct (sta_valid a). Qed.

Lemma fed_stored s data nonce key_info : fed s -> fed (stored s data nonce key_info).
Proof. intros [F1 _]. split; [exact F1|]. intros _. by exists data. Qed.

Lemma fed_lost s : fed s -> answer s = false -> fed (s <| last_rx_eapol_key := None |>).
Proof. intros [F1 _] Ha. split; [exact F1|]. change (answer (s <| last_rx_eapol_key := None |>)) with (answer s). congruence. Qed.

Lemma some_bind {A B} (x : A) (f : A -> option B) : (Some x ≫= f) = f x.
Proof. done. Qed.

Lemma accept_fed a data n key_info : fed (sm a) -> answer (sm a) = false -> (99 <= n <= length data)%nat ->
  exists a', accept_frame cfg a data n key_info = Some a' /\ fed (sm a').
Proof.
  intros Hf Ha Hn. unfold accept_frame. destruct (alloc cfg a) as [ok b] eqn:E. apply alloc_same in E as [_ E]. rewrite <- E in *.
  destruct ok; cbn [negb].
  - destruct (slice_some data 0 n) as (c & -> & _); [lia|]. destruct (slice_some data off_nonce 32) as (nn & -> & _);
      [unfold off_nonce; lia|]. rewrite !some_bind.
    set (d := with_sm b _). assert (fed (sm d)) as Fd by (by apply (fed_stored (sm b))). clearbody d.
    destruct (sm_step_fed d Fd) as (r & a' & -> & F). rewrite some_bind. by exists a'.
  - eexists. split; [done|]. by apply (fed_lost (sm b)).
Qed.

Lemma check_msg_fed a msg kd l : fed (sm a) -> started (sm a) = true -> (Z.to_nat l <= length kd)%nat ->
  exists r, check_msg cfg a msg kd l = Some r /\ match r with inl b => fed (sm b) | inr b => sm b = sm a end.
Proof.
  intros Hf Hs Hl. unfold check_msg. cbv zeta. destruct msg;
    [|case_match; by eexists|by eexists|by eexists|by eexists|by eexists|by eexists].
  case_match; [by eexists|]. unfold wpa_parse_kde_ies.
  destruct (kde_loop_some kd (Z.to_nat l) (Z.to_nat l) 0 kde_clear Hl) as [[r kde] E]; [lia|]. rewrite E. cbn [mbind option_bind].
  apply kde_loop_inside in E as [K1 K2]; [|done]. destruct (r <? 0); [by eexists|].
  set (pl := match kde_rsn_ie kde with Some p => _ | None => _ end). destruct pl as [p ln] eqn:Epl. cbn [alloc].
  assert (forall q, p = Some q -> (q + ln <= Z.to_nat l)%nat) as Hq.
  { intros q ->. unfold pl in Epl. destruct (kde_rsn_ie kde) as [q'|]; [injection Epl as -> <-; by apply K1|].
    injection Epl as Eq <-. by apply K2. }
  set (b := a <| nalloc := _ |>). assert (fed (sm b) /\ sm b = sm a) as [Fb Eb] by done. clearbody b.
  destruct (sta_wpa_ie (assoc (sm a))) as [mine|] eqn:Em; [|eexists; split; [done|by apply disconnect_fed]].
  destruct (proj1 Hf Hs) as (_ & _ & _ & Hlen). specialize (Hlen mine Em).
  match goal with |- context [wpa_compare_rsn_ie ?ok (Some mine) ?n ?ie ln] => destruct (compare_some ok mine n ie ln) as [c ->]; [done| |] end.
  { intros d Hd. destruct p as [q|]; [|done]. injection Hd as <-. specialize (Hq q eq_refl). rewrite length_drop. lia. }
  cbn [mbind option_bind]. destruct (c =? 0); eexists; (split; [done|]); [done|by apply disconnect_fed].
Qed.

Lemma request_fed a key_info replay : fed (sm a) -> answer (sm a) = false ->
  match handle_request cfg a key_info replay with
  | inl b => fed (sm b)
  | inr b => fed (sm b) /\ answer (sm b) = false
  end.
Proof.
  intros Hf Ha. unfold handle_request, wpa_receive_error_report, wpa_request_new_ptk. cbv zeta.
  destruct (MICVerified (sm a)); [|exact Hf]. destruct (has key_info WPA_KEY_INFO_ERROR).
  - match goal with |- context [started (sm ?x)] => set (b := x) end.
    assert (fed (sm b) /\ answer (sm b) = false) as [Fb Ab] by (unfold b; case_match; done). clearbody b. by destruct (started (sm b)).
  - destruct (has key_info WPA_KEY_INFO_KEY_TYPE); [|done]. cbn. by destruct (started (sm a)).
Qed.

Lemma checked_fed a data n key_info replay : fed (sm a) -> answer (sm a) = false -> (99 <= n <= length data)%nat ->
  exists a', receive_checked cfg a data n key_info replay = Some a' /\ fed (sm a').
Proof.
  intros Hf Ha Hn. unfold receive_checked. case_match; [eauto|]. case_match; [eauto|]. cbv zeta.
  set (b := with_sm a _). assert (fed (sm b) /\ answer (sm b) = false) as [Fb Ab] by done. clearbody b.
  assert (exists r, (if PTK_valid (sm b) then wpa_verify_key_mic (PTK (sm b)) data n else Some 0) = Some r) as [r ->].
  { destruct (PTK_valid (sm b)); [|eauto]. apply verify_some. lia. }
  cbn [mbind option_bind]. destruct (r =? 0); cbn [negb]; [|eauto].
  set (c := if PTK_valid (sm b) then _ else b).
  assert (fed (sm c) /\ answer (sm c) = false) as [Fc Ac] by (unfold c; by destruct (PTK_valid (sm b))). clearbody c.
  destruct (has key_info WPA_KEY_INFO_REQUEST).
  - pose proof (request_fed c key_info replay Fc Ac) as H'. destruct (handle_request cfg c key_info replay) as [d|d]; [eauto|].
    destruct H' as [Fd Ad]. by apply accept_fed.
  - set (d := with_sm c spend_replay). assert (fed (sm d) /\ answer (sm d) = false) as [Fd Ad].
    { unfold d, spend_replay. cbn. by destruct (key_replay (sm c)) as [|[]]. }
    by apply accept_fed.
Qed.

Lemma receive_fed a data n : fed (sm a) -> answer (sm a) = false -> (n <= length data)%nat ->
  exists a', wpa_receive cfg a data n = Some a' /\ fed (sm a').
Proof.
  intros Hf Ha Hn. unfold wpa_receive. case_match eqn:E0; [eauto|]. apply orb_false_iff in E0 as [_ Hs%negb_false_iff].
  unfold SIZEOF_hdr, SIZEOF_key. destruct (Nat.ltb_spec n (4 + 95)); [eauto|]. cbv zeta.
  set (b := cancel_timeout a). assert (fed (sm b) /\ answer (sm b) = false /\ started (sm b) = true) as (Fb & Ab & Sb) by done.
  clearbody b. destruct (get_be16_some data off_key_info) as [ki ->]; [unfold off_key_info; lia|].
  destruct (get_be16_some data off_data_length) as [l ->]; [unfold off_data_length; lia|]. cbn [mbind option_bind].
  destruct (Z.ltb_spec (Z.of_nat (n - 4 - 95)) l); [eauto|].
  destruct (lookup_some data off_type) as [ty ->]; [unfold off_type; lia|]. cbn [mbind option_bind].
  case_match; [eauto|]. case_match; [eauto|].
  destruct (slice_some data off_replay 8) as (rp & -> & _); [unfold off_replay; lia|]. cbn [mbind option_bind].
  case_match; [eauto|]. case_match; [eauto|].
  destruct (check_msg_fed b (classify ki l) (drop off_key_data data) l Fb Sb) as (r & -> & Hr);
    [rewrite length_drop; unfold off_key_data; lia|].
  cbn [mbind option_bind]. destruct r as [c|c]; [eauto|]. apply checked_fed; [by rewrite Hr|by rewrite Hr|lia].
Qed.

(** ** Only the announced bytes are read *)

Lemma slice_take b n p k : (p + k <= n <= length b)%nat -> slice (take n b) p k = slice b p k.
Proof.
  intros H. unfold slice. rewrite length_take, !(proj2 (Nat.leb_le _ _)) by lia.
  by rewrite skipn_firstn_comm, take_take, Nat.min_l by lia.
Qed.

Lemma be16_take b n p : (p + 2 <= n)%nat -> WPA_GET_BE16 (take n b) p = WPA_GET_BE16 b p.
Proof. intros H. unfold WPA_GET_BE16. by rewrite !lookup_take_lt by lia. Qed.

Lemma le16_take b n p : (p + 2 <= n)%nat -> WPA_GET_LE16 (take n b) p = WPA_GET_LE16 b p.
Proof. intros H. unfold WPA_GET_LE16. by rewrite !lookup_take_lt by lia. Qed.

Lemma selector_take b n p s : (p + 4 <= n)%nat -> selector_is (take n b) p s = selector_is b p s.
Proof. intros H. unfold selector_is, WPA_GET_BE32. by rewrite !lookup_take_lt by lia. Qed.

Lemma and_read_ext a x y : (a = true -> x = y) -> and_read a x = and_read a y.
Proof. intros H. destruct a; cbn; auto. Qed.

Lemma generic_take b n pos end_ k l : b !! (pos + 1)%nat = Some l -> (pos + 2 + Z.to_nat l <= n)%nat ->
  wpa_parse_generic (take n b) pos end_ k = wpa_parse_generic b pos end_ k.
Proof.
  intros Hl Hn. unfold wpa_parse_generic. rewrite (lookup_take_lt b n (pos + 1)), Hl by lia. cbn [mbind option_bind].
  destruct (l =? 0); [done|]. unfold WPA_SELECTOR_LEN.
  rewrite (and_read_ext (6 <=? l) _ (o ← selector_is b (pos + 2) WPA_OUI_TYPE;
       and_read o (v0 ← b !! (pos + 2 + 4)%nat; and_read (v0 =? 1) (v1 ← b !! (pos + 2 + 4 + 1)%nat; Some (v1 =? 0)))))
    by (intros ?%Z.leb_le; rewrite selector_take, !lookup_take_lt by lia; done).
  destruct (and_read (6 <=? l) _) as [[]|]; [done| |done]. cbn [mbind option_bind].
  rewrite (and_read_ext (_ && _) _ (selector_is b (pos + 2) RSN_KEY_DATA_PMKID))
    by (intros [_ ?%Z.leb_le]%andb_true_iff; apply selector_take; lia).
  destruct (and_read (_ && _) _) as [[]|]; [done| |done]. cbn [mbind option_bind].
  rewrite (and_read_ext (6 <? l) (selector_is _ _ RSN_KEY_DATA_GROUPKEY) (selector_is b (pos + 2) RSN_KEY_DATA_GROUPKEY)) by (intros ?%Z.ltb_lt; apply selector_take; lia).
  destruct (and_read (6 <? l) (selector_is b _ RSN_KEY_DATA_GROUPKEY)) as [[]|]; [done| |done]. cbn [mbind option_bind].
  by rewrite (and_read_ext (6 <? l) _ (selector_is b (pos + 2) RSN_KEY_DATA_MAC_ADDR)) by (intros ?%Z.ltb_lt; apply selector_take; lia).
Qed.

Lemma kde_loop_take b n end_ fuel : (end_ <= n)%nat ->
  forall pos k, kde_loop fuel (take n b) pos end_ k = kde_loop fuel b pos end_ k.
Proof.
  intros He. induction fuel as [|f IH]; intros pos k; cbn [kde_loop]; [done|].
  destruct (Nat.leb_spec end_ (pos + 1)); [done|]. rewrite !lookup_take_lt by lia.
  destruct (b !! pos) as [id|]; [|done]. destruct (b !! (pos + 1)%nat) as [l|] eqn:El; [|done]. cbn [mbind option_bind].
  case_match; [done|]. destruct (Nat.ltb_spec end_ (pos + 2 + Z.to_nat l)); [done|].
  case_match; [apply IH|]. case_match; [|apply IH]. rewrite (generic_take b n pos end_ k l El) by lia.
  destruct (wpa_parse_generic b pos end_ k) as [[ret k']|]; [|done]. cbn [mbind option_bind]. by repeat case_match.
Qed.

Lemma fixup_take a m n k : (n <= k)%nat -> wpa_fixup_wpa_ie_rsn a (take k m) n = wpa_fixup_wpa_ie_rsn a m n.
Proof.
  intros Hk. unfold wpa_fixup_wpa_ie_rsn. cbv zeta. unfold RSN_SELECTOR_LEN.
  destruct (Nat.ltb_spec n (4 + 4 + 2)); [done|]. rewrite le16_take by lia. destruct (WPA_GET_LE16 m (4 + 4)) as [c|]; [|done].
  cbn [mbind option_bind]. destruct (Nat.ltb_spec n (4 + 4 + 2 + Z.to_nat c * 4 + 2)); [done|]. rewrite le16_take by lia.
  destruct (WPA_GET_LE16 m _) as [c2|]; [|done]. cbn [mbind option_bind].
  set (pos := (4 + 4 + 2 + Z.to_nat c * 4 + 2 + Z.to_nat c2 * 4)%nat) in *. destruct (Nat.ltb_spec n (pos + 2)); [done|].
  by rewrite !lookup_take_lt by lia.
Qed.

Lemma compare_take ok mine n b l k : (l <= k <= length b)%nat ->
  wpa_compare_rsn_ie ok mine n (Some (take k b)) l = wpa_compare_rsn_ie ok mine n (Some b) l.
Proof.
  intros Hk. unfold wpa_compare_rsn_ie. destruct mine as [d|]; [|done]. destruct (Nat.eqb_spec n l) as [->|]; [|done].
  rewrite slice_take by lia. destruct (slice d 0 l) as [d1|]; [|done]. cbn [mbind option_bind]. by rewrite fixup_take by lia.
Qed.

Lemma check_msg_take a msg kd l n : (Z.to_nat l <= n <= length kd)%nat ->
  check_msg cfg a msg (take n kd) l = check_msg cfg a msg kd l.
Proof.
  intros Hn. unfold check_msg. cbv zeta. destruct msg; try done. case_match; [done|]. unfold wpa_parse_kde_ies.
  rewrite kde_loop_take by lia. destruct (kde_loop _ _ _ _ _) as [[r kde]|] eqn:E; [|done]. rewrite !some_bind.
  apply kde_loop_inside in E as [K1 K2]; [|done]. case_match; [done|].
  set (pl := match kde_rsn_ie kde with Some p => _ | None => _ end). destruct pl as [p ln] eqn:Epl. cbn [alloc].
  destruct p as [q|]; [|done]. assert ((q + ln <= Z.to_nat l)%nat) as Hq.
  { unfold pl in Epl. destruct (kde_rsn_ie kde) as [q'|]; [injection Epl as -> <-; by apply K1|].
    injection Epl as Eq <-. by apply K2. }
  destruct (sta_wpa_ie (assoc (sm a))) as [mine|]; [|done]. cbn [fmap option_fmap option_map].
  rewrite skipn_firstn_comm, compare_take; [done|rewrite length_drop; lia].
Qed.

Lemma verify_take ptk data n : (n <= length data)%nat -> wpa_verify_key_mic ptk (take n data) n = wpa_verify_key_mic ptk data n.
Proof.
  intros Hn. unfold wpa_verify_key_mic, SIZEOF_hdr, SIZEOF_key. destruct (Nat.ltb_spec n (4 + 95)); [done|].
  rewrite be16_take, slice_take by (unfold off_key_info, off_mic; lia). destruct (WPA_GET_BE16 _ _); [|done].
  destruct (slice data off_mic 16); [|done]. rewrite !some_bind. unfold wr. rewrite length_replicate, length_take.
  rewrite !(proj2 (Nat.leb_le _ _)) by (unfold off_mic; lia). rewrite !some_bind.
  assert (slice (take off_mic (take n data) ++ replicate 16 0 ++ drop (off_mic + 16) (take n data)) 0 n
          = slice (take off_mic data ++ replicate 16 0 ++ drop (off_mic + 16) data) 0 n) as ->; [|done].
  rewrite take_take, Nat.min_l by (unfold off_mic; lia). rewrite skipn_firstn_comm. unfold slice, off_mic.
  rewrite !length_app, length_replicate, !length_take, !length_drop, !(proj2 (Nat.leb_le _ _)) by lia. f_equal. rewrite !drop_0.
  rewrite !take_app, !length_take, !length_replicate, !take_take, ?take_replicate. repeat f_equal; lia.
Qed.

Lemma receive_take a data n : (n <= length data)%nat ->
  wpa_receive cfg a data n = wpa_receive cfg a (take n data) (length (take n data)).
Proof.
  intros Hn. rewrite length_take, Nat.min_l by done. unfold wpa_receive. case_match; [done|]. unfold SIZEOF_hdr, SIZEOF_key.
  destruct (Nat.ltb_spec n (4 + 95)); [done|]. cbv zeta. set (b := cancel_timeout a). clearbody b.
  rewrite !be16_take by (unfold off_key_info, off_data_length; lia).
  destruct (WPA_GET_BE16 data off_key_info) as [ki|]; [|done]. destruct (WPA_GET_BE16 data off_data_length) as [l|]; [|done].
  rewrite !some_bind. destruct (Z.ltb_spec (Z.of_nat (n - 4 - 95)) l); [done|]. rewrite lookup_take_lt by (unfold off_type; lia).
  destruct (data !! off_type) as [ty|]; [|done]. rewrite !some_bind. case_match; [done|]. case_match; [done|].
  rewrite slice_take by (unfold off_replay; lia). destruct (slice data off_replay 8) as [rp|]; [|done]. rewrite !some_bind.
  case_match; [done|]. case_match; [done|]. rewrite skipn_firstn_comm, check_msg_take by (rewrite length_drop; unfold off_key_data; lia).
  destruct (check_msg cfg b _ _ l) as [[c|c]|]; [done| |done]. rewrite !some_bind. unfold receive_checked, accept_frame.
  rewrite !slice_take by (unfold off_nonce; lia). cbv zeta. by rewrite verify_take by done.
Qed.

(** ** Runs *)

(** Between events *)
Definition live (hist : list auth_event) (a : auth_state) : Prop := settled cfg hist a /\ fed (sm a).

Definition accepted_association (ev : auth_event) : Prop :=
  match ev with EvAssociate _ st => accepted st | _ => True end.

Lemma live_receive hist a data n : live hist a -> (n <= length data)%nat ->
  exists a', wpa_receive cfg a data n = Some a' /\ live (hist ++ [EvFrame (take n data)]) a'.
Proof.
  intros [Hs Hf] Hn. destruct (receive_fed a data n Hf ltac:(apply Hs) Hn) as (a' & E & F). exists a'. split; [done|].
  rewrite receive_take in E by done. apply (wpa_receive_ok cfg hist) in E as [Hs' _]; [|done]. done.
Qed.

Lemma live_associate hist a sa st : accepted st -> exists a', auth_step cfg a (EvAssociate sa st) = Some a' /\ live hist a'.
Proof.
  intros Ha. cbn [auth_step]. set (b := a <| sm := _ |> <| sta_valid := true |>).
  destruct (associated_fed b) as (r & a' & E & F); [exact Ha|done|]. exists a'. split; [by rewrite E|]. split; [|done].
  apply (associate_ok cfg hist a sa st a'); [apply Ha|]. cbn [auth_step]. fold b. by rewrite E.
Qed.

Lemma auth_step_live hist a ev : live hist a -> accepted_association ev ->
  exists a', auth_step cfg a ev = Some a' /\ live (hist ++ [ev]) a'.
Proof.
  intros [Hs Hf] Hev. destruct ev as [sa st|data| |e].
  - by apply live_associate.
  - cbn [auth_step]. destruct (live_receive hist a data (length data) (conj Hs Hf)) as (a' & E & L); [done|]. rewrite firstn_all in L. eauto.
  - destruct (timeout_fed a Hf) as (a' & E & F). exists a'. split; [done|]. split; [|done]. apply settled_more.
    by apply (timeout_ok cfg hist a).
  - destruct (notify_fed a e Hf) as (r & a' & E & F). exists a'. cbn [auth_step]. rewrite E. split; [done|]. split; [|done].
    apply settled_more. by apply (sm_event_ok cfg hist a e r).
Qed.

Lemma auth_run_live counter evs : Forall accepted_association evs ->
  exists a, auth_run cfg (auth_init counter) evs = Some a /\ live evs a.
Proof.
  induction evs as [|ev evs IH] using rev_ind; intros Hk.
  { eexists. split; [done|]. split; [exact (settled_zero cfg [] (auth_init counter))|done]. }
  apply Forall_app in Hk as [Hk Hev]. apply list.Forall_cons_1 in Hev as [Hev _]. destruct (IH Hk) as (a & E & L).
  destruct (auth_step_live evs a ev L Hev) as (a' & E' & L'). exists a'. split; [|done]. rewrite auth_run_snoc, E. exact E'.
Qed.

(** C10: The authenticator handles every sequence of accepted associations (RSN,
    CCMP, PSK), received frames of any length and content, timeouts and events
    without a fault, whatever allocations fail: it never reads outside a frame,
    its key data or an element, never writes past an allocated buffer, never
    looks at a frame that was not kept, and its loops end.  Between events no
    answer of the station is left over. *)
Theorem authenticator_returns counter evs : Forall accepted_association evs ->
  exists a, auth_run cfg (auth_init counter) evs = Some a /\ answer (sm a) = false /\ in_step_loop (sm a) = false /\
    forall e, e ∈ out a -> harmless e \/ earned cfg counter evs e.
Proof.
  intros Hk. destruct (auth_run_live counter evs Hk) as (a & E & (_ & Ha & Hl & _) & _). exists a. split_and!; [done|done|done|].
  apply (auth_run_ok cfg counter evs); [|done]. eapply Forall_impl; [|exact Hk]. intros [| | |] H; try done. apply H.
Qed.
End Total.
