(* ===== verification/WpaHandshake.v ===== *)
(** * WpaHandshake: the handshake with a station that knows the key

    EAPOL-Key frames as a station builds them, the MIC that the access point
    accepts, and the run of the handshake with such a station. *)

From stdpp Require Import base list option.
From Stdlib Require Import ZArith Lia.
From S2P Require Import Prelude HciAggr Words Wire Ie80211 WpaIe Rc4 WpaAuth WpaAuthSafe.

(** ** Frames *)

(** The fields have the lengths of [struct wpa_eapol_key]. *)
Definition frame_wf (f : eapol_frame) : Prop :=
  length (f_replay f) = 8%nat /\ length (f_nonce f) = 32%nat /\ length (f_iv f) = 16%nat /\
  length (f_rsc f) = 8%nat /\ length (f_id f) = 8%nat /\ length (f_mic f) = 16%nat.

(** The bytes of the frame before and after the MIC. *)
Definition before_mic (f : eapol_frame) : list Z :=
  [f_version f; f_packet_type f] ++ WPA_PUT_BE16 (f_length f) ++ [f_type f] ++
  WPA_PUT_BE16 (f_key_info f) ++ WPA_PUT_BE16 (f_key_length f) ++ f_replay f ++ f_nonce f ++ f_iv f ++
  f_rsc f ++ f_id f.
Definition after_mic (f : eapol_frame) : list Z := WPA_PUT_BE16 (f_data_length f) ++ f_data f.

Lemma frame_bytes_split f : frame_bytes f = before_mic f ++ f_mic f ++ after_mic f.
Proof. unfold frame_bytes, before_mic, after_mic. by rewrite <- !app_assoc. Qed.

Section Frame.
Context (f : eapol_frame) (Hwf : frame_wf f).

Lemma length_before_mic : length (before_mic f) = 81%nat.
Proof. destruct Hwf as (H1 & H2 & H3 & H4 & H5 & H6). unfold before_mic. rewrite !length_app, H1, H2, H3, H4, H5. done. Qed.

Lemma length_frame : length (frame_bytes f) = (99 + length (f_data f))%nat.
Proof.
  rewrite frame_bytes_split, !length_app, length_before_mic. destruct Hwf as (_ & _ & _ & _ & _ & ->). done.
Qed.

Lemma frame_type : frame_bytes f !! off_type = Some (f_type f).
Proof. done. Qed.

Lemma frame_key_info : WPA_GET_BE16 (frame_bytes f) off_key_info = Some (u16 (f_key_info f)).
Proof. exact (get_put_be16 ([f_version f; f_packet_type f] ++ WPA_PUT_BE16 (f_length f) ++ [f_type f]) (f_key_info f) _). Qed.

Lemma frame_replay : slice (frame_bytes f) off_replay 8 = Some (f_replay f).
Proof.
  eapply (slice_at _ ([f_version f; f_packet_type f] ++ WPA_PUT_BE16 (f_length f) ++ [f_type f] ++
    WPA_PUT_BE16 (f_key_info f) ++ WPA_PUT_BE16 (f_key_length f))); [|done|by destruct Hwf].
  unfold frame_bytes. by rewrite <- !app_assoc.
Qed.

Lemma frame_nonce : slice (frame_bytes f) off_nonce 32 = Some (f_nonce f).
Proof.
  destruct Hwf as (H1 & H2 & _).
  eapply (slice_at _ ([f_version f; f_packet_type f] ++ WPA_PUT_BE16 (f_length f) ++ [f_type f] ++
    WPA_PUT_BE16 (f_key_info f) ++ WPA_PUT_BE16 (f_key_length f) ++ f_replay f)).
  - unfold frame_bytes. by rewrite <- !app_assoc.
  - rewrite !length_app, H1. done.
  - done.
Qed.

Lemma frame_data_length : WPA_GET_BE16 (frame_bytes f) off_data_length = Some (u16 (f_data_length f)).
Proof.
  rewrite frame_bytes_split, app_assoc. unfold after_mic.
  replace off_data_length with (length (before_mic f ++ f_mic f)); [apply get_put_be16|].
  rewrite length_app, length_before_mic. destruct Hwf as (_ & _ & _ & _ & _ & ->). done.
Qed.

Lemma frame_key_data : drop off_key_data (frame_bytes f) = f_data f.
Proof.
  rewrite frame_bytes_split. unfold after_mic. rewrite !app_assoc.
  replace off_key_data with (length ((before_mic f ++ f_mic f) ++ WPA_PUT_BE16 (f_data_length f)));
    [apply drop_app_length|].
  rewrite !length_app, length_before_mic. destruct Hwf as (_ & _ & _ & _ & _ & ->). done.
Qed.
End Frame.

Lemma frame_bytes_ok f :
  Forall is_byte [f_version f; f_packet_type f; f_type f] -> Forall is_byte (f_replay f) ->
  Forall is_byte (f_nonce f) -> Forall is_byte (f_iv f) -> Forall is_byte (f_rsc f) -> Forall is_byte (f_id f) ->
  Forall is_byte (f_mic f) -> Forall is_byte (f_data f) -> Forall is_byte (frame_bytes f).
Proof.
  intros (H1 & (H2 & (H3 & _)%list.Forall_cons_1)%list.Forall_cons_1)%list.Forall_cons_1 **.
  unfold frame_bytes. rewrite !Forall_app. split_and!; auto using put_be16_bytes; by repeat constructor.
Qed.

Lemma zeros_bytes n : Forall is_byte (replicate n 0).
Proof. apply Forall_replicate. unfold is_byte. lia. Qed.

(** ** Message integrity *)

Section Integrity.
Context `{KC : KeyCrypto}.

(** A frame with its MIC. *)
Definition signed (ptk : list Z) (f : eapol_frame) : eapol_frame :=
  f <| f_mic := take 16 (kc_hmac (kck ptk) (frame_bytes f)) |>.

(** A frame whose MIC is still zero. *)
Definition unsigned_ok (f : eapol_frame) : Prop :=
  frame_wf f /\ f_mic f = replicate 16 0 /\ Forall is_byte (frame_bytes f) /\ Z.of_nat (length (f_data f)) < 65000 /\
  Z.land (u16 (f_key_info f)) WPA_KEY_INFO_TYPE_MASK = WPA_KEY_INFO_TYPE_HMAC_SHA1_AES.

Definition ptk_bytes (ptk : list Z) : Prop := length ptk = 48%nat /\ Forall is_byte ptk.

Lemma signed_mic ptk f : ptk_bytes ptk -> unsigned_ok f -> length (f_mic (signed ptk f)) = 16%nat.
Proof.
  intros [Hl Hb] (Hwf & Hm & Hf & Hd & Hk).
  change (f_mic (signed ptk f)) with (take 16 (kc_hmac (kck ptk) (frame_bytes f))).
  destruct (kc_hmac_bytes (kck ptk) (frame_bytes f)) as [H _].
  - by apply Forall_take.
  - done.
  - rewrite length_frame by done. lia.
  - unfold kck. rewrite length_take, Hl. done.
  - rewrite length_take, H. done.
Qed.

Lemma signed_wf ptk f : ptk_bytes ptk -> unsigned_ok f -> frame_wf (signed ptk f).
Proof.
  intros Hp Hu. pose proof (signed_mic ptk f Hp Hu). destruct Hu as ((H1 & H2 & H3 & H4 & H5 & H6) & _).
  by split_and!.
Qed.

(** The MIC of a signed frame is accepted. *)
Lemma verify_signed ptk f :
  ptk_bytes ptk -> unsigned_ok f ->
  wpa_verify_key_mic ptk (frame_bytes (signed ptk f)) (length (frame_bytes (signed ptk f))) = Some 0.
Proof.
  intros Hp Hu. pose proof (signed_wf ptk f Hp Hu) as Hwf'. pose proof (signed_mic ptk f Hp Hu) as Hl16.
  destruct Hu as (Hwf & Hm & Hf & Hd & Hk).
  unfold wpa_verify_key_mic. rewrite length_frame by done.
  rewrite (proj2 (Nat.ltb_ge _ _)) by (unfold SIZEOF_hdr, SIZEOF_key; lia).
  rewrite frame_key_info. cbn [mbind option_bind].
  rewrite (slice_at _ (before_mic f) (f_mic (signed ptk f)) (after_mic f) off_mic 16);
    [|apply (frame_bytes_split (signed ptk f))|by rewrite length_before_mic|done].
  cbn [mbind option_bind].
  rewrite (wr_at _ (before_mic f) (f_mic (signed ptk f)) (after_mic f) (replicate 16 0) off_mic);
    [|apply (frame_bytes_split (signed ptk f))|by rewrite length_before_mic|done].
  cbn [mbind option_bind]. rewrite <- Hm, <- frame_bytes_split.
  change (length (f_data (signed ptk f))) with (length (f_data f)). rewrite <- length_frame, slice_whole by done.
  cbn [mbind option_bind]. change (f_key_info (signed ptk f)) with (f_key_info f). rewrite Hk.
  unfold wpa_eapol_key_mic. change (_ =? _) with true. cbv iota.
  change (f_mic (signed ptk f)) with (take 16 (kc_hmac (kck ptk) (frame_bytes f))).
  by rewrite decide_True.
Qed.
End Integrity.

Section Handshake.
Context `{KC : KeyCrypto}.
Variables (own sa counter sn key gtk d di : list Z) (gn : Z) (cf : wpa_auth_config) (stray : bool).

(** An access point whose allocations succeed, and a station that associates
    with WPA2, a pre-shared key and CCMP. *)
Definition ap_cfg : wpa_cfg :=
  mk_cfg own key cf gtk gn (encode_ie (48, d)) (fun _ => true) stray.
Definition psk_sta : wpa_sta :=
  mk_sta WPA_VERSION_WPA2 WPA_CIPHER_CCMP WPA_KEY_MGMT_PSK (Some (encode_ie (48, di))) (2 + length di).

(** The replay counters of messages 1 and 3. *)
Definition replay1 : list Z := [0; 0; 0; 0; 0; 0; 0; 1].
Definition replay2 : list Z := [0; 0; 0; 0; 0; 0; 0; 2].

Definition message1 : eapol_frame :=
  mk_frame 1 IEEE802_1X_TYPE_EAPOL_KEY 95 EAPOL_KEY_TYPE_RSN 138 16 replay1 counter (replicate 16 0)
    (replicate 8 0) (replicate 8 0) (replicate 16 0) 0 [].

(** The machine during the handshake: its state, its counter of tries, what it
    knows of a received frame (whether one is pending, its kind, the nonce and
    the bytes), the PTK, the replay counters and the flags of the loop. *)
Record hs := mk_hs {
  h_state : ptk_state; h_ctr : Z; h_rx : bool; h_pairwise : bool; h_mic : bool; h_snonce : list Z;
  h_ptk : list Z; h_valid : bool; h_set : bool; h_replays : list (list Z * bool);
  h_last : option (list Z); h_changed : bool; h_loop : bool; h_secure : bool; h_pending : bool
}.
Definition hs_sm (h : hs) : wpa_state_machine :=
  mk_sm sa (h_state h) false false false false false (h_ctr h) false (h_rx h) (h_pairwise h) false (h_mic h)
    counter (h_snonce h) key (h_ptk h) (h_valid h) (h_set h) 0 true (h_replays h) false (h_last h) (h_changed h)
    (h_loop h) false true (h_secure h) (replicate 8 0) false psk_sta 0 (h_pending h).

Definition zero8 : list Z := replicate 8 0.
Definition replays1 : list (list Z * bool) := [(replay1, true); (zero8, false); (zero8, false); (zero8, false)].
Definition replays2 : list (list Z * bool) := [(replay1, false); (zero8, false); (zero8, false); (zero8, false)].
Definition replays3 : list (list Z * bool) := [(replay2, true); (replay1, false); (zero8, false); (zero8, false)].
Definition replays4 : list (list Z * bool) := [(replay2, false); (replay1, false); (zero8, false); (zero8, false)].

(** The machine that waits for message 2. *)
Definition hs_waits2 : hs :=
  mk_hs WPA_PTK_PTKSTART 1 false false false (replicate 32 0) (replicate 48 0) false false replays1 None
    false false false true.

Hypothesis Hwpa : (conf_wpa cf =? 0) = false.

(** What matters of a state. *)
Definition view (a : auth_state) := (sm a, sta_valid a, timers a, out a).

Lemma associate_waits2 :
  view <$> auth_step ap_cfg (auth_init counter) (EvAssociate sa psk_sta)
  = Some (hs_sm hs_waits2, true, [100], [SendEapol (frame_bytes message1) false]).
Proof.
  unfold auth_step, wpa_auth_sta_associated, ap_cfg. cbn [conf]. rewrite Hwpa.
  destruct stray; vm_compute; reflexivity.
Qed.

(** The PTK of the two sides. *)
Definition hs_ptk : list Z := kc_prf key ptk_label (ordered own sa ++ ordered counter sn) 48.

Definition at_hs (a : auth_state) (h : hs) (ts : list Z) (o : list effect) : Prop :=
  view a = (hs_sm h, true, ts, o).

(** *** The rounds of the loop *)

Lemma loop_round f a a' :
  started (sm a) = true -> sm_WPA_PTK_Step ap_cfg (with_sm a (fun s => s <| changed := false |>)) = Some a' ->
  changed (sm a') = true -> step_loop ap_cfg (S f) a = step_loop ap_cfg f a'.
Proof. intros Hs H Hc. cbn [step_loop]. by rewrite Hs, H, Hc. Qed.

Lemma loop_last f a a' :
  started (sm a) = true -> sm_WPA_PTK_Step ap_cfg (with_sm a (fun s => s <| changed := false |>)) = Some a' ->
  changed (sm a') = false -> step_loop ap_cfg (S f) a = Some (Some a').
Proof. intros Hs H Hc. cbn [step_loop]. by rewrite Hs, H, Hc. Qed.

(** Message 2 is checked. *)
Lemma round_calc a m2 :
  at_hs a (mk_hs WPA_PTK_PTKSTART 1 true true false sn (replicate 48 0) false false replays2 (Some m2)
             false true false true) [] (out a) ->
  wpa_verify_key_mic hs_ptk m2 (length m2) = Some 0 ->
  exists a', sm_WPA_PTK_Step ap_cfg (with_sm a (fun s => s <| changed := false |>)) = Some a' /\
    at_hs a' (mk_hs WPA_PTK_PTKCALCNEGOTIATING 1 false true true sn hs_ptk true false replays2 (Some m2)
                true true false false) [] (out a).
Proof.
  destruct a as [s c hf mf sv ts n o]. unfold at_hs, view. cbn [sm sta_valid timers out]. intros [= -> -> ->] Hmic.
  eexists. split.
  - transitivity (enter_PTKCALCNEGOTIATING ap_cfg (mk_auth (hs_sm (mk_hs WPA_PTK_PTKSTART 1 true true false sn
      (replicate 48 0) false false replays2 (Some m2) false true false true)) c hf mf true [] n o)); [reflexivity|].
    unfold enter_PTKCALCNEGOTIATING. cbv zeta.
    match goal with |- context [wpa_derive_ptk ?c ?s ?k] =>
      assert (wpa_derive_ptk c s k = Some hs_ptk) as -> by reflexivity end.
    cbn [mbind option_bind].
    match goal with |- context [last_rx_eapol_key ?s] =>
      assert (last_rx_eapol_key s = Some m2) as -> by reflexivity end.
    cbn [mbind option_bind]. rewrite Hmic. cbn [mbind option_bind]. reflexivity.
  - reflexivity.
Qed.

Lemma round_calc2 a m2 :
  at_hs a (mk_hs WPA_PTK_PTKCALCNEGOTIATING 1 false true true sn hs_ptk true false replays2 (Some m2)
             true true false false) [] (out a) ->
  exists a', sm_WPA_PTK_Step ap_cfg (with_sm a (fun s => s <| changed := false |>)) = Some a' /\
    at_hs a' (mk_hs WPA_PTK_PTKCALCNEGOTIATING2 0 false true true sn hs_ptk true false replays2 (Some m2)
                true true false false) [] (out a).
Proof.
  destruct a as [s c hf mf sv ts n o]. unfold at_hs, view. cbn [sm sta_valid timers out]. intros [= -> -> ->].
  eexists. by split.
Qed.

(** *** Message 3 *)

(** Its key data before encryption, and with the padding. *)
Definition data3 : list Z := encode_ie (48, d) ++ gtk_kde (Z.land gn 3) gtk.
Definition pad3 : nat := ((8 - length data3 mod 8) mod 8)%nat.
Definition plain3 : list Z := data3 ++ padding pad3.

Definition message3 (cipher : list Z) : eapol_frame :=
  signed hs_ptk (mk_frame 1 IEEE802_1X_TYPE_EAPOL_KEY (Z.of_nat (95 + (length data3 + (pad3 + 8)))) EAPOL_KEY_TYPE_RSN
    5066 16 replay2 counter (replicate 16 0) (1 :: replicate 7 0) (replicate 8 0) (replicate 16 0)
    (Z.of_nat (length data3 + (pad3 + 8))) cipher).

Hypothesis Hd : length d = 20%nat.
Hypothesis Hgtk : (1 <= length gtk <= 32)%nat.

Lemma data3_value : msg3_kde (encode_ie (48, d)) (Some gtk) gn = Some data3.
Proof.
  unfold msg3_kde. cbn [from_option].
  set (n := (length (encode_ie (48%Z, d)) + _)%nat).
  assert (n = length (encode_ie (48%Z, d)) + (8 + length gtk))%nat as ->.
  { unfold n. unfold RSN_SELECTOR_LEN. lia. }
  rewrite replicate_add.
  rewrite (wr_at _ [] (replicate (length (encode_ie (48, d))) 0) (replicate (8 + length gtk) 0) (encode_ie (48, d)) 0);
    [|done|done|by rewrite length_replicate].
  cbn [mbind option_bind]. change ([] ++ ?l) with l.
  rewrite (add_kde_exact _ _ (encode_ie (48, d)) (replicate (8 + length gtk) 0) []);
    [|by rewrite app_nil_r|done|by rewrite length_replicate, length_gtk_kde|lia].
  cbn [mbind option_bind]. f_equal. rewrite app_nil_r, <- length_app. by rewrite take_ge.
Qed.

Lemma plain3_length : exists n, length plain3 = (8 * n)%nat /\ ((length data3 + (pad3 + 8) - 8) / 8)%nat = n.
Proof.
  unfold plain3. rewrite length_app, length_padding. unfold pad3.
  set (l := length data3). pose proof (Nat.div_mod_eq l 8) as E. pose proof (Nat.mod_upper_bound l 8 ltac:(lia)) as B.
  assert (exists n, l + (8 - l mod 8) mod 8 = 8 * n)%nat as [n Hn].
  { destruct (Nat.eq_dec (l mod 8) 0) as [Hz|Hz].
    - rewrite Hz. exists (l / 8)%nat. change ((8 - 0) mod 8)%nat with 0%nat. lia.
    - rewrite (Nat.mod_small (8 - l mod 8)) by lia. exists (S (l / 8)). lia. }
  exists n. split; [done|]. replace (l + ((8 - l mod 8) mod 8 + 8) - 8)%nat with (n * 8)%nat by lia. apply Nat.div_mul. lia.
Qed.

(** The buffer that is wrapped. *)
Lemma plain3_value :
  let buf := data3 ++ (if (pad3 =? 0)%nat then [] else [0xdd]) in
  take (8 * ((length data3 + (pad3 + 8) - 8) / 8)) (buf ++ replicate (length data3 + (pad3 + 8) - length buf) 0)
  = plain3.
Proof.
  destruct plain3_length as (n & Hn & ->). rewrite <- Hn. unfold plain3.
  cbv zeta. destruct pad3 as [|k]; cbn [Nat.eqb padding].
  - rewrite !app_nil_r. by rewrite take_app_length.
  - rewrite !length_app. cbn [length]. rewrite length_replicate.
    replace (length data3 + (S k + 8) - (length data3 + 1))%nat with (k + 8)%nat by lia.
    rewrite replicate_add, !app_assoc, <- (app_assoc data3). cbn [app].
    rewrite <- app_assoc. cbn [app].
    replace (length data3 + S k)%nat with (length (data3 ++ 221 :: replicate k 0)) by (rewrite length_app; cbn; rewrite length_replicate; lia).
    change (221 :: replicate k 0 ++ replicate 8 0) with ((221 :: replicate k 0) ++ replicate 8 0).
    by rewrite app_assoc, take_app_length.
Qed.

Lemma encrypt3 a f cipher :
  PTK (sm a) = hs_ptk -> kc_wrap (kek hs_ptk) plain3 true = Some cipher ->
  encrypt_key_data ap_cfg a WPA_KEY_INFO_TYPE_HMAC_SHA1_AES f data3 pad3 (length data3 + (pad3 + 8))
  = (Some (f <| f_data := cipher |> <| f_data_length := Z.of_nat (length data3 + (pad3 + 8)) |>),
     a <| nalloc := S (S (nalloc a)) |>).
Proof.
  intros Hp Hw. unfold encrypt_key_data, alloc. cbn [ap_cfg allocs negb].
  change (_ || _) with true. cbv zeta. cbv iota. rewrite plain3_value.
  change (PTK (sm (a <| nalloc := S (nalloc a) |> <| nalloc := _ |>))) with (PTK (sm a)).
  rewrite Hp, Hw. reflexivity.
Qed.

Lemma msg3_ie_value s : sta_wpa (assoc s) = WPA_VERSION_WPA2 -> msg3_wpa_ie ap_cfg s = Some (encode_ie (48, d)).
Proof.
  intros Hs. unfold msg3_wpa_ie. rewrite Hs, bool_decide_eq_false_2 by done. cbn [andb ap_cfg auth_wpa_ie].
  assert (WPA_IE_LEN = length (encode_ie (48%Z, d))) as -> by (cbn; by rewrite Hd). apply slice_whole.
Qed.

Lemma round_msg3 a m2 cipher :
  at_hs a (mk_hs WPA_PTK_PTKCALCNEGOTIATING2 0 false true true sn hs_ptk true false replays2 (Some m2)
             true true false false) [] (out a) ->
  kc_wrap (kek hs_ptk) plain3 true = Some cipher ->
  exists a', sm_WPA_PTK_Step ap_cfg (with_sm a (fun s => s <| changed := false |>)) = Some a' /\
    at_hs a' (mk_hs WPA_PTK_PTKINITNEGOTIATING 1 false true true sn hs_ptk true false replays3 (Some m2)
                true true false false) [100] (out a ++ [SendEapol (frame_bytes (message3 cipher)) false]).
Proof.
  destruct a as [s c hf mf sv ts n o]. unfold at_hs, view. cbn [sm sta_valid timers out]. intros [= -> -> ->] Hw.
  set (h := mk_hs WPA_PTK_PTKCALCNEGOTIATING2 0 false true true sn hs_ptk true false replays2 (Some m2)
    false true false false).
  set (h1 := mk_hs WPA_PTK_PTKINITNEGOTIATING 1 false true true sn hs_ptk true false replays2 (Some m2)
    true true false false).
  assert (sm_WPA_PTK_Step ap_cfg (with_sm (mk_auth (hs_sm (mk_hs WPA_PTK_PTKCALCNEGOTIATING2 0 false true true sn
    hs_ptk true false replays2 (Some m2) true true false false)) c hf mf true [] n o)
      (fun s => s <| changed := false |>))
    = Some (wpa_send_eapol ap_cfg (mk_auth (hs_sm h1) c hf mf true [] (S n) o) 970 (Some (1 :: replicate 7 0))
        counter (Some data3) gn true)) as ->.
  { transitivity (enter_PTKINITNEGOTIATING ap_cfg (mk_auth (hs_sm h) c hf mf true [] n o)); [reflexivity|].
    unfold enter_PTKINITNEGOTIATING. cbv zeta. rewrite msg3_ie_value by reflexivity.
    change (dot11RSNAConfigPairwiseUpdateCount <? TimeoutCtr _) with false. cbv iota.
    cbn [mbind option_bind]. unfold alloc. cbn [ap_cfg allocs negb]. cbv iota.
    change (bool_decide (sta_wpa (assoc _) = WPA_VERSION_WPA2)) with true. cbv iota.
    change (GTK ap_cfg) with gtk. change (GN ap_cfg) with gn.
    rewrite data3_value. cbn [mbind option_bind]. reflexivity. }
  set (h2 := mk_hs WPA_PTK_PTKINITNEGOTIATING 1 false true true sn hs_ptk true false replays3 (Some m2)
    true true false false).
  assert (__wpa_send_eapol ap_cfg (mk_auth (hs_sm h1) c hf mf true [] (S n) o) 970 (Some (1 :: replicate 7 0))
      counter (Some data3) gn true
    = let '(fr, a) := encrypt_key_data ap_cfg (mk_auth (hs_sm h2) c hf mf true [] (S (S n)) o)
          WPA_KEY_INFO_TYPE_HMAC_SHA1_AES
          (mk_frame 1 IEEE802_1X_TYPE_EAPOL_KEY (Z.of_nat (95 + (length data3 + (pad3 + 8)))) EAPOL_KEY_TYPE_RSN
            5066 16 replay2 counter (replicate 16 0) (1 :: replicate 7 0) (replicate 8 0) (replicate 16 0) 0
            (replicate (length data3 + (pad3 + 8)) 0)) data3 pad3 (length data3 + (pad3 + 8)) in
      match fr with
      | None => a
      | Some f => if PTK_valid (sm a)
                  then emit a (SendEapol (frame_bytes (signed (PTK (sm a)) f)) (pairwise_set (sm a))) else a
      end) as E by reflexivity.
  rewrite encrypt3 with (cipher := cipher) in E by done.
  eexists. split; [reflexivity|]. unfold wpa_send_eapol. rewrite E.
  change (stray_cancel ap_cfg) with stray. by case stray.
Qed.

(** The machine that waits for message 4, and the machine that is done. *)
Definition hs_waits4 (m2 : list Z) : hs :=
  mk_hs WPA_PTK_PTKINITNEGOTIATING 1 false true true sn hs_ptk true false replays3 (Some m2) false false false false.

Lemma at_hs_sm a h ts o : at_hs a h ts o -> sm a = hs_sm h.
Proof. intros H. exact (f_equal (fun v => v.1.1.1) H). Qed.

(** A call of [wpa_sm_step], as the rounds of its loop. *)
Lemma sm_step_rounds a b h ts o :
  started (sm a) = true -> in_step_loop (sm a) = false ->
  step_loop ap_cfg step_fuel (with_sm a (fun s => s <| in_step_loop := true |>)) = Some (Some b) ->
  at_hs (with_sm b (fun s => s <| in_step_loop := false |>)) h ts o ->
  exists a', wpa_sm_step ap_cfg a = Some (0, a') /\ at_hs a' h ts o.
Proof.
  intros Hs Hl H Hh. unfold wpa_sm_step. rewrite Hs, Hl. cbn [negb]. rewrite H.
  cbn [mjoin option_join mbind option_bind]. eexists. split; [|exact Hh].
  assert (pending_deinit (sm (with_sm b (fun s => s <| in_step_loop := false |>))) = false) as Hp.
  { by rewrite (at_hs_sm _ _ _ _ Hh). }
  by rewrite Hp.
Qed.

Lemma at_hs_eq a h ts o : at_hs a h ts o ->
  a = mk_auth (hs_sm h) (Counter a) (handshake_failures a) (mic_failures a) true ts (nalloc a) o.
Proof. destruct a. unfold at_hs, view. cbn. by intros [= -> -> -> ->]. Qed.

Lemma at_hs_out a h ts o : at_hs a h ts o -> out a = o.
Proof. intros H. exact (f_equal (fun v => v.2) H). Qed.

Lemma sm_step_msg2 a m2 cipher :
  at_hs a (mk_hs WPA_PTK_PTKSTART 1 true true false sn (replicate 48 0) false false replays2 (Some m2)
             false false false true) [] (out a) ->
  wpa_verify_key_mic hs_ptk m2 (length m2) = Some 0 -> kc_wrap (kek hs_ptk) plain3 true = Some cipher ->
  exists a', wpa_sm_step ap_cfg a = Some (0, a') /\
    at_hs a' (hs_waits4 m2) [100] (out a ++ [SendEapol (frame_bytes (message3 cipher)) false]).
Proof.
  intros Ha Hmic Hw. set (o := out a) in *. apply at_hs_eq in Ha. rewrite Ha. clear Ha.
  destruct (round_calc (mk_auth (hs_sm (mk_hs WPA_PTK_PTKSTART 1 true true false sn (replicate 48 0) false false
    replays2 (Some m2) false true false true)) (Counter a) (handshake_failures a) (mic_failures a) true []
    (nalloc a) o) m2) as (a1 & E1 & H1); [done|done|].
  pose proof (at_hs_out _ _ _ _ H1) as Ho1. cbn [out] in Ho1, H1. rewrite <- Ho1 in H1.
  destruct (round_calc2 a1 m2 H1) as (a2 & E2 & H2).
  pose proof (at_hs_out _ _ _ _ H2) as Ho2. rewrite <- Ho2 in H2.
  destruct (round_msg3 a2 m2 cipher H2 Hw) as (a3 & E3 & H3). rewrite Ho2, Ho1 in H3.
  assert (exists a4, sm_WPA_PTK_Step ap_cfg (with_sm a3 (fun s => s <| changed := false |>)) = Some a4 /\
    at_hs a4 (mk_hs WPA_PTK_PTKINITNEGOTIATING 1 false true true sn hs_ptk true false replays3 (Some m2)
      false true false false) [100] (o ++ [SendEapol (frame_bytes (message3 cipher)) false])) as (a4 & E4 & H4).
  { apply at_hs_eq in H3. rewrite H3. eexists. by split. }
  assert (step_loop ap_cfg step_fuel (mk_auth (hs_sm (mk_hs WPA_PTK_PTKSTART 1 true true false sn (replicate 48 0)
    false false replays2 (Some m2) false true false true)) (Counter a) (handshake_failures a) (mic_failures a)
    true [] (nalloc a) o) = Some (Some a4)) as Hloop.
  { change step_fuel with (S (S (S (S 126)))).
    rewrite (loop_round _ _ a1), (loop_round _ _ a2), (loop_round _ _ a3), (loop_last _ _ a4); try done;
      match goal with H : at_hs ?x _ _ _ |- context [sm ?x] => by rewrite (at_hs_sm _ _ _ _ H) end. }
  eapply sm_step_rounds; [done|done|exact Hloop|].
  apply at_hs_eq in H4. by rewrite H4.
Qed.

(** *** The frames of the station *)

Definition message2 : eapol_frame :=
  signed hs_ptk (mk_frame 1 IEEE802_1X_TYPE_EAPOL_KEY (Z.of_nat (97 + length di)) EAPOL_KEY_TYPE_RSN 266 0 replay1 sn
    (replicate 16 0) (replicate 8 0) (replicate 8 0) (replicate 16 0) (Z.of_nat (2 + length di)) (encode_ie (48, di))).

Definition message4 : eapol_frame :=
  signed hs_ptk (mk_frame 1 IEEE802_1X_TYPE_EAPOL_KEY 95 EAPOL_KEY_TYPE_RSN 778 0 replay2 (replicate 32 0)
    (replicate 16 0) (replicate 8 0) (replicate 8 0) (replicate 16 0) 0 []).

(** [wpa_receive] up to the checks of the message kind. *)
Lemma receive_frame a f :
  started (sm a) = true -> sta_wpa (assoc (sm a)) = WPA_VERSION_WPA2 ->
  frame_wf f -> f_type f = EAPOL_KEY_TYPE_RSN -> f_data_length f = Z.of_nat (length (f_data f)) ->
  Z.of_nat (length (f_data f)) < 65536 -> u16 (f_key_info f) = f_key_info f ->
  Z.land (f_key_info f) WPA_KEY_INFO_TYPE_MASK = WPA_KEY_INFO_TYPE_HMAC_SHA1_AES ->
  has (f_key_info f) WPA_KEY_INFO_REQUEST = false -> wpa_replay_counter_valid (sm a) (f_replay f) = true ->
  wpa_receive ap_cfg a (frame_bytes f) (length (frame_bytes f))
  = (c ← check_msg ap_cfg (cancel_timeout a) (classify (f_key_info f) (Z.of_nat (length (f_data f)))) (f_data f)
           (Z.of_nat (length (f_data f)));
     match c with
     | inl a => Some a
     | inr a => receive_checked ap_cfg a (frame_bytes f) (length (frame_bytes f)) (f_key_info f) (f_replay f)
     end).
Proof.
  intros Hs Hv Hwf Ht Hdl Hlt Hki Hmask Hq Hrep. unfold wpa_receive.
  change (conf_wpa (conf ap_cfg)) with (conf_wpa cf). rewrite Hwpa, Hs. cbn [orb negb].
  rewrite (proj2 (Nat.ltb_ge _ _)) by (rewrite length_frame by done; unfold SIZEOF_hdr, SIZEOF_key; lia).
  cbv zeta. rewrite frame_key_info, frame_data_length by done. cbn [mbind option_bind].
  rewrite Hki, Hdl, u16_small by lia.
  rewrite (proj2 (Z.ltb_ge _ _)) by (rewrite length_frame by done; unfold SIZEOF_hdr, SIZEOF_key; lia).
  rewrite frame_type by done. cbn [mbind option_bind].
  change (assoc (sm (cancel_timeout a))) with (assoc (sm a)). rewrite Hv, Ht.
  change (negb (type_accepted WPA_VERSION_WPA2 EAPOL_KEY_TYPE_RSN)) with false. cbv iota.
  rewrite Hmask. change (negb (WPA_KEY_INFO_TYPE_HMAC_SHA1_AES =? WPA_KEY_INFO_TYPE_HMAC_SHA1_AES)) with false.
  rewrite andb_false_r, frame_replay by done. cbn [mbind option_bind]. rewrite Hq. cbn [andb negb].
  change (wpa_replay_counter_valid (sm (cancel_timeout a)) (f_replay f))
    with (wpa_replay_counter_valid (sm a) (f_replay f)). rewrite Hrep. cbn [negb].
  by rewrite frame_key_data.
Qed.

(** The element of message 2 is the one of the association. *)
Lemma check_msg2 a :
  at_hs a hs_waits2 [] (out a) -> 
  exists b, check_msg ap_cfg a PAIRWISE_2 (encode_ie (48, di)) (Z.of_nat (2 + length di)) = Some (inr b) /\
    at_hs b hs_waits2 [] (out a).
Proof.
  intros Ha. apply at_hs_eq in Ha. set (o := out a) in *. rewrite Ha.
  eexists. unfold check_msg. cbv zeta.
  change (wpa_ptk_state (sm (mk_auth (hs_sm hs_waits2) _ _ _ _ _ _ _))) with WPA_PTK_PTKSTART.
  rewrite bool_decide_eq_true_2 by done. cbn [negb andb].
  rewrite Nat2Z.id. unfold wpa_parse_kde_ies. change (2 + length di)%nat with (S (S (length di))) at 1.
  rewrite (kde_step_rsn _ _ 0 _ _ [] di []); [|by rewrite app_nil_r|done|lia].
  rewrite kde_stop by lia. cbn [mbind option_bind].
  change (0 <? 0) with false. cbv iota.
  change (kde_rsn_ie (kde_set_rsn kde_clear 0 (length di + 2))) with (Some 0%nat). cbv iota.
  change (kde_rsn_ie_len (kde_set_rsn kde_clear 0 (length di + 2))) with (length di + 2)%nat.
  unfold alloc. cbn [ap_cfg allocs fmap option_fmap option_map sm assoc hs_sm psk_sta sta_wpa_ie sta_wpa_ie_len].
  change (drop 0 (encode_ie (48, di))) with (encode_ie (48, di)).
  assert (wpa_compare_rsn_ie true (Some (encode_ie (48, di))) (2 + length di) (Some (encode_ie (48, di)))
    (length di + 2) = Some 0) as ->.
  { unfold wpa_compare_rsn_ie. rewrite (Nat.add_comm (length di)), Nat.eqb_refl.
    change (2 + length di)%nat with (length (encode_ie (48%Z, di))). rewrite slice_whole. cbn [mbind option_bind negb].
    by rewrite decide_True. }
  cbn [mbind option_bind]. split; [reflexivity|]. reflexivity.
Qed.

Hypothesis Hcounter : length counter = 32%nat /\ Forall is_byte counter.
Hypothesis Hsn : length sn = 32%nat /\ Forall is_byte sn.
Hypothesis Hown : length own = 6%nat /\ Forall is_byte own.
Hypothesis Hsa : length sa = 6%nat /\ Forall is_byte sa.
Hypothesis Hkey : length key = 32%nat /\ Forall is_byte key.
Hypothesis Hdi : (length di < 256)%nat /\ Forall is_byte di.
Hypothesis Hdb : Forall is_byte d.
Hypothesis Hgb : Forall is_byte gtk.

Lemma ordered_ok x y :
  Forall is_byte x -> Forall is_byte y ->
  length (ordered x y) = (length x + length y)%nat /\ Forall is_byte (ordered x y).
Proof.
  intros Hx Hy. unfold ordered. destruct (mem_lt x y); rewrite length_app; (split; [lia|by apply Forall_app]).
Qed.

Lemma hs_ptk_ok : ptk_bytes hs_ptk.
Proof.
  destruct (ordered_ok own sa) as [L1 B1]; [apply Hown|apply Hsa|].
  destruct (ordered_ok counter sn) as [L2 B2]; [apply Hcounter|apply Hsn|].
  apply kc_prf_bytes; [apply Hkey| |by apply Forall_app| |].
  - repeat constructor; unfold is_byte; lia.
  - destruct Hkey as [-> _]. lia.
  - destruct Hown as [Ho _], Hsa as [Hs _], Hcounter as [Hc _], Hsn as [Hn _].
    rewrite length_app, L1, L2, Ho, Hs, Hc, Hn. change (length ptk_label) with 22%nat. lia.
Qed.

Lemma encode_ie_bytes x l : is_byte x -> (length l < 256)%nat -> Forall is_byte l -> Forall is_byte (encode_ie (x, l)).
Proof. intros Hx Hl Hb. constructor; [done|]. constructor; [unfold is_byte; cbn; lia|done]. Qed.

Ltac frame_tac :=
  apply frame_bytes_ok; cbn [f_version f_packet_type f_type f_replay f_nonce f_iv f_rsc f_id f_mic f_data];
  auto using zeros_bytes;
  try (repeat constructor; unfold is_byte, IEEE802_1X_TYPE_EAPOL_KEY, EAPOL_KEY_TYPE_RSN; lia).

Lemma message2_ok :
  unsigned_ok (mk_frame 1 IEEE802_1X_TYPE_EAPOL_KEY (Z.of_nat (97 + length di)) EAPOL_KEY_TYPE_RSN 266 0 replay1 sn
    (replicate 16 0) (replicate 8 0) (replicate 8 0) (replicate 16 0) (Z.of_nat (2 + length di)) (encode_ie (48, di))).
Proof.
  destruct Hsn as [Hn1 Hn2], Hdi as [Hd1 Hd2]. split_and!; [by split_and!|done| |cbn; lia|done].
  frame_tac. apply encode_ie_bytes; [unfold is_byte; lia|done|done].
Qed.

Lemma message4_ok :
  unsigned_ok (mk_frame 1 IEEE802_1X_TYPE_EAPOL_KEY 95 EAPOL_KEY_TYPE_RSN 778 0 replay2 (replicate 32 0)
    (replicate 16 0) (replicate 8 0) (replicate 8 0) (replicate 16 0) 0 []).
Proof.
  split_and!; [by split_and!|done| |cbn; lia|done].
  frame_tac.
Qed.

(** The end of [wpa_receive] for an answer of the station. *)
Lemma accept_frame_runs a data key_info nonce a' :
  slice data off_nonce 32 = Some nonce ->
  wpa_sm_step ap_cfg (with_sm (a <| nalloc := S (nalloc a) |>) (fun s => stored s data nonce key_info)) = Some (0, a') ->
  accept_frame ap_cfg a data (length data) key_info = Some a'.
Proof.
  intros Hn H. unfold accept_frame, alloc. cbn [ap_cfg allocs negb].
  apply bind_Some. exists data. split; [apply slice_whole|].
  apply bind_Some. exists nonce. split; [done|]. cbv zeta. apply bind_Some. by exists (0, a').
Qed.

Section Answer.
Context (key_info : Z).
Hypothesis Hack : has key_info WPA_KEY_INFO_ACK = false.
Hypothesis Hhas : has key_info WPA_KEY_INFO_MIC = true.
Hypothesis Hreq : has key_info WPA_KEY_INFO_REQUEST = false.

Lemma receive_checked_first a data n replay :
  PTK_valid (sm a) = false ->
  receive_checked ap_cfg a data n key_info replay
  = accept_frame ap_cfg (with_sm (with_sm a (fun s => s <| MICVerified := false |>)) spend_replay) data n key_info.
Proof.
  intros Hv. unfold receive_checked. rewrite Hack, Hhas, Hreq. cbn [negb]. cbv zeta.
  assert (PTK_valid (sm (with_sm a (fun s => s <| MICVerified := false |>))) = false) as -> by exact Hv. done.
Qed.

Lemma receive_checked_last a data n replay :
  PTK_valid (sm a) = true -> wpa_verify_key_mic (PTK (sm a)) data n = Some 0 ->
  receive_checked ap_cfg a data n key_info replay
  = accept_frame ap_cfg (with_sm (verified (with_sm a (fun s => s <| MICVerified := false |>))) spend_replay)
      data n key_info.
Proof.
  intros Hv Hm. unfold receive_checked. rewrite Hack, Hhas, Hreq. cbn [negb]. cbv zeta.
  assert (PTK_valid (sm (with_sm a (fun s => s <| MICVerified := false |>))) = true) as -> by exact Hv.
  assert (PTK (sm (with_sm a (fun s => s <| MICVerified := false |>))) = PTK (sm a)) as -> by reflexivity.
  by rewrite Hm.
Qed.
End Answer.

Lemma receive_msg2 a ts o cipher :
  at_hs a hs_waits2 ts o -> kc_wrap (kek hs_ptk) plain3 true = Some cipher ->
  exists a', wpa_receive ap_cfg a (frame_bytes message2) (length (frame_bytes message2)) = Some a' /\
    at_hs a' (hs_waits4 (frame_bytes message2)) [100] (o ++ [SendEapol (frame_bytes (message3 cipher)) false]).
Proof.
  intros Ha Hw. pose proof (signed_wf _ _ hs_ptk_ok message2_ok) as Hwf.
  pose proof (verify_signed _ _ hs_ptk_ok message2_ok) as Hmic. fold message2 in Hwf, Hmic.
  destruct Hdi as [Hd1 Hd2].
  rewrite receive_frame; rewrite ?(at_hs_sm _ _ _ _ Ha); try done; [|cbn; lia].
  change (f_data message2) with (encode_ie (48, di)). change (f_key_info message2) with 266.
  change (length (encode_ie (48%Z, di))) with (2 + length di)%nat.
  replace (classify 266 (Z.of_nat (2 + length di))) with PAIRWISE_2.
  2:{ unfold classify. cbn -[Z.of_nat Z.eqb]. by rewrite (proj2 (Z.eqb_neq _ _)) by lia. }
  destruct (check_msg2 (cancel_timeout a)) as (b & -> & Hb).
  { apply at_hs_eq in Ha. by rewrite Ha. }
  cbn [mbind option_bind]. apply at_hs_eq in Hb. rewrite Hb.
  assert (out (cancel_timeout a) = o) as -> by (apply (at_hs_out _ _ _ _ Ha)).
  rewrite receive_checked_first by done.
  set (m2 := frame_bytes message2) in *.
  assert (slice m2 off_nonce 32 = Some sn) as Hn by (exact (frame_nonce message2 Hwf)). clearbody m2.
  set (b0 := with_sm _ spend_replay).
  assert (at_hs (with_sm (b0 <| nalloc := S (nalloc b0) |>) (fun s => stored s m2 sn 266))
    (mk_hs WPA_PTK_PTKSTART 1 true true false sn (replicate 48 0) false false replays2 (Some m2)
      false false false true) [] o) as Hb1 by reflexivity.
  clearbody b0. rewrite <- (at_hs_out _ _ _ _ Hb1) in Hb1 |- *.
  destruct (sm_step_msg2 _ m2 cipher Hb1 Hmic Hw) as (a' & Hstep & Ha').
  exists a'. split; [|exact Ha']. by apply (accept_frame_runs _ _ _ sn).
Qed.

(** *** Message 4 *)

Definition hs_done (m4 : list Z) : hs :=
  mk_hs WPA_PTK_PTKINITDONE 1 false true true (replicate 32 0) hs_ptk true true replays4 (Some m4)
    false false true false.

Definition keys_given : list effect := [SetKey WPA_ALG_CCMP 0 (tk1 hs_ptk); Authorize].

Lemma sm_step_msg4 a m4 :
  at_hs a (mk_hs WPA_PTK_PTKINITNEGOTIATING 1 true true true (replicate 32 0) hs_ptk true false replays4 (Some m4)
             false false true false) [] (out a) ->
  exists a', wpa_sm_step ap_cfg a = Some (0, a') /\ at_hs a' (hs_done m4) [] (out a ++ keys_given).
Proof.
  intros Ha. set (o := out a) in *. apply at_hs_eq in Ha. rewrite Ha. clear Ha.
  set (b := mk_auth (hs_sm (mk_hs WPA_PTK_PTKINITNEGOTIATING 1 true true true (replicate 32 0) hs_ptk true false
    replays4 (Some m4) false true true false)) (Counter a) (handshake_failures a) (mic_failures a) true []
    (nalloc a) o).
  assert (exists a1, sm_WPA_PTK_Step ap_cfg (with_sm b (fun s => s <| changed := false |>)) = Some a1 /\
    at_hs a1 (mk_hs WPA_PTK_PTKINITDONE 1 false true true (replicate 32 0) hs_ptk true true replays4 (Some m4)
      true true true false) [] (o ++ keys_given)) as (a1 & E1 & H1).
  { exists (mk_auth (hs_sm (mk_hs WPA_PTK_PTKINITDONE 1 false true true (replicate 32 0) hs_ptk true true replays4
      (Some m4) true true true false)) (Counter a) (handshake_failures a) (mic_failures a) true [] (nalloc a)
      ((o ++ [SetKey WPA_ALG_CCMP 0 (tk1 hs_ptk)]) ++ [Authorize])).
    split; [reflexivity|]. unfold at_hs, view. cbn [sm sta_valid timers out]. by rewrite <- app_assoc. }
  assert (exists a2, sm_WPA_PTK_Step ap_cfg (with_sm a1 (fun s => s <| changed := false |>)) = Some a2 /\
    at_hs a2 (mk_hs WPA_PTK_PTKINITDONE 1 false true true (replicate 32 0) hs_ptk true true replays4 (Some m4)
      false true true false) [] (o ++ keys_given)) as (a2 & E2 & H2).
  { apply at_hs_eq in H1. rewrite H1. eexists. by split. }
  assert (step_loop ap_cfg step_fuel b = Some (Some a2)) as Hloop.
  { change step_fuel with (S (S 128)).
    rewrite (loop_round _ _ a1), (loop_last _ _ a2); try done;
      match goal with H : at_hs ?x _ _ _ |- context [sm ?x] => by rewrite (at_hs_sm _ _ _ _ H) end. }
  eapply sm_step_rounds; [done|done|exact Hloop|]. apply at_hs_eq in H2. by rewrite H2.
Qed.

Lemma receive_msg4 a m2 ts o :
  at_hs a (hs_waits4 m2) ts o ->
  exists a', wpa_receive ap_cfg a (frame_bytes message4) (length (frame_bytes message4)) = Some a' /\
    at_hs a' (hs_done (frame_bytes message4)) [] (o ++ keys_given).
Proof.
  intros Ha. pose proof (signed_wf _ _ hs_ptk_ok message4_ok) as Hwf.
  pose proof (verify_signed _ _ hs_ptk_ok message4_ok) as Hmic. fold message4 in Hwf, Hmic.
  rewrite receive_frame; rewrite ?(at_hs_sm _ _ _ _ Ha); try done.
  change (f_data message4) with (@nil Z). change (f_key_info message4) with 778.
  change (classify 778 (Z.of_nat (length (@nil Z)))) with PAIRWISE_4.
  assert (check_msg ap_cfg (cancel_timeout a) PAIRWISE_4 [] (Z.of_nat (length (@nil Z))) = Some (inr (cancel_timeout a)))
    as ->.
  { apply at_hs_eq in Ha. by rewrite Ha. }
  cbn [mbind option_bind].
  assert (at_hs (cancel_timeout a) (hs_waits4 m2) [] o) as Hb by (apply at_hs_eq in Ha; by rewrite Ha).
  set (b := cancel_timeout a) in *. clearbody b.
  rewrite receive_checked_last; try done; [|by rewrite (at_hs_sm _ _ _ _ Hb)..].
  set (m4 := frame_bytes message4) in *.
  assert (slice m4 off_nonce 32 = Some (replicate 32 0)) as Hn by (exact (frame_nonce message4 Hwf)). clearbody m4.
  apply at_hs_eq in Hb. rewrite Hb. set (b0 := with_sm _ spend_replay).
  assert (at_hs (with_sm (b0 <| nalloc := S (nalloc b0) |>) (fun s => stored s m4 (replicate 32 0) 778))
    (mk_hs WPA_PTK_PTKINITNEGOTIATING 1 true true true (replicate 32 0) hs_ptk true false replays4 (Some m4)
      false false true false) [] o) as Hb1 by reflexivity.
  clearbody b0. rewrite <- (at_hs_out _ _ _ _ Hb1) in Hb1 |- *.
  destruct (sm_step_msg4 _ m4 Hb1) as (a' & Hstep & Ha').
  exists a'. split; [|exact Ha']. by apply (accept_frame_runs _ _ _ (replicate 32 0)).
Qed.

(** *** What the station finds in message 3 *)

Lemma plain3_bytes : Forall is_byte plain3.
Proof.
  unfold plain3, data3, gtk_kde. rewrite !Forall_app. split_and!.
  - apply encode_ie_bytes; [unfold is_byte; lia|lia|done].
  - apply encode_ie_bytes; [unfold is_byte; lia| |].
    + rewrite !length_app. cbn [length WPA_PUT_BE32]. lia.
    + rewrite !Forall_app. split_and!; [apply put_be32_bytes| |done].
      constructor; [|constructor; [unfold is_byte; lia|constructor]].
      change 3 with (Z.ones 2). rewrite Z.land_ones by lia. unfold is_byte. change (2 ^ 2) with 4.
      pose proof (Z.mod_pos_bound gn 4). lia.
  - destruct pad3; [constructor|]. constructor; [unfold is_byte; lia|apply zeros_bytes].
Qed.

Lemma message3_ok cipher :
  kc_wrap (kek hs_ptk) plain3 true = Some cipher ->
  kc_unwrap (kek hs_ptk) cipher = Some plain3 /\
  unsigned_ok (mk_frame 1 IEEE802_1X_TYPE_EAPOL_KEY (Z.of_nat (95 + (length data3 + (pad3 + 8)))) EAPOL_KEY_TYPE_RSN
    5066 16 replay2 counter (replicate 16 0) (1 :: replicate 7 0) (replicate 8 0) (replicate 16 0)
    (Z.of_nat (length data3 + (pad3 + 8))) cipher).
Proof.
  intros Hw. destruct hs_ptk_ok as [Hp1 Hp2]. destruct plain3_length as (n & Hn & _).
  apply kc_wrap_unwrap in Hw as (Hl & Hb & Hu); [|by apply Forall_take, Forall_drop|apply plain3_bytes|by exists n].
  split; [done|]. destruct Hcounter as [Hc1 Hc2].
  split_and!; [by split_and!|done| | |done]; [frame_tac|].
  cbn [f_data]. rewrite Hl. unfold plain3. rewrite length_app, length_padding.
  assert (pad3 <= 7)%nat by (unfold pad3; pose proof (Nat.mod_upper_bound (8 - length data3 mod 8) 8); lia).
  assert (length data3 = 22 + (8 + length gtk))%nat; [|lia].
  unfold data3. rewrite length_app, length_gtk_kde. cbn [encode_ie fst snd length]. lia.
Qed.

Lemma run_handshake cipher :
  kc_wrap (kek hs_ptk) plain3 true = Some cipher ->
  exists a, auth_run ap_cfg (auth_init counter)
      [EvAssociate sa psk_sta; EvFrame (frame_bytes message2); EvFrame (frame_bytes message4)] = Some a /\
    at_hs a (hs_done (frame_bytes message4)) []
      ([SendEapol (frame_bytes message1) false; SendEapol (frame_bytes (message3 cipher)) false] ++ keys_given).
Proof.
  intros Hw. pose proof associate_waits2 as E1. apply fmap_Some in E1 as (a1 & E1 & H1). symmetry in H1.
  destruct (receive_msg2 a1 _ _ cipher H1 Hw) as (a2 & E2 & H2).
  destruct (receive_msg4 a2 _ _ _ H2) as (a3 & E3 & H3).
  exists a3. split; [|exact H3]. cbn [auth_run]. rewrite E1. cbn [mbind option_bind].
  assert (auth_step ap_cfg a1 (EvFrame (frame_bytes message2)) = Some a2) as -> by exact E2. cbn [mbind option_bind].
  assert (auth_step ap_cfg a2 (EvFrame (frame_bytes message4)) = Some a3) as -> by exact E3. done.
Qed.
End Handshake.

(** [n] bytes. *)
Definition bytes_of (n : nat) (l : list Z) : Prop := length l = n /\ Forall is_byte l.

(** C9: The handshake with a station that knows the pre-shared key completes: for
    every key, addresses, nonces, announced RSN element, group key and element of
    the station, the two messages of the station (which answer the nonce and the
    replay counters that were sent) are accepted, the machine ends in
    [PTKINITDONE] with no retransmission pending, and the effects are message 1,
    message 3, the temporal key of the PTK the station derived, and the
    authorization.  Message 3 has the MIC of the PTK, its key data unwraps under
    the key encryption key, and parses to the announced element and the group
    key with its index. *)
Theorem handshake_completes `{KC : KeyCrypto} own sa counter sn key gtk d di gn cf stray :
  conf_wpa cf <> 0 -> bytes_of 6 own -> bytes_of 6 sa -> bytes_of 32 counter -> bytes_of 32 sn ->
  bytes_of 32 key -> bytes_of 20 d -> (length di < 256)%nat /\ Forall is_byte di ->
  (1 <= length gtk <= 32)%nat /\ Forall is_byte gtk ->
  let ptk := hs_ptk own sa counter sn key in
  exists a m3 kd,
    auth_run (ap_cfg own key gtk d gn cf stray) (auth_init counter)
      [EvAssociate sa (psk_sta di); EvFrame (frame_bytes (message2 own sa counter sn key di));
       EvFrame (frame_bytes (message4 own sa counter sn key))] = Some a /\
    out a = [SendEapol (frame_bytes (message1 counter)) false; SendEapol m3 false;
             SetKey WPA_ALG_CCMP 0 (tk1 ptk); Authorize] /\
    wpa_ptk_state (sm a) = WPA_PTK_PTKINITDONE /\ timers a = [] /\
    slice m3 off_replay 8 = Some replay2 /\ wpa_verify_key_mic ptk m3 (length m3) = Some 0 /\
    kc_unwrap (kek ptk) (drop off_key_data m3) = Some kd /\
    wpa_parse_kde_ies kd (length kd)
      = Some (0, mk_kde None 0 (Some 0%nat) 22 None (Some 28%nat) (2 + length gtk) None 0) /\
    slice kd 0 22 = Some (encode_ie (48, d)) /\ slice kd 28 (2 + length gtk) = Some (Z.land gn 3 :: 0 :: gtk).
Proof.
  intros Hw Hown Hsa Hc Hsn Hkey [Hd Hdb] Hdi [Hg Hgb]. cbv zeta. apply Z.eqb_neq in Hw.
  destruct (proj1 (kc_wrap_alloc (kek (hs_ptk own sa counter sn key)) (plain3 gtk d gn))) as [cipher Hcipher].
  destruct (message3_ok own sa counter sn key gtk d di gn) with (cipher := cipher) as [Hu Hok]; auto.
  assert (ptk_bytes (hs_ptk own sa counter sn key)) as Hptk by (by apply (hs_ptk_ok own sa counter sn key gtk d di)).
  destruct (run_handshake own sa counter sn key gtk d di gn cf stray) with (cipher := cipher) as (a & Hrun & Ha); auto.
  pose proof (signed_wf _ _ Hptk Hok) as Hwf.
  destruct (key_data_parses d (Z.land gn 3) gtk (pad3 gtk d gn)) as (P1 & P2 & P3); [done|lia|].
  rewrite Hd in P1, P2, P3.
  exists a, (frame_bytes (message3 own sa counter sn key gtk d gn cipher)), (plain3 gtk d gn).
  split_and!.
  - exact Hrun.
  - apply (at_hs_out _ _ _ _ _ _ _ _ Ha).
  - by rewrite (at_hs_sm _ _ _ _ _ _ _ _ Ha).
  - exact (f_equal (fun v => v.1.2) Ha).
  - exact (frame_replay _ Hwf).
  - exact (verify_signed _ _ Hptk Hok).
  - unfold message3. rewrite (frame_key_data _ Hwf). exact Hu.
  - unfold plain3, data3. rewrite <- app_assoc. exact P1.
  - unfold plain3, data3. rewrite <- app_assoc. exact P2.
  - unfold plain3, data3. rewrite <- app_assoc. exact P3.
Qed.
