(* ===== verification/WpaCrypto.v ===== *)
(** * WpaCrypto: the cryptography behind the authenticator

    The instance of [KeyCrypto] that the routines of [ap/crypto] give: the MAC is
    [hmac_sha1], the key derivation [sha1_prf] and the key wrap [aes_wrap], with
    the contents of the stack and of the static pads fixed (they do not enter the
    results).  [handshake_demo] runs the whole handshake of an access point with a
    station that knows the pre-shared key. *)

From stdpp Require Import base list option.
From Stdlib Require Import ZArith Lia.
From S2P Require Import Prelude HciAggr Words Wire Ie80211 WpaIe Aes AesSpec AesWrap Rc4 Sha1 Hmac WpaAuth.
From S2P Require Import WpaAuthSafe WpaAuthTotal WpaHandshake.

(** [hmac_sha1] passes one element and [sha1_prf] three: neither overruns the
    arrays ([ap_hmac_some], [ap_prf_some]). *)
Definition ap_hmac (key data : list Z) : list Z :=
  default [] (fst <$> hmac_sha1 zeros64 (zeros64, zeros64) key true true data).

Definition ap_prf (key label data : list Z) (n : nat) : list Z :=
  default [] (sha1_prf zeros64 (zeros64, zeros64) key true true label data n).

Lemma ap_hmac_some k d :
  Forall is_byte k -> Forall is_byte d -> Z.of_nat (length d) < 2 ^ 16 -> length k = 16%nat ->
  fst <$> hmac_sha1 zeros64 (zeros64, zeros64) k true true d = Some (ap_hmac k d) /\
  ap_hmac k d = rfc2104_hmac k d.
Proof.
  intros Hk Hd Hl Hk16. unfold ap_hmac. by rewrite hmac_sha1_value by (apply zeros64_ok || done || lia).
Qed.

Definition ap_wrap (kek plain : list Z) (mem : bool) : option (list Z) :=
  let '(r, c) := aes_wrap kek (Z.of_nat (length plain / 8)) plain mem in
  if r =? 0 then Some c else None.

Definition ap_unwrap (kek cipher : list Z) : option (list Z) :=
  let '(r, p) := aes_unwrap kek (Z.of_nat (length cipher / 8) - 1) cipher true in
  if r =? 0 then Some p else None.

Lemma ap_hmac_bytes k d :
  Forall is_byte k -> Forall is_byte d -> Z.of_nat (length d) < 2 ^ 16 -> length k = 16%nat ->
  length (ap_hmac k d) = 20%nat /\ Forall is_byte (ap_hmac k d).
Proof.
  intros Hk Hd Hl Hk16. rewrite (proj2 (ap_hmac_some k d Hk Hd Hl Hk16)). unfold rfc2104_hmac. apply fips_sha1_bytes.
Qed.

Lemma prf_blocks_bytes k l d n : forall i,
  length (concat (map (prf_block k l d) (seq i n))) = (20 * n)%nat /\
  Forall is_byte (concat (map (prf_block k l d) (seq i n))).
Proof.
  induction n as [|n IH]; intros i; [done|]. cbn [seq map concat]. destruct (IH (S i)) as [IH1 IH2].
  destruct (fips_sha1_bytes (map (Z.lxor 0x5c) (hmac_key k) ++
    fips_sha1 (map (Z.lxor 0x36) (hmac_key k) ++ l ++ d ++ [u8 (Z.of_nat i)]))) as [H1 H2].
  split; [rewrite length_app, IH1; unfold prf_block, rfc2104_hmac; lia|]. by apply Forall_app.
Qed.

Lemma ap_prf_some k l d n :
  Forall is_byte k -> Forall is_byte l -> Forall is_byte d -> (length k <= 64)%nat ->
  (length l + length d <= 1024)%nat ->
  sha1_prf zeros64 (zeros64, zeros64) k true true l d n = Some (ap_prf k l d n) /\
  ap_prf k l d n = take n (concat (map (prf_block k (l ++ [0]) d) (seq 0 (S (n / 20))))).
Proof.
  intros Hk Hl Hd Hkl Hld. unfold ap_prf. by rewrite sha1_prf_value by (apply zeros64_ok || done || lia).
Qed.

Lemma ap_prf_bytes k l d n :
  Forall is_byte k -> Forall is_byte l -> Forall is_byte d -> (length k <= 64)%nat ->
  (length l + length d <= 1024)%nat ->
  length (ap_prf k l d n) = n /\ Forall is_byte (ap_prf k l d n).
Proof.
  intros Hk Hl Hd Hkl Hld. rewrite (proj2 (ap_prf_some k l d n Hk Hl Hd Hkl Hld)).
  destruct (prf_blocks_bytes k (l ++ [0]) d (S (n / 20)) 0) as [H1 H2].
  split; [|by apply Forall_take]. rewrite length_take, H1.
  pose proof (Nat.div_mod_eq n 20). pose proof (Nat.mod_upper_bound n 20). lia.
Qed.

Lemma ap_wrap_unwrap kek p c :
  Forall is_byte kek -> Forall is_byte p -> (exists n, length p = 8 * n)%nat -> ap_wrap kek p true = Some c ->
  length c = (length p + 8)%nat /\ Forall is_byte c /\ ap_unwrap kek c = Some p.
Proof.
  intros Hk Hp [n Hn]. unfold ap_wrap, ap_unwrap. rewrite Hn, Nat.mul_comm, Nat.div_mul by lia.
  destruct (aes_wrap_inverts kek (Z.of_nat n) p) as (H1 & H2 & H3 & H4); [done|lia|lia|done|].
  destruct (aes_wrap kek (Z.of_nat n) p true) as [r c0]. cbn [fst snd] in *. subst r. intros [= <-].
  assert (length c0 = 8 * (n + 1))%nat as Hc by lia. split_and!; [lia|done|].
  rewrite Hc, Nat.mul_comm, Nat.div_mul by lia. replace (Z.of_nat (n + 1) - 1) with (Z.of_nat n) by lia.
  by rewrite H4.
Qed.

Lemma ap_wrap_alloc kek p : is_Some (ap_wrap kek p true) /\ ap_wrap kek p false = None.
Proof.
  unfold ap_wrap, aes_wrap, aes_encrypt_init. cbn [negb Z.eqb Pos.eqb].
  destruct (wrap_outer _ _ _ _ _) as [a r]. by split; [eexists|].
Qed.

#[export] Instance ap_crypto : KeyCrypto := {|
  kc_hmac := ap_hmac;
  kc_prf := ap_prf;
  kc_wrap := ap_wrap;
  kc_unwrap := ap_unwrap;
  kc_hmac_bytes := ap_hmac_bytes;
  kc_prf_bytes := ap_prf_bytes;
  kc_wrap_unwrap := ap_wrap_unwrap;
  kc_wrap_alloc := ap_wrap_alloc
|}.

(** ** A handshake *)

Definition demo_own : list Z := [0; 1; 2; 3; 4; 5].
Definition demo_sa : list Z := [6; 7; 8; 9; 10; 11].
Definition demo_counter : list Z := map Z.of_nat (seq 100 32).
Definition demo_sn : list Z := map Z.of_nat (seq 50 32).
Definition demo_key : list Z := map Z.of_nat (seq 1 32).
Definition demo_gtk : list Z := map Z.of_nat (seq 200 16).
Definition demo_rsn : list Z := [1; 0; 0; 15; 172; 4; 1; 0; 0; 15; 172; 4; 1; 0; 0; 15; 172; 2; 0; 0].
Definition demo_cfg : wpa_cfg := ap_cfg demo_own demo_key demo_gtk demo_rsn 1 psk_ccmp false.
#[local] Notation demo_ptk := (hs_ptk demo_own demo_sa demo_counter demo_sn demo_key).
Definition demo_run : list auth_event :=
  [EvAssociate demo_sa (psk_sta demo_rsn);
   EvFrame (frame_bytes (message2 demo_own demo_sa demo_counter demo_sn demo_key demo_rsn));
   EvFrame (frame_bytes (message4 demo_own demo_sa demo_counter demo_sn demo_key))].

Lemma bytes_check l : forallb (fun x => (0 <=? x) && (x <? 256)) l = true -> Forall is_byte l.
Proof.
  induction l as [|x l IH]; [constructor|]. cbn [forallb]. intros H. bool_to_prop.
  constructor; [unfold is_byte; lia|auto].
Qed.

Lemma demo_ok :
  bytes_of 6 demo_own /\ bytes_of 6 demo_sa /\ bytes_of 32 demo_counter /\ bytes_of 32 demo_sn /\
  bytes_of 32 demo_key /\ bytes_of 20 demo_rsn /\ Forall is_byte demo_gtk.
Proof. split_and!; try (split; [reflexivity|]); apply bytes_check; reflexivity. Qed.

(** The model runs: the frames are accepted and the key is installed. *)
Example handshake_demo :
  (fun a => (wpa_ptk_state (sm a), timers a, length (out a))) <$> auth_run demo_cfg (auth_init demo_counter) demo_run
  = Some (WPA_PTK_PTKINITDONE, [], 4%nat).
Proof. vm_compute. reflexivity. Qed.

Lemma handshake_completes_witness :
  exists a, auth_run demo_cfg (auth_init demo_counter) demo_run = Some a /\
    wpa_ptk_state (sm a) = WPA_PTK_PTKINITDONE.
Proof.
  destruct demo_ok as (H1 & H2 & H3 & H4 & H5 & H6 & H7).
  destruct (handshake_completes demo_own demo_sa demo_counter demo_sn demo_key demo_gtk demo_rsn demo_rsn 1 psk_ccmp
    false) as (a & m3 & kd & Hr & _ & Hs & _); try assumption.
  - discriminate.
  - destruct H6 as [-> H6]. split; [lia|exact H6].
  - split; [vm_compute; lia|exact H7].
  - exists a. split; [exact Hr|exact Hs].
Defined.

Lemma demo_runs :
  exists a, auth_run demo_cfg (auth_init demo_counter) demo_run = Some a /\
    SetKey WPA_ALG_CCMP 0 (tk1 demo_ptk) ∈ out a.
Proof.
  destruct demo_ok as (H1 & H2 & H3 & H4 & H5 & H6 & H7).
  assert (length demo_rsn < 256)%nat as H8 by (apply Nat.ltb_lt; reflexivity).
  assert (1 <= length demo_gtk <= 32)%nat as H9 by (split; apply Nat.leb_le; reflexivity).
  destruct (proj1 (kc_wrap_alloc (kek (hs_ptk demo_own demo_sa demo_counter demo_sn demo_key))
    (plain3 demo_gtk demo_rsn 1))) as [cipher Hc].
  destruct (run_handshake demo_own demo_sa demo_counter demo_sn demo_key demo_gtk demo_rsn demo_rsn 1 psk_ccmp false
    eq_refl (proj1 H6) H9 H3 H4 H1 H2 H5 (conj H8 (proj2 H6)) cipher Hc) as (a & Hr & Ha).
  exists a. split; [exact Hr|]. rewrite (at_hs_out _ _ _ _ _ _ _ _ Ha). unfold keys_given.
  right. right. left.
Qed.

Lemma keys_only_for_psk_witness :
  earned demo_cfg demo_counter demo_run (SetKey WPA_ALG_CCMP 0 (tk1 demo_ptk)).
Proof.
  destruct demo_runs as (a & Hr & He).
  apply (keys_only_for_psk demo_cfg demo_counter demo_run a (SetKey WPA_ALG_CCMP 0 (tk1 demo_ptk))).
  - repeat constructor.
  - exact Hr.
  - exact He.
  - intros H. exact H.
Defined.

Definition demo_hostile : list auth_event :=
  demo_run ++ [EvFrame (replicate 300 255); EvFrame []; EvTimeout; EvNotify WPA_REAUTH; EvFrame (replicate 99 2);
    EvAssociate demo_own (psk_sta demo_rsn); EvTimeout; EvNotify WPA_DEAUTH].

Lemma authenticator_returns_witness :
  exists a, auth_run demo_cfg (auth_init demo_counter) demo_hostile = Some a /\ answer (sm a) = false.
Proof.
  destruct (authenticator_returns demo_cfg ltac:(apply Nat.leb_le; vm_compute; reflexivity) demo_counter demo_hostile)
    as (a & E & Ha & _).
  - assert (accepted (psk_sta demo_rsn)) as Hacc.
    { split; [reflexivity|]. split; [discriminate|]. split; [reflexivity|]. intros ie H. injection H as <-. apply Nat.leb_le. reflexivity. }
    repeat (apply Forall_cons_2; [exact Hacc || exact I|]). apply Forall_nil_2.
  - exists a. split; [exact E|exact Ha].
Defined.

Lemma junk_frame_cancels_timer_witness :
  wpa_receive demo_cfg ((auth_init demo_counter) <| sm := hs_sm demo_sa demo_counter demo_key demo_rsn hs_waits2 |>
    <| timers := [100] |>) (replicate 99 255) 99
  = Some ((auth_init demo_counter) <| sm := hs_sm demo_sa demo_counter demo_key demo_rsn hs_waits2 |>
    <| timers := [100] |> <| timers := [] |>).
Proof.
  apply (junk_frame_cancels_timer demo_cfg _ (replicate 99 255) 65535 65535 (replicate 8 255)).
  - discriminate.
  - reflexivity.
  - apply Nat.leb_le. reflexivity.
  - reflexivity.
  - reflexivity.
  - reflexivity.
  - left. vm_compute. reflexivity.
Defined.
