(* ===== verification/ApInfo.v ===== *)
(** * ApInfo: the state of the access point

    The data of [ap/ap_info.h], [ap/ap_sta_info.h], [ap/ap_tx.h] and
    [ap/ap_config.h]: the table of stations with their power-save queues, the
    counters and bitmaps of [struct ApInfo], the transmit descriptors, and what
    the access point does to the outside as a list of effects.

    What does not change while the access point runs (its configuration, the
    host configuration, the security policy) is [ap_static]; the rest is
    [ApInfo].  A station is named by its index in [StaConInfo], a transmit
    descriptor by its index in [pApTxData].  The queues of the stations are
    lists of descriptors: the operations of [list_q] on them are the list
    operations that [ListQ] proves them to be. *)

From stdpp Require Import base list option.
From Stdlib Require Import ZArith Lia.
From S2P Require Import Prelude Words WpaIe WpaAuth Regulatory.

(** ** Flags *)

Definition BIT (n : Z) : Z := Z.shiftl 1 n.

Definition WLAN_STA_VALID : Z := BIT 0.
Definition WLAN_STA_AUTH : Z := BIT 1.
Definition WLAN_STA_ASSOC : Z := BIT 2.
Definition WLAN_STA_AUTHORIZED : Z := BIT 6.
Definition WLAN_STA_PENDING_POLL : Z := BIT 7.
Definition WLAN_STA_SHORT_PREAMBLE : Z := BIT 8.
Definition WLAN_STA_WMM : Z := BIT 10.
Definition WLAN_STA_HT : Z := BIT 12.
Definition WLAN_STA_WDS : Z := BIT 15.
Definition WLAN_STA_NONERP : Z := BIT 16.
Definition WLAN_STA_PS_STA : Z := BIT 17.
Definition WLAN_STA_SP : Z := BIT 24.
Definition WLAN_STA_ASSOC_REQ_OK : Z := BIT 25.

Definition AP_TX_UNICAST : Z := BIT 1.
Definition AP_TX_DATA : Z := BIT 2.
Definition AP_TX_NATIVE_AP_FRAME : Z := BIT 3.
Definition AP_TX_POLL_RESPONSE : Z := BIT 4.
Definition AP_PS_FRAME : Z := BIT 0.

Definition AP_MGMT_PKT_LEN : nat := 1024.
Definition IEEE80211_NUM_ACS : nat := 4.
Definition UNKNOWN_FW_QUEUE_LENGTH : Z := -9999.
Definition AP_STA_MAX_TX_BUFFER : nat := 128.
Definition AP_STA_TX_BUFFER_EXPIRE : Z := 10000.
Definition AP_STA_INFO_CLEANUP_INTERVAL : Z := 10000.
Definition AP_DISASSOC_DELAY : Z := 1000.
Definition AP_DEAUTH_DELAY : Z := 1000.
Definition STA_TIMEOUT_RETRY_COUNT : Z := 5.
Definition STA_TIMEOUT_RETRY_TIMER : Z := 3000.
Definition AP_MODE_IEEE80211B : Z := 1.
Definition AP_MODE_IEEE80211G : Z := 2.

Inductive timeout_next_e := STA_NULLFUNC | STA_DISASSOC | STA_DEAUTH | STA_REMOVE.

#[export] Instance timeout_next_eq_dec : EqDecision timeout_next_e.
Proof. solve_decision. Defined.

(** ** Frames and descriptors *)

(** A frame to be sent: which buffer it is, and the fields of its descriptor
    [CFG_HOST_TXREQ] and header that the access point reads and writes.  An
    802.3 frame has its destination in [tf_addr1]. *)
Record tx_frame := mk_tx_frame {
  tf_id : nat;
  tf_f80211 : bool;
  tf_fc : Z;
  tf_addr1 : list Z;
  tf_addr3 : list Z;
  tf_qos : option Z;
  tf_rsvd0 : Z;
  tf_more_data : bool
}.

#[export] Instance eta_tx_frame : Eta tx_frame := fun f =>
  mk_tx_frame (tf_id f) (tf_f80211 f) (tf_fc f) (tf_addr1 f) (tf_addr3 f) (tf_qos f) (tf_rsvd0 f)
    (tf_more_data f).

(** [struct ap_tx_desp]: [d_sta] is the index of the station. *)
Record ap_tx_desp := mk_desp {
  d_frame : tx_frame;
  d_sta : option nat;
  d_priority : Z;
  d_flags : Z;
  d_jiffies : Z
}.

(** ** Stations *)

(** [struct APStaInfo]; [s_supported_rates] are the first
    [supported_rates_len] bytes of the array, [s_ps_tx_buf] has one queue for
    each access category. *)
Record APStaInfo := mk_APStaInfo {
  s_addr : list Z;
  s_aid : Z;
  s_flags : Z;
  s_capability : Z;
  s_listen_interval : Z;
  s_supported_rates : list Z;
  s_nonerp_set : bool;
  s_no_short_slot_time_set : bool;
  s_no_short_preamble_set : bool;
  s_no_ht_gf_set : bool;
  s_no_ht_set : bool;
  s_ht_20mhz_set : bool;
  s_auth_alg : Z;
  s_previous_ap : list Z;
  s_timeout_next : timeout_next_e;
  s_challenge : option (list Z);
  s_last_rx : Z;
  s_ps_tx_buf : list (list nat);
  s_uapsd_queues : Z;
  s_max_sp : Z;
  s_arp_retry_count : Z;
  s_rcpi : Z;
  s_prev_rcpi : Z;
  s_fw_q_len : Z;
  s_wsid_idx : Z;
  s_wpa_sm : wpa_state_machine;
  s_reassoc : bool;
  s_addStaFlag : bool;
  s_assocRsp : bool;
  s_ht_capabilities : list Z
}.

#[export] Instance eta_APStaInfo : Eta APStaInfo := fun s =>
  mk_APStaInfo (s_addr s) (s_aid s) (s_flags s) (s_capability s) (s_listen_interval s)
    (s_supported_rates s) (s_nonerp_set s) (s_no_short_slot_time_set s) (s_no_short_preamble_set s)
    (s_no_ht_gf_set s) (s_no_ht_set s) (s_ht_20mhz_set s) (s_auth_alg s) (s_previous_ap s)
    (s_timeout_next s) (s_challenge s) (s_last_rx s) (s_ps_tx_buf s) (s_uapsd_queues s) (s_max_sp s)
    (s_arp_retry_count s) (s_rcpi s) (s_prev_rcpi s) (s_fw_q_len s) (s_wsid_idx s) (s_wpa_sm s)
    (s_reassoc s) (s_addStaFlag s) (s_assocRsp s) (s_ht_capabilities s).

(** [APStaInfo_StaReset]: [MEMSET] and [list_q_init] of the queues. *)
Definition APStaInfo_StaReset : APStaInfo :=
  mk_APStaInfo (replicate 6 0) 0 0 0 0 [] false false false false false false 0 (replicate 6 0)
    STA_NULLFUNC None 0 (replicate IEEE80211_NUM_ACS []) 0 0 0 0 0 0 0 sm_zero false false false
    (replicate 26 0).

Definition test_sta_flag (s : APStaInfo) (flag : Z) : bool := has (s_flags s) flag.
Definition set_sta_flag (s : APStaInfo) (flag : Z) : APStaInfo :=
  s <| s_flags := Z.lor (s_flags s) flag |>.
Definition clear_sta_flag (s : APStaInfo) (flag : Z) : APStaInfo :=
  s <| s_flags := Z.land (s_flags s) (Z.lnot flag) |>.

(** ** The access point *)

(** [struct ieee80211_rate] *)
Record ieee80211_rate := mk_rate { r_bitrate : Z; r_flags : Z }.

(** [struct ssv6xxx_host_ap_config]; [cf_rates] are the [nNumrates] rates that
    [pRates] points to, [None] when [pRates] is [NULL]. *)
Record ssv6xxx_host_ap_config := mk_ap_config {
  cf_ssid : list Z;
  cf_eApMode : Z;
  cf_b80211n : bool;
  cf_bRequire_ht : bool;
  cf_nChannel : Z;
  cf_short_preamble : bool;
  cf_rates : option (list ieee80211_rate);
  cf_disable_11n : bool;
  cf_ht_capab : Z;
  cf_mcs_set : list Z;
  cf_a_mpdu_params : Z;
  cf_secondary_channel : bool
}.

(** What the access point uses of [struct Host_cfg]. *)
Record Host_cfg := mk_host_cfg {
  g_pool_size : nat;
  g_bcn_interval : Z;
  g_ampdu_rx_enable : bool;
  g_erp : bool;
  g_ap_no_dfs : bool;
  g_ap_ht20_only : bool;
  g_AP_TimAllOne : bool;
  g_ApStaInactiveTime : Z
}.

Inductive ssv6xxx_sec_type :=
| SSV6XXX_SEC_NONE | SSV6XXX_SEC_WEP_40 | SSV6XXX_SEC_WEP_104 | SSV6XXX_SEC_WPA_PSK
| SSV6XXX_SEC_WPA2_PSK | SSV6XXX_SEC_WPS.

#[export] Instance sec_type_eq_dec : EqDecision ssv6xxx_sec_type.
Proof. solve_decision. Defined.

(** What does not change while the access point runs. *)
Record ap_static := mk_static {
  st_cfg : Host_cfg;
  st_config : ssv6xxx_host_ap_config;
  st_gMaxAID : nat;
  st_eCurrentApMode : Z;
  st_nCurrentChannel : Z;
  st_own_addr : list Z;
  st_auth_algs : Z;
  st_tkip_countermeasures : bool;
  st_sec_type : ssv6xxx_sec_type;
  st_parameter_set_count : Z;
  st_dtim_count : Z;
  st_wpa : wpa_cfg;
  st_reg : reg_state;
  st_support_5g : bool;
  (** [ssv_hal_is_beacon_enable()] *)
  st_beacon_enable : bool;
  (** [os_tick2ms] *)
  st_tick2ms : Z -> Z;
  (** the [n]-th call of [TXRXTask_FrameEnqueue] succeeds *)
  st_enqueue_ok : nat -> bool;
  (** the [n]-th [os_frame_dup] of [TxHdl_FrameProc] succeeds within its retries *)
  st_dup_ok : nat -> bool;
  (** the value the [n]-th [ssv_hal_get_ava_wsid(1)] finds in the hardware table *)
  st_ava_wsid : nat -> Z
}.

(** [gMaxTimLen]: [sizeof(unsigned long) * BITS_TO_LONGS(gMaxAID + 1)] *)
Definition gMaxTimLen (C : ap_static) : nat := 4 * ((st_gMaxAID C + 1 + 31) / 32).
Definition AP_TOTAL_MAX_TX_BUFFER (C : ap_static) : nat := g_pool_size (st_cfg C).
Definition AP_TOTAL_MAX_TX_DSP (C : ap_static) : nat := AP_TOTAL_MAX_TX_BUFFER C + 10.
Definition AP_MAX_INACTIVITY (C : ap_static) : Z := g_ApStaInactiveTime (st_cfg C) * 1000.

Inductive ap_timer :=
| THandle (i : nat)      (* ap_handle_timer(pApInfo, sta) *)
| TCleanup               (* sta_info_cleanup *)
| TEapol (i : nat)       (* wpa_send_eapol_timeout(wpa_auth, sm) *)
| TProbe                 (* recover_probe_req *)
| TApList                (* ap_list_timer *).

#[export] Instance ap_timer_eq_dec : EqDecision ap_timer.
Proof. solve_decision. Defined.

(** What the access point does to the outside. *)
Inductive ap_effect :=
| TxEnqueue (f : tx_frame)                 (* the transmit task has the frame *)
| TxCopy (data : list Z)                   (* the transmit task has a copy of the management buffer *)
| TxCopyLost (data : list Z)               (* a copy was made, but the transmit task refused it *)
| FrameFree (f : tx_frame)                 (* os_frame_free *)
| FreeMgmtBuffer                           (* os_frame_free of the management buffer *)
| SetBeacon (bcn : list Z) (bcn_len : Z)   (* ap_soc_set_bcn *)
| SetSta (add : bool) (addr : list Z) (wsid : Z) (qos : bool) (rates : Z) (* SSV6XXX_HOST_CMD_SET_STA *)
| StaStatus (add : bool) (addr : list Z)   (* SOC_EVT_STA_STATUS *)
| SetErpProtect (on : bool)                (* SSV6XXX_HOST_CMD_SET_ERP_PROTECT *)
| SetHtProtect (mode : Z)                  (* SSV6XXX_HOST_CMD_SET_HT_PROTECT *)
| SetShortSlot (on : bool)                 (* ssv_hal_set_short_slot_time *)
| SetWep (addr : list Z)                   (* ssv_hal_ap_wep_setting *)
| DqStatus (wsid : Z)                      (* SSV6XXX_HOST_CMD_DQ_STATUS *)
| PollStation (addr : list Z)              (* SOC_EVT_POLL_STATION *)
| DelAmpduRx (wsid : Z)                    (* ieee80211_delete_ampdu_rx *)
| DropProbe (on : bool)                    (* ssv_hal_drop_probe_request *)
| WpaEffect (i : nat) (e : effect)         (* frames and keys of the authenticator *).

(** The mutable part of [struct ApInfo].  [a_pMgmtPkt] are the [AP_MGMT_PKT_LEN]
    bytes of the management buffer.  [sta_aid] is one word: the array has
    one element.  [a_bhead] and [a_btail] are the parts of the beacon before and
    after the TIM. *)
Record ApInfo := mk_ApInfo {
  a_pMgmtPkt : list Z;
  a_sta_aid : Z;
  a_tim : list Z;
  a_num_sta : Z;
  a_num_sta_ps : Z;
  a_num_sta_authorized : Z;
  a_num_sta_non_erp : Z;
  a_num_sta_no_short_preamble : Z;
  a_num_sta_no_short_slot_time : Z;
  a_num_sta_ht_no_gf : Z;
  a_num_sta_no_ht : Z;
  a_num_sta_ht_20mhz : Z;
  a_olbc : bool;
  a_olbc_ht : bool;
  a_ht_op_mode : Z;
  a_bhead : list Z;
  a_btail : list Z;
  a_total_ps_buffered : Z;
  a_sta_pkt_cln_timer : bool;
  a_pApTxData : list (option ap_tx_desp);
  a_StaConInfo : list APStaInfo;
  a_Counter : list Z;
  a_handshake_failures : Z;
  a_mic_failures : Z;
  a_nalloc : nat;
  a_probe_req_cnt : Z;
  a_B_tick : Z;
  a_jiffies : Z;
  a_timers : list (ap_timer * Z);
  a_n_enqueue : nat;
  a_n_dup : nat;
  a_n_wsid : nat;
  a_out : list ap_effect
}.

#[export] Instance eta_ApInfo : Eta ApInfo := fun a =>
  mk_ApInfo (a_pMgmtPkt a) (a_sta_aid a) (a_tim a) (a_num_sta a) (a_num_sta_ps a) (a_num_sta_authorized a)
    (a_num_sta_non_erp a) (a_num_sta_no_short_preamble a) (a_num_sta_no_short_slot_time a)
    (a_num_sta_ht_no_gf a) (a_num_sta_no_ht a) (a_num_sta_ht_20mhz a) (a_olbc a) (a_olbc_ht a)
    (a_ht_op_mode a) (a_bhead a) (a_btail a) (a_total_ps_buffered a) (a_sta_pkt_cln_timer a)
    (a_pApTxData a) (a_StaConInfo a) (a_Counter a) (a_handshake_failures a) (a_mic_failures a)
    (a_nalloc a) (a_probe_req_cnt a) (a_B_tick a) (a_jiffies a) (a_timers a) (a_n_enqueue a)
    (a_n_dup a) (a_n_wsid a) (a_out a).

(** ** Small operations *)

Definition ap_emit (a : ApInfo) (e : ap_effect) : ApInfo := a <| a_out := a_out a ++ [e] |>.

(** [os_create_timer] and [os_cancel_timer] *)
Definition start_timer (a : ApInfo) (t : ap_timer) (ms : Z) : ApInfo :=
  a <| a_timers := a_timers a ++ [(t, ms)] |>.
Definition cancel_timer (a : ApInfo) (t : ap_timer) : ApInfo :=
  a <| a_timers := filter (fun p => p.1 <> t) (a_timers a) |>.

(** Assignment to a station; a write outside the table does nothing here, the
    callers name existing entries only. *)
Definition set_sta (a : ApInfo) (i : nat) (s : APStaInfo) : ApInfo :=
  a <| a_StaConInfo := <[i := s]> (a_StaConInfo a) |>.

(** [APStaInfo_FindStaByAddr]: the first valid entry with the address. *)
Fixpoint find_sta (mac : list Z) (i : nat) (l : list APStaInfo) : option nat :=
  match l with
  | [] => None
  | s :: r =>
      if test_sta_flag s WLAN_STA_VALID && bool_decide (s_addr s = mac) then Some i
      else find_sta mac (S i) r
  end.
Definition APStaInfo_FindStaByAddr (a : ApInfo) (mac : list Z) : option nat :=
  find_sta mac 0 (a_StaConInfo a).

(** [is_multicast_ether_addr], [is_zero_ether_addr], [is_valid_ether_addr] *)
Definition is_multicast_ether_addr (addr : list Z) : bool := has (default 0 (head addr)) 1.
Definition is_valid_ether_addr (addr : list Z) : bool :=
  negb (is_multicast_ether_addr addr) && negb (forallb (Z.eqb 0) addr).

(** ** Lemmas *)

Lemma has_BIT x k : 0 <= k -> has x (BIT k) = Z.testbit x k.
Proof.
  intros Hk. unfold has, BIT. rewrite Z.shiftl_1_l.
  assert (Z.land x (2 ^ k) = if Z.testbit x k then 2 ^ k else 0) as ->.
  { apply Z.bits_inj'. intros n Hn. rewrite Z.land_spec, Z.pow2_bits_eqb by done.
    destruct (Z.eqb_spec k n) as [<-|].
    - rewrite andb_true_r. destruct (Z.testbit x k) eqn:E; [by rewrite Z.pow2_bits_true|].
      by rewrite Z.bits_0.
    - rewrite andb_false_r. destruct (Z.testbit x k); [by rewrite Z.pow2_bits_false by lia|].
      by rewrite Z.bits_0. }
  pose proof (Z.pow_pos_nonneg 2 k ltac:(lia) Hk).
  destruct (Z.testbit x k); [|done]. apply negb_true_iff, Z.eqb_neq. lia.
Qed.

Lemma has_lor x f k : 0 <= k -> has (Z.lor x f) (BIT k) = has x (BIT k) || has f (BIT k).
Proof. intros. by rewrite !has_BIT, Z.lor_spec. Qed.

Lemma has_clear x f k : 0 <= k ->
  has (Z.land x (Z.lnot f)) (BIT k) = has x (BIT k) && negb (has f (BIT k)).
Proof. intros. by rewrite !has_BIT, Z.land_spec, Z.lnot_spec. Qed.

Lemma find_sta_Some mac l : forall i k, find_sta mac i l = Some k ->
  exists j s, k = (i + j)%nat /\ l !! j = Some s /\ test_sta_flag s WLAN_STA_VALID = true /\ s_addr s = mac.
Proof.
  induction l as [|s l IH]; intros i k; cbn [find_sta]; [done|].
  destruct (test_sta_flag s WLAN_STA_VALID && bool_decide (s_addr s = mac)) eqn:E.
  - intros [= <-]. apply andb_true_iff in E as [E1 E2%bool_decide_eq_true]. exists O, s.
    by rewrite Nat.add_0_r.
  - intros (j & s' & -> & Hl & H)%IH. exists (S j), s'. split; [lia|done].
Qed.

Lemma find_sta_None mac l : forall i, find_sta mac i l = None ->
  Forall (fun s => test_sta_flag s WLAN_STA_VALID = true -> s_addr s <> mac) l.
Proof.
  induction l as [|s l IH]; intros i; cbn [find_sta]; [constructor|].
  destruct (test_sta_flag s WLAN_STA_VALID && bool_decide (s_addr s = mac)) eqn:E; [done|].
  intros H. constructor; [|by eapply IH]. intros Hv <-. rewrite Hv, bool_decide_eq_true_2 in E by done.
  done.
Qed.

Lemma FindSta_Some a mac i : APStaInfo_FindStaByAddr a mac = Some i ->
  exists s, a_StaConInfo a !! i = Some s /\ test_sta_flag s WLAN_STA_VALID = true /\ s_addr s = mac.
Proof. intros (j & s & -> & H)%find_sta_Some. by exists s. Qed.
