(* ===== verification/ApElem.v ===== *)
(** * ApElem: the elements the access point announces, and its beacon

    The functions [hostapd_eid_*] of [ap/beacon.c], [ap/ieee802_11_mgmt.c],
    [ap/ieee802_11_ht.c] and [ap/wmm.c], the traffic indication map, and the
    beacon they make up.  A function that writes at [pos] and returns the new
    position is modelled by the bytes it writes. *)

From stdpp Require Import base list option.
From Stdlib Require Import ZArith Lia ZifyNat.
From S2P Require Import Prelude Words Wire Ie80211 WpaIe WpaAuth Regulatory ApInfo.

Definition WLAN_EID_SECONDARY_CHANNEL_OFFSET : Z := 62.
Definition WLAN_EID_CHANNEL_SWITCH : Z := 37.
Definition BSS_MEMBERSHIP_SELECTOR_HT_PHY : Z := 127.
Definition AP_MGMT_BEACON_LEN : Z := 512.
Definition AP_BEACON_TAIL_BUF_SIZE : Z := 256.
Definition AP_DEFAULT_DTIM_PERIOD : Z := 1.

Definition WLAN_CAPABILITY_ESS : Z := BIT 0.
Definition WLAN_CAPABILITY_PRIVACY : Z := BIT 4.
Definition WLAN_CAPABILITY_SHORT_PREAMBLE : Z := BIT 5.
Definition WLAN_CAPABILITY_SHORT_SLOT_TIME : Z := BIT 10.
Definition ERP_INFO_NON_ERP_PRESENT : Z := BIT 0.
Definition ERP_INFO_USE_PROTECTION : Z := BIT 1.
Definition ERP_INFO_BARKER_PREAMBLE_MODE : Z := BIT 2.

Section Elements.
Context (C : ap_static).
Local Notation cf := (st_config C).

Definition IS_AP_IN_5G_BAND : bool := IS_5G_BAND (st_nCurrentChannel C).

(** ** Rates *)

(** One rate with the bit of a mandatory rate *)
Definition rate_byte (r : ieee80211_rate) : Z :=
  let iMandatoryValue := Z.shiftl 1 (cf_eApMode cf) in
  if has (r_flags r) iMandatoryValue then Z.lor (u8 (r_bitrate r)) 0x80 else u8 (r_bitrate r).

Definition ht_required : bool := cf_b80211n cf && cf_bRequire_ht cf.

Definition hostapd_eid_supp_rates : list Z :=
  match cf_rates cf with
  | None => []
  | Some rates =>
      let n := Z.of_nat (length rates) in
      let num := if IS_AP_IN_5G_BAND then n - 4 else n in
      let num := if ht_required then num + 1 else num in
      let num := if 8 <? num then 8 else num in
      let i := if IS_AP_IN_5G_BAND then 4%nat else 0%nat in
      [WLAN_EID_SUPP_RATES; u8 num] ++ map rate_byte (take (Z.to_nat num) (drop i rates))
      ++ (if ht_required && (num <? 8) then [Z.lor 0x80 BSS_MEMBERSHIP_SELECTOR_HT_PHY] else [])
  end.

Definition hostapd_eid_ext_supp_rates : list Z :=
  match cf_rates cf with
  | None => []
  | Some rates =>
      let n := Z.of_nat (length rates) in
      let num := if ht_required then n + 1 else n in
      if num <=? 8 then []
      else
        let num := num - 8 in
        [WLAN_EID_EXT_SUPP_RATES; u8 num] ++ map rate_byte (drop 8 rates)
        ++ (if ht_required && (8 <? n + 1) then [Z.lor 0x80 BSS_MEMBERSHIP_SELECTOR_HT_PHY] else [])
  end.

(** ** Small elements *)

Definition hostapd_own_capab_info (a : ApInfo) : Z :=
  let capab := WLAN_CAPABILITY_ESS in
  let capab := if (a_num_sta_no_short_preamble a =? 0) && cf_short_preamble cf
               then Z.lor capab WLAN_CAPABILITY_SHORT_PREAMBLE else capab in
  let capab := if bool_decide (SSV6XXX_SEC_NONE <> st_sec_type C)
               then Z.lor capab WLAN_CAPABILITY_PRIVACY else capab in
  if (st_eCurrentApMode C =? AP_MODE_IEEE80211G) && (a_num_sta_no_short_slot_time a =? 0)
  then Z.lor capab WLAN_CAPABILITY_SHORT_SLOT_TIME else capab.

Definition ieee802_11_erp_info (a : ApInfo) : Z :=
  if negb (st_eCurrentApMode C =? AP_MODE_IEEE80211G) then 0
  else
    let erp := if a_olbc a then ERP_INFO_USE_PROTECTION else 0 in
    let erp := if 0 <? a_num_sta_non_erp a
               then Z.lor erp (Z.lor ERP_INFO_NON_ERP_PRESENT ERP_INFO_USE_PROTECTION) else erp in
    if (0 <? a_num_sta_no_short_preamble a) || negb (cf_short_preamble cf)
    then Z.lor erp ERP_INFO_BARKER_PREAMBLE_MODE else erp.

Definition hostapd_eid_ds_params : list Z := [WLAN_EID_DS_PARAMS; 1; st_nCurrentChannel C].

Definition hostapd_eid_erp_info (a : ApInfo) : list Z :=
  if negb (st_eCurrentApMode C =? AP_MODE_IEEE80211G) then []
  else [WLAN_EID_ERP_INFO; 1; ieee802_11_erp_info a].

Definition hostapd_eid_csa : list Z := [WLAN_EID_CHANNEL_SWITCH; 3; 1; st_nCurrentChannel C; 0].

Definition hostapd_eid_secondary_channel : list Z := [WLAN_EID_SECONDARY_CHANNEL_OFFSET; 1; 0].

(** [wpa_auth_get_wpa_ie] gives the [WPA_IE_LEN] bytes of the array. *)
Definition hostapd_eid_wpa (len : Z) : list Z :=
  if conf_wpa (conf (st_wpa C)) =? WPA_PROTO_RSN then
    if len <? Z.of_nat WPA_IE_LEN then [] else take WPA_IE_LEN (auth_wpa_ie (st_wpa C))
  else [].

(** [ac_params]: [aifsn], [acm], [aci], [reserved] in the first byte, [ecwin] and
    [ecwax] in the second, [txop_limit] in the last two. *)
Definition ac_record (aifsn aci ecwin ecwax txop_limit : Z) : list Z :=
  [Z.lor aifsn (Z.shiftl aci 5); Z.lor ecwin (Z.shiftl ecwax 4)] ++ WPA_PUT_LE16 txop_limit.
Definition ac_params : list Z :=
  ac_record 3 0 4 10 0 ++ ac_record 7 1 4 10 0 ++ ac_record 2 2 3 4 94 ++ ac_record 2 3 2 3 47.

Definition WMM_VERSION : Z := 1.

(** [hostapd_eid_wmm]: [struct wmm_parameter_element] has 24 bytes. *)
Definition hostapd_eid_wmm : list Z :=
  [WLAN_EID_VENDOR_SPECIFIC; 24; 0x00; 0x50; 0xf2; WMM_OUI_TYPE; WMM_OUI_SUBTYPE_PARAMETER_ELEMENT;
   WMM_VERSION; Z.lor (Z.land (st_parameter_set_count C) 0xf) 0x80; 0] ++ ac_params.

(** [hostapd_eid_wmm_valid]: [eid] is the offset of the contents in [buf]. *)
Definition hostapd_eid_wmm_valid (buf : list Z) (eid len : nat) : option bool :=
  if (len <? 7)%nat then Some false
  else
    subtype ← buf !! (eid + 4)%nat;
    version ← buf !! (eid + 5)%nat;
    Some ((subtype =? WMM_OUI_SUBTYPE_INFORMATION_ELEMENT) && (version =? WMM_VERSION)).

(** ** 802.11n *)

(** [ssv6xxx_wifi_is_40MHZ_legal]; a channel that is not in the table is read
    before its first entry, [None]. *)
Definition ssv6xxx_wifi_is_40MHZ_legal (ch : Z) : option bool :=
  if IS_5G_BAND ch then
    reg ← _ssv6xxx_wifi_get_regdomain (g_alpha2 (st_reg C));
    i ← (let i := ssv6xxx_wifi_ch_to_bitmask ch in if i <? 0 then None else Some (Z.to_nat i));
    c ← ssv6xxx_5ghz_chantable !! i;
    Some (freq_40MHZ_legal (center_freq c) reg)
  else Some false.

Definition IS_40MHZ_AVAILABLE : bool :=
  IS_AP_IN_5G_BAND && bool_decide (ssv6xxx_wifi_is_40MHZ_legal (st_nCurrentChannel C) = Some true)
  && negb (g_ap_ht20_only (st_cfg C)).

(** [hostapd_eid_ht_capabilities]: [struct ieee80211_ht_capabilities] has 26
    bytes. *)
Definition hostapd_eid_ht_capabilities : list Z :=
  if negb (cf_b80211n cf) || (st_eCurrentApMode C =? 0) || cf_disable_11n cf then []
  else
    let ht_capab := if IS_40MHZ_AVAILABLE then Z.lor (cf_ht_capab cf) 2 else cf_ht_capab cf in
    [WLAN_EID_HT_CAPABILITY; 26] ++ WPA_PUT_LE16 ht_capab ++ [cf_a_mpdu_params cf] ++ cf_mcs_set cf
    ++ replicate 7 0.

(** The secondary channel offset of [ht_param] *)
Definition ht_param_of (ch : Z) : Z :=
  let i := ssv6xxx_wifi_ch_to_bitmask ch in
  if i =? -1 then 0
  else match chan_flags <$> ssv6xxx_5ghz_chantable !! Z.to_nat i with
       | Some NL80211_CHAN_HT40PLUS => 1
       | Some NL80211_CHAN_HT40MINUS => 3
       | _ => 0
       end.

(** [hostapd_eid_ht_operation]: [struct ieee80211_ht_operation] has 22 bytes. *)
Definition hostapd_eid_ht_operation (a : ApInfo) : list Z :=
  if negb (cf_b80211n cf) || cf_disable_11n cf then []
  else
    let ht_param := if IS_40MHZ_AVAILABLE then Z.lor (ht_param_of (cf_nChannel cf)) 4 else 0 in
    [WLAN_EID_HT_OPERATION; 22; cf_nChannel cf; ht_param] ++ WPA_PUT_LE16 (a_ht_op_mode a)
    ++ replicate 2 0 ++ replicate 16 0.

Definition HT_OPER_OP_MODE_HT_PROT_MASK : Z := 3.
Definition HT_OPER_OP_MODE_NON_GF_HT_STAS_PRESENT : Z := BIT 2.
Definition HT_OPER_OP_MODE_OBSS_NON_HT_STAS_PRESENT : Z := BIT 4.
Definition HT_PROT_NO_PROTECTION : Z := 0.
Definition HT_PROT_NONMEMBER_PROTECTION : Z := 1.
Definition HT_PROT_20MHZ_PROTECTION : Z := 2.
Definition HT_PROT_NON_HT_MIXED : Z := 3.

(** A flag of [ht_op_mode] that follows a condition: the new mode and the number
    of changes. *)
Definition ht_follow (flag : Z) (cond : bool) (mode changes : Z) : Z * Z :=
  if negb (has mode flag) && cond then (Z.lor mode flag, changes + 1)
  else if has mode flag && negb cond then (Z.land mode (Z.lnot flag), changes + 1)
  else (mode, changes).

(** [hostapd_ht_operation_update] *)
Definition hostapd_ht_operation_update (a : ApInfo) : ApInfo * Z :=
  if negb (cf_b80211n cf) then (a, 0)
  else
    let '(mode, ch) := ht_follow HT_OPER_OP_MODE_NON_GF_HT_STAS_PRESENT
      (negb (a_num_sta_ht_no_gf a =? 0)) (a_ht_op_mode a) 0 in
    let '(mode, ch) := ht_follow HT_OPER_OP_MODE_OBSS_NON_HT_STAS_PRESENT
      (negb (a_num_sta_no_ht a =? 0) || a_olbc_ht a) mode ch in
    let new_op_mode :=
      if negb (a_num_sta_no_ht a =? 0) then HT_PROT_NON_HT_MIXED
      else if cf_secondary_channel cf && negb (a_num_sta_ht_20mhz a =? 0) then HT_PROT_20MHZ_PROTECTION
      else if a_olbc_ht a then HT_PROT_NONMEMBER_PROTECTION
      else HT_PROT_NO_PROTECTION in
    let '(mode, ch) :=
      if negb (Z.land mode HT_OPER_OP_MODE_HT_PROT_MASK =? new_op_mode)
      then (Z.lor (Z.land mode (Z.lnot HT_OPER_OP_MODE_HT_PROT_MASK)) new_op_mode, ch + 1)
      else (mode, ch) in
    (a <| a_ht_op_mode := mode |>, ch).

(** ** The traffic indication map *)

(** Four bytes of the bitmap as an [unsigned long] *)
Definition tim_word (t : list Z) (k : nat) : Z :=
  let b j := default 0 (t !! (4 * k + j)%nat) in
  Z.lor (b 0%nat) (Z.lor (Z.shiftl (b 1%nat) 8) (Z.lor (Z.shiftl (b 2%nat) 16) (Z.shiftl (b 3%nat) 24))).

(** [bitmap_empty] *)
Definition bitmap_empty (t : list Z) (nbits : nat) : bool :=
  forallb (fun k => tim_word t k =? 0) (seq 0 (nbits / 32)) &&
  ((Z.of_nat nbits mod 32 =? 0) ||
   (Z.land (tim_word t (nbits / 32)) (Z.shiftl 1 (Z.of_nat nbits mod 32) - 1) =? 0)).

(** The first and the last byte of the bitmap that is not zero *)
Fixpoint first_set (j : nat) (t : list Z) : option nat :=
  match t with
  | [] => None
  | b :: r => if b =? 0 then first_set (S j) r else Some j
  end.
Definition last_set (t : list Z) : option nat :=
  (fun k => (length t - 1 - k)%nat) <$> first_set 0 (reverse t).

(** [ieee80211_beacon_add_tim] *)
Definition ieee80211_beacon_add_tim (a : ApInfo) : list Z :=
  let t := a_tim a in
  let have_bits := (0 <? a_num_sta_ps a) && negb (bitmap_empty t (st_gMaxAID C + 1)) in
  if have_bits then
    let n1 := match first_set 0 (take (gMaxTimLen C) t) with
              | Some j => Z.to_nat (Z.land (Z.of_nat j) 0xfe) | None => 0%nat end in
    let n2 := match last_set (take (gMaxTimLen C) t) with
              | Some i => if (n1 <=? i)%nat then i else n1 | None => n1 end in
    [WLAN_EID_TIM; Z.of_nat (n2 - n1 + 4); st_dtim_count C; AP_DEFAULT_DTIM_PERIOD; Z.of_nat n1]
    ++ take (n2 - n1 + 1) (drop n1 t)
  else
    [WLAN_EID_TIM; 4; st_dtim_count C; AP_DEFAULT_DTIM_PERIOD; 0;
     if g_AP_TimAllOne (st_cfg C) then 0xff else 0].

(** ** The beacon *)

(** The part before the TIM: the header, the fixed fields and the first
    elements. *)
Definition beacon_head (a : ApInfo) : list Z :=
  WPA_PUT_LE16 0x80 ++ [0; 0] ++ replicate 6 0xff ++ st_own_addr C ++ st_own_addr C ++ [0; 0]
  ++ replicate 8 0 ++ WPA_PUT_LE16 (g_bcn_interval (st_cfg C)) ++ WPA_PUT_LE16 (hostapd_own_capab_info a)
  ++ [WLAN_EID_SSID; u8 (Z.of_nat (length (cf_ssid cf)))] ++ cf_ssid cf
  ++ hostapd_eid_supp_rates ++ hostapd_eid_ds_params.

(** The part after the TIM *)
Definition beacon_tail (a : ApInfo) (nBHeadLen : Z) : list Z :=
  let tail := hostapd_eid_country (st_reg C) (st_support_5g C) (g_ap_no_dfs (st_cfg C))
                (AP_MGMT_BEACON_LEN - nBHeadLen) in
  let tail := tail ++ (if IS_AP_IN_5G_BAND then [] else hostapd_eid_erp_info a) in
  let tail := tail ++ hostapd_eid_ext_supp_rates in
  let tail := tail ++ hostapd_eid_wpa (u32 (AP_BEACON_TAIL_BUF_SIZE - Z.of_nat (length tail))) in
  tail ++ hostapd_eid_ht_capabilities ++ hostapd_eid_ht_operation a ++ hostapd_eid_wmm.

(** [GenBeacon]: [nBlen] is a [u8]. *)
Definition GenBeacon (a : ApInfo) : ApInfo :=
  let bcn := a_bhead a ++ ieee80211_beacon_add_tim a ++ a_btail a in
  ap_emit a (SetBeacon bcn (u8 (Z.of_nat (length bcn)))).

(** [ieee802_11_set_beacon]; the interface is in access-point mode. *)
Definition ieee802_11_set_beacon (a : ApInfo) (post_to_mlme : bool) : ApInfo :=
  if negb (st_beacon_enable C) && post_to_mlme then a
  else
    let head := beacon_head a in
    GenBeacon (a <| a_bhead := head |> <| a_btail := beacon_tail a (Z.of_nat (length head)) |>).
End Elements.

(** ** The map a station reads *)

(** Bit [aid] of the bitmap of the access point *)
Definition tim_bit (t : list Z) (aid : nat) : bool :=
  Z.testbit (default 0 (t !! (aid / 8)%nat)) (Z.of_nat (aid mod 8)).

(** What a station with the identifier [aid] reads from the contents of a TIM
    element: the bitmap starts at the byte that the control field names. *)
Definition tim_indicates (contents : list Z) (aid : nat) : bool :=
  match contents with
  | _ :: _ :: ctrl :: bitmap =>
      let n1 := Z.to_nat (Z.land ctrl 0xfe) in
      (n1 <=? aid / 8)%nat && tim_bit bitmap (aid - 8 * n1)
  | _ => false
  end.

Lemma first_set_Some t : forall j k, first_set j t = Some k ->
  exists m b, k = (j + m)%nat /\ t !! m = Some b /\ b <> 0 /\ forall m', (m' < m)%nat -> t !! m' = Some 0.
Proof.
  induction t as [|b t IH]; intros j k; cbn [first_set]; [done|]. destruct (Z.eqb_spec b 0) as [->|Hb].
  - intros (m & b & -> & Hm & Hb & Hz)%IH. exists (S m), b. split_and!; [lia|done|done|].
    intros [|m'] ?; [done|]. apply Hz. lia.
  - intros [= <-]. exists O, b. split_and!; [lia|done|done|lia].
Qed.

Lemma first_set_None t : forall j, first_set j t = None -> Forall (eq 0) t.
Proof.
  induction t as [|b t IH]; intros j; cbn [first_set]; [done|]. destruct (Z.eqb_spec b 0) as [->|]; [|done].
  intros H. constructor; [done|by eapply IH].
Qed.

Lemma last_set_Some t i : last_set t = Some i ->
  (i < length t)%nat /\ forall m, (i < m < length t)%nat -> t !! m = Some 0.
Proof.
  unfold last_set. destruct (first_set 0 (reverse t)) as [k|] eqn:E; [|done]. intros [= <-].
  destruct (first_set_Some _ _ _ E) as (m & b & Hk & Hm & Hb & Hz). cbn in Hk. subst k.
  pose proof (lookup_lt_Some _ _ _ Hm) as Hl. rewrite length_reverse in Hl.
  split; [lia|]. intros m' Hm'.
  pose proof (Hz (length t - S m')%nat ltac:(lia)) as H. rewrite reverse_lookup in H by lia.
  by replace (length t - S (length t - S m'))%nat with m' in H by lia.
Qed.

Lemma tim_word_bit t k j b : Forall is_byte t -> (j < 4)%nat -> 0 <= b < 8 ->
  Z.testbit (tim_word t k) (8 * Z.of_nat j + b) = Z.testbit (default 0 (t !! (4 * k + j)%nat)) b.
Proof.
  intros Ht Hj Hb.
  assert (forall i n, 8 <= n -> Z.testbit (default 0 (t !! i)) n = false) as Hhi.
  { intros i n Hn. destruct (t !! i) as [x|] eqn:E; cbn [default]; [|apply Z.bits_0].
    pose proof (Forall_lookup_1 _ _ _ _ Ht E) as Hx. unfold is_byte in Hx.
    replace x with (x mod 2 ^ 8) by (apply Z.mod_small; lia). by apply Z.mod_pow2_bits_high. }
  unfold tim_word. rewrite !Z.lor_spec, !Z.shiftl_spec by lia.
  destruct j as [|[|[|[|j]]]]; [| | | |lia]; cbn [Z.of_nat Pos.of_succ_nat Pos.succ].
  all: rewrite ?(Hhi (4 * k + 0)%nat), ?(Hhi (4 * k + 1)%nat), ?(Hhi (4 * k + 2)%nat) by lia.
  all: rewrite ?(Z.testbit_neg_r (default 0 (t !! (4 * k + 1)%nat))), ?(Z.testbit_neg_r (default 0 (t !! (4 * k + 2)%nat))),
    ?(Z.testbit_neg_r (default 0 (t !! (4 * k + 3)%nat))) by lia.
  all: rewrite ?orb_false_r, ?orb_false_l; f_equal; lia.
Qed.

Lemma split32 n : exists q r, n = (32 * q + r)%nat /\ (r < 32)%nat.
Proof. exists (n / 32)%nat, (n mod 32)%nat. split; [apply Nat.div_mod_eq|]. apply Nat.mod_upper_bound. lia. Qed.

(** No bit below [nbits] is set in an empty bitmap. *)
Lemma bitmap_empty_bits t nbits aid : Forall is_byte t -> bitmap_empty t nbits = true ->
  (aid < nbits)%nat -> tim_bit t aid = false.
Proof.
  intros Ht [H1 H2]%andb_true_iff Ha. unfold tim_bit.
  destruct (split32 aid) as (q & r & -> & Hr).
  replace ((32 * q + r) / 8)%nat with (4 * q + r / 8)%nat by lia.
  replace ((32 * q + r) mod 8)%nat with (r mod 8)%nat by lia.
  rewrite <- tim_word_bit by (done || lia).
  replace (8 * Z.of_nat (r / 8) + Z.of_nat (r mod 8)) with (Z.of_nat r) by lia.
  destruct (decide (q < nbits / 32)%nat) as [Hlt|Hge].
  - rewrite List.forallb_forall in H1.
    pose proof (H1 q ltac:(apply List.in_seq; lia)) as Hw. apply Z.eqb_eq in Hw.
    by rewrite Hw, Z.bits_0.
  - assert (nbits / 32 = q)%nat as Hq by lia. rewrite Hq in H2.
    destruct (Z.eqb_spec (Z.of_nat nbits mod 32) 0) as [|Hn]; [lia|]. cbn [orb] in H2. apply Z.eqb_eq in H2.
    assert (Z.testbit (Z.land (tim_word t q) (Z.shiftl 1 (Z.of_nat nbits mod 32) - 1)) (Z.of_nat r) = false)
      as Hb by (by rewrite H2, Z.bits_0).
    rewrite Z.land_spec, Z.shiftl_1_l, Z.sub_1_r, <- Z.ones_equiv, Z.ones_spec_low, andb_true_r in Hb by lia.
    done.
Qed.

Lemma land_fe j : 0 <= j -> Z.land j 0xfe = 2 * (j / 2 mod 128).
Proof.
  intros Hj. replace (2 * (j / 2 mod 128)) with (Z.shiftl ((Z.shiftr j 1) mod 2 ^ 7) 1)
    by (rewrite Z.shiftl_mul_pow2, Z.shiftr_div_pow2 by lia; change (2 ^ 1) with 2; change (2 ^ 7) with 128; lia).
  apply Z.bits_inj'. intros n Hn. rewrite Z.land_spec, Z.shiftl_spec by lia.
  destruct (Z.eqb_spec n 0) as [->|]; [by rewrite andb_false_r|].
  change 0xfe with (Z.shiftl (Z.ones 7) 1). rewrite Z.shiftl_spec by lia.
  destruct (Z.lt_ge_cases (n - 1) 7).
  - rewrite Z.ones_spec_low, andb_true_r, Z.mod_pow2_bits_low, Z.shiftr_spec by lia. f_equal. lia.
  - by rewrite Z.ones_spec_high, andb_false_r, Z.mod_pow2_bits_high by lia.
Qed.

(** Reading a part of the bitmap that has all its set bits *)
Lemma tim_bit_part t n1 n2 aid : (n1 <= n2)%nat -> (n1 <= aid / 8)%nat ->
  (forall m, (n2 < m)%nat -> default 0 (t !! m) = 0) ->
  tim_bit (take (n2 - n1 + 1) (drop n1 t)) (aid - 8 * n1) = tim_bit t aid.
Proof.
  intros H12 Ha Hz. unfold tim_bit.
  replace ((aid - 8 * n1) / 8)%nat with (aid / 8 - n1)%nat by lia.
  replace ((aid - 8 * n1) mod 8)%nat with (aid mod 8)%nat by lia. f_equal.
  destruct (decide (aid / 8 - n1 < n2 - n1 + 1)%nat) as [Hlt|Hge].
  - rewrite lookup_take_lt, lookup_drop by done. by replace (n1 + (aid / 8 - n1))%nat with (aid / 8)%nat by lia.
  - rewrite lookup_ge_None_2 by (rewrite length_take; lia). cbn [default]. symmetry. apply Hz. lia.
Qed.

Lemma gMaxTimLen_bound C : (st_gMaxAID C <= 2007)%nat ->
  (0 < gMaxTimLen C <= 252)%nat.
Proof. intros. unfold gMaxTimLen. lia. Qed.

(** The two ends of the partial bitmap *)
Lemma tim_ends C t : length t = gMaxTimLen C -> (0 < gMaxTimLen C <= 256)%nat ->
  let n1 := match first_set 0 (take (gMaxTimLen C) t) with
            | Some j => Z.to_nat (Z.land (Z.of_nat j) 0xfe) | None => 0%nat end in
  let n2 := match last_set (take (gMaxTimLen C) t) with
            | Some i => if (n1 <=? i)%nat then i else n1 | None => n1 end in
  (n1 <= n2 < length t)%nat /\ Z.land (Z.of_nat n1) 0xfe = Z.of_nat n1 /\
  (forall m, (m < n1)%nat -> default 0 (t !! m) = 0) /\ (forall m, (n2 < m)%nat -> default 0 (t !! m) = 0).
Proof.
  intros Hl Hb. rewrite firstn_all2 by lia. destruct (first_set 0 t) as [j|] eqn:E.
  - destruct (first_set_Some _ _ _ E) as (m & b & -> & Hm & Hbz & Hz). rewrite Nat.add_0_l in *.
    pose proof (lookup_lt_Some _ _ _ Hm) as Hml. rewrite land_fe by lia.
    set (n1 := Z.to_nat (2 * (Z.of_nat m / 2 mod 128))). cbv zeta.
    assert (n1 <= m)%nat as Hn1 by (unfold n1; lia).
    assert (Z.land (Z.of_nat n1) 0xfe = Z.of_nat n1) as Hn by (rewrite land_fe; unfold n1; lia).
    destruct (last_set t) as [i|] eqn:El.
    + destruct (last_set_Some _ _ El) as [Hi Hr].
      assert (m <= i)%nat as Hmi.
      { destruct (decide (m <= i)%nat); [done|]. rewrite (Hr m) in Hm by lia. congruence. }
      rewrite (proj2 (Nat.leb_le n1 i)) by lia. split_and!; [lia|lia|done| |].
      * intros k Hk. by rewrite Hz by lia.
      * intros k Hk. destruct (decide (k < length t)%nat); [by rewrite Hr by lia|].
        by rewrite lookup_ge_None_2 by lia.
    + exfalso. unfold last_set in El. apply fmap_None in El.
      pose proof (first_set_None _ _ El) as Ha. rewrite Forall_reverse in Ha.
      by apply Hbz, eq_sym, (Forall_lookup_1 _ _ _ _ Ha Hm).
  - pose proof (first_set_None _ _ E) as Ha. cbv zeta.
    assert (forall m, default 0 (t !! m) = 0) as Hz.
    { intros m. destruct (t !! m) as [x|] eqn:Em; [|done]. symmetry. exact (Forall_lookup_1 _ _ _ _ Ha Em). }
    destruct (last_set t) as [i|] eqn:El; [|split_and!; done || lia].
    destruct (last_set_Some _ _ El) as [Hi _]. cbn [Nat.leb]. split_and!; done || lia.
Qed.

(** The traffic indication map is announced faithfully: the element is well formed
    for every bitmap of up to 2007 stations, and unless the configuration
    announces frames for everyone each station that decodes it reads its own bit
    of the bitmap of the access point, wherever the partial bitmap starts and
    ends; when no station is asleep it reads that nothing waits. *)
Lemma tim_element_exact (C : ap_static) (a : ApInfo) :
  (st_gMaxAID C <= 2007)%nat -> length (a_tim a) = gMaxTimLen C -> Forall is_byte (a_tim a) ->
  is_byte (st_dtim_count C) ->
  exists contents,
    ieee80211_beacon_add_tim C a = encode_ie (WLAN_EID_TIM, contents) /\ wf_ie (WLAN_EID_TIM, contents) /\
    (g_AP_TimAllOne (st_cfg C) = false -> forall aid, (aid <= st_gMaxAID C)%nat ->
       tim_indicates contents aid = (0 <? a_num_sta_ps a) && tim_bit (a_tim a) aid).
Proof.
  intros Hm Hl Hb Hd. pose proof (gMaxTimLen_bound C Hm) as Hg.
  unfold ieee80211_beacon_add_tim. assert (is_byte 5) as H5 by (unfold is_byte; lia).
  destruct ((0 <? a_num_sta_ps a) && negb (bitmap_empty (a_tim a) (st_gMaxAID C + 1))) eqn:Ee.
  2: { exists [st_dtim_count C; 1; 0; if g_AP_TimAllOne (st_cfg C) then 0xff else 0]. split; [done|]. split.
    { split_and!; [done| |cbn; lia]. unfold is_byte in *. repeat constructor; cbn; try case_match; lia. }
    intros -> aid Ha. unfold tim_indicates. change (Z.to_nat (Z.land 0 0xfe)) with 0%nat. cbn [Nat.leb andb].
    assert ((0 <? a_num_sta_ps a) && tim_bit (a_tim a) aid = false) as ->.
    { apply andb_false_iff in Ee as [->|Ee]; [done|]. apply negb_false_iff in Ee.
      rewrite (bitmap_empty_bits _ _ _ Hb Ee) by lia. apply andb_false_r. }
    unfold tim_bit. destruct ((aid - 8 * 0) / 8)%nat; cbn [lookup list_lookup default]; by rewrite Z.bits_0. }
  apply andb_true_iff in Ee as [-> _].
  pose proof (tim_ends C (a_tim a) Hl ltac:(lia)) as H. cbv zeta in H.
  set (n1 := match first_set 0 (take (gMaxTimLen C) (a_tim a)) with Some j => _ | None => _ end) in *.
  set (n2 := match last_set (take (gMaxTimLen C) (a_tim a)) with Some i => _ | None => _ end) in *.
  clearbody n1 n2. destruct H as (H12 & Hc & Hlo & Hhi).
  set (part := take (n2 - n1 + 1) (drop n1 (a_tim a))).
  assert (length part = n2 - n1 + 1)%nat as Hp by (unfold part; rewrite length_take, length_drop; lia).
  exists ([st_dtim_count C; 1; Z.of_nat n1] ++ part). split_and!.
  + unfold encode_ie. cbn [fst snd app length]. rewrite Hp.
    replace (S (S (S (n2 - n1 + 1)))) with (n2 - n1 + 4)%nat by lia. reflexivity.
  + unfold wf_ie. cbn [fst snd app length]. split_and!; [exact H5| |lia].
    unfold is_byte in *. repeat constructor; try lia. by apply Forall_take, Forall_drop.
  + intros _ aid Ha. unfold tim_indicates. cbn [app andb]. rewrite Hc, Nat2Z.id.
    destruct (Nat.leb_spec n1 (aid / 8)) as [Hn|Hn]; cbn [andb]; [by apply tim_bit_part; [lia|..]|].
    unfold tim_bit. rewrite Hlo by lia. by rewrite Z.bits_0.
Qed.

(** ** The elements of the beacon *)

(** The writers as elements *)
Section Ies.
Context (C : ap_static).
Local Notation cf := (st_config C).

Definition selector : list Z := if ht_required C then [0xff] else [].
Definition all_rates : list Z := map (rate_byte C) (default [] (cf_rates cf)) ++ selector.
Definition supp_ie : ie := (WLAN_EID_SUPP_RATES, take 8 all_rates).
Definition ext_ie (l : list Z) : list ie :=
  match l with [] => [] | _ => [(WLAN_EID_EXT_SUPP_RATES, l)] end.
Definition ext_ies : list ie := ext_ie (drop 8 all_rates).
Definition erp_ies (a : ApInfo) : list ie :=
  if st_eCurrentApMode C =? AP_MODE_IEEE80211G then [(WLAN_EID_ERP_INFO, [ieee802_11_erp_info C a])] else [].
Definition htcap_ies : list ie :=
  if negb (cf_b80211n cf) || (st_eCurrentApMode C =? 0) || cf_disable_11n cf then []
  else [(WLAN_EID_HT_CAPABILITY, drop 2 (hostapd_eid_ht_capabilities C))].
Definition htop_ies (a : ApInfo) : list ie :=
  if negb (cf_b80211n cf) || cf_disable_11n cf then []
  else [(WLAN_EID_HT_OPERATION, drop 2 (hostapd_eid_ht_operation C a))].
Definition wmm_ie : ie := (WLAN_EID_VENDOR_SPECIFIC, drop 2 (hostapd_eid_wmm C)).

Lemma encode_app l1 l2 : encode (l1 ++ l2) = encode l1 ++ encode l2.
Proof. induction l1 as [|e l1 IH]; cbn [encode app]; [done|]. by rewrite IH, (assoc_L app). Qed.

Lemma u8_of_nat n : (n < 256)%nat -> u8 (Z.of_nat n) = Z.of_nat n.
Proof. intros. apply u8_small. lia. Qed.

(** In the 2.4 GHz band the two rate elements hold all rates, in order. *)
Lemma supp_rates_ie rates : IS_AP_IN_5G_BAND C = false -> cf_rates cf = Some rates ->
  ~ (ht_required C = true /\ length rates = 7%nat) -> hostapd_eid_supp_rates C = encode_ie supp_ie.
Proof.
  intros H5 Hr H7. unfold hostapd_eid_supp_rates, encode_ie, supp_ie, all_rates, selector. rewrite H5, Hr.
  cbn [fst snd default id]. rewrite length_take, length_app, length_map, drop_0.
  destruct (ht_required C); cbn [andb length].
  - destruct (Z.ltb_spec 8 (Z.of_nat (length rates) + 1)) as [Hn|Hn].
    + change (8 <? 8) with false. cbn iota. rewrite app_nil_r, take_app_le by (rewrite length_map; lia).
      rewrite firstn_map. replace (8 `min` (length rates + 1))%nat with 8%nat by lia. reflexivity.
    + assert (length rates < 7)%nat by (destruct (decide (length rates = 7%nat)); [tauto|lia]).
      rewrite (proj2 (Z.ltb_lt _ 8)) by lia. rewrite (firstn_all2 rates) by lia.
      rewrite (firstn_all2 (_ ++ [_])) by (rewrite length_app, length_map; cbn; lia).
      replace (8 `min` (length rates + 1))%nat with (length rates + 1)%nat by lia.
      rewrite <- (u8_of_nat (length rates + 1)) by lia. rewrite Nat2Z.inj_add. reflexivity.
  - rewrite !app_nil_r, firstn_map, Nat.add_0_r. destruct (Z.ltb_spec 8 (Z.of_nat (length rates))) as [Hn|Hn].
    + replace (8 `min` length rates)%nat with 8%nat by lia. reflexivity.
    + rewrite !firstn_all2 by lia. replace (8 `min` length rates)%nat with (length rates) by lia.
      rewrite u8_of_nat by lia. reflexivity.
Qed.

Lemma ext_rates_ie rates : cf_rates cf = Some rates -> (length rates <= 200)%nat ->
  hostapd_eid_ext_supp_rates C = encode ext_ies.
Proof.
  intros Hr Hl. unfold hostapd_eid_ext_supp_rates, ext_ies, all_rates, selector. rewrite Hr. cbn [default id].
  assert (forall l : list Z, (0 < length l < 256)%nat -> [WLAN_EID_EXT_SUPP_RATES; u8 (Z.of_nat (length l))] ++ l =
    encode (ext_ie l)) as Henc.
  { intros [|x l] Hx; [cbn in Hx; lia|]. cbn [encode ext_ie]. unfold encode_ie. cbn [fst snd].
    by rewrite app_nil_r, u8_of_nat by lia. }
  destruct (ht_required C); cbn [andb].
  - destruct (Z.leb_spec (Z.of_nat (length rates) + 1) 8) as [Hn|Hn].
    + by rewrite skipn_all2 by (rewrite length_app, length_map; cbn; lia).
    + rewrite (proj2 (Z.ltb_lt _ _)) by lia. rewrite <- Henc by (rewrite length_drop, length_app, length_map; cbn; lia).
      rewrite skipn_app, length_map. replace (8 - length rates)%nat with 0%nat by lia.
      rewrite drop_0, length_app, length_drop, length_map, skipn_map. cbn [length].
      repeat f_equal. lia.
  - rewrite !app_nil_r. destruct (Z.leb_spec (Z.of_nat (length rates)) 8) as [Hn|Hn].
    + by rewrite skipn_all2 by (rewrite length_map; lia).
    + rewrite <- Henc by (rewrite length_drop, length_map; lia).
      rewrite length_drop, length_map, skipn_map. repeat f_equal. lia.
Qed.
End Ies.

(** Setting any country on a fresh device gives a Country element of at most 20
    bytes in a beacon. *)
Definition country_state (support_5g : bool) (cc : Z * Z) : reg_state :=
  (ssv6xxx_wifi_set_reg support_5g (mk_reg_state (0, 0) 0 0) cc).1.

Definition country_ok (l : list Z) : bool :=
  match l with
  | [] => true
  | id :: n :: d => (id =? 7) && (n =? Z.of_nat (length d)) && (length d <=? 18)%nat &&
                    forallb (fun x => (0 <=? x) && (x <? 256)) d
  | _ => false
  end.

Lemma country_table : forallb (fun cc => forallb (fun s => forallb (fun nd => forallb (fun m =>
    country_ok (hostapd_eid_country (country_state s cc) s nd (Z.of_nat m))) (seq 420 93))
  [true; false]) [true; false]) ((0, 0) :: map alpha2 regdom) = true.
Proof. vm_compute. reflexivity. Qed.

Lemma country_state_unknown s cc : _ssv6xxx_wifi_get_regdomain cc = None ->
  country_state s cc = country_state s (0, 0).
Proof.
  intros H. unfold country_state, ssv6xxx_wifi_set_reg. rewrite H.
  replace (_ssv6xxx_wifi_get_regdomain (0, 0)) with (@None ieee80211_regdomain) by (vm_compute; reflexivity).
  done.
Qed.

Lemma country_ie s cc nd m : 420 <= m < 513 ->
  exists els, hostapd_eid_country (country_state s cc) s nd m = encode els /\ Forall wf_ie els /\
    (length (encode els) <= 20)%nat /\ Forall (fun e => e.1 = 7) els.
Proof.
  intros Hm.
  assert (exists cc', country_state s cc = country_state s cc' /\ In cc' ((0, 0) :: map alpha2 regdom))
    as (cc' & -> & Hin).
  { destruct (_ssv6xxx_wifi_get_regdomain cc) as [d|] eqn:E.
    - exists cc. split; [done|]. right. unfold _ssv6xxx_wifi_get_regdomain in E.
      pose proof (List.find_some _ _ E) as [Hd Hb]. apply List.in_map_iff. exists d. split; [|done].
      destruct (reg_rules d); [done|]. by apply bool_decide_eq_true in Hb.
    - exists (0, 0). split; [by apply country_state_unknown|by left]. }
  pose proof country_table as H. rewrite List.forallb_forall in H. specialize (H _ Hin).
  rewrite List.forallb_forall in H. specialize (H s ltac:(destruct s; cbn; tauto)).
  rewrite List.forallb_forall in H. specialize (H nd ltac:(destruct nd; cbn; tauto)).
  rewrite List.forallb_forall in H. specialize (H (Z.to_nat m) ltac:(apply List.in_seq; lia)).
  rewrite Z2Nat.id in H by lia. set (l := hostapd_eid_country _ _ _ _) in *. clearbody l.
  destruct l as [|id [|n d]].
  { exists []. split_and!; [done|constructor|cbn; lia|constructor]. }
  { done. }
  cbn [country_ok] in H.
  apply andb_true_iff in H as [[[H1%Z.eqb_eq H2%Z.eqb_eq]%andb_true_iff H3%Nat.leb_le]%andb_true_iff H4].
  exists [(7, d)]. cbn [encode]. rewrite app_nil_r. unfold encode_ie. cbn [fst snd length]. subst id n.
  split_and!; [done| |lia|by repeat constructor].
  constructor; [|constructor]. unfold wf_ie. cbn [fst snd]. split_and!; [unfold is_byte; lia| |lia].
  apply list.Forall_forall. intros x Hx. rewrite List.forallb_forall in H4.
  specialize (H4 x ltac:(by apply list_elem_of_In)). unfold is_byte. lia.
Qed.

(** ** The beacon *)

(** A configuration of the 2.4 GHz band: an SSID of up to 32 bytes, up to 12
    rates (not 7 together with the HT selector, see [seven_rates_malformed]), a
    country of the table or none, up to 31 stations. *)
Record beacon_config (C : ap_static) (rates : list ieee80211_rate) (rsn : list Z) (cc : Z * Z) : Prop := {
  bc_band : IS_AP_IN_5G_BAND C = false;
  bc_ssid : (length (cf_ssid (st_config C)) <= 32)%nat /\ Forall is_byte (cf_ssid (st_config C));
  bc_addr : length (st_own_addr C) = 6%nat;
  bc_rates : cf_rates (st_config C) = Some rates /\ (length rates <= 12)%nat /\
             ~ (ht_required C = true /\ length rates = 7%nat);
  bc_ht : length (cf_mcs_set (st_config C)) = 16%nat /\ Forall is_byte (cf_mcs_set (st_config C)) /\
          is_byte (cf_a_mpdu_params (st_config C));
  bc_chan : is_byte (st_nCurrentChannel C) /\ is_byte (cf_nChannel (st_config C));
  bc_dtim : is_byte (st_dtim_count C);
  bc_rsn : auth_wpa_ie (st_wpa C) = encode_ie (WLAN_EID_RSN, rsn) /\ length rsn = 20%nat /\ Forall is_byte rsn;
  bc_country : st_reg C = country_state (st_support_5g C) cc;
  bc_aid : (st_gMaxAID C <= 31)%nat
}.

Lemma lor_byte x y : is_byte x -> is_byte y -> is_byte (Z.lor x y).
Proof.
  unfold is_byte. intros Hx Hy. assert (0 <= Z.lor x y) by (apply Z.lor_nonneg; lia). split; [done|].
  change 256 with (2 ^ 8) in *. destruct (Z.eq_dec (Z.lor x y) 0) as [->|]; [lia|].
  assert (forall z, 0 <= z < 2 ^ 8 -> Z.log2 z < 8) as Hlog.
  { intros z Hz. destruct (Z.eq_dec z 0) as [->|]; [done|]. apply Z.log2_lt_pow2; lia. }
  apply Z.log2_lt_pow2; [lia|]. rewrite Z.log2_lor by lia. by apply Z.max_lub_lt; apply Hlog.
Qed.

Section Beacon.
Context (C : ap_static) (rates : list ieee80211_rate) (rsn : list Z) (cc : Z * Z).
Hypothesis B : beacon_config C rates rsn cc.
Local Notation cf := (st_config C).

Definition rsn_ies : list ie := if conf_wpa (conf (st_wpa C)) =? WPA_PROTO_RSN then [(WLAN_EID_RSN, rsn)] else [].

Lemma selector_le : (length (selector C) <= 1)%nat.
Proof. unfold selector. destruct (ht_required C); cbn; lia. Qed.

Lemma all_rates_ok : (length (all_rates C) <= 13)%nat /\ Forall is_byte (all_rates C).
Proof.
  destruct (bc_rates _ _ _ _ B) as (Hr & Hl & _). pose proof selector_le. unfold all_rates. rewrite Hr. cbn [default id].
  rewrite length_app, length_map. split; [lia|]. apply Forall_app. split.
  - apply list.Forall_forall. intros x Hx. apply list_elem_of_In, List.in_map_iff in Hx as (r & <- & _).
    unfold rate_byte. pose proof (u8_range (r_bitrate r)). case_match; [apply lor_byte|]; by unfold is_byte.
  - unfold selector. case_match; repeat constructor; unfold is_byte; lia.
Qed.

Lemma wpa_ie_bytes len : 22 <= len -> hostapd_eid_wpa C len = encode rsn_ies.
Proof.
  intros Hl. destruct (bc_rsn _ _ _ _ B) as (Hr & Hn & _). unfold hostapd_eid_wpa, rsn_ies.
  destruct (conf_wpa (conf (st_wpa C)) =? WPA_PROTO_RSN); [|done].
  rewrite (proj2 (Z.ltb_ge _ _)) by (unfold WPA_IE_LEN; lia). rewrite Hr. cbn [encode]. rewrite app_nil_r.
  apply firstn_all2. unfold encode_ie, WPA_IE_LEN. cbn [fst snd length]. lia.
Qed.

Lemma put_le16_length v : length (WPA_PUT_LE16 v) = 2%nat.
Proof. done. Qed.

(** Bytes that are the elements [els], with at most [n] bytes. *)
Definition ies_bytes (l : list Z) (els : list ie) (n : nat) : Prop :=
  l = encode els /\ Forall wf_ie els /\ (length l <= n)%nat.

Lemma ies_nil n : ies_bytes [] [] n.
Proof. split_and!; [done|constructor|cbn; lia]. Qed.

Lemma ies_one v x n : is_byte v -> Forall is_byte x -> length x = n -> (n < 256)%nat ->
  ies_bytes (v :: Z.of_nat n :: x) [(v, x)] (n + 2).
Proof.
  intros Hv Hx <- Hn. split_and!; [|by constructor; [|constructor]|cbn [length]; lia].
  cbn [encode]. by rewrite app_nil_r.
Qed.

Lemma ies_app l1 l2 e1 e2 n1 n2 : ies_bytes l1 e1 n1 -> ies_bytes l2 e2 n2 ->
  ies_bytes (l1 ++ l2) (e1 ++ e2) (n1 + n2).
Proof.
  intros (-> & H1 & L1) (-> & H2 & L2). split_and!; [by rewrite encode_app|by apply Forall_app|].
  rewrite length_app. lia.
Qed.

Lemma byte_const v : 0 <= v < 256 -> is_byte v.
Proof. done. Qed.

Lemma bytes_zero n : Forall is_byte (replicate n 0).
Proof. apply Forall_replicate. by apply byte_const. Qed.

Lemma htcap_bytes : ies_bytes (hostapd_eid_ht_capabilities C) (htcap_ies C) 28.
Proof.
  destruct (bc_ht _ _ _ _ B) as (Hm & Hmb & Ha). unfold htcap_ies, hostapd_eid_ht_capabilities.
  case_match; [apply ies_nil|]. cbn [drop app]. apply (ies_one _ _ 26); [by apply byte_const| | |lia].
  - apply Forall_app. split; [apply put_le16_bytes|]. constructor; [done|]. apply Forall_app. by split; [|apply bytes_zero].
  - rewrite length_app. cbn [length]. rewrite length_app, Hm. reflexivity.
Qed.

Lemma ht_param_byte ch : is_byte (Z.lor (ht_param_of ch) 4).
Proof. apply lor_byte; [|by apply byte_const]. unfold ht_param_of. repeat case_match; by apply byte_const. Qed.

Lemma htop_bytes a : ies_bytes (hostapd_eid_ht_operation C a) (htop_ies C a) 24.
Proof.
  destruct (bc_chan _ _ _ _ B) as [_ Hc]. unfold htop_ies, hostapd_eid_ht_operation.
  case_match; [apply ies_nil|]. cbn [drop app]. apply (ies_one _ _ 22); [by apply byte_const| |done|lia].
  constructor; [done|]. constructor; [case_match; [apply ht_param_byte|by apply byte_const]|].
  apply Forall_app. split; [apply put_le16_bytes|]. apply (bytes_zero 18).
Qed.

Lemma wmm_bytes : ies_bytes (hostapd_eid_wmm C) [wmm_ie C] 26.
Proof.
  unfold wmm_ie, hostapd_eid_wmm. cbn [drop app]. apply (ies_one _ _ 24); [by apply byte_const| |done|lia].
  do 6 (constructor; [by apply byte_const|]). constructor.
  - apply lor_byte; [|by apply byte_const]. change 0xf with (Z.ones 4). rewrite Z.land_ones by lia.
    apply byte_const. change (2 ^ 4) with 16. lia.
  - constructor; [by apply byte_const|]. let l := eval vm_compute in ac_params in change ac_params with l.
    repeat (constructor; [by apply byte_const|]). constructor.
Qed.
Lemma erp_bytes a : ies_bytes (hostapd_eid_erp_info C a) (erp_ies C a) 3.
Proof.
  unfold hostapd_eid_erp_info, erp_ies. destruct (st_eCurrentApMode C =? AP_MODE_IEEE80211G); [|apply ies_nil].
  cbn [negb]. apply (ies_one _ [_] 1); [by apply byte_const| |done|lia]. constructor; [|constructor].
  unfold ieee802_11_erp_info. case_match; [by apply byte_const|].
  repeat first [apply lor_byte | case_match | by apply byte_const].
Qed.

Lemma ext_bytes : ies_bytes (hostapd_eid_ext_supp_rates C) (ext_ies C) 7.
Proof.
  destruct all_rates_ok as [Hl Hb]. destruct (bc_rates _ _ _ _ B) as (Hr & Hn & _).
  rewrite (ext_rates_ie C rates) by (done || lia). unfold ext_ies, ext_ie.
  pose proof (length_drop (all_rates C) 8) as Hd. pose proof (Forall_drop is_byte 8 _ Hb) as Hdb.
  destruct (drop 8 (all_rates C)) as [|x l]; [apply ies_nil|]. cbn [encode]. rewrite app_nil_r.
  destruct (ies_one WLAN_EID_EXT_SUPP_RATES (x :: l) (length (x :: l))) as (He & Hw & Hl'); [by apply byte_const|done|done|lia|].
  split_and!; [|done|unfold encode_ie; cbn [fst snd length] in *; lia].
  cbn [encode] in *. by rewrite app_nil_r.
Qed.

Lemma wpa_bytes len : 22 <= len -> ies_bytes (hostapd_eid_wpa C len) rsn_ies 22.
Proof.
  intros Hl. rewrite wpa_ie_bytes by done. destruct (bc_rsn _ _ _ _ B) as (_ & Hn & Hb). unfold rsn_ies.
  case_match; [|apply ies_nil]. cbn [encode]. rewrite app_nil_r. unfold encode_ie. cbn [fst snd]. rewrite Hn.
  apply (ies_one _ _ 20); [by apply byte_const|done|done|lia].
Qed.

Lemma tail_bytes a n : 0 <= n < 93 -> exists country, Forall (fun e => e.1 = 7) country /\
  ies_bytes (beacon_tail C a n)
    (country ++ erp_ies C a ++ ext_ies C ++ rsn_ies ++ htcap_ies C ++ htop_ies C a ++ [wmm_ie C]) 130.
Proof.
  intros Hn. unfold beacon_tail. rewrite (bc_country _ _ _ _ B), (bc_band _ _ _ _ B).
  destruct (country_ie (st_support_5g C) cc (g_ap_no_dfs (st_cfg C)) (AP_MGMT_BEACON_LEN - n)) as (els & -> & Hw & Hl & H7).
  { unfold AP_MGMT_BEACON_LEN. lia. }
  exists els. split; [done|].
  assert (ies_bytes (encode els) els 20) as H0 by done.
  pose proof (ies_app _ _ _ _ _ _ H0 (erp_bytes a)) as H1. pose proof (ies_app _ _ _ _ _ _ H1 ext_bytes) as H2.
  destruct H2 as (E2 & W2 & L2). pose proof (ies_app _ _ _ _ _ _ (conj E2 (conj W2 L2))
    (wpa_bytes (u32 (AP_BEACON_TAIL_BUF_SIZE -
       Z.of_nat (length ((encode els ++ hostapd_eid_erp_info C a) ++ hostapd_eid_ext_supp_rates C))))
       ltac:(unfold AP_BEACON_TAIL_BUF_SIZE; rewrite u32_small; lia))) as H3.
  pose proof (ies_app _ _ _ _ _ _ H3 (ies_app _ _ _ _ _ _ htcap_bytes (ies_app _ _ _ _ _ _ (htop_bytes a) wmm_bytes))) as H4.
  rewrite <- !(assoc_L app) in H4. rewrite <- !(assoc_L app). exact H4.
Qed.

Definition head_ies : list ie :=
  [(WLAN_EID_SSID, cf_ssid cf); supp_ie C; (WLAN_EID_DS_PARAMS, [st_nCurrentChannel C])].

Lemma head_bytes a : exists fixed, beacon_head C a = fixed ++ encode head_ies /\ length fixed = 36%nat /\
  Forall wf_ie head_ies /\ (length (encode head_ies) <= 47)%nat.
Proof.
  destruct (bc_ssid _ _ _ _ B) as [Hs Hsb]. destruct all_rates_ok as [Hl Hb]. destruct (bc_rates _ _ _ _ B) as (Hr & Hn & H7).
  assert ([WLAN_EID_SSID; u8 (Z.of_nat (length (cf_ssid cf)))] ++ cf_ssid cf ++ encode_ie (supp_ie C)
    ++ hostapd_eid_ds_params C = encode head_ies) as Ht.
  { rewrite u8_of_nat by lia. reflexivity. }
  unfold beacon_head. rewrite (supp_rates_ie C rates) by (done || apply B).
  eexists (WPA_PUT_LE16 0x80 ++ [0; 0] ++ replicate 6 0xff ++ st_own_addr C ++ st_own_addr C ++ [0; 0]
    ++ replicate 8 0 ++ WPA_PUT_LE16 _ ++ WPA_PUT_LE16 _). split_and!.
  - rewrite <- !(assoc_L app). rewrite Ht. reflexivity.
  - rewrite !length_app, !(bc_addr _ _ _ _ B). reflexivity.
  - assert (forall v x, 0 <= v < 256 -> Forall is_byte x -> (length x < 256)%nat -> wf_ie (v, x)) as Hw by done.
    unfold head_ies, supp_ie. repeat (apply Forall_cons_2; [apply Hw|]); try done; try lia.
    + by apply Forall_take.
    + rewrite length_take. lia.
    + constructor; [apply (bc_chan _ _ _ _ B)|constructor].
    + cbn. lia.
  - unfold head_ies, supp_ie. cbn [encode]. unfold encode_ie. rewrite !length_app. cbn [fst snd length].
    rewrite length_take. lia.
Qed.

(** The elements after the TIM are none of the four before and with it. *)
Definition later_field (f : option ie_field) : bool :=
  match f with
  | None | Some erp_info | Some ext_supp_rates | Some rsn_ie | Some ht_capabilities
  | Some ht_operation | Some wmm => true
  | _ => false
  end.

Lemma later_fields a country : Forall (fun e => e.1 = 7) country ->
  Forall (fun e => later_field (field_of e) = true)
    (country ++ erp_ies C a ++ ext_ies C ++ rsn_ies ++ htcap_ies C ++ htop_ies C a ++ [wmm_ie C]).
Proof.
  intros H7. repeat (apply Forall_app; split).
  - eapply Forall_impl; [|exact H7]. by intros [id d]; cbn [fst]; intros ->.
  - unfold erp_ies. case_match; repeat constructor.
  - unfold ext_ies, ext_ie. case_match; repeat constructor.
  - unfold rsn_ies. case_match; repeat constructor.
  - unfold htcap_ies. case_match; repeat constructor.
  - unfold htop_ies. case_match; repeat constructor.
  - constructor; [|constructor]. unfold wmm_ie, hostapd_eid_wmm. cbn [drop app]. reflexivity.
Qed.
End Beacon.

Lemma values_app f l1 l2 : values f (l1 ++ l2) = values f l1 ++ values f l2.
Proof. apply omap_app. Qed.

Lemma values_later f l : later_field (Some f) = false -> Forall (fun e => later_field (field_of e) = true) l ->
  values f l = [].
Proof.
  intros Hf Hl. induction Hl as [|e l He _ IH]; [done|]. unfold values in *. cbn [omap list_omap].
  destruct (decide (field_of e = Some f)) as [E|]; [|done]. rewrite E in He. congruence.
Qed.

(** The extended rates are found when there are more than eight rates. *)
Lemma ext_value C rsn a country contents : drop 8 (all_rates C) <> [] -> Forall (fun e => e.1 = 7) country ->
  list.last (values ext_supp_rates (head_ies C ++ [(WLAN_EID_TIM, contents)] ++
    country ++ erp_ies C a ++ ext_ies C ++ rsn_ies C rsn ++ htcap_ies C ++ htop_ies C a ++ [wmm_ie C]))
  = Some (drop 8 (all_rates C)).
Proof.
  intros Hne H7. rewrite !values_app.
  assert (values ext_supp_rates country = []) as ->.
  { clear Hne. induction H7 as [|[id d] l Hid _ IH]; [done|]. cbn [fst] in Hid. subst id. exact IH. }
  assert (values ext_supp_rates (ext_ies C) = [drop 8 (all_rates C)]) as ->.
  { unfold ext_ies, ext_ie. by destruct (drop 8 (all_rates C)). }
  assert (values ext_supp_rates (erp_ies C a) = []) as -> by (unfold erp_ies; by case_match).
  assert (values ext_supp_rates (rsn_ies C rsn) = []) as -> by (unfold rsn_ies; by case_match).
  assert (values ext_supp_rates (htcap_ies C) = []) as -> by (unfold htcap_ies; by case_match).
  assert (values ext_supp_rates (htop_ies C a) = []) as -> by (unfold htop_ies; by case_match).
  assert (values ext_supp_rates [wmm_ie C] = []) as -> by reflexivity.
  reflexivity.
Qed.

(** The parser on a sequence of elements *)
Lemma parse_sequence els : Forall wf_ie els ->
  exists E, ieee802_11_parse_elems (encode els) (length (encode els)) = Some (verdict els [], E) /\
    forall f, points_to (encode els) (length (encode els)) f (E f) (list.last (values f els)).
Proof.
  intros Hw. apply (parse_decomposed (encode els) _ els []); [|done]. rewrite firstn_all. split_and!; [|done|done].
  by rewrite app_nil_r.
Qed.

Lemma tim_length C a : (st_gMaxAID C <= 2007)%nat -> length (a_tim a) = gMaxTimLen C ->
  (length (ieee80211_beacon_add_tim C a) <= 5 + gMaxTimLen C)%nat.
Proof.
  intros Hm Hl. pose proof (gMaxTimLen_bound C Hm). unfold ieee80211_beacon_add_tim. cbv zeta.
  case_match; case_match; cbn [app length]; rewrite ?length_take, ?length_drop, ?length_replicate; try lia.
  all: cbn [length]; lia.
Qed.

(** C16: a station reads from the beacon what the access point is configured to
    be.  For a configuration of the 2.4 GHz band with at most 12 rates, but not
    seven rates and HT required, at most 31 stations, an SSID of at most 32
    bytes and a 22-byte RSN element ([beacon_config]), the beacon fits its
    buffers, its length is not truncated to the eight bits it is kept in, and the
    element parser accepts it and finds the SSID, the channel, the basic and
    supported rates (all rates of the configuration, split over the two elements)
    and a TIM; unless the configuration announces frames for everyone, every
    station reads its own bit from it while a station is asleep, and that nothing
    waits otherwise. *)
Theorem beacon_parses (C : ap_static) (rates : list ieee80211_rate) (rsn : list Z) (cc : Z * Z) (a : ApInfo) :
  beacon_config C rates rsn cc -> length (a_tim a) = gMaxTimLen C -> Forall is_byte (a_tim a) ->
  exists bcn E r contents,
    a_out (ieee802_11_set_beacon C a false) = a_out a ++ [SetBeacon bcn (Z.of_nat (length bcn))] /\
    Z.of_nat (length (a_btail (ieee802_11_set_beacon C a false))) <= AP_BEACON_TAIL_BUF_SIZE /\
    Z.of_nat (length bcn) <= 255 /\
    ieee802_11_parse_elems (drop 36 bcn) (length bcn - 36) = Some (r, E) /\ r <> ParseFailed /\
    (let found f v := points_to (drop 36 bcn) (length bcn - 36) f (E f) (Some v) in
     found ssid (cf_ssid (st_config C)) /\ found ds_params [st_nCurrentChannel C] /\
     found supp_rates (take 8 (all_rates C)) /\ found tim contents) /\
    (drop 8 (all_rates C) <> [] ->
     points_to (drop 36 bcn) (length bcn - 36) ext_supp_rates (E ext_supp_rates) (Some (drop 8 (all_rates C)))) /\
    (g_AP_TimAllOne (st_cfg C) = false -> forall aid, (aid <= st_gMaxAID C)%nat ->
       tim_indicates contents aid = (0 <? a_num_sta_ps a) && tim_bit (a_tim a) aid).
Proof.
  intros B Ht Hb. pose proof (bc_aid _ _ _ _ B) as Haid.
  destruct (tim_element_exact C a) as (contents & Htim & Hwt & Hseen); [lia|done|done|apply B|].
  destruct (head_bytes C rates rsn cc B a) as (fixed & Hhead & Hfix & Hwh & Hlh).
  assert (length (beacon_head C a) <= 83)%nat as Hnh by (rewrite Hhead, length_app; lia).
  destruct (tail_bytes C rates rsn cc B a (Z.of_nat (length (beacon_head C a)))) as (country & H7 & Htail & Hwl & Hll); [lia|].
  pose proof (later_fields C rsn a country H7) as Hlater.
  set (later := country ++ _) in *. set (els := head_ies C ++ [(WLAN_EID_TIM, contents)] ++ later).
  set (bcn := beacon_head C a ++ ieee80211_beacon_add_tim C a ++ beacon_tail C a (Z.of_nat (length (beacon_head C a)))).
  assert (length contents <= 7)%nat as Hlc.
  { pose proof (f_equal length Htim) as Hlt. pose proof (tim_length C a ltac:(lia) Ht). cbn [encode_ie length fst snd] in Hlt.
    unfold gMaxTimLen in *. lia. }
  assert (drop 36 bcn = encode els) as Hbody.
  { unfold bcn, els. rewrite Htail, Htim, Hhead, <- (assoc_L app), drop_app_length' by done. rewrite !encode_app.
    cbn [encode]. by rewrite app_nil_r. }
  assert (length bcn = 36 + length (encode els))%nat as Hlb.
  { rewrite <- Hbody, length_drop. unfold bcn. rewrite Htail, Hhead, !length_app, Hfix. lia. }
  assert (length (encode els) <= 219)%nat as Hle.
  { unfold els. rewrite !encode_app, !length_app. rewrite Htail in Hll. cbn [encode encode_ie fst snd length app].
    rewrite app_nil_r. lia. }
  assert (Forall wf_ie els) as Hwe by (unfold els; apply Forall_app; split; [done|]; by constructor).
  destruct (parse_sequence els Hwe) as (E & Hp & Hf).
  exists bcn, E, (verdict els []), contents. rewrite Hbody, Hlb.
  replace (36 + length (encode els) - 36)%nat with (length (encode els)) by lia.
  assert (forall f v, later_field (Some f) = false -> list.last (values f (head_ies C ++ [(WLAN_EID_TIM, contents)])) = Some v ->
    points_to (encode els) (length (encode els)) f (E f) (Some v)) as Hfound.
  { intros f v Hl Hv. rewrite <- Hv. specialize (Hf f). unfold els in Hf.
    by rewrite (assoc_L app), values_app, (values_later f later Hl Hlater), app_nil_r in Hf. }
  split_and!; try done.
  - unfold ieee802_11_set_beacon. rewrite andb_false_r. unfold GenBeacon, ap_emit. cbn [a_out a_bhead a_btail].
    rewrite <- Hlb, <- (u8_of_nat (length bcn)) by lia. reflexivity.
  - unfold ieee802_11_set_beacon. rewrite andb_false_r. unfold AP_BEACON_TAIL_BUF_SIZE.
    change (a_btail _) with (beacon_tail C a (Z.of_nat (length (beacon_head C a)))). lia.
  - lia.
  - unfold verdict. by destruct (existsb unknown_ie els).
  - cbv zeta beta. split_and!; by apply Hfound.
  - intros Hne. rewrite <- (ext_value C rsn a country contents Hne H7). apply Hf.
Qed.

(** A mode G access point with 12 rates, CCMP and 802.11n. *)
Definition demo_rates : list ieee80211_rate :=
  map (fun p => mk_rate (fst p) (snd p))
    [(2, 7); (4, 7); (11, 7); (22, 7); (12, 4); (18, 0); (24, 4); (36, 0); (48, 4); (72, 0); (96, 0); (108, 0)].
Definition demo_rsn : list Z :=
  [1; 0; 0x00; 0x0f; 0xac; 4; 1; 0; 0x00; 0x0f; 0xac; 4; 1; 0; 0x00; 0x0f; 0xac; 2; 0; 0].
Definition demo_static (require_ht : bool) (rates : list ieee80211_rate) : ap_static := {|
  st_cfg := mk_host_cfg 20 100 true true false false false 60;
  st_config := mk_ap_config [97; 112] AP_MODE_IEEE80211G true require_ht 6 true (Some rates) false
                 0x2c (0xff :: replicate 15 0) 3 false;
  st_gMaxAID := 8; st_eCurrentApMode := AP_MODE_IEEE80211G; st_nCurrentChannel := 6;
  st_own_addr := [0; 0x33; 0x33; 0x33; 0x33; 0x33]; st_auth_algs := 1; st_tkip_countermeasures := false;
  st_sec_type := SSV6XXX_SEC_WPA2_PSK; st_parameter_set_count := 0; st_dtim_count := 0;
  st_wpa := mk_cfg [0; 0x33; 0x33; 0x33; 0x33; 0x33] [] (mk_conf WPA_PROTO_RSN 2 16 16 16 0 2 0 0) [] 1
              (encode_ie (WLAN_EID_RSN, demo_rsn)) (fun _ => true) false;
  st_reg := country_state false (85, 83); st_support_5g := false; st_beacon_enable := true;
  st_tick2ms := fun t => t; st_enqueue_ok := fun _ => true; st_dup_ok := fun _ => true;
  st_ava_wsid := fun _ => 0
|}.
(** The access point with eight stations in its table, none of them in use. *)
Definition demo_ap : ApInfo := {|
  a_pMgmtPkt := replicate AP_MGMT_PKT_LEN 0; a_sta_aid := 0; a_tim := replicate 4 0; a_num_sta := 0; a_num_sta_ps := 0; a_num_sta_authorized := 0;
  a_num_sta_non_erp := 0; a_num_sta_no_short_preamble := 0; a_num_sta_no_short_slot_time := 0;
  a_num_sta_ht_no_gf := 0; a_num_sta_no_ht := 0; a_num_sta_ht_20mhz := 0; a_olbc := false;
  a_olbc_ht := false; a_ht_op_mode := 0; a_bhead := []; a_btail := []; a_total_ps_buffered := 0;
  a_sta_pkt_cln_timer := false; a_pApTxData := replicate 30 None;
  a_StaConInfo := replicate 8 APStaInfo_StaReset; a_Counter := replicate 32 0;
  a_handshake_failures := 0; a_mic_failures := 0; a_nalloc := 0; a_probe_req_cnt := 0; a_B_tick := 0;
  a_jiffies := 0; a_timers := []; a_n_enqueue := 0; a_n_dup := 0; a_n_wsid := 0; a_out := []
|}.

(** With HT required and seven rates the length byte of the element counts the
    selector, but the selector is not written: the DS parameters that follow lose
    their identifier to it. *)
Example seven_rates_malformed :
  hostapd_eid_supp_rates (demo_static true (take 7 demo_rates)) ++ hostapd_eid_ds_params (demo_static true [])
  = encode_ie (WLAN_EID_SUPP_RATES, [0x82; 0x84; 0x8b; 0x96; 0x8c; 18; 0x98; WLAN_EID_DS_PARAMS]) ++ [1; 6].
Proof. vm_compute. reflexivity. Qed.

Lemma demo_beacon_config : beacon_config (demo_static false demo_rates) demo_rates demo_rsn (85, 83).
Proof.
  assert (forall l, forallb (fun x => (0 <=? x) && (x <? 256)) l = true -> Forall is_byte l) as Hbytes.
  { intros l H. apply list.Forall_forall. intros x Hx. rewrite List.forallb_forall in H.
    specialize (H x ltac:(by apply list_elem_of_In)). unfold is_byte. lia. }
  constructor; try reflexivity; try (split_and!; try reflexivity; try (by apply Hbytes); try (by apply byte_const); cbn; lia || done).
  all: first [by apply byte_const | cbn; lia].
Qed.

Lemma beacon_parses_witness : exists bcn E r contents,
  let C := demo_static false demo_rates in
  a_out (ieee802_11_set_beacon C (demo_ap <| a_num_sta_ps := 1 |> <| a_tim := [0; 1; 0; 0] |>) false)
    = [SetBeacon bcn (Z.of_nat (length bcn))] /\
  ieee802_11_parse_elems (drop 36 bcn) (length bcn - 36) = Some (r, E) /\ r <> ParseFailed /\
  points_to (drop 36 bcn) (length bcn - 36) ssid (E ssid) (Some [97; 112]) /\
  tim_indicates contents 8 = true.
Proof.
  destruct (beacon_parses (demo_static false demo_rates) demo_rates demo_rsn (85, 83)
    (demo_ap <| a_num_sta_ps := 1 |> <| a_tim := [0; 1; 0; 0] |>) demo_beacon_config)
    as (bcn & E & r & contents & Hout & _ & _ & Hp & Hr & (Hs & _) & _ & Ht).
  - vm_compute. reflexivity.
  - repeat (constructor; [by apply byte_const|]). constructor.
  - exists bcn, E, r, contents. split; [exact Hout|]. split; [exact Hp|]. split; [exact Hr|].
    split; [exact Hs|]. rewrite (Ht eq_refl) by (cbn; lia). reflexivity.
Defined.
