(* ===== verification/ApPower.v ===== *)
(** * ApPower: power saving and the data path of the access point

    [ap/ap_tx.c], [ap/ap_rx.c], the power-save part of [ap/ap_sta_info.c] and the
    functions of [core/txrx_hdl.c] through which the frames of the access point
    go.  A frame for a station that sleeps takes a descriptor of [pApTxData] and
    waits in the queue of its access category; the traffic indication map tells
    the station; polls, trigger frames and the end of the sleep release frames.

    [None] is a fault: an [ASSERT] that fails, an index outside an array or a
    descriptor without a frame.  [TxHdl_FrameProc] and [tx_h_unicast_ps_buf] are
    mutually recursive; the recursion ends at the second call, because a frame
    that is released carries [AP_PS_FRAME], and the fuel 2 is enough
    ([frame_proc_fuel]). *)

From stdpp Require Import base list option.
From Stdlib Require Import ZArith Lia ZifyNat.
From S2P Require Import Prelude Words Wire WpaIe WpaAuth Reorder ApInfo ApElem.

Inductive tx_result := TX_CONTINUE | TX_DROP | TX_QUEUED.
Inductive rx_result := RX_CONTINUE | RX_DROP.
Inductive frame_release_type := FRAME_RELEASE_PSPOLL | FRAME_RELEASE_UAPSD.

#[export] Instance release_eq_dec : EqDecision frame_release_type.
Proof. solve_decision. Defined.

Definition IEEE80211_FCTL_TODS : Z := 0x0100.
Definition IEEE80211_FCTL_MOREDATA : Z := 0x2000.
Definition IEEE80211_QOS_CTL_TAG1D_MASK : Z := 7.
Definition IEEE80211_QOS_CTL_TID_MASK : Z := 0xf.
Definition IEEE80211_QOS_CTL_EOSP : Z := 0x10.

(** [up_to_ac]: best effort, background, video, voice *)
Definition up_to_ac : list nat := [2; 3; 3; 2; 1; 1; 0; 0]%nat.

(** ** Descriptors *)

Definition ap_desp (a : ApInfo) (k : nat) : option ap_tx_desp := mjoin (a_pApTxData a !! k).

(** [ap_get_tx_desp]: the first descriptor without a frame. *)
Fixpoint free_desp (i : nat) (l : list (option ap_tx_desp)) : option nat :=
  match l with
  | [] => None
  | None :: _ => Some i
  | Some _ :: r => free_desp (S i) r
  end.
Definition ap_get_tx_desp (a : ApInfo) : option nat := free_desp 0 (a_pApTxData a).

Definition set_desp (a : ApInfo) (k : nat) (d : option ap_tx_desp) : ApInfo :=
  a <| a_pApTxData := <[k := d]> (a_pApTxData a) |>.
Definition ap_release_tx_desp (a : ApInfo) (k : nat) : ApInfo := set_desp a k None.
Definition ap_release_tx_desp_and_frame (a : ApInfo) (k : nat) : option ApInfo :=
  d ← ap_desp a k; Some (ap_release_tx_desp (ap_emit a (FrameFree (d_frame d))) k).

Definition add_buffered (a : ApInfo) (n : Z) : ApInfo :=
  a <| a_total_ps_buffered := u16 (a_total_ps_buffered a + n) |>.

(** ** Queues *)

Definition ps_queue (s : APStaInfo) (ac : nat) : list nat := default [] (s_ps_tx_buf s !! ac).
Definition set_queue (s : APStaInfo) (ac : nat) (q : list nat) : APStaInfo :=
  s <| s_ps_tx_buf := <[ac := q]> (s_ps_tx_buf s) |>.

Definition upd_sta (a : ApInfo) (i : nat) (f : APStaInfo -> APStaInfo) : option ApInfo :=
  s ← a_StaConInfo a !! i; Some (set_sta a i (f s)).

(** [list_q_deq_safe] on a queue of station [i] *)
Definition ps_deq (a : ApInfo) (i ac : nat) : option (option nat * ApInfo) :=
  s ← a_StaConInfo a !! i;
  match ps_queue s ac with
  | [] => Some (None, a)
  | k :: q => Some (Some k, set_sta a i (set_queue s ac q))
  end.

(** [while (tx_desp = list_q_deq_safe(...)) f(tx_desp)], at most [n] rounds *)
Fixpoint drain (f : ApInfo -> nat -> option ApInfo) (n : nat) (a : ApInfo) (i ac : nat) : option ApInfo :=
  '(k, a) ← ps_deq a i ac;
  match k, n with
  | None, _ => Some a
  | Some _, O => None
  | Some k, S n => a ← f a k; drain f n a i ac
  end.
Definition drain_ac (f : ApInfo -> nat -> option ApInfo) (a : ApInfo) (i ac : nat) : option ApInfo :=
  s ← a_StaConInfo a !! i; drain f (length (ps_queue s ac)) a i ac.

(** [purge_sta_ps_buffers] *)
Definition purge_one (a : ApInfo) (k : nat) : option ApInfo :=
  a ← ap_release_tx_desp_and_frame a k; Some (add_buffered a (-1)).
Definition purge_sta_ps_buffers (a : ApInfo) (i : nat) : option ApInfo :=
  a ← drain_ac purge_one a i 3; a ← drain_ac purge_one a i 2;
  a ← drain_ac purge_one a i 1; drain_ac purge_one a i 0.

(** [purge_old_ps_buffers]: the oldest frame of the lowest access category that
    has one, for each station. *)
Fixpoint purge_old_acs (a : ApInfo) (i : nat) (acs : list nat) : option ApInfo :=
  match acs with
  | [] => Some a
  | ac :: r =>
      '(k, a) ← ps_deq a i ac;
      match k with
      | Some k => purge_one a k
      | None => purge_old_acs a i r
      end
  end.
Definition purge_old_sta (a : ApInfo) (i : nat) : option ApInfo :=
  s ← a_StaConInfo a !! i;
  if test_sta_flag s WLAN_STA_VALID then purge_old_acs a i [3; 2; 1; 0]%nat else Some a.

(** [for (i = 0; i < gMaxAID; i++)] over the stations *)
Fixpoint for_stations (f : ApInfo -> nat -> option ApInfo) (l : list nat) (a : ApInfo) : option ApInfo :=
  match l with
  | [] => Some a
  | i :: r => a ← f a i; for_stations f r a
  end.

(** ** The traffic indication map *)

Section Power.
Context (C : ap_static).

Definition purge_old_ps_buffers (a : ApInfo) : option ApInfo :=
  for_stations purge_old_sta (seq 0 (st_gMaxAID C)) a.

Definition __bss_tim_get (a : ApInfo) (aid : Z) : option bool :=
  b ← a_tim a !! Z.to_nat (aid / 8); Some (has b (BIT (aid mod 8))).
Definition __bss_tim_set (a : ApInfo) (aid : Z) : option ApInfo :=
  b ← a_tim a !! Z.to_nat (aid / 8);
  Some (a <| a_tim := <[Z.to_nat (aid / 8) := Z.lor b (BIT (aid mod 8))]> (a_tim a) |>).
Definition __bss_tim_clear (a : ApInfo) (aid : Z) : option ApInfo :=
  b ← a_tim a !! Z.to_nat (aid / 8);
  Some (a <| a_tim := <[Z.to_nat (aid / 8) := Z.land b (Z.lnot (BIT (aid mod 8)))]> (a_tim a) |>).

(** The access categories that do not count: all count when all are
    delivery-enabled. *)
Definition ignored_acs (s : APStaInfo) : Z :=
  if s_uapsd_queues s =? BIT 4 - 1 then 0 else s_uapsd_queues s.

Definition indicate_tim (s : APStaInfo) : bool :=
  existsb (fun ac => negb (has (ignored_acs s) (BIT (Z.of_nat ac))) && (0 <? length (ps_queue s ac))%nat)
    (seq 0 IEEE80211_NUM_ACS) || (0 <? s_fw_q_len s).

(** [sta_info_recalc_tim] *)
Definition sta_info_recalc_tim (a : ApInfo) (i : nat) : option (bool * ApInfo) :=
  s ← a_StaConInfo a !! i;
  cur ← __bss_tim_get a (s_aid s);
  if Bool.eqb (indicate_tim s) cur then Some (false, a)
  else
    a ← (if indicate_tim s then __bss_tim_set a (s_aid s) else __bss_tim_clear a (s_aid s));
    Some (true, a).

Definition recalc_tim_gen_beacon (a : ApInfo) (i : nat) : option ApInfo :=
  '(changed, a) ← sta_info_recalc_tim a i;
  Some (if (changed : bool) then GenBeacon C a else a).

(** ** Sending *)

(** [ieee80211_get_DA], [ieee80211_is_data] *)
Definition tx_da (f : tx_frame) : list Z :=
  if tf_f80211 f && has (tf_fc f) IEEE80211_FCTL_TODS then tf_addr3 f else tf_addr1 f.
Definition tx_is_data (f : tx_frame) : bool :=
  if tf_f80211 f then Z.land (tf_fc f) 0x0c =? 0x08 else true.

(** [ssv6xxx_data_prepare_tx_data]: the descriptor, and the frame with its
    [AP_PS_FRAME] mark removed.  A free descriptor is all zero. *)
Definition ssv6xxx_data_prepare_tx_data (a : ApInfo) (f : tx_frame) (bAPFrame : bool) (TxFlags : Z)
  : ap_tx_desp :=
  let flags := if bAPFrame then Z.lor TxFlags AP_TX_NATIVE_AP_FRAME else TxFlags in
  let marked := has (tf_rsvd0 f) AP_PS_FRAME in
  let flags := if marked then Z.lor flags AP_TX_POLL_RESPONSE else flags in
  let f := if marked then f <| tf_rsvd0 := 0 |> else f in
  let flags := if tx_is_data f then Z.lor flags AP_TX_DATA else Z.land flags (Z.lnot AP_TX_DATA) in
  let flags := if is_multicast_ether_addr (tx_da f) then Z.land flags (Z.lnot AP_TX_UNICAST)
               else Z.lor flags AP_TX_UNICAST in
  let priority := match tf_qos f with Some q => Z.land q IEEE80211_QOS_CTL_TAG1D_MASK | None => 0 end in
  mk_desp f (APStaInfo_FindStaByAddr a (tx_da f)) priority flags 0.

(** [ssv6xxx_data_check_authed] *)
Definition ssv6xxx_data_check_authed (a : ApInfo) (d : ap_tx_desp) : option tx_result :=
  bAuthed ← match d_sta d with
            | None => Some false
            | Some i => s ← a_StaConInfo a !! i; Some (test_sta_flag s WLAN_STA_AUTHORIZED)
            end;
  Some (if has (d_flags d) AP_TX_UNICAST then
          if has (d_flags d) AP_TX_NATIVE_AP_FRAME then TX_CONTINUE
          else if negb bAuthed && has (d_flags d) AP_TX_DATA then TX_DROP else TX_CONTINUE
        else if has (d_flags d) AP_TX_DATA && (a_num_sta_authorized a =? 0) then TX_DROP
        else TX_CONTINUE).

(** What [tx_h_unicast_ps_buf] does to queue descriptor [k] at station [i]: room
    is made, the descriptor appended and counted. *)
Definition ps_enqueue (a : ApInfo) (k i ac : nat) : option ApInfo :=
  a ← (if Z.of_nat (AP_TOTAL_MAX_TX_BUFFER C) <=? a_total_ps_buffered a
       then purge_old_ps_buffers a else Some a);
  s ← a_StaConInfo a !! i;
  a ← (if (AP_STA_MAX_TX_BUFFER <=? length (ps_queue s ac))%nat then
         '(old, a) ← ps_deq a i ac; old ← old; ap_release_tx_desp_and_frame a old
       else Some (add_buffered a 1));
  d ← ap_desp a k;
  let a := set_desp a k (Some (mk_desp (d_frame d) (d_sta d) (d_priority d) (d_flags d) (a_jiffies a))) in
  upd_sta a i (fun s =>
    let s := set_queue s ac (ps_queue s ac ++ [k]) in
    s <| s_fw_q_len := if s_fw_q_len s =? UNKNOWN_FW_QUEUE_LENGTH then 1 else s32 (s_fw_q_len s + 1) |>).

(** The cleanup timer, started once *)
Definition need_cleanup_timer (a : ApInfo) : ApInfo :=
  if a_sta_pkt_cln_timer a then a
  else start_timer (a <| a_sta_pkt_cln_timer := true |>) TCleanup AP_STA_INFO_CLEANUP_INTERVAL.

(** [tx_h_unicast_ps_buf]; [deliver] is [sta_ps_deliver_poll_response]. *)
Definition tx_h_unicast_ps_buf (deliver : ApInfo -> nat -> option ApInfo) (a : ApInfo) (k : nat)
  (d : ap_tx_desp) : option (tx_result * ApInfo) :=
  match d_sta d with
  | None => Some (TX_CONTINUE, a)
  | Some i =>
      ac ← up_to_ac !! Z.to_nat (d_priority d);
      s ← a_StaConInfo a !! i;
      if (test_sta_flag s WLAN_STA_PS_STA || negb (length (ps_queue s ac) =? 0)%nat)
         && negb (has (d_flags d) AP_TX_NATIVE_AP_FRAME)
      then
        a ← ps_enqueue a k i ac;
        a ← (if g_AP_TimAllOne (st_cfg C) then Some a
             else
               '(changed, a) ← sta_info_recalc_tim a i;
               if (changed : bool) then a ← deliver a i; Some (GenBeacon C a) else Some a);
        Some (TX_QUEUED, need_cleanup_timer a)
      else Some (TX_CONTINUE, a)
  end.

(** [ssv6xxx_data_need_queue]; [tx_h_multicast_ps_buf] only continues. *)
Definition ssv6xxx_data_need_queue (deliver : ApInfo -> nat -> option ApInfo) (a : ApInfo) (k : nat)
  (d : ap_tx_desp) : option (tx_result * ApInfo) :=
  if has (d_flags d) AP_TX_POLL_RESPONSE || has (d_flags d) AP_TX_NATIVE_AP_FRAME then Some (TX_CONTINUE, a)
  else if has (d_flags d) AP_TX_UNICAST then tx_h_unicast_ps_buf deliver a k d
  else Some (TX_CONTINUE, a).

(** [ssv6xxx_data_could_be_send]: the verdict, and the frame as the descriptor
    leaves it. *)
Definition ssv6xxx_data_could_be_send (deliver : ApInfo -> nat -> option ApInfo) (a : ApInfo) (f : tx_frame)
  (bAPFrame : bool) (TxFlags : Z) : option (tx_result * tx_frame * ApInfo) :=
  k ← ap_get_tx_desp a;
  let d := ssv6xxx_data_prepare_tx_data a f bAPFrame TxFlags in
  let a := set_desp a k (Some d) in
  res ← ssv6xxx_data_check_authed a d;
  '(res, a) ← match res with
              | TX_CONTINUE => ssv6xxx_data_need_queue deliver a k d
              | _ => Some (res, a)
              end;
  Some (res, d_frame d, match res with TX_QUEUED => a | _ => ap_release_tx_desp a k end).

(** [TXRXTask_FrameEnqueue]: whether the transmit task takes the frame *)
Definition enqueue (a : ApInfo) : bool * ApInfo :=
  (st_enqueue_ok C (a_n_enqueue a), a <| a_n_enqueue := S (a_n_enqueue a) |>).

(** The end of [TxHdl_FrameProc]: [mgmt] is the contents of the management
    buffer, of which a copy is sent. *)
Definition hand_over (a : ApInfo) (f : tx_frame) (mgmt : option (list Z)) : bool * ApInfo :=
  match mgmt with
  | None => let '(ok, a) := enqueue a in (ok, if ok then ap_emit a (TxEnqueue f) else a)
  | Some data =>
      let dup := st_dup_ok C (a_n_dup a) in
      let a := a <| a_n_dup := S (a_n_dup a) |> in
      if dup then
        let '(ok, a) := enqueue a in (ok, ap_emit a (if ok then TxCopy data else TxCopyLost data))
      else (false, a)
  end.

(** [TxHdl_FrameProc]; the result is what the function returns. *)
Definition frame_proc (deliver : ApInfo -> nat -> option ApInfo) (a : ApInfo) (f : tx_frame)
  (mgmt : option (list Z)) (flags : Z) : option (bool * ApInfo) :=
  '(res, f, a) ← ssv6xxx_data_could_be_send deliver a f (bool_decide (is_Some mgmt)) flags;
  Some (match res with
        | TX_CONTINUE => hand_over a f mgmt
        | TX_DROP => (true, ap_emit a (match mgmt with None => FrameFree f | Some _ => FreeMgmtBuffer end))
        | TX_QUEUED => (true, a)
        end).

(** ** Management frames *)

(** What [TxHdl_FrameProc] sees of the management buffer: an 802.11 frame without
    QoS, whose descriptor [init_host_tx_req] cleared. *)
Definition mgmt_view (data : list Z) : tx_frame :=
  mk_tx_frame 0 true (default 0 (WPA_GET_LE16 data 0)) (take 6 (drop 4 data)) (take 6 (drop 16 data)) None 0 false.

(** [MEMCPY] into the management buffer; a write behind its [AP_MGMT_PKT_LEN]
    bytes is a fault. *)
Definition mgmt_put (a : ApInfo) (off : nat) (bytes : list Z) : option ApInfo :=
  if (off + length bytes <=? AP_MGMT_PKT_LEN)%nat
  then Some (a <| a_pMgmtPkt := take off (a_pMgmtPkt a) ++ bytes ++ drop (off + length bytes) (a_pMgmtPkt a) |>)
  else None.

(** [ap_soc_data_send] of the management buffer: it is copied before it is sent,
    so the queues are never used. *)
Definition ap_soc_data_send (a : ApInfo) (len : nat) (TxFlags : Z) : option ApInfo :=
  let data := take len (a_pMgmtPkt a) in
  '(_, a) ← frame_proc (fun _ _ => None) a (mgmt_view data) (Some data) TxFlags; Some a.

(** The frame control and address fields: [ETH_ALEN] bytes are copied per address. *)
Definition put_addrs (a : ApInfo) (fc : Z) (da bssid : list Z) : option ApInfo :=
  a ← mgmt_put a 0 (WPA_PUT_LE16 fc);
  a ← mgmt_put a 4 (take 6 da);
  a ← mgmt_put a 10 (take 6 (st_own_addr C));
  mgmt_put a 16 (take 6 bssid).

(** ** Releasing frames *)

Definition FC_NULLFUNC : Z := Z.lor 0x0008 (Z.lor 0x0040 0x0200).
Definition FC_QOS_NULLFUNC : Z := Z.lor 0x0008 (Z.lor 0x00c0 0x0200).

(** [ieee80211_send_null_response]: the sequence control field keeps what the
    buffer held. *)
Definition ieee80211_send_null_response (a : ApInfo) (i : nat) (tid : Z) (reason : frame_release_type)
  : option ApInfo :=
  s ← a_StaConInfo a !! i;
  let qos := test_sta_flag s WLAN_STA_WMM in
  a ← put_addrs a (if qos then FC_QOS_NULLFUNC else FC_NULLFUNC) (s_addr s) (st_own_addr C);
  a ← mgmt_put a 2 [0; 0];
  a ← (if qos then
         mgmt_put a 24 (WPA_PUT_LE16 (if bool_decide (reason = FRAME_RELEASE_UAPSD)
                                      then Z.lor tid IEEE80211_QOS_CTL_EOSP else tid))
       else Some a);
  ap_soc_data_send a (if qos then 26 else 24) AP_TX_POLL_RESPONSE.

(** [ffs] of [common/bitmap.c] *)
Definition ffs (x : Z) : Z :=
  if x =? 0 then 0
  else
    let '(x, r) := (x, 1) in
    let '(x, r) := if negb (has x 0xffff) then (Z.shiftr x 16, r + 16) else (x, r) in
    let '(x, r) := if negb (has x 0xff) then (Z.shiftr x 8, r + 8) else (x, r) in
    let '(x, r) := if negb (has x 0xf) then (Z.shiftr x 4, r + 4) else (x, r) in
    let '(x, r) := if negb (has x 3) then (Z.shiftr x 2, r + 2) else (x, r) in
    if negb (has x 1) then r + 1 else r.

Section Release.
(** [TxHdl_FrameProc] for a frame of the host *)
Context (proc : ApInfo -> tx_frame -> option (bool * ApInfo)).

(** [ap_send_buffered_frame] *)
Definition ap_send_buffered_frame (a : ApInfo) (k : nat) : option ApInfo :=
  d ← ap_desp a k;
  let f := (d_frame d) <| tf_rsvd0 := Z.lor (tf_rsvd0 (d_frame d)) AP_PS_FRAME |> in
  '(ok, a) ← proc a f;
  Some (ap_release_tx_desp (if (ok : bool) then a else ap_emit a (FrameFree (f <| tf_rsvd0 := 0 |>))) k).

(** The response: the frames taken from one access category after the other, and
    whether a category was left with frames. *)
Fixpoint take_frames (n : nat) (a : ApInfo) (i ac : nat) : option (list nat * nat * ApInfo) :=
  match n with
  | O => Some ([], O, a)
  | S m =>
      '(k, a) ← ps_deq a i ac;
      match k with
      | None => Some ([], n, a)
      | Some k =>
          '(l, n, a) ← take_frames m (add_buffered a (-1)) i ac;
          Some (k :: l, n, a)
      end
  end.
Fixpoint collect (n : nat) (ignored : Z) (acs : list nat) (a : ApInfo) (i : nat)
  : option (list nat * bool * ApInfo) :=
  match acs with
  | [] => Some ([], false, a)
  | ac :: r =>
      if has ignored (BIT (Z.of_nat ac)) then collect n ignored r a i
      else
        '(l, n, a) ← take_frames n a i ac;
        s ← a_StaConInfo a !! i;
        match ps_queue s ac with
        | _ :: _ => Some (l, true, a)
        | [] => '(l2, more, a) ← collect n ignored r a i; Some (l ++ l2, more, a)
        end
  end.

(** The bits of a frame that is released: [more] is set when frames remain,
    [last] when it is the last of this response. *)
Definition mark_frame (f : tx_frame) (more last : bool) (reason : frame_release_type) : tx_frame :=
  let more := more || negb last in
  let f := f <| tf_more_data := more |> in
  let f := if tf_f80211 f then
             f <| tf_fc := if more then Z.lor (tf_fc f) IEEE80211_FCTL_MOREDATA
                           else Z.land (tf_fc f) (u16 (Z.lnot IEEE80211_FCTL_MOREDATA)) |>
           else f in
  if bool_decide (reason = FRAME_RELEASE_UAPSD) && last
  then f <| tf_qos := (fun q => Z.lor q IEEE80211_QOS_CTL_EOSP) <$> tf_qos f |> else f.

Fixpoint send_frames (l : list nat) (more : bool) (reason : frame_release_type) (a : ApInfo) (i : nat)
  : option ApInfo :=
  match l with
  | [] => Some a
  | k :: r =>
      d ← ap_desp a k;
      let f := mark_frame (d_frame d) more (bool_decide (r = [])) reason in
      let a := set_desp a k (Some (mk_desp f (d_sta d) (d_priority d) (d_flags d) (d_jiffies d))) in
      a ← ap_send_buffered_frame a k;
      a ← upd_sta a i (fun s =>
            if (0 <=? s_fw_q_len s) && bool_decide (reason = FRAME_RELEASE_PSPOLL)
            then s <| s_fw_q_len := s32 (s_fw_q_len s + 1) |> else s);
      send_frames r more reason a i
  end.

(** [ieee80211_sta_ps_deliver_response] *)
Definition ieee80211_sta_ps_deliver_response (a : ApInfo) (i : nat) (n_frames : nat) (ignored : Z)
  (reason : frame_release_type) : option ApInfo :=
  a ← (if bool_decide (reason = FRAME_RELEASE_UAPSD)
       then upd_sta a i (fun s => set_sta_flag s WLAN_STA_SP) else Some a);
  '(frames, more, a) ← collect n_frames ignored (seq 0 IEEE80211_NUM_ACS) a i;
  a ← match frames with
      | [] =>
          s ← a_StaConInfo a !! i;
          if (s_fw_q_len s <? 0) && negb (s_fw_q_len s =? UNKNOWN_FW_QUEUE_LENGTH)
          then ieee80211_send_null_response a i (7 - Z.shiftl (ffs (Z.lnot ignored) - 1) 1) reason
          else Some a
      | _ => send_frames frames more reason a i
      end;
  a ← recalc_tim_gen_beacon a i;
  upd_sta a i (fun s => clear_sta_flag s WLAN_STA_SP).

Definition sta_ps_deliver_poll_response (a : ApInfo) (i : nat) : option ApInfo :=
  s ← a_StaConInfo a !! i;
  ieee80211_sta_ps_deliver_response a i 1 (ignored_acs s) FRAME_RELEASE_PSPOLL.

Definition sp_length (max_sp : Z) : nat :=
  if max_sp =? 1 then 2 else if max_sp =? 2 then 4 else if max_sp =? 3 then 6
  else if max_sp =? 0 then 8 else Z.to_nat max_sp.

Definition sta_ps_deliver_uapsd (a : ApInfo) (i : nat) : option ApInfo :=
  s ← a_StaConInfo a !! i;
  if s_uapsd_queues s =? 0 then Some a
  else ieee80211_sta_ps_deliver_response a i (sp_length (s_max_sp s)) (u8 (Z.lnot (s_uapsd_queues s)))
         FRAME_RELEASE_UAPSD.

(** [sta_ps_deliver_wakeup]: the frames are counted once, after they were sent. *)
Fixpoint wakeup_acs (acs : list nat) (a : ApInfo) (i : nat) : option (Z * ApInfo) :=
  match acs with
  | [] => Some (0, a)
  | ac :: r =>
      s ← a_StaConInfo a !! i;
      a ← drain_ac ap_send_buffered_frame a i ac;
      '(n, a) ← wakeup_acs r a i;
      Some (Z.of_nat (length (ps_queue s ac)) + n, a)
  end.
Definition sta_ps_deliver_wakeup (a : ApInfo) (i : nat) : option ApInfo :=
  '(buffered, a) ← wakeup_acs (seq 0 IEEE80211_NUM_ACS) a i;
  a ← upd_sta a i (fun s => clear_sta_flag (clear_sta_flag s WLAN_STA_SP) WLAN_STA_PS_STA);
  a ← upd_sta (add_buffered a (- buffered)) i (fun s => s <| s_fw_q_len := UNKNOWN_FW_QUEUE_LENGTH |>);
  recalc_tim_gen_beacon a i.
End Release.

(** [TxHdl_FrameProc] for a frame of the host, with [n] nested calls *)
Fixpoint TxHdl_FrameProc (n : nat) (a : ApInfo) (f : tx_frame) : option (bool * ApInfo) :=
  match n with
  | O => None
  | S m => frame_proc (sta_ps_deliver_poll_response (TxHdl_FrameProc m)) a f None 0
  end.
Definition proc : ApInfo -> tx_frame -> option (bool * ApInfo) := TxHdl_FrameProc 2.

(** ** Reception *)

Definition AP_RX_FLAGS_FRAME_TYPE_PS_POLL : Z := BIT 0.
Definition AP_RX_FLAGS_FRAME_TYPE_NULL_DATA : Z := BIT 1.
Definition AP_RX_FLAGS_FRAME_TYPE_DATA : Z := BIT 2.
Definition AP_RX_FLAGS_PM_BIT : Z := BIT 3.
Definition AP_RX_FLAGS_QOS_BIT : Z := BIT 4.

(** [struct ap_rx_desp] *)
Record ap_rx_desp := mk_rx { rx_sta : option nat; rx_flags : Z; rx_UP : Z }.

Definition rx_has (rx : ap_rx_desp) (flag : Z) : bool := has (rx_flags rx) flag.

Definition rx_h_check (a : ApInfo) (rx : ap_rx_desp) : option rx_result :=
  match rx_sta rx with
  | None => Some RX_DROP
  | Some i =>
      s ← a_StaConInfo a !! i;
      Some (if test_sta_flag s WLAN_STA_ASSOC then RX_CONTINUE else RX_DROP)
  end.

(** [rx_h_uapsd_and_pspoll]: PS-Poll and trigger frames *)
Definition rx_h_uapsd_and_pspoll (a : ApInfo) (rx : ap_rx_desp) : option (rx_result * ApInfo) :=
  i ← rx_sta rx;
  s ← a_StaConInfo a !! i;
  if negb (test_sta_flag s WLAN_STA_PS_STA) then Some (RX_CONTINUE, a)
  else if rx_has rx AP_RX_FLAGS_FRAME_TYPE_PS_POLL then
    a ← sta_ps_deliver_poll_response proc a i; Some (RX_DROP, a)
  else if rx_has rx AP_RX_FLAGS_PM_BIT &&
    (rx_has rx (Z.lor AP_RX_FLAGS_QOS_BIT AP_RX_FLAGS_FRAME_TYPE_DATA) ||
     rx_has rx (Z.lor AP_RX_FLAGS_QOS_BIT AP_RX_FLAGS_FRAME_TYPE_NULL_DATA))
  then
    ac ← up_to_ac !! Z.to_nat (Z.land (rx_UP rx) 7);
    if negb (has (s_uapsd_queues s) (BIT (Z.of_nat ac))) then Some (RX_CONTINUE, a)
    else if test_sta_flag s WLAN_STA_SP then Some (RX_CONTINUE, a)
    else a ← sta_ps_deliver_uapsd proc a i; Some (RX_CONTINUE, a)
  else Some (RX_CONTINUE, a).

Definition ap_sta_ps_start (a : ApInfo) (i : nat) : option ApInfo :=
  upd_sta (a <| a_num_sta_ps := u8 (a_num_sta_ps a + 1) |>) i (fun s => set_sta_flag s WLAN_STA_PS_STA).

(** [os_cancel_timer(sta_info_cleanup, 0, 0)] and the flag that goes with it *)
Definition stop_cleanup_timer (a : ApInfo) : ApInfo :=
  (cancel_timer a TCleanup) <| a_sta_pkt_cln_timer := false |>.

Definition ap_sta_ps_end (a : ApInfo) (i : nat) : option ApInfo :=
  if a_num_sta_ps a =? 0 then Some a
  else
    a ← sta_ps_deliver_wakeup proc (a <| a_num_sta_ps := u8 (a_num_sta_ps a - 1) |>) i;
    Some (if a_num_sta_ps a =? 0 then stop_cleanup_timer a else a).

(** [rx_h_sta_process]: the station wakes up or falls asleep *)
Definition rx_h_sta_process (a : ApInfo) (rx : ap_rx_desp) : option ApInfo :=
  match rx_sta rx with
  | None => Some a
  | Some i =>
      a ← upd_sta a i (fun s => s <| s_last_rx := a_jiffies a |>);
      s ← a_StaConInfo a !! i;
      if test_sta_flag s WLAN_STA_PS_STA then
        if (rx_has rx AP_RX_FLAGS_FRAME_TYPE_DATA || rx_has rx AP_RX_FLAGS_FRAME_TYPE_NULL_DATA)
           && negb (rx_has rx AP_RX_FLAGS_PM_BIT)
        then ap_sta_ps_end a i else Some a
      else if rx_has rx AP_RX_FLAGS_PM_BIT then
        a ← ap_sta_ps_start a i;
        if 0 <? s_fw_q_len s then recalc_tim_gen_beacon a i
        else Some (ap_emit a (DqStatus (s_wsid_idx s)))
      else Some a
  end.

Definition rx_h_drop (rx : ap_rx_desp) : rx_result :=
  if rx_has rx AP_RX_FLAGS_FRAME_TYPE_PS_POLL || rx_has rx AP_RX_FLAGS_FRAME_TYPE_NULL_DATA
  then RX_DROP else RX_CONTINUE.

(** [ssv6xxx_data_need_to_be_received] *)
Definition ssv6xxx_data_need_to_be_received (a : ApInfo) (rx : ap_rx_desp) : option (bool * ApInfo) :=
  res ← rx_h_check a rx;
  match res with
  | RX_DROP => Some (false, a)
  | RX_CONTINUE =>
      '(res, a) ← rx_h_uapsd_and_pspoll a rx;
      match res with
      | RX_DROP => Some (false, a)
      | RX_CONTINUE =>
          a ← rx_h_sta_process a rx;
          Some (match rx_h_drop rx with RX_DROP => false | RX_CONTINUE => true end, a)
      end
  end.

(** [_dq_status_handler]: the number of frames the firmware holds for a station *)
Definition _dq_status_handler (a : ApInfo) (wsid : nat) (len : Z) : option ApInfo :=
  a ← upd_sta a wsid (fun s => s <| s_fw_q_len := len |>);
  if 0 <? len then recalc_tim_gen_beacon a wsid else Some a.

(** ** Deauthentication and disassociation frames *)

(** [i802_sta_deauth] and [i802_sta_disassoc]: the 26 bytes of the frame replace
    the start of the management buffer. *)
Definition WLAN_REASON_CLASS2_FRAME_FROM_NONAUTH_STA : Z := 6.
Definition send_reason (a : ApInfo) (fc : Z) (addr : list Z) (reason : Z) : option ApInfo :=
  a ← mgmt_put a 0 (WPA_PUT_LE16 fc ++ [0; 0] ++ take 6 addr ++ take 6 (st_own_addr C)
                    ++ take 6 (st_own_addr C) ++ [0; 0] ++ WPA_PUT_LE16 reason);
  ap_soc_data_send a 26 0.
Definition i802_sta_deauth (a : ApInfo) (addr : list Z) (reason : Z) : option ApInfo :=
  send_reason a 0xc0 addr reason.
Definition i802_sta_disassoc (a : ApInfo) (addr : list Z) (reason : Z) : option ApInfo :=
  send_reason a 0xa0 addr reason.

(** ** Events of the firmware *)

(** The handlers of frames look the station up and note what the frame says. *)
Definition hear_sta (a : ApInfo) (sta : option nat) (f : APStaInfo -> APStaInfo) : option ApInfo :=
  match sta with None => Some a | Some i => upd_sta a i f end.
Definition sta_test (a : ApInfo) (sta : option nat) (flag : Z) : bool :=
  match sta with
  | None => false
  | Some i => match a_StaConInfo a !! i with Some s => test_sta_flag s flag | None => false end
  end.
Definition refuse_unassociated (a : ApInfo) (sta : option nat) (addr : list Z) : option ApInfo :=
  if sta_test a sta WLAN_STA_ASSOC then Some a
  else i802_sta_deauth a addr WLAN_REASON_CLASS2_FRAME_FROM_NONAUTH_STA.

Inductive ap_event :=
| SOC_EVT_NULL_DATA (sa : list Z) (pm : bool) (priority q_len : Z)
| SOC_EVT_PS_POLL (sa : list Z) (q_len : Z).

(** [AP_RxHandleEvent] *)
Definition AP_RxHandleEvent (a : ApInfo) (e : ap_event) : option ApInfo :=
  match e with
  | SOC_EVT_NULL_DATA sa pm priority q_len =>
      let sta := APStaInfo_FindStaByAddr a sa in
      a ← hear_sta a sta (fun s =>
            s <| s_fw_q_len := if 0 <? q_len then q_len else UNKNOWN_FW_QUEUE_LENGTH |>
              <| s_arp_retry_count := 0 |> <| s_last_rx := a_jiffies a |>);
      let flags := Z.lor AP_RX_FLAGS_FRAME_TYPE_NULL_DATA (if pm then AP_RX_FLAGS_PM_BIT else 0) in
      let flags := Z.lor flags (if sta_test a sta WLAN_STA_WMM then AP_RX_FLAGS_QOS_BIT else 0) in
      a ← refuse_unassociated a sta sa;
      '(_, a) ← ssv6xxx_data_need_to_be_received a (mk_rx sta flags priority); Some a
  | SOC_EVT_PS_POLL sa q_len =>
      let sta := APStaInfo_FindStaByAddr a sa in
      a ← hear_sta a sta (fun s =>
            s <| s_fw_q_len := q_len |> <| s_arp_retry_count := 0 |> <| s_last_rx := a_jiffies a |>);
      let flags := Z.lor AP_RX_FLAGS_FRAME_TYPE_PS_POLL
                     (if sta_test a sta WLAN_STA_WMM then AP_RX_FLAGS_QOS_BIT else 0) in
      a ← refuse_unassociated a sta sa;
      '(_, a) ← ssv6xxx_data_need_to_be_received a (mk_rx sta flags 0); Some a
  end.

(** ** Sending from the host *)

Inductive host_api_state := HOST_API_DEACTIVE | HOST_API_ACTIVE | HOST_API_PWR_SAVING (woken : bool).
Record host_env := mk_env { e_api : host_api_state; e_recovering : bool; e_qos_ctrl : Z }.

(** [ap_sta_info_capability]: QoS for the address, or no such station *)
Definition ap_sta_info_capability (a : ApInfo) (mac : list Z) : option bool :=
  let sta := APStaInfo_FindStaByAddr a mac in
  if is_multicast_ether_addr mac then Some false
  else match sta with None => None | Some _ => Some (sta_test a sta WLAN_STA_WMM) end.

(** [TxHdl_prepare_wifi_txreq] in access-point mode, for an 802.3 frame:
    [id] is the buffer. *)
Definition TxHdl_prepare_wifi_txreq (e : host_env) (a : ApInfo) (id : nat) (dest : list Z) (priority : Z)
  : option (bool * ApInfo) :=
  if e_recovering e then Some (false, a)
  else match ap_sta_info_capability a dest with
       | None => Some (false, a)
       | Some qos =>
           let q := if qos then Some (Z.lor (Z.land (e_qos_ctrl e) 0xfff8) priority) else None in
           proc a (mk_tx_frame id false 0 dest [] q 0 false)
       end.

(** [_ssv6xxx_wifi_send_ethernet]: a frame that is not taken is freed, unless
    the chip could not be woken up. *)
Definition host_frame (id : nat) (dest : list Z) : tx_frame := mk_tx_frame id false 0 dest [] None 0 false.
Definition ssv6xxx_wifi_send_ethernet (e : host_env) (a : ApInfo) (id : nat) (dest : list Z) (priority : Z)
  : option ApInfo :=
  let send :=
    '(ok, a) ← TxHdl_prepare_wifi_txreq e a id dest priority;
    Some (if (ok : bool) then a else ap_emit a (FrameFree (host_frame id dest))) in
  match e_api e with
  | HOST_API_DEACTIVE => Some (ap_emit a (FrameFree (host_frame id dest)))
  | HOST_API_PWR_SAVING false => Some a
  | _ => send
  end.

(** ** Data frames from stations *)

(** A received frame: the descriptor fields and addresses that are read.
    [p_copy] is the copy that [os_frame_dup] makes, if it can. *)
Record rx_packet := mk_packet {
  p_id : nat; p_copy : option nat; p_null : bool; p_psm : bool; p_qos : option Z; p_rcpi : Z;
  p_dest : list Z; p_src : list Z
}.

Inductive ssv6xxx_data_result := SSV6XXX_DATA_CONT | SSV6XXX_DATA_ACPT.

(** [ap_mode_fine_tune_rcpi] *)
Definition ap_mode_fine_tune_rcpi (s : APStaInfo) (rcpi : Z) : APStaInfo :=
  if s_prev_rcpi s =? 0 then s <| s_prev_rcpi := u32 (Z.shiftl rcpi 6) |> <| s_rcpi := u8 rcpi |>
  else
    let p := s_prev_rcpi s in
    let p := Z.shiftr (u32 (Z.shiftl rcpi 6 + (Z.shiftl p 5 - p))) 5 in
    s <| s_prev_rcpi := p |> <| s_rcpi := u8 (Z.shiftr p 6) |>.

(** [AP_RxHandleData]: the result says whether the frame goes on to the host. *)
Definition AP_RxHandleData (e : host_env) (a : ApInfo) (p : rx_packet)
  : option (ssv6xxx_data_result * ApInfo) :=
  let flags := Z.lor (if p_null p then AP_RX_FLAGS_FRAME_TYPE_NULL_DATA else AP_RX_FLAGS_FRAME_TYPE_DATA)
                     (if p_psm p then AP_RX_FLAGS_PM_BIT else 0) in
  let sta := APStaInfo_FindStaByAddr a (p_src p) in
  a ← hear_sta a sta (fun s => s <| s_arp_retry_count := 0 |>);
  let flags := Z.lor flags (if sta_test a sta WLAN_STA_WMM then AP_RX_FLAGS_QOS_BIT else 0) in
  let UP := match p_qos p with Some q => Z.land q IEEE80211_QOS_CTL_TID_MASK | None => 0 end in
  a ← hear_sta a sta (fun s => ap_mode_fine_tune_rcpi s (p_rcpi p));
  a ← refuse_unassociated a sta (p_src p);
  '(keep, a) ← ssv6xxx_data_need_to_be_received a (mk_rx sta flags UP);
  if negb (keep : bool) then
    Some (SSV6XXX_DATA_ACPT, ap_emit a (FrameFree (host_frame (p_id p) (p_dest p))))
  else if is_multicast_ether_addr (p_dest p) then
    a ← match p_copy p with
        | Some id => ssv6xxx_wifi_send_ethernet e a id (p_dest p) UP
        | None => Some a
        end;
    Some (SSV6XXX_DATA_CONT, a)
  else match APStaInfo_FindStaByAddr a (p_dest p) with
       | Some _ =>
           a ← ssv6xxx_wifi_send_ethernet e a (p_id p) (p_dest p) UP; Some (SSV6XXX_DATA_ACPT, a)
       | None => Some (SSV6XXX_DATA_CONT, a)
       end.

(** ** Expiry of buffered frames *)

(** [sta_info_buffer_expired] for a frame buffered at [jiffies] *)
Definition sta_info_buffer_expired (a : ApInfo) (s : APStaInfo) (jiffies : Z) : bool :=
  let timeout := Z.quot (s_listen_interval s * g_bcn_interval (st_cfg C) * 32) 15625 * 1000 in
  let timeout := if timeout <? AP_STA_TX_BUFFER_EXPIRE then AP_STA_TX_BUFFER_EXPIRE else timeout in
  time_after (a_jiffies a) (u32 (jiffies + timeout)).

Fixpoint expire (n : nat) (a : ApInfo) (i ac : nat) : option ApInfo :=
  s ← a_StaConInfo a !! i;
  match ps_queue s ac, n with
  | [], _ => Some a
  | k :: _, O => None
  | k :: _, S n =>
      d ← ap_desp a k;
      if sta_info_buffer_expired a s (d_jiffies d) then
        '(_, a) ← ps_deq a i ac;
        a ← ap_release_tx_desp_and_frame (add_buffered a (-1)) k;
        expire n a i ac
      else Some a
  end.

Definition sta_info_cleanup_expire_buffered_ac (a : ApInfo) (i ac : nat) : option (bool * ApInfo) :=
  s ← a_StaConInfo a !! i;
  a ← expire (S (length (ps_queue s ac))) a i ac;
  a ← recalc_tim_gen_beacon a i;
  s ← a_StaConInfo a !! i;
  Some ((0 <? length (ps_queue s ac))%nat, a).

Fixpoint cleanup_acs (acs : list nat) (a : ApInfo) (i : nat) : option (bool * ApInfo) :=
  match acs with
  | [] => Some (false, a)
  | ac :: r =>
      '(b, a) ← sta_info_cleanup_expire_buffered_ac a i ac;
      '(b2, a) ← cleanup_acs r a i;
      Some (b || b2, a)
  end.
Definition sta_info_cleanup_expire_buffered : ApInfo -> nat -> option (bool * ApInfo) :=
  cleanup_acs (seq 0 IEEE80211_NUM_ACS).

Fixpoint cleanup_stations (l : list nat) (a : ApInfo) : option (bool * ApInfo) :=
  match l with
  | [] => Some (false, a)
  | i :: r =>
      s ← a_StaConInfo a !! i;
      '(b, a) ← (if test_sta_flag s WLAN_STA_VALID then sta_info_cleanup_expire_buffered a i
                 else Some (false, a));
      '(b2, a) ← cleanup_stations r a;
      Some (b || b2, a)
  end.

(** [sta_info_cleanup] *)
Definition sta_info_cleanup (a : ApInfo) : option ApInfo :=
  '(timer_needed, a) ← cleanup_stations (seq 0 (st_gMaxAID C)) a;
  let a := a <| a_sta_pkt_cln_timer := timer_needed |> in
  Some (if (timer_needed : bool) then start_timer a TCleanup AP_STA_INFO_CLEANUP_INTERVAL else a).

End Power.
