(* ===== verification/ApSta.v ===== *)
(** * ApSta: the table of stations

    The operations of [ap/ap_sta_info.c] on the entries of [StaConInfo], with
    the allocation of association identifiers of [ap/ieee802_11_mgmt.c] and the
    removal of stations of [ap/ap_mlme.c]: an entry is taken, authorized, armed
    with a timer, and given back with everything that was counted for it.

    Commands to the firmware and events to the host are effects; of a station
    command the address, the index, the WMM bit and the rates are kept.  The
    memory that [wpa_free_sta_sm] gives back is not modelled. *)

From stdpp Require Import base list option.
From Stdlib Require Import ZArith Lia.
From S2P Require Import Prelude Words Wire WpaIe WpaAuth Reorder ApInfo ApElem ApPower.

Definition WLAN_REASON_PREV_AUTH_NOT_VALID : Z := 2.
Definition WLAN_REASON_DISASSOC_DUE_TO_INACTIVITY : Z := 4.

(** ** What the firmware is told of a station *)

(** The bit of [non_ht_supp_rates] for one rate *)
Definition rate_bit (r : Z) : Z :=
  match Z.land r 0x7f with
  | 2 => BIT 0 | 4 => BIT 1 | 11 => BIT 2 | 22 => BIT 3 | 12 => BIT 4 | 18 => BIT 5
  | 24 => BIT 6 | 36 => BIT 7 | 48 => BIT 8 | 72 => BIT 9 | 96 => BIT 10 | 108 => BIT 11
  | _ => 0
  end.

(** The first bit that is not set, from [j] on *)
Fixpoint first_zero (n : nat) (w : Z) (j : nat) : option nat :=
  match n with
  | O => None
  | S n => if has w (BIT (Z.of_nat j)) then first_zero n w (S j) else Some j
  end.

(** The first entry that is not in use *)
Fixpoint find_free (i : nat) (l : list APStaInfo) : option nat :=
  match l with
  | [] => None
  | s :: r => if test_sta_flag s WLAN_STA_VALID then find_free (S i) r else Some i
  end.

(** The first of the entries with the most polls unanswered, among those over
    the limit *)
Fixpoint find_idle (i : nat) (del : option nat) (max : Z) (l : list APStaInfo) : option nat :=
  match l with
  | [] => del
  | s :: r =>
      if (max <? s_arp_retry_count s) && (STA_TIMEOUT_RETRY_COUNT <? s_arp_retry_count s)
      then find_idle (S i) (Some i) (s_arp_retry_count s) r
      else find_idle (S i) del max r
  end.

Section Sta.
Context (C : ap_static).

(** [ap_sta_info_collect]: the address, the index and the rates, when the
    station has an index *)
Definition ap_sta_info_collect (s : APStaInfo) : option (list Z * Z * Z) :=
  if s_wsid_idx s <? Z.of_nat (st_gMaxAID C)
  then Some (s_addr s, s_wsid_idx s, fold_left (fun acc r => Z.lor acc (rate_bit r)) (s_supported_rates s) 0)
  else None.

(** [ap_soc_cmd_sta_oper] *)
Definition ap_soc_cmd_sta_oper (a : ApInfo) (add : bool) (s : APStaInfo) : ApInfo :=
  match ap_sta_info_collect s with
  | Some (addr, wsid, rates) => ap_emit a (SetSta add addr wsid (test_sta_flag s WLAN_STA_WMM) rates)
  | None => a
  end.

(** [ap_sta_set_authorized] *)
Definition ap_sta_set_authorized (a : ApInfo) (i : nat) (authorized : bool) : option ApInfo :=
  s ← a_StaConInfo a !! i;
  if Bool.eqb authorized (test_sta_flag s WLAN_STA_AUTHORIZED) then Some a
  else
    let a := if authorized
      then set_sta (a <| a_num_sta_authorized := u8 (a_num_sta_authorized a + 1) |>) i
             (set_sta_flag s WLAN_STA_AUTHORIZED)
      else set_sta (a <| a_num_sta_authorized := u8 (a_num_sta_authorized a - 1) |>) i
             (clear_sta_flag s WLAN_STA_AUTHORIZED) in
    Some (match ap_sta_info_collect s with
          | Some (addr, _, _) => ap_emit a (StaStatus authorized addr)
          | None => a
          end).

(** ** Giving an entry back *)

(** The power-save part of [APStaInfo_DrvRemove] *)
Definition leave_power_save (a : ApInfo) (i : nat) : option ApInfo :=
  s ← a_StaConInfo a !! i;
  if test_sta_flag s WLAN_STA_PS_STA then
    let a := set_sta a i (clear_sta_flag s WLAN_STA_PS_STA) in
    a ← purge_sta_ps_buffers (a <| a_num_sta_ps := u8 (a_num_sta_ps a - 1) |>) i;
    a ← upd_sta a i (fun s => s <| s_fw_q_len := UNKNOWN_FW_QUEUE_LENGTH |>);
    recalc_tim_gen_beacon C a i
  else Some a.

(** [APStaInfo_DrvRemove] *)
Definition APStaInfo_DrvRemove (a : ApInfo) (i : nat) : option ApInfo :=
  a ← leave_power_save a i;
  s ← a_StaConInfo a !! i;
  upd_sta (ap_soc_cmd_sta_oper a false s) i (fun s =>
    s <| s_wsid_idx := Z.of_nat (st_gMaxAID C) |> <| s_addStaFlag := false |> <| s_reassoc := false |>
      <| s_assocRsp := false |>).

(** [sta_aid] has one word: a larger AID is cleared outside the array. *)
Definition release_aid (a : ApInfo) (aid : Z) : option ApInfo :=
  if 0 <? aid then
    if (aid - 1) / 32 =? 0
    then Some (a <| a_sta_aid := Z.land (a_sta_aid a) (Z.lnot (BIT ((aid - 1) mod 32))) |>)
    else None
  else Some a.

Definition forget_station (a : ApInfo) : ApInfo :=
  let a := if (0 <? a_num_sta a) && (a_num_sta a <=? Z.of_nat (st_gMaxAID C))
           then a <| a_num_sta := u8 (a_num_sta a - 1) |> else a in
  if a_num_sta a =? 0 then stop_cleanup_timer a else a.

(** The counters of [APStaInfo_free]: the state and whether the beacon has to be
    written anew *)
Definition forget_non_erp (a : ApInfo) (s : APStaInfo) : ApInfo * bool :=
  if s_nonerp_set s then
    let a := a <| a_num_sta_non_erp := u8 (a_num_sta_non_erp a - 1) |> in
    if a_num_sta_non_erp a =? 0
    then (if a_olbc a then a else ap_emit a (SetErpProtect false), true)
    else (a, false)
  else (a, false).
Definition forget_slot_time (a : ApInfo) (s : APStaInfo) : ApInfo * bool :=
  if s_no_short_slot_time_set s then
    let a := a <| a_num_sta_no_short_slot_time := u8 (a_num_sta_no_short_slot_time a - 1) |> in
    if (st_eCurrentApMode C =? AP_MODE_IEEE80211G) && (a_num_sta_no_short_slot_time a =? 0)
    then (ap_emit a (SetShortSlot true), true)
    else (a, false)
  else (a, false).
Definition forget_preamble (a : ApInfo) (s : APStaInfo) : ApInfo * bool :=
  if s_no_short_preamble_set s then
    let a := a <| a_num_sta_no_short_preamble := u8 (a_num_sta_no_short_preamble a - 1) |> in
    (a, (st_eCurrentApMode C =? AP_MODE_IEEE80211G) && (a_num_sta_no_short_preamble a =? 0))
  else (a, false).
Definition forget_ht (a : ApInfo) (s : APStaInfo) : ApInfo :=
  let a := if s_no_ht_gf_set s then a <| a_num_sta_ht_no_gf := s32 (a_num_sta_ht_no_gf a - 1) |> else a in
  let a := if s_no_ht_set s then a <| a_num_sta_no_ht := s32 (a_num_sta_no_ht a - 1) |> else a in
  if s_ht_20mhz_set s then a <| a_num_sta_ht_20mhz := s32 (a_num_sta_ht_20mhz a - 1) |> else a.

(** [hostapd_ht_operation_update] and the command that follows a change; one
    byte of the mode is sent. *)
Definition ht_update (a : ApInfo) : ApInfo * bool :=
  let '(a, changes) := hostapd_ht_operation_update C a in
  if 0 <? changes then (ap_emit a (SetHtProtect (u8 (a_ht_op_mode a))), true) else (a, false).

Definition forget_counts (a : ApInfo) (s : APStaInfo) : ApInfo :=
  let a := forget_station a in
  let '(a, b1) := forget_non_erp a s in
  let '(a, b2) := forget_slot_time a s in
  let '(a, b3) := forget_preamble a s in
  let '(a, b4) := ht_update (forget_ht a s) in
  if b1 || b2 || b3 || b4 then ieee802_11_set_beacon C a true else a.

(** [APStaInfo_free] *)
Definition APStaInfo_free (a : ApInfo) (i : nat) : option ApInfo :=
  s ← a_StaConInfo a !! i;
  if negb (test_sta_flag s WLAN_STA_VALID) then Some a
  else
    let a := set_sta a i (clear_sta_flag s WLAN_STA_VALID) in
    let a := if g_ampdu_rx_enable (st_cfg C) then ap_emit a (DelAmpduRx (u8 (s_wsid_idx s))) else a in
    a ← ap_sta_set_authorized a i false;
    a ← APStaInfo_DrvRemove a i;
    s ← a_StaConInfo a !! i;
    a ← release_aid a (s_aid s);
    let a := cancel_timer (forget_counts a s) (THandle i) in
    let a := if started (s_wpa_sm s) then cancel_timer a (TEapol i) else a in
    Some (set_sta a i APStaInfo_StaReset).

(** [change_sta_disassoc_to_deauth]: the station is not authorized and not
    associated any more; the timer may be started anew. *)
Definition disassociate (a : ApInfo) (i : nat) : option ApInfo :=
  a ← ap_sta_set_authorized a i false;
  a ← upd_sta a i (fun s => clear_sta_flag s WLAN_STA_ASSOC);
  a ← APStaInfo_DrvRemove a i;
  Some (cancel_timer a (TEapol i)).
Definition change_sta_disassoc_to_deauth (a : ApInfo) (i : nat) (timer_creat : bool) : option ApInfo :=
  a ← disassociate a i;
  s ← a_StaConInfo a !! i;
  if timer_creat && (bool_decide (s_timeout_next s = STA_NULLFUNC) || bool_decide (s_timeout_next s = STA_DISASSOC))
  then Some (start_timer (cancel_timer (set_sta a i (s <| s_timeout_next := STA_DEAUTH |>)) (THandle i))
               (THandle i) AP_DEAUTH_DELAY)
  else Some a.

(** The station is deauthenticated and its entry given back, as in
    [APStaInfo_add] and [send_deauth_and_remove_*] *)
Definition deauth_and_remove (a : ApInfo) (i : nat) : option ApInfo :=
  a ← change_sta_disassoc_to_deauth a i false;
  a ← upd_sta a i (fun s => s <| s_timeout_next := STA_DEAUTH |>);
  let a := cancel_timer a (THandle i) in
  s ← a_StaConInfo a !! i;
  a ← i802_sta_deauth C a (s_addr s) WLAN_REASON_PREV_AUTH_NOT_VALID;
  APStaInfo_free a i.

(** [APStaInfo_Release], [send_deauth_and_remove_all], [send_deauth_and_remove_sta] *)
Definition APStaInfo_Release (a : ApInfo) : option ApInfo :=
  for_stations APStaInfo_free (seq 0 (st_gMaxAID C `max` 1)) a.
Definition send_deauth_and_remove_all (a : ApInfo) : option ApInfo :=
  for_stations (fun a i => s ← a_StaConInfo a !! i;
                 if test_sta_flag s WLAN_STA_VALID then deauth_and_remove a i else Some a)
    (seq 0 (st_gMaxAID C)) a.
Definition send_deauth_and_remove_sta (a : ApInfo) (hwaddr : list Z) : option (bool * ApInfo) :=
  match APStaInfo_FindStaByAddr a hwaddr with
  | Some i => a ← deauth_and_remove a i; Some (true, a)
  | None => Some (false, a)
  end.

(** ** The timer of a station *)

(** The end of [ap_handle_timer]: the frame for the next state and the change of
    state *)
Definition handle_timer_next (a : ApInfo) (i : nat) : option ApInfo :=
  s ← a_StaConInfo a !! i;
  a ← match s_timeout_next s with
      | STA_REMOVE => Some a
      | STA_DEAUTH => i802_sta_deauth C a (s_addr s) WLAN_REASON_PREV_AUTH_NOT_VALID
      | _ => i802_sta_disassoc C a (s_addr s) WLAN_REASON_DISASSOC_DUE_TO_INACTIVITY
      end;
  match s_timeout_next s with
  | STA_NULLFUNC =>
      a ← upd_sta a i (fun s => s <| s_timeout_next := STA_DISASSOC |>);
      Some (start_timer a (THandle i) AP_DISASSOC_DELAY)
  | STA_DISASSOC =>
      a ← change_sta_disassoc_to_deauth a i false;
      a ← upd_sta a i (fun s => s <| s_timeout_next := STA_DEAUTH |>);
      Some (start_timer a (THandle i) AP_DEAUTH_DELAY)
  | STA_DEAUTH | STA_REMOVE => APStaInfo_free a i
  end.

(** The tests of [ap_handle_timer] before a frame is sent: the state and the
    time after which the timer is started again, 0 when it is not *)
Definition handle_timer_check (a : ApInfo) (s : APStaInfo) : timeout_next_e * Z :=
  let assoc := test_sta_flag s WLAN_STA_ASSOC in
  let inactive_sec := s32 (st_tick2ms C (u32 (a_jiffies a - s_last_rx s))) in
  let '(next, time) :=
    if assoc && (bool_decide (s_timeout_next s = STA_NULLFUNC) || bool_decide (s_timeout_next s = STA_DISASSOC))
       && (inactive_sec <? AP_MAX_INACTIVITY C)
    then (STA_NULLFUNC, u32 (AP_MAX_INACTIVITY C - inactive_sec)) else (s_timeout_next s, 0) in
  if assoc && bool_decide (next = STA_DISASSOC) && negb (test_sta_flag s WLAN_STA_PENDING_POLL)
  then (STA_NULLFUNC, AP_MAX_INACTIVITY C) else (next, time).

(** [ap_handle_timer]; [available] is [IS_HOST_API_AVAILABLE()]. *)
Definition ap_handle_timer (available : bool) (a : ApInfo) (i : nat) : option ApInfo :=
  s ← a_StaConInfo a !! i;
  if negb (test_sta_flag s WLAN_STA_VALID) then Some a
  else if bool_decide (s_timeout_next s = STA_REMOVE) then APStaInfo_free a i
  else if negb available then Some (start_timer a (THandle i) 1000)
  else
    let '(next, time) := handle_timer_check a s in
    let s := s <| s_timeout_next := next |> in
    let a := set_sta a i s in
    if negb (time =? 0) then Some (start_timer a (THandle i) time)
    else if bool_decide (next = STA_NULLFUNC) && test_sta_flag s WLAN_STA_ASSOC then
      let s := set_sta_flag s WLAN_STA_PENDING_POLL in
      if s_arp_retry_count s <=? STA_TIMEOUT_RETRY_COUNT then
        let a := set_sta a i (s <| s_arp_retry_count := u8 (s_arp_retry_count s + 1) |>) in
        Some (start_timer (ap_emit a (PollStation (s_addr s))) (THandle i) STA_TIMEOUT_RETRY_TIMER)
      else Some (start_timer (set_sta a i s) (THandle i) STA_TIMEOUT_RETRY_TIMER)
    else handle_timer_next a i.

(** The timer task removes the timer and calls its handler. *)
Fixpoint remove_timer (t : ap_timer) (l : list (ap_timer * Z)) : list (ap_timer * Z) :=
  match l with
  | [] => []
  | p :: r => if bool_decide (p.1 = t) then r else p :: remove_timer t r
  end.
Definition fire_handle_timer (available : bool) (a : ApInfo) (i : nat) : option ApInfo :=
  ap_handle_timer available (a <| a_timers := remove_timer (THandle i) (a_timers a) |>) i.

(** ** Taking an entry *)

(** [APStaInfo_GetNewSta]; the index comes from the hardware table. *)
Definition APStaInfo_GetNewSta (a : ApInfo) : option (nat * ApInfo) :=
  i ← find_free 0 (a_StaConInfo a);
  s ← a_StaConInfo a !! i;
  Some (i, set_sta (a <| a_n_wsid := S (a_n_wsid a) |>) i
             ((set_sta_flag s WLAN_STA_VALID) <| s_wsid_idx := st_ava_wsid C (a_n_wsid a) |>)).

(** Entry 0 is given back when its station does not answer any more. *)
Definition make_room_first (a : ApInfo) : option ApInfo :=
  s ← a_StaConInfo a !! 0%nat;
  if STA_TIMEOUT_RETRY_COUNT <? s_arp_retry_count s then deauth_and_remove a 0 else Some a.

(** In a full table the station that is silent for longest makes room. *)
Definition make_room_full (a : ApInfo) : option ApInfo :=
  if Z.of_nat (st_gMaxAID C) <=? a_num_sta a then
    match find_idle 0 None 0 (a_StaConInfo a) with
    | Some i => deauth_and_remove a i
    | None => Some a
    end
  else Some a.

(** [APStaInfo_add]: [None] as entry is a return of [NULL]. *)
Definition enter_station (a : ApInfo) (addr : list Z) : option (option nat * ApInfo) :=
  match APStaInfo_GetNewSta a with
  | None => Some (None, a)
  | Some (i, a) =>
      let a := start_timer a (THandle i) (AP_MAX_INACTIVITY C) in
      a ← upd_sta a i (fun s => s <| s_addr := addr |>);
      Some (Some i, a <| a_num_sta := u8 (a_num_sta a + 1) |>)
  end.
Definition APStaInfo_add (a : ApInfo) (addr : list Z) : option (option nat * ApInfo) :=
  match APStaInfo_FindStaByAddr a addr with
  | Some i => Some (Some i, a)
  | None =>
      a ← make_room_first a;
      a ← make_room_full a;
      enter_station a addr
  end.

(** [hostapd_get_aid]: whether the station has an AID.  The bitmap has one word,
    with more than 32 stations the loop reads past it. *)
Definition hostapd_get_aid (a : ApInfo) (i : nat) : option (bool * ApInfo) :=
  s ← a_StaConInfo a !! i;
  if 0 <? s_aid s then Some (true, a)
  else
    match first_zero 32 (a_sta_aid a) 0 with
    | Some j =>
        Some (true, set_sta (a <| a_sta_aid := Z.lor (a_sta_aid a) (BIT (Z.of_nat j)) |>) i
                      (s <| s_aid := Z.of_nat j + 1 |>))
    | None => if (st_gMaxAID C <=? 32)%nat then Some (false, a) else None
    end.
End Sta.
