(* ===== verification/ApPowerInv.v ===== *)
(** * ApPowerInv: the queues and descriptors of the access point agree

    The invariant of the power-save queues of [ApPower]: every transmit
    descriptor in use is in exactly one queue, the counter of buffered frames is
    the number of queued descriptors and stays within the pool, only sleeping
    stations have queued frames.  Every operation of the data path keeps it,
    never faults, and accounts for every frame it was given. *)

From stdpp Require Import base list option.
From Stdlib Require Import ZArith Lia ZifyNat.
From S2P Require Import Prelude Words Wire WpaIe WpaAuth Reorder ApInfo ApElem ApPower.

(** ** The invariant *)

Definition sta_queued (s : APStaInfo) : list nat := concat (s_ps_tx_buf s).
Definition queued (a : ApInfo) : list nat := concat (sta_queued <$> a_StaConInfo a).

(** What the power-save operations leave alone: of a station everything but its
    queues, its firmware queue length, the service period flag and what is noted
    when it is heard; of the access point everything but the map, the
    descriptors and the cleanup timer. *)
Definition sta_core (s : APStaInfo) : APStaInfo :=
  mk_APStaInfo (s_addr s) (s_aid s) (Z.land (s_flags s) (Z.lnot WLAN_STA_SP)) (s_capability s) (s_listen_interval s)
    (s_supported_rates s) (s_nonerp_set s) (s_no_short_slot_time_set s) (s_no_short_preamble_set s)
    (s_no_ht_gf_set s) (s_no_ht_set s) (s_ht_20mhz_set s) (s_auth_alg s) (s_previous_ap s)
    (s_timeout_next s) (s_challenge s) 0 [] (s_uapsd_queues s) (s_max_sp s)
    (if test_sta_flag s WLAN_STA_VALID then 0 else s_arp_retry_count s) 0 0 0 (s_wsid_idx s) (s_wpa_sm s)
    (s_reassoc s) (s_addStaFlag s) (s_assocRsp s) (s_ht_capabilities s).
Definition ap_core (a : ApInfo) : ApInfo :=
  mk_ApInfo [] (a_sta_aid a) [] (a_num_sta a) (a_num_sta_ps a) (a_num_sta_authorized a)
    (a_num_sta_non_erp a) (a_num_sta_no_short_preamble a) (a_num_sta_no_short_slot_time a)
    (a_num_sta_ht_no_gf a) (a_num_sta_no_ht a) (a_num_sta_ht_20mhz a) (a_olbc a) (a_olbc_ht a)
    (a_ht_op_mode a) (a_bhead a) (a_btail a) 0 false [] (sta_core <$> a_StaConInfo a) (a_Counter a)
    (a_handshake_failures a) (a_mic_failures a) (a_nalloc a) (a_probe_req_cnt a) (a_B_tick a) (a_jiffies a)
    (filter (fun p => p.1 <> TCleanup) (a_timers a)) O O (a_n_wsid a) [].
Definition quiet (a a' : ApInfo) : Prop := ap_core a' = ap_core a.

#[export] Instance quiet_equiv : Equivalence quiet.
Proof. split; unfold quiet; [by intros a|by intros a b ->|by intros a b c -> ->]. Qed.

(** The frames that the access point owns or has disposed of *)
Definition frame_id (a : ApInfo) (k : nat) : option nat := (fun d => tf_id (d_frame d)) <$> ap_desp a k.
Definition out_id (e : ap_effect) : option nat :=
  match e with TxEnqueue f | FrameFree f => Some (tf_id f) | _ => None end.
Definition balance (a : ApInfo) (held : list nat) : list nat :=
  omap (frame_id a) (queued a ++ held) ++ omap out_id (a_out a).

(** The queues and the descriptors agree: every descriptor in use is in one
    queue or is [held] by the function that runs; [x] frames were taken from the
    queues and not yet subtracted from the count. *)
Record pool_inv (C : ap_static) (n : nat) (a : ApInfo) (held : list nat) (x : Z) : Prop := {
  pi_sta : length (a_StaConInfo a) = st_gMaxAID C;
  pi_acs : Forall (fun s => length (s_ps_tx_buf s) = 4%nat) (a_StaConInfo a);
  pi_pool : length (a_pApTxData a) = AP_TOTAL_MAX_TX_DSP C;
  pi_nodup : NoDup (queued a ++ held);
  pi_used : forall k, is_Some (ap_desp a k) <-> k ∈ queued a ++ held;
  pi_bound : (length (queued a ++ held) <= n)%nat;
  pi_total : a_total_ps_buffered a = Z.of_nat (length (queued a)) + x;
  pi_x : 0 <= x /\ Z.of_nat (length (queued a)) + x <= Z.of_nat n;
  pi_sleep : Forall (fun s => sta_queued s <> [] ->
               test_sta_flag s WLAN_STA_VALID = true /\ test_sta_flag s WLAN_STA_PS_STA = true) (a_StaConInfo a);
  pi_tim : length (a_tim a) = gMaxTimLen C;
  pi_aid : Forall (fun s => 0 <= s_aid s <= Z.of_nat (st_gMaxAID C)) (a_StaConInfo a)
}.

(** ** Lists *)

Lemma concat_insert {A} (l : list (list A)) i q q' : l !! i = Some q ->
  exists rest, concat l ≡ₚ q ++ rest /\ concat (<[i := q']> l) ≡ₚ q' ++ rest.
Proof.
  intros Hi. exists (concat (take i l) ++ concat (drop (S i) l)).
  assert (l = take i l ++ q :: drop (S i) l) as Hl by (by rewrite take_drop_middle).
  rewrite insert_take_drop by (by eapply lookup_lt_Some). rewrite Hl at 1.
  rewrite !concat_app. cbn [concat]. split; solve_Permutation.
Qed.

Lemma sta_queue_insert s ac q : length (s_ps_tx_buf s) = 4%nat -> (ac < 4)%nat ->
  exists rest, sta_queued s ≡ₚ ps_queue s ac ++ rest /\ sta_queued (set_queue s ac q) ≡ₚ q ++ rest.
Proof.
  intros Hl Hac. destruct (lookup_lt_is_Some_2 (s_ps_tx_buf s) ac ltac:(lia)) as [q0 Hq].
  unfold ps_queue. rewrite Hq. by apply concat_insert.
Qed.

Lemma queued_insert a i s ac q : a_StaConInfo a !! i = Some s -> length (s_ps_tx_buf s) = 4%nat -> (ac < 4)%nat ->
  exists rest, queued a ≡ₚ ps_queue s ac ++ rest /\ queued (set_sta a i (set_queue s ac q)) ≡ₚ q ++ rest.
Proof.
  intros Hi Hl Hac. destruct (sta_queue_insert s ac q Hl Hac) as (r1 & H1 & H1').
  destruct (concat_insert (sta_queued <$> a_StaConInfo a) i (sta_queued s) (sta_queued (set_queue s ac q)))
    as (r2 & H2 & H2').
  { by rewrite list_lookup_fmap, Hi. }
  exists (r1 ++ r2). unfold queued. split; [by rewrite H2, H1, <- app_assoc|].
  change (a_StaConInfo (set_sta a i (set_queue s ac q))) with (<[i := set_queue s ac q]> (a_StaConInfo a)).
  rewrite list_fmap_insert.
  by rewrite H2', H1', <- app_assoc.
Qed.

Lemma fmap_insert_same {A B} (f : A -> B) (l : list A) i x y : l !! i = Some x -> f y = f x ->
  f <$> <[i := y]> l = f <$> l.
Proof.
  intros Hi Hf. rewrite list_fmap_insert, Hf.
  apply list_insert_id. by rewrite list_lookup_fmap, Hi.
Qed.

Lemma quiet_sta a i s s' : a_StaConInfo a !! i = Some s -> sta_core s' = sta_core s -> quiet a (set_sta a i s').
Proof.
  intros Hi Hs. unfold quiet, ap_core.
  change (a_StaConInfo (set_sta a i s')) with (<[i := s']> (a_StaConInfo a)).
  by rewrite (fmap_insert_same sta_core _ i s s').
Qed.

(** The frames of a response, taken from the queues [b] of a station: at most [m],
    in the order of the access categories, and whether a category was left with
    frames. *)
Fixpoint pick (m : nat) (ignored : Z) (acs : list nat) (b : list (list nat)) : list nat * bool * list (list nat) :=
  match acs with
  | [] => ([], false, b)
  | ac :: r =>
      if has ignored (BIT (Z.of_nat ac)) then pick m ignored r b
      else
        let q := default [] (b !! ac) in
        let b' := <[ac := drop m q]> b in
        match drop m q with
        | _ :: _ => (take m q, true, b')
        | [] => let '(l, more, b'') := pick (m - length q) ignored r b' in (take m q ++ l, more, b'')
        end
  end.
Definition with_queues (s : APStaInfo) (b : list (list nat)) : APStaInfo := s <| s_ps_tx_buf := b |>.

Definition sleeping (s : APStaInfo) : bool := test_sta_flag s WLAN_STA_PS_STA.

(** What the data path leaves alone: also whether stations sleep may change. *)
Definition no_ps (s : APStaInfo) : APStaInfo := s <| s_flags := Z.land (s_flags s) (Z.lnot WLAN_STA_PS_STA) |>.
Definition ap_base (a : ApInfo) : ApInfo :=
  (ap_core a) <| a_num_sta_ps := 0 |> <| a_StaConInfo := no_ps <$> (sta_core <$> a_StaConInfo a) |>.
Definition calm (a a' : ApInfo) : Prop := ap_base a' = ap_base a.

#[export] Instance calm_equiv : Equivalence calm.
Proof. split; unfold calm; [by intros a|by intros a b ->|by intros a b c -> ->]. Qed.

Lemma quiet_calm a a' : quiet a a' -> calm a a'.
Proof.
  intros H. unfold calm. change (ap_base ?a) with
    ((ap_core a) <| a_num_sta_ps := 0 |> <| a_StaConInfo := no_ps <$> a_StaConInfo (ap_core a) |>). by rewrite H.
Qed.

Section Inv.
Context (C : ap_static).
Local Notation pool_inv := (pool_inv C).

Lemma pool_inv_same n a a' held x :
  a_StaConInfo a' = a_StaConInfo a -> a_pApTxData a' = a_pApTxData a ->
  a_total_ps_buffered a' = a_total_ps_buffered a -> length (a_tim a') = length (a_tim a) ->
  pool_inv n a held x -> pool_inv n a' held x.
Proof.
  intros Hs Hp Ht Hl [H1 H2 H3 H4 H5 H6 H7 H8 H9 H10 H11].
  assert (queued a' = queued a) as Hq by (unfold queued; by rewrite Hs).
  constructor; rewrite ?Hs, ?Hq, ?Ht, ?Hl; try done.
  - by rewrite Hp.
  - intros k. unfold ap_desp. rewrite Hp. apply H5.
Qed.

Lemma pool_inv_perm n a held held' x : held ≡ₚ held' -> pool_inv n a held x -> pool_inv n a held' x.
Proof.
  intros Hp [H1 H2 H3 H4 H5 H6 H7 H8 H9 H10 H11]. constructor; try done.
  - by rewrite <- Hp.
  - intros k. by rewrite <- Hp.
  - by rewrite <- Hp.
Qed.

(** A change of a station that keeps its queues, whether it sleeps, and its AID *)
Definition sta_same (s s' : APStaInfo) : Prop :=
  s_ps_tx_buf s' = s_ps_tx_buf s /\ s_aid s' = s_aid s /\
  (sta_queued s <> [] -> test_sta_flag s WLAN_STA_VALID = true -> test_sta_flag s WLAN_STA_PS_STA = true ->
   test_sta_flag s' WLAN_STA_VALID = true /\ test_sta_flag s' WLAN_STA_PS_STA = true).

Lemma queued_same a i s s' : a_StaConInfo a !! i = Some s -> s_ps_tx_buf s' = s_ps_tx_buf s ->
  queued (set_sta a i s') = queued a.
Proof.
  intros Hi Hs. unfold queued. change (a_StaConInfo (set_sta a i s')) with (<[i := s']> (a_StaConInfo a)).
  rewrite (fmap_insert_same sta_queued _ i s s'); [done|done|]. unfold sta_queued. by rewrite Hs.
Qed.

Lemma pool_inv_entry n a i s s' held x : a_StaConInfo a !! i = Some s -> s_ps_tx_buf s' = s_ps_tx_buf s ->
  0 <= s_aid s' <= Z.of_nat (st_gMaxAID C) ->
  (sta_queued s <> [] -> test_sta_flag s WLAN_STA_VALID = true -> test_sta_flag s WLAN_STA_PS_STA = true ->
   test_sta_flag s' WLAN_STA_VALID = true /\ test_sta_flag s' WLAN_STA_PS_STA = true) ->
  pool_inv n a held x -> pool_inv n (set_sta a i s') held x.
Proof.
  intros Hi Hb Ha Hf [H1 H2 H3 H4 H5 H6 H7 H8 H9 H10 H11].
  pose proof (queued_same a i s s' Hi Hb) as Hq.
  assert (forall P : APStaInfo -> Prop, Forall P (a_StaConInfo a) -> (P s -> P s') ->
    Forall P (a_StaConInfo (set_sta a i s'))) as Hall.
  { intros P HP Hs. apply Forall_insert; [done|]. apply Hs. by eapply (Forall_lookup_1 P). }
  constructor; rewrite ?Hq; try done.
  - change (a_StaConInfo (set_sta a i s')) with (<[i := s']> (a_StaConInfo a)). by rewrite length_insert.
  - apply Hall; [done|]. by rewrite Hb.
  - apply Hall; [done|]. unfold sta_queued. rewrite Hb. intros Hs Hne. apply Hf; [done|by apply Hs..].
  - apply Hall; [done|]. done.
Qed.

Lemma pool_inv_sta n a i s s' held x : a_StaConInfo a !! i = Some s -> sta_same s s' ->
  pool_inv n a held x -> pool_inv n (set_sta a i s') held x.
Proof.
  intros Hi (Hb & Ha & Hf) Hinv. apply (pool_inv_entry n a i s); try done. rewrite Ha.
  apply (Forall_lookup_1 _ _ i s (pi_aid _ _ _ _ _ Hinv) Hi).
Qed.

Lemma get_sta n a held x i s : pool_inv n a held x -> a_StaConInfo a !! i = Some s ->
  length (s_ps_tx_buf s) = 4%nat /\ 0 <= s_aid s <= Z.of_nat (st_gMaxAID C).
Proof.
  intros H Hi. split; [apply (Forall_lookup_1 _ _ i s (pi_acs _ _ _ _ _ H) Hi)|].
  apply (Forall_lookup_1 _ _ i s (pi_aid _ _ _ _ _ H) Hi).
Qed.

(** *** Taking a frame from a queue *)
Lemma set_queue_core s ac q : sta_core (set_queue s ac q) = sta_core s.
Proof. reflexivity. Qed.

Lemma set_queue_sleep s ac q : length (s_ps_tx_buf s) = 4%nat -> (ac < 4)%nat -> (ps_queue s ac = [] -> q = []) ->
  sta_queued (set_queue s ac q) <> [] -> sta_queued s <> [].
Proof.
  intros Hl Hac Hq Hne. destruct (sta_queue_insert s ac q Hl Hac) as (r & H1 & H2). intros E. rewrite E in H1.
  apply Permutation_nil_l in H1. symmetry in H1. apply app_nil in H1 as [Hn ->]. rewrite (Hq Hn) in H2. apply Hne.
  rewrite app_nil_r in H2. symmetry in H2. apply Permutation_nil in H2. by rewrite (Hq Hn).
Qed.

Lemma set_queue_inv n a i s ac q held held' x x' :
  pool_inv n a held x -> a_StaConInfo a !! i = Some s -> (ac < 4)%nat ->
  (ps_queue s ac = [] -> q <> [] -> test_sta_flag s WLAN_STA_VALID = true /\ test_sta_flag s WLAN_STA_PS_STA = true) ->
  ps_queue s ac ++ held ≡ₚ q ++ held' ->
  x' = x + Z.of_nat (length (ps_queue s ac)) - Z.of_nat (length q) -> 0 <= x' ->
  pool_inv n (set_sta a i (set_queue s ac q)) held' x' /\
  balance (set_sta a i (set_queue s ac q)) held' ≡ₚ balance a held.
Proof.
  intros Hinv Hi Hac Hsleep Hp Hx H0. destruct (get_sta _ _ _ _ _ _ Hinv Hi) as [Hl Ha].
  destruct Hinv as [H1 H2 H3 H4 H5 H6 H7 H8 H9 H10 H11].
  destruct (queued_insert a i s ac q Hi Hl Hac) as (rest & Hq & Hq').
  set (a' := set_sta a i (set_queue s ac q)) in *.
  assert (queued a' ++ held' ≡ₚ queued a ++ held) as Hperm.
  { rewrite Hq', Hq. rewrite <- !app_assoc, (Permutation_app_comm rest held'), !app_assoc, <- Hp.
    rewrite <- !app_assoc. apply Permutation_app; [done|]. by rewrite Permutation_app_comm. }
  assert (length (queued a') + length (ps_queue s ac) = length (queued a) + length q)%nat as Hlen.
  { rewrite Hq, Hq', !length_app. lia. }
  split.
  - constructor; try done.
    + change (a_StaConInfo a') with (<[i := set_queue s ac q]> (a_StaConInfo a)). by rewrite length_insert.
    + apply Forall_insert; [done|]. change (length (<[ac := q]> (s_ps_tx_buf s)) = 4%nat). by rewrite length_insert.
    + by rewrite Hperm.
    + intros k. rewrite Hperm. apply H5.
    + by rewrite Hperm.
    + change (a_total_ps_buffered a') with (a_total_ps_buffered a). lia.
    + split; [done|]. lia.
    + apply Forall_insert; [done|]. intros Hne. destruct (decide (ps_queue s ac = [])) as [E|E]; [destruct (decide (q = [])) as [->|E']|].
      * change (test_sta_flag (set_queue s ac []) ?f) with (test_sta_flag s f).
        eapply (Forall_lookup_1 _ _ i s H9 Hi). by eapply (set_queue_sleep s ac []).
      * by apply Hsleep.
      * change (test_sta_flag (set_queue s ac q) ?f) with (test_sta_flag s f).
        eapply (Forall_lookup_1 _ _ i s H9 Hi). by eapply (set_queue_sleep s ac q).
    + by apply Forall_insert.
  - unfold balance. change (a_out a') with (a_out a). apply Permutation_app; [|done].
    change (frame_id a') with (frame_id a). by rewrite Hperm.
Qed.

Lemma ps_deq_ok n a i ac held x s : pool_inv n a held x -> a_StaConInfo a !! i = Some s -> (ac < 4)%nat ->
  match ps_queue s ac with
  | [] => ps_deq a i ac = Some (None, a)
  | k :: q =>
      let a' := set_sta a i (set_queue s ac q) in
      ps_deq a i ac = Some (Some k, a') /\ quiet a a' /\ pool_inv n a' (k :: held) (x + 1) /\
      balance a' (k :: held) ≡ₚ balance a held
  end.
Proof.
  intros Hinv Hi Hac. unfold ps_deq. rewrite Hi. cbn [mbind option_bind].
  destruct (ps_queue s ac) as [|k q] eqn:Eq; [done|]. cbv zeta. split; [done|]. split; [by eapply quiet_sta|].
  apply (set_queue_inv n a i s ac q held (k :: held) x); try done.
  - by rewrite Eq.
  - rewrite Eq. cbn [app]. by rewrite <- Permutation_middle.
  - rewrite Eq. cbn [length]. lia.
  - pose proof (pi_x _ _ _ _ _ Hinv). lia.
Qed.

Lemma add_buffered_ok n a held x m : pool_inv n a held x -> 0 <= x + m -> Z.of_nat (length (queued a)) + x + m <= Z.of_nat n ->
  Z.of_nat n < 65536 ->
  quiet a (add_buffered a m) /\ pool_inv n (add_buffered a m) held (x + m) /\ balance (add_buffered a m) held = balance a held.
Proof.
  intros [H1 H2 H3 H4 H5 H6 H7 H8 H9 H10 H11] H0 Hn Hlt. split; [done|]. split; [|done].
  constructor; try done; change (queued (add_buffered a m)) with (queued a).
  - change (a_total_ps_buffered (add_buffered a m)) with (u16 (a_total_ps_buffered a + m)).
    rewrite H7, u16_small by lia. lia.
  - lia.
Qed.

Lemma desp_set a k d j : ap_desp (set_desp a k d) j =
  if decide (k = j) then (if decide (k < length (a_pApTxData a))%nat then d else None) else ap_desp a j.
Proof.
  unfold ap_desp. change (a_pApTxData (set_desp a k d)) with (<[k := d]> (a_pApTxData a)).
  destruct (decide (k = j)) as [<-|Hne].
  - case_decide; [by rewrite list_lookup_insert_eq|].
    rewrite list_insert_ge by lia. by rewrite (proj2 (lookup_ge_None _ _)) by lia.
  - by rewrite list_lookup_insert_ne.
Qed.

Lemma desp_lt a k d : ap_desp a k = Some d -> (k < length (a_pApTxData a))%nat.
Proof.
  unfold ap_desp. destruct (a_pApTxData a !! k) as [o|] eqn:E; [|done]. intros _. by eapply lookup_lt_Some.
Qed.

Lemma frames_other a k d (l : list nat) : k ∉ l -> omap (frame_id (set_desp a k d)) l = omap (frame_id a) l.
Proof.
  intros Hk. induction l as [|j l IH]; [done|]. apply not_elem_of_cons in Hk as [Hj Hl]. cbn [omap list_omap].
  unfold frame_id at 1. rewrite desp_set, decide_False by done. fold (frame_id a j).
  by rewrite IH.
Qed.

Lemma release_ok n a k held x : pool_inv n a (k :: held) x ->
  exists d, ap_desp a k = Some d /\ quiet a (ap_release_tx_desp a k) /\ pool_inv n (ap_release_tx_desp a k) held x /\
    balance a (k :: held) ≡ₚ tf_id (d_frame d) :: balance (ap_release_tx_desp a k) held.
Proof.
  intros [H1 H2 H3 H4 H5 H6 H7 H8 H9 H10 H11].
  assert (queued a ++ k :: held ≡ₚ k :: queued a ++ held) as Hp by (by rewrite Permutation_middle).
  assert (NoDup (k :: queued a ++ held)) as Hnd by (by rewrite <- Hp). apply list.NoDup_cons in Hnd as [Hk Hnd].
  destruct (proj2 (H5 k)) as [d Hd]. { rewrite Hp. by left. }
  exists d. split; [done|]. split; [done|]. change (queued (ap_release_tx_desp a k)) with (queued a) in *. split.
  - constructor; try done.
    + change (a_pApTxData (ap_release_tx_desp a k)) with (<[k := None]> (a_pApTxData a)). by rewrite length_insert.
    + intros j. change (queued (ap_release_tx_desp a k)) with (queued a). unfold ap_release_tx_desp. rewrite desp_set.
      destruct (decide (k = j)) as [<-|Hj].
      * split; [|done]. case_decide; by intros [? ?].
      * rewrite H5, Hp, elem_of_cons. split; [by intros [->|]|by right].
    + change (queued (ap_release_tx_desp a k)) with (queued a). rewrite Hp in H6. cbn [length] in H6. lia.
  - unfold balance. change (queued (ap_release_tx_desp a k)) with (queued a). rewrite Hp. cbn [omap list_omap].
    unfold frame_id at 1. rewrite Hd. cbn [fmap option_fmap option_map]. cbn [app]. constructor.
    change (a_out (ap_release_tx_desp a k)) with (a_out a). unfold ap_release_tx_desp. by rewrite frames_other.
Qed.

Lemma emit_ok n a held x e : pool_inv n a held x ->
  quiet a (ap_emit a e) /\ pool_inv n (ap_emit a e) held x /\
  balance (ap_emit a e) held ≡ₚ match out_id e with Some j => [j] | None => [] end ++ balance a held.
Proof.
  intros H. split; [done|]. split; [apply (pool_inv_same n a); reflexivity || assumption|].
  unfold balance. change (queued (ap_emit a e)) with (queued a). change (a_out (ap_emit a e)) with (a_out a ++ [e]).
  change (frame_id (ap_emit a e)) with (frame_id a). assert (omap out_id (a_out a ++ [e]) = omap out_id (a_out a) ++ omap out_id [e]) as -> by apply omap_app.
  rewrite app_assoc. etrans; [apply Permutation_app_comm|]. cbn [omap list_omap]. destruct (out_id e); reflexivity.
Qed.

(** Freeing a frame with its descriptor *)
Lemma free_ok n a k held x : pool_inv n a (k :: held) x ->
  exists a', ap_release_tx_desp_and_frame a k = Some a' /\ quiet a a' /\ pool_inv n a' held x /\
    balance a' held ≡ₚ balance a (k :: held) /\ a_StaConInfo a' = a_StaConInfo a /\ a_tim a' = a_tim a.
Proof.
  intros H. destruct (release_ok _ _ _ _ _ H) as (d & Hd & _). unfold ap_release_tx_desp_and_frame. rewrite Hd.
  cbn [mbind option_bind]. eexists. split; [done|].
  destruct (emit_ok _ _ _ _ (FrameFree (d_frame d)) H) as (Hq & Hi & Hb).
  destruct (release_ok _ _ _ _ _ Hi) as (d' & Hd' & Hq' & Hi' & Hb'). split; [by etrans|]. split; [done|]. split; [|done].
  change (ap_desp a k = Some d') in Hd'. rewrite Hd in Hd'. injection Hd' as <-. cbn [out_id app] in Hb.
  rewrite Hb in Hb'. by apply Permutation_cons_inv in Hb'.
Qed.

(** *** Taking a descriptor *)
Lemma free_desp_Some l : forall i k, free_desp i l = Some k ->
  exists j, k = (i + j)%nat /\ l !! j = Some None.
Proof.
  induction l as [|[d|] l IH]; intros i k; cbn [free_desp]; [done| |].
  - intros (j & -> & Hj)%IH. exists (S j). split; [lia|done].
  - intros [= <-]. exists O. split; [lia|done].
Qed.

Lemma free_desp_None l : forall i, free_desp i l = None -> Forall (fun o => is_Some o) l.
Proof.
  induction l as [|[d|] l IH]; intros i; cbn [free_desp]; [by constructor| |done].
  intros H. constructor; [by eexists|by eapply IH].
Qed.

Lemma alloc_ok n a held x : pool_inv n a held x -> (length (queued a ++ held) < AP_TOTAL_MAX_TX_DSP C)%nat ->
  exists k, ap_get_tx_desp a = Some k /\ forall d, let a' := set_desp a k (Some d) in
    quiet a a' /\ pool_inv (S n) a' (k :: held) x /\ ap_desp a' k = Some d /\
    balance a' (k :: held) ≡ₚ tf_id (d_frame d) :: balance a held.
Proof.
  intros [H1 H2 H3 H4 H5 H6 H7 H8 H9 H10 H11] Hlt. destruct (ap_get_tx_desp a) as [k|] eqn:E.
  - exists k. split; [done|]. intros d a'. apply free_desp_Some in E as (j & -> & Hj). cbn [Nat.add] in *.
    pose proof (lookup_lt_Some _ _ _ Hj) as Hjl.
    assert (ap_desp a j = None) as Hn by (unfold ap_desp; by rewrite Hj).
    assert (j ∉ queued a ++ held) as Hnin. { intros Hin. apply H5 in Hin as [? Hs]. by rewrite Hn in Hs. }
    assert (queued a' ++ j :: held ≡ₚ j :: queued a ++ held) as Hp by (by rewrite Permutation_middle).
    assert (ap_desp a' j = Some d) as Hd by (unfold a'; by rewrite desp_set, !decide_True).
    split; [done|]. split; [|split; [done|]].
    + constructor; try done.
      * change (a_pApTxData a') with (<[j := Some d]> (a_pApTxData a)). by rewrite length_insert.
      * rewrite Hp. by apply list.NoDup_cons.
      * intros k. unfold a' at 1. rewrite desp_set, Hp, elem_of_cons. destruct (decide (j = k)) as [<-|Hne].
        -- rewrite decide_True by done. split; [by left|by eexists].
        -- rewrite H5. split; [by right|by intros [->|]].
      * rewrite Hp. cbn [length]. lia.
      * split; [apply H8|]. change (queued a') with (queued a). lia.
    + unfold balance. rewrite Hp. cbn [omap list_omap]. unfold frame_id at 1. rewrite Hd.
      cbn [fmap option_fmap option_map app]. constructor. unfold a'. by rewrite frames_other.
  - exfalso. apply free_desp_None in E.
    assert (length (seq 0 (length (a_pApTxData a))) <= length (queued a ++ held))%nat as Hle.
    { apply submseteq_length, NoDup_submseteq; [apply NoDup_seq|]. intros k Hk%elem_of_seq. apply H5.
      destruct (lookup_lt_is_Some_2 (a_pApTxData a) k ltac:(lia)) as [o Ho].
      unfold ap_desp. rewrite Ho. apply (Forall_lookup_1 _ _ _ _ E Ho). }
    rewrite length_seq in Hle. lia.
Qed.

(** A descriptor that is held may be rewritten *)
Lemma replace_ok n a k held x d d' : pool_inv n a (k :: held) x -> ap_desp a k = Some d ->
  tf_id (d_frame d') = tf_id (d_frame d) ->
  let a' := set_desp a k (Some d') in
  quiet a a' /\ pool_inv n a' (k :: held) x /\ ap_desp a' k = Some d' /\
  balance a' (k :: held) ≡ₚ balance a (k :: held).
Proof.
  intros Hinv Hd Hid a'. destruct (release_ok _ _ _ _ _ Hinv) as (d0 & Hd0 & _ & Hrel & Hbal).
  rewrite Hd in Hd0. injection Hd0 as <-. pose proof (desp_lt _ _ _ Hd) as Hlt.
  assert (ap_desp a' k = Some d') as Hk by (unfold a'; by rewrite desp_set, !decide_True).
  split; [done|]. split; [|split; [done|]].
  - destruct Hinv as [H1 H2 H3 H4 H5 H6 H7 H8 H9 H10 H11]. constructor; try done.
    + change (a_pApTxData a') with (<[k := Some d']> (a_pApTxData a)). by rewrite length_insert.
    + intros j. change (queued a') with (queued a). rewrite <- H5. unfold a'. rewrite desp_set.
      destruct (decide (k = j)) as [<-|]; [|done]. rewrite decide_True by done. rewrite Hd. split; by eexists.
  - unfold balance at 1. change (queued a') with (queued a). rewrite <- Permutation_middle. cbn [omap list_omap].
    unfold frame_id at 1. rewrite Hk. cbn [fmap option_fmap option_map app]. rewrite Hid, Hbal. constructor.
    unfold balance. change (queued (ap_release_tx_desp a k)) with (queued a).
    assert (k ∉ queued a ++ held) as Hnin.
    { pose proof (pi_nodup _ _ _ _ _ Hinv) as Hnd. rewrite <- Permutation_middle in Hnd. by apply list.NoDup_cons in Hnd as [Hnd _]. }
    unfold a', ap_release_tx_desp. by rewrite !frames_other.
Qed.

Lemma set_queue_id s ac : length (s_ps_tx_buf s) = 4%nat -> (ac < 4)%nat -> set_queue s ac (ps_queue s ac) = s.
Proof.
  intros Hl Hac. destruct (lookup_lt_is_Some_2 (s_ps_tx_buf s) ac ltac:(lia)) as [q Hq].
  unfold set_queue, ps_queue. rewrite Hq. cbn [default]. destruct s. cbn in *.
  unfold modify. cbn. by rewrite list_insert_id.
Qed.

Lemma set_queue_twice s ac q q' : set_queue (set_queue s ac q) ac q' = set_queue s ac q'.
Proof.
  unfold set_queue. cbn [s_ps_tx_buf]. destruct s. unfold modify. cbn. by rewrite list_insert_insert_eq.
Qed.

Lemma ps_queue_set s ac q : length (s_ps_tx_buf s) = 4%nat -> (ac < 4)%nat -> ps_queue (set_queue s ac q) ac = q.
Proof.
  intros Hl Hac. unfold ps_queue. change (s_ps_tx_buf (set_queue s ac q)) with (<[ac := q]> (s_ps_tx_buf s)).
  by rewrite list_lookup_insert_eq by lia.
Qed.

(** *** Steps that account for every frame *)
Definition moves (n : nat) (a : ApInfo) (held : list nat) (a' : ApInfo) (held' : list nat) (x' : Z) : Prop :=
  quiet a a' /\ pool_inv n a' held' x' /\ balance a' held' ≡ₚ balance a held.

Lemma moves_refl n a held x : pool_inv n a held x -> moves n a held a held x.
Proof. done. Qed.

Lemma moves_trans n a1 h1 a2 h2 x2 a3 h3 x3 :
  moves n a1 h1 a2 h2 x2 -> moves n a2 h2 a3 h3 x3 -> moves n a1 h1 a3 h3 x3.
Proof. intros (Q1 & _ & B1) (Q2 & P2 & B2). split; [by etrans|]. split; [done|by etrans]. Qed.

Lemma moves_inv n a h a' h' x' : moves n a h a' h' x' -> pool_inv n a' h' x'.
Proof. by intros (_ & ? & _). Qed.

Lemma purge_one_ok n a k held x : pool_inv n a (k :: held) (x + 1) -> 0 <= x -> Z.of_nat n < 65536 ->
  exists a', purge_one a k = Some a' /\ moves n a (k :: held) a' held x /\ a_StaConInfo a' = a_StaConInfo a /\
    a_tim a' = a_tim a.
Proof.
  intros H Hx Hn. destruct (free_ok _ _ _ _ _ H) as (a1 & E1 & Q1 & I1 & B1 & S1 & T1).
  unfold purge_one. rewrite E1. cbn [mbind option_bind]. eexists. split; [done|].
  destruct (add_buffered_ok n a1 held (x + 1) (-1)) as (Q2 & I2 & B2); [done|lia| |done|].
  { pose proof (pi_x _ _ _ _ _ I1). lia. }
  replace (x + 1 + -1) with x in I2 by lia. split; [|done]. split; [by etrans|]. split; [done|]. by rewrite B2.
Qed.

(** What a loop over a queue does with each of its frames: the frame is gone and
    the stations are not touched. *)
Definition disposes (n : nat) (dx : Z) (f : ApInfo -> nat -> option ApInfo) : Prop :=
  forall a k held x, pool_inv n a (k :: held) (x + 1) -> 0 <= x ->
  exists a', f a k = Some a' /\ moves n a (k :: held) a' held (x + dx) /\ a_StaConInfo a' = a_StaConInfo a /\
    a_tim a' = a_tim a.

Lemma drain_ok n dx f i ac : disposes n dx f -> 0 <= dx -> (ac < 4)%nat -> forall q a s held x,
  pool_inv n a held x -> 0 <= x -> a_StaConInfo a !! i = Some s -> ps_queue s ac = q ->
  exists a', drain f (length q) a i ac = Some a' /\
    moves n a held a' held (x + dx * Z.of_nat (length q)) /\
    a_StaConInfo a' = <[i := set_queue s ac []]> (a_StaConInfo a) /\ a_tim a' = a_tim a.
Proof.
  intros Hf Hdx Hac. induction q as [|k q IH]; intros a s held x Hinv Hx Hi Hq.
  - pose proof (ps_deq_ok _ _ _ ac _ _ _ Hinv Hi Hac) as Hd. rewrite Hq in Hd. cbn [length drain]. rewrite Hd.
    cbn [mbind option_bind]. exists a. split; [done|]. split; [by rewrite Z.mul_0_r, Z.add_0_r|].
    destruct (get_sta _ _ _ _ _ _ Hinv Hi) as [Hl _]. rewrite <- Hq, set_queue_id by done. by rewrite list_insert_id.
  - pose proof (ps_deq_ok _ _ _ ac _ _ _ Hinv Hi Hac) as Hd. rewrite Hq in Hd. destruct Hd as (Hd & Q1 & I1 & B1).
    cbn [length drain]. rewrite Hd. cbn [mbind option_bind].
    destruct (get_sta _ _ _ _ _ _ Hinv Hi) as [Hl _].
    destruct (Hf _ _ _ _ I1 Hx) as (a2 & E2 & M2 & S2 & T2). rewrite E2. cbn [mbind option_bind].
    pose proof (lookup_lt_Some _ _ _ Hi) as Hlt.
    destruct (IH a2 (set_queue s ac q) held (x + dx)) as (a3 & E3 & M3 & S3 & T3).
    + by eapply moves_inv.
    + lia.
    + rewrite S2. change (a_StaConInfo (set_sta a i (set_queue s ac q))) with (<[i := set_queue s ac q]> (a_StaConInfo a)).
      by rewrite list_lookup_insert_eq.
    + by apply ps_queue_set.
    + exists a3. split; [done|]. split.
      * eapply moves_trans; [by split_and!|]. eapply moves_trans; [exact M2|].
        by replace (x + dx * Z.of_nat (S (length q))) with (x + dx + dx * Z.of_nat (length q)) by lia.
      * split; [|by rewrite T3, T2]. rewrite S3, S2, set_queue_twice.
        change (a_StaConInfo (set_sta a i (set_queue s ac q))) with (<[i := set_queue s ac q]> (a_StaConInfo a)).
        by rewrite list_insert_insert_eq.
Qed.

Lemma drain_ac_ok n dx f i ac a s held x : disposes n dx f -> 0 <= dx -> (ac < 4)%nat ->
  pool_inv n a held x -> 0 <= x -> a_StaConInfo a !! i = Some s ->
  exists a', drain_ac f a i ac = Some a' /\
    moves n a held a' held (x + dx * Z.of_nat (length (ps_queue s ac))) /\
    a_StaConInfo a' = <[i := set_queue s ac []]> (a_StaConInfo a) /\ a_tim a' = a_tim a.
Proof. intros. unfold drain_ac. rewrite H4. cbn [mbind option_bind]. by eapply drain_ok. Qed.

Lemma purge_disposes n : Z.of_nat n < 65536 -> disposes n 0 purge_one.
Proof. intros Hn a k held x H Hx. rewrite Z.add_0_r. by apply purge_one_ok. Qed.

(** Emptying the queues of all four access categories *)
Lemma drain_all_ok n f i a s held : Z.of_nat n < 65536 -> disposes n 0 f ->
  pool_inv n a held 0 -> a_StaConInfo a !! i = Some s -> forall acs, Forall (fun ac => (ac < 4)%nat) acs ->
  exists a' s', foldr (fun ac m => a ← m; drain_ac f a i ac) (Some a) acs = Some a' /\
    moves n a held a' held 0 /\ a_StaConInfo a' = <[i := s']> (a_StaConInfo a) /\
    s' = foldr (fun ac s => set_queue s ac []) s acs /\ a_tim a' = a_tim a.
Proof.
  intros Hn Hf Hinv Hi acs Hacs. induction Hacs as [|ac acs Hac _ (a1 & s1 & E1 & M1 & S1 & Hs1 & T1)].
  - exists a, s. split_and!; [done|done|by rewrite list_insert_id|done|done].
  - pose proof (lookup_lt_Some _ _ _ Hi) as Hlt. cbn [foldr]. rewrite E1. cbn [mbind option_bind].
    destruct (drain_ac_ok n 0 f i ac a1 s1 held 0) as (a2 & E2 & M2 & S2 & T2); try done.
    + by eapply moves_inv.
    + rewrite S1. by rewrite list_lookup_insert_eq.
    + exists a2, (set_queue s1 ac []). split_and!; [done| | |by rewrite Hs1|by rewrite T2].
      * rewrite Z.mul_0_l, Z.add_0_r in M2. by eapply moves_trans.
      * rewrite S2, S1. by rewrite list_insert_insert_eq.
Qed.

Definition no_frames (s : APStaInfo) : APStaInfo := s <| s_ps_tx_buf := replicate 4 [] |>.

Lemma all_emptied s : length (s_ps_tx_buf s) = 4%nat ->
  foldr (fun ac s => set_queue s ac []) s [0; 1; 2; 3]%nat = no_frames s.
Proof.
  intros Hl. cbn [foldr]. change (with_queues s
    (<[0 := []]> (<[1 := []]> (<[2 := []]> (<[3 := []]> (s_ps_tx_buf s)))))%nat = with_queues s (replicate 4 [])).
  f_equal. destruct (s_ps_tx_buf s) as [|q0 [|q1 [|q2 [|q3 [|]]]]]; done.
Qed.

Lemma purge_sta_ok n a i s held : Z.of_nat n < 65536 -> pool_inv n a held 0 -> a_StaConInfo a !! i = Some s ->
  exists a', purge_sta_ps_buffers a i = Some a' /\ moves n a held a' held 0 /\
    a_StaConInfo a' = <[i := no_frames s]> (a_StaConInfo a) /\ a_tim a' = a_tim a.
Proof.
  intros Hn Hinv Hi.
  destruct (drain_all_ok n purge_one i a s held Hn (purge_disposes n Hn) Hinv Hi [0; 1; 2; 3]%nat)
    as (a' & s' & E & M & S & Hs & T); [repeat (constructor; [lia|]); constructor|].
  exists a'. split; [|split; [done|]].
  - rewrite <- E. unfold purge_sta_ps_buffers. cbn [foldr mbind option_bind].
    destruct (drain_ac purge_one a i 3) as [a1|]; [|reflexivity]. cbn [mbind option_bind].
    destruct (drain_ac purge_one a1 i 2) as [a2|]; [|reflexivity]. reflexivity.
  - split; [|done]. rewrite S, Hs, all_emptied; [done|]. by destruct (get_sta _ _ _ _ _ _ Hinv Hi).
Qed.

(** *** The traffic indication map *)
Lemma tim_byte a aid : length (a_tim a) = gMaxTimLen C -> 0 <= aid <= Z.of_nat (st_gMaxAID C) ->
  exists b, a_tim a !! Z.to_nat (aid / 8) = Some b.
Proof.
  intros Hl Ha. apply lookup_lt_is_Some_2. rewrite Hl. unfold gMaxTimLen.
  assert (Z.of_nat (4 * ((st_gMaxAID C + 1 + 31) / 32)) = 4 * ((Z.of_nat (st_gMaxAID C) + 32) / 32)) as E.
  { rewrite Nat2Z.inj_mul, Nat2Z.inj_div. f_equal. f_equal. lia. }
  lia.
Qed.

Lemma BIT_bit b k j : 0 <= k -> 0 <= j -> has (Z.lor b (BIT k)) (BIT j) = has b (BIT j) || bool_decide (k = j).
Proof.
  intros Hk Hj. rewrite has_lor by done. f_equal. rewrite has_BIT by done. unfold BIT. rewrite Z.shiftl_1_l.
  rewrite Z.pow2_bits_eqb by done. apply eq_iff_eq_true. rewrite Z.eqb_eq, bool_decide_eq_true. done.
Qed.

Lemma BIT_clear b k j : 0 <= k -> 0 <= j ->
  has (Z.land b (Z.lnot (BIT k))) (BIT j) = has b (BIT j) && negb (bool_decide (k = j)).
Proof.
  intros Hk Hj. rewrite has_clear by done. f_equal. f_equal. rewrite has_BIT by done. unfold BIT. rewrite Z.shiftl_1_l.
  rewrite Z.pow2_bits_eqb by done. apply eq_iff_eq_true. rewrite Z.eqb_eq, bool_decide_eq_true. done.
Qed.

(** One byte of the map is replaced *)
Lemma tim_write a aid b b' aid' : a_tim a !! Z.to_nat (aid / 8) = Some b -> 0 <= aid -> 0 <= aid' ->
  (forall j, 0 <= j -> j <> aid mod 8 -> has b' (BIT j) = has b (BIT j)) ->
  __bss_tim_get (a <| a_tim := <[Z.to_nat (aid / 8) := b']> (a_tim a) |>) aid' =
  if decide (aid' = aid) then Some (has b' (BIT (aid mod 8))) else __bss_tim_get a aid'.
Proof.
  intros Hb Ha Ha' Hother. unfold __bss_tim_get. change (a_tim (a <| a_tim := ?t |>)) with t.
  destruct (decide (Z.to_nat (aid / 8) = Z.to_nat (aid' / 8))) as [E|E].
  - rewrite E, list_lookup_insert_eq by (rewrite <- E; by eapply lookup_lt_Some). cbn [mbind option_bind].
    rewrite <- E, Hb. cbn [mbind option_bind]. case_decide as Hd; [by subst|]. f_equal. apply Hother; lia.
  - rewrite list_lookup_insert_ne by done. case_decide; [by subst|done].
Qed.

Lemma recalc_ok n a i s held x : pool_inv n a held x -> a_StaConInfo a !! i = Some s ->
  exists b a', sta_info_recalc_tim a i = Some (b, a') /\ moves n a held a' held x /\
    a_StaConInfo a' = a_StaConInfo a /\ a_out a' = a_out a /\
    __bss_tim_get a' (s_aid s) = Some (indicate_tim s) /\
    forall aid, 0 <= aid -> aid <> s_aid s -> __bss_tim_get a' aid = __bss_tim_get a aid.
Proof.
  intros Hinv Hi. destruct (get_sta _ _ _ _ _ _ Hinv Hi) as [_ Ha].
  destruct (tim_byte a (s_aid s) (pi_tim _ _ _ _ _ Hinv) Ha) as [b Hb].
  unfold sta_info_recalc_tim. rewrite Hi. cbn [mbind option_bind]. unfold __bss_tim_get at 1. rewrite Hb.
  cbn [mbind option_bind]. destruct (Bool.eqb _ _) eqn:E.
  - exists false, a. split; [done|]. apply eqb_prop in E. split; [done|]. split; [done|]. split; [done|]. split; [|done].
    unfold __bss_tim_get. rewrite Hb. cbn [mbind option_bind]. by rewrite E.
  - assert (forall b', length (a_tim (a <| a_tim := <[Z.to_nat (s_aid s / 8) := b']> (a_tim a) |>)) = length (a_tim a)) as Hlen
      by (intros b'; apply length_insert).
    assert (forall b', moves n a held (a <| a_tim := <[Z.to_nat (s_aid s / 8) := b']> (a_tim a) |>) held x) as Hm.
    { intros b'. split; [done|]. split; [|done]. by apply (pool_inv_same n a). }
    destruct (indicate_tim s).
    + unfold __bss_tim_set. rewrite Hb. cbn [mbind option_bind]. eexists _, _. split; [done|]. split; [done|]. split; [done|].
      split; [done|]. split.
      * rewrite (tim_write _ _ b); [rewrite decide_True by done|done|lia|lia|].
        -- rewrite BIT_bit by lia. by rewrite bool_decide_true, orb_true_r.
        -- intros j Hj Hne. rewrite BIT_bit by lia. by rewrite bool_decide_false, orb_false_r.
      * intros aid H0 Hne. rewrite (tim_write _ _ b); [by rewrite decide_False|done|lia|lia|].
        intros j Hj Hnj. rewrite BIT_bit by lia. by rewrite bool_decide_false, orb_false_r.
    + unfold __bss_tim_clear. rewrite Hb. cbn [mbind option_bind]. eexists _, _. split; [done|]. split; [done|]. split; [done|].
      split; [done|]. split.
      * rewrite (tim_write _ _ b); [rewrite decide_True by done|done|lia|lia|].
        -- rewrite BIT_clear by lia. by rewrite bool_decide_true, andb_false_r.
        -- intros j Hj Hne. rewrite BIT_clear by lia. by rewrite bool_decide_false, andb_true_r.
      * intros aid H0 Hne. rewrite (tim_write _ _ b); [by rewrite decide_False|done|lia|lia|].
        intros j Hj Hnj. rewrite BIT_clear by lia. by rewrite bool_decide_false, andb_true_r.
Qed.

Lemma recalc_beacon_ok n a i s held x : pool_inv n a held x -> a_StaConInfo a !! i = Some s ->
  exists a', recalc_tim_gen_beacon C a i = Some a' /\ moves n a held a' held x /\
    a_StaConInfo a' = a_StaConInfo a /\
    __bss_tim_get a' (s_aid s) = Some (indicate_tim s) /\
    forall aid, 0 <= aid -> aid <> s_aid s -> __bss_tim_get a' aid = __bss_tim_get a aid.
Proof.
  intros Hinv Hi. destruct (recalc_ok _ _ _ _ _ _ Hinv Hi) as (b & a1 & E & M & S & _ & T & T').
  unfold recalc_tim_gen_beacon. rewrite E. cbn [mbind option_bind]. eexists. split; [done|]. destruct b; [|done].
  split; [|done]. eapply moves_trans; [exact M|]. unfold GenBeacon.
  destruct (emit_ok _ _ _ _ (SetBeacon (a_bhead a1 ++ ieee80211_beacon_add_tim C a1 ++ a_btail a1)
    (u8 (Z.of_nat (length (a_bhead a1 ++ ieee80211_beacon_add_tim C a1 ++ a_btail a1)))))
    (moves_inv _ _ _ _ _ _ M)) as (Q & I & B). by split_and!.
Qed.

(** *** Frames that are never queued *)
Lemma set_release a k d : ap_get_tx_desp a = Some k -> ap_release_tx_desp (set_desp a k (Some d)) k = a.
Proof.
  intros (j & -> & Hj)%free_desp_Some. unfold ap_release_tx_desp, set_desp. destruct a. unfold modify.
  cbn in *. by rewrite list_insert_insert_eq, list_insert_id.
Qed.

Lemma check_authed_ok a f bAP flags :
  exists res, ssv6xxx_data_check_authed a (ssv6xxx_data_prepare_tx_data a f bAP flags) = Some res /\ res <> TX_QUEUED.
Proof.
  unfold ssv6xxx_data_check_authed. change (d_sta (ssv6xxx_data_prepare_tx_data a f bAP flags)) with
    (APStaInfo_FindStaByAddr a (tx_da (if has (tf_rsvd0 f) AP_PS_FRAME then f <| tf_rsvd0 := 0 |> else f))).
  destruct (APStaInfo_FindStaByAddr _ _) as [i|] eqn:E.
  - apply FindSta_Some in E as (s & -> & _). cbn [mbind option_bind]. eexists. split; [done|]. by repeat case_match.
  - cbn [mbind option_bind]. eexists. split; [done|]. by repeat case_match.
Qed.

Lemma prepared_flag a f bAP flags : has (d_flags (ssv6xxx_data_prepare_tx_data a f bAP flags)) AP_TX_NATIVE_AP_FRAME
  = has flags AP_TX_NATIVE_AP_FRAME || bAP.
Proof.
  unfold ssv6xxx_data_prepare_tx_data, AP_TX_NATIVE_AP_FRAME. cbn [d_flags].
  repeat case_match; repeat first [rewrite has_clear by lia | rewrite has_lor by lia];
    change (has AP_TX_UNICAST (BIT 3)) with false; change (has AP_TX_DATA (BIT 3)) with false;
    change (has AP_TX_POLL_RESPONSE (BIT 3)) with false; change (has (BIT 3) (BIT 3)) with true;
    by destruct (has flags (BIT 3)).
Qed.

Lemma prepared_poll a f bAP flags : has (d_flags (ssv6xxx_data_prepare_tx_data a f bAP flags)) AP_TX_POLL_RESPONSE
  = has flags AP_TX_POLL_RESPONSE || has (tf_rsvd0 f) AP_PS_FRAME.
Proof.
  unfold ssv6xxx_data_prepare_tx_data, AP_TX_POLL_RESPONSE. cbn [d_flags].
  destruct (has (tf_rsvd0 f) AP_PS_FRAME); repeat case_match; repeat first [rewrite has_clear by lia | rewrite has_lor by lia];
    change (has AP_TX_UNICAST (BIT 4)) with false; change (has AP_TX_DATA (BIT 4)) with false;
    change (has AP_TX_NATIVE_AP_FRAME (BIT 4)) with false; change (has (BIT 4) (BIT 4)) with true;
    by destruct (has flags (BIT 4)).
Qed.

Definition unmarked (f : tx_frame) : tx_frame := if has (tf_rsvd0 f) AP_PS_FRAME then f <| tf_rsvd0 := 0 |> else f.

Lemma prepared_unicast a f bAP flags : has (d_flags (ssv6xxx_data_prepare_tx_data a f bAP flags)) AP_TX_UNICAST
  = negb (is_multicast_ether_addr (tx_da (unmarked f))).
Proof.
  unfold ssv6xxx_data_prepare_tx_data, AP_TX_UNICAST. cbn [d_flags]. fold (unmarked f).
  destruct (is_multicast_ether_addr (tx_da (unmarked f))); repeat case_match;
    repeat first [rewrite has_clear by lia | rewrite has_lor by lia]; change (has (BIT 1) (BIT 1)) with true;
    by rewrite ?andb_false_r, ?orb_true_r.
Qed.

(** A management frame or a frame that is released takes a descriptor only for
    the duration of the tests. *)
Lemma could_be_send_direct deliver n a f bAP flags held x :
  pool_inv n a held x -> (length (queued a ++ held) < AP_TOTAL_MAX_TX_DSP C)%nat ->
  bAP = true \/ has (tf_rsvd0 f) AP_PS_FRAME = true ->
  exists res, ssv6xxx_data_could_be_send C deliver a f bAP flags = Some (res, unmarked f, a) /\ res <> TX_QUEUED.
Proof.
  intros Hinv Hlt Hb. destruct (alloc_ok _ _ _ _ Hinv Hlt) as (k & Ek & _).
  unfold ssv6xxx_data_could_be_send. rewrite Ek. cbn [mbind option_bind]. cbv zeta.
  set (d := ssv6xxx_data_prepare_tx_data a f bAP flags).
  change (ssv6xxx_data_check_authed (set_desp a k (Some d)) d) with (ssv6xxx_data_check_authed a d).
  destruct (check_authed_ok a f bAP flags) as (res & Hres & Hq). fold d in Hres. rewrite Hres. cbn [mbind option_bind].
  change (d_frame d) with (unmarked f).
  destruct res; [|exists TX_DROP; cbn [mbind option_bind]; by rewrite set_release|done].
  unfold ssv6xxx_data_need_queue.
  assert (has (d_flags d) AP_TX_POLL_RESPONSE || has (d_flags d) AP_TX_NATIVE_AP_FRAME = true) as ->.
  { unfold d. rewrite prepared_flag, prepared_poll. destruct Hb as [-> | ->]; by rewrite ?orb_true_r. }
  cbn [mbind option_bind]. exists TX_CONTINUE. by rewrite set_release.
Qed.

(** What is said of sending a frame: who owns it afterwards *)
Definition handed (n : nat) (a : ApInfo) (held : list nat) (x : Z) (id : nat) (r : option (bool * ApInfo)) : Prop :=
  exists b a', r = Some (b, a') /\ quiet a a' /\ pool_inv n a' held x /\
    balance a' held ≡ₚ (if b then [id] else []) ++ balance a held /\
    a_StaConInfo a' = a_StaConInfo a /\ a_tim a' = a_tim a /\ a_pApTxData a' = a_pApTxData a.

Lemma hand_over_ok n a f held x : pool_inv n a held x -> handed n a held x (tf_id f) (Some (hand_over C a f None)).
Proof.
  intros Hinv. unfold hand_over, enqueue. set (a1 := a <| a_n_enqueue := S (a_n_enqueue a) |>).
  assert (pool_inv n a1 held x) as H1 by (by apply (pool_inv_same n a)).
  destruct (st_enqueue_ok C (a_n_enqueue a)).
  - destruct (emit_ok n a1 held x (TxEnqueue f) H1) as (Q & I & B). exists true, (ap_emit a1 (TxEnqueue f)).
    split; [done|]. split; [by etrans; [|exact Q]|]. by split_and!.
  - exists false, a1. by split_and!.
Qed.

Lemma frame_proc_direct deliver n a f held x : pool_inv n a held x ->
  (length (queued a ++ held) < AP_TOTAL_MAX_TX_DSP C)%nat -> has (tf_rsvd0 f) AP_PS_FRAME = true ->
  handed n a held x (tf_id f) (frame_proc C deliver a f None 0).
Proof.
  intros Hinv Hlt Hm. destruct (could_be_send_direct deliver n a f false 0 held x) as (res & E & Hq); try done; [by right|].
  unfold frame_proc. rewrite bool_decide_false by (by intros [? ?]). rewrite E. cbn [mbind option_bind].
  assert (tf_id (unmarked f) = tf_id f) as <- by (unfold unmarked; by case_match).
  destruct res; [by apply hand_over_ok| |done].
  destruct (emit_ok n a held x (FrameFree (unmarked f)) Hinv) as (Q & I & B).
  eexists _, _. split; [done|]. by split_and!.
Qed.


(** Management frames: a write that stays inside the buffer changes only the
    buffer. *)
Definition buffered_by (a : ApInfo) (r : option ApInfo) : Prop := exists b, r = Some (a <| a_pMgmtPkt := b |>).

Lemma mgmt_put_ok a off bytes : (off + length bytes <= AP_MGMT_PKT_LEN)%nat -> buffered_by a (mgmt_put a off bytes).
Proof. intros H. unfold mgmt_put. rewrite (proj2 (Nat.leb_le _ _) H). by eexists. Qed.

Lemma set_pkt_twice a (b c : list Z) : a <| a_pMgmtPkt := b |> <| a_pMgmtPkt := c |> = a <| a_pMgmtPkt := c |>.
Proof. done. Qed.

Lemma buffered_bind a r f : buffered_by a r -> (forall b, buffered_by (a <| a_pMgmtPkt := b |>) (f (a <| a_pMgmtPkt := b |>))) ->
  buffered_by a (r ≫= f).
Proof. intros [b ->] Hf. destruct (Hf b) as [b' E]. exists b'. exact E. Qed.

Lemma addr_room (addr : list Z) off : (off <= 1018)%nat -> (off + length (take 6 addr) <= AP_MGMT_PKT_LEN)%nat.
Proof. rewrite length_take. unfold AP_MGMT_PKT_LEN. lia. Qed.

Lemma put_addrs_ok a fc da bssid : buffered_by a (put_addrs C a fc da bssid).
Proof.
  unfold put_addrs. apply buffered_bind; [apply mgmt_put_ok; cbn; unfold AP_MGMT_PKT_LEN; lia|intros ?].
  do 2 (apply buffered_bind; [apply mgmt_put_ok, addr_room; lia|intros ?]).
  apply mgmt_put_ok, addr_room. lia.
Qed.

Lemma soc_data_send_ok n a held x len flags : pool_inv n a held x -> (n < AP_TOTAL_MAX_TX_DSP C)%nat ->
  exists a', ap_soc_data_send C a len flags = Some a' /\ moves n a held a' held x /\
    a_StaConInfo a' = a_StaConInfo a /\ a_tim a' = a_tim a.
Proof.
  intros Hinv Hlt. unfold ap_soc_data_send, frame_proc. rewrite bool_decide_true by (by eexists).
  destruct (could_be_send_direct (fun _ _ => None) n a (mgmt_view (take len (a_pMgmtPkt a))) true flags held x)
    as (res & E & Hq); [done|pose proof (pi_bound _ _ _ _ _ Hinv); lia|by left|].
  rewrite E. cbn [mbind option_bind].
  assert (forall a' e, pool_inv n a' held x -> quiet a a' -> balance a' held ≡ₚ balance a held -> out_id e = None ->
    moves n a held (ap_emit a' e) held x) as Hemit.
  { intros a' e I Q B He. destruct (emit_ok _ _ _ _ e I) as (Q' & I' & B'). rewrite He in B'. split; [by etrans|].
    split; [done|]. by rewrite B'. }
  destruct res; [|eexists; split; [done|]; by split; [apply Hemit|]|done].
  unfold hand_over, enqueue. destruct (st_dup_ok C (a_n_dup a)).
  - set (a1 := a <| a_n_dup := _ |>). set (a2 := a1 <| a_n_enqueue := _ |>).
    assert (pool_inv n a2 held x) as I2 by (by apply (pool_inv_same n a)).
    eexists. split; [done|]. split; [apply Hemit; try done; by destruct (st_enqueue_ok C _)|done].
  - eexists. split; [done|]. split; [|done]. split; [done|]. split; [by apply (pool_inv_same n a)|done].
Qed.

(** A change of flags that keeps [VALID], [PS_STA] and the core *)
Lemma flags_ok n a i s s' held x : pool_inv n a held x -> a_StaConInfo a !! i = Some s -> sta_core s' = sta_core s ->
  s_ps_tx_buf s' = s_ps_tx_buf s ->
  moves n a held (set_sta a i s') held x.
Proof.
  intros Hinv Hi Hc Hb. split; [by eapply quiet_sta|]. split; [|unfold balance; by rewrite (queued_same _ _ s)].
  apply (pool_inv_sta n a i s); [done| |done]. split_and!; [done|by apply (f_equal s_aid) in Hc|].
  intros _ Hv Hp. apply (f_equal (fun s => (test_sta_flag s WLAN_STA_VALID, test_sta_flag s WLAN_STA_PS_STA))) in Hc.
  unfold test_sta_flag, WLAN_STA_VALID, WLAN_STA_PS_STA in *.
  change (s_flags (sta_core ?s)) with (Z.land (s_flags s) (Z.lnot WLAN_STA_SP)) in Hc.
  rewrite !has_clear, !andb_true_r in Hc by lia. injection Hc as -> ->. done.
Qed.

(** A change to a station without queued frames *)
Lemma idle_sta_ok n a i s s' held x : pool_inv n a held x -> a_StaConInfo a !! i = Some s -> sta_queued s = [] ->
  s_ps_tx_buf s' = s_ps_tx_buf s -> s_aid s' = s_aid s ->
  pool_inv n (set_sta a i s') held x /\ balance (set_sta a i s') held = balance a held.
Proof.
  intros Hinv Hi He Hb Ha. split; [|unfold balance; by rewrite (queued_same _ _ s)].
  apply (pool_inv_sta n a i s); [done| |done]. split_and!; try done.
Qed.

Lemma sp_core s : sta_core (set_sta_flag s WLAN_STA_SP) = sta_core s /\ sta_core (clear_sta_flag s WLAN_STA_SP) = sta_core s.
Proof.
  assert (forall g, Z.land g (Z.lnot WLAN_STA_SP) = Z.land (s_flags s) (Z.lnot WLAN_STA_SP) ->
    sta_core (s <| s_flags := g |>) = sta_core s) as Hg.
  { intros g Hg. assert (has g WLAN_STA_VALID = has (s_flags s) WLAN_STA_VALID) as Hv.
    { apply (f_equal (fun z => has z WLAN_STA_VALID)) in Hg. unfold WLAN_STA_VALID in *.
      by rewrite !has_clear, !andb_true_r in Hg by lia. }
    unfold sta_core, test_sta_flag. change (s_flags (s <| s_flags := g |>)) with g. by rewrite Hg, Hv. }
  split; apply Hg; apply Z.bits_inj'; intros k Hk; rewrite !Z.land_spec, ?Z.lor_spec, Z.lnot_spec by done;
    destruct (Z.testbit _ k), (Z.testbit WLAN_STA_SP k); done.
Qed.

Lemma no_frames_queued s : sta_queued (no_frames s) = [].
Proof. reflexivity. Qed.

Lemma quiet_set_sta a a' i s : quiet a a' -> quiet (set_sta a i s) (set_sta a' i s).
Proof.
  unfold quiet. intros H. unfold ap_core in *.
  change (a_StaConInfo (set_sta ?a i s)) with (<[i := s]> (a_StaConInfo a)). rewrite !list_fmap_insert.
  apply (f_equal (fun a => a <| a_StaConInfo := <[i := sta_core s]> (a_StaConInfo a) |>)) in H. exact H.
Qed.

Lemma set_sta_twice a i s s' : set_sta (set_sta a i s) i s' = set_sta a i s'.
Proof. unfold set_sta. destruct a. unfold modify. cbn. by rewrite list_insert_insert_eq. Qed.

Lemma quiet_over a a' i s s' : quiet (set_sta a i s) a' -> quiet (set_sta a i s') (set_sta a' i s').
Proof. intros H%(quiet_set_sta _ _ i s'). by rewrite set_sta_twice in H. Qed.

(** *** Releasing frames *)
Section Release.
Context (n : nat) (proc : ApInfo -> tx_frame -> option (bool * ApInfo)).
Hypothesis Hn : (n < AP_TOTAL_MAX_TX_DSP C)%nat.
Hypothesis Hproc : forall a f held x, pool_inv n a held x -> has (tf_rsvd0 f) AP_PS_FRAME = true ->
  handed n a held x (tf_id f) (proc a f).

Lemma send_buffered_ok a k held x : pool_inv n a (k :: held) x ->
  exists a', ap_send_buffered_frame proc a k = Some a' /\ moves n a (k :: held) a' held x /\
    a_StaConInfo a' = a_StaConInfo a /\ a_tim a' = a_tim a.
Proof.
  intros Hinv. destruct (release_ok _ _ _ _ _ Hinv) as (d & Hd & _).
  unfold ap_send_buffered_frame. rewrite Hd. cbn [mbind option_bind].
  set (f := (d_frame d) <| tf_rsvd0 := Z.lor (tf_rsvd0 (d_frame d)) AP_PS_FRAME |>). assert (has (tf_rsvd0 f) AP_PS_FRAME = true) as Hm.
  { change (tf_rsvd0 f) with (Z.lor (tf_rsvd0 (d_frame d)) AP_PS_FRAME). unfold AP_PS_FRAME.
    rewrite has_lor by lia. by rewrite orb_true_r. }
  destruct (Hproc _ _ _ _ Hinv Hm) as (b & a1 & E & Q1 & I1 & B1 & S1 & T1 & P1). rewrite E. cbn [mbind option_bind].
  change (tf_id f) with (tf_id (d_frame d)) in B1. eexists. split; [done|].
  set (a2 := if b then a1 else _).
  assert (quiet a1 a2 /\ pool_inv n a2 (k :: held) x /\ balance a2 (k :: held) ≡ₚ tf_id (d_frame d) :: balance a (k :: held)
    /\ ap_desp a2 k = Some d /\ a_StaConInfo a2 = a_StaConInfo a /\ a_tim a2 = a_tim a) as (Q2 & I2 & B2 & D2 & S2 & T2).
  { assert (ap_desp a1 k = Some d) as D1 by (unfold ap_desp; by rewrite P1).
    destruct b; [by split_and!|]. unfold a2.
    destruct (emit_ok _ _ _ _ (FrameFree (f <| tf_rsvd0 := 0 |>)) I1) as (Q & I & B). split_and!; try done.
    rewrite B, B1. reflexivity. }
  destruct (release_ok _ _ _ _ _ I2) as (d' & D3 & Q3 & I3 & B3). rewrite D2 in D3. injection D3 as <-.
  split; [|split; [|done]].
  - split; [by etrans; [exact Q1|etrans; [exact Q2|]]|]. split; [done|]. rewrite B2 in B3. by apply Permutation_cons_inv in B3.
  - done.
Qed.

Lemma send_disposes : disposes n 1 (ap_send_buffered_frame proc).
Proof.
  intros a k held x Hinv _. destruct (send_buffered_ok _ _ _ _ Hinv) as (a' & E & M & S & T). by exists a'.
Qed.

Hypothesis Hw : Z.of_nat n < 65536.

Lemma take_frames_ok ac i : (ac < 4)%nat -> forall m a s held, pool_inv n a held 0 -> a_StaConInfo a !! i = Some s ->
  exists a', take_frames m a i ac = Some (take m (ps_queue s ac), (m - length (ps_queue s ac))%nat, a') /\
    moves n a held a' (take m (ps_queue s ac) ++ held) 0 /\
    a_StaConInfo a' = <[i := set_queue s ac (drop m (ps_queue s ac))]> (a_StaConInfo a) /\ a_tim a' = a_tim a.
Proof.
  intros Hac. induction m as [|m IH]; intros a s held Hinv Hi; destruct (get_sta _ _ _ _ _ _ Hinv Hi) as [Hl _].
  - cbn [take_frames take drop Nat.sub app]. exists a. rewrite set_queue_id by done. by rewrite list_insert_id.
  - pose proof (ps_deq_ok _ _ _ ac _ _ _ Hinv Hi Hac) as Hd. cbn [take_frames].
    destruct (ps_queue s ac) as [|k q] eqn:Eq.
    + rewrite Hd. cbn [mbind option_bind take drop length app Nat.sub]. exists a.
      rewrite <- Eq, set_queue_id by done. by rewrite list_insert_id.
    + destruct Hd as (Hd & Q1 & I1 & B1). rewrite Hd. cbn [mbind option_bind take drop length app Nat.sub].
      set (a1 := set_sta a i (set_queue s ac q)) in *. pose proof (lookup_lt_Some _ _ _ Hi) as Hlt.
      destruct (add_buffered_ok n a1 (k :: held) 1 (-1)) as (Q2 & I2 & B2); [done|lia| |done|].
      { pose proof (pi_x _ _ _ _ _ I1). lia. }
      assert (a_StaConInfo (add_buffered a1 (-1)) = <[i := set_queue s ac q]> (a_StaConInfo a)) as S2 by done.
      destruct (IH (add_buffered a1 (-1)) (set_queue s ac q) (k :: held) I2) as (a3 & E3 & M3 & S3 & T3).
      { by rewrite S2, list_lookup_insert_eq. }
      rewrite ps_queue_set in * by done. rewrite E3. cbn [mbind option_bind]. exists a3. split; [done|]. split.
      * eapply moves_trans; [split_and!; [exact Q1|exact I1|exact B1]|].
        eapply moves_trans; [split_and!; [exact Q2|exact I2|by rewrite B2]|].
        destruct M3 as (Q & I & B). split; [done|].
        assert (take m q ++ k :: held ≡ₚ k :: take m q ++ held) as Hp by (by rewrite Permutation_middle).
        split; [by eapply pool_inv_perm|]. etrans; [|exact B]. unfold balance. by rewrite <- Hp.
      * split; [|done]. rewrite S3, S2, set_queue_twice. by rewrite list_insert_insert_eq.
Qed.

Lemma collect_ok ignored i : forall acs m a s held, Forall (fun ac => (ac < 4)%nat) acs ->
  pool_inv n a held 0 -> a_StaConInfo a !! i = Some s ->
  let '(l, more, b) := pick m ignored acs (s_ps_tx_buf s) in
  exists a', collect m ignored acs a i = Some (l, more, a') /\ moves n a held a' (l ++ held) 0 /\
    a_StaConInfo a' = <[i := with_queues s b]> (a_StaConInfo a) /\ a_tim a' = a_tim a.
Proof.
  induction acs as [|ac acs IH]; intros m a s held Hacs Hinv Hi; cbn [pick collect].
  - exists a. assert (with_queues s (s_ps_tx_buf s) = s) as -> by (by destruct s). by rewrite list_insert_id.
  - apply list.Forall_cons_1 in Hacs as [Hac Hacs]. destruct (has ignored _); [by apply IH|].
    destruct (get_sta _ _ _ _ _ _ Hinv Hi) as [Hl _].
    destruct (take_frames_ok ac i Hac m a s held Hinv Hi) as (a1 & E1 & M1 & S1 & T1). rewrite E1. cbn [mbind option_bind].
    pose proof (lookup_lt_Some _ _ _ Hi) as Hlt. cbv zeta. fold (ps_queue s ac).
    assert (a_StaConInfo a1 !! i = Some (set_queue s ac (drop m (ps_queue s ac)))) as Hi1
      by (by rewrite S1, list_lookup_insert_eq).
    rewrite Hi1. cbn [mbind option_bind]. rewrite ps_queue_set by done.
    destruct (drop m (ps_queue s ac)) as [|k q] eqn:Ed; [|by exists a1].
    specialize (IH (m - length (ps_queue s ac))%nat a1 (set_queue s ac []) (take m (ps_queue s ac) ++ held) Hacs
      (moves_inv _ _ _ _ _ _ M1) Hi1).
    change (s_ps_tx_buf (set_queue s ac [])) with (<[ac := []]> (s_ps_tx_buf s)) in IH.
    destruct (pick _ ignored acs _) as [[l more] b]. destruct IH as (a2 & E2 & M2 & S2 & T2). rewrite E2. cbn [mbind option_bind].
    exists a2. split; [done|]. split; [|split; [|by rewrite T2]].
    + eapply moves_trans; [exact M1|]. destruct M2 as (Q & I & B). split; [done|].
      assert (l ++ take m (ps_queue s ac) ++ held ≡ₚ (take m (ps_queue s ac) ++ l) ++ held) as Hp by solve_Permutation.
      split; [by eapply pool_inv_perm|]. etrans; [|exact B]. unfold balance. by rewrite Hp.
    + rewrite S2, S1. by rewrite list_insert_insert_eq.
Qed.

Lemma send_frames_ok more reason i : forall l a s held, pool_inv n a (l ++ held) 0 -> a_StaConInfo a !! i = Some s ->
  exists a' s', send_frames proc l more reason a i = Some a' /\ moves n a (l ++ held) a' held 0 /\
    a_StaConInfo a' = <[i := s']> (a_StaConInfo a) /\ sta_core s' = sta_core s /\
    s_ps_tx_buf s' = s_ps_tx_buf s /\ s_flags s' = s_flags s /\ a_tim a' = a_tim a.
Proof.
  induction l as [|k l IH]; intros a s held Hinv Hi; cbn [send_frames app].
  - exists a, s. by rewrite list_insert_id.
  - cbn [app] in Hinv. destruct (release_ok _ _ _ _ _ Hinv) as (d & Hd & _). rewrite Hd. cbn [mbind option_bind].
    set (f := mark_frame (d_frame d) more (bool_decide (l = [])) reason).
    set (d' := mk_desp f (d_sta d) (d_priority d) (d_flags d) (d_jiffies d)).
    assert (tf_id (d_frame d') = tf_id (d_frame d)) as Hid by (unfold d', f, mark_frame; by repeat case_match).
    destruct (replace_ok n a k (l ++ held) 0 d d' Hinv Hd Hid) as (Q1 & I1 & _ & B1).
    destruct (send_buffered_ok _ _ _ _ I1) as (a2 & E2 & M2 & S2 & T2). rewrite E2. cbn [mbind option_bind].
    assert (a_StaConInfo a2 !! i = Some s) as Hi2 by (by rewrite S2).
    unfold upd_sta. rewrite Hi2. cbn [mbind option_bind].
    set (s3 := if (0 <=? s_fw_q_len s) && bool_decide (reason = FRAME_RELEASE_PSPOLL)
                then s <| s_fw_q_len := s32 (s_fw_q_len s + 1) |> else s). set (a3 := set_sta a2 i s3).
    assert (sta_core s3 = sta_core s /\ s_ps_tx_buf s3 = s_ps_tx_buf s /\ s_flags s3 = s_flags s /\ s_aid s3 = s_aid s)
      as (C3 & P3 & F3 & A3) by (unfold s3; by case_match).
    pose proof (moves_inv _ _ _ _ _ _ M2) as I2. pose proof (lookup_lt_Some _ _ _ Hi2) as Hlt.
    assert (moves n a2 (l ++ held) a3 (l ++ held) 0) as M3.
    { split; [by eapply quiet_sta|]. split; [|unfold balance, a3; by rewrite (queued_same _ _ s)].
      apply (pool_inv_sta n a2 i s); [done| |done]. split_and!; [done|done|]. unfold test_sta_flag. by rewrite F3. }
    destruct (IH a3 s3 held (moves_inv _ _ _ _ _ _ M3)) as (a4 & s4 & E4 & M4 & S4 & C4 & P4 & F4 & T4).
    { unfold a3. change (a_StaConInfo (set_sta a2 i s3)) with (<[i := s3]> (a_StaConInfo a2)). by rewrite list_lookup_insert_eq. }
    exists a4, s4. split; [done|]. split.
    { eapply moves_trans; [split_and!; [exact Q1|exact I1|exact B1]|]. eapply moves_trans; [exact M2|].
      by eapply moves_trans. }
    split; [|split; [by rewrite C4|split; [by rewrite P4|split; [by rewrite F4|by rewrite T4]]]].
    rewrite S4. unfold a3. change (a_StaConInfo (set_sta a2 i s3)) with (<[i := s3]> (a_StaConInfo a2)).
    rewrite list_insert_insert_eq. by rewrite S2.
Qed.

Lemma null_response_ok a i s held x tid reason : pool_inv n a held x -> a_StaConInfo a !! i = Some s ->
  exists a', ieee80211_send_null_response C a i tid reason = Some a' /\ moves n a held a' held x /\
    a_StaConInfo a' = a_StaConInfo a /\ a_tim a' = a_tim a.
Proof.
  intros Hinv Hi. unfold ieee80211_send_null_response. rewrite Hi. cbn [mbind option_bind].
  destruct (put_addrs_ok a (if test_sta_flag s WLAN_STA_WMM then FC_QOS_NULLFUNC else FC_NULLFUNC) (s_addr s) (st_own_addr C))
    as [b1 ->]. cbn [mbind option_bind].
  destruct (mgmt_put_ok (a <| a_pMgmtPkt := b1 |>) 2 [0; 0]) as [b2 ->]; [cbn; unfold AP_MGMT_PKT_LEN; lia|]. cbn [mbind option_bind].
  rewrite set_pkt_twice. assert (buffered_by a (if test_sta_flag s WLAN_STA_WMM then
    mgmt_put (a <| a_pMgmtPkt := b2 |>) 24 (WPA_PUT_LE16 (if bool_decide (reason = FRAME_RELEASE_UAPSD)
      then Z.lor tid IEEE80211_QOS_CTL_EOSP else tid)) else Some (a <| a_pMgmtPkt := b2 |>))) as [b3 ->].
  { case_match; [|by eexists]. match goal with |- buffered_by _ (mgmt_put _ _ ?l) =>
      destruct (mgmt_put_ok (a <| a_pMgmtPkt := b2 |>) 24 l) as [b3 ->]; [cbn; unfold AP_MGMT_PKT_LEN; lia|by exists b3] end. }
  cbn [mbind option_bind]. set (a1 := a <| a_pMgmtPkt := b3 |>).
  assert (pool_inv n a1 held x) as I1 by (by apply (pool_inv_same n a)).
  destruct (soc_data_send_ok n a1 held x (if test_sta_flag s WLAN_STA_WMM then 26 else 24) AP_TX_POLL_RESPONSE I1 Hn)
    as (a2 & E2 & M2 & S2 & T2).
  exists a2. split; [done|]. split; [|by rewrite S2, T2]. eapply moves_trans; [|exact M2]. by split_and!.
Qed.

(** What an operation on station [i] leaves: the same station up to queues,
    firmware queue length and service period, and an exact bit in the map. *)
Definition served (a : ApInfo) (held : list nat) (i : nat) (s : APStaInfo) (b : list (list nat)) (a' : ApInfo) : Prop :=
  exists s', moves n a held a' held 0 /\ a_StaConInfo a' = <[i := s']> (a_StaConInfo a) /\
    sta_core s' = sta_core s /\ s_ps_tx_buf s' = b /\
    __bss_tim_get a' (s_aid s) = Some (indicate_tim s') /\
    forall aid, 0 <= aid -> aid <> s_aid s -> __bss_tim_get a' aid = __bss_tim_get a aid.

Lemma deliver_ok a i s held m ignored reason : pool_inv n a held 0 -> a_StaConInfo a !! i = Some s ->
  exists a', ieee80211_sta_ps_deliver_response C proc a i m ignored reason = Some a' /\
    served a held i s (pick m ignored (seq 0 4) (s_ps_tx_buf s)).2 a'.
Proof.
  intros Hinv Hi. pose proof (lookup_lt_Some _ _ _ Hi) as Hlt. unfold ieee80211_sta_ps_deliver_response, upd_sta.
  set (s1 := if bool_decide (reason = FRAME_RELEASE_UAPSD) then set_sta_flag s WLAN_STA_SP else s).
  set (a1 := if bool_decide (reason = FRAME_RELEASE_UAPSD) then set_sta a i s1 else a).
  assert ((if bool_decide (reason = FRAME_RELEASE_UAPSD) then s0 ← a_StaConInfo a !! i; Some (set_sta a i (set_sta_flag s0 WLAN_STA_SP))
           else Some a) = Some a1) as ->.
  { unfold a1, s1. case_bool_decide; [|done]. by rewrite Hi. }
  assert (sta_core s1 = sta_core s /\ s_ps_tx_buf s1 = s_ps_tx_buf s /\ s_aid s1 = s_aid s) as (C1 & P1 & A1).
  { unfold s1. case_bool_decide; [|done]. split; [apply sp_core|done]. }
  assert (moves n a held a1 held 0 /\ a_StaConInfo a1 = <[i := s1]> (a_StaConInfo a) /\ a_tim a1 = a_tim a) as (M1 & S1 & T1).
  { unfold a1, s1. case_bool_decide; [|by rewrite list_insert_id]. split; [|done]. apply (flags_ok n a i s); try done. }
  cbn [mbind option_bind].
  assert (a_StaConInfo a1 !! i = Some s1) as Hi1 by (by rewrite S1, list_lookup_insert_eq).
  pose proof (collect_ok ignored i (seq 0 4) m a1 s1 held ltac:(by repeat (constructor; [lia|])) (moves_inv _ _ _ _ _ _ M1) Hi1) as Hc.
  rewrite P1 in Hc. change IEEE80211_NUM_ACS with 4%nat. destruct (pick m ignored (seq 0 4) (s_ps_tx_buf s)) as [[l more] b].
  destruct Hc as (a2 & E2 & M2 & S2 & T2). rewrite E2. cbn [mbind option_bind snd].
  assert (a_StaConInfo a2 !! i = Some (with_queues s1 b)) as Hi2 by (by rewrite S2, list_lookup_insert_eq; [|rewrite S1, length_insert]).
  set (m3 := match l with [] => _ | _ => _ end).
  assert (exists a3 s3, m3 = Some a3 /\ moves n a2 (l ++ held) a3 held 0 /\ a_StaConInfo a3 = <[i := s3]> (a_StaConInfo a2) /\
    sta_core s3 = sta_core s /\ s_ps_tx_buf s3 = b /\ a_tim a3 = a_tim a2) as (a3 & s3 & E3 & M3 & S3 & C3 & P3 & T3).
  { unfold m3. destruct l as [|k l].
    - rewrite Hi2. cbn [mbind option_bind app].
      destruct ((s_fw_q_len (with_queues s1 b) <? 0) && negb (s_fw_q_len (with_queues s1 b) =? UNKNOWN_FW_QUEUE_LENGTH)).
      + destruct (null_response_ok a2 i _ held 0 (7 - Z.shiftl (ffs (Z.lnot ignored) - 1) 1) reason (moves_inv _ _ _ _ _ _ M2) Hi2)
          as (a3 & E3 & M3 & S3 & T3). exists a3, (with_queues s1 b). split_and!; try done. by rewrite S3, list_insert_id.
      + exists a2, (with_queues s1 b). split_and!; try done; [|by rewrite list_insert_id]. apply moves_refl. by eapply moves_inv.
    - destruct (send_frames_ok more reason i (k :: l) a2 _ held (moves_inv _ _ _ _ _ _ M2) Hi2)
        as (a3 & s3 & E3 & M3 & S3 & C3 & P3 & _ & T3). exists a3, s3. split_and!; try done. by rewrite C3. }
  rewrite E3. cbn [mbind option_bind].
  assert (length (a_StaConInfo a2) = length (a_StaConInfo a)) as L2 by (by rewrite S2, length_insert, S1, length_insert).
  assert (a_StaConInfo a3 !! i = Some s3) as Hi3 by (rewrite S3, list_lookup_insert_eq; [done|by rewrite L2]).
  assert (s_aid s3 = s_aid s) as A3 by (by apply (f_equal s_aid) in C3).
  destruct (recalc_beacon_ok _ _ _ _ _ _ (moves_inv _ _ _ _ _ _ M3) Hi3) as (a4 & E4 & M4 & S4 & T4 & T4').
  rewrite E4. cbn [mbind option_bind]. rewrite S4, Hi3. cbn [mbind option_bind]. eexists. split; [done|].
  assert (a_StaConInfo a4 !! i = Some s3) as Hi4 by (by rewrite S4).
  exists (clear_sta_flag s3 WLAN_STA_SP).
  pose proof (flags_ok n a4 i s3 (clear_sta_flag s3 WLAN_STA_SP) held 0 (moves_inv _ _ _ _ _ _ M4) Hi4 (proj2 (sp_core s3)) eq_refl) as M5.
  split_and!.
  - eapply moves_trans; [exact M1|]. eapply moves_trans; [exact M2|]. eapply moves_trans; [exact M3|]. by eapply moves_trans.
  - change (a_StaConInfo (set_sta a4 i ?x)) with (<[i := x]> (a_StaConInfo a4)). rewrite S4, S3, S2, S1. by rewrite !list_insert_insert_eq.
  - by rewrite (proj2 (sp_core s3)).
  - done.
  - rewrite <- A3. exact T4.
  - intros aid H0 Hne. rewrite <- A3 in Hne. etrans; [apply (T4' aid H0 Hne)|]. unfold __bss_tim_get. by rewrite T3, T2, T1.
Qed.

Lemma wakeup_acs_ok i : forall acs a s held x, Forall (fun ac => (ac < 4)%nat) acs ->
  pool_inv n a held x -> 0 <= x -> a_StaConInfo a !! i = Some s -> List.NoDup acs ->
  exists c a', wakeup_acs proc acs a i = Some (c, a') /\ moves n a held a' held (x + c) /\ 0 <= c /\
    a_StaConInfo a' = <[i := foldl (fun s ac => set_queue s ac []) s acs]> (a_StaConInfo a) /\ a_tim a' = a_tim a.
Proof.
  induction acs as [|ac acs IH]; intros a s held x Hacs Hinv Hx Hi Hnd; cbn [wakeup_acs foldl].
  - exists 0, a. rewrite Z.add_0_r. split_and!; try done. by rewrite list_insert_id.
  - apply list.Forall_cons_1 in Hacs as [Hac Hacs]. rewrite Hi. cbn [mbind option_bind].
    destruct (drain_ac_ok n 1 _ i ac a s held x send_disposes) as (a1 & E1 & M1 & S1 & T1); try done.
    rewrite E1. cbn [mbind option_bind]. pose proof (lookup_lt_Some _ _ _ Hi) as Hlt.
    assert (a_StaConInfo a1 !! i = Some (set_queue s ac [])) as Hi1 by (by rewrite S1, list_lookup_insert_eq).
    destruct (IH a1 (set_queue s ac []) held (x + 1 * Z.of_nat (length (ps_queue s ac)))) as (c & a2 & E2 & M2 & Hc & S2 & T2); try done;
      [by eapply moves_inv|lia|by inversion Hnd|].
    rewrite E2. cbn [mbind option_bind]. eexists _, a2. split; [done|]. split; [|split; [lia|]].
    + eapply moves_trans; [exact M1|].
      by replace (x + (Z.of_nat (length (ps_queue s ac)) + c)) with (x + 1 * Z.of_nat (length (ps_queue s ac)) + c) by lia.
    + split; [|by rewrite T2]. rewrite S2, S1. by rewrite list_insert_insert_eq.
Qed.

(** The station as [sta_ps_deliver_wakeup] leaves it *)
Definition woken (s : APStaInfo) : APStaInfo :=
  (clear_sta_flag (clear_sta_flag (no_frames s) WLAN_STA_SP) WLAN_STA_PS_STA)
    <| s_fw_q_len := UNKNOWN_FW_QUEUE_LENGTH |>.

Lemma wakeup_ok a i s held : pool_inv n a held 0 -> a_StaConInfo a !! i = Some s ->
  exists a', sta_ps_deliver_wakeup C proc a i = Some a' /\ pool_inv n a' held 0 /\ balance a' held ≡ₚ balance a held /\
    quiet (set_sta a i (woken s)) a' /\ a_StaConInfo a' = <[i := woken s]> (a_StaConInfo a) /\
    __bss_tim_get a' (s_aid s) = Some false /\
    forall aid, 0 <= aid -> aid <> s_aid s -> __bss_tim_get a' aid = __bss_tim_get a aid.
Proof.
  intros Hinv Hi. pose proof (lookup_lt_Some _ _ _ Hi) as Hlt. destruct (get_sta _ _ _ _ _ _ Hinv Hi) as [Hl _].
  destruct (wakeup_acs_ok i (seq 0 4) a s held 0) as (c & a1 & E1 & M1 & Hc & S1 & T1); try done;
    [by repeat (constructor; [lia|])|apply List.seq_NoDup|].
  assert (foldl (fun s ac => set_queue s ac []) s (seq 0 4) = no_frames s) as Hf.
  { cbn [seq foldl]. change (with_queues s
      (<[3 := []]> (<[2 := []]> (<[1 := []]> (<[0 := []]> (s_ps_tx_buf s)))))%nat = with_queues s (replicate 4 [])).
    f_equal. destruct (s_ps_tx_buf s) as [|q0 [|q1 [|q2 [|q3 [|]]]]]; done. }
  rewrite Hf in S1. unfold sta_ps_deliver_wakeup. change IEEE80211_NUM_ACS with 4%nat. rewrite E1. cbn [mbind option_bind].
  assert (a_StaConInfo a1 !! i = Some (no_frames s)) as Hi1 by (by rewrite S1, list_lookup_insert_eq).
  destruct M1 as (Q1 & I1 & B1). set (s2 := clear_sta_flag (clear_sta_flag (no_frames s) WLAN_STA_SP) WLAN_STA_PS_STA).
  unfold upd_sta at 2. rewrite Hi1. cbn [mbind option_bind]. fold s2.
  destruct (idle_sta_ok n a1 i (no_frames s) s2 held (0 + c) I1 Hi1 eq_refl eq_refl eq_refl) as [I2 B2].
  set (a2 := set_sta a1 i s2) in *.
  destruct (add_buffered_ok n a2 held (0 + c) (- c)) as (Q3 & I3 & B3); [done|lia| |done|].
  { pose proof (pi_x _ _ _ _ _ I2). pose proof (pi_bound _ _ _ _ _ I2). rewrite length_app in *. lia. }
  set (a3 := add_buffered a2 (- c)) in *. replace (0 + c + - c) with 0 in I3 by lia.
  assert (a_StaConInfo a3 = <[i := s2]> (a_StaConInfo a)) as S3.
  { change (a_StaConInfo a3) with (<[i := s2]> (a_StaConInfo a1)). rewrite S1. by rewrite list_insert_insert_eq. }
  assert (a_StaConInfo a3 !! i = Some s2) as Hi3 by (by rewrite S3, list_lookup_insert_eq).
  unfold upd_sta. rewrite Hi3. cbn [mbind option_bind]. change (s2 <| s_fw_q_len := UNKNOWN_FW_QUEUE_LENGTH |>) with (woken s).
  destruct (idle_sta_ok n a3 i s2 (woken s) held 0 I3 Hi3 eq_refl eq_refl eq_refl) as [I4 B4].
  set (a4 := set_sta a3 i (woken s)) in *.
  assert (a_StaConInfo a4 = <[i := woken s]> (a_StaConInfo a)) as S4.
  { change (a_StaConInfo a4) with (<[i := woken s]> (a_StaConInfo a3)). rewrite S3. by rewrite list_insert_insert_eq. }
  assert (a_StaConInfo a4 !! i = Some (woken s)) as Hi4 by (by rewrite S4, list_lookup_insert_eq).
  destruct (recalc_beacon_ok _ _ _ _ _ _ I4 Hi4) as (a5 & E5 & (Q5 & I5 & B5) & S5 & T5 & T5').
  rewrite E5. exists a5. split; [done|]. split; [done|]. split; [by rewrite B5, B4, B3, B2|]. split; [|split; [by rewrite S5|split]].
  - etrans; [|exact Q5]. unfold a4. apply (quiet_over _ _ _ s2). etrans; [|exact Q3]. unfold a2. by apply quiet_set_sta.
  - change (s_aid (woken s)) with (s_aid s) in T5. rewrite T5. f_equal.
    unfold indicate_tim, ps_queue. change (s_ps_tx_buf (woken s)) with (replicate 4 (@nil nat)).
    cbn [seq existsb IEEE80211_NUM_ACS replicate lookup list_lookup default length]. by rewrite !andb_false_r.
  - intros aid H0 Hne. rewrite T5' by done. unfold __bss_tim_get. change (a_tim a4) with (a_tim a1). by rewrite T1.
Qed.
End Release.

(** *** Queueing a frame *)
Lemma pool_inv_bound n m a held x : pool_inv n a held x -> (length (queued a ++ held) <= m)%nat ->
  Z.of_nat (length (queued a)) + x <= Z.of_nat m -> pool_inv m a held x.
Proof. intros [H1 H2 H3 H4 H5 H6 H7 H8 H9 H10 H11] Hm Hx. constructor; try done. split; [apply H8|done]. Qed.

(** What making room leaves of a station: its queues lose frames at the front. *)
Definition trimmed (a a' : ApInfo) : Prop :=
  a_tim a' = a_tim a /\ (length (queued a') <= length (queued a))%nat /\
  forall i s, a_StaConInfo a !! i = Some s -> exists b, a_StaConInfo a' !! i = Some (with_queues s b) /\
    forall ac, exists m, ps_queue (with_queues s b) ac = drop m (ps_queue s ac).

Lemma trimmed_refl a : trimmed a a.
Proof.
  split; [done|]. split; [done|]. intros i s Hi. exists (s_ps_tx_buf s).
  assert (with_queues s (s_ps_tx_buf s) = s) as -> by (by destruct s). split; [done|]. intros ac. by exists O.
Qed.

Lemma trimmed_trans a1 a2 a3 : trimmed a1 a2 -> trimmed a2 a3 -> trimmed a1 a3.
Proof.
  intros (T1 & L1 & H1) (T2 & L2 & H2). split; [by rewrite T2|]. split; [lia|]. intros i s Hi.
  destruct (H1 i s Hi) as (b1 & Hi1 & Hd1). destruct (H2 _ _ Hi1) as (b2 & Hi2 & Hd2). exists b2.
  split; [done|]. intros ac. destruct (Hd1 ac) as [m1 E1], (Hd2 ac) as [m2 E2]. exists (m1 + m2)%nat.
  change (ps_queue (with_queues (with_queues s b1) b2) ac) with (ps_queue (with_queues s b2) ac) in E2.
  rewrite E2, E1. by rewrite drop_drop.
Qed.

Lemma ps_queue_other s ac ac' q : ac <> ac' -> ps_queue (set_queue s ac q) ac' = ps_queue s ac'.
Proof.
  intros Hne. unfold ps_queue. change (s_ps_tx_buf (set_queue s ac q)) with (<[ac := q]> (s_ps_tx_buf s)).
  by rewrite list_lookup_insert_ne.
Qed.

Lemma trim_one a a' i s ac k q : a_StaConInfo a !! i = Some s -> length (s_ps_tx_buf s) = 4%nat -> (ac < 4)%nat ->
  ps_queue s ac = k :: q -> a_StaConInfo a' = a_StaConInfo (set_sta a i (set_queue s ac q)) -> a_tim a' = a_tim a ->
  trimmed a a' /\ (length (queued a') < length (queued a))%nat.
Proof.
  intros Hi Hl Hac Eq S2 T2. pose proof (lookup_lt_Some _ _ _ Hi) as Hlt.
  assert (length (queued a') < length (queued a))%nat as Hlen.
  { destruct (queued_insert a i s ac q Hi Hl Hac) as (r & P1 & P2). unfold queued at 1. rewrite S2.
    fold (queued (set_sta a i (set_queue s ac q))). rewrite P2, P1, Eq, !length_app. cbn [length]. lia. }
  split; [|done]. split; [done|]. split; [lia|]. intros j sj Hj. rewrite S2.
  change (a_StaConInfo (set_sta a i (set_queue s ac q))) with (<[i := set_queue s ac q]> (a_StaConInfo a)).
  destruct (decide (i = j)) as [<-|Hne].
  - rewrite Hi in Hj. injection Hj as <-. rewrite list_lookup_insert_eq by done. exists (<[ac := q]> (s_ps_tx_buf s)).
    split; [done|]. intros ac'. destruct (decide (ac = ac')) as [<-|Hne].
    + exists 1%nat. rewrite Eq. apply (ps_queue_set s ac q Hl Hac).
    + exists O. by apply (ps_queue_other s ac).
  - rewrite list_lookup_insert_ne by done. exists (s_ps_tx_buf sj).
    assert (with_queues sj (s_ps_tx_buf sj) = sj) as -> by (by destruct sj). split; [done|]. intros ac'. by exists O.
Qed.

Lemma purge_acs_ok n i held : Z.of_nat n < 65536 -> forall acs a s, Forall (fun ac => (ac < 4)%nat) acs ->
  pool_inv n a held 0 -> a_StaConInfo a !! i = Some s ->
  exists a', purge_old_acs a i acs = Some a' /\ moves n a held a' held 0 /\ trimmed a a' /\
    (forall j, j <> i -> a_StaConInfo a' !! j = a_StaConInfo a !! j) /\
    ((exists ac, ac ∈ acs /\ ps_queue s ac <> []) -> (length (queued a') < length (queued a))%nat).
Proof.
  intros Hn. induction acs as [|ac acs IH]; intros a s Hacs Hinv Hi; cbn [purge_old_acs].
  - exists a. split; [done|]. split; [done|]. split; [apply trimmed_refl|]. split; [done|].
    intros (ac & Hin & _). by apply not_elem_of_nil in Hin.
  - apply list.Forall_cons_1 in Hacs as [Hac Hacs]. pose proof (ps_deq_ok _ _ _ ac _ _ _ Hinv Hi Hac) as Hd.
    destruct (ps_queue s ac) as [|k q] eqn:Eq.
    + rewrite Hd. cbn [mbind option_bind]. destruct (IH a s Hacs Hinv Hi) as (a' & E & M & T & O & L).
      exists a'. split; [done|]. split; [done|]. split; [done|]. split; [done|].
      intros (ac' & [->|Hin]%elem_of_cons & Hne); [done|]. apply L. by exists ac'.
    + destruct Hd as (Hd & Q1 & I1 & B1). rewrite Hd. cbn [mbind option_bind].
      destruct (purge_one_ok _ _ _ _ _ I1 ltac:(lia) Hn) as (a2 & E2 & M2 & S2 & T2). exists a2. split; [done|].
      destruct (get_sta _ _ _ _ _ _ Hinv Hi) as [Hl _]. pose proof (lookup_lt_Some _ _ _ Hi) as Hlt.
      destruct (trim_one a a2 i s ac k q) as [Ht Hlen]; try done.
      split; [by eapply moves_trans; [split_and!; [exact Q1|exact I1|exact B1]|]|]. split; [done|]. split; [|done].
      intros j Hne. rewrite S2. by apply list_lookup_insert_ne.
Qed.

Lemma queue_somewhere s : length (s_ps_tx_buf s) = 4%nat -> sta_queued s <> [] ->
  exists ac, ac ∈ [3; 2; 1; 0]%nat /\ ps_queue s ac <> [].
Proof.
  intros Hl Hne. unfold sta_queued, ps_queue in *. destruct (s_ps_tx_buf s) as [|q0 [|q1 [|q2 [|q3 [|]]]]]; try done.
  cbn [concat] in Hne.
  destruct q0; [|exists 0%nat; split; [apply list_elem_of_In; cbn; tauto|done]]. destruct q1; [|exists 1%nat; split; [apply list_elem_of_In; cbn; tauto|done]].
  destruct q2; [|exists 2%nat; split; [apply list_elem_of_In; cbn; tauto|done]]. destruct q3; [done|exists 3%nat; split; [apply list_elem_of_In; cbn; tauto|done]].
Qed.

Lemma purge_old_ok n held : Z.of_nat n < 65536 -> forall l a, (forall i, i ∈ l -> (i < st_gMaxAID C)%nat) ->
  pool_inv n a held 0 ->
  exists a', for_stations purge_old_sta l a = Some a' /\ moves n a held a' held 0 /\ trimmed a a' /\
    ((exists i s, i ∈ l /\ a_StaConInfo a !! i = Some s /\ sta_queued s <> []) ->
     (length (queued a') < length (queued a))%nat).
Proof.
  intros Hn. induction l as [|i l IH]; intros a Hl Hinv; cbn [for_stations].
  - exists a. split; [done|]. split; [done|]. split; [apply trimmed_refl|]. intros (i & s & Hi & _). by apply not_elem_of_nil in Hi.
  - destruct (lookup_lt_is_Some_2 (a_StaConInfo a) i) as [s Hi]; [rewrite (pi_sta _ _ _ _ _ Hinv); apply Hl; by left|].
    assert (exists a1, purge_old_sta a i = Some a1 /\ moves n a held a1 held 0 /\ trimmed a a1 /\
      (forall j, j <> i -> a_StaConInfo a1 !! j = a_StaConInfo a !! j) /\
      (sta_queued s <> [] -> (length (queued a1) < length (queued a))%nat)) as (a1 & E1 & M1 & T1 & O1 & L1).
    { unfold purge_old_sta. rewrite Hi. cbn [mbind option_bind].
      destruct (test_sta_flag s WLAN_STA_VALID) eqn:Ev.
      - destruct (purge_acs_ok n i held Hn [3; 2; 1; 0]%nat a s ltac:(by repeat (constructor; [lia|])) Hinv Hi)
          as (a1 & E1 & M1 & T1 & O1 & L1). exists a1. split_and!; [done..|]. intros Hne. apply L1.
        apply queue_somewhere; [apply (get_sta _ _ _ _ _ _ Hinv Hi)|done].
      - exists a. split_and!; [done|done|apply trimmed_refl|done|]. intros Hne.
        destruct (Forall_lookup_1 _ _ _ _ (pi_sleep _ _ _ _ _ Hinv) Hi Hne) as [Hv _]. congruence. }
    rewrite E1. cbn [mbind option_bind].
    destruct (IH a1) as (a2 & E2 & M2 & T2 & L2); [intros j Hj; apply Hl; by right|by eapply moves_inv|].
    exists a2. split; [done|]. split; [by eapply moves_trans|]. split; [by eapply trimmed_trans|].
    pose proof (proj1 (proj2 T1)) as Le1. pose proof (proj1 (proj2 T2)) as Le2.
    intros (j & sj & Hj & Hsj & Hne). destruct (decide (i = j)) as [<-|Hij].
    + rewrite Hi in Hsj. injection Hsj as <-. specialize (L1 Hne). lia.
    + apply elem_of_cons in Hj as [->|Hj]; [done|]. assert (length (queued a2) < length (queued a1))%nat; [|lia].
      apply L2. exists j, sj. by rewrite O1.
Qed.

Lemma queued_at a : queued a <> [] -> exists i s, a_StaConInfo a !! i = Some s /\ sta_queued s <> [].
Proof.
  unfold queued. induction (a_StaConInfo a) as [|s l IH]; [done|]. cbn [fmap list_fmap concat]. intros Hne.
  destruct (sta_queued s) as [|k q] eqn:E.
  - destruct (IH Hne) as (i & s' & Hi & Hs'). by exists (S i), s'.
  - exists O, s. by rewrite E.
Qed.

Local Notation P := (AP_TOTAL_MAX_TX_BUFFER C).
(** The size of the pool: the host configuration has 72. *)
Context (HP1 : (1 <= P)%nat) (HP2 : Z.of_nat P + 1 < 65536).

Lemma room_ok a held : pool_inv (S P) a held 0 -> (length (queued a) <= P)%nat ->
  exists a', (if Z.of_nat P <=? a_total_ps_buffered a then purge_old_ps_buffers C a else Some a) = Some a' /\
    moves (S P) a held a' held 0 /\ trimmed a a' /\ (length (queued a') < P)%nat.
Proof.
  intros Hinv Hle. pose proof (pi_total _ _ _ _ _ Hinv) as Ht. destruct (Z.leb_spec (Z.of_nat P) (a_total_ps_buffered a)).
  - destruct (purge_old_ok (S P) held ltac:(lia) (seq 0 (st_gMaxAID C)) a) as (a' & E & M & T & L); [|done|].
    { intros j Hj%elem_of_seq. lia. }
    exists a'. split; [done|]. split; [done|]. split; [done|].
    assert (length (queued a') < length (queued a))%nat; [|lia]. apply L.
    destruct (queued_at a) as (i & s & Hi & Hs); [intros E0; rewrite E0 in Ht; cbn [length] in Ht; lia|].
    exists i, s. split; [|done]. apply elem_of_seq. pose proof (lookup_lt_Some _ _ _ Hi). rewrite (pi_sta _ _ _ _ _ Hinv) in *. lia.
  - exists a. split; [done|]. split; [done|]. split; [apply trimmed_refl|]. lia.
Qed.

(** Either the oldest frame of the queue goes or the new frame is counted. *)
Lemma displace_ok a i s ac held : pool_inv (S P) a held 0 -> (length (queued a) < P)%nat ->
  a_StaConInfo a !! i = Some s -> (ac < 4)%nat ->
  exists a', (if (AP_STA_MAX_TX_BUFFER <=? length (ps_queue s ac))%nat
              then '(old, a) ← ps_deq a i ac; old ← old; ap_release_tx_desp_and_frame a old
              else Some (add_buffered a 1)) = Some a' /\
    moves (S P) a held a' held 1 /\ trimmed a a' /\ (length (queued a') < P)%nat.
Proof.
  intros Hinv Hlt Hi Hac. destruct (get_sta _ _ _ _ _ _ Hinv Hi) as [Hl _].
  destruct (Nat.leb_spec AP_STA_MAX_TX_BUFFER (length (ps_queue s ac))) as [Hmax|_].
  - pose proof (ps_deq_ok _ _ _ ac _ _ _ Hinv Hi Hac) as Hd. pose proof (lookup_lt_Some _ _ _ Hi) as Hil.
    destruct (ps_queue s ac) as [|k q] eqn:Eq; [unfold AP_STA_MAX_TX_BUFFER in Hmax; cbn in Hmax; lia|].
    destruct Hd as (Hd & Q1 & I1 & B1). rewrite Hd. cbn [mbind option_bind].
    destruct (free_ok _ _ _ _ _ I1) as (a2 & E2 & Q2 & I2 & B2 & S2 & T2). exists a2. split; [done|].
    destruct (trim_one a a2 i s ac k q) as [Ht Hlen]; try done.
    split; [split; [by etrans|split; [done|by rewrite B2]]|]. split; [done|lia].
  - exists (add_buffered a 1). split; [done|].
    destruct (add_buffered_ok (S P) a held 0 1 Hinv) as (Q & I & B); [lia|lia|lia|].
    split; [by split_and!; [| |rewrite B]|]. split; [|done]. exact (trimmed_refl a).
Qed.

Lemma ps_enqueue_ok a k i s ac : pool_inv (S P) a [k] 0 -> (length (queued a) <= P)%nat -> a_StaConInfo a !! i = Some s ->
  (ac < 4)%nat -> test_sta_flag s WLAN_STA_VALID = true -> test_sta_flag s WLAN_STA_PS_STA = true ->
  exists a' s' m, ps_enqueue C a k i ac = Some a' /\ moves (S P) a [k] a' [] 0 /\ pool_inv P a' [] 0 /\
    a_StaConInfo a' !! i = Some s' /\ sta_core s' = sta_core s /\
    ps_queue s' ac = drop m (ps_queue s ac) ++ [k] /\ a_tim a' = a_tim a.
Proof.
  intros Hinv Hle Hi Hac Hv Hps. unfold ps_enqueue.
  destruct (room_ok a [k] Hinv Hle) as (a1 & E1 & M1 & (T1 & _ & R1) & L1). rewrite E1. cbn [mbind option_bind].
  destruct (R1 i s Hi) as (b1 & Hi1 & D1). rewrite Hi1. cbn [mbind option_bind].
  destruct (displace_ok a1 i _ ac [k] (moves_inv _ _ _ _ _ _ M1) L1 Hi1 Hac) as (a2 & E2 & M2 & (T2 & _ & R2) & L2).
  rewrite E2. cbn [mbind option_bind]. destruct (R2 i _ Hi1) as (b2 & Hi2 & D2).
  change (with_queues (with_queues s b1) b2) with (with_queues s b2) in *. set (s2 := with_queues s b2) in *.
  pose proof (moves_inv _ _ _ _ _ _ M2) as I2. destruct (release_ok _ _ _ _ _ I2) as (d & Hd & _). rewrite Hd.
  cbn [mbind option_bind]. set (d3 := mk_desp _ _ _ _ _).
  destruct (replace_ok _ a2 k [] 1 d d3 I2 Hd eq_refl) as (Q3 & I3 & _ & B3). set (a3 := set_desp a2 k (Some d3)) in *.
  assert (a_StaConInfo a3 !! i = Some s2) as Hi3 by done. unfold upd_sta. rewrite Hi3. cbn [mbind option_bind].
  destruct (set_queue_inv (S P) a3 i s2 ac (ps_queue s2 ac ++ [k]) [k] [] 1 0 I3 Hi3 Hac) as [I4 B4]; try done.
  { by rewrite app_nil_r. }
  { rewrite length_app. cbn [length]. lia. }
  set (s4 := set_queue s2 ac (ps_queue s2 ac ++ [k])) in *. set (s5 := modify _ s4).
  assert (sta_core s5 = sta_core s4 /\ s_ps_tx_buf s5 = s_ps_tx_buf s4) as [C5 P5] by done.
  pose proof (lookup_lt_Some _ _ _ Hi3) as Hlt. set (a4 := set_sta a3 i s4) in *.
  assert (a_StaConInfo a4 !! i = Some s4) as Hi4.
  { change (a_StaConInfo a4) with (<[i := s4]> (a_StaConInfo a3)). by rewrite list_lookup_insert_eq. }
  pose proof (flags_ok (S P) a4 i s4 s5 [] 0 I4 Hi4 C5 P5) as M5. unfold a4 in M5. rewrite set_sta_twice in M5.
  destruct (get_sta _ _ _ _ _ _ I3 Hi3) as [Hl2 _]. destruct (D1 ac) as [m1 Q1'], (D2 ac) as [m2 Q2'].
  exists (set_sta a3 i s5), s5, (m1 + m2)%nat. split; [done|].
  assert (moves (S P) a [k] (set_sta a3 i s5) [] 0) as M.
  { eapply moves_trans; [exact M1|]. eapply moves_trans; [exact M2|]. eapply moves_trans; [split_and!; [exact Q3|exact I3|exact B3]|].
    eapply moves_trans; [|exact M5]. split_and!; [by eapply quiet_sta|done|done]. }
  split; [done|]. split; [|split; [|split; [done|split]]].
  - assert (length (queued (set_sta a3 i s5)) <= P)%nat as Hb.
    { rewrite <- (set_sta_twice a3 i s4 s5). fold a4. rewrite (queued_same a4 i s4 s5 Hi4 P5).
      destruct (queued_insert a3 i s2 ac (ps_queue s2 ac ++ [k]) Hi3 Hl2 Hac) as (r & P1 & P2). fold s4 in P2. fold a4 in P2.
      change (queued a3) with (queued a2) in P1. rewrite P2. rewrite P1 in L2. rewrite !length_app in *. cbn [length] in *. lia. }
    apply (pool_inv_bound (S P)); [by eapply moves_inv|by rewrite app_nil_r|lia].
  - change (a_StaConInfo (set_sta a3 i s5)) with (<[i := s5]> (a_StaConInfo a3)). by rewrite list_lookup_insert_eq.
  - unfold ps_queue at 1. rewrite P5. fold (ps_queue s4 ac). unfold s4. rewrite ps_queue_set by done. f_equal.
    rewrite Q2', Q1'. by rewrite drop_drop.
  - by rewrite <- T1, <- T2.
Qed.

(** *** Sending a frame of the host *)
Lemma arm_timer_ok n a held x : pool_inv n a held x ->
  moves n a held (start_timer (a <| a_sta_pkt_cln_timer := true |>) TCleanup AP_STA_INFO_CLEANUP_INTERVAL) held x.
Proof.
  intros H. split; [|split; [by apply (pool_inv_same n a)|done]]. unfold quiet, ap_core.
  change (a_timers (start_timer (a <| a_sta_pkt_cln_timer := true |>) TCleanup AP_STA_INFO_CLEANUP_INTERVAL))
    with (a_timers a ++ [(TCleanup, AP_STA_INFO_CLEANUP_INTERVAL)]).
  rewrite list.filter_app. cbn [filter list_filter]. rewrite decide_False by (cbn; tauto). by rewrite app_nil_r.
Qed.

Lemma cleanup_timer_ok n a held x : pool_inv n a held x -> moves n a held (need_cleanup_timer a) held x.
Proof.
  intros H. unfold need_cleanup_timer. destruct (a_sta_pkt_cln_timer a); [done|]. by apply arm_timer_ok.
Qed.

Lemma beacon_ok n a held x : pool_inv n a held x -> moves n a held (GenBeacon C a) held x.
Proof.
  intros H. unfold GenBeacon. destruct (emit_ok _ _ _ _ (SetBeacon (a_bhead a ++ ieee80211_beacon_add_tim C a ++ a_btail a)
    (u8 (Z.of_nat (length (a_bhead a ++ ieee80211_beacon_add_tim C a ++ a_btail a))))) H) as (Q & I & B).
  by split_and!.
Qed.

Lemma ac_of_priority q : exists ac, up_to_ac !! Z.to_nat (Z.land q 7) = Some ac /\ (ac < 4)%nat.
Proof.
  change 7 with (Z.ones 3). rewrite Z.land_ones by lia. change (2 ^ 3) with 8.
  assert (Z.to_nat (q mod 8) < 8)%nat as H by lia. destruct (Z.to_nat (q mod 8)) as [|[|[|[|[|[|[|[|]]]]]]]];
    [eexists; split; [reflexivity|lia]..|lia].
Qed.

Lemma quiet_flag a a' i s k : quiet a a' -> a_StaConInfo a !! i = Some s -> 0 <= k -> k <> 24 ->
  exists s', a_StaConInfo a' !! i = Some s' /\ s_aid s' = s_aid s /\
    test_sta_flag s' (BIT k) = test_sta_flag s (BIT k).
Proof.
  intros Hq Hi Hk Hn. apply (f_equal (fun a => a_StaConInfo a !! i)) in Hq.
  change (a_StaConInfo (ap_core ?a)) with (sta_core <$> a_StaConInfo a) in Hq. rewrite !list_lookup_fmap, Hi in Hq.
  destruct (a_StaConInfo a' !! i) as [s'|]; [|done].
  change (Some (sta_core s') = Some (sta_core s)) in Hq. apply (inj Some) in Hq as Hc. exists s'. split; [done|].
  split; [by apply (f_equal s_aid) in Hc|]. apply (f_equal (fun s => test_sta_flag s (BIT k))) in Hc.
  unfold test_sta_flag in *. change (s_flags (sta_core ?s)) with (Z.land (s_flags s) (Z.lnot WLAN_STA_SP)) in Hc.
  rewrite !has_clear in Hc by done. unfold WLAN_STA_SP in Hc.
  assert (has (BIT 24) (BIT k) = false) as E.
  { rewrite has_BIT by done. unfold BIT. rewrite Z.shiftl_1_l. apply Z.pow2_bits_false. lia. }
  by rewrite E, !andb_true_r in Hc.
Qed.

(** The delivery of one frame, as [tx_h_unicast_ps_buf] needs it *)
Definition delivers (deliver : ApInfo -> nat -> option ApInfo) : Prop :=
  forall a i s, pool_inv P a [] 0 -> a_StaConInfo a !! i = Some s ->
  exists a' b, deliver a i = Some a' /\ served P a [] i s b a'.

(** The bit of station [i] says whether it has something to fetch. *)
Definition announced (a : ApInfo) (i : nat) : Prop :=
  exists s, a_StaConInfo a !! i = Some s /\ __bss_tim_get a (s_aid s) = Some (indicate_tim s).

Lemma served_announced a held i s b a' : served P a held i s b a' -> a_StaConInfo a !! i = Some s -> announced a' i.
Proof.
  intros (s' & _ & S & Hc & _ & T & _) Hi. exists s'. split; [rewrite S, list_lookup_insert_eq; [done|by eapply lookup_lt_Some]|].
  by assert (s_aid s' = s_aid s) as -> by (by apply (f_equal s_aid) in Hc).
Qed.

Lemma unicast_ok deliver a k d i s : delivers deliver -> pool_inv (S P) a [k] 0 -> (length (queued a) <= P)%nat ->
  d_sta d = Some i -> a_StaConInfo a !! i = Some s -> test_sta_flag s WLAN_STA_VALID = true ->
  (exists q, d_priority d = Z.land q 7) ->
  exists res a', tx_h_unicast_ps_buf C deliver a k d = Some (res, a') /\
    match res with
    | TX_CONTINUE => a' = a /\
        (test_sta_flag s WLAN_STA_PS_STA = false \/ has (d_flags d) AP_TX_NATIVE_AP_FRAME = true)
    | TX_DROP => False
    | TX_QUEUED => quiet a a' /\ pool_inv P a' [] 0 /\ balance a' [] ≡ₚ balance a [k] /\
        (g_AP_TimAllOne (st_cfg C) = false -> announced a' i)
    end.
Proof.
  intros Hdel Hinv Hle Hd Hi Hv (q & Hq). unfold tx_h_unicast_ps_buf. rewrite Hd.
  destruct (ac_of_priority q) as (ac & Eac & Hac). rewrite Hq, Eac. cbn [mbind option_bind]. rewrite Hi. cbn [mbind option_bind].
  destruct (_ && _) eqn:Econd.
  2: { exists TX_CONTINUE, a. split; [done|]. split; [done|].
    apply andb_false_iff in Econd as [[Hs _]%orb_false_iff|Hn%negb_false_iff]; [by left|by right]. }
  apply andb_true_iff in Econd as [Ecase _].
  assert (test_sta_flag s WLAN_STA_PS_STA = true) as Hps.
  { apply orb_true_iff in Ecase as [?|Hne]; [done|]. apply negb_true_iff, Nat.eqb_neq in Hne.
    apply (Forall_lookup_1 _ _ _ _ (pi_sleep _ _ _ _ _ Hinv) Hi). intros E0.
    destruct (sta_queue_insert s ac [] (proj1 (get_sta _ _ _ _ _ _ Hinv Hi)) Hac) as (r & P1 & _). rewrite E0 in P1.
    apply Permutation_nil_l in P1. destruct (ps_queue s ac); [by cbn in Hne|done]. }
  destruct (ps_enqueue_ok a k i s ac Hinv Hle Hi Hac Hv Hps) as (a1 & s1 & m & E1 & (Q1 & _ & B1) & I1 & Hi1 & C1 & _ & T1).
  rewrite E1. cbn [mbind option_bind].
  assert (exists a2, (if g_AP_TimAllOne (st_cfg C) then Some a1
      else '(changed, a0) ← sta_info_recalc_tim a1 i; if (changed : bool) then a ← deliver a0 i; Some (GenBeacon C a) else Some a0)
      = Some a2 /\ moves P a1 [] a2 [] 0 /\ (g_AP_TimAllOne (st_cfg C) = false -> announced a2 i)) as (a2 & E2 & M2 & A2).
  { destruct (g_AP_TimAllOne (st_cfg C)); [by exists a1|].
    destruct (recalc_ok _ _ _ _ _ _ I1 Hi1) as (b & a2 & E2 & M2 & S2 & _ & T2 & _). rewrite E2. cbn [mbind option_bind].
    destruct b; [|exists a2; split; [done|]; split; [done|]; intros _; exists s1; by rewrite S2].
    destruct (Hdel a2 i s1 (moves_inv _ _ _ _ _ _ M2)) as (a3 & b & E3 & Hs3); [by rewrite S2|].
    rewrite E3. cbn [mbind option_bind]. eexists. split; [done|].
    pose proof (served_announced _ _ _ _ _ _ Hs3 ltac:(by rewrite S2)) as A3. destruct Hs3 as (s3 & M3 & _).
    split; [|by intros _]. eapply moves_trans; [exact M2|]. eapply moves_trans; [exact M3|]. apply beacon_ok. by eapply moves_inv. }
  rewrite E2. cbn [mbind option_bind]. eexists _, _. split; [done|]. cbn.
  destruct (cleanup_timer_ok _ _ _ _ (moves_inv _ _ _ _ _ _ M2)) as (Q3 & I3 & B3). destruct M2 as (Q2 & _ & B2).
  split; [by etrans; [exact Q1|etrans; [exact Q2|]]|]. split; [done|]. split; [by rewrite B3, B2, B1|].
  intros Hall. destruct (A2 Hall) as (s2 & Hs2 & Ht2). exists s2. unfold need_cleanup_timer. by destruct (a_sta_pkt_cln_timer a2).
Qed.

Lemma proc_marked n m a f held x : (n < AP_TOTAL_MAX_TX_DSP C)%nat -> pool_inv n a held x ->
  has (tf_rsvd0 f) AP_PS_FRAME = true -> handed n a held x (tf_id f) (TxHdl_FrameProc C (S m) a f).
Proof. intros Hn Hinv Hm. apply frame_proc_direct; try done. pose proof (pi_bound _ _ _ _ _ Hinv). lia. Qed.

Lemma P_DSP : (P < AP_TOTAL_MAX_TX_DSP C)%nat.
Proof. unfold AP_TOTAL_MAX_TX_DSP. lia. Qed.

Lemma poll_ok m a i s : pool_inv P a [] 0 -> a_StaConInfo a !! i = Some s ->
  exists a', sta_ps_deliver_poll_response C (TxHdl_FrameProc C (S m)) a i = Some a' /\
    served P a [] i s (pick 1 (ignored_acs s) (seq 0 4) (s_ps_tx_buf s)).2 a'.
Proof.
  intros Hinv Hi. unfold sta_ps_deliver_poll_response. rewrite Hi. cbn [mbind option_bind].
  apply (deliver_ok P (TxHdl_FrameProc C (S m)) P_DSP); try done; [|lia].
  intros a' f held x. by apply proc_marked, P_DSP.
Qed.

Lemma poll_delivers m : delivers (sta_ps_deliver_poll_response C (TxHdl_FrameProc C (S m))).
Proof. intros a i s Hinv Hi. destruct (poll_ok m a i s Hinv Hi) as (a' & E & H). by eexists a', _. Qed.

Lemma uapsd_ok m a i s : pool_inv P a [] 0 -> a_StaConInfo a !! i = Some s ->
  exists a', sta_ps_deliver_uapsd C (TxHdl_FrameProc C (S m)) a i = Some a' /\
    if s_uapsd_queues s =? 0 then a' = a
    else served P a [] i s (pick (sp_length (s_max_sp s)) (u8 (Z.lnot (s_uapsd_queues s))) (seq 0 4) (s_ps_tx_buf s)).2 a'.
Proof.
  intros Hinv Hi. unfold sta_ps_deliver_uapsd. rewrite Hi. cbn [mbind option_bind].
  destruct (s_uapsd_queues s =? 0); [by exists a|].
  apply (deliver_ok P (TxHdl_FrameProc C (S m)) P_DSP); try done; [|lia].
  intros a' f held x. by apply proc_marked, P_DSP.
Qed.

(** A frame of the host: it is queued, handed to the transmit task or freed, or
    the caller keeps it. *)
Definition taken (a : ApInfo) (id : nat) (r : option (bool * ApInfo)) : Prop :=
  exists b a', r = Some (b, a') /\ quiet a a' /\ pool_inv P a' [] 0 /\
    balance a' [] ≡ₚ (if b then [id] else []) ++ balance a [].

Lemma prepared_priority a f bAP flags : exists q, d_priority (ssv6xxx_data_prepare_tx_data a f bAP flags) = Z.land q 7.
Proof.
  unfold ssv6xxx_data_prepare_tx_data. cbn [d_priority]. case_match; [by eexists|]. by exists 0.
Qed.

Lemma frame_proc_ok deliver a f : delivers deliver -> pool_inv P a [] 0 ->
  taken a (tf_id f) (frame_proc C deliver a f None 0).
Proof.
  intros Hdel Hinv. unfold frame_proc. rewrite bool_decide_false by (by intros [? ?]).
  destruct (alloc_ok _ _ _ _ Hinv) as (k & Ek & Hk).
  { pose proof (pi_bound _ _ _ _ _ Hinv). pose proof P_DSP. lia. }
  unfold ssv6xxx_data_could_be_send. rewrite Ek. cbn [mbind option_bind]. cbv zeta.
  set (d := ssv6xxx_data_prepare_tx_data a f false 0). set (a1 := set_desp a k (Some d)).
  change (ssv6xxx_data_check_authed a1 d) with (ssv6xxx_data_check_authed a d).
  destruct (check_authed_ok a f false 0) as (res & Hres & Hq). fold d in Hres. rewrite Hres. cbn [mbind option_bind].
  change (d_frame d) with (unmarked f).
  assert (tf_id (unmarked f) = tf_id f) as Hid by (unfold unmarked; by case_match).
  assert (taken a (tf_id f) (Some (hand_over C a (unmarked f) None))) as Hcont.
  { destruct (hand_over_ok P a (unmarked f) [] 0 Hinv) as (b & a' & E & Q & I & B & _). exists b, a'. by rewrite Hid in B. }
  destruct res; [| |done].
  2: { cbn [mbind option_bind]. unfold a1. rewrite set_release by done.
    destruct (emit_ok _ _ _ _ (FrameFree (unmarked f)) Hinv) as (Q & I & B). eexists true, _. split; [done|].
    split; [done|]. split; [done|]. rewrite B. cbn [out_id]. by rewrite Hid. }
  unfold ssv6xxx_data_need_queue. destruct (_ || _) eqn:Edirect.
  { cbn [mbind option_bind]. unfold a1. by rewrite set_release. }
  destruct (has (d_flags d) AP_TX_UNICAST) eqn:Eu.
  2: { cbn [mbind option_bind]. unfold a1. by rewrite set_release. }
  destruct (Hk d) as (Q1 & I1 & D1 & B1). fold a1 in Q1, I1, D1, B1.
  destruct (d_sta d) as [i|] eqn:Ei.
  2: { unfold tx_h_unicast_ps_buf. rewrite Ei. cbn [mbind option_bind]. unfold a1. by rewrite set_release. }
  assert (exists s, a_StaConInfo a1 !! i = Some s /\ test_sta_flag s WLAN_STA_VALID = true) as (s & Hi & Hv).
  { apply (FindSta_Some a (tx_da (unmarked f))) in Ei as (s & Hi & Hv & _). by exists s. }
  destruct (unicast_ok deliver a1 k d i s Hdel I1) as (res & a2 & E2 & H2); try done.
  { change (queued a1) with (queued a). pose proof (pi_bound _ _ _ _ _ Hinv). rewrite app_nil_r in *. lia. }
  { apply prepared_priority. }
  rewrite E2. cbn [mbind option_bind]. destruct res; [destruct H2 as [-> _]; unfold a1; by rewrite set_release|done|].
  destruct H2 as (Q2 & I2 & B2 & _). exists true, a2. split; [done|]. split; [by etrans|]. split; [done|].
  rewrite B2, B1. change (d_frame d) with (unmarked f). by rewrite Hid.
Qed.

Lemma proc_ok a f : pool_inv P a [] 0 -> taken a (tf_id f) (proc C a f).
Proof.
  intros Hinv. change (proc C a f) with (frame_proc C (sta_ps_deliver_poll_response C (TxHdl_FrameProc C 1)) a f None 0).
  exact (frame_proc_ok _ a f (poll_delivers 0) Hinv).
Qed.

(** ** The data path *)
Context (HA : (st_gMaxAID C <= 255)%nat).

Record power_inv (a : ApInfo) : Prop := {
  pw_pool : pool_inv P a [] 0;
  pw_sleep : a_num_sta_ps a = count sleeping (a_StaConInfo a)
}.

(** The operation returns, keeps the invariant, and accounts for the frames:
    [ids] came in. *)
Definition good (a a' : ApInfo) (ids : list nat) : Prop :=
  calm a a' /\ power_inv a' /\ balance a' [] ≡ₚ ids ++ balance a [].

Lemma good_refl a : power_inv a -> good a a [].
Proof. done. Qed.

Lemma good_trans a1 a2 a3 l1 l2 : good a1 a2 l1 -> good a2 a3 l2 -> good a1 a3 (l2 ++ l1).
Proof.
  intros (Q1 & _ & B1) (Q2 & I2 & B2). split; [by etrans|]. split; [done|]. rewrite B2, B1. by rewrite <- app_assoc.
Qed.

Lemma quiet_sleep a a' : quiet a a' -> power_inv a -> pool_inv P a' [] 0 -> power_inv a'.
Proof.
  intros Hq [_ Hs] Hi. split; [done|].
  assert (forall a, count sleeping (a_StaConInfo a) = count sleeping (a_StaConInfo (ap_core a))) as Hc.
  { intros b. symmetry. apply count_map. intros s. unfold sleeping, test_sta_flag.
    change (s_flags (sta_core s)) with (Z.land (s_flags s) (Z.lnot WLAN_STA_SP)). unfold WLAN_STA_PS_STA, WLAN_STA_SP.
    rewrite has_clear by lia. by rewrite andb_true_r. }
  rewrite Hc. unfold quiet in Hq. rewrite Hq, <- Hc, <- Hs.
  by apply (f_equal a_num_sta_ps) in Hq.
Qed.

Lemma moves_good a a' : power_inv a -> moves P a [] a' [] 0 -> good a a' [].
Proof.
  intros Hi (Q & I & B). split; [by apply quiet_calm|]. split; [by eapply quiet_sleep|done].
Qed.

Lemma served_good a i s b a' : power_inv a -> served P a [] i s b a' -> good a a' [].
Proof. intros Hi (s' & M & _). by apply moves_good. Qed.

(** A change of a station that keeps what the invariant needs *)
Lemma station_good a i s s' : power_inv a -> a_StaConInfo a !! i = Some s -> sta_core s' = sta_core s ->
  s_ps_tx_buf s' = s_ps_tx_buf s -> good a (set_sta a i s') [].
Proof. intros Hi Hs Hc Hb. apply moves_good; [done|]. by apply (flags_ok P a i s); [apply Hi|..]. Qed.

Lemma calm_sta a a' i s s' : a_StaConInfo a !! i = Some s -> no_ps (sta_core s') = no_ps (sta_core s) ->
  a' = set_sta (a <| a_num_sta_ps := a_num_sta_ps a' |>) i s' -> calm a a'.
Proof.
  intros Hi Hs ->. unfold calm, ap_base, ap_core.
  change (a_StaConInfo (set_sta ?b i s')) with (<[i := s']> (a_StaConInfo b)).
  change (a_StaConInfo (a <| a_num_sta_ps := ?n |>)) with (a_StaConInfo a).
  rewrite !list_fmap_insert, Hs. rewrite (list_insert_id (no_ps <$> (sta_core <$> a_StaConInfo a))); [reflexivity|].
  by rewrite !list_lookup_fmap, Hi.
Qed.

Lemma land_lor_clear x b : Z.land (Z.lor x b) (Z.lnot b) = Z.land x (Z.lnot b).
Proof.
  apply Z.bits_inj'. intros k Hk. rewrite !Z.land_spec, Z.lor_spec, Z.lnot_spec by done.
  by destruct (Z.testbit x k), (Z.testbit b k).
Qed.

Lemma land_clear_comm x b c : Z.land (Z.land x b) c = Z.land (Z.land x c) b.
Proof. rewrite <- !Z.land_assoc. f_equal. apply Z.land_comm. Qed.

(** The service period and power-save flags do not show in the base. *)
Lemma base_flags s s' : sta_core (s' <| s_flags := 0 |>) = sta_core (s <| s_flags := 0 |>) ->
  test_sta_flag s' WLAN_STA_VALID = true -> test_sta_flag s WLAN_STA_VALID = true ->
  Z.land (Z.land (s_flags s') (Z.lnot WLAN_STA_SP)) (Z.lnot WLAN_STA_PS_STA) =
  Z.land (Z.land (s_flags s) (Z.lnot WLAN_STA_SP)) (Z.lnot WLAN_STA_PS_STA) ->
  no_ps (sta_core s') = no_ps (sta_core s).
Proof.
  intros Hc Hv' Hv Hf. destruct s, s'. unfold no_ps, sta_core, modify in *. cbn in *. unfold test_sta_flag in *. cbn in *.
  rewrite Hv, Hv', Hf. injection Hc as -> -> -> -> -> -> -> -> -> -> -> -> -> -> -> -> -> _ -> -> -> -> -> ->. done.
Qed.

Lemma flag_set_other s b k : 0 <= k -> has b (BIT k) = false ->
  test_sta_flag (set_sta_flag s b) (BIT k) = test_sta_flag s (BIT k).
Proof.
  intros Hk Hb. unfold test_sta_flag. change (s_flags (set_sta_flag s b)) with (Z.lor (s_flags s) b).
  by rewrite has_lor, Hb, orb_false_r.
Qed.

Lemma flag_clear_other s b k : 0 <= k -> has b (BIT k) = false ->
  test_sta_flag (clear_sta_flag s b) (BIT k) = test_sta_flag s (BIT k).
Proof.
  intros Hk Hb. unfold test_sta_flag. change (s_flags (clear_sta_flag s b)) with (Z.land (s_flags s) (Z.lnot b)).
  by rewrite has_clear, Hb, andb_true_r.
Qed.

Lemma flag_set_same s k : 0 <= k -> test_sta_flag (set_sta_flag s (BIT k)) (BIT k) = true.
Proof.
  intros Hk. unfold test_sta_flag. change (s_flags (set_sta_flag s (BIT k))) with (Z.lor (s_flags s) (BIT k)).
  rewrite BIT_bit by done. by rewrite bool_decide_true, orb_true_r.
Qed.

Lemma flag_clear_same s k : 0 <= k -> test_sta_flag (clear_sta_flag s (BIT k)) (BIT k) = false.
Proof.
  intros Hk. unfold test_sta_flag.
  change (s_flags (clear_sta_flag s (BIT k))) with (Z.land (s_flags s) (Z.lnot (BIT k))).
  rewrite BIT_clear by done. by rewrite bool_decide_true, andb_false_r.
Qed.

Lemma ps_start_ok a i s : power_inv a -> a_StaConInfo a !! i = Some s -> test_sta_flag s WLAN_STA_VALID = true ->
  test_sta_flag s WLAN_STA_PS_STA = false ->
  exists a', ap_sta_ps_start a i = Some a' /\ good a a' [] /\
    a_StaConInfo a' !! i = Some (set_sta_flag s WLAN_STA_PS_STA) /\ a_tim a' = a_tim a.
Proof.
  intros [Hinv Hcnt] Hi Hv Hps. pose proof (lookup_lt_Some _ _ _ Hi) as Hlt.
  unfold ap_sta_ps_start, upd_sta. change (a_StaConInfo (a <| a_num_sta_ps := ?n |>)) with (a_StaConInfo a). rewrite Hi.
  cbn [mbind option_bind]. set (s' := set_sta_flag s WLAN_STA_PS_STA). set (a1 := a <| a_num_sta_ps := _ |>).
  eexists. split; [done|]. pose proof (count_insert sleeping _ i s s' Hi) as Hc.
  assert (test_sta_flag s' WLAN_STA_PS_STA = true) as Hps' by (by apply flag_set_same).
  assert (test_sta_flag s' WLAN_STA_VALID = true) as Hv' by (unfold s', WLAN_STA_VALID; by rewrite flag_set_other).
  unfold sleeping in Hc at 3 4. rewrite Hps, Hps' in Hc. cbn [Z.b2z] in Hc.
  pose proof (count_nonneg sleeping (<[i := s']> (a_StaConInfo a))) as Hb. rewrite length_insert, (pi_sta _ _ _ _ _ Hinv) in Hb.
  split; [split; [|split; [split|]]|split; [|done]].
  - apply (calm_sta _ _ i s s' Hi); [|done]. apply base_flags; try done.
    change (s_flags s') with (Z.lor (s_flags s) WLAN_STA_PS_STA).
    by rewrite (land_clear_comm (Z.lor _ _)), land_lor_clear, land_clear_comm.
  - apply (pool_inv_sta P a1 i s); [done| |by apply (pool_inv_same P a)]. by split_and!.
  - change (a_StaConInfo (set_sta a1 i s')) with (<[i := s']> (a_StaConInfo a)). rewrite Hc, <- Hcnt.
    change (a_num_sta_ps (set_sta a1 i s')) with (u8 (a_num_sta_ps a + 1)). rewrite u8_small by lia. lia.
  - unfold balance. by rewrite (queued_same a1 i s s').
  - change (a_StaConInfo (set_sta a1 i s')) with (<[i := s']> (a_StaConInfo a)). by rewrite list_lookup_insert_eq.
Qed.

Lemma stop_timer_good a : power_inv a -> good a (stop_cleanup_timer a) [].
Proof.
  intros Hi. apply moves_good; [done|]. split; [|split; [apply (pool_inv_same P a); try done; apply Hi|done]].
  unfold quiet, ap_core, stop_cleanup_timer, cancel_timer.
  change (a_timers (?b <| a_sta_pkt_cln_timer := false |>)) with (a_timers b).
  change (a_timers (a <| a_timers := ?t |>)) with t. rewrite list_filter_filter.
  f_equal. apply list_filter_iff. intros p. tauto.
Qed.

Lemma ps_end_ok a i s : power_inv a -> a_StaConInfo a !! i = Some s -> test_sta_flag s WLAN_STA_VALID = true ->
  test_sta_flag s WLAN_STA_PS_STA = true ->
  exists a', ap_sta_ps_end C a i = Some a' /\ good a a' [] /\ a_StaConInfo a' = <[i := woken s]> (a_StaConInfo a).
Proof.
  intros [Hinv Hcnt] Hi Hv Hps. pose proof (lookup_lt_Some _ _ _ Hi) as Hlt.
  pose proof (count_pos sleeping _ i s Hi Hps) as Hpos. pose proof (count_nonneg sleeping (a_StaConInfo a)) as Hb.
  rewrite (pi_sta _ _ _ _ _ Hinv) in Hb.
  unfold ap_sta_ps_end. destruct (Z.eqb_spec (a_num_sta_ps a) 0); [lia|].
  set (a1 := a <| a_num_sta_ps := _ |>). assert (pool_inv P a1 [] 0) as I1 by (by apply (pool_inv_same P a)).
  destruct (wakeup_ok P (proc C) P_DSP) with (a := a1) (i := i) (s := s) (held := @nil nat)
    as (a2 & E2 & I2 & B2 & Q2 & S2 & _); try done; [intros b f held x; apply (proc_marked P 1), P_DSP|lia|].
  rewrite E2. cbn [mbind option_bind].
  assert (test_sta_flag (woken s) WLAN_STA_PS_STA = false) as Hps' by (by apply (flag_clear_same _ 17)).
  assert (test_sta_flag (woken s) WLAN_STA_VALID = true) as Hv'.
  { unfold WLAN_STA_VALID. change (test_sta_flag (woken s)) with (test_sta_flag (clear_sta_flag (clear_sta_flag s WLAN_STA_SP) WLAN_STA_PS_STA)).
    by rewrite !flag_clear_other. }
  pose proof (count_insert sleeping _ i s (woken s) Hi) as Hc. unfold sleeping in Hc at 3 4. rewrite Hps, Hps' in Hc.
  cbn [Z.b2z] in Hc.
  assert (good a a2 []) as G2.
  { split; [|split; [split|]]; [|done| |done].
    - etrans; [|apply quiet_calm, Q2]. apply (calm_sta _ _ i s (woken s) Hi); [|done]. apply base_flags; try done.
      change (s_flags (woken s)) with (Z.land (Z.land (s_flags s) (Z.lnot WLAN_STA_SP)) (Z.lnot WLAN_STA_PS_STA)).
      apply Z.bits_inj'. intros k Hk. rewrite !Z.land_spec, !Z.lnot_spec by done.
      by destruct (Z.testbit (s_flags s) k), (Z.testbit WLAN_STA_SP k), (Z.testbit WLAN_STA_PS_STA k).
    - rewrite S2. change (a_StaConInfo a1) with (a_StaConInfo a). rewrite Hc, <- Hcnt.
      apply (f_equal a_num_sta_ps) in Q2. change (a_num_sta_ps (ap_core ?b)) with (a_num_sta_ps b) in Q2. rewrite Q2.
      change (a_num_sta_ps (set_sta a1 i (woken s))) with (u8 (a_num_sta_ps a - 1)). rewrite u8_small by lia. lia. }
  eexists. split; [done|]. destruct (a_num_sta_ps a2 =? 0); [|done]. split; [|done].
  apply (good_trans _ _ _ [] [] G2). apply stop_timer_good. apply G2.
Qed.

Definition valid_at (a : ApInfo) (i : nat) : Prop :=
  exists s, a_StaConInfo a !! i = Some s /\ test_sta_flag s WLAN_STA_VALID = true.

Lemma calm_valid a a' i : calm a a' -> valid_at a i -> valid_at a' i.
Proof.
  intros Hc (s & Hi & Hv). apply (f_equal (fun a => a_StaConInfo a !! i)) in Hc.
  change (a_StaConInfo (ap_base ?a)) with (no_ps <$> (sta_core <$> a_StaConInfo a)) in Hc.
  rewrite !list_lookup_fmap, Hi in Hc. destruct (a_StaConInfo a' !! i) as [s'|] eqn:Hi'; [|done].
  change (Some (no_ps (sta_core s')) = Some (no_ps (sta_core s))) in Hc. apply (inj Some) in Hc. exists s'. split; [done|].
  apply (f_equal (fun s => test_sta_flag s WLAN_STA_VALID)) in Hc. unfold test_sta_flag, WLAN_STA_VALID in *.
  change (s_flags (no_ps (sta_core ?s))) with (Z.land (Z.land (s_flags s) (Z.lnot WLAN_STA_SP)) (Z.lnot WLAN_STA_PS_STA)) in Hc.
  rewrite !has_clear, !andb_true_r in Hc by lia. by rewrite Hc.
Qed.

Lemma uapsd_pspoll_ok a rx i : power_inv a -> rx_sta rx = Some i -> valid_at a i ->
  exists res a', rx_h_uapsd_and_pspoll C a rx = Some (res, a') /\ good a a' [].
Proof.
  intros Hinv Hrx (s & Hi & Hv). unfold rx_h_uapsd_and_pspoll. rewrite Hrx. cbn [mbind option_bind]. rewrite Hi.
  cbn [mbind option_bind]. destruct (negb _); [by eexists _, _|].
  destruct (rx_has rx AP_RX_FLAGS_FRAME_TYPE_PS_POLL).
  { destruct (poll_ok 1 a i s (pw_pool _ Hinv) Hi) as (a' & E & H). unfold proc. rewrite E. cbn [mbind option_bind].
    eexists _, _. split; [done|]. by eapply served_good. }
  destruct (_ && _); [|by eexists _, _]. destruct (ac_of_priority (rx_UP rx)) as (ac & -> & _). cbn [mbind option_bind].
  destruct (negb _); [by eexists _, _|]. destruct (test_sta_flag s WLAN_STA_SP); [by eexists _, _|].
  destruct (uapsd_ok 1 a i s (pw_pool _ Hinv) Hi) as (a' & E & H). unfold proc. rewrite E. cbn [mbind option_bind].
  eexists _, _. split; [done|]. destruct (s_uapsd_queues s =? 0); [by subst|by eapply served_good].
Qed.

Lemma recalc_good a i s : power_inv a -> a_StaConInfo a !! i = Some s ->
  exists a', recalc_tim_gen_beacon C a i = Some a' /\ good a a' [] /\ announced a' i.
Proof.
  intros Hinv Hi. destruct (recalc_beacon_ok _ _ _ _ _ _ (pw_pool _ Hinv) Hi) as (a' & E & M & S & T & _).
  exists a'. split; [done|]. split; [by apply moves_good|]. exists s. by rewrite S.
Qed.

Lemma emit_good a e : power_inv a -> good a (ap_emit a e) match out_id e with Some j => [j] | None => [] end.
Proof.
  intros Hinv. destruct (emit_ok _ _ _ _ e (pw_pool _ Hinv)) as (Q & I & B). split; [by apply quiet_calm|].
  split; [by eapply quiet_sleep|done].
Qed.

(** What is noted when a station is heard *)
Definition notes (f : APStaInfo -> APStaInfo) : Prop :=
  forall s, test_sta_flag s WLAN_STA_VALID = true ->
  sta_core (f s) = sta_core s /\ s_ps_tx_buf (f s) = s_ps_tx_buf s.

Lemma notes_good a i f : power_inv a -> valid_at a i -> notes f ->
  exists a', upd_sta a i f = Some a' /\ good a a' [].
Proof.
  intros Hinv (s & Hi & Hv) Hf. unfold upd_sta. rewrite Hi. cbn [mbind option_bind].
  destruct (Hf s Hv) as [Hc Hb]. eexists. split; [done|]. by apply (station_good a i s).
Qed.

Lemma process_ok a rx i : power_inv a -> rx_sta rx = Some i -> valid_at a i ->
  exists a', rx_h_sta_process C a rx = Some a' /\ good a a' [].
Proof.
  intros Hinv Hrx (s & Hi & Hv). unfold rx_h_sta_process. rewrite Hrx. unfold upd_sta at 1. rewrite Hi.
  cbn [mbind option_bind]. set (s1 := s <| s_last_rx := a_jiffies a |>). set (a1 := set_sta a i s1).
  assert (a_StaConInfo a1 !! i = Some s1) as Hi1.
  { change (a_StaConInfo a1) with (<[i := s1]> (a_StaConInfo a)). rewrite list_lookup_insert_eq; [done|].
    by eapply lookup_lt_Some. }
  assert (good a a1 []) as G1 by (by apply (station_good a i s)). rewrite Hi1. cbn [mbind option_bind].
  assert (forall a2, good a1 a2 [] -> good a a2 []) as Hgo by (intros a2; apply (good_trans _ _ _ [] [] G1)).
  pose proof (proj1 (proj2 G1)) as I1. destruct (test_sta_flag s1 WLAN_STA_PS_STA) eqn:Eps.
  - case_match; [|by eexists]. destruct (ps_end_ok a1 i s1 I1 Hi1 Hv Eps) as (a2 & E & G & _). eauto.
  - destruct (rx_has rx AP_RX_FLAGS_PM_BIT); [|by eexists].
    destruct (ps_start_ok a1 i s1 I1 Hi1 Hv Eps) as (a2 & E & G & _). rewrite E. cbn [mbind option_bind].
    pose proof (calm_valid _ _ i (proj1 G) (ex_intro _ s1 (conj Hi1 Hv))) as (s2 & Hi2 & _).
    destruct (0 <? s_fw_q_len s1).
    + destruct (recalc_good a2 i s2 (proj1 (proj2 G)) Hi2) as (a3 & E3 & G3 & _). exists a3. split; [done|].
      apply Hgo, (good_trans _ _ _ [] [] G G3).
    + eexists. split; [done|]. apply Hgo, (good_trans _ _ _ [] [] G).
      apply (emit_good a2 (DqStatus _)), G.
Qed.

(** [ssv6xxx_data_need_to_be_received] for a station the access point knows, or none *)
Definition known (a : ApInfo) (sta : option nat) : Prop := forall i, sta = Some i -> valid_at a i.

Lemma known_calm a a' sta : calm a a' -> known a sta -> known a' sta.
Proof. intros Hc Hk i Hi. by eapply calm_valid; [|apply Hk]. Qed.

Lemma known_find a mac : known a (APStaInfo_FindStaByAddr a mac).
Proof. intros i (s & Hi & Hv & _)%FindSta_Some. by exists s. Qed.

Lemma received_ok a rx : power_inv a -> known a (rx_sta rx) ->
  exists keep a', ssv6xxx_data_need_to_be_received C a rx = Some (keep, a') /\ good a a' [].
Proof.
  intros Hinv Hk. unfold ssv6xxx_data_need_to_be_received, rx_h_check.
  destruct (rx_sta rx) as [i|] eqn:Erx; [|by eexists _, _]. destruct (Hk i eq_refl) as (s & Hi & Hv).
  rewrite Hi. cbn [mbind option_bind]. destruct (test_sta_flag s WLAN_STA_ASSOC); [|by eexists _, _].
  destruct (uapsd_pspoll_ok a rx i Hinv Erx (Hk i eq_refl)) as (res & a1 & E1 & G1). rewrite E1. cbn [mbind option_bind].
  destruct res; [|by eexists _, _].
  destruct (process_ok a1 rx i (proj1 (proj2 G1)) Erx (calm_valid _ _ _ (proj1 G1) (Hk i eq_refl))) as (a2 & E2 & G2).
  rewrite E2. cbn [mbind option_bind]. eexists _, _. split; [done|]. apply (good_trans _ _ _ [] [] G1 G2).
Qed.

Lemma hear_ok a sta f : power_inv a -> known a sta -> notes f ->
  exists a', hear_sta a sta f = Some a' /\ good a a' [].
Proof.
  intros Hinv Hk Hf. unfold hear_sta. destruct sta as [i|]; [|by exists a]. by apply notes_good; [|apply Hk|].
Qed.

(** *** Management frames *)
Lemma buffer_good a (b : list Z) : power_inv a -> good a (a <| a_pMgmtPkt := b |>) [].
Proof.
  intros Hinv. apply moves_good; [done|]. split_and!; [done|by apply (pool_inv_same P a); [..|apply Hinv]|done].
Qed.

Lemma send_reason_ok a fc addr reason : power_inv a ->
  exists a', send_reason C a fc addr reason = Some a' /\ good a a' [].
Proof.
  intros Hinv. unfold send_reason.
  match goal with |- context [mgmt_put a 0 ?l] => destruct (mgmt_put_ok a 0 l) as [b ->] end.
  { rewrite !length_app, !length_take. unfold WPA_PUT_LE16, AP_MGMT_PKT_LEN. cbn [length]. lia. }
  cbn [mbind option_bind]. set (a1 := a <| a_pMgmtPkt := b |>). assert (good a a1 []) as G1 by (by apply buffer_good).
  destruct (soc_data_send_ok P a1 [] 0 26 0 (pw_pool _ (proj1 (proj2 G1))) P_DSP) as (a2 & E & M & _).
  exists a2. split; [done|]. apply (good_trans _ _ _ [] [] G1), moves_good; [apply G1|done].
Qed.

Lemma refuse_ok a sta addr : power_inv a ->
  exists a', refuse_unassociated C a sta addr = Some a' /\ good a a' [].
Proof.
  intros Hinv. unfold refuse_unassociated. destruct (sta_test _ _ _); [by exists a|by apply send_reason_ok].
Qed.

(** *** What the handlers do with a frame of a station *)
Lemma heard_good a sta sa (f : APStaInfo -> APStaInfo) (mk : ApInfo -> ap_rx_desp) :
  power_inv a -> known a sta -> notes f -> (forall a, rx_sta (mk a) = sta) ->
  exists a1 a2 keep a', hear_sta a sta f = Some a1 /\ refuse_unassociated C a1 sta sa = Some a2 /\
    ssv6xxx_data_need_to_be_received C a2 (mk a1) = Some (keep, a') /\ good a a' [].
Proof.
  intros Hinv Hk Hf Hrx. destruct (hear_ok a sta f Hinv Hk Hf) as (a1 & E1 & G1).
  destruct (refuse_ok a1 sta sa (proj1 (proj2 G1))) as (a2 & E2 & G2). pose proof (good_trans _ _ _ [] [] G1 G2) as G12.
  destruct (received_ok a2 (mk a1) (proj1 (proj2 G12))) as (keep & a3 & E3 & G3).
  { rewrite Hrx. by apply (known_calm a); [apply G12|]. }
  exists a1, a2, keep, a3. split_and!; [done..|]. apply (good_trans _ _ _ [] [] G12 G3).
Qed.

Lemma notes_arp s z : test_sta_flag s WLAN_STA_VALID = true -> sta_core (s <| s_arp_retry_count := z |>) = sta_core s.
Proof.
  intros Hv. unfold sta_core. change (test_sta_flag (s <| s_arp_retry_count := z |>) WLAN_STA_VALID)
    with (test_sta_flag s WLAN_STA_VALID). by rewrite Hv.
Qed.

Lemma notes_frame q t : notes (fun s => s <| s_fw_q_len := q |> <| s_arp_retry_count := 0 |> <| s_last_rx := t |>).
Proof.
  intros s Hv. split; [|done].
  change (sta_core (s <| s_fw_q_len := q |> <| s_arp_retry_count := 0 |> <| s_last_rx := t |>))
    with (sta_core (s <| s_arp_retry_count := 0 |>)). by apply notes_arp.
Qed.

Lemma firmware_event_ok a e : power_inv a -> exists a', AP_RxHandleEvent C a e = Some a' /\ good a a' [].
Proof.
  intros Hinv. destruct e as [sa pm priority q_len|sa q_len]; unfold AP_RxHandleEvent; cbv zeta;
    set (sta := APStaInfo_FindStaByAddr a sa); pose proof (known_find a sa : known a sta) as Hk.
  - destruct (heard_good a sta sa _ (fun a1 => mk_rx sta (Z.lor (Z.lor AP_RX_FLAGS_FRAME_TYPE_NULL_DATA
      (if pm then AP_RX_FLAGS_PM_BIT else 0)) (if sta_test a1 sta WLAN_STA_WMM then AP_RX_FLAGS_QOS_BIT else 0)) priority)
      Hinv Hk (notes_frame (if 0 <? q_len then q_len else UNKNOWN_FW_QUEUE_LENGTH) (a_jiffies a))
      (fun _ => eq_refl)) as (a1 & a2 & keep & a' & E1 & E2 & E3 & G).
    exists a'. rewrite E1. cbn [mbind option_bind]. rewrite E2. cbn [mbind option_bind]. by rewrite E3.
  - destruct (heard_good a sta sa _ (fun a1 => mk_rx sta (Z.lor AP_RX_FLAGS_FRAME_TYPE_PS_POLL
      (if sta_test a1 sta WLAN_STA_WMM then AP_RX_FLAGS_QOS_BIT else 0)) 0)
      Hinv Hk (notes_frame q_len (a_jiffies a)) (fun _ => eq_refl)) as (a1 & a2 & keep & a' & E1 & E2 & E3 & G).
    exists a'. rewrite E1. cbn [mbind option_bind]. rewrite E2. cbn [mbind option_bind]. by rewrite E3.
Qed.

Lemma dq_status_ok a wsid len : power_inv a -> (wsid < st_gMaxAID C)%nat ->
  exists a', _dq_status_handler C a wsid len = Some a' /\ good a a' [].
Proof.
  intros Hinv Hlt. rewrite <- (pi_sta _ _ _ _ _ (pw_pool _ Hinv)) in Hlt.
  destruct (lookup_lt_is_Some_2 _ _ Hlt) as [s Hi]. unfold _dq_status_handler, upd_sta. rewrite Hi. cbn [mbind option_bind].
  set (a1 := set_sta a wsid (s <| s_fw_q_len := len |>)). assert (good a a1 []) as G1 by (by apply (station_good a wsid s)).
  destruct (0 <? len); [|by exists a1].
  destruct (recalc_good a1 wsid (s <| s_fw_q_len := len |>) (proj1 (proj2 G1))) as (a2 & E2 & G2 & _).
  { change (a_StaConInfo a1) with (<[wsid := s <| s_fw_q_len := len |>]> (a_StaConInfo a)).
    by rewrite list_lookup_insert_eq. }
  exists a2. split; [done|]. apply (good_trans _ _ _ [] [] G1 G2).
Qed.

(** *** Frames of the host *)
Lemma proc_good a f : power_inv a ->
  exists b a', proc C a f = Some (b, a') /\ good a a' (if b then [tf_id f] else []).
Proof.
  intros Hinv. destruct (proc_ok a f (pw_pool _ Hinv)) as (b & a' & E & Q & I & B). exists b, a'. split; [done|].
  split; [by apply quiet_calm|]. split; [by eapply quiet_sleep|done].
Qed.

(** The chip sleeps and could not be woken: the frame is neither sent nor freed. *)
Definition stuck (e : host_env) : bool :=
  match e_api e with HOST_API_PWR_SAVING false => true | _ => false end.

Lemma send_ethernet_ok e a id dest priority : power_inv a ->
  exists a', ssv6xxx_wifi_send_ethernet C e a id dest priority = Some a' /\ good a a' (if stuck e then [] else [id]).
Proof.
  intros Hinv. unfold ssv6xxx_wifi_send_ethernet, stuck.
  assert (exists a', ('(ok, a) ← TxHdl_prepare_wifi_txreq C e a id dest priority;
    Some (if (ok : bool) then a else ap_emit a (FrameFree (host_frame id dest)))) = Some a' /\ good a a' [id]) as Hsend.
  { assert (exists b a', TxHdl_prepare_wifi_txreq C e a id dest priority = Some (b, a') /\
      good a a' (if b then [id] else [])) as (b & a' & E & G).
    { unfold TxHdl_prepare_wifi_txreq. destruct (e_recovering e); [by exists false, a|].
      destruct (ap_sta_info_capability a dest); [|by exists false, a]. apply proc_good, Hinv. }
    rewrite E. cbn [mbind option_bind]. eexists. split; [done|]. destruct b; [done|].
    apply (good_trans _ _ _ [] [id] G), (emit_good a' (FrameFree (host_frame id dest))), G. }
  destruct (e_api e) as [| |[]]; [|done|done|by exists a].
  eexists. split; [done|]. apply (emit_good a (FrameFree (host_frame id dest)) Hinv).
Qed.

(** *** Data frames *)
Lemma notes_rcpi r : notes (fun s => ap_mode_fine_tune_rcpi s r).
Proof. intros s Hv. unfold ap_mode_fine_tune_rcpi. by destruct (s_prev_rcpi s =? 0). Qed.

(** The frames that [AP_RxHandleData] takes over: the frame itself unless it goes
    on to the host, or the copy that is forwarded. *)
Definition rx_ids (p : rx_packet) (r : ssv6xxx_data_result) : list nat :=
  match r with
  | SSV6XXX_DATA_ACPT => [p_id p]
  | SSV6XXX_DATA_CONT => if is_multicast_ether_addr (p_dest p) then option_list (p_copy p) else []
  end.

Lemma notes_arp_only : notes (fun s => s <| s_arp_retry_count := 0 |>).
Proof. intros s Hv. split; [by apply notes_arp|done]. Qed.

Lemma rx_data_ok e a p : power_inv a -> exists r a' ids, AP_RxHandleData C e a p = Some (r, a') /\ good a a' ids /\
  (if stuck e then exists lost, lost ⊆+ p_id p :: option_list (p_copy p) /\ rx_ids p r ≡ₚ lost ++ ids else ids = rx_ids p r).
Proof.
  intros Hinv. unfold AP_RxHandleData. cbv zeta.
  set (sta := APStaInfo_FindStaByAddr a (p_src p)). pose proof (known_find a (p_src p) : known a sta) as Hk.
  destruct (hear_ok a sta _ Hinv Hk notes_arp_only) as (a1 & E1 & G1). rewrite E1. cbn [mbind option_bind].
  set (UP := match p_qos p with Some q => _ | None => 0 end). set (rx := mk_rx sta _ UP).
  destruct (heard_good a1 sta (p_src p) _ (fun _ => rx) (proj1 (proj2 G1)) (known_calm _ _ _ (proj1 G1) Hk)
    (notes_rcpi (p_rcpi p)) (fun _ => eq_refl)) as (a1' & a1'' & keep & a2 & E2 & E3 & E4 & G2).
  rewrite E2. cbn [mbind option_bind]. rewrite E3. cbn [mbind option_bind]. rewrite E4. cbn [mbind option_bind].
  pose proof (good_trans _ _ _ [] [] G1 G2) as G12. pose proof (proj1 (proj2 G12)) as I2. clear G1 G2 E1 E2 E3 E4.
  destruct keep; cbn [negb].
  2: { eexists _, _, [p_id p]. split; [done|]. split; [|case_match; [exists []; split; [apply submseteq_nil_l|done]|done]].
    apply (good_trans _ _ _ [] [p_id p] G12), (emit_good a2 (FrameFree (host_frame (p_id p) (p_dest p))) I2). }
  destruct (is_multicast_ether_addr (p_dest p)) eqn:Em.
  - destruct (p_copy p) as [id|] eqn:Ec.
    + destruct (send_ethernet_ok e a2 id (p_dest p) UP I2) as (a3 & E3 & G3). rewrite E3. cbn [mbind option_bind].
      eexists _, _, _. split; [done|]. split; [by apply (good_trans _ _ _ _ _ G12 G3)|].
      cbn [rx_ids]. rewrite Em, Ec. destruct (stuck e); [|done]. exists [id]. split; [|done]. by apply submseteq_cons.
    + eexists _, _, []. split; [done|]. split; [done|]. cbn [rx_ids]. rewrite Em, Ec.
      case_match; [exists []; split; [apply submseteq_nil_l|done]|done].
  - destruct (APStaInfo_FindStaByAddr a2 (p_dest p)).
    + destruct (send_ethernet_ok e a2 (p_id p) (p_dest p) UP I2) as (a3 & E3 & G3). rewrite E3. cbn [mbind option_bind].
      eexists _, _, _. split; [done|]. split; [by apply (good_trans _ _ _ _ _ G12 G3)|].
      destruct (stuck e); [|done]. exists [p_id p]. split; [|done]. apply submseteq_skip, submseteq_nil_l.
    + eexists _, _, []. split; [done|]. split; [done|]. cbn [rx_ids]. rewrite Em.
      case_match; [exists []; split; [apply submseteq_nil_l|done]|done].
Qed.

(** *** Expiry *)
Lemma expire_ok n i ac : (ac < 4)%nat -> forall a s, (length (ps_queue s ac) <= n)%nat ->
  pool_inv P a [] 0 -> a_StaConInfo a !! i = Some s ->
  exists a' s', expire C n a i ac = Some a' /\ moves P a [] a' [] 0 /\ a_StaConInfo a' !! i = Some s'.
Proof.
  intros Hac. induction n as [|n IH]; intros a s Hn Hinv Hi; cbn [expire]; rewrite Hi; cbn [mbind option_bind];
    (destruct (ps_queue s ac) as [|k q] eqn:Eq; [by exists a, s|]); cbn [length] in Hn; [lia|].
  destruct (proj2 (pi_used _ _ _ _ _ Hinv k)) as [d Hd].
  { destruct (queued_insert a i s ac [] Hi (proj1 (get_sta _ _ _ _ _ _ Hinv Hi)) Hac) as (r & P1 & _).
    rewrite app_nil_r, P1, Eq. by left. }
  rewrite Hd. cbn [mbind option_bind]. destruct (sta_info_buffer_expired C a s (d_jiffies d)); [|by exists a, s].
  pose proof (ps_deq_ok _ _ _ ac _ _ _ Hinv Hi Hac) as Hdeq. rewrite Eq in Hdeq. destruct Hdeq as (E1 & Q1 & I1 & B1).
  rewrite E1. cbn [mbind option_bind]. set (a1 := set_sta a i (set_queue s ac q)) in *.
  destruct (add_buffered_ok P a1 [k] 1 (-1)) as (Q2 & I2 & B2); [done|lia|pose proof (pi_x _ _ _ _ _ I1); lia|lia|].
  destruct (free_ok _ _ _ _ _ I2) as (a3 & E3 & Q3 & I3 & B3 & S3 & _). rewrite E3. cbn [mbind option_bind].
  assert (a_StaConInfo a3 !! i = Some (set_queue s ac q)) as Hi3.
  { rewrite S3. change (a_StaConInfo (add_buffered a1 (-1))) with (<[i := set_queue s ac q]> (a_StaConInfo a)).
    rewrite list_lookup_insert_eq; [done|by eapply lookup_lt_Some]. }
  destruct (IH a3 (set_queue s ac q)) as (a4 & s4 & E4 & M4 & Hi4); [|done|done|].
  { rewrite ps_queue_set by (try apply (get_sta _ _ _ _ _ _ Hinv Hi); lia). lia. }
  exists a4, s4. split; [done|]. split; [|done]. eapply moves_trans; [|exact M4].
  split; [by etrans; [exact Q1|etrans; [exact Q2|]]|]. split; [done|]. by rewrite B3, B2, B1.
Qed.

Lemma cleanup_acs_ok i : forall acs a, Forall (fun ac => (ac < 4)%nat) acs -> power_inv a -> valid_at a i ->
  exists b a', cleanup_acs C acs a i = Some (b, a') /\ good a a' [].
Proof.
  induction acs as [|ac acs IH]; intros a Hacs Hinv (s & Hi & Hv); cbn [cleanup_acs]; [by exists false, a|].
  apply list.Forall_cons_1 in Hacs as [Hac Hacs]. unfold sta_info_cleanup_expire_buffered_ac. rewrite Hi.
  cbn [mbind option_bind].
  destruct (expire_ok (S (length (ps_queue s ac))) i ac Hac a s ltac:(lia) (pw_pool _ Hinv) Hi) as (a1 & s1 & E1 & M1 & Hi1).
  pose proof (moves_good _ _ Hinv M1) as G1. rewrite E1. cbn [mbind option_bind].
  destruct (recalc_good a1 i s1 (proj1 (proj2 G1)) Hi1) as (a2 & E2 & G2 & s2 & Hi2 & _). rewrite E2.
  cbn [mbind option_bind]. rewrite Hi2. cbn [mbind option_bind]. pose proof (good_trans _ _ _ [] [] G1 G2) as G12.
  destruct (IH a2 Hacs (proj1 (proj2 G12))) as (b & a3 & E3 & G3).
  { apply (calm_valid a); [apply G12|by exists s]. }
  rewrite E3. cbn [mbind option_bind]. eexists _, _. split; [done|]. apply (good_trans _ _ _ [] [] G12 G3).
Qed.

Lemma cleanup_stations_ok : forall l a, (forall i, i ∈ l -> (i < st_gMaxAID C)%nat) -> power_inv a ->
  exists b a', cleanup_stations C l a = Some (b, a') /\ good a a' [].
Proof.
  induction l as [|i l IH]; intros a Hl Hinv; cbn [cleanup_stations]; [by exists false, a|].
  destruct (lookup_lt_is_Some_2 (a_StaConInfo a) i) as [s Hi].
  { rewrite (pi_sta _ _ _ _ _ (pw_pool _ Hinv)). apply Hl. by left. }
  rewrite Hi. cbn [mbind option_bind].
  assert (exists b a1, (if test_sta_flag s WLAN_STA_VALID then sta_info_cleanup_expire_buffered C a i
    else Some (false, a)) = Some (b, a1) /\ good a a1 []) as (b & a1 & E1 & G1).
  { destruct (test_sta_flag s WLAN_STA_VALID) eqn:Hv; [|by exists false, a].
    apply cleanup_acs_ok; [repeat (constructor; [lia|]); constructor|done|by exists s]. }
  rewrite E1. cbn [mbind option_bind].
  destruct (IH a1 (fun j Hj => Hl j (list_elem_of_further _ _ _ Hj)) (proj1 (proj2 G1))) as (b2 & a2 & E2 & G2).
  rewrite E2. cbn [mbind option_bind]. eexists _, _. split; [done|]. apply (good_trans _ _ _ [] [] G1 G2).
Qed.

Lemma cleanup_timer_good a (b : bool) : power_inv a ->
  good a (if b then start_timer (a <| a_sta_pkt_cln_timer := b |>) TCleanup AP_STA_INFO_CLEANUP_INTERVAL
          else a <| a_sta_pkt_cln_timer := b |>) [].
Proof.
  intros Hinv. apply moves_good; [done|]. destruct b; [apply arm_timer_ok, Hinv|].
  split_and!; [done|by apply (pool_inv_same P a); [..|apply Hinv]|done].
Qed.

Lemma cleanup_ok a : power_inv a -> exists a', sta_info_cleanup C a = Some a' /\ good a a' [].
Proof.
  intros Hinv. unfold sta_info_cleanup.
  destruct (cleanup_stations_ok (seq 0 (st_gMaxAID C)) a) as (b & a1 & E1 & G1); [|done|].
  { intros i Hi%elem_of_seq. lia. }
  rewrite E1. cbn [mbind option_bind]. eexists. split; [done|]. apply (good_trans _ _ _ [] [] G1).
  by apply (cleanup_timer_good a1 b), G1.
Qed.
End Inv.
