(* ===== verification/ApPath.v ===== *)
(** * ApPath: runs of the access point's data path

    The operations of [ApPower] in any order: frames of the host, data frames,
    null and PS-Poll frames of stations, reports of the firmware, the cleanup
    timer and the passing of time.  A run keeps the invariant of [ApPowerInv],
    never faults, and every frame that came in is queued, was handed to the
    transmit task or was freed, once. *)

From stdpp Require Import base list option.
From Stdlib Require Import ZArith Lia ZifyNat.
From S2P Require Import Prelude Words Wire WpaIe WpaAuth Reorder ApInfo ApElem ApPower ApPowerInv.

(** ** Steps *)

Inductive path_op :=
| OpSend (e : host_env) (id : nat) (dest : list Z) (priority : Z)
| OpData (e : host_env) (p : rx_packet)
| OpEvent (ev : ap_event)
| OpDqStatus (wsid : nat) (len : Z)
| OpCleanup
| OpTick (now : Z).

(** One operation: the frames it took over, and the state after it. *)
Definition path_step (C : ap_static) (a : ApInfo) (op : path_op) : option (list nat * ApInfo) :=
  match op with
  | OpSend e id dest priority => a ← ssv6xxx_wifi_send_ethernet C e a id dest priority; Some ([id], a)
  | OpData e p => '(r, a) ← AP_RxHandleData C e a p; Some (rx_ids p r, a)
  | OpEvent ev => a ← AP_RxHandleEvent C a ev; Some ([], a)
  | OpDqStatus wsid len => a ← _dq_status_handler C a wsid len; Some ([], a)
  | OpCleanup => a ← sta_info_cleanup C a; Some ([], a)
  | OpTick now => Some ([], a <| a_jiffies := now |>)
  end.

Fixpoint path_run (C : ap_static) (a : ApInfo) (ops : list path_op) : option (list nat * ApInfo) :=
  match ops with
  | [] => Some ([], a)
  | op :: r => '(l, a) ← path_step C a op; '(l2, a) ← path_run C a r; Some (l ++ l2, a)
  end.

(** The firmware names an existing station. *)
Definition op_ok (C : ap_static) (op : path_op) : bool :=
  match op with
  | OpDqStatus wsid _ => (wsid <? st_gMaxAID C)%nat
  | _ => true
  end.

(** The frames that an operation may leave neither sent nor freed: those it gets
    while the chip sleeps and cannot be woken up *)
Definition stuck_frames (op : path_op) : list nat :=
  match op with
  | OpSend e id _ _ => if stuck e then [id] else []
  | OpData e p => if stuck e then p_id p :: option_list (p_copy p) else []
  | _ => []
  end.

(** Every frame is accounted for: those queued, handed to the transmit task or
    freed in [a'] are those in [a] and the [ids] that came in, once each, but for
    frames among [may_lose]. *)
Definition accounted (may_lose ids : list nat) (a a' : ApInfo) : Prop :=
  exists lost, lost ⊆+ may_lose /\ lost ++ balance a' [] ≡ₚ ids ++ balance a [].

Lemma accounted_none ids a a' : balance a' [] ≡ₚ ids ++ balance a [] -> accounted [] ids a a'.
Proof. intros B. by exists []. Qed.

Lemma accounted_nil ids a a' : accounted [] ids a a' -> balance a' [] ≡ₚ ids ++ balance a [].
Proof. intros (lost & ->%submseteq_nil_r & B). exact B. Qed.

Lemma accounted_trans s1 s2 l1 l2 a b c : accounted s1 l1 a b -> accounted s2 l2 b c -> accounted (s1 ++ s2) (l1 ++ l2) a c.
Proof.
  intros (x1 & H1 & B1) (x2 & H2 & B2). exists (x1 ++ x2). split; [by apply submseteq_app|].
  rewrite <- app_assoc, B2. rewrite app_assoc, (Permutation_app_comm x1 l2), <- !app_assoc, B1, !app_assoc.
  by rewrite (Permutation_app_comm l2 l1).
Qed.

(** ** The sizes that are assumed of the configuration *)
Class path_sane (C : ap_static) : Prop := {
  sane_pool : (1 <= AP_TOTAL_MAX_TX_BUFFER C)%nat;
  sane_count : Z.of_nat (AP_TOTAL_MAX_TX_BUFFER C) + 1 < 65536;
  sane_aid : (st_gMaxAID C <= 255)%nat
}.

Section Path.
Context (C : ap_static) `{HC : !path_sane C}.

Lemma tick_ok a now : power_inv C a -> power_inv C (a <| a_jiffies := now |>).
Proof. intros [Hp Hs]. split; [by apply (pool_inv_same C _ a)|done]. Qed.

(** Every operation but the passing of time leaves what is not its own alone. *)
Lemma path_step_good a op : power_inv C a -> op_ok C op = true -> (forall now, op <> OpTick now) ->
  exists ids got lost a', path_step C a op = Some (ids, a') /\ good C a a' got /\
    lost ⊆+ stuck_frames op /\ ids ≡ₚ lost ++ got.
Proof.
  intros Hinv Hop Hnt. destruct HC as [H1 H2 H3].
  destruct op as [e id dest pr|e p|ev|wsid len| |now]; cbn [path_step op_ok] in *; [..|by destruct (Hnt now)].
  - destruct (send_ethernet_ok C H1 H2 H3 e a id dest pr Hinv) as (a' & -> & G). cbn [mbind option_bind].
    cbn [stuck_frames]. destruct (stuck e); [exists [id], [], [id]|exists [id], [id], []]; eauto.
  - destruct (rx_data_ok C H1 H2 H3 e a p Hinv) as (r & a' & ids & -> & G & Hids). cbn [mbind option_bind].
    cbn [stuck_frames]. destruct (stuck e); [destruct Hids as (lost & Hl & Hp); exists (rx_ids p r), ids, lost|
      exists ids, ids, []; rewrite <- Hids]; eauto.
  - destruct (firmware_event_ok C H1 H2 H3 a ev Hinv) as (a' & -> & G). cbn [mbind option_bind]. exists [], [], []. eauto.
  - apply Nat.ltb_lt in Hop. destruct (dq_status_ok C H1 H3 a wsid len Hinv Hop) as (a' & -> & G). cbn [mbind option_bind]. exists [], [], []. eauto.
  - destruct (cleanup_ok C H1 H2 H3 a Hinv) as (a' & -> & G). cbn [mbind option_bind]. exists [], [], []. eauto.
Qed.

Lemma path_step_ok a op : power_inv C a -> op_ok C op = true ->
  exists ids a', path_step C a op = Some (ids, a') /\ power_inv C a' /\ accounted (stuck_frames op) ids a a'.
Proof.
  intros Hinv Hop. assert ((exists now, op = OpTick now) \/ forall now, op <> OpTick now) as [[now ->]|Hnt]
    by (destruct op; (by left; eexists) || by right).
  - eexists _, _. split; [done|]. split; [by apply tick_ok|by apply accounted_none].
  - destruct (path_step_good a op Hinv Hop Hnt) as (ids & got & lost & a' & E & (_ & I & B) & Hl & Hp). exists ids, a'.
    split_and!; [done|done|]. exists lost. split; [done|]. by rewrite Hp, B, app_assoc.
Qed.

Lemma path_run_ok : forall ops a, power_inv C a -> forallb (op_ok C) ops = true ->
  exists ids a', path_run C a ops = Some (ids, a') /\ power_inv C a' /\ accounted (concat (map stuck_frames ops)) ids a a'.
Proof.
  induction ops as [|op ops IH]; intros a Hinv Hops; cbn [path_run]; [exists [], a; split_and!; [done|done|by apply accounted_none]|].
  cbn [forallb] in Hops. apply andb_true_iff in Hops as [Hop Hops].
  destruct (path_step_ok a op Hinv Hop) as (l & a1 & -> & I1 & B1). cbn [mbind option_bind].
  destruct (IH a1 I1 Hops) as (l2 & a2 & -> & I2 & B2). cbn [mbind option_bind]. eexists _, _. split; [done|].
  split; [done|]. by apply (accounted_trans _ _ _ _ a a1 a2).
Qed.

(** C13: Any sequence of data-path operations of the access point (reports of the
    firmware name stations of the table) returns, and afterwards the counter of
    buffered frames is the number of queued descriptors and at most the size of
    the pool, the descriptors in use are exactly those in the queues, each in one
    place, only valid sleeping stations have queued frames, and the number of
    sleeping stations is exact.  The frames queued, handed to the transmit task or
    freed at the end are exactly those at the start and those that came in: none
    is sent or freed twice, and none is lost but frames that came in while the
    chip slept and could not be woken up. *)
Theorem path_run_conserves ops a : power_inv C a -> forallb (op_ok C) ops = true ->
  exists ids lost a', path_run C a ops = Some (ids, a') /\
    lost ⊆+ concat (map stuck_frames ops) /\ lost ++ balance a' [] ≡ₚ ids ++ balance a [] /\
    a_total_ps_buffered a' = Z.of_nat (length (queued a')) /\ (length (queued a') <= AP_TOTAL_MAX_TX_BUFFER C)%nat /\
    NoDup (queued a') /\ (forall k, is_Some (ap_desp a' k) <-> k ∈ queued a') /\
    Forall (fun s => sta_queued s <> [] -> test_sta_flag s WLAN_STA_VALID = true /\ test_sta_flag s WLAN_STA_PS_STA = true)
      (a_StaConInfo a') /\
    a_num_sta_ps a' = count sleeping (a_StaConInfo a').
Proof.
  intros Hinv Hops. destruct (path_run_ok ops a Hinv Hops) as (ids & a' & E & [[_ _ _ Hnd Hu Hb Ht Hx Hs _ _] Hps] & lost & Hl & B).
  exists ids, lost, a'. rewrite app_nil_r in *. split_and!; try done. lia.
Qed.
End Path.

(** ** The nested call *)
Section Fuel.
Context (C : ap_static).

Lemma marked_direct d1 d2 a f : has (tf_rsvd0 f) AP_PS_FRAME = true ->
  frame_proc C d1 a f None 0 = frame_proc C d2 a f None 0.
Proof.
  intros Hm. unfold frame_proc, ssv6xxx_data_could_be_send. destruct (ap_get_tx_desp a) as [k|]; [|done].
  cbn [mbind option_bind]. destruct (ssv6xxx_data_check_authed _ _) as [[]|]; try done. cbn [mbind option_bind].
  unfold ssv6xxx_data_need_queue. by rewrite prepared_poll, Hm, orb_true_r.
Qed.

Lemma released_marked f : has (tf_rsvd0 (f <| tf_rsvd0 := Z.lor (tf_rsvd0 f) AP_PS_FRAME |>)) AP_PS_FRAME = true.
Proof.
  change (has (Z.lor (tf_rsvd0 f) AP_PS_FRAME) AP_PS_FRAME = true). unfold AP_PS_FRAME.
  rewrite has_lor by lia. apply orb_true_r.
Qed.

Lemma frame_proc_ext d1 d2 a f : (forall a i, d1 a i = d2 a i) -> frame_proc C d1 a f None 0 = frame_proc C d2 a f None 0.
Proof.
  intros Hd. unfold frame_proc, ssv6xxx_data_could_be_send. destruct (ap_get_tx_desp a) as [k|]; [|done].
  cbn [mbind option_bind]. destruct (ssv6xxx_data_check_authed _ _) as [[]|]; try done. cbn [mbind option_bind].
  unfold ssv6xxx_data_need_queue, tx_h_unicast_ps_buf. destruct (_ || _); [done|]. destruct (has _ AP_TX_UNICAST); [|done].
  destruct (d_sta _) as [i|]; [|done]. destruct (up_to_ac !! _) as [ac|]; [|done]. cbn [mbind option_bind].
  destruct (a_StaConInfo _ !! i); [|done]. cbn [mbind option_bind]. destruct (_ && _); [|done].
  destruct (ps_enqueue _ _ _ _ _) as [a1|]; [|done]. cbn [mbind option_bind]. destruct (g_AP_TimAllOne _); [done|].
  destruct (sta_info_recalc_tim a1 i) as [[[] a2]|]; [|done|done]. cbn [mbind option_bind]. by rewrite Hd.
Qed.

Section Ext.
Context (p q : ApInfo -> tx_frame -> option (bool * ApInfo)).
Context (Hpq : forall a f, has (tf_rsvd0 f) AP_PS_FRAME = true -> p a f = q a f).

Lemma send_frames_ext i more reason : forall l a, send_frames p l more reason a i = send_frames q l more reason a i.
Proof.
  induction l as [|k l IH]; intros a; [done|]. cbn [send_frames]. destruct (ap_desp a k) as [d|]; [|done].
  cbn [mbind option_bind]. set (a1 := set_desp a k _).
  assert (ap_send_buffered_frame p a1 k = ap_send_buffered_frame q a1 k) as ->.
  { unfold ap_send_buffered_frame. destruct (ap_desp a1 k) as [d1|]; [|done]. cbn [mbind option_bind].
    by rewrite Hpq by apply released_marked. }
  destruct (ap_send_buffered_frame q a1 k) as [a2|]; [|done]. cbn [mbind option_bind].
  destruct (upd_sta a2 i _) as [a3|]; [|done]. cbn [mbind option_bind]. apply IH.
Qed.

Lemma deliver_ext a i : sta_ps_deliver_poll_response C p a i = sta_ps_deliver_poll_response C q a i.
Proof.
  unfold sta_ps_deliver_poll_response, ieee80211_sta_ps_deliver_response. destruct (a_StaConInfo a !! i) as [s|]; [|done].
  cbn [mbind option_bind]. destruct (if bool_decide _ then _ else _) as [a1|]; [|done]. cbn [mbind option_bind].
  destruct (collect _ _ _ _ _) as [[[l more] a2]|]; [|done]. cbn [mbind option_bind]. by rewrite send_frames_ext.
Qed.
End Ext.

Lemma fuel_two m a f : TxHdl_FrameProc C (S (S m)) a f = TxHdl_FrameProc C 2 a f.
Proof.
  change (TxHdl_FrameProc C (S (S m)) a f)
    with (frame_proc C (sta_ps_deliver_poll_response C (TxHdl_FrameProc C (S m))) a f None 0).
  change (TxHdl_FrameProc C 2 a f)
    with (frame_proc C (sta_ps_deliver_poll_response C (TxHdl_FrameProc C 1)) a f None 0).
  apply frame_proc_ext. intros b i. apply deliver_ext. intros b' g Hg. by apply marked_direct.
Qed.

(** C15: [TxHdl_FrameProc] and the delivery of buffered frames call each other,
    but the recursion ends: in every state of the data path a call returns for
    every frame, with any bound of two or more on the nested calls and with the
    same result, takes the frame over exactly when it says so and keeps the
    invariant; and a call for a frame that is released from a queue, which is the
    only call that is nested, returns without a further nested call. *)
Theorem frame_proc_fuel `{!path_sane C} a f : power_inv C a ->
  (exists ok a', (forall m, TxHdl_FrameProc C (S (S m)) a f = Some (ok, a')) /\ power_inv C a' /\
     balance a' [] ≡ₚ (if ok then [tf_id f] else []) ++ balance a []) /\
  (has (tf_rsvd0 f) AP_PS_FRAME = true -> exists ok a', forall m, TxHdl_FrameProc C (S m) a f = Some (ok, a')).
Proof.
  intros Hinv. destruct (proc_good C sane_pool sane_count sane_aid a f Hinv) as (ok & a' & E & _ & I & B). split.
  - exists ok, a'. split_and!; [|done|done]. intros m. by rewrite fuel_two.
  - intros Hm. exists ok, a'. intros m. rewrite <- E. unfold proc. destruct m; [|apply fuel_two]. by apply marked_direct.
Qed.
End Fuel.

(** ** The answer to a poll *)

(** Frames that a poll may fetch: those of the access categories that count *)
Definition fetchable (ignored : Z) (b : list (list nat)) (acs : list nat) : bool :=
  existsb (fun ac => negb (has ignored (BIT (Z.of_nat ac))) && (0 <? length (default [] (b !! ac)))%nat) acs.

Lemma insert_default (b : list (list nat)) ac : <[ac := default [] (b !! ac)]> b = b.
Proof.
  destruct (b !! ac) as [q|] eqn:E; [by rewrite list_insert_id|]. apply list_insert_ge. by apply lookup_ge_None.
Qed.

Lemma pick_none ig acs b : pick 0 ig acs b = ([], fetchable ig b acs, b).
Proof.
  induction acs as [|ac acs IH]; [done|]. cbn [pick fetchable existsb]. destruct (has ig _); [done|]. cbv zeta.
  cbn [negb andb]. rewrite drop_0, take_0, insert_default. fold (fetchable ig b acs).
  destruct (default [] (b !! ac)) as [|k q]; [|done]. cbn [length Nat.sub app]. by rewrite IH.
Qed.

(** One frame: the oldest of the first category that counts and has one *)
Lemma pick_first ig pre ac post b k q : fetchable ig b pre = false -> has ig (BIT (Z.of_nat ac)) = false ->
  b !! ac = Some (k :: q) -> ac ∉ post -> ac ∉ pre ->
  pick 1 ig (pre ++ ac :: post) b
  = ([k], (0 <? length q)%nat || fetchable ig (<[ac := q]> b) post, <[ac := q]> b).
Proof.
  intros Hpre Hig Hac Hpost. revert Hpre. induction pre as [|ac' pre IH]; intros Hpre Hnin; cbn [app pick].
  - rewrite Hig, Hac. cbv zeta. cbn [default]. change (drop 1 (k :: q)) with q. change (take 1 (k :: q)) with [k].
    destruct q as [|k' q]; [|done]. cbn [length Nat.sub]. by rewrite pick_none.
  - cbn [fetchable existsb] in Hpre. apply orb_false_iff in Hpre as [Hc Hpre]. apply not_elem_of_cons in Hnin as [_ Hnin].
    fold (fetchable ig b pre) in Hpre. destruct (has ig (BIT (Z.of_nat ac'))); [by apply IH|].
    cbn [negb andb] in Hc. apply Nat.ltb_ge in Hc. cbv zeta.
    destruct (default [] (b !! ac')) as [|x l] eqn:E; [|cbn [length] in Hc; lia]. rewrite drop_nil, take_nil. cbn [length Nat.sub].
    assert (<[ac' := []]> b = b) as -> by (rewrite <- E; apply insert_default). by rewrite (IH Hpre Hnin).
Qed.

Section Poll.
Context (C : ap_static).

(** What the collection of frames does not touch *)
Definition same_io (a a' : ApInfo) : Prop :=
  a_out a' = a_out a /\ a_pApTxData a' = a_pApTxData a /\ a_n_enqueue a' = a_n_enqueue a.

Lemma same_io_trans a1 a2 a3 : same_io a1 a2 -> same_io a2 a3 -> same_io a1 a3.
Proof. intros (? & ? & ?) (? & ? & ?). split_and!; congruence. Qed.

Lemma ps_deq_same a i ac k a' : ps_deq a i ac = Some (k, a') -> same_io a a'.
Proof.
  unfold ps_deq. destruct (a_StaConInfo a !! i) as [s|]; [|done]. cbn [mbind option_bind].
  destruct (ps_queue s ac); intros [= <- <-]; done.
Qed.

Lemma take_frames_same i ac : forall n a l r a', take_frames n a i ac = Some (l, r, a') -> same_io a a'.
Proof.
  induction n as [|n IH]; intros a l r a'; cbn [take_frames]; [by intros [= <- <- <-]|].
  destruct (ps_deq a i ac) as [[[k|] a1]|] eqn:E; [| |done]; apply ps_deq_same in E; cbn [mbind option_bind].
  - destruct (take_frames n (add_buffered a1 (-1)) i ac) as [[[l2 r2] a2]|] eqn:E2; [|done]. apply IH in E2.
    intros [= <- <- <-]. by apply (same_io_trans a a1).
  - by intros [= <- <- <-].
Qed.

Lemma collect_same ig i : forall acs n a l more a', collect n ig acs a i = Some (l, more, a') -> same_io a a'.
Proof.
  induction acs as [|ac acs IH]; intros n a l more a'; cbn [collect]; [by intros [= <- <- <-]|].
  destruct (has ig _); [by apply IH|].
  destruct (take_frames n a i ac) as [[[l1 n1] a1]|] eqn:E; [|done]. apply take_frames_same in E. cbn [mbind option_bind].
  destruct (a_StaConInfo a1 !! i) as [s|]; [|done]. cbn [mbind option_bind]. destruct (ps_queue s ac).
  - destruct (collect n1 ig acs a1 i) as [[[l2 m2] a2]|] eqn:E2; [|done]. apply IH in E2. intros [= <- <- <-].
    by eapply same_io_trans.
  - by intros [= <- <- <-].
Qed.

(** The frame goes to an authorized station. *)
Definition authed_for (a : ApInfo) (f : tx_frame) : Prop :=
  is_multicast_ether_addr (tx_da f) = false /\
  exists i s, APStaInfo_FindStaByAddr a (tx_da f) = Some i /\ a_StaConInfo a !! i = Some s /\
    test_sta_flag s WLAN_STA_AUTHORIZED = true.

Lemma check_authed_for a f : authed_for a (unmarked f) ->
  ssv6xxx_data_check_authed a (ssv6xxx_data_prepare_tx_data a f false 0) = Some TX_CONTINUE.
Proof.
  intros (Hm & i & s & Hf & Hi & Ha). unfold ssv6xxx_data_check_authed.
  change (d_sta (ssv6xxx_data_prepare_tx_data a f false 0)) with (APStaInfo_FindStaByAddr a (tx_da (unmarked f))).
  rewrite Hf, Hi. cbn [mbind option_bind]. rewrite Ha, prepared_unicast, Hm. cbn [negb andb]. by case_match.
Qed.

Lemma released_sent m a f r : TxHdl_FrameProc C (S m) a f = Some r -> has (tf_rsvd0 f) AP_PS_FRAME = true ->
  authed_for a (unmarked f) -> st_enqueue_ok C (a_n_enqueue a) = true ->
  r = (true, ap_emit (a <| a_n_enqueue := S (a_n_enqueue a) |>) (TxEnqueue (unmarked f))).
Proof.
  intros E Hm Ha He. cbn [TxHdl_FrameProc] in E. unfold frame_proc, ssv6xxx_data_could_be_send in E.
  destruct (ap_get_tx_desp a) as [k|] eqn:Ek; [|done]. cbn [mbind option_bind] in E.
  rewrite bool_decide_false in E by (by intros [? ?]). cbv zeta in E.
  set (d := ssv6xxx_data_prepare_tx_data a f false 0) in E.
  change (ssv6xxx_data_check_authed (set_desp a k (Some d)) d) with (ssv6xxx_data_check_authed a d) in E.
  unfold d in E. rewrite check_authed_for in E by done. fold d in E. cbn [mbind option_bind] in E.
  unfold ssv6xxx_data_need_queue in E. unfold d in E. rewrite prepared_poll, Hm, orb_true_r in E. cbn [orb mbind option_bind] in E.
  rewrite set_release in E by done. unfold hand_over, enqueue in E. rewrite He in E. by apply (inj Some) in E.
Qed.

Lemma mark_da f more last reason : tx_da (mark_frame f more last reason) = tx_da f.
Proof.
  unfold mark_frame. destruct f as [id f8 fc a1 a3 q r md]. unfold modify. cbn [tf_f80211 tf_fc].
  assert (has (if more || negb last then Z.lor fc IEEE80211_FCTL_MOREDATA
               else Z.land fc (u16 (Z.lnot IEEE80211_FCTL_MOREDATA))) IEEE80211_FCTL_TODS = has fc IEEE80211_FCTL_TODS) as H.
  { change IEEE80211_FCTL_TODS with (BIT 8). rewrite !has_BIT by lia. case_match.
    - rewrite Z.lor_spec. change (Z.testbit IEEE80211_FCTL_MOREDATA 8) with false. apply orb_false_r.
    - rewrite Z.land_spec. change (Z.testbit (u16 (Z.lnot IEEE80211_FCTL_MOREDATA)) 8) with true. apply andb_true_r. }
  destruct f8, (bool_decide (reason = FRAME_RELEASE_UAPSD) && last); try reflexivity; unfold tx_da;
    cbn [tf_f80211 tf_fc tf_addr1 tf_addr3 andb]; by rewrite H.
Qed.

Lemma find_sta_insert mac i s s' : forall l n, l !! i = Some s -> s_flags s' = s_flags s -> s_addr s' = s_addr s ->
  find_sta mac n (<[i := s']> l) = find_sta mac n l.
Proof.
  revert i. induction i as [|i IH]; intros [|x l] n Hi Hf Ha; try done; cbn [insert list_insert find_sta].
  - injection Hi as ->. unfold test_sta_flag. by rewrite Hf, Ha.
  - case_match; [done|]. by apply IH.
Qed.

Lemma authed_same a a' i s s' f : a_StaConInfo a !! i = Some s -> a_StaConInfo a' = <[i := s']> (a_StaConInfo a) ->
  s_flags s' = s_flags s -> s_addr s' = s_addr s -> authed_for a f -> authed_for a' f.
Proof.
  intros Hi Hs Hf Ha (Hm & j & sj & Hj & Hlj & Haj). split; [done|].
  assert (APStaInfo_FindStaByAddr a' (tx_da f) = Some j) as Hj'.
  { rewrite <- Hj. unfold APStaInfo_FindStaByAddr. rewrite Hs. by eapply find_sta_insert. }
  destruct (decide (i = j)) as [<-|Hne].
  - assert (sj = s) as -> by congruence. exists i, s'. split; [done|]. rewrite Hs, list_lookup_insert_eq by (by eapply lookup_lt_Some).
    split; [done|]. unfold test_sta_flag. by rewrite Hf.
  - exists j, sj. split; [done|]. by rewrite Hs, list_lookup_insert_ne.
Qed.

Definition is_beacon (e : ap_effect) : Prop := exists bcn len, e = SetBeacon bcn len.

Lemma recalc_output a i a' : recalc_tim_gen_beacon C a i = Some a' ->
  exists rest, a_out a' = a_out a ++ rest /\ Forall is_beacon rest.
Proof.
  unfold recalc_tim_gen_beacon, sta_info_recalc_tim. destruct (a_StaConInfo a !! i) as [s|]; [|done].
  cbn [mbind option_bind]. destruct (__bss_tim_get a (s_aid s)) as [cur|]; [|done]. cbn [mbind option_bind].
  destruct (Bool.eqb _ _); [intros [= <-]; exists []; by rewrite app_nil_r|].
  assert (forall a1, (if indicate_tim s then __bss_tim_set a (s_aid s) else __bss_tim_clear a (s_aid s)) = Some a1 ->
    a_out a1 = a_out a) as Hset.
  { intros a1. unfold __bss_tim_set, __bss_tim_clear. destruct (a_tim a !! _) as [z|]; [|by destruct (indicate_tim s)].
    cbn [mbind option_bind]. by destruct (indicate_tim s); intros [= <-]. }
  destruct (if indicate_tim s then _ else _) as [a1|]; [|done]. cbn [mbind option_bind]. intros E.
  apply (inj Some) in E as <-. specialize (Hset a1 eq_refl). eexists. split.
  - unfold GenBeacon. change (a_out (ap_emit a1 ?e)) with (a_out a1 ++ [e]). by rewrite Hset.
  - constructor; [by eexists _, _|constructor].
Qed.

(** What a poll sends: the frame, with its bits, then perhaps a new beacon *)
Definition polled (f : tx_frame) (more : bool) : tx_frame :=
  (mark_frame f more true FRAME_RELEASE_PSPOLL) <| tf_rsvd0 := 0 |>.

(** What a station receives of the frame [f] that was queued, [more] to follow *)
Definition fetched (f g : tx_frame) (more : bool) : Prop :=
  tf_id g = tf_id f /\ tf_f80211 g = tf_f80211 f /\ tf_addr1 g = tf_addr1 f /\ tf_addr3 g = tf_addr3 f /\
  tf_qos g = tf_qos f /\ tf_rsvd0 g = 0 /\ tf_more_data g = more /\
  if tf_f80211 f then forall k, 0 <= k < 16 -> Z.testbit (tf_fc g) k = if k =? 13 then more else Z.testbit (tf_fc f) k
  else tf_fc g = tf_fc f.

Lemma polled_fetched f more : fetched f (polled f more) more.
Proof.
  destruct f as [id f8 fc a1 a3 q r md]. unfold fetched, polled, mark_frame, modify.
  cbn [tf_id tf_f80211 tf_fc tf_addr1 tf_addr3 tf_qos tf_rsvd0 tf_more_data negb]. rewrite orb_false_r.
  rewrite bool_decide_false by done. destruct f8; split_and!; try done. intros k Hk.
  cbn [andb tf_fc tf_f80211]. assert (Z.testbit IEEE80211_FCTL_MOREDATA k = (k =? 13)) as Hb.
  { change IEEE80211_FCTL_MOREDATA with (2 ^ 13). rewrite Z.pow2_bits_eqb by lia. apply Z.eqb_sym. }
  destruct more; [rewrite Z.lor_spec, Hb; destruct (k =? 13); by rewrite ?orb_true_r, ?orb_false_r|].
  rewrite Z.land_spec. change (u16 (Z.lnot IEEE80211_FCTL_MOREDATA)) with (Z.ldiff (Z.ones 16) IEEE80211_FCTL_MOREDATA).
  rewrite Z.ldiff_spec, Z.ones_spec_low, Hb by lia. destruct (k =? 13); by rewrite ?andb_false_r, ?andb_true_r.
Qed.

Lemma upd_sta_out a i f a' : upd_sta a i f = Some a' -> a_out a' = a_out a.
Proof. unfold upd_sta. destruct (a_StaConInfo a !! i); [|done]. intros E. by apply (inj Some) in E as <-. Qed.

Lemma send_buffered_output m a k d a' : ap_send_buffered_frame (TxHdl_FrameProc C (S m)) a k = Some a' ->
  ap_desp a k = Some d -> authed_for a (d_frame d) -> st_enqueue_ok C (a_n_enqueue a) = true ->
  a_out a' = a_out a ++ [TxEnqueue ((d_frame d) <| tf_rsvd0 := 0 |>)].
Proof.
  intros E Hd Ha He. unfold ap_send_buffered_frame in E. rewrite Hd in E. cbn [mbind option_bind] in E.
  destruct (TxHdl_FrameProc C (S m) a _) as [r|] eqn:Er; [|done]. pose proof (released_marked (d_frame d)) as Hm.
  assert (unmarked ((d_frame d) <| tf_rsvd0 := Z.lor (tf_rsvd0 (d_frame d)) AP_PS_FRAME |>)
    = (d_frame d) <| tf_rsvd0 := 0 |>) as Hu by (unfold unmarked; by rewrite Hm).
  apply released_sent in Er as ->; [|done|by rewrite Hu|done]. rewrite Hu in E. cbn [mbind option_bind] in E.
  by apply (inj Some) in E as <-.
Qed.

Lemma poll_output m a i s k d more b a' : pool_inv C (AP_TOTAL_MAX_TX_BUFFER C) a [] 0 ->
  Z.of_nat (AP_TOTAL_MAX_TX_BUFFER C) < 65536 -> a_StaConInfo a !! i = Some s ->
  pick 1 (ignored_acs s) (seq 0 4) (s_ps_tx_buf s) = ([k], more, b) -> ap_desp a k = Some d ->
  authed_for a (d_frame d) -> st_enqueue_ok C (a_n_enqueue a) = true ->
  sta_ps_deliver_poll_response C (TxHdl_FrameProc C (S m)) a i = Some a' ->
  exists rest, a_out a' = a_out a ++ TxEnqueue (polled (d_frame d) more) :: rest /\ Forall is_beacon rest.
Proof.
  intros Hinv Hw Hi Hp Hd Ha He E. unfold sta_ps_deliver_poll_response in E. rewrite Hi in E. cbn [mbind option_bind] in E.
  unfold ieee80211_sta_ps_deliver_response in E. rewrite bool_decide_false in E by done. cbn [mbind option_bind] in E.
  pose proof (collect_ok C (AP_TOTAL_MAX_TX_BUFFER C) ltac:(unfold AP_TOTAL_MAX_TX_DSP; lia) Hw (ignored_acs s) i (seq 0 4) 1 a s []
    ltac:(by repeat (constructor; [lia|])) Hinv Hi) as Hc. rewrite Hp in Hc. destruct Hc as (a1 & E1 & _ & S1 & _).
  change IEEE80211_NUM_ACS with 4%nat in E. rewrite E1 in E. cbn [mbind option_bind] in E.
  destruct (collect_same _ _ _ _ _ _ _ _ E1) as (O1 & D1 & N1). cbn [send_frames] in E.
  assert (ap_desp a1 k = Some d) as Hd1 by (unfold ap_desp; by rewrite D1). rewrite Hd1 in E. cbn [mbind option_bind] in E.
  rewrite (bool_decide_true (@nil nat = [])) in E by done. set (f := mark_frame (d_frame d) more true FRAME_RELEASE_PSPOLL) in E.
  set (d2 := mk_desp f _ _ _ _) in E. set (a2 := set_desp a1 k (Some d2)) in E.
  destruct (ap_send_buffered_frame _ a2 k) as [a3|] eqn:E3; [|done]. cbn [mbind option_bind] in E.
  assert (a_out a3 = a_out a ++ [TxEnqueue (polled (d_frame d) more)]) as O3.
  { apply (send_buffered_output m a2 k d2) in E3 as ->.
    - change (a_out a2) with (a_out a1). by rewrite O1.
    - unfold a2. by rewrite desp_set, decide_True, decide_True by (first [done | by eapply desp_lt]).
    - apply (authed_same a a2 i s (with_queues s b)); try done. unfold authed_for. change (d_frame d2) with f.
      unfold f. by rewrite mark_da.
    - change (a_n_enqueue a2) with (a_n_enqueue a1). by rewrite N1. }
  destruct (upd_sta a3 i _) as [a4|] eqn:E4; [|done]. cbn [mbind option_bind] in E.
  apply upd_sta_out in E4. destruct (recalc_tim_gen_beacon C a4 i) as [a5|] eqn:E5; [|done]. cbn [mbind option_bind] in E.
  apply recalc_output in E5 as (rest & O5 & Hrest). apply upd_sta_out in E. exists rest. split; [|done].
  by rewrite E, O5, E4, O3, <- app_assoc.
Qed.
End Poll.

Lemma fetchable_other ig b ac q acs : ac ∉ acs -> fetchable ig (<[ac := q]> b) acs = fetchable ig b acs.
Proof.
  induction acs as [|x acs IH]; intros Hn; [done|]. apply not_elem_of_cons in Hn as [Hx Hn]. cbn [fetchable existsb].
  fold (fetchable ig (<[ac := q]> b) acs). fold (fetchable ig b acs). rewrite IH by done.
  by rewrite list_lookup_insert_ne.
Qed.

Lemma fetchable_split ig b pre ac post q : b !! ac = Some q -> fetchable ig b (pre ++ ac :: post)
  = fetchable ig b pre || (negb (has ig (BIT (Z.of_nat ac))) && (0 <? length q)%nat || fetchable ig b post).
Proof. intros H. unfold fetchable. rewrite List.existsb_app. cbn [existsb]. by rewrite H. Qed.

Lemma poll_pick s ac k q : (ac < 4)%nat -> length (s_ps_tx_buf s) = 4%nat -> ps_queue s ac = k :: q ->
  has (ignored_acs s) (BIT (Z.of_nat ac)) = false -> fetchable (ignored_acs s) (s_ps_tx_buf s) (seq 0 ac) = false ->
  pick 1 (ignored_acs s) (seq 0 4) (s_ps_tx_buf s)
  = ([k], fetchable (ignored_acs s) (<[ac := q]> (s_ps_tx_buf s)) (seq 0 4), <[ac := q]> (s_ps_tx_buf s)).
Proof.
  intros Hac Hl Hq Hig Hpre. assert (s_ps_tx_buf s !! ac = Some (k :: q)) as Hb.
  { unfold ps_queue in Hq. destruct (s_ps_tx_buf s !! ac) eqn:E; cbn in Hq; [by subst|done]. }
  assert (seq 0 4 = seq 0 ac ++ ac :: seq (S ac) (3 - ac)) as ->.
  { replace 4%nat with (ac + S (3 - ac))%nat at 1 by lia. by rewrite List.seq_app. }
  assert (ac ∉ seq 0 ac) as Hn1 by (intros ?%elem_of_seq; lia).
  assert (ac ∉ seq (S ac) (3 - ac)) as Hn2 by (intros ?%elem_of_seq; lia).
  rewrite (pick_first _ _ ac _ _ k q); try done.
  rewrite (fetchable_split _ _ _ _ _ q) by (apply list_lookup_insert_eq; lia).
  by rewrite (fetchable_other _ _ ac q (seq 0 ac)), Hpre, Hig by done.
Qed.

(** C14: A poll fetches the oldest frame of the first access category that counts
    and has one: that frame, and only it, is handed to the transmit task, with
    its more-data flag, and the bit of an 802.11 header, set exactly when frames
    that a poll may fetch remain; the rest of the frame is as it was queued; the
    queue loses its head and no other queue changes; and the bit of the station
    in the traffic indication map says afterwards whether frames wait. *)
Theorem poll_response C `{!path_sane C} a i s ac k q d :
  power_inv C a -> a_StaConInfo a !! i = Some s -> (ac < 4)%nat -> ps_queue s ac = k :: q ->
  has (ignored_acs s) (BIT (Z.of_nat ac)) = false -> fetchable (ignored_acs s) (s_ps_tx_buf s) (seq 0 ac) = false ->
  ap_desp a k = Some d -> authed_for a (d_frame d) -> st_enqueue_ok C (a_n_enqueue a) = true ->
  exists a' s' f rest, sta_ps_deliver_poll_response C (proc C) a i = Some a' /\ power_inv C a' /\
    a_out a' = a_out a ++ TxEnqueue f :: rest /\ Forall is_beacon rest /\
    fetched (d_frame d) f (fetchable (ignored_acs s) (s_ps_tx_buf s') (seq 0 4)) /\
    a_StaConInfo a' = <[i := s']> (a_StaConInfo a) /\ s_ps_tx_buf s' = <[ac := q]> (s_ps_tx_buf s) /\
    __bss_tim_get a' (s_aid s) = Some (indicate_tim s').
Proof.
  intros Hinv Hi Hac Hq Hig Hpre Hd Ha He. pose proof sane_pool as H1. pose proof sane_count as H2.
  destruct (poll_ok C H1 H2 1 a i s (pw_pool _ _ Hinv) Hi) as (a' & E & Hs).
  pose proof (served_good C H1 sane_aid _ _ _ _ _ Hinv Hs) as G.
  pose proof (poll_pick s ac k q Hac (proj1 (get_sta _ _ _ _ _ _ _ (pw_pool _ _ Hinv) Hi)) Hq Hig Hpre) as Hp.
  destruct (poll_output C 1 a i s k d _ _ a' (pw_pool _ _ Hinv) ltac:(lia) Hi Hp Hd Ha He E) as (rest & Ho & Hr).
  rewrite Hp in Hs. destruct Hs as (s' & _ & S & _ & Hb & T & _). cbn [snd] in Hb.
  exists a', s', (polled (d_frame d) (fetchable (ignored_acs s) (s_ps_tx_buf s') (seq 0 4))), rest.
  split; [done|]. split; [apply G|]. rewrite Hb. split_and!; try done. apply polled_fetched.
Qed.

(** ** Frames for a sleeping station *)

(** A unicast frame of the host for an authorized station that sleeps is
    always accepted: [TxHdl_FrameProc] returns success and accounts for the
    frame, and when it returns the bit of the station in the traffic indication
    map is set exactly when something waits for the station, whatever was queued,
    displaced or released on the way. *)
Theorem sleeping_frame_announced C `{!path_sane C} a f i s :
  power_inv C a -> g_AP_TimAllOne (st_cfg C) = false -> has (tf_rsvd0 f) AP_PS_FRAME = false ->
  is_multicast_ether_addr (tx_da f) = false -> APStaInfo_FindStaByAddr a (tx_da f) = Some i ->
  a_StaConInfo a !! i = Some s -> test_sta_flag s WLAN_STA_AUTHORIZED = true -> test_sta_flag s WLAN_STA_PS_STA = true ->
  exists a', proc C a f = Some (true, a') /\ power_inv C a' /\ balance a' [] ≡ₚ tf_id f :: balance a [] /\ announced a' i.
Proof.
  intros Hinv Htim Hmark Hm Hf Hi Ha Hs. pose proof sane_pool as H1. pose proof sane_count as H2.
  pose proof (pw_pool _ _ Hinv) as Hp. assert (unmarked f = f) as Hu by (unfold unmarked; by rewrite Hmark).
  change (proc C a f) with (frame_proc C (sta_ps_deliver_poll_response C (TxHdl_FrameProc C 1)) a f None 0).
  unfold frame_proc. rewrite bool_decide_false by (by intros [? ?]).
  destruct (alloc_ok C _ _ _ _ Hp) as (k & Ek & Hk).
  { pose proof (pi_bound _ _ _ _ _ Hp). unfold AP_TOTAL_MAX_TX_DSP. lia. }
  unfold ssv6xxx_data_could_be_send. rewrite Ek. cbn [mbind option_bind]. cbv zeta.
  set (d := ssv6xxx_data_prepare_tx_data a f false 0). set (a1 := set_desp a k (Some d)).
  change (ssv6xxx_data_check_authed a1 d) with (ssv6xxx_data_check_authed a d).
  assert (ssv6xxx_data_check_authed a d = Some TX_CONTINUE) as ->.
  { apply check_authed_for. rewrite Hu. split; [done|by exists i, s]. }
  cbn [mbind option_bind].
  change (d_frame d) with (unmarked f). unfold ssv6xxx_data_need_queue.
  assert (has (d_flags d) AP_TX_NATIVE_AP_FRAME = false) as Hnat by (unfold d; by rewrite prepared_flag).
  assert (has (d_flags d) AP_TX_POLL_RESPONSE = false) as -> by (unfold d; by rewrite prepared_poll, Hmark).
  assert (has (d_flags d) AP_TX_UNICAST = true) as -> by (unfold d; by rewrite prepared_unicast, Hu, Hm).
  rewrite Hnat. cbn [orb]. destruct (Hk d) as (Q1 & I1 & D1 & B1). fold a1 in Q1, I1, D1, B1.
  destruct (FindSta_Some _ _ _ Hf) as (s0 & Hi0 & Hv & _). assert (s0 = s) as -> by congruence.
  destruct (unicast_ok C H1 H2 _ a1 k d i s (poll_delivers C H1 H2 0) I1) as (res & a2 & E2 & Hres); try done.
  { change (queued a1) with (queued a). pose proof (pi_bound _ _ _ _ _ Hp). rewrite app_nil_r in *. lia. }
  { change (d_sta d) with (APStaInfo_FindStaByAddr a (tx_da (unmarked f))). by rewrite Hu. }
  { apply prepared_priority. }
  rewrite E2. cbn [mbind option_bind]. destruct res; [destruct Hres as [_ [?|?]]; congruence|done|].
  destruct Hres as (Q2 & I2 & B2 & A2). exists a2. split; [done|].
  split; [eapply (quiet_sleep C H1 sane_aid a); [by etrans|done|done]|]. split; [|by apply A2].
  rewrite B2, B1. change (d_frame d) with (unmarked f). by rewrite Hu.
Qed.

(** ** A frame is lost when the chip cannot be woken up *)
Lemma stuck_frame_lost C a id dest priority recovering qos :
  ssv6xxx_wifi_send_ethernet C (mk_env (HOST_API_PWR_SAVING false) recovering qos) a id dest priority = Some a.
Proof. done. Qed.

(** ** A concrete access point: station 0 is awake, station 1 sleeps *)
Definition path_static : ap_static := demo_static false demo_rates.

Definition path_sta (addr0 : Z) (aid : Z) (flags : Z) : APStaInfo :=
  APStaInfo_StaReset <| s_addr := [2; 0; 0; 0; 0; addr0] |> <| s_aid := aid |>
    <| s_flags := Z.lor flags (Z.lor WLAN_STA_VALID (Z.lor WLAN_STA_ASSOC WLAN_STA_AUTHORIZED)) |>
    <| s_fw_q_len := UNKNOWN_FW_QUEUE_LENGTH |>.

Definition path_ap : ApInfo :=
  demo_ap <| a_StaConInfo := path_sta 1 1 0 :: path_sta 2 2 WLAN_STA_PS_STA :: replicate 6 APStaInfo_StaReset |>
    <| a_num_sta := 2 |> <| a_num_sta_authorized := 2 |> <| a_num_sta_ps := 1 |>.

Definition path_env : host_env := mk_env HOST_API_ACTIVE false 0.

Definition path_ops : list path_op :=
  [ OpSend path_env 10 [2; 0; 0; 0; 0; 2] 0; OpSend path_env 11 [2; 0; 0; 0; 0; 2] 0;
    OpSend path_env 12 [2; 0; 0; 0; 0; 2] 6; OpSend path_env 13 [2; 0; 0; 0; 0; 1] 0;
    OpEvent (SOC_EVT_PS_POLL [2; 0; 0; 0; 0; 2] 0); OpSend path_env 14 [2; 0; 0; 0; 0; 9] 0;
    OpDqStatus 1 3; OpTick 60000; OpCleanup;
    OpData path_env (mk_packet 15 None false false None 40 [2; 0; 0; 0; 0; 1] [2; 0; 0; 0; 0; 2]) ].

#[export] Instance path_static_sane : path_sane path_static.
Proof. split; vm_compute; [lia|done|lia]. Qed.

Lemma path_ap_inv : power_inv path_static path_ap.
Proof.
  assert (queued path_ap = []) as Hq by reflexivity.
  split; [|reflexivity]. constructor; rewrite ?Hq; cbn [app length].
  - reflexivity.
  - repeat (constructor; [reflexivity|]). constructor.
  - reflexivity.
  - constructor.
  - intros k. split; [|by intros ?%not_elem_of_nil].
    unfold ap_desp. change (a_pApTxData path_ap) with (replicate 30 (@None ap_tx_desp)).
    destruct (replicate 30 None !! k) as [d|] eqn:E; [|by intros [? ?]].
    apply lookup_replicate in E as [-> _]. by intros [? ?].
  - lia.
  - reflexivity.
  - change (AP_TOTAL_MAX_TX_BUFFER path_static) with 20%nat. lia.
  - repeat (constructor; [intros Hne; by destruct (Hne eq_refl)|]). constructor.
  - reflexivity.
  - change (st_gMaxAID path_static) with 8%nat. repeat (constructor; [cbv; split; discriminate|]). constructor.
Qed.

Lemma path_run_conserves_witness : exists ids a',
  path_run path_static path_ap path_ops = Some (ids, a') /\ balance a' [] ≡ₚ [10; 11; 12; 13; 14; 15]%nat /\
  a_num_sta_ps a' = 0.
Proof.
  destruct (path_run_conserves path_static path_ops path_ap path_ap_inv eq_refl) as (ids & lost & a' & E & L & B & _ & _ & _ & _ & _ & N).
  exists ids, a'. split; [exact E|]. split.
  - change (concat (map stuck_frames path_ops)) with (@nil nat) in L. apply submseteq_nil_r in L. rewrite L in B. cbn [app] in B. rewrite B. replace ids with [10; 11; 12; 13; 14; 15]%nat; [reflexivity|].
    apply (f_equal (fmap fst)) in E. vm_compute in E. by injection E.
  - apply (f_equal (fmap (fun p => a_num_sta_ps p.2))) in E. vm_compute in E. by injection E.
Defined.

(** Two frames wait for the sleeping station. *)
Definition path_waiting : ApInfo := default path_ap (snd <$> path_run path_static path_ap (take 3 path_ops)).

Lemma path_waiting_inv : power_inv path_static path_waiting.
Proof.
  destruct (path_run_ok path_static (take 3 path_ops) path_ap path_ap_inv eq_refl) as (ids & a' & E & I & _).
  unfold path_waiting. rewrite E. exact I.
Qed.

Definition waiting_sta : APStaInfo := default APStaInfo_StaReset (a_StaConInfo path_waiting !! 1%nat).

Lemma poll_response_witness : exists a' f rest,
  sta_ps_deliver_poll_response path_static (proc path_static) path_waiting 1 = Some a' /\
  a_out a' = a_out path_waiting ++ TxEnqueue f :: rest /\ tf_id f = 11%nat /\ tf_more_data f = true.
Proof.
  assert (a_StaConInfo path_waiting !! 1%nat = Some waiting_sta) as Hi by (vm_compute; reflexivity).
  destruct (ap_desp path_waiting 0) as [d|] eqn:Hd; [|vm_compute in Hd; discriminate].
  destruct (poll_response path_static path_waiting 1 waiting_sta 2 0 [1%nat] d path_waiting_inv Hi) as (a' & s' & f & rest & E & _ & O & _ & Hf & _ & Hb & _).
  - lia.
  - vm_compute. reflexivity.
  - vm_compute. reflexivity.
  - vm_compute. reflexivity.
  - exact Hd.
  - vm_compute in Hd. injection Hd as <-. split; [vm_compute; reflexivity|]. exists 1%nat, waiting_sta.
    split_and!; [vm_compute; reflexivity|exact Hi|vm_compute; reflexivity].
  - reflexivity.
  - exists a', f, rest. split; [exact E|]. split; [exact O|]. destruct Hf as (Hid & _ & _ & _ & _ & _ & Hm & _).
    rewrite Hid, Hm, Hb. vm_compute in Hd. injection Hd as <-. split; vm_compute; reflexivity.
Defined.

Lemma frame_proc_fuel_witness : exists ok a',
  (forall m, TxHdl_FrameProc path_static (S (S m)) path_ap (mk_tx_frame 20 false 0 [2; 0; 0; 0; 0; 2] [] None 0 false) = Some (ok, a')) /\
  power_inv path_static a'.
Proof.
  destruct (frame_proc_fuel path_static path_ap (mk_tx_frame 20 false 0 [2; 0; 0; 0; 0; 2] [] None 0 false) path_ap_inv)
    as [(ok & a' & E & I & _) _]. exists ok, a'. split; [exact E|exact I].
Defined.

(** The first frame for a sleeping station makes the nested call: one level is not
    enough. *)
Example nested_call_made :
  TxHdl_FrameProc path_static 1 path_ap (mk_tx_frame 20 false 0 [2; 0; 0; 0; 0; 2] [] None 0 false) = None.
Proof. vm_compute. reflexivity. Qed.

Lemma sleeping_frame_announced_witness : exists a',
  proc path_static path_waiting (mk_tx_frame 20 false 0 [2; 0; 0; 0; 0; 2] [] None 0 false) = Some (true, a') /\
  announced a' 1.
Proof.
  assert (a_StaConInfo path_waiting !! 1%nat = Some waiting_sta) as Hi by (vm_compute; reflexivity).
  destruct (sleeping_frame_announced path_static path_waiting (mk_tx_frame 20 false 0 [2; 0; 0; 0; 0; 2] [] None 0 false)
    1 waiting_sta path_waiting_inv) as (a' & E & _ & _ & A);
    [reflexivity|reflexivity|reflexivity|vm_compute; reflexivity|exact Hi|vm_compute; reflexivity|vm_compute; reflexivity|].
  exists a'. split; [exact E|exact A].
Defined.
