(* ===== verification/ApStaInv.v ===== *)
(** * ApStaInv: the table of stations and its counters agree

    The invariant of the station table of [ApSta]: every counter of the access
    point is the number of stations it counts, the bitmap of association
    identifiers is exactly those that are given out, no two stations share an
    address or an identifier, every station has one inactivity timer, and an
    entry that is not in use is blank.  Every operation of the table and of the
    data path keeps it and never faults. *)

From stdpp Require Import base list option.
From Stdlib Require Import ZArith Lia ZifyNat.
From S2P Require Import Prelude Words Wire WpaIe WpaAuth Reorder ApInfo ApElem ApPower ApSta ApPowerInv ApPath.

(** ** The invariant *)

Definition valid (s : APStaInfo) : bool := test_sta_flag s WLAN_STA_VALID.
Definition authorized (s : APStaInfo) : bool := test_sta_flag s WLAN_STA_AUTHORIZED.

(** The counters, and the stations that each of them counts *)
Definition counters (a : ApInfo) : list Z :=
  [a_num_sta a; a_num_sta_authorized a; a_num_sta_non_erp a; a_num_sta_no_short_preamble a;
   a_num_sta_no_short_slot_time a; a_num_sta_ht_no_gf a; a_num_sta_no_ht a; a_num_sta_ht_20mhz a].
Definition counted_by : list (APStaInfo -> bool) :=
  [valid; authorized; s_nonerp_set; s_no_short_preamble_set; s_no_short_slot_time_set; s_no_ht_gf_set;
   s_no_ht_set; s_ht_20mhz_set].
Definition counts (l : list APStaInfo) : list Z := map (fun p => count p l) counted_by.

(** What the data path leaves alone of a station *)
Definition sta_base (s : APStaInfo) : APStaInfo := no_ps (sta_core s).

(** An entry that is not in use: as [APStaInfo_StaReset] leaves it, up to the
    index in the hardware table, a flag that [start_4way_handshake] may set, and
    the state machine of the authenticator, which association initialises. *)
Definition forgotten (s : APStaInfo) : APStaInfo :=
  s <| s_wsid_idx := 0 |> <| s_addStaFlag := false |> <| s_wpa_sm := sm_zero |>.
Definition blank (s : APStaInfo) : Prop := forgotten (sta_base s) = forgotten (sta_base APStaInfo_StaReset).

(** The pending inactivity timers of a station *)
Definition handle_timers (i : nat) (l : list (ap_timer * Z)) : list (ap_timer * Z) :=
  filter (fun p => p.1 = THandle i) l.

(** A station has one timer, an entry that is not in use has none. *)
Definition timed (a : ApInfo) (i : nat) : Prop := forall s, a_StaConInfo a !! i = Some s ->
  length (handle_timers i (a_timers a)) = if valid s then 1%nat else 0%nat.

(** The entries: those not in use are blank, no address or AID is used twice,
    and the bitmap [B] holds the AIDs. *)
Record shape (B : Z) (l : list APStaInfo) : Prop := {
  sh_blank : forall i s, l !! i = Some s -> valid s = false -> blank s;
  sh_addr : forall i j s t, l !! i = Some s -> l !! j = Some t ->
    valid s = true -> valid t = true -> s_addr s = s_addr t -> i = j;
  sh_aid : forall i j s t, l !! i = Some s -> l !! j = Some t -> 0 < s_aid s -> s_aid s = s_aid t -> i = j;
  sh_bitmap : forall k, 0 <= k -> has B (BIT k) = true <-> exists i s, l !! i = Some s /\ s_aid s = k + 1
}.

Record entries_inv (C : ap_static) (a : ApInfo) : Prop := {
  ti_power : power_inv C a;
  ti_counts : counters a = counts (a_StaConInfo a);
  ti_shape : shape (a_sta_aid a) (a_StaConInfo a)
}.

Record table_inv (C : ap_static) (a : ApInfo) : Prop := {
  ti_entries : entries_inv C a;
  ti_timed : forall i, timed a i
}.

(** While a function handles station [i], the timer of that station may be
    missing. *)
Definition loose (C : ap_static) (i : nat) (a : ApInfo) : Prop :=
  entries_inv C a /\ forall j, j <> i -> timed a j.

(** The table of the access point fits the bitmap of identifiers. *)
Class table_sane (C : ap_static) : Prop := {
  sane_path :: path_sane C;
  sane_some : (1 <= st_gMaxAID C)%nat;
  sane_bitmap : (st_gMaxAID C <= 32)%nat
}.

(** ** The data path keeps the invariant *)

Lemma base_flag s k : 0 <= k -> k <> 24 -> k <> 17 -> test_sta_flag (sta_base s) (BIT k) = test_sta_flag s (BIT k).
Proof.
  intros Hk H1 H2. unfold test_sta_flag.
  change (s_flags (sta_base s)) with (Z.land (Z.land (s_flags s) (Z.lnot WLAN_STA_SP)) (Z.lnot WLAN_STA_PS_STA)).
  unfold WLAN_STA_SP, WLAN_STA_PS_STA. rewrite !BIT_clear by lia. rewrite !bool_decide_false by lia.
  by rewrite !andb_true_r.
Qed.

Lemma base_valid s : valid (sta_base s) = valid s.
Proof. by apply (base_flag s 0). Qed.

Lemma calm_lookup a a' i : calm a a' -> sta_base <$> a_StaConInfo a' !! i = sta_base <$> a_StaConInfo a !! i.
Proof.
  intros Hc. apply (f_equal (fun a => a_StaConInfo a !! i)) in Hc.
  change (a_StaConInfo (ap_base ?a)) with (no_ps <$> (sta_core <$> a_StaConInfo a)) in Hc.
  rewrite <- !list_fmap_compose, !list_lookup_fmap in Hc. exact Hc.
Qed.

Lemma calm_back a a' i s' : calm a a' -> a_StaConInfo a' !! i = Some s' ->
  exists s, a_StaConInfo a !! i = Some s /\ sta_base s' = sta_base s.
Proof.
  intros Hc Hi. pose proof (calm_lookup _ _ i Hc) as H. rewrite Hi in H. cbn [fmap option_fmap option_map] in H.
  destruct (a_StaConInfo a !! i) as [s|]; [|done]. exists s. split; [done|]. by apply (inj Some) in H.
Qed.

Lemma count_base p l l' : (forall s, p (sta_base s) = p s) -> sta_base <$> l' = sta_base <$> l ->
  count p l' = count p l.
Proof. intros Hp Hl. rewrite <- (count_map p p sta_base l'), <- (count_map p p sta_base l) by done. by rewrite Hl. Qed.

Lemma calm_counts a a' : calm a a' -> counters a = counts (a_StaConInfo a) -> counters a' = counts (a_StaConInfo a').
Proof.
  intros Hc Hn.
  assert (sta_base <$> a_StaConInfo a' = sta_base <$> a_StaConInfo a) as Hl.
  { apply list_eq. intros i. rewrite !list_lookup_fmap. by apply calm_lookup. }
  apply (f_equal counters) in Hc. change (counters (ap_base ?a)) with (counters a) in Hc. rewrite Hc, Hn.
  assert (forall p, (forall s, p (sta_base s) = p s) -> count p (a_StaConInfo a) = count p (a_StaConInfo a')) as Hp
    by (intros p Hp; symmetry; by apply count_base).
  unfold counts, counted_by. cbn [map].
  repeat (apply (f_equal2 cons); [apply Hp; intros s; first [by apply (base_flag s 0) | by apply (base_flag s 6) | done]|]).
  done.
Qed.

Lemma handle_timers_core i l : handle_timers i (filter (fun p => p.1 <> TCleanup) l) = handle_timers i l.
Proof.
  unfold handle_timers. rewrite list_filter_filter. apply list_filter_iff. intros p.
  split; [by intros [? _]|]. intros Hp. split; [done|]. by rewrite Hp.
Qed.

Lemma base_same s s' : sta_base s' = sta_base s -> s_aid s' = s_aid s /\ s_addr s' = s_addr s /\ valid s' = valid s.
Proof.
  intros H. split; [by apply (f_equal s_aid) in H|]. split; [by apply (f_equal s_addr) in H|].
  by rewrite <- (base_valid s'), <- (base_valid s), H.
Qed.

Lemma calm_timed a a' i : calm a a' -> timed a i -> timed a' i.
Proof.
  intros Hc Ht s' Hi. destruct (calm_back _ _ _ _ Hc Hi) as (s & His & Hs). destruct (base_same _ _ Hs) as (_ & _ & ->).
  rewrite <- (Ht s His), <- handle_timers_core, <- (handle_timers_core i (a_timers a)).
  apply (f_equal a_timers) in Hc. change (a_timers (ap_base ?a)) with (filter (fun p => p.1 <> TCleanup) (a_timers a)) in Hc.
  by rewrite Hc.
Qed.

Lemma calm_shape a a' : calm a a' -> shape (a_sta_aid a) (a_StaConInfo a) -> shape (a_sta_aid a') (a_StaConInfo a').
Proof.
  intros Hc [T3 T4 T5 T6]. pose proof base_same as Hb.
  constructor.
  - intros i s' Hi Hv. destruct (calm_back _ _ _ _ Hc Hi) as (s & His & Hs). destruct (Hb _ _ Hs) as (_ & _ & Hval).
    unfold blank. rewrite Hs. apply (T3 i s His). congruence.
  - intros i j s' t' Hi Hj Hv Hw Hs. destruct (calm_back _ _ _ _ Hc Hi) as (s & His & Hs1).
    destruct (calm_back _ _ _ _ Hc Hj) as (t & Hjt & Ht1). destruct (Hb _ _ Hs1) as (_ & ? & ?), (Hb _ _ Ht1) as (_ & ? & ?).
    apply (T4 i j s t); congruence.
  - intros i j s' t' Hi Hj Hpos Hs. destruct (calm_back _ _ _ _ Hc Hi) as (s & His & Hs1).
    destruct (calm_back _ _ _ _ Hc Hj) as (t & Hjt & Ht1). destruct (Hb _ _ Hs1) as (? & _), (Hb _ _ Ht1) as (? & _).
    apply (T5 i j s t); congruence || lia.
  - intros k Hk. assert (a_sta_aid a' = a_sta_aid a) as -> by (by apply (f_equal a_sta_aid) in Hc).
    rewrite (T6 k Hk). assert (calm a' a) as Hc' by done.
    split; intros (i & s & Hi & Ha).
    + destruct (calm_back _ _ _ _ Hc' Hi) as (s' & Hi' & Hs). exists i, s'. split; [done|].
      destruct (Hb _ _ Hs) as (? & _). congruence.
    + destruct (calm_back _ _ _ _ Hc Hi) as (s' & Hi' & Hs). exists i, s'. split; [done|].
      destruct (Hb _ _ Hs) as (? & _). congruence.
Qed.

Lemma calm_entries C a a' : calm a a' -> power_inv C a' -> entries_inv C a -> entries_inv C a'.
Proof. intros Hc Hp [_ T2 T3]. split; [done|by eapply calm_counts|by eapply calm_shape]. Qed.

Lemma calm_table C a a' : calm a a' -> power_inv C a' -> table_inv C a -> table_inv C a'.
Proof. intros Hc Hp [He Ht]. split; [by eapply calm_entries|]. intros i. by eapply calm_timed. Qed.

(** One entry changes *)
Lemma shape_insert B B' l i s s' : shape B l -> l !! i = Some s -> (valid s' = false -> blank s') ->
  (forall j t, j <> i -> l !! j = Some t -> valid t = true -> valid s' = true -> s_addr t <> s_addr s') ->
  (forall j t, j <> i -> l !! j = Some t -> 0 < s_aid s' -> s_aid t <> s_aid s') ->
  (forall k, 0 <= k -> has B' (BIT k) = true <-> k + 1 = s_aid s' \/ has B (BIT k) = true /\ k + 1 <> s_aid s) ->
  shape B' (<[i := s']> l).
Proof.
  intros [S1 S2 S3 S4] Hi Hb Ha Hd HB. pose proof (lookup_lt_Some _ _ _ Hi) as Hlt.
  assert (forall j t, <[i := s']> l !! j = Some t -> j = i /\ t = s' \/ j <> i /\ l !! j = Some t) as Hat.
  { intros j t Hj. destruct (decide (j = i)) as [->|Hne].
    - rewrite list_lookup_insert_eq in Hj by done. injection Hj as ->. by left.
    - rewrite list_lookup_insert_ne in Hj by done. by right. }
  constructor.
  - intros j t Hj. apply Hat in Hj as [[-> ->]|[Hne Hj]]; [done|]. by apply (S1 j).
  - intros j k t u Hj Hk Ht Hu Heq. apply Hat in Hj as [[-> ->]|[Hne Hj]]; apply Hat in Hk as [[-> ->]|[Hne' Hk]]; [done|..].
    + exfalso. by apply (Ha k u Hne' Hk Hu Ht).
    + exfalso. by apply (Ha j t Hne Hj Ht Hu).
    + by apply (S2 j k t u).
  - intros j k t u Hj Hk Hpos Heq. apply Hat in Hj as [[-> ->]|[Hne Hj]]; apply Hat in Hk as [[-> ->]|[Hne' Hk]]; [done|..].
    + exfalso. by apply (Hd k u Hne' Hk Hpos).
    + exfalso. apply (Hd j t Hne Hj); [lia|done].
    + by apply (S3 j k t u).
  - intros k Hk. rewrite (HB k Hk), (S4 k Hk). split.
    + intros [Hs|[(j & t & Hj & Ht) Hne]].
      * exists i, s'. by rewrite list_lookup_insert_eq.
      * exists j, t. split; [|done]. destruct (decide (j = i)) as [->|]; [|by rewrite list_lookup_insert_ne]. congruence.
    + intros (j & t & Hj & Ht). apply Hat in Hj as [[-> ->]|[Hne Hj]]; [by left|]. right.
      split; [by exists j, t|]. intros He. apply Hne. apply (S3 j i t s Hj Hi); lia.
Qed.

(** ** The queues are emptied whatever the flags of the station say *)

Definition reflag (i : nat) (f n : Z) (a : ApInfo) : ApInfo :=
  (a <| a_num_sta_ps := n |>) <| a_StaConInfo := alter (fun s => s <| s_flags := f |>) i (a_StaConInfo a) |>.

Lemma alter_insert {A} (g : A -> A) (l : list A) i x : l !! i = Some x -> alter g i l = <[i := g x]> l.
Proof.
  intros Hi. apply list_eq. intros j. destruct (decide (i = j)) as [->|Hj].
  - rewrite list_lookup_alter_eq, list_lookup_insert_eq by (by eapply lookup_lt_Some). by rewrite Hi.
  - by rewrite list_lookup_alter_ne, list_lookup_insert_ne.
Qed.

Lemma reflag_set a i f n s : a_StaConInfo a !! i = Some s ->
  reflag i f n a = set_sta (a <| a_num_sta_ps := n |>) i (s <| s_flags := f |>).
Proof. intros Hi. unfold reflag. by rewrite (alter_insert _ _ i s Hi). Qed.

Lemma reflag_deq a i f n ac :
  ps_deq (reflag i f n a) i ac = prod_map id (reflag i f n) <$> ps_deq a i ac.
Proof.
  unfold ps_deq. change (a_StaConInfo (reflag i f n a)) with (alter (fun s => s <| s_flags := f |>) i (a_StaConInfo a)).
  rewrite list_lookup_alter_eq. destruct (a_StaConInfo a !! i) as [s|] eqn:Hi; [|done].
  cbn [fmap option_fmap option_map mbind option_bind].
  change (ps_queue (s <| s_flags := f |>) ac) with (ps_queue s ac). destruct (ps_queue s ac) as [|k q]; [done|].
  cbn [fmap option_fmap option_map prod_map id fst snd]. f_equal. f_equal.
  rewrite (reflag_set (set_sta a i (set_queue s ac q)) i f n (set_queue s ac q)).
  - rewrite (reflag_set a i f n s Hi). unfold set_sta, modify. cbn. by rewrite !list_insert_insert_eq.
  - change (a_StaConInfo (set_sta a i ?x)) with (<[i := x]> (a_StaConInfo a)).
    by rewrite list_lookup_insert_eq by (by eapply lookup_lt_Some).
Qed.

Lemma reflag_purge_one a i f n k : purge_one (reflag i f n a) k = reflag i f n <$> purge_one a k.
Proof.
  unfold purge_one, ap_release_tx_desp_and_frame. change (ap_desp (reflag i f n a) k) with (ap_desp a k).
  by destruct (ap_desp a k).
Qed.

Lemma reflag_drain i f n m ac a :
  drain purge_one m (reflag i f n a) i ac = reflag i f n <$> drain purge_one m a i ac.
Proof.
  revert a. induction m as [|m IH]; intros a; cbn [drain]; rewrite reflag_deq;
    destruct (ps_deq a i ac) as [[[k|] a1]|]; try done; cbn [fmap option_fmap option_map prod_map id fst snd mbind option_bind].
  rewrite reflag_purge_one. destruct (purge_one a1 k) as [a2|]; [|done].
  cbn [fmap option_fmap option_map mbind option_bind]. apply IH.
Qed.

Lemma reflag_drain_ac i f n ac a : drain_ac purge_one (reflag i f n a) i ac = reflag i f n <$> drain_ac purge_one a i ac.
Proof.
  unfold drain_ac. change (a_StaConInfo (reflag i f n a)) with (alter (fun s => s <| s_flags := f |>) i (a_StaConInfo a)).
  rewrite list_lookup_alter_eq. destruct (a_StaConInfo a !! i) as [s|]; [|done].
  cbn [fmap option_fmap option_map mbind option_bind]. apply reflag_drain.
Qed.

Lemma reflag_purge i f n a : purge_sta_ps_buffers (reflag i f n a) i = reflag i f n <$> purge_sta_ps_buffers a i.
Proof.
  unfold purge_sta_ps_buffers. rewrite reflag_drain_ac. destruct (drain_ac _ a i 3) as [a1|]; [|done].
  cbn [fmap option_fmap option_map mbind option_bind]. rewrite reflag_drain_ac. destruct (drain_ac _ a1 i 2) as [a2|]; [|done].
  cbn [fmap option_fmap option_map mbind option_bind]. rewrite reflag_drain_ac. destruct (drain_ac _ a2 i 1) as [a3|]; [|done].
  cbn [fmap option_fmap option_map mbind option_bind]. apply reflag_drain_ac.
Qed.

(** ** Leaving power save *)

(** What a change of one station and of the power-save state leaves alone *)
Definition ap_rest (a : ApInfo) : ApInfo := (ap_core a) <| a_num_sta_ps := 0 |> <| a_StaConInfo := [] |>.

Lemma quiet_rest a a' : quiet a a' -> ap_rest a' = ap_rest a.
Proof. unfold quiet, ap_rest. by intros ->. Qed.

Lemma no_queue s : length (s_ps_tx_buf s) = 4%nat -> sta_queued s = [] -> s_ps_tx_buf s = replicate 4 [].
Proof.
  unfold sta_queued. destruct (s_ps_tx_buf s) as [|q0 [|q1 [|q2 [|q3 [|]]]]]; try done. intros _ H. cbn [concat] in H.
  apply app_nil in H as [-> H]. apply app_nil in H as [-> H]. apply app_nil in H as [-> H]. by apply app_nil in H as [-> _].
Qed.

Lemma clear_idle f k : 0 <= k -> has f (BIT k) = false -> Z.land f (Z.lnot (BIT k)) = f.
Proof.
  intros Hk Hf. apply Z.bits_inj'. intros j Hj. rewrite Z.land_spec, Z.lnot_spec by done.
  unfold BIT. rewrite Z.shiftl_1_l, Z.pow2_bits_eqb by done. rewrite has_BIT in Hf by done.
  destruct (Z.eqb_spec k j) as [<-|]; [by rewrite Hf|]. by rewrite andb_true_r.
Qed.

Lemma set_sta_idem a i s t : set_sta (set_sta a i s) i t = set_sta a i t.
Proof. unfold set_sta, modify. cbn. by rewrite list_insert_insert_eq. Qed.

Lemma sta_at a i s t : a_StaConInfo a !! i = Some s -> a_StaConInfo (set_sta a i t) !! i = Some t.
Proof.
  intros Hi. change (a_StaConInfo (set_sta a i t)) with (<[i := t]> (a_StaConInfo a)).
  by rewrite list_lookup_insert_eq by (by eapply lookup_lt_Some).
Qed.

Lemma balance_sta a i s s' held : a_StaConInfo a !! i = Some s -> s_ps_tx_buf s' = s_ps_tx_buf s ->
  balance (set_sta a i s') held = balance a held.
Proof. intros Hi Hs. unfold balance. by rewrite (queued_same a i s s' Hi Hs). Qed.

Section Table.
Context (C : ap_static) `{HC : !table_sane C}.
Local Notation P := (AP_TOTAL_MAX_TX_BUFFER C).

Lemma P_small : Z.of_nat P < 65536.
Proof. pose proof (@sane_count C _). lia. Qed.

Lemma purged_ok b i s f n : pool_inv C P b [] 0 -> a_StaConInfo b !! i = Some s ->
  exists a', purge_sta_ps_buffers (reflag i f n b) i = Some a' /\
    a_StaConInfo a' = <[i := (no_frames s) <| s_flags := f |>]> (a_StaConInfo b) /\ a_num_sta_ps a' = n /\
    pool_inv C P a' [] 0 /\ balance a' [] ≡ₚ balance b [] /\ ap_rest a' = ap_rest b.
Proof.
  intros Hinv Hi. rewrite reflag_purge.
  destruct (purge_sta_ok C P b i s [] P_small Hinv Hi) as (b2 & -> & (Q & I & B) & S & _).
  assert (a_StaConInfo b2 !! i = Some (no_frames s)) as Hi2
    by (rewrite S; by rewrite list_lookup_insert_eq by (by eapply lookup_lt_Some)).
  eexists. split; [done|]. rewrite (reflag_set b2 i f n _ Hi2). split; [|split; [done|split; [|split]]].
  - change (a_StaConInfo (set_sta ?x i ?t)) with (<[i := t]> (a_StaConInfo x)). change (a_StaConInfo (b2 <| a_num_sta_ps := n |>))
      with (a_StaConInfo b2). by rewrite S, list_insert_insert_eq.
  - apply (pool_inv_sta C P _ i (no_frames s)); [done| |by apply (pool_inv_same C P b2)]. by split_and!.
  - etrans; [|exact B]. by erewrite balance_sta; [|exact Hi2|].
  - etrans; [|by apply quiet_rest]. reflexivity.
Qed.

Lemma leave_ps_ok b i s f : pool_inv C P b [] 0 -> a_StaConInfo b !! i = Some s ->
  has f WLAN_STA_PS_STA = sleeping s ->
  exists a' s', leave_power_save C (set_sta b i (s <| s_flags := f |>)) i = Some a' /\
    a_StaConInfo a' = <[i := s']> (a_StaConInfo b) /\ s_ps_tx_buf s' = replicate 4 [] /\
    sta_core s' = sta_core (s <| s_flags := Z.land f (Z.lnot WLAN_STA_PS_STA) |>) /\
    s_flags s' = Z.land f (Z.lnot WLAN_STA_PS_STA) /\
    a_num_sta_ps a' = (if sleeping s then u8 (a_num_sta_ps b - 1) else a_num_sta_ps b) /\
    pool_inv C P a' [] 0 /\ balance a' [] ≡ₚ balance b [] /\ ap_rest a' = ap_rest b.
Proof.
  intros Hinv Hi Hf. unfold leave_power_save. rewrite (sta_at b i s _ Hi). cbn [mbind option_bind].
  change (test_sta_flag (s <| s_flags := f |>) WLAN_STA_PS_STA) with (has f WLAN_STA_PS_STA). rewrite Hf.
  destruct (get_sta _ _ _ _ _ _ _ Hinv Hi) as [Hl _]. destruct (sleeping s) eqn:Es.
  - set (f' := Z.land f (Z.lnot WLAN_STA_PS_STA)). set (n := u8 (a_num_sta_ps b - 1)).
    rewrite set_sta_idem. change (a_num_sta_ps (set_sta b i ?t)) with (a_num_sta_ps b). fold n.
    match goal with |- context [purge_sta_ps_buffers ?x i] => assert (x = reflag i f' n b) as ->
      by (rewrite (reflag_set b i f' n s Hi); reflexivity) end.
    destruct (purged_ok b i s f' n Hinv Hi) as (a2 & -> & S2 & N2 & I2 & B2 & R2). cbn [mbind option_bind].
    set (s2 := (no_frames s) <| s_flags := f' |>) in *.
    assert (a_StaConInfo a2 !! i = Some s2) as Hi2
      by (rewrite S2; by rewrite list_lookup_insert_eq by (by eapply lookup_lt_Some)).
    unfold upd_sta. rewrite Hi2. cbn [mbind option_bind]. set (s3 := s2 <| s_fw_q_len := UNKNOWN_FW_QUEUE_LENGTH |>).
    set (a3 := set_sta a2 i s3). assert (pool_inv C P a3 [] 0) as I3 by (by apply (pool_inv_sta C P a2 i s2)).
    destruct (recalc_beacon_ok C P a3 i s3 [] 0 I3 (sta_at _ _ _ _ Hi2)) as (a4 & E4 & (Q4 & I4 & B4) & S4 & _).
    exists a4, s3. split; [done|]. split.
    { rewrite S4. change (a_StaConInfo a3) with (<[i := s3]> (a_StaConInfo a2)). by rewrite S2, list_insert_insert_eq. }
    split; [done|]. split; [done|]. split; [done|]. split.
    { apply (f_equal a_num_sta_ps) in Q4. etrans; [exact Q4|]. exact N2. }
    split; [done|]. split.
    { rewrite B4, <- B2. unfold a3. by rewrite (balance_sta a2 i s2 s3 [] Hi2). }
    rewrite (quiet_rest _ _ Q4), <- R2. reflexivity.
  - assert (Z.land f (Z.lnot WLAN_STA_PS_STA) = f) as -> by (by apply clear_idle).
    assert (sta_queued s = []) as Hq.
    { destruct (decide (sta_queued s = [])) as [|Hn]; [done|].
      destruct (Forall_lookup_1 _ _ _ _ (pi_sleep _ _ _ _ _ Hinv) Hi Hn) as [_ ?]. unfold sleeping in Es. congruence. }
    eexists _, (s <| s_flags := f |>). split; [done|]. split; [done|]. split; [by apply (no_queue s)|].
    split; [done|]. split; [done|]. split; [done|]. split; [|split; [|done]].
    + apply (pool_inv_sta C P b i s); [done| |done]. split_and!; [done|done|]. by rewrite Hq.
    + by rewrite (balance_sta b i s _ [] Hi).
Qed.
End Table.

(** ** The counters when a station leaves *)

(** What the counting of stations leaves alone *)
Definition kept (a a' : ApInfo) : Prop :=
  a_StaConInfo a' = a_StaConInfo a /\ a_pApTxData a' = a_pApTxData a /\
  a_total_ps_buffered a' = a_total_ps_buffered a /\ a_tim a' = a_tim a /\
  omap out_id (a_out a') = omap out_id (a_out a) /\ a_num_sta_ps a' = a_num_sta_ps a /\
  a_sta_aid a' = a_sta_aid a /\ forall i, handle_timers i (a_timers a') = handle_timers i (a_timers a).

#[export] Instance kept_preorder : PreOrder kept.
Proof.
  split; [by intros a|]. intros a b c (H1 & H2 & H3 & H4 & H5 & H6 & H7 & H8) (K1 & K2 & K3 & K4 & K5 & K6 & K7 & K8).
  split_and!; try congruence; intros i; by rewrite K8, H8.
Qed.

Lemma kept_emit a e : out_id e = None -> kept a (ap_emit a e).
Proof.
  intros He. split_and!; try done. change (a_out (ap_emit a e)) with (a_out a ++ [e]).
  rewrite omap_app. cbn [omap list_omap]. by rewrite He, app_nil_r.
Qed.

Lemma kept_pool C n a a' held x : kept a a' -> pool_inv C n a held x -> pool_inv C n a' held x.
Proof. intros (H1 & H2 & H3 & H4 & _). apply pool_inv_same; try done. by rewrite H4. Qed.

Lemma kept_balance a a' held : kept a a' -> balance a' held = balance a held.
Proof.
  intros (H1 & H2 & _ & _ & H5 & _). unfold balance, queued. rewrite H1, H5.
  change (frame_id ?a) with
    ((fun (p : list (option ap_tx_desp)) k => (fun d => tf_id (d_frame d)) <$> mjoin (p !! k)) (a_pApTxData a)).
  by rewrite H2.
Qed.

Lemma beacon_kept C a b : kept a (ieee802_11_set_beacon C a b) /\ counters (ieee802_11_set_beacon C a b) = counters a.
Proof.
  unfold ieee802_11_set_beacon. destruct (_ && _); [done|]. split; [|done].
  etrans; [|by apply kept_emit]. done.
Qed.

Lemma ht_update_kept C a : kept a (ht_update C a).1 /\ counters (ht_update C a).1 = counters a.
Proof.
  unfold ht_update, hostapd_ht_operation_update. destruct (negb _); [done|].
  destruct (ht_follow _ _ _ 0) as [m1 c1]. destruct (ht_follow _ _ m1 c1) as [m2 c2]. cbv zeta.
  destruct (negb (Z.land m2 _ =? _)); destruct (0 <? _); split; try done;
    (etrans; [|by apply kept_emit]); done.
Qed.

Lemma forget_station_kept C a : kept a (forget_station C a) /\
  counters (forget_station C a) =
    (if (0 <? a_num_sta a) && (a_num_sta a <=? Z.of_nat (st_gMaxAID C)) then u8 (a_num_sta a - 1) else a_num_sta a)
    :: drop 1 (counters a).
Proof.
  unfold forget_station.
  assert (forall b, kept b (stop_cleanup_timer b) /\ counters (stop_cleanup_timer b) = counters b) as Hs.
  { intros b. split; [|done]. split_and!; try done. intros i. apply handle_timers_core. }
  destruct (_ && _); (destruct (_ =? 0); [|done]); match goal with |- context [stop_cleanup_timer ?b] =>
    destruct (Hs b) as [Hk ->] end; (split; [|done]); (etrans; [|exact Hk]); done.
Qed.

(** One less when the station was counted *)
Definition dec8 (b : bool) (n : Z) : Z := if b then u8 (n - 1) else n.
Definition dec32 (b : bool) (n : Z) : Z := if b then s32 (n - 1) else n.

Lemma forget_non_erp_kept a s : kept a (forget_non_erp a s).1 /\
  counters (forget_non_erp a s).1 =
    <[2%nat := dec8 (s_nonerp_set s) (a_num_sta_non_erp a)]> (counters a).
Proof.
  unfold forget_non_erp. destruct (s_nonerp_set s); [|done]. cbv zeta.
  destruct (_ =? 0); [|done]. match goal with |- context [a_olbc ?b] => destruct (a_olbc b) end; [done|].
  split; [|done]. etrans; [|by apply kept_emit]. done.
Qed.

Lemma forget_slot_time_kept C a s : kept a (forget_slot_time C a s).1 /\
  counters (forget_slot_time C a s).1 =
    <[4%nat := dec8 (s_no_short_slot_time_set s) (a_num_sta_no_short_slot_time a)]> (counters a).
Proof.
  unfold forget_slot_time. destruct (s_no_short_slot_time_set s); [|done]. cbv zeta. destruct (_ && _); [|done].
  split; [|done]. etrans; [|by apply kept_emit]. done.
Qed.

Lemma forget_preamble_kept C a s : kept a (forget_preamble C a s).1 /\
  counters (forget_preamble C a s).1 =
    <[3%nat := dec8 (s_no_short_preamble_set s) (a_num_sta_no_short_preamble a)]> (counters a).
Proof. unfold forget_preamble. by destruct (s_no_short_preamble_set s). Qed.

Lemma forget_ht_kept a s : kept a (forget_ht a s) /\
  counters (forget_ht a s) = take 5 (counters a) ++
    [dec32 (s_no_ht_gf_set s) (a_num_sta_ht_no_gf a);
     dec32 (s_no_ht_set s) (a_num_sta_no_ht a);
     dec32 (s_ht_20mhz_set s) (a_num_sta_ht_20mhz a)].
Proof. unfold forget_ht. by destruct (s_no_ht_gf_set s), (s_no_ht_set s), (s_ht_20mhz_set s). Qed.

(** A counter that counts the station is one less after it left. *)
Lemma dec_u8 (b : bool) n : (b = true -> 1 <= n <= 32) -> dec8 b n = n - Z.b2z b.
Proof. unfold dec8. destruct b; cbn [Z.b2z]; intros H; [|lia]. specialize (H eq_refl). rewrite u8_small; lia. Qed.

Lemma dec_s32 (b : bool) n : (b = true -> 1 <= n <= 32) -> dec32 b n = n - Z.b2z b.
Proof. unfold dec32. destruct b; cbn [Z.b2z]; intros H; [|lia]. specialize (H eq_refl). rewrite s32_small; lia. Qed.

(** [s] is among the stations that the counters from the third on count. *)
Definition among (a : ApInfo) (s : APStaInfo) : Prop :=
  Forall2 (fun n (p : APStaInfo -> bool) => p s = true -> 1 <= n <= 32) (drop 2 (counters a)) (drop 2 counted_by).

Lemma forget_counts_ok C a s : (st_gMaxAID C <= 32)%nat -> 1 <= a_num_sta a <= Z.of_nat (st_gMaxAID C) -> among a s ->
  kept a (forget_counts C a s) /\
  counters (forget_counts C a s) =
    [a_num_sta a - 1; a_num_sta_authorized a; a_num_sta_non_erp a - Z.b2z (s_nonerp_set s);
     a_num_sta_no_short_preamble a - Z.b2z (s_no_short_preamble_set s);
     a_num_sta_no_short_slot_time a - Z.b2z (s_no_short_slot_time_set s);
     a_num_sta_ht_no_gf a - Z.b2z (s_no_ht_gf_set s); a_num_sta_no_ht a - Z.b2z (s_no_ht_set s);
     a_num_sta_ht_20mhz a - Z.b2z (s_ht_20mhz_set s)].
Proof.
  intros Hmax Hn Ha. unfold among, counters, counted_by in Ha. cbn [drop] in Ha.
  apply Forall2_cons_1 in Ha as [A1 Ha]. apply Forall2_cons_1 in Ha as [A2 Ha]. apply Forall2_cons_1 in Ha as [A3 Ha].
  apply Forall2_cons_1 in Ha as [A4 Ha]. apply Forall2_cons_1 in Ha as [A5 Ha]. apply Forall2_cons_1 in Ha as [A6 _].
  unfold forget_counts. destruct (forget_station_kept C a) as [K1 E1].
  assert ((0 <? a_num_sta a) && (a_num_sta a <=? Z.of_nat (st_gMaxAID C)) = true) as Et by lia. rewrite Et in E1.
  rewrite (u8_small (a_num_sta a - 1)) in E1 by lia. generalize dependent (forget_station C a). intros a1 K1 E1.
  destruct (forget_non_erp_kept a1 s) as [K2 E2]. destruct (forget_non_erp a1 s) as [a2 b2]. cbn [fst] in *.
  destruct (forget_slot_time_kept C a2 s) as [K3 E3]. destruct (forget_slot_time C a2 s) as [a3 b3]. cbn [fst] in *.
  destruct (forget_preamble_kept C a3 s) as [K4 E4]. destruct (forget_preamble C a3 s) as [a4 b4]. cbn [fst] in *.
  destruct (forget_ht_kept a4 s) as [K5 E5]. generalize dependent (forget_ht a4 s). intros a5 K5 E5.
  destruct (ht_update_kept C a5) as [K6 E6]. destruct (ht_update C a5) as [a6 b6]. cbn [fst] in *.
  destruct (beacon_kept C a6 true) as [K7 E7].
  assert (kept a a6) as K by (by do 5 (etrans; [eassumption|])).
  assert (counters a6 = [a_num_sta a - 1; a_num_sta_authorized a; a_num_sta_non_erp a - Z.b2z (s_nonerp_set s);
     a_num_sta_no_short_preamble a - Z.b2z (s_no_short_preamble_set s);
     a_num_sta_no_short_slot_time a - Z.b2z (s_no_short_slot_time_set s);
     a_num_sta_ht_no_gf a - Z.b2z (s_no_ht_gf_set s); a_num_sta_no_ht a - Z.b2z (s_no_ht_set s);
     a_num_sta_ht_20mhz a - Z.b2z (s_ht_20mhz_set s)]) as E.
  { rewrite <- (dec_u8 _ _ A1), <- (dec_u8 _ _ A2), <- (dec_u8 _ _ A3), <- (dec_s32 _ _ A4), <- (dec_s32 _ _ A5),
      <- (dec_s32 _ _ A6). rewrite E6, E5. unfold counters in *.
    cbn [insert list_insert app take drop] in *. injection E1 as ? ? ? ? ? ? ? ?. injection E2 as ? ? ? ? ? ? ? ?.
    injection E3 as ? ? ? ? ? ? ? ?. injection E4 as ? ? ? ? ? ? ? ?. congruence. }
  destruct (_ || _); [|done]. rewrite E7. split; [by etrans|done].
Qed.

(** ** A station leaves *)

Lemma set_sta_id a i s : a_StaConInfo a !! i = Some s -> set_sta a i s = a.
Proof. intros Hi. unfold set_sta. destruct a. unfold modify. cbn in *. by rewrite list_insert_id. Qed.

Lemma set_sta_over a i s t n o o' :
  set_sta ((set_sta (a <| a_out := o |>) i s) <| a_num_sta_authorized := n |> <| a_out := o' |>) i t
  = set_sta (a <| a_num_sta_authorized := n |> <| a_out := o' |>) i t.
Proof.
  unfold set_sta at 1. change (a_StaConInfo ((set_sta (a <| a_out := o |>) i s) <| a_num_sta_authorized := n |> <| a_out := o' |>))
    with (<[i := s]> (a_StaConInfo a)). rewrite list_insert_insert_eq. reflexivity.
Qed.

Lemma rest_kept a a' : ap_rest a' = ap_rest a ->
  counters a' = counters a /\ a_sta_aid a' = a_sta_aid a /\
  forall i, handle_timers i (a_timers a') = handle_timers i (a_timers a).
Proof.
  intros H. split; [by apply (f_equal counters) in H|]. split; [by apply (f_equal a_sta_aid) in H|].
  intros i. rewrite <- handle_timers_core, <- (handle_timers_core i (a_timers a)).
  apply (f_equal a_timers) in H. change (a_timers (ap_rest ?a)) with (filter (fun p => p.1 <> TCleanup) (a_timers a)) in H.
  by rewrite H.
Qed.

Lemma counts_insert l i s s' : l !! i = Some s ->
  counts (<[i := s']> l) = zip_with (fun n (p : APStaInfo -> bool) => n - Z.b2z (p s) + Z.b2z (p s')) (counts l) counted_by.
Proof. intros Hi. unfold counts, counted_by. cbn [map zip_with]. by rewrite !(count_insert _ l i s s' Hi). Qed.

Section Leave.
Context (C : ap_static) `{HC : !table_sane C}.
Local Notation P := (AP_TOTAL_MAX_TX_BUFFER C).

Lemma deauthorize_eq a i s : a_StaConInfo a !! i = Some s -> exists out, omap out_id out = [] /\
  ap_sta_set_authorized C a i false = Some (set_sta
    (a <| a_num_sta_authorized := dec8 (authorized s) (a_num_sta_authorized a) |> <| a_out := a_out a ++ out |>) i
    (s <| s_flags := Z.land (s_flags s) (Z.lnot WLAN_STA_AUTHORIZED) |>)).
Proof.
  intros Hi. unfold ap_sta_set_authorized. rewrite Hi. cbn [mbind option_bind].
  change (test_sta_flag s WLAN_STA_AUTHORIZED) with (authorized s). destruct (authorized s) eqn:Ea; cbn [Bool.eqb dec8].
  - destruct (ap_sta_info_collect C s) as [[[addr w] r]|].
    + exists [StaStatus false addr]. done.
    + exists []. split; [done|]. by rewrite app_nil_r.
  - exists []. split; [done|]. rewrite app_nil_r.
    assert (Z.land (s_flags s) (Z.lnot WLAN_STA_AUTHORIZED) = s_flags s) as -> by (by apply clear_idle).
    assert (s <| s_flags := s_flags s |> = s) as -> by (by destruct s).
    assert (a <| a_num_sta_authorized := a_num_sta_authorized a |> <| a_out := a_out a |> = a) as -> by (by destruct a).
    by rewrite set_sta_id.
Qed.

Lemma drv_remove_ok b i s f : pool_inv C P b [] 0 -> a_StaConInfo b !! i = Some s ->
  has f WLAN_STA_PS_STA = sleeping s ->
  let f' := Z.land f (Z.lnot WLAN_STA_PS_STA) in
  exists a' s', APStaInfo_DrvRemove C (set_sta b i (s <| s_flags := f |>)) i = Some a' /\
    a_StaConInfo a' = <[i := s']> (a_StaConInfo b) /\ s_ps_tx_buf s' = replicate 4 [] /\
    sta_core s' = sta_core (s <| s_flags := f' |> <| s_wsid_idx := Z.of_nat (st_gMaxAID C) |>
      <| s_addStaFlag := false |> <| s_reassoc := false |> <| s_assocRsp := false |>) /\
    s_flags s' = f' /\ a_num_sta_ps a' = dec8 (sleeping s) (a_num_sta_ps b) /\
    pool_inv C P a' [] 0 /\ balance a' [] ≡ₚ balance b [] /\ ap_rest a' = ap_rest b.
Proof.
  intros Hinv Hi Hf f'. destruct (leave_ps_ok C b i s f Hinv Hi Hf) as (a1 & s1 & E1 & S1 & Q1 & C1 & F1 & N1 & I1 & B1 & R1).
  unfold APStaInfo_DrvRemove. rewrite E1. cbn [mbind option_bind].
  assert (a_StaConInfo a1 !! i = Some s1) as Hi1
    by (rewrite S1; by rewrite list_lookup_insert_eq by (by eapply lookup_lt_Some)).
  rewrite Hi1. cbn [mbind option_bind]. set (a2 := ap_soc_cmd_sta_oper C a1 false s1).
  assert (kept a1 a2 /\ ap_rest a2 = ap_rest a1) as [K2 R2].
  { unfold a2, ap_soc_cmd_sta_oper. destruct (ap_sta_info_collect C s1) as [[[ad w] r]|]; [|done].
    split; [by apply kept_emit|done]. }
  assert (a_StaConInfo a2 = a_StaConInfo a1) as S2 by apply K2. unfold upd_sta. rewrite S2, Hi1. cbn [mbind option_bind].
  set (s2 := _ <| s_assocRsp := false |>). assert (a_StaConInfo a2 !! i = Some s1) as Hi2 by (by rewrite S2).
  exists (set_sta a2 i s2), s2. split; [done|]. split.
  { change (a_StaConInfo (set_sta a2 i s2)) with (<[i := s2]> (a_StaConInfo a2)). by rewrite S2, S1, list_insert_insert_eq. }
  split; [done|]. split.
  { change (sta_core s2) with ((sta_core s1) <| s_wsid_idx := Z.of_nat (st_gMaxAID C) |> <| s_addStaFlag := false |>
      <| s_reassoc := false |> <| s_assocRsp := false |>). rewrite C1. reflexivity. }
  split; [done|]. split; [etrans; [apply K2|exact N1]|]. split.
  { apply (pool_inv_sta C P a2 i s1); [done| |by eapply kept_pool]. by split_and!. }
  split; [|rewrite <- R1, <- R2; reflexivity]. by erewrite balance_sta, (kept_balance a1 a2); [..|exact Hi2|].
Qed.

Lemma counted_bounds a i s : entries_inv C a -> a_StaConInfo a !! i = Some s ->
  Forall2 (fun n (p : APStaInfo -> bool) => p s = true -> 1 <= n <= 32) (counters a) counted_by.
Proof.
  intros He Hi. rewrite (ti_counts _ _ He). pose proof (@sane_bitmap C _) as Hb.
  pose proof (pi_sta _ _ _ _ _ (pw_pool _ _ (ti_power _ _ He))) as Hl.
  assert (forall p : APStaInfo -> bool, p s = true -> 1 <= count p (a_StaConInfo a) <= 32) as Hp.
  { intros p Hp. pose proof (count_pos p _ _ _ Hi Hp). pose proof (count_nonneg p (a_StaConInfo a)). lia. }
  unfold counts, counted_by. cbn [map]. by repeat (constructor; [apply Hp|]).
Qed.

(** The first steps of [APStaInfo_free]: the station is not valid and not
    authorized any more and has left power save. *)
Lemma free_started a i s : entries_inv C a -> a_StaConInfo a !! i = Some s -> valid s = true ->
  exists a' s',
    (let a := set_sta a i (clear_sta_flag s WLAN_STA_VALID) in
     let a := if g_ampdu_rx_enable (st_cfg C) then ap_emit a (DelAmpduRx (u8 (s_wsid_idx s))) else a in
     a ← ap_sta_set_authorized C a i false; APStaInfo_DrvRemove C a i) = Some a' /\
    a_StaConInfo a' = <[i := s']> (a_StaConInfo a) /\ s_ps_tx_buf s' = replicate 4 [] /\ s_aid s' = s_aid s /\
    map (fun p : APStaInfo -> bool => p s') (drop 2 counted_by) = map (fun p => p s) (drop 2 counted_by) /\
    counters a' = <[1%nat := a_num_sta_authorized a - Z.b2z (authorized s)]> (counters a) /\
    a_sta_aid a' = a_sta_aid a /\ (forall j, handle_timers j (a_timers a') = handle_timers j (a_timers a)) /\
    a_num_sta_ps a' = dec8 (sleeping s) (a_num_sta_ps a) /\
    pool_inv C P a' [] 0 /\ balance a' [] ≡ₚ balance a [].
Proof.
  intros He Hi Hv. cbv zeta. set (s0 := clear_sta_flag s WLAN_STA_VALID). set (a0 := set_sta a i s0).
  pose proof (counted_bounds a i s He Hi) as Hb. unfold counters, counted_by in Hb.
  apply Forall2_cons_1 in Hb as [_ Hb]. apply Forall2_cons_1 in Hb as [Hb _].
  set (pre := if g_ampdu_rx_enable (st_cfg C) then [DelAmpduRx (u8 (s_wsid_idx s))] else []).
  assert ((if g_ampdu_rx_enable (st_cfg C) then ap_emit a0 (DelAmpduRx (u8 (s_wsid_idx s))) else a0)
    = set_sta (a <| a_out := a_out a ++ pre |>) i s0) as ->.
  { unfold pre, a0. destruct (g_ampdu_rx_enable _); [done|]. rewrite app_nil_r.
    by assert (a <| a_out := a_out a |> = a) as -> by (by destruct a). }
  destruct (deauthorize_eq (set_sta (a <| a_out := a_out a ++ pre |>) i s0) i s0) as (out & Ho & ->);
    [by eapply sta_at|]. cbn [mbind option_bind].
  assert (authorized s0 = authorized s) as -> by (unfold s0, authorized, WLAN_STA_AUTHORIZED; by rewrite flag_clear_other).
  set (f := Z.land (Z.land (s_flags s) (Z.lnot WLAN_STA_VALID)) (Z.lnot WLAN_STA_AUTHORIZED)).
  set (b := a <| a_num_sta_authorized := dec8 (authorized s) (a_num_sta_authorized a) |> <| a_out := (a_out a ++ pre) ++ out |>).
  rewrite set_sta_over. change (s0 <| s_flags := _ |>) with (s <| s_flags := f |>).
  change (a_num_sta_authorized (set_sta ?x i s0)) with (a_num_sta_authorized a).
  change (a_out (set_sta ?x i s0)) with (a_out a ++ pre). fold b.
  assert (omap out_id (a_out b) = omap out_id (a_out a)) as Hob.
  { change (a_out b) with ((a_out a ++ pre) ++ out). rewrite !omap_app, Ho, app_nil_r. unfold pre.
    destruct (g_ampdu_rx_enable _); apply app_nil_r. }
  pose proof (pw_pool _ _ (ti_power _ _ He)) as Hp.
  destruct (drv_remove_ok b i s f) as (a' & s' & E & S & Q & Co & F & N & I & B & R); [by apply (pool_inv_same C P a)|done| |].
  { unfold f, sleeping, test_sta_flag, WLAN_STA_PS_STA. rewrite !has_clear by lia. by rewrite !andb_true_r. }
  destruct (rest_kept _ _ R) as (Rc & Ra & Rt).
  exists a', s'. split; [done|]. split; [done|]. split; [done|]. split; [by apply (f_equal s_aid) in Co|].
  split; [by apply (f_equal (fun s => map (fun p : APStaInfo -> bool => p s) (drop 2 counted_by))) in Co|].
  split; [rewrite Rc, <- (dec_u8 _ _ Hb); reflexivity|]. split; [done|]. split; [done|]. split; [done|]. split; [done|].
  rewrite B. unfold balance. by rewrite Hob.
Qed.

Lemma release_aid_ok a aid : 0 <= aid <= Z.of_nat (st_gMaxAID C) ->
  exists B, release_aid a aid = Some (a <| a_sta_aid := B |>) /\
    forall k, 0 <= k -> has B (BIT k) = has (a_sta_aid a) (BIT k) && negb (bool_decide (k + 1 = aid)).
Proof.
  intros Ha. pose proof (@sane_bitmap C _) as Hb. unfold release_aid. destruct (Z.ltb_spec 0 aid).
  - assert ((aid - 1) / 32 = 0) as -> by (apply Z.div_small; lia). rewrite Z.eqb_refl, Z.mod_small by lia.
    eexists. split; [done|]. intros k Hk. rewrite BIT_clear by lia. f_equal. f_equal. apply bool_decide_ext. lia.
  - exists (a_sta_aid a). split; [by destruct a|]. intros k Hk. by rewrite bool_decide_false, andb_true_r by lia.
Qed.

Lemma blank_reset : blank APStaInfo_StaReset.
Proof. done. Qed.

Lemma handle_timers_cancel i t l : handle_timers i (filter (fun p => p.1 <> t) l) =
  if decide (t = THandle i) then [] else handle_timers i l.
Proof.
  unfold handle_timers. rewrite list_filter_filter. case_decide as Ht.
  - subst t. induction l as [|p l IH]; [done|]. rewrite filter_cons_False; [done|]. tauto.
  - apply list_filter_iff. intros p. split; [by intros [? _]|]. intros Hp. split; [done|]. by rewrite Hp.
Qed.

Lemma blank_aid s : blank s -> s_aid s = 0.
Proof. intros Hw. by apply (f_equal s_aid) in Hw. Qed.

Lemma free_counts_ok a a' i s s' : entries_inv C a -> a_StaConInfo a !! i = Some s -> valid s = true ->
  counters a' = <[1%nat := a_num_sta_authorized a - Z.b2z (authorized s)]> (counters a) ->
  map (fun p : APStaInfo -> bool => p s') (drop 2 counted_by) = map (fun p => p s) (drop 2 counted_by) ->
  kept a' (forget_counts C a' s') /\
  counters (forget_counts C a' s') = zip_with (fun n (p : APStaInfo -> bool) => n - Z.b2z (p s)) (counters a) counted_by.
Proof.
  intros He Hi Hv N M. pose proof (@sane_bitmap C _) as Hmax. pose proof (counted_bounds a i s He Hi) as Hb.
  pose proof (pi_sta _ _ _ _ _ (pw_pool _ _ (ti_power _ _ He))) as Hlen.
  pose proof (f_equal (fun l => l !! 0%nat) (ti_counts _ _ He)) as Hc. cbn in Hc. injection Hc as Hc.
  pose proof (count_nonneg valid (a_StaConInfo a)) as Hcn.
  unfold counters, counted_by in N, M, Hb. cbn [insert list_insert drop map] in N, M, Hb.
  injection N as N1 N2 N3 N4 N5 N6 N7 N8. injection M as M1 M2 M3 M4 M5 M6.
  apply Forall2_cons_1 in Hb as [U0 Hb]. specialize (U0 Hv). apply Forall2_cons_1 in Hb as [_ Hb].
  apply Forall2_cons_1 in Hb as [U1 Hb]. apply Forall2_cons_1 in Hb as [U2 Hb]. apply Forall2_cons_1 in Hb as [U3 Hb].
  apply Forall2_cons_1 in Hb as [U4 Hb]. apply Forall2_cons_1 in Hb as [U5 Hb]. apply Forall2_cons_1 in Hb as [U6 _].
  destruct (forget_counts_ok C a' s' Hmax) as [K E].
  - rewrite N1. lia.
  - unfold among, counters, counted_by. cbn [drop].
    repeat (constructor; [intros Hs; first [rewrite N3; apply U1; congruence | rewrite N4; apply U2; congruence
      | rewrite N5; apply U3; congruence | rewrite N6; apply U4; congruence | rewrite N7; apply U5; congruence
      | rewrite N8; apply U6; congruence]|]). done.
  - split; [done|]. rewrite E. unfold counters, counted_by. cbn [zip_with].
    rewrite N1, N2, N3, N4, N5, N6, N7, N8, M1, M2, M3, M4, M5, M6. change (valid s) with (valid s). rewrite Hv. done.
Qed.

(** One entry changes, and the counters with it. *)
Lemma entries_update a a' i s s' : entries_inv C a -> a_StaConInfo a !! i = Some s ->
  a_StaConInfo a' = <[i := s']> (a_StaConInfo a) -> pool_inv C P a' [] 0 ->
  a_num_sta_ps a' = a_num_sta_ps a - Z.b2z (sleeping s) + Z.b2z (sleeping s') ->
  counters a' = zip_with (fun n (p : APStaInfo -> bool) => n - Z.b2z (p s) + Z.b2z (p s')) (counters a) counted_by ->
  shape (a_sta_aid a') (<[i := s']> (a_StaConInfo a)) -> entries_inv C a'.
Proof.
  intros He Hi S I N Nc Sh. split; [split; [done|]|..].
  - by rewrite S, (count_insert sleeping _ i s _ Hi), <- (pw_sleep _ _ (ti_power _ _ He)).
  - by rewrite S, (counts_insert _ i s _ Hi), <- (ti_counts _ _ He).
  - by rewrite S.
Qed.

Lemma sleeping_bound a i s : entries_inv C a -> a_StaConInfo a !! i = Some s -> sleeping s = true ->
  1 <= a_num_sta_ps a <= 32.
Proof.
  intros He Hi Hs. rewrite (pw_sleep _ _ (ti_power _ _ He)). pose proof (count_pos sleeping _ _ _ Hi Hs).
  pose proof (count_nonneg sleeping (a_StaConInfo a)).
  pose proof (pi_sta _ _ _ _ _ (pw_pool _ _ (ti_power _ _ He))). pose proof (@sane_bitmap C _). lia.
Qed.

(** The entry is blank again and no counter counts it. *)
Lemma left_entries a a' i s s' : entries_inv C a -> a_StaConInfo a !! i = Some s ->
  a_StaConInfo a' = <[i := s']> (a_StaConInfo a) -> s_ps_tx_buf s' = replicate 4 [] -> pool_inv C P a' [] 0 ->
  a_num_sta_ps a' = dec8 (sleeping s) (a_num_sta_ps a) ->
  counters a' = zip_with (fun n (p : APStaInfo -> bool) => n - Z.b2z (p s)) (counters a) counted_by ->
  (forall k, 0 <= k -> has (a_sta_aid a') (BIT k) = has (a_sta_aid a) (BIT k) && negb (bool_decide (k + 1 = s_aid s))) ->
  entries_inv C (set_sta a' i APStaInfo_StaReset) /\
  a_StaConInfo (set_sta a' i APStaInfo_StaReset) = <[i := APStaInfo_StaReset]> (a_StaConInfo a) /\
  balance (set_sta a' i APStaInfo_StaReset) [] = balance a' [].
Proof.
  intros He Hi S Q I N Nc HB. pose proof (lookup_lt_Some _ _ _ Hi) as Hlt.
  assert (a_StaConInfo a' !! i = Some s') as Hi' by (rewrite S; by rewrite list_lookup_insert_eq).
  assert (a_StaConInfo (set_sta a' i APStaInfo_StaReset) = <[i := APStaInfo_StaReset]> (a_StaConInfo a)) as S'.
  { change (a_StaConInfo (set_sta a' i ?x)) with (<[i := x]> (a_StaConInfo a')). by rewrite S, list_insert_insert_eq. }
  split; [|split; [done|apply (balance_sta a' i s'); [done|by rewrite Q]]].
  apply (entries_update a _ i s APStaInfo_StaReset He Hi S').
  - apply (pool_inv_entry C P a' i s'); [done|by rewrite Q|cbn; lia| |done]. unfold sta_queued. by rewrite Q.
  - change (a_num_sta_ps (set_sta a' i ?x)) with (a_num_sta_ps a'). rewrite N, dec_u8 by (by eapply sleeping_bound).
    change (sleeping APStaInfo_StaReset) with false. cbn [Z.b2z]. lia.
  - change (counters (set_sta a' i ?x)) with (counters a'). rewrite Nc. unfold counters, counted_by. cbn [zip_with].
    repeat (apply (f_equal2 cons); [match goal with |- _ = _ + Z.b2z ?b => change b with false end; cbn [Z.b2z]; lia|]). done.
  - apply (shape_insert (a_sta_aid a) _ _ i s); [apply (ti_shape _ _ He)|done|intros _; apply blank_reset|done|done|].
    intros k Hk. change (a_sta_aid (set_sta a' i ?x)) with (a_sta_aid a'). rewrite (HB k Hk), andb_true_iff, negb_true_iff, bool_decide_eq_false.
    change (s_aid APStaInfo_StaReset) with 0. intuition lia.
Qed.

Lemma station_free_ok a i s : loose C i a -> a_StaConInfo a !! i = Some s -> valid s = true ->
  exists a', APStaInfo_free C a i = Some a' /\ table_inv C a' /\
    a_StaConInfo a' = <[i := APStaInfo_StaReset]> (a_StaConInfo a) /\ balance a' [] ≡ₚ balance a [].
Proof.
  intros [He Ht] Hi Hv. pose proof (lookup_lt_Some _ _ _ Hi) as Hlt. pose proof (@sane_bitmap C _) as Hmax.
  destruct (free_started a i s He Hi Hv) as (a1 & s1 & E1 & S1 & Q1 & A1 & M1 & N1 & B1 & T1 & P1 & I1 & L1).
  unfold APStaInfo_free. rewrite Hi. cbn [mbind option_bind]. change (test_sta_flag s WLAN_STA_VALID) with (valid s).
  rewrite Hv. cbn [negb]. cbv zeta in E1 |- *. destruct (ap_sta_set_authorized C _ i false) as [a0|]; [|done].
  cbn [mbind option_bind] in E1 |- *. rewrite E1. cbn [mbind option_bind].
  assert (a_StaConInfo a1 !! i = Some s1) as Hi1 by (rewrite S1; by rewrite list_lookup_insert_eq).
  rewrite Hi1. cbn [mbind option_bind].
  destruct (get_sta _ _ _ _ _ _ _ (pw_pool _ _ (ti_power _ _ He)) Hi) as [_ Haid].
  destruct (release_aid_ok a1 (s_aid s1)) as (B & -> & HB); [by rewrite A1|]. cbn [mbind option_bind].
  set (a2 := a1 <| a_sta_aid := B |>). destruct (free_counts_ok a a2 i s s1 He Hi Hv N1 M1) as [K3 N3].
  generalize dependent (forget_counts C a2 s1). intros a3 K3 N3.
  set (a4 := if started (s_wpa_sm s1) then _ else _).
  assert (a_StaConInfo a4 = a_StaConInfo a3 /\ pool_inv C P a4 [] 0 /\ balance a4 [] = balance a3 [] /\
    a_num_sta_ps a4 = a_num_sta_ps a3 /\ counters a4 = counters a3 /\ a_sta_aid a4 = a_sta_aid a3 /\
    forall j, handle_timers j (a_timers a4) = if decide (j = i) then [] else handle_timers j (a_timers a3))
    as (S4 & I4 & B4 & P4 & N4 & D4 & T4).
  { assert (pool_inv C P a3 [] 0) as I3 by (apply (kept_pool C P a2); [done|]; by apply (pool_inv_same C P a1)).
    split_and!; try (unfold a4; by destruct (started _)).
    - unfold a4. destruct (started _); by apply (pool_inv_same C P a3).
    - intros j. transitivity (handle_timers j (filter (fun p => p.1 <> THandle i) (a_timers a3))).
      + unfold a4. destruct (started _); [|done].
        change (a_timers (cancel_timer ?x ?t)) with (filter (fun p => p.1 <> t) (a_timers x)).
        rewrite handle_timers_cancel. by rewrite decide_False.
      + rewrite handle_timers_cancel. repeat case_decide; congruence. }
  destruct (left_entries a a4 i s s1) as (He' & S' & L'); try done.
  { rewrite S4. etrans; [apply K3|done]. }
  { rewrite P4. etrans; [apply K3|done]. }
  { by rewrite N4. }
  { intros k Hk. rewrite D4. assert (a_sta_aid a3 = B) as -> by apply K3. by rewrite HB, A1, B1. }
  eexists. split; [done|]. split; [|split; [done|]].
  - split; [done|]. intros j t. rewrite S'. change (a_timers (set_sta a4 i ?x)) with (a_timers a4). rewrite T4.
    case_decide as Hj; [subst j; rewrite list_lookup_insert_eq by done; by intros [= <-]|].
    rewrite list_lookup_insert_ne by done. intros Hjt. destruct K3 as (_ & _ & _ & _ & _ & _ & _ & K3). rewrite K3.
    change (a_timers a2) with (a_timers a1). rewrite T1. by apply Ht.
  - rewrite L', B4, (kept_balance a2 a3 [] K3). change (balance a2 []) with (balance a1 []). done.
Qed.

(** *** Disassociation *)

(** A change of a valid station that keeps its address and AID *)
Lemma shape_same B l i s s' : shape B l -> l !! i = Some s -> valid s = true -> valid s' = true ->
  s_addr s' = s_addr s -> s_aid s' = s_aid s -> shape B (<[i := s']> l).
Proof.
  intros Hs Hi Hv Hv' Ha Hd. apply (shape_insert B B l i s); [done|done|congruence|..].
  - intros j t Hj Hl Ht _ He. apply Hj. apply (sh_addr _ _ Hs j i t s); congruence.
  - intros j t Hj Hl Ht He. apply Hj. apply (sh_aid _ _ Hs j i t s); congruence || lia.
  - intros k Hk. rewrite Hd. destruct (decide (k + 1 = s_aid s)) as [He|]; [|intuition].
    split; [by left|]. intros _. apply (sh_bitmap _ _ Hs k Hk). by exists i, s.
Qed.

(** The state machines of the entries are kept or cleared, no entry waits for
    its handshake that did not before. *)
Definition ages (l l' : list APStaInfo) : Prop := forall j t, l' !! j = Some t ->
  (s_wpa_sm t = sm_zero /\ s_assocRsp t = false) \/
  exists s, l !! j = Some s /\ s_wpa_sm t = s_wpa_sm s /\ (s_assocRsp t = true -> s_assocRsp s = true).

#[export] Instance ages_preorder : PreOrder ages.
Proof.
  split; [intros l j t Hj; right; by exists t|]. intros l1 l2 l3 H1 H2 j t Hj.
  destruct (H2 j t Hj) as [?|(s & Hs & Em & Er)]; [by left|].
  destruct (H1 j s Hs) as [[Z1 Z2]|(u & Hu & Em' & Er')].
  - left. split; [congruence|]. destruct (s_assocRsp t); [specialize (Er eq_refl); congruence|done].
  - right. exists u. split; [done|]. split; [congruence|auto].
Qed.

Definition tended (s s' : APStaInfo) : Prop :=
  s_wpa_sm s' = s_wpa_sm s /\ (s_assocRsp s' = true -> s_assocRsp s = true).

Lemma ages_insert l i s s' : l !! i = Some s ->
  (s_wpa_sm s' = sm_zero /\ s_assocRsp s' = false) \/ tended s s' -> ages l (<[i := s']> l).
Proof.
  intros Hi Hs j t. destruct (decide (j = i)) as [->|Hne].
  - rewrite list_lookup_insert_eq by (by eapply lookup_lt_Some). intros [= <-]. destruct Hs; [by left|right; by exists s].
  - rewrite list_lookup_insert_ne by done. intros Hj. right. by exists t.
Qed.

Lemma ages_base l l' : (forall j t, l' !! j = Some t -> exists s, l !! j = Some s /\ sta_base t = sta_base s) -> ages l l'.
Proof.
  intros H j t Hj. destruct (H j t Hj) as (s & Hs & E). right. exists s. split; [done|].
  split; [by apply (f_equal s_wpa_sm) in E|]. apply (f_equal s_assocRsp) in E.
  change (s_assocRsp (sta_base ?s)) with (s_assocRsp s) in E. congruence.
Qed.

Lemma calm_ages a a' : calm a a' -> ages (a_StaConInfo a) (a_StaConInfo a').
Proof. intros Hc. apply ages_base. intros j t. by apply calm_back. Qed.

(** The station [i] is the only one that changes: it stays valid and keeps its
    address. *)
Definition stays (i : nat) (s : APStaInfo) (a a' : ApInfo) (s' : APStaInfo) : Prop :=
  a_StaConInfo a' = <[i := s']> (a_StaConInfo a) /\ valid s' = true /\
  (s_addr s' = s_addr s /\ ages (a_StaConInfo a) (a_StaConInfo a')) /\ balance a' [] ≡ₚ balance a [].

Lemma timed_insert a a' i s s' j : a_StaConInfo a !! i = Some s -> a_StaConInfo a' = <[i := s']> (a_StaConInfo a) ->
  valid s' = valid s -> handle_timers j (a_timers a') = handle_timers j (a_timers a) -> timed a j -> timed a' j.
Proof.
  intros Hi S Hv Ht Hj t. rewrite S, Ht. destruct (decide (j = i)) as [->|Hne].
  - rewrite list_lookup_insert_eq by (by eapply lookup_lt_Some). intros [= <-]. rewrite Hv. by apply Hj.
  - rewrite list_lookup_insert_ne by done. apply Hj.
Qed.

Lemma disassoc_ok a i s : loose C i a -> a_StaConInfo a !! i = Some s -> valid s = true ->
  exists a' s', disassociate C a i = Some a' /\
    loose C i a' /\ stays i s a a' s' /\ s_timeout_next s' = s_timeout_next s /\
    forall j, handle_timers j (a_timers a') = handle_timers j (a_timers a).
Proof.
  intros [He Ht] Hi Hv. pose proof (lookup_lt_Some _ _ _ Hi) as Hlt.
  unfold disassociate. destruct (deauthorize_eq a i s Hi) as (out & Ho & ->). cbn [mbind option_bind].
  set (b := a <| a_num_sta_authorized := dec8 (authorized s) (a_num_sta_authorized a) |> <| a_out := a_out a ++ out |>).
  set (s0 := s <| s_flags := _ |>). unfold upd_sta. rewrite (sta_at b i s s0 Hi). cbn [mbind option_bind]. rewrite set_sta_idem.
  set (f := Z.land (Z.land (s_flags s) (Z.lnot WLAN_STA_AUTHORIZED)) (Z.lnot WLAN_STA_ASSOC)).
  change (clear_sta_flag s0 WLAN_STA_ASSOC) with (s <| s_flags := f |>).
  destruct (drv_remove_ok b i s f) as (a1 & s1 & E & S & Q & Co & F & N & I & B & R); [|done| |].
  { apply (pool_inv_same C P a); try done. apply (ti_power _ _ He). }
  { unfold f, sleeping, test_sta_flag, WLAN_STA_PS_STA. rewrite !has_clear by lia. by rewrite !andb_true_r. }
  rewrite E. cbn [mbind option_bind]. destruct (rest_kept _ _ R) as (Rc & Ra & Rt).
  set (a2 := cancel_timer a1 (TEapol i)).
  assert (forall j, handle_timers j (a_timers a2) = handle_timers j (a_timers a)) as T2.
  { intros j. change (a_timers a2) with (filter (fun p => p.1 <> TEapol i) (a_timers a1)).
    rewrite handle_timers_cancel, decide_False by done. by rewrite Rt. }
  assert (valid s1 = true) as Hv1.
  { unfold valid, test_sta_flag, WLAN_STA_VALID. rewrite F. unfold f. rewrite !has_clear by lia. by rewrite !andb_true_r. }
  assert (authorized s1 = false) as Ha1.
  { unfold authorized, test_sta_flag, WLAN_STA_AUTHORIZED. rewrite F. unfold f, WLAN_STA_AUTHORIZED, WLAN_STA_PS_STA, WLAN_STA_ASSOC.
    rewrite !BIT_clear by lia. by rewrite (bool_decide_true (6 = 6)), !andb_false_r by done. }
  assert (sleeping s1 = false) as Hs1.
  { unfold sleeping, test_sta_flag. rewrite F. unfold WLAN_STA_PS_STA. rewrite BIT_clear by lia.
    by rewrite bool_decide_true, andb_false_r. }
  exists a2, s1. split; [done|]. split; [split|].
  - pose proof (counted_bounds a i s He Hi) as Hb. unfold counters, counted_by in Hb.
    apply Forall2_cons_1 in Hb as [_ Hb]. apply Forall2_cons_1 in Hb as [Hb _].
    apply (entries_update a a2 i s s1 He Hi S).
    + by apply (pool_inv_same C P a1).
    + change (a_num_sta_ps a2) with (a_num_sta_ps a1). rewrite N. change (a_num_sta_ps b) with (a_num_sta_ps a).
      rewrite dec_u8 by (by eapply sleeping_bound). rewrite Hs1. cbn [Z.b2z]. lia.
    + change (counters a2) with (counters a1). rewrite Rc.
      change (counters b) with (<[1%nat := dec8 (authorized s) (a_num_sta_authorized a)]> (counters a)).
      unfold counters, counted_by. cbn [zip_with insert list_insert]. rewrite Hv, Hv1, Ha1, dec_u8 by done.
      repeat (apply (f_equal2 cons); [first [cbn [Z.b2z]; lia|
        match goal with |- _ = _ - Z.b2z (?p s) + Z.b2z (?p s1) => assert (p s1 = p s) as -> by (by apply (f_equal p) in Co) end;
        lia]|]). done.
    + change (a_sta_aid a2) with (a_sta_aid a1). rewrite Ra. apply (shape_same _ _ i s s1); try done; [apply (ti_shape _ _ He)|..].
      * by apply (f_equal s_addr) in Co.
      * by apply (f_equal s_aid) in Co.
  - intros j Hj. apply (timed_insert a a2 i s s1 j Hi S); [congruence|done|by apply Ht].
  - split; [|split; [by apply (f_equal s_timeout_next) in Co|done]]. split; [done|]. split; [done|].
    split; [split; [by apply (f_equal s_addr) in Co|]|].
    { change (a_StaConInfo a2) with (a_StaConInfo a1). rewrite S. apply (ages_insert _ _ s); [done|]. right.
      split; [by apply (f_equal s_wpa_sm) in Co|]. apply (f_equal s_assocRsp) in Co.
      change (s_assocRsp (sta_core ?s)) with (s_assocRsp s) in Co. by rewrite Co. }
    change (balance a2 []) with (balance a1 []). rewrite B. unfold balance.
    assert (omap out_id (a_out b) = omap out_id (a_out a)) as ->; [|done].
    change (a_out b) with (a_out a ++ out). by rewrite omap_app, Ho, app_nil_r.
Qed.

(** *** Changes that no counter sees *)
Definition same_marks (s s' : APStaInfo) : Prop :=
  s_ps_tx_buf s' = s_ps_tx_buf s /\ s_aid s' = s_aid s /\ s_addr s' = s_addr s /\ sleeping s' = sleeping s /\
  map (fun p : APStaInfo -> bool => p s') counted_by = map (fun p => p s) counted_by.

Lemma note_loose a i s s' k : loose C k a -> a_StaConInfo a !! i = Some s -> valid s = true -> same_marks s s' -> tended s s' ->
  loose C k (set_sta a i s') /\ stays i s a (set_sta a i s') s' /\ (timed a k -> timed (set_sta a i s') k).
Proof.
  intros [He Ht] Hi Hv (Hb & Ha & Hd & Hs & Hm) Htd. unfold counted_by in Hm. cbn [map] in Hm.
  injection Hm as M0 M1 M2 M3 M4 M5 M6 M7. split; [split|split].
  - apply (entries_update a (set_sta a i s') i s s' He Hi eq_refl).
    + apply (pool_inv_sta C P a i s); [done| |apply (ti_power _ _ He)]. split; [done|]. split; [done|].
      intros _. unfold valid, sleeping in *. by rewrite M0, Hs.
    + change (a_num_sta_ps (set_sta a i s')) with (a_num_sta_ps a). rewrite Hs. lia.
    + change (counters (set_sta a i s')) with (counters a). unfold counters, counted_by. cbn [zip_with].
      rewrite M0, M1, M2, M3, M4, M5, M6, M7. repeat (apply (f_equal2 cons); [lia|]). done.
    + apply (shape_same _ _ i s); try done; [apply (ti_shape _ _ He)|congruence].
  - intros j Hj. apply (timed_insert a (set_sta a i s') i s s' j Hi eq_refl); [done|done|by apply Ht].
  - split; [done|]. split; [congruence|]. split; [split; [done|apply (ages_insert _ _ s); [done|by right]]|].
    by rewrite (balance_sta a i s s' [] Hi).
  - by apply (timed_insert a (set_sta a i s') i s s' k Hi eq_refl).
Qed.

Lemma loose_timers a k l : loose C k a -> (forall j, j <> k -> handle_timers j l = handle_timers j (a_timers a)) ->
  loose C k (a <| a_timers := l |>).
Proof.
  intros [[[Hp Hs] Hc Hsh] Ht] Hl. split.
  - split; [split; [by apply (pool_inv_same C P a)|done]|done|done].
  - intros j Hj s Hi. change (a_timers (a <| a_timers := l |>)) with l. rewrite Hl by done. by apply Ht.
Qed.

Lemma handle_timers_app i l p : handle_timers i (l ++ [p]) = handle_timers i l ++ handle_timers i [p].
Proof. apply list.filter_app. Qed.

Lemma cancel_loose a i : loose C i a -> loose C i (cancel_timer a (THandle i)).
Proof.
  intros Hl. apply loose_timers; [done|]. intros j Hj. rewrite handle_timers_cancel, decide_False; [done|]. congruence.
Qed.

(** The timer is started when none is pending. *)
Lemma start_loose a i ms s : loose C i a -> a_StaConInfo a !! i = Some s -> valid s = true ->
  handle_timers i (a_timers a) = [] -> table_inv C (start_timer a (THandle i) ms).
Proof.
  intros Hl Hi Hv Hn. assert (loose C i (start_timer a (THandle i) ms)) as [He Ht].
  { apply loose_timers; [done|]. intros j Hj. rewrite handle_timers_app. unfold handle_timers at 2.
    rewrite filter_cons_False by (cbn; congruence). by rewrite app_nil_r. }
  split; [done|]. intros j. destruct (decide (j = i)) as [->|]; [|by apply Ht]. intros t Hti.
  change (a_StaConInfo (start_timer ?a ?t ?ms)) with (a_StaConInfo a) in Hti. assert (t = s) as -> by congruence. rewrite Hv.
  change (a_timers (start_timer a (THandle i) ms)) with (a_timers a ++ [(THandle i, ms)]).
  rewrite handle_timers_app, Hn. unfold handle_timers. by rewrite filter_cons_True by done.
Qed.

Lemma loose_table a i : loose C i a -> timed a i -> table_inv C a.
Proof. intros [He Ht] Hi. split; [done|]. intros j. destruct (decide (j = i)) as [->|]; [done|by apply Ht]. Qed.

Lemma table_loose a i : table_inv C a -> loose C i a.
Proof. intros [He Ht]. split; [done|]. intros j _. apply Ht. Qed.

Lemma calm_loose a a' i : calm a a' -> power_inv C a' -> loose C i a -> loose C i a'.
Proof. intros Hc Hp [He Ht]. split; [by eapply calm_entries|]. intros j Hj. by eapply calm_timed; [|apply Ht]. Qed.

(** *** Removing a station *)

Lemma reason_loose a i s fc addr reason : loose C i a -> a_StaConInfo a !! i = Some s ->
  exists a' s', send_reason C a fc addr reason = Some a' /\ calm a a' /\ loose C i a' /\
    a_StaConInfo a' !! i = Some s' /\ sta_base s' = sta_base s /\ balance a' [] ≡ₚ balance a [].
Proof.
  intros Hl Hi.
  destruct (send_reason_ok C (@sane_pool C _) (@sane_aid C _) a fc addr reason (ti_power _ _ (proj1 Hl)))
    as (a' & E & Hc & Hp & Hb).
  destruct (calm_back a' a i s) as (s' & Hi' & Hs); [done|done|]. exists a', s'. split_and!; try done. by apply (calm_loose a).
Qed.

(** Station [i] is gone, the others are as they were. *)
Definition removed (i : nat) (a a' : ApInfo) : Prop :=
  a_StaConInfo a' !! i = Some APStaInfo_StaReset /\
  (forall j, j <> i -> sta_base <$> a_StaConInfo a' !! j = sta_base <$> a_StaConInfo a !! j) /\
  balance a' [] ≡ₚ balance a [].

Lemma disassoc_then a i s : loose C i a -> a_StaConInfo a !! i = Some s -> valid s = true ->
  exists a' s', change_sta_disassoc_to_deauth C a i false = Some a' /\ loose C i a' /\ stays i s a a' s' /\
    forall j, handle_timers j (a_timers a') = handle_timers j (a_timers a).
Proof.
  intros Hl Hi Hv. destruct (disassoc_ok a i s Hl Hi Hv) as (a' & s' & E & L & S & _ & T). exists a', s'.
  unfold change_sta_disassoc_to_deauth. rewrite E. cbn [mbind option_bind]. destruct S as (S & ?). rewrite S.
  rewrite list_lookup_insert_eq by (by eapply lookup_lt_Some). done.
Qed.

Lemma sta_remove_ok a i s : loose C i a -> a_StaConInfo a !! i = Some s -> valid s = true ->
  exists a', deauth_and_remove C a i = Some a' /\ table_inv C a' /\ removed i a a'.
Proof.
  intros Hl Hi Hv. pose proof (lookup_lt_Some _ _ _ Hi) as Hlt.
  destruct (disassoc_then a i s Hl Hi Hv) as (a1 & s1 & E1 & L1 & (S1 & V1 & _ & B1) & _).
  unfold deauth_and_remove. rewrite E1. cbn [mbind option_bind].
  assert (a_StaConInfo a1 !! i = Some s1) as Hi1 by (rewrite S1; by rewrite list_lookup_insert_eq).
  unfold upd_sta. rewrite Hi1. cbn [mbind option_bind]. set (s2 := s1 <| s_timeout_next := STA_DEAUTH |>).
  destruct (note_loose a1 i s1 s2 i L1 Hi1 V1) as (L2 & (S2 & V2 & _ & B2) & _); [done|done|].
  set (a3 := cancel_timer (set_sta a1 i s2) (THandle i)). apply cancel_loose in L2. fold a3 in L2.
  assert (a_StaConInfo a3 !! i = Some s2) as Hi3 by (by eapply sta_at). rewrite Hi3. cbn [mbind option_bind].
  destruct (reason_loose a3 i s2 0xc0 (s_addr s2) WLAN_REASON_PREV_AUTH_NOT_VALID L2 Hi3)
    as (a4 & s4 & E4 & C4 & L4 & Hi4 & Hs4 & B4). unfold i802_sta_deauth. rewrite E4. cbn [mbind option_bind].
  destruct (base_same _ _ Hs4) as (_ & _ & V4). rewrite V2 in V4.
  destruct (station_free_ok a4 i s4 L4 Hi4 V4) as (a5 & E5 & I5 & S5 & B5).
  exists a5. split; [done|]. split; [done|]. split.
  { rewrite S5. rewrite list_lookup_insert_eq; [done|]. by eapply lookup_lt_Some. }
  split.
  - intros j Hj. rewrite S5, list_lookup_insert_ne by done. rewrite (calm_lookup _ _ j C4).
    change (a_StaConInfo a3) with (<[i := s2]> (a_StaConInfo a1)). rewrite list_lookup_insert_ne by done.
    by rewrite S1, list_lookup_insert_ne.
  - rewrite B5, B4. change (balance a3 []) with (balance (set_sta a1 i s2) []). by rewrite B2.
Qed.

(** The same for an entry that may not be in use; what is not in use is not
    touched. *)
Lemma free_any a i s : table_inv C a -> a_StaConInfo a !! i = Some s ->
  exists a', APStaInfo_free C a i = Some a' /\ table_inv C a' /\ balance a' [] ≡ₚ balance a [] /\
    a_StaConInfo a' = if valid s then <[i := APStaInfo_StaReset]> (a_StaConInfo a) else a_StaConInfo a.
Proof.
  intros Ht Hi. destruct (valid s) eqn:Hv.
  - destruct (station_free_ok a i s (table_loose a i Ht) Hi Hv) as (a' & ? & ? & ? & ?). by exists a'.
  - exists a. unfold APStaInfo_free. rewrite Hi. cbn [mbind option_bind]. change (test_sta_flag s WLAN_STA_VALID) with (valid s).
    by rewrite Hv.
Qed.
End Leave.

(** ** The timer of a station *)

Section Timer.
Context (C : ap_static) `{HC : !table_sane C}.

Lemma handle_timers_remove i j l : handle_timers j (remove_timer (THandle i) l) =
  if decide (j = i) then tail (handle_timers j l) else handle_timers j l.
Proof.
  induction l as [|p l IH]; [by case_decide|]. cbn [remove_timer]. unfold handle_timers in *. case_bool_decide as Hp.
  - rewrite filter_cons. case_decide as Hj.
    + subst j. rewrite decide_True by done. done.
    + rewrite decide_False; [done|]. congruence.
  - rewrite !filter_cons. destruct (decide (p.1 = THandle j)) as [Hpj|]; [|done]. rewrite IH.
    case_decide as Hj; [|done]. subst j. done.
Qed.

Lemma calm_timers a a' i : calm a a' -> handle_timers i (a_timers a') = handle_timers i (a_timers a).
Proof.
  intros Hc. rewrite <- handle_timers_core, <- (handle_timers_core i (a_timers a)). apply (f_equal a_timers) in Hc.
  change (a_timers (ap_base ?a)) with (filter (fun p => p.1 <> TCleanup) (a_timers a)) in Hc. by rewrite Hc.
Qed.

(** The operation returns, keeps the invariant and every frame. *)
Definition settles (a : ApInfo) (r : option ApInfo) : Prop :=
  exists a', r = Some a' /\ table_inv C a' /\ balance a' [] ≡ₚ balance a [] /\ ages (a_StaConInfo a) (a_StaConInfo a').

Lemma free_settles a i s : loose C i a -> a_StaConInfo a !! i = Some s -> valid s = true -> settles a (APStaInfo_free C a i).
Proof.
  intros Hl Hi Hv. destruct (station_free_ok C a i s Hl Hi Hv) as (a' & ? & ? & S & ?). exists a'. split_and!; try done.
  rewrite S. apply (ages_insert _ _ s); [done|by left].
Qed.

Lemma start_settles a b i s ms : loose C i b -> a_StaConInfo b !! i = Some s -> valid s = true ->
  handle_timers i (a_timers b) = [] -> balance b [] ≡ₚ balance a [] -> ages (a_StaConInfo a) (a_StaConInfo b) ->
  settles a (Some (start_timer b (THandle i) ms)).
Proof. intros Hl Hi Hv Ht Hb Ha. eexists. split; [done|]. split; [by eapply start_loose|done]. Qed.

Lemma settles_from a b r : balance b [] ≡ₚ balance a [] -> ages (a_StaConInfo a) (a_StaConInfo b) ->
  settles b r -> settles a r.
Proof. intros Hb Ha (a' & ? & ? & B & A). exists a'. split_and!; try done; [by rewrite B|by etrans]. Qed.

(** The state after a frame was sent from the timer *)
Lemma timer_next_ok a i s : loose C i a -> a_StaConInfo a !! i = Some s -> valid s = true ->
  handle_timers i (a_timers a) = [] -> s_timeout_next s <> STA_REMOVE -> settles a (handle_timer_next C a i).
Proof.
  intros Hl Hi Hv Hn Hr. unfold handle_timer_next. rewrite Hi. cbn [mbind option_bind].
  assert (exists fc reason, match s_timeout_next s with STA_REMOVE => Some a
      | STA_DEAUTH => i802_sta_deauth C a (s_addr s) WLAN_REASON_PREV_AUTH_NOT_VALID
      | _ => i802_sta_disassoc C a (s_addr s) WLAN_REASON_DISASSOC_DUE_TO_INACTIVITY end
    = send_reason C a fc (s_addr s) reason) as (fc & reason & ->) by (destruct (s_timeout_next s); try done; by eexists _, _).
  destruct (reason_loose C a i s fc (s_addr s) reason Hl Hi) as (a1 & s1 & -> & C1 & L1 & Hi1 & Hs1 & B1).
  cbn [mbind option_bind]. pose proof (calm_timers _ _ i C1) as T1. rewrite Hn in T1.
  destruct (base_same _ _ Hs1) as (_ & _ & V1). rewrite Hv in V1. apply (settles_from a a1 _ B1 (calm_ages _ _ C1)).
  destruct (s_timeout_next s); [..|done].
  - unfold upd_sta. rewrite Hi1. cbn [mbind option_bind]. set (s2 := s1 <| s_timeout_next := STA_DISASSOC |>).
    destruct (note_loose C a1 i s1 s2 i L1 Hi1 V1) as (L2 & (S2 & V2 & [_ G2] & B2) & _); [done|done|].
    eapply start_settles; [done|by eapply sta_at|done|done|done|done].
  - destruct (disassoc_then C a1 i s1 L1 Hi1 V1) as (a2 & s2 & -> & L2 & (S2 & V2 & [_ G2] & B2) & T2). cbn [mbind option_bind].
    assert (a_StaConInfo a2 !! i = Some s2) as Hi2
      by (rewrite S2; rewrite list_lookup_insert_eq by (by eapply lookup_lt_Some); done).
    unfold upd_sta. rewrite Hi2. cbn [mbind option_bind]. set (s3 := s2 <| s_timeout_next := STA_DEAUTH |>).
    destruct (note_loose C a2 i s2 s3 i L2 Hi2 V2) as (L3 & (S3 & V3 & [_ G3] & B3) & _); [done|done|].
    eapply start_settles; [done|by eapply sta_at|done| |by rewrite B3|by etrans].
    change (a_timers (set_sta a2 i s3)) with (a_timers a2). by rewrite T2.
  - by eapply free_settles.
Qed.

Lemma timer_check_next a s : s_timeout_next s <> STA_REMOVE -> (handle_timer_check C a s).1 <> STA_REMOVE.
Proof. intros Hr. unfold handle_timer_check. repeat (case_match; simplify_eq/=; try done). Qed.

Lemma kept_loose a b k : loose C k a -> kept a b -> counters b = counters a -> loose C k b.
Proof.
  intros [[[Lp Ls] Lc Lsh] Lt] Hk Hc. pose proof Hk as (K1 & K2 & K3 & K4 & K5 & K6 & K7 & K8).
  split; [split; [split|..]|].
  - by eapply kept_pool.
  - by rewrite K6, K1.
  - by rewrite Hc, K1.
  - by rewrite K7, K1.
  - intros j Hj t. rewrite K1, K8. by apply Lt.
Qed.

(** A poll is noted in the station. *)
Lemma poll_marks s s' n : s' = set_sta_flag s WLAN_STA_PENDING_POLL \/
  s' = (set_sta_flag s WLAN_STA_PENDING_POLL) <| s_arp_retry_count := n |> -> same_marks s s'.
Proof.
  intros Hs.
  assert (forall k, 0 <= k -> k <> 7 -> test_sta_flag s' (BIT k) = test_sta_flag s (BIT k)) as Hf.
  { intros k Hk H7. assert (s_flags s' = Z.lor (s_flags s) (BIT 7)) as E by (by destruct Hs as [-> | ->]).
    unfold test_sta_flag. rewrite E, BIT_bit, bool_decide_false by lia. by rewrite orb_false_r. }
  split_and!; try (by destruct Hs as [-> | ->]); [by apply (Hf 17)|]. unfold counted_by. cbn [map].
  unfold valid, authorized, WLAN_STA_VALID, WLAN_STA_AUTHORIZED. rewrite (Hf 0), (Hf 6) by lia. by destruct Hs as [-> | ->].
Qed.

Lemma poll_settles a i s s' n b ms : loose C i a -> a_StaConInfo a !! i = Some s -> valid s = true ->
  handle_timers i (a_timers a) = [] ->
  s' = set_sta_flag s WLAN_STA_PENDING_POLL \/
    s' = (set_sta_flag s WLAN_STA_PENDING_POLL) <| s_arp_retry_count := n |> ->
  kept (set_sta a i s') b -> a_timers b = a_timers a -> counters b = counters a ->
  settles a (Some (start_timer b (THandle i) ms)).
Proof.
  intros Hl Hi Hv Hn Hs Hk Ht Hc. destruct (note_loose C a i s s' i Hl Hi Hv (poll_marks _ _ _ Hs)) as (L2 & (S2 & V2 & [_ G2] & B2) & _);
    [by destruct Hs as [-> | ->]|].
  eapply (start_settles a b i s'); [by eapply kept_loose| |done|by rewrite Ht|by rewrite (kept_balance _ _ _ Hk)|].
  2:{ destruct Hk as (-> & _). exact G2. }
  assert (a_StaConInfo b = a_StaConInfo (set_sta a i s')) as -> by apply Hk. by eapply sta_at.
Qed.

Lemma handle_timer_ok av a i s : loose C i a -> a_StaConInfo a !! i = Some s ->
  handle_timers i (a_timers a) = [] -> settles a (ap_handle_timer C av a i).
Proof.
  intros Hl Hi Hn. unfold ap_handle_timer. rewrite Hi. cbn [mbind option_bind].
  change (test_sta_flag s WLAN_STA_VALID) with (valid s). destruct (valid s) eqn:Hv; cbn [negb].
  2:{ exists a. split; [done|]. split; [|split; [done|done]]. apply (loose_table C a i Hl). intros t Ht. assert (t = s) as -> by congruence.
      by rewrite Hn, Hv. }
  case_bool_decide as Hr; [by eapply free_settles|]. destruct av; cbn [negb]; [|by eapply start_settles].
  pose proof (timer_check_next a s Hr) as Hr'. destruct (handle_timer_check C a s) as [next time]. cbn [fst] in Hr'.
  set (s1 := s <| s_timeout_next := next |>).
  destruct (note_loose C a i s s1 i Hl Hi Hv) as (L1 & (S1 & V1 & [_ G1] & B1) & _); [done|done|].
  pose proof (sta_at a i s s1 Hi) as Hi1. apply (settles_from a _ _ B1 G1).
  destruct (negb (time =? 0)); [by eapply start_settles|].
  destruct (_ && _); [|by eapply timer_next_ok].
  cbv zeta. destruct (_ <=? STA_TIMEOUT_RETRY_COUNT).
  - eapply poll_settles; [done|done|done|done|by right|by apply kept_emit|done|done].
  - eapply (poll_settles _ _ _ _ 0); [done|done|done|done|by left|done|done|done].
Qed.
End Timer.

(** ** A station arrives *)

Lemma first_zero_Some n w j k : first_zero n w j = Some k ->
  (j <= k < j + n)%nat /\ has w (BIT (Z.of_nat k)) = false /\
  forall m, (j <= m < k)%nat -> has w (BIT (Z.of_nat m)) = true.
Proof.
  revert j. induction n as [|n IH]; intros j; cbn [first_zero]; [done|].
  destruct (has w (BIT (Z.of_nat j))) eqn:E.
  - intros (? & ? & H)%IH. split; [lia|]. split; [done|]. intros m Hm. destruct (decide (m = j)) as [->|]; [done|]. apply H. lia.
  - intros [= <-]. split; [lia|]. split; [done|]. lia.
Qed.

Lemma first_zero_None n w j : first_zero n w j = None -> forall m, (j <= m < j + n)%nat -> has w (BIT (Z.of_nat m)) = true.
Proof.
  revert j. induction n as [|n IH]; intros j; cbn [first_zero]; [lia|].
  destruct (has w (BIT (Z.of_nat j))) eqn:E; [|done]. intros H m Hm.
  destruct (decide (m = j)) as [->|]; [done|]. apply (IH _ H). lia.
Qed.

Lemma find_free_Some i l j : find_free i l = Some j -> exists k s, j = (i + k)%nat /\ l !! k = Some s /\ valid s = false.
Proof.
  revert i. induction l as [|s l IH]; intros i; cbn [find_free]; [done|]. change (test_sta_flag s WLAN_STA_VALID) with (valid s).
  destruct (valid s) eqn:Ev.
  - intros (k & t & -> & Hk & Ht)%IH. exists (S k), t. split; [lia|done].
  - intros [= <-]. exists 0%nat, s. split; [lia|done].
Qed.

Lemma find_free_None i l : find_free i l = None -> forall k s, l !! k = Some s -> valid s = true.
Proof.
  revert i. induction l as [|s l IH]; intros i; cbn [find_free]; [done|]. change (test_sta_flag s WLAN_STA_VALID) with (valid s).
  destruct (valid s) eqn:Ev; [|done]. intros H [|k] t Ht; [by injection Ht as <-|]. by apply (IH _ H k).
Qed.

Lemma find_idle_spec i del max l j : find_idle i del max l = Some j ->
  del = Some j \/ exists k s, j = (i + k)%nat /\ l !! k = Some s /\ STA_TIMEOUT_RETRY_COUNT < s_arp_retry_count s.
Proof.
  revert i del max. induction l as [|s l IH]; intros i del max; cbn [find_idle]; [by left|].
  destruct (_ && _) eqn:E.
  - intros [H|(k & t & -> & Hk & Ht)]%IH.
    + injection H as <-. right. exists 0%nat, s. split; [lia|]. split; [done|]. lia.
    + right. exists (S k), t. split; [lia|done].
  - intros [H|(k & t & -> & Hk & Ht)]%IH; [by left|]. right. exists (S k), t. split; [lia|done].
Qed.

Section Arrive.
Context (C : ap_static) `{HC : !table_sane C}.
Local Notation P := (AP_TOTAL_MAX_TX_BUFFER C).

(** An entry that is not in use has no silent station. *)
Lemma silent_valid a i s : table_inv C a -> a_StaConInfo a !! i = Some s ->
  STA_TIMEOUT_RETRY_COUNT < s_arp_retry_count s -> valid s = true.
Proof.
  intros [[_ _ Hs] _] Hi Hr. destruct (valid s) eqn:Hv; [done|]. pose proof (sh_blank _ _ Hs i s Hi Hv) as Hw.
  apply (f_equal s_arp_retry_count) in Hw.
  change (s_arp_retry_count (forgotten (sta_base s))) with (if valid s then 0 else s_arp_retry_count s) in Hw. rewrite Hv in Hw.
  change (s_arp_retry_count s = 0) in Hw. unfold STA_TIMEOUT_RETRY_COUNT in Hr. lia.
Qed.

(** Making room removes at most stations, none with another address appears. *)
Definition thins (a a' : ApInfo) : Prop :=
  balance a' [] ≡ₚ balance a [] /\ ages (a_StaConInfo a) (a_StaConInfo a') /\
  forall j t, a_StaConInfo a' !! j = Some t -> valid t = true ->
    exists s, a_StaConInfo a !! j = Some s /\ sta_base t = sta_base s.

Lemma removed_ages i a a' : removed i a a' -> ages (a_StaConInfo a) (a_StaConInfo a').
Proof.
  intros (Hi & Hj & _) j t Ht. destruct (decide (j = i)) as [->|Hne].
  - left. rewrite Hi in Ht. apply (inj Some) in Ht. by rewrite <- Ht.
  - specialize (Hj j Hne). rewrite Ht in Hj. destruct (a_StaConInfo a !! j) as [s|] eqn:E; [|done]. apply (inj Some) in Hj.
    right. exists s. split; [done|]. split; [by apply (f_equal s_wpa_sm) in Hj|]. apply (f_equal s_assocRsp) in Hj.
    change (s_assocRsp (sta_base ?s)) with (s_assocRsp s) in Hj. congruence.
Qed.

Lemma removed_thins i a a' : removed i a a' -> thins a a'.
Proof.
  intros Hr. pose proof Hr as (Hi & Hj & Hb). split; [done|]. split; [by eapply removed_ages|].
  intros j t Ht Hv. destruct (decide (j = i)) as [->|Hne].
  - rewrite Hi in Ht. by injection Ht as <-.
  - specialize (Hj j Hne). rewrite Ht in Hj. destruct (a_StaConInfo a !! j) as [s|]; [|done]. exists s. split; [done|].
    by apply (inj Some) in Hj.
Qed.

Lemma sta_make_room_ok a : table_inv C a -> exists a1 a2, make_room_first C a = Some a1 /\ make_room_full C a1 = Some a2 /\
  table_inv C a2 /\ thins a a2.
Proof.
  intros Ht. pose proof (pi_sta _ _ _ _ _ (pw_pool _ _ (ti_power _ _ (ti_entries _ _ Ht)))) as Hlen.
  pose proof (@sane_some C _) as Hsome.
  assert (exists a1, make_room_first C a = Some a1 /\ table_inv C a1 /\ thins a a1) as (a1 & E1 & T1 & H1).
  { unfold make_room_first. destruct (a_StaConInfo a !! 0%nat) as [s|] eqn:Hi; [|apply lookup_ge_None in Hi; lia].
    cbn [mbind option_bind]. destruct (Z.ltb_spec STA_TIMEOUT_RETRY_COUNT (s_arp_retry_count s)) as [Hr|].
    - destruct (sta_remove_ok C a 0 s (table_loose C a 0 Ht) Hi (silent_valid a 0 s Ht Hi Hr)) as (a1 & E & T & R).
      exists a1. split; [done|]. split; [done|]. by eapply removed_thins.
    - exists a. split; [done|]. split; [done|]. split; [done|]. split; [done|]. intros j t Hj _. by exists t. }
  assert (exists a2, make_room_full C a1 = Some a2 /\ table_inv C a2 /\ thins a1 a2) as (a2 & E2 & T2 & H2).
  { assert (thins a1 a1) as Hid by (split; [done|]; split; [done|]; intros j t Hj _; by exists t).
    unfold make_room_full. destruct (_ <=? _); [|by exists a1]. destruct (find_idle 0 None 0 _) as [i|] eqn:Ef; [|by exists a1].
    apply find_idle_spec in Ef as [?|(k & s & -> & Hk & Hr)]; [done|]. cbn [Nat.add].
    destruct (sta_remove_ok C a1 k s (table_loose C a1 k T1) Hk (silent_valid a1 k s T1 Hk Hr)) as (a2 & E & T & R).
    exists a2. split; [done|]. split; [done|]. by eapply removed_thins. }
  exists a1, a2. split; [done|]. split; [done|]. split; [done|]. destruct H1 as (B1 & A1 & M1), H2 as (B2 & A2 & M2).
  split; [by rewrite B2|]. split; [by etrans|]. intros j t Hj Hv. destruct (M2 j t Hj Hv) as (u & Hu & Htu).
  destruct (base_same _ _ Htu) as (_ & _ & Hvu). destruct (M1 j u Hu ltac:(congruence)) as (s & Hs & Hus).
  exists s. split; [done|]. congruence.
Qed.

(** The new entry: blank but for the flag, the address and the index *)
Definition newcomer (s : APStaInfo) (w : Z) (addr : list Z) : APStaInfo :=
  (set_sta_flag s WLAN_STA_VALID) <| s_wsid_idx := w |> <| s_addr := addr |>.

Lemma newcomer_marks s w addr : blank s -> let s' := newcomer s w addr in
  valid s' = true /\ sleeping s' = sleeping s /\ s_aid s' = 0 /\
  map (fun p : APStaInfo -> bool => p s') (drop 1 counted_by) = map (fun p => p s) (drop 1 counted_by).
Proof.
  intros Hb s'. split; [by apply (flag_set_same s 0)|]. split; [by apply (flag_set_other s WLAN_STA_VALID 17)|].
  split; [by apply (blank_aid s)|]. unfold counted_by. cbn [drop map]. apply (f_equal2 cons); [|done].
  by apply (flag_set_other s WLAN_STA_VALID 6).
Qed.

(** The access point after [APStaInfo_GetNewSta] and the rest of [APStaInfo_add] *)
Definition entered (a : ApInfo) (i : nat) (s : APStaInfo) (addr : list Z) : ApInfo :=
  set_sta (start_timer (a <| a_n_wsid := S (a_n_wsid a) |> <| a_num_sta := u8 (a_num_sta a + 1) |>)
             (THandle i) (AP_MAX_INACTIVITY C)) i (newcomer s (st_ava_wsid C (a_n_wsid a)) addr).

Lemma entered_ok a i s addr : table_inv C a -> a_StaConInfo a !! i = Some s -> valid s = false ->
  (forall j t, a_StaConInfo a !! j = Some t -> valid t = true -> s_addr t <> addr) ->
  table_inv C (entered a i s addr) /\ balance (entered a i s addr) [] = balance a [].
Proof.
  intros [He Ht] Hi Hv Hnew. pose proof (lookup_lt_Some _ _ _ Hi) as Hlt. pose proof (@sane_bitmap C _) as Hmax.
  pose proof (pi_sta _ _ _ _ _ (pw_pool _ _ (ti_power _ _ He))) as Hlen.
  pose proof (sh_blank _ _ (ti_shape _ _ He) i s Hi Hv) as Hb.
  set (w := st_ava_wsid C (a_n_wsid a)). destruct (newcomer_marks s w addr Hb) as (V & Sl & A & M).
  set (s' := newcomer s w addr) in *. set (a' := entered a i s addr).
  assert (a_StaConInfo a' = <[i := s']> (a_StaConInfo a)) as S by done.
  pose proof (f_equal (fun l => l !! 0%nat) (ti_counts _ _ He)) as Hc. cbn in Hc. injection Hc as Hc.
  pose proof (count_insert valid _ i s s' Hi) as Hc'. rewrite Hv, V in Hc'. cbn [Z.b2z] in Hc'.
  pose proof (count_nonneg valid (<[i := s']> (a_StaConInfo a))) as Hn. rewrite length_insert in Hn.
  pose proof (count_nonneg valid (a_StaConInfo a)) as Hn'.
  split; [split|].
  - apply (entries_update C a a' i s s' He Hi S).
    + assert (0 <= s_aid s' <= Z.of_nat (st_gMaxAID C)) as Ha by lia.
      apply (pool_inv_entry C P _ i s); [done|done|exact Ha|unfold valid in Hv; congruence|].
      apply (pool_inv_same C P a); try done. apply (ti_power _ _ He).
    + change (a_num_sta_ps a') with (a_num_sta_ps a). rewrite Sl. lia.
    + change (counters a') with (u8 (a_num_sta a + 1) :: drop 1 (counters a)). unfold counted_by in M. cbn [drop map] in M.
      injection M as M1. unfold counters, counted_by. cbn [drop zip_with]. rewrite M1, Hv, V, u8_small by lia. cbn [Z.b2z].
      repeat (apply (f_equal2 cons); [first [lia | match goal with |- _ = _ - ?x + ?y => change y with x; lia end]|]). done.
    + change (a_sta_aid a') with (a_sta_aid a).
      apply (shape_insert (a_sta_aid a) _ _ i s); [apply (ti_shape _ _ He)|done|congruence|..].
      * intros j t Hj Hjt Hvt _ Heq. by apply (Hnew j t Hjt Hvt).
      * intros j t _ _ Hpos. rewrite A in Hpos. lia.
      * intros k Hk. rewrite A. rewrite (blank_aid _ Hb). intuition lia.
  - intros j t. rewrite S. change (a_timers a') with (a_timers a ++ [(THandle i, AP_MAX_INACTIVITY C)]).
    rewrite handle_timers_app, length_app. destruct (decide (j = i)) as [->|Hj].
    + rewrite list_lookup_insert_eq by done. intros [= <-]. rewrite V, (Ht i s Hi), Hv. unfold handle_timers.
      by rewrite filter_cons_True.
    + rewrite list_lookup_insert_ne by done. intros Hjt. rewrite (Ht j t Hjt). unfold handle_timers.
      rewrite filter_cons_False by (cbn; congruence). cbn [filter list_filter length]. lia.
  - unfold a', entered. by erewrite balance_sta; [|exact Hi|].
Qed.

Lemma entered_eq a i s addr : find_free 0 (a_StaConInfo a) = Some i -> a_StaConInfo a !! i = Some s ->
  enter_station C a addr = Some (Some i, entered a i s addr).
Proof.
  intros Hf Hi. unfold enter_station, APStaInfo_GetNewSta. rewrite Hf. cbn [mbind option_bind]. rewrite Hi. cbn [mbind option_bind]. cbv zeta.
  set (s1 := (set_sta_flag s WLAN_STA_VALID) <| s_wsid_idx := _ |>).
  set (b := a <| a_n_wsid := S (a_n_wsid a) |>).
  unfold upd_sta. change (a_StaConInfo (start_timer (set_sta b i s1) ?t ?ms)) with (a_StaConInfo (set_sta b i s1)).
  rewrite (sta_at b i s s1 Hi). cbn [mbind option_bind]. f_equal. f_equal.
  change (start_timer (set_sta b i s1) (THandle i) (AP_MAX_INACTIVITY C))
    with (set_sta (start_timer b (THandle i) (AP_MAX_INACTIVITY C)) i s1). rewrite set_sta_idem. reflexivity.
Qed.

(** [APStaInfo_add]: the station has an entry, or the table is full. *)
Lemma add_ok a addr : table_inv C a ->
  exists r a', APStaInfo_add C a addr = Some (r, a') /\ table_inv C a' /\ balance a' [] ≡ₚ balance a [] /\
    ages (a_StaConInfo a) (a_StaConInfo a') /\
    match r with
    | Some i => exists s, a_StaConInfo a' !! i = Some s /\ valid s = true /\ s_addr s = addr
    | None => forall i s, a_StaConInfo a' !! i = Some s -> valid s = true /\ s_addr s <> addr
    end.
Proof.
  intros Ht. unfold APStaInfo_add. destruct (APStaInfo_FindStaByAddr a addr) as [i|] eqn:Ef.
  { apply FindSta_Some in Ef as (s & Hi & Hv & Ha). exists (Some i), a. split_and!; try done. by exists s. }
  destruct (sta_make_room_ok a Ht) as (a1 & a2 & -> & E2 & T2 & (B2 & A2 & M2)). cbn [mbind option_bind]. rewrite E2. cbn [mbind option_bind].
  assert (forall j t, a_StaConInfo a2 !! j = Some t -> valid t = true -> s_addr t <> addr) as Hnew.
  { intros j t Hj Hvt Hat. destruct (M2 j t Hj Hvt) as (u & Hu & Htu). destruct (base_same _ _ Htu) as (_ & Hau & Hvu).
    unfold APStaInfo_FindStaByAddr in Ef. apply (Forall_lookup_1 _ _ _ _ (find_sta_None _ _ _ Ef) Hu); unfold valid in *; congruence. }
  destruct (find_free 0 (a_StaConInfo a2)) as [i|] eqn:Eff.
  - pose proof (find_free_Some _ _ _ Eff) as (k & s & -> & Hk & Hv). cbn [Nat.add] in *.
    rewrite (entered_eq a2 k s addr Eff Hk). destruct (entered_ok a2 k s addr T2 Hk Hv Hnew) as [T3 B3].
    eexists _, _. split; [done|]. split; [done|]. split; [by rewrite B3|].
    split; [etrans; [exact A2|by apply (ages_insert _ k s); [|right]]|].
    eexists. split; [by eapply sta_at|]. split; [|done]. apply newcomer_marks. by apply (sh_blank _ _ (ti_shape _ _ (ti_entries _ _ T2)) k).
  - unfold enter_station, APStaInfo_GetNewSta. rewrite Eff. cbn [mbind option_bind]. eexists _, _. split; [done|]. split; [done|]. split; [done|].
    split; [done|]. intros i s Hi. pose proof (find_free_None _ _ Eff i s Hi) as Hv. split; [done|]. by apply (Hnew i).
Qed.

(** Fewer AIDs than stations are given out when one station has none. *)
Lemma aid_free a i s : entries_inv C a -> a_StaConInfo a !! i = Some s -> s_aid s = 0 ->
  exists j, first_zero 32 (a_sta_aid a) 0 = Some j /\ (j < st_gMaxAID C)%nat.
Proof.
  intros He Hi H0. pose proof (@sane_bitmap C _) as Hmax.
  pose proof (pi_sta _ _ _ _ _ (pw_pool _ _ (ti_power _ _ He))) as Hlen.
  assert (~ forall m, (m < st_gMaxAID C)%nat -> has (a_sta_aid a) (BIT (Z.of_nat m)) = true) as Hall.
  { intros Hall. assert (seq 0 (S (st_gMaxAID C)) ⊆+ map (fun s => Z.to_nat (s_aid s)) (a_StaConInfo a)) as Hsub.
    { apply NoDup_submseteq; [apply NoDup_seq|]. intros m Hm. apply elem_of_seq in Hm. apply list_elem_of_fmap.
      destruct m as [|m]; [exists s; split; [by rewrite H0|by eapply list_elem_of_lookup_2]|].
      assert (has (a_sta_aid a) (BIT (Z.of_nat m)) = true) as Hb by (apply Hall; lia).
      apply (sh_bitmap _ _ (ti_shape _ _ He)) in Hb as (j & t & Hj & Ht); [|lia].
      exists t. split; [lia|by eapply list_elem_of_lookup_2]. }
    apply submseteq_length in Hsub. rewrite length_seq, length_map in Hsub. lia. }
  destruct (first_zero 32 (a_sta_aid a) 0) as [j|] eqn:Ej.
  - exists j. split; [done|]. apply first_zero_Some in Ej as (Hj & _ & Hbelow).
    destruct (Nat.ltb_spec j (st_gMaxAID C)); [done|]. exfalso. apply Hall. intros m Hm. apply Hbelow. lia.
  - exfalso. apply Hall. intros m Hm. apply (first_zero_None _ _ _ Ej). lia.
Qed.

(** [hostapd_get_aid] succeeds: the station has an AID that the map of the
    beacon has room for, and no other station has it. *)
Lemma aid_ok a i s k : loose C k a -> a_StaConInfo a !! i = Some s -> valid s = true ->
  exists a' s', hostapd_get_aid C a i = Some (true, a') /\ loose C k a' /\ a_StaConInfo a' = <[i := s']> (a_StaConInfo a) /\
    1 <= s_aid s' <= Z.of_nat (st_gMaxAID C) /\ s_flags s' = s_flags s /\ s_addr s' = s_addr s /\
    s_supported_rates s' = s_supported_rates s /\
    s' = s <| s_aid := s_aid s' |> /\
    balance a' [] = balance a [] /\ forall j, handle_timers j (a_timers a') = handle_timers j (a_timers a).
Proof.
  intros [He Ht] Hi Hv. pose proof (lookup_lt_Some _ _ _ Hi) as Hlt.
  destruct (get_sta _ _ _ _ _ _ _ (pw_pool _ _ (ti_power _ _ He)) Hi) as [_ Haid].
  unfold hostapd_get_aid. rewrite Hi. cbn [mbind option_bind]. destruct (Z.ltb_spec 0 (s_aid s)) as [Hp|Hz].
  { exists a, s. split; [done|]. split; [done|]. split; [by rewrite list_insert_id|]. split; [lia|].
    do 3 (split; [done|]). split; [by destruct s|done]. }
  destruct (aid_free a i s He Hi) as (j & Ej & Hj); [lia|]. rewrite Ej. set (s' := s <| s_aid := Z.of_nat j + 1 |>).
  set (b := a <| a_sta_aid := _ |>). exists (set_sta b i s'), s'. split; [done|].
  apply first_zero_Some in Ej as (_ & Hfree & _).
  assert (a_StaConInfo (set_sta b i s') = <[i := s']> (a_StaConInfo a)) as S by done.
  split; [split|].
  - apply (entries_update C a _ i s s' He Hi S).
    + apply (pool_inv_entry C P b i s); [done|done|change (s_aid s') with (Z.of_nat j + 1); lia|done|].
      apply (pool_inv_same C P a); try done. apply (ti_power _ _ He).
    + change (sleeping s') with (sleeping s). change (a_num_sta_ps (set_sta b i s')) with (a_num_sta_ps a). lia.
    + change (counters (set_sta b i s')) with (counters a). unfold counters, counted_by. cbn [zip_with].
      repeat (apply (f_equal2 cons); [match goal with |- _ = _ - ?x + ?y => change y with x; lia end|]). done.
    + change (a_sta_aid (set_sta b i s')) with (Z.lor (a_sta_aid a) (BIT (Z.of_nat j))).
      apply (shape_insert (a_sta_aid a) _ _ i s); [apply (ti_shape _ _ He)|done|change (valid s') with (valid s); congruence|..].
      * intros n t Hn Hnt Hvt _ Heq. apply Hn. by apply (sh_addr _ _ (ti_shape _ _ He) n i t s).
      * intros n t Hn Hnt _ Heq. change (s_aid s') with (Z.of_nat j + 1) in Heq.
        assert (has (a_sta_aid a) (BIT (Z.of_nat j)) = true); [|congruence].
        apply (sh_bitmap _ _ (ti_shape _ _ He)); [lia|]. exists n, t. split; [done|lia].
      * intros m Hm. rewrite BIT_bit, orb_true_iff, bool_decide_eq_true by lia. change (s_aid s') with (Z.of_nat j + 1).
        intuition lia.
  - intros n Hn. apply (timed_insert a _ i s s' n Hi S); [done|done|by apply Ht].
  - split; [done|]. change (s_aid s') with (Z.of_nat j + 1). split; [lia|]. do 3 (split; [done|]). split; [done|].
    split; [|done]. by erewrite balance_sta; [|exact Hi|].
Qed.

(** ** Loops over the table *)

(** Every frame is kept, no machine is started. *)
Definition spared (a a' : ApInfo) : Prop := balance a' [] ≡ₚ balance a [] /\ ages (a_StaConInfo a) (a_StaConInfo a').

#[export] Instance spared_preorder : PreOrder spared.
Proof.
  split; [by intros a|]. intros a b c [B1 A1] [B2 A2]. split; [by rewrite B2|by etrans].
Qed.

Lemma for_stations_ok f n a : (n <= st_gMaxAID C)%nat ->
  (forall a i s, table_inv C a -> a_StaConInfo a !! i = Some s ->
     exists a', f a i = Some a' /\ table_inv C a' /\ spared a a' /\
       (forall t, a_StaConInfo a' !! i = Some t -> valid t = false) /\
       forall j t, j <> i -> a_StaConInfo a' !! j = Some t -> exists u, a_StaConInfo a !! j = Some u /\ valid t = valid u) ->
  table_inv C a -> exists a', for_stations f (seq 0 n) a = Some a' /\ table_inv C a' /\ spared a a' /\
    forall j t, (j < n)%nat -> a_StaConInfo a' !! j = Some t -> valid t = false.
Proof.
  intros Hn Hf Ht.
  assert (forall m k a, (k + m <= st_gMaxAID C)%nat -> table_inv C a ->
    (forall j t, (j < k)%nat -> a_StaConInfo a !! j = Some t -> valid t = false) ->
    exists a', for_stations f (seq k m) a = Some a' /\ table_inv C a' /\ spared a a' /\
      forall j t, (j < k + m)%nat -> a_StaConInfo a' !! j = Some t -> valid t = false) as Hloop.
  { clear a Hn Ht. intros m. induction m as [|m IH]; intros k a Hk Ht Hb.
    - exists a. split; [done|]. split; [done|]. split; [done|]. intros j t Hj. apply Hb. lia.
    - cbn [seq for_stations]. pose proof (pi_sta _ _ _ _ _ (pw_pool _ _ (ti_power _ _ (ti_entries _ _ Ht)))) as Hlen.
      destruct (lookup_lt_is_Some_2 (a_StaConInfo a) k) as [s Hs]; [lia|].
      destruct (Hf a k s Ht Hs) as (a1 & -> & T1 & B1 & V1 & O1). cbn [mbind option_bind].
      destruct (IH (S k) a1) as (a2 & E2 & T2 & B2 & V2); [lia|done| |].
      + intros j t Hj Hjt. destruct (decide (j = k)) as [->|Hne]; [by apply V1|].
        destruct (O1 j t Hne Hjt) as (u & Hu & ->). apply (Hb j u); [lia|done].
      + exists a2. split; [done|]. split; [done|]. split; [by etrans|]. intros j t Hj. apply V2. lia. }
  destruct (Hloop n 0%nat a) as (a' & ? & ? & ? & ?); [lia|done|lia|]. by exists a'.
Qed.

(** No entry in use: every counter is 0 and no AID is given out. *)
Lemma table_empty a : table_inv C a -> (forall j t, a_StaConInfo a !! j = Some t -> valid t = false) ->
  counters a = replicate 8 0 /\ forall k, 0 <= k -> has (a_sta_aid a) (BIT k) = false.
Proof.
  intros [[Hp Hc Hs] _] Hv.
  assert (forall j t, a_StaConInfo a !! j = Some t -> blank t) as Hb by (intros j t Hj; apply (sh_blank _ _ Hs j t Hj); by apply (Hv j)).
  split.
  - rewrite Hc. unfold counts, counted_by. cbn [map replicate].
    assert (forall p : APStaInfo -> bool, (forall t, blank t -> p t = false) -> count p (a_StaConInfo a) = 0) as Hz.
    { intros p Hp0. unfold count. assert (List.filter p (a_StaConInfo a) = []) as ->; [|done].
      assert (Forall blank (a_StaConInfo a)) as Hall by (apply Forall_lookup_2; exact Hb).
      clear -Hall Hp0. induction Hall as [|t l Ht _ IH]; [done|]. cbn [List.filter]. by rewrite (Hp0 t Ht). }
    repeat (apply (f_equal2 cons); [apply Hz; intros t Hw|]); try done.
    + rewrite <- base_valid. apply (f_equal valid) in Hw. exact Hw.
    + unfold authorized, WLAN_STA_AUTHORIZED. rewrite <- (base_flag t 6) by lia. apply (f_equal authorized) in Hw. exact Hw.
    + by apply (f_equal s_nonerp_set) in Hw.
    + by apply (f_equal s_no_short_preamble_set) in Hw.
    + by apply (f_equal s_no_short_slot_time_set) in Hw.
    + by apply (f_equal s_no_ht_gf_set) in Hw.
    + by apply (f_equal s_no_ht_set) in Hw.
    + by apply (f_equal s_ht_20mhz_set) in Hw.
  - intros k Hk. apply not_true_iff_false. intros Hbit. apply (sh_bitmap _ _ Hs k Hk) in Hbit as (i & s & Hi & Ha).
    rewrite (blank_aid s (Hb i s Hi)) in Ha. lia.
Qed.
End Arrive.
