(* ===== verification/ApStaRun.v ===== *)
(** * ApStaRun: runs of the table of stations

    The operations on the table in any order, interleaved with those of the data
    path: stations are entered, given an AID, removed by the host, by their timer
    or for lack of room, while their frames come and go.  A run never faults and
    keeps the invariant of [ApStaInv]. *)

From stdpp Require Import base list option.
From Stdlib Require Import ZArith Lia ZifyNat.
From S2P Require Import Prelude Words Wire WpaIe WpaAuth Reorder ApInfo ApElem ApPower ApPowerInv ApSta ApPath ApStaInv.

(** ** Steps *)

Inductive sta_op :=
| StaPath (op : path_op)
| StaAdd (addr : list Z)                     (* authentication of a station *)
| StaAid (addr : list Z)                     (* an AID for a station *)
| StaTimer (available : bool) (i : nat)      (* the timer of station i expires *)
| StaRemove (hwaddr : list Z)
| StaRemoveAll
| StaRelease.

(** One operation: the frames it took over, and the state after it.  The timer
    task calls the handler of a timer that is pending. *)
Definition sta_step (C : ap_static) (a : ApInfo) (op : sta_op) : option (list nat * ApInfo) :=
  match op with
  | StaPath op => path_step C a op
  | StaAdd addr => '(_, a) ← APStaInfo_add C a addr; Some ([], a)
  | StaAid addr =>
      match APStaInfo_FindStaByAddr a addr with
      | Some i => '(_, a) ← hostapd_get_aid C a i; Some ([], a)
      | None => Some ([], a)
      end
  | StaTimer available i =>
      if bool_decide (handle_timers i (a_timers a) = []) then Some ([], a)
      else a ← fire_handle_timer C available a i; Some ([], a)
  | StaRemove hwaddr => '(_, a) ← send_deauth_and_remove_sta C a hwaddr; Some ([], a)
  | StaRemoveAll => a ← send_deauth_and_remove_all C a; Some ([], a)
  | StaRelease => a ← APStaInfo_Release C a; Some ([], a)
  end.

Fixpoint sta_run (C : ap_static) (a : ApInfo) (ops : list sta_op) : option (list nat * ApInfo) :=
  match ops with
  | [] => Some ([], a)
  | op :: r => '(l, a) ← sta_step C a op; '(l2, a) ← sta_run C a r; Some (l ++ l2, a)
  end.

(** The timers that are set belong to entries of the table. *)
Definition sta_op_ok (C : ap_static) (op : sta_op) : bool :=
  match op with
  | StaPath op => op_ok C op
  | StaTimer _ i => (i <? st_gMaxAID C)%nat
  | _ => true
  end.

Definition sta_stuck_frames (op : sta_op) : list nat :=
  match op with StaPath op => stuck_frames op | _ => [] end.

Section Run.
Context (C : ap_static) `{HC : !table_sane C}.

Lemma table_length a : table_inv C a -> length (a_StaConInfo a) = st_gMaxAID C.
Proof. intros Ht. apply (pi_sta _ _ _ _ _ (pw_pool _ _ (ti_power _ _ (ti_entries _ _ Ht)))). Qed.

Lemma table_lookup a i : table_inv C a -> (i < st_gMaxAID C)%nat -> exists s, a_StaConInfo a !! i = Some s.
Proof. intros Ht Hi. apply lookup_lt_is_Some_2. by rewrite (table_length a Ht). Qed.

Lemma path_table a op : table_inv C a -> op_ok C op = true ->
  exists ids a', path_step C a op = Some (ids, a') /\ table_inv C a' /\ accounted (stuck_frames op) ids a a' /\
    ages (a_StaConInfo a) (a_StaConInfo a').
Proof.
  intros Ht Hop. assert ((exists now, op = OpTick now) \/ forall now, op <> OpTick now) as [[now ->]|Hnt]
    by (destruct op; (by left; eexists) || by right).
  - eexists _, _. split; [done|]. split; [|split; [by apply accounted_none|done]]. destruct Ht as [[Hp Hc Hs] Ht]. split; [|done].
    split; [by apply tick_ok|done|done].
  - destruct (path_step_good C a op (ti_power _ _ (ti_entries _ _ Ht)) Hop Hnt) as (ids & got & lost & a' & E & (Hc & I & B) & Hl & Hp).
    exists ids, a'. split_and!; try done; [by eapply calm_table| |by apply calm_ages].
    exists lost. split; [done|]. by rewrite Hp, B, app_assoc.
Qed.

Lemma fire_ok av a i : table_inv C a -> (i < st_gMaxAID C)%nat ->
  exists a', fire_handle_timer C av a i = Some a' /\ table_inv C a' /\ balance a' [] ≡ₚ balance a [] /\
    ages (a_StaConInfo a) (a_StaConInfo a').
Proof.
  intros Ht Hi. destruct (table_lookup a i Ht Hi) as [s Hs]. unfold fire_handle_timer.
  set (b := a <| a_timers := remove_timer (THandle i) (a_timers a) |>).
  apply (handle_timer_ok C av b i s); [|done|].
  - apply loose_timers; [by apply table_loose|]. intros j Hj. by rewrite handle_timers_remove, decide_False.
  - change (a_timers b) with (remove_timer (THandle i) (a_timers a)). rewrite handle_timers_remove, decide_True by done.
    pose proof (ti_timed _ _ Ht i s Hs) as Hl. destruct (handle_timers i (a_timers a)) as [|p [|q r]]; [done|done|].
    cbn [length] in Hl. by destruct (valid s).
Qed.

Lemma aid_given a i s : table_inv C a -> a_StaConInfo a !! i = Some s -> valid s = true ->
  exists a' s', hostapd_get_aid C a i = Some (true, a') /\ table_inv C a' /\ balance a' [] = balance a [] /\
    a_StaConInfo a' = <[i := s']> (a_StaConInfo a) /\ s' = s <| s_aid := s_aid s' |> /\ 1 <= s_aid s' <= Z.of_nat (st_gMaxAID C).
Proof.
  intros Ht Hi Hv. destruct (aid_ok C a i s i (table_loose C a i Ht) Hi Hv) as (a' & s' & E & L & S & Ha & Hf & _ & _ & Hs & B & T).
  exists a', s'. split_and!; try done; try lia. apply (loose_table C a' i L).
  apply (timed_insert a a' i s s'); [done|done| |apply T|apply (ti_timed _ _ Ht)].
  unfold valid, test_sta_flag. by rewrite Hf.
Qed.

Lemma aid_table a addr i : table_inv C a -> APStaInfo_FindStaByAddr a addr = Some i ->
  exists a' s', hostapd_get_aid C a i = Some (true, a') /\ table_inv C a' /\ balance a' [] = balance a [] /\
    a_StaConInfo a' = <[i := s']> (a_StaConInfo a) /\ s_addr s' = addr /\ 1 <= s_aid s' <= Z.of_nat (st_gMaxAID C).
Proof.
  intros Ht Hf. apply FindSta_Some in Hf as (s & Hi & Hv & Ha).
  destruct (aid_given a i s Ht Hi Hv) as (a' & s' & E & T & B & S & Hs & A). exists a', s'. split_and!; try done; try lia.
  rewrite Hs. exact Ha.
Qed.

Lemma find_remove a hwaddr : table_inv C a ->
  exists r a', send_deauth_and_remove_sta C a hwaddr = Some (r, a') /\ table_inv C a' /\ spared a a' /\
    APStaInfo_FindStaByAddr a' hwaddr = None /\ r = bool_decide (is_Some (APStaInfo_FindStaByAddr a hwaddr)).
Proof.
  intros Ht. unfold send_deauth_and_remove_sta. destruct (APStaInfo_FindStaByAddr a hwaddr) as [i|] eqn:Ef.
  - apply FindSta_Some in Ef as (s & Hi & Hv & Ha).
    destruct (sta_remove_ok C a i s (table_loose C a i Ht) Hi Hv) as (a' & -> & T & R). pose proof R as (Hr & Ho & B). exists true, a'.
    split_and!; try done; [split; [done|by eapply removed_ages]|]. apply eq_None_not_Some. intros [j Hj]. apply FindSta_Some in Hj as (t & Hj & Hvt & Hat).
    destruct (decide (j = i)) as [->|Hne]; [rewrite Hr in Hj; by injection Hj as <-|].
    specialize (Ho j Hne). rewrite Hj in Ho. destruct (a_StaConInfo a !! j) as [u|] eqn:Hu; [|done].
    apply (inj Some), base_same in Ho as (_ & Hau & Hvu). apply Hne.
    apply (sh_addr _ _ (ti_shape _ _ (ti_entries _ _ Ht)) j i u s); unfold valid in *; congruence.
  - by exists false, a.
Qed.

(** Both loops empty the table. *)
Lemma emptied f a : table_inv C a ->
  (forall a i s, table_inv C a -> a_StaConInfo a !! i = Some s ->
     exists a', f a i = Some a' /\ table_inv C a' /\ spared a a' /\
       (forall t, a_StaConInfo a' !! i = Some t -> valid t = false) /\
       forall j t, j <> i -> a_StaConInfo a' !! j = Some t -> exists u, a_StaConInfo a !! j = Some u /\ valid t = valid u) ->
  exists a', for_stations f (seq 0 (st_gMaxAID C)) a = Some a' /\ table_inv C a' /\ spared a a' /\
    (forall j t, a_StaConInfo a' !! j = Some t -> valid t = false) /\
    counters a' = replicate 8 0 /\ (forall k, 0 <= k -> has (a_sta_aid a') (BIT k) = false).
Proof.
  intros Ht Hf. destruct (for_stations_ok C f (st_gMaxAID C) a ltac:(done) Hf Ht) as (a' & E & T & B & V).
  exists a'. assert (forall j t, a_StaConInfo a' !! j = Some t -> valid t = false) as Hv.
  { intros j t Hj. apply (V j t); [|done]. rewrite <- (table_length a' T). by eapply lookup_lt_Some. }
  destruct (table_empty C a' T Hv) as [N A]. by split_and!.
Qed.

Lemma table_release_ok a : table_inv C a ->
  exists a', APStaInfo_Release C a = Some a' /\ table_inv C a' /\ spared a a' /\
    (forall j t, a_StaConInfo a' !! j = Some t -> valid t = false) /\
    counters a' = replicate 8 0 /\ (forall k, 0 <= k -> has (a_sta_aid a') (BIT k) = false).
Proof.
  intros Ht. unfold APStaInfo_Release. replace (st_gMaxAID C `max` 1)%nat with (st_gMaxAID C) by (pose proof (@sane_some C _); lia).
  apply emptied; [done|]. clear a Ht. intros a i s Ht Hi. destruct (free_any C a i s Ht Hi) as (a' & E & T & B & S).
  exists a'. split_and!; try done.
  - split; [done|]. rewrite S. destruct (valid s); [|done]. apply (ages_insert _ _ s); [done|by left].
  - intros t. rewrite S. destruct (valid s) eqn:Hv; [|congruence].
    rewrite list_lookup_insert_eq by (by eapply lookup_lt_Some). by intros [= <-].
  - intros j t Hj Hjt. exists t. split; [|done]. rewrite S in Hjt. destruct (valid s); [|done]. by rewrite list_lookup_insert_ne in Hjt.
Qed.

Lemma remove_all_ok a : table_inv C a ->
  exists a', send_deauth_and_remove_all C a = Some a' /\ table_inv C a' /\ spared a a' /\
    (forall j t, a_StaConInfo a' !! j = Some t -> valid t = false) /\
    counters a' = replicate 8 0 /\ (forall k, 0 <= k -> has (a_sta_aid a') (BIT k) = false).
Proof.
  intros Ht. unfold send_deauth_and_remove_all.
  apply emptied; [done|]. clear a Ht. intros a i s Ht Hi. rewrite Hi. cbn [mbind option_bind].
  change (test_sta_flag s WLAN_STA_VALID) with (valid s). destruct (valid s) eqn:Hv.
  - destruct (sta_remove_ok C a i s (table_loose C a i Ht) Hi Hv) as (a' & E & T & R). pose proof R as (Hr & Ho & B). exists a'.
    split_and!; try done; [split; [done|by eapply removed_ages]|rewrite Hr; by intros t [= <-]|]. intros j t Hj Hjt. specialize (Ho j Hj).
    rewrite Hjt in Ho. destruct (a_StaConInfo a !! j) as [u|]; [|done]. apply (inj Some), base_same in Ho as (_ & _ & ?). by exists u.
  - exists a. split_and!; try done; [congruence|]. intros j t _ Hj. by exists t.
Qed.

(** ** Runs *)

Lemma sta_step_ok a op : table_inv C a -> sta_op_ok C op = true ->
  exists ids a', sta_step C a op = Some (ids, a') /\ table_inv C a' /\ accounted (sta_stuck_frames op) ids a a' /\
    ages (a_StaConInfo a) (a_StaConInfo a').
Proof.
  assert (forall r, (exists a', r = Some a' /\ table_inv C a' /\ balance a' [] ≡ₚ balance a [] /\
      ages (a_StaConInfo a) (a_StaConInfo a')) ->
    exists ids a', (a ← r; Some ([], a)) = Some (ids, a') /\ table_inv C a' /\ accounted [] ids a a' /\
      ages (a_StaConInfo a) (a_StaConInfo a')) as Hplain.
  { intros r (a' & -> & T & B & A). exists [], a'. split_and!; [done|done|by apply accounted_none|done]. }
  intros Ht Hop. assert (exists ids a', Some ([], a) = Some (ids, a') /\ table_inv C a' /\ accounted [] ids a a' /\
      ages (a_StaConInfo a) (a_StaConInfo a')) as Hsame
    by (exists [], a; split_and!; [done|done|by apply accounted_none|done]).
  destruct op as [op|addr|addr|av i|addr| |]; cbn [sta_step sta_op_ok] in *.
  - by apply path_table.
  - destruct (add_ok C a addr Ht) as (r & a' & -> & T & B & A & _). apply (Hplain (Some a')). by exists a'.
  - destruct (APStaInfo_FindStaByAddr a addr) as [i|] eqn:Ef; [|done].
    apply FindSta_Some in Ef as (s & Hi & Hv & _). destruct (aid_given a i s Ht Hi Hv) as (a' & s' & -> & T & B & S & Hs & _).
    apply (Hplain (Some a')). exists a'. split_and!; [done|done|by rewrite B|]. rewrite S.
    apply (ages_insert _ _ s); [done|]. right. by rewrite Hs.
  - case_bool_decide; [done|]. apply Nat.ltb_lt in Hop. by apply Hplain, fire_ok.
  - destruct (find_remove a addr Ht) as (r & a' & -> & T & [B A] & _). apply (Hplain (Some a')). by exists a'.
  - destruct (remove_all_ok a Ht) as (a' & -> & T & [B A] & _). apply (Hplain (Some a')). by exists a'.
  - destruct (table_release_ok a Ht) as (a' & -> & T & [B A] & _). apply (Hplain (Some a')). by exists a'.
Qed.

Lemma sta_run_ok : forall ops a, table_inv C a -> forallb (sta_op_ok C) ops = true ->
  exists ids a', sta_run C a ops = Some (ids, a') /\ table_inv C a' /\ accounted (concat (map sta_stuck_frames ops)) ids a a'.
Proof.
  induction ops as [|op ops IH]; intros a Ht Hops; cbn [sta_run]; [exists [], a; split_and!; [done|done|by apply accounted_none]|].
  cbn [forallb] in Hops. apply andb_true_iff in Hops as [Hop Hops].
  destruct (sta_step_ok a op Ht Hop) as (l & a1 & -> & I1 & B1 & _). cbn [mbind option_bind].
  destruct (IH a1 I1 Hops) as (l2 & a2 & -> & I2 & B2). cbn [mbind option_bind]. eexists _, _. split; [done|].
  split; [done|]. by apply (accounted_trans _ _ _ _ a a1 a2).
Qed.

(** C11: Any sequence of operations on the table of stations and of the data path
    (stations enter, get an AID, are removed by the host, by their timer or for
    lack of room, frames are queued, sent and freed; the indices that timers and
    the firmware give are those of the table) returns, and afterwards every
    counter of the access point is the number of stations it counts, no two
    stations have the same address or the same AID, the bitmap holds exactly the
    AIDs in use, every station has exactly one inactivity timer and an unused
    entry none; every frame that came in is queued, was sent or was freed, but for
    frames that came in while the chip slept and could not be woken up. *)
Theorem table_run_exact ops a : table_inv C a -> forallb (sta_op_ok C) ops = true ->
  exists ids lost a', sta_run C a ops = Some (ids, a') /\
    lost ⊆+ concat (map sta_stuck_frames ops) /\ lost ++ balance a' [] ≡ₚ ids ++ balance a [] /\
    counters a' = counts (a_StaConInfo a') /\
    (forall i j s t, a_StaConInfo a' !! i = Some s -> a_StaConInfo a' !! j = Some t -> i <> j ->
       (valid s = true -> valid t = true -> s_addr s <> s_addr t) /\ (0 < s_aid s -> s_aid s <> s_aid t)) /\
    (forall k, 0 <= k -> has (a_sta_aid a') (BIT k) = true <-> exists i s, a_StaConInfo a' !! i = Some s /\ s_aid s = k + 1) /\
    (forall i s, a_StaConInfo a' !! i = Some s ->
       length (handle_timers i (a_timers a')) = if valid s then 1%nat else 0%nat).
Proof.
  intros Ht Hops. destruct (sta_run_ok ops a Ht Hops) as (ids & a' & E & [[_ Hc [_ Sa Sd Sb]] Hd] & lost & Hl & B).
  exists ids, lost, a'. split_and!; try done. intros i j s t Hi Hj Hne. split; [intros Hv Hw Ha|intros Ha He]; apply Hne.
  - by apply (Sa i j s t).
  - by apply (Sd i j s t).
Qed.

(** The table after its stations are gone *)
Definition emptied_state (a a' : ApInfo) : Prop :=
  (forall i s, a_StaConInfo a' !! i = Some s -> valid s = false /\ handle_timers i (a_timers a') = []) /\
  counters a' = replicate 8 0 /\ (forall k, 0 <= k -> has (a_sta_aid a') (BIT k) = false) /\
  queued a' = [] /\ balance a' [] ≡ₚ balance a [].

(** C12: Removing all stations, with deauthentication frames or without, returns
    and leaves no entry valid, every counter 0, no AID taken and no timer of a
    station; the frames that waited for the stations are sent or freed, none is
    queued and none is lost. *)
Theorem remove_all_empties a : table_inv C a ->
  (exists a', APStaInfo_Release C a = Some a' /\ emptied_state a a') /\
  (exists a', send_deauth_and_remove_all C a = Some a' /\ emptied_state a a').
Proof.
  assert (forall a', table_inv C a' -> (forall j t, a_StaConInfo a' !! j = Some t -> valid t = false) -> queued a' = []) as Hq.
  { intros a' T Hv. unfold queued. pose proof (pi_sleep _ _ _ _ _ (pw_pool _ _ (ti_power _ _ (ti_entries _ _ T)))) as Hs.
    assert (Forall (fun t => sta_queued t = []) (a_StaConInfo a')) as Hall.
    { apply Forall_lookup_2. intros j t Hj. destruct (sta_queued t) eqn:Eq; [done|].
      destruct (Forall_lookup_1 _ _ _ _ Hs Hj) as [Hvt _]; [by rewrite Eq|]. specialize (Hv j t Hj). unfold valid in Hv. congruence. }
    clear -Hall. induction Hall as [|t l Ht _ IH]; [done|]. 
    change (sta_queued t ++ concat (sta_queued <$> l) = []). by rewrite Ht, IH. }
  assert (forall a', table_inv C a' -> balance a' [] ≡ₚ balance a [] -> counters a' = replicate 8 0 ->
    (forall j t, a_StaConInfo a' !! j = Some t -> valid t = false) ->
    (forall k, 0 <= k -> has (a_sta_aid a') (BIT k) = false) -> emptied_state a a') as Hdone.
  { intros a' T B N V A. split_and!; try done; [|by apply Hq]. intros i s Hi. split; [by apply (V i)|].
    pose proof (ti_timed _ _ T i s Hi) as Hl. rewrite (V i s Hi) in Hl. by apply length_zero_iff_nil. }
  intros Ht. split.
  - destruct (table_release_ok a Ht) as (a' & E & T & [B _] & V & N & A). exists a'. split; [done|by apply Hdone].
  - destruct (remove_all_ok a Ht) as (a' & E & T & [B _] & V & N & A). exists a'. split; [done|by apply Hdone].
Qed.

(** A station that authenticates has an entry with its address afterwards,
    unless every entry belongs to another station; association then always finds
    it an AID, at most the size of the table and not used by another station. *)
Theorem entry_and_aid a addr : table_inv C a ->
  exists r a1, APStaInfo_add C a addr = Some (r, a1) /\
    match r with
    | None => forall i s, a_StaConInfo a1 !! i = Some s -> valid s = true /\ s_addr s <> addr
    | Some i => exists a2 s, hostapd_get_aid C a1 i = Some (true, a2) /\ table_inv C a2 /\
        a_StaConInfo a2 !! i = Some s /\ s_addr s = addr /\ 1 <= s_aid s <= Z.of_nat (st_gMaxAID C) /\
        forall j t, j <> i -> a_StaConInfo a2 !! j = Some t -> s_aid t <> s_aid s
    end.
Proof.
  intros Ht. destruct (add_ok C a addr Ht) as (r & a1 & E & T & _ & _ & Hr). exists r, a1. split; [done|].
  destruct r as [i|].
  - destruct Hr as (s & Hi & Hv & Ha).
    destruct (aid_ok C a1 i s i (table_loose C a1 i T) Hi Hv) as (a2 & s' & E2 & L & S & A & F & Had & _ & _ & _ & Tm).
    exists a2, s'. assert (table_inv C a2) as T2.
    { apply (loose_table C a2 i L). eapply timed_insert; [exact Hi|exact S| |apply Tm|apply (ti_timed _ _ T)].
      unfold valid, test_sta_flag. by rewrite F. }
    assert (a_StaConInfo a2 !! i = Some s') as Hi2 by (rewrite S; rewrite list_lookup_insert_eq by (by eapply lookup_lt_Some); done).
    split_and!; try done; [congruence|lia|lia|]. intros j t Hj Hjt He. apply Hj.
    apply (sh_aid _ _ (ti_shape _ _ (ti_entries _ _ T2)) j i t s'); congruence || lia.
  - exact Hr.
Qed.
(** ** The start *)

(** No entry in use, no descriptor in use, nothing counted, no timer. *)
Lemma reset_table a : a_StaConInfo a = replicate (st_gMaxAID C) APStaInfo_StaReset -> counters a = replicate 8 0 ->
  a_sta_aid a = 0 -> a_num_sta_ps a = 0 -> a_total_ps_buffered a = 0 ->
  a_pApTxData a = replicate (AP_TOTAL_MAX_TX_DSP C) None -> length (a_tim a) = gMaxTimLen C ->
  (forall i, handle_timers i (a_timers a) = []) -> table_inv C a.
Proof.
  intros Hs Hc Ha Hps Ht Hd Hl Htm.
  assert (forall i s, a_StaConInfo a !! i = Some s -> s = APStaInfo_StaReset) as Hr
    by (intros i s Hi; rewrite Hs in Hi; by apply lookup_replicate in Hi as [-> _]).
  assert (forall p : APStaInfo -> bool, p APStaInfo_StaReset = false -> count p (a_StaConInfo a) = 0) as Hz.
  { intros p Hp. rewrite Hs. unfold count. assert (List.filter p (replicate (st_gMaxAID C) APStaInfo_StaReset) = []) as ->; [|done].
    clear -Hp. induction (st_gMaxAID C) as [|n IH]; [done|]. cbn [replicate List.filter]. by rewrite Hp. }
  assert (queued a = []) as Hq.
  { unfold queued. rewrite Hs. clear. induction (st_gMaxAID C) as [|n IH]; [done|]. exact IH. }
  split; [split; [split|..]|].
  - constructor; rewrite ?Hq; try done; try (apply Forall_lookup_2; intros i s Hi; rewrite (Hr i s Hi)).
    + by rewrite Hs, length_replicate.
    + done.
    + by rewrite Hd, length_replicate.
    + constructor.
    + intros k. split; [|by intros ?%not_elem_of_nil]. unfold ap_desp. rewrite Hd.
      destruct (replicate _ None !! k) as [d|] eqn:E; [|by intros [? ?]]. apply lookup_replicate in E as [-> _]. by intros [? ?].
    + cbn [length app]. lia.
    + cbn [length app]. lia.
    + done.
    + cbn [s_aid APStaInfo_StaReset]. lia.
  - rewrite Hps. symmetry. by apply Hz.
  - rewrite Hc. unfold counts, counted_by. cbn [map replicate]. by repeat (apply (f_equal2 cons); [symmetry; by apply Hz|]).
  - constructor.
    + intros i s Hi _. rewrite (Hr i s Hi). apply blank_reset.
    + intros i j s t Hi _ Hv. by rewrite (Hr i s Hi) in Hv.
    + intros i j s t Hi _ Hv. rewrite (Hr i s Hi) in Hv. cbn in Hv. lia.
    + intros k Hk. rewrite Ha. split; [|intros (i & s & Hi & Hx); rewrite (Hr i s Hi) in Hx; cbn in Hx; lia].
      rewrite has_BIT, Z.bits_0 by done. done.
  - intros i s Hi. by rewrite (Hr i s Hi), Htm.
Qed.

(** ** Inactive stations *)

(** The timer of an associated station that is in state [STA_NULLFUNC] never
    disassociates or removes it, however long the station has been silent: the
    state stays [STA_NULLFUNC], the station associated, and the timer is started
    again. *)
Theorem inactive_never_removed av a i s : a_StaConInfo a !! i = Some s -> valid s = true ->
  test_sta_flag s WLAN_STA_ASSOC = true -> s_timeout_next s = STA_NULLFUNC ->
  exists a' s' ms, ap_handle_timer C av a i = Some a' /\ a_StaConInfo a' = <[i := s']> (a_StaConInfo a) /\
    valid s' = true /\ test_sta_flag s' WLAN_STA_ASSOC = true /\ s_timeout_next s' = STA_NULLFUNC /\
    a_timers a' = a_timers a ++ [(THandle i, ms)] /\ 0 < ms.
Proof.
  intros Hi Hv Ha Hn. unfold ap_handle_timer. rewrite Hi. cbn [mbind option_bind].
  change (test_sta_flag s WLAN_STA_VALID) with (valid s). rewrite Hv. cbn [negb]. rewrite bool_decide_false by congruence.
  assert (s <| s_timeout_next := STA_NULLFUNC |> = s) as Hs by (rewrite <- Hn; by destruct s).
  destruct av; cbn [negb]; [|exists (start_timer a (THandle i) 1000), s, 1000; split_and!; try done; by rewrite list_insert_id].
  assert (exists t, handle_timer_check C a s = (STA_NULLFUNC, t) /\ 0 <= t) as (t & -> & Ht).
  { unfold handle_timer_check. cbv zeta. rewrite Ha, Hn, (bool_decide_true (STA_NULLFUNC = STA_NULLFUNC)) by done. cbn [andb orb].
    destruct (_ <? _); rewrite bool_decide_false by done; cbn [andb]; eexists; (split; [done|]); [|done].
    unfold u32. apply Z.mod_pos_bound. lia. }
  rewrite Hs. destruct (Z.eqb_spec t 0) as [->|Hz]; cbn [negb].
  2:{ exists (start_timer (set_sta a i s) (THandle i) t), s, t. split_and!; try done. lia. }
  rewrite bool_decide_true, Ha by done. cbn [andb]. destruct (_ <=? _).
  all: eexists _, _, STA_TIMEOUT_RETRY_TIMER; split; [done|]; split; [apply list_insert_insert_eq|]; split_and!; try done.
  all: first [rewrite <- Hv; by apply (flag_set_other s WLAN_STA_PENDING_POLL 0)
             |rewrite <- Ha; by apply (flag_set_other s WLAN_STA_PENDING_POLL 2)].
Qed.
End Run.

(** ** A concrete access point *)

#[export] Instance path_static_table : table_sane path_static.
Proof. split; [apply path_static_sane|vm_compute; lia|vm_compute; lia]. Qed.

Lemma demo_table : table_inv path_static demo_ap.
Proof. by apply reset_table. Qed.

(** Three stations authenticate, two get an AID, one sleeps and has frames; time
    passes, timers expire, one station is removed, its entry and AID are used
    again. *)
Definition station (n : Z) : list Z := [2; 0; 0; 0; 0; n].
Definition sta_ops : list sta_op :=
  [ StaAdd (station 1); StaAid (station 1); StaAdd (station 2); StaAid (station 2); StaAdd (station 3);
    StaPath (OpEvent (SOC_EVT_NULL_DATA (station 2) true 0 0));
    StaPath (OpSend path_env 10 (station 2) 0); StaPath (OpTick 100000); StaTimer true 0; StaTimer false 1;
    StaRemove (station 1); StaAdd (station 4); StaAid (station 4); StaTimer true 0 ].

Lemma table_run_exact_witness : exists ids a',
  sta_run path_static demo_ap sta_ops = Some (ids, a') /\ a_num_sta a' = 3 /\ a_sta_aid a' = 3 /\
  map s_aid (a_StaConInfo a') = [1; 2; 0; 0; 0; 0; 0; 0].
Proof.
  destruct (table_run_exact path_static sta_ops demo_ap demo_table eq_refl) as (ids & lost & a' & E & _ & _ & N & _).
  exists ids, a'. split; [exact E|].
  assert (fmap (fun p => (a_num_sta p.2, a_sta_aid p.2, map s_aid (a_StaConInfo p.2))) (sta_run path_static demo_ap sta_ops)
    = Some (3, 3, [1; 2; 0; 0; 0; 0; 0; 0])) as H by (vm_compute; reflexivity).
  rewrite E in H. cbn [fmap option_fmap option_map] in H. apply (inj Some) in H.
  injection H as H1 H2 H3. split; [exact H1|]. split; [exact H2|exact H3].
Defined.

Definition table_busy : ApInfo := default demo_ap (snd <$> sta_run path_static demo_ap sta_ops).

Lemma table_busy_inv : table_inv path_static table_busy.
Proof.
  destruct (sta_run_ok path_static sta_ops demo_ap demo_table eq_refl) as (ids & a' & E & I & _).
  unfold table_busy. rewrite E. exact I.
Qed.

Lemma remove_all_empties_witness : counters table_busy = [3; 0; 0; 0; 0; 0; 0; 0] /\
  exists a', APStaInfo_Release path_static table_busy = Some a' /\ counters a' = replicate 8 0.
Proof.
  split; [vm_compute; reflexivity|].
  destruct (remove_all_empties path_static table_busy table_busy_inv) as [(a' & E & _ & N & _) _].
  exists a'. split; [exact E|exact N].
Defined.

Lemma entry_and_aid_witness : exists i a1 a2 s,
  APStaInfo_add path_static table_busy (station 9) = Some (Some i, a1) /\
  hostapd_get_aid path_static a1 i = Some (true, a2) /\ a_StaConInfo a2 !! i = Some s /\ 1 <= s_aid s <= 8.
Proof.
  destruct (entry_and_aid path_static table_busy (station 9) table_busy_inv) as (r & a1 & E & H).
  assert (r = Some 3%nat) as ->.
  { assert (fmap fst (APStaInfo_add path_static table_busy (station 9)) = Some (Some 3%nat)) as Hx by (vm_compute; reflexivity).
    rewrite E in Hx. apply (inj Some) in Hx. exact Hx. }
  destruct H as (a2 & s & E2 & _ & Hi & _ & Ha & _). 
  exists 3%nat, a1, a2, s. split; [exact E|]. split; [exact E2|]. split; [exact Hi|exact Ha].
Defined.

Lemma inactive_never_removed_witness : exists a' s',
  let a := path_ap <| a_jiffies := 10000000 |> in
  ap_handle_timer path_static true a 0 = Some a' /\ a_StaConInfo a' = <[0%nat := s']> (a_StaConInfo a) /\
  s_timeout_next s' = STA_NULLFUNC.
Proof.
  destruct (inactive_never_removed path_static true (path_ap <| a_jiffies := 10000000 |>) 0 (path_sta 1 1 0))
    as (a' & s' & ms & E & S & _ & _ & N & _); [reflexivity|reflexivity|reflexivity|reflexivity|].
  exists a', s'. split; [exact E|]. split; [exact S|exact N].
Defined.

(** The index of a station is reset before the reorder buffers are told that it
    is gone: they are given the index [gMaxAID], never that of the station. *)
Definition del_ampdu (e : ap_effect) : option Z := match e with DelAmpduRx w => Some w | _ => None end.
Example reorder_session_kept :
  let a := path_ap <| a_StaConInfo := <[0%nat := (path_sta 1 1 0) <| s_wsid_idx := 5 |>]> (a_StaConInfo path_ap) |> in
  ((fun a => omap del_ampdu (a_out a)) <$> deauth_and_remove path_static a 0) = Some [8] /\
  ((fun a => omap del_ampdu (a_out a)) <$> APStaInfo_free path_static a 0) = Some [5].
Proof. split; vm_compute; reflexivity. Qed.
