(* ===== verification/NeighborAp.v ===== *)
(** * NeighborAp: the list of neighbouring access points

    [ap/neighbor_ap_list.c].  Beacons of other access points are recorded in a
    table of eight entries; a neighbour without ERP or HT stations support makes
    the access point protect its frames, until the neighbour has not been heard
    for six minutes.

    The table and its counter are fields of [struct ApInfo]; they are kept in a
    record of their own, because nothing else uses them.  [None] is a fault. *)

From stdpp Require Import base list option.
From Stdlib Require Import ZArith Lia ZifyNat.
From S2P Require Import Prelude Words Wire HciAggr Ie80211 WpaIe WpaAuth Reorder ApInfo ApElem.

Definition AP_NEIGHBOR_AP_TABLE_MAX_SIZE : nat := 8.
Definition AP_SUPP_RATES_MAX : nat := 32.
Definition AP_MAX_SSID_LEN : nat := 32.
Definition AP_TABLE_EXPIRATION_TIME : Z := 360000.
Definition AP_LIST_TIMER_INTERVAL : Z := 10000.

(** [struct neighbor_ap_info]; [nb_erp] is -1 without an ERP element. *)
Record neighbor_ap_info := mk_nb {
  nb_addr : list Z;
  nb_beacon_int : Z;
  nb_capability : Z;
  nb_supported_rates : list Z;
  nb_ssid : list Z;
  nb_ssid_len : nat;
  nb_wpa : bool;
  nb_erp : Z;
  nb_channel : Z;
  nb_ht_support : bool;
  nb_num_beacons : Z;
  nb_last_beacon : Z
}.

#[export] Instance eta_neighbor : Eta neighbor_ap_info := fun b =>
  mk_nb (nb_addr b) (nb_beacon_int b) (nb_capability b) (nb_supported_rates b) (nb_ssid b) (nb_ssid_len b)
    (nb_wpa b) (nb_erp b) (nb_channel b) (nb_ht_support b) (nb_num_beacons b) (nb_last_beacon b).

Definition NULLADDR : list Z := replicate 6 0.

(** An entry after [MEMSET] *)
Definition nb_zero : neighbor_ap_info :=
  mk_nb NULLADDR 0 0 (replicate AP_SUPP_RATES_MAX 0) (replicate AP_MAX_SSID_LEN 0) 0 false 0 0 false 0 0.

Record neighbors := mk_neighbors {
  num_neighbor_ap : Z;
  neighbor_ap_list : list neighbor_ap_info
}.

#[export] Instance eta_neighbors : Eta neighbors := fun n => mk_neighbors (num_neighbor_ap n) (neighbor_ap_list n).

(** [time_before(a,b)] is [time_after(b,a)]. *)
Definition time_before (a b : Z) : bool := time_after b a.

(** [MEMCPY] of [bytes] to the offset [off] of an array, which has the room *)
Definition put_at (off : nat) (bytes old : list Z) : list Z :=
  take off old ++ bytes ++ drop (off + length bytes) old.

(** ** The table *)

(** [ap_get_ap] *)
Fixpoint find_ap (mac : list Z) (i : nat) (l : list neighbor_ap_info) : option nat :=
  match l with
  | [] => None
  | b :: r => if bool_decide (mac = nb_addr b) then Some i else find_ap mac (S i) r
  end.
Definition ap_get_ap (n : neighbors) (mac : list Z) : option nat := find_ap mac 0 (neighbor_ap_list n).

(** [ap_free_ap] *)
Definition ap_free_ap (n : neighbors) (i : nat) : neighbors :=
  n <| neighbor_ap_list := <[i := nb_zero]> (neighbor_ap_list n) |>
    <| num_neighbor_ap := u8 (num_neighbor_ap n - 1) |>.

(** The entry that was not heard for longest: the search starts with [best] *)
Fixpoint least_recent (best : nat) (last : Z) (i : nat) (l : list neighbor_ap_info) : nat :=
  match l with
  | [] => best
  | b :: r =>
      if time_before (nb_last_beacon b) last then least_recent i (nb_last_beacon b) (S i) r
      else least_recent best last (S i) r
  end.
Definition least_ap (n : neighbors) : nat :=
  match neighbor_ap_list n with
  | [] => 0
  | b :: r => least_recent 0 (nb_last_beacon b) 1 r
  end.

(** [ap_ap_add]: the address is written to the entry that was found; when the
    counter says that there is room but no entry is free, the pointer is [NULL]. *)
Definition ap_ap_add (n : neighbors) (addr : list Z) : option (nat * neighbors) :=
  let n := n <| num_neighbor_ap := u8 (num_neighbor_ap n + 1) |> in
  let '(p, n) :=
    if Z.of_nat AP_NEIGHBOR_AP_TABLE_MAX_SIZE <? num_neighbor_ap n
    then (Some (least_ap n), ap_free_ap n (least_ap n))
    else (ap_get_ap n NULLADDR, n) in
  i ← p;
  b ← neighbor_ap_list n !! i;
  Some (i, n <| neighbor_ap_list := <[i := b <| nb_addr := addr |>]> (neighbor_ap_list n) |>).

Section Neighbors.
Context (C : ap_static).

(** A rate that only ERP stations have *)
Definition erp_rate (r : Z) : bool :=
  let rate := Z.land r 0x7f * 5 in (rate =? 60) || (rate =? 90) || (110 <? rate).

(** [ap_list_beacon_olbc] *)
Definition ap_list_beacon_olbc (b : neighbor_ap_info) : bool :=
  if negb (st_eCurrentApMode C =? AP_MODE_IEEE80211G) || negb (st_nCurrentChannel C =? nb_channel b) then false
  else if negb (nb_erp b =? -1) && has (nb_erp b) ERP_INFO_NON_ERP_PRESENT then true
  else negb (existsb erp_rate (nb_supported_rates b)).

(** The contents of an element that was found *)
Definition contents (ies : list Z) (p : option (nat * nat)) : option (option (list Z)) :=
  match p with
  | None => Some None
  | Some (pos, len) => c ← slice ies pos len; Some (Some c)
  end.

(** The rates of an entry: both elements, as far as there is room *)
Definition beacon_rates (supp ext : option (list Z)) : list Z :=
  let rates := replicate AP_SUPP_RATES_MAX 0 in
  let supp := take AP_SUPP_RATES_MAX (default [] supp) in
  let rates := put_at 0 supp rates in
  match ext with
  | None => rates
  | Some e => put_at (length supp) (take (AP_SUPP_RATES_MAX - length supp) e) rates
  end.

(** What [neighbor_ap_list_process_beacon] writes to the entry *)
Definition record_beacon (now : Z) (beacon_int capab : Z) (ies : list Z) (elems : ieee802_11_elems) (b : neighbor_ap_info) :
  option neighbor_ap_info :=
  name ← contents ies (elems ssid);
  supp ← contents ies (elems supp_rates);
  ext ← contents ies (elems ext_supp_rates);
  erp ← contents ies (elems erp_info);
  ds ← contents ies (elems ds_params);
  let b := b <| nb_beacon_int := beacon_int |> <| nb_capability := capab |> in
  let b := match name with
           | Some s => let s := take AP_MAX_SSID_LEN s in
                       b <| nb_ssid := put_at 0 s (nb_ssid b) |> <| nb_ssid_len := length s |>
           | None => b
           end in
  let b := b <| nb_supported_rates := beacon_rates supp ext |> in
  let b := b <| nb_wpa := bool_decide (is_Some (elems wpa_ie)) |> in
  let b := b <| nb_erp := match erp with Some [x] => x | _ => -1 end |> in
  let b := match ds with Some [x] => b <| nb_channel := x |> | _ => b end in
  let b := b <| nb_ht_support := bool_decide (is_Some (elems ht_capabilities)) |> in
  Some (b <| nb_num_beacons := u32 (nb_num_beacons b + 1) |> <| nb_last_beacon := now |>).

(** What a neighbour changes of the access point *)
Definition heed_neighbor (a : ApInfo) (b : neighbor_ap_info) : ApInfo :=
  let '(a, b1) :=
    if g_erp (st_cfg C) && negb (a_olbc a) && ap_list_beacon_olbc b
    then ((ap_emit a (SetErpProtect true)) <| a_olbc := true |>, true) else (a, false) in
  let '(a, b2) :=
    if negb (a_olbc_ht a) && negb (nb_ht_support b)
    then let a := (hostapd_ht_operation_update C (a <| a_olbc_ht := true |>)).1 in
         (ap_emit a (SetHtProtect (u8 (a_ht_op_mode a))), true)
    else (a, false) in
  if b1 || b2 then ieee802_11_set_beacon C a true else a.

(** [neighbor_ap_list_process_beacon] *)
Definition neighbor_ap_list_process_beacon (a : ApInfo) (n : neighbors) (bssid : list Z) (beacon_int capab : Z)
    (ies : list Z) (elems : ieee802_11_elems) : option (ApInfo * neighbors) :=
  '(i, n) ← match ap_get_ap n bssid with
            | Some i => Some (i, n)
            | None => ap_ap_add n bssid
            end;
  b ← neighbor_ap_list n !! i;
  b ← record_beacon (a_jiffies a) beacon_int capab ies elems b;
  Some (heed_neighbor a b, n <| neighbor_ap_list := <[i := b]> (neighbor_ap_list n) |>).

(** [ap_mlme_rx_beacon]: the result of the parser is not looked at. *)
Definition ap_mlme_rx_beacon (a : ApInfo) (n : neighbors) (mgmt : list Z) (len : nat) : option (ApInfo * neighbors) :=
  if (len <? 36)%nat then Some (a, n)
  else
    let ie := drop 36 mgmt in
    '(_, elems) ← ieee802_11_parse_elems ie (len - 36);
    bssid ← slice mgmt 16 6;
    beacon_int ← WPA_GET_LE16 mgmt 32;
    capab ← WPA_GET_LE16 mgmt 34;
    neighbor_ap_list_process_beacon a n bssid beacon_int capab ie elems.

(** ** Expiry *)

(** [os_ms2tick] *)
Context (ms2tick : Z -> Z).

Definition nb_expired (now : Z) (b : neighbor_ap_info) : bool :=
  time_before (u32 (nb_last_beacon b + ms2tick AP_TABLE_EXPIRATION_TIME)) now.

(** The loop of [ap_list_timer]: the table and whether a neighbour that stays
    needs protection *)
Fixpoint expire_neighbors (a : ApInfo) (l : list nat) (n : neighbors) (olbc olbc_ht : bool) :
  option (neighbors * bool * bool) :=
  match l with
  | [] => Some (n, olbc, olbc_ht)
  | i :: r =>
      b ← neighbor_ap_list n !! i;
      if nb_last_beacon b =? 0 then expire_neighbors a r n olbc olbc_ht
      else if nb_expired (a_jiffies a) b then expire_neighbors a r (ap_free_ap n i) olbc olbc_ht
      else if (a_olbc a || a_olbc_ht a) && negb (olbc && olbc_ht)
      then expire_neighbors a r n (olbc || ap_list_beacon_olbc b) (olbc_ht || negb (nb_ht_support b))
      else expire_neighbors a r n olbc olbc_ht
  end.

(** What is not needed any more *)
Definition unheed (a : ApInfo) (olbc olbc_ht : bool) : ApInfo :=
  let '(a, b1) :=
    if g_erp (st_cfg C) && negb olbc && a_olbc a
    then let a := a <| a_olbc := false |> in
         (if a_num_sta_non_erp a =? 0 then ap_emit a (SetErpProtect false) else a, true)
    else (a, false) in
  let '(a, b2) :=
    if negb olbc_ht && a_olbc_ht a
    then let a := (hostapd_ht_operation_update C (a <| a_olbc_ht := false |>)).1 in
         (ap_emit a (SetHtProtect (u8 (a_ht_op_mode a))), true)
    else (a, false) in
  if b1 || b2 then ieee802_11_set_beacon C a true else a.

(** [ap_list_timer]; [running]: one of the interfaces is an access point. *)
Definition ap_list_timer (running : bool) (a : ApInfo) (n : neighbors) : option (ApInfo * neighbors) :=
  if negb running then Some (a, n)
  else
    let a := start_timer a TApList AP_LIST_TIMER_INTERVAL in
    '(n, olbc, olbc_ht) ← expire_neighbors a (seq 0 AP_NEIGHBOR_AP_TABLE_MAX_SIZE) n false false;
    Some (unheed a olbc olbc_ht, n).
End Neighbors.

(** [reset_neighbor_apinfo], [neighbor_ap_list_init], [neighbor_ap_list_deinit] *)
Definition reset_neighbor_apinfo (a : ApInfo) : ApInfo * neighbors :=
  (a <| a_olbc := false |> <| a_olbc_ht := false |>, mk_neighbors 0 (replicate AP_NEIGHBOR_AP_TABLE_MAX_SIZE nb_zero)).
Definition neighbor_ap_list_init (a : ApInfo) : ApInfo * neighbors :=
  reset_neighbor_apinfo (start_timer a TApList AP_LIST_TIMER_INTERVAL).
Definition neighbor_ap_list_deinit (a : ApInfo) : ApInfo * neighbors :=
  reset_neighbor_apinfo (cancel_timer a TApList).

(** ** The invariant of the table *)

Definition nb_used (b : neighbor_ap_info) : bool := negb (bool_decide (nb_addr b = NULLADDR)).

(** The counter is the number of entries in use, a free entry is cleared, and no
    access point has two entries. *)
Record nb_inv (n : neighbors) : Prop := {
  ni_len : length (neighbor_ap_list n) = AP_NEIGHBOR_AP_TABLE_MAX_SIZE;
  ni_num : num_neighbor_ap n = count nb_used (neighbor_ap_list n);
  ni_free : forall i b, neighbor_ap_list n !! i = Some b -> nb_used b = false -> b = nb_zero;
  ni_uniq : forall i j b c, neighbor_ap_list n !! i = Some b -> neighbor_ap_list n !! j = Some c ->
    nb_used b = true -> nb_addr b = nb_addr c -> i = j
}.

Lemma nb_used_spec b : nb_used b = true <-> nb_addr b <> NULLADDR.
Proof. unfold nb_used. rewrite negb_true_iff. apply bool_decide_eq_false. Qed.

Lemma find_ap_Some mac l i k : find_ap mac i l = Some k ->
  exists j b, k = (i + j)%nat /\ l !! j = Some b /\ nb_addr b = mac.
Proof.
  revert i. induction l as [|b l IH]; intros i; cbn [find_ap]; [done|]. case_bool_decide as Hb.
  - intros [= <-]. exists O, b. by rewrite Nat.add_0_r.
  - intros (j & c & -> & Hj & Hc)%IH. exists (S j), c. split; [lia|done].
Qed.

Lemma find_ap_None mac l i : find_ap mac i l = None -> forall j b, l !! j = Some b -> nb_addr b <> mac.
Proof.
  revert i. induction l as [|b l IH]; intros i; cbn [find_ap]; [done|]. case_bool_decide as Hb; [done|].
  intros H [|j] c Hc; [injection Hc as <-; by intros <-|]. by eapply IH.
Qed.

Lemma count_full {A} (p : A -> bool) l : (forall i x, l !! i = Some x -> p x = true) -> count p l = Z.of_nat (length l).
Proof.
  unfold count. induction l as [|x l IH]; intros H; [done|]. cbn [List.filter]. rewrite (H 0%nat x eq_refl). cbn [length].
  rewrite Nat2Z.inj_succ, IH; [lia|]. intros i y Hy. by apply (H (S i)).
Qed.

(** The table after [neighbor_ap_list_init] *)
Lemma neighbors_init_inv a : nb_inv (neighbor_ap_list_init a).2.
Proof.
  constructor; [done|done| |]; cbn [neighbor_ap_list_init reset_neighbor_apinfo snd neighbor_ap_list].
  - intros i b Hi _. by apply lookup_replicate in Hi as [-> _].
  - intros i j b c Hi _ Hu. apply lookup_replicate in Hi as [-> _]. done.
Qed.

(** One entry changes *)
Lemma nb_inv_insert n i b b' m : nb_inv n -> neighbor_ap_list n !! i = Some b ->
  (nb_used b' = false -> b' = nb_zero) ->
  (forall j c, j <> i -> neighbor_ap_list n !! j = Some c -> nb_used b' = true -> nb_addr c <> nb_addr b') ->
  m = num_neighbor_ap n - Z.b2z (nb_used b) + Z.b2z (nb_used b') ->
  nb_inv (mk_neighbors m (<[i := b']> (neighbor_ap_list n))).
Proof.
  intros [I1 I2 I3 I4] Hi Hf Ha Hm. pose proof (lookup_lt_Some _ _ _ Hi) as Hlt.
  assert (forall j c, <[i := b']> (neighbor_ap_list n) !! j = Some c -> j = i /\ c = b' \/ j <> i /\ neighbor_ap_list n !! j = Some c) as Hat.
  { intros j c. destruct (decide (j = i)) as [->|Hj]; [rewrite list_lookup_insert_eq by done; intros [= <-]; by left|].
    rewrite list_lookup_insert_ne by done. by right. }
  constructor; cbn [neighbor_ap_list num_neighbor_ap].
  - by rewrite length_insert.
  - by rewrite (count_insert _ _ _ _ _ Hi), <- I2.
  - intros j c [[-> ->]|[_ Hj]]%Hat; [done|by apply I3 with j].
  - intros j k c d [[-> ->]|[Hj Hjc]]%Hat [[-> ->]|[Hk Hkd]]%Hat Hu Heq; [done| | |by apply (I4 j k c d)].
    + by destruct (Ha k d Hk Hkd Hu).
    + destruct (Ha j c Hj Hjc); [|done]. apply nb_used_spec. apply nb_used_spec in Hu. congruence.
Qed.

Lemma least_recent_in best last i l : (best < i)%nat -> (least_recent best last i l < i + length l)%nat.
Proof.
  revert best last i. induction l as [|b l IH]; intros best last i Hb; cbn [least_recent length]; [lia|].
  destruct (time_before _ _); [pose proof (IH i (nb_last_beacon b) (S i) ltac:(lia))|pose proof (IH best last (S i) ltac:(lia))]; lia.
Qed.

Lemma least_ap_in n : length (neighbor_ap_list n) = AP_NEIGHBOR_AP_TABLE_MAX_SIZE -> (least_ap n < 8)%nat.
Proof.
  intros Hl. unfold least_ap. destruct (neighbor_ap_list n) as [|b l]; [done|]. cbn [length] in Hl.
  pose proof (least_recent_in 0 (nb_last_beacon b) 1 l ltac:(lia)). unfold AP_NEIGHBOR_AP_TABLE_MAX_SIZE in Hl. lia.
Qed.

(** An access point that is not in the table gets an entry. *)
Lemma add_neighbor_ok n addr : nb_inv n -> addr <> NULLADDR -> ap_get_ap n addr = None ->
  exists i n', ap_ap_add n addr = Some (i, n') /\ nb_inv n' /\ exists b, neighbor_ap_list n' !! i = Some b /\ nb_addr b = addr.
Proof.
  intros Hn Ha Hg. pose proof (find_ap_None _ _ _ Hg) as Hnew. pose proof (ni_len _ Hn) as Hlen. pose proof (ni_num _ Hn) as Hnum.
  pose proof (count_nonneg nb_used (neighbor_ap_list n)) as Hb. unfold AP_NEIGHBOR_AP_TABLE_MAX_SIZE in Hlen.
  unfold ap_ap_add. cbv zeta.
  change (num_neighbor_ap (n <| num_neighbor_ap := ?m |>)) with m. rewrite u8_small by lia.
  change (ap_get_ap (n <| num_neighbor_ap := ?m |>) NULLADDR) with (ap_get_ap n NULLADDR).
  change (least_ap (n <| num_neighbor_ap := ?m |>)) with (least_ap n).
  assert (forall i b, neighbor_ap_list n !! i = Some b ->
    let b' := nb_zero <| nb_addr := addr |> in
    forall m, m = num_neighbor_ap n - Z.b2z (nb_used b) + 1 -> nb_inv (mk_neighbors m (<[i := b']> (neighbor_ap_list n)))) as Hins.
  { intros i b Hi b' m Hm. assert (nb_used b' = true) as Hu by (by apply nb_used_spec).
    apply (nb_inv_insert n i b); [done|done|congruence| |by rewrite Hu]. intros j c _ Hj _. by apply (Hnew j). }
  destruct (Z.ltb_spec (Z.of_nat AP_NEIGHBOR_AP_TABLE_MAX_SIZE) (num_neighbor_ap n + 1)) as [Hf|Hf].
  - unfold AP_NEIGHBOR_AP_TABLE_MAX_SIZE in Hf. set (k := least_ap n). pose proof (least_ap_in n (ni_len _ Hn)) as Hk. fold k in Hk.
    destruct (lookup_lt_is_Some_2 (neighbor_ap_list n) k) as [b Hkb]; [lia|].
    assert (nb_used b = true) as Hu.
    { destruct (nb_used b) eqn:E; [done|]. pose proof (count_insert nb_used _ k b (b <| nb_addr := addr |>) Hkb) as Hc.
      assert (nb_used (b <| nb_addr := addr |>) = true) as E' by (by apply nb_used_spec). rewrite E, E' in Hc. cbn [Z.b2z] in Hc.
      pose proof (count_nonneg nb_used (<[k := b <| nb_addr := addr |>]> (neighbor_ap_list n))) as Hb2.
      rewrite length_insert in Hb2. lia. }
    change (ap_free_ap (n <| num_neighbor_ap := ?m |>) k)
      with (mk_neighbors (u8 (m - 1)) (<[k := nb_zero]> (neighbor_ap_list n))). rewrite u8_small by lia.
    cbn [mbind option_bind neighbor_ap_list]. rewrite list_lookup_insert_eq by lia. cbn [mbind option_bind].
    eexists k, _. split; [done|].
    change ((mk_neighbors ?m ?l0) <| neighbor_ap_list := ?l |>) with (mk_neighbors m l).
    rewrite list_insert_insert_eq. split; [|exists (nb_zero <| nb_addr := addr |>); split; [|done]; by apply list_lookup_insert_eq; lia].
    apply (Hins k b Hkb). rewrite Hu. cbn [Z.b2z]. lia.
  - unfold AP_NEIGHBOR_AP_TABLE_MAX_SIZE in Hf. destruct (ap_get_ap n NULLADDR) as [k|] eqn:Ek.
    + apply find_ap_Some in Ek as (j & b & -> & Hj & Hz). cbn [Nat.add mbind option_bind].
      change (neighbor_ap_list (n <| num_neighbor_ap := ?m |>)) with (neighbor_ap_list n). rewrite Hj. cbn [mbind option_bind].
      assert (nb_used b = false) as Hu by (unfold nb_used; by rewrite bool_decide_true).
      assert (b = nb_zero) as -> by (by apply (ni_free _ Hn j)). eexists j, _. split; [done|].
      split; [|exists (nb_zero <| nb_addr := addr |>); split; [|done]; apply list_lookup_insert_eq; by eapply lookup_lt_Some].
      apply (Hins j nb_zero Hj). rewrite Hu. cbn. lia.
    + exfalso. rewrite Hnum, (count_full nb_used) in Hf; [lia|]. intros i b Hi. apply nb_used_spec. by eapply find_ap_None.
Qed.

(** An entry is given back. *)
Lemma free_neighbor_ok n i b : nb_inv n -> neighbor_ap_list n !! i = Some b -> nb_last_beacon b <> 0 ->
  nb_inv (ap_free_ap n i).
Proof.
  intros Hn Hi Hl. assert (nb_used b = true) as Hu.
  { destruct (nb_used b) eqn:E; [done|]. by rewrite (ni_free _ Hn i b Hi E) in Hl. }
  change (ap_free_ap n i) with (mk_neighbors (u8 (num_neighbor_ap n - 1)) (<[i := nb_zero]> (neighbor_ap_list n))).
  apply (nb_inv_insert n i b); [done|done|done|done|]. rewrite Hu.
  change (nb_used nb_zero) with false. cbn [Z.b2z].
  pose proof (count_pos nb_used _ _ _ Hi Hu). pose proof (count_nonneg nb_used (neighbor_ap_list n)).
  pose proof (ni_num _ Hn). pose proof (ni_len _ Hn). unfold AP_NEIGHBOR_AP_TABLE_MAX_SIZE in *. rewrite u8_small; lia.
Qed.

(** A beacon is recorded. *)
Lemma contents_ok ies p : (forall q l, p = Some (q, l) -> (q + l <= length ies)%nat) -> exists c, contents ies p = Some c.
Proof.
  intros H. unfold contents. destruct p as [[q l]|]; [|eauto]. specialize (H q l eq_refl). unfold slice.
  rewrite (proj2 (Nat.leb_le _ _)) by lia. cbn. eauto.
Qed.

Lemma record_beacon_ok now bi cb ies E b len : (len <= length ies)%nat ->
  (forall f p l, f <> link_id -> E f = Some (p, l) -> (p + l <= len)%nat) ->
  exists b', record_beacon now bi cb ies E b = Some b' /\ nb_addr b' = nb_addr b /\ nb_last_beacon b' = now.
Proof.
  intros Hl HE. assert (forall f, f <> link_id -> exists c, contents ies (E f) = Some c) as Hc.
  { intros f Hf. apply contents_ok. intros q l Hq. specialize (HE f q l Hf Hq). lia. }
  unfold record_beacon.
  destruct (Hc ssid ltac:(done)) as [c1 ->], (Hc supp_rates ltac:(done)) as [c2 ->], (Hc ext_supp_rates ltac:(done)) as [c3 ->],
    (Hc erp_info ltac:(done)) as [c4 ->], (Hc ds_params ltac:(done)) as [c5 ->]. cbn [mbind option_bind].
  eexists. split; [done|]. split; [|done]. by destruct c1, c5 as [[|? []]|].
Qed.

Section Beacons.
Context (C : ap_static).

Lemma process_beacon_ok a n bssid bi cb ies E len : nb_inv n -> bssid <> NULLADDR -> (len <= length ies)%nat ->
  (forall f p l, f <> link_id -> E f = Some (p, l) -> (p + l <= len)%nat) ->
  exists n' b, neighbor_ap_list_process_beacon C a n bssid bi cb ies E = Some (heed_neighbor C a b, n') /\ nb_inv n' /\
    nb_addr b = bssid /\ nb_last_beacon b = a_jiffies a /\ b ∈ neighbor_ap_list n'.
Proof.
  intros Hn Ha Hl HE. unfold neighbor_ap_list_process_beacon.
  assert (exists i n1 b, match ap_get_ap n bssid with Some i => Some (i, n) | None => ap_ap_add n bssid end = Some (i, n1) /\
    nb_inv n1 /\ neighbor_ap_list n1 !! i = Some b /\ nb_addr b = bssid) as (i & n1 & b & -> & I1 & Hi & Hb).
  { destruct (ap_get_ap n bssid) as [i|] eqn:Eg.
    - apply find_ap_Some in Eg as (j & b & -> & Hj & Hb). by exists j, n, b.
    - destruct (add_neighbor_ok n bssid Hn Ha Eg) as (i & n1 & -> & I1 & b & Hi & Hb). by exists i, n1, b. }
  cbn [mbind option_bind]. rewrite Hi. cbn [mbind option_bind].
  destruct (record_beacon_ok (a_jiffies a) bi cb ies E b len Hl HE) as (b' & -> & Hb' & Ht). cbn [mbind option_bind].
  eexists _, b'. split; [done|].
  change (n1 <| neighbor_ap_list := ?l |>) with (mk_neighbors (num_neighbor_ap n1) l). cbn [neighbor_ap_list].
  assert (nb_used b' = nb_used b) as Hu by (unfold nb_used; by rewrite Hb').
  split; [|split_and!; [congruence|done|]].
  - apply (nb_inv_insert n1 i b); [done|done| |intros j c Hj Hc Hub Heq|rewrite Hu; lia].
    + intros E0. apply not_true_iff_false in E0. destruct E0. rewrite Hu. apply nb_used_spec. congruence.
    + apply Hj. apply (ni_uniq _ I1 j i c b); [done|done| |congruence]. apply nb_used_spec. apply nb_used_spec in Hub. congruence.
  - apply list_elem_of_lookup. exists i. apply list_lookup_insert_eq. by eapply lookup_lt_Some.
Qed.

(** The BSSID of a beacon is not all zeros, and its bytes are there. *)
Definition beacon_frame_ok (mgmt : list Z) (len : nat) : Prop :=
  Forall is_byte mgmt /\ (len <= length mgmt)%nat /\ take 6 (drop 16 mgmt) <> NULLADDR.

Lemma rx_beacon_ok a n mgmt len : nb_inv n -> beacon_frame_ok mgmt len ->
  exists n', nb_inv n' /\
    (ap_mlme_rx_beacon C a n mgmt len = Some (a, n') \/
     exists b, ap_mlme_rx_beacon C a n mgmt len = Some (heed_neighbor C a b, n')).
Proof.
  intros Hn (Hb & Hl & Ha). unfold ap_mlme_rx_beacon. destruct (Nat.ltb_spec len 36); [exists n; split; [done|by left]|].
  destruct (parse_elems_inside (drop 36 mgmt) (len - 36)) as (r & E & -> & HE); [by apply Forall_drop|rewrite length_drop; lia|].
  cbn [mbind option_bind]. unfold slice. rewrite (proj2 (Nat.leb_le _ _)) by lia. cbn [mbind option_bind].
  unfold WPA_GET_LE16. do 4 (match goal with |- context [mgmt !! ?k] =>
    destruct (lookup_lt_is_Some_2 mgmt k) as [? ->]; [lia|] end; cbn [mbind option_bind]).
  match goal with |- context [neighbor_ap_list_process_beacon C a n _ ?bi ?cb] =>
    destruct (process_beacon_ok a n (take 6 (drop 16 mgmt)) bi cb (drop 36 mgmt) E (len - 36) Hn Ha)
      as (n' & b & E' & I' & _); [rewrite length_drop; lia|done|] end.
  exists n'. split; [done|]. right. by exists b.
Qed.

(** ** Expiry *)
Context (ms2tick : Z -> Z).

(** What the timer does to an entry, and the neighbours that stay *)
Definition after_expiry (now : Z) (b : neighbor_ap_info) : neighbor_ap_info :=
  if negb (nb_last_beacon b =? 0) && nb_expired ms2tick now b then nb_zero else b.
Definition heard (now : Z) (l : list neighbor_ap_info) : list neighbor_ap_info :=
  List.filter (fun b => negb (nb_last_beacon b =? 0) && negb (nb_expired ms2tick now b)) l.

Lemma neighbor_expire_ok a : forall m k n olbc olbc_ht, nb_inv n -> (k + m = 8)%nat ->
  let L := neighbor_ap_list n in
  let now := a_jiffies a in
  exists n' o h, expire_neighbors C ms2tick a (seq k m) n olbc olbc_ht = Some (n', o, h) /\ nb_inv n' /\
    neighbor_ap_list n' = take k L ++ map (after_expiry now) (drop k L) /\
    (a_olbc a || a_olbc_ht a = true ->
     o = olbc || existsb (ap_list_beacon_olbc C) (heard now (drop k L)) /\
     h = olbc_ht || existsb (fun b => negb (nb_ht_support b)) (heard now (drop k L))).
Proof.
  induction m as [|m IH]; intros k n olbc olbc_ht Hn Hk L now; cbn [seq expire_neighbors];
    pose proof (ni_len _ Hn) as Hlen; fold L in Hlen; unfold AP_NEIGHBOR_AP_TABLE_MAX_SIZE in Hlen.
  { exists n, olbc, olbc_ht. rewrite drop_ge, take_ge, app_nil_r by lia. split_and!; try done. cbn. by rewrite !orb_false_r. }
  destruct (lookup_lt_is_Some_2 L k) as [b Hb]; [lia|]. pose proof (drop_S L b k Hb) as Hdrop.
  change (neighbor_ap_list n !! k) with (L !! k). rewrite Hb. cbn [mbind option_bind].
  assert (forall n1 o1 h1, nb_inv n1 -> take (S k) (neighbor_ap_list n1) = take k L ++ [after_expiry now b] ->
    drop (S k) (neighbor_ap_list n1) = drop (S k) L ->
    (a_olbc a || a_olbc_ht a = true ->
     o1 = olbc || existsb (ap_list_beacon_olbc C) (heard now [b]) \/ olbc = true /\ o1 = true) -> 
    (a_olbc a || a_olbc_ht a = true ->
     h1 = olbc_ht || existsb (fun b => negb (nb_ht_support b)) (heard now [b]) \/ olbc_ht = true /\ h1 = true) ->
    exists n' o h, expire_neighbors C ms2tick a (seq (S k) m) n1 o1 h1 = Some (n', o, h) /\ nb_inv n' /\
      neighbor_ap_list n' = take k L ++ map (after_expiry now) (drop k L) /\
      (a_olbc a || a_olbc_ht a = true ->
       o = olbc || existsb (ap_list_beacon_olbc C) (heard now (drop k L)) /\
       h = olbc_ht || existsb (fun b => negb (nb_ht_support b)) (heard now (drop k L)))) as Hstep.
  { intros n1 o1 h1 I1 Ht Hdr Ho Hh. destruct (IH (S k) n1 o1 h1 I1 ltac:(lia)) as (n' & o & h & E & I' & L' & O').
    exists n', o, h. split; [done|]. split; [done|]. split.
    - rewrite L', Ht, Hdr, Hdrop. cbn [map]. by rewrite <- app_assoc.
    - intros Hact. destruct (O' Hact) as [-> ->]. rewrite Hdr, Hdrop. unfold heard. fold now. specialize (Ho Hact). specialize (Hh Hact).
      change (List.filter ?p (b :: ?l)) with (if p b then b :: List.filter p l else List.filter p l).
      unfold heard in Ho, Hh. cbn [List.filter] in Ho, Hh.
      destruct (negb (nb_last_beacon b =? 0) && negb (nb_expired ms2tick now b)); cbn [existsb] in *.
      + destruct Ho as [->|[-> ->]], Hh as [->|[-> ->]]; rewrite ?orb_false_r, ?orb_assoc; done.
      + destruct Ho as [->|[-> ->]], Hh as [->|[-> ->]]; rewrite ?orb_false_r; done. }
  assert (take (S k) L = take k L ++ [b]) as Htk by (by apply take_S_r).
  destruct (Z.eqb_spec (nb_last_beacon b) 0) as [Hz|Hz].
  { apply Hstep; [done| |done|intros _; left|intros _; left].
    - unfold after_expiry. rewrite Hz. exact Htk.
    - unfold heard. cbn [List.filter]. rewrite Hz. cbn. by rewrite orb_false_r.
    - unfold heard. cbn [List.filter]. rewrite Hz. cbn. by rewrite orb_false_r. }
  assert ((nb_last_beacon b =? 0) = false) as Hz' by (by apply Z.eqb_neq).
  fold now. destruct (nb_expired ms2tick now b) eqn:Ex.
  { apply Hstep; [by eapply free_neighbor_ok| | |intros _; left|intros _; left].
    - change (neighbor_ap_list (ap_free_ap n k)) with (<[k := nb_zero]> L). unfold after_expiry. rewrite Hz', Ex. cbn [negb andb].
      erewrite take_S_r by (apply list_lookup_insert_eq; lia). by rewrite take_insert_ge by lia.
    - change (neighbor_ap_list (ap_free_ap n k)) with (<[k := nb_zero]> L). by rewrite drop_insert_lt by lia.
    - unfold heard. cbn [List.filter]. rewrite Hz', Ex. cbn. by rewrite orb_false_r.
    - unfold heard. cbn [List.filter]. rewrite Hz', Ex. cbn. by rewrite orb_false_r. }
  assert (after_expiry now b = b) as Hae by (unfold after_expiry; by rewrite Hz', Ex).
  destruct (a_olbc a || a_olbc_ht a) eqn:Hact; cbn [andb]; [destruct (olbc && olbc_ht) eqn:Hall; cbn [negb]|].
  - apply andb_true_iff in Hall as [-> ->]. apply Hstep; [done|by rewrite Hae|done|by right|by right].
  - apply Hstep; [done|by rewrite Hae|done|intros _; left|intros _; left]; unfold heard; cbn [List.filter]; rewrite Hz', Ex; cbn;
      by rewrite orb_false_r.
  - apply Hstep; [done|by rewrite Hae|done|done|done].
Qed.

(** ** Runs *)

Inductive nb_op := NbBeacon (mgmt : list Z) (len : nat) | NbTimer (running : bool) | NbTick (now : Z).

Definition nb_step (w : ApInfo * neighbors) (op : nb_op) : option (ApInfo * neighbors) :=
  let '(a, n) := w in
  match op with
  | NbBeacon mgmt len => ap_mlme_rx_beacon C a n mgmt len
  | NbTimer running => ap_list_timer C ms2tick running a n
  | NbTick now => Some (a <| a_jiffies := now |>, n)
  end.

Fixpoint nb_run (w : ApInfo * neighbors) (ops : list nb_op) : option (ApInfo * neighbors) :=
  match ops with
  | [] => Some w
  | op :: r => w ← nb_step w op; nb_run w r
  end.

Definition nb_op_ok (op : nb_op) : Prop :=
  match op with NbBeacon mgmt len => beacon_frame_ok mgmt len | _ => True end.

Lemma nb_step_ok w op : nb_inv w.2 -> nb_op_ok op -> exists w', nb_step w op = Some w' /\ nb_inv w'.2.
Proof.
  destruct w as [a n]. intros Hn Hop. destruct op as [mgmt len|running|now]; cbn [nb_step nb_op_ok snd] in *.
  - destruct (rx_beacon_ok a n mgmt len Hn Hop) as (n' & I & [->|(b & ->)]); by eexists.
  - unfold ap_list_timer. destruct running; cbn [negb]; [|by eexists].
    destruct (neighbor_expire_ok (start_timer a TApList AP_LIST_TIMER_INTERVAL) 8 0 n false false Hn eq_refl) as (n' & o & h & E & I & _).
    unfold AP_NEIGHBOR_AP_TABLE_MAX_SIZE. rewrite E. cbn [mbind option_bind]. by eexists.
  - by eexists.
Qed.

Lemma nb_run_ok : forall ops w, nb_inv w.2 -> Forall nb_op_ok ops -> exists w', nb_run w ops = Some w' /\ nb_inv w'.2.
Proof.
  induction ops as [|op ops IH]; intros w Hn Hops; cbn [nb_run]; [by eexists|].
  apply list.Forall_cons_1 in Hops as [Hop Hops]. destruct (nb_step_ok w op Hn Hop) as (w1 & -> & I1). by apply IH.
Qed.

(** C17: Any sequence of beacons, whose BSSID is not all zeros, and of expiries,
    starting with the empty table, returns, whatever elements the beacons carry:
    no pointer is [NULL] and nothing outside the table or the frame is accessed.
    Afterwards the counter is the number of neighbours in the table, at most
    eight, and no access point has two entries. *)
Theorem neighbor_table_exact a ops : Forall nb_op_ok ops ->
  exists a' n', nb_run (neighbor_ap_list_init a) ops = Some (a', n') /\
    num_neighbor_ap n' = count nb_used (neighbor_ap_list n') /\ 0 <= num_neighbor_ap n' <= 8 /\
    (forall i j b c, neighbor_ap_list n' !! i = Some b -> neighbor_ap_list n' !! j = Some c ->
       nb_used b = true -> nb_addr b = nb_addr c -> i = j).
Proof.
  intros Hops. destruct (nb_run_ok ops (neighbor_ap_list_init a) (neighbors_init_inv a) Hops) as ([a' n'] & E & [I1 I2 I3 I4]).
  exists a', n'. split; [done|]. split; [done|]. split; [|done]. cbn [snd] in *. rewrite I2.
  pose proof (count_nonneg nb_used (neighbor_ap_list n')). rewrite I1 in *. unfold AP_NEIGHBOR_AP_TABLE_MAX_SIZE in *. lia.
Qed.

Lemma unheed_flags a o h : a_olbc (unheed C a o h) = (if g_erp (st_cfg C) then o && a_olbc a else a_olbc a) /\
  a_olbc_ht (unheed C a o h) = h && a_olbc_ht a.
Proof.
  assert (forall a b, a_olbc (ieee802_11_set_beacon C a b) = a_olbc a /\ a_olbc_ht (ieee802_11_set_beacon C a b) = a_olbc_ht a) as Hbc
    by (intros x y; unfold ieee802_11_set_beacon; by destruct (_ && _)).
  assert (forall a, a_olbc (hostapd_ht_operation_update C a).1 = a_olbc a /\
    a_olbc_ht (hostapd_ht_operation_update C a).1 = a_olbc_ht a) as Hht.
  { intros x. unfold hostapd_ht_operation_update. destruct (negb _); [done|]. repeat (case_match; try done). }
  unfold unheed. set (p1 := if g_erp _ && _ && _ then _ else _).
  assert (a_olbc p1.1 = (if g_erp (st_cfg C) then o && a_olbc a else a_olbc a) /\ a_olbc_ht p1.1 = a_olbc_ht a) as [H1 H2].
  { unfold p1. destruct (g_erp _), o, (a_olbc a) eqn:E; cbn [andb negb fst]; try done. cbv zeta.
    match goal with |- context [if ?c then _ else _] => destruct c end; done. }
  destruct p1 as [a1 b1]. cbn [fst] in *. set (p2 := if negb h && _ then _ else _).
  assert (a_olbc p2.1 = a_olbc a1 /\ a_olbc_ht p2.1 = h && a_olbc_ht a1) as [H3 H4].
  { unfold p2. destruct h, (a_olbc_ht a1) eqn:E; cbn [andb negb fst]; try done. cbv zeta.
    destruct (Hht (a1 <| a_olbc_ht := false |>)) as [Hx Hy]. split; [exact Hx|exact Hy]. }
  destruct p2 as [a2 b2]. cbn [fst] in *. destruct (b1 || b2); [destruct (Hbc a2 true) as [-> ->]|]; rewrite H3, H4, H1, H2; done.
Qed.

(** The timer of the list takes every neighbour out of the table that was not
    heard for six minutes and keeps the others; protection for stations without
    ERP (unless it is disabled) and without HT is given up exactly when no
    neighbour that stays needs it. *)
Theorem expiry_exact a n : nb_inv n ->
  let staying := heard (a_jiffies a) (neighbor_ap_list n) in
  exists a' n', ap_list_timer C ms2tick true a n = Some (a', n') /\ nb_inv n' /\
    neighbor_ap_list n' = map (after_expiry (a_jiffies a)) (neighbor_ap_list n) /\
    a_olbc a' = (if g_erp (st_cfg C) then existsb (ap_list_beacon_olbc C) staying && a_olbc a else a_olbc a) /\
    a_olbc_ht a' = existsb (fun b => negb (nb_ht_support b)) staying && a_olbc_ht a.
Proof.
  intros Hn staying. unfold ap_list_timer. cbn [negb]. set (a1 := start_timer a TApList AP_LIST_TIMER_INTERVAL).
  destruct (neighbor_expire_ok a1 8 0 n false false Hn eq_refl) as (n' & o & h & E & I & L & O).
  unfold AP_NEIGHBOR_AP_TABLE_MAX_SIZE. rewrite E. cbn [mbind option_bind].
  eexists _, n'. split; [done|]. split; [done|]. split; [exact L|]. destruct (unheed_flags a1 o h) as [-> ->].
  change (a_olbc a1) with (a_olbc a) in *. change (a_olbc_ht a1) with (a_olbc_ht a) in *. change (a_jiffies a1) with (a_jiffies a) in *.
  destruct (a_olbc a), (a_olbc_ht a); cbn [orb] in O; try (destruct (O eq_refl) as [-> ->]); rewrite ?andb_false_r; done.
Qed.
End Beacons.

(** ** Concrete neighbours *)

(** A beacon with a DS parameter element (channel 6) and an ERP element *)
Definition nb_frame (bssid : list Z) (erp : Z) : list Z :=
  replicate 16 0 ++ bssid ++ [0; 0] ++ replicate 8 0 ++ [100; 0; 1; 0] ++ [3; 1; 6; 42; 1; erp; 1; 1; 0x8c].
Definition nb_beacon (bssid : list Z) (erp : Z) : nb_op := NbBeacon (nb_frame bssid erp) 45.
Definition nb_bssid (k : Z) : list Z := [2; 1; 0; 0; 0; k].
Definition nb_static : ap_static := demo_static false demo_rates.
Definition nb_ops : list nb_op := NbTick 1000 :: map (fun k => nb_beacon (nb_bssid k) 1) [1; 2; 3; 4; 5; 6; 7; 8; 9; 3]
  ++ [NbTick 400000; nb_beacon (nb_bssid 2) 0; NbTimer true].

Lemma nb_beacon_ok k erp : is_byte k -> is_byte erp -> nb_op_ok (nb_beacon (nb_bssid k) erp).
Proof.
  intros Hk He. split; [|split; [cbn; lia|done]].
  cbv -[is_byte]. repeat (constructor; [first [exact Hk|exact He|unfold is_byte; lia]|]). constructor.
Qed.

Lemma neighbor_table_exact_witness : exists a' n',
  nb_run nb_static (fun ms => ms) (neighbor_ap_list_init demo_ap) nb_ops = Some (a', n') /\ num_neighbor_ap n' = 1 /\
  a_olbc a' = false /\ a_olbc_ht a' = true.
Proof.
  destruct (neighbor_table_exact nb_static (fun ms => ms) demo_ap nb_ops) as (a' & n' & E & _).
  { repeat (constructor; [first [exact I|by apply nb_beacon_ok; unfold is_byte; lia]|]). constructor. }
  exists a', n'. split; [exact E|].
  assert (fmap (fun w => (num_neighbor_ap w.2, a_olbc w.1, a_olbc_ht w.1))
    (nb_run nb_static (fun ms => ms) (neighbor_ap_list_init demo_ap) nb_ops) = Some (1, false, true)) as H by (vm_compute; reflexivity).
  rewrite E in H. cbn [fmap option_fmap option_map fst snd] in H. apply (inj Some) in H.
  injection H as H1 H2 H3. split; [exact H1|]. split; [exact H2|exact H3].
Defined.

Lemma expiry_exact_witness : exists a' n',
  let w := default (demo_ap, mk_neighbors 0 []) (nb_run nb_static (fun ms => ms) (neighbor_ap_list_init demo_ap) (take 11 nb_ops)) in
  let a := w.1 <| a_jiffies := 362000 |> in
  ap_list_timer nb_static (fun ms => ms) true a w.2 = Some (a', n') /\ a_olbc a = true /\ a_olbc a' = false.
Proof.
  set (w := default _ _). set (a := w.1 <| a_jiffies := 362000 |>).
  assert (nb_inv w.2) as Hn.
  { destruct (nb_run_ok nb_static (fun ms => ms) (take 11 nb_ops) (neighbor_ap_list_init demo_ap)) as ([a1 n1] & E & I).
    - apply neighbors_init_inv.
    - repeat (constructor; [first [exact I|by apply nb_beacon_ok; unfold is_byte; lia]|]). constructor.
    - unfold w. rewrite E. exact I. }
  destruct (expiry_exact nb_static (fun ms => ms) a w.2 Hn) as (a' & n' & E & _ & _ & O & _).
  exists a', n'. split; [exact E|]. split; [vm_compute; reflexivity|]. rewrite O. vm_compute. reflexivity.
Defined.

(** A beacon whose BSSID is all zeros is recorded in a free entry without being
    counted; when it expires the counter is one too small, and with the ninth
    neighbour no entry is found: the address is written through [NULL]. *)
Example zero_bssid_faults :
  nb_run nb_static (fun ms => ms) (neighbor_ap_list_init demo_ap)
    ([NbTick 1; nb_beacon NULLADDR 0; NbTick 400000; NbTimer true] ++ map (fun k => nb_beacon (nb_bssid k) 0) [1; 2; 3; 4; 5; 6; 7; 8; 9])
  = None.
Proof. vm_compute. reflexivity. Qed.
