(* ===== verification/ApMlme.v ===== *)
(** * ApMlme: management frames

    [ap/ap_mlme.c], the association part of [ap/ieee802_11_mgmt.c], the station
    part of [ap/ieee802_11_ht.c] and the calls of the authenticator in
    [ap/wpa_auth.c]: authentication, association, disassociation,
    deauthentication and probe requests of stations, the frames that answer them,
    and the EAPOL frames that the authenticator of [WpaAuth] handles.

    A received frame is its buffer [mgmt] and its length [len]; the buffer is
    longer than the frame.  [None] is a fault: an access outside the buffer, or a
    fault of one of the parts.  The received frame is freed at the end of
    [AP_RxHandleAPMode] in every case. *)

From stdpp Require Import base list option.
From Stdlib Require Import ZArith Lia.
From S2P Require Import Prelude Words Wire HciAggr Ie80211 WpaIe Rc4 WpaAuth Reorder Regulatory ApInfo ApElem ApPower ApSta NeighborAp.

Definition WLAN_STATUS_SUCCESS : Z := 0.
Definition WLAN_STATUS_UNSPECIFIED_FAILURE : Z := 1.
Definition WLAN_STATUS_NOT_SUPPORTED_AUTH_ALG : Z := 13.
Definition WLAN_STATUS_UNKNOWN_AUTH_TRANSACTION : Z := 14.
Definition WLAN_STATUS_CHALLENGE_FAIL : Z := 15.
Definition WLAN_STATUS_AP_UNABLE_TO_HANDLE_NEW_STA : Z := 17.
Definition WLAN_STATUS_INVALID_IE : Z := 40.
Definition WLAN_STATUS_INVALID_GROUP_CIPHER : Z := 41.
Definition WLAN_STATUS_INVALID_PAIRWISE_CIPHER : Z := 42.
Definition WLAN_STATUS_INVALID_AKMP : Z := 43.
Definition WLAN_STATUS_ASSOC_DENIED_LISTEN_INT_TOO_LARGE : Z := 51.
Definition WLAN_STATUS_INVALID_MDIE : Z := 54.
Definition WLAN_REASON_MIC_FAILURE : Z := 14.
Definition WLAN_AUTH_OPEN : Z := 0.
Definition WLAN_AUTH_SHARED_KEY : Z := 1.
Definition WPA_AUTH_ALG_OPEN : Z := BIT 0.
Definition WPA_AUTH_ALG_SHARED : Z := BIT 1.
Definition WLAN_AUTH_CHALLENGE_LEN : nat := 128.
Definition WLAN_FC_ISWEP : Z := 0x4000.
Definition AP_MAX_LISTEN_INTERVAL : Z := 65534.
Definition WLAN_SUPP_RATES_MAX : nat := 32.
Definition HT_CAP_INFO_SUPP_CHANNEL_WIDTH_SET : Z := BIT 1.
Definition HT_CAP_INFO_GREEN_FIELD : Z := BIT 4.
Definition WMM_QOSINFO_STA_AC_MASK : Z := 0x0f.
Definition WMM_QOSINFO_STA_SP_MASK : Z := 0x03.
Definition WMM_QOSINFO_STA_SP_SHIFT : Z := 5.

(** ** The elements of an association request *)

Section Assoc.
Context (C : ap_static).
Local Notation cf := (st_config C).

(** [check_ssid] *)
Definition check_ssid (ies : list Z) (p : option (nat * nat)) : option Z :=
  c ← contents ies p;
  Some (match c with
        | Some name => if bool_decide (name = cf_ssid cf) then WLAN_STATUS_SUCCESS else WLAN_STATUS_UNSPECIFIED_FAILURE
        | None => WLAN_STATUS_UNSPECIFIED_FAILURE
        end).

(** [check_wmm]: an element that is not valid is reported and used; the QoS
    information is its seventh byte, whatever its length. *)
Definition check_wmm (ies : list Z) (p : option (nat * nat)) (s : APStaInfo) : option APStaInfo :=
  let s := (clear_sta_flag s WLAN_STA_WMM) <| s_uapsd_queues := 0 |> <| s_max_sp := 0 |> in
  match p with
  | None => Some s
  | Some (pos, _) =>
      qos_info ← ies !! (pos + 6)%nat;
      Some ((set_sta_flag s WLAN_STA_WMM) <| s_uapsd_queues := Z.land qos_info WMM_QOSINFO_STA_AC_MASK |>
              <| s_max_sp := Z.land (Z.shiftr qos_info WMM_QOSINFO_STA_SP_SHIFT) WMM_QOSINFO_STA_SP_MASK |>)
  end.

(** [copy_supp_rates] *)
Definition copy_supp_rates (ies : list Z) (elems : ieee802_11_elems) (s : APStaInfo) : option (Z * APStaInfo) :=
  match elems supp_rates with
  | None => Some (WLAN_STATUS_UNSPECIFIED_FAILURE, s)
  | Some (pos, len) =>
      if (WLAN_SUPP_RATES_MAX <? len)%nat then Some (WLAN_STATUS_UNSPECIFIED_FAILURE, s)
      else
        rates ← slice ies pos len;
        let s := s <| s_supported_rates := rates |> in
        match elems ext_supp_rates with
        | None => Some (WLAN_STATUS_SUCCESS, s)
        | Some (pos2, len2) =>
            if (WLAN_SUPP_RATES_MAX <? len + len2)%nat then Some (WLAN_STATUS_UNSPECIFIED_FAILURE, s)
            else
              ext ← slice ies pos2 len2;
              Some (WLAN_STATUS_SUCCESS, s <| s_supported_rates := rates ++ ext |>)
        end
  end.

(** [copy_sta_ht_capab]: 26 bytes are copied, whatever the length of the element. *)
Definition copy_sta_ht_capab (ies : list Z) (p : option (nat * nat)) (s : APStaInfo) : option APStaInfo :=
  match p with
  | Some (pos, _) =>
      if negb (test_sta_flag s WLAN_STA_WMM) || cf_disable_11n cf
      then Some ((clear_sta_flag s WLAN_STA_HT) <| s_ht_capabilities := replicate 26 0 |>)
      else
        c ← slice ies pos 26;
        Some ((set_sta_flag s WLAN_STA_HT) <| s_ht_capabilities := c |>)
  | None => Some ((clear_sta_flag s WLAN_STA_HT) <| s_ht_capabilities := replicate 26 0 |>)
  end.

(** The security element that the policy asks for: its contents *)
Definition wpa_element (elems : ieee802_11_elems) : option (nat * nat) :=
  let wpa := conf_wpa (conf (st_wpa C)) in
  match (if has wpa WPA_PROTO_RSN then elems rsn_ie else None) with
  | Some p => Some p
  | None => if has wpa WPA_PROTO_WPA then elems wpa_ie else None
  end.

Definition status_of (res : wpa_validate_res) : Z :=
  match res with
  | WPA_INVALID_GROUP => WLAN_STATUS_INVALID_GROUP_CIPHER
  | WPA_INVALID_PAIRWISE => WLAN_STATUS_INVALID_PAIRWISE_CIPHER
  | WPA_INVALID_AKMP => WLAN_STATUS_INVALID_AKMP
  | WPA_ALLOC_FAIL => WLAN_STATUS_UNSPECIFIED_FAILURE
  | WPA_INVALID_MDIE => WLAN_STATUS_INVALID_MDIE
  | WPA_IE_OK => WLAN_STATUS_SUCCESS
  | _ => WLAN_STATUS_INVALID_IE
  end.

(** The security part of [check_assoc_ies].  The element starts two bytes before
    its contents; the selectors that [wpa_validate_wpa_ie] records are not kept.
    [malloc_ok] tells whether its allocation succeeds. *)
Definition check_security (malloc_ok : bool) (ies : list Z) (elems : ieee802_11_elems) (s : APStaInfo) :
  option (Z * APStaInfo) :=
  let cfg := conf (st_wpa C) in
  if conf_wpa cfg =? 0 then
    let m := s_wpa_sm s in
    Some (WLAN_STATUS_SUCCESS,
          if started m
          then let t := assoc m in
               s <| s_wpa_sm := m <| assoc := mk_sta (sta_wpa t) (sta_pairwise t) 0 (sta_wpa_ie t) (sta_wpa_ie_len t) |> |>
          else s)
  else
    match wpa_element elems with
    | None => Some (WLAN_STATUS_INVALID_IE, s)
    | Some (pos, len) =>
        let m := wpa_auth_sta_init (s_addr s) in
        '(res, _, t) ← wpa_validate_wpa_ie cfg (mk_selected 0 0 0) (assoc m) malloc_ok (replicate (len + 2) 0)
                         (Some (drop (pos - 2) ies)) (len + 2);
        Some (status_of res, s <| s_wpa_sm := m <| assoc := t |> |>)
    end.

(** [check_assoc_ies]; one step of the allocation oracle is taken per request,
    whether or not the security element is reached. *)
Definition check_ies (malloc_ok : bool) (ies : list Z) (left : nat) (s : APStaInfo) : option (Z * APStaInfo) :=
  '(r, elems) ← ieee802_11_parse_elems ies left;
  match r with
  | ParseFailed => Some (WLAN_STATUS_UNSPECIFIED_FAILURE, s)
  | _ =>
      resp ← check_ssid ies (elems ssid);
      if negb (resp =? WLAN_STATUS_SUCCESS) then Some (resp, s)
      else
        s ← check_wmm ies (elems wmm) s;
        '(resp, s) ← copy_supp_rates ies elems s;
        if negb (resp =? WLAN_STATUS_SUCCESS) then Some (resp, s)
        else
          s ← copy_sta_ht_capab ies (elems ht_capabilities) s;
          check_security malloc_ok ies elems s
  end.
Definition check_assoc_ies (a : ApInfo) (i : nat) (ies : list Z) (left : nat) : option (Z * ApInfo) :=
  s ← a_StaConInfo a !! i;
  '(resp, s) ← check_ies (allocs (st_wpa C) (a_nalloc a)) ies left s;
  Some (resp, set_sta (a <| a_nalloc := S (a_nalloc a) |>) i s).

(** ** What an associated station changes *)

Definition assoc_non_erp (a : ApInfo) (i : nat) (s : APStaInfo) : ApInfo * APStaInfo :=
  let s := if st_eCurrentApMode C =? AP_MODE_IEEE80211G then set_sta_flag s WLAN_STA_NONERP else s in
  let s := if existsb (fun r => 22 <? Z.land r 0x7f) (s_supported_rates s) then clear_sta_flag s WLAN_STA_NONERP else s in
  if g_erp (st_cfg C) && test_sta_flag s WLAN_STA_NONERP && negb (s_nonerp_set s) then
    let s := s <| s_nonerp_set := true |> in
    let a := set_sta (a <| a_num_sta_non_erp := u8 (a_num_sta_non_erp a + 1) |>) i s in
    (if a_num_sta_non_erp a =? 1 then ieee802_11_set_beacon C (ap_emit a (SetErpProtect true)) true else a, s)
  else (set_sta a i s, s).

(** The beacon is written anew for every such station: only the first statement
    depends on the test. *)
Definition assoc_slot_time (a : ApInfo) (i : nat) (s : APStaInfo) : ApInfo * APStaInfo :=
  if negb (has (s_capability s) WLAN_CAPABILITY_SHORT_SLOT_TIME) && negb (s_no_short_slot_time_set s) then
    let s := s <| s_no_short_slot_time_set := true |> in
    let a := set_sta (a <| a_num_sta_no_short_slot_time := u8 (a_num_sta_no_short_slot_time a + 1) |>) i s in
    let a := if (st_eCurrentApMode C =? AP_MODE_IEEE80211G) && (a_num_sta_no_short_slot_time a =? 1)
             then ap_emit a (SetShortSlot false) else a in
    (ieee802_11_set_beacon C a true, s)
  else (a, s).

Definition assoc_preamble (a : ApInfo) (i : nat) (s : APStaInfo) : ApInfo * APStaInfo :=
  let short := has (s_capability s) WLAN_CAPABILITY_SHORT_PREAMBLE in
  let s := if short then set_sta_flag s WLAN_STA_SHORT_PREAMBLE else clear_sta_flag s WLAN_STA_SHORT_PREAMBLE in
  if negb short && negb (s_no_short_preamble_set s) then
    let s := s <| s_no_short_preamble_set := true |> in
    let a := set_sta (a <| a_num_sta_no_short_preamble := u8 (a_num_sta_no_short_preamble a + 1) |>) i s in
    (if (st_eCurrentApMode C =? AP_MODE_IEEE80211G) && (a_num_sta_no_short_preamble a =? 1)
     then ieee802_11_set_beacon C a true else a, s)
  else (set_sta a i s, s).

(** [update_sta_ht], [update_sta_no_ht], [update_ht_state] *)
Definition update_sta_ht (a : ApInfo) (i : nat) (s : APStaInfo) : option (ApInfo * APStaInfo) :=
  ht_capab ← WPA_GET_LE16 (s_ht_capabilities s) 0;
  let '(a, s) := if negb (has ht_capab HT_CAP_INFO_GREEN_FIELD) && negb (s_no_ht_gf_set s)
                 then (a <| a_num_sta_ht_no_gf := s32 (a_num_sta_ht_no_gf a + 1) |>, s <| s_no_ht_gf_set := true |>)
                 else (a, s) in
  let '(a, s) := if negb (has ht_capab HT_CAP_INFO_SUPP_CHANNEL_WIDTH_SET) && negb (s_ht_20mhz_set s)
                 then (a <| a_num_sta_ht_20mhz := s32 (a_num_sta_ht_20mhz a + 1) |>, s <| s_ht_20mhz_set := true |>)
                 else (a, s) in
  Some (set_sta a i s, s).
Definition update_sta_no_ht (a : ApInfo) (i : nat) (s : APStaInfo) : ApInfo * APStaInfo :=
  if s_no_ht_set s then (a, s)
  else let s := s <| s_no_ht_set := true |> in
       (set_sta (a <| a_num_sta_no_ht := s32 (a_num_sta_no_ht a + 1) |>) i s, s).
Definition update_ht_state (a : ApInfo) (i : nat) (s : APStaInfo) : option (ApInfo * APStaInfo) :=
  '(a, s) ← (if test_sta_flag s WLAN_STA_HT then update_sta_ht a i s else Some (update_sta_no_ht a i s));
  let '(a, changed) := ht_update C a in
  Some (if changed then ieee802_11_set_beacon C a true else a, s).
End Assoc.

(** ** The authenticator *)

(** The pending timeouts of a station's handshake *)
Definition eapol_timers (i : nat) (l : list (ap_timer * Z)) : list Z :=
  map snd (filter (fun p => p.1 = TEapol i) l).

(** What the authenticator sees of the access point and of station [i] *)
Definition auth_view (a : ApInfo) (i : nat) (s : APStaInfo) : auth_state :=
  mk_auth (s_wpa_sm s) (a_Counter a) (a_handshake_failures a) (a_mic_failures a)
    (test_sta_flag s WLAN_STA_VALID) (eapol_timers i (a_timers a)) (a_nalloc a) [].

Section Mlme.
Context `{KC : KeyCrypto} (C : ap_static).
Local Notation cf := (st_config C).
Local Notation wpa := (conf (st_wpa C)).

(** What the authenticator does is done to the station with the address of the
    state machine, as the source looks it up. *)
Definition auth_effect (sta : list Z) (a : ApInfo) (e : effect) : option ApInfo :=
  match e, APStaInfo_FindStaByAddr a sta with
  | Authorize, Some j => ap_sta_set_authorized C a j true
  | Deauthenticate, Some j => deauth_and_remove C a j
  | Authorize, None | Deauthenticate, None => Some a
  | SendEapol _ _, j | SetKey _ _ _, j => Some (ap_emit a (WpaEffect (default 0%nat j) e))
  end.
Fixpoint auth_effects (sta : list Z) (a : ApInfo) (l : list effect) : option ApInfo :=
  match l with
  | [] => Some a
  | e :: r => a ← auth_effect sta a e; auth_effects sta a r
  end.

(** A call of the authenticator for station [i] *)
Definition auth_merge (a : ApInfo) (i : nat) (b : auth_state) : option ApInfo :=
  let rest := filter (fun p => p.1 <> TEapol i) (a_timers a) in
  let a := a <| a_Counter := Counter b |> <| a_handshake_failures := handshake_failures b |>
             <| a_mic_failures := mic_failures b |> <| a_nalloc := nalloc b |>
             <| a_timers := rest ++ map (pair (TEapol i)) (timers b) |> in
  upd_sta a i (fun s => s <| s_wpa_sm := sm b |>).
Definition with_auth (a : ApInfo) (i : nat) (f : auth_state -> option auth_state) : option ApInfo :=
  s ← a_StaConInfo a !! i;
  b ← f (auth_view a i s);
  a ← auth_effects (WpaAuth.addr (s_wpa_sm s)) a (out b);
  auth_merge a i b.

Definition auth_event (e : wpa_event) (b : auth_state) : option auth_state :=
  snd <$> wpa_auth_sm_event (st_wpa C) b e.
Definition auth_associated (b : auth_state) : option auth_state := snd <$> wpa_auth_sta_associated (st_wpa C) b.

(** [process_4Ways_start] *)
Definition process_4Ways_start (a : ApInfo) (i : nat) : option ApInfo :=
  s ← a_StaConInfo a !! i;
  if s_assocRsp s && s_addStaFlag s then
    a ← (if s_reassoc s then with_auth a i (auth_event WPA_REAUTH) else with_auth a i auth_associated);
    upd_sta a i (fun s => s <| s_assocRsp := false |> <| s_reassoc := false |> <| s_addStaFlag := false |>)
  else Some a.

(** [start_4way_handshake]: the answer of the firmware to [SetSta].  Without an
    entry of that index the last entry is used. *)
Fixpoint find_wsid (wsid : Z) (i : nat) (l : list APStaInfo) : nat :=
  match l with
  | [] => i - 1
  | s :: r => if s_wsid_idx s =? wsid then i else find_wsid wsid (S i) r
  end.
Definition start_4way_handshake (a : ApInfo) (wsid : Z) : option ApInfo :=
  let i := find_wsid wsid 0 (a_StaConInfo a) in
  a ← upd_sta a i (fun s => s <| s_addStaFlag := true |>);
  if conf_wpa wpa =? WPA_PROTO_RSN then process_4Ways_start a i else Some a.

(** The timeout of a handshake *)
Definition fire_eapol_timer (a : ApInfo) (i : nat) : option ApInfo :=
  with_auth a i (wpa_send_eapol_timeout (st_wpa C)).

(** ** Association *)

(** [send_assoc_resp] *)
Definition send_assoc_resp (a : ApInfo) (i : nat) (status_code : Z) (reassoc : bool) : option ApInfo :=
  s ← a_StaConInfo a !! i;
  a ← put_addrs C a (if reassoc then 0x30 else 0x10) (s_addr s) (st_own_addr C);
  a ← mgmt_put a 22 (WPA_PUT_LE16 0x0010);
  a ← mgmt_put a 24 (WPA_PUT_LE16 (hostapd_own_capab_info C a));
  a ← mgmt_put a 26 (WPA_PUT_LE16 status_code);
  a ← mgmt_put a 28 (WPA_PUT_LE16 (Z.lor (s_aid s) (Z.lor (BIT 14) (BIT 15))));
  let ies := hostapd_eid_supp_rates C ++ hostapd_eid_ext_supp_rates C ++ hostapd_eid_ht_capabilities C
             ++ hostapd_eid_ht_operation C a ++ (if test_sta_flag s WLAN_STA_WMM then hostapd_eid_wmm C else []) in
  a ← mgmt_put a 30 ies;
  ap_soc_data_send C a (30 + length ies) 0.

(** The end of a successful association, up to the answer *)
Definition assoc_done (a : ApInfo) (i : nat) (capab_info listen_interval : Z) (previous_ap : option (list Z)) : option ApInfo :=
  s ← a_StaConInfo a !! i;
  let s := s <| s_capability := capab_info |> <| s_listen_interval := listen_interval |> in
  let '(a, s) := assoc_non_erp C a i s in
  let '(a, s) := assoc_slot_time C a i s in
  let '(a, s) := assoc_preamble C a i s in
  '(a, s) ← update_ht_state C a i s;
  let a := set_sta a i (set_sta_flag s WLAN_STA_ASSOC) in
  a ← (if conf_wpa_key_mgmt wpa =? WPA_KEY_MGMT_PSK then Some a else ap_sta_set_authorized C a i true);
  s ← a_StaConInfo a !! i;
  let s := match previous_ap with Some p => s <| s_previous_ap := p |> | None => s end in
  let s := s <| s_timeout_next := STA_NULLFUNC |> <| s_addStaFlag := false |> <| s_assocRsp := false |>
             <| s_reassoc := false |> in
  let a := ap_soc_cmd_sta_oper C (set_sta a i s) true s in
  Some (if bool_decide (st_sec_type C = SSV6XXX_SEC_WEP_40) || bool_decide (st_sec_type C = SSV6XXX_SEC_WEP_104)
        then ap_emit a (SetWep (s_addr s)) else a).

(** The end of [handle_assoc]: a station that is refused is freed before it is
    answered. *)
Definition assoc_refuse (a : ApInfo) (i : nat) (resp : Z) (reassoc : bool) : option ApInfo :=
  a ← APStaInfo_free C a i; send_assoc_resp a i resp reassoc.
Definition assoc_accept (a : ApInfo) (i : nat) (reassoc : bool) : option ApInfo :=
  a ← send_assoc_resp a i WLAN_STATUS_SUCCESS reassoc;
  if conf_wpa_key_mgmt wpa =? WPA_KEY_MGMT_PSK then
    a ← process_4Ways_start a i;
    upd_sta a i (fun s => s <| s_assocRsp := true |>)
  else Some a.

(** [handle_assoc] for station [i], which is authenticated *)
Definition assoc_station (a : ApInfo) (i : nat) (mgmt : list Z) (len : nat) (reassoc : bool) : option ApInfo :=
  let body := (if reassoc then 34 else 28)%nat in
  capab_info ← WPA_GET_LE16 mgmt 24;
  listen_interval ← WPA_GET_LE16 mgmt 26;
  if st_tkip_countermeasures C then assoc_refuse a i WLAN_REASON_MIC_FAILURE reassoc
  else if AP_MAX_LISTEN_INTERVAL <? listen_interval
  then assoc_refuse a i WLAN_STATUS_ASSOC_DENIED_LISTEN_INT_TOO_LARGE reassoc
  else
    '(resp, a) ← check_assoc_ies C a i (drop body mgmt) (len - body);
    if negb (resp =? WLAN_STATUS_SUCCESS) then assoc_refuse a i resp reassoc
    else
      '(room, a) ← hostapd_get_aid C a i;
      if negb (room : bool) then assoc_refuse a i WLAN_STATUS_AP_UNABLE_TO_HANDLE_NEW_STA reassoc
      else
        current_ap ← (if reassoc then p ← slice mgmt 28 6; Some (Some p) else Some None);
        a ← assoc_done a i capab_info listen_interval current_ap;
        assoc_accept a i reassoc.
Definition handle_assoc (a : ApInfo) (mgmt : list Z) (len : nat) (reassoc : bool) : option ApInfo :=
  if (len <? (if reassoc then 34 else 28))%nat then Some a
  else
    sa ← slice mgmt 10 6;
    let refused := if is_valid_ether_addr sa
                   then i802_sta_deauth C a sa WLAN_REASON_CLASS2_FRAME_FROM_NONAUTH_STA else Some a in
    match APStaInfo_FindStaByAddr a sa with
    | None => refused
    | Some i =>
        s ← a_StaConInfo a !! i;
        if test_sta_flag s WLAN_STA_AUTH then assoc_station a i mgmt len reassoc else refused
    end.

(** ** Leaving *)

(** [ap_mlme_rx_disassoc] *)
Definition ap_mlme_rx_disassoc (a : ApInfo) (mgmt : list Z) (len : nat) : option ApInfo :=
  if (len <? 26)%nat then Some a
  else
    sa ← slice mgmt 10 6;
    match APStaInfo_FindStaByAddr a sa with
    | None => Some a
    | Some i => a ← change_sta_disassoc_to_deauth C a i true; APStaInfo_free C a i
    end.

(** [ap_mlme_rx_deauth] *)
Definition ap_mlme_rx_deauth (a : ApInfo) (mgmt : list Z) (len : nat) : option ApInfo :=
  if (len <? 26)%nat then Some a
  else
    sa ← slice mgmt 10 6;
    match APStaInfo_FindStaByAddr a sa with
    | None => Some a
    | Some i =>
        a ← ap_sta_set_authorized C a i false;
        a ← upd_sta a i (fun s =>
              clear_sta_flag s (Z.lor WLAN_STA_AUTH (Z.lor WLAN_STA_ASSOC WLAN_STA_ASSOC_REQ_OK)));
        a ← (if conf_wpa_key_mgmt wpa =? WPA_KEY_MGMT_PSK then with_auth a i (auth_event WPA_DEAUTH) else Some a);
        APStaInfo_free C a i
    end.

(** ** Authentication *)

(** What the handler takes from the outside: the value of [OS_Random] and the
    bytes of the memory that is allocated for a challenge *)
Record auth_env := mk_auth_env { ae_random : Z; ae_fresh : list Z }.

Definition le32 (v : Z) : list Z := WPA_PUT_LE16 v ++ WPA_PUT_LE16 (Z.shiftr (u32 v) 16).

(** [auth_shared_key] *)
Definition auth_shared_key (e : auth_env) (a : ApInfo) (s : APStaInfo) (auth_transaction : Z) (challenge : option (list Z))
    (iswep : bool) : Z * APStaInfo * ApInfo :=
  if auth_transaction =? 1 then
    match s_challenge s with
    | Some _ => (0, s, a)
    | None =>
        let ok := allocs (st_wpa C) (a_nalloc a) in
        let a := a <| a_nalloc := S (a_nalloc a) |> in
        if ok
        then (0, s <| s_challenge := Some (rc4_skip (le32 (a_jiffies a) ++ le32 (ae_random e)) 8 0 (ae_fresh e)) |>, a)
        else (WLAN_STATUS_UNSPECIFIED_FAILURE, s, a)
    end
  else if negb (auth_transaction =? 3) then (WLAN_STATUS_UNSPECIFIED_FAILURE, s, a)
  else
    match iswep, s_challenge s, challenge with
    | true, Some mine, Some c =>
        if bool_decide (mine = c) then (0, (set_sta_flag s WLAN_STA_AUTH) <| s_challenge := None |>, a)
        else (WLAN_STATUS_CHALLENGE_FAIL, s, a)
    | _, _, _ => (WLAN_STATUS_CHALLENGE_FAIL, s, a)
    end.

(** [send_auth_reply] *)
Definition send_auth_reply (a : ApInfo) (dst bssid : list Z) (auth_alg auth_transaction resp : Z) (ies : list Z) : option ApInfo :=
  a ← put_addrs C a 0xb0 dst bssid;
  a ← mgmt_put a 24 (WPA_PUT_LE16 auth_alg);
  a ← mgmt_put a 26 (WPA_PUT_LE16 auth_transaction);
  a ← mgmt_put a 28 (WPA_PUT_LE16 resp);
  a ← mgmt_put a 30 ies;
  ap_soc_data_send C a (30 + length ies) 0.

(** The tests before a station is entered: the status *)
Definition auth_check (sa : list Z) (auth_alg auth_transaction : Z) : Z :=
  if st_tkip_countermeasures C then WLAN_REASON_MIC_FAILURE
  else if negb ((has (st_auth_algs C) WPA_AUTH_ALG_OPEN && (auth_alg =? WLAN_AUTH_OPEN)) ||
                (has (st_auth_algs C) WPA_AUTH_ALG_SHARED && (auth_alg =? WLAN_AUTH_SHARED_KEY)))
  then WLAN_STATUS_NOT_SUPPORTED_AUTH_ALG
  else if negb ((auth_transaction =? 1) || ((auth_alg =? WLAN_AUTH_SHARED_KEY) && (auth_transaction =? 3)))
  then WLAN_STATUS_UNKNOWN_AUTH_TRANSACTION
  else if bool_decide (sa = st_own_addr C) then WLAN_STATUS_UNSPECIFIED_FAILURE
  else WLAN_STATUS_SUCCESS.

(** The [switch (auth_alg)]: the status, the elements of the answer and the state *)
Definition auth_station (e : auth_env) (a : ApInfo) (i : nat) (auth_alg auth_transaction : Z) (challenge : option (list Z))
    (iswep : bool) : option (Z * list Z * ApInfo) :=
  s ← a_StaConInfo a !! i;
  if auth_alg =? WLAN_AUTH_OPEN
  then Some (WLAN_STATUS_SUCCESS, [], set_sta a i ((set_sta_flag s WLAN_STA_AUTH) <| s_auth_alg := WLAN_AUTH_OPEN |>))
  else
    let '(resp, s, a) := auth_shared_key e a s auth_transaction challenge iswep in
    let s := s <| s_auth_alg := WLAN_AUTH_SHARED_KEY |> in
    let ies := match s_challenge s with
               | Some c => if auth_transaction =? 1 then [WLAN_EID_CHALLENGE; Z.of_nat WLAN_AUTH_CHALLENGE_LEN] ++ take WLAN_AUTH_CHALLENGE_LEN c
                           else []
               | None => []
               end in
    Some (resp, ies, set_sta a i s).

(** The challenge text of a frame, when it has one *)
Definition auth_challenge (mgmt : list Z) (len : nat) : option (option (list Z)) :=
  if (30 + 2 + WLAN_AUTH_CHALLENGE_LEN <=? len)%nat then
    id ← mgmt !! 30%nat;
    l ← mgmt !! 31%nat;
    if (id =? WLAN_EID_CHALLENGE) && (l =? Z.of_nat WLAN_AUTH_CHALLENGE_LEN)
    then c ← slice mgmt 32 WLAN_AUTH_CHALLENGE_LEN; Some (Some c)
    else Some None
  else Some None.

(** [ap_mlme_rx_auth] *)
Definition ap_mlme_rx_auth (e : auth_env) (a : ApInfo) (mgmt : list Z) (len : nat) : option ApInfo :=
  if (len <? 30)%nat then Some a
  else
    fc ← WPA_GET_LE16 mgmt 0;
    sa ← slice mgmt 10 6;
    bssid ← slice mgmt 16 6;
    auth_alg ← WPA_GET_LE16 mgmt 24;
    auth_transaction ← WPA_GET_LE16 mgmt 26;
    challenge ← auth_challenge mgmt len;
    let reply a resp ies := send_auth_reply a sa bssid auth_alg (auth_transaction + 1) resp ies in
    let resp := auth_check sa auth_alg auth_transaction in
    if negb (resp =? WLAN_STATUS_SUCCESS) then reply a resp []
    else
      '(sta, a) ← APStaInfo_add C a sa;
      match sta with
      | None => reply a WLAN_STATUS_AP_UNABLE_TO_HANDLE_NEW_STA []
      | Some i =>
          '(resp, ies, a) ← auth_station e a i auth_alg auth_transaction challenge (has fc WLAN_FC_ISWEP);
          a ← (if resp =? WLAN_STATUS_SUCCESS then Some a else APStaInfo_free C a i);
          reply a resp ies
      end.

(** ** Probe requests *)

(** [recover_probe_req] *)
Definition recover_probe_req (a : ApInfo) : ApInfo := (ap_emit a (DropProbe false)) <| a_probe_req_cnt := 0 |>.

(** The limit for strangers: whether the request is answered.  The ticks of
    [OS_GetSysTick] are those of [os_sys_jiffies]. *)
Definition probe_limit (a : ApInfo) : bool * ApInfo :=
  if a_probe_req_cnt a =? 0xffff then (false, a)
  else
    let a := if a_probe_req_cnt a =? 0 then a <| a_B_tick := a_jiffies a |> else a in
    let a := a <| a_probe_req_cnt := u32 (a_probe_req_cnt a + 1) |> in
    if 2 <? a_probe_req_cnt a then
      if st_tick2ms C (u32 (a_jiffies a - a_B_tick a)) <=? 50
      then (false, start_timer (ap_emit (a <| a_probe_req_cnt := 0xffff |>) (DropProbe true)) TProbe 1000)
      else (true, a <| a_probe_req_cnt := 0 |>)
    else (true, a).

(** The answer to a probe request *)
Definition send_probe_resp (a : ApInfo) (sa : list Z) : option ApInfo :=
  a ← put_addrs C a 0x50 sa (st_own_addr C);
  a ← mgmt_put a 32 (WPA_PUT_LE16 (g_bcn_interval (st_cfg C)));
  a ← mgmt_put a 34 (WPA_PUT_LE16 (hostapd_own_capab_info C a));
  let room (out : list Z) := Z.of_nat AP_MGMT_PKT_LEN - 36 - Z.of_nat (length out) in
  let out := [WLAN_EID_SSID; u8 (Z.of_nat (length (cf_ssid cf)))] ++ cf_ssid cf ++ hostapd_eid_supp_rates C
             ++ hostapd_eid_ds_params C in
  let out := out ++ hostapd_eid_country (st_reg C) (st_support_5g C) (g_ap_no_dfs (st_cfg C)) (room out) in
  let out := out ++ (if IS_AP_IN_5G_BAND C then [] else hostapd_eid_erp_info C a) in
  let out := out ++ hostapd_eid_ext_supp_rates C in
  let out := out ++ hostapd_eid_wpa C (u32 (room out)) in
  let out := out ++ hostapd_eid_ht_capabilities C ++ hostapd_eid_ht_operation C a ++ hostapd_eid_wmm C in
  a ← mgmt_put a 36 out;
  ap_soc_data_send C a (36 + length out) 0.

(** [ap_mlme_rx_probe_request]: the length of the elements is not checked against
    the header, a frame that is too short leaves the buffer. *)
Definition ap_mlme_rx_probe_request (a : ApInfo) (mgmt : list Z) (len : nat) : option ApInfo :=
  if (len <? 24)%nat then None
  else
    sa ← slice mgmt 10 6;
    let '(answer, a) := match APStaInfo_FindStaByAddr a sa with
                        | Some _ => (true, a)
                        | None => probe_limit a
                        end in
    if negb answer then Some a
    else
      let ie := drop 24 mgmt in
      '(r, elems) ← ieee802_11_parse_elems ie (len - 24);
      name ← contents ie (elems ssid);
      match r, name, elems supp_rates with
      | ParseFailed, _, _ | _, None, _ | _, _, None => Some a
      | _, Some name, Some _ =>
          if bool_decide (name = []) || bool_decide (name = cf_ssid cf) then send_probe_resp a sa else Some a
      end.

(** ** Dispatch *)

(** [AP_RxHandleAPMode] for management frames: a frame of a known station is
    noted, the management buffer is cleared, the handler is called. *)
Definition rx_mgmt (e : auth_env) (a : ApInfo) (n : neighbors) (mgmt : list Z) (len : nat) : option (ApInfo * neighbors) :=
  fc ← WPA_GET_LE16 mgmt 0;
  if negb (Z.land fc 0x000c =? 0) then Some (a, n)
  else
    let stype := Z.shiftr (Z.land fc 0x00f0) 4 in
    if 14 <=? stype then Some (a, n)
    else
      sa ← slice mgmt 10 6;
      a ← match APStaInfo_FindStaByAddr a sa with
          | Some i => upd_sta a i (fun s => s <| s_last_rx := a_jiffies a |>)
          | None => Some a
          end;
      let a := a <| a_pMgmtPkt := replicate AP_MGMT_PKT_LEN 0 |> in
      let keep (r : option ApInfo) := a ← r; Some (a, n) in
      match stype with
      | 0 => keep (handle_assoc a mgmt len false)
      | 2 => keep (handle_assoc a mgmt len true)
      | 4 => keep (ap_mlme_rx_probe_request a mgmt len)
      | 8 => ap_mlme_rx_beacon C a n mgmt len
      | 10 => keep (ap_mlme_rx_disassoc a mgmt len)
      | 11 => keep (ap_mlme_rx_auth e a mgmt len)
      | 12 => keep (ap_mlme_rx_deauth a mgmt len)
      | _ => Some (a, n)
      end.

(** [AP_RxHandleAPMode] for EAPOL frames: the length is the one that the frame
    announces. *)
Definition rx_eapol (a : ApInfo) (frame : list Z) : option ApInfo :=
  src ← slice frame 6 6;
  let data := drop 14 frame in
  eapol_len ← WPA_GET_BE16 data 2;
  match APStaInfo_FindStaByAddr a src with
  | Some i => with_auth a i (fun b => wpa_receive (st_wpa C) b data (Z.to_nat eapol_len + 4))
  | None => Some a
  end.
End Mlme.
