(* ===== verification/ApMlmeInv.v ===== *)
(** * ApMlmeInv: management frames keep the table of stations consistent

    Every handler of [ApMlme] returns, whatever the bytes of the frame are, and
    keeps the invariant of [ApStaInv]: the counters that association raises and
    [APStaInfo_free] lowers are exact, AIDs are unique, each station has its
    timer. *)

From stdpp Require Import base list option.
From Stdlib Require Import ZArith Lia ZifyNat.
From S2P Require Import Prelude Words Wire Regulatory HciAggr Ie80211 WpaIe Rc4 WpaAuth WpaAuthSafe WpaAuthTotal Reorder ApInfo ApElem ApPower ApPowerInv ApSta ApPath ApStaInv ApStaRun NeighborAp ApMlme.

(** ** Marks of a station *)

#[export] Instance same_marks_preorder : PreOrder same_marks.
Proof.
  split; [by intros s|]. intros s1 s2 s3 (H1 & H2 & H3 & H4 & H5) (K1 & K2 & K3 & K4 & K5).
  split_and!; congruence.
Qed.

Lemma marks_flag s f : (forall k, k = 0 \/ k = 6 \/ k = 17 -> Z.testbit f k = Z.testbit (s_flags s) k) ->
  same_marks s (s <| s_flags := f |>).
Proof.
  intros Hf. assert (forall k, k = 0 \/ k = 6 \/ k = 17 ->
    test_sta_flag (s <| s_flags := f |>) (BIT k) = test_sta_flag s (BIT k)) as Ht.
  { intros k Hk. unfold test_sta_flag. change (s_flags (s <| s_flags := f |>)) with f. rewrite !has_BIT by lia. by apply Hf. }
  split_and!; try done; [apply (Ht 17); lia|]. unfold counted_by. cbn [map].
  apply (f_equal2 cons); [apply (Ht 0); lia|]. apply (f_equal2 cons); [apply (Ht 6); lia|done].
Qed.

Lemma marks_set s b : Z.testbit b 0 = false -> Z.testbit b 6 = false -> Z.testbit b 17 = false ->
  same_marks s (set_sta_flag s b).
Proof. intros H1 H2 H3. apply marks_flag. intros k [-> | [-> | ->]]; rewrite Z.lor_spec, ?H1, ?H2, ?H3; apply orb_false_r. Qed.

Lemma marks_clear s b : Z.testbit b 0 = false -> Z.testbit b 6 = false -> Z.testbit b 17 = false ->
  same_marks s (clear_sta_flag s b).
Proof.
  intros H1 H2 H3. apply marks_flag.
  intros k [-> | [-> | ->]]; rewrite Z.land_spec, Z.lnot_spec, ?H1, ?H2, ?H3 by lia; apply andb_true_r.
Qed.

Lemma marks_valid s s' : same_marks s s' -> valid s' = valid s.
Proof. intros (_ & _ & _ & _ & H). unfold counted_by in H. cbn [map] in H. congruence. Qed.

(** ** One station changes *)

Section Restate.
Context (C : ap_static) `{HC : !table_sane C}.
Local Notation P := (AP_TOTAL_MAX_TX_BUFFER C).

(** Station [i] is [s'] now instead of [s], the counters follow, nothing else of
    the invariant is touched. *)
Definition restated (i : nat) (s s' : APStaInfo) (a a' : ApInfo) : Prop :=
  s_ps_tx_buf s' = s_ps_tx_buf s /\ s_aid s' = s_aid s /\ s_addr s' = s_addr s /\ sleeping s' = sleeping s /\
  valid s' = valid s /\ kept (set_sta a i s') a' /\
  counters a' = zip_with (fun n (p : APStaInfo -> bool) => n - Z.b2z (p s) + Z.b2z (p s')) (counters a) counted_by.

Lemma restate_shape a a' i s s' : table_inv C a -> a_StaConInfo a !! i = Some s ->
  shape (a_sta_aid a) (<[i := s']> (a_StaConInfo a)) -> restated i s s' a a' -> table_inv C a' /\ balance a' [] = balance a [] /\ a_StaConInfo a' = <[i := s']> (a_StaConInfo a).
Proof.
  intros [He Ht] Hi Hsh (Hb & Hd & Ha & Hs & Hv' & Hk & Hc). pose proof Hk as (K1 & K2 & K3 & K4 & K5 & K6 & K7 & K8).
  change (a_StaConInfo (set_sta a i s')) with (<[i := s']> (a_StaConInfo a)) in K1. split; [split|split].
  - apply (entries_update C a a' i s s' He Hi K1).
    + apply (kept_pool _ _ _ _ _ _ Hk). apply (pool_inv_sta C P a i s); [done| |apply (ti_power _ _ He)].
      split; [done|]. split; [done|]. intros _. unfold valid, sleeping in *. by rewrite Hv', Hs.
    + rewrite K6. change (a_num_sta_ps (set_sta a i s')) with (a_num_sta_ps a). rewrite Hs. lia.
    + exact Hc.
    + by rewrite K7.
  - intros j. eapply timed_insert; [exact Hi|exact K1|done|apply K8|apply Ht].
  - rewrite (kept_balance _ _ _ Hk). by eapply balance_sta.
  - exact K1.
Qed.

Lemma restate_table a a' i s s' : table_inv C a -> a_StaConInfo a !! i = Some s -> valid s = true ->
  restated i s s' a a' -> table_inv C a' /\ balance a' [] = balance a [] /\ a_StaConInfo a' = <[i := s']> (a_StaConInfo a).
Proof.
  intros Ht Hi Hv Hr. apply (restate_shape a a' i s s' Ht Hi); [|done]. destruct Hr as (_ & Hd & Ha & _ & Hv' & _).
  apply (shape_same _ _ i s s'); [apply (ti_shape _ _ (ti_entries _ _ Ht))|done|done|congruence|done|done].
Qed.

Lemma restated_marks a a' i s s' : same_marks s s' -> kept (set_sta a i s') a' -> counters a' = counters a ->
  restated i s s' a a'.
Proof.
  intros Hm Hk Hc. pose proof (marks_valid _ _ Hm) as Hv. destruct Hm as (H1 & H2 & H3 & H4 & H5).
  unfold counted_by in H5. cbn [map] in H5. injection H5 as M0 M1 M2 M3 M4 M5 M6 M7. split_and!; try done.
  rewrite Hc. unfold counters, counted_by. cbn [zip_with]. rewrite M0, M1, M2, M3, M4, M5, M6, M7.
  by repeat (apply (f_equal2 cons); [lia|]).
Qed.

Lemma note_table a i s s' : table_inv C a -> a_StaConInfo a !! i = Some s -> valid s = true -> same_marks s s' ->
  table_inv C (set_sta a i s') /\ balance (set_sta a i s') [] = balance a [].
Proof.
  intros Ht Hi Hv Hm. destruct (restate_table a (set_sta a i s') i s s' Ht Hi Hv) as (T & B & _); [|done].
  by apply restated_marks.
Qed.

(** An entry changes, whether it is in use or not. *)
Lemma touch_table a i s s' : table_inv C a -> a_StaConInfo a !! i = Some s -> same_marks s s' -> (blank s -> blank s') ->
  table_inv C (set_sta a i s') /\ balance (set_sta a i s') [] = balance a [].
Proof.
  intros Ht Hi Hm Hbl. pose proof (ti_shape _ _ (ti_entries _ _ Ht)) as Hsh. pose proof (marks_valid _ _ Hm) as Hv'.
  pose proof Hm as (_ & Hd & Ha & _).
  destruct (restate_shape a (set_sta a i s') i s s' Ht Hi) as (T & B & _); [|by apply restated_marks|done].
  destruct (valid s) eqn:Hv; [by apply (shape_same _ _ i s s')|]. pose proof (sh_blank _ _ Hsh i s Hi Hv) as Hb.
  apply (shape_insert (a_sta_aid a) (a_sta_aid a) _ i s s' Hsh Hi).
  - intros _. auto.
  - intros j t _ _ _ Hvs. congruence.
  - rewrite Hd, (blank_aid s Hb). lia.
  - intros k Hk. rewrite Hd, (blank_aid s Hb). intuition lia.
Qed.

Lemma kept_table a b : table_inv C a -> kept a b -> counters b = counters a -> table_inv C b.
Proof.
  intros Ht Hk Hc. pose proof Hk as (K1 & _ & _ & _ & _ & _ & _ & K8). split.
  - apply (kept_loose C a b 0 (table_loose C a 0 Ht) Hk Hc).
  - intros j s. rewrite K1, K8. apply (ti_timed _ _ Ht j).
Qed.

Lemma counter_small a k n : table_inv C a -> counters a !! k = Some n -> 0 <= n <= 32.
Proof.
  intros Ht Hk. rewrite (ti_counts _ _ (ti_entries _ _ Ht)) in Hk. unfold counts in Hk. rewrite list_lookup_fmap in Hk.
  destruct (counted_by !! k) as [p|]; [|done]. cbn in Hk. injection Hk as <-.
  pose proof (count_nonneg p (a_StaConInfo a)) as Hn. rewrite (table_length C a Ht) in Hn. pose proof (@sane_bitmap C _). lia.
Qed.

(** One mark is set and its counter goes up by one. *)
Lemma restated_inc a a' i s s1 s' k : table_inv C a -> same_marks s s1 ->
  s_ps_tx_buf s' = s_ps_tx_buf s1 -> s_aid s' = s_aid s1 -> s_addr s' = s_addr s1 -> s_flags s' = s_flags s1 ->
  (2 <= k < 8)%nat -> map (fun p : APStaInfo -> bool => p s1) counted_by !! k = Some false ->
  map (fun p : APStaInfo -> bool => p s') counted_by = <[k := true]> (map (fun p => p s1) counted_by) ->
  kept (set_sta a i s') a' -> (forall n, counters a !! k = Some n -> counters a' = <[k := n + 1]> (counters a)) ->
  restated i s s' a a'.
Proof.
  intros Ht Hm Hb Hd Ha Hf Hk Hno Hyes Hkept Hc. pose proof (marks_valid _ _ Hm) as Hv. destruct Hm as (H1 & H2 & H3 & H4 & H5).
  rewrite H5 in Hno, Hyes.
  split_and!; try congruence; [unfold sleeping, test_sta_flag in *; congruence|unfold valid, test_sta_flag in *; congruence|].
  destruct (counters a !! k) as [n|] eqn:En; [|apply lookup_ge_None in En; unfold counters in En; cbn in En; lia].
  rewrite (Hc n eq_refl). clear -Hk Hno Hyes En. unfold counted_by in *. cbn [map zip_with] in *. unfold counters in *.
  do 8 (destruct k as [|k]; [try lia; cbn in Hno, Hyes, En; injection Hno as Hno; injection En as <-; injection Hyes as
    Y0 Y1 Y2 Y3 Y4 Y5 Y6 Y7; cbn [zip_with insert list_insert];
    rewrite ?Y0, ?Y1, ?Y2, ?Y3, ?Y4, ?Y5, ?Y6, ?Y7, ?Hno; cbn [Z.b2z]; repeat (apply (f_equal2 cons); [lia|]); done|]). lia.
Qed.
End Restate.

(** ** The elements of a request *)

(** The bytes that the handlers read: the frame and a little more, since the
    elements for WMM and HT are read with their full size *)
Definition mgmt_frame_ok (mgmt : list Z) (len : nat) : Prop :=
  Forall is_byte mgmt /\ (24 <= len)%nat /\ (len + 28 <= length mgmt)%nat.

(** The element of a station is looked at: a result, whatever it is *)
Lemma validate_some cfg sel sm ok ie len : (1 <= len <= length ie)%nat -> sta_wpa_ie sm = None ->
  exists r sel' sm', wpa_validate_wpa_ie cfg sel sm ok (replicate len 0) (Some ie) len = Some (r, sel', sm').
Proof.
  intros Hl Hsm. unfold wpa_validate_wpa_ie. destruct (Nat.ltb_spec len 1); [lia|].
  destruct (lookup_lt_is_Some_2 ie 0) as [b0 ->]; [lia|]. cbn [mbind option_bind].
  destruct (has _ _); cbn [negb]; [|by eexists _, _, _].
  assert (is_Some (if b0 =? WLAN_EID_RSN then wpa_parse_wpa_ie_rsn ie len else wpa_parse_wpa_ie_wpa ie len)) as [[res d] ->].
  { destruct (b0 =? WLAN_EID_RSN); [apply parse_rsn_some; lia|apply parse_wpa_some; lia]. }
  cbn [mbind option_bind]. destruct (res =? 0); cbn [negb]; [|by eexists _, _, _].
  assert (forall v c k, exists r sm', keep_wpa_ie (mk_sta v c k (sta_wpa_ie sm) (sta_wpa_ie_len sm)) ok (replicate len 0) ie len = Some (r, sm')) as Hkeep.
  { intros v c k. unfold keep_wpa_ie. cbn [sta_wpa_ie]. rewrite Hsm. destruct ok; [|by eexists _, _].
    destruct (slice_some ie 0 len) as (cc & -> & Hc); [lia|]. cbn [mbind option_bind]. unfold wr.
    rewrite (proj2 (Nat.leb_le _ _)) by (rewrite length_replicate; lia). cbn [mbind option_bind]. by eexists _, _. }
  unfold apply_policy. cbv zeta. destruct (negb (group_cipher d =? _)); [by eexists _, _, _|].
  destruct (_ =? 0); [by eexists _, _, _|]. destruct (_ =? 0); [by eexists _, _, _|]. cbn [sta_wpa_ie sta_wpa_ie_len].
  match goal with |- context [keep_wpa_ie (mk_sta ?v ?c ?k _ _)] => destruct (Hkeep v c k) as (r & sm' & ->) end.
  cbn [mbind option_bind]. by eexists _, _, _.
Qed.

Section Elems.
Context (C : ap_static).

Lemma check_wmm_ok ies p l left s E : (p + l <= left)%nat -> (left + 28 <= length ies)%nat -> E = Some (p, l) \/ E = None ->
  exists s', check_wmm ies E s = Some s' /\ same_marks s s' /\ s_ht_capabilities s' = s_ht_capabilities s.
Proof.
  intros Hp Hl HE. set (s1 := (clear_sta_flag s WLAN_STA_WMM) <| s_uapsd_queues := 0 |> <| s_max_sp := 0 |>).
  assert (same_marks s s1) as H1 by (etrans; [by apply (marks_clear s WLAN_STA_WMM)|done]).
  unfold check_wmm. fold s1. destruct HE as [-> | ->]; [|by exists s1].
  destruct (lookup_lt_is_Some_2 ies (p + 6)) as [q ->]; [lia|]. cbn [mbind option_bind]. eexists. split; [done|]. split; [|done].
  etrans; [exact H1|]. etrans; [by apply (marks_set s1 WLAN_STA_WMM)|done].
Qed.

Lemma copy_rates_ok ies left elems s : (left <= length ies)%nat ->
  (forall f p l, f <> link_id -> elems f = Some (p, l) -> (p + l <= left)%nat) ->
  exists r s', copy_supp_rates ies elems s = Some (r, s') /\ same_marks s s' /\ s_ht_capabilities s' = s_ht_capabilities s.
Proof.
  intros Hl HE. unfold copy_supp_rates. destruct (elems supp_rates) as [[p l]|] eqn:E1; [|by eexists _, s].
  specialize (HE supp_rates p l ltac:(done) E1) as H1. destruct (_ <? _)%nat; [by eexists _, s|].
  destruct (slice_some ies p l) as (c & -> & _); [lia|]. cbn [mbind option_bind].
  destruct (elems ext_supp_rates) as [[p2 l2]|] eqn:E2; [|by eexists _, _].
  specialize (HE ext_supp_rates p2 l2 ltac:(done) E2) as H2. destruct (_ <? _)%nat; [by eexists _, _|].
  destruct (slice_some ies p2 l2) as (c2 & -> & _); [lia|]. cbn [mbind option_bind]. by eexists _, _.
Qed.

Lemma copy_ht_ok ies p l left s E : (p + l <= left)%nat -> (left + 28 <= length ies)%nat -> E = Some (p, l) \/ E = None ->
  exists s', copy_sta_ht_capab C ies E s = Some s' /\ same_marks s s' /\ length (s_ht_capabilities s') = 26%nat.
Proof.
  intros Hp Hl HE. unfold copy_sta_ht_capab.
  assert (forall x, same_marks s ((clear_sta_flag s WLAN_STA_HT) <| s_ht_capabilities := x |>) /\
                    same_marks s ((set_sta_flag s WLAN_STA_HT) <| s_ht_capabilities := x |>)) as Hm
    by (intros x; split; [etrans; [by apply (marks_clear s WLAN_STA_HT)|done]|etrans; [by apply (marks_set s WLAN_STA_HT)|done]]).
  destruct HE as [-> | ->]; [|eexists; split; [done|]; split; [apply Hm|done]].
  destruct (_ || _); [eexists; split; [done|]; split; [apply Hm|done]|].
  destruct (slice_some ies p 26) as (c & -> & Hc); [lia|]. cbn [mbind option_bind]. eexists. split; [done|]. split; [apply Hm|exact Hc].
Qed.

Lemma check_security_ok ok ies left elems s : (left + 28 <= length ies)%nat ->
  (forall f p l, f <> link_id -> elems f = Some (p, l) -> (p + l <= left)%nat) ->
  exists r s', check_security C ok ies elems s = Some (r, s') /\ same_marks s s' /\ s_ht_capabilities s' = s_ht_capabilities s.
Proof.
  intros Hl HE. unfold check_security. cbv zeta. destruct (_ =? 0); [destruct (started _); by eexists _, _|].
  destruct (wpa_element C elems) as [[p l]|] eqn:Ew; [|by eexists _, s].
  assert ((p + l <= left)%nat) as Hp.
  { unfold wpa_element in Ew. destruct (if has _ WPA_PROTO_RSN then elems rsn_ie else None) as [[q k]|] eqn:Er.
    - injection Ew as <- <-. revert Er. case_match; [|done]. by apply (HE rsn_ie).
    - destruct (has (conf_wpa (conf (st_wpa C))) WPA_PROTO_WPA); [|discriminate]. by apply (HE wpa_ie). }
  destruct (validate_some (conf (st_wpa C)) (mk_selected 0 0 0) (assoc (wpa_auth_sta_init (s_addr s))) ok (drop (p - 2) ies) (l + 2))
    as (r & sel & t & ->); [rewrite length_drop; lia|done|]. cbn [mbind option_bind]. by eexists _, _.
Qed.

Lemma check_ies_ok ok ies left s : Forall is_byte ies -> (left + 28 <= length ies)%nat ->
  exists r s', check_ies C ok ies left s = Some (r, s') /\ same_marks s s' /\
    (r = WLAN_STATUS_SUCCESS -> length (s_ht_capabilities s') = 26%nat).
Proof.
  intros Hb Hl. unfold check_ies. destruct (parse_elems_inside ies left Hb ltac:(lia)) as (pr & E & -> & HE). cbn [mbind option_bind].
  assert (forall f, f <> link_id -> exists p l, (p + l <= left)%nat /\ (E f = Some (p, l) \/ E f = None)) as Hf.
  { intros f Hne. destruct (E f) as [[p l]|] eqn:Ef; [exists p, l; split; [by apply (HE f)|by left]|].
    exists 0%nat, 0%nat. split; [lia|by right]. }
  assert (exists r s', (resp ← check_ssid C ies (E ssid);
    if negb (resp =? WLAN_STATUS_SUCCESS) then Some (resp, s)
    else s ← check_wmm ies (E wmm) s; '(resp, s) ← copy_supp_rates ies E s;
         if negb (resp =? WLAN_STATUS_SUCCESS) then Some (resp, s)
         else s ← copy_sta_ht_capab C ies (E ht_capabilities) s; check_security C ok ies E s) = Some (r, s') /\
    same_marks s s' /\ (r = WLAN_STATUS_SUCCESS -> length (s_ht_capabilities s') = 26%nat)) as Hgo.
  { unfold check_ssid. destruct (contents_ok ies (E ssid)) as [c ->].
    { intros q l Hq. specialize (HE ssid q l ltac:(done) Hq). lia. }
    cbn [mbind option_bind]. set (resp := match c with Some _ => _ | None => _ end).
    destruct (Z.eqb_spec resp WLAN_STATUS_SUCCESS) as [_|Hne]; cbn [negb]; [|by exists resp, s].
    destruct (Hf wmm ltac:(done)) as (p & l & Hp & Hw). destruct (check_wmm_ok ies p l left s _ Hp Hl Hw) as (s1 & -> & M1 & _).
    cbn [mbind option_bind]. destruct (copy_rates_ok ies left E s1 ltac:(lia) HE) as (r2 & s2 & -> & M2 & _). cbn [mbind option_bind].
    destruct (Z.eqb_spec r2 WLAN_STATUS_SUCCESS) as [_|Hne]; cbn [negb]; [|exists r2, s2; split_and!; [done|by etrans|done]].
    destruct (Hf ht_capabilities ltac:(done)) as (p3 & l3 & Hp3 & Hh).
    destruct (copy_ht_ok ies p3 l3 left s2 _ Hp3 Hl Hh) as (s3 & -> & M3 & L3). cbn [mbind option_bind].
    destruct (check_security_ok ok ies left E s3 Hl HE) as (r4 & s4 & -> & M4 & L4). exists r4, s4.
    split; [done|]. split; [by repeat (etrans; [eassumption|])|]. intros _. by rewrite L4. }
  destruct pr; [exact Hgo|exact Hgo|]. by exists WLAN_STATUS_UNSPECIFIED_FAILURE, s.
Qed.
End Elems.

(** ** What an associated station changes *)

Section AssocSteps.
Context (C : ap_static) `{HC : !table_sane C}.

(** What the steps of an association leave alone of the station *)
Definition carried (s s' : APStaInfo) : Prop :=
  valid s' = valid s /\ s_addr s' = s_addr s /\ s_aid s' = s_aid s /\
  length (s_ht_capabilities s') = length (s_ht_capabilities s) /\ s_wpa_sm s' = s_wpa_sm s /\
  s_assocRsp s' = s_assocRsp s.

#[export] Instance carried_preorder : PreOrder carried.
Proof.
  split; [by intros s|]. intros s1 s2 s3 (H1 & H2 & H3 & H4 & H5 & H6) (K1 & K2 & K3 & K4 & K5 & K6). split_and!; congruence.
Qed.

Definition step_ok (i : nat) (s0 : APStaInfo) (a : ApInfo) (r : ApInfo * APStaInfo) : Prop :=
  table_inv C r.1 /\ balance r.1 [] = balance a [] /\ a_StaConInfo r.1 = <[i := r.2]> (a_StaConInfo a) /\ carried s0 r.2.

Lemma restated_step i s0 s a r : table_inv C a -> a_StaConInfo a !! i = Some s0 -> valid s0 = true ->
  restated i s0 r.2 a r.1 -> carried s r.2 -> carried s0 s -> step_ok i s0 a r.
Proof.
  intros Ht Hi Hv Hr Hc Hc0. destruct (restate_table C a r.1 i s0 r.2 Ht Hi Hv Hr) as (T & B & S). split_and!; try done. by etrans.
Qed.

Lemma step_trans i s0 a r1 r2 : step_ok i s0 a r1 -> step_ok i r1.2 r1.1 r2 -> step_ok i s0 a r2.
Proof.
  intros (T1 & B1 & S1 & C1) (T2 & B2 & S2 & C2). split_and!; try done; [congruence| |by etrans].
  rewrite S2, S1. apply list_insert_insert_eq.
Qed.

Lemma step_at i s0 a r : a_StaConInfo a !! i = Some s0 -> step_ok i s0 a r -> a_StaConInfo r.1 !! i = Some r.2.
Proof. intros Hi (_ & _ & -> & _). apply list_lookup_insert_eq. by eapply lookup_lt_Some. Qed.

Lemma beacon_if a b (c : bool) : kept a b -> kept a (if c then ieee802_11_set_beacon C b true else b) /\
  counters (if c then ieee802_11_set_beacon C b true else b) = counters b.
Proof. intros Hk. destruct c; [|done]. destruct (beacon_kept C b true) as [K Hc]. split; [by etrans|done]. Qed.

(** A flag other than those that are counted *)
Lemma flag_carried s f : same_marks s (s <| s_flags := f |>) -> carried s (s <| s_flags := f |>).
Proof. intros Hm. split_and!; try done. by apply marks_valid. Qed.

Lemma assoc_non_erp_ok a i s0 s : table_inv C a -> a_StaConInfo a !! i = Some s0 -> valid s0 = true -> same_marks s0 s ->
  carried s0 s -> step_ok i s0 a (assoc_non_erp C a i s).
Proof.
  intros Ht Hi Hv Hm Hc. unfold assoc_non_erp. cbv zeta.
  set (s1 := if st_eCurrentApMode C =? _ then set_sta_flag s WLAN_STA_NONERP else s).
  assert (same_marks s s1 /\ carried s s1) as [M1 C1].
  { unfold s1. destruct (_ =? _); [|done]. assert (same_marks s (set_sta_flag s WLAN_STA_NONERP)) as M by (by apply marks_set).
    split; [done|]. by apply flag_carried. }
  set (s2 := if existsb _ _ then _ else _). assert (same_marks s1 s2 /\ carried s1 s2) as [M2 C2].
  { unfold s2. destruct (existsb _ _); [|done]. assert (same_marks s1 (clear_sta_flag s1 WLAN_STA_NONERP)) as M by (by apply marks_clear).
    split; [done|]. by apply flag_carried. }
  clearbody s1 s2. assert (same_marks s0 s2) as M by (by repeat (etrans; [eassumption|])).
  assert (carried s s2) as C3 by (by etrans).
  destruct (_ && _ && _) eqn:Eb.
  - apply andb_true_iff in Eb as [_ Hno%negb_true_iff]. set (s' := s2 <| s_nonerp_set := true |>).
    set (a1 := set_sta (a <| a_num_sta_non_erp := _ |>) i s').
    assert (kept (set_sta a i s') a1) as K1 by done.
    assert (counters a1 = <[2%nat := a_num_sta_non_erp a + 1]> (counters a)) as N1.
    { pose proof (counter_small C a 2 (a_num_sta_non_erp a) Ht eq_refl). change (counters a1) with (<[2%nat := u8 (a_num_sta_non_erp a + 1)]> (counters a)).
      by rewrite u8_small by lia. }
    apply (restated_step i s0 s); [done|done|done| |by etrans|done]. cbn [fst snd].
    apply (restated_inc C a _ i s0 s2 s' 2); [done|done|done|done|done|done|lia|cbn; by rewrite Hno|done| |].
    + destruct (_ =? 1); [|done]. etrans; [|apply (proj1 (beacon_kept C _ true))]. etrans; [exact K1|by apply kept_emit].
    + intros n [= <-]. rewrite <- N1. destruct (_ =? 1); [|done]. by rewrite (proj2 (beacon_kept C _ true)).
  - apply (restated_step i s0 s); [done|done|done| |by etrans|done]. by apply restated_marks.
Qed.

Lemma assoc_slot_time_ok a i s : table_inv C a -> a_StaConInfo a !! i = Some s -> valid s = true ->
  step_ok i s a (assoc_slot_time C a i s).
Proof.
  intros Ht Hi Hv. unfold assoc_slot_time. destruct (_ && _) eqn:Eb.
  2:{ split_and!; try done. cbn [fst snd]. by rewrite list_insert_id. }
  apply andb_true_iff in Eb as [_ Hno%negb_true_iff]. cbv zeta. set (s' := s <| s_no_short_slot_time_set := true |>).
  set (a1 := set_sta (a <| a_num_sta_no_short_slot_time := _ |>) i s').
  assert (counters a1 = <[4%nat := a_num_sta_no_short_slot_time a + 1]> (counters a)) as N1.
  { pose proof (counter_small C a 4 (a_num_sta_no_short_slot_time a) Ht eq_refl).
    change (counters a1) with (<[4%nat := u8 (a_num_sta_no_short_slot_time a + 1)]> (counters a)). by rewrite u8_small by lia. }
  apply (restated_step i s s); [done|done|done| |done|done]. cbn [fst snd].
  apply (restated_inc C a _ i s s s' 4); [done|done|done|done|done|done|lia|cbn; by rewrite Hno|done| |].
  - etrans; [|apply (proj1 (beacon_kept C _ true))]. destruct (_ && _); [by etrans; [|by apply kept_emit]|done].
  - intros n [= <-]. rewrite <- N1, (proj2 (beacon_kept C _ true)). by destruct (_ && _).
Qed.

Lemma assoc_preamble_ok a i s : table_inv C a -> a_StaConInfo a !! i = Some s -> valid s = true ->
  step_ok i s a (assoc_preamble C a i s).
Proof.
  intros Ht Hi Hv. unfold assoc_preamble. cbv zeta. set (s1 := if has _ _ then set_sta_flag s _ else _).
  assert (same_marks s s1 /\ carried s s1) as [M1 C1].
  { unfold s1. destruct (has _ _); [assert (same_marks s (set_sta_flag s WLAN_STA_SHORT_PREAMBLE)) as M by (by apply marks_set)
      |assert (same_marks s (clear_sta_flag s WLAN_STA_SHORT_PREAMBLE)) as M by (by apply marks_clear)];
      (split; [done|]; by apply flag_carried). }
  clearbody s1. destruct (_ && negb (s_no_short_preamble_set s1)) eqn:Eb.
  - apply andb_true_iff in Eb as [_ Hno%negb_true_iff]. set (s' := s1 <| s_no_short_preamble_set := true |>).
    set (a1 := set_sta (a <| a_num_sta_no_short_preamble := _ |>) i s').
    assert (counters a1 = <[3%nat := a_num_sta_no_short_preamble a + 1]> (counters a)) as N1.
    { pose proof (counter_small C a 3 (a_num_sta_no_short_preamble a) Ht eq_refl).
      change (counters a1) with (<[3%nat := u8 (a_num_sta_no_short_preamble a + 1)]> (counters a)). by rewrite u8_small by lia. }
    apply (restated_step i s s1); [done|done|done| |done|done]. cbn [fst snd].
    apply (restated_inc C a _ i s s1 s' 3); [done|done|done|done|done|done|lia|cbn; by rewrite Hno|done| |].
    + by apply beacon_if.
    + intros n [= <-]. rewrite <- N1. destruct (_ && _); [by rewrite (proj2 (beacon_kept C _ true))|done].
  - apply (restated_step i s s1); [done|done|done| |done|done]. by apply restated_marks.
Qed.

(** The HT counters *)
Lemma s32_inc a k n : table_inv C a -> counters a !! k = Some n -> s32 (n + 1) = n + 1.
Proof. intros Ht Hk. pose proof (counter_small C a k n Ht Hk). apply s32_small. lia. Qed.

Lemma sta_ht_ok a i s : table_inv C a -> a_StaConInfo a !! i = Some s -> valid s = true ->
  length (s_ht_capabilities s) = 26%nat -> exists r, update_sta_ht a i s = Some r /\ step_ok i s a r.
Proof.
  intros Ht Hi Hv Hl. unfold update_sta_ht. destruct (get_le16_some (s_ht_capabilities s) 0) as (cap & -> & _); [lia|].
  cbn [mbind option_bind].
  set (p1 := if negb (has cap HT_CAP_INFO_GREEN_FIELD) && _ then _ else (a, s)).
  assert (step_ok i s a (set_sta p1.1 i p1.2, p1.2) /\ a_StaConInfo p1.1 = a_StaConInfo a) as [H1 S1].
  { unfold p1. destruct (_ && _) eqn:Eb; cbn [fst snd].
    - apply andb_true_iff in Eb as [_ Hno%negb_true_iff]. split; [|done]. apply (restated_step i s s); [done|done|done| |done|done]. cbn [fst snd].
      apply (restated_inc C a _ i s s _ 5); [done|done|done|done|done|done|lia|cbn; by rewrite Hno|done|done|].
      intros n [= <-]. pose proof (s32_inc a 5 _ Ht eq_refl) as E5.
      transitivity (<[5%nat := s32 (a_num_sta_ht_no_gf a + 1)]> (counters a)); [done|by rewrite E5].
    - split; [|done]. rewrite set_sta_id by done. split_and!; try done. cbn [fst snd]. by rewrite list_insert_id. }
  destruct p1 as [a1 s1]. cbn [fst snd] in *. set (b := set_sta a1 i s1) in H1.
  assert (a_StaConInfo b !! i = Some s1) as Hb by (by apply (step_at i s a (b, s1))). destruct H1 as (T1 & B1 & S1' & C1). cbn [fst snd] in *.
  assert (valid s1 = true) as V1 by (destruct C1 as (-> & _); done).
  set (p2 := if negb (has cap HT_CAP_INFO_SUPP_CHANNEL_WIDTH_SET) && _ then _ else (a1, s1)).
  assert (step_ok i s1 b (set_sta p2.1 i p2.2, p2.2)) as H2.
  { unfold p2. destruct (_ && _) eqn:Eb; cbn [fst snd].
    - apply andb_true_iff in Eb as [_ Hno%negb_true_iff]. apply (restated_step i s1 s1); [done|done|done| |done|done]. cbn [fst snd].
      apply (restated_inc C b _ i s1 s1 _ 7); [done|done|done|done|done|done|lia|cbn; by rewrite Hno|done| |].
      + split_and!; try done. cbn. by rewrite list_insert_insert_eq.
      + intros n [= <-]. pose proof (s32_inc b 7 _ T1 eq_refl) as E7. change (a_num_sta_ht_20mhz b) with (a_num_sta_ht_20mhz a1) in *.
        transitivity (<[7%nat := s32 (a_num_sta_ht_20mhz a1 + 1)]> (counters b)); [done|by rewrite E7].
    - fold b. split_and!; try done. cbn [fst snd]. by rewrite list_insert_id. }
  destruct p2 as [a2 s2]. cbn [fst snd] in *. eexists. split; [done|]. apply (step_trans i s a (b, s1)); [|exact H2]. done.
Qed.

Lemma sta_no_ht_ok a i s : table_inv C a -> a_StaConInfo a !! i = Some s -> valid s = true ->
  step_ok i s a (update_sta_no_ht a i s).
Proof.
  intros Ht Hi Hv. unfold update_sta_no_ht. destruct (s_no_ht_set s) eqn:Hno.
  - split_and!; try done. cbn [fst snd]. by rewrite list_insert_id.
  - apply (restated_step i s s); [done|done|done| |done|done]. cbn [fst snd].
    apply (restated_inc C a _ i s s _ 6); [done|done|done|done|done|done|lia|cbn; by rewrite Hno|done|done|].
    intros n [= <-]. pose proof (s32_inc a 6 _ Ht eq_refl) as E6.
    transitivity (<[6%nat := s32 (a_num_sta_no_ht a + 1)]> (counters a)); [done|by rewrite E6].
Qed.

Lemma update_ht_ok a i s : table_inv C a -> a_StaConInfo a !! i = Some s -> valid s = true ->
  length (s_ht_capabilities s) = 26%nat -> exists r, update_ht_state C a i s = Some r /\ step_ok i s a r.
Proof.
  intros Ht Hi Hv Hl. unfold update_ht_state.
  assert (exists r, (if test_sta_flag s WLAN_STA_HT then update_sta_ht a i s else Some (update_sta_no_ht a i s)) = Some r /\ step_ok i s a r)
    as ([a1 s1] & -> & T1 & B1 & S1 & C1).
  { destruct (test_sta_flag s WLAN_STA_HT); [by apply sta_ht_ok|]. eexists. split; [done|by apply sta_no_ht_ok]. }
  cbn [mbind option_bind fst snd] in *. destruct (ht_update_kept C a1) as [K2 N2]. destruct (ht_update C a1) as [a2 ch]. cbn [fst] in *.
  destruct (beacon_if a1 a2 ch K2) as [K3 N3]. eexists. split; [done|]. cbn [fst snd]. split_and!.
  - apply (kept_table C a1); [done|done|]. etrans; [exact N3|exact N2].
  - cbn [fst]. by rewrite (kept_balance _ _ _ K3).
  - cbn [fst snd]. destruct K3 as (-> & _). exact S1.
  - done.
Qed.
End AssocSteps.

(** ** The state machines of the stations *)

(** A machine as [check_assoc_ies] leaves it for a station that is accepted *)
Definition fresh (m : wpa_state_machine) : Prop := exists sa t, m = (wpa_auth_sta_init sa) <| assoc := t |> /\ accepted t.
Definition bare (m : wpa_state_machine) : auth_state := mk_auth m [] 0 0 false [] 0 [].

(** ** Room in the management buffer *)

(** The arrays of the configuration: the SSID, the supported MCS and the longest
    of the rate tables *)
Class elem_sane (C : ap_static) : Prop := {
  sane_ssid : (length (cf_ssid (st_config C)) <= 32)%nat;
  sane_rates : forall rates, cf_rates (st_config C) = Some rates -> (length rates <= 12)%nat;
  sane_mcs : (length (cf_mcs_set (st_config C)) <= 16)%nat
}.

Lemma country_add_length max_len out sp s e :
  (length (hostapd_eid_country_add max_len out sp s e) <= length out + 3)%nat.
Proof. unfold hostapd_eid_country_add. case_match; [lia|]. rewrite length_app. cbn. lia. Qed.

Lemma country_loop_length max_len sp sel t : forall i out s e,
  (length (country_loop max_len sp sel i t out s e).1.1 <= length out + 3 * length t)%nat.
Proof.
  induction t as [|c t IH]; intros i out s e; cbn [country_loop]; [cbn; lia|].
  pose proof (country_add_length max_len out sp s e). cbn [length].
  repeat case_match; simplify_eq; etrans; try apply IH; lia.
Qed.

Lemma country_length g b5 dfs max_len : (length (hostapd_eid_country g b5 dfs max_len) <= 250)%nat.
Proof.
  unfold hostapd_eid_country. case_match; [cbn; lia|]. case_match; [|cbn; lia].
  set (l0 := [_; _; _; _; _]). set (sel := fun i _ => _).
  pose proof (country_loop_length max_len 1 sel ssv6xxx_2ghz_chantable 0 l0 0 0) as H2.
  destruct (country_loop max_len 1 sel 0 ssv6xxx_2ghz_chantable l0 0 0) as [[o1 s1] e1].
  pose proof (country_add_length max_len o1 1 s1 e1) as H3. set (o2 := hostapd_eid_country_add _ o1 _ _ _) in *.
  change (length ssv6xxx_2ghz_chantable) with 16%nat in H2. cbn [fst snd length l0] in H2.
  assert (forall o : list Z, length (<[1%nat := (u8 (Z.of_nat (length (if Z.testbit (Z.of_nat (length o)) 0%Z then o ++ [0%Z] else o)) - 2))%Z]>
    (if Z.testbit (Z.of_nat (length o)) 0%Z then o ++ [0%Z] else o)) <= S (length o))%nat as Hend.
  { intros o. rewrite length_insert. case_match; [rewrite length_app; cbn; lia|lia]. }
  destruct b5; cbv zeta iota beta.
  - match goal with |- context [country_loop max_len 4 ?f 0 ?t o2 0 0] =>
      pose proof (country_loop_length max_len 4 f t 0 o2 0 0) as H4;
      destruct (country_loop max_len 4 f 0 t o2 0 0) as [[o3 s3] e3] end.
    change (length ssv6xxx_5ghz_chantable) with 25%nat in H4. cbn [fst snd] in H4.
    pose proof (country_add_length max_len o3 4 s3 e3). etrans; [apply Hend|lia].
  - pose proof (country_add_length max_len o2 1 s1 e1). etrans; [apply Hend|lia].
Qed.

Section Room.
Context (C : ap_static) `{HE : !elem_sane C}.

Lemma one_length (b : bool) (x : Z) : (length (if b then [x] else []) <= 1)%nat.
Proof. destruct b; cbn; lia. Qed.

Lemma supp_rates_length : (length (hostapd_eid_supp_rates C) <= 15)%nat.
Proof.
  unfold hostapd_eid_supp_rates. destruct (cf_rates (st_config C)) as [rates|] eqn:E; [|cbn; lia].
  pose proof (sane_rates rates E). cbv zeta. rewrite !length_app, length_map, length_take, length_drop.
  match goal with |- context [if ?b then [?x] else []] => pose proof (one_length b x) end. cbn [length]. lia.
Qed.

Lemma ext_rates_length : (length (hostapd_eid_ext_supp_rates C) <= 15)%nat.
Proof.
  unfold hostapd_eid_ext_supp_rates. destruct (cf_rates (st_config C)) as [rates|] eqn:E; [|cbn; lia].
  pose proof (sane_rates rates E). case_match; [cbn; lia|]. rewrite !length_app, length_map, length_drop.
  match goal with |- context [if ?b then [?x] else []] => pose proof (one_length b x) end. cbn [length]. lia.
Qed.

Lemma ht_elems_length a :
  (length (hostapd_eid_ht_capabilities C) + length (hostapd_eid_ht_operation C a) + length (hostapd_eid_wmm C) <= 80)%nat.
Proof.
  unfold hostapd_eid_ht_capabilities, hostapd_eid_ht_operation. pose proof sane_mcs.
  change (length (hostapd_eid_wmm C)) with 26%nat. unfold WPA_PUT_LE16.
  destruct (_ || _ || _), (_ || _); rewrite ?length_app; cbn [length]; rewrite ?length_app, ?length_replicate; cbn [length]; lia.
Qed.

Lemma erp_length a : (length (hostapd_eid_erp_info C a) <= 3)%nat.
Proof. unfold hostapd_eid_erp_info. case_match; cbn; lia. Qed.

Lemma wpa_elem_length len : (length (hostapd_eid_wpa C len) <= 22)%nat.
Proof. unfold hostapd_eid_wpa. repeat case_match; rewrite ?length_take; cbn [length]; unfold WPA_IE_LEN; lia. Qed.
End Room.

Section Handlers.
Context `{KC : KeyCrypto} (C : ap_static) `{HC : !table_sane C} `{HE : !elem_sane C}.
Local Notation P := (AP_TOTAL_MAX_TX_BUFFER C).

(** Between events; without security it is never started. *)
Definition machine_live (m : wpa_state_machine) : Prop :=
  (exists hist, live (st_wpa C) hist (bare m)) /\ (conf_wpa (conf (st_wpa C)) = 0 -> started m = false).
Definition sta_live (s : APStaInfo) : Prop := machine_live (s_wpa_sm s) /\ (s_assocRsp s = true -> fresh (s_wpa_sm s)).
Definition live_all (l : list APStaInfo) : Prop := forall i s, l !! i = Some s -> sta_live s.

Lemma live_machine hist b : live (st_wpa C) hist b -> (conf_wpa (conf (st_wpa C)) = 0 -> started (sm b) = false) ->
  machine_live (sm b).
Proof. intros [Hs Hf] Ho. split; [|done]. exists hist. split; [by apply (settled_sm (st_wpa C) hist b)|done]. Qed.

Lemma machine_zero : machine_live sm_zero.
Proof. split; [|done]. exists []. split; [exact (settled_zero (st_wpa C) [] (bare sm_zero))|done]. Qed.

Lemma machine_init sa t : machine_live ((wpa_auth_sta_init sa) <| assoc := t |>).
Proof. split; [|done]. exists []. split; [|done]. by split_and!. Qed.

Lemma sta_zero s : s_wpa_sm s = sm_zero -> s_assocRsp s = false -> sta_live s.
Proof. intros H1 H2. split; [rewrite H1; apply machine_zero|congruence]. Qed.

Lemma ages_live l l' : ages l l' -> live_all l -> live_all l'.
Proof.
  intros Ha Hl j t Hj. destruct (Ha j t Hj) as [[H1 H2]|(s & Hs & E & R)]; [by apply sta_zero|].
  destruct (Hl j s Hs) as [L1 L2]. split; rewrite E; auto.
Qed.

Lemma live_insert l i s' : sta_live s' -> live_all l -> live_all (<[i := s']> l).
Proof.
  intros Hs Hl j t Hj. apply list_lookup_insert_Some in Hj as [(_ & <- & _)|[_ Hj]]; [done|by eapply Hl].
Qed.

(** The invariant of the access point with its stations and their machines *)
Definition mlme_inv (a : ApInfo) : Prop := table_inv C a /\ live_all (a_StaConInfo a).
Definition handled (a : ApInfo) (r : option ApInfo) : Prop :=
  exists a', r = Some a' /\ mlme_inv a' /\ balance a' [] ≡ₚ balance a [].

Lemma handled_from a b r : balance b [] ≡ₚ balance a [] -> handled b r -> handled a r.
Proof. intros Hb (a' & E & I & B). exists a'. split; [done|]. split; [exact I|by rewrite B]. Qed.

Lemma handled_done a b : mlme_inv b -> balance b [] ≡ₚ balance a [] -> handled a (Some b).
Proof. intros. by exists b. Qed.

(** *** Sending *)

Lemma sends a b len flags : table_inv C a ->
  exists a', ap_soc_data_send C (a <| a_pMgmtPkt := b |>) len flags = Some a' /\ calm a a' /\ table_inv C a' /\
    balance a' [] ≡ₚ balance a [].
Proof.
  intros Ht. pose proof (ti_power _ _ (ti_entries _ _ Ht)) as Hp.
  pose proof (buffer_good C (@sane_pool C _) (@sane_aid C _) a b Hp) as G1.
  destruct (soc_data_send_ok C P (a <| a_pMgmtPkt := b |>) [] 0 len flags (pw_pool _ _ (proj1 (proj2 G1)))) as (a2 & E & M & _).
  { apply P_DSP, HC. }
  pose proof (moves_good C (@sane_pool C _) (@sane_aid C _) _ _ (proj1 (proj2 G1)) M) as G2. pose proof (good_trans C _ _ _ [] [] G1 G2) as (Hc & Hp2 & B).
  exists a2. split; [done|]. split; [done|]. split; [by eapply calm_table|done].
Qed.

Lemma reason_sent a fc addr reason : table_inv C a ->
  exists a', send_reason C a fc addr reason = Some a' /\ calm a a' /\ table_inv C a' /\ balance a' [] ≡ₚ balance a [].
Proof.
  intros Ht. destruct (send_reason_ok C (@sane_pool C _) (@sane_aid C _) a fc addr reason (ti_power _ _ (ti_entries _ _ Ht)))
    as (a' & E & Hc & Hp & B). exists a'. split; [done|]. split; [done|]. split; [by eapply calm_table|done].
Qed.

Lemma calm_mlme a a' : calm a a' -> table_inv C a' -> mlme_inv a -> mlme_inv a'.
Proof. intros Hc Ht [_ Hl]. split; [done|]. eapply ages_live; [by apply calm_ages|done]. Qed.

(** A frame that is built in the buffer and sent *)
Definition sent (a : ApInfo) (r : option ApInfo) : Prop :=
  exists a', r = Some a' /\ calm a a' /\ table_inv C a' /\ balance a' [] ≡ₚ balance a [].

Lemma sent_bind a b r f : buffered_by (a <| a_pMgmtPkt := b |>) r ->
  (forall c, sent a (f (a <| a_pMgmtPkt := c |>))) -> sent a (r ≫= f).
Proof. intros [c ->] Hf. apply (Hf c). Qed.

Lemma sent_put a b off bytes f : (off + length bytes <= AP_MGMT_PKT_LEN)%nat ->
  (forall c, sent a (f (a <| a_pMgmtPkt := c |>))) -> sent a (mgmt_put (a <| a_pMgmtPkt := b |>) off bytes ≫= f).
Proof. intros Hr Hf. eapply sent_bind; [by apply mgmt_put_ok|done]. Qed.

Lemma sent_addrs a fc da bssid f : (forall c, sent a (f (a <| a_pMgmtPkt := c |>))) ->
  sent a (put_addrs C a fc da bssid ≫= f).
Proof. intros Hf. destruct (put_addrs_ok C a fc da bssid) as [b ->]. apply (Hf b). Qed.

Lemma le16_room v off : (off <= 1000)%nat -> (off + length (WPA_PUT_LE16 v) <= AP_MGMT_PKT_LEN)%nat.
Proof. unfold AP_MGMT_PKT_LEN. cbn. lia. Qed.

Lemma assoc_resp_sent a i s code re : table_inv C a -> a_StaConInfo a !! i = Some s ->
  sent a (send_assoc_resp C a i code re).
Proof.
  intros Ht Hi. unfold send_assoc_resp. rewrite Hi. cbn [mbind option_bind]. apply sent_addrs. intros c.
  do 4 (apply sent_put; [apply le16_room; lia|intros ?]).
  apply sent_put; [|intros ?; by apply sends].
  pose proof (supp_rates_length C). pose proof (ext_rates_length C). pose proof (ht_elems_length C a).
  rewrite !length_app. change (hostapd_eid_ht_operation C (_ <| a_pMgmtPkt := _ |>)) with (hostapd_eid_ht_operation C a).
  unfold AP_MGMT_PKT_LEN. case_match; cbn [length]; lia.
Qed.

Lemma auth_reply_sent a dst bssid alg tr resp ies : table_inv C a -> (length ies <= 130)%nat ->
  sent a (send_auth_reply C a dst bssid alg tr resp ies).
Proof.
  intros Ht Hl. unfold send_auth_reply. apply sent_addrs. intros c.
  do 3 (apply sent_put; [apply le16_room; lia|intros ?]).
  apply sent_put; [unfold AP_MGMT_PKT_LEN; lia|intros ?; by apply sends].
Qed.

Lemma probe_resp_sent a sa : table_inv C a -> sent a (send_probe_resp C a sa).
Proof.
  intros Ht. unfold send_probe_resp. apply sent_addrs. intros c.
  do 2 (apply sent_put; [apply le16_room; lia|intros ?]). cbv zeta.
  apply sent_put; [|intros ?; by apply sends].
  change (hostapd_eid_ht_operation C (_ <| a_pMgmtPkt := _ |>)) with (hostapd_eid_ht_operation C a).
  change (hostapd_eid_erp_info C (_ <| a_pMgmtPkt := _ |>)) with (hostapd_eid_erp_info C a).
  pose proof (supp_rates_length C). pose proof (ext_rates_length C). pose proof (ht_elems_length C a).
  pose proof (erp_length C a). pose proof sane_ssid.
  match goal with |- context [hostapd_eid_country ?g ?b ?d ?m] =>
    pose proof (country_length g b d m); set (country := hostapd_eid_country g b d m) in * end.
  match goal with |- context [hostapd_eid_wpa C ?l] => pose proof (wpa_elem_length C l); set (wpa := hostapd_eid_wpa C l) in * end.
  match goal with |- context [if IS_AP_IN_5G_BAND C then [] else ?e] =>
    assert (length (if IS_AP_IN_5G_BAND C then [] else e) <= 3)%nat by (case_match; [cbn; lia|done]);
    set (erp := if IS_AP_IN_5G_BAND C then [] else e) in * end.
  clearbody country wpa erp. rewrite !length_app. unfold AP_MGMT_PKT_LEN, hostapd_eid_ds_params. cbn [length]. lia.
Qed.

(** *** The port of a station *)

Lemma authorize_ok a i s : table_inv C a -> a_StaConInfo a !! i = Some s -> valid s = true ->
  exists a' s', ap_sta_set_authorized C a i true = Some a' /\ table_inv C a' /\ balance a' [] = balance a [] /\
    a_StaConInfo a' = <[i := s']> (a_StaConInfo a) /\ (s' = s \/ s' = set_sta_flag s WLAN_STA_AUTHORIZED).
Proof.
  intros Ht Hi Hv. unfold ap_sta_set_authorized. rewrite Hi. cbn [mbind option_bind].
  change (test_sta_flag s WLAN_STA_AUTHORIZED) with (authorized s). destruct (authorized s) eqn:Ea; cbn [Bool.eqb].
  { exists a, s. split_and!; try done; [by rewrite list_insert_id|by left]. }
  set (s' := set_sta_flag s WLAN_STA_AUTHORIZED). set (a1 := set_sta _ i s').
  assert (restated i s s' a a1) as Hr.
  { split_and!; try done; [by apply (flag_set_other s WLAN_STA_AUTHORIZED 17)|by apply (flag_set_other s WLAN_STA_AUTHORIZED 0)|].
    assert (authorized s' = true) as Ea' by (by apply (flag_set_same s 6)).
    assert (valid s' = valid s) as Ev' by (by apply (flag_set_other s WLAN_STA_AUTHORIZED 0)).
    pose proof (counter_small C a 1 (a_num_sta_authorized a) Ht eq_refl) as Hn.
    change (counters a1) with (<[1%nat := u8 (a_num_sta_authorized a + 1)]> (counters a)). rewrite u8_small by lia.
    unfold counters, counted_by. cbn [zip_with insert list_insert]. rewrite Ea, Ea', Ev'. cbn [Z.b2z].
    repeat (apply (f_equal2 cons); [first [lia|symmetry; apply Z.sub_add]|]). done. }
  destruct (restate_table C a a1 i s s' Ht Hi Hv Hr) as (T & B & S).
  destruct (ap_sta_info_collect C s) as [[[ad w] rt]|]; [|exists a1, s'; split_and!; try done; by right].
  eexists _, s'. split; [done|]. split; [|split; [|split; [exact S|by right]]].
  - apply (kept_table C a1); [done|by apply kept_emit|done].
  - rewrite (kept_balance a1); [done|by apply kept_emit].
Qed.

(** *** Association *)

Lemma emit_table a e : table_inv C a -> out_id e = None -> table_inv C (ap_emit a e) /\ balance (ap_emit a e) [] = balance a [].
Proof.
  intros Ht He. pose proof (kept_emit a e He) as K. split; [by apply (kept_table C a)|by apply kept_balance].
Qed.

Lemma oper_table a b s : table_inv C a -> let a' := ap_soc_cmd_sta_oper C a b s in
  table_inv C a' /\ balance a' [] = balance a [] /\ a_StaConInfo a' = a_StaConInfo a.
Proof.
  intros Ht. cbv zeta. unfold ap_soc_cmd_sta_oper. destruct (ap_sta_info_collect C s) as [[[ad w] r]|]; [|done].
  destruct (emit_table a (SetSta b ad w (test_sta_flag s WLAN_STA_WMM) r) Ht eq_refl). done.
Qed.

(** The counters and the HT state follow the station. *)
Lemma assoc_counts_ok a i s cap li : table_inv C a -> a_StaConInfo a !! i = Some s -> valid s = true ->
  length (s_ht_capabilities s) = 26%nat ->
  exists r, (let s := s <| s_capability := cap |> <| s_listen_interval := li |> in
             let '(a, s) := assoc_non_erp C a i s in
             let '(a, s) := assoc_slot_time C a i s in
             let '(a, s) := assoc_preamble C a i s in
             update_ht_state C a i s) = Some r /\ step_ok C i s a r.
Proof.
  intros Ht Hi Hv Hl. cbv zeta. set (s0 := s <| s_capability := cap |> <| s_listen_interval := li |>).
  pose proof (assoc_non_erp_ok C a i s s0 Ht Hi Hv ltac:(done) ltac:(done)) as H1. destruct (assoc_non_erp C a i s0) as [a1 s1].
  pose proof (step_at C i s a _ Hi H1) as I1. pose proof H1 as (T1 & _ & _ & (V1 & _ & _ & L1 & _)). cbn [fst snd] in *.
  pose proof (assoc_slot_time_ok C a1 i s1 T1 I1 ltac:(congruence)) as H2. destruct (assoc_slot_time C a1 i s1) as [a2 s2].
  pose proof (step_at C i s1 a1 _ I1 H2) as I2. pose proof H2 as (T2 & _ & _ & (V2 & _ & _ & L2 & _)). cbn [fst snd] in *.
  pose proof (assoc_preamble_ok C a2 i s2 T2 I2 ltac:(congruence)) as H3. destruct (assoc_preamble C a2 i s2) as [a3 s3].
  pose proof (step_at C i s2 a2 _ I2 H3) as I3. pose proof H3 as (T3 & _ & _ & (V3 & _ & _ & L3 & _)). cbn [fst snd] in *.
  destruct (update_ht_ok C a3 i s3 T3 I3 ltac:(congruence) ltac:(congruence)) as (r & E & H4). exists r. split; [done|].
  apply (step_trans C i s a (a3, s3) r); [|exact H4]. apply (step_trans C i s a (a2, s2)); [|exact H3].
  by apply (step_trans C i s a (a1, s1)).
Qed.

(** What [handle_assoc] keeps of the station *)
Definition associated (s s' : APStaInfo) : Prop :=
  valid s' = true /\ test_sta_flag s' WLAN_STA_ASSOC = true /\ s_addr s' = s_addr s /\ s_aid s' = s_aid s /\
  s_wpa_sm s' = s_wpa_sm s /\ s_assocRsp s' = false.

Lemma assoc_done_ok a i s cap li prev : table_inv C a -> a_StaConInfo a !! i = Some s -> valid s = true ->
  length (s_ht_capabilities s) = 26%nat ->
  exists a' s', assoc_done C a i cap li prev = Some a' /\ table_inv C a' /\ balance a' [] = balance a [] /\
    a_StaConInfo a' = <[i := s']> (a_StaConInfo a) /\ associated s s'.
Proof.
  intros Ht Hi Hv Hl. pose proof (lookup_lt_Some _ _ _ Hi) as Hlt.
  destruct (assoc_counts_ok a i s cap li Ht Hi Hv Hl) as ([a4 s4] & E4 & H4). unfold assoc_done. rewrite Hi. cbn [mbind option_bind].
  cbv zeta in E4 |- *. destruct (assoc_non_erp C a i _) as [a1 s1]. destruct (assoc_slot_time C a1 i s1) as [a2 s2].
  destruct (assoc_preamble C a2 i s2) as [a3 s3]. rewrite E4. cbn [mbind option_bind].
  pose proof (step_at C i s a _ Hi H4) as I4. destruct H4 as (T4 & B4 & S4 & (V4 & A4 & D4 & _ & W4 & _)). cbn [fst snd] in *.
  set (s5 := set_sta_flag s4 WLAN_STA_ASSOC). assert (same_marks s4 s5) as M5 by (by apply marks_set).
  destruct (note_table C a4 i s4 s5 T4 I4 ltac:(congruence) M5) as [T5 B5]. set (a5 := set_sta a4 i s5) in *.
  assert (a_StaConInfo a5 !! i = Some s5) as I5 by (by eapply sta_at).
  assert (valid s5 = true) as V5 by (rewrite (marks_valid _ _ M5); congruence).
  assert (test_sta_flag s5 WLAN_STA_ASSOC = true) as F5 by (by apply (flag_set_same s4 2)).
  assert (exists a6 s6, (if conf_wpa_key_mgmt (conf (st_wpa C)) =? WPA_KEY_MGMT_PSK then Some a5 else ap_sta_set_authorized C a5 i true) = Some a6 /\
    table_inv C a6 /\ balance a6 [] = balance a5 [] /\ a_StaConInfo a6 = <[i := s6]> (a_StaConInfo a5) /\
    (s6 = s5 \/ s6 = set_sta_flag s5 WLAN_STA_AUTHORIZED)) as (a6 & s6 & -> & T6 & B6 & S6 & C6).
  { destruct (_ =? _); [|by apply authorize_ok]. exists a5, s5. split_and!; try done; [by rewrite list_insert_id|by left]. }
  assert (valid s6 = true /\ test_sta_flag s6 WLAN_STA_ASSOC = true /\ s_addr s6 = s_addr s4 /\ s_aid s6 = s_aid s4 /\
    s_wpa_sm s6 = s_wpa_sm s4) as (V6 & F6 & A6 & D6 & W6).
  { destruct C6 as [-> | ->]; [done|]. split_and!; try done; unfold valid in *.
    - etrans; [by apply (flag_set_other s5 WLAN_STA_AUTHORIZED 0)|done].
    - etrans; [by apply (flag_set_other s5 WLAN_STA_AUTHORIZED 2)|done]. }
  cbn [mbind option_bind]. assert (a_StaConInfo a6 !! i = Some s6) as I6.
  { rewrite S6. apply list_lookup_insert_eq. by apply lookup_lt_Some in I5. }
  rewrite I6. cbn [mbind option_bind]. set (s7 := _ <| s_reassoc := false |>).
  assert (same_marks s6 s7 /\ s_wpa_sm s7 = s_wpa_sm s6 /\ s_assocRsp s7 = false /\ s_flags s7 = s_flags s6) as (M7 & W7 & R7 & F7)
    by (unfold s7; by destruct prev).
  destruct (note_table C a6 i s6 s7 T6 I6 V6 M7) as [T7 B7]. destruct (oper_table (set_sta a6 i s7) true s7 T7) as (T8 & B8 & S8).
  set (a8 := ap_soc_cmd_sta_oper C _ true s7) in *.
  assert (exists a9, (if bool_decide (st_sec_type C = SSV6XXX_SEC_WEP_40) || bool_decide (st_sec_type C = SSV6XXX_SEC_WEP_104)
    then ap_emit a8 (SetWep (s_addr s7)) else a8) = a9 /\ table_inv C a9 /\ balance a9 [] = balance a8 [] /\
    a_StaConInfo a9 = a_StaConInfo a8) as (a9 & -> & T9 & B9 & S9).
  { eexists. split; [done|]. destruct (_ || _); [|done]. by destruct (emit_table a8 (SetWep (s_addr s7)) T8 eq_refl). }
  exists a9, s7. split; [done|]. split; [done|]. split; [congruence|]. split.
  - rewrite S9, S8. change (a_StaConInfo (set_sta a6 i s7)) with (<[i := s7]> (a_StaConInfo a6)).
    change (a_StaConInfo a5) with (<[i := s5]> (a_StaConInfo a4)) in S6. rewrite S6, S4. by rewrite !list_insert_insert_eq.
  - pose proof (marks_valid _ _ M7). destruct M7 as (_ & D7 & A7 & _).
    split_and!; [congruence| |congruence..]. unfold test_sta_flag in *. congruence.
Qed.

(** The access point announces WPA2 with a pre-shared key and CCMP. *)
Definition secured : Prop :=
  let cfg := conf (st_wpa C) in
  conf_wpa cfg = WPA_PROTO_RSN /\ conf_wpa_key_mgmt cfg = WPA_KEY_MGMT_PSK /\ conf_rsn_pairwise cfg = WPA_CIPHER_CCMP.

Lemma validated cfg sel t0 ok fresh ie len sel' t : conf_wpa cfg = WPA_PROTO_RSN -> conf_wpa_key_mgmt cfg = WPA_KEY_MGMT_PSK ->
  conf_rsn_pairwise cfg = WPA_CIPHER_CCMP -> length fresh = len -> sta_wpa_ie t0 = None ->
  wpa_validate_wpa_ie cfg sel t0 ok fresh (Some ie) len = Some (WPA_IE_OK, sel', t) -> accepted t.
Proof.
  intros H1 H2 H3 Hlen H0. unfold wpa_validate_wpa_ie. case_match; [done|]. intros (b0 & _ & H')%bind_Some. rewrite H1 in H'.
  destruct (b0 =? WLAN_EID_RSN); [|done]. cbv zeta in H'. change (negb (has WPA_PROTO_RSN WPA_PROTO_RSN)) with false in H'.
  apply bind_Some in H' as ([res data] & _ & H'). case_match; [done|].
  apply bind_Some in H' as ([r t'] & H' & [= -> <- ->]).
  unfold apply_policy in H'. rewrite H2, H3 in H'. case_match; [done|]. cbv zeta in H'.
  destruct (Z.land (key_mgmt data) WPA_KEY_MGMT_PSK =? 0) eqn:Ek; [done|]. apply Z.eqb_neq in Ek.
  destruct (Z.land (pairwise_cipher data) WPA_CIPHER_CCMP =? 0) eqn:Ec; [done|]. apply Z.eqb_neq in Ec.
  assert (has (Z.land (pairwise_cipher data) WPA_CIPHER_CCMP) WPA_CIPHER_CCMP = true) as Hc.
  { unfold has. rewrite <- Z.land_assoc, Z.land_diag. by apply negb_true_iff, Z.eqb_neq. }
  assert (has (Z.land (key_mgmt data) WPA_KEY_MGMT_PSK) WPA_KEY_MGMT_IEEE8021X = false) as Hk.
  { unfold has. by rewrite <- Z.land_assoc, Z.land_0_r. }
  rewrite Hc, Hk in H'. unfold keep_wpa_ie in H'. cbn [sta_wpa_ie sta_wpa_ie_len] in H'. rewrite H0 in H'.
  destruct ok; [|done]. apply bind_Some in H' as (c & _ & (w & Hw & H')%bind_Some). injection H' as <-.
  split_and!; try done. cbn. intros d [= <-]. unfold wr in Hw.
  destruct (Nat.leb_spec (0 + length c) (length fresh)); [|done]. injection Hw as <-.
  rewrite ?length_app, ?length_take, ?length_drop. lia.
Qed.

(** *** The machine after the elements were checked *)

Definition same_machine (s s' : APStaInfo) : Prop := s_wpa_sm s' = s_wpa_sm s /\ s_assocRsp s' = s_assocRsp s.

#[export] Instance same_machine_preorder : PreOrder same_machine.
Proof. split; [by intros s|]. intros s1 s2 s3 [H1 H2] [K1 K2]. split; congruence. Qed.

Lemma some_pair {A B} (x x' : A) (y y' : B) : Some (x, y) = Some (x', y') -> x' = x /\ y' = y.
Proof. by intros [= -> ->]. Qed.

Lemma check_wmm_machine ies E s s' : check_wmm ies E s = Some s' -> same_machine s s'.
Proof.
  unfold check_wmm. destruct E as [[p l]|]; [intros (q & _ & H)%bind_Some|intros H]; apply (inj Some) in H; by rewrite <- H.
Qed.

Lemma copy_rates_machine ies E s r s' : copy_supp_rates ies E s = Some (r, s') -> same_machine s s'.
Proof.
  unfold copy_supp_rates. destruct (E supp_rates) as [[p l]|]; [|by intros [= _ <-]]. case_match; [by intros [= _ <-]|].
  intros (c & _ & H')%bind_Some. destruct (E ext_supp_rates) as [[p2 l2]|].
  - case_match; [apply some_pair in H' as [_ ->]; done|]. apply bind_Some in H' as (c2 & _ & [_ ->]%some_pair). done.
  - by apply some_pair in H' as [_ ->].
Qed.

Lemma copy_ht_machine ies E s s' : copy_sta_ht_capab C ies E s = Some s' -> same_machine s s'.
Proof.
  unfold copy_sta_ht_capab. intros H. destruct E as [[p l]|]; [case_match|];
    [apply (inj Some) in H; by rewrite <- H| |apply (inj Some) in H; by rewrite <- H].
  apply bind_Some in H as (c & _ & H). apply (inj Some) in H. by rewrite <- H.
Qed.

Lemma security_machine ok ies E s r s' : check_security C ok ies E s = Some (r, s') -> machine_live (s_wpa_sm s) ->
  s_assocRsp s' = s_assocRsp s /\ machine_live (s_wpa_sm s') /\
  (secured -> r = WLAN_STATUS_SUCCESS -> fresh (s_wpa_sm s')).
Proof.
  unfold check_security. cbv zeta. intros H Hm. destruct (Z.eqb_spec (conf_wpa (conf (st_wpa C))) 0) as [H0|H0].
  - rewrite (proj2 Hm H0) in H. apply some_pair in H as [-> ->]. split_and!; [done|done|].
    intros (Hs & _). by rewrite H0 in Hs.
  - destruct (wpa_element C E) as [[p l]|]; [|apply some_pair in H as [-> ->]; by split_and!].
    apply bind_Some in H as ([[res sel] t] & Hv & [Hr ->]%some_pair).
    split; [done|]. split; [apply (machine_init (s_addr s) t)|]. intros (S1 & S2 & S3) Hok. exists (s_addr s), t. split; [done|].
    assert (res = WPA_IE_OK) as -> by (rewrite Hok in Hr; destruct res; first [reflexivity|discriminate Hr]).
    apply (validated _ _ _ _ _ _ _ _ _ S1 S2 S3) in Hv; [done|by rewrite length_replicate|done].
Qed.

Lemma check_ies_machine ok ies left s r s' : check_ies C ok ies left s = Some (r, s') -> machine_live (s_wpa_sm s) ->
  s_assocRsp s' = s_assocRsp s /\ machine_live (s_wpa_sm s') /\
  (secured -> r = WLAN_STATUS_SUCCESS -> fresh (s_wpa_sm s')).
Proof.
  unfold check_ies. intros ([pr E] & _ & H)%bind_Some Hm.
  assert (forall r0, Some (r0, s) = Some (r, s') -> r0 <> WLAN_STATUS_SUCCESS ->
    s_assocRsp s' = s_assocRsp s /\ machine_live (s_wpa_sm s') /\ (secured -> r = WLAN_STATUS_SUCCESS -> fresh (s_wpa_sm s'))) as Hsame
    by (intros r0 [-> ->]%some_pair ?; by split_and!).
  assert ((resp ← check_ssid C ies (E ssid);
    if negb (resp =? WLAN_STATUS_SUCCESS) then Some (resp, s)
    else s ← check_wmm ies (E wmm) s; '(resp, s) ← copy_supp_rates ies E s;
         if negb (resp =? WLAN_STATUS_SUCCESS) then Some (resp, s)
         else s ← copy_sta_ht_capab C ies (E ht_capabilities) s; check_security C ok ies E s) = Some (r, s') ->
    s_assocRsp s' = s_assocRsp s /\ machine_live (s_wpa_sm s') /\
    (secured -> r = WLAN_STATUS_SUCCESS -> fresh (s_wpa_sm s'))) as Hgo.
  { intros (resp & _ & H1)%bind_Some. destruct (Z.eqb_spec resp WLAN_STATUS_SUCCESS); cbn [negb] in H1; [|by eapply Hsame].
    apply bind_Some in H1 as (s1 & M1%check_wmm_machine & ([resp2 s2] & M2%copy_rates_machine & H2)%bind_Some).
    assert (same_machine s s2) as M by (by etrans).
    destruct (Z.eqb_spec resp2 WLAN_STATUS_SUCCESS); cbn [negb] in H2.
    - apply bind_Some in H2 as (s3 & M3%copy_ht_machine & H3). destruct (transitivity M M3) as [W R].
      apply security_machine in H3 as (A & B & D); [|by rewrite W]. by rewrite A, R.
    - apply some_pair in H2 as [-> ->]. destruct M as [W R]. rewrite W, R. by split_and!. }
  destruct pr; [by apply Hgo|by apply Hgo|]. by eapply Hsame.
Qed.

(** *** The association of a station *)

(** A fact about the entry [i] *)
Definition sta_flag (a : ApInfo) (i : nat) (p : APStaInfo -> bool) : bool := default false (p <$> a_StaConInfo a !! i).

Lemma calm_flag a a' i k : calm a a' -> 0 <= k -> k <> 24 -> k <> 17 ->
  sta_flag a' i (fun s => test_sta_flag s (BIT k)) = sta_flag a i (fun s => test_sta_flag s (BIT k)).
Proof.
  intros Hc H1 H2 H3. pose proof (calm_lookup _ _ i Hc) as Hb. unfold sta_flag.
  destruct (a_StaConInfo a' !! i) as [s'|], (a_StaConInfo a !! i) as [s|]; try done. apply (inj Some) in Hb. cbn.
  by rewrite <- (base_flag s' k), <- (base_flag s k), Hb by done.
Qed.

Lemma refuse_handled a b i s1 code re : mlme_inv a -> table_inv C b -> (i < length (a_StaConInfo a))%nat -> valid s1 = true ->
  a_StaConInfo b = <[i := s1]> (a_StaConInfo a) -> balance b [] ≡ₚ balance a [] ->
  exists a', assoc_refuse C b i code re = Some a' /\ mlme_inv a' /\ balance a' [] ≡ₚ balance a [] /\
    sta_flag a' i valid = false.
Proof.
  intros [Ht Hl] Tb Hlt Hv Sb Bb. unfold assoc_refuse.
  destruct (free_any C b i s1 Tb) as (a1 & -> & T1 & B1 & S1); [rewrite Sb; by apply list_lookup_insert_eq|].
  rewrite Hv, Sb, list_insert_insert_eq in S1. cbn [mbind option_bind].
  destruct (assoc_resp_sent a1 i APStaInfo_StaReset code re T1) as (a2 & E2 & C2 & T2 & B2);
    [rewrite S1; by apply list_lookup_insert_eq|].
  exists a2. split; [done|]. split; [split; [done|]|split; [by rewrite B2, B1|]].
  - eapply ages_live; [by apply calm_ages|]. rewrite S1. apply live_insert; [by apply sta_zero|done].
  - etrans; [by apply (calm_flag a1 a2 i 0 C2)|]. unfold sta_flag. rewrite S1, list_lookup_insert_eq by done. done.
Qed.

Context (Hpol : conf_wpa_key_mgmt (conf (st_wpa C)) = WPA_KEY_MGMT_PSK -> secured).

Lemma accept_handled a i s re : mlme_inv a -> a_StaConInfo a !! i = Some s -> valid s = true -> s_assocRsp s = false ->
  (secured -> fresh (s_wpa_sm s)) ->
  exists a' s', assoc_accept C a i re = Some a' /\ mlme_inv a' /\ balance a' [] ≡ₚ balance a [] /\
    a_StaConInfo a' !! i = Some s' /\ s_addr s' = s_addr s /\ s_aid s' = s_aid s /\
    test_sta_flag s' WLAN_STA_ASSOC = test_sta_flag s WLAN_STA_ASSOC /\ valid s' = true.
Proof.
  intros [Ht Hl] Hi Hv Hr Hf. unfold assoc_accept.
  destruct (assoc_resp_sent a i s WLAN_STATUS_SUCCESS re Ht Hi) as (a1 & -> & C1 & T1 & B1). cbn [mbind option_bind].
  pose proof (calm_mlme a a1 C1 T1 (conj Ht Hl)) as I1.
  pose proof (calm_lookup _ _ i C1) as Hb. rewrite Hi in Hb. destruct (a_StaConInfo a1 !! i) as [s1|] eqn:Hs1; [|done].
  apply (inj Some) in Hb. destruct (base_same _ _ Hb) as (Hd1 & Ha1 & Hv1). pose proof (f_equal s_assocRsp Hb) as Hr1.
  pose proof (f_equal s_wpa_sm Hb) as Hm1. change (s_assocRsp (sta_base ?s)) with (s_assocRsp s) in Hr1.
  change (s_wpa_sm (sta_base ?s)) with (s_wpa_sm s) in Hm1.
  assert (test_sta_flag s1 WLAN_STA_ASSOC = test_sta_flag s WLAN_STA_ASSOC) as Hf1.
  { etrans; [symmetry; by apply (base_flag s1 2)|]. rewrite Hb. by apply (base_flag s 2). }
  destruct (Z.eqb_spec (conf_wpa_key_mgmt (conf (st_wpa C))) WPA_KEY_MGMT_PSK) as [Hk|].
  2:{ exists a1, s1. split; [done|]. split; [exact I1|]. split_and!; [done|done|done|done|done|congruence]. }
  unfold process_4Ways_start, upd_sta. rewrite Hs1. cbn [mbind option_bind]. rewrite Hr1, Hr. cbn [andb mbind option_bind]. rewrite Hs1.
  cbn [mbind option_bind]. set (s2 := s1 <| s_assocRsp := true |>).
  destruct (note_table C a1 i s1 s2 T1 Hs1 ltac:(congruence) ltac:(done)) as [T2 B2].
  exists (set_sta a1 i s2), s2. split; [done|]. split; [split; [done|]|split; [by rewrite B2, B1|split; [by eapply sta_at|]]].
  - apply live_insert; [|apply I1]. split; [apply (proj2 I1 i s1 Hs1)|]. intros _. change (s_wpa_sm s2) with (s_wpa_sm s1). rewrite Hm1. auto.
  - split_and!; [exact Ha1|exact Hd1|exact Hf1|]. by etrans; [exact Hv1|].
Qed.

(** What [handle_assoc] answers: the status of a request of station [s] *)
Definition assoc_verdict (a : ApInfo) (s : APStaInfo) (mgmt : list Z) (len : nat) (re : bool) : option Z :=
  let body := (if re then 34 else 28)%nat in
  listen_interval ← WPA_GET_LE16 mgmt 26;
  if st_tkip_countermeasures C then Some WLAN_REASON_MIC_FAILURE
  else if AP_MAX_LISTEN_INTERVAL <? listen_interval then Some WLAN_STATUS_ASSOC_DENIED_LISTEN_INT_TOO_LARGE
  else fst <$> check_ies C (allocs (st_wpa C) (a_nalloc a)) (drop body mgmt) (len - body) s.

Lemma checked_assoc a i s ies left : mlme_inv a -> a_StaConInfo a !! i = Some s -> valid s = true ->
  Forall is_byte ies -> (left + 28 <= length ies)%nat ->
  exists r s1 b, check_ies C (allocs (st_wpa C) (a_nalloc a)) ies left s = Some (r, s1) /\
    check_assoc_ies C a i ies left = Some (r, b) /\ table_inv C b /\ balance b [] = balance a [] /\
    a_StaConInfo b = <[i := s1]> (a_StaConInfo a) /\ valid s1 = true /\ s_addr s1 = s_addr s /\
    machine_live (s_wpa_sm s1) /\
    (r = WLAN_STATUS_SUCCESS -> length (s_ht_capabilities s1) = 26%nat /\ (secured -> fresh (s_wpa_sm s1))).
Proof.
  intros [Ht Hl] Hi Hv Hb Hlen. unfold check_assoc_ies. rewrite Hi. cbn [mbind option_bind].
  destruct (check_ies_ok C (allocs (st_wpa C) (a_nalloc a)) ies left s Hb Hlen) as (r & s1 & E & M & L). rewrite E. cbn [mbind option_bind].
  destruct (note_table C a i s s1 Ht Hi Hv M) as [T1 B1]. exists r, s1. eexists. split; [done|]. split; [done|].
  set (b := set_sta (a <| a_nalloc := S (a_nalloc a) |>) i s1). assert (kept (set_sta a i s1) b) as K by (by split_and!).
  destruct (check_ies_machine (allocs (st_wpa C) (a_nalloc a)) ies left s r s1 E) as (R1 & M1 & F1); [apply (Hl i s Hi)|].
  split; [by apply (kept_table C (set_sta a i s1))|]. split; [by rewrite (kept_balance _ _ _ K)|].
  split; [done|]. split; [by rewrite (marks_valid _ _ M)|]. split; [apply M|]. split; [done|]. auto.
Qed.

Lemma assoc_station_ok a i s mgmt len (re : bool) : mlme_inv a -> a_StaConInfo a !! i = Some s -> valid s = true ->
  mgmt_frame_ok mgmt len -> ((if re then 34 else 28) <= len)%nat ->
  exists r a', assoc_verdict a s mgmt len re = Some r /\ assoc_station C a i mgmt len re = Some a' /\
    mlme_inv a' /\ balance a' [] ≡ₚ balance a [] /\
    if r =? WLAN_STATUS_SUCCESS
    then exists s', a_StaConInfo a' !! i = Some s' /\ s_addr s' = s_addr s /\ valid s' = true /\
           test_sta_flag s' WLAN_STA_ASSOC = true /\ 1 <= s_aid s' <= Z.of_nat (st_gMaxAID C)
    else sta_flag a' i valid = false.
Proof.
  intros Hinv Hi Hv (Hb & H24 & Hlen) Hbody. pose proof (lookup_lt_Some _ _ _ Hi) as Hlt. pose proof Hinv as [Ht Hl].
  unfold assoc_verdict, assoc_station. cbv zeta. set (body := (if re then 34 else 28)%nat) in *.
  destruct (get_le16_some mgmt 24) as (cap & -> & _); [lia|]. destruct (get_le16_some mgmt 26) as (li & -> & _); [lia|].
  cbn [mbind option_bind].
  assert (forall r, r <> WLAN_STATUS_SUCCESS -> exists r' a', Some r = Some r' /\ assoc_refuse C a i r re = Some a' /\ mlme_inv a' /\
    balance a' [] ≡ₚ balance a [] /\ if r' =? WLAN_STATUS_SUCCESS then exists s', a_StaConInfo a' !! i = Some s' /\ s_addr s' = s_addr s /\
      valid s' = true /\ test_sta_flag s' WLAN_STA_ASSOC = true /\ 1 <= s_aid s' <= Z.of_nat (st_gMaxAID C)
    else sta_flag a' i valid = false) as Href.
  { intros r Hr. destruct (refuse_handled a a i s r re Hinv Ht Hlt Hv) as (a' & E & I & B & V); [by rewrite list_insert_id|done|].
    exists r, a'. rewrite (proj2 (Z.eqb_neq _ _) Hr). split; [done|]. split; [done|]. split; [exact I|]. done. }
  destruct (st_tkip_countermeasures C); [by apply Href|]. destruct (AP_MAX_LISTEN_INTERVAL <? li); [by apply Href|].
  destruct (checked_assoc a i s (drop body mgmt) (len - body) Hinv Hi Hv) as (r & s1 & b & -> & -> & T1 & B1 & S1 & V1 & A1 & M1 & F1);
    [by apply Forall_drop|rewrite length_drop; lia|].
  cbn [mbind option_bind fmap option_fmap option_map fst]. exists r.
  destruct (Z.eqb_spec r WLAN_STATUS_SUCCESS) as [Hr|Hr]; cbn [negb].
  2:{ destruct (refuse_handled a b i s1 r re Hinv T1 Hlt V1 S1) as (a' & E & I & B & V); [by rewrite B1|]. exists a'. split; [done|]. split; [done|]. split; [exact I|]. done. }
  destruct (F1 Hr) as [L1 G1]. assert (a_StaConInfo b !! i = Some s1) as I1 by (rewrite S1; by apply list_lookup_insert_eq).
  destruct (aid_given C b i s1 T1 I1 V1) as (a2 & s2 & -> & T2 & B2 & S2 & E2 & D2). cbn [mbind option_bind negb].
  assert (a_StaConInfo a2 !! i = Some s2) as I2 by (rewrite S2; apply list_lookup_insert_eq; by apply lookup_lt_Some in I1).
  assert (exists cur, (if re then p ← slice mgmt 28 6; Some (Some p) else Some None) = Some cur) as [cur ->].
  { destruct re; [|eauto]. destruct (slice_some mgmt 28 6) as (p & -> & _); [lia|]. cbn. eauto. }
  cbn [mbind option_bind].
  assert (valid s2 = true /\ length (s_ht_capabilities s2) = 26%nat /\ s_wpa_sm s2 = s_wpa_sm s1 /\ s_addr s2 = s_addr s1)
    as (V2 & L2 & W2 & A2) by (by rewrite E2).
  destruct (assoc_done_ok a2 i s2 cap li cur T2 I2 V2 L2) as (a3 & s3 & -> & T3 & B3 & S3 & (V3 & F3 & A3 & D3 & W3 & R3)). cbn [mbind option_bind].
  assert (a_StaConInfo a3 = <[i := s3]> (a_StaConInfo a)) as S3' by (by rewrite S3, S2, S1, !list_insert_insert_eq).
  assert (mlme_inv a3) as Inv3.
  { split; [done|]. rewrite S3'. apply live_insert; [|done]. split; [by rewrite W3, W2|congruence]. }
  destruct (accept_handled a3 i s3 re Inv3) as (a4 & s4 & -> & I4 & B4 & Hs4 & A4 & D4 & F4 & V4); [|done|done| |].
  { rewrite S3'. by apply list_lookup_insert_eq. } { intros Hs. rewrite W3, W2. auto. }
  exists a4. split; [done|]. split; [done|]. split; [done|]. split; [by rewrite B4, B3, B2, B1|].
  exists s4. split_and!; [done|congruence|done|congruence|lia|lia].
Qed.

(** ** The authenticator *)

Lemma emit_ages a e : table_inv C a -> out_id e = None ->
  table_inv C (ap_emit a e) /\ balance (ap_emit a e) [] ≡ₚ balance a [] /\ ages (a_StaConInfo a) (a_StaConInfo (ap_emit a e)).
Proof. intros Ht He. destruct (emit_table a e Ht He) as [T B]. split; [done|]. by rewrite B. Qed.

Lemma effects_ok sta l : forall a, table_inv C a ->
  exists a', auth_effects C sta a l = Some a' /\ table_inv C a' /\ balance a' [] ≡ₚ balance a [] /\
    ages (a_StaConInfo a) (a_StaConInfo a').
Proof.
  induction l as [|e l IH]; intros a Ht; cbn [auth_effects]; [by exists a|].
  assert (exists b, auth_effect C sta a e = Some b /\ table_inv C b /\ balance b [] ≡ₚ balance a [] /\
    ages (a_StaConInfo a) (a_StaConInfo b)) as (b & -> & Tb & Bb & Ab).
  { unfold auth_effect. destruct (APStaInfo_FindStaByAddr a sta) as [j|] eqn:Ef.
    - apply FindSta_Some in Ef as (s & Hj & Hv & _). destruct e.
      + eexists. split; [done|by apply emit_ages].
      + eexists. split; [done|by apply emit_ages].
      + destruct (authorize_ok a j s Ht Hj Hv) as (b & s' & E & T & B & S & Hs). exists b. split_and!; [done|done|by rewrite B|].
        rewrite S. apply (ages_insert _ _ s); [done|]. right. by destruct Hs as [-> | ->].
      + destruct (sta_remove_ok C a j s (table_loose C a j Ht) Hj Hv) as (b & E & T & R). exists b.
        split_and!; [done|done|apply R|by eapply removed_ages].
    - destruct e; (eexists; split; [done|]); first [by apply emit_ages|done]. }
  cbn [mbind option_bind]. destruct (IH b Tb) as (a' & E & T & B & A). exists a'. split_and!; [done|done|by rewrite B|by etrans].
Qed.

Lemma handle_timers_eapol i j l m :
  handle_timers j (filter (fun p => p.1 <> TEapol i) l ++ map (pair (TEapol i)) m) = handle_timers j l.
Proof.
  unfold handle_timers. rewrite list.filter_app, list_filter_filter.
  assert (filter (fun p : ap_timer * Z => p.1 = THandle j) (map (pair (TEapol i)) m) = []) as ->.
  { induction m as [|x m IH]; [done|]. cbn [map]. rewrite filter_cons, decide_False by done. exact IH. }
  rewrite app_nil_r. apply list_filter_iff. intros p. split; [by intros [? _]|]. intros Hp. split; [done|]. by rewrite Hp.
Qed.

(** A call of the authenticator: the entry of the station has its machine. *)
Lemma with_auth_ok a i s f b : table_inv C a -> a_StaConInfo a !! i = Some s -> f (auth_view a i s) = Some b ->
  exists a', with_auth C a i f = Some a' /\ table_inv C a' /\ balance a' [] ≡ₚ balance a [] /\
    forall j t, a_StaConInfo a' !! j = Some t ->
      if bool_decide (j = i) then s_wpa_sm t = sm b /\ (s_assocRsp t = true -> s_assocRsp s = true)
      else s_wpa_sm t = sm_zero /\ s_assocRsp t = false \/
           exists u, a_StaConInfo a !! j = Some u /\ s_wpa_sm t = s_wpa_sm u /\ (s_assocRsp t = true -> s_assocRsp u = true).
Proof.
  intros Ht Hi Hf. unfold with_auth. rewrite Hi. cbn [mbind option_bind]. rewrite Hf. cbn [mbind option_bind].
  destruct (effects_ok (addr (s_wpa_sm s)) (out b) a Ht) as (a1 & -> & T1 & B1 & A1). cbn [mbind option_bind].
  unfold auth_merge. cbv zeta. match goal with |- context [upd_sta ?x i] => set (a2 := x) end.
  assert (kept a1 a2) as K2 by (split_and!; try done; intros j; apply handle_timers_eapol).
  pose proof (kept_table C a1 a2 T1 K2 eq_refl) as T2.
  destruct (table_lookup C a2 i T2) as [s2 Hs2]; [rewrite <- (table_length C a Ht); by eapply lookup_lt_Some|].
  unfold upd_sta. rewrite Hs2. cbn [mbind option_bind].
  set (s3 := s2 <| s_wpa_sm := sm b |>). destruct (touch_table C a2 i s2 s3 T2 Hs2) as [T3 B3]; [done|done|].
  eexists. split; [done|]. split; [done|]. split; [by rewrite B3, (kept_balance _ _ _ K2)|].
  intros j t Hj. change (a_StaConInfo (set_sta a2 i s3)) with (<[i := s3]> (a_StaConInfo a1)) in Hj. change (a_StaConInfo a2) with (a_StaConInfo a1) in *.
  case_bool_decide as Hji.
  - subst j. rewrite list_lookup_insert_eq in Hj by (by eapply lookup_lt_Some). apply (inj Some) in Hj. subst t.
    split; [done|]. change (s_assocRsp s3) with (s_assocRsp s2). destruct (A1 i s2 Hs2) as [[_ ->]|(u & Hu & _ & R)]; [done|].
    assert (u = s) as -> by congruence. done.
  - rewrite list_lookup_insert_ne in Hj by done. by apply A1.
Qed.

Lemma call_handled a i s f b : mlme_inv a -> a_StaConInfo a !! i = Some s -> f (auth_view a i s) = Some b ->
  machine_live (sm b) -> (s_assocRsp s = true -> fresh (sm b)) -> handled a (with_auth C a i f).
Proof.
  intros [Ht Hl] Hi Hf Hm Hr. destruct (with_auth_ok a i s f b Ht Hi Hf) as (a' & E & T & B & H). exists a'. split; [done|].
  split; [|done]. split; [done|]. intros j t Hj. specialize (H j t Hj). case_bool_decide.
  - destruct H as [W R]. split; rewrite W; auto.
  - destruct H as [[Z1 Z2]|(u & Hu & W & R)]; [by apply sta_zero|]. destruct (Hl j u Hu) as [L1 L2]. split; rewrite W; auto.
Qed.

(** A call that leaves a machine alone that was not started *)
Lemma idle_handled a i s f b hist : mlme_inv a -> a_StaConInfo a !! i = Some s -> f (auth_view a i s) = Some b ->
  live (st_wpa C) hist b -> (started (s_wpa_sm s) = false -> sm b = s_wpa_sm s) -> handled a (with_auth C a i f).
Proof.
  intros Hinv Hi Hf Hb Hidle. destruct (proj2 Hinv i s Hi) as [[_ Ho] Hr]. apply (call_handled a i s f b Hinv Hi Hf).
  - apply (live_machine hist b Hb). intros H0. rewrite (Hidle (Ho H0)). auto.
  - intros H1. destruct (Hr H1) as (sa & t & E & Hacc). rewrite Hidle by (by rewrite E). by exists sa, t.
Qed.
End Handlers.
