(* ===== verification/ApAssoc.v ===== *)
(** * ApAssoc: which association requests are accepted

    The criterion on the information elements of a request, stated on the elements
    themselves (the unique decomposition of the bytes into elements of [Ie80211]
    and the reading of the RSN element of [RsnRead]) and not in terms of the
    handlers: the SSID is that of the access point, the station has at most 32
    rates, and its RSN element fits the policy.  [check_assoc_ies] accepts exactly
    the requests that meet it. *)

From stdpp Require Import base list option.
From Stdlib Require Import ZArith Lia.
From S2P Require Import Prelude Words Wire HciAggr Ie80211 WpaIe RsnRead WpaAuth ApInfo NeighborAp ApMlme ApMlmeInv.

(** ** The criterion *)

(** The contents of the last element of a kind *)
Definition last_of (f : ie_field) (els : list ie) : option (list Z) := list.last (values f els).

Definition rates_acceptable (els : list ie) : bool :=
  match last_of supp_rates els with
  | Some r => (length r + length (default [] (last_of ext_supp_rates els)) <=? 32)%nat
  | None => false
  end.

(** No security, or the element names the group cipher of the access point and
    shares a key management and a pairwise cipher with it; [mem]: a copy of the
    element can be allocated *)
Definition security_acceptable (cfg : wpa_auth_config) (mem : bool) (els : list ie) : bool :=
  (conf_wpa cfg =? 0) ||
  mem && match last_of rsn_ie els ≫= rsn_read with
         | Some (group, pairwise, akm) =>
             (group =? conf_wpa_group cfg) && negb (Z.land akm (conf_wpa_key_mgmt cfg) =? 0)
             && negb (Z.land pairwise (conf_rsn_pairwise cfg) =? 0)
         | None => false
         end.

(** The bytes are complete elements [els] with nothing left over. *)
Definition elems_acceptable (C : ap_static) (mem : bool) (els : list ie) (rest : list Z) : bool :=
  bool_decide (rest = []) && bool_decide (last_of ssid els = Some (cf_ssid (st_config C)))
  && rates_acceptable els && security_acceptable (conf (st_wpa C)) mem els.

(** The request as a whole *)
Definition request_acceptable (C : ap_static) (mem : bool) (listen_interval : Z) (els : list ie) (rest : list Z) : bool :=
  negb (st_tkip_countermeasures C) && (listen_interval <=? 65534) && elems_acceptable C mem els rest.

(** The access point has no security or announces WPA2. *)
Definition wpa2_or_open (C : ap_static) : Prop :=
  conf_wpa (conf (st_wpa C)) = 0 \/ conf_wpa (conf (st_wpa C)) = WPA_PROTO_RSN.

(** ** Where the elements are *)

Lemma parse_placed buf len els rest : decomposes (take len buf) els rest -> (len <= length buf)%nat ->
  ieee802_11_parse_elems buf len = Some (verdict els rest, place elems_clear 0 els).
Proof.
  intros (Heq & Hw & Hr) Hlen.
  assert (buf = [] ++ (encode els ++ rest) ++ drop len buf) as Hbuf by (rewrite <- Heq; symmetry; apply take_drop).
  assert (len = length (encode els ++ rest)) as Hl by (rewrite <- Heq, length_take_le; lia).
  pose proof (parse_loop_exact els len [] rest (drop len buf) 0 elems_clear Hw Hr) as H.
  rewrite <- Hbuf, <- Hl in H. unfold ieee802_11_parse_elems. cbn [length] in H. rewrite H by lia.
  unfold count_verdict, verdict. destruct rest; [|done]. by destruct (existsb _ _).
Qed.

(** A pointer that the elements set is preceded by the header of its element. *)
Lemma place_header buf f els : forall E pre tail p l, buf = pre ++ encode els ++ tail ->
  place E (length pre) els f = Some (p, l) ->
  E f = Some (p, l) \/
  exists e post, e ∈ els /\ field_of e = Some f /\ drop (p - 2) buf = encode_ie e ++ post /\ (f <> link_id -> l = length e.2).
Proof.
  induction els as [|e els IH]; intros E pre tail p l Hb Hp; [by left|]. cbn [place encode] in *.
  replace (length pre + 2 + length e.2)%nat with (length (pre ++ encode_ie e)) in Hp by (rewrite length_app, length_encode_ie; lia).
  destruct (IH (keep_ie E (length pre + 2) e) (pre ++ encode_ie e) tail p l) as [Hk|(e' & post & He & H)];
    [by rewrite Hb, <- !app_assoc|done| |right; exists e', post; split; [by right|done]].
  unfold keep_ie in Hk. destruct (field_of e) as [g|] eqn:Hg; [|by left]. unfold elems_set in Hk.
  destruct (decide (f = g)) as [->|]; [|by left]. right. exists e, (encode els ++ tail). split; [by left|].
  apply (inj Some) in Hk. injection Hk as <- <-. split_and!; [done| |intros; by rewrite decide_False].
  replace (length pre + 2 - 2)%nat with (length pre) by lia. by rewrite Hb, drop_app_length, <- app_assoc.
Qed.

Lemma rsn_field e : field_of e = Some rsn_ie -> e.1 = 48.
Proof.
  unfold field_of, lookup_field. destruct (e.1 =? 221).
  - destruct (List.find _ vendor_fields) as [[p g]|] eqn:H; [|done]. apply find_some in H as [H _]. cbn in *. intros [= ->].
    repeat destruct H as [H|H]; try discriminate. done.
  - destruct (e.1 =? 101); [by destruct (_ <=? _)%nat|].
    destruct (List.find _ id_fields) as [[p g]|] eqn:H; [|done]. apply find_some in H as [H Ht]. cbn in *. intros [= ->].
    apply Z.eqb_eq in Ht. repeat destruct H as [H|H]; try discriminate; try done. by injection H as <-.
Qed.

Section Placed.
Context (ies : list Z) (left : nat) (els : list ie) (rest : list Z).
Context (Hd : decomposes (take left ies) els rest) (Hl : (left <= length ies)%nat).
Let E := place elems_clear 0 els.

Lemma placed_value f : f <> link_id ->
  match E f, last_of f els with
  | Some (p, l), Some d => slice ies p l = Some d /\ l = length d
  | None, None => True
  | _, _ => False
  end.
Proof.
  intros Hf. destruct (parse_decomposed ies left els rest Hd Hl) as (_ & E' & HE & Hp). rewrite (parse_placed _ _ _ _ Hd Hl) in HE.
  apply (inj Some) in HE. injection HE as <-. specialize (Hp f). fold E in Hp. unfold points_to in Hp. fold (last_of f els) in Hp.
  destruct (E f) as [[p l]|], (last_of f els) as [d|]; try done. destruct Hp as (Ht & Hle & Hlen). rewrite (Hlen Hf).
  split; [|done]. unfold slice. rewrite (proj2 (Nat.leb_le _ _)) by lia. by rewrite Ht.
Qed.

(** The RSN element with its header *)
Lemma placed_rsn p l : E rsn_ie = Some (p, l) ->
  exists d post, last_of rsn_ie els = Some d /\ l = length d /\ drop (p - 2) ies = encode_ie (48, d) ++ post /\ Forall is_byte d.
Proof.
  intros Hp. pose proof (placed_value rsn_ie ltac:(done)) as Hv. rewrite Hp in Hv.
  destruct (last_of rsn_ie els) as [d|]; [|done]. destruct Hv as [Hs Hld]. pose proof Hd as (Heq & Hw & _).
  assert (ies = [] ++ encode els ++ (rest ++ drop left ies)) as Hies by (cbn; rewrite app_assoc, <- Heq; symmetry; apply take_drop).
  destruct (place_header ies rsn_ie els elems_clear [] _ p l Hies Hp) as [|(e & post & He & Hf & Hdr & Hle)]; [done|].
  specialize (Hle ltac:(done)). pose proof (rsn_field e Hf) as H1.
  assert (e.2 = d) as He2.
  { assert (2 <= p)%nat as Hp2.
    { destruct (decide (2 <= p)%nat); [done|]. exfalso.
      assert (place elems_clear 0 els rsn_ie = Some (p, l) -> (2 <= p)%nat) as Hge; [|by apply Hge in Hp].
      assert (forall els E n, (forall q m, E rsn_ie = Some (q, m) -> (2 <= q)%nat) ->
        forall q m, place E n els rsn_ie = Some (q, m) -> (2 <= q)%nat) as Hgen; [|by apply Hgen].
      clear. induction els as [|e els IH]; intros E n HE q m; cbn [place]; [apply HE|]. apply IH. intros q' m'. unfold keep_ie.
      destruct (field_of e); [|apply HE]. unfold elems_set. case_decide; [|apply HE]. intros [= <- _]. lia. }
    unfold slice in Hs. case_match; [|done]. apply (inj Some) in Hs. rewrite <- Hs, Hle.
    assert (drop p ies = drop 2 (drop (p - 2) ies)) as -> by (rewrite drop_drop; f_equal; lia). rewrite Hdr.
    change (drop 2 (encode_ie e ++ post)) with (drop 0 (e.2 ++ post)). by rewrite drop_0, take_app_length. }
  exists d, post. split_and!; [done|done| |].
  - rewrite Hdr. unfold encode_ie. by rewrite H1, He2.
  - rewrite list.Forall_forall in Hw. destruct (Hw e He) as (_ & Hb & _). by rewrite <- He2.
Qed.
End Placed.

(** ** The security element *)

Lemma validate_rsn cfg sel sm mem d post : Forall is_byte d -> conf_wpa cfg = WPA_PROTO_RSN -> sta_wpa_ie sm = None ->
  exists res sel' sm',
    wpa_validate_wpa_ie cfg sel sm mem (replicate (length d + 2) 0) (Some (encode_ie (48, d) ++ post)) (length d + 2)
      = Some (res, sel', sm') /\
    (res = WPA_IE_OK <->
     mem && match rsn_read d with
            | Some (g, p, k) => (g =? conf_wpa_group cfg) && negb (Z.land k (conf_wpa_key_mgmt cfg) =? 0)
                                && negb (Z.land p (conf_rsn_pairwise cfg) =? 0)
            | None => false
            end = true).
Proof.
  intros Hb Hc Hsm. unfold wpa_validate_wpa_ie. rewrite (proj2 (Nat.ltb_ge _ 1)) by lia.
  change ((encode_ie (48, d) ++ post) !! 0%nat) with (Some 48). cbn [mbind option_bind].
  change (48 =? WLAN_EID_RSN) with true. cbv iota zeta. rewrite Hc. change (negb (has WPA_PROTO_RSN WPA_PROTO_RSN)) with false. cbv iota.
  destruct (parse_rsn_read d post Hb) as (res & data & Hp & Hr). rewrite (Nat.add_comm (length d)). rewrite Hp. cbn [mbind option_bind].
  destruct (rsn_read d) as [[[g p] k]|].
  2: { rewrite (proj2 (Z.eqb_neq _ _) Hr). cbn [negb]. eexists _, _, _. split; [done|]. by rewrite andb_false_r. }
  destruct Hr as (-> & <- & <- & <-). change (negb (0 =? 0)) with false. cbv iota. unfold apply_policy.
  destruct (group_cipher data =? conf_wpa_group cfg); cbn [negb andb];
    [|eexists _, _, _; split; [done|]; by rewrite andb_false_r].
  destruct (Z.land (key_mgmt data) (conf_wpa_key_mgmt cfg) =? 0); cbn [negb andb];
    [eexists _, _, _; split; [done|]; by rewrite andb_false_r|].
  destruct (Z.land (pairwise_cipher data) (conf_rsn_pairwise cfg) =? 0); cbn [negb andb];
    [eexists _, _, _; split; [done|]; by rewrite andb_false_r|].
  unfold keep_wpa_ie. cbn [sta_wpa_ie sta_wpa_ie_len]. rewrite Hsm, andb_true_r.
  destruct mem; [|eexists _, _, _; by split; [done|]].
  assert (slice (encode_ie (48, d) ++ post) 0 (2 + length d) = Some (encode_ie (48, d))) as ->.
  { unfold slice. rewrite (proj2 (Nat.leb_le _ _)) by (rewrite length_app, length_encode_ie; cbn [snd]; lia).
    rewrite drop_0. rewrite take_app_le by (rewrite length_encode_ie; cbn [snd]; lia). by rewrite take_ge by (rewrite length_encode_ie; cbn [snd]; lia). }
  cbn [mbind option_bind]. rewrite wr_whole by (rewrite length_replicate, length_encode_ie; done). cbn [mbind option_bind].
  eexists _, _, _. by split; [done|].
Qed.

(** ** The check accepts exactly these elements *)

Section Decided.
Context (C : ap_static) (Hwpa : wpa2_or_open C).
Context (ies : list Z) (left : nat) (els : list ie) (rest : list Z).
Context (Hd : decomposes (take left ies) els rest) (Hl : (left + 28 <= length ies)%nat).
Let E := place elems_clear 0 els.

Lemma ssid_decided r : check_ssid C ies (E ssid) = Some r ->
  (r =? WLAN_STATUS_SUCCESS) = bool_decide (last_of ssid els = Some (cf_ssid (st_config C))).
Proof.
  pose proof (placed_value ies left els rest Hd ltac:(lia) ssid ltac:(done)) as Hv. fold E in Hv. unfold check_ssid, contents.
  destruct (E ssid) as [[p l]|], (last_of ssid els) as [name|]; try done.
  - destruct Hv as [-> _]. cbn [mbind option_bind]. intros [= <-]. do 2 case_bool_decide; try done; congruence.
  - cbn [mbind option_bind]. intros [= <-]. by case_bool_decide.
Qed.

Lemma rates_decided s r s' : copy_supp_rates ies E s = Some (r, s') -> (r =? WLAN_STATUS_SUCCESS) = rates_acceptable els.
Proof.
  pose proof (placed_value ies left els rest Hd ltac:(lia) supp_rates ltac:(done)) as H1.
  pose proof (placed_value ies left els rest Hd ltac:(lia) ext_supp_rates ltac:(done)) as H2. fold E in H1, H2.
  unfold copy_supp_rates, rates_acceptable, WLAN_SUPP_RATES_MAX.
  destruct (E supp_rates) as [[p l]|], (last_of supp_rates els) as [d|]; try done; [|by intros [= <- _]].
  destruct H1 as [-> ->]. cbn [mbind option_bind].
  destruct (E ext_supp_rates) as [[p2 l2]|], (last_of ext_supp_rates els) as [x|]; try done; cbn [default id length].
  - destruct H2 as [-> ->]. cbn [mbind option_bind]. intros H. destruct (Nat.ltb_spec 32 (length d)); [|destruct (Nat.ltb_spec 32 (length d + length x))];
      apply some_pair in H as [-> _]; destruct (Nat.leb_spec (length d + length x) 32); done || lia.
  - intros H. destruct (Nat.ltb_spec 32 (length d)); apply some_pair in H as [-> _];
      destruct (Nat.leb_spec (length d + 0) 32); done || lia.
Qed.

Lemma security_decided mem s r s' : check_security C mem ies E s = Some (r, s') ->
  (r =? WLAN_STATUS_SUCCESS) = security_acceptable (conf (st_wpa C)) mem els.
Proof.
  unfold check_security, security_acceptable. cbv zeta. destruct Hwpa as [-> |Hw].
  { change (0 =? 0) with true. cbv iota. intros [-> _]%some_pair. done. }
  rewrite Hw. change (WPA_PROTO_RSN =? 0) with false. cbv iota. cbn [orb]. unfold wpa_element. rewrite Hw.
  change (has WPA_PROTO_RSN WPA_PROTO_RSN) with true. change (has WPA_PROTO_RSN WPA_PROTO_WPA) with false. cbv iota.
  pose proof (placed_value ies left els rest Hd ltac:(lia) rsn_ie ltac:(done)) as Hv. fold E in Hv.
  destruct (E rsn_ie) as [[p l]|] eqn:Ep.
  2: { destruct (last_of rsn_ie els); [done|]. intros [-> _]%some_pair. by rewrite andb_false_r. }
  destruct (placed_rsn ies left els rest Hd ltac:(lia) p l Ep) as (d & post & -> & -> & -> & Hb).
  destruct (validate_rsn (conf (st_wpa C)) (mk_selected 0 0 0) (assoc (wpa_auth_sta_init (s_addr s))) mem d post Hb Hw eq_refl)
    as (res & sel' & sm' & -> & Hres). cbn [mbind option_bind]. intros [-> _]%some_pair.
  match goal with |- _ = ?b => destruct b eqn:Eb end.
  - by rewrite (proj2 Hres eq_refl).
  - destruct res; try done. discriminate (proj1 Hres eq_refl).
Qed.

Lemma check_decided mem s r s' : check_ies C mem ies left s = Some (r, s') ->
  (r =? WLAN_STATUS_SUCCESS) = elems_acceptable C mem els rest.
Proof.
  unfold check_ies, elems_acceptable. rewrite (parse_placed _ _ _ _ Hd) by lia. cbn [mbind option_bind]. fold E.
  assert (rest = [] -> (resp ← check_ssid C ies (E ssid);
    if negb (resp =? WLAN_STATUS_SUCCESS) then Some (resp, s)
    else s ← check_wmm ies (E wmm) s; '(resp, s) ← copy_supp_rates ies E s;
         if negb (resp =? WLAN_STATUS_SUCCESS) then Some (resp, s)
         else s ← copy_sta_ht_capab C ies (E ht_capabilities) s; check_security C mem ies E s) = Some (r, s') ->
    (r =? WLAN_STATUS_SUCCESS) = bool_decide (rest = []) && bool_decide (last_of ssid els = Some (cf_ssid (st_config C)))
      && rates_acceptable els && security_acceptable (conf (st_wpa C)) mem els) as Hgo.
  { intros Hr (resp & H1%ssid_decided & H2)%bind_Some. rewrite bool_decide_true by done. rewrite <- H1. cbn [andb].
    destruct (resp =? WLAN_STATUS_SUCCESS) eqn:E1; cbn [negb andb] in H2 |- *; [|by apply some_pair in H2 as [-> _]].
    apply bind_Some in H2 as (s1 & _ & ([resp2 s2] & H3%rates_decided & H4)%bind_Some). rewrite <- H3.
    destruct (resp2 =? WLAN_STATUS_SUCCESS) eqn:E2; cbn [negb andb] in H4 |- *; [|by apply some_pair in H4 as [-> _]].
    apply bind_Some in H4 as (s3 & _ & H5). by eapply security_decided. }
  unfold verdict. destruct rest as [|x y]; [destruct (existsb _ _); by apply Hgo|].
  intros [-> _]%some_pair. rewrite bool_decide_false by done. done.
Qed.
End Decided.

(** The status that [handle_assoc] answers is success exactly for an acceptable
    request. *)
Lemma verdict_acceptable (C : ap_static) a s mgmt len (re : bool) r li els rest : wpa2_or_open C ->
  assoc_verdict C a s mgmt len re = Some r -> WPA_GET_LE16 mgmt 26 = Some li ->
  let body := (if re then 34 else 28)%nat in
  decomposes (take (len - body) (drop body mgmt)) els rest -> (len - body + 28 <= length (drop body mgmt))%nat ->
  (r =? WLAN_STATUS_SUCCESS) = request_acceptable C (allocs (st_wpa C) (a_nalloc a)) li els rest.
Proof.
  intros Hw H Hli body Hd Hl. unfold assoc_verdict in H. rewrite Hli in H. cbn [mbind option_bind] in H. fold body in H.
  unfold request_acceptable. destruct (st_tkip_countermeasures C); [by injection H as <-|]. cbn [negb andb].
  unfold AP_MAX_LISTEN_INTERVAL in H. destruct (Z.ltb_spec 65534 li) as [Hlt|Hge].
  { rewrite (proj2 (Z.leb_gt _ _)) by lia. by injection H as <-. }
  rewrite (proj2 (Z.leb_le _ _)) by lia. cbn [andb].
  apply fmap_Some in H as ([r' s'] & H & ->). by eapply check_decided.
Qed.
