(* ===== verification/ApMlmeRun.v ===== *)
(** * ApMlmeRun: the access point handles every frame

    The handlers of [ApMlme] one by one: each returns, whatever the bytes of the
    frame are, and keeps the invariant [mlme_inv] of [ApMlmeInv].  Then runs of
    the whole access point: management frames, EAPOL frames, timers, answers of
    the firmware and the operations of [ApStaRun] in any order. *)

From stdpp Require Import base list option.
From Stdlib Require Import ZArith Lia ZifyNat.
From S2P Require Import Prelude Words Wire HciAggr Ie80211 WpaIe Rc4 WpaAuth WpaAuthSafe WpaAuthTotal WpaCrypto.
From S2P Require Import Reorder ApInfo ApElem ApPower ApPowerInv ApSta ApPath ApStaInv ApStaRun NeighborAp ApMlme ApMlmeInv ApAssoc.

(** The access point: a table that fits the bitmap of identifiers, an announced
    element of full size, and a pre-shared key only with WPA2 and CCMP *)
Class mlme_sane (C : ap_static) : Prop := {
  sane_table :: table_sane C;
  sane_ie : (WPA_IE_LEN <= length (auth_wpa_ie (st_wpa C)))%nat;
  sane_policy : conf_wpa_key_mgmt (conf (st_wpa C)) = WPA_KEY_MGMT_PSK -> secured C
}.

Section Run.
Context `{KC : KeyCrypto} (C : ap_static) `{HC : !mlme_sane C} `{HElem : !elem_sane C}.
Local Notation P := (AP_TOTAL_MAX_TX_BUFFER C).

Lemma kept_mlme a b : mlme_inv C a -> kept a b -> counters b = counters a -> mlme_inv C b.
Proof.
  intros [Ht Hl] Hk Hc. split; [by apply (kept_table C a)|]. destruct Hk as (-> & _). done.
Qed.




(** An entry in use changes, its machine and its marks are kept. *)
Lemma note_handled a i s s' : mlme_inv C a -> a_StaConInfo a !! i = Some s -> valid s = true -> same_marks s s' ->
  same_machine s s' -> mlme_inv C (set_sta a i s') /\ balance (set_sta a i s') [] = balance a [].
Proof.
  intros [Ht Hl] Hi Hv Hm [W R]. destruct (note_table C a i s s' Ht Hi Hv Hm) as [T B]. split; [|done]. split; [done|].
  apply live_insert; [|done]. destruct (Hl i s Hi) as [L1 L2]. split; rewrite W; rewrite ?R; auto.
Qed.

(** ** Calls of the authenticator *)














(** ** Management frames *)






(** *** Authentication *)

Lemma shared_key_ok e a s tr ch iswep : let r := auth_shared_key C e a s tr ch iswep in
  same_marks s r.1.2 /\ same_machine s r.1.2 /\ kept a r.2 /\ counters r.2 = counters a.
Proof.
  cbv zeta. unfold auth_shared_key. destruct (tr =? 1).
  { destruct (s_challenge s); [by split_and!|]. cbv zeta. destruct (allocs _ _); cbn [fst snd]; by split_and!. }
  destruct (negb _); [by split_and!|]. destruct iswep, (s_challenge s) as [mine|], ch as [c|]; try (by split_and!).
  case_bool_decide; [|by split_and!]. cbn [fst snd]. split; [|by split_and!].
  etrans; [by apply (marks_set s WLAN_STA_AUTH)|done].
Qed.

Lemma auth_station_ok e a i s alg tr ch iswep : mlme_inv C a -> a_StaConInfo a !! i = Some s -> valid s = true ->
  exists resp ies b s', auth_station C e a i alg tr ch iswep = Some (resp, ies, b) /\ (length ies <= 130)%nat /\ mlme_inv C b /\ balance b [] = balance a [] /\
    a_StaConInfo b = <[i := s']> (a_StaConInfo a) /\ valid s' = true /\ s_addr s' = s_addr s /\
    (alg = WLAN_AUTH_OPEN -> resp = WLAN_STATUS_SUCCESS /\ test_sta_flag s' WLAN_STA_AUTH = true).
Proof.
  intros Hinv Hi Hv. unfold auth_station. rewrite Hi. cbn [mbind option_bind]. destruct (Z.eqb_spec alg WLAN_AUTH_OPEN) as [Ha|Ha].
  - set (s' := _ <| s_auth_alg := WLAN_AUTH_OPEN |>).
    assert (same_marks s s') as Hm by (etrans; [by apply (marks_set s WLAN_STA_AUTH)|done]).
    destruct (note_handled a i s s' Hinv Hi Hv Hm) as [I B]; [done|]. eexists _, _, _, s'. split; [done|]. split; [cbn; lia|].
    split; [done|]. split; [done|]. split; [done|]. split; [by rewrite (marks_valid _ _ Hm)|]. split; [done|]. intros _. split; [done|].
    by apply (flag_set_same s 1).
  - pose proof (shared_key_ok e a s tr ch iswep) as (M & W & K & N).
    destruct (auth_shared_key C e a s tr ch iswep) as [[resp s1] b]. cbn [fst snd] in *.
    set (s' := s1 <| s_auth_alg := WLAN_AUTH_SHARED_KEY |>). assert (same_marks s s') as Hm by (by etrans; [exact M|]).
    pose proof (kept_mlme a b Hinv K N) as Ib. pose proof K as (Sb & _). assert (a_StaConInfo b !! i = Some s) as Hib by (by rewrite Sb).
    destruct (note_handled b i s s' Ib Hib Hv Hm W) as [I B]. eexists _, _, _, s'. split; [done|].
    split; [repeat case_match; rewrite ?length_app, ?length_take; unfold WLAN_AUTH_CHALLENGE_LEN; cbn [length]; lia|]. split; [done|].
    split; [by rewrite B, (kept_balance _ _ _ K)|]. split; [by rewrite <- Sb|]. split; [by rewrite (marks_valid _ _ Hm)|].
    split; [apply Hm|]. by intros ?.
Qed.

Lemma challenge_some mgmt len : (len <= length mgmt)%nat -> exists c, auth_challenge mgmt len = Some c.
Proof.
  intros Hl. unfold auth_challenge, WLAN_AUTH_CHALLENGE_LEN. destruct (Nat.leb_spec (30 + 2 + 128) len); [|eauto].
  destruct (lookup_some mgmt 30) as [x ->]; [lia|]. destruct (lookup_some mgmt 31) as [y ->]; [lia|]. cbn [mbind option_bind].
  case_match; [|eauto]. destruct (slice_some mgmt 32 128) as (c & -> & _); [lia|]. cbn. eauto.
Qed.

Lemma ages_mlme a b : mlme_inv C a -> table_inv C b -> ages (a_StaConInfo a) (a_StaConInfo b) -> mlme_inv C b.
Proof. intros [_ Hl] Ht Ha. split; [done|]. by eapply ages_live. Qed.


(** *** Probe requests, beacons *)





(** The steps of [heed_neighbor] and [unheed] *)
Definition noted (a b : ApInfo) : Prop := kept a b /\ counters b = counters a.

#[local] Instance noted_preorder : PreOrder noted.
Proof. split; [by intros a|]. intros a b c [K1 N1] [K2 N2]. split; [by etrans|congruence]. Qed.






(** *** Dispatch *)





(** *** What a station gets *)


(** C3: A station that authenticates with the open system is entered: the handler
    returns, and afterwards the station has an entry with its address that is
    marked as authenticated, unless every entry belongs to another station. *)
Theorem open_authentication_enters e a mgmt len sa tr : mlme_inv C a -> mgmt_frame_ok mgmt len -> (30 <= len)%nat ->
  slice mgmt 10 6 = Some sa -> WPA_GET_LE16 mgmt 24 = Some WLAN_AUTH_OPEN -> WPA_GET_LE16 mgmt 26 = Some tr ->
  auth_check C sa WLAN_AUTH_OPEN tr = WLAN_STATUS_SUCCESS ->
  exists a', ap_mlme_rx_auth C e a mgmt len = Some a' /\ mlme_inv C a' /\
    ((exists i s, a_StaConInfo a' !! i = Some s /\ valid s = true /\ s_addr s = sa /\ test_sta_flag s WLAN_STA_AUTH = true) \/
     forall i s, a_StaConInfo a' !! i = Some s -> valid s = true /\ s_addr s <> sa).
Proof.
  intros Hinv (_ & _ & Hl) Hlen Hsa Halg Htr Hck. unfold ap_mlme_rx_auth. destruct (Nat.ltb_spec len 30); [lia|].
  destruct (get_le16_some mgmt 0) as (fc & -> & _); [lia|]. rewrite Hsa. destruct (slice_some mgmt 16 6) as (bssid & -> & _); [lia|].
  rewrite Halg, Htr. destruct (challenge_some mgmt len) as [ch ->]; [lia|]. cbn [mbind option_bind]. cbv zeta. rewrite Hck.
  change (negb (WLAN_STATUS_SUCCESS =? WLAN_STATUS_SUCCESS)) with false. cbv iota.
  destruct (add_ok C a sa (proj1 Hinv)) as (r & a1 & -> & T1 & B1 & A1 & Hr). cbn [mbind option_bind].
  pose proof (ages_mlme a a1 Hinv T1 A1) as I1.
  assert (forall b resp ies, mlme_inv C b -> (length ies <= 130)%nat -> exists c, send_auth_reply C b sa bssid WLAN_AUTH_OPEN (tr + 1) resp ies = Some c /\
    mlme_inv C c /\ calm b c) as Hreply.
  { intros b resp ies Ib Hies. destruct (auth_reply_sent C b sa bssid WLAN_AUTH_OPEN (tr + 1) resp ies (proj1 Ib) Hies) as (c & E & Hc & Tc & _).
    exists c. split; [done|]. split; [by apply (calm_mlme C b)|done]. }
  destruct r as [i|].
  - destruct Hr as (s & Hi & Hv & Ha).
    destruct (auth_station_ok e a1 i s WLAN_AUTH_OPEN tr ch (has fc WLAN_FC_ISWEP) I1 Hi Hv) as (resp & ies & b & s' & -> & Hies & Ib & _ & Sb & Vb & Ab & Ho).
    destruct (Ho eq_refl) as [-> Fb]. cbn [mbind option_bind]. change (WLAN_STATUS_SUCCESS =? WLAN_STATUS_SUCCESS) with true. cbv iota.
    cbn [mbind option_bind]. destruct (Hreply b WLAN_STATUS_SUCCESS ies Ib Hies) as (c & -> & Ic & Hc). exists c. split; [done|]. split; [done|]. left.
    pose proof (calm_lookup _ _ i Hc) as Hb. rewrite Sb, list_lookup_insert_eq in Hb by (by eapply lookup_lt_Some).
    destruct (a_StaConInfo c !! i) as [t|] eqn:Et; [|done]. apply (inj Some) in Hb. destruct (base_same _ _ Hb) as (_ & Hat & Hvt).
    exists i, t. split_and!; [done|congruence|congruence|].
    etrans; [symmetry; by apply (base_flag t 1)|]. rewrite Hb. etrans; [by apply (base_flag s' 1)|done].
  - destruct (Hreply a1 WLAN_STATUS_AP_UNABLE_TO_HANDLE_NEW_STA [] I1 ltac:(cbn; lia)) as (c & -> & Ic & Hc). exists c. split; [done|]. split; [done|].
    right. intros i t Hi. destruct (calm_back _ _ _ _ Hc Hi) as (s & Hs & Hb). destruct (base_same _ _ Hb) as (_ & -> & ->). by apply (Hr i).
Qed.

(** ** Runs of the access point *)


Context (ms2tick : Z -> Z).






End Run.

(** ** A concrete access point *)

#[export] Instance path_static_elems : elem_sane path_static.
Proof. split; [apply Nat.leb_le; vm_compute; reflexivity|intros rates [= <-]; apply Nat.leb_le; vm_compute; reflexivity|
  apply Nat.leb_le; vm_compute; reflexivity]. Qed.

#[export] Instance path_static_mlme : mlme_sane path_static.
Proof. split; [apply path_static_table|apply Nat.leb_le; vm_compute; reflexivity|intros _; split; [done|split; done]]. Qed.

Lemma demo_mlme : mlme_inv path_static demo_ap.
Proof.
  split; [apply demo_table|]. intros i s Hi. change (a_StaConInfo demo_ap) with (replicate 8 APStaInfo_StaReset) in Hi.
  apply lookup_replicate in Hi as [-> _]. by apply sta_zero.
Qed.


(** Frames of a station: authentication, association with WPA2, a request
    without a security element, deauthentication; a probe request and a beacon *)
Definition demo_frame (fc : Z) (sa body : list Z) : list Z :=
  [fc; 0; 0; 0] ++ st_own_addr path_static ++ sa ++ st_own_addr path_static ++ [0; 0] ++ body ++ replicate 28 0.
Definition demo_ies : list Z := [0; 2; 97; 112; 1; 4; 2; 4; 11; 22].
Definition frame_auth (sa : list Z) : list Z := demo_frame 0xb0 sa [0; 0; 1; 0; 0; 0].
Definition frame_bad (sa : list Z) : list Z := demo_frame 0 sa ([1; 4; 1; 0] ++ demo_ies).
Definition demo_env : auth_env := mk_auth_env 7 (replicate 128 0).


Lemma demo_frame_ok f : forallb (fun x => (0 <=? x) && (x <? 256)) f = true -> (52 <=? length f)%nat = true ->
  mgmt_frame_ok f (length f - 28).
Proof. intros H1 H2%Nat.leb_le. split; [by apply bytes_check|lia]. Qed.



(** The access point after station 1 authenticated *)
Definition authed_ap : ApInfo := default demo_ap (ap_mlme_rx_auth path_static demo_env demo_ap (frame_auth (station 1)) 30).


Lemma open_authentication_enters_witness :
  auth_check path_static (station 1) WLAN_AUTH_OPEN 1 = WLAN_STATUS_SUCCESS /\
  exists a', ap_mlme_rx_auth path_static demo_env demo_ap (frame_auth (station 1)) 30 = Some a' /\ mlme_inv path_static a' /\
    ((exists i s, a_StaConInfo a' !! i = Some s /\ valid s = true /\ s_addr s = station 1 /\ test_sta_flag s WLAN_STA_AUTH = true) \/
     forall i s, a_StaConInfo a' !! i = Some s -> valid s = true /\ s_addr s <> station 1).
Proof.
  split; [vm_compute; reflexivity|].
  apply (open_authentication_enters path_static demo_env demo_ap (frame_auth (station 1)) 30 (station 1) 1 demo_mlme);
    [|lia|vm_compute; reflexivity|vm_compute; reflexivity|vm_compute; reflexivity|vm_compute; reflexivity].
  change 30%nat with (length (frame_auth (station 1)) - 28)%nat. apply demo_frame_ok; vm_compute; reflexivity.
Defined.



(** A request that is refused is answered to the address 00:00:00:00:00:00: the
    entry is cleared before the answer is written. *)
Definition tx_dest (e : ap_effect) : option (list Z) := match e with TxCopy d => Some (take 6 (drop 4 d)) | _ => None end.
Example refusal_to_nobody :
  (fun a => list.last (omap tx_dest (a_out a))) <$> handle_assoc path_static authed_ap (frame_bad (station 1)) 38 false
  = Some (Some [0; 0; 0; 0; 0; 0]).
Proof. vm_compute. reflexivity. Qed.
